(* ===== verification/_CoqProject ===== *)
-Q . S2P
Prelude.v
CLib.v
NvmeSpec.v
Kernel.v
Config.v
Debug.v
Driver.v
Storage.v
State.v
Shm.v
Prp.v
Queue.v
Bar0.v
PcieConfig.v
AdminCmd.v
IoCmd.v
UserForward.v
Recovery.v
Doorbell.v
Mapping.v
Pdo.v
Bus.v
Dormant.v
CtrlDev.v
CtrlSafe.v
CtrlNs.v
CtrlRequests.v
IoSafe.v
Backend.v
ServerState.v
ServerAdmin.v
ServerIo.v
Engine.v
ServerConfig.v
DriverComm.v
Service.v
Logger.v
DriverLink.v
VnvmeCtl.v
CtlLink.v
