(* ===== verification/Prelude.v ===== *)
(** * A verified model of the virtual NVMe controller driver

    The repository is a Windows kernel driver ([src/vnvme]) that presents an
    NVMe controller which exists only in software, and a user-mode service
    ([src/vnvme-server]) that may execute its commands; a command line tool
    ([src/vnvmectl]) creates controllers and namespaces.  The host's NVMe driver
    writes submission queue entries and rings doorbells in the emulated BAR0; a
    polling timer notices, and the commands are either executed in the kernel
    (admin_cmd.c, io_cmd.c) against a storage back end (storage*.c), or
    forwarded to the service through shared memory (shm.c, user_forward.c).
    This library models that driver function by function and proves what makes
    it correct.

    ** The files

    - [Prelude]: fixed-width integers, bit fields, ring indices, byte memory,
      blocks, arrays, record update, the state monad with faults, [wp].
    - [NvmeSpec]: include/nvme_spec.h and vnvme_utils.h: command and completion
      with their byte layout, status words, validation macros.
    - [Kernel]: the Windows services the driver calls, as the class [WinKernel],
      the documented behaviour of the file calls as [FileLaws], and a concrete
      instance for the witnesses.
    - [Config]: config.c and config.h.      - [Debug]: debug.c and debug.h; a call
      of VnvmeDebugRecordLatency is a thread that takes one access per step.
    - [Storage]: storage.c, storage_memory.c and storage_file.c.
    - [State]: the structures of vnvme_common.h and vnvme.h and the state
      [KState] that every stateful function runs on: [ks_pdo] is the
      PdoContext argument, [ks_fdo] is g_FdoContext, [ks_cfg] is g_Config,
      [ks_host] is the host's physical memory.
    - [Shm]: the layout macros of vnvme_common.h, and shm.c.
    - [Prp]: prp.c.      - [Queue]: queue.c.      - [Bar0]: bar0.c.
    - [PcieConfig]: pcie_config.c.
    - [AdminCmd]: admin_cmd.c.      - [IoCmd]: io_cmd.c.
    - [UserForward]: user_forward.c, and the interleaving of its pushes on the
      notify ring with the polls of the service.
    - [Recovery]: VnvmeAbortPendingUserCommands of user_forward.c, the recovery
      from a crash of the service.
    - [Doorbell]: doorbell.c, the poll that drives everything else: the enable
      handshake, dispatch of the commands to the kernel handlers or to the
      service, heartbeat, adaptive interval.  The recovery runs over every
      controller of the list ([abort_children]).
    - [Mapping]: the timer callback leaves what the device holds in place.
    - [Pdo]: pdo.c and the strings of utils.c: the life of a controller's device.
    - [Bus]: bus.c and vnvme.c: the driver's device, the list of controllers, the
      framework.      - [Driver]: DriverEntry of vnvme.c.
    - [Dormant]: all that happens to a controller as one relation
      ([driver_step]), and what never changes ([observed]; [silent] is the triple).
    - [CtrlDev]: ctrl_dev.c and vnvme_ioctl.h, the I/O control requests.
      [CtrlSafe]: the invariant every request keeps, and a triple with the rules
      that prove it.  [CtrlNs]: the requests on namespaces, and all requests
      together.  [CtrlRequests]: lengths, configuration, failures.
    - [IoSafe]: the same invariant under the I/O commands, with the triple
      [keeps], and the loop over an I/O queue.

    The service (vnvme-server):

    - [Backend]: backend_common.c, backend_memory.c and backend_file.c; the file
      calls are the class [Win32Files], their documented behaviour the class
      [Win32FileLaws] ([BackendRead_spec] and the like are what the commands
      are proved against).
    - [ServerState]: the structures of its headers and the state [SvState]: the
      shared memory (the same record the driver has), the engine context and
      the back end.
    - [ServerAdmin]: admin_commands.c.      - [ServerIo]: io_commands.c.
    - [Engine]: command_engine.c.  [poll_ring], [poll_entry] and [poll_admin] are
      the three nested loops of CmdEnginePoll.
    - [CLib]: the functions of the C library that the programs use, with
      strtod on the doubles of the Standard Library's [SpecFloat].
    - [ServerConfig]: config.c and config.h.
    - [DriverComm]: driver_comm.c, against the class [ControlDevice], what the
      driver promises to a process.
    - [Service]: main_v2.c and the state of logger.c.  The engine works on the
      shared memory of the driver itself ([on_engine]).
    - [Logger]: the messages of logger.c, with the console and the file they go to.
    - [DriverLink]: the driver is a [ControlDevice] ([driver_device]), and what
      comes of the two together.

    The command line tool (vnvmectl):

    - [VnvmeCtl]: main.c, against [ControlDevice]: a command changes the driver
      and prints lines, each a format with its arguments.
    - [CtlLink]: the tool and the driver together; [runs] is the triple of a
      command, as [quiet] is that of a request.

    ** How the C code is modelled

    - Integers are [Z] with the wrap-around of their C type written out
      ([u16], [u32], [u64], [+₃₂], ...); LONG64 counters wrap as [s64].
    - A function that changes state is a computation in [M KState]: it returns
      a value and a state, or [Fault] (an access outside of an array, a block
      or the queue memory, a division by zero: undefined behaviour in C), or
      [OutOfFuel].
    - Memory is bytes.  Host memory, BAR0, the configuration space, each
      storage buffer and the queue area of the shared memory are byte
      memories; the control block, the notify ring and the queue descriptors
      are records.  [Registers] and [Doorbells] point into BAR0, so they are
      read from it.  Host memory, the shared memory and the storage buffers do
      not overlap.
    - Allocations and mappings are answered by the [WinKernel] functions, which
      may refuse any call ([ks_tick] numbers the calls); every theorem that
      needs one to succeed says so, and the transfers are described also for pages
      that cannot be mapped.
    - Locks and interrupt levels are not modelled: a handler is one step.
      Where parties really interleave (the notify ring; creations and deletions
      of controllers, which leave their lock half way; the callbacks of a
      device) the steps are a relation.
    - A request to the control device has its buffers in a byte memory, so that
      an output that is also the input ([buffered]) is written over it.
    - The functions of one controller run on [KState]; it has up to 16
      namespaces and 16 I/O queue pairs, as the arrays of the C structures.  The
      heartbeat check, which walks the list of controllers, gets the others as a
      list ([ChildDeviceList]).  The
      driver with all of its controllers is [BusState] of [Bus]; [on_child] runs
      a function of one controller on a member of its list.
    - The framework (WDF) calls that may fail are the class [WdfFramework].

    ** Fuel

    Loops over lists and arrays are structural.  The others take fuel, and a
    theorem says that what is given is enough: [zero_fuel] and
    [write_zeroes_fuel] (one round per chunk), [abort_fuel] (the capacity of
    the queue; a head in range meets a tail in range after fewer steps).  The
    command loops take it as an argument; one more than the number of commands
    in the queue is enough (VnvmeProcessAdminCommands_terminates).

    ** The theorems

    - Data: a read after a write returns what the host wrote, when the kernel
      grants memory and mappings; without memory the command fails, and a page
      that cannot be mapped is skipped (write_then_read, HandleWrite_stores,
      HandleRead_returns); Write Zeroes,
      Compare and Dataset Management do to the medium what NVMe says; out of
      range commands are refused; the storage API reads back what it wrote, on
      each back end.
    - Queues: submission queues are FIFOs, completion queues follow the phase
      tag protocol, a batch of completions that the batch function accepts is
      equivalent to repeated single calls.
    - Admin: the four queue commands refine an abstract table of queues; no
      admin command faults or breaks the controller's invariant, whatever its
      contents; asynchronous event requests are completed first in, first out;
      the identify data says what the namespaces are; the command loop ends.
    - Memory: PRP lists describe exactly the bytes of a transfer; the shared
      memory layout has no overlap; the register and configuration space
      writes change what they should.
    - Configuration: it is always inside its limits.
    - User mode: the notify ring loses nothing it accepted, in any
      interleaving.
    - Polling: RDY follows EN, and a disabled controller looks at no doorbell;
      in user mode one poll hands every queue that was rung to a service that is
      ready, and none twice; for one that is not ready the tails are remembered
      and the commands lost (VnvmeProcessDoorbells_forwards); a service that has
      crashed is noticed, the pending commands of every controller are answered
      once, in order, and the driver goes on in kernel mode, if the tails are
      indices of their queues (CheckUserModeHeartbeat_switches,
      VnvmeAbortPendingUserCommands_drains); the interval stays in its bounds.
    - No command is ever executed by the driver as it is: nothing in the
      repository marks the admin queue valid (driver_executes_nothing).  The
      theorems on commands are about the handlers, and hold once it is.
    - Every I/O command within the limits of [io_sound] comes back, whatever
      the kernel grants it, and keeps the invariant that the control requests
      keep (VnvmeProcessIoCommand_safe); the loop over an I/O queue takes the
      commands up to the doorbell, in order, executes each of them once, and ends
      (VnvmeProcessIoCommands_terminates).
    - Statistics: latencies recorded by any threads at once lose nothing, and
      their compare-and-swap loops end (VnvmeDebugRecordLatency_interleaved).
    - Devices: a failed start of a controller's device releases what it took, a
      stopped one holds neither BAR0 nor configuration space - only the timer
      object stays, stopped - and the timer runs only with the hardware there, in
      whatever order the callbacks come (pdo_lifecycle_safe); whatever creations and deletions interleave, the
      count of controllers is right, at most 16, and ids are unique
      (bus_controllers_consistent).
    - Requests: whatever a caller sends, no request faults, leaves its output
      buffer or breaks a controller, and what it does to the list of controllers
      are steps of the bus (VnvmeEvtIoDeviceControl_safe); a created namespace
      meets the preconditions of the I/O commands
      (VnvmeHandleCreateNamespace_creates), SET_CONFIG changes exactly the fields
      of its mask and GET_CONFIG reports them (VnvmeHandleSetConfig_get), short buffers are refused, and LIST_NAMESPACES always fails.
    - Tool and driver together: no command line makes either of them go wrong,
      and a failure is always reported (vnvmectl_safe); ns-delete undoes
      ns-create (vnvmectl_namespace).
    - The service: on the layout the driver sets up the engine starts in order
      (CmdEngineInit_ok); one poll answers exactly the admin commands that the
      notifications name, in order, in the slots and with the phase the driver
      expects, as long as the tails are indices of the queue and the completions
      have room (CmdEnginePoll_serves); what is written to a back end, memory or
      file, reads back, and a transfer that is not possible moves nothing and
      reports success (IoCmdRead_after_write), Write Zeroes zeroes, and invalid
      commands are refused without effect (io_commands_refuse).
    - The process: every configuration that is accepted is well formed, and the
      ways in which arguments and files can go wrong are a size whose conversion
      is undefined and a byte outside of ASCII (server_config_typed), sizes with a unit are exact
      (ConfigParseSize_exact), the main loop ends when the driver or the console
      asks for it (MainLoop_stops); a hexadecimal dump of any data stays in its
      line buffer and reads back as the data (LogHexDump_roundtrip).
    - Driver and service together: once the host has rung the admin doorbell
      with an index of the queue, one poll of the driver and one of a service it
      takes to be ready answer every command (admin_commands_answered); but the
      service as it is never gets that far, since the driver refuses its first
      message (service_never_ready).
    ** Not modelled

    - The trace output of the driver (trace.h) and where the service logs what
      (the calls of LogMessage); what the formats of the command line tool
      expand to; the usage texts and the banner.
    - The release of memory that is not used again (VnvmeFreeString,
      VnvmeFreePrpEntries, the destructors of the back ends).
    - The interleaving of the service's main loop with the driver is by rounds:
      the driver and the host act before each test of [g_Running] ([Round] of
      [Service]); only the notify ring has finer steps.
*)
From stdpp Require Export base list numbers strings relations.
From Stdlib Require Export ZArith Lia.

#[global] Set Default Goal Selector "!".
Open Scope Z_scope.

(** ** Fixed-width unsigned integers

    An unsigned C integer of width [w] is a [Z]; the C conversions and the
    wrap-around of the arithmetic are the functions below. *)

Definition u8 (z : Z) : Z := z mod 2 ^ 8.
Definition u16 (z : Z) : Z := z mod 2 ^ 16.
Definition u32 (z : Z) : Z := z mod 2 ^ 32.
Definition u64 (z : Z) : Z := z mod 2 ^ 64.

(** A signed 64-bit counter (LONG64), as the Interlocked operations update it. *)
Definition s64 (z : Z) : Z := (z + 2 ^ 63) mod 2 ^ 64 - 2 ^ 63.

Declare Scope c_scope.
Delimit Scope c_scope with C.
Notation "x +₁₆ y" := (u16 (x + y)) (at level 50, left associativity) : c_scope.
Notation "x +₃₂ y" := (u32 (x + y)) (at level 50, left associativity) : c_scope.
Notation "x -₃₂ y" := (u32 (x - y)) (at level 50, left associativity) : c_scope.
Notation "x *₃₂ y" := (u32 (x * y)) (at level 40, left associativity) : c_scope.
Notation "x +₆₄ y" := (u64 (x + y)) (at level 50, left associativity) : c_scope.
Notation "x -₆₄ y" := (u64 (x - y)) (at level 50, left associativity) : c_scope.
Notation "x *₆₄ y" := (u64 (x * y)) (at level 40, left associativity) : c_scope.
Open Scope c_scope.

Lemma u8_range z : 0 <= u8 z < 2 ^ 8.
Proof. apply Z.mod_pos_bound; lia. Qed.
Lemma u16_range z : 0 <= u16 z < 2 ^ 16.
Proof. apply Z.mod_pos_bound; lia. Qed.
Lemma u32_range z : 0 <= u32 z < 2 ^ 32.
Proof. apply Z.mod_pos_bound; lia. Qed.
Lemma u64_range z : 0 <= u64 z < 2 ^ 64.
Proof. apply Z.mod_pos_bound; lia. Qed.

Lemma u8_small z : 0 <= z < 2 ^ 8 -> u8 z = z.
Proof. apply Z.mod_small. Qed.
Lemma u16_small z : 0 <= z < 2 ^ 16 -> u16 z = z.
Proof. apply Z.mod_small. Qed.
Lemma u32_small z : 0 <= z < 2 ^ 32 -> u32 z = z.
Proof. apply Z.mod_small. Qed.
Lemma u64_small z : 0 <= z < 2 ^ 64 -> u64 z = z.
Proof. apply Z.mod_small. Qed.
Lemma s64_small z : - 2 ^ 63 <= z < 2 ^ 63 -> s64 z = z.
Proof. intros. unfold s64. rewrite Z.mod_small by lia. lia. Qed.
Lemma s64_add a b : s64 (s64 a + b) = s64 (a + b).
Proof.
  unfold s64. f_equal. replace ((a + 2 ^ 63) mod 2 ^ 64 - 2 ^ 63 + b + 2 ^ 63) with ((a + 2 ^ 63) mod 2 ^ 64 + b) by lia.
  rewrite Z.add_mod_idemp_l by lia. f_equal. lia.
Qed.

(** [word_lia]: unfold the width conversions and let [lia] reason about [mod]. *)
Ltac word_lia := unfold u8, u16, u32, u64, s64 in *; change (2 ^ 8) with 256 in *;
  change (2 ^ 16) with 65536 in *; change (2 ^ 32) with 4294967296 in *;
  change (2 ^ 63) with 9223372036854775808 in *;
  change (2 ^ 64) with 18446744073709551616 in *;
  Z.div_mod_to_equations; lia.

(** The bits [lo .. lo + n - 1] of a register or a command dword. *)
Definition bits (z lo n : Z) : Z := Z.land (Z.shiftr z lo) (Z.ones n).

Lemma bits_range z lo n : 0 <= n -> 0 <= bits z lo n < 2 ^ n.
Proof.
  intros. unfold bits. rewrite Z.land_ones by done.
  apply Z.mod_pos_bound, Z.pow_pos_nonneg; lia.
Qed.

Lemma bits_div z lo n : 0 <= lo -> 0 <= n -> bits z lo n = (z / 2 ^ lo) mod 2 ^ n.
Proof. intros. unfold bits. by rewrite Z.land_ones, Z.shiftr_div_pow2. Qed.

(** Or-ing a low field with a shifted one is addition. *)
Lemma lor_shiftl_add x y k : 0 <= k -> 0 <= x < 2 ^ k -> Z.lor x (Z.shiftl y k) = x + y * 2 ^ k.
Proof.
  intros Hk Hx. rewrite <- Z.shiftl_mul_pow2 by done.
  assert (Z.land x (Z.shiftl y k) = 0) as H0.
  { apply Z.bits_inj'. intros n Hn. rewrite Z.land_spec, Z.bits_0.
    destruct (Z.lt_ge_cases n k).
    - rewrite Z.shiftl_spec_low by done. apply andb_false_r.
    - rewrite <- (Z.mod_small x (2 ^ k)), Z.mod_pow2_bits_high by lia. done. }
  by rewrite Z.add_nocarry_lxor, Z.lxor_lor by done.
Qed.

(** Masking the bits [k .. k + n - 1] in place. *)
Lemma land_field z n k : 0 <= k -> Z.land z (Z.shiftl (Z.ones n) k) = Z.shiftl (bits z k n) k.
Proof.
  intros Hk. unfold bits. rewrite Z.shiftl_land. apply Z.bits_inj'. intros i Hi. rewrite !Z.land_spec.
  destruct (Z.lt_ge_cases i k) as [Hl|Hl].
  - rewrite !(Z.shiftl_spec_low _ _ i) by done. by rewrite !andb_false_r.
  - rewrite !Z.shiftl_spec, Z.shiftr_spec, Z.sub_add by lia. done.
Qed.

(** Masking with [2 ^ n - 1] is reduction modulo [2 ^ n]. *)
Lemma land_mask z mask n : mask = Z.ones n -> 0 <= n -> Z.land z mask = z mod 2 ^ n.
Proof. intros ->. apply Z.land_ones. Qed.

(** The low [n] bits are all of a number below [2 ^ n]; closure of such
    numbers under the bitwise operations. *)
Lemma range_land x n : 0 <= n -> 0 <= x < 2 ^ n <-> Z.land x (Z.ones n) = x.
Proof.
  intros. rewrite Z.land_ones by done. split; [apply Z.mod_small|]. intros <-.
  apply Z.mod_pos_bound, Z.pow_pos_nonneg; lia.
Qed.

Lemma lor_range a b n : 0 <= n -> 0 <= a < 2 ^ n -> 0 <= b < 2 ^ n -> 0 <= Z.lor a b < 2 ^ n.
Proof. intros Hn. rewrite !range_land by done. intros Ha Hb. by rewrite Z.land_lor_distr_l, Ha, Hb. Qed.

Lemma land_range a b n : 0 <= n -> 0 <= a < 2 ^ n -> 0 <= Z.land a b < 2 ^ n.
Proof. intros Hn. rewrite !range_land by done. intros Ha. by rewrite Z.land_comm, Z.land_assoc, (Z.land_comm _ a), Ha. Qed.

(** Clearing the bits of [b] in an [n]-bit number: [a & ~b]. *)
Lemma land_lxor_ones a b n : 0 <= n -> 0 <= a < 2 ^ n -> Z.land a (Z.lxor b (Z.ones n)) = Z.ldiff a b.
Proof.
  intros Hn Ha. apply range_land in Ha; [|done]. apply Z.bits_inj'. intros i Hi.
  rewrite Z.land_spec, Z.lxor_spec, Z.ldiff_spec. rewrite <- Ha, Z.land_spec.
  destruct (Z.testbit a i), (Z.testbit b i), (Z.testbit (Z.ones n) i); done.
Qed.

(** Two positions less than [cap] apart fall into different slots of a ring. *)
Lemma ring_slots_differ cap k n : 0 < n - k < cap -> k mod cap <> n mod cap.
Proof.
  intros H E. pose proof (Z.div_mod k cap ltac:(lia)). pose proof (Z.div_mod n cap ltac:(lia)).
  assert (n - k = cap * (n / cap - k / cap)) as Hd.
  { transitivity ((cap * (n / cap) + n mod cap) - (cap * (k / cap) + k mod cap)); [congruence | rewrite E; ring]. }
  clear E. revert Hd. generalize (n / cap - k / cap). intros q Hd. assert (q <= 0 \/ 1 <= q) as [Hq|Hq] by lia; [pose proof (Z.mul_nonpos_nonneg q cap) | pose proof (Z.mul_le_mono_nonneg_l 1 q cap)]; lia.
Qed.

(** ** Ring indices

    The indices from the head [h] up to the tail [t] of a ring of [cap] slots,
    in order; [h = t] is the empty ring. *)
Definition ring_count (h t cap : Z) : Z := (t - h) mod cap.
Definition ring_indices (h t cap : Z) : list Z := (fun i => (h + i) mod cap) <$> seqZ 0 (ring_count h t cap).

(** The phase tag [k] slots after a tail [t] in phase [phase]. *)
Definition phase_after (cap t phase k : Z) : Z := if t + k <? cap then phase else 1 - phase.

Section Rings.
Context (cap : Z) (Hcap : 0 < cap).
Implicit Types (h t i : Z).

Lemma ring_count_range h t : 0 <= ring_count h t cap < cap.
Proof. apply Z.mod_pos_bound. lia. Qed.

Lemma ring_count_0 h t : 0 <= h < cap -> 0 <= t < cap -> ring_count h t cap = 0 <-> h = t.
Proof.
  intros Hh Ht. unfold ring_count. split; [|intros ->; by rewrite Z.sub_diag, Z.mod_0_l by lia].
  destruct (Z.lt_ge_cases t h); [rewrite <- (Z.mod_add (t - h) 1) by lia|]; rewrite Z.mod_small by lia; lia.
Qed.

(** The head moves. *)
Lemma ring_count_head h t : 0 <= h < cap -> 0 <= t < cap -> h <> t ->
  ring_count ((h + 1) mod cap) t cap = ring_count h t cap - 1.
Proof.
  intros Hh Ht Hne. unfold ring_count. rewrite Zminus_mod_idemp_r. destruct (Z.lt_ge_cases h t).
  - rewrite !Z.mod_small by lia. lia.
  - rewrite <- (Z.mod_add (t - h) 1), <- (Z.mod_add (t - (h + 1)) 1), !Z.mod_small by lia. lia.
Qed.

(** The tail moves, but does not reach the head. *)
Lemma ring_count_tail h t : 0 <= h < cap -> 0 <= t < cap -> (t + 1) mod cap <> h ->
  ring_count h ((t + 1) mod cap) cap = ring_count h t cap + 1.
Proof.
  intros Hh Ht Hne. pose proof (ring_count_range h t).
  assert (ring_count h ((t + 1) mod cap) cap <> 0) as H0.
  { intros E. apply Hne. symmetry. apply ring_count_0; [done|apply Z.mod_pos_bound; lia|done]. }
  revert H0. unfold ring_count in *. rewrite Zminus_mod_idemp_l.
  replace (t + 1 - h) with (t - h + 1) by lia. rewrite <- Zplus_mod_idemp_l. intros H0.
  destruct (Z.eq_dec ((t - h) mod cap + 1) cap) as [E|E]; [by rewrite E, Z.mod_same in H0 by lia|].
  apply Z.mod_small. lia.
Qed.

Lemma ring_count_full h t : 0 <= h < cap -> 0 <= t < cap -> (t + 1) mod cap = h <-> ring_count h t cap = cap - 1.
Proof.
  intros Hh Ht. unfold ring_count. split.
  - intros <-. rewrite Zminus_mod_idemp_r. replace (t - (t + 1)) with (-1) by lia.
    symmetry. apply (Z.mod_unique_pos _ _ (-1)); lia.
  - intros E. pose proof (Zplus_mod_idemp_r (t - h) h cap) as Hs. replace (h + (t - h)) with t in Hs by lia.
    rewrite E, (Z.mod_small t) in Hs by lia. rewrite <- Hs, Zplus_mod_idemp_l.
    replace (h + (cap - 1) + 1) with (h + 1 * cap) by lia. by rewrite Z.mod_add, Z.mod_small by lia.
Qed.

Lemma ring_count_inj h1 h2 t : 0 <= h1 < cap -> 0 <= h2 < cap -> ring_count h1 t cap = ring_count h2 t cap -> h1 = h2.
Proof.
  intros H1 H2 E. unfold ring_count in E. rewrite <- (Z.mod_small h1 cap), <- (Z.mod_small h2 cap) by done.
  replace h1 with (t - (t - h1)) by lia. replace h2 with (t - (t - h2)) by lia.
  by rewrite <- (Zminus_mod_idemp_r t (t - h1)), <- (Zminus_mod_idemp_r t (t - h2)), E.
Qed.

Lemma ring_indices_empty h : 0 <= h < cap -> ring_indices h h cap = [].
Proof. intros. unfold ring_indices, ring_count. by rewrite Z.sub_diag, Z.mod_0_l, seqZ_nil by lia. Qed.

Lemma ring_indices_length h t : Z.of_nat (length (ring_indices h t cap)) = ring_count h t cap.
Proof. unfold ring_indices. rewrite length_fmap, length_seqZ. pose proof (ring_count_range h t). lia. Qed.

Lemma ring_indices_cons h t : 0 <= h < cap -> 0 <= t < cap -> h <> t ->
  ring_indices h t cap = h :: ring_indices ((h + 1) mod cap) t cap.
Proof.
  intros Hh Ht Hne. unfold ring_indices. rewrite ring_count_head by done. pose proof (ring_count_range h t).
  assert (ring_count h t cap <> 0) by (rewrite ring_count_0; done).
  rewrite seqZ_cons by lia. cbn [fmap list_fmap]. rewrite Z.add_0_r, (Z.mod_small h) by lia. f_equal.
  change (Z.succ 0) with (1 + 0). rewrite <- fmap_add_seqZ, <- list_fmap_compose. apply list_fmap_ext.
  intros i x _. cbn. rewrite Zplus_mod_idemp_l. f_equal. lia.
Qed.

Lemma ring_indices_snoc h t : 0 <= h < cap -> 0 <= t < cap -> (t + 1) mod cap <> h ->
  ring_indices h ((t + 1) mod cap) cap = ring_indices h t cap ++ [t].
Proof.
  intros Hh Ht Hne. unfold ring_indices. rewrite ring_count_tail by done. pose proof (ring_count_range h t).
  rewrite seqZ_app, fmap_app by lia. f_equal. change 1 with (Z.succ 0) at 1.
  rewrite seqZ_cons by lia. rewrite seqZ_nil by lia. cbn [fmap list_fmap]. unfold ring_count.
  rewrite Z.add_0_l, Zplus_mod_idemp_r. replace (h + (t - h)) with t by lia. by rewrite Z.mod_small.
Qed.

(** The tail is not one of the indices in use. *)
Lemma ring_indices_tail h t : 0 <= h < cap -> 0 <= t < cap -> t ∉ ring_indices h t cap.
Proof.
  intros Hh Ht (i & E & Hi%elem_of_seqZ)%list_elem_of_fmap. unfold ring_count in *.
  pose proof (ring_slots_differ cap (h + i) (h + (t - h) mod cap)) as Hd.
  rewrite Zplus_mod_idemp_r in Hd. replace (h + (t - h)) with t in Hd by lia. rewrite (Z.mod_small t) in Hd by lia.
  pose proof (Z.mod_pos_bound (t - h) cap Hcap). destruct Hd; [lia|done].
Qed.

Lemma phase_after_add t phase n m :
  0 <= t < cap -> phase = 0 \/ phase = 1 -> 0 <= n -> 0 <= m -> n + m <= cap ->
  phase_after cap ((t + n) mod cap) (phase_after cap t phase n) m = phase_after cap t phase (n + m).
Proof.
  intros Ht Hp Hn Hm Hle. unfold phase_after. destruct (Z.lt_ge_cases (t + n) cap).
  - rewrite (Z.mod_small (t + n)), (proj2 (Z.ltb_lt (t + n) cap)) by lia. by rewrite Z.add_assoc.
  - replace (t + n) with (t + n - cap + 1 * cap) at 1 by lia. rewrite Z.mod_add, Z.mod_small by lia.
    by rewrite (proj2 (Z.ltb_ge (t + n) cap)), (proj2 (Z.ltb_lt (t + n - cap + m) cap)), (proj2 (Z.ltb_ge (t + (n + m)) cap)) by lia.
Qed.

Lemma phase_after_range t phase k : phase = 0 \/ phase = 1 -> phase_after cap t phase k = 0 \/ phase_after cap t phase k = 1.
Proof. unfold phase_after. destruct (_ <? _); lia. Qed.

(** The phase after one more slot: it is inverted when the tail wraps. *)
Lemma phase_after_one t phase : 0 <= t < cap -> phase = 0 \/ phase = 1 ->
  phase_after cap t phase 1 = if (t + 1) mod cap =? 0 then (if phase =? 0 then 1 else 0) else phase.
Proof.
  intros Ht Hp. unfold phase_after. destruct (Z.eq_dec (t + 1) cap) as [E|E].
  - rewrite E, Z.mod_same, (proj2 (Z.ltb_ge _ _)) by lia. by destruct Hp as [->| ->].
  - rewrite (Z.mod_small (t + 1)), (proj2 (Z.ltb_lt _ _)), (proj2 (Z.eqb_neq _ _)) by lia. done.
Qed.
End Rings.

(** ** Byte-addressed memory

    A memory region is a function from byte offsets to cells.  Reading a byte
    takes the low eight bits of the cell, so every load is in range by
    construction.  Two regions are equivalent when they read the same. *)

Definition mem := Z -> Z.
Definition rd8 (m : mem) (a : Z) : Z := u8 (m a).

Definition mem_equiv (m1 m2 : mem) : Prop := forall a, rd8 m1 a = rd8 m2 a.
#[export] Instance mem_Equiv : Equiv mem := mem_equiv.
#[export] Instance mem_Equivalence : Equivalence (≡@{mem}).
Proof. split; [by intros m a | by intros m1 m2 H a | intros m1 m2 m3 H1 H2 a]. by rewrite (H1 a). Qed.
#[export] Instance rd8_Proper : Proper ((≡@{mem}) ==> eq ==> eq) rd8.
Proof. intros m1 m2 H a ? <-. apply H. Qed.

Definition mem_zero : mem := fun _ => 0.

(** RtlCopyMemory: [n] bytes at [s] of [src] to [d] of [dst]. *)
Definition mem_copy (dst : mem) (d : Z) (src : mem) (s n : Z) : mem :=
  fun a => if (d <=? a) && (a <? d + n) then src (s + (a - d)) else dst a.

(** RtlFillMemory / RtlZeroMemory. *)
Definition mem_fill (m : mem) (d n v : Z) : mem :=
  fun a => if (d <=? a) && (a <? d + n) then v else m a.

(** Little-endian loads and stores of [n] bytes. *)
Fixpoint load_le (m : mem) (a : Z) (n : nat) : Z :=
  match n with
  | O => 0
  | S n => rd8 m a + 2 ^ 8 * load_le m (a + 1) n
  end.

Definition store_le (m : mem) (a : Z) (n : nat) (v : Z) : mem :=
  fun x => if (a <=? x) && (x <? a + Z.of_nat n) then u8 (Z.shiftr v (8 * (x - a))) else m x.

(** A sequence of stores: offset, width, value. *)
Definition store_all (l : list (Z * nat * Z)) (m : mem) : mem :=
  fold_left (fun m st => store_le m st.1.1 st.1.2 st.2) l m.

(** The bytes of a list and of a string, as memory from offset 0. *)
Definition bytes_mem (l : list Z) : mem := fun a => if a <? 0 then 0 else l !!! Z.to_nat a.
(** The characters of a string literal. *)
Definition chars (s : string) : list Z := map (fun c => Z.of_N (Ascii.N_of_ascii c)) (String.list_ascii_of_string s).
Definition str_mem (s : string) : mem := bytes_mem (chars s).

Lemma rd8_range m a : 0 <= rd8 m a < 2 ^ 8.
Proof. apply u8_range. Qed.

Lemma rd8_copy_in dst d src s n a :
  d <= a < d + n -> rd8 (mem_copy dst d src s n) a = rd8 src (s + (a - d)).
Proof.
  intros. unfold rd8, mem_copy.
  by rewrite (proj2 (Z.leb_le _ _)), (proj2 (Z.ltb_lt _ _)) by lia.
Qed.

Lemma rd8_copy_out dst d src s n a :
  ~ (d <= a < d + n) -> rd8 (mem_copy dst d src s n) a = rd8 dst a.
Proof.
  intros. unfold rd8, mem_copy. destruct (Z.leb_spec d a), (Z.ltb_spec a (d + n)); try done; lia.
Qed.

Lemma rd8_fill_in m d n v a : d <= a < d + n -> rd8 (mem_fill m d n v) a = u8 v.
Proof.
  intros. unfold rd8, mem_fill.
  by rewrite (proj2 (Z.leb_le _ _)), (proj2 (Z.ltb_lt _ _)) by lia.
Qed.

Lemma rd8_fill_out m d n v a : ~ (d <= a < d + n) -> rd8 (mem_fill m d n v) a = rd8 m a.
Proof.
  intros. unfold rd8, mem_fill. destruct (Z.leb_spec d a), (Z.ltb_spec a (d + n)); try done; lia.
Qed.

Lemma rd8_store_in m d n v a :
  d <= a < d + Z.of_nat n -> rd8 (store_le m d n v) a = u8 (Z.shiftr v (8 * (a - d))).
Proof.
  intros. unfold rd8, store_le.
  rewrite (proj2 (Z.leb_le _ _)), (proj2 (Z.ltb_lt _ _)) by lia. simpl.
  apply u8_small, u8_range.
Qed.

Lemma rd8_store_out m d n v a :
  ~ (d <= a < d + Z.of_nat n) -> rd8 (store_le m d n v) a = rd8 m a.
Proof.
  intros. unfold rd8, store_le.
  destruct (Z.leb_spec d a), (Z.ltb_spec a (d + Z.of_nat n)); try done; lia.
Qed.

Create Rewrite HintDb memory.
#[export] Hint Rewrite rd8_copy_in rd8_copy_out rd8_fill_in rd8_fill_out
  rd8_store_in rd8_store_out using lia : memory.

Lemma load_le_ext m1 m2 a1 a2 n :
  (forall i, 0 <= i < Z.of_nat n -> rd8 m1 (a1 + i) = rd8 m2 (a2 + i)) ->
  load_le m1 a1 n = load_le m2 a2 n.
Proof.
  revert a1 a2; induction n as [|n IH]; intros a1 a2 H; [done|]. cbn [load_le]. f_equal.
  - specialize (H 0). rewrite !Z.add_0_r in H. apply H; lia.
  - f_equal. apply IH. intros i Hi. rewrite <- !Z.add_assoc. apply H. lia.
Qed.

#[export] Instance load_le_Proper : Proper ((≡@{mem}) ==> eq ==> eq ==> eq) load_le.
Proof. intros m1 m2 H a ? <- n ? <-. apply load_le_ext. intros. apply H. Qed.

#[export] Instance mem_copy_Proper :
  Proper ((≡@{mem}) ==> eq ==> (≡@{mem}) ==> eq ==> eq ==> (≡@{mem})) mem_copy.
Proof.
  intros m1 m2 H d ? <- s1 s2 Hs s ? <- n ? <- a.
  destruct (decide (d <= a < d + n)); autorewrite with memory; [apply Hs | apply H].
Qed.

Lemma load_le_range m a n : 0 <= load_le m a n < 2 ^ (8 * Z.of_nat n).
Proof.
  revert a; induction n as [|n IH]; intros a; cbn [load_le]; [simpl; lia|].
  specialize (IH (a + 1)). pose proof (rd8_range m a).
  replace (8 * Z.of_nat (S n)) with (8 + 8 * Z.of_nat n) by lia.
  rewrite Z.pow_add_r by lia. change (2 ^ 8) with 256 in *. lia.
Qed.

(** Storing a value and loading it back gives its low [n] bytes. *)
Lemma load_store_le m a n v : load_le (store_le m a n v) a n = v mod 2 ^ (8 * Z.of_nat n).
Proof.
  revert m a v; induction n as [|n IH]; intros m a v.
  { simpl. by rewrite Z.mod_1_r. }
  cbn [load_le]. rewrite rd8_store_in by lia. rewrite Z.sub_diag, Z.mul_0_r, Z.shiftr_0_r.
  rewrite (load_le_ext _ (store_le m (a + 1) n (v / 2 ^ 8)) _ (a + 1)).
  2: { intros i Hi. autorewrite with memory. f_equal.
       rewrite <- (Z.shiftr_div_pow2 v 8), Z.shiftr_shiftr by lia. f_equal. lia. }
  rewrite IH. replace (8 * Z.of_nat (S n)) with (8 + 8 * Z.of_nat n) by lia.
  rewrite Z.pow_add_r by lia. unfold u8. rewrite Z.rem_mul_r by lia. done.
Qed.

Lemma load_store_le_small m a n v :
  0 <= v < 2 ^ (8 * Z.of_nat n) -> load_le (store_le m a n v) a n = v.
Proof. intros. by rewrite load_store_le, Z.mod_small. Qed.

Lemma load_store_le_other m a n v b k :
  b + Z.of_nat k <= a \/ a + Z.of_nat n <= b -> load_le (store_le m a n v) b k = load_le m b k.
Proof. intros. apply load_le_ext. intros i Hi. by autorewrite with memory. Qed.

Lemma load_fill_le_zero m d n a k :
  d <= a -> a + Z.of_nat k <= d + n -> load_le (mem_fill m d n 0) a k = 0.
Proof.
  intros H1. revert a H1; induction k as [|k IH]; intros a H1 H2; [done|].
  cbn [load_le]. rewrite rd8_fill_in, IH by lia. done.
Qed.

Lemma load_copy_in dst d src s n a k :
  d <= a -> a + Z.of_nat k <= d + n -> load_le (mem_copy dst d src s n) a k = load_le src (s + (a - d)) k.
Proof. intros. apply load_le_ext. intros i Hi. rewrite rd8_copy_in by lia. f_equal. lia. Qed.

Lemma load_copy_other dst d src s n a k :
  a + Z.of_nat k <= d \/ d + n <= a -> load_le (mem_copy dst d src s n) a k = load_le dst a k.
Proof. intros. apply load_le_ext. intros i Hi. by rewrite rd8_copy_out by lia. Qed.

#[export] Hint Rewrite load_store_le_small load_store_le_other load_copy_other using lia : memory.

#[global] Arguments load_le : simpl never.
#[global] Arguments store_le : simpl never.
#[global] Arguments mem_copy : simpl never.
#[global] Arguments mem_fill : simpl never.

(** ** Allocated blocks: memory with a size

    A pool allocation, a storage buffer or a mapped range is a block; an
    access outside of it is undefined behaviour in C and yields [None]. *)

Record block := Block { blk_size : Z; blk_mem : mem }.

(** The [n] bytes at [d] lie inside a block of size [sz]; a zero-length access touches nothing. *)
Definition in_block (sz d n : Z) : bool := (n <=? 0) || ((0 <=? d) && (d + n <=? sz)).

Definition blk_write (b : block) (d : Z) (src : mem) (s n : Z) : option block :=
  if in_block (blk_size b) d n then Some (Block (blk_size b) (mem_copy (blk_mem b) d src s n)) else None.

Definition blk_zero (b : block) (d n : Z) : option block :=
  if in_block (blk_size b) d n then Some (Block (blk_size b) (mem_fill (blk_mem b) d n 0)) else None.

Lemma in_block_true sz d n : 0 <= d -> d + n <= sz -> in_block sz d n = true.
Proof. intros. unfold in_block. destruct (Z.leb_spec n 0); [done|]. simpl. by rewrite (proj2 (Z.leb_le _ _)), (proj2 (Z.leb_le _ _)) by lia. Qed.

Lemma in_block_false sz d n : 0 < n -> d < 0 \/ sz < d + n -> in_block sz d n = false.
Proof. intros. unfold in_block. destruct (Z.leb_spec n 0), (Z.leb_spec 0 d), (Z.leb_spec (d + n) sz); try done; lia. Qed.

(** ** Arrays indexed by a C integer: out of range is [None] *)

Definition arr_get {A} (l : list A) (i : Z) : option A :=
  if i <? 0 then None else l !! Z.to_nat i.

Definition arr_set {A} (l : list A) (i : Z) (x : A) : option (list A) :=
  if (0 <=? i) && (i <? Z.of_nat (length l)) then Some (<[Z.to_nat i := x]> l) else None.

Section Arrays.
Context {A : Type}.
Implicit Types (l : list A) (i j : Z) (x : A).

Lemma arr_get_Some_iff l i : is_Some (arr_get l i) <-> 0 <= i < Z.of_nat (length l).
Proof.
  unfold arr_get. destruct (Z.ltb_spec i 0).
  - split; [by intros [? ?] | lia].
  - rewrite lookup_lt_is_Some. lia.
Qed.

Lemma arr_get_lt l i x : arr_get l i = Some x -> 0 <= i < Z.of_nat (length l).
Proof. intros. apply arr_get_Some_iff. eauto. Qed.

Lemma arr_get_elem l i x : arr_get l i = Some x -> x ∈ l.
Proof. unfold arr_get. destruct (_ <? _); [done|]. apply list_elem_of_lookup_2. Qed.

Lemma arr_set_Some l i x :
  0 <= i < Z.of_nat (length l) -> arr_set l i x = Some (<[Z.to_nat i := x]> l).
Proof. intros. unfold arr_set. by rewrite (proj2 (Z.leb_le _ _)), (proj2 (Z.ltb_lt _ _)) by lia. Qed.

Lemma arr_set_inv l i x l' :
  arr_set l i x = Some l' -> 0 <= i < Z.of_nat (length l) /\ l' = <[Z.to_nat i := x]> l.
Proof.
  unfold arr_set. destruct (Z.leb_spec 0 i), (Z.ltb_spec i (Z.of_nat (length l))); try done.
  simpl. intros [= <-]. split; [lia | done].
Qed.

Lemma arr_set_length l i x l' : arr_set l i x = Some l' -> length l' = length l.
Proof. intros [_ ->]%arr_set_inv. apply length_insert. Qed.

Lemma arr_get_set_eq l i x l' : arr_set l i x = Some l' -> arr_get l' i = Some x.
Proof.
  intros [H ->]%arr_set_inv. unfold arr_get. rewrite (proj2 (Z.ltb_ge _ _)) by lia.
  apply list_lookup_insert_eq. lia.
Qed.

Lemma arr_get_set_ne l i j x l' : arr_set l i x = Some l' -> i <> j -> arr_get l' j = arr_get l j.
Proof.
  intros [H ->]%arr_set_inv Hne. unfold arr_get. destruct (Z.ltb_spec j 0); [done|].
  apply list_lookup_insert_ne. lia.
Qed.

Lemma arr_get_set l i j x l' :
  arr_set l i x = Some l' -> arr_get l' j = if decide (i = j) then Some x else arr_get l j.
Proof.
  intros H. case_decide as E; [subst; by eapply arr_get_set_eq | by eapply arr_get_set_ne].
Qed.

Lemma arr_get_replicate n x i : 0 <= i < Z.of_nat n -> arr_get (replicate n x) i = Some x.
Proof.
  intros. unfold arr_get. rewrite (proj2 (Z.ltb_ge _ _)) by lia.
  apply lookup_replicate. split; [done | lia].
Qed.
End Arrays.

(** ** Record update

    [r <| f := v |>] and [r <| f ::= g |>] for the fields that have a
    [Setter] instance. *)

Class Setter {R T} (proj : R -> T) := set_field : (T -> T) -> R -> R.
Arguments set_field {R T} proj {_} _ _ /.

Notation "r <| f ::= g |>" := (set_field f g r)
  (at level 1, left associativity, f at level 9, format "r  <| f  ::=  g |>") : stdpp_scope.
Notation "r <| f := v |>" := (set_field f (fun _ => v) r)
  (at level 1, left associativity, f at level 9, format "r  <| f  :=  v |>") : stdpp_scope.

(** The setter of a field, from the record's eta expansion
    [fun r => mk (field_1 r) .. (field_n r)]. *)
Ltac mk_setter eta :=
  lazymatch goal with
  | |- @Setter ?R ?T ?p =>
      let g := constr:(fun (f : T -> T) (r : R) =>
        ltac:(let e := eval red in (eta r) in
              let e' := eval pattern (p r) in e in
              lazymatch e' with ?h _ => let b := eval cbv beta in (h (f (p r))) in exact b end)) in
      exact g
  end.

(** The setters, for [autounfold]: an update of a constructed record computes. *)
Create HintDb setters.
Ltac unset := autounfold with setters; cbn.

(** ** Stateful computations that may go wrong

    [Fault] is undefined behaviour of the C code (an out-of-range array or
    pointer access, a division by zero); [OutOfFuel] is a loop that needs
    more iterations than it was given. *)

Inductive res (A : Type) : Type :=
  | Ok (a : A)
  | Fault
  | OutOfFuel.
Arguments Ok {A} a.
Arguments Fault {A}.
Arguments OutOfFuel {A}.

Definition M (S A : Type) : Type := S -> res (A * S).

#[export] Instance M_ret S : MRet (M S) := fun A a s => Ok (a, s).
#[export] Instance M_bind S : MBind (M S) := fun A B f m s =>
  match m s with
  | Ok (a, s') => f a s'
  | Fault => Fault
  | OutOfFuel => OutOfFuel
  end.

Section Monad.
Context {S : Type}.

Definition get : M S S := fun s => Ok (s, s).
Definition modify (f : S -> S) : M S unit := fun s => Ok (tt, f s).
Definition fault {A} : M S A := fun _ => Fault.
Definition out_of_fuel {A} : M S A := fun _ => OutOfFuel.
Definition of_opt {A} (o : option A) : M S A := fun s =>
  match o with Some a => Ok (a, s) | None => Fault end.

Definition of_res {A} (r : res A) : M S A := fun s =>
  match r with Ok a => Ok (a, s) | Fault => Fault | OutOfFuel => OutOfFuel end.

(** Total correctness: [m] runs to completion from [s] and establishes [Q]. *)
Definition wp {A} (m : M S A) (s : S) (Q : A -> S -> Prop) : Prop :=
  match m s with Ok (a, s') => Q a s' | _ => False end.

Lemma wp_ret {A} (a : A) s (Q : A -> S -> Prop) : Q a s -> wp (mret a) s Q.
Proof. done. Qed.

Lemma wp_bind {A B} (m : M S A) (f : A -> M S B) s (Q : B -> S -> Prop) :
  wp m s (fun a s' => wp (f a) s' Q) -> wp (m ≫= f) s Q.
Proof. unfold wp, mbind, M_bind. by destruct (m s) as [[a s']| |]. Qed.

Lemma wp_bind_inv {A B} (m : M S A) (f : A -> M S B) s (Q : B -> S -> Prop) :
  wp (m ≫= f) s Q -> wp m s (fun a s' => wp (f a) s' Q).
Proof. unfold wp, mbind, M_bind. by destruct (m s) as [[a s']| |]. Qed.

Lemma wp_mono {A} (m : M S A) s (Q Q' : A -> S -> Prop) :
  wp m s Q -> (forall a s', Q a s' -> Q' a s') -> wp m s Q'.
Proof. unfold wp. destruct (m s) as [[a s']| |]; auto. Qed.

Lemma wp_conseq {A} (m : M S A) s (Q Q' : A -> S -> Prop) :
  (forall a s', Q a s' -> Q' a s') -> wp m s Q -> wp m s Q'.
Proof. intros. by eapply wp_mono. Qed.

Lemma wp_and {A} (m : M S A) s (Q Q' : A -> S -> Prop) :
  wp m s Q -> wp m s Q' -> wp m s (fun a s' => Q a s' /\ Q' a s').
Proof. unfold wp. destruct (m s) as [[a s']| |]; auto. Qed.

Lemma wp_get s (Q : S -> S -> Prop) : Q s s -> wp get s Q.
Proof. done. Qed.

Lemma wp_modify (f : S -> S) s (Q : unit -> S -> Prop) : Q tt (f s) -> wp (modify f) s Q.
Proof. done. Qed.

Lemma wp_of_opt {A} (o : option A) a s (Q : A -> S -> Prop) : o = Some a -> Q a s -> wp (of_opt o) s Q.
Proof. by intros ->. Qed.

Lemma wp_elim {A} (m : M S A) s (Q : A -> S -> Prop) :
  wp m s Q -> exists a s', m s = Ok (a, s') /\ Q a s'.
Proof. unfold wp. destruct (m s) as [[a s']| |]; [eauto|done..]. Qed.

Lemma wp_intro {A} (m : M S A) s a s' (Q : A -> S -> Prop) : m s = Ok (a, s') -> Q a s' -> wp m s Q.
Proof. unfold wp. by intros ->. Qed.

(** The state a computation ends in. *)
Definition final {A} (m : M S A) (s : S) : S := match m s with Ok (_, s') => s' | _ => s end.

Lemma final_run {A} (m : M S A) s x : match m s with Ok (a, _) => a = x | _ => False end -> m s = Ok (x, final m s).
Proof. unfold final. by destruct (m s) as [[a s']| |]; [intros ->|..]. Qed.

Lemma bind_get {B} (f : S -> M S B) s : (get ≫= f) s = f s s.
Proof. done. Qed.

Lemma bind_ret {A B} (a : A) (f : A -> M S B) s : (mret a ≫= f) s = f a s.
Proof. done. Qed.

Lemma bind_modify {B} g (f : unit -> M S B) s : (modify g ≫= f) s = f tt (g s).
Proof. done. Qed.

Lemma bind_opt {A B} (o : option A) (f : A -> M S B) s a : o = Some a -> (of_opt o ≫= f) s = f a s.
Proof. by intros ->. Qed.

Lemma bind_res {A B} (r : res A) (f : A -> M S B) s a : r = Ok a -> (of_res r ≫= f) s = f a s.
Proof. by intros ->. Qed.

Lemma bind_Ok {A B} (m : M S A) (f : A -> M S B) s a s' :
  m s = Ok (a, s') -> (m ≫= f) s = f a s'.
Proof. unfold mbind, M_bind. by intros ->. Qed.

(** What ran, when a sequence has succeeded. *)
Lemma bind_inv {A B} (m : M S A) (f : A -> M S B) s b s' :
  (m ≫= f) s = Ok (b, s') -> exists a s1, m s = Ok (a, s1) /\ f a s1 = Ok (b, s').
Proof. unfold mbind, M_bind. destruct (m s) as [[a s1]| |]; [eauto|done..]. Qed.
End Monad.

Create HintDb wp.
#[export] Hint Resolve wp_ret wp_get wp_modify : wp.

(** One step of symbolic execution, and all of the obvious ones. *)
Ltac wp_step :=
  lazymatch goal with
  | |- wp (_ ≫= _) _ _ => apply wp_bind
  | |- wp (mret _) _ _ => apply wp_ret
  | |- wp get _ _ => apply wp_get
  | |- wp (modify _) _ _ => apply wp_modify
  end.
Ltac wp_run := repeat (wp_step; cbv beta).

(** ** Invariants of a step relation *)

Lemma rtc_invariant {A} (R : relation A) (P : A -> Prop) x y :
  (forall a b, R a b -> P a -> P b) -> P x -> rtc R x y -> P y.
Proof. intros Hstep Hx Hr. revert Hx. induction Hr; eauto. Qed.
