(* ===== verification/CLib.v ===== *)
(** The functions of the C library that the configuration of the service and the
    command line tool use, on strings that are lists of bytes (without the final
    zero): comparison, character classes, conversion of numbers.

    A double is a [spec_float] of the Standard Library with 53 bits of
    precision.  A character outside of 0 .. 127 is a negative char: giving it to
    isspace or toupper is undefined, [None]. *)
From Stdlib Require Import SpecFloat.
From stdpp Require Import pretty.
From S2P Require Import Prelude.
Open Scope Z_scope.
Open Scope c_scope.

(** ** Characters and strings *)

Definition is_space (c : Z) : bool := (c =? 32) || ((9 <=? c) && (c <=? 13)).
Definition isspace (c : Z) : option bool := if c <? 128 then Some (is_space c) else None.
Definition is_lower (c : Z) : bool := (97 <=? c) && (c <=? 122).
Definition toupper (c : Z) : option Z := if c <? 128 then Some (if is_lower c then c - 32 else c) else None.
Definition fold_case (c : Z) : Z := if (65 <=? c) && (c <=? 90) then c + 32 else c.

Definition strcmp_eq (a b : list Z) : bool := bool_decide (a = b).
(** [_stricmp(a, b) == 0] *)
Definition stricmp_eq (a b : list Z) : bool := bool_decide (fold_case <$> a = fold_case <$> b).

(** What follows the word; [None]: [strncmp(s, word, strlen(word)) != 0]. *)
Definition strip_prefix (word s : list Z) : option (list Z) :=
  if strcmp_eq (take (length word) s) word then Some (drop (length word) s) else None.

(** The string before the first [c], and the one after it. *)
Fixpoint strchr (s : list Z) (c : Z) : option (list Z * list Z) :=
  match s with
  | [] => None
  | x :: s =>
      if x =? c then Some ([], s)
      else match strchr s c with Some (a, b) => Some (x :: a, b) | None => None end
  end.

(** [strncpy(dst, src, n)]: [n] bytes of the array change, with zeros after the end of the string. *)
Definition strncpy_into (dst src : list Z) (n : nat) : list Z := take n src ++ replicate (n - length src) 0 ++ drop n dst.

(** The string in an array: up to the first zero. *)
Fixpoint c_str (a : list Z) : list Z :=
  match a with
  | [] => []
  | c :: a => if c =? 0 then [] else c :: c_str a
  end.

(** The string without its leading spaces; [None] when one of the characters looked at is negative. *)
Fixpoint skip_spaces (s : list Z) : option (list Z) :=
  match s with
  | [] => Some []
  | c :: s' => b ← isspace c; if (b : bool) then skip_spaces s' else Some s
  end.
(** The trailing spaces are removed, but not the first character. *)
Fixpoint drop_trailing (s : list Z) : option (list Z) :=
  match s with
  | [] => Some []
  | c :: s' =>
      t ← drop_trailing s';
      match t with
      | [] => b ← isspace c; Some (if (b : bool) then [] else [c])
      | _ => Some (c :: t)
      end
  end.

(** ** Numbers *)

Definition is_digit (c : Z) : bool := (48 <=? c) && (c <=? 57).
(** The value of a digit in base 16. *)
Definition hex_value (c : Z) : option Z :=
  if is_digit c then Some (c - 48)
  else if (97 <=? fold_case c) && (fold_case c <=? 102) then Some (fold_case c - 87) else None.
Definition digit_in (base c : Z) : option Z :=
  v ← hex_value c; if v <? base then Some v else None.

(** The digits at the front of a string: their value after [acc], how many they are, and the rest. *)
Fixpoint digits (base acc count : Z) (s : list Z) : Z * Z * list Z :=
  match s with
  | [] => (acc, count, [])
  | c :: s' =>
      match digit_in base c with
      | Some v => digits base (acc * base + v) (count + 1) s'
      | None => (acc, count, s)
      end
  end.

(** An optional sign: whether it is negative. *)
Definition sign (s : list Z) : bool * list Z :=
  match s with
  | c :: s' => if c =? 45 then (true, s') else if c =? 43 then (false, s') else (false, s)
  | [] => (false, s)
  end.

(** The white space strtod and strtoul skip themselves. *)
Fixpoint skip_white (s : list Z) : list Z :=
  match s with
  | c :: s' => if is_space c then skip_white s' else s
  | [] => []
  end.

(** [0x] in front of a hexadecimal digit. *)
Definition hex_prefix (s : list Z) : option (list Z) :=
  match s with
  | z :: x :: c :: s' => if (z =? 48) && (fold_case x =? 120) && bool_decide (is_Some (hex_value c)) then Some (c :: s') else None
  | _ => None
  end.

(** [strtoul(s, NULL, 0)], where unsigned long has 32 bits. *)
Definition strtoul (s : list Z) : Z :=
  let '(neg, s) := sign (skip_white s) in
  let '(v, _, _) :=
    match hex_prefix s with
    | Some s => digits 16 0 0 s
    | None => digits (match s with c :: _ => if c =? 48 then 8 else 10 | [] => 10 end) 0 0 s
    end in
  if 2 ^ 32 <=? v then 2 ^ 32 - 1 else if (neg : bool) then u32 (- v) else v.

(** A decimal number, with a sign: the nearest of the numbers of [w] bits, as strtol and _strtoi64 have it. *)
Definition decimal (w : Z) (s : list Z) : Z :=
  let '(neg, s) := sign (skip_white s) in
  let '(v, _, _) := digits 10 0 0 s in
  if (neg : bool) then Z.max (- 2 ^ (w - 1)) (- v) else Z.min (2 ^ (w - 1) - 1) v.
Definition atoi (s : list Z) : Z := decimal 32 s.
Definition atoi64 (s : list Z) : Z := decimal 64 s.

(** *** Doubles *)

Definition double : Type := spec_float.
Definition double_of_Z (z : Z) : double := binary_normalize 53 1024 z 0 false.
Definition double_mul (x y : double) : double := SFmul 53 1024 x y.
Definition double_div (x y : double) : double := SFdiv 53 1024 x y.
Definition double_lt (x y : double) : bool := SFltb x y.

(** [(UINT64)x], undefined when the truncated value is not one. *)
Definition double_to_uint64 (x : double) : option Z :=
  match x with
  | S754_zero _ => Some 0
  | S754_finite s m e =>
      let v := if 0 <=? e then Zpos m * 2 ^ e else Z.shiftr (Zpos m) (- e) in
      if (s : bool) then if v =? 0 then Some 0 else None
      else if v <? 2 ^ 64 then Some v else None
  | _ => None
  end.

Definition with_sign (neg : bool) (x : double) : double := if neg then SFopp x else x.

(** The double nearest to [m * base ^ e]. *)
Definition double_scaled (m base e : Z) : double :=
  if m =? 0 then S754_zero false
  else if 0 <=? e then double_of_Z (m * base ^ e)
  else match m, base ^ (- e) with
       | Zpos p, Zpos q => SFdiv 53 1024 (S754_finite false p 0) (S754_finite false q 0)
       | _, _ => S754_nan
       end.

(** The exponent after [mark], if there is one. *)
Definition exponent (mark : Z) (s : list Z) : Z * list Z :=
  match s with
  | c :: s' =>
      if fold_case c =? mark then
        let '(neg, t) := sign s' in
        let '(v, count, r) := digits 10 0 0 t in
        if count =? 0 then (0, s) else ((if (neg : bool) then - v else v), r)
      else (0, s)
  | [] => (0, s)
  end.

(** Digits with a point: the mantissa, the number of digits, those after the point, the rest. *)
Definition mantissa (base : Z) (s : list Z) : Z * Z * Z * list Z :=
  let '(v, count, r) := digits base 0 0 s in
  match r with
  | c :: r' =>
      if c =? 46 then
        let '(v', count', r'') := digits base v 0 r' in
        if count + count' =? 0 then (v, 0, 0, r) else (v', count + count', count', r'')
      else (v, count, 0, r)
  | [] => (v, count, 0, r)
  end.

(** The words, in any case. *)
Definition starts_with (s word : list Z) : option (list Z) :=
  if stricmp_eq (take (length word) s) word then Some (drop (length word) s) else None.

(** [0x] in front of a hexadecimal number, which may begin with the point. *)
Definition hex_float_prefix (s : list Z) : option (list Z) :=
  match s with
  | z :: x :: s' => if (z =? 48) && (fold_case x =? 120) && negb ((mantissa 16 s').1.1.2 =? 0) then Some s' else None
  | _ => None
  end.

(** The characters of a NaN in parentheses, from behind the opening one. *)
Fixpoint nan_chars (s : list Z) : option (list Z) :=
  match s with
  | [] => None
  | c :: s' =>
      if c =? 41 then Some s'
      else if is_digit c || is_lower (fold_case c) || (c =? 95) then nan_chars s' else None
  end.
Definition nan_suffix (s : list Z) : list Z :=
  match s with
  | c :: s' => if c =? 40 then match nan_chars s' with Some r => r | None => s end else s
  | [] => s
  end.

(** The value, and where the parse ends; at [s] itself when there is no number. *)
Definition strtod (s : list Z) : double * list Z :=
  let '(neg, t) := sign (skip_white s) in
  match starts_with t (chars "infinity"), starts_with t (chars "inf"), starts_with t (chars "nan") with
  | Some r, _, _ | None, Some r, _ => (S754_infinity neg, r)
  | None, None, Some r => (S754_nan, nan_suffix r)
  | None, None, None =>
      match hex_float_prefix t with
      | Some t =>
          let '(m, _, frac, r) := mantissa 16 t in
          let '(e, r) := exponent 112 r in
          (with_sign neg (double_scaled m 2 (e - 4 * frac)), r)
      | None =>
          let '(m, count, frac, r) := mantissa 10 t in
          if count =? 0 then (S754_zero false, s)
          else let '(e, r) := exponent 101 r in (with_sign neg (double_scaled m 10 (e - frac)), r)
      end
  end.

(** ** Lengths *)

Lemma length_strncpy_into dst src n : (n <= length dst)%nat -> length (strncpy_into dst src n) = length dst.
Proof. intros. unfold strncpy_into. rewrite !length_app, length_take, length_replicate, length_drop. lia. Qed.

Lemma Forall_strncpy_into (P : Z -> Prop) dst src n : P 0 -> Forall P dst -> Forall P src -> Forall P (strncpy_into dst src n).
Proof.
  intros H0 Hd Hs. unfold strncpy_into. rewrite !Forall_app. split_and!; [by apply Forall_take|by apply Forall_replicate|by apply Forall_drop].
Qed.

(** The bytes after the first [n] are not touched. *)
Lemma lookup_strncpy_into dst src n i : (n <= i)%nat -> (n <= length dst)%nat -> strncpy_into dst src n !! i = dst !! i.
Proof.
  intros Hi Hn. unfold strncpy_into. rewrite app_assoc, lookup_app_r by (rewrite length_app, length_take, length_replicate; lia).
  rewrite lookup_drop, length_app, length_take, length_replicate. f_equal. lia.
Qed.

Lemma strtoul_range s : 0 <= strtoul s < 2 ^ 32.
Proof.
  unfold strtoul. destruct (sign _) as [neg t].
  assert (forall base acc count s, 0 <= base -> 0 <= acc -> 0 <= (digits base acc count s).1.1) as Hd.
  { intros base acc count l Hb. revert acc count. induction l as [|c l IH]; intros acc count Ha; [done|]. cbn.
    unfold digit_in. destruct (hex_value c) as [v|] eqn:Hv; [|done]. cbn. destruct (v <? base); [|done].
    apply IH. enough (0 <= v) by nia. revert Hv. unfold hex_value, is_digit. generalize (fold_case c). intros f.
    repeat match goal with |- context [?a <=? ?b] => destruct (Z.leb_spec a b); cbn [andb] end; intros [= <-]; lia. }
  set (r := match hex_prefix t with Some _ => _ | None => _ end).
  assert (0 <= r.1.1) as Hr by (unfold r; destruct (hex_prefix t); [by apply Hd|]; apply Hd; [destruct t; [lia|]; by destruct (_ =? _)|lia]).
  destruct r as [[v k] l]. cbn in Hr. destruct (Z.leb_spec (2 ^ 32) v); [lia|]. destruct neg; [apply u32_range|lia].
Qed.

(** ** Doubles that are integers

    A product of an integer below 2^53 and a power of two is exact. *)

Lemma digits2_pos_bounds p : 2 ^ (Zpos (digits2_pos p) - 1) <= Zpos p < 2 ^ Zpos (digits2_pos p).
Proof.
  induction p as [p IH|p IH|]; cbn [digits2_pos]; [| |by vm_compute];
    rewrite Pos2Z.inj_succ, Z.pow_succ_r by lia; replace (Z.succ (Zpos (digits2_pos p)) - 1) with (Z.succ (Zpos (digits2_pos p) - 1)) by lia;
    rewrite Z.pow_succ_r by lia; lia.
Qed.

Lemma digits2_pos_unique p d : 2 ^ (d - 1) <= Zpos p < 2 ^ d -> Zpos (digits2_pos p) = d.
Proof.
  intros [H1 H2]. pose proof (digits2_pos_bounds p) as [B1 B2].
  assert (Zpos (digits2_pos p) - 1 < d /\ d - 1 < Zpos (digits2_pos p)) as [? ?]; [|lia].
  split; apply (Z.pow_lt_mono_r_iff 2); try lia. destruct (Z.le_gt_cases 0 d); [done|].
  by rewrite (Z.pow_neg_r 2 d) in H2 by lia.
Qed.

Lemma iter_xO m k : Zpos (Pos.iter xO m k) = Zpos m * 2 ^ Zpos k.
Proof.
  induction k as [|k IH] using Pos.peano_ind; [cbn; lia|].
  rewrite Pos.iter_succ, Pos2Z.inj_succ, Z.pow_succ_r by lia. rewrite Pos2Z.inj_xO, IH. ring.
Qed.

Lemma iter_pos_nat {A} (f : A -> A) n x : SpecFloat.iter_pos f n x = Nat.iter (Pos.to_nat n) f x.
Proof.
  revert x. induction n as [n IH|n IH|]; intros x; cbn [SpecFloat.iter_pos]; [..|done].
  - rewrite !IH, <- Nat.iter_add, Pos2Nat.inj_xI. replace (S (2 * Pos.to_nat n)) with (Pos.to_nat n + Pos.to_nat n + 1)%nat by lia.
    by rewrite (Nat.iter_add _ 1).
  - rewrite !IH, <- Nat.iter_add, Pos2Nat.inj_xO. f_equal. lia.
Qed.

(** Shifting out zeros. *)
Lemma shr_exact m n e : shr (Build_shr_record (Zpos m * 2 ^ Zpos n) false false) e (Zpos n) = (Build_shr_record (Zpos m) false false, e + Zpos n).
Proof.
  unfold shr. f_equal. rewrite iter_pos_nat, <- (positive_nat_Z n). induction (Pos.to_nat n) as [|k IH].
  - by rewrite Z.pow_0_r, Z.mul_1_r.
  - rewrite Nat.iter_succ_r, Nat2Z.inj_succ, Z.pow_succ_r by lia.
    replace (Zpos m * (2 * 2 ^ Z.of_nat k)) with (2 * (Zpos m * 2 ^ Z.of_nat k)) by ring.
    assert (0 < Zpos m * 2 ^ Z.of_nat k) as Hp by (apply Z.mul_pos_pos; [lia|apply Z.pow_pos_nonneg; lia]).
    destruct (Zpos m * 2 ^ Z.of_nat k) as [|q|q]; [lia| |lia]. exact IH.
Qed.

Lemma shr_fexp_exact m s e : Zpos (digits2_pos m) = 53 -> 0 <= s -> -1074 <= s + e ->
  shr_fexp 53 1024 (Zpos m * 2 ^ s) e loc_Exact = (Build_shr_record (Zpos m) false false, e + s).
Proof.
  intros Hd Hs He. unfold shr_fexp.
  assert (Zdigits2 (Zpos m * 2 ^ s) = 53 + s) as ->.
  { assert (0 < 2 ^ s) by (apply Z.pow_pos_nonneg; lia). destruct (2 ^ s) as [|q|q] eqn:Eq; [lia| |lia].
    rewrite <- Pos2Z.inj_mul. cbn [Zdigits2]. apply digits2_pos_unique. rewrite Pos2Z.inj_mul, <- Eq.
    pose proof (digits2_pos_bounds m) as [B1 B2]. rewrite Hd in *. replace (53 + s - 1) with (53 - 1 + s) by lia.
    rewrite !Z.pow_add_r by lia. split; [apply Z.mul_le_mono_nonneg_r; lia|apply Z.mul_lt_mono_pos_r; lia]. }
  unfold fexp, emin. rewrite Z.max_l by lia. replace (53 + s + e - 53 - e) with s by lia.
  destruct s as [|s|s]; [by rewrite Z.pow_0_r, Z.mul_1_r, Z.add_0_r|apply shr_exact|lia].
Qed.

Lemma binary_round_aux_exact m s e : Zpos (digits2_pos m) = 53 -> 0 <= s -> -1074 <= s + e <= 971 ->
  binary_round_aux 53 1024 false (Zpos m * 2 ^ s) e loc_Exact = S754_finite false m (e + s).
Proof.
  intros Hd Hs He. unfold binary_round_aux. rewrite (shr_fexp_exact m s e) by (done || lia). cbn [shr_m loc_of_shr_record round_nearest_even].
  pose proof (shr_fexp_exact m 0 (e + s) Hd ltac:(lia) ltac:(lia)) as H. rewrite Z.mul_1_r, Z.add_0_r in H. rewrite H. cbn [shr_m].
  by rewrite (proj2 (Z.leb_le _ _)) by lia.
Qed.

(** An integer below 2^53 is a double. *)
Lemma double_of_Z_exact p : Zpos p < 2 ^ 53 ->
  exists m, double_of_Z (Zpos p) = S754_finite false m (Zpos (digits2_pos p) - 53) /\
    Zpos (digits2_pos m) = 53 /\ Zpos m = Zpos p * 2 ^ (53 - Zpos (digits2_pos p)) /\ Zpos (digits2_pos p) <= 53.
Proof.
  intros Hp. pose proof (digits2_pos_bounds p) as [B1 B2]. set (d := Zpos (digits2_pos p)) in *.
  assert (d <= 53) as Hd.
  { destruct (Z.le_gt_cases d 53); [done|]. exfalso. apply (Z.lt_irrefl (Zpos p)), (Z.lt_le_trans _ (2 ^ 53)); [done|].
    etransitivity; [|exact B1]. apply Z.pow_le_mono_r; lia. }
  assert (exists m, shl_align p 0 (d - 53) = (m, d - 53) /\ Zpos m = Zpos p * 2 ^ (53 - d)) as (m & Hm & Em).
  { unfold shl_align. rewrite Z.sub_0_r. destruct (d - 53) as [|k|k] eqn:E; [|lia|].
    - exists p. replace (53 - d) with 0 by lia. by rewrite Z.mul_1_r.
    - exists (Pos.iter xO p k). rewrite iter_xO. split; [done|]. do 2 f_equal. lia. }
  assert (Zpos (digits2_pos m) = 53) as Hdm.
  { apply digits2_pos_unique. rewrite Em. replace (53 - 1) with (d - 1 + (53 - d)) by lia. replace (2 ^ 53) with (2 ^ (d + (53 - d))) by (f_equal; lia).
    rewrite !Z.pow_add_r by lia. assert (0 < 2 ^ (53 - d)) by (apply Z.pow_pos_nonneg; lia).
    split; [apply Z.mul_le_mono_nonneg_r; lia|apply Z.mul_lt_mono_pos_r; lia]. }
  exists m. split; [|done]. unfold double_of_Z, binary_normalize, binary_round. rewrite Z.add_0_r. fold d.
  assert (fexp 53 1024 d = d - 53) as -> by (unfold fexp, emin; lia). rewrite Hm.
  pose proof (binary_round_aux_exact m 0 (d - 53) Hdm ltac:(lia) ltac:(lia)) as H. by rewrite Z.mul_1_r, Z.add_0_r in H.
Qed.

(** The product with a power of two, as a UINT64. *)
Lemma double_mul_exact n j : 0 <= n < 2 ^ 53 -> 0 <= j <= 40 -> n * 2 ^ j < 2 ^ 64 ->
  double_to_uint64 (double_mul (double_of_Z n) (double_of_Z (2 ^ j))) = Some (n * 2 ^ j).
Proof.
  intros Hn Hj Hmax.
  assert (exists m2, double_of_Z (2 ^ j) = S754_finite false m2 (j - 52) /\ Zpos m2 = 2 ^ 52) as (m2 & E2 & Em2).
  { assert (0 < 2 ^ j) by (apply Z.pow_pos_nonneg; lia). destruct (2 ^ j) as [|q|q] eqn:Eq; [lia| |lia].
    destruct (double_of_Z_exact q) as (m & H1 & _ & H2 & _). { rewrite <- Eq. apply Z.pow_lt_mono_r; lia. }
    assert (Zpos (digits2_pos q) = j + 1) as Ed.
    { apply digits2_pos_unique. rewrite <- Eq, Z.add_simpl_r. split; [lia|apply Z.pow_lt_mono_r; lia]. }
    exists m. rewrite H1, H2, Ed, <- Eq, <- Z.pow_add_r by lia. split; [f_equal; lia|f_equal; lia]. }
  destruct n as [|p|p]; [by rewrite E2| |lia].
  destruct (double_of_Z_exact p) as (m1 & E1 & Hd & Em1 & Hd53); [lia|]. set (d := Zpos (digits2_pos p)) in *.
  assert (1 <= d) by lia. rewrite E1, E2. unfold double_mul, SFmul. rewrite Pos2Z.inj_mul, Em2. cbn [xorb].
  rewrite binary_round_aux_exact by (done || lia). replace (d - 53 + (j - 52) + 52) with (d - 53 + j) by lia.
  unfold double_to_uint64. rewrite Em1.
  assert ((if 0 <=? d - 53 + j then Zpos p * 2 ^ (53 - d) * 2 ^ (d - 53 + j)
           else Z.shiftr (Zpos p * 2 ^ (53 - d)) (- (d - 53 + j))) = Zpos p * 2 ^ j) as ->.
  { destruct (Z.leb_spec 0 (d - 53 + j)).
    - rewrite <- Z.mul_assoc, <- Z.pow_add_r by lia. do 2 f_equal. lia.
    - rewrite Z.shiftr_div_pow2 by lia. replace (53 - d) with (j + - (d - 53 + j)) by lia.
      rewrite Z.pow_add_r, Z.mul_assoc, Z.div_mul by lia. done. }
  by rewrite (proj2 (Z.ltb_lt _ _)) by done.
Qed.

Lemma strip_prefix_app word s : strip_prefix word (word ++ s) = Some s.
Proof. unfold strip_prefix, strcmp_eq. by rewrite take_app_length, bool_decide_eq_true_2, drop_app_length. Qed.

(** ** Decimal numerals *)

Definition numeral (n : Z) : list Z := chars (pretty (Z.to_N n)).

Lemma chars_cons a s : chars (String a s) = Z.of_N (Ascii.N_of_ascii a) :: chars s.
Proof. done. Qed.

Lemma pretty_char_digit d : (d < 10)%N -> Z.of_N (Ascii.N_of_ascii (pretty_N_char d)) = 48 + Z.of_N d.
Proof.
  intros Hd. assert (d ∈ [0; 1; 2; 3; 4; 5; 6; 7; 8; 9]%N) as H by (rewrite !elem_of_cons; lia).
  repeat (apply elem_of_cons in H as [->|H]; [done|]). by apply not_elem_of_nil in H.
Qed.

Lemma digit_in_char d : 0 <= d < 10 -> digit_in 10 (48 + d) = Some d.
Proof.
  intros Hd. unfold digit_in, hex_value, is_digit. rewrite (proj2 (Z.leb_le 48 (48 + d))), (proj2 (Z.leb_le (48 + d) 57)) by lia. cbn [andb mbind option_bind].
  replace (48 + d - 48) with d by lia. by rewrite (proj2 (Z.ltb_lt _ _)) by lia.
Qed.

Lemma digits_pretty_go x : forall s r, exists k, 0 <= k /\ ((0 < x)%N -> 0 < k) /\
  digits 10 0 0 (chars (pretty_N_go x s) ++ r) = digits 10 (Z.of_N x) k (chars s ++ r) /\
  (forall P : Z -> Prop, (forall c, 48 <= c <= 57 -> P c) -> Forall P (chars s) -> Forall P (chars (pretty_N_go x s))).
Proof.
  induction (N.lt_wf_0 x) as [x _ IH]. intros s r. destruct (N.eq_dec x 0) as [->|Hx].
  - exists 0. rewrite pretty_N_go_0. split_and!; try done; lia.
  - rewrite pretty_N_go_step by lia. destruct (IH (x `div` 10)%N ltac:(apply N.div_lt; lia) (String (pretty_N_char (x `mod` 10)) s) r)
      as (k & Hk & _ & E & HF).
    pose proof (N.mod_lt x 10 ltac:(lia)) as Hm. assert (0 <= Z.of_N (x `mod` 10)%N < 10) as Hm' by (clear -Hm; revert Hm; generalize (x `mod` 10)%N; lia). exists (k + 1). split_and!; [lia|lia| |].
    + rewrite E, chars_cons, pretty_char_digit by done. cbn [app digits]. rewrite digit_in_char by exact Hm'.
      do 1 f_equal. rewrite (N.div_mod x 10) at 3 by lia. lia.
    + intros P HP Hs. apply (HF P HP). rewrite chars_cons, pretty_char_digit by done. constructor; [apply HP; lia|done].
Qed.

(** A numeral is its digits, and they are read back. *)
Lemma digits_numeral n r : 0 <= n -> match r with c :: _ => digit_in 10 c = None | [] => True end ->
  (exists k, 0 < k /\ digits 10 0 0 (numeral n ++ r) = (n, k, r)) /\ Forall (fun c => 48 <= c <= 57) (numeral n) /\ numeral n <> [].
Proof.
  intros Hn Hr. assert (forall v k, digits 10 v k r = (v, k, r)) as Hstop by (intros; destruct r; cbn; [done|by rewrite Hr]).
  unfold numeral. destruct (decide (n = 0)) as [->|Hne].
  { change (chars (pretty (Z.to_N 0))) with [48]. split; [|by repeat constructor]. exists 1. split; [lia|]. cbn. apply Hstop. }
  assert (pretty (Z.to_N n) = pretty_N_go (Z.to_N n) "") as ->.
  { unfold pretty, pretty_N. by rewrite decide_False by lia. }
  destruct (digits_pretty_go (Z.to_N n) "" r) as (k & Hk & Hpos & E & HF).
  specialize (HF (fun c => 48 <= c <= 57) ltac:(done) ltac:(by constructor)). split_and!.
  - exists k. split; [lia|]. rewrite E. cbn [chars map app]. change (chars "" ++ r) with r. rewrite Hstop. do 2 f_equal. lia.
  - done.
  - intros E0. rewrite E0 in E. cbn [app] in E. change (chars "" ++ r) with r in E. rewrite !Hstop in E. injection E. lia.
Qed.

(** A numeral begins with a digit: there is no white space and no sign to skip. *)
Lemma numeral_head n r : 0 <= n -> exists c l, numeral n ++ r = c :: l /\ 48 <= c <= 57.
Proof.
  intros Hn. destruct (digits_numeral n [] Hn I) as (_ & HF & Hne). destruct (numeral n) as [|c l]; [done|].
  apply Forall_cons in HF as [Hc _]. by exists c, (l ++ r).
Qed.

Lemma numeral_white n r : 0 <= n -> skip_white (numeral n ++ r) = numeral n ++ r.
Proof.
  intros Hn. destruct (numeral_head n r Hn) as (c & l & -> & Hc). cbn. unfold is_space.
  destruct (Z.eqb_spec c 32); [lia|]. destruct (Z.leb_spec 9 c), (Z.leb_spec c 13); try done. lia.
Qed.

Lemma numeral_sign n r : 0 <= n -> sign (numeral n ++ r) = (false, numeral n ++ r).
Proof.
  intros Hn. destruct (numeral_head n r Hn) as (c & l & -> & Hc). cbn. by rewrite (proj2 (Z.eqb_neq c 45)), (proj2 (Z.eqb_neq c 43)) by lia.
Qed.

Lemma decimal_numeral w n : 0 < w -> 0 <= n < 2 ^ (w - 1) -> decimal w (numeral n) = n.
Proof.
  intros Hw [Hn Hmax]. unfold decimal. destruct (digits_numeral n [] Hn I) as ((k & _ & E) & _).
  rewrite <- (app_nil_r (numeral n)), numeral_white, numeral_sign, E by done. lia.
Qed.

Corollary atoi_numeral n : 0 <= n < 2 ^ 31 -> atoi (numeral n) = n.
Proof. by apply (decimal_numeral 32). Qed.
Corollary atoi64_numeral n : 0 <= n < 2 ^ 63 -> atoi64 (numeral n) = n.
Proof. by apply (decimal_numeral 64). Qed.

(** strtod reads a numeral that nothing follows that could belong to a number. *)
Lemma strtod_numeral n r : 0 <= n ->
  match r with c :: _ => c <> 46 /\ fold_case c <> 101 /\ fold_case c <> 120 /\ digit_in 10 c = None | [] => True end ->
  strtod (numeral n ++ r) = (double_of_Z n, r).
Proof.
  intros Hn Hr. destruct (digits_numeral n r Hn) as ((k & Hk & Hd) & HF & Hne); [by destruct r as [|? ?]; [|apply Hr]|].
  unfold strtod. destruct (numeral n) as [|c1 l] eqn:E; [done|]. apply Forall_cons in HF as [Hc1 HF].
  rewrite <- E, numeral_white, numeral_sign, E by done.
  assert (fold_case c1 = c1) as Hfold by (unfold fold_case; destruct (Z.leb_spec 65 c1); [lia|done]).
  assert (forall w, fold_case w <> c1 -> forall ws, starts_with ((c1 :: l) ++ r) (w :: ws) = None) as Hword.
  { intros w Hw ws. unfold starts_with, stricmp_eq. rewrite bool_decide_eq_false_2; [done|]. cbn. rewrite Hfold. congruence. }
  unfold chars at 1 2 3. cbn [String.list_ascii_of_string map].
  rewrite !Hword by (vm_compute; lia).
  assert (hex_float_prefix ((c1 :: l) ++ r) = None) as ->.
  { cbn. destruct l as [|c2 l]; cbn; [destruct r as [|c2 r]; [done|]|].
    - destruct Hr as (_ & _ & Hx & _). rewrite (proj2 (Z.eqb_neq _ 120)) by done. by rewrite andb_false_r.
    - apply Forall_cons in HF as [Hc2 _]. unfold fold_case. destruct (Z.leb_spec 65 c2); [lia|]. cbn [andb].
      rewrite (proj2 (Z.eqb_neq c2 120)) by lia. by rewrite andb_false_r. }
  unfold mantissa. rewrite Hd. assert (match r with [] => True | c :: _ => (c =? 46) = false end) as H46
    by (destruct r; [done|]; apply Z.eqb_neq, Hr).
  assert (exponent 101 r = (0, r)) as Hexp.
  { destruct r as [|c r]; [done|]. unfold exponent. by rewrite (proj2 (Z.eqb_neq _ _)) by apply Hr. }
  assert (with_sign false (double_scaled n 10 (0 - 0)) = double_of_Z n) as Hv.
  { unfold double_scaled. destruct (Z.eqb_spec n 0) as [->|]; [done|]. cbn. by rewrite Z.mul_1_r. }
  destruct r as [|c r]; [|rewrite H46]; rewrite (proj2 (Z.eqb_neq k 0)) by lia; by rewrite Hexp, Hv.
Qed.
