(* ===== verification/NvmeSpec.v ===== *)
(** The NVMe data the driver exchanges with the host: [include/nvme_spec.h]
    (commands, completions, opcodes, status codes), the limits of
    [include/vnvme_common.h] and [vnvme/vnvme.h], and the inline helpers and
    macros of [vnvme/vnvme_utils.h]. *)
From S2P Require Import Prelude.
Open Scope Z_scope.
Open Scope c_scope.

(** ** NTSTATUS

    The status values the driver returns, and the ones a kernel call hands
    back ([STATUS_EXTERNAL code], a 32-bit value). [NT_SUCCESS] is the WDK
    macro: the sign bit is clear. *)
Inductive NTSTATUS : Type :=
  | STATUS_SUCCESS
  | STATUS_NO_MORE_ENTRIES
  | STATUS_UNSUCCESSFUL
  | STATUS_INVALID_PARAMETER
  | STATUS_INVALID_DEVICE_STATE
  | STATUS_INVALID_DEVICE_REQUEST
  | STATUS_DEVICE_NOT_READY
  | STATUS_DEVICE_BUSY
  | STATUS_NOT_FOUND
  | STATUS_NOT_SUPPORTED
  | STATUS_OBJECT_NAME_COLLISION
  | STATUS_INSUFFICIENT_RESOURCES
  | STATUS_MEDIA_WRITE_PROTECTED
  | STATUS_BUFFER_TOO_SMALL
  | STATUS_ACCESS_VIOLATION
  | STATUS_ACCESS_DENIED
  | STATUS_REVISION_MISMATCH
  | STATUS_QUOTA_EXCEEDED
  | STATUS_INTEGER_OVERFLOW
  | STATUS_DEVICE_ALREADY_ATTACHED
  | STATUS_EXTERNAL (code : Z).

#[export] Instance NTSTATUS_EqDecision : EqDecision NTSTATUS.
Proof. solve_decision. Defined.

Definition NT_SUCCESS (s : NTSTATUS) : bool :=
  match s with
  | STATUS_SUCCESS => true
  | STATUS_EXTERNAL code => u32 code <? 2 ^ 31
  | _ => false
  end.

(** ** Admin opcodes *)
Definition NVME_ADMIN_DELETE_IO_SQ : Z := 0x00.
Definition NVME_ADMIN_CREATE_IO_SQ : Z := 0x01.
Definition NVME_ADMIN_GET_LOG_PAGE : Z := 0x02.
Definition NVME_ADMIN_DELETE_IO_CQ : Z := 0x04.
Definition NVME_ADMIN_CREATE_IO_CQ : Z := 0x05.
Definition NVME_ADMIN_IDENTIFY : Z := 0x06.
Definition NVME_ADMIN_ABORT : Z := 0x08.
Definition NVME_ADMIN_SET_FEATURES : Z := 0x09.
Definition NVME_ADMIN_GET_FEATURES : Z := 0x0A.
Definition NVME_ADMIN_ASYNC_EVENT_REQUEST : Z := 0x0C.
Definition NVME_ADMIN_NAMESPACE_MANAGEMENT : Z := 0x0D.
Definition NVME_ADMIN_FIRMWARE_COMMIT : Z := 0x10.
Definition NVME_ADMIN_FIRMWARE_DOWNLOAD : Z := 0x11.
Definition NVME_ADMIN_NAMESPACE_ATTACHMENT : Z := 0x15.
Definition NVME_ADMIN_KEEP_ALIVE : Z := 0x18.
Definition NVME_ADMIN_FORMAT_NVM : Z := 0x80.
Definition NVME_ADMIN_SECURITY_SEND : Z := 0x81.
Definition NVME_ADMIN_SECURITY_RECEIVE : Z := 0x82.

(** ** I/O opcodes *)
Definition NVME_IO_FLUSH : Z := 0x00.
Definition NVME_IO_WRITE : Z := 0x01.
Definition NVME_IO_READ : Z := 0x02.
Definition NVME_IO_WRITE_UNCORRECTABLE : Z := 0x04.
Definition NVME_IO_COMPARE : Z := 0x05.
Definition NVME_IO_WRITE_ZEROES : Z := 0x08.
Definition NVME_IO_DATASET_MANAGEMENT : Z := 0x09.
Definition NVME_IO_VERIFY : Z := 0x0C.

(** ** Status code types *)
Definition NVME_SCT_GENERIC : Z := 0x00.
Definition NVME_SCT_COMMAND : Z := 0x01.
Definition NVME_SCT_MEDIA_ERROR : Z := 0x02.
Definition NVME_SCT_PATH : Z := 0x03.
Definition NVME_SCT_VENDOR : Z := 0x07.

(** ** Status codes *)
Definition NVME_SC_SUCCESS : Z := 0x00.
Definition NVME_SC_INVALID_OPCODE : Z := 0x01.
Definition NVME_SC_INVALID_FIELD : Z := 0x02.
Definition NVME_SC_DATA_TRANSFER_ERROR : Z := 0x04.
Definition NVME_SC_INTERNAL_ERROR : Z := 0x06.
Definition NVME_SC_INVALID_NAMESPACE : Z := 0x0B.
Definition NVME_SC_LBA_OUT_OF_RANGE : Z := 0x80.
Definition NVME_SC_INVALID_QUEUE_ID : Z := 0x01.
Definition NVME_SC_INVALID_QUEUE_SIZE : Z := 0x02.
Definition NVME_SC_ASYNC_EVENT_LIMIT_EXCEEDED : Z := 0x05.
Definition NVME_SC_INVALID_LOG_PAGE : Z := 0x09.
Definition NVME_SC_INVALID_QUEUE_DELETION : Z := 0x0C.
Definition NVME_SC_CQ_INVALID : Z := 0x18.
Definition NVME_SC_WRITE_FAULT : Z := 0x80.
Definition NVME_SC_UNRECOVERED_READ_ERROR : Z := 0x81.
Definition NVME_SC_COMPARE_FAILURE : Z := 0x85.

(** ** Limits *)
Definition VNVME_MAX_AER_COMMANDS : Z := 4.
Definition VNVME_BAR0_SIZE : Z := 64 * 1024.
Definition VNVME_NVME_PAGE_SIZE : Z := 4096.
Definition VNVME_SHM_SIZE : Z := 64 * 1024 * 1024.
Definition VNVME_CONTROL_BLOCK_SIZE : Z := 4096.
Definition VNVME_ADMIN_QUEUE_DEPTH : Z := 64.
Definition VNVME_IO_QUEUE_DEPTH : Z := 256.
Definition VNVME_MAX_IO_QUEUES : Z := 16.
Definition VNVME_MAX_NAMESPACES : Z := 16.
Definition NVME_SQ_ENTRY_SIZE : Z := 64.
Definition NVME_CQ_ENTRY_SIZE : Z := 16.
Definition VNVME_SHM_MAGIC : Z := 0x454D564E.
Definition VNVME_SHM_VERSION : Z := 2.
Definition VNVME_NOTIFY_RING_SIZE : Z := 256.

(** ** Commands and completions *)
(** The 64-byte submission queue entry. *)
Record NVME_COMMAND := mkCommand {
  cmd_OPC : Z;  (* 8 bits *)
  cmd_FUSE : Z;  (* 2 bits *)
  cmd_Reserved1 : Z;  (* 4 bits *)
  cmd_PSDT : Z;  (* 2 bits *)
  cmd_CID : Z;  (* 16 bits *)
  cmd_NSID : Z;  (* 32 bits *)
  cmd_Reserved2 : Z;  (* 32 bits *)
  cmd_Reserved3 : Z;  (* 32 bits *)
  cmd_MPTR : Z;  (* 64 bits *)
  cmd_PRP1 : Z;  (* 64 bits *)
  cmd_PRP2 : Z;  (* 64 bits *)
  cmd_CDW10 : Z;  (* 32 bits *)
  cmd_CDW11 : Z;  (* 32 bits *)
  cmd_CDW12 : Z;  (* 32 bits *)
  cmd_CDW13 : Z;  (* 32 bits *)
  cmd_CDW14 : Z;  (* 32 bits *)
  cmd_CDW15 : Z  (* 32 bits *)
}.

Definition etaCommand r :=
  mkCommand (cmd_OPC r) (cmd_FUSE r) (cmd_Reserved1 r) (cmd_PSDT r) (cmd_CID r) (cmd_NSID r) (cmd_Reserved2 r)
    (cmd_Reserved3 r) (cmd_MPTR r) (cmd_PRP1 r) (cmd_PRP2 r) (cmd_CDW10 r) (cmd_CDW11 r) (cmd_CDW12 r)
    (cmd_CDW13 r) (cmd_CDW14 r) (cmd_CDW15 r).
#[export] Instance set_cmd_OPC : Setter cmd_OPC := ltac:(mk_setter etaCommand).
#[export] Instance set_cmd_FUSE : Setter cmd_FUSE := ltac:(mk_setter etaCommand).
#[export] Instance set_cmd_Reserved1 : Setter cmd_Reserved1 := ltac:(mk_setter etaCommand).
#[export] Instance set_cmd_PSDT : Setter cmd_PSDT := ltac:(mk_setter etaCommand).
#[export] Instance set_cmd_CID : Setter cmd_CID := ltac:(mk_setter etaCommand).
#[export] Instance set_cmd_NSID : Setter cmd_NSID := ltac:(mk_setter etaCommand).
#[export] Instance set_cmd_Reserved2 : Setter cmd_Reserved2 := ltac:(mk_setter etaCommand).
#[export] Instance set_cmd_Reserved3 : Setter cmd_Reserved3 := ltac:(mk_setter etaCommand).
#[export] Instance set_cmd_MPTR : Setter cmd_MPTR := ltac:(mk_setter etaCommand).
#[export] Instance set_cmd_PRP1 : Setter cmd_PRP1 := ltac:(mk_setter etaCommand).
#[export] Instance set_cmd_PRP2 : Setter cmd_PRP2 := ltac:(mk_setter etaCommand).
#[export] Instance set_cmd_CDW10 : Setter cmd_CDW10 := ltac:(mk_setter etaCommand).
#[export] Instance set_cmd_CDW11 : Setter cmd_CDW11 := ltac:(mk_setter etaCommand).
#[export] Instance set_cmd_CDW12 : Setter cmd_CDW12 := ltac:(mk_setter etaCommand).
#[export] Instance set_cmd_CDW13 : Setter cmd_CDW13 := ltac:(mk_setter etaCommand).
#[export] Instance set_cmd_CDW14 : Setter cmd_CDW14 := ltac:(mk_setter etaCommand).
#[export] Instance set_cmd_CDW15 : Setter cmd_CDW15 := ltac:(mk_setter etaCommand).

(** The 16-byte completion queue entry. *)
Record NVME_COMPLETION := mkCompletion {
  cpl_DW0 : Z;  (* 32 bits *)
  cpl_DW1 : Z;  (* 32 bits *)
  cpl_SQHD : Z;  (* 16 bits *)
  cpl_SQID : Z;  (* 16 bits *)
  cpl_CID : Z;  (* 16 bits *)
  cpl_Status : Z  (* 16 bits *)
}.

Definition etaCompletion r :=
  mkCompletion (cpl_DW0 r) (cpl_DW1 r) (cpl_SQHD r) (cpl_SQID r) (cpl_CID r) (cpl_Status r).
#[export] Instance set_cpl_DW0 : Setter cpl_DW0 := ltac:(mk_setter etaCompletion).
#[export] Instance set_cpl_DW1 : Setter cpl_DW1 := ltac:(mk_setter etaCompletion).
#[export] Instance set_cpl_SQHD : Setter cpl_SQHD := ltac:(mk_setter etaCompletion).
#[export] Instance set_cpl_SQID : Setter cpl_SQID := ltac:(mk_setter etaCompletion).
#[export] Instance set_cpl_CID : Setter cpl_CID := ltac:(mk_setter etaCompletion).
#[export] Instance set_cpl_Status : Setter cpl_Status := ltac:(mk_setter etaCompletion).

#[export] Instance NVME_COMMAND_EqDecision : EqDecision NVME_COMMAND.
Proof. solve_decision. Defined.
#[export] Instance NVME_COMPLETION_EqDecision : EqDecision NVME_COMPLETION.
Proof. solve_decision. Defined.

(** [NVME_COMMAND cmd = {0}] and [NVME_COMPLETION completion = {0}]. *)
Definition zero_command : NVME_COMMAND := mkCommand 0 0 0 0 0 0 0 0 0 0 0 0 0 0 0 0 0.
Definition zero_completion : NVME_COMPLETION := mkCompletion 0 0 0 0 0 0.

(** The byte layout (packed, little endian): reading the entry at offset [a]. *)
Definition cmd_load (m : mem) (a : Z) : NVME_COMMAND :=
  let b1 := load_le m (a + 1) 1 in
  mkCommand (load_le m a 1) (bits b1 0 2) (bits b1 2 4) (bits b1 6 2) (load_le m (a + 2) 2)
    (load_le m (a + 4) 4) (load_le m (a + 8) 4) (load_le m (a + 12) 4)
    (load_le m (a + 16) 8) (load_le m (a + 24) 8) (load_le m (a + 32) 8)
    (load_le m (a + 40) 4) (load_le m (a + 44) 4) (load_le m (a + 48) 4)
    (load_le m (a + 52) 4) (load_le m (a + 56) 4) (load_le m (a + 60) 4).

Definition cmd_store (m : mem) (a : Z) (c : NVME_COMMAND) : mem :=
  let m := store_le m a 1 (cmd_OPC c) in
  let m := store_le m (a + 1) 1
             (Z.lor (cmd_FUSE c) (Z.lor (Z.shiftl (cmd_Reserved1 c) 2) (Z.shiftl (cmd_PSDT c) 6))) in
  let m := store_le m (a + 2) 2 (cmd_CID c) in
  let m := store_le m (a + 4) 4 (cmd_NSID c) in
  let m := store_le m (a + 8) 4 (cmd_Reserved2 c) in
  let m := store_le m (a + 12) 4 (cmd_Reserved3 c) in
  let m := store_le m (a + 16) 8 (cmd_MPTR c) in
  let m := store_le m (a + 24) 8 (cmd_PRP1 c) in
  let m := store_le m (a + 32) 8 (cmd_PRP2 c) in
  let m := store_le m (a + 40) 4 (cmd_CDW10 c) in
  let m := store_le m (a + 44) 4 (cmd_CDW11 c) in
  let m := store_le m (a + 48) 4 (cmd_CDW12 c) in
  let m := store_le m (a + 52) 4 (cmd_CDW13 c) in
  let m := store_le m (a + 56) 4 (cmd_CDW14 c) in
  store_le m (a + 60) 4 (cmd_CDW15 c).

Definition cpl_load (m : mem) (a : Z) : NVME_COMPLETION :=
  mkCompletion (load_le m a 4) (load_le m (a + 4) 4) (load_le m (a + 8) 2)
    (load_le m (a + 10) 2) (load_le m (a + 12) 2) (load_le m (a + 14) 2).

Definition cpl_store (m : mem) (a : Z) (c : NVME_COMPLETION) : mem :=
  let m := store_le m a 4 (cpl_DW0 c) in
  let m := store_le m (a + 4) 4 (cpl_DW1 c) in
  let m := store_le m (a + 8) 2 (cpl_SQHD c) in
  let m := store_le m (a + 10) 2 (cpl_SQID c) in
  let m := store_le m (a + 12) 2 (cpl_CID c) in
  store_le m (a + 14) 2 (cpl_Status c).

(** The fields fit the widths of the C structures. *)
Definition cmd_wf (c : NVME_COMMAND) : Prop :=
  (0 <= cmd_OPC c < 2 ^ 8 /\ 0 <= cmd_FUSE c < 2 ^ 2 /\ 0 <= cmd_Reserved1 c < 2 ^ 4 /\
   0 <= cmd_PSDT c < 2 ^ 2 /\ 0 <= cmd_CID c < 2 ^ 16 /\ 0 <= cmd_NSID c < 2 ^ 32) /\
  (0 <= cmd_Reserved2 c < 2 ^ 32 /\ 0 <= cmd_Reserved3 c < 2 ^ 32 /\ 0 <= cmd_MPTR c < 2 ^ 64 /\
   0 <= cmd_PRP1 c < 2 ^ 64 /\ 0 <= cmd_PRP2 c < 2 ^ 64) /\
  (0 <= cmd_CDW10 c < 2 ^ 32 /\ 0 <= cmd_CDW11 c < 2 ^ 32 /\ 0 <= cmd_CDW12 c < 2 ^ 32 /\
   0 <= cmd_CDW13 c < 2 ^ 32 /\ 0 <= cmd_CDW14 c < 2 ^ 32 /\ 0 <= cmd_CDW15 c < 2 ^ 32).

Definition cpl_wf (c : NVME_COMPLETION) : Prop :=
  0 <= cpl_DW0 c < 2 ^ 32 /\ 0 <= cpl_DW1 c < 2 ^ 32 /\ 0 <= cpl_SQHD c < 2 ^ 16 /\
  0 <= cpl_SQID c < 2 ^ 16 /\ 0 <= cpl_CID c < 2 ^ 16 /\ 0 <= cpl_Status c < 2 ^ 16.

(** ** The status field of a completion *)

Definition NVME_STATUS_P (status : Z) : Z := Z.land status 0x0001.
Definition NVME_STATUS_SC (status : Z) : Z := Z.land (Z.shiftr status 1) 0xFF.
Definition NVME_STATUS_SCT (status : Z) : Z := Z.land (Z.shiftr status 9) 0x07.
Definition NVME_STATUS_M (status : Z) : Z := Z.land (Z.shiftr status 14) 0x01.
Definition NVME_STATUS_DNR (status : Z) : Z := Z.land (Z.shiftr status 15) 0x01.

Definition NvmeMakeStatus (sct sc phase : Z) : Z :=
  u16 (Z.lor (Z.lor phase (Z.shiftl sc 1)) (Z.shiftl sct 9)).
Definition NvmeMakeSuccessStatus (phase : Z) : Z :=
  NvmeMakeStatus NVME_SCT_GENERIC NVME_SC_SUCCESS phase.

(** ** Validation helpers and macros of vnvme_utils.h *)

Definition NvmeValidateNsid (nsid : Z) : bool := (0 <? nsid) && (nsid <=? VNVME_MAX_NAMESPACES).
Definition VNVME_NSID_VALID (nsid : Z) : bool := (0 <? nsid) && (nsid <=? VNVME_MAX_NAMESPACES).
Definition VNVME_NSID_TO_INDEX (nsid : Z) : Z := nsid - 1.
Definition NvmeValidateIoQueueId (qid : Z) : bool := (0 <? qid) && (qid <=? VNVME_MAX_IO_QUEUES).
Definition VNVME_IO_QUEUE_ID_VALID (qid : Z) : bool := (0 <? qid) && (qid <=? VNVME_MAX_IO_QUEUES).
Definition VNVME_QUEUE_ID_TO_INDEX (qid : Z) : Z := qid - 1.
Definition NvmeValidateLbaRange (slba nlb totalBlocks : Z) : bool := (slba +₆₄ nlb) <=? totalBlocks.
Definition VNVME_LBA_RANGE_VALID (slba nlb total : Z) : bool := (slba +₆₄ nlb) <=? total.
Definition VNVME_LBA_TO_BYTES (lba blockSize : Z) : Z := lba *₆₄ blockSize.
Definition VNVME_BLOCKS_TO_BYTES (nlb blockSize : Z) : Z := nlb *₆₄ blockSize.

Definition NvmeSafeRangeCheck (offset length totalSize : Z) : bool :=
  if totalSize <? offset then false
  else if (totalSize -₆₄ offset) <? length then false
  else true.

(** ** Lemmas *)

(** Every load from memory is in range, so a fetched command is well formed. *)
Lemma cmd_load_wf m a : cmd_wf (cmd_load m a).
Proof.
  unfold cmd_wf, cmd_load; cbn -[Z.pow].
  repeat first [exact (load_le_range _ _ _) | apply bits_range; lia | split].
Qed.

Lemma cmd_load_ext m1 m2 a1 a2 :
  (forall i, 0 <= i < 64 -> rd8 m1 (a1 + i) = rd8 m2 (a2 + i)) -> cmd_load m1 a1 = cmd_load m2 a2.
Proof.
  intros H. assert (forall k n, 0 <= k -> k + Z.of_nat n <= 64 ->
                    load_le m1 (a1 + k) n = load_le m2 (a2 + k) n) as L.
  { intros k n ??. apply load_le_ext. intros i Hi. rewrite <- !Z.add_assoc. apply H. lia. }
  unfold cmd_load. pose proof (L 0) as L0. rewrite !Z.add_0_r in L0.
  rewrite L0 by lia. by rewrite !L by lia.
Qed.

Lemma cpl_load_ext m1 m2 a1 a2 :
  (forall i, 0 <= i < 16 -> rd8 m1 (a1 + i) = rd8 m2 (a2 + i)) -> cpl_load m1 a1 = cpl_load m2 a2.
Proof.
  intros H. assert (forall k n, 0 <= k -> k + Z.of_nat n <= 16 ->
                    load_le m1 (a1 + k) n = load_le m2 (a2 + k) n) as L.
  { intros k n ??. apply load_le_ext. intros i Hi. rewrite <- !Z.add_assoc. apply H. lia. }
  unfold cpl_load. pose proof (L 0) as L0. rewrite !Z.add_0_r in L0.
  rewrite L0 by lia. by rewrite !L by lia.
Qed.

(** Writing a completion touches exactly its sixteen bytes. *)
Lemma rd8_cpl_store_out m a c x : ~ (a <= x < a + 16) -> rd8 (cpl_store m a c) x = rd8 m x.
Proof. intros. unfold cpl_store. by autorewrite with memory. Qed.

Lemma rd8_cmd_store_out m a c x : ~ (a <= x < a + 64) -> rd8 (cmd_store m a c) x = rd8 m x.
Proof. intros. unfold cmd_store. by autorewrite with memory. Qed.

Lemma cpl_load_store m a c : cpl_wf c -> cpl_load (cpl_store m a c) a = c.
Proof.
  intros (?&?&?&?&?&?). destruct c; simpl in *.
  unfold cpl_load, cpl_store; simpl. by autorewrite with memory.
Qed.

Lemma cpl_load_store_other m a b c :
  b + 16 <= a \/ a + 16 <= b -> cpl_load (cpl_store m a c) b = cpl_load m b.
Proof. intros. apply cpl_load_ext. intros. apply rd8_cpl_store_out. lia. Qed.

Lemma cmd_load_store m a c : cmd_wf c -> cmd_load (cmd_store m a c) a = c.
Proof.
  intros ((?&Hf&Hr&Hp&?&?)&(?&?&?&?&?)&(?&?&?&?&?&?)).
  destruct c as [opc fuse rsv psdt cid nsid r2 r3 mptr prp1 prp2 d10 d11 d12 d13 d14 d15]; simpl in *.
  unfold cmd_load, cmd_store; simpl.
  replace (Z.shiftl psdt 6) with (Z.shiftl (Z.shiftl psdt 4) 2) by (by rewrite Z.shiftl_shiftl).
  rewrite <- Z.shiftl_lor, !lor_shiftl_add by lia.
  autorewrite with memory.
  rewrite !bits_div by lia. f_equal; Z.div_mod_to_equations; lia.
Qed.

(** Packing a status and unpacking it with the specification's macros. *)
Lemma NvmeMakeStatus_add sct sc phase :
  0 <= sct < 2 ^ 3 -> 0 <= sc < 2 ^ 8 -> 0 <= phase < 2 ->
  NvmeMakeStatus sct sc phase = phase + sc * 2 + sct * 512.
Proof.
  intros. unfold NvmeMakeStatus. rewrite (lor_shiftl_add phase), lor_shiftl_add by lia.
  apply u16_small. lia.
Qed.

(** ** Properties *)

(** A command laid out in a submission queue slot as the host writes it is
    the command the driver decodes: decoding the packed 64 bytes of a
    well-formed NVME_COMMAND, bit-fields included, gives it back. *)
Lemma command_roundtrip (m : mem) (a : Z) (c : NVME_COMMAND) :
  cmd_wf c -> cmd_load (cmd_store m a c) a = c.
Proof. apply cmd_load_store. Qed.

Definition sample_command : NVME_COMMAND :=
  mkCommand 0x02 1 9 2 0x1234 7 0 0 0x1122334455667788 0x200010 0x300000 5 6 0xFFFF 0 0 1.

(** NvmeMakeStatus and the NVME_STATUS_* macros of the specification header
    are inverse: phase, status code and status code type come back, and the
    More and Do-Not-Retry bits stay clear. *)
Lemma NvmeMakeStatus_fields (sct sc phase : Z) :
  0 <= sct < 2 ^ 3 -> 0 <= sc < 2 ^ 8 -> 0 <= phase < 2 ->
  let st := NvmeMakeStatus sct sc phase in
  NVME_STATUS_P st = phase /\ NVME_STATUS_SC st = sc /\ NVME_STATUS_SCT st = sct /\
  NVME_STATUS_M st = 0 /\ NVME_STATUS_DNR st = 0.
Proof.
  intros Hsct Hsc Hp st. subst st. rewrite NvmeMakeStatus_add by done.
  unfold NVME_STATUS_P, NVME_STATUS_SC, NVME_STATUS_SCT, NVME_STATUS_M, NVME_STATUS_DNR.
  rewrite !(land_mask _ 1 1), (land_mask _ 0xFF 8), (land_mask _ 0x07 3), !Z.shiftr_div_pow2 by done.
  repeat split; Z.div_mod_to_equations; lia.
Qed.

(** Setters unfold on demand. *)
#[export] Hint Unfold set_cmd_OPC set_cmd_FUSE set_cmd_Reserved1 set_cmd_PSDT set_cmd_CID set_cmd_NSID
  set_cmd_Reserved2 set_cmd_Reserved3 set_cmd_MPTR set_cmd_PRP1 set_cmd_PRP2 set_cmd_CDW10 set_cmd_CDW11
  set_cmd_CDW12 set_cmd_CDW13 set_cmd_CDW14 set_cmd_CDW15 set_cpl_DW0 set_cpl_DW1 set_cpl_SQHD set_cpl_SQID
  set_cpl_CID set_cpl_Status : setters.
