(* ===== verification/Kernel.v ===== *)
(** The Windows kernel services the driver calls, as an interface.

    Nothing here is code of the repository: the services are members of a
    class, so every theorem holds for all of their behaviours, and the
    documented behaviour a theorem relies on is stated as a second class of
    laws.  [TestKernel] is a concrete instance, used by the witnesses. *)
From S2P Require Import Prelude NvmeSpec.
Open Scope Z_scope.
Open Scope c_scope.

(** Pool allocations and physical mappings may fail: the answer depends on
    the call ([t] counts them) and on the request.  Pool memory comes back
    zeroed, as ExAllocatePool2 documents.  An open file is an abstract state
    of type [File]. *)
Class WinKernel := {
  ExAllocatePool2 : nat -> Z -> bool;
  MmMapIoSpace : nat -> Z -> Z -> bool;
  MmAllocateContiguousMemorySpecifyCache : nat -> Z -> bool;
  MmGetPhysicalAddress : nat -> Z;
  IoAllocateMdl : nat -> Z -> bool;
  MmMapLockedPagesSpecifyCache : nat -> option bool;  (* None: it raises an exception *)
  File : Type;
  ZwCreateFile : nat -> list Z -> bool -> bool -> NTSTATUS * File * bool;
    (* path, read only, overwrite; the status, the file, FILE_CREATED *)
  ZwSetEndOfFile : File -> Z -> NTSTATUS * File;
  FSCTL_SET_SPARSE : File -> NTSTATUS * File * bool;
    (* the last component: the I/O status says FILE_CREATED *)
  ZwReadFile : File -> Z -> Z -> NTSTATUS * mem;
  ZwWriteFile : File -> Z -> mem -> Z -> NTSTATUS * File;
  FSCTL_SET_ZERO_DATA : File -> Z -> Z -> NTSTATUS * File;
}.

(** The documented behaviour of the file calls, for ranges inside the file:
    a successful read returns the bytes, a successful write stores them, a
    successful FSCTL_SET_ZERO_DATA makes the range read as zero, and one that
    fails leaves the bytes outside of the range alone. *)
Class FileLaws (W : WinKernel) := {
  file_byte : File -> Z -> Z;
  read_law f off len st m i :
    ZwReadFile f off len = (st, m) -> NT_SUCCESS st = true -> 0 <= i < len ->
    rd8 m i = file_byte f (off + i);
  write_law f off src len st f' a :
    ZwWriteFile f off src len = (st, f') -> NT_SUCCESS st = true ->
    file_byte f' a = if decide (off <= a < off + len) then rd8 src (a - off) else file_byte f a;
  zero_law f b e st f' a :
    FSCTL_SET_ZERO_DATA f b e = (st, f') -> NT_SUCCESS st = true ->
    b <= a < e -> file_byte f' a = 0;
  zero_frame f b e st f' a :
    FSCTL_SET_ZERO_DATA f b e = (st, f') -> ~ (b <= a < e) -> file_byte f' a = file_byte f a;
}.

(** A kernel whose calls all succeed and whose files are byte memories. *)
#[local] Instance TestKernel : WinKernel := {|
  ExAllocatePool2 _ _ := true;
  MmMapIoSpace _ _ _ := true;
  MmAllocateContiguousMemorySpecifyCache _ _ := true;
  MmGetPhysicalAddress _ := 0x80000000;
  IoAllocateMdl _ _ := true;
  MmMapLockedPagesSpecifyCache _ := Some true;
  File := mem;
  ZwCreateFile _ _ _ _ := (STATUS_SUCCESS, mem_zero, true);
  ZwSetEndOfFile f _ := (STATUS_SUCCESS, f);
  FSCTL_SET_SPARSE f := (STATUS_SUCCESS, f, false);
  ZwReadFile f off len := (STATUS_SUCCESS, fun i => f (off + i));
  ZwWriteFile f off src len := (STATUS_SUCCESS, mem_copy f off src 0 len);
  FSCTL_SET_ZERO_DATA f b e := (STATUS_SUCCESS, mem_fill f b (e - b) 0);
|}.

#[local] Instance TestKernel_laws : FileLaws TestKernel.
Proof.
  refine {| file_byte := (rd8 : @File TestKernel -> Z -> Z) |}.
  - by intros f off len st m i [= <- <-] _ Hi.
  - intros f off src len st f' a [= <- <-] _. case_decide; by autorewrite with memory.
  - intros f b e st f' a [= <- <-] _ ?. by autorewrite with memory.
  - intros f b e st f' a [= <- <-] ?. by autorewrite with memory.
Defined.
