(* ===== verification/Config.v ===== *)
(** Driver configuration: [vnvme/config.h] and [vnvme/config.c].

    The registry is outside of the program: [ZwQueryValueKey name size] is the
    answer to a query with a [size]-byte buffer. *)
From S2P Require Import Prelude NvmeSpec.
Open Scope Z_scope.
Open Scope c_scope.

Inductive VNVME_STORAGE_TYPE : Type :=
  | VNVME_STORAGE_TYPE_NONE
  | VNVME_STORAGE_TYPE_MEMORY
  | VNVME_STORAGE_TYPE_FILE
  | VNVME_STORAGE_TYPE_SPARSE.

#[export] Instance VNVME_STORAGE_TYPE_EqDecision : EqDecision VNVME_STORAGE_TYPE.
Proof. solve_decision. Defined.

(** The enumerator of value [v], for [v <= VNVME_STORAGE_TYPE_SPARSE]. *)
Definition storage_type_of (v : Z) : VNVME_STORAGE_TYPE :=
  if v =? 0 then VNVME_STORAGE_TYPE_NONE
  else if v =? 1 then VNVME_STORAGE_TYPE_MEMORY
  else if v =? 2 then VNVME_STORAGE_TYPE_FILE
  else VNVME_STORAGE_TYPE_SPARSE.

(** The driver's configuration ([g_Config]). *)
Record VNVME_CONFIG := mkConfig {
  cfg_DebugLevel : Z;
  cfg_DebugFlags : Z;
  cfg_HeartbeatTimeout100ns : Z;
  cfg_StorageType : VNVME_STORAGE_TYPE;
  cfg_StoragePath : list Z;  (* WCHARs before the terminator *)
  cfg_StorageSizeGB : Z;
  cfg_MaxIOQueues : Z;
  cfg_AdminQueueDepth : Z;
  cfg_IOQueueDepth : Z;
  cfg_DoorbellPollIntervalUs : Z;
  cfg_BatchSize : Z;
  cfg_AllowUserModeAccess : bool;
  cfg_RequireAdminPrivilege : bool
}.

Definition etaConfig r :=
  mkConfig (cfg_DebugLevel r) (cfg_DebugFlags r) (cfg_HeartbeatTimeout100ns r) (cfg_StorageType r)
    (cfg_StoragePath r) (cfg_StorageSizeGB r) (cfg_MaxIOQueues r) (cfg_AdminQueueDepth r) (cfg_IOQueueDepth r)
    (cfg_DoorbellPollIntervalUs r) (cfg_BatchSize r) (cfg_AllowUserModeAccess r) (cfg_RequireAdminPrivilege r).
#[export] Instance set_cfg_DebugLevel : Setter cfg_DebugLevel := ltac:(mk_setter etaConfig).
#[export] Instance set_cfg_DebugFlags : Setter cfg_DebugFlags := ltac:(mk_setter etaConfig).
#[export] Instance set_cfg_HeartbeatTimeout100ns : Setter cfg_HeartbeatTimeout100ns := ltac:(mk_setter etaConfig).
#[export] Instance set_cfg_StorageType : Setter cfg_StorageType := ltac:(mk_setter etaConfig).
#[export] Instance set_cfg_StoragePath : Setter cfg_StoragePath := ltac:(mk_setter etaConfig).
#[export] Instance set_cfg_StorageSizeGB : Setter cfg_StorageSizeGB := ltac:(mk_setter etaConfig).
#[export] Instance set_cfg_MaxIOQueues : Setter cfg_MaxIOQueues := ltac:(mk_setter etaConfig).
#[export] Instance set_cfg_AdminQueueDepth : Setter cfg_AdminQueueDepth := ltac:(mk_setter etaConfig).
#[export] Instance set_cfg_IOQueueDepth : Setter cfg_IOQueueDepth := ltac:(mk_setter etaConfig).
#[export] Instance set_cfg_DoorbellPollIntervalUs : Setter cfg_DoorbellPollIntervalUs := ltac:(mk_setter etaConfig).
#[export] Instance set_cfg_BatchSize : Setter cfg_BatchSize := ltac:(mk_setter etaConfig).
#[export] Instance set_cfg_AllowUserModeAccess : Setter cfg_AllowUserModeAccess := ltac:(mk_setter etaConfig).
#[export] Instance set_cfg_RequireAdminPrivilege : Setter cfg_RequireAdminPrivilege := ltac:(mk_setter etaConfig).

(** ** Limits *)
Definition VNVME_DEFAULT_HEARTBEAT_MS : Z := 10000.
Definition VNVME_MIN_HEARTBEAT_MS : Z := 1000.
Definition VNVME_MAX_HEARTBEAT_MS : Z := 60000.
Definition VNVME_MIN_STORAGE_SIZE_GB : Z := 1.
Definition VNVME_MAX_STORAGE_SIZE_GB : Z := 1024.
Definition VNVME_CFG_MIN_IO_QUEUES : Z := 1.
Definition VNVME_CFG_MAX_IO_QUEUES : Z := VNVME_MAX_IO_QUEUES.
Definition VNVME_MIN_QUEUE_DEPTH : Z := 16.
Definition VNVME_CFG_MAX_ADMIN_QUEUE_DEPTH : Z := VNVME_ADMIN_QUEUE_DEPTH.
Definition VNVME_CFG_MAX_IO_QUEUE_DEPTH : Z := VNVME_IO_QUEUE_DEPTH.
Definition VNVME_MIN_POLL_INTERVAL_US : Z := 1.
Definition VNVME_MAX_POLL_INTERVAL_US : Z := 10000.
Definition VNVME_MIN_BATCH_SIZE : Z := 1.
Definition VNVME_MAX_BATCH_SIZE : Z := 256.

(** The initial value of [g_Config]. *)
Definition default_config : VNVME_CONFIG :=
  mkConfig 4 0xFFFFFFFF (VNVME_DEFAULT_HEARTBEAT_MS * 10000)
    VNVME_STORAGE_TYPE_MEMORY [] 1
    VNVME_MAX_IO_QUEUES VNVME_ADMIN_QUEUE_DEPTH VNVME_IO_QUEUE_DEPTH
    100 32 true true.

(** ** Reading the registry *)

(** A registry value: its type and its data, byte by byte. *)
Record RegValue := mkRegValue { rv_Type : Z; rv_Data : list Z }.
Definition REG_SZ : Z := 1.
Definition REG_EXPAND_SZ : Z := 2.
Definition REG_DWORD : Z := 4.
Definition sizeof_KEY_VALUE_PARTIAL_INFORMATION : Z := 16.

Section Registry.
Context (ZwQueryValueKey : string -> Z -> NTSTATUS * RegValue).

(** The status and the DWORD written to [*Value], if any. *)
Definition ConfigReadDword (ValueName : string) : NTSTATUS * option Z :=
  let '(status, info) := ZwQueryValueKey ValueName (sizeof_KEY_VALUE_PARTIAL_INFORMATION + 4) in
  if NT_SUCCESS status then
    if (rv_Type info =? REG_DWORD) && (Z.of_nat (length (rv_Data info)) =? 4)
    then (status, Some (load_le (bytes_mem (rv_Data info)) 0 4))
    else (STATUS_INVALID_PARAMETER, None)
  else (status, None).

(** The WCHARs left in [Buffer] ([Buffer] itself when nothing is written):
    the code units of the value, cut at [BufferLength - 1] and at the first NUL. *)
Fixpoint wchars (m : mem) (a : Z) (n : nat) : list Z :=
  match n with
  | O => []
  | S n => let c := load_le m a 2 in if c =? 0 then [] else c :: wchars m (a + 2) n
  end.

Definition ConfigReadString (ValueName : string) (Buffer : list Z) (BufferLength : Z) : NTSTATUS * list Z :=
  let '(status, info) := ZwQueryValueKey ValueName (sizeof_KEY_VALUE_PARTIAL_INFORMATION + 520) in
  if NT_SUCCESS status then
    if (rv_Type info =? REG_SZ) || (rv_Type info =? REG_EXPAND_SZ) then
      let copyLen := Z.min (Z.of_nat (length (rv_Data info))) (u32 ((BufferLength - 1) * 2)) in
      (status, wchars (bytes_mem (rv_Data info)) 0 (Z.to_nat (copyLen / 2)))
    else (STATUS_INVALID_PARAMETER, Buffer)
  else (status, Buffer).

Definition ConfigReadDwordClamped (ValueName : string) (Value MinValue MaxValue : Z) : Z :=
  match ConfigReadDword ValueName with
  | (status, Some regValue) =>
      if NT_SUCCESS status then
        if regValue <? MinValue then MinValue
        else if MaxValue <? regValue then MaxValue
        else regValue
      else Value
  | (_, None) => Value
  end.

(** VnvmeConfigInit: [path_status] and [open_status] are the results of
    building the key path and of ZwOpenKey; a failure of either keeps the
    defaults.  The clamped read of HeartbeatTimeoutMs into a scratch
    variable that precedes the real one has no effect and is not repeated. *)
Definition VnvmeConfigInit (path_status open_status : NTSTATUS) (g_Config : VNVME_CONFIG)
  : NTSTATUS * VNVME_CONFIG :=
  if negb (NT_SUCCESS path_status) then (STATUS_SUCCESS, g_Config)
  else if negb (NT_SUCCESS open_status) then (STATUS_SUCCESS, g_Config)
  else
    let c := g_Config in
    let c := match ConfigReadDword "DebugLevel" with
             | (_, Some value) => c <| cfg_DebugLevel := value |> | _ => c end in
    let c := match ConfigReadDword "DebugFlags" with
             | (_, Some value) => c <| cfg_DebugFlags := value |> | _ => c end in
    let c := match ConfigReadDword "HeartbeatTimeoutMs" with
             | (_, Some value) =>
                 let value := if value <? VNVME_MIN_HEARTBEAT_MS then VNVME_MIN_HEARTBEAT_MS else value in
                 let value := if VNVME_MAX_HEARTBEAT_MS <? value then VNVME_MAX_HEARTBEAT_MS else value in
                 c <| cfg_HeartbeatTimeout100ns := value * 10000 |>
             | _ => c end in
    let c := match ConfigReadDword "StorageType" with
             | (_, Some value) => if value <=? 3 then c <| cfg_StorageType := storage_type_of value |> else c
             | _ => c end in
    let c := c <| cfg_StoragePath ::= fun p => (ConfigReadString "StoragePath" p 260).2 |> in
    let c := c <| cfg_StorageSizeGB ::= fun v =>
               ConfigReadDwordClamped "StorageSizeGB" v VNVME_MIN_STORAGE_SIZE_GB VNVME_MAX_STORAGE_SIZE_GB |> in
    let c := c <| cfg_MaxIOQueues ::= fun v =>
               ConfigReadDwordClamped "MaxIOQueues" v VNVME_CFG_MIN_IO_QUEUES VNVME_CFG_MAX_IO_QUEUES |> in
    let c := c <| cfg_AdminQueueDepth ::= fun v =>
               ConfigReadDwordClamped "AdminQueueDepth" v VNVME_MIN_QUEUE_DEPTH VNVME_CFG_MAX_ADMIN_QUEUE_DEPTH |> in
    let c := c <| cfg_IOQueueDepth ::= fun v =>
               ConfigReadDwordClamped "IOQueueDepth" v VNVME_MIN_QUEUE_DEPTH VNVME_CFG_MAX_IO_QUEUE_DEPTH |> in
    let c := c <| cfg_DoorbellPollIntervalUs ::= fun v =>
               ConfigReadDwordClamped "DoorbellPollIntervalUs" v VNVME_MIN_POLL_INTERVAL_US VNVME_MAX_POLL_INTERVAL_US |> in
    let c := c <| cfg_BatchSize ::= fun v =>
               ConfigReadDwordClamped "BatchSize" v VNVME_MIN_BATCH_SIZE VNVME_MAX_BATCH_SIZE |> in
    (STATUS_SUCCESS, c).
End Registry.

(** VnvmeConfigGet: a copy of the configuration, if there is somewhere to put it. *)
Definition VnvmeConfigGet (g_Config : VNVME_CONFIG) (ConfigNonNull : bool) : option VNVME_CONFIG :=
  if ConfigNonNull then Some g_Config else None.

(** VnvmeConfigUpdate: only the fields that may change at run time are taken
    over, each one only when it is in range. *)
Definition VnvmeConfigUpdate (Config : option VNVME_CONFIG) (g_Config : VNVME_CONFIG) : NTSTATUS * VNVME_CONFIG :=
  match Config with
  | None => (STATUS_INVALID_PARAMETER, g_Config)
  | Some n =>
      let c := g_Config <| cfg_DebugLevel := cfg_DebugLevel n |> in
      let c := c <| cfg_DebugFlags := cfg_DebugFlags n |> in
      let c := if (VNVME_MIN_HEARTBEAT_MS * 10000 <=? cfg_HeartbeatTimeout100ns n) &&
                  (cfg_HeartbeatTimeout100ns n <=? VNVME_MAX_HEARTBEAT_MS * 10000)
               then c <| cfg_HeartbeatTimeout100ns := cfg_HeartbeatTimeout100ns n |> else c in
      let c := if (VNVME_MIN_POLL_INTERVAL_US <=? cfg_DoorbellPollIntervalUs n) &&
                  (cfg_DoorbellPollIntervalUs n <=? VNVME_MAX_POLL_INTERVAL_US)
               then c <| cfg_DoorbellPollIntervalUs := cfg_DoorbellPollIntervalUs n |> else c in
      let c := if (VNVME_MIN_BATCH_SIZE <=? cfg_BatchSize n) && (cfg_BatchSize n <=? VNVME_MAX_BATCH_SIZE)
               then c <| cfg_BatchSize := cfg_BatchSize n |> else c in
      (STATUS_SUCCESS, c)
  end.

(** ** The configuration invariant

    What the rest of the driver relies on: the array sizes, the shared memory
    layout and the poll timer are only safe within these limits. *)
Record cfg_wf (c : VNVME_CONFIG) : Prop := {
  cfg_wf_heartbeat : VNVME_MIN_HEARTBEAT_MS * 10000 <= cfg_HeartbeatTimeout100ns c <= VNVME_MAX_HEARTBEAT_MS * 10000;
  cfg_wf_storage : VNVME_MIN_STORAGE_SIZE_GB <= cfg_StorageSizeGB c <= VNVME_MAX_STORAGE_SIZE_GB;
  cfg_wf_queues : 1 <= cfg_MaxIOQueues c <= VNVME_MAX_IO_QUEUES;
  cfg_wf_admin_depth : VNVME_MIN_QUEUE_DEPTH <= cfg_AdminQueueDepth c <= VNVME_ADMIN_QUEUE_DEPTH;
  cfg_wf_io_depth : VNVME_MIN_QUEUE_DEPTH <= cfg_IOQueueDepth c <= VNVME_IO_QUEUE_DEPTH;
  cfg_wf_poll : VNVME_MIN_POLL_INTERVAL_US <= cfg_DoorbellPollIntervalUs c <= VNVME_MAX_POLL_INTERVAL_US;
  cfg_wf_batch : VNVME_MIN_BATCH_SIZE <= cfg_BatchSize c <= VNVME_MAX_BATCH_SIZE;
}.

(** The configurations the driver can run with: the defaults, after
    VnvmeConfigInit at start-up and any number of VnvmeConfigUpdate calls. *)
Inductive config_reachable : VNVME_CONFIG -> Prop :=
  | reach_default : config_reachable default_config
  | reach_init query p o c :
      config_reachable c -> config_reachable (VnvmeConfigInit query p o c).2
  | reach_update n c :
      config_reachable c -> config_reachable (VnvmeConfigUpdate n c).2.

(** ** Lemmas *)

Lemma ConfigReadDwordClamped_range query name v lo hi :
  lo <= hi -> lo <= v <= hi -> lo <= ConfigReadDwordClamped query name v lo hi <= hi.
Proof.
  intros. unfold ConfigReadDwordClamped. destruct (ConfigReadDword query name) as [st [r|]]; [|done].
  destruct (NT_SUCCESS st); [|done].
  destruct (Z.ltb_spec r lo); [lia|]. destruct (Z.ltb_spec hi r); lia.
Qed.

Lemma default_config_wf : cfg_wf default_config.
Proof. split; vm_compute; split; congruence. Qed.

Lemma VnvmeConfigInit_wf query p o c : cfg_wf c -> cfg_wf (VnvmeConfigInit query p o c).2.
Proof.
  intros [H1 H2 H3 H4 H5 H6 H7]. unfold VnvmeConfigInit.
  destruct (NT_SUCCESS p); [|done]. destruct (NT_SUCCESS o); [|done]. simpl negb. cbv iota zeta.
  destruct (ConfigReadDword query "DebugLevel") as [? [?|]],
    (ConfigReadDword query "DebugFlags") as [? [?|]],
    (ConfigReadDword query "StorageType") as [? [ty|]]; try destruct (ty <=? 3);
  (destruct (ConfigReadDword query "HeartbeatTimeoutMs") as [? [hb|]];
   [destruct (Z.ltb_spec hb VNVME_MIN_HEARTBEAT_MS); (destruct (Z.ltb_spec VNVME_MAX_HEARTBEAT_MS hb) as [?|?] || idtac)|]);
  split; simpl; try apply ConfigReadDwordClamped_range; try done;
  try (unfold VNVME_MIN_HEARTBEAT_MS, VNVME_MAX_HEARTBEAT_MS in *; simpl; lia).
Qed.
Lemma in_range_spec lo v hi : (lo <=? v) && (v <=? hi) = bool_decide (lo <= v <= hi).
Proof.
  destruct (Z.leb_spec lo v), (Z.leb_spec v hi); simpl;
    symmetry; first [apply bool_decide_eq_true | apply bool_decide_eq_false]; lia.
Qed.

Lemma VnvmeConfigUpdate_wf n c : cfg_wf c -> cfg_wf (VnvmeConfigUpdate n c).2.
Proof.
  intros [H1 H2 H3 H4 H5 H6 H7]. destruct n as [n|]; [|done].
  unfold VnvmeConfigUpdate. rewrite !in_range_spec.
  do 3 case_bool_decide; split; done.
Qed.

(** ** Properties *)

(** C29: every configuration the driver can run with is within its limits:
    whatever the registry answers at start-up and whatever the run-time
    updates ask for, the queue count, the queue depths, the heartbeat timeout,
    the poll interval, the batch size and the storage size stay in range. *)
Theorem config_always_wf (c : VNVME_CONFIG) : config_reachable c -> cfg_wf c.
Proof.
  induction 1; eauto using default_config_wf, VnvmeConfigInit_wf, VnvmeConfigUpdate_wf.
Qed.

(** A registry that asks for far too many queues. *)
Definition sample_registry (name : string) (size : Z) : NTSTATUS * RegValue :=
  if decide (name = "MaxIOQueues"%string) then (STATUS_SUCCESS, mkRegValue REG_DWORD [255; 255; 0; 0])
  else (STATUS_UNSUCCESSFUL, mkRegValue 0 []).

Lemma config_always_wf_witness :
  cfg_wf (VnvmeConfigInit sample_registry STATUS_SUCCESS STATUS_SUCCESS default_config).2 /\
  cfg_MaxIOQueues (VnvmeConfigInit sample_registry STATUS_SUCCESS STATUS_SUCCESS default_config).2 = 16.
Proof.
  split; [|reflexivity].
  exact (config_always_wf _ (reach_init sample_registry STATUS_SUCCESS STATUS_SUCCESS _ reach_default)).
Defined.

(** A run-time update takes over the debug fields as they are and each
    timing field exactly when it is in range, and never touches the fields
    fixed at start-up (storage, queue counts and depths, access rights). *)
Lemma VnvmeConfigUpdate_spec (n c : VNVME_CONFIG) :
  let c' := (VnvmeConfigUpdate (Some n) c).2 in
  let pick lo hi new old := if decide (lo <= new <= hi) then new else old in
  cfg_DebugLevel c' = cfg_DebugLevel n /\ cfg_DebugFlags c' = cfg_DebugFlags n /\
  cfg_HeartbeatTimeout100ns c' = pick (VNVME_MIN_HEARTBEAT_MS * 10000) (VNVME_MAX_HEARTBEAT_MS * 10000)
    (cfg_HeartbeatTimeout100ns n) (cfg_HeartbeatTimeout100ns c) /\
  cfg_DoorbellPollIntervalUs c' = pick VNVME_MIN_POLL_INTERVAL_US VNVME_MAX_POLL_INTERVAL_US
    (cfg_DoorbellPollIntervalUs n) (cfg_DoorbellPollIntervalUs c) /\
  cfg_BatchSize c' = pick VNVME_MIN_BATCH_SIZE VNVME_MAX_BATCH_SIZE (cfg_BatchSize n) (cfg_BatchSize c) /\
  (cfg_StorageType c', cfg_StoragePath c', cfg_StorageSizeGB c') = (cfg_StorageType c, cfg_StoragePath c, cfg_StorageSizeGB c) /\
  (cfg_MaxIOQueues c', cfg_AdminQueueDepth c', cfg_IOQueueDepth c') = (cfg_MaxIOQueues c, cfg_AdminQueueDepth c, cfg_IOQueueDepth c) /\
  (cfg_AllowUserModeAccess c', cfg_RequireAdminPrivilege c') = (cfg_AllowUserModeAccess c, cfg_RequireAdminPrivilege c).
Proof.
  unfold VnvmeConfigUpdate. rewrite !in_range_spec. cbv zeta.
  do 3 case_bool_decide; repeat split; (by rewrite decide_True) || (by rewrite decide_False).
Qed.

(** Setters unfold on demand. *)
#[export] Hint Unfold set_cfg_DebugLevel set_cfg_DebugFlags set_cfg_HeartbeatTimeout100ns set_cfg_StorageType
  set_cfg_StoragePath set_cfg_StorageSizeGB set_cfg_MaxIOQueues set_cfg_AdminQueueDepth set_cfg_IOQueueDepth
  set_cfg_DoorbellPollIntervalUs set_cfg_BatchSize set_cfg_AllowUserModeAccess set_cfg_RequireAdminPrivilege :
  setters.
