(* ===== verification/Debug.v ===== *)
(** The performance statistics of the driver: vnvme/debug.c and debug.h.

    The counters are signed numbers of 64 bits, changed by interlocked
    operations; a recorded latency takes part in two compare-and-swap loops.
    A call of VnvmeDebugRecordLatency is a thread with a program counter, each
    of whose steps is one access to the shared counters; the threads of a system
    take their steps in any order. *)
From S2P Require Import Prelude.
Open Scope Z_scope.
Open Scope c_scope.

Definition MAXLONGLONG : Z := 2 ^ 63 - 1.

Record VNVME_DEBUG_STATS := mkDebugStats {
  ds_AdminCmdsSubmitted : Z;
  ds_AdminCmdsCompleted : Z;
  ds_AdminCmdsErrors : Z;
  ds_IoCmdsSubmitted : Z;
  ds_IoCmdsCompleted : Z;
  ds_IoCmdsErrors : Z;
  ds_BytesRead : Z;
  ds_BytesWritten : Z;
  ds_DoorbellPolls : Z;
  ds_DoorbellHits : Z;
  ds_TotalLatency : Z;
  ds_MinLatency : Z;
  ds_MaxLatency : Z;
  ds_LatencySamples : Z
}.
Definition etaDebugStats r :=
  mkDebugStats (ds_AdminCmdsSubmitted r) (ds_AdminCmdsCompleted r) (ds_AdminCmdsErrors r) (ds_IoCmdsSubmitted r)
    (ds_IoCmdsCompleted r) (ds_IoCmdsErrors r) (ds_BytesRead r) (ds_BytesWritten r) (ds_DoorbellPolls r)
    (ds_DoorbellHits r) (ds_TotalLatency r) (ds_MinLatency r) (ds_MaxLatency r) (ds_LatencySamples r).
#[export] Instance set_ds_AdminCmdsSubmitted : Setter ds_AdminCmdsSubmitted := ltac:(mk_setter etaDebugStats).
#[export] Instance set_ds_AdminCmdsCompleted : Setter ds_AdminCmdsCompleted := ltac:(mk_setter etaDebugStats).
#[export] Instance set_ds_AdminCmdsErrors : Setter ds_AdminCmdsErrors := ltac:(mk_setter etaDebugStats).
#[export] Instance set_ds_IoCmdsSubmitted : Setter ds_IoCmdsSubmitted := ltac:(mk_setter etaDebugStats).
#[export] Instance set_ds_IoCmdsCompleted : Setter ds_IoCmdsCompleted := ltac:(mk_setter etaDebugStats).
#[export] Instance set_ds_IoCmdsErrors : Setter ds_IoCmdsErrors := ltac:(mk_setter etaDebugStats).
#[export] Instance set_ds_BytesRead : Setter ds_BytesRead := ltac:(mk_setter etaDebugStats).
#[export] Instance set_ds_BytesWritten : Setter ds_BytesWritten := ltac:(mk_setter etaDebugStats).
#[export] Instance set_ds_DoorbellPolls : Setter ds_DoorbellPolls := ltac:(mk_setter etaDebugStats).
#[export] Instance set_ds_DoorbellHits : Setter ds_DoorbellHits := ltac:(mk_setter etaDebugStats).
#[export] Instance set_ds_TotalLatency : Setter ds_TotalLatency := ltac:(mk_setter etaDebugStats).
#[export] Instance set_ds_MinLatency : Setter ds_MinLatency := ltac:(mk_setter etaDebugStats).
#[export] Instance set_ds_MaxLatency : Setter ds_MaxLatency := ltac:(mk_setter etaDebugStats).
#[export] Instance set_ds_LatencySamples : Setter ds_LatencySamples := ltac:(mk_setter etaDebugStats).

Definition InterlockedAdd64 (x d : Z) : Z := s64 (x + d).
Definition InterlockedIncrement64 (x : Z) : Z := s64 (x + 1).

(** ** The macros that count *)

Definition VNVME_STATS_ADMIN_SUBMIT (s : VNVME_DEBUG_STATS) := s <| ds_AdminCmdsSubmitted ::= InterlockedIncrement64 |>.
Definition VNVME_STATS_ADMIN_COMPLETE (s : VNVME_DEBUG_STATS) := s <| ds_AdminCmdsCompleted ::= InterlockedIncrement64 |>.
Definition VNVME_STATS_ADMIN_ERROR (s : VNVME_DEBUG_STATS) := s <| ds_AdminCmdsErrors ::= InterlockedIncrement64 |>.
Definition VNVME_STATS_IO_SUBMIT (s : VNVME_DEBUG_STATS) := s <| ds_IoCmdsSubmitted ::= InterlockedIncrement64 |>.
Definition VNVME_STATS_IO_COMPLETE (s : VNVME_DEBUG_STATS) := s <| ds_IoCmdsCompleted ::= InterlockedIncrement64 |>.
Definition VNVME_STATS_IO_ERROR (s : VNVME_DEBUG_STATS) := s <| ds_IoCmdsErrors ::= InterlockedIncrement64 |>.
Definition VNVME_STATS_READ (bytes : Z) (s : VNVME_DEBUG_STATS) := s <| ds_BytesRead ::= fun x => InterlockedAdd64 x bytes |>.
Definition VNVME_STATS_WRITE (bytes : Z) (s : VNVME_DEBUG_STATS) := s <| ds_BytesWritten ::= fun x => InterlockedAdd64 x bytes |>.
Definition VNVME_STATS_DBELL_POLL (s : VNVME_DEBUG_STATS) := s <| ds_DoorbellPolls ::= InterlockedIncrement64 |>.
Definition VNVME_STATS_DBELL_HIT (s : VNVME_DEBUG_STATS) := s <| ds_DoorbellHits ::= InterlockedIncrement64 |>.

(** ** Reset, copy and report *)

Definition zero_debug_stats : VNVME_DEBUG_STATS := mkDebugStats 0 0 0 0 0 0 0 0 0 0 0 0 0 0.

(** Whatever the statistics were. *)
Definition VnvmeDebugResetStats (s : VNVME_DEBUG_STATS) : VNVME_DEBUG_STATS := zero_debug_stats <| ds_MinLatency := MAXLONGLONG |>.
Definition VnvmeDebugInit (s : VNVME_DEBUG_STATS) : VNVME_DEBUG_STATS := VnvmeDebugResetStats s.
(** The fields, copied one by one. *)
Definition VnvmeDebugGetStats (s : VNVME_DEBUG_STATS) : VNVME_DEBUG_STATS := etaDebugStats s.

(** The numbers VnvmeDebugPrintStats prints, line by line; a product outside of 64 bits has no value in C. *)
Definition VnvmeDebugPrintStats (s : VNVME_DEBUG_STATS) : option (list (list Z)) :=
  let stats := VnvmeDebugGetStats s in
  let avgLatency := if 0 <? ds_LatencySamples stats then ds_TotalLatency stats ÷ ds_LatencySamples stats else 0 in
  hitRatePercent ←
    (if 0 <? ds_DoorbellPolls stats then
       let scaled := ds_DoorbellHits stats * 100 in
       if s64 scaled =? scaled then Some (u32 (scaled ÷ ds_DoorbellPolls stats)) else None
     else Some 0);
  Some [[ds_AdminCmdsSubmitted stats; ds_AdminCmdsCompleted stats; ds_AdminCmdsErrors stats];
        [ds_IoCmdsSubmitted stats; ds_IoCmdsCompleted stats; ds_IoCmdsErrors stats];
        [ds_BytesRead stats ÷ (1024 * 1024); ds_BytesWritten stats ÷ (1024 * 1024)];
        [ds_DoorbellPolls stats; ds_DoorbellHits stats; hitRatePercent];
        [if ds_MinLatency stats =? MAXLONGLONG then 0 else ds_MinLatency stats ÷ 10; ds_MaxLatency stats ÷ 10; avgLatency ÷ 10]].

(** ** Recording a latency *)

(** Where a call stands: before each of its accesses to the counters. *)
Inductive record_pc :=
  | AddTotal
  | IncSamples
  | LoadMin
  | SwapMin (oldMin : Z)
  | LoadMax
  | SwapMax (oldMax : Z)
  | Recorded.
#[export] Instance record_pc_eq_dec : EqDecision record_pc.
Proof. solve_decision. Defined.

(** One access, with the tests that follow it. *)
Definition record_step (LatencyIn100ns : Z) (pc : record_pc) (s : VNVME_DEBUG_STATS) : record_pc * VNVME_DEBUG_STATS :=
  match pc with
  | AddTotal => (IncSamples, s <| ds_TotalLatency ::= fun x => InterlockedAdd64 x LatencyIn100ns |>)
  | IncSamples => (LoadMin, s <| ds_LatencySamples ::= InterlockedIncrement64 |>)
  | LoadMin =>
      let oldMin := ds_MinLatency s in
      if oldMin <=? LatencyIn100ns then (LoadMax, s) else (SwapMin oldMin, s)
  | SwapMin oldMin =>
      if ds_MinLatency s =? oldMin then (LoadMax, s <| ds_MinLatency := LatencyIn100ns |>) else (LoadMin, s)
  | LoadMax =>
      let oldMax := ds_MaxLatency s in
      if LatencyIn100ns <=? oldMax then (Recorded, s) else (SwapMax oldMax, s)
  | SwapMax oldMax =>
      if ds_MaxLatency s =? oldMax then (Recorded, s <| ds_MaxLatency := LatencyIn100ns |>) else (LoadMax, s)
  | Recorded => (Recorded, s)
  end.

(** The calls in progress, with their latencies. *)
Definition record_system : Type := VNVME_DEBUG_STATS * list (Z * record_pc).

Inductive system_step : record_system -> record_system -> Prop :=
  | thread_step i lat pc pc' s s' ts :
      ts !! i = Some (lat, pc) -> pc <> Recorded -> record_step lat pc s = (pc', s') ->
      system_step (s, ts) (s', <[i := (lat, pc')]> ts).

(** Threads take their steps as a schedule says; those that have ended take none. *)
Definition run_thread (i : nat) (c : record_system) : record_system :=
  match c.2 !! i with
  | Some (lat, pc) => let '(pc', s') := record_step lat pc c.1 in (s', <[i := (lat, pc')]> c.2)
  | None => c
  end.
Definition run_schedule (sched : list nat) (c : record_system) : record_system := foldl (fun c i => run_thread i c) c sched.

(** The call when nothing interferes: six accesses at most. *)
Definition VnvmeDebugRecordLatency (LatencyIn100ns : Z) (s : VNVME_DEBUG_STATS) : VNVME_DEBUG_STATS :=
  (run_schedule (replicate 6 0%nat) (s, [(LatencyIn100ns, AddTotal)])).1.

(** ** What the calls have contributed *)

(** [f] of each thread that has one, combined onto [e]. *)
Definition contributed {T} (op : Z -> Z -> Z) (f : T -> option Z) (e : Z) (ts : list T) : Z :=
  foldr (fun t acc => match f t with Some x => op x acc | None => acc end) e ts.

Section Contributed.
Context {T : Type} (op : Z -> Z -> Z) (f : T -> option Z) (e : Z).
Hypothesis op_comm : forall x y acc, op x (op y acc) = op y (op x acc).

Lemma contributed_same ts i t t' : ts !! i = Some t -> f t' = f t -> contributed op f e (<[i := t']> ts) = contributed op f e ts.
Proof. intros Ht Hf. unfold contributed. revert i Ht. induction ts as [|t0 ts IH]; intros [|i] Ht; cbn in *; [done..|by simplify_eq; rewrite Hf|by rewrite IH]. Qed.

(** A thread that contributes what it had not contributes it to the whole, wherever it stands. *)
Lemma contributed_more ts i t t' x : ts !! i = Some t -> f t = None -> f t' = Some x ->
  contributed op f e (<[i := t']> ts) = op x (contributed op f e ts).
Proof.
  intros Ht Hn Hx. unfold contributed. revert i Ht. induction ts as [|t0 ts IH]; intros [|i] Ht; cbn in *; [done..| |].
  - injection Ht as ->. by rewrite Hn, Hx.
  - rewrite IH by done. by destruct (f t0).
Qed.

Lemma contributed_none ts : Forall (fun t => f t = None) ts -> contributed op f e ts = e.
Proof. induction 1 as [|t ts Ht _ IH]; cbn; [done|]. by rewrite Ht. Qed.
End Contributed.

(** How far a call has come. *)
Definition added (t : Z * record_pc) : option Z := match t.2 with AddTotal => None | _ => Some t.1 end.
Definition counted (t : Z * record_pc) : option Z := match t.2 with AddTotal | IncSamples => None | _ => Some 1 end.
Definition past_min (t : Z * record_pc) : option Z := match t.2 with LoadMax | SwapMax _ | Recorded => Some t.1 | _ => None end.
Definition past_max (t : Z * record_pc) : option Z := match t.2 with Recorded => Some t.1 | _ => None end.

Definition add64 (x acc : Z) : Z := s64 (acc + x).
Lemma add64_comm x y acc : add64 x (add64 y acc) = add64 y (add64 x acc).
Proof. unfold add64. rewrite !s64_add. f_equal. lia. Qed.
Lemma min_comm x y acc : Z.min x (Z.min y acc) = Z.min y (Z.min x acc).
Proof. lia. Qed.
Lemma max_comm x y acc : Z.max x (Z.max y acc) = Z.max y (Z.max x acc).
Proof. lia. Qed.

(** The value a call remembers is one it would improve on. *)
Definition thread_ok (t : Z * record_pc) : Prop :=
  match t.2 with SwapMin oldMin => t.1 < oldMin | SwapMax oldMax => oldMax < t.1 | _ => True end.

(** The counters are those of [s0] with what each call has contributed so far. *)
Record counters_ok (s0 : VNVME_DEBUG_STATS) (c : record_system) : Prop := {
  co_threads : Forall thread_ok c.2;
  co_stats : c.1 = s0
    <| ds_TotalLatency := contributed add64 added (ds_TotalLatency s0) c.2 |>
    <| ds_MinLatency := contributed Z.min past_min (ds_MinLatency s0) c.2 |>
    <| ds_MaxLatency := contributed Z.max past_max (ds_MaxLatency s0) c.2 |>
    <| ds_LatencySamples := contributed add64 counted (ds_LatencySamples s0) c.2 |>
}.

#[export] Hint Unfold set_ds_AdminCmdsSubmitted set_ds_AdminCmdsCompleted set_ds_AdminCmdsErrors set_ds_IoCmdsSubmitted
  set_ds_IoCmdsCompleted set_ds_IoCmdsErrors set_ds_BytesRead set_ds_BytesWritten set_ds_DoorbellPolls set_ds_DoorbellHits
  set_ds_TotalLatency set_ds_MinLatency set_ds_MaxLatency set_ds_LatencySamples : setters.

Lemma counters_ok_step s0 c c' : counters_ok s0 c -> system_step c c' -> counters_ok s0 c'.
Proof.
  intros Hc Hstep. revert Hc. destruct Hstep as [i lat pc pc' s s' ts Ht Hpc E]. intros [Hts Hs]. cbn [fst snd] in *.
  pose proof (proj1 (Forall_lookup _ _) Hts i _ Ht) as Hok. unfold thread_ok in Hok. cbn [fst snd] in Hok.
  assert (forall t', thread_ok t' -> Forall thread_ok (<[i := t']> ts)) as Hins by (intros; by apply Forall_insert).
  pose proof (fun f t' => contributed_same add64 f (ds_TotalLatency s0) ts i (lat, pc) t' Ht) as Ct.
  pose proof (fun f t' => contributed_same add64 f (ds_LatencySamples s0) ts i (lat, pc) t' Ht) as Cs.
  pose proof (fun f t' => contributed_same Z.min f (ds_MinLatency s0) ts i (lat, pc) t' Ht) as Cmin.
  pose proof (fun f t' => contributed_same Z.max f (ds_MaxLatency s0) ts i (lat, pc) t' Ht) as Cmax.
  destruct pc as [| | |oldMin| |oldMax|]; cbn [record_step] in E; try done.
  - injection E as <- <-. split; cbn [fst snd]; [by apply Hins|].
    rewrite (contributed_more add64 added _ add64_comm ts i (lat, AddTotal) (lat, IncSamples) lat Ht eq_refl eq_refl).
    rewrite Cs, Cmin, Cmax by done. subst s. by destruct s0.
  - injection E as <- <-. split; cbn [fst snd]; [by apply Hins|].
    rewrite (contributed_more add64 counted _ add64_comm ts i (lat, IncSamples) (lat, LoadMin) 1 Ht eq_refl eq_refl).
    rewrite Ct, Cmin, Cmax by done. subst s. by destruct s0.
  - destruct (Z.leb_spec (ds_MinLatency s) lat) as [Hle|Hlt]; injection E as <- <-; (split; cbn [fst snd]; [by apply Hins|]).
    + rewrite (contributed_more Z.min past_min _ min_comm ts i (lat, LoadMin) (lat, LoadMax) lat Ht eq_refl eq_refl).
      rewrite Ct, Cs, Cmax by done. rewrite Z.min_r by (by subst s). done.
    + by rewrite Ct, Cs, Cmin, Cmax by done.
  - destruct (Z.eqb_spec (ds_MinLatency s) oldMin) as [He|He]; injection E as <- <-; (split; cbn [fst snd]; [by apply Hins|]).
    + rewrite (contributed_more Z.min past_min _ min_comm ts i (lat, SwapMin oldMin) (lat, LoadMax) lat Ht eq_refl eq_refl).
      rewrite Ct, Cs, Cmax by done. rewrite <- He in Hok. subst s. rewrite Z.min_l by (by apply Z.lt_le_incl). by destruct s0.
    + by rewrite Ct, Cs, Cmin, Cmax by done.
  - destruct (Z.leb_spec lat (ds_MaxLatency s)) as [Hle|Hlt]; injection E as <- <-; (split; cbn [fst snd]; [by apply Hins|]).
    + rewrite (contributed_more Z.max past_max _ max_comm ts i (lat, LoadMax) (lat, Recorded) lat Ht eq_refl eq_refl).
      rewrite Ct, Cs, Cmin by done. rewrite Z.max_r by (by subst s). done.
    + by rewrite Ct, Cs, Cmin, Cmax by done.
  - destruct (Z.eqb_spec (ds_MaxLatency s) oldMax) as [He|He]; injection E as <- <-; (split; cbn [fst snd]; [by apply Hins|]).
    + rewrite (contributed_more Z.max past_max _ max_comm ts i (lat, SwapMax oldMax) (lat, Recorded) lat Ht eq_refl eq_refl).
      rewrite Ct, Cs, Cmin by done. rewrite <- He in Hok. subst s. rewrite Z.max_l by (by apply Z.lt_le_incl). by destruct s0.
    + by rewrite Ct, Cs, Cmin, Cmax by done.
Qed.

(** ** The loops end *)

(** What a call may still have to do, among [n] calls: a value that is out of date costs two more accesses. *)
Definition weight (n : nat) (s : VNVME_DEBUG_STATS) (t : Z * record_pc) : nat :=
  match t.2 with
  | AddTotal => 4 * n + 3
  | IncSamples => 4 * n + 2
  | LoadMin => 4 * n + 1
  | SwapMin oldMin => if ds_MinLatency s =? oldMin then 4 * n else 4 * n + 2
  | LoadMax => 2 * n + 1
  | SwapMax oldMax => if ds_MaxLatency s =? oldMax then 2 * n else 2 * n + 2
  | Recorded => 0
  end.
Definition work (c : record_system) : nat := sum_list_with (weight (length c.2) c.1) c.2.

Lemma sum_list_with_le {T} (w w' : T -> nat) d ts : (forall u, w' u <= w u + d)%nat ->
  (sum_list_with w' ts <= sum_list_with w ts + d * length ts)%nat.
Proof. intros Hw. induction ts as [|u ts IH]; cbn; [lia|]. specialize (Hw u). lia. Qed.

(** One thread changes, and the others by [d] at most. *)
Lemma sum_list_with_insert_lt {T} (w w' : T -> nat) d ts i t t' : ts !! i = Some t -> (forall u, w' u <= w u + d)%nat ->
  (w' t' + d * (length ts - 1) < w t)%nat -> (sum_list_with w' (<[i := t']> ts) < sum_list_with w ts)%nat.
Proof.
  intros Ht Hw. assert (sum_list_with w' (<[i := t']> ts) + w t <= sum_list_with w ts + w' t' + d * (length ts - 1))%nat; [|lia].
  revert i Ht. induction ts as [|u ts IH]; intros [|i] Ht; [done..| |].
  - injection Ht as ->. pose proof (sum_list_with_le w w' d ts Hw). cbn. rewrite Nat.sub_0_r. lia.
  - change (<[S i := t']> (u :: ts)) with (u :: <[i := t']> ts). cbn [sum_list_with length]. specialize (IH i Ht). specialize (Hw u).
    apply (lookup_lt_Some ts i) in Ht. destruct (length ts) as [|n]; [lia|].
    replace (S (S n) - 1)%nat with (S n) by lia. replace (S n - 1)%nat with n in IH by lia. rewrite Nat.mul_succ_r. lia.
Qed.

Lemma system_step_work c c' : system_step c c' -> (work c' < work c)%nat /\ length c'.2 = length c.2 /\ c'.2.*1 = c.2.*1.
Proof.
  intros [i lat pc pc' s s' ts Ht Hpc E]. unfold work. cbn [fst snd]. rewrite length_insert.
  pose proof (lookup_lt_Some _ _ _ Ht) as Hn. split; [|split; [done|]].
  2: { rewrite list_fmap_insert. apply list_insert_id. rewrite list_lookup_fmap, Ht. done. }
  assert (forall s1 u, ds_MinLatency s1 = ds_MinLatency s -> ds_MaxLatency s1 = ds_MaxLatency s -> (weight (length ts) s1 u <= weight (length ts) s u + 0)%nat) as Hkeep
    by (intros s1 u E1 E2; unfold weight; rewrite E1, E2; lia).
  revert E. destruct pc as [| | |oldMin| |oldMax|]; cbn [record_step]; [| | | | | |done].
  - intros [= <- <-]. apply (sum_list_with_insert_lt _ _ 0 ts i _ _ Ht); [by intros; apply Hkeep|]. cbn. lia.
  - intros [= <- <-]. apply (sum_list_with_insert_lt _ _ 0 ts i _ _ Ht); [by intros; apply Hkeep|]. cbn. lia.
  - destruct (Z.leb_spec (ds_MinLatency s) lat); intros [= <- <-];
      (apply (sum_list_with_insert_lt _ _ 0 ts i _ _ Ht); [by intros; apply Hkeep|]); cbn; rewrite ?Z.eqb_refl; lia.
  - destruct (Z.eqb_spec (ds_MinLatency s) oldMin) as [He|He]; intros [= <- <-].
    + apply (sum_list_with_insert_lt _ _ 2 ts i _ _ Ht); [|cbn; rewrite He, Z.eqb_refl; lia].
      intros [l p]. unfold weight. cbn. destruct p; repeat case_match; lia.
    + apply (sum_list_with_insert_lt _ _ 0 ts i _ _ Ht); [by intros; apply Hkeep|]. cbn. rewrite (proj2 (Z.eqb_neq _ _)) by done. lia.
  - destruct (Z.leb_spec lat (ds_MaxLatency s)); intros [= <- <-];
      (apply (sum_list_with_insert_lt _ _ 0 ts i _ _ Ht); [by intros; apply Hkeep|]); cbn; rewrite ?Z.eqb_refl; lia.
  - destruct (Z.eqb_spec (ds_MaxLatency s) oldMax) as [He|He]; intros [= <- <-].
    + apply (sum_list_with_insert_lt _ _ 2 ts i _ _ Ht); [|cbn; rewrite He, Z.eqb_refl; lia].
      intros [l p]. unfold weight. cbn. destruct p; repeat case_match; lia.
    + apply (sum_list_with_insert_lt _ _ 0 ts i _ _ Ht); [by intros; apply Hkeep|]. cbn. rewrite (proj2 (Z.eqb_neq _ _)) by done. lia.
Qed.

(** A call that has not ended can take a step. *)
Lemma system_progress s ts i lat pc : ts !! i = Some (lat, pc) -> pc <> Recorded -> exists c', system_step (s, ts) c'.
Proof. intros Ht Hpc. destruct (record_step lat pc s) as [pc' s'] eqn:E. eexists. by eapply thread_step. Qed.

Lemma run_thread_step i c lat pc : c.2 !! i = Some (lat, pc) -> pc <> Recorded -> system_step c (run_thread i c).
Proof.
  intros Ht Hpc. destruct c as [s ts]. unfold run_thread. cbn [fst snd] in *. rewrite Ht. destruct (record_step lat pc s) as [pc' s'] eqn:E.
  by eapply thread_step.
Qed.

(** ** One call after the other *)

Lemma VnvmeDebugRecordLatency_alone lat s : VnvmeDebugRecordLatency lat s = s
  <| ds_TotalLatency ::= add64 lat |> <| ds_MinLatency ::= Z.min lat |> <| ds_MaxLatency ::= Z.max lat |> <| ds_LatencySamples ::= add64 1 |>.
Proof.
  unfold VnvmeDebugRecordLatency, run_schedule. destruct s. unset. unfold run_thread. cbn.
  destruct (Z.leb_spec ds_MinLatency0 lat) as [H1|H1]; cbn; rewrite ?Z.eqb_refl; cbn;
    (destruct (Z.leb_spec lat ds_MaxLatency0) as [H2|H2]; cbn; rewrite ?Z.eqb_refl; unset; f_equal; first [reflexivity|lia]).
Qed.

Lemma foldr_comm (op : Z -> Z -> Z) e l x : (forall x y acc, op x (op y acc) = op y (op x acc)) -> foldr op (op x e) l = op x (foldr op e l).
Proof. intros Hc. induction l as [|y l IH]; cbn; [done|]. by rewrite IH, Hc. Qed.

(** All the calls of a list, one after the other. *)
Definition record_all (lats : list Z) (s : VNVME_DEBUG_STATS) : VNVME_DEBUG_STATS := foldl (fun s lat => VnvmeDebugRecordLatency lat s) s lats.

Lemma record_all_fields lats s : record_all lats s = s
  <| ds_TotalLatency ::= fun e => foldr add64 e lats |> <| ds_MinLatency ::= fun e => foldr Z.min e lats |>
  <| ds_MaxLatency ::= fun e => foldr Z.max e lats |> <| ds_LatencySamples ::= fun e => foldr (fun _ => add64 1) e lats |>.
Proof.
  revert s. induction lats as [|lat lats IH]; intros s; [by destruct s|]. cbn [record_all foldl]. fold (record_all lats (VnvmeDebugRecordLatency lat s)).
  rewrite IH, VnvmeDebugRecordLatency_alone. destruct s. unset. f_equal.
  - apply foldr_comm, add64_comm.
  - apply foldr_comm, min_comm.
  - apply foldr_comm, max_comm.
  - clear IH. induction lats as [|y lats IH]; cbn; [done|]. by rewrite IH.
Qed.

Lemma contributed_all (op : Z -> Z -> Z) (f : Z * record_pc -> option Z) (g : Z -> Z) e ts :
  Forall (fun t => f t = Some (g t.1)) ts -> contributed op f e ts = foldr (fun lat => op (g lat)) e ts.*1.
Proof. induction 1 as [|t ts Ht _ IH]; cbn; [done|]. rewrite Ht. f_equal. exact IH. Qed.

(** ** Any interleaving *)

Lemma nsteps_counters s0 m c c' : counters_ok s0 c -> nsteps system_step m c c' ->
  counters_ok s0 c' /\ (m + work c' <= work c)%nat /\ c'.2.*1 = c.2.*1.
Proof.
  intros Hc Hs. revert Hc. induction Hs as [c|m c1 c2 c3 H12 _ IH]; intros Hc; [split_and!; [done|lia|done]|].
  destruct (IH (counters_ok_step _ _ _ Hc H12)) as (H1 & H2 & H3). destruct (system_step_work _ _ H12) as (Hw & _ & Hf).
  split_and!; [done|lia|congruence].
Qed.

Definition record_calls (lats : list Z) (s : VNVME_DEBUG_STATS) : record_system := (s, (fun lat => (lat, AddTotal)) <$> lats).

Lemma record_calls_ok lats s : counters_ok s (record_calls lats s).
Proof.
  split; cbn [fst snd record_calls]; [by apply Forall_fmap, Forall_true|].
  rewrite !contributed_none by (by apply Forall_fmap, Forall_true). by destruct s.
Qed.

Lemma work_calls lats s : work (record_calls lats s) = (length lats * (4 * length lats + 3))%nat.
Proof.
  unfold work, record_calls. cbn [fst snd]. rewrite length_fmap. generalize (length lats) at 1 3 as n. intros n.
  induction lats as [|lat lats IH]; [done|]. cbn [fmap list_fmap sum_list_with length]. change (list_fmap _ _ ?f ?l) with (f <$> l). rewrite IH. cbn [weight snd]. lia.
Qed.

(** C24: Latencies recorded at the same time. Let any calls of VnvmeDebugRecordLatency run at once, their accesses to the
    shared counters interleaved in any order. Every run ends: n calls take at most n (4n + 3) accesses together, however
    often their compare-and-swap loops fail, and until all have returned some call can go on. When all have returned,
    no sample is lost: the counters are those of the same calls one after the other, the number of samples and the
    total have grown by all of them (in 64 bits), the minimum and the maximum are those of the samples and of what was
    there, and no other counter has changed. *)
Theorem VnvmeDebugRecordLatency_interleaved lats s0 m s ts : nsteps system_step m (record_calls lats s0) (s, ts) ->
  (m <= length lats * (4 * length lats + 3))%nat /\
  (Forall (fun t => t.2 = Recorded) ts \/ exists c', system_step (s, ts) c') /\
  (Forall (fun t => t.2 = Recorded) ts ->
    s = record_all lats s0 /\
    s = s0 <| ds_TotalLatency ::= fun e => foldr (fun lat acc => s64 (acc + lat)) e lats |>
      <| ds_LatencySamples ::= fun e => foldr (fun _ acc => s64 (acc + 1)) e lats |>
      <| ds_MinLatency ::= fun e => foldr Z.min e lats |> <| ds_MaxLatency ::= fun e => foldr Z.max e lats |>).
Proof.
  intros Hrun. destruct (nsteps_counters _ _ _ _ (record_calls_ok lats s0) Hrun) as ([_ Hs] & Hm & Hf).
  rewrite work_calls in Hm. cbn [fst snd] in *. split; [lia|]. split.
  - destruct (decide (Forall (fun t : Z * record_pc => t.2 = Recorded) ts)) as [H|H]; [by left|right].
    apply not_Forall_Exists in H; [|apply _]. apply Exists_exists in H as ([lat pc] & Hin & Hpc).
    apply list_elem_of_lookup_1 in Hin as [i Hi]. by eapply system_progress.
  - intros Hd. assert (ts.*1 = lats) as Hlats.
    { rewrite Hf. cbn. clear. induction lats as [|lat lats IH]; [done|]. cbn in *. by rewrite IH. }
    rewrite record_all_fields, Hs.
    rewrite (contributed_all add64 added id), (contributed_all add64 counted (fun _ => 1)), (contributed_all Z.min past_min id),
      (contributed_all Z.max past_max id), Hlats; [by destruct s0|..]; (eapply Forall_impl; [exact Hd|]); intros [lat pc]; cbn; by intros ->.
Qed.

(** Two calls at once: the first loses its race for the minimum, and looks again. *)
Definition example_schedule : list nat := [0; 0; 0; 1; 1; 1; 1; 0; 0; 0; 0; 1; 1; 1]%nat.
Example example_race : run_schedule example_schedule (record_calls [30; 20] (VnvmeDebugResetStats zero_debug_stats)) =
  (mkDebugStats 0 0 0 0 0 0 0 0 0 0 50 20 30 2, [(30, Recorded); (20, Recorded)]).
Proof. vm_compute. reflexivity. Qed.

(** A schedule whose calls have not ended is a run. *)
Fixpoint schedule_runs (sched : list nat) (c : record_system) : bool :=
  match sched with
  | [] => true
  | i :: sched => match c.2 !! i with Some (_, pc) => negb (bool_decide (pc = Recorded)) && schedule_runs sched (run_thread i c) | None => false end
  end.
Lemma run_schedule_nsteps sched c : schedule_runs sched c = true -> nsteps system_step (length sched) c (run_schedule sched c).
Proof.
  revert c. induction sched as [|i sched IH]; intros c H; cbn in *; [constructor|].
  destruct (c.2 !! i) as [[lat pc]|] eqn:E; [|done]. apply andb_true_iff in H as [Hpc H]. apply negb_true_iff, bool_decide_eq_false in Hpc.
  econstructor; [by eapply run_thread_step|by apply IH].
Qed.

Definition example_start : record_system := record_calls [30; 20] (VnvmeDebugResetStats zero_debug_stats).
Definition example_end : record_system := run_schedule (take 12 example_schedule) example_start.
Lemma example_runs : nsteps system_step 12 example_start (example_end.1, example_end.2).
Proof. rewrite <- surjective_pairing. apply (run_schedule_nsteps (take 12 example_schedule) example_start). vm_compute. reflexivity. Qed.
Lemma example_ended : Forall (fun t => t.2 = Recorded) example_end.2.
Proof. apply (bool_decide_unpack _). vm_compute. exact I. Qed.

Lemma VnvmeDebugRecordLatency_interleaved_witness :
  (12 <= 2 * (4 * 2 + 3))%nat /\ example_end.1 = record_all [30; 20] (VnvmeDebugResetStats zero_debug_stats) /\
  ds_MinLatency example_end.1 = 20 /\ ds_MaxLatency example_end.1 = 30.
Proof.
  destruct (VnvmeDebugRecordLatency_interleaved [30; 20] (VnvmeDebugResetStats zero_debug_stats) 12 example_end.1 example_end.2 example_runs) as (Hm & _ & Hd).
  split; [exact Hm|]. destruct (Hd example_ended) as [Hs _].
  split; [exact Hs|]. split; vm_compute; reflexivity.
Defined.

(** ** The report *)

(** The average that is printed lies between the extremes, as long as the total has not wrapped around. *)
Lemma average_between lats s : s = record_all lats (VnvmeDebugResetStats zero_debug_stats) -> lats <> [] ->
  Forall (fun lat => 0 <= lat) lats -> foldr Z.add 0 lats < 2 ^ 63 -> Z.of_nat (length lats) < 2 ^ 63 ->
  ds_MinLatency s <= ds_TotalLatency s ÷ ds_LatencySamples s <= ds_MaxLatency s.
Proof.
  intros -> Hne Hpos Hsum Hlen. rewrite record_all_fields. unset.
  assert (0 <= foldr Z.add 0 lats /\ foldr add64 0 lats = foldr Z.add 0 lats) as [H0 ->].
  { clear Hne Hlen. induction Hpos as [|lat lats Hl _ IH]; [done|]. cbn in *. destruct IH as [H0 E]; [lia|]. split; [lia|].
    rewrite E. unfold add64. rewrite s64_small by lia. lia. }
  assert (foldr (fun _ => add64 1) 0 lats = Z.of_nat (length lats)) as ->.
  { clear -Hlen. induction lats as [|lat lats IH]; [done|]. cbn [foldr length] in *. rewrite IH by lia. unfold add64. rewrite s64_small by lia. lia. }
  assert (0 < Z.of_nat (length lats)) as Hn by (destruct lats; cbn; [done|lia]).
  rewrite Z.quot_div_nonneg by lia.
  assert (Z.of_nat (length lats) * foldr Z.min MAXLONGLONG lats <= foldr Z.add 0 lats <= Z.of_nat (length lats) * foldr Z.max 0 lats) as [H1 H2].
  { clear. induction lats as [|lat lats IH]; cbn [foldr length]; [lia|]. rewrite Nat2Z.inj_succ. nia. }
  split; [by apply Z.div_le_lower_bound; lia|]. apply Z.div_le_upper_bound; lia.
Qed.

(** The hit rate is a percentage when hits are polls. *)
Lemma hit_rate_percent s : 0 <= ds_DoorbellHits s <= ds_DoorbellPolls s -> ds_DoorbellPolls s < 2 ^ 56 ->
  exists lines rate, VnvmeDebugPrintStats s = Some lines /\ lines !! 3%nat = Some [ds_DoorbellPolls s; ds_DoorbellHits s; rate] /\ 0 <= rate <= 100.
Proof.
  intros Hh Hp. unfold VnvmeDebugPrintStats. replace (VnvmeDebugGetStats s) with s by (by destruct s).
  destruct (Z.ltb_spec 0 (ds_DoorbellPolls s)) as [H0|H0].
  - rewrite s64_small, Z.eqb_refl by lia. eexists _, _. split; [done|]. split; [done|]. rewrite Z.quot_div_nonneg by lia.
    assert (0 <= ds_DoorbellHits s * 100 / ds_DoorbellPolls s <= 100) by (split; [apply Z.div_pos; lia|apply Z.div_le_upper_bound; lia]).
    by rewrite u32_small by lia.
  - eexists _, _. split; [done|]. split; [done|lia].
Qed.
