(* ===== verification/Driver.v ===== *)
(** DriverEntry of [vnvme/vnvme.c]: the configuration and the statistics, and the
    registration with the framework, which then calls [Bus.VnvmeEvtDeviceAdd]. *)
From S2P Require Import Prelude NvmeSpec Kernel Config Debug.
Open Scope Z_scope.
Open Scope c_scope.

(** The globals of the driver that DriverEntry sets, and what it hands to the framework. *)
Record Driver := mkDriver {
  dr_Config : VNVME_CONFIG;               (* g_Config *)
  dr_DebugStats : VNVME_DEBUG_STATS;      (* g_DebugStats *)
  dr_EvtDeviceAdd : bool;                 (* VnvmeEvtDeviceAdd is registered *)
  dr_EvtCleanupCallback : bool            (* VnvmeEvtDriverContextCleanup is registered *)
}.

(** The image as it is loaded. *)
Definition loaded_driver : Driver := mkDriver default_config zero_debug_stats false false.

(** [path_status] and [open_status] are what opening the parameters key gives,
    [create] what WdfDriverCreate gives.  The status of VnvmeConfigInit is not
    looked at; tracing is set up and, after a failure, torn down. *)
Definition DriverEntry (registry : string -> Z -> NTSTATUS * RegValue) (path_status open_status create : NTSTATUS) : M Driver NTSTATUS :=
  modify (fun d => mkDriver (VnvmeConfigInit registry path_status open_status (dr_Config d)).2 (dr_DebugStats d) (dr_EvtDeviceAdd d) (dr_EvtCleanupCallback d));;
  modify (fun d => mkDriver (dr_Config d) (VnvmeDebugInit (dr_DebugStats d)) (dr_EvtDeviceAdd d) (dr_EvtCleanupCallback d));;
  if negb (NT_SUCCESS create) then mret create
  else
    modify (fun d => mkDriver (dr_Config d) (dr_DebugStats d) true true);;
    mret STATUS_SUCCESS.

(** Whatever the registry says, the driver starts with a configuration within its limits and with empty statistics;
    the callbacks are registered exactly when the framework accepts the driver, and its refusal is the result. *)
Lemma DriverEntry_starts registry path_status open_status create :
  exists status d, DriverEntry registry path_status open_status create loaded_driver = Ok (status, d) /\
    cfg_wf (dr_Config d) /\ dr_DebugStats d = VnvmeDebugResetStats zero_debug_stats /\
    (if NT_SUCCESS create then status = STATUS_SUCCESS else status = create) /\
    dr_EvtDeviceAdd d = NT_SUCCESS create /\ dr_EvtCleanupCallback d = NT_SUCCESS create.
Proof.
  unfold DriverEntry, modify, mbind, M_bind. pose proof (VnvmeConfigInit_wf registry path_status open_status _ default_config_wf).
  destruct (NT_SUCCESS create); cbn [negb]; eexists _, _; (split; [done|]); by split_and!.
Qed.
