(* ===== verification/Storage.v ===== *)
(** Storage back ends: [vnvme/storage.c], [vnvme/storage_memory.c],
    [vnvme/storage_file.c], [vnvme/storage_priv.h].

    The memory back end is a pool block; the file back ends hold an open file
    of the kernel interface.  A function returns [Fault] where the C code would
    access memory outside of a block.  [t] is the time of the call, for the
    allocations it makes. *)
From S2P Require Import Prelude NvmeSpec Kernel Config.
Open Scope Z_scope.
Open Scope c_scope.

Section Storage.
Context {W : WinKernel}.

(** struct _VNVME_STORAGE_CONTEXT. *)
Record VNVME_STORAGE_CONTEXT := mkStorage {
  sc_Type : VNVME_STORAGE_TYPE;
  sc_TotalBytes : Z;
  sc_BlockSize : Z;
  sc_ReadOnly : bool;
  sc_MemoryBuffer : option block;
  sc_MemorySize : Z;
  sc_FileHandle : option File;
  sc_FilePath : option (list Z);  (* FilePath.Buffer *)
  sc_IsSparse : bool;
  sc_ReadCount : Z;
  sc_WriteCount : Z;
  sc_BytesRead : Z;
  sc_BytesWritten : Z
}.

Definition etaStorage r :=
  mkStorage (sc_Type r) (sc_TotalBytes r) (sc_BlockSize r) (sc_ReadOnly r) (sc_MemoryBuffer r) (sc_MemorySize
    r) (sc_FileHandle r) (sc_FilePath r) (sc_IsSparse r) (sc_ReadCount r) (sc_WriteCount r) (sc_BytesRead r)
    (sc_BytesWritten r).
#[export] Instance set_sc_Type : Setter sc_Type := ltac:(mk_setter etaStorage).
#[export] Instance set_sc_TotalBytes : Setter sc_TotalBytes := ltac:(mk_setter etaStorage).
#[export] Instance set_sc_BlockSize : Setter sc_BlockSize := ltac:(mk_setter etaStorage).
#[export] Instance set_sc_ReadOnly : Setter sc_ReadOnly := ltac:(mk_setter etaStorage).
#[export] Instance set_sc_MemoryBuffer : Setter sc_MemoryBuffer := ltac:(mk_setter etaStorage).
#[export] Instance set_sc_MemorySize : Setter sc_MemorySize := ltac:(mk_setter etaStorage).
#[export] Instance set_sc_FileHandle : Setter sc_FileHandle := ltac:(mk_setter etaStorage).
#[export] Instance set_sc_FilePath : Setter sc_FilePath := ltac:(mk_setter etaStorage).
#[export] Instance set_sc_IsSparse : Setter sc_IsSparse := ltac:(mk_setter etaStorage).
#[export] Instance set_sc_ReadCount : Setter sc_ReadCount := ltac:(mk_setter etaStorage).
#[export] Instance set_sc_WriteCount : Setter sc_WriteCount := ltac:(mk_setter etaStorage).
#[export] Instance set_sc_BytesRead : Setter sc_BytesRead := ltac:(mk_setter etaStorage).
#[export] Instance set_sc_BytesWritten : Setter sc_BytesWritten := ltac:(mk_setter etaStorage).

Definition VNVME_MAX_MEMORY_BACKEND_SIZE : Z := 256 * 1024 * 1024.
Definition ZERO_CHUNK_SIZE : Z := 64 * 1024.
Definition SPARSE_ZERO_CHUNK_SIZE : Z := 64 * 1024.

(** A zeroed context ([RtlZeroMemory] after the allocation). *)
Definition zero_storage : VNVME_STORAGE_CONTEXT :=
  mkStorage VNVME_STORAGE_TYPE_NONE 0 0 false None 0 None None false 0 0 0 0.

(** A successful read or write is counted. *)
Definition count_read (Length : Z) (c : VNVME_STORAGE_CONTEXT) : VNVME_STORAGE_CONTEXT :=
  c <| sc_ReadCount ::= fun n => s64 (n + 1) |> <| sc_BytesRead ::= fun n => s64 (n + Length) |>.
Definition count_write (Length : Z) (c : VNVME_STORAGE_CONTEXT) : VNVME_STORAGE_CONTEXT :=
  c <| sc_WriteCount ::= fun n => s64 (n + 1) |> <| sc_BytesWritten ::= fun n => s64 (n + Length) |>.

(** ** The memory back end *)

Definition StorageMemoryInit (t : nat) (Context : VNVME_STORAGE_CONTEXT) (TotalBytes : Z)
  : NTSTATUS * VNVME_STORAGE_CONTEXT :=
  if VNVME_MAX_MEMORY_BACKEND_SIZE <? TotalBytes then (STATUS_INSUFFICIENT_RESOURCES, Context)
  else if negb (ExAllocatePool2 t TotalBytes) then (STATUS_INSUFFICIENT_RESOURCES, Context)
  else (STATUS_SUCCESS,
        Context <| sc_MemoryBuffer := Some (Block TotalBytes mem_zero) |>
                <| sc_MemorySize := TotalBytes |>
                <| sc_TotalBytes := TotalBytes |>
                <| sc_Type := VNVME_STORAGE_TYPE_MEMORY |>).

Definition StorageMemoryCleanup (Context : VNVME_STORAGE_CONTEXT) : VNVME_STORAGE_CONTEXT :=
  match sc_MemoryBuffer Context with
  | Some _ => Context <| sc_MemoryBuffer := None |> <| sc_MemorySize := 0 |>
  | None => Context
  end.

(** Copying [n] bytes between two blocks; outside of either is a fault. *)
Definition copy_block (dst : block) (d : Z) (src : block) (s n : Z) : option block :=
  if in_block (blk_size src) s n then blk_write dst d (blk_mem src) s n else None.

(** The status, the buffer and the context after a read. *)
Definition StorageMemoryRead (Context : VNVME_STORAGE_CONTEXT) (Offset : Z) (Buffer : block) (Length : Z)
  : res (NTSTATUS * block * VNVME_STORAGE_CONTEXT) :=
  match sc_MemoryBuffer Context with
  | None => Ok (STATUS_DEVICE_NOT_READY, Buffer, Context)
  | Some buf =>
      if sc_TotalBytes Context <? (Offset +₆₄ Length) then Ok (STATUS_INVALID_PARAMETER, Buffer, Context)
      else match copy_block Buffer 0 buf Offset Length with
           | None => Fault
           | Some Buffer' => Ok (STATUS_SUCCESS, Buffer', count_read Length Context)
           end
  end.

Definition StorageMemoryWrite (Context : VNVME_STORAGE_CONTEXT) (Offset : Z) (Buffer : block) (Length : Z)
  : res (NTSTATUS * VNVME_STORAGE_CONTEXT) :=
  match sc_MemoryBuffer Context with
  | None => Ok (STATUS_DEVICE_NOT_READY, Context)
  | Some buf =>
      if sc_ReadOnly Context then Ok (STATUS_MEDIA_WRITE_PROTECTED, Context)
      else if sc_TotalBytes Context <? (Offset +₆₄ Length) then Ok (STATUS_INVALID_PARAMETER, Context)
      else match copy_block buf Offset Buffer 0 Length with
           | None => Fault
           | Some buf' => Ok (STATUS_SUCCESS, count_write Length (Context <| sc_MemoryBuffer := Some buf' |>))
           end
  end.

Definition StorageMemoryWriteZeroes (Context : VNVME_STORAGE_CONTEXT) (Offset Length : Z)
  : res (NTSTATUS * VNVME_STORAGE_CONTEXT) :=
  match sc_MemoryBuffer Context with
  | None => Ok (STATUS_DEVICE_NOT_READY, Context)
  | Some buf =>
      if sc_ReadOnly Context then Ok (STATUS_MEDIA_WRITE_PROTECTED, Context)
      else if sc_TotalBytes Context <? (Offset +₆₄ Length) then Ok (STATUS_INVALID_PARAMETER, Context)
      else match blk_zero buf Offset Length with
           | None => Fault
           | Some buf' => Ok (STATUS_SUCCESS, count_write Length (Context <| sc_MemoryBuffer := Some buf' |>))
           end
  end.

(** The status and, on success, the offset of [*DirectPtr] from the start of
    the buffer. *)
Definition StorageMemoryGetDirect (Context : VNVME_STORAGE_CONTEXT) (Offset Length : Z) : NTSTATUS * option Z :=
  match sc_MemoryBuffer Context with
  | None => (STATUS_DEVICE_NOT_READY, None)
  | Some _ =>
      if sc_TotalBytes Context <? (Offset +₆₄ Length) then (STATUS_INVALID_PARAMETER, None)
      else (STATUS_SUCCESS, Some Offset)
  end.

(** ** The file and sparse file back ends *)

(** The common part of the two initialisations: copy the path, open or create
    the file.  [None] in the second place is a failure. *)
Definition open_backing_file (t : nat) (Context : VNVME_STORAGE_CONTEXT) (FilePath : list Z) (CreateNew : bool)
  : NTSTATUS * option bool * VNVME_STORAGE_CONTEXT :=
  if negb (ExAllocatePool2 t (2 * Z.of_nat (length FilePath) + 2)) then
    (STATUS_INSUFFICIENT_RESOURCES, None, Context <| sc_FilePath := None |>)
  else
    let Context := Context <| sc_FilePath := Some FilePath |> in
    let '(status, f, created) := ZwCreateFile t FilePath (sc_ReadOnly Context) CreateNew in
    if negb (NT_SUCCESS status) then (status, None, Context <| sc_FilePath := None |>)
    else (status, Some created, Context <| sc_FileHandle := Some f |>).

(** Setting the size of a new file; on failure the file is closed. *)
Definition set_file_size (Context : VNVME_STORAGE_CONTEXT) (TotalBytes : Z) : NTSTATUS * VNVME_STORAGE_CONTEXT :=
  match sc_FileHandle Context with
  | None => (STATUS_SUCCESS, Context)
  | Some f =>
      let '(status, f) := ZwSetEndOfFile f TotalBytes in
      if NT_SUCCESS status then (status, Context <| sc_FileHandle := Some f |>)
      else (status, Context <| sc_FileHandle := None |> <| sc_FilePath := None |>)
  end.

Definition StorageFileInit (t : nat) (Context : VNVME_STORAGE_CONTEXT) (FilePath : list Z) (TotalBytes : Z) (CreateNew : bool)
  : NTSTATUS * VNVME_STORAGE_CONTEXT :=
  match open_backing_file t Context FilePath CreateNew with
  | (status, None, Context) => (status, Context)
  | (_, Some created, Context) =>
      let '(status, Context) :=
        if CreateNew || created then set_file_size Context TotalBytes else (STATUS_SUCCESS, Context) in
      if negb (NT_SUCCESS status) then (status, Context)
      else (STATUS_SUCCESS, Context <| sc_TotalBytes := TotalBytes |> <| sc_Type := VNVME_STORAGE_TYPE_FILE |>)
  end.

Definition StorageFileCleanup (Context : VNVME_STORAGE_CONTEXT) : VNVME_STORAGE_CONTEXT :=
  Context <| sc_FileHandle := None |> <| sc_FilePath := None |>.

Definition StorageFileRead (Context : VNVME_STORAGE_CONTEXT) (Offset : Z) (Buffer : block) (Length : Z)
  : res (NTSTATUS * block * VNVME_STORAGE_CONTEXT) :=
  match sc_FileHandle Context with
  | None => Ok (STATUS_DEVICE_NOT_READY, Buffer, Context)
  | Some f =>
      if sc_TotalBytes Context <? (Offset +₆₄ Length) then Ok (STATUS_INVALID_PARAMETER, Buffer, Context)
      else
        let '(status, data) := ZwReadFile f Offset Length in
        match blk_write Buffer 0 data 0 Length with
        | None => Fault
        | Some Buffer' => Ok (status, Buffer', if NT_SUCCESS status then count_read Length Context else Context)
        end
  end.

Definition StorageFileWrite (Context : VNVME_STORAGE_CONTEXT) (Offset : Z) (Buffer : block) (Length : Z)
  : res (NTSTATUS * VNVME_STORAGE_CONTEXT) :=
  match sc_FileHandle Context with
  | None => Ok (STATUS_DEVICE_NOT_READY, Context)
  | Some f =>
      if sc_ReadOnly Context then Ok (STATUS_MEDIA_WRITE_PROTECTED, Context)
      else if sc_TotalBytes Context <? (Offset +₆₄ Length) then Ok (STATUS_INVALID_PARAMETER, Context)
      else if negb (in_block (blk_size Buffer) 0 Length) then Fault
      else
        let '(status, f') := ZwWriteFile f Offset (blk_mem Buffer) Length in
        let Context := Context <| sc_FileHandle := Some f' |> in
        Ok (status, if NT_SUCCESS status then count_write Length Context else Context)
  end.

(** Flushing never fails once the file is open; the time stamps it touches are not modelled. *)
Definition StorageFileFlush (Context : VNVME_STORAGE_CONTEXT) : NTSTATUS :=
  match sc_FileHandle Context with
  | None => STATUS_DEVICE_NOT_READY
  | Some _ => STATUS_SUCCESS
  end.

Definition StorageSparseInit (t : nat) (Context : VNVME_STORAGE_CONTEXT) (FilePath : list Z) (TotalBytes : Z) (CreateNew : bool)
  : NTSTATUS * VNVME_STORAGE_CONTEXT :=
  match open_backing_file t Context FilePath CreateNew with
  | (status, None, Context) => (status, Context)
  | (_, Some created, Context) =>
      let '(created, Context) :=
        match sc_FileHandle Context with
        | None => (created, Context)
        | Some f =>
            let '(status, f, created) := FSCTL_SET_SPARSE f in
            (created, Context <| sc_FileHandle := Some f |> <| sc_IsSparse := NT_SUCCESS status |>)
        end in
      let '(status, Context) :=
        if CreateNew || created then set_file_size Context TotalBytes else (STATUS_SUCCESS, Context) in
      if negb (NT_SUCCESS status) then (status, Context)
      else (STATUS_SUCCESS, Context <| sc_TotalBytes := TotalBytes |> <| sc_Type := VNVME_STORAGE_TYPE_SPARSE |>)
  end.

Definition StorageSparseRead (Context : VNVME_STORAGE_CONTEXT) (Offset : Z) (Buffer : block) (Length : Z)
  : res (NTSTATUS * block * VNVME_STORAGE_CONTEXT) :=
  match sc_FileHandle Context with
  | None => Ok (STATUS_DEVICE_NOT_READY, Buffer, Context)
  | Some f =>
      if sc_TotalBytes Context <? (Offset +₆₄ Length) then Ok (STATUS_INVALID_PARAMETER, Buffer, Context)
      else
        let '(status, data) := ZwReadFile f Offset Length in
        match blk_write Buffer 0 data 0 Length with
        | None => Fault
        | Some Buffer' => Ok (status, Buffer', if NT_SUCCESS status then count_read Length Context else Context)
        end
  end.

Definition StorageSparseWrite (Context : VNVME_STORAGE_CONTEXT) (Offset : Z) (Buffer : block) (Length : Z)
  : res (NTSTATUS * VNVME_STORAGE_CONTEXT) :=
  match sc_FileHandle Context with
  | None => Ok (STATUS_DEVICE_NOT_READY, Context)
  | Some f =>
      if sc_ReadOnly Context then Ok (STATUS_MEDIA_WRITE_PROTECTED, Context)
      else if sc_TotalBytes Context <? (Offset +₆₄ Length) then Ok (STATUS_INVALID_PARAMETER, Context)
      else if negb (in_block (blk_size Buffer) 0 Length) then Fault
      else
        let '(status, f') := ZwWriteFile f Offset (blk_mem Buffer) Length in
        let Context := Context <| sc_FileHandle := Some f' |> in
        Ok (status, if NT_SUCCESS status then count_write Length Context else Context)
  end.

(** The loop that writes zeroes in chunks, for either writer:
    [while (remainingLength > 0 && NT_SUCCESS(status))]. *)
Fixpoint zero_loop (write : VNVME_STORAGE_CONTEXT -> Z -> block -> Z -> res (NTSTATUS * VNVME_STORAGE_CONTEXT))
  (zeroBuffer : block) (chunk : Z) (fuel : nat)
  (status : NTSTATUS) (Context : VNVME_STORAGE_CONTEXT) (currentOffset remainingLength : Z)
  : res (NTSTATUS * VNVME_STORAGE_CONTEXT) :=
  if (0 <? remainingLength) && NT_SUCCESS status then
    match fuel with
    | O => OutOfFuel
    | S fuel =>
        let chunkSize := if chunk <? remainingLength then chunk else remainingLength in
        match write Context currentOffset zeroBuffer chunkSize with
        | Ok (status, Context) =>
            zero_loop write zeroBuffer chunk fuel status Context
              (currentOffset +₆₄ chunkSize) (remainingLength -₃₂ chunkSize)
        | Fault => Fault
        | OutOfFuel => OutOfFuel
        end
    end
  else Ok (status, Context).

(** Enough iterations for any [Length]. *)
Definition zero_fuel (Length chunk : Z) : nat := Z.to_nat (Length / chunk + 1).

Definition StorageSparseWriteZeroes (t : nat) (Context : VNVME_STORAGE_CONTEXT) (Offset Length : Z)
  : res (NTSTATUS * VNVME_STORAGE_CONTEXT) :=
  match sc_FileHandle Context with
  | None => Ok (STATUS_DEVICE_NOT_READY, Context)
  | Some f =>
      if sc_ReadOnly Context then Ok (STATUS_MEDIA_WRITE_PROTECTED, Context)
      else if sc_TotalBytes Context <? (Offset +₆₄ Length) then Ok (STATUS_INVALID_PARAMETER, Context)
      else
        let '(status, f') := FSCTL_SET_ZERO_DATA f Offset (Offset +₆₄ Length) in
        let Context := Context <| sc_FileHandle := Some f' |> in
        if NT_SUCCESS status then Ok (status, count_write Length Context)
        else if negb (ExAllocatePool2 t SPARSE_ZERO_CHUNK_SIZE) then Ok (STATUS_INSUFFICIENT_RESOURCES, Context)
        else zero_loop StorageSparseWrite (Block SPARSE_ZERO_CHUNK_SIZE mem_zero) SPARSE_ZERO_CHUNK_SIZE
               (zero_fuel Length SPARSE_ZERO_CHUNK_SIZE) STATUS_SUCCESS Context Offset Length
  end.

(** ** The common API *)

Definition VnvmeStorageCreate (t : nat) (Type_ : VNVME_STORAGE_TYPE) (TotalBytes BlockSize : Z) (FilePath : option (list Z))
  : NTSTATUS * option VNVME_STORAGE_CONTEXT :=
  if negb (ExAllocatePool2 t 1) then (STATUS_INSUFFICIENT_RESOURCES, None)
  else
    let context := zero_storage <| sc_BlockSize := BlockSize |> in
    let '(status, context) :=
      match Type_ with
      | VNVME_STORAGE_TYPE_MEMORY => StorageMemoryInit (S t) context TotalBytes
      | VNVME_STORAGE_TYPE_FILE =>
          match FilePath with
          | None => (STATUS_INVALID_PARAMETER, context)
          | Some path => StorageFileInit (S t) context path TotalBytes true
          end
      | VNVME_STORAGE_TYPE_SPARSE =>
          match FilePath with
          | None => (STATUS_INVALID_PARAMETER, context)
          | Some path => StorageSparseInit (S t) context path TotalBytes true
          end
      | _ => (STATUS_NOT_SUPPORTED, context)
      end in
    if negb (NT_SUCCESS status) then (status, None) else (STATUS_SUCCESS, Some context).

(** The context is released: what is left of it is the cleaned-up record. *)
Definition VnvmeStorageDestroy (StorageContext : option VNVME_STORAGE_CONTEXT) : option VNVME_STORAGE_CONTEXT :=
  match StorageContext with
  | None => None
  | Some c =>
      match sc_Type c with
      | VNVME_STORAGE_TYPE_MEMORY => Some (StorageMemoryCleanup c)
      | VNVME_STORAGE_TYPE_FILE | VNVME_STORAGE_TYPE_SPARSE => Some (StorageFileCleanup c)
      | _ => Some c
      end
  end.

(** An operation on a context that may be NULL. *)
Definition with_context {A} (StorageContext : option VNVME_STORAGE_CONTEXT) (null : A)
  (f : VNVME_STORAGE_CONTEXT -> res (A * VNVME_STORAGE_CONTEXT)) : res (A * option VNVME_STORAGE_CONTEXT) :=
  match StorageContext with
  | None => Ok (null, None)
  | Some c => match f c with
              | Ok (a, c') => Ok (a, Some c')
              | Fault => Fault
              | OutOfFuel => OutOfFuel
              end
  end.

Definition VnvmeStorageRead (StorageContext : option VNVME_STORAGE_CONTEXT) (Offset : Z) (Buffer : block) (Length : Z)
  : res (NTSTATUS * block * option VNVME_STORAGE_CONTEXT) :=
  with_context StorageContext (STATUS_INVALID_PARAMETER, Buffer) (fun c =>
    match sc_Type c with
    | VNVME_STORAGE_TYPE_MEMORY => StorageMemoryRead c Offset Buffer Length
    | VNVME_STORAGE_TYPE_FILE => StorageFileRead c Offset Buffer Length
    | VNVME_STORAGE_TYPE_SPARSE => StorageSparseRead c Offset Buffer Length
    | _ => Ok (STATUS_NOT_SUPPORTED, Buffer, c)
    end).

Definition VnvmeStorageWrite (StorageContext : option VNVME_STORAGE_CONTEXT) (Offset : Z) (Buffer : block) (Length : Z)
  : res (NTSTATUS * option VNVME_STORAGE_CONTEXT) :=
  with_context StorageContext STATUS_INVALID_PARAMETER (fun c =>
    match sc_Type c with
    | VNVME_STORAGE_TYPE_MEMORY => StorageMemoryWrite c Offset Buffer Length
    | VNVME_STORAGE_TYPE_FILE => StorageFileWrite c Offset Buffer Length
    | VNVME_STORAGE_TYPE_SPARSE => StorageSparseWrite c Offset Buffer Length
    | _ => Ok (STATUS_NOT_SUPPORTED, c)
    end).

Definition VnvmeStorageWriteZeroes (t : nat) (StorageContext : option VNVME_STORAGE_CONTEXT) (Offset Length : Z)
  : res (NTSTATUS * option VNVME_STORAGE_CONTEXT) :=
  with_context StorageContext STATUS_INVALID_PARAMETER (fun c =>
    match sc_Type c with
    | VNVME_STORAGE_TYPE_MEMORY => StorageMemoryWriteZeroes c Offset Length
    | VNVME_STORAGE_TYPE_FILE =>
        if negb (ExAllocatePool2 t ZERO_CHUNK_SIZE) then Ok (STATUS_INSUFFICIENT_RESOURCES, c)
        else zero_loop StorageFileWrite (Block ZERO_CHUNK_SIZE mem_zero) ZERO_CHUNK_SIZE
               (zero_fuel Length ZERO_CHUNK_SIZE) STATUS_SUCCESS c Offset Length
    | VNVME_STORAGE_TYPE_SPARSE => StorageSparseWriteZeroes t c Offset Length
    | _ => Ok (STATUS_NOT_SUPPORTED, c)
    end).

Definition VnvmeStorageFlush (StorageContext : option VNVME_STORAGE_CONTEXT) : NTSTATUS :=
  match StorageContext with
  | None => STATUS_INVALID_PARAMETER
  | Some c =>
      match sc_Type c with
      | VNVME_STORAGE_TYPE_MEMORY => STATUS_SUCCESS
      | VNVME_STORAGE_TYPE_FILE | VNVME_STORAGE_TYPE_SPARSE => StorageFileFlush c
      | _ => STATUS_NOT_SUPPORTED
      end
  end.

Definition VnvmeStorageDeallocate (t : nat) (StorageContext : option VNVME_STORAGE_CONTEXT) (Offset Length : Z)
  : res (NTSTATUS * option VNVME_STORAGE_CONTEXT) :=
  match StorageContext with
  | None => Ok (STATUS_INVALID_PARAMETER, None)
  | Some c =>
      if negb (bool_decide (sc_Type c = VNVME_STORAGE_TYPE_SPARSE))
      then VnvmeStorageWriteZeroes t (Some c) Offset (u32 Length)
      else match sc_FileHandle c with
      | None => Ok (STATUS_DEVICE_NOT_READY, Some c)
      | Some f =>
          if sc_ReadOnly c then Ok (STATUS_MEDIA_WRITE_PROTECTED, Some c)
          else
            let '(status, f') := FSCTL_SET_ZERO_DATA f Offset (Offset +₆₄ Length) in
            Ok (status, Some (c <| sc_FileHandle := Some f' |>))
      end
  end.

Definition VnvmeStorageGetDirect (StorageContext : option VNVME_STORAGE_CONTEXT) (Offset Length : Z) : NTSTATUS * option Z :=
  match StorageContext with
  | None => (STATUS_INVALID_PARAMETER, None)
  | Some c =>
      match sc_Type c with
      | VNVME_STORAGE_TYPE_MEMORY => StorageMemoryGetDirect c Offset Length
      | _ => (STATUS_NOT_SUPPORTED, None)
      end
  end.

Definition VnvmeStorageGetStats (StorageContext : option VNVME_STORAGE_CONTEXT) : Z * Z * Z * Z :=
  match StorageContext with
  | None => (0, 0, 0, 0)
  | Some c => (u64 (sc_ReadCount c), u64 (sc_WriteCount c), u64 (sc_BytesRead c), u64 (sc_BytesWritten c))
  end.
(** ** The contract of a storage back end *)

Context {L : FileLaws W}.

(** The byte at offset [a] of the disk. *)
Definition sc_byte (c : VNVME_STORAGE_CONTEXT) (a : Z) : Z :=
  match sc_Type c with
  | VNVME_STORAGE_TYPE_MEMORY => match sc_MemoryBuffer c with Some b => rd8 (blk_mem b) a | None => 0 end
  | VNVME_STORAGE_TYPE_FILE | VNVME_STORAGE_TYPE_SPARSE =>
      match sc_FileHandle c with Some f => file_byte f a | None => 0 end
  | VNVME_STORAGE_TYPE_NONE => 0
  end.

(** A context as the initialisation leaves it. *)
Definition sc_ok (c : VNVME_STORAGE_CONTEXT) : Prop :=
  match sc_Type c with
  | VNVME_STORAGE_TYPE_MEMORY => exists b, sc_MemoryBuffer c = Some b /\ blk_size b = sc_TotalBytes c
  | VNVME_STORAGE_TYPE_FILE | VNVME_STORAGE_TYPE_SPARSE => is_Some (sc_FileHandle c)
  | VNVME_STORAGE_TYPE_NONE => False
  end.

(** The disk of [c'] is the disk of [c] with the [len] bytes at [off] replaced by [data]. *)
Definition sc_updated (c c' : VNVME_STORAGE_CONTEXT) (off len : Z) (data : mem) : Prop :=
  forall a, sc_byte c' a = if decide (off <= a < off + len) then rd8 data (a - off) else sc_byte c a.

(** What stays fixed over the life of a context. *)
Definition sc_same_shape (c c' : VNVME_STORAGE_CONTEXT) : Prop :=
  sc_Type c' = sc_Type c /\ sc_TotalBytes c' = sc_TotalBytes c /\ sc_ReadOnly c' = sc_ReadOnly c.

Definition is_file (c : VNVME_STORAGE_CONTEXT) : Prop :=
  sc_Type c = VNVME_STORAGE_TYPE_FILE \/ sc_Type c = VNVME_STORAGE_TYPE_SPARSE.

(** A writer honours the contract for requests that do not wrap around 2^64. *)
Definition write_contract (write : VNVME_STORAGE_CONTEXT -> Z -> block -> Z -> res (NTSTATUS * VNVME_STORAGE_CONTEXT))
  (c : VNVME_STORAGE_CONTEXT) : Prop :=
  forall off buf len, 0 <= off -> 0 <= len <= blk_size buf -> off + len < 2 ^ 64 ->
  exists st c', write c off buf len = Ok (st, c') /\ sc_ok c' /\ sc_same_shape c c' /\
    (NT_SUCCESS st = true -> off + len <= sc_TotalBytes c /\ sc_ReadOnly c = false /\ sc_updated c c' off len (blk_mem buf)).

(** A reader honours the contract: success returns the bytes of the disk. *)
Definition read_contract (read : VNVME_STORAGE_CONTEXT -> Z -> block -> Z -> res (NTSTATUS * block * VNVME_STORAGE_CONTEXT))
  (c : VNVME_STORAGE_CONTEXT) : Prop :=
  forall off buf len, 0 <= off -> 0 <= len <= blk_size buf -> off + len < 2 ^ 64 ->
  exists st buf' c', read c off buf len = Ok (st, buf', c') /\ blk_size buf' = blk_size buf /\
    (c' = c \/ c' = count_read len c) /\
    (NT_SUCCESS st = true -> off + len <= sc_TotalBytes c /\
       forall i, rd8 (blk_mem buf') i = if decide (0 <= i < len) then sc_byte c (off + i) else rd8 (blk_mem buf) i).

Lemma u64_add_small off len : 0 <= off -> 0 <= len -> off + len < 2 ^ 64 -> (off +₆₄ len) = off + len.
Proof. intros. apply u64_small. lia. Qed.

Lemma sc_updated_nil c c' off len data :
  len <= 0 -> (forall a, sc_byte c' a = sc_byte c a) -> sc_updated c c' off len data.
Proof. intros ? H a. rewrite decide_False by lia. apply H. Qed.

(** What a successful write does to the context of the memory back end. *)
Lemma StorageMemoryWrite_contract c :
  sc_ok c -> sc_Type c = VNVME_STORAGE_TYPE_MEMORY -> write_contract StorageMemoryWrite c.
Proof.
  unfold sc_ok. intros Hok Ht. rewrite Ht in Hok. destruct Hok as (b & Hb & Hsz).
  intros off buf len H1 H2 H3. unfold StorageMemoryWrite. rewrite Hb.
  rewrite (u64_add_small _ _ H1 (proj1 H2) H3).
  destruct (sc_ReadOnly c) eqn:Hro; [|destruct (Z.ltb_spec (sc_TotalBytes c) (off + len))].
  - exists STATUS_MEDIA_WRITE_PROTECTED, c. unfold sc_ok; rewrite Ht. repeat split; eauto; done.
  - exists STATUS_INVALID_PARAMETER, c. unfold sc_ok; rewrite Ht. repeat split; eauto; done.
  - unfold copy_block, blk_write. rewrite !in_block_true by lia.
    eexists _, _. split; [reflexivity|]. unfold sc_ok. cbn. rewrite Ht. split; [|split].
    + eexists. split; [done|]. simpl. done.
    + done.
    + intros _. split; [lia|]. split; [done|]. intros a. unfold sc_byte. cbn. rewrite Ht, Hb. cbn.
      case_decide; autorewrite with memory; [f_equal; lia | done].
Qed.

(** Both file writers have the same body. *)
Lemma StorageSparseWrite_eq c off buf len : StorageSparseWrite c off buf len = StorageFileWrite c off buf len.
Proof. done. Qed.

Lemma sc_ok_file c : is_file c -> sc_ok c <-> is_Some (sc_FileHandle c).
Proof. unfold sc_ok. by intros [-> | ->]. Qed.

Lemma sc_byte_file c a :
  is_file c -> sc_byte c a = match sc_FileHandle c with Some f => file_byte f a | None => 0 end.
Proof. unfold sc_byte. by intros [-> | ->]. Qed.

Lemma StorageFileWrite_contract c : sc_ok c -> is_file c -> write_contract StorageFileWrite c.
Proof.
  intros Hok Hf. rewrite (sc_ok_file c Hf) in Hok. destruct Hok as (f & Hh).
  intros off buf len H1 H2 H3. unfold StorageFileWrite. rewrite Hh.
  rewrite (u64_add_small _ _ H1 (proj1 H2) H3).
  destruct (sc_ReadOnly c) eqn:Hro; [|destruct (Z.ltb_spec (sc_TotalBytes c) (off + len))].
  - exists STATUS_MEDIA_WRITE_PROTECTED, c. rewrite (sc_ok_file c Hf). repeat split; eauto; done.
  - exists STATUS_INVALID_PARAMETER, c. rewrite (sc_ok_file c Hf). repeat split; eauto; done.
  - rewrite in_block_true by lia. simpl. destruct (ZwWriteFile f off (blk_mem buf) len) as [st f'] eqn:Hw.
    eexists _, _. split; [reflexivity|].
    destruct (NT_SUCCESS st) eqn:Hst; (split; [rewrite sc_ok_file by exact Hf; cbn; eauto|]); (split; [done|]); [|done].
    intros _. split; [lia|]. split; [done|]. intros a.
    rewrite !sc_byte_file by exact Hf. cbn. rewrite Hh. by eapply write_law.
Qed.

(** The writer the common API dispatches to. *)
Definition writer_of (c : VNVME_STORAGE_CONTEXT) :=
  match sc_Type c with
  | VNVME_STORAGE_TYPE_MEMORY => StorageMemoryWrite
  | VNVME_STORAGE_TYPE_FILE => StorageFileWrite
  | _ => StorageSparseWrite
  end.

Lemma writer_of_contract c : sc_ok c -> write_contract (writer_of c) c.
Proof.
  intros Hok. unfold writer_of. destruct (sc_Type c) eqn:Ht.
  - unfold sc_ok in Hok. by rewrite Ht in Hok.
  - by apply StorageMemoryWrite_contract.
  - apply StorageFileWrite_contract; [done | by left].
  - apply StorageFileWrite_contract; [done | by right].
Qed.

Lemma VnvmeStorageWrite_writer c off buf len :
  sc_ok c -> VnvmeStorageWrite (Some c) off buf len =
    match writer_of c c off buf len with Ok (st, c') => Ok (st, Some c') | Fault => Fault | OutOfFuel => OutOfFuel end.
Proof. unfold VnvmeStorageWrite, with_context, writer_of, sc_ok. by destruct (sc_Type c). Qed.

(** A successful read returns the bytes of the disk and changes only the counters. *)
Lemma StorageFileRead_contract c : sc_ok c -> is_file c -> read_contract StorageFileRead c.
Proof.
  intros Hok Hf. rewrite (sc_ok_file c Hf) in Hok. destruct Hok as (f & Hh).
  intros off buf len H1 H2 H3. unfold StorageFileRead. rewrite Hh, (u64_add_small _ _ H1 (proj1 H2) H3).
  destruct (Z.ltb_spec (sc_TotalBytes c) (off + len)).
  { exists STATUS_INVALID_PARAMETER, buf, c. repeat split; auto; done. }
  destruct (ZwReadFile f off len) as [st data] eqn:Hr. unfold blk_write. rewrite in_block_true by lia.
  eexists _, _, _. split; [reflexivity|]. split; [done|]. split; [destruct (NT_SUCCESS st); auto|].
  intros Hst. split; [done|]. intros i. simpl. rewrite (sc_byte_file c _ Hf), Hh.
  case_decide; autorewrite with memory; [|done]. rewrite Z.add_0_l, Z.sub_0_r. by eapply read_law.
Qed.

Lemma StorageMemoryRead_contract c :
  sc_ok c -> sc_Type c = VNVME_STORAGE_TYPE_MEMORY -> read_contract StorageMemoryRead c.
Proof.
  unfold sc_ok. intros Hok Ht. rewrite Ht in Hok. destruct Hok as (b & Hb & Hsz).
  intros off buf len H1 H2 H3. unfold StorageMemoryRead. rewrite Hb, (u64_add_small _ _ H1 (proj1 H2) H3).
  destruct (Z.ltb_spec (sc_TotalBytes c) (off + len)).
  { exists STATUS_INVALID_PARAMETER, buf, c. repeat split; auto; done. }
  unfold copy_block, blk_write. rewrite !in_block_true by lia.
  eexists _, _, _. split; [reflexivity|]. split; [done|]. split; [by right|]. intros _. split; [done|].
  intros i. unfold sc_byte. rewrite Ht, Hb. simpl. case_decide; autorewrite with memory; [f_equal; lia | done].
Qed.

Definition reader_of (c : VNVME_STORAGE_CONTEXT) :=
  match sc_Type c with
  | VNVME_STORAGE_TYPE_MEMORY => StorageMemoryRead
  | VNVME_STORAGE_TYPE_FILE => StorageFileRead
  | _ => StorageSparseRead
  end.

Lemma reader_of_contract c : sc_ok c -> read_contract (reader_of c) c.
Proof.
  intros Hok. unfold reader_of. destruct (sc_Type c) eqn:Ht.
  - unfold sc_ok in Hok. by rewrite Ht in Hok.
  - by apply StorageMemoryRead_contract.
  - apply StorageFileRead_contract; [done | by left].
  - apply StorageFileRead_contract; [done | by right].
Qed.

Lemma VnvmeStorageRead_reader c off buf len :
  sc_ok c -> VnvmeStorageRead (Some c) off buf len =
    match reader_of c c off buf len with
    | Ok (st, buf', c') => Ok (st, buf', Some c') | Fault => Fault | OutOfFuel => OutOfFuel end.
Proof.
  unfold VnvmeStorageRead, with_context, reader_of, sc_ok. intros Hok.
  by destruct (sc_Type c); [done | destruct (StorageMemoryRead _ _ _ _) as [[[]]| |]
    | destruct (StorageFileRead _ _ _ _) as [[[]]| |] | destruct (StorageSparseRead _ _ _ _) as [[[]]| |]].
Qed.

(** ** Chunked zeroing *)

(** Zero-writing a range never needs more than [zero_fuel] chunks, and success
    leaves the whole range zero and the rest of the disk alone. *)
Definition zero_post (c : VNVME_STORAGE_CONTEXT) (off len : Z) (status : NTSTATUS)
  (r : res (NTSTATUS * VNVME_STORAGE_CONTEXT)) : Prop :=
  exists st c', r = Ok (st, c') /\ sc_ok c' /\ sc_same_shape c c' /\
    (NT_SUCCESS status = false -> st = status) /\
    (NT_SUCCESS st = true ->
      (0 < len -> off + len <= sc_TotalBytes c /\ sc_ReadOnly c = false) /\ sc_updated c c' off len mem_zero).

Lemma zero_post_stop c off len status :
  sc_ok c -> (NT_SUCCESS status = true -> len <= 0) -> zero_post c off len status (Ok (status, c)).
Proof.
  intros ? Hl. exists status, c. repeat (split; [done|]). intros Hs. specialize (Hl Hs).
  split; [lia | by apply sc_updated_nil].
Qed.

Lemma zero_loop_spec write chunk c0 :
  0 < chunk < 2 ^ 32 ->
  (forall c, sc_ok c -> sc_same_shape c0 c -> write_contract write c) ->
  forall fuel c off len, sc_ok c -> sc_same_shape c0 c ->
  0 <= off -> 0 <= len < 2 ^ 32 -> off + len < 2 ^ 64 -> len < chunk * Z.of_nat fuel + 1 ->
  forall status, zero_post c off len status (zero_loop write (Block chunk mem_zero) chunk fuel status c off len).
Proof.
  intros Hchunk Hw. induction fuel as [|fuel IH]; intros c off len Hok Hsh H1 H2 H3 Hfuel status; cbn [zero_loop].
  { replace len with 0 by lia. simpl. apply zero_post_stop; [done | lia]. }
  destruct (Z.ltb_spec 0 len) as [Hl|Hl]; [|by apply zero_post_stop].
  destruct (NT_SUCCESS status) eqn:Hs; simpl; [|apply zero_post_stop; congruence].
  set (n := if chunk <? len then chunk else len).
  assert (0 < n <= len /\ n <= chunk /\ (n = chunk \/ n = len)) as Hn by (unfold n; destruct (Z.ltb_spec chunk len); lia).
  destruct (Hw c Hok Hsh off (Block chunk mem_zero) n H1) as (st1 & c1 & -> & Hok1 & Hsh1 & Hpost); [simpl; lia | lia |].
  rewrite (u64_small (off + n)), (u32_small (len - n)) by lia.
  destruct (IH c1 (off + n) (len - n) Hok1) with (status := st1) as (st & c' & -> & Hok' & Hsh' & Hstop & Hz);
    [unfold sc_same_shape in *; intuition congruence | lia | lia | lia | lia |].
  exists st, c'. split; [done|]. split; [done|]. split; [unfold sc_same_shape in *; intuition congruence|].
  split; [congruence|]. intros Hst.
  assert (NT_SUCCESS st1 = true) as Hst1 by (destruct (NT_SUCCESS st1) eqn:E; [done | rewrite Hstop in Hst; congruence]).
  destruct (Hpost Hst1) as (Hin & Hro & Hu), (Hz Hst) as [Hb Hu'], Hsh1 as (_ & Htb & _). split.
  - intros _. split; [|done]. destruct (Z.eq_dec n len) as [->|]; [done|]. rewrite Htb in Hb. destruct Hb; lia.
  - intros a. rewrite (Hu' a), (Hu a). repeat case_decide; try reflexivity; lia.
Qed.

Lemma zero_fuel_enough Length chunk :
  0 < chunk -> 0 <= Length -> Length < chunk * Z.of_nat (zero_fuel Length chunk) + 1.
Proof. intros. unfold zero_fuel. pose proof (Z.div_pos Length chunk). rewrite Z2Nat.id by lia. Z.div_mod_to_equations. nia. Qed.

Lemma StorageMemoryWriteZeroes_post c off len :
  sc_ok c -> sc_Type c = VNVME_STORAGE_TYPE_MEMORY -> 0 <= off -> 0 <= len -> off + len < 2 ^ 64 ->
  zero_post c off len STATUS_SUCCESS (StorageMemoryWriteZeroes c off len).
Proof.
  intros Hok Ht H1 H2 H3. pose proof Hok as Hok'. unfold sc_ok in Hok. rewrite Ht in Hok. destruct Hok as (b & Hb & Hsz).
  unfold StorageMemoryWriteZeroes. rewrite Hb, (u64_add_small _ _ H1 H2 H3).
  destruct (sc_ReadOnly c) eqn:Hro; [eexists _, _; repeat split; done|].
  destruct (Z.ltb_spec (sc_TotalBytes c) (off + len)); [eexists _, _; repeat split; done|].
  unfold blk_zero. rewrite in_block_true by lia. eexists _, _. split; [done|]. unfold sc_ok. cbn. rewrite Ht.
  split; [eexists; done|]. split; [done|]. split; [done|]. intros _. split; [done|].
  intros a. unfold sc_byte. cbn. rewrite Ht, Hb. cbn. case_decide; by autorewrite with memory.
Qed.

Lemma StorageSparseWriteZeroes_post t c off len :
  sc_ok c -> sc_Type c = VNVME_STORAGE_TYPE_SPARSE -> 0 <= off -> 0 <= len < 2 ^ 32 -> off + len < 2 ^ 64 ->
  zero_post c off len STATUS_SUCCESS (StorageSparseWriteZeroes t c off len).
Proof.
  intros Hok Ht H1 H2 H3. assert (is_file c) as Hf by by right.
  pose proof Hok as [f Hh]%(sc_ok_file c Hf). unfold StorageSparseWriteZeroes.
  rewrite Hh, (u64_add_small _ _ H1 (proj1 H2) H3).
  destruct (sc_ReadOnly c) eqn:Hro; [eexists _, _; repeat split; done|].
  destruct (Z.ltb_spec (sc_TotalBytes c) (off + len)); [eexists _, _; repeat split; done|].
  destruct (FSCTL_SET_ZERO_DATA f off (off + len)) as [st f'] eqn:Hz. set (c1 := c <| sc_FileHandle := Some f' |>).
  assert (sc_ok c1) as Hok1 by (unfold sc_ok; cbn; rewrite Ht; eauto).
  destruct (NT_SUCCESS st) eqn:Hst.
  - eexists _, _. split; [done|]. split; [done|]. split; [done|]. split; [done|]. intros _. split; [done|].
    intros a. rewrite !sc_byte_file by exact Hf. cbn. rewrite Hh.
    case_decide; [by rewrite (zero_law _ _ _ _ _ _ Hz) | by rewrite (zero_frame _ _ _ _ _ _ Hz)].
  - destruct (ExAllocatePool2 t SPARSE_ZERO_CHUNK_SIZE); simpl; [|eexists _, _; repeat split; done].
    destruct (zero_loop_spec StorageSparseWrite SPARSE_ZERO_CHUNK_SIZE c) with
      (fuel := zero_fuel len SPARSE_ZERO_CHUNK_SIZE) (c := c1) (off := off) (len := len) (status := STATUS_SUCCESS)
      as (st' & c' & -> & ? & ? & ? & Hu); try done; [| apply zero_fuel_enough; [done|lia] |].
    { intros c2 Hok2 (Ht2 & _). apply StorageFileWrite_contract; [done|]. right. by rewrite Ht2. }
    exists st', c'. split; [done|]. split; [done|]. split; [done|]. split; [done|]. intros Hs. destruct (Hu Hs) as [? Hu']. split; [done|].
    intros a. rewrite Hu'. case_decide; [done|]. rewrite !sc_byte_file by exact Hf. cbn. rewrite Hh. by eapply zero_frame.
Qed.

Lemma VnvmeStorageWrite_ok c off buf len :
  sc_ok c -> 0 <= off -> 0 <= len <= blk_size buf -> off + len < 2 ^ 64 ->
  exists st c', VnvmeStorageWrite (Some c) off buf len = Ok (st, Some c') /\ sc_ok c' /\ sc_same_shape c c' /\
    (NT_SUCCESS st = true -> off + len <= sc_TotalBytes c /\ sc_ReadOnly c = false /\ sc_updated c c' off len (blk_mem buf)).
Proof.
  intros Hok H1 H2 H3. rewrite VnvmeStorageWrite_writer by done.
  destruct (writer_of_contract c Hok off buf len H1 H2 H3) as (st & c' & -> & H). eauto.
Qed.

Lemma VnvmeStorageRead_ok c off buf len :
  sc_ok c -> 0 <= off -> 0 <= len <= blk_size buf -> off + len < 2 ^ 64 ->
  exists st buf' c', VnvmeStorageRead (Some c) off buf len = Ok (st, buf', Some c') /\ blk_size buf' = blk_size buf /\
    (c' = c \/ c' = count_read len c) /\
    (NT_SUCCESS st = true -> off + len <= sc_TotalBytes c /\
       forall i, rd8 (blk_mem buf') i = if decide (0 <= i < len) then sc_byte c (off + i) else rd8 (blk_mem buf) i).
Proof.
  intros Hok H1 H2 H3. rewrite VnvmeStorageRead_reader by done.
  destruct (reader_of_contract c Hok off buf len H1 H2 H3) as (st & buf' & c' & -> & H). eauto 6.
Qed.

(** Whatever the back end, a write followed by a read of any range, both
    successful, returns the written bytes where the ranges overlap and the
    previous bytes of the disk elsewhere; neither call faults. *)
Lemma VnvmeStorage_write_read c off buf len off' buf2 len' :
  sc_ok c -> 0 <= off -> 0 <= len <= blk_size buf -> off + len < 2 ^ 64 ->
  0 <= off' -> 0 <= len' <= blk_size buf2 -> off' + len' < 2 ^ 64 ->
  exists st c1 st' buf3 c2,
    VnvmeStorageWrite (Some c) off buf len = Ok (st, Some c1) /\
    VnvmeStorageRead (Some c1) off' buf2 len' = Ok (st', buf3, Some c2) /\
    (NT_SUCCESS st = true -> NT_SUCCESS st' = true ->
      off + len <= sc_TotalBytes c /\ off' + len' <= sc_TotalBytes c /\
      forall i, 0 <= i < len' ->
        rd8 (blk_mem buf3) i =
          if decide (off <= off' + i < off + len) then rd8 (blk_mem buf) (off' + i - off) else sc_byte c (off' + i)).
Proof.
  intros Hok H1 H2 H3 H4 H5 H6.
  destruct (VnvmeStorageWrite_ok c off buf len Hok H1 H2 H3) as (st & c1 & Hw & Hok1 & (_ & Htb & _) & Hu).
  destruct (VnvmeStorageRead_ok c1 off' buf2 len' Hok1 H4 H5 H6) as (st' & buf3 & c2 & Hr & _ & _ & Hb).
  exists st, c1, st', buf3, c2. split; [done|]. split; [done|]. intros Hs Hs'.
  destruct (Hu Hs) as (Hin & _ & Hu'), (Hb Hs') as [Hin' Hb']. rewrite Htb in Hin'.
  repeat (split; [done|]). intros i Hi. rewrite Hb', decide_True by done. apply Hu'.
Qed.

(** Zeroing ends within the fuel of the chunk loops and never faults. *)
Lemma VnvmeStorageWriteZeroes_ok t c off len :
  sc_ok c -> 0 <= off -> 0 <= len < 2 ^ 32 -> off + len < 2 ^ 64 ->
  exists st c', VnvmeStorageWriteZeroes t (Some c) off len = Ok (st, Some c') /\
    sc_ok c' /\ sc_same_shape c c' /\
    (NT_SUCCESS st = true ->
      (0 < len -> off + len <= sc_TotalBytes c /\ sc_ReadOnly c = false) /\ sc_updated c c' off len mem_zero).
Proof.
  intros Hok H1 H2 H3. unfold VnvmeStorageWriteZeroes, with_context.
  assert (forall r status, zero_post c off len status r -> exists st c',
    match r with Ok (a, c'0) => Ok (a, Some c'0) | Fault => Fault | OutOfFuel => OutOfFuel end = Ok (st, Some c') /\
    sc_ok c' /\ sc_same_shape c c' /\ (NT_SUCCESS st = true ->
      (0 < len -> off + len <= sc_TotalBytes c /\ sc_ReadOnly c = false) /\ sc_updated c c' off len mem_zero)) as Hfin.
  { intros r status (st & c' & -> & ? & ? & _ & ?). eauto 6. }
  assert (forall c1, is_file c -> sc_ok c1 -> sc_same_shape c c1 ->
    zero_post c1 off len STATUS_SUCCESS (zero_loop StorageFileWrite (Block ZERO_CHUNK_SIZE mem_zero) ZERO_CHUNK_SIZE
      (zero_fuel len ZERO_CHUNK_SIZE) STATUS_SUCCESS c1 off len)) as Hloop.
  { intros c1 Hf Hok1 Hsh. apply zero_loop_spec with (c0 := c); try done; [|apply zero_fuel_enough; [done|lia]].
    intros c2 Hok2 (Ht & _). apply StorageFileWrite_contract; [done|]. unfold is_file in *. by rewrite Ht. }
  destruct (sc_Type c) eqn:Ht.
  - unfold sc_ok in Hok. by rewrite Ht in Hok.
  - apply (Hfin _ STATUS_SUCCESS). apply StorageMemoryWriteZeroes_post; (done || lia).
  - destruct (ExAllocatePool2 t ZERO_CHUNK_SIZE); simpl.
    + eapply Hfin, Hloop; [by left | done | done].
    + apply (Hfin (Ok (STATUS_INSUFFICIENT_RESOURCES, c)) STATUS_INSUFFICIENT_RESOURCES), zero_post_stop; done.
  - apply (Hfin _ STATUS_SUCCESS). by apply StorageSparseWriteZeroes_post.
Qed.

(** Zeroing a range on any back end ends within the fuel of the chunk loops,
    never faults, and on success leaves exactly that range of the disk zero: a
    later successful read of any range returns zeros where the two overlap and
    the previous bytes elsewhere; the file and sparse back ends work in chunks
    of 64 KB. *)
Lemma VnvmeStorageWriteZeroes_spec t c off len off' buf len' :
  sc_ok c -> 0 <= off -> 0 <= len < 2 ^ 32 -> off + len < 2 ^ 64 ->
  0 <= off' -> 0 <= len' <= blk_size buf -> off' + len' < 2 ^ 64 ->
  exists st c' st' buf' c2,
    VnvmeStorageWriteZeroes t (Some c) off len = Ok (st, Some c') /\
    VnvmeStorageRead (Some c') off' buf len' = Ok (st', buf', Some c2) /\
    (NT_SUCCESS st = true -> NT_SUCCESS st' = true ->
      forall i, 0 <= i < len' ->
        rd8 (blk_mem buf') i = if decide (off <= off' + i < off + len) then 0 else sc_byte c (off' + i)).
Proof.
  intros Hok H1 H2 H3 H4 H5 H6.
  destruct (VnvmeStorageWriteZeroes_ok t c off len Hok H1 H2 H3) as (st & c1 & Hw & Hok1 & _ & Hu).
  destruct (VnvmeStorageRead_ok c1 off' buf len' Hok1 H4 H5 H6) as (st' & buf3 & c2 & Hr & _ & _ & Hb).
  exists st, c1, st', buf3, c2. split; [done|]. split; [done|]. intros Hs Hs' i Hi.
  destruct (Hu Hs) as [_ Hu'], (Hb Hs') as [_ Hb']. rewrite Hb', decide_True by done. apply Hu'.
Qed.

(** A freshly created context satisfies the invariant; a memory disk is all zero. *)
Lemma VnvmeStorageCreate_shape t ty total bs path st storage :
  VnvmeStorageCreate t ty total bs path = (st, storage) ->
  (NT_SUCCESS st = false /\ storage = None) \/
  (st = STATUS_SUCCESS /\ exists c, storage = Some c /\ sc_ok c /\
   sc_Type c = ty /\ sc_TotalBytes c = total /\ sc_BlockSize c = bs /\ sc_ReadOnly c = false /\
   (ty = VNVME_STORAGE_TYPE_MEMORY -> exists b, sc_MemoryBuffer c = Some b /\ blk_mem b = mem_zero)).
Proof.
  unfold VnvmeStorageCreate, StorageMemoryInit, StorageFileInit, StorageSparseInit, open_backing_file, set_file_size.
  destruct (ExAllocatePool2 t 1); [|intros [= <- <-]; by left]. simpl.
  destruct ty; [intros [= <- <-]; by left | | destruct path as [path|]; [|intros [= <- <-]; by left]
    | destruct path as [path|]; [|intros [= <- <-]; by left]].
  - destruct (_ <? _); [intros [= <- <-]; by left|]. destruct (ExAllocatePool2 _ _); [|intros [= <- <-]; by left].
    intros [= <- <-]. right. split; [done|]. eexists. split; [done|]. unfold sc_ok; cbn. eauto 10.
  - destruct (ExAllocatePool2 _ _); [|intros [= <- <-]; by left]. cbn.
    destruct (ZwCreateFile _ _ _ _) as [[st1 f] cr]. destruct (NT_SUCCESS st1) eqn:E1; cbn; [|rewrite E1; intros [= <- <-]; by left].
    destruct (ZwSetEndOfFile _ _) as [st2 f2]. destruct (NT_SUCCESS st2) eqn:E; do 2 (cbn; rewrite ?E); [|intros [= <- <-]; by left].
    cbn. intros [= <- <-]. right. split; [done|]. eexists. split; [done|]. unfold sc_ok; cbn. repeat split; eauto; done.
  - destruct (ExAllocatePool2 _ _); [|intros [= <- <-]; by left]. cbn.
    destruct (ZwCreateFile _ _ _ _) as [[st0 f] cr]. destruct (NT_SUCCESS st0) eqn:E1; cbn; [|rewrite E1; intros [= <- <-]; by left].
    destruct (FSCTL_SET_SPARSE _) as [[st1 f1] cr1]. cbn.
    destruct (ZwSetEndOfFile _ _) as [st2 f2]. destruct (NT_SUCCESS st2) eqn:E; do 2 (cbn; rewrite ?E); [|intros [= <- <-]; by left].
    cbn. intros [= <- <-]. right. split; [done|]. eexists. split; [done|]. unfold sc_ok; cbn. repeat split; eauto; done.
Qed.

(** A memory disk accepts a write exactly when it is not write protected and
    the 64-bit sum [Offset + Length] does not exceed its size; as that sum
    wraps, a request at the very top of the 64-bit range is accepted as well
    and then writes outside of the buffer.  These are the only faults. *)
Lemma StorageMemoryWrite_fault_iff c off buf len :
  sc_ok c -> sc_Type c = VNVME_STORAGE_TYPE_MEMORY -> sc_TotalBytes c < 2 ^ 64 ->
  0 <= off < 2 ^ 64 -> 0 < len < 2 ^ 32 -> len <= blk_size buf ->
  StorageMemoryWrite c off buf len = Fault <->
    sc_ReadOnly c = false /\ 2 ^ 64 <= off + len /\ off + len - 2 ^ 64 <= sc_TotalBytes c.
Proof.
  unfold sc_ok. intros Hok Ht Htb Hoff Hlen Hbuf. rewrite Ht in Hok. destruct Hok as (b & Hb & Hsz).
  unfold StorageMemoryWrite. rewrite Hb. destruct (sc_ReadOnly c); [split; [done | intros [? _]; done]|].
  unfold copy_block, blk_write. rewrite (in_block_true (blk_size buf)) by lia.
  destruct (Z.lt_ge_cases (off + len) (2 ^ 64)) as [Hlt|Hge].
  - rewrite u64_small by lia. destruct (Z.ltb_spec (sc_TotalBytes c) (off + len)).
    + split; [done | lia].
    + rewrite in_block_true by lia. split; [done | lia].
  - replace (off +₆₄ len) with (off + len - 2 ^ 64) by word_lia.
    destruct (Z.ltb_spec (sc_TotalBytes c) (off + len - 2 ^ 64)); [split; [done | lia]|].
    rewrite in_block_false by lia. split; [done|]. done.
Qed.
End Storage.

(** ** Witnesses *)

#[local] Existing Instances TestKernel TestKernel_laws.

Definition test_disk (t : VNVME_STORAGE_TYPE) : @VNVME_STORAGE_CONTEXT TestKernel :=
  mkStorage t 4096 512 false (Some (Block 4096 mem_zero)) 4096 (Some (mem_zero : @File TestKernel)) None false 0 0 0 0.
Definition test_data : block := Block 512 (fun a => a).

(** Setters unfold on demand. *)
#[export] Hint Unfold set_sc_Type set_sc_TotalBytes set_sc_BlockSize set_sc_ReadOnly set_sc_MemoryBuffer
  set_sc_MemorySize set_sc_FileHandle set_sc_FilePath set_sc_IsSparse set_sc_ReadCount set_sc_WriteCount
  set_sc_BytesRead set_sc_BytesWritten : setters.
