(* ===== verification/State.v ===== *)
(** The state of the driver: the shared memory of [include/vnvme_common.h], the
    contexts of [vnvme/vnvme.h], and the record of everything the handlers can
    change.

    The control block, the notify ring and the queue descriptors of the shared
    memory are records; the queues themselves are bytes ([shm_mem]), which a
    handler addresses through the offset of a descriptor.  An access of queue
    memory that would leave the shared memory, or hit the control structures,
    is a fault.  BAR0 and the PCIe configuration space are byte memories.

    One controller is considered: the [PdoContext] argument of the C functions
    is [ks_pdo], [g_FdoContext] is [ks_fdo]. *)
From S2P Require Import Prelude NvmeSpec Kernel Config Storage.
Open Scope Z_scope.
Open Scope c_scope.

Section State.
Context {W : WinKernel}.

(** ** Shared memory *)

(** A queue descriptor. *)
Record VNVME_QUEUE_DESCRIPTOR := mkQueueDescriptor {
  qd_Offset : Z;
  qd_EntrySize : Z;
  qd_Capacity : Z;
  qd_Valid : Z;
  qd_Head : Z;  (* the consumer's index *)
  qd_Tail : Z;  (* the producer's index *)
  qd_Phase : Z
}.
Definition etaQueueDescriptor r :=
  mkQueueDescriptor (qd_Offset r) (qd_EntrySize r) (qd_Capacity r) (qd_Valid r) (qd_Head r) (qd_Tail r)
    (qd_Phase r).
#[export] Instance set_qd_Offset : Setter qd_Offset := ltac:(mk_setter etaQueueDescriptor).
#[export] Instance set_qd_EntrySize : Setter qd_EntrySize := ltac:(mk_setter etaQueueDescriptor).
#[export] Instance set_qd_Capacity : Setter qd_Capacity := ltac:(mk_setter etaQueueDescriptor).
#[export] Instance set_qd_Valid : Setter qd_Valid := ltac:(mk_setter etaQueueDescriptor).
#[export] Instance set_qd_Head : Setter qd_Head := ltac:(mk_setter etaQueueDescriptor).
#[export] Instance set_qd_Tail : Setter qd_Tail := ltac:(mk_setter etaQueueDescriptor).
#[export] Instance set_qd_Phase : Setter qd_Phase := ltac:(mk_setter etaQueueDescriptor).

(** An entry of the notify ring. *)
Record VNVME_NOTIFY_ENTRY := mkNotifyEntry {
  ne_QueueId : Z;
  ne_Type : Z;  (* 0: the SQ has new commands, 1: the CQ moved *)
  ne_Index : Z
}.
Definition etaNotifyEntry r :=
  mkNotifyEntry (ne_QueueId r) (ne_Type r) (ne_Index r).
#[export] Instance set_ne_QueueId : Setter ne_QueueId := ltac:(mk_setter etaNotifyEntry).
#[export] Instance set_ne_Type : Setter ne_Type := ltac:(mk_setter etaNotifyEntry).
#[export] Instance set_ne_Index : Setter ne_Index := ltac:(mk_setter etaNotifyEntry).

(** The notify ring. *)
Record VNVME_NOTIFY_RING := mkNotifyRing {
  nr_Head : Z;
  nr_Tail : Z;
  nr_Size : Z;
  nr_Entries : list VNVME_NOTIFY_ENTRY  (* VNVME_NOTIFY_RING_SIZE of them *)
}.
Definition etaNotifyRing r :=
  mkNotifyRing (nr_Head r) (nr_Tail r) (nr_Size r) (nr_Entries r).
#[export] Instance set_nr_Head : Setter nr_Head := ltac:(mk_setter etaNotifyRing).
#[export] Instance set_nr_Tail : Setter nr_Tail := ltac:(mk_setter etaNotifyRing).
#[export] Instance set_nr_Size : Setter nr_Size := ltac:(mk_setter etaNotifyRing).
#[export] Instance set_nr_Entries : Setter nr_Entries := ltac:(mk_setter etaNotifyRing).

(** The control block at the start of the shared memory. *)
Record VNVME_SHM_CONTROL_BLOCK := mkControlBlock {
  cb_Magic : Z;
  cb_Version : Z;
  cb_TotalSize : Z;
  cb_ControlBlockSize : Z;
  cb_Flags : Z;
  cb_AdminSQ : VNVME_QUEUE_DESCRIPTOR;
  cb_AdminCQ : VNVME_QUEUE_DESCRIPTOR;
  cb_IoQueueCount : Z;
  cb_MaxIoQueues : Z;
  cb_IoQueueDescriptorOffset : Z;
  cb_NotifyRingOffset : Z;
  cb_NotifyRingSize : Z;
  cb_DataBufferOffset : Z;
  cb_DataBufferSize : Z;
  cb_KernelReady : Z;
  cb_UserReady : Z;
  cb_ErrorCode : Z;
  cb_ControllerState : Z;
  cb_ShutdownRequested : Z;
  cb_CommandsProcessed : Z;
  cb_CompletionsPosted : Z;
  cb_BytesRead : Z;
  cb_BytesWritten : Z
}.
Definition etaControlBlock r :=
  mkControlBlock (cb_Magic r) (cb_Version r) (cb_TotalSize r) (cb_ControlBlockSize r) (cb_Flags r) (cb_AdminSQ
    r) (cb_AdminCQ r) (cb_IoQueueCount r) (cb_MaxIoQueues r) (cb_IoQueueDescriptorOffset r)
    (cb_NotifyRingOffset r) (cb_NotifyRingSize r) (cb_DataBufferOffset r) (cb_DataBufferSize r)
    (cb_KernelReady r) (cb_UserReady r) (cb_ErrorCode r) (cb_ControllerState r) (cb_ShutdownRequested r)
    (cb_CommandsProcessed r) (cb_CompletionsPosted r) (cb_BytesRead r) (cb_BytesWritten r).
#[export] Instance set_cb_Magic : Setter cb_Magic := ltac:(mk_setter etaControlBlock).
#[export] Instance set_cb_Version : Setter cb_Version := ltac:(mk_setter etaControlBlock).
#[export] Instance set_cb_TotalSize : Setter cb_TotalSize := ltac:(mk_setter etaControlBlock).
#[export] Instance set_cb_ControlBlockSize : Setter cb_ControlBlockSize := ltac:(mk_setter etaControlBlock).
#[export] Instance set_cb_Flags : Setter cb_Flags := ltac:(mk_setter etaControlBlock).
#[export] Instance set_cb_AdminSQ : Setter cb_AdminSQ := ltac:(mk_setter etaControlBlock).
#[export] Instance set_cb_AdminCQ : Setter cb_AdminCQ := ltac:(mk_setter etaControlBlock).
#[export] Instance set_cb_IoQueueCount : Setter cb_IoQueueCount := ltac:(mk_setter etaControlBlock).
#[export] Instance set_cb_MaxIoQueues : Setter cb_MaxIoQueues := ltac:(mk_setter etaControlBlock).
#[export] Instance set_cb_IoQueueDescriptorOffset : Setter cb_IoQueueDescriptorOffset := ltac:(mk_setter etaControlBlock).
#[export] Instance set_cb_NotifyRingOffset : Setter cb_NotifyRingOffset := ltac:(mk_setter etaControlBlock).
#[export] Instance set_cb_NotifyRingSize : Setter cb_NotifyRingSize := ltac:(mk_setter etaControlBlock).
#[export] Instance set_cb_DataBufferOffset : Setter cb_DataBufferOffset := ltac:(mk_setter etaControlBlock).
#[export] Instance set_cb_DataBufferSize : Setter cb_DataBufferSize := ltac:(mk_setter etaControlBlock).
#[export] Instance set_cb_KernelReady : Setter cb_KernelReady := ltac:(mk_setter etaControlBlock).
#[export] Instance set_cb_UserReady : Setter cb_UserReady := ltac:(mk_setter etaControlBlock).
#[export] Instance set_cb_ErrorCode : Setter cb_ErrorCode := ltac:(mk_setter etaControlBlock).
#[export] Instance set_cb_ControllerState : Setter cb_ControllerState := ltac:(mk_setter etaControlBlock).
#[export] Instance set_cb_ShutdownRequested : Setter cb_ShutdownRequested := ltac:(mk_setter etaControlBlock).
#[export] Instance set_cb_CommandsProcessed : Setter cb_CommandsProcessed := ltac:(mk_setter etaControlBlock).
#[export] Instance set_cb_CompletionsPosted : Setter cb_CompletionsPosted := ltac:(mk_setter etaControlBlock).
#[export] Instance set_cb_BytesRead : Setter cb_BytesRead := ltac:(mk_setter etaControlBlock).
#[export] Instance set_cb_BytesWritten : Setter cb_BytesWritten := ltac:(mk_setter etaControlBlock).

(** VNVME_CONTROLLER_STATE. *)
Definition VNVME_CTRL_STATE_DISABLED : Z := 0.
Definition VNVME_CTRL_STATE_ENABLING : Z := 1.
Definition VNVME_CTRL_STATE_READY : Z := 2.
Definition VNVME_CTRL_STATE_DISABLING : Z := 3.
Definition VNVME_CTRL_STATE_FAILED : Z := 4.

(** The shared memory: [ShmKernelVirtAddr]. *)
Record SharedMemory := mkShm {
  shm_cb : VNVME_SHM_CONTROL_BLOCK;
  shm_ring : VNVME_NOTIFY_RING;
  shm_descs : list VNVME_QUEUE_DESCRIPTOR;  (* SQ and CQ of each I/O queue, in turn *)
  shm_mem : mem  (* the queue and data bytes *)
}.
Definition etaShm r :=
  mkShm (shm_cb r) (shm_ring r) (shm_descs r) (shm_mem r).
#[export] Instance set_shm_cb : Setter shm_cb := ltac:(mk_setter etaShm).
#[export] Instance set_shm_ring : Setter shm_ring := ltac:(mk_setter etaShm).
#[export] Instance set_shm_descs : Setter shm_descs := ltac:(mk_setter etaShm).
#[export] Instance set_shm_mem : Setter shm_mem := ltac:(mk_setter etaShm).

(** ** Contexts *)

(** The driver's view of a queue. *)
Record VNVME_QUEUE_STATE := mkQueueState {
  qs_BaseAddress : Z;
  qs_Size : Z;
  qs_Head : Z;
  qs_Tail : Z;
  qs_PhaseTag : bool;
  qs_Created : bool;
  qs_CqId : Z
}.
Definition etaQueueState r :=
  mkQueueState (qs_BaseAddress r) (qs_Size r) (qs_Head r) (qs_Tail r) (qs_PhaseTag r) (qs_Created r) (qs_CqId
    r).
#[export] Instance set_qs_BaseAddress : Setter qs_BaseAddress := ltac:(mk_setter etaQueueState).
#[export] Instance set_qs_Size : Setter qs_Size := ltac:(mk_setter etaQueueState).
#[export] Instance set_qs_Head : Setter qs_Head := ltac:(mk_setter etaQueueState).
#[export] Instance set_qs_Tail : Setter qs_Tail := ltac:(mk_setter etaQueueState).
#[export] Instance set_qs_PhaseTag : Setter qs_PhaseTag := ltac:(mk_setter etaQueueState).
#[export] Instance set_qs_Created : Setter qs_Created := ltac:(mk_setter etaQueueState).
#[export] Instance set_qs_CqId : Setter qs_CqId := ltac:(mk_setter etaQueueState).

(** What RtlZeroMemory leaves. *)
Definition zero_queue : VNVME_QUEUE_STATE := mkQueueState 0 0 0 0 false false 0.

(** A namespace of the controller. *)
Record VNVME_NAMESPACE := mkNamespace {
  ns_NsId : Z;
  ns_Active : bool;
  ns_ReadOnly : bool;
  ns_ThinProvisioned : bool;
  ns_Nguid : list Z;  (* 16 bytes *)
  ns_Eui64 : list Z;  (* 8 bytes *)
  ns_BlockSize : Z;
  ns_TotalBlocks : Z;
  ns_TotalBytes : Z;
  ns_Storage : option VNVME_STORAGE_CONTEXT;
  ns_FormattedLbaSize : Z;
  ns_NumberOfLbaFormats : Z;
  ns_NsFeatures : Z;
  ns_ReadCommands : Z;
  ns_WriteCommands : Z;
  ns_ReadBytes : Z;
  ns_WriteBytes : Z;
  ns_FlushCommands : Z
}.
Definition etaNamespace r :=
  mkNamespace (ns_NsId r) (ns_Active r) (ns_ReadOnly r) (ns_ThinProvisioned r) (ns_Nguid r) (ns_Eui64 r)
    (ns_BlockSize r) (ns_TotalBlocks r) (ns_TotalBytes r) (ns_Storage r) (ns_FormattedLbaSize r)
    (ns_NumberOfLbaFormats r) (ns_NsFeatures r) (ns_ReadCommands r) (ns_WriteCommands r) (ns_ReadBytes r)
    (ns_WriteBytes r) (ns_FlushCommands r).
#[export] Instance set_ns_NsId : Setter ns_NsId := ltac:(mk_setter etaNamespace).
#[export] Instance set_ns_Active : Setter ns_Active := ltac:(mk_setter etaNamespace).
#[export] Instance set_ns_ReadOnly : Setter ns_ReadOnly := ltac:(mk_setter etaNamespace).
#[export] Instance set_ns_ThinProvisioned : Setter ns_ThinProvisioned := ltac:(mk_setter etaNamespace).
#[export] Instance set_ns_Nguid : Setter ns_Nguid := ltac:(mk_setter etaNamespace).
#[export] Instance set_ns_Eui64 : Setter ns_Eui64 := ltac:(mk_setter etaNamespace).
#[export] Instance set_ns_BlockSize : Setter ns_BlockSize := ltac:(mk_setter etaNamespace).
#[export] Instance set_ns_TotalBlocks : Setter ns_TotalBlocks := ltac:(mk_setter etaNamespace).
#[export] Instance set_ns_TotalBytes : Setter ns_TotalBytes := ltac:(mk_setter etaNamespace).
#[export] Instance set_ns_Storage : Setter ns_Storage := ltac:(mk_setter etaNamespace).
#[export] Instance set_ns_FormattedLbaSize : Setter ns_FormattedLbaSize := ltac:(mk_setter etaNamespace).
#[export] Instance set_ns_NumberOfLbaFormats : Setter ns_NumberOfLbaFormats := ltac:(mk_setter etaNamespace).
#[export] Instance set_ns_NsFeatures : Setter ns_NsFeatures := ltac:(mk_setter etaNamespace).
#[export] Instance set_ns_ReadCommands : Setter ns_ReadCommands := ltac:(mk_setter etaNamespace).
#[export] Instance set_ns_WriteCommands : Setter ns_WriteCommands := ltac:(mk_setter etaNamespace).
#[export] Instance set_ns_ReadBytes : Setter ns_ReadBytes := ltac:(mk_setter etaNamespace).
#[export] Instance set_ns_WriteBytes : Setter ns_WriteBytes := ltac:(mk_setter etaNamespace).
#[export] Instance set_ns_FlushCommands : Setter ns_FlushCommands := ltac:(mk_setter etaNamespace).

(** The controller. *)
Record VNVME_PDO_CONTEXT := mkPdo {
  pdo_ControllerId : Z;
  pdo_Bar0VirtAddr : option mem;
  pdo_Bar0PhysAddr : Z;
  pdo_Bar0Size : Z;
  pdo_Registers : bool;  (* the pointer is set; it points into BAR0 *)
  pdo_Doorbells : bool;  (* the pointer is set; it points at BAR0 + 0x1000 *)
  pdo_CachedCC : Z;
  pdo_PcieConfig : option mem;
  pdo_PcieConfigSize : Z;
  pdo_AdminSq : VNVME_QUEUE_STATE;
  pdo_AdminCq : VNVME_QUEUE_STATE;
  pdo_AdminSqBase : Z;
  pdo_AdminSqSize : Z;
  pdo_AdminCqBase : Z;
  pdo_AdminCqSize : Z;
  pdo_LastAdminSqTail : Z;
  pdo_LastAdminCqHead : Z;
  pdo_AdminCqPhase : Z;
  pdo_IoSq : list VNVME_QUEUE_STATE;  (* VNVME_MAX_IO_QUEUES of them *)
  pdo_IoCq : list VNVME_QUEUE_STATE;  (* VNVME_MAX_IO_QUEUES of them *)
  pdo_IoQueueCount : Z;
  pdo_MaxIoQueues : Z;
  pdo_PollingTimer : bool;  (* the timer object exists *)
  pdo_PollingIntervalUs : Z;
  pdo_PollingEnabled : bool;
  pdo_PollingActive : bool;
  pdo_AerCids : list Z;  (* VNVME_MAX_AER_COMMANDS of them *)
  pdo_AerCount : Z;
  pdo_NamespaceCount : Z;
  pdo_Namespaces : list VNVME_NAMESPACE;  (* VNVME_MAX_NAMESPACES of them *)
  pdo_AdminCommandsProcessed : Z;
  pdo_IoCommandsProcessed : Z;
  pdo_BytesRead : Z;
  pdo_BytesWritten : Z
}.
Definition etaPdo r :=
  mkPdo (pdo_ControllerId r) (pdo_Bar0VirtAddr r) (pdo_Bar0PhysAddr r) (pdo_Bar0Size r) (pdo_Registers r)
    (pdo_Doorbells r) (pdo_CachedCC r) (pdo_PcieConfig r) (pdo_PcieConfigSize r) (pdo_AdminSq r) (pdo_AdminCq
    r) (pdo_AdminSqBase r) (pdo_AdminSqSize r) (pdo_AdminCqBase r) (pdo_AdminCqSize r) (pdo_LastAdminSqTail r)
    (pdo_LastAdminCqHead r) (pdo_AdminCqPhase r) (pdo_IoSq r) (pdo_IoCq r) (pdo_IoQueueCount r)
    (pdo_MaxIoQueues r) (pdo_PollingTimer r) (pdo_PollingIntervalUs r) (pdo_PollingEnabled r) (pdo_PollingActive r) (pdo_AerCids r)
    (pdo_AerCount r) (pdo_NamespaceCount r) (pdo_Namespaces r) (pdo_AdminCommandsProcessed r)
    (pdo_IoCommandsProcessed r) (pdo_BytesRead r) (pdo_BytesWritten r).
#[export] Instance set_pdo_ControllerId : Setter pdo_ControllerId := ltac:(mk_setter etaPdo).
#[export] Instance set_pdo_Bar0VirtAddr : Setter pdo_Bar0VirtAddr := ltac:(mk_setter etaPdo).
#[export] Instance set_pdo_Bar0PhysAddr : Setter pdo_Bar0PhysAddr := ltac:(mk_setter etaPdo).
#[export] Instance set_pdo_Bar0Size : Setter pdo_Bar0Size := ltac:(mk_setter etaPdo).
#[export] Instance set_pdo_Registers : Setter pdo_Registers := ltac:(mk_setter etaPdo).
#[export] Instance set_pdo_Doorbells : Setter pdo_Doorbells := ltac:(mk_setter etaPdo).
#[export] Instance set_pdo_CachedCC : Setter pdo_CachedCC := ltac:(mk_setter etaPdo).
#[export] Instance set_pdo_PcieConfig : Setter pdo_PcieConfig := ltac:(mk_setter etaPdo).
#[export] Instance set_pdo_PcieConfigSize : Setter pdo_PcieConfigSize := ltac:(mk_setter etaPdo).
#[export] Instance set_pdo_AdminSq : Setter pdo_AdminSq := ltac:(mk_setter etaPdo).
#[export] Instance set_pdo_AdminCq : Setter pdo_AdminCq := ltac:(mk_setter etaPdo).
#[export] Instance set_pdo_AdminSqBase : Setter pdo_AdminSqBase := ltac:(mk_setter etaPdo).
#[export] Instance set_pdo_AdminSqSize : Setter pdo_AdminSqSize := ltac:(mk_setter etaPdo).
#[export] Instance set_pdo_AdminCqBase : Setter pdo_AdminCqBase := ltac:(mk_setter etaPdo).
#[export] Instance set_pdo_AdminCqSize : Setter pdo_AdminCqSize := ltac:(mk_setter etaPdo).
#[export] Instance set_pdo_LastAdminSqTail : Setter pdo_LastAdminSqTail := ltac:(mk_setter etaPdo).
#[export] Instance set_pdo_LastAdminCqHead : Setter pdo_LastAdminCqHead := ltac:(mk_setter etaPdo).
#[export] Instance set_pdo_AdminCqPhase : Setter pdo_AdminCqPhase := ltac:(mk_setter etaPdo).
#[export] Instance set_pdo_IoSq : Setter pdo_IoSq := ltac:(mk_setter etaPdo).
#[export] Instance set_pdo_IoCq : Setter pdo_IoCq := ltac:(mk_setter etaPdo).
#[export] Instance set_pdo_IoQueueCount : Setter pdo_IoQueueCount := ltac:(mk_setter etaPdo).
#[export] Instance set_pdo_MaxIoQueues : Setter pdo_MaxIoQueues := ltac:(mk_setter etaPdo).
#[export] Instance set_pdo_PollingTimer : Setter pdo_PollingTimer := ltac:(mk_setter etaPdo).
#[export] Instance set_pdo_PollingIntervalUs : Setter pdo_PollingIntervalUs := ltac:(mk_setter etaPdo).
#[export] Instance set_pdo_PollingEnabled : Setter pdo_PollingEnabled := ltac:(mk_setter etaPdo).
#[export] Instance set_pdo_PollingActive : Setter pdo_PollingActive := ltac:(mk_setter etaPdo).
#[export] Instance set_pdo_AerCids : Setter pdo_AerCids := ltac:(mk_setter etaPdo).
#[export] Instance set_pdo_AerCount : Setter pdo_AerCount := ltac:(mk_setter etaPdo).
#[export] Instance set_pdo_NamespaceCount : Setter pdo_NamespaceCount := ltac:(mk_setter etaPdo).
#[export] Instance set_pdo_Namespaces : Setter pdo_Namespaces := ltac:(mk_setter etaPdo).
#[export] Instance set_pdo_AdminCommandsProcessed : Setter pdo_AdminCommandsProcessed := ltac:(mk_setter etaPdo).
#[export] Instance set_pdo_IoCommandsProcessed : Setter pdo_IoCommandsProcessed := ltac:(mk_setter etaPdo).
#[export] Instance set_pdo_BytesRead : Setter pdo_BytesRead := ltac:(mk_setter etaPdo).
#[export] Instance set_pdo_BytesWritten : Setter pdo_BytesWritten := ltac:(mk_setter etaPdo).

Inductive VNVME_COMMAND_MODE : Type :=
  | VNVME_CMD_MODE_USER
  | VNVME_CMD_MODE_KERNEL.

#[export] Instance VNVME_COMMAND_MODE_EqDecision : EqDecision VNVME_COMMAND_MODE.
Proof. solve_decision. Defined.

(** The bus. *)
Record VNVME_FDO_CONTEXT := mkFdo {
  fdo_CommandMode : VNVME_COMMAND_MODE;
  fdo_Shm : option SharedMemory;  (* ShmKernelVirtAddr *)
  fdo_ShmSize : Z;
  fdo_ShmMdl : bool;
  fdo_ShmUserVirtAddr : bool;  (* mapped into user space *)
  fdo_CommandReadyEvent : bool;  (* signalled *)
  fdo_UserReady : bool;
  fdo_UserCrashed : bool;
  fdo_LastHeartbeat : Z;
  fdo_EventNotificationEnabled : bool;
  fdo_ErrorCount : Z
}.
Definition etaFdo r :=
  mkFdo (fdo_CommandMode r) (fdo_Shm r) (fdo_ShmSize r) (fdo_ShmMdl r) (fdo_ShmUserVirtAddr r)
    (fdo_CommandReadyEvent r) (fdo_UserReady r) (fdo_UserCrashed r) (fdo_LastHeartbeat r)
    (fdo_EventNotificationEnabled r) (fdo_ErrorCount r).
#[export] Instance set_fdo_CommandMode : Setter fdo_CommandMode := ltac:(mk_setter etaFdo).
#[export] Instance set_fdo_Shm : Setter fdo_Shm := ltac:(mk_setter etaFdo).
#[export] Instance set_fdo_ShmSize : Setter fdo_ShmSize := ltac:(mk_setter etaFdo).
#[export] Instance set_fdo_ShmMdl : Setter fdo_ShmMdl := ltac:(mk_setter etaFdo).
#[export] Instance set_fdo_ShmUserVirtAddr : Setter fdo_ShmUserVirtAddr := ltac:(mk_setter etaFdo).
#[export] Instance set_fdo_CommandReadyEvent : Setter fdo_CommandReadyEvent := ltac:(mk_setter etaFdo).
#[export] Instance set_fdo_UserReady : Setter fdo_UserReady := ltac:(mk_setter etaFdo).
#[export] Instance set_fdo_UserCrashed : Setter fdo_UserCrashed := ltac:(mk_setter etaFdo).
#[export] Instance set_fdo_LastHeartbeat : Setter fdo_LastHeartbeat := ltac:(mk_setter etaFdo).
#[export] Instance set_fdo_EventNotificationEnabled : Setter fdo_EventNotificationEnabled := ltac:(mk_setter etaFdo).
#[export] Instance set_fdo_ErrorCount : Setter fdo_ErrorCount := ltac:(mk_setter etaFdo).

(** Everything a handler can read or change. *)
Record KState := mkState {
  ks_fdo : option VNVME_FDO_CONTEXT;  (* g_FdoContext *)
  ks_pdo : VNVME_PDO_CONTEXT;  (* the controller a function is called on *)
  ks_host : mem;  (* physical host memory *)
  ks_cfg : VNVME_CONFIG;  (* g_Config *)
  ks_time : Z;  (* KeQuerySystemTime *)
  ks_tick : nat  (* allocations and mappings made so far *)
}.
Definition etaState r :=
  mkState (ks_fdo r) (ks_pdo r) (ks_host r) (ks_cfg r) (ks_time r) (ks_tick r).
#[export] Instance set_ks_fdo : Setter ks_fdo := ltac:(mk_setter etaState).
#[export] Instance set_ks_pdo : Setter ks_pdo := ltac:(mk_setter etaState).
#[export] Instance set_ks_host : Setter ks_host := ltac:(mk_setter etaState).
#[export] Instance set_ks_cfg : Setter ks_cfg := ltac:(mk_setter etaState).
#[export] Instance set_ks_time : Setter ks_time := ltac:(mk_setter etaState).
#[export] Instance set_ks_tick : Setter ks_tick := ltac:(mk_setter etaState).

(** ** Access to the state *)

Definition pdo_update (f : VNVME_PDO_CONTEXT -> VNVME_PDO_CONTEXT) : M KState unit :=
  modify (fun s => s <| ks_pdo ::= f |>).

(** Update the FDO, when there is one. *)
Definition fdo_update (f : VNVME_FDO_CONTEXT -> VNVME_FDO_CONTEXT) : M KState unit :=
  modify (fun s => s <| ks_fdo ::= option_map f |>).

(** Update the shared memory, when there is one. *)
Definition shm_update (f : SharedMemory -> SharedMemory) : M KState unit :=
  fdo_update (fun d => d <| fdo_Shm ::= option_map f |>).

Definition cb_update (f : VNVME_SHM_CONTROL_BLOCK -> VNVME_SHM_CONTROL_BLOCK) : M KState unit :=
  shm_update (fun m => m <| shm_cb ::= f |>).

(** Update entry [i] of the descriptor array; out of range is a fault. *)
Definition desc_update (i : Z) (f : VNVME_QUEUE_DESCRIPTOR -> VNVME_QUEUE_DESCRIPTOR) (m : SharedMemory) : option SharedMemory :=
  d ← arr_get (shm_descs m) i;
  l ← arr_set (shm_descs m) i (f d);
  Some (m <| shm_descs := l |>).

(** One pool allocation of [size] bytes: does it succeed? *)
Definition alloc (size : Z) : M KState bool := fun s =>
  Ok (ExAllocatePool2 (ks_tick s) size, s <| ks_tick ::= S |>).

(** One mapping of [size] bytes of physical memory: does it succeed? *)
Definition map_io (pa size : Z) : M KState bool := fun s =>
  Ok (MmMapIoSpace (ks_tick s) pa size, s <| ks_tick ::= S |>).

(** The calls of the memory manager that set up BAR0 and the shared memory. *)
Definition alloc_contiguous (size : Z) : M KState bool := fun s =>
  Ok (MmAllocateContiguousMemorySpecifyCache (ks_tick s) size, s <| ks_tick ::= S |>).
Definition physical_address : M KState Z := fun s =>
  Ok (MmGetPhysicalAddress (ks_tick s), s <| ks_tick ::= S |>).

(** The ring and queue state arrays of the controller. *)
Definition upd_nth {A} (l : list A) (i : Z) (f : A -> A) : option (list A) :=
  x ← arr_get l i; arr_set l i (f x).

Definition iosq_update (i : Z) (f : VNVME_QUEUE_STATE -> VNVME_QUEUE_STATE) : M KState unit :=
  s ← get;
  l ← of_opt (upd_nth (pdo_IoSq (ks_pdo s)) i f);
  pdo_update (fun p => p <| pdo_IoSq := l |>).

Definition iocq_update (i : Z) (f : VNVME_QUEUE_STATE -> VNVME_QUEUE_STATE) : M KState unit :=
  s ← get;
  l ← of_opt (upd_nth (pdo_IoCq (ks_pdo s)) i f);
  pdo_update (fun p => p <| pdo_IoCq := l |>).

(** The shapes the C declarations guarantee: the lengths of the fixed arrays. *)
Definition pdo_shape (p : VNVME_PDO_CONTEXT) : Prop :=
  length (pdo_IoSq p) = 16%nat /\ length (pdo_IoCq p) = 16%nat /\
  length (pdo_AerCids p) = 4%nat /\ length (pdo_Namespaces p) = 16%nat.
Definition shm_shape (m : SharedMemory) : Prop :=
  length (shm_descs m) = 32%nat /\ length (nr_Entries (shm_ring m)) = 256%nat.

Lemma upd_nth_Some {A} (l : list A) i f :
  0 <= i < Z.of_nat (length l) -> exists x, arr_get l i = Some x /\ upd_nth l i f = Some (<[Z.to_nat i := f x]> l).
Proof.
  intros H. destruct (proj2 (arr_get_Some_iff l i) H) as [x Hx]. exists x. split; [done|].
  unfold upd_nth. rewrite Hx. simpl. by apply arr_set_Some.
Qed.

Lemma upd_nth_length {A} (l l' : list A) i f : upd_nth l i f = Some l' -> length l' = length l.
Proof. unfold upd_nth. destruct (arr_get l i); simpl; [apply arr_set_length | done]. Qed.

Lemma upd_nth_get {A} (l l' : list A) i j f :
  upd_nth l i f = Some l' -> arr_get l' j = if decide (i = j) then f <$> arr_get l i else arr_get l j.
Proof.
  unfold upd_nth. destruct (arr_get l i) as [x|]; simpl; [|done]. intros H.
  by rewrite (arr_get_set _ _ _ _ _ H).
Qed.
End State.

(** Setters unfold on demand. *)
#[export] Hint Unfold set_qd_Offset set_qd_EntrySize set_qd_Capacity set_qd_Valid set_qd_Head set_qd_Tail
  set_qd_Phase set_ne_QueueId set_ne_Type set_ne_Index set_nr_Head set_nr_Tail set_nr_Size set_nr_Entries
  set_cb_Magic set_cb_Version set_cb_TotalSize set_cb_ControlBlockSize set_cb_Flags set_cb_AdminSQ
  set_cb_AdminCQ set_cb_IoQueueCount set_cb_MaxIoQueues set_cb_IoQueueDescriptorOffset set_cb_NotifyRingOffset
  set_cb_NotifyRingSize set_cb_DataBufferOffset set_cb_DataBufferSize set_cb_KernelReady set_cb_UserReady
  set_cb_ErrorCode set_cb_ControllerState set_cb_ShutdownRequested set_cb_CommandsProcessed
  set_cb_CompletionsPosted set_cb_BytesRead set_cb_BytesWritten set_shm_cb set_shm_ring set_shm_descs
  set_shm_mem set_qs_BaseAddress set_qs_Size set_qs_Head set_qs_Tail set_qs_PhaseTag set_qs_Created
  set_qs_CqId set_ns_NsId set_ns_Active set_ns_ReadOnly set_ns_ThinProvisioned set_ns_Nguid set_ns_Eui64
  set_ns_BlockSize set_ns_TotalBlocks set_ns_TotalBytes set_ns_Storage set_ns_FormattedLbaSize
  set_ns_NumberOfLbaFormats set_ns_NsFeatures set_ns_ReadCommands set_ns_WriteCommands set_ns_ReadBytes
  set_ns_WriteBytes set_ns_FlushCommands set_pdo_ControllerId set_pdo_Bar0VirtAddr set_pdo_Bar0PhysAddr
  set_pdo_Bar0Size set_pdo_Registers set_pdo_Doorbells set_pdo_CachedCC set_pdo_PcieConfig
  set_pdo_PcieConfigSize set_pdo_AdminSq set_pdo_AdminCq set_pdo_AdminSqBase set_pdo_AdminSqSize
  set_pdo_AdminCqBase set_pdo_AdminCqSize set_pdo_LastAdminSqTail set_pdo_LastAdminCqHead set_pdo_AdminCqPhase
  set_pdo_IoSq set_pdo_IoCq set_pdo_IoQueueCount set_pdo_MaxIoQueues set_pdo_PollingTimer
  set_pdo_PollingIntervalUs set_pdo_PollingEnabled set_pdo_PollingActive set_pdo_AerCids set_pdo_AerCount set_pdo_NamespaceCount
  set_pdo_Namespaces set_pdo_AdminCommandsProcessed set_pdo_IoCommandsProcessed set_pdo_BytesRead
  set_pdo_BytesWritten set_fdo_CommandMode set_fdo_Shm set_fdo_ShmSize set_fdo_ShmMdl set_fdo_ShmUserVirtAddr
  set_fdo_CommandReadyEvent set_fdo_UserReady set_fdo_UserCrashed set_fdo_LastHeartbeat
  set_fdo_EventNotificationEnabled set_fdo_ErrorCount set_ks_fdo set_ks_pdo set_ks_host set_ks_cfg set_ks_time
  set_ks_tick : setters.
