(* ===== verification/Shm.v ===== *)
(** Shared memory: the layout macros of [include/vnvme_common.h] and
    [vnvme/shm.c]. *)
From S2P Require Import Prelude NvmeSpec Kernel Config Storage State.
Open Scope Z_scope.
Open Scope c_scope.

(** ** Layout *)

Definition VNVME_ALIGN_PAGE (x : Z) : Z := Z.land (x + 4095) (2 ^ 64 - 1 - 4095).
Definition sizeof_VNVME_QUEUE_DESCRIPTOR : Z := 32.
Definition sizeof_VNVME_NOTIFY_ENTRY : Z := 8.
(** Head, its padding, Tail, its padding, Size and the entries. *)
Definition sizeof_VNVME_NOTIFY_RING : Z := 4 + 15 * 4 + 4 + 14 * 4 + 4 + VNVME_NOTIFY_RING_SIZE * sizeof_VNVME_NOTIFY_ENTRY.

Definition VNVME_ADMIN_SQ_SIZE : Z := VNVME_ALIGN_PAGE (VNVME_ADMIN_QUEUE_DEPTH * NVME_SQ_ENTRY_SIZE).
Definition VNVME_ADMIN_CQ_SIZE : Z := VNVME_ALIGN_PAGE (VNVME_ADMIN_QUEUE_DEPTH * NVME_CQ_ENTRY_SIZE).
Definition VNVME_IO_SQ_SIZE : Z := VNVME_ALIGN_PAGE (VNVME_IO_QUEUE_DEPTH * NVME_SQ_ENTRY_SIZE).
Definition VNVME_IO_CQ_SIZE : Z := VNVME_ALIGN_PAGE (VNVME_IO_QUEUE_DEPTH * NVME_CQ_ENTRY_SIZE).
Definition VNVME_OFFSET_CONTROL_BLOCK : Z := 0.
Definition VNVME_OFFSET_NOTIFY_RING : Z := VNVME_CONTROL_BLOCK_SIZE.
Definition VNVME_OFFSET_ADMIN_SQ : Z := VNVME_OFFSET_NOTIFY_RING + VNVME_ALIGN_PAGE sizeof_VNVME_NOTIFY_RING.
Definition VNVME_OFFSET_ADMIN_CQ : Z := VNVME_OFFSET_ADMIN_SQ + VNVME_ADMIN_SQ_SIZE.
Definition VNVME_OFFSET_IO_QUEUE_DESC : Z := VNVME_OFFSET_ADMIN_CQ + VNVME_ADMIN_CQ_SIZE.
Definition VNVME_IO_QUEUE_DESC_SIZE : Z := VNVME_ALIGN_PAGE (VNVME_MAX_IO_QUEUES * 2 * sizeof_VNVME_QUEUE_DESCRIPTOR).
Definition VNVME_OFFSET_IO_QUEUES : Z := VNVME_OFFSET_IO_QUEUE_DESC + VNVME_IO_QUEUE_DESC_SIZE.
Definition VNVME_IO_QUEUE_PAIR_SIZE : Z := VNVME_IO_SQ_SIZE + VNVME_IO_CQ_SIZE.
Definition VNVME_IO_SQ_OFFSET (n : Z) : Z := VNVME_OFFSET_IO_QUEUES + n * VNVME_IO_QUEUE_PAIR_SIZE.
Definition VNVME_IO_CQ_OFFSET (n : Z) : Z := VNVME_IO_SQ_OFFSET n + VNVME_IO_SQ_SIZE.
Definition VNVME_OFFSET_DATA_BUFFER : Z := VNVME_OFFSET_IO_QUEUES + VNVME_MAX_IO_QUEUES * VNVME_IO_QUEUE_PAIR_SIZE.

(** The bytes of the queues and of the data buffer: what is left of the shared
    memory without the control block, the notify ring and the descriptors. *)
Definition queue_memory (off n : Z) : bool :=
  ((VNVME_OFFSET_ADMIN_SQ <=? off) && (off + n <=? VNVME_OFFSET_IO_QUEUE_DESC)) ||
  ((VNVME_OFFSET_IO_QUEUE_DESC + VNVME_MAX_IO_QUEUES * 2 * sizeof_VNVME_QUEUE_DESCRIPTOR <=? off) &&
   (off + n <=? VNVME_SHM_SIZE)).

Section Shm.
Context {W : WinKernel}.

(** ** Allocation *)

Definition zero_desc : VNVME_QUEUE_DESCRIPTOR := mkQueueDescriptor 0 0 0 0 0 0 0.
Definition zero_entry : VNVME_NOTIFY_ENTRY := mkNotifyEntry 0 0 0.

(** The control block, the ring and the descriptors after RtlZeroMemory. *)
Definition zero_shm : SharedMemory :=
  mkShm (mkControlBlock 0 0 0 0 0 zero_desc zero_desc 0 0 0 0 0 0 0 0 0 0 0 0 0 0 0 0)
    (mkNotifyRing 0 0 0 (replicate 256 zero_entry)) (replicate 32 zero_desc) mem_zero.

(** The initialisation of the zeroed shared memory, in the order of the code. *)
Definition init_shm (size : Z) (m : SharedMemory) : SharedMemory :=
  m <| shm_cb ::= fun cb => cb
      <| cb_Magic := VNVME_SHM_MAGIC |>
      <| cb_Version := VNVME_SHM_VERSION |>
      <| cb_TotalSize := u32 size |>
      <| cb_ControlBlockSize := VNVME_CONTROL_BLOCK_SIZE |>
      <| cb_Flags := 0 |>
      <| cb_AdminSQ := mkQueueDescriptor VNVME_OFFSET_ADMIN_SQ NVME_SQ_ENTRY_SIZE VNVME_ADMIN_QUEUE_DEPTH 0 0 0 0 |>
      <| cb_AdminCQ := mkQueueDescriptor VNVME_OFFSET_ADMIN_CQ NVME_CQ_ENTRY_SIZE VNVME_ADMIN_QUEUE_DEPTH 0 0 0 1 |>
      <| cb_IoQueueCount := 0 |>
      <| cb_MaxIoQueues := VNVME_MAX_IO_QUEUES |>
      <| cb_IoQueueDescriptorOffset := VNVME_OFFSET_IO_QUEUE_DESC |>
      <| cb_NotifyRingOffset := VNVME_OFFSET_NOTIFY_RING |>
      <| cb_NotifyRingSize := sizeof_VNVME_NOTIFY_RING |> |>
    <| shm_ring ::= fun r => r <| nr_Head := 0 |> <| nr_Tail := 0 |> <| nr_Size := VNVME_NOTIFY_RING_SIZE |> |>
    <| shm_cb ::= fun cb => cb
      <| cb_DataBufferOffset := VNVME_OFFSET_DATA_BUFFER |>
      <| cb_DataBufferSize := u32 (size - VNVME_OFFSET_DATA_BUFFER) |>
      <| cb_KernelReady := 1 |>
      <| cb_UserReady := 0 |>
      <| cb_ErrorCode := 0 |>
      <| cb_ControllerState := VNVME_CTRL_STATE_DISABLED |>
      <| cb_CommandsProcessed := 0 |>
      <| cb_CompletionsPosted := 0 |>
      <| cb_BytesRead := 0 |>
      <| cb_BytesWritten := 0 |> |>.

Definition VnvmeAllocateShm : M KState NTSTATUS :=
  let size := VNVME_SHM_SIZE in
  ok ← alloc_contiguous size;
  if negb ok then mret STATUS_INSUFFICIENT_RESOURCES
  else
    fdo_update (fun d => d <| fdo_Shm := Some (init_shm size zero_shm) |> <| fdo_ShmSize := size |>);;
    mret STATUS_SUCCESS.

(** ** User mapping and release *)

Definition VnvmeUnmapShmFromUser : M KState unit :=
  fdo_update (fun d =>
    if fdo_ShmUserVirtAddr d && fdo_ShmMdl d then d <| fdo_ShmUserVirtAddr := false |> else d).

Definition VnvmeFreeShm : M KState unit :=
  VnvmeUnmapShmFromUser;;
  fdo_update (fun d => d <| fdo_ShmMdl := false |>);;
  fdo_update (fun d => match fdo_Shm d with
                       | Some _ => d <| fdo_Shm := None |> <| fdo_ShmSize := 0 |>
                       | None => d
                       end).

(** The status, and whether [*UserAddress] is set. The FDO exists. *)
Definition VnvmeMapShmToUser (d : VNVME_FDO_CONTEXT) : M KState (NTSTATUS * bool) :=
  match fdo_Shm d with
  | None => mret (STATUS_INVALID_DEVICE_STATE, false)
  | Some _ =>
      s ← get;
      let mdl := fdo_ShmMdl d || IoAllocateMdl (ks_tick s) (u32 (fdo_ShmSize d)) in
      if negb mdl then mret (STATUS_INSUFFICIENT_RESOURCES, false)
      else
        fdo_update (fun d => d <| fdo_ShmMdl := true |>);;
        match MmMapLockedPagesSpecifyCache (ks_tick s) with
        | None => mret (STATUS_ACCESS_VIOLATION, false)
        | Some false => mret (STATUS_INSUFFICIENT_RESOURCES, false)
        | Some true => fdo_update (fun d => d <| fdo_ShmUserVirtAddr := true |>);; mret (STATUS_SUCCESS, true)
        end
  end.

(** ** Accessors: [None] is NULL; the argument is always the global FDO *)

Definition VnvmeShmGetControlBlock (s : KState) : option SharedMemory :=
  d ← ks_fdo s; fdo_Shm d.

Definition VnvmeShmGetNotifyRing (s : KState) : option VNVME_NOTIFY_RING :=
  m ← VnvmeShmGetControlBlock s;
  if cb_NotifyRingOffset (shm_cb m) =? 0 then None else Some (shm_ring m).

Definition VnvmeShmGetIoQueueDescriptors (s : KState) : option (list VNVME_QUEUE_DESCRIPTOR) :=
  m ← VnvmeShmGetControlBlock s;
  if cb_IoQueueDescriptorOffset (shm_cb m) =? 0 then None else Some (shm_descs m).

(** ** The layout is sound *)

(** What stays true of the shared memory: its fixed arrays have the declared
    lengths, the descriptors and the ring are where the layout puts them. *)
Definition shm_ok (m : SharedMemory) : Prop :=
  shm_shape m /\ nr_Size (shm_ring m) = VNVME_NOTIFY_RING_SIZE /\
  cb_IoQueueDescriptorOffset (shm_cb m) = VNVME_OFFSET_IO_QUEUE_DESC /\
  cb_NotifyRingOffset (shm_cb m) = VNVME_OFFSET_NOTIFY_RING.

Lemma VnvmeAllocateShm_fdo s s' d :
  ks_fdo s = Some d -> VnvmeAllocateShm s = Ok (STATUS_SUCCESS, s') ->
  ks_fdo s' = Some (d <| fdo_Shm := Some (init_shm VNVME_SHM_SIZE zero_shm) |> <| fdo_ShmSize := VNVME_SHM_SIZE |>).
Proof.
  intros Hd. unfold VnvmeAllocateShm, alloc_contiguous, mbind, M_bind.
  destruct (MmAllocateContiguousMemorySpecifyCache _ _); [|done].
  unfold fdo_update, modify. cbn -[init_shm]. intros [= <-]. cbn -[init_shm]. by rewrite Hd.
Qed.

(** VnvmeAllocateShm, when the contiguous allocation succeeds, leaves a shared
    memory whose regions (control block, notify ring, admin queues, descriptor
    array, I/O queues, data buffer) are where the layout macros put them,
    follow one another without overlap and end exactly at the 64 MB the block
    has; both admin queues are empty and invalid, the admin CQ in phase 1. *)
Lemma VnvmeAllocateShm_layout (s s' : KState) (d : VNVME_FDO_CONTEXT) :
  ks_fdo s = Some d -> VnvmeAllocateShm s = Ok (STATUS_SUCCESS, s') ->
  exists m, VnvmeShmGetControlBlock s' = Some m /\ shm_ok m /\
    let cb := shm_cb m in
    VnvmeShmGetNotifyRing s' = Some (shm_ring m) /\ VnvmeShmGetIoQueueDescriptors s' = Some (shm_descs m) /\
    cb_ControlBlockSize cb <= cb_NotifyRingOffset cb /\
    cb_NotifyRingOffset cb + cb_NotifyRingSize cb <= qd_Offset (cb_AdminSQ cb) /\
    qd_Offset (cb_AdminSQ cb) + qd_Capacity (cb_AdminSQ cb) * qd_EntrySize (cb_AdminSQ cb) <= qd_Offset (cb_AdminCQ cb) /\
    qd_Offset (cb_AdminCQ cb) + qd_Capacity (cb_AdminCQ cb) * qd_EntrySize (cb_AdminCQ cb) <= cb_IoQueueDescriptorOffset cb /\
    (forall n, 0 <= n < VNVME_MAX_IO_QUEUES ->
      cb_IoQueueDescriptorOffset cb + 2 * VNVME_MAX_IO_QUEUES * sizeof_VNVME_QUEUE_DESCRIPTOR <= VNVME_IO_SQ_OFFSET n /\
      VNVME_IO_SQ_OFFSET n + VNVME_IO_QUEUE_DEPTH * NVME_SQ_ENTRY_SIZE <= VNVME_IO_CQ_OFFSET n /\
      VNVME_IO_CQ_OFFSET n + VNVME_IO_QUEUE_DEPTH * NVME_CQ_ENTRY_SIZE <= VNVME_IO_SQ_OFFSET (n + 1) /\
      VNVME_IO_SQ_OFFSET (n + 1) <= cb_DataBufferOffset cb) /\
    cb_DataBufferOffset cb + cb_DataBufferSize cb = cb_TotalSize cb /\ cb_TotalSize cb = VNVME_SHM_SIZE /\
    qd_Head (cb_AdminSQ cb) = qd_Tail (cb_AdminSQ cb) /\ qd_Valid (cb_AdminSQ cb) = 0 /\
    qd_Head (cb_AdminCQ cb) = qd_Tail (cb_AdminCQ cb) /\ qd_Valid (cb_AdminCQ cb) = 0 /\ qd_Phase (cb_AdminCQ cb) = 1.
Proof.
  intros Hd H. apply (VnvmeAllocateShm_fdo _ _ _ Hd) in H.
  assert (VnvmeShmGetControlBlock s' = Some (init_shm VNVME_SHM_SIZE zero_shm)) as Hcb
    by (unfold VnvmeShmGetControlBlock; by rewrite H).
  exists (init_shm VNVME_SHM_SIZE zero_shm).
  unfold VnvmeShmGetNotifyRing, VnvmeShmGetIoQueueDescriptors. rewrite Hcb.
  split; [reflexivity|]. split; [by vm_compute|]. cbv zeta. split; [by vm_compute|]. split; [by vm_compute|].
  do 4 (split; [by vm_compute|]).
  split.
  { intros n. change VNVME_MAX_IO_QUEUES with 16. unfold VNVME_IO_CQ_OFFSET, VNVME_IO_SQ_OFFSET.
    change VNVME_OFFSET_IO_QUEUES with 20480. change VNVME_IO_QUEUE_PAIR_SIZE with 20480.
    change VNVME_IO_SQ_SIZE with 16384. cbn -[Z.add Z.mul]. change VNVME_OFFSET_DATA_BUFFER with 348160.
    change VNVME_OFFSET_IO_QUEUE_DESC with 16384. unfold sizeof_VNVME_QUEUE_DESCRIPTOR, VNVME_IO_QUEUE_DEPTH, NVME_SQ_ENTRY_SIZE, NVME_CQ_ENTRY_SIZE.
    lia. }
  by vm_compute.
Qed.
End Shm.

(** ** A concrete state, for the witnesses *)

#[local] Existing Instances TestKernel.

Definition test_namespace : @VNVME_NAMESPACE TestKernel :=
  mkNamespace 1 true false false (replicate 16 0) (replicate 8 0) 512 8 4096
    (Some (test_disk VNVME_STORAGE_TYPE_MEMORY)) 0 0 0 0 0 0 0 0.
Definition no_namespace : @VNVME_NAMESPACE TestKernel :=
  mkNamespace 0 false false false (replicate 16 0) (replicate 8 0) 0 0 0 None 0 0 0 0 0 0 0 0.

Definition test_pdo : @VNVME_PDO_CONTEXT TestKernel :=
  mkPdo 0 None 0 0 false false 0 None 0 zero_queue zero_queue 0 0 0 0 0 0 1
    (replicate 16 zero_queue) (replicate 16 zero_queue) 0 16 false 100 false false
    (replicate 4 0) 0 1 (test_namespace :: replicate 15 no_namespace) 0 0 0 0.

Definition test_fdo (m : SharedMemory) : VNVME_FDO_CONTEXT :=
  mkFdo VNVME_CMD_MODE_KERNEL (Some m) VNVME_SHM_SIZE false false false false false 0 false 0.

Definition test_state (m : SharedMemory) (host : mem) : @KState TestKernel :=
  mkState (Some (test_fdo m)) test_pdo host default_config 0 0.

Definition test_shm : SharedMemory := init_shm VNVME_SHM_SIZE zero_shm.

