(* ===== verification/Prp.v ===== *)
(** PRP lists and host memory: [vnvme/prp.c].

    Host memory is one byte memory, addressed by physical addresses.  A pool
    array of PRP entries is the list of the entries filled in so far. *)
From S2P Require Import Prelude NvmeSpec Kernel Config Storage State Shm.
Open Scope Z_scope.
Open Scope c_scope.

Definition VNVME_LOW_MEMORY_LIMIT : Z := 0x100000.
Definition VNVME_MAX_PHYSICAL_ADDRESS : Z := 0x100000000000.

Definition VnvmeIsValidPhysicalAddress (PhysicalAddress Length : Z) : bool :=
  if PhysicalAddress =? 0 then false
  else if PhysicalAddress <? VNVME_LOW_MEMORY_LIMIT then false
  else if (PhysicalAddress +₆₄ Length) <? PhysicalAddress then false
  else if VNVME_MAX_PHYSICAL_ADDRESS <? PhysicalAddress then false
  else true.

Record VNVME_PRP_ENTRY := mkPrp {
  prp_PhysicalAddress : Z;
  prp_Offset : Z;
  prp_Length : Z
}.

Definition pageSize : Z := VNVME_NVME_PAGE_SIZE.

(** [a & ~((ULONGLONG)pageSize - 1)] and [a & (pageSize - 1)]. *)
Definition page_base (a : Z) : Z := Z.land a (2 ^ 64 - 1 - (pageSize - 1)).
Definition page_offset (a : Z) : Z := Z.land a (pageSize - 1).

(** The number of pages of a transfer, in ULONG arithmetic. *)
Definition prp_numPages (Prp1 DataLength : Z) : Z :=
  let firstPageBytes := pageSize - page_offset Prp1 in
  if DataLength <=? firstPageBytes then 1
  else 1 +₃₂ (((DataLength -₃₂ firstPageBytes) +₃₂ (pageSize - 1)) / pageSize).

(** The loop over the entries of the PRP list mapped at [Prp2]; [n] iterations
    are left.  [None]: an entry is not a valid address. *)
Fixpoint prp_list_loop (n : nat) (host : mem) (Prp2 prpListSize numPages : Z)
  (i remainingBytes : Z) (entries : list VNVME_PRP_ENTRY) : res (option (list VNVME_PRP_ENTRY)) :=
  match n with
  | O => Ok (Some entries)
  | S n =>
      if remainingBytes <=? 0 then Ok (Some entries)
      else if negb (in_block prpListSize (i * 8) 8) then Fault
      else
        let prpEntry := load_le host (Prp2 + i * 8) 8 in
        if negb (VnvmeIsValidPhysicalAddress prpEntry pageSize) then Ok None
        else
          let offset := page_offset prpEntry in
          let entryLength := if remainingBytes <? pageSize - offset then remainingBytes else pageSize - offset in
          let entries := entries ++ [mkPrp (page_base prpEntry) offset entryLength] in
          if numPages <=? Z.of_nat (length entries) then Ok (Some entries)
          else prp_list_loop n host Prp2 prpListSize numPages (i + 1) (remainingBytes -₃₂ entryLength) entries
  end.

Section Prp.
Context {W : WinKernel}.

(** The status and, on success, the entries. *)
Definition VnvmeParsePrpList (Prp1 Prp2 DataLength : Z) : M KState (NTSTATUS * list VNVME_PRP_ENTRY) :=
  if DataLength =? 0 then mret (STATUS_SUCCESS, [])
  else if negb (VnvmeIsValidPhysicalAddress Prp1 pageSize) then mret (STATUS_INVALID_PARAMETER, [])
  else
    let firstPageOffset := page_offset Prp1 in
    let firstPageBytes := pageSize - firstPageOffset in
    let numPages := prp_numPages Prp1 DataLength in
    ok ← alloc (numPages * 16);
    if negb ok then mret (STATUS_INSUFFICIENT_RESOURCES, [])
    else
      let entries := [mkPrp (page_base Prp1) firstPageOffset
                        (if DataLength <=? firstPageBytes then DataLength else firstPageBytes)] in
      if numPages =? 1 then mret (STATUS_SUCCESS, entries)
      else if numPages =? 2 then
        if negb (VnvmeIsValidPhysicalAddress Prp2 pageSize) then mret (STATUS_INVALID_PARAMETER, [])
        else mret (STATUS_SUCCESS, entries ++ [mkPrp (page_base Prp2) 0 (DataLength -₃₂ firstPageBytes)])
      else if negb (VnvmeIsValidPhysicalAddress Prp2 pageSize) then mret (STATUS_INVALID_PARAMETER, [])
      else
        let prpListSize := if pageSize <? (numPages - 1) *₃₂ 8 then pageSize else (numPages - 1) *₃₂ 8 in
        mapped ← map_io Prp2 prpListSize;
        if negb mapped then mret (STATUS_INSUFFICIENT_RESOURCES, [])
        else
          s ← get;
          match prp_list_loop (Z.to_nat (numPages - 1)) (ks_host s) Prp2 prpListSize numPages 0
                  (DataLength -₃₂ firstPageBytes) entries with
          | Ok (Some entries) => mret (STATUS_SUCCESS, entries)
          | Ok None => mret (STATUS_INVALID_PARAMETER, [])
          | Fault => fault
          | OutOfFuel => out_of_fuel
          end.

(** The status and the buffer after the read. *)
Definition VnvmeReadFromHostMemory (PhysicalAddress : Z) (Buffer : block) (Length : Z) : M KState (NTSTATUS * block) :=
  if Length =? 0 then mret (STATUS_INVALID_PARAMETER, Buffer)
  else if negb (VnvmeIsValidPhysicalAddress PhysicalAddress Length) then mret (STATUS_INVALID_PARAMETER, Buffer)
  else
    mapped ← map_io PhysicalAddress Length;
    if negb mapped then mret (STATUS_INSUFFICIENT_RESOURCES, Buffer)
    else
      s ← get;
      b ← of_opt (blk_write Buffer 0 (ks_host s) PhysicalAddress Length);
      mret (STATUS_SUCCESS, b).

Definition VnvmeWriteToHostMemory (PhysicalAddress : Z) (Buffer : block) (Length : Z) : M KState NTSTATUS :=
  if Length =? 0 then mret STATUS_INVALID_PARAMETER
  else if negb (VnvmeIsValidPhysicalAddress PhysicalAddress Length) then mret STATUS_INVALID_PARAMETER
  else
    mapped ← map_io PhysicalAddress Length;
    if negb mapped then mret STATUS_INSUFFICIENT_RESOURCES
    else if negb (in_block (blk_size Buffer) 0 Length) then fault
    else
      modify (fun s => s <| ks_host ::= fun h => mem_copy h PhysicalAddress (blk_mem Buffer) 0 Length |>);;
      mret STATUS_SUCCESS.

(** ** What the entries describe *)

(** The number of bytes a list of entries covers, and the physical address of
    byte [i] of the transfer. *)
Fixpoint prp_total (l : list VNVME_PRP_ENTRY) : Z :=
  match l with [] => 0 | e :: l => prp_Length e + prp_total l end.

Fixpoint prp_addr (l : list VNVME_PRP_ENTRY) (i : Z) : Z :=
  match l with
  | [] => 0
  | e :: l => if i <? prp_Length e then prp_PhysicalAddress e + prp_Offset e + i else prp_addr l (i - prp_Length e)
  end.

(** An entry stays inside one page of valid memory. *)
Definition prp_ok (e : VNVME_PRP_ENTRY) : Prop :=
  VNVME_LOW_MEMORY_LIMIT <= prp_PhysicalAddress e <= VNVME_MAX_PHYSICAL_ADDRESS /\
  prp_PhysicalAddress e mod pageSize = 0 /\ 0 <= prp_Offset e < pageSize /\
  0 < prp_Length e /\ prp_Offset e + prp_Length e <= pageSize.

(** The page addresses of a command, as the host wrote them: PRP1, and PRP2 or
    the words of the list that PRP2 points to. *)
Definition prp_list_words (host : mem) (Prp2 i n : Z) : list Z := map (fun j => load_le host (Prp2 + j * 8) 8) (seqZ i n).

Definition prp_pointers (host : mem) (Prp1 Prp2 DataLength : Z) : list Z :=
  let numPages := prp_numPages Prp1 DataLength in
  Prp1 :: (if numPages =? 1 then [] else if numPages =? 2 then [page_base Prp2] else prp_list_words host Prp2 0 (numPages - 1)).

(** The first [len] bytes of the pages, each from its offset to its end. *)
Fixpoint prp_cut (pointers : list Z) (len : Z) : list VNVME_PRP_ENTRY :=
  match pointers with
  | [] => []
  | a :: pointers =>
      if len <=? 0 then []
      else
        let n := Z.min len (pageSize - page_offset a) in
        mkPrp (page_base a) (page_offset a) n :: prp_cut pointers (len - n)
  end.

(** The entries of a transfer. *)
Definition prp_entries (host : mem) (Prp1 Prp2 DataLength : Z) : list VNVME_PRP_ENTRY :=
  prp_cut (prp_pointers host Prp1 Prp2 DataLength) DataLength.

(** Every address the parser looks at is one it accepts. *)
Definition prp_valid (host : mem) (Prp1 Prp2 DataLength : Z) : Prop :=
  let valid a := VnvmeIsValidPhysicalAddress a pageSize = true in
  valid Prp1 /\ (prp_numPages Prp1 DataLength <> 1 -> valid Prp2) /\
  (2 < prp_numPages Prp1 DataLength -> Forall valid (prp_list_words host Prp2 0 (prp_numPages Prp1 DataLength - 1))).

Lemma prp_total_app l1 l2 : prp_total (l1 ++ l2) = prp_total l1 + prp_total l2.
Proof. induction l1; simpl; lia. Qed.

Lemma page_offset_eq a : page_offset a = a mod pageSize.
Proof. unfold page_offset. by apply (land_mask a _ 12). Qed.

Lemma page_offset_range a : 0 <= page_offset a < pageSize.
Proof. rewrite page_offset_eq. by apply Z.mod_pos_bound. Qed.

Lemma page_base_eq a : 0 <= a < 2 ^ 64 -> page_base a = a - a mod pageSize.
Proof.
  intros H. unfold page_base. replace (2 ^ 64 - 1 - (pageSize - 1)) with (Z.shiftl (Z.ones 52) 12) by done.
  rewrite land_field, bits_div, Z.shiftl_mul_pow2 by done. change pageSize with (2 ^ 12).
  rewrite (Z.mod_small (a / 2 ^ 12)); Z.div_mod_to_equations; lia.
Qed.

Lemma valid_address_range a n :
  VnvmeIsValidPhysicalAddress a n = true -> VNVME_LOW_MEMORY_LIMIT <= a <= VNVME_MAX_PHYSICAL_ADDRESS.
Proof.
  unfold VnvmeIsValidPhysicalAddress.
  destruct (a =? 0), (Z.ltb_spec a VNVME_LOW_MEMORY_LIMIT), ((a +₆₄ n) <? a), (Z.ltb_spec VNVME_MAX_PHYSICAL_ADDRESS a); try done; lia.
Qed.

Lemma page_base_ok a :
  VNVME_LOW_MEMORY_LIMIT <= a <= VNVME_MAX_PHYSICAL_ADDRESS ->
  VNVME_LOW_MEMORY_LIMIT <= page_base a <= VNVME_MAX_PHYSICAL_ADDRESS /\ page_base a mod pageSize = 0 /\
  page_base a + page_offset a = a.
Proof.
  unfold VNVME_LOW_MEMORY_LIMIT, VNVME_MAX_PHYSICAL_ADDRESS. intros H.
  rewrite page_base_eq, page_offset_eq by lia. change pageSize with 4096.
  repeat split; try (Z.div_mod_to_equations; lia).
Qed.

(** The first entry of every list, and the entry of any valid address. *)
Lemma prp_entry_ok a n len :
  VnvmeIsValidPhysicalAddress a n = true -> 0 < len -> page_offset a + len <= pageSize ->
  prp_ok (mkPrp (page_base a) (page_offset a) len).
Proof.
  intros Hv%valid_address_range ??. destruct (page_base_ok _ Hv) as (?&?&?).
  unfold prp_ok; simpl. repeat (split; [done|]). pose proof (page_offset_range a). lia.
Qed.

(** The pages of a transfer, without the wrap-around. *)
Lemma prp_numPages_eq Prp1 len :
  0 < len <= 2 ^ 21 ->
  let fp := pageSize - page_offset Prp1 in
  prp_numPages Prp1 len = (if decide (len <= fp) then 1 else 1 + (len - fp + 4095) / 4096) /\
  1 <= prp_numPages Prp1 len <= 513 /\ len <= fp + (prp_numPages Prp1 len - 1) * 4096.
Proof.
  intros Hl fp. pose proof (page_offset_range Prp1) as Ho.
  assert (1 <= fp <= 4096) as Hfp by (unfold fp; change pageSize with 4096 in *; lia).
  unfold prp_numPages. fold fp. destruct (Z.leb_spec len fp); case_decide; try lia.
  change (pageSize - 1) with 4095. change pageSize with 4096.
  rewrite (u32_small (len - fp)), (u32_small (len - fp + 4095)) by lia.
  rewrite u32_small by (Z.div_mod_to_equations; lia). split; [done|]. Z.div_mod_to_equations; lia.
Qed.

Lemma prp_cut_done pointers len : len <= 0 -> prp_cut pointers len = [].
Proof. intros H. destruct pointers; [done|]. cbn. by rewrite (proj2 (Z.leb_le _ _)) by lia. Qed.

(** Pages from their start cover the transfer, page after page. *)
Lemma prp_cut_aligned pointers : forall len, Forall (fun a => page_offset a = 0) pointers ->
  0 <= len <= Z.of_nat (length pointers) * pageSize ->
  prp_total (prp_cut pointers len) = len /\
  forall i a, 0 <= i < len -> pointers !! Z.to_nat (i / pageSize) = Some a -> prp_addr (prp_cut pointers len) i = page_base a + i mod pageSize.
Proof.
  change pageSize with 4096. induction pointers as [|a pointers IH]; intros len Hal Hlen; cbn [prp_cut]; [cbn in *; split; [lia|]; intros; lia|].
  inversion Hal as [|? ? Ha Hal']; subst. cbn [length] in Hlen. destruct (Z.leb_spec len 0); [cbn; split; [lia|]; intros; lia|].
  rewrite Ha. change pageSize with 4096. set (n := Z.min len (4096 - 0)).
  destruct (IH (len - n) Hal' ltac:(unfold n; lia)) as [Ht Hi]. cbn [prp_total prp_addr prp_Length prp_PhysicalAddress prp_Offset].
  split; [lia|]. intros i b Hi0 Hb. destruct (Z.ltb_spec i n) as [Hin|Hin].
  - rewrite Z.div_small, Z.mod_small in * by (unfold n in *; lia). cbn in Hb. injection Hb as <-. lia.
  - assert (n = 4096) as En by (unfold n in *; lia). rewrite En in *.
    assert ((i - 4096) / 4096 = i / 4096 - 1 /\ (i - 4096) mod 4096 = i mod 4096) as [E1 E2]
      by (replace (i - 4096) with (i + (-1) * 4096) by lia; rewrite Z.div_add, Z.mod_add by lia; lia).
    rewrite (Hi (i - 4096) b); [by rewrite E2 | lia |]. rewrite E1.
    assert (1 <= i / 4096) by (apply Z.div_le_lower_bound; lia).
    replace (Z.to_nat (i / 4096)) with (S (Z.to_nat (i / 4096 - 1))) in Hb by lia. exact Hb.
Qed.

(** The list loop: no fault while the list fits the mapped page; it cuts the
    words it reads, if they are good addresses. *)
Lemma prp_list_loop_ok host Prp2 size numPages : forall n i remaining entries,
  0 <= i -> (i + Z.of_nat n) * 8 <= size -> 0 <= remaining < 2 ^ 32 ->
  numPages = i + 1 + Z.of_nat n -> Z.of_nat (length entries) = i + 1 -> Forall prp_ok entries ->
  let words := prp_list_words host Prp2 i (Z.of_nat n) in
  exists o, prp_list_loop n host Prp2 size numPages i remaining entries = Ok o /\
    (forall l, o = Some l -> Forall prp_ok l /\ prp_total l <= prp_total entries + remaining /\ l = entries ++ prp_cut words remaining) /\
    (Forall (fun a => VnvmeIsValidPhysicalAddress a pageSize = true) words -> is_Some o).
Proof.
  induction n as [|n IH]; intros i remaining entries Hi Hsize Hrem Hnum Hlen Hok words; cbn [prp_list_loop].
  { exists (Some entries). split; [done|]. split; [|by eauto]. intros l [= <-]. split; [done|]. split; [lia|]. by rewrite app_nil_r. }
  destruct (Z.leb_spec remaining 0).
  { exists (Some entries). split; [done|]. split; [|by eauto]. intros l [= <-]. split; [done|]. split; [lia|].
    by rewrite prp_cut_done, app_nil_r by lia. }
  rewrite in_block_true by lia. cbn [negb]. set (a := load_le host (Prp2 + i * 8) 8).
  assert (words = a :: prp_list_words host Prp2 (i + 1) (Z.of_nat n)) as Hw.
  { unfold words, prp_list_words. rewrite seqZ_cons by lia. cbn [map]. by replace (Z.pred (Z.of_nat (S n))) with (Z.of_nat n) by lia. }
  rewrite Hw. cbn [prp_cut]. rewrite (proj2 (Z.leb_gt remaining 0)) by lia. cbv zeta.
  destruct (VnvmeIsValidPhysicalAddress a pageSize) eqn:Hv; cbn [negb].
  2: { exists None. split; [done|]. split; [done|]. intros Hf. inversion Hf. congruence. }
  assert ((if remaining <? pageSize - page_offset a then remaining else pageSize - page_offset a) = Z.min remaining (pageSize - page_offset a)) as ->
    by (destruct (Z.ltb_spec remaining (pageSize - page_offset a)); lia).
  set (len := Z.min _ _). pose proof (page_offset_range a) as Ho.
  assert (0 < len <= remaining /\ page_offset a + len <= pageSize) as (Hl1 & Hl2) by (unfold len; lia).
  set (e := mkPrp _ _ _). set (entries' := entries ++ [e]). rewrite u32_small by lia.
  assert (Z.of_nat (length entries') = i + 1 + 1) as Hlen' by (unfold entries'; rewrite length_app; simpl; lia).
  assert (prp_total entries' = prp_total entries + len) as Ht' by (unfold entries'; rewrite prp_total_app; simpl; lia).
  assert (Forall prp_ok entries') as Hok'.
  { apply Forall_app_2; [done|]. apply Forall_singleton. eapply prp_entry_ok; [done | lia | lia]. }
  assert (forall l, entries ++ e :: l = entries' ++ l) as Happ by (intros l; unfold entries'; by rewrite <- app_assoc).
  destruct (Z.leb_spec numPages (Z.of_nat (length entries'))).
  - exists (Some entries'). split; [done|]. split; [|by eauto]. intros l [= <-]. split; [done|]. split; [lia|].
    assert (n = 0%nat) as -> by lia. by rewrite Happ, app_nil_r.
  - destruct (IH (i + 1) (remaining - len) entries') as (o & -> & Ho' & Hs); try lia; [done|].
    exists o. split; [done|]. split; [|intros Hf; inversion Hf; auto]. intros l Hl. destruct (Ho' l Hl) as (? & ? & ->).
    split; [done|]. split; [lia|]. by rewrite Happ.
Qed.

Lemma ks_tick_eta (s : KState) : s = s <| ks_tick := ks_tick s |>.
Proof. by destruct s. Qed.

(** A result that keeps the state, or advances its clock. *)
Lemma keeps_state {A} (s : KState) (a : A) (P : A -> Prop) :
  P a -> exists r t, (mret a : M KState A) s = Ok (r, s <| ks_tick := t |>) /\ P r.
Proof. intros. exists a, (ks_tick s). split; [|done]. by rewrite <- ks_tick_eta. Qed.

Definition pools_succeed : Prop := forall t n, ExAllocatePool2 t n = true.
Definition maps_succeed : Prop := forall t pa n, MmMapIoSpace t pa n = true.

Definition prp_result_ok (s : KState) (Prp1 Prp2 DataLength : Z) (r : NTSTATUS * list VNVME_PRP_ENTRY) : Prop :=
  (NT_SUCCESS r.1 = true -> Forall prp_ok r.2 /\ prp_total r.2 <= DataLength /\ r.2 = prp_entries (ks_host s) Prp1 Prp2 DataLength) /\
  (pools_succeed -> maps_succeed -> prp_valid (ks_host s) Prp1 Prp2 DataLength -> NT_SUCCESS r.1 = true).

Lemma VnvmeParsePrpList_spec (s : KState) (Prp1 Prp2 DataLength : Z) :
  0 <= DataLength <= 2 ^ 21 ->
  exists r t, VnvmeParsePrpList Prp1 Prp2 DataLength s = Ok (r, s <| ks_tick := t |>) /\
    prp_result_ok s Prp1 Prp2 DataLength r.
Proof.
  intros Hlen. unfold VnvmeParsePrpList, prp_result_ok. destruct (Z.eqb_spec DataLength 0) as [->|Hne].
  { apply (keeps_state s). split; [|done]. intros _. unfold prp_entries. by rewrite prp_cut_done. }
  destruct (VnvmeIsValidPhysicalAddress Prp1 pageSize) eqn:Hv1; cbn [negb].
  2: { apply keeps_state. split; [done|]. intros _ _ (Hv & _). congruence. }
  destruct (prp_numPages_eq Prp1 DataLength ltac:(lia)) as (Heq & Hrange & Hcov). unfold prp_valid, prp_entries, prp_pointers.
  pose proof (page_offset_range Prp1) as Ho. set (numPages := prp_numPages Prp1 DataLength) in *.
  set (fp := pageSize - page_offset Prp1) in *.
  assert (1 <= fp <= 4096) as Hfp by (unfold fp; change pageSize with 4096 in *; lia).
  unfold alloc, mbind at 1, M_bind at 1. set (s1 := s <|ks_tick ::= S|>).
  destruct (ExAllocatePool2 (ks_tick s) _) eqn:Hal; cbn [negb].
  2: { eexists _, _. split; [done|]. split; [done|]. intros Hp. by rewrite Hp in Hal. }
  cbn [prp_cut]. rewrite (proj2 (Z.leb_gt DataLength 0)) by lia. fold fp.
  assert ((if DataLength <=? fp then DataLength else fp) = Z.min DataLength fp) as -> by (destruct (Z.leb_spec DataLength fp); lia).
  set (e1 := mkPrp _ _ _).
  assert (prp_ok e1) as He1 by (unfold e1; eapply prp_entry_ok; [done| |]; unfold fp in *; lia).
  destruct (Z.eqb_spec numPages 1) as [H1|H1].
  { eexists _, _. split; [done|]. split; [|done]. intros _. cbn [fst snd prp_total prp_cut prp_Length]. split; [by apply Forall_singleton|].
    split; [cbn; lia|]. done. }
  destruct (decide (DataLength <= fp)); [lia|].
  rewrite (Z.min_r DataLength fp) in * by lia.
  destruct (Z.eqb_spec numPages 2) as [H2|H2]; (destruct (VnvmeIsValidPhysicalAddress Prp2 pageSize) eqn:Hv2; cbn [negb];
    [|eexists _, _; split; [done|]; split; [done|]; intros _ _ (_ & Hv & _); specialize (Hv H1); congruence]).
  { destruct (page_base_ok _ (valid_address_range _ _ Hv2)) as (? & Hmod & _).
    assert (page_offset (page_base Prp2) = 0) as Hpo by (by rewrite page_offset_eq).
    assert (page_base (page_base Prp2) = page_base Prp2) as Hpb.
    { rewrite (page_base_eq (page_base Prp2)), Hmod; [lia|]. unfold VNVME_LOW_MEMORY_LIMIT, VNVME_MAX_PHYSICAL_ADDRESS in *. lia. }
    assert (DataLength - fp <= 4096) by (Z.div_mod_to_equations; lia).
    eexists _, _. split; [done|]. split; [|done]. intros _. cbn [snd]. rewrite prp_total_app. cbn [prp_total prp_Length prp_cut].
    rewrite u32_small, Hpo, Hpb, (proj2 (Z.leb_gt _ _)), Z.min_l by (change pageSize with 4096; lia). split; [|split; [cbn; lia|done]].
    apply Forall_app_2; [by apply Forall_singleton|]. apply Forall_singleton. unfold prp_ok; cbn. change pageSize with 4096 in *. lia. }
  unfold map_io, mbind at 1, M_bind at 1. destruct (MmMapIoSpace _ _ _) eqn:Hmap; cbn [negb].
  2: { eexists _, _. split; [done|]. split; [done|]. intros _ Hm. by rewrite Hm in Hmap. }
  unfold mbind at 1, M_bind at 1, get.
  change (ks_host (s1 <|ks_tick ::= S|>)) with (ks_host s).
  rewrite !(u32_small (DataLength - fp)) by lia. rewrite u32_small by lia.
  set (size := if pageSize <? (numPages - 1) * 8 then pageSize else (numPages - 1) * 8).
  assert ((numPages - 1) * 8 <= size) as Hsize.
  { unfold size. change pageSize with 4096. destruct (Z.ltb_spec 4096 ((numPages - 1) * 8)); lia. }
  destruct (prp_list_loop_ok (ks_host s) Prp2 size numPages (Z.to_nat (numPages - 1)) 0 (DataLength - fp) [e1])
    as (o & -> & Hpost & Hsome); try (simpl; lia); [by apply Forall_singleton|]. rewrite Z2Nat.id in * by lia.
  destruct o as [l|].
  2: { eexists _, _. split; [done|]. split; [done|]. intros _ _ (_ & _ & Hw). destruct (Hsome (Hw ltac:(lia))). done. }
  eexists _, _. split; [done|]. split; [|done]. intros _. cbn [snd].
  destruct (Hpost l eq_refl) as (Hf & Hle & Hl). split; [done|]. cbn in Hle. split; [lia|]. by rewrite Hl.
Qed.

(** ** With a kernel that serves every request *)

Lemma bind_alloc {B} n (f : bool -> M KState B) s : pools_succeed -> (alloc n ≫= f) s = f true (s <| ks_tick ::= S |>).
Proof. intros H. unfold alloc, mbind, M_bind. by rewrite H. Qed.

Lemma bind_map_io {B} pa n (f : bool -> M KState B) s : maps_succeed -> (map_io pa n ≫= f) s = f true (s <| ks_tick ::= S |>).
Proof. intros H. unfold map_io, mbind, M_bind. by rewrite H. Qed.

(** Where an entry starts, and entries that do not overlap. *)
Definition prp_start (e : VNVME_PRP_ENTRY) : Z := prp_PhysicalAddress e + prp_Offset e.

Fixpoint prp_disjoint (l : list VNVME_PRP_ENTRY) : Prop :=
  match l with
  | [] => True
  | e :: l => Forall (fun e' => prp_start e + prp_Length e <= prp_start e' \/ prp_start e' + prp_Length e' <= prp_start e) l /\
              prp_disjoint l
  end.

Lemma prp_ok_start e : prp_ok e -> 0 <= prp_start e /\ prp_start e + prp_Length e < 2 ^ 64 /\
  (prp_PhysicalAddress e +₆₄ prp_Offset e) = prp_start e.
Proof.
  unfold prp_ok, prp_start, VNVME_LOW_MEMORY_LIMIT, VNVME_MAX_PHYSICAL_ADDRESS. change pageSize with 4096.
  intros (? & ? & ? & ? & ?). rewrite u64_small by lia. lia.
Qed.

Lemma prp_total_nonneg l : Forall prp_ok l -> 0 <= prp_total l.
Proof. induction 1 as [|e l (_ & _ & _ & ? & _) _ IH]; cbn [prp_total]; lia. Qed.

(** The address of a byte of the transfer lies in one of the entries. *)
Lemma prp_addr_in l i : Forall prp_ok l -> 0 <= i < prp_total l ->
  exists e, e ∈ l /\ prp_start e <= prp_addr l i < prp_start e + prp_Length e.
Proof.
  intros Hf. revert i. induction Hf as [|e l He Hf IH]; intros i Hi; cbn [prp_total prp_addr] in *; [lia|].
  destruct (Z.ltb_spec i (prp_Length e)).
  - exists e. split; [by left|]. unfold prp_start. lia.
  - destruct (IH (i - prp_Length e)) as (e' & ? & ?); [lia|]. exists e'. split; [by right|done].
Qed.

(** With list entries that are page aligned, byte [i] of the transfer is at byte
    [o + i] of the pages laid end to end, [o] being the offset in the first. *)
Lemma prp_entries_aligned host Prp1 Prp2 n : 0 < n <= 2 ^ 21 ->
  let pointers := prp_pointers host Prp1 Prp2 n in
  Forall (fun a => page_offset a = 0) (tail pointers) ->
  prp_total (prp_entries host Prp1 Prp2 n) = n /\
  forall i, 0 <= i < n -> exists a, pointers !! Z.to_nat ((page_offset Prp1 + i) / pageSize) = Some a /\
    prp_addr (prp_entries host Prp1 Prp2 n) i = page_base a + (page_offset Prp1 + i) mod pageSize.
Proof.
  intros Hn pointers Hal. destruct (prp_numPages_eq Prp1 n Hn) as (_ & Hpages & Hcov). pose proof (page_offset_range Prp1) as Ho.
  set (ptrs := tail pointers) in *. assert (pointers = Prp1 :: ptrs) as E by done. set (o := page_offset Prp1) in *.
  assert (Z.of_nat (length ptrs) = prp_numPages Prp1 n - 1) as Hlen.
  { unfold ptrs, pointers, prp_pointers, prp_list_words. cbn [tail]. destruct (Z.eqb_spec (prp_numPages Prp1 n) 1); [cbn; lia|].
    destruct (Z.eqb_spec (prp_numPages Prp1 n) 2); [cbn; lia|]. rewrite length_map, length_seqZ. lia. }
  unfold prp_entries. fold pointers. rewrite E. cbn [prp_cut]. rewrite (proj2 (Z.leb_gt n 0)) by lia. change pageSize with 4096 in *. fold o.
  set (m := Z.min n (4096 - o)). destruct (prp_cut_aligned ptrs (n - m) Hal) as [Ht Hi]; [change pageSize with 4096; lia|].
  change pageSize with 4096 in *. cbn [prp_total prp_addr prp_Length prp_PhysicalAddress prp_Offset]. split; [lia|].
  intros i Hi0. destruct (Z.ltb_spec i m) as [Hin|Hin].
  - exists Prp1. rewrite Z.div_small, Z.mod_small by lia. split; [done|lia].
  - assert (m = 4096 - o) as Em by lia. rewrite Em in *.
    assert ((o + i) / 4096 = (i - (4096 - o)) / 4096 + 1 /\ (o + i) mod 4096 = (i - (4096 - o)) mod 4096) as [E1 E2]
      by (replace (o + i) with (i - (4096 - o) + 1 * 4096) by lia; rewrite Z.div_add, Z.mod_add by lia; done).
    assert (0 <= (i - (4096 - o)) / 4096 < Z.of_nat (length ptrs)) as Hk
      by (split; [apply Z.div_pos; lia | apply Z.div_lt_upper_bound; lia]).
    destruct (lookup_lt_is_Some_2 ptrs (Z.to_nat ((i - (4096 - o)) / 4096)) ltac:(lia)) as [a Ha]. exists a.
    rewrite E1, E2, <- (Hi (i - (4096 - o)) a) by (done || lia). split; [|done].
    by replace (Z.to_nat ((i - (4096 - o)) / 4096 + 1)) with (S (Z.to_nat ((i - (4096 - o)) / 4096))) by lia.
Qed.

(** C19: parsing the PRPs of any transfer of up to 2 MB never faults and changes
    nothing but the allocation clock.  It succeeds if the kernel grants its
    requests and every page address it looks at is an acceptable one; when it
    succeeds the result is the reference [prp_entries], the page addresses of
    the host (PRP1, then PRP2 or the words of the list at PRP2) cut to the
    length of the transfer: every entry is a non-empty range inside one page of
    valid memory, and together they cover no more than the transfer. When the
    addresses after the first are page aligned, as the specification demands of
    the host, the entries cover the transfer, and byte i of it is at byte
    [offset of PRP1 + i] of those pages laid end to end. *)
Theorem VnvmeParsePrpList_ok (s : KState) (Prp1 Prp2 DataLength : Z) :
  0 < DataLength <= 2 ^ 21 ->
  let pointers := prp_pointers (ks_host s) Prp1 Prp2 DataLength in
  exists st l t, VnvmeParsePrpList Prp1 Prp2 DataLength s = Ok ((st, l), s <| ks_tick := t |>) /\
    (pools_succeed -> maps_succeed -> prp_valid (ks_host s) Prp1 Prp2 DataLength -> NT_SUCCESS st = true) /\
    (NT_SUCCESS st = true ->
      l = prp_entries (ks_host s) Prp1 Prp2 DataLength /\ Forall prp_ok l /\ prp_total l <= DataLength /\
      (Forall (fun a => page_offset a = 0) (tail pointers) ->
        prp_total l = DataLength /\
        forall i, 0 <= i < DataLength -> exists a, pointers !! Z.to_nat ((page_offset Prp1 + i) / pageSize) = Some a /\
          prp_addr l i = page_base a + (page_offset Prp1 + i) mod pageSize)).
Proof.
  intros H pointers. destruct (VnvmeParsePrpList_spec s Prp1 Prp2 DataLength ltac:(lia)) as ([st l] & t & Hr & Hok & Hsucc). cbn [fst snd] in *.
  exists st, l, t. split; [done|]. split; [done|]. intros Hst. destruct (Hok Hst) as (H1 & H2 & ->). do 3 (split; [done|]).
  by apply prp_entries_aligned.
Qed.
End Prp.

(** ** Witnesses *)

#[local] Existing Instances TestKernel.

(** Host memory in which every aligned 8-byte word is the address 0x400000. *)
Definition test_prp_host : mem := fun a => if a mod 8 =? 2 then 0x40 else 0.

Lemma VnvmeParsePrpList_ok_witness :
  exists st l t, VnvmeParsePrpList 0x200200 0x300000 (2 ^ 14) (test_state test_shm test_prp_host) =
    Ok ((st, l), (test_state test_shm test_prp_host) <| ks_tick := t |>) /\ prp_total l = 2 ^ 14 /\ prp_addr l 0x1000 = 0x400200.
Proof.
  destruct (VnvmeParsePrpList_ok (test_state test_shm test_prp_host) 0x200200 0x300000 (2 ^ 14) ltac:(lia))
    as (st & l & t & H & Hs & Hp).
  exists st, l, t. split; [exact H|].
  assert (NT_SUCCESS st = true) as Hst.
  { apply Hs; [by intros ? ?|by intros ? ? ?|]. split; [reflexivity|]. split; [reflexivity|]. intros _.
    replace (prp_list_words _ _ _ _) with (repeat 0x400000 4) by (vm_compute; reflexivity).
    repeat (apply List.Forall_cons; [reflexivity|]). apply List.Forall_nil. }
  destruct (Hp Hst) as (_ & _ & _ & Hal). destruct Hal as [Ht Hi].
  { replace (tail _) with (repeat 0x400000 4) by (vm_compute; reflexivity). repeat (apply List.Forall_cons; [reflexivity|]). apply List.Forall_nil. }
  split; [exact Ht|]. destruct (Hi 0x1000 ltac:(lia)) as (a & Ha & ->). vm_compute in Ha. injection Ha as <-. reflexivity.
Defined.

(** Beyond 513 pages the parser walks off the one page of the PRP list it
    maps: the same host memory, a transfer of 2 MB and two pages more. *)
Lemma VnvmeParsePrpList_overrun :
  VnvmeParsePrpList 0x200000 0x300000 (2 ^ 21 + 2 * pageSize) (test_state test_shm test_prp_host) = Fault.
Proof. vm_compute. reflexivity. Qed.
