(* ===== verification/Queue.v ===== *)
(** Queues: [vnvme/queue.c].

    A queue is named by its identifier: 0 is the admin queue, whose descriptors
    are in the control block, [n > 0] an I/O queue, whose descriptors are
    entries [2 * (n - 1)] (SQ) and [2 * (n - 1) + 1] (CQ) of the array. *)
From S2P Require Import Prelude NvmeSpec Kernel Config Storage State Shm.
Open Scope Z_scope.
Open Scope c_scope.

Section Queue.
Context {W : WinKernel}.

Definition CONFIG_MAX_IO_QUEUES (s : KState) : Z := cfg_MaxIOQueues (ks_cfg s).

(** ** Pointers to descriptors and queue states *)

Definition sq_desc (m : SharedMemory) (QueueId : Z) : option VNVME_QUEUE_DESCRIPTOR :=
  if QueueId =? 0 then Some (cb_AdminSQ (shm_cb m)) else arr_get (shm_descs m) ((QueueId - 1) * 2).
Definition cq_desc (m : SharedMemory) (QueueId : Z) : option VNVME_QUEUE_DESCRIPTOR :=
  if QueueId =? 0 then Some (cb_AdminCQ (shm_cb m)) else arr_get (shm_descs m) ((QueueId - 1) * 2 + 1).

Definition sq_desc_update (QueueId : Z) (f : VNVME_QUEUE_DESCRIPTOR -> VNVME_QUEUE_DESCRIPTOR) (m : SharedMemory)
  : option SharedMemory :=
  if QueueId =? 0 then Some (m <| shm_cb ::= fun cb => cb <| cb_AdminSQ ::= f |> |>)
  else desc_update ((QueueId - 1) * 2) f m.
Definition cq_desc_update (QueueId : Z) (f : VNVME_QUEUE_DESCRIPTOR -> VNVME_QUEUE_DESCRIPTOR) (m : SharedMemory)
  : option SharedMemory :=
  if QueueId =? 0 then Some (m <| shm_cb ::= fun cb => cb <| cb_AdminCQ ::= f |> |>)
  else desc_update ((QueueId - 1) * 2 + 1) f m.

Definition sq_state_update (QueueId : Z) (f : VNVME_QUEUE_STATE -> VNVME_QUEUE_STATE) : M KState unit :=
  if QueueId =? 0 then pdo_update (fun p => p <| pdo_AdminSq ::= f |>) else iosq_update (QueueId - 1) f.
Definition cq_state_update (QueueId : Z) (f : VNVME_QUEUE_STATE -> VNVME_QUEUE_STATE) : M KState unit :=
  if QueueId =? 0 then pdo_update (fun p => p <| pdo_AdminCq ::= f |>) else iocq_update (QueueId - 1) f.

(** A store through a pointer into the shared memory; [None] is a wild one. *)
Definition shm_store (f : SharedMemory -> option SharedMemory) : M KState unit :=
  s ← get;
  m ← of_opt (VnvmeShmGetControlBlock s ≫= f);
  shm_update (fun _ => m).

(** [(i + 1) % Capacity], with 32-bit operands. *)
Definition next_index (i Capacity : Z) : option Z :=
  if Capacity =? 0 then None else Some ((i +₃₂ 1) mod Capacity).

(** [sqBase[head]]. *)
Definition read_sqe (m : SharedMemory) (Offset head : Z) : option NVME_COMMAND :=
  let a := Offset + head * NVME_SQ_ENTRY_SIZE in
  if queue_memory a NVME_SQ_ENTRY_SIZE then Some (cmd_load (shm_mem m) a) else None.

(** The completion as it is written: [(Status & 0xFFFE) | (phase ? 1 : 0)]. *)
Definition with_phase (c : NVME_COMPLETION) (phase : bool) : NVME_COMPLETION :=
  c <| cpl_Status ::= fun st => Z.lor (Z.land st 0xFFFE) (if phase then 1 else 0) |>.

(** [cqBase[tail] = ...]. *)
Definition write_cqe (Offset tail : Z) (c : NVME_COMPLETION) (m : SharedMemory) : option SharedMemory :=
  let a := Offset + tail * NVME_CQ_ENTRY_SIZE in
  if queue_memory a NVME_CQ_ENTRY_SIZE then Some (m <| shm_mem ::= fun b => cpl_store b a c |>) else None.

(** ** Admin queues *)

Definition NVME_REG_CAP : Z := 0x00.
Definition NVME_REG_AQA : Z := 0x24.
Definition NVME_REG_ASQ : Z := 0x28.
Definition NVME_REG_ACQ : Z := 0x30.

Definition VnvmeInitializeAdminQueues : M KState NTSTATUS :=
  s ← get;
  match pdo_Bar0VirtAddr (ks_pdo s) with
  | None => mret STATUS_INVALID_DEVICE_STATE
  | Some regs =>
      let aqa := load_le regs NVME_REG_AQA 4 in
      let asqs := Z.land aqa 0xFFF + 1 in
      let acqs := Z.land (Z.shiftr aqa 16) 0xFFF + 1 in
      let asq := load_le regs NVME_REG_ASQ 8 in
      let acq := load_le regs NVME_REG_ACQ 8 in
      pdo_update (fun p => p
        <| pdo_AdminSqBase := asq |> <| pdo_AdminSqSize := asqs |>
        <| pdo_AdminCqBase := acq |> <| pdo_AdminCqSize := acqs |>
        <| pdo_LastAdminSqTail := 0 |> <| pdo_LastAdminCqHead := 0 |> <| pdo_AdminCqPhase := 1 |>);;
      mret STATUS_SUCCESS
  end.

(** ** Creation and deletion of I/O queues *)

(** The offset of the submission queue of pair [queueIndex], from the
    descriptor array; the completion queue follows it. *)
Definition io_pair_offset (m : SharedMemory) (queueIndex : Z) : Z :=
  (cb_IoQueueDescriptorOffset (shm_cb m) +₃₂ (VNVME_MAX_IO_QUEUES * 2 * sizeof_VNVME_QUEUE_DESCRIPTOR))
  +₃₂ (queueIndex * (VNVME_IO_QUEUE_DEPTH * NVME_SQ_ENTRY_SIZE + VNVME_IO_QUEUE_DEPTH * NVME_CQ_ENTRY_SIZE)).

(** Clear [n] bytes of queue memory. *)
Definition clear_queue (off n : Z) (m : SharedMemory) : option SharedMemory :=
  if (n <=? 0) || queue_memory off n then Some (m <| shm_mem ::= fun b => mem_fill b off n 0 |>) else None.

Definition VnvmeCreateIoSubmissionQueue (QueueId QueueSize PrpAddress CqId : Z) : M KState NTSTATUS :=
  s ← get;
  if (QueueId =? 0) || (CONFIG_MAX_IO_QUEUES s <? QueueId) then mret STATUS_INVALID_PARAMETER
  else
    let queueIndex := QueueId - 1 in
    if (CqId =? 0) || (CONFIG_MAX_IO_QUEUES s <? CqId) then mret STATUS_INVALID_PARAMETER
    else
      cq ← of_opt (arr_get (pdo_IoCq (ks_pdo s)) (VNVME_QUEUE_ID_TO_INDEX CqId));
      if negb (qs_Created cq) then mret STATUS_INVALID_PARAMETER
      else
        sq ← of_opt (arr_get (pdo_IoSq (ks_pdo s)) queueIndex);
        if qs_Created sq then mret STATUS_OBJECT_NAME_COLLISION
        else match VnvmeShmGetControlBlock s, VnvmeShmGetIoQueueDescriptors s with
        | Some m, Some _ =>
            let sqOffset := io_pair_offset m queueIndex in
            iosq_update queueIndex (fun q => q
              <| qs_BaseAddress := PrpAddress |> <| qs_Size := QueueSize |> <| qs_Head := 0 |> <| qs_Tail := 0 |>
              <| qs_Created := true |>);;
            shm_store (sq_desc_update QueueId (fun d => d
              <| qd_Offset := sqOffset |> <| qd_EntrySize := NVME_SQ_ENTRY_SIZE |> <| qd_Capacity := QueueSize |>
              <| qd_Head := 0 |> <| qd_Tail := 0 |> <| qd_Valid := 1 |>));;
            shm_store (clear_queue sqOffset (QueueSize * NVME_SQ_ENTRY_SIZE));;
            pdo_update (fun p => p <| pdo_IoQueueCount ::= fun n => n +₁₆ 1 |>);;
            mret STATUS_SUCCESS
        | _, _ => mret STATUS_DEVICE_NOT_READY
        end.

Definition VnvmeCreateIoCompletionQueue (QueueId QueueSize PrpAddress IrqVector : Z) : M KState NTSTATUS :=
  s ← get;
  if (QueueId =? 0) || (CONFIG_MAX_IO_QUEUES s <? QueueId) then mret STATUS_INVALID_PARAMETER
  else
    let queueIndex := QueueId - 1 in
    cq ← of_opt (arr_get (pdo_IoCq (ks_pdo s)) queueIndex);
    if qs_Created cq then mret STATUS_OBJECT_NAME_COLLISION
    else match VnvmeShmGetControlBlock s, VnvmeShmGetIoQueueDescriptors s with
    | Some m, Some _ =>
        let cqOffset := io_pair_offset m queueIndex +₃₂ (VNVME_IO_QUEUE_DEPTH * NVME_SQ_ENTRY_SIZE) in
        iocq_update queueIndex (fun q => q
          <| qs_BaseAddress := PrpAddress |> <| qs_Size := QueueSize |> <| qs_Head := 0 |> <| qs_Tail := 0 |>
          <| qs_PhaseTag := true |> <| qs_Created := true |>);;
        shm_store (cq_desc_update QueueId (fun d => d
          <| qd_Offset := cqOffset |> <| qd_EntrySize := NVME_CQ_ENTRY_SIZE |> <| qd_Capacity := QueueSize |>
          <| qd_Head := 0 |> <| qd_Tail := 0 |> <| qd_Phase := 1 |> <| qd_Valid := 1 |>));;
        shm_store (clear_queue cqOffset (QueueSize * NVME_CQ_ENTRY_SIZE));;
        mret STATUS_SUCCESS
    | _, _ => mret STATUS_DEVICE_NOT_READY
    end.

Definition VnvmeDeleteIoSubmissionQueue (QueueId : Z) : M KState NTSTATUS :=
  s ← get;
  if (QueueId =? 0) || (CONFIG_MAX_IO_QUEUES s <? QueueId) then mret STATUS_INVALID_PARAMETER
  else
    let queueIndex := QueueId - 1 in
    sq ← of_opt (arr_get (pdo_IoSq (ks_pdo s)) queueIndex);
    if negb (qs_Created sq) then mret STATUS_NOT_FOUND
    else
      iosq_update queueIndex (fun _ => zero_queue);;
      (match VnvmeShmGetIoQueueDescriptors s with
       | Some _ => shm_store (sq_desc_update QueueId (fun d => d
                     <| qd_Valid := 0 |> <| qd_Head := 0 |> <| qd_Tail := 0 |>))
       | None => mret tt
       end);;
      pdo_update (fun p => if 0 <? pdo_IoQueueCount p then p <| pdo_IoQueueCount ::= fun n => n - 1 |> else p);;
      mret STATUS_SUCCESS.

(** The loop over the submission queues that may use completion queue
    [queueIndex + 1]: only the one of the same identifier counts. *)
Definition has_associated_sq (IoSq : list VNVME_QUEUE_STATE) (queueIndex : Z) : bool :=
  existsb (fun iq => qs_Created iq.2 && (Z.of_nat iq.1 =? queueIndex)) (imap pair IoSq).

Definition VnvmeDeleteIoCompletionQueue (QueueId : Z) : M KState NTSTATUS :=
  s ← get;
  if (QueueId =? 0) || (CONFIG_MAX_IO_QUEUES s <? QueueId) then mret STATUS_INVALID_PARAMETER
  else
    let queueIndex := QueueId - 1 in
    cq ← of_opt (arr_get (pdo_IoCq (ks_pdo s)) queueIndex);
    if negb (qs_Created cq) then mret STATUS_NOT_FOUND
    else if has_associated_sq (pdo_IoSq (ks_pdo s)) queueIndex then mret STATUS_DEVICE_BUSY
    else
      iocq_update queueIndex (fun _ => zero_queue);;
      (match VnvmeShmGetIoQueueDescriptors s with
       | Some _ => shm_store (cq_desc_update QueueId (fun d => d
                     <| qd_Valid := 0 |> <| qd_Head := 0 |> <| qd_Tail := 0 |> <| qd_Phase := 1 |>))
       | None => mret tt
       end);;
      mret STATUS_SUCCESS.

(** ** Fetching and posting *)

(** The checks that name a queue for [VnvmeFetchCommand] and
    [VnvmePostCompletion]; [None] means they pass. *)
Definition check_io_queue (s : KState) (QueueId : Z) (queues : list VNVME_QUEUE_STATE) : M KState (option NTSTATUS) :=
  if QueueId =? 0 then mret None
  else if CONFIG_MAX_IO_QUEUES s <? QueueId then mret (Some STATUS_INVALID_PARAMETER)
  else
    q ← of_opt (arr_get queues (QueueId - 1));
    if negb (qs_Created q) then mret (Some STATUS_INVALID_PARAMETER)
    else match VnvmeShmGetIoQueueDescriptors s with
    | None => mret (Some STATUS_DEVICE_NOT_READY)
    | Some _ => mret None
    end.

(** The status, and [*Command]. *)
Definition VnvmeFetchCommand (QueueId : Z) : M KState (NTSTATUS * NVME_COMMAND) :=
  s ← get;
  match VnvmeShmGetControlBlock s with
  | None => mret (STATUS_DEVICE_NOT_READY, zero_command)
  | Some m =>
      error ← check_io_queue s QueueId (pdo_IoSq (ks_pdo s));
      match error with
      | Some st => mret (st, zero_command)
      | None =>
          sqDesc ← of_opt (sq_desc m QueueId);
          if qd_Valid sqDesc =? 0 then mret (STATUS_INVALID_DEVICE_STATE, zero_command)
          else
            let head := qd_Head sqDesc in
            if head =? qd_Tail sqDesc then mret (STATUS_NO_MORE_ENTRIES, zero_command)
            else
              Command ← of_opt (read_sqe m (qd_Offset sqDesc) head);
              head ← of_opt (next_index head (qd_Capacity sqDesc));
              shm_store (sq_desc_update QueueId (fun d => d <| qd_Head := head |>));;
              sq_state_update QueueId (fun q => q <| qs_Head := head |>);;
              mret (STATUS_SUCCESS, Command)
      end
  end.

(** [PdoContext->AdminCq.PhaseTag] or that of the I/O queue. *)
Definition cq_phase (p : VNVME_PDO_CONTEXT) (QueueId : Z) : option bool :=
  if QueueId =? 0 then Some (qs_PhaseTag (pdo_AdminCq p)) else qs_PhaseTag <$> arr_get (pdo_IoCq p) (QueueId - 1).

Definition VnvmePostCompletion (QueueId : Z) (Completion : NVME_COMPLETION) : M KState NTSTATUS :=
  s ← get;
  match VnvmeShmGetControlBlock s with
  | None => mret STATUS_DEVICE_NOT_READY
  | Some m =>
      error ← check_io_queue s QueueId (pdo_IoCq (ks_pdo s));
      match error with
      | Some st => mret st
      | None =>
          cqDesc ← of_opt (cq_desc m QueueId);
          phase ← of_opt (cq_phase (ks_pdo s) QueueId);
          if qd_Valid cqDesc =? 0 then mret STATUS_INVALID_DEVICE_STATE
          else
            shm_store (write_cqe (qd_Offset cqDesc) (qd_Tail cqDesc) (with_phase Completion phase));;
            tail ← of_opt (next_index (qd_Tail cqDesc) (qd_Capacity cqDesc));
            (if tail =? 0 then
               let phase := negb phase in
               shm_store (cq_desc_update QueueId (fun d => d <| qd_Phase := if phase then 1 else 0 |>));;
               cq_state_update QueueId (fun q => q <| qs_PhaseTag := phase |>)
             else mret tt);;
            shm_store (cq_desc_update QueueId (fun d => d <| qd_Tail := tail |>));;
            cq_state_update QueueId (fun q => q <| qs_Tail := tail |>);;
            cb_update (fun cb => cb <| cb_CompletionsPosted ::= fun n => n +₆₄ 1 |>);;
            mret STATUS_SUCCESS
      end
  end.

(** ** Batches *)

(** [ioDescs == NULL || QueueId > shm->IoQueueCount || queueIndex >= VNVME_MAX_IO_QUEUES]. *)
Definition batch_check (s : KState) (m : SharedMemory) (QueueId : Z) : bool :=
  (QueueId =? 0) ||
  match VnvmeShmGetIoQueueDescriptors s with
  | None => false
  | Some _ => (QueueId <=? cb_IoQueueCount (shm_cb m)) && (u16 (QueueId - 1) <? VNVME_MAX_IO_QUEUES)
  end.

(** The fetch loop: the commands read so far, in order, and the new head.
    [fuel] is [MaxCommands - fetched]. *)
Fixpoint fetch_loop (fuel : nat) (m : SharedMemory) (sqDesc : VNVME_QUEUE_DESCRIPTOR) (head : Z)
  : option (list NVME_COMMAND * Z) :=
  match fuel with
  | O => Some ([], head)
  | S fuel =>
      if head =? qd_Tail sqDesc then Some ([], head)
      else
        c ← read_sqe m (qd_Offset sqDesc) head;
        head ← next_index head (qd_Capacity sqDesc);
        '(cs, head) ← fetch_loop fuel m sqDesc head;
        Some (c :: cs, head)
  end.

(** The status and the commands; their number is [*CommandsFetched]. *)
Definition VnvmeFetchCommandBatch (QueueId MaxCommands : Z) : M KState (NTSTATUS * list NVME_COMMAND) :=
  if MaxCommands =? 0 then mret (STATUS_SUCCESS, [])
  else
    s ← get;
    match VnvmeShmGetControlBlock s with
    | None => mret (STATUS_DEVICE_NOT_READY, [])
    | Some m =>
        if negb (batch_check s m QueueId) then mret (STATUS_INVALID_PARAMETER, [])
        else
          sqDesc ← of_opt (sq_desc m QueueId);
          if qd_Head sqDesc =? qd_Tail sqDesc then mret (STATUS_SUCCESS, [])
          else
            r ← of_opt (fetch_loop (Z.to_nat MaxCommands) m sqDesc (qd_Head sqDesc));
            shm_store (sq_desc_update QueueId (fun d => d <| qd_Head := r.2 |>));;
            cb_update (fun cb => cb <| cb_CommandsProcessed ::= fun n => n +₆₄ Z.of_nat (length r.1) |>);;
            mret (STATUS_SUCCESS, r.1)
    end.

(** The posting loop over the completions; the result is the new tail and phase. *)
Fixpoint post_loop (QueueId : Z) (cqDesc : VNVME_QUEUE_DESCRIPTOR) (Completions : list NVME_COMPLETION)
  (tail : Z) (phase : bool) : M KState (Z * bool) :=
  match Completions with
  | [] => mret (tail, phase)
  | src :: rest =>
      shm_store (write_cqe (qd_Offset cqDesc) tail (with_phase src phase));;
      tail ← of_opt (next_index tail (qd_Capacity cqDesc));
      if tail =? 0 then
        shm_store (cq_desc_update QueueId (fun d => d <| qd_Phase := if negb phase then 1 else 0 |>));;
        post_loop QueueId cqDesc rest tail (negb phase)
      else post_loop QueueId cqDesc rest tail phase
  end.

Definition VnvmePostCompletionBatch (QueueId : Z) (Completions : list NVME_COMPLETION) : M KState NTSTATUS :=
  match Completions with
  | [] => mret STATUS_SUCCESS
  | _ =>
      s ← get;
      match VnvmeShmGetControlBlock s with
      | None => mret STATUS_DEVICE_NOT_READY
      | Some m =>
          if negb (batch_check s m QueueId) then mret STATUS_INVALID_PARAMETER
          else
            cqDesc ← of_opt (cq_desc m QueueId);
            phase ← of_opt (cq_phase (ks_pdo s) QueueId);
            r ← post_loop QueueId cqDesc Completions (qd_Tail cqDesc) phase;
            shm_store (cq_desc_update QueueId (fun d => d <| qd_Tail := r.1 |>));;
            cq_state_update QueueId (fun q => q <| qs_Tail := r.1 |> <| qs_PhaseTag := r.2 |>);;
            cb_update (fun cb => cb <| cb_CompletionsPosted ::= fun n => n +₆₄ Z.of_nat (length Completions) |>);;
            mret STATUS_SUCCESS
      end
  end.

(** ** Views of a queue

    What a post can change of the state, as one value, and the update of the
    state with such a value: every primitive of the posting code is an update
    of the view ([cq_set_*]), two updates are one ([cq_set_set]). *)

Record CqView := mkCqView {
  cv_mem : mem;
  cv_desc : VNVME_QUEUE_DESCRIPTOR;
  cv_state : VNVME_QUEUE_STATE;
  cv_posted : Z
}.
Definition etaCqView r :=
  mkCqView (cv_mem r) (cv_desc r) (cv_state r) (cv_posted r).
#[export] Instance set_cv_mem : Setter cv_mem := ltac:(mk_setter etaCqView).
#[export] Instance set_cv_desc : Setter cv_desc := ltac:(mk_setter etaCqView).
#[export] Instance set_cv_state : Setter cv_state := ltac:(mk_setter etaCqView).
#[export] Instance set_cv_posted : Setter cv_posted := ltac:(mk_setter etaCqView).

Definition cq_view (QueueId : Z) (s : KState) : option CqView :=
  m ← VnvmeShmGetControlBlock s;
  d ← cq_desc m QueueId;
  q ← (if QueueId =? 0 then Some (pdo_AdminCq (ks_pdo s)) else arr_get (pdo_IoCq (ks_pdo s)) (QueueId - 1));
  Some (mkCqView (shm_mem m) d q (cb_CompletionsPosted (shm_cb m))).

Definition put_cq_desc (QueueId : Z) (d : VNVME_QUEUE_DESCRIPTOR) (m : SharedMemory) : SharedMemory :=
  if QueueId =? 0 then m <| shm_cb ::= fun cb => cb <| cb_AdminCQ := d |> |>
  else m <| shm_descs ::= fun l => <[Z.to_nat ((QueueId - 1) * 2 + 1) := d]> l |>.

Definition put_cq_state (QueueId : Z) (q : VNVME_QUEUE_STATE) (p : VNVME_PDO_CONTEXT) : VNVME_PDO_CONTEXT :=
  if QueueId =? 0 then p <| pdo_AdminCq := q |>
  else p <| pdo_IoCq ::= fun l => <[Z.to_nat (QueueId - 1) := q]> l |>.

Definition cq_set (QueueId : Z) (v : CqView) (s : KState) : KState :=
  s <| ks_fdo ::= option_map (fun d => d <| fdo_Shm ::= option_map (fun m =>
         put_cq_desc QueueId (cv_desc v) (m <| shm_mem := cv_mem v |>
           <| shm_cb ::= fun cb => cb <| cb_CompletionsPosted := cv_posted v |> |>)) |>) |>
    <| ks_pdo ::= put_cq_state QueueId (cv_state v) |>.

(** A state with a shared memory is one record update away from another. *)
Lemma shm_state_inv s m :
  VnvmeShmGetControlBlock s = Some m -> exists d, ks_fdo s = Some d /\ fdo_Shm d = Some m.
Proof. unfold VnvmeShmGetControlBlock. destruct (ks_fdo s) as [d|]; [|done]. simpl. eauto. Qed.

Lemma arr_get_insert_eq {A} (l : list A) i x y : arr_get l i = Some x -> arr_get (<[Z.to_nat i := y]> l) i = Some y.
Proof.
  intros H. pose proof (arr_get_lt _ _ _ H). unfold arr_get. rewrite (proj2 (Z.ltb_ge _ _)) by lia.
  apply list_lookup_insert_eq. lia.
Qed.

Lemma arr_get_insert_ne {A} (l : list A) i j y : 0 <= i -> i <> j -> arr_get (<[Z.to_nat i := y]> l) j = arr_get l j.
Proof.
  intros ? Hne. unfold arr_get. destruct (Z.ltb_spec j 0); [done|]. apply list_lookup_insert_ne. lia.
Qed.

Lemma upd_nth_insert {A} (l : list A) i x f : arr_get l i = Some x -> upd_nth l i f = Some (<[Z.to_nat i := f x]> l).
Proof. intros H. unfold upd_nth. rewrite H. simpl. apply arr_set_Some. by eapply arr_get_lt. Qed.

Lemma iocq_update_run i f s q :
  arr_get (pdo_IoCq (ks_pdo s)) i = Some q ->
  iocq_update i f s = Ok (tt, s <| ks_pdo ::= fun p => p <| pdo_IoCq := <[Z.to_nat i := f q]> (pdo_IoCq (ks_pdo s)) |> |>).
Proof. intros H. unfold iocq_update. rewrite bind_get, (bind_opt _ _ _ _ (upd_nth_insert _ _ _ f H)). done. Qed.

Lemma iosq_update_run i f s q :
  arr_get (pdo_IoSq (ks_pdo s)) i = Some q ->
  iosq_update i f s = Ok (tt, s <| ks_pdo ::= fun p => p <| pdo_IoSq := <[Z.to_nat i := f q]> (pdo_IoSq (ks_pdo s)) |> |>).
Proof. intros H. unfold iosq_update. rewrite bind_get, (bind_opt _ _ _ _ (upd_nth_insert _ _ _ f H)). done. Qed.

Lemma cq_view_set Q v v' s : cq_view Q s = Some v -> cq_view Q (cq_set Q v' s) = Some v'.
Proof.
  unfold cq_view. destruct (VnvmeShmGetControlBlock s) as [m|] eqn:Hm; [|done].
  destruct (shm_state_inv _ _ Hm) as (d & Hd & Hs). simpl.
  unfold VnvmeShmGetControlBlock, cq_set, cq_desc, put_cq_desc, put_cq_state. cbn. rewrite Hd. cbn. rewrite Hs. cbn.
  destruct (Q =? 0); cbn; [intros _; by destruct v'|].
  destruct (arr_get (shm_descs m) _) eqn:E1; cbn; [|done].
  destruct (arr_get (pdo_IoCq (ks_pdo s)) _) eqn:E2; cbn; [|done]. intros _.
  rewrite (arr_get_insert_eq _ _ _ _ E1). cbn. rewrite (arr_get_insert_eq _ _ _ _ E2). by destruct v'.
Qed.

Lemma cq_set_set Q v1 v2 s : cq_set Q v2 (cq_set Q v1 s) = cq_set Q v2 s.
Proof.
  destruct s as [[fd|] pdo h c tm tk]; [destruct fd as [? [m|]]|]; [destruct m as [[] ? ? ?]|..]; destruct pdo.
  all: unfold cq_set, put_cq_desc, put_cq_state; unset; destruct (Q =? 0); unset; by rewrite ?list_insert_insert_eq.
Qed.

Lemma shm_store_eq f s m m' :
  VnvmeShmGetControlBlock s = Some m -> f m = Some m' ->
  shm_store f s = Ok (tt, s <| ks_fdo ::= option_map (fun d => d <| fdo_Shm := Some m' |>) |>).
Proof.
  intros Hm Hf. unfold shm_store, mbind, M_bind, get, of_opt. rewrite Hm. cbn. rewrite Hf. cbn.
  unfold shm_update, fdo_update, modify. do 2 f_equal.
  destruct (shm_state_inv _ _ Hm) as (d & Hd & Hs). destruct s as [fd ? ? ? ? ?]; cbn in *. rewrite Hd.
  unset. rewrite Hs. done.
Qed.

(** The view of a state, taken apart. *)
Lemma cq_view_inv Q s v :
  cq_view Q s = Some v -> exists m, VnvmeShmGetControlBlock s = Some m /\ cq_desc m Q = Some (cv_desc v) /\
    shm_mem m = cv_mem v /\ cb_CompletionsPosted (shm_cb m) = cv_posted v /\
    (if Q =? 0 then Some (pdo_AdminCq (ks_pdo s)) else arr_get (pdo_IoCq (ks_pdo s)) (Q - 1)) = Some (cv_state v).
Proof.
  unfold cq_view. destruct (VnvmeShmGetControlBlock s) as [m|]; [|done]. cbn.
  destruct (cq_desc m Q) as [d|] eqn:Hd; [|done]. cbn.
  destruct (if Q =? 0 then _ else _) as [q|]; [|done]. cbn. intros [= <-]. eauto 8.
Qed.

Lemma cq_desc_update_put Q f m d : cq_desc m Q = Some d -> cq_desc_update Q f m = Some (put_cq_desc Q (f d) m).
Proof.
  unfold cq_desc, cq_desc_update, put_cq_desc. destruct (Q =? 0).
  - intros [= <-]. destruct m as [[] ? ? ?]. by unset.
  - intros H. unfold desc_update. rewrite H. cbn. rewrite arr_set_Some by by eapply arr_get_lt.
    destruct m. by unset.
Qed.

Lemma put_cq_desc_same Q m d : cq_desc m Q = Some d -> put_cq_desc Q d m = m.
Proof.
  unfold cq_desc, put_cq_desc. destruct (Q =? 0).
  - intros [= <-]. destruct m as [[] ? ? ?]. by unset.
  - intros H. pose proof (arr_get_lt _ _ _ H). unfold arr_get in H. rewrite (proj2 (Z.ltb_ge _ _)) in H by lia.
    destruct m. unset. f_equal. by apply list_insert_id.
Qed.

(** Writing the three parts of a view back unchanged is the identity. *)
Lemma cq_set_fdo Q s v d m :
  ks_fdo s = Some d -> fdo_Shm d = Some m ->
  (if Q =? 0 then Some (pdo_AdminCq (ks_pdo s)) else arr_get (pdo_IoCq (ks_pdo s)) (Q - 1)) = Some (cv_state v) ->
  cq_set Q v s = s <| ks_fdo := Some (d <| fdo_Shm := Some (put_cq_desc Q (cv_desc v) (m <| shm_mem := cv_mem v |>
           <| shm_cb ::= fun cb => cb <| cb_CompletionsPosted := cv_posted v |> |>)) |>) |>.
Proof.
  intros Hd Hm Hq. unfold cq_set. destruct s as [fd pdo ? ? ? ?]; cbn in *. rewrite Hd. unset. rewrite Hm. cbn. f_equal.
  unfold put_cq_state. destruct (Q =? 0).
  - injection Hq as <-. destruct pdo. by unset.
  - pose proof (arr_get_lt _ _ _ Hq). unfold arr_get in Hq. rewrite (proj2 (Z.ltb_ge _ _)) in Hq by lia.
    destruct pdo. unset. f_equal. by apply list_insert_id.
Qed.

Lemma shm_eta (m : SharedMemory) b n :
  shm_mem m = b -> cb_CompletionsPosted (shm_cb m) = n ->
  m <| shm_mem := b |> <| shm_cb ::= fun cb => cb <| cb_CompletionsPosted := n |> |> = m.
Proof. intros <- <-. destruct m as [[] ? ? ?]. by unset. Qed.

(** The state with the control structures of its shared memory replaced. *)
Definition with_shm (m : SharedMemory) (s : KState) : KState :=
  s <| ks_fdo ::= option_map (fun d => d <| fdo_Shm := Some m |>) |>.

Lemma with_shm_eq m s d : ks_fdo s = Some d -> s <| ks_fdo := Some (d <| fdo_Shm := Some m |>) |> = with_shm m s.
Proof. unfold with_shm. destruct s; cbn. by intros ->. Qed.

Lemma cq_set_with_shm Q s v m m' :
  VnvmeShmGetControlBlock s = Some m ->
  (if Q =? 0 then Some (pdo_AdminCq (ks_pdo s)) else arr_get (pdo_IoCq (ks_pdo s)) (Q - 1)) = Some (cv_state v) ->
  put_cq_desc Q (cv_desc v) (m <| shm_mem := cv_mem v |> <| shm_cb ::= fun cb => cb <| cb_CompletionsPosted := cv_posted v |> |>) = m' ->
  cq_set Q v s = with_shm m' s.
Proof.
  intros Hm Hq <-. destruct (shm_state_inv _ _ Hm) as (d & Hfd & Hs).
  by rewrite (cq_set_fdo Q s v d m), (with_shm_eq _ _ _ Hfd).
Qed.

Lemma cq_desc_mem Q m b n :
  cq_desc (m <| shm_mem := b |> <| shm_cb ::= fun cb => cb <| cb_CompletionsPosted := n |> |>) Q = cq_desc m Q.
Proof. unfold cq_desc. destruct m as [[] ? ? ?]. by unset. Qed.

(** The primitives of the posting code, as updates of the view. *)
Lemma cq_set_desc Q s v f :
  cq_view Q s = Some v -> shm_store (cq_desc_update Q f) s = Ok (tt, cq_set Q (v <| cv_desc ::= f |>) s).
Proof.
  intros (m & Hm & Hd & Hb & Hn & Hq)%cq_view_inv.
  rewrite (shm_store_eq _ _ _ _ Hm (cq_desc_update_put _ _ _ _ Hd)).
  rewrite (cq_set_with_shm Q s _ m (put_cq_desc Q (f (cv_desc v)) m)); [done|exact Hm|by destruct v|].
  rewrite shm_eta; by destruct v.
Qed.

Lemma cq_set_bytes Q s v f g :
  cq_view Q s = Some v -> (forall m, f m = Some (m <| shm_mem ::= g |>)) ->
  shm_store f s = Ok (tt, cq_set Q (v <| cv_mem ::= g |>) s).
Proof.
  intros (m & Hm & Hd & Hb & Hn & Hq)%cq_view_inv Hok. rewrite (shm_store_eq _ _ _ _ Hm (Hok m)).
  rewrite (cq_set_with_shm Q s _ m (m <| shm_mem ::= g |>)); [done|exact Hm|by destruct v|].
  rewrite put_cq_desc_same by (rewrite cq_desc_mem; by destruct v).
  destruct v, m as [[] ? ? ?]; unset; cbn in *; by subst.
Qed.

Lemma cq_set_mem Q s v off tail c :
  cq_view Q s = Some v -> queue_memory (off + tail * 16) 16 = true ->
  shm_store (write_cqe off tail c) s =
    Ok (tt, cq_set Q (v <| cv_mem ::= fun b => cpl_store b (off + tail * 16) c |>) s).
Proof.
  intros Hv Hok. apply cq_set_bytes; [done|]. intros m. unfold write_cqe. change NVME_CQ_ENTRY_SIZE with 16. by rewrite Hok.
Qed.

Lemma cq_set_posted Q s v f :
  cq_view Q s = Some v ->
  cb_update (fun cb => cb <| cb_CompletionsPosted ::= f |>) s = Ok (tt, cq_set Q (v <| cv_posted ::= f |>) s).
Proof.
  intros (m & Hm & Hd & Hb & Hn & Hq)%cq_view_inv. destruct (shm_state_inv _ _ Hm) as (d & Hfd & Hs).
  rewrite (cq_set_with_shm Q s _ m (m <| shm_cb ::= fun cb => cb <| cb_CompletionsPosted ::= f |> |>)); [|exact Hm|by destruct v|].
  2: { rewrite put_cq_desc_same by (rewrite cq_desc_mem; by destruct v). destruct v, m as [[] ? ? ?]; unset; cbn in *; by subst. }
  unfold cb_update, shm_update, fdo_update, modify, with_shm. do 2 f_equal. destruct s; cbn in *. rewrite Hfd. unset.
  by rewrite Hs.
Qed.

Lemma cq_set_state_eq Q s v v' :
  cq_view Q s = Some v -> cv_mem v' = cv_mem v -> cv_desc v' = cv_desc v -> cv_posted v' = cv_posted v ->
  cq_set Q v' s = s <| ks_pdo ::= put_cq_state Q (cv_state v') |>.
Proof.
  intros (m & Hm & Hd & Hb & Hn & Hq)%cq_view_inv E1 E2 E3. destruct (shm_state_inv _ _ Hm) as (d & Hfd & Hs).
  unfold cq_set. rewrite E1, E2, E3. destruct s as [fd ? ? ? ? ?]; cbn in *. rewrite Hfd. unset. rewrite Hs. cbn.
  rewrite put_cq_desc_same by (rewrite <- Hd; apply cq_desc_mem).
  do 2 f_equal. destruct d, m as [[] ? ? ?]; cbn in *; by subst.
Qed.

Lemma cq_set_state Q s v f :
  cq_view Q s = Some v -> cq_state_update Q f s = Ok (tt, cq_set Q (v <| cv_state ::= f |>) s).
Proof.
  intros Hv. rewrite (cq_set_state_eq Q s v) by (by destruct v).
  destruct (cq_view_inv _ _ _ Hv) as (m & _ & _ & _ & _ & Hq).
  unfold cq_state_update, put_cq_state. destruct (Q =? 0) eqn:E.
  - injection Hq as Hq. unfold pdo_update, modify. do 2 f_equal. destruct s, v; unset. cbn in Hq. by rewrite <- Hq.
  - unfold iocq_update, mbind, M_bind, get, of_opt. cbn. rewrite (upd_nth_insert _ _ _ _ Hq). cbn.
    unfold pdo_update, modify. done.
Qed.

(** ** Posting, as a function of the view *)

Definition post_view (c : NVME_COMPLETION) (v : CqView) : CqView :=
  let d := cv_desc v in
  let phase := qs_PhaseTag (cv_state v) in
  let tail := (qd_Tail d + 1) mod qd_Capacity d in
  let wrapped := tail =? 0 in
  mkCqView (cpl_store (cv_mem v) (qd_Offset d + qd_Tail d * 16) (with_phase c phase))
    ((if wrapped then d <| qd_Phase := if negb phase then 1 else 0 |> else d) <| qd_Tail := tail |>)
    ((if wrapped then (cv_state v) <| qs_PhaseTag := negb phase |> else cv_state v) <| qs_Tail := tail |>)
    (cv_posted v +₆₄ 1).

(** A completion queue that is in use: valid, its tail in range and its slots
    in queue memory. *)
Definition ring_wf (d : VNVME_QUEUE_DESCRIPTOR) (size : Z) : Prop :=
  qd_Valid d <> 0 /\ 0 < qd_Capacity d < 2 ^ 32 - 1 /\
  forall i, 0 <= i < qd_Capacity d -> queue_memory (qd_Offset d + i * size) size = true.

Definition cq_wf (Q : Z) (v : CqView) : Prop :=
  ring_wf (cv_desc v) 16 /\ 0 <= qd_Tail (cv_desc v) < qd_Capacity (cv_desc v) /\
  0 <= cv_posted v < 2 ^ 64 /\ (Q = 0 \/ qs_Created (cv_state v) = true).

(** The identifier is one the functions accept. *)
Definition queue_open (Q : Z) (s : KState) : Prop :=
  Q = 0 \/ (0 < Q <= CONFIG_MAX_IO_QUEUES s /\ is_Some (VnvmeShmGetIoQueueDescriptors s)).

Lemma next_index_ok i cap : 0 <= i < cap -> cap < 2 ^ 32 - 1 -> next_index i cap = Some ((i + 1) mod cap).
Proof. intros. unfold next_index. destruct (Z.eqb_spec cap 0); [lia|]. by rewrite u32_small by lia. Qed.

Lemma check_io_queue_ok Q s queues q :
  queue_open Q s -> (Q = 0 \/ (arr_get queues (Q - 1) = Some q /\ qs_Created q = true)) ->
  check_io_queue s Q queues s = Ok (None, s).
Proof.
  unfold check_io_queue. intros [->|[HQ [l Hl]]]; [done|]. intros [->|[Hq Hc]]; [lia|].
  destruct (Z.eqb_spec Q 0); [lia|]. rewrite (proj2 (Z.ltb_ge _ _)) by lia.
  rewrite Hq. unfold mbind, M_bind, of_opt. cbn. by rewrite Hc, Hl.
Qed.

Lemma queue_open_set Q v s : queue_open Q (cq_set Q v s) <-> queue_open Q s.
Proof.
  unfold queue_open. enough (is_Some (VnvmeShmGetIoQueueDescriptors (cq_set Q v s)) <->
    is_Some (VnvmeShmGetIoQueueDescriptors s)) as -> by (by destruct s).
  unfold VnvmeShmGetIoQueueDescriptors, VnvmeShmGetControlBlock, cq_set.
  destruct s as [[fd|] pdo ? ? ? ?]; cbn; [|done]. destruct fd as [? [m|]]; unset; [|done].
  destruct m as [[] ? ? ?]; unfold put_cq_desc; destruct (Q =? 0); unset; destruct (_ =? 0); split; intros [? ?]; eauto; done.
Qed.

Lemma cq_phase_view Q s v : cq_view Q s = Some v -> cq_phase (ks_pdo s) Q = Some (qs_PhaseTag (cv_state v)).
Proof.
  intros (m & _ & _ & _ & _ & Hq)%cq_view_inv. unfold cq_phase.
  destruct (Q =? 0); [by injection Hq as <- | by rewrite Hq].
Qed.

Lemma cq_wf_open Q s v : cq_view Q s = Some v -> cq_wf Q v -> queue_open Q s ->
  check_io_queue s Q (pdo_IoCq (ks_pdo s)) s = Ok (None, s).
Proof.
  intros Hv Hwf Ho. eapply check_io_queue_ok with (q := cv_state v); [done|].
  destruct Hwf as (_ & _ & _ & Hc), (cq_view_inv _ _ _ Hv) as (m & _ & _ & _ & _ & Hq).
  destruct (Z.eqb_spec Q 0); [by left|]. right. split; [done|]. by destruct Hc.
Qed.

(** A post to a queue in use succeeds, and does to its view what [post_view] says. *)
Lemma VnvmePostCompletion_view Q c s v :
  cq_view Q s = Some v -> cq_wf Q v -> queue_open Q s ->
  VnvmePostCompletion Q c s = Ok (STATUS_SUCCESS, cq_set Q (post_view c v) s).
Proof.
  intros Hv Hwf Ho. pose proof Hwf as ((Hvalid & Hcap & Hmem) & Ht & _). unfold VnvmePostCompletion.
  destruct (cq_view_inv _ _ _ Hv) as (m & Hm & Hd & _).
  rewrite (bind_Ok _ _ s s s) by done. cbv beta. rewrite Hm.
  rewrite (bind_Ok _ _ s None s) by (by eapply cq_wf_open). cbv beta iota.
  rewrite (bind_Ok _ _ s (cv_desc v) s) by (by rewrite Hd). cbv beta.
  rewrite (bind_Ok _ _ s (qs_PhaseTag (cv_state v)) s) by (by rewrite (cq_phase_view _ _ _ Hv)). cbv beta.
  rewrite (proj2 (Z.eqb_neq _ _)) by done.
  rewrite (bind_Ok _ _ _ _ _ (cq_set_mem Q s v _ _ (with_phase c (qs_PhaseTag (cv_state v))) Hv (Hmem _ Ht))). cbv beta.
  set (v1 := v <| cv_mem ::= _ |>). assert (Hv1 := cq_view_set Q v v1 s Hv).
  rewrite (bind_Ok _ _ _ ((qd_Tail (cv_desc v) + 1) mod qd_Capacity (cv_desc v)) (cq_set Q v1 s)) by (by rewrite next_index_ok by lia). cbv beta.
  set (tail := _ mod _). set (ph := qs_PhaseTag (cv_state v)).
  set (v2 := if tail =? 0 then v1 <| cv_desc ::= fun d => d <| qd_Phase := if negb ph then 1 else 0 |> |>
                             <| cv_state ::= fun q => q <| qs_PhaseTag := negb ph |> |> else v1).
  rewrite (bind_Ok _ _ _ tt (cq_set Q v2 s)).
  2: { unfold v2. destruct (tail =? 0); [|done]. cbv zeta.
       rewrite (bind_Ok _ _ _ _ _ (cq_set_desc Q _ _ _ Hv1)). cbv beta.
       rewrite cq_set_set, (cq_set_state Q _ _ _ (cq_view_set Q v _ s Hv)), cq_set_set. done. }
  cbv beta. rewrite (bind_Ok _ _ _ _ _ (cq_set_desc Q _ _ _ (cq_view_set Q v v2 s Hv))), cq_set_set. cbv beta.
  rewrite (bind_Ok _ _ _ _ _ (cq_set_state Q _ _ _ (cq_view_set Q v _ s Hv))), cq_set_set. cbv beta.
  rewrite (bind_Ok _ _ _ _ _ (cq_set_posted Q _ _ _ (cq_view_set Q v _ s Hv))), cq_set_set. cbv beta.
  unfold mret, M_ret. do 3 f_equal. unfold post_view, v2, v1. fold tail ph. destruct v; unset. destruct (tail =? 0); done.
Qed.

Lemma post_view_wf Q c v : cq_wf Q v -> cq_wf Q (post_view c v).
Proof.
  intros ((Hvalid & Hcap & Hmem) & Ht & Hn & Hc). unfold cq_wf, post_view, ring_wf; cbn [cv_desc cv_state cv_posted].
  assert (0 <= (qd_Tail (cv_desc v) + 1) mod qd_Capacity (cv_desc v) < qd_Capacity (cv_desc v)) by (apply Z.mod_pos_bound; lia).
  split; [|split; [|split]].
  - destruct (_ =? 0), v as [b [] q n]; unset; done.
  - destruct (_ =? 0), v as [b [] q n]; unset; done.
  - apply u64_range.
  - destruct Hc as [->|Hc]; [by left|right]. destruct (_ =? 0), v as [b d [] n]; unset; done.
Qed.

(** A queue a completion can be sent to without harm: when it is in use, its
    ring is well formed.  A post then always comes back; it leaves the state
    alone or is a [post_view]. *)
Record post_ok (Q : Z) (s : KState) : Prop := {
  po_array : Q = 0 \/ CONFIG_MAX_IO_QUEUES s < Q \/ is_Some (arr_get (pdo_IoCq (ks_pdo s)) (Q - 1));
  po_desc m : Q = 0 \/ CONFIG_MAX_IO_QUEUES s < Q \/ (VnvmeShmGetControlBlock s = Some m -> is_Some (cq_desc m Q));
  po_wf v : cq_view Q s = Some v ->
    qd_Valid (cv_desc v) = 0 \/ (Q <> 0 /\ qs_Created (cv_state v) = false) \/ cq_wf Q v
}.

Definition posted (Q : Z) (c : NVME_COMPLETION) (s s' : KState) : Prop :=
  s' = s \/ exists v, cq_view Q s = Some v /\ cq_wf Q v /\ s' = cq_set Q (post_view c v) s.

Lemma cq_view_some Q s m d q :
  VnvmeShmGetControlBlock s = Some m -> cq_desc m Q = Some d ->
  (if Q =? 0 then Some (pdo_AdminCq (ks_pdo s)) else arr_get (pdo_IoCq (ks_pdo s)) (Q - 1)) = Some q ->
  cq_view Q s = Some (mkCqView (shm_mem m) d q (cb_CompletionsPosted (shm_cb m))).
Proof. intros Hm Hd Hq. unfold cq_view. rewrite Hm. cbn. rewrite Hd. cbn. by rewrite Hq. Qed.

(** A post to a queue whose descriptor is not valid. *)
Lemma VnvmePostCompletion_invalid Q c s v :
  cq_view Q s = Some v -> qd_Valid (cv_desc v) = 0 -> check_io_queue s Q (pdo_IoCq (ks_pdo s)) s = Ok (None, s) ->
  VnvmePostCompletion Q c s = Ok (STATUS_INVALID_DEVICE_STATE, s).
Proof.
  intros Hv H0 Hc. destruct (cq_view_inv _ _ _ Hv) as (m & Hm & Hd & _). unfold VnvmePostCompletion.
  rewrite (bind_Ok _ _ s s s) by done. cbv beta. rewrite Hm, (bind_Ok _ _ _ _ _ Hc). cbv beta iota.
  rewrite (bind_Ok _ _ s (cv_desc v) s) by (by rewrite Hd). cbv beta.
  rewrite (bind_Ok _ _ s (qs_PhaseTag (cv_state v)) s) by (by rewrite (cq_phase_view _ _ _ Hv)). cbv beta. by rewrite H0.
Qed.

Lemma post_ok_set Q c s v : post_ok Q s -> cq_view Q s = Some v -> cq_wf Q v -> post_ok Q (cq_set Q (post_view c v) s).
Proof.
  intros [Ha Hd Hw] Hv Hwf. pose proof (cq_view_set Q v (post_view c v) s Hv) as Hv'. split.
  - destruct (Z.eqb_spec Q 0) as [->|H0]; [by left|]. destruct Ha as [?|[?|?]]; [done|right; left; by destruct s|].
    destruct (cq_view_inv _ _ _ Hv') as (m' & _ & _ & _ & _ & Hq). rewrite (proj2 (Z.eqb_neq _ _)) in Hq by done. eauto.
  - intros m. destruct (cq_view_inv _ _ _ Hv') as (m' & Hm' & Hd' & _). right. right. rewrite Hm'. intros [= <-]. eauto.
  - rewrite Hv'. intros ? [= <-]. right. right. by apply post_view_wf.
Qed.

Lemma VnvmePostCompletion_total Q c s :
  post_ok Q s -> exists st s', VnvmePostCompletion Q c s = Ok (st, s') /\ posted Q c s s' /\ post_ok Q s'.
Proof.
  intros Hok. assert (Hsame : forall st, VnvmePostCompletion Q c s = Ok (st, s) ->
    exists st s', VnvmePostCompletion Q c s = Ok (st, s') /\ posted Q c s s' /\ post_ok Q s') by (intros st Hst; exists st, s; by split_and!; [|left|]).
  destruct (VnvmeShmGetControlBlock s) as [m|] eqn:Hm.
  2: { eapply (Hsame STATUS_DEVICE_NOT_READY). unfold VnvmePostCompletion, mbind, M_bind, get. by rewrite Hm. }
  assert (Hin : forall v, cq_view Q s = Some v -> check_io_queue s Q (pdo_IoCq (ks_pdo s)) s = Ok (None, s) ->
    qd_Valid (cv_desc v) = 0 \/ (cq_wf Q v /\ queue_open Q s) ->
    exists st s', VnvmePostCompletion Q c s = Ok (st, s') /\ posted Q c s s' /\ post_ok Q s').
  { intros v Hv Hc [H0|[Hwf Ho]]; [eapply Hsame; by apply (VnvmePostCompletion_invalid Q c s v)|].
    eexists _, _. split; [by apply VnvmePostCompletion_view|]. split; [right; by exists v | by apply post_ok_set]. }
  pose proof Hok as [Ha Hd Hw]. destruct (Z.eqb_spec Q 0) as [->|H0].
  { pose proof (cq_view_some 0 s m _ _ Hm eq_refl eq_refl) as Hv. apply (Hin _ Hv); [done|].
    destruct (Hw _ Hv) as [?|[[? ?]|?]]; [by left|done|right; split; [done | by left]]. }
  destruct (CONFIG_MAX_IO_QUEUES s <? Q) eqn:Hcfg.
  { apply (Hsame STATUS_INVALID_PARAMETER). unfold VnvmePostCompletion, check_io_queue, mbind, M_bind, get.
    by rewrite Hm, (proj2 (Z.eqb_neq _ _)), Hcfg by done. }
  apply Z.ltb_ge in Hcfg. destruct Ha as [?|[?|[q Hq]]]; [done|lia|].
  assert (check_io_queue s Q (pdo_IoCq (ks_pdo s)) s = Ok (if negb (qs_Created q) then Some STATUS_INVALID_PARAMETER else
    match VnvmeShmGetIoQueueDescriptors s with None => Some STATUS_DEVICE_NOT_READY | Some _ => None end, s)) as Hc.
  { unfold check_io_queue, mbind, M_bind, of_opt. rewrite (proj2 (Z.eqb_neq _ _)), (proj2 (Z.ltb_ge _ _)), Hq by lia.
    by destruct (negb _), (VnvmeShmGetIoQueueDescriptors s). }
  assert (Hfail : forall e, check_io_queue s Q (pdo_IoCq (ks_pdo s)) s = Ok (Some e, s) -> VnvmePostCompletion Q c s = Ok (e, s)).
  { intros e He. unfold VnvmePostCompletion. rewrite (bind_Ok _ _ s s s) by done. cbv beta. by rewrite Hm, (bind_Ok _ _ _ _ _ He). }
  destruct (qs_Created q) eqn:Hcr; cbn [negb] in Hc; [|eapply Hsame, Hfail, Hc].
  destruct (VnvmeShmGetIoQueueDescriptors s) as [l|] eqn:Hio; [|eapply Hsame, Hfail, Hc].
  destruct (Hd m) as [?|[?|[d Hds]]]; [done|lia|done|].
  pose proof (cq_view_some Q s m d q Hm Hds) as Hv. rewrite (proj2 (Z.eqb_neq _ _)) in Hv by done. specialize (Hv Hq).
  apply (Hin _ Hv Hc). destruct (Hw _ Hv) as [?|[[_ Hcf]|?]]; [by left| |right; split; [done|]].
  - cbn in Hcf. congruence.
  - right. rewrite Hio. pose proof (arr_get_lt _ _ _ Hq). split; [lia | eauto].
Qed.

(** Posting one completion after the other. *)
Fixpoint post_all (Q : Z) (cs : list NVME_COMPLETION) : M KState NTSTATUS :=
  match cs with
  | [] => mret STATUS_SUCCESS
  | c :: cs =>
      st ← VnvmePostCompletion Q c;
      if NT_SUCCESS st then post_all Q cs else mret st
  end.

Definition post_views (cs : list NVME_COMPLETION) (v : CqView) : CqView := fold_left (fun v c => post_view c v) cs v.

Lemma cq_set_view Q v s : cq_view Q s = Some v -> cq_set Q v s = s.
Proof.
  intros Hv. destruct (cq_view_inv _ _ _ Hv) as (m & Hm & Hd & Hb & Hn & Hq). destruct (shm_state_inv _ _ Hm) as (d & Hfd & Hs).
  rewrite (cq_set_with_shm Q s v m m Hm Hq) by (by rewrite shm_eta, put_cq_desc_same).
  unfold with_shm. destruct s as [fd ? ? ? ? ?]; cbn in *. rewrite Hfd. unset. destruct d; cbn in *. by subst.
Qed.

Lemma post_all_view Q cs s v :
  cq_view Q s = Some v -> cq_wf Q v -> queue_open Q s ->
  post_all Q cs s = Ok (STATUS_SUCCESS, cq_set Q (post_views cs v) s).
Proof.
  revert s v; induction cs as [|c cs IH]; intros s v Hv Hwf Ho; cbn [post_all post_views fold_left].
  { by rewrite (cq_set_view _ _ _ Hv). }
  rewrite (bind_Ok _ _ _ _ _ (VnvmePostCompletion_view Q c s v Hv Hwf Ho)). cbv beta. cbn [NT_SUCCESS].
  rewrite (IH _ (post_view c v)); [by rewrite cq_set_set | by eapply cq_view_set | by apply post_view_wf | by apply queue_open_set].
Qed.

(** The batch keeps the tail and the phase in local variables and writes them
    back once: its view lags behind, by exactly the fields [settle] sets. *)
Definition settle (tail qtail : Z) (phase : bool) (posted : Z) (v : CqView) : CqView :=
  v <| cv_desc ::= fun d => d <| qd_Tail := tail |> |>
    <| cv_state ::= fun q => q <| qs_Tail := qtail |> <| qs_PhaseTag := phase |> |>
    <| cv_posted := posted |>.

Definition batch_step (c : NVME_COMPLETION) (tail : Z) (phase : bool) (v : CqView) : CqView :=
  let d := cv_desc v in
  mkCqView (cpl_store (cv_mem v) (qd_Offset d + tail * 16) (with_phase c phase))
    (if (tail + 1) mod qd_Capacity d =? 0 then d <| qd_Phase := if negb phase then 1 else 0 |> else d)
    (cv_state v) (cv_posted v).

Lemma post_view_settle c v tail qtail phase n :
  post_view c (settle tail qtail phase n v) =
    let tail' := (tail + 1) mod qd_Capacity (cv_desc v) in
    settle tail' tail' (if tail' =? 0 then negb phase else phase) (n +₆₄ 1) (batch_step c tail phase v).
Proof.
  unfold post_view, settle, batch_step. destruct v as [b [] [] k]; unset. destruct (_ =? 0); done.
Qed.

Lemma batch_step_ring c tail phase v :
  qd_Offset (cv_desc (batch_step c tail phase v)) = qd_Offset (cv_desc v) /\
  qd_Capacity (cv_desc (batch_step c tail phase v)) = qd_Capacity (cv_desc v) /\
  (ring_wf (cv_desc v) 16 -> ring_wf (cv_desc (batch_step c tail phase v)) 16).
Proof. unfold batch_step, ring_wf; cbn. by destruct (_ =? 0), v as [? [] ? ?]. Qed.

Lemma post_loop_view Q d0 cs : forall tail phase s v qtail n,
  cq_view Q s = Some v -> 0 <= n < 2 ^ 64 ->
  qd_Offset d0 = qd_Offset (cv_desc v) -> qd_Capacity d0 = qd_Capacity (cv_desc v) ->
  ring_wf (cv_desc v) 16 -> 0 <= tail < qd_Capacity (cv_desc v) ->
  exists tail' phase' v', post_loop Q d0 cs tail phase s = Ok ((tail', phase'), cq_set Q v' s) /\ cv_posted v' = cv_posted v /\
    post_views cs (settle tail qtail phase n v) =
      settle tail' (match cs with [] => qtail | _ => tail' end) phase' (n +₆₄ Z.of_nat (length cs)) v'.
Proof.
  induction cs as [|c cs IH]; intros tail phase s v qtail n Hv Hn Ho Hc Hwf Ht; cbn [post_loop].
  { exists tail, phase, v. split; [by rewrite (cq_set_view _ _ _ Hv)|]. split; [done|]. simpl. by rewrite Z.add_0_r, u64_small. }
  pose proof Hwf as (Hvalid & Hcap & Hmem). rewrite Ho, Hc.
  rewrite (bind_Ok _ _ _ _ _ (cq_set_mem Q s v _ _ _ Hv (Hmem _ Ht))). cbv beta.
  set (tail' := (tail + 1) mod qd_Capacity (cv_desc v)). set (phase' := if tail' =? 0 then negb phase else phase).
  rewrite (bind_Ok _ _ _ tail' (cq_set Q (v <| cv_mem ::= fun b => cpl_store b (qd_Offset (cv_desc v) + tail * 16) (with_phase c phase) |>) s))
    by (by rewrite next_index_ok by lia). cbv beta.
  set (v1 := batch_step c tail phase v).
  destruct (batch_step_ring c tail phase v) as (Ho1 & Hc1 & Hw1).
  destruct (IH tail' phase' (cq_set Q v1 s) v1 tail' (n +₆₄ 1)) as (t2 & p2 & v2 & Hloop & Hpost & Hviews).
  { by eapply cq_view_set. } { apply u64_range. }
  { unfold v1. congruence. } { unfold v1. congruence. } { by apply Hw1. }
  { unfold v1. rewrite Hc1. apply Z.mod_pos_bound. lia. }
  exists t2, p2, v2. rewrite cq_set_set in Hloop. split; [|split; [done|]].
  - rewrite <- Hloop. unfold phase', v1, batch_step. fold tail'. destruct (tail' =? 0).
    + rewrite (bind_Ok _ _ _ _ _ (cq_set_desc Q _ _ _ (cq_view_set Q v _ s Hv))). cbv beta. rewrite cq_set_set.
      f_equal; by destruct v.
    + f_equal; by destruct v.
  - cbn [post_views fold_left]. rewrite post_view_settle. cbv zeta. fold tail'. change (if tail' =? 0 then negb phase else phase) with phase'.
    fold v1. unfold post_views in Hviews. rewrite Hviews.
    replace (match cs with [] => tail' | _ => t2 end) with t2 by (destruct cs; [by injection Hloop | done]). f_equal.
    cbn [length]. unfold u64. rewrite Zplus_mod_idemp_l. f_equal. lia.
Qed.

Lemma settle_view v : settle (qd_Tail (cv_desc v)) (qs_Tail (cv_state v)) (qs_PhaseTag (cv_state v)) (cv_posted v) v = v.
Proof. by destruct v as [? [] [] ?]. Qed.

Lemma VnvmePostCompletionBatch_view Q cs s v m :
  cq_view Q s = Some v -> cq_wf Q v -> VnvmeShmGetControlBlock s = Some m -> batch_check s m Q = true -> cs <> [] ->
  VnvmePostCompletionBatch Q cs s = Ok (STATUS_SUCCESS, cq_set Q (post_views cs v) s).
Proof.
  intros Hv (Hwf & Ht & Hn & _) Hm Hb Hne. unfold VnvmePostCompletionBatch. destruct cs as [|c cs]; [done|]. set (l := c :: cs).
  destruct (cq_view_inv _ _ _ Hv) as (m' & Hm' & Hd & _). rewrite Hm in Hm'. injection Hm' as <-.
  destruct (post_loop_view Q (cv_desc v) l (qd_Tail (cv_desc v)) (qs_PhaseTag (cv_state v)) s v (qs_Tail (cv_state v)) (cv_posted v))
    as (t & p & v' & Hloop & Hp & Hviews); [done..|]. rewrite settle_view in Hviews.
  rewrite (bind_Ok _ _ s s s) by done. cbv beta. rewrite Hm, Hb. cbn [negb].
  rewrite (bind_Ok _ _ s (cv_desc v) s) by (by rewrite Hd). cbv beta.
  rewrite (bind_Ok _ _ s (qs_PhaseTag (cv_state v)) s) by (by rewrite (cq_phase_view _ _ _ Hv)). cbv beta.
  rewrite (bind_Ok _ _ _ _ _ Hloop). cbv beta. cbn [fst snd].
  rewrite (bind_Ok _ _ _ _ _ (cq_set_desc Q _ _ _ (cq_view_set Q v v' s Hv))), cq_set_set. cbv beta.
  rewrite (bind_Ok _ _ _ _ _ (cq_set_state Q _ _ _ (cq_view_set Q v _ s Hv))), cq_set_set. cbv beta.
  rewrite (bind_Ok _ _ _ _ _ (cq_set_posted Q _ _ _ (cq_view_set Q v _ s Hv))), cq_set_set. cbv beta.
  unfold mret, M_ret. rewrite Hviews. do 3 f_equal. unfold settle. rewrite <- Hp. by destruct v'.
Qed.

(** C20: a batch of completions on a queue in use.  If the batch's own check lets
    the queue pass (the admin queue; an I/O queue whose identifier is within the
    shared memory's IoQueueCount) the batch is posting them one at a time: both
    succeed and leave the very same state, with the same bytes in the ring, the
    same tail, phase and counters, however often the ring wraps.  If it does
    not, single posts still succeed, but a batch that is not empty is refused
    with STATUS_INVALID_PARAMETER and changes nothing. *)
Theorem VnvmePostCompletionBatch_equiv (Q : Z) (cs : list NVME_COMPLETION) (s : KState) (m : SharedMemory) (v : CqView) :
  VnvmeShmGetControlBlock s = Some m -> cq_view Q s = Some v -> cq_wf Q v -> queue_open Q s ->
  exists s', post_all Q cs s = Ok (STATUS_SUCCESS, s') /\
    VnvmePostCompletionBatch Q cs s =
      if batch_check s m Q || bool_decide (cs = []) then Ok (STATUS_SUCCESS, s') else Ok (STATUS_INVALID_PARAMETER, s).
Proof.
  intros Hm Hv Hwf Ho. exists (cq_set Q (post_views cs v) s). split; [by apply post_all_view|].
  destruct cs as [|c cs]; [rewrite orb_true_r; cbn; by rewrite (cq_set_view _ _ _ Hv)|].
  destruct (batch_check s m Q) eqn:Hb; cbn [orb]; [by eapply VnvmePostCompletionBatch_view|].
  unfold VnvmePostCompletionBatch. rewrite bind_get, Hm, Hb. done.
Qed.

(** ** The phase tag protocol *)

(** The phase of the [n]-th pass over a ring, from pass 0. *)
Definition pass_phase (n : Z) : bool := Z.even n.

(** What the view is after [n] posts to an empty queue in phase 1. *)
Record posted_state (cap : Z) (cs : list NVME_COMPLETION) (v0 v : CqView) : Prop := {
  ps_capacity : qd_Capacity (cv_desc v) = cap;
  ps_offset : qd_Offset (cv_desc v) = qd_Offset (cv_desc v0);
  ps_tail : qd_Tail (cv_desc v) = Z.of_nat (length cs) mod cap;
  ps_synced : qs_Tail (cv_state v) = qd_Tail (cv_desc v) \/ cs = [];
  ps_phase : qs_PhaseTag (cv_state v) = pass_phase (Z.of_nat (length cs) / cap);
  ps_entry : forall k c, 0 <= k -> Z.of_nat (length cs) - cap <= k -> cs !! Z.to_nat k = Some c ->
    cpl_load (cv_mem v) (qd_Offset (cv_desc v) + (k mod cap) * 16) = with_phase c (pass_phase (k / cap));
  ps_fresh : forall i, Z.of_nat (length cs) <= i < cap ->
    cpl_load (cv_mem v) (qd_Offset (cv_desc v) + i * 16) = cpl_load (cv_mem v0) (qd_Offset (cv_desc v0) + i * 16)
}.

Lemma succ_div_mod n cap :
  0 < cap -> 0 <= n ->
  (n mod cap + 1) mod cap = (n + 1) mod cap /\
  (if (n mod cap + 1) mod cap =? 0 then negb (pass_phase (n / cap)) else pass_phase (n / cap)) = pass_phase ((n + 1) / cap).
Proof.
  intros Hc Hn. assert ((n mod cap + 1) mod cap = (n + 1) mod cap) as E by (by rewrite Zplus_mod_idemp_l).
  split; [done|]. rewrite E. unfold pass_phase.
  pose proof (Z.div_mod n cap ltac:(lia)). pose proof (Z.mod_pos_bound n cap Hc).
  destruct (Z.eq_dec (n mod cap) (cap - 1)) as [Hw|Hw].
  - assert ((n + 1) / cap = n / cap + 1) as -> by (symmetry; apply (Z.div_unique_pos _ _ _ 0); lia).
    assert ((n + 1) mod cap = 0) as -> by (symmetry; apply (Z.mod_unique_pos _ _ (n / cap + 1)); lia).
    change (n / cap + 1) with (Z.succ (n / cap)). rewrite Z.even_succ, <- Z.negb_even. done.
  - assert ((n + 1) / cap = n / cap) as -> by (symmetry; apply (Z.div_unique_pos _ _ _ (n mod cap + 1)); lia).
    assert ((n + 1) mod cap = n mod cap + 1) as -> by (symmetry; apply (Z.mod_unique_pos _ _ (n / cap)); lia).
    rewrite (proj2 (Z.eqb_neq _ _)) by lia. done.
Qed.

Lemma with_phase_wf c ph : cpl_wf c -> cpl_wf (with_phase c ph).
Proof.
  intros (?&?&?&?&?&?). unfold cpl_wf, with_phase. destruct c as [? ? ? ? ? st]; unset. repeat (split; [done|]).
  change 0xFFFE with (Z.shiftl (Z.ones 15) 1). rewrite land_field by done.
  pose proof (bits_range st 1 15 ltac:(done)).
  rewrite Z.lor_comm, lor_shiftl_add by (destruct ph; lia). destruct ph; lia.
Qed.

(** The phase bit of a completion as written, for the pass before [n]. *)
Lemma with_phase_bit c n :
  NVME_STATUS_P (cpl_Status (with_phase c (pass_phase (n - 1)))) = if pass_phase n then 0 else 1.
Proof.
  unfold NVME_STATUS_P, with_phase, pass_phase. destruct c as [? ? ? ? ? st]; unset.
  rewrite Z.land_lor_distr_l, <- Z.land_assoc. change (Z.land 0xFFFE 1) with 0. rewrite Z.land_0_r, Z.lor_0_l.
  change (n - 1) with (Z.pred n). rewrite Z.even_pred, <- Z.negb_even. by destruct (Z.even n).
Qed.

Lemma posted_state_init cap v0 :
  0 < cap -> qd_Capacity (cv_desc v0) = cap -> qd_Tail (cv_desc v0) = 0 -> qs_PhaseTag (cv_state v0) = true ->
  posted_state cap [] v0 v0.
Proof. intros. split; try done. by right. Qed.

(** One more post. *)
Lemma posted_state_snoc cap cs c v0 v :
  0 < cap -> cpl_wf c -> posted_state cap cs v0 v -> posted_state cap (cs ++ [c]) v0 (post_view c v).
Proof.
  intros Hcap Hc [Hca Hof Hta Hsy Hph Hen Hfr]. set (n := Z.of_nat (length cs)) in *.
  assert (Z.of_nat (length (cs ++ [c])) = n + 1) as Hlen by (rewrite length_app; simpl; lia).
  destruct (succ_div_mod n cap Hcap ltac:(lia)) as [Hs Hp].
  assert (cv_mem (post_view c v) = cpl_store (cv_mem v) (qd_Offset (cv_desc v) + n mod cap * 16) (with_phase c (pass_phase (n / cap))) /\
    qd_Capacity (cv_desc (post_view c v)) = cap /\ qd_Offset (cv_desc (post_view c v)) = qd_Offset (cv_desc v) /\
    qd_Tail (cv_desc (post_view c v)) = (n + 1) mod cap /\ qs_Tail (cv_state (post_view c v)) = (n + 1) mod cap /\
    qs_PhaseTag (cv_state (post_view c v)) = pass_phase ((n + 1) / cap)) as (Em & Ec & Eo & Et & Eq & Ep).
  { rewrite <- Hp, <- Hs. unfold post_view; cbn. rewrite Hta, Hca, Hph. destruct (_ =? 0), v as [? [] [] ?]; unset; cbn in *; by subst. }
  split; rewrite ?Hlen; try done.
  - congruence.
  - left. congruence.
  - intros k c' Hk Hlo Hget. rewrite Em, Eo. assert (k < n + 1) as Hhi.
    { apply lookup_lt_Some in Hget. rewrite length_app in Hget. simpl in Hget. lia. }
    destruct (Z.eq_dec k n) as [->|Hne].
    + rewrite lookup_app_r in Hget by lia. replace (Z.to_nat n - length cs)%nat with 0%nat in Hget by lia.
      injection Hget as <-. apply cpl_load_store. by apply with_phase_wf.
    + rewrite lookup_app_l in Hget by lia. rewrite cpl_load_store_other; [apply Hen; [lia | lia | done]|].
      pose proof (ring_slots_differ cap k n ltac:(lia)). lia.
  - intros i Hi. rewrite Em, Eo, cpl_load_store_other; [apply Hfr; lia|].
    rewrite (Z.mod_small n) by lia. lia.
Qed.

Lemma posted_state_all cap cs v0 v :
  0 < cap -> Forall cpl_wf cs -> forall done, posted_state cap done v0 v -> posted_state cap (done ++ cs) v0 (post_views cs v).
Proof.
  intros Hcap. revert v. induction cs as [|c cs IH]; intros v Hf l Hst; [by rewrite app_nil_r|].
  inversion Hf; subst. cbn [post_views fold_left]. change (c :: cs) with ([c] ++ cs). rewrite app_assoc.
  apply IH; [done|]. by apply posted_state_snoc.
Qed.

(** C5: the phase tag protocol. After posting the completions [cs], one by one, to
    an empty completion queue in phase 1, the tail is [length cs] modulo the
    capacity, the k-th completion of the last [capacity] ones is in slot
    [k mod capacity] with the phase of its pass over the ring (1, 0, 1, ...),
    slots not reached yet are untouched, and the slot the next completion goes
    to carries the opposite of the current phase if the ring has been filled
    once: so a host that polls the phase bit sees each completion exactly when
    it has been posted. *)
Theorem VnvmePostCompletion_phase_protocol (Q cap : Z) (cs : list NVME_COMPLETION) (s : KState) (v : CqView) :
  cq_view Q s = Some v -> cq_wf Q v -> queue_open Q s -> Forall cpl_wf cs ->
  qd_Capacity (cv_desc v) = cap -> qd_Tail (cv_desc v) = 0 -> qs_PhaseTag (cv_state v) = true ->
  exists s' v', post_all Q cs s = Ok (STATUS_SUCCESS, s') /\ cq_view Q s' = Some v' /\ posted_state cap cs v v' /\
    (cap <= Z.of_nat (length cs) ->
      NVME_STATUS_P (cpl_Status (cpl_load (cv_mem v') (qd_Offset (cv_desc v') + qd_Tail (cv_desc v') * 16))) =
        if qs_PhaseTag (cv_state v') then 0 else 1).
Proof.
  intros Hv Hwf Ho Hf Hcap Ht Hp. pose proof Hwf as ((_ & Hc & _) & _).
  exists (cq_set Q (post_views cs v) s), (post_views cs v). split; [by apply post_all_view|].
  split; [by eapply cq_view_set|].
  assert (posted_state cap cs v (post_views cs v)) as Hst.
  { apply (posted_state_all cap cs v v ltac:(lia) Hf []). apply posted_state_init; try done; lia. }
  split; [done|]. intros Hn. destruct Hst as [_ _ Hta _ Hph Hen _]. set (n := Z.of_nat (length cs)) in *.
  destruct (cs !! Z.to_nat (n - cap)) as [c|] eqn:Hget; [|apply lookup_ge_None in Hget; lia].
  assert ((n - cap) mod cap = n mod cap) as Em by (replace (n - cap) with (n + (-1) * cap) by lia; by rewrite Z.mod_add by lia).
  assert ((n - cap) / cap = n / cap - 1) as Ed by (replace (n - cap) with (n + (-1) * cap) by lia; by rewrite Z.div_add by lia).
  rewrite Hta, <- Em, (Hen (n - cap) c), Hph, Ed by (done || lia). apply with_phase_bit.
Qed.

(** ** A submission queue as a FIFO *)

(** The commands between head and tail, oldest first. *)
Definition sq_pending (b : mem) (d : VNVME_QUEUE_DESCRIPTOR) : list NVME_COMMAND :=
  (fun i => cmd_load b (qd_Offset d + i * 64)) <$> ring_indices (qd_Head d) (qd_Tail d) (qd_Capacity d).

Definition sq_contents (Q : Z) (s : KState) : option (list NVME_COMMAND) :=
  m ← VnvmeShmGetControlBlock s; d ← sq_desc m Q; Some (sq_pending (shm_mem m) d).

Lemma sq_contents_eq Q s m d :
  VnvmeShmGetControlBlock s = Some m -> sq_desc m Q = Some d -> sq_contents Q s = Some (sq_pending (shm_mem m) d).
Proof. unfold sq_contents. intros ->. cbn. by intros ->. Qed.

Definition sq_desc_wf (d : VNVME_QUEUE_DESCRIPTOR) : Prop :=
  ring_wf d 64 /\ 0 <= qd_Head d < qd_Capacity d /\ 0 <= qd_Tail d < qd_Capacity d.

(** A submission queue in use. *)
Definition sq_ready (Q : Z) (s : KState) : Prop :=
  queue_open Q s /\
  (exists m d, VnvmeShmGetControlBlock s = Some m /\ sq_desc m Q = Some d /\ sq_desc_wf d) /\
  (Q = 0 \/ exists q, arr_get (pdo_IoSq (ks_pdo s)) (Q - 1) = Some q /\ qs_Created q = true).

Definition with_head (h : Z) (d : VNVME_QUEUE_DESCRIPTOR) : VNVME_QUEUE_DESCRIPTOR := d <| qd_Head := h |>.

Lemma with_head_wf h d : 0 <= h < qd_Capacity d -> sq_desc_wf d -> sq_desc_wf (with_head h d).
Proof. unfold sq_desc_wf, ring_wf, with_head. destruct d; unset. intros ? (? & ? & ?). done. Qed.

Lemma sq_pending_empty b d : sq_desc_wf d -> qd_Head d = qd_Tail d -> sq_pending b d = [].
Proof. intros ((_ & ? & _) & ? & ?) E. unfold sq_pending. by rewrite <- E, ring_indices_empty by lia. Qed.

Lemma sq_pending_cons b d :
  sq_desc_wf d -> qd_Head d <> qd_Tail d ->
  sq_pending b d = cmd_load b (qd_Offset d + qd_Head d * 64) :: sq_pending b (with_head ((qd_Head d + 1) mod qd_Capacity d) d).
Proof.
  intros ((_ & Hcap & _) & Hh & Ht) Hne. unfold sq_pending, with_head. rewrite ring_indices_cons by (done || lia).
  by destruct d.
Qed.


(** Updates of the descriptor and of the driver's copy. *)
Definition put_sq_desc (Q : Z) (d : VNVME_QUEUE_DESCRIPTOR) (m : SharedMemory) : SharedMemory :=
  if Q =? 0 then m <| shm_cb ::= fun cb => cb <| cb_AdminSQ := d |> |>
  else m <| shm_descs ::= fun l => <[Z.to_nat ((Q - 1) * 2) := d]> l |>.

Lemma sq_desc_update_put Q f m d : sq_desc m Q = Some d -> sq_desc_update Q f m = Some (put_sq_desc Q (f d) m).
Proof.
  unfold sq_desc, sq_desc_update, put_sq_desc. destruct (Q =? 0).
  - intros [= <-]. destruct m as [[] ? ? ?]. by unset.
  - intros H. unfold desc_update. rewrite H. cbn. rewrite arr_set_Some by by eapply arr_get_lt.
    destruct m. by unset.
Qed.

Lemma sq_desc_put Q d d' m : sq_desc m Q = Some d -> sq_desc (put_sq_desc Q d' m) Q = Some d'.
Proof.
  unfold sq_desc, put_sq_desc. destruct (Q =? 0).
  - by destruct m as [[] ? ? ?].
  - destruct m; unset. apply arr_get_insert_eq.
Qed.

Lemma put_sq_desc_mem Q d m : shm_mem (put_sq_desc Q d m) = shm_mem m /\
  cb_IoQueueDescriptorOffset (shm_cb (put_sq_desc Q d m)) = cb_IoQueueDescriptorOffset (shm_cb m).
Proof. unfold put_sq_desc. destruct (Q =? 0), m as [[] ? ? ?]; by unset. Qed.

Lemma with_shm_get m m' s : VnvmeShmGetControlBlock s = Some m -> VnvmeShmGetControlBlock (with_shm m' s) = Some m'.
Proof. unfold VnvmeShmGetControlBlock, with_shm. destruct s as [[fd|] ? ? ? ? ?]; [|done]. unset. by destruct fd. Qed.

Lemma sq_state_update_ok Q f s :
  (Q = 0 \/ exists q, arr_get (pdo_IoSq (ks_pdo s)) (Q - 1) = Some q /\ qs_Created q = true) ->
  (forall q, qs_Created (f q) = qs_Created q) ->
  exists p, sq_state_update Q f s = Ok (tt, s <| ks_pdo := p |>) /\
    (Q = 0 \/ exists q, arr_get (pdo_IoSq p) (Q - 1) = Some q /\ qs_Created q = true).
Proof.
  intros H Hf. unfold sq_state_update. destruct (Z.eqb_spec Q 0) as [->|].
  - exists ((ks_pdo s) <| pdo_AdminSq ::= f |>). split; [by destruct s | by left].
  - destruct H as [->|(q & Hq & Hc)]; [done|].
    exists ((ks_pdo s) <| pdo_IoSq := <[Z.to_nat (Q - 1) := f q]> (pdo_IoSq (ks_pdo s)) |>). split.
    + unfold iosq_update, mbind, M_bind, get, of_opt. cbn. rewrite (upd_nth_insert _ _ _ _ Hq). cbn.
      unfold pdo_update, modify. by destruct s.
    + right. exists (f q). split; [|by rewrite Hf]. destruct s as [? [] ? ? ? ?]; unset. by eapply arr_get_insert_eq.
Qed.

(** After the head has moved, the queue is in use and holds what is left. *)
Lemma sq_advance Q s m d h :
  sq_ready Q s -> VnvmeShmGetControlBlock s = Some m -> sq_desc m Q = Some d -> 0 <= h < qd_Capacity d ->
  sq_ready Q (with_shm (put_sq_desc Q (with_head h d) m) s) /\
  sq_contents Q (with_shm (put_sq_desc Q (with_head h d) m) s) = Some (sq_pending (shm_mem m) (with_head h d)).
Proof.
  intros (Ho & (m' & d' & Hm' & Hd' & Hwf) & Hc) Hm Hd Hh. rewrite Hm in Hm'. injection Hm' as <-.
  rewrite Hd in Hd'. injection Hd' as <-. set (m1 := put_sq_desc Q (with_head h d) m).
  destruct (put_sq_desc_mem Q (with_head h d) m) as [Emem Eoff]. fold m1 in Emem, Eoff.
  pose proof (with_shm_get m m1 s Hm) as Hm1. pose proof (sq_desc_put Q d (with_head h d) m Hd) as Hd1. fold m1 in Hd1.
  split; [split; [|split]|].
  - destruct Ho as [->|[? Hi]]; [by left|right]. split; [by destruct s|]. revert Hi.
    unfold VnvmeShmGetIoQueueDescriptors. rewrite Hm, Hm1. cbn. rewrite Eoff. destruct (_ =? 0); [done|]. by eexists.
  - exists m1, (with_head h d). split; [done|]. split; [done|]. by apply with_head_wf.
  - by destruct s.
  - unfold sq_contents. rewrite Hm1. cbn. rewrite Hd1. cbn. by rewrite Emem.
Qed.

Lemma sq_ready_pdo Q s p :
  sq_ready Q s -> (Q = 0 \/ exists q, arr_get (pdo_IoSq p) (Q - 1) = Some q /\ qs_Created q = true) ->
  sq_ready Q (s <| ks_pdo := p |>) /\ sq_contents Q (s <| ks_pdo := p |>) = sq_contents Q s.
Proof. intros (? & ? & _) ?. destruct s; unset. done. Qed.

(** Counters of the control block do not matter to the queue. *)
Lemma sq_ready_cb Q s f :
  sq_ready Q s -> (forall cb, cb_AdminSQ (f cb) = cb_AdminSQ cb) ->
  (forall cb, cb_IoQueueDescriptorOffset (f cb) = cb_IoQueueDescriptorOffset cb) ->
  exists s', cb_update f s = Ok (tt, s') /\ sq_ready Q s' /\ sq_contents Q s' = sq_contents Q s.
Proof.
  intros (Ho & (m & d & Hm & Hd & Hwf) & Hc) Hf1 Hf2. exists (with_shm (m <| shm_cb ::= f |>) s).
  pose proof (with_shm_get m (m <| shm_cb ::= f |>) s Hm) as Hm1.
  assert (sq_desc (m <| shm_cb ::= f |>) Q = Some d) as Hd1.
  { rewrite <- Hd. unfold sq_desc. destruct m; unset. by rewrite Hf1. }
  split; [|split; [split; [|split]|]].
  - destruct (shm_state_inv _ _ Hm) as (fd & Hfd & Hs). unfold cb_update, shm_update, fdo_update, modify, with_shm.
    do 2 f_equal. destruct s; cbn in *. rewrite Hfd. unset. by rewrite Hs.
  - destruct Ho as [->|[? Hi]]; [by left|right]. split; [by destruct s|]. revert Hi.
    unfold VnvmeShmGetIoQueueDescriptors. rewrite Hm, Hm1. destruct m; unset. rewrite Hf2. by destruct (_ =? 0).
  - by exists (m <| shm_cb ::= f |>), d.
  - by destruct s.
  - rewrite (sq_contents_eq _ _ _ _ Hm Hd), (sq_contents_eq _ _ _ _ Hm1 Hd1). by destruct m.
Qed.

(** What a fetch does: nothing to an empty queue, else the head moves on, in the
    descriptor and in the driver's copy. *)
Lemma VnvmeFetchCommand_result Q s m d :
  sq_ready Q s -> VnvmeShmGetControlBlock s = Some m -> sq_desc m Q = Some d ->
  let h := (qd_Head d + 1) mod qd_Capacity d in
  if decide (qd_Head d = qd_Tail d) then VnvmeFetchCommand Q s = Ok ((STATUS_NO_MORE_ENTRIES, zero_command), s)
  else exists p,
    sq_state_update Q (fun q => q <| qs_Head := h |>) (with_shm (put_sq_desc Q (with_head h d) m) s) =
      Ok (tt, (with_shm (put_sq_desc Q (with_head h d) m) s) <| ks_pdo := p |>) /\
    (Q = 0 \/ exists q, arr_get (pdo_IoSq p) (Q - 1) = Some q /\ qs_Created q = true) /\
    VnvmeFetchCommand Q s = Ok ((STATUS_SUCCESS, cmd_load (shm_mem m) (qd_Offset d + qd_Head d * 64)),
      (with_shm (put_sq_desc Q (with_head h d) m) s) <| ks_pdo := p |>).
Proof.
  intros Hr Hm Hd h. pose proof Hr as (Ho & (m' & d' & Hm' & Hd' & Hwf) & Hc). rewrite Hm in Hm'. injection Hm' as <-.
  rewrite Hd in Hd'. injection Hd' as <-. pose proof Hwf as ((Hv & Hcap & Hmem) & Hh & Ht).
  assert (VnvmeFetchCommand Q s = (if qd_Head d =? qd_Tail d then Ok ((STATUS_NO_MORE_ENTRIES, zero_command), s) else
    (shm_store (sq_desc_update Q (with_head h));;
     sq_state_update Q (fun q => q <| qs_Head := h |>);;
     mret (STATUS_SUCCESS, cmd_load (shm_mem m) (qd_Offset d + qd_Head d * 64))) s)) as ->.
  { unfold VnvmeFetchCommand. rewrite bind_get, Hm.
    rewrite (bind_Ok _ _ s None s); cycle 1.
    { destruct Hc as [->|(q & Hq & Hc)]; [done|]. eapply check_io_queue_ok; eauto. }
    cbv beta iota. rewrite (bind_opt _ _ _ _ Hd), (proj2 (Z.eqb_neq _ _)) by done.
    destruct (_ =? _); [done|]. unfold read_sqe. change NVME_SQ_ENTRY_SIZE with 64.
    rewrite (Hmem _ Hh), (bind_opt (Some _) _ _ _ eq_refl), (bind_opt _ _ _ h) by (by apply next_index_ok; lia). done. }
  destruct (Z.eqb_spec (qd_Head d) (qd_Tail d)) as [E|E]; case_decide; try done.
  assert (0 <= h < qd_Capacity d) as Hh' by (apply Z.mod_pos_bound; lia).
  destruct (sq_advance Q s m d h Hr Hm Hd Hh') as [Hr1 Hc1].
  destruct (sq_state_update_ok Q (fun q => q <| qs_Head := h |>) (with_shm (put_sq_desc Q (with_head h d) m) s))
    as (p & Hp & Hpc); [by destruct Hr1 as (_ & _ & ?) | by intros []|].
  exists p. split; [done|]. split; [done|].
  rewrite (bind_Ok _ _ _ _ _ (shm_store_eq _ _ _ _ Hm (sq_desc_update_put _ _ _ _ Hd))). fold (with_shm (put_sq_desc Q (with_head h d) m) s).
  cbv beta. by rewrite (bind_Ok _ _ _ _ _ Hp).
Qed.

(** C6: a submission queue in use is a FIFO: VnvmeFetchCommand returns
    STATUS_NO_MORE_ENTRIES and changes nothing exactly when the queue is empty;
    otherwise it returns the oldest command as the host wrote it, and the queue
    then holds the others, in order. It never faults. *)
Theorem VnvmeFetchCommand_fifo (Q : Z) (s : KState) (l : list NVME_COMMAND) :
  sq_ready Q s -> sq_contents Q s = Some l ->
  match l with
  | [] => VnvmeFetchCommand Q s = Ok ((STATUS_NO_MORE_ENTRIES, zero_command), s)
  | c :: l' => exists s', VnvmeFetchCommand Q s = Ok ((STATUS_SUCCESS, c), s') /\ sq_ready Q s' /\ sq_contents Q s' = Some l'
  end.
Proof.
  intros Hr. pose proof Hr as (Ho & (m & d & Hm & Hd & Hwf) & Hc). rewrite (sq_contents_eq _ _ _ _ Hm Hd). intros [= <-].
  pose proof (VnvmeFetchCommand_result Q s m d Hr Hm Hd) as Hf. cbv zeta in Hf. case_decide as E.
  { by rewrite (sq_pending_empty _ _ Hwf E). }
  rewrite (sq_pending_cons _ _ Hwf E). destruct Hf as (p & Hp & Hpc & ->). set (h := (qd_Head d + 1) mod qd_Capacity d) in *.
  assert (0 <= h < qd_Capacity d) as Hh' by (apply Z.mod_pos_bound; destruct Hwf as ((_ & ? & _) & _); lia).
  destruct (sq_advance Q s m d h Hr Hm Hd Hh') as [Hr1 Hc1].
  destruct (sq_ready_pdo Q _ p Hr1 Hpc) as [Hr2 Hc2].
  eexists. split; [done|]. split; [done|]. by rewrite Hc1 in Hc2.
Qed.

Lemma fetch_loop_fifo m d : sq_desc_wf d -> forall n h, 0 <= h < qd_Capacity d ->
  exists h', 0 <= h' < qd_Capacity d /\
    fetch_loop n m d h = Some (take n (sq_pending (shm_mem m) (with_head h d)), h') /\
    sq_pending (shm_mem m) (with_head h' d) = drop n (sq_pending (shm_mem m) (with_head h d)).
Proof.
  intros Hwf. pose proof Hwf as ((Hv & Hcap & Hmem) & _ & Ht). induction n as [|n IH]; intros h Hh; cbn [fetch_loop].
  { exists h. split; [done|]. by rewrite take_0, drop_0. }
  pose proof (with_head_wf h d Hh Hwf) as Hwf'. set (dh := with_head h d) in *.
  assert (qd_Head dh = h /\ qd_Tail dh = qd_Tail d /\ qd_Capacity dh = qd_Capacity d /\ qd_Offset dh = qd_Offset d) as (E1 & E2 & E3 & E4)
    by (by destruct d).
  destruct (Z.eqb_spec h (qd_Tail d)) as [E|E].
  { rewrite (sq_pending_empty _ dh Hwf') by congruence. exists h. fold dh. rewrite (sq_pending_empty _ dh Hwf') by congruence. done. }
  rewrite (sq_pending_cons _ dh Hwf') by congruence. rewrite E1, E3, E4.
  unfold read_sqe. change NVME_SQ_ENTRY_SIZE with 64. rewrite (Hmem _ Hh). cbn [mbind option_bind].
  rewrite next_index_ok by lia. cbn [mbind option_bind].
  destruct (IH ((h + 1) mod qd_Capacity d)) as (h' & Hh' & Hf & Hd); [apply Z.mod_pos_bound; lia|].
  rewrite Hf. cbn [mbind option_bind]. replace (with_head ((h + 1) mod qd_Capacity d) dh) with (with_head ((h + 1) mod qd_Capacity d) d)
    by (unfold dh; by destruct d). exists h'. done.
Qed.

(** VnvmeFetchCommandBatch takes the oldest [MaxCommands] commands of a queue in
    use, or all of them if there are fewer, in order, and leaves the rest; it
    never faults, so one batch is as good as that many single fetches. *)
Lemma VnvmeFetchCommandBatch_fifo (Q MaxCommands : Z) (s : KState) (m : SharedMemory) (l : list NVME_COMMAND) :
  sq_ready Q s -> sq_contents Q s = Some l -> VnvmeShmGetControlBlock s = Some m -> batch_check s m Q = true ->
  0 <= MaxCommands ->
  exists s', VnvmeFetchCommandBatch Q MaxCommands s = Ok ((STATUS_SUCCESS, take (Z.to_nat MaxCommands) l), s') /\
    sq_ready Q s' /\ sq_contents Q s' = Some (drop (Z.to_nat MaxCommands) l).
Proof.
  intros Hr Hl Hm Hb Hmax. pose proof Hr as (_ & (m' & d & Hm' & Hd & Hwf) & _). rewrite Hm in Hm'. injection Hm' as <-.
  assert (l = sq_pending (shm_mem m) d) as ->.
  { revert Hl. unfold sq_contents. rewrite Hm. cbn. rewrite Hd. cbn. by intros [= <-]. }
  assert (with_head (qd_Head d) d = d) as Eta by by destruct d.
  unfold VnvmeFetchCommandBatch. destruct (Z.eqb_spec MaxCommands 0) as [->|Hne].
  { exists s. by rewrite take_0, drop_0. }
  rewrite (bind_Ok _ _ s s s) by done. cbv beta. rewrite Hm, Hb. cbn [negb].
  rewrite (bind_Ok _ _ s d s) by (by rewrite Hd). cbv beta.
  destruct (Z.eqb_spec (qd_Head d) (qd_Tail d)) as [E|E].
  { rewrite (sq_pending_empty _ _ Hwf E), take_nil, drop_nil in *. by exists s. }
  destruct (fetch_loop_fifo m d Hwf (Z.to_nat MaxCommands) (qd_Head d)) as (h & Hh & Hf & Hdrop); [by destruct Hwf as (_ & ? & _)|].
  rewrite Eta in Hf, Hdrop. rewrite Hf.
  match goal with |- context [mbind ?k (of_opt (Some ?r))] => rewrite (bind_Ok _ k s r s) by done end. cbv beta. cbn [fst snd].
  destruct (sq_advance Q s m d h Hr Hm Hd Hh) as [Hr1 Hc1].
  rewrite (bind_Ok _ _ _ _ _ (shm_store_eq _ _ _ _ Hm (sq_desc_update_put Q (with_head h) _ _ Hd))). cbv beta.
  fold (with_shm (put_sq_desc Q (with_head h d) m) s). set (s1 := with_shm _ _) in *.
  set (n := Z.of_nat _). destruct (sq_ready_cb Q s1 (fun cb => cb <| cb_CommandsProcessed ::= fun k => k +₆₄ n |>) Hr1) as (s2 & Hs2 & Hr2 & Hc2).
  { by intros []. } { by intros []. }
  rewrite (bind_Ok _ _ _ _ _ Hs2). eexists. split; [done|]. split; [done|]. by rewrite Hc2, Hc1, Hdrop.
Qed.

(** ** A new completion queue *)

(** A range of the area after the descriptor array is queue memory. *)
Lemma io_area_queue_memory off n : 0x4400 <= off -> off + n <= VNVME_SHM_SIZE -> queue_memory off n = true.
Proof.
  intros H1 H2. unfold queue_memory. apply orb_true_iff. right. apply andb_true_iff.
  split; apply Z.leb_le; [|exact H2]. by change (VNVME_OFFSET_IO_QUEUE_DESC + _) with 0x4400.
Qed.

Lemma admin_area_queue_memory off n : 0x2000 <= off -> off + n <= 0x4000 -> queue_memory off n = true.
Proof. intros H1 H2. unfold queue_memory. apply orb_true_iff. left. apply andb_true_iff. split; by apply Z.leb_le. Qed.

Lemma io_pair_offset_eq m i : cb_IoQueueDescriptorOffset (shm_cb m) = VNVME_OFFSET_IO_QUEUE_DESC -> 0 <= i < 16 ->
  io_pair_offset m i = 0x4400 + i * 20480.
Proof.
  intros H Hi. unfold io_pair_offset. rewrite H. change (VNVME_OFFSET_IO_QUEUE_DESC +₃₂ _) with 0x4400.
  change (VNVME_IO_QUEUE_DEPTH * NVME_SQ_ENTRY_SIZE + VNVME_IO_QUEUE_DEPTH * NVME_CQ_ENTRY_SIZE) with 20480.
  apply u32_small. lia.
Qed.

(** Creating a completion queue of any size on a free identifier succeeds and
    leaves it in use, empty, in phase 1 and with its ring zeroed, ready for the
    phase protocol; its ring starts in the area of its own queue pair, and
    stays inside of it when it has at most VNVME_IO_QUEUE_DEPTH entries. *)
Lemma VnvmeCreateIoCompletionQueue_ready (Q size prp iv : Z) (s : KState) (m : SharedMemory) (q : VNVME_QUEUE_STATE) :
  0 < Q <= CONFIG_MAX_IO_QUEUES s -> CONFIG_MAX_IO_QUEUES s <= 16 -> 0 < size < 2 ^ 16 ->
  VnvmeShmGetControlBlock s = Some m -> shm_ok m -> 0 <= cb_CompletionsPosted (shm_cb m) < 2 ^ 64 ->
  arr_get (pdo_IoCq (ks_pdo s)) (Q - 1) = Some q -> qs_Created q = false ->
  exists s' v, VnvmeCreateIoCompletionQueue Q size prp iv s = Ok (STATUS_SUCCESS, s') /\
    cq_view Q s' = Some v /\ cq_wf Q v /\ queue_open Q s' /\
    qd_Tail (cv_desc v) = 0 /\ qs_PhaseTag (cv_state v) = true /\ qd_Capacity (cv_desc v) = size /\
    (forall i, 0 <= i < size * 16 -> rd8 (cv_mem v) (qd_Offset (cv_desc v) + i) = 0) /\
    (size <= VNVME_IO_QUEUE_DEPTH ->
      0x4400 + (Q - 1) * 20480 <= qd_Offset (cv_desc v) /\ qd_Offset (cv_desc v) + size * 16 <= 0x4400 + Q * 20480).
Proof.
  intros HQ Hcfg Hsize Hm Hok Hn Hq Hc. destruct Hok as ((Hl & _) & _ & Hoff & _).
  destruct (proj2 (arr_get_Some_iff (shm_descs m) ((Q - 1) * 2 + 1)) ltac:(rewrite Hl; lia)) as [d Hd].
  assert ((Q =? 0) = false) as HQ0 by (apply Z.eqb_neq; lia).
  assert (cq_view Q s = Some (mkCqView (shm_mem m) d q (cb_CompletionsPosted (shm_cb m)))) as Hv.
  { unfold cq_view. rewrite Hm. cbn. unfold cq_desc. rewrite HQ0, Hd. cbn. by rewrite Hq. }
  set (v0 := mkCqView _ _ _ _) in Hv.
  assert (is_Some (VnvmeShmGetIoQueueDescriptors s)) as Hio.
  { unfold VnvmeShmGetIoQueueDescriptors. rewrite Hm. cbn. rewrite Hoff. by eexists. }
  set (off := 0x4400 + (Q - 1) * 20480 + 16384).
  set (fq := fun q => q <| qs_BaseAddress := prp |> <| qs_Size := size |> <| qs_Head := 0 |> <| qs_Tail := 0 |>
    <| qs_PhaseTag := true |> <| qs_Created := true |>).
  set (fd := fun d => d <| qd_Offset := off |> <| qd_EntrySize := NVME_CQ_ENTRY_SIZE |> <| qd_Capacity := size |>
    <| qd_Head := 0 |> <| qd_Tail := 0 |> <| qd_Phase := 1 |> <| qd_Valid := 1 |>).
  set (v := mkCqView (mem_fill (shm_mem m) off (size * 16) 0) (fd d) (fq q) (cb_CompletionsPosted (shm_cb m))).
  assert (forall i n, 0 <= i -> i + n <= size * 16 -> queue_memory (off + i) n = true) as Hqm.
  { intros. apply io_area_queue_memory; unfold off; [|change VNVME_SHM_SIZE with 67108864]; lia. }
  exists (cq_set Q v s), v. split; [|split; [by eapply cq_view_set|]].
  - unfold VnvmeCreateIoCompletionQueue. rewrite (bind_Ok _ _ s s s) by done. cbv beta.
    rewrite HQ0, (proj2 (Z.ltb_ge _ _)) by lia. cbn [orb]. cbv zeta.
    rewrite (bind_Ok _ _ s q s) by (by rewrite Hq). cbv beta. rewrite Hc, Hm. destruct Hio as [l ->].
    rewrite io_pair_offset_eq by (done || lia). change (VNVME_IO_QUEUE_DEPTH * NVME_SQ_ENTRY_SIZE) with 16384.
    rewrite u32_small by lia. fold off fq fd.
    pose proof (cq_set_state Q s v0 fq Hv) as H1. unfold cq_state_update in H1. rewrite HQ0 in H1.
    rewrite (bind_Ok _ _ _ _ _ H1). cbv beta.
    rewrite (bind_Ok _ _ _ _ _ (cq_set_desc Q _ _ fd (cq_view_set Q v0 _ s Hv))), cq_set_set. cbv beta.
    assert (forall m0, clear_queue off (size * NVME_CQ_ENTRY_SIZE) m0 = Some (m0 <| shm_mem ::= fun b => mem_fill b off (size * 16) 0 |>)) as Hclr.
    { intros m0. unfold clear_queue. change NVME_CQ_ENTRY_SIZE with 16. rewrite <- (Z.add_0_r off) at 1. rewrite Hqm by lia. by rewrite orb_true_r. }
    rewrite (bind_Ok _ _ _ _ _ (cq_set_bytes Q _ _ _ _ (cq_view_set Q v0 _ s Hv) Hclr)), cq_set_set. done.
  - split; [|split; [|repeat split]].
    + split; [split; [done|split; [simpl; lia|]]|]; [|split; [simpl; lia|split; [done|by right]]].
      intros i Hi. apply Hqm; simpl in *; lia.
    + apply queue_open_set. by right.
    + intros i Hi. simpl. by rewrite rd8_fill_in by lia.
    + unfold VNVME_IO_QUEUE_DEPTH in *. simpl. unfold off. lia.
    + unfold VNVME_IO_QUEUE_DEPTH in *. simpl. unfold off. lia.
Qed.
End Queue.

(** ** Witnesses *)

#[local] Existing Instances TestKernel.

(** Admin queues that have been made valid; the SQ holds three commands. *)
Definition admin_shm : SharedMemory :=
  test_shm <| shm_cb ::= fun cb => cb <| cb_AdminSQ ::= fun d => d <| qd_Valid := 1 |> <| qd_Head := 62 |> <| qd_Tail := 1 |> |>
                                      <| cb_AdminCQ ::= fun d => d <| qd_Valid := 1 |> |> |>
           <| shm_mem ::= fun b => cmd_store (cmd_store b (0x2000 + 62 * 64) sample_command) 0x2000 sample_command |>.
Definition admin_state : @KState TestKernel :=
  (test_state admin_shm mem_zero) <| ks_pdo ::= fun p => p <| pdo_AdminCq ::= fun q => q <| qs_PhaseTag := true |> |> |>.
Definition sample_completion (cid : Z) : NVME_COMPLETION := mkCompletion 0 0 0 0 cid 0x0002.

Definition admin_cq_view : CqView :=
  mkCqView (shm_mem admin_shm) (cb_AdminCQ (shm_cb admin_shm)) (zero_queue <| qs_PhaseTag := true |>) 0.

Lemma admin_cq_wf : cq_wf 0 admin_cq_view.
Proof.
  split; [split; [done|split; [done|]]|split; [done|split; [done|by left]]].
  intros i Hi. apply admin_area_queue_memory; change (qd_Offset _) with 0x3000; change (qd_Capacity _) with 64 in Hi; lia.
Qed.

Lemma admin_sq_ready : sq_ready 0 admin_state.
Proof.
  split; [by left|]. split; [|by left]. eexists admin_shm, _. split; [reflexivity|]. split; [reflexivity|].
  split; [split; [done|split; [done|]]|done].
  intros i Hi. apply admin_area_queue_memory; change (qd_Offset _) with 0x2000; change (qd_Capacity _) with 64 in Hi; lia.
Qed.

Lemma sample_completion_wf n : 0 <= n < 2 ^ 16 -> cpl_wf (sample_completion n).
Proof. unfold cpl_wf, sample_completion; cbn -[Z.pow]. lia. Qed.

Lemma VnvmePostCompletionBatch_equiv_witness :
  exists s', VnvmePostCompletionBatch 0 (sample_completion <$> seqZ 0 70) admin_state = Ok (STATUS_SUCCESS, s') /\
    post_all 0 (sample_completion <$> seqZ 0 70) admin_state = Ok (STATUS_SUCCESS, s').
Proof.
  destruct (VnvmePostCompletionBatch_equiv 0 (sample_completion <$> seqZ 0 70) admin_state admin_shm admin_cq_view) as (s' & H1 & H2);
    [reflexivity | reflexivity | exact admin_cq_wf | left; reflexivity |]. exists s'. split; [exact H2 | exact H1].
Defined.

Lemma VnvmePostCompletion_phase_protocol_witness :
  exists s' v', post_all 0 (sample_completion <$> seqZ 0 70) admin_state = Ok (STATUS_SUCCESS, s') /\
    cq_view 0 s' = Some v' /\ qd_Tail (cv_desc v') = 6 /\ qs_PhaseTag (cv_state v') = false.
Proof.
  destruct (VnvmePostCompletion_phase_protocol 0 64 (sample_completion <$> seqZ 0 70) admin_state admin_cq_view)
    as (s' & v' & Hp & Hv & Hst & _);
    [reflexivity | exact admin_cq_wf | left; reflexivity | | reflexivity | reflexivity | reflexivity |].
  { apply Forall_fmap, Forall_seqZ. intros n Hn. apply sample_completion_wf. lia. }
  exists s', v'. split; [exact Hp|]. split; [exact Hv|].
  rewrite (ps_tail _ _ _ _ Hst), (ps_phase _ _ _ _ Hst). split; reflexivity.
Defined.

Lemma VnvmeFetchCommand_fifo_witness :
  exists s', VnvmeFetchCommand 0 admin_state = Ok ((STATUS_SUCCESS, sample_command), s') /\ sq_ready 0 s'.
Proof.
  destruct (VnvmeFetchCommand_fifo 0 admin_state _ admin_sq_ready eq_refl) as (s' & Hf & Hr & _).
  exists s'. split; [|exact Hr]. rewrite Hf. reflexivity.
Defined.

