(* ===== verification/Bar0.v ===== *)
(** BAR0: the controller registers, [vnvme/bar0.c].

    BAR0 is a byte memory of VNVME_BAR0_SIZE bytes; [Registers] and [Doorbells]
    are pointers into it, so a register read through either of them sees what
    the host wrote.  An access that leaves the 64 KB is a fault. *)
From S2P Require Import Prelude NvmeSpec Kernel Config Storage State.
Open Scope Z_scope.
Open Scope c_scope.

(** Offsets of the registers. *)
Definition REG_CAP : Z := 0x00.
Definition REG_VS : Z := 0x08.
Definition REG_INTMS : Z := 0x0C.
Definition REG_INTMC : Z := 0x10.
Definition REG_CC : Z := 0x14.
Definition REG_CSTS : Z := 0x1C.
Definition REG_NSSR : Z := 0x20.
Definition REG_AQA : Z := 0x24.
Definition REG_ASQ : Z := 0x28.
Definition REG_ACQ : Z := 0x30.
Definition REG_CMBLOC : Z := 0x38.
Definition REG_CMBSZ : Z := 0x3C.
Definition DOORBELL_BASE : Z := 0x1000.

(** Fields of CAP, CC and CSTS. *)
Definition CAP_MQES (cap : Z) : Z := bits cap 0 16.
Definition CAP_CQR (cap : Z) : Z := bits cap 16 1.
Definition CAP_AMS (cap : Z) : Z := bits cap 17 2.
Definition CAP_TO (cap : Z) : Z := bits cap 24 8.
Definition CAP_DSTRD (cap : Z) : Z := bits cap 32 4.
Definition CAP_NSSRS (cap : Z) : Z := bits cap 36 1.
Definition CAP_CSS (cap : Z) : Z := bits cap 37 8.
Definition CAP_MPSMIN (cap : Z) : Z := bits cap 48 4.
Definition CAP_MPSMAX (cap : Z) : Z := bits cap 52 4.
Definition CC_EN (cc : Z) : bool := Z.testbit cc 0.
Definition CSTS_RDY (csts : Z) : bool := Z.testbit csts 0.

Section Bar0.
Context {W : WinKernel}.

(** A load from and a store to the mapped registers. *)
Definition bar0_load (p : VNVME_PDO_CONTEXT) (off : Z) (n : nat) : option Z :=
  m ← pdo_Bar0VirtAddr p;
  if in_block VNVME_BAR0_SIZE off (Z.of_nat n) then Some (load_le m off n) else None.

Definition bar0_store (off : Z) (n : nat) (v : Z) : M KState unit :=
  s ← get;
  m ← of_opt (pdo_Bar0VirtAddr (ks_pdo s));
  if in_block VNVME_BAR0_SIZE off (Z.of_nat n)
  then pdo_update (fun p => p <| pdo_Bar0VirtAddr := Some (store_le m off n v) |>)
  else fault.

(** ** Allocation *)

Definition VnvmeInitializeBar0Registers : M KState unit :=
  s ← get;
  match pdo_Bar0VirtAddr (ks_pdo s) with
  | None => mret tt
  | Some _ =>
      bar0_store REG_CAP 8 0x0028000000010FFF;;
      bar0_store REG_VS 4 0x00010400;;
      bar0_store REG_INTMS 4 0;;
      bar0_store REG_INTMC 4 0;;
      bar0_store REG_CC 4 0;;
      bar0_store REG_CSTS 4 0;;
      bar0_store REG_AQA 4 0;;
      bar0_store REG_ASQ 8 0;;
      bar0_store REG_ACQ 8 0;;
      pdo_update (fun p => p <| pdo_Registers := true |> <| pdo_Doorbells := true |> <| pdo_CachedCC := 0 |>)
  end.

Definition VnvmeAllocateBar0 : M KState NTSTATUS :=
  ok ← alloc_contiguous VNVME_BAR0_SIZE;
  if negb ok then mret STATUS_INSUFFICIENT_RESOURCES
  else
    pa ← physical_address;
    pdo_update (fun p => p <| pdo_Bar0VirtAddr := Some mem_zero |> <| pdo_Bar0PhysAddr := pa |>
                           <| pdo_Bar0Size := VNVME_BAR0_SIZE |>);;
    VnvmeInitializeBar0Registers;;
    mret STATUS_SUCCESS.

Definition VnvmeFreeBar0 : M KState unit :=
  pdo_update (fun p =>
    match pdo_Bar0VirtAddr p with
    | None => p
    | Some _ => p <| pdo_Bar0VirtAddr := None |> <| pdo_Bar0PhysAddr := 0 |> <| pdo_Bar0Size := 0 |>
                  <| pdo_Registers := false |> <| pdo_Doorbells := false |>
    end).

(** ** Register access *)

Definition VnvmeReadBar0Register (p : VNVME_PDO_CONTEXT) (Offset : Z) : option Z :=
  match pdo_Bar0VirtAddr p with
  | None => Some 0xFFFFFFFF
  | Some _ => if pdo_Bar0Size p <=? Offset then Some 0xFFFFFFFF else bar0_load p Offset 4
  end.

Definition VnvmeWriteBar0Register (Offset Value : Z) : M KState unit :=
  s ← get;
  let p := ks_pdo s in
  match pdo_Bar0VirtAddr p with
  | None => mret tt
  | Some _ =>
      if pdo_Bar0Size p <=? Offset then mret tt
      else if (Offset =? 0x00) || (Offset =? 0x04) || (Offset =? 0x08) || (Offset =? 0x1C) ||
              (Offset =? 0x38) || (Offset =? 0x3C) then mret tt
      else if Offset =? 0x0C then
        reg ← of_opt (bar0_load p Offset 4);
        bar0_store Offset 4 (Z.lor reg Value)
      else if Offset =? 0x10 then
        mask ← of_opt (bar0_load p 0x0C 4);
        bar0_store 0x0C 4 (Z.land mask (Z.lxor Value 0xFFFFFFFF))
      else if Offset =? 0x14 then bar0_store Offset 4 Value
      else if Offset =? 0x20 then
        if Value =? 0x4E564D65 then
          if pdo_Registers p then bar0_store REG_CSTS 4 0;; bar0_store REG_CC 4 0 else mret tt
        else mret tt
      else if Offset =? 0x24 then bar0_store Offset 4 Value
      else bar0_store Offset 4 Value
  end.

Definition VnvmeReadBar0Register64 (p : VNVME_PDO_CONTEXT) (Offset : Z) : option Z :=
  match pdo_Bar0VirtAddr p with
  | None => Some 0xFFFFFFFFFFFFFFFF
  | Some _ => if pdo_Bar0Size p <? (Offset +₃₂ 8) then Some 0xFFFFFFFFFFFFFFFF else bar0_load p Offset 8
  end.

Definition VnvmeWriteBar0Register64 (Offset Value : Z) : M KState unit :=
  s ← get;
  match pdo_Bar0VirtAddr (ks_pdo s) with
  | None => mret tt
  | Some _ => if pdo_Bar0Size (ks_pdo s) <? (Offset +₃₂ 8) then mret tt else bar0_store Offset 8 Value
  end.

(** ** Lemmas *)

(** BAR0 is mapped, with its full size. *)
Definition bar0_ok (p : VNVME_PDO_CONTEXT) : Prop :=
  is_Some (pdo_Bar0VirtAddr p) /\ pdo_Bar0Size p = VNVME_BAR0_SIZE.

(** The 32-bit register at [r]. *)
Definition reg32 (s : KState) (r : Z) : Z :=
  match pdo_Bar0VirtAddr (ks_pdo s) with Some m => load_le m r 4 | None => 0 end.

Definition with_bar0 (m : mem) (s : KState) : KState := s <| ks_pdo ::= fun p => p <| pdo_Bar0VirtAddr := Some m |> |>.

Lemma bar0_store_ok s m off n v :
  pdo_Bar0VirtAddr (ks_pdo s) = Some m -> 0 <= off -> off + Z.of_nat n <= VNVME_BAR0_SIZE ->
  bar0_store off n v s = Ok (tt, with_bar0 (store_le m off n v) s).
Proof.
  intros Hm H1 H2. unfold bar0_store, mbind, M_bind, get, of_opt. rewrite Hm. rewrite in_block_true by done. done.
Qed.

Lemma reg32_with m s r : reg32 (with_bar0 m s) r = load_le m r 4.
Proof. done. Qed.

Lemma with_bar0_ok m s : bar0_ok (ks_pdo s) -> bar0_ok (ks_pdo (with_bar0 m s)).
Proof. intros [_ H]. split; [by eexists|]. by destruct s as [? [] ? ? ? ?]. Qed.

(** Aligned registers do not overlap. *)
Lemma reg32_store m r off v :
  0 <= v < 2 ^ 32 -> r mod 4 = 0 -> off mod 4 = 0 ->
  load_le (store_le m off 4 v) r 4 = if decide (r = off) then v else load_le m r 4.
Proof.
  intros Hv Hr Ho. destruct (decide (r = off)) as [->|Hne].
  - apply load_store_le_small. exact Hv.
  - apply load_store_le_other. change (Z.of_nat 4) with 4. Z.div_mod_to_equations. lia.
Qed.

(** What a write to the register at [Offset] makes of the register at [r]. *)
Definition register_after (Offset Value r old : Z) : Z :=
  if bool_decide (Offset ∈ [REG_CAP; REG_CAP + 4; REG_VS; REG_CSTS; REG_CMBLOC; REG_CMBSZ]) then old
  else if Offset =? REG_INTMS then if r =? REG_INTMS then Z.lor old Value else old
  else if Offset =? REG_INTMC then if r =? REG_INTMS then Z.ldiff old Value else old
  else if Offset =? REG_NSSR then
    if (Value =? 0x4E564D65) && bool_decide (r ∈ [REG_CSTS; REG_CC]) then 0 else old
  else if r =? Offset then Value else old.

Lemma bar0_store_register (s : KState) (m : mem) (off v : Z) :
  bar0_ok (ks_pdo s) -> pdo_Bar0VirtAddr (ks_pdo s) = Some m -> 0 <= off < VNVME_BAR0_SIZE -> off mod 4 = 0 -> 0 <= v < 2 ^ 32 ->
  exists s', bar0_store off 4 v s = Ok (tt, s') /\ bar0_ok (ks_pdo s') /\
    forall r, r mod 4 = 0 -> 0 <= r < VNVME_BAR0_SIZE -> reg32 s' r = if r =? off then v else reg32 s r.
Proof.
  intros Hok Hm ???. exists (with_bar0 (store_le m off 4 v) s). split; [|split; [by apply with_bar0_ok|]].
  - apply bar0_store_ok; [done | lia |]. change VNVME_BAR0_SIZE with 65536 in *. change (Z.of_nat 4) with 4.
    Z.div_mod_to_equations. lia.
  - intros r ??. rewrite reg32_with, reg32_store by done. assert (reg32 s r = load_le m r 4) as -> by (unfold reg32; by rewrite Hm).
    destruct (Z.eqb_spec r off); [by rewrite decide_True | by rewrite decide_False].
Qed.

Lemma bar0_load_register (s : KState) (m : mem) (off : Z) :
  pdo_Bar0VirtAddr (ks_pdo s) = Some m -> 0 <= off -> off + 4 <= VNVME_BAR0_SIZE ->
  bar0_load (ks_pdo s) off 4 = Some (load_le m off 4).
Proof.
  intros Hm ??. unfold bar0_load. rewrite Hm. cbn [mbind option_bind]. by rewrite in_block_true by done.
Qed.

(** C39: a 32-bit write to an aligned register does what the register is for and
    leaves every other register alone: read-only registers (CAP, VS, CSTS,
    CMBLOC, CMBSZ) ignore it, INTMS sets and INTMC clears bits of the interrupt
    mask, NSSR resets CC and CSTS when the value is "NVMe" and stores nothing,
    any other register takes the value. It never faults. *)
Theorem VnvmeWriteBar0Register_registers (s : KState) (Offset Value : Z) :
  bar0_ok (ks_pdo s) -> pdo_Registers (ks_pdo s) = true ->
  0 <= Offset < VNVME_BAR0_SIZE -> Offset mod 4 = 0 -> 0 <= Value < 2 ^ 32 ->
  exists s', VnvmeWriteBar0Register Offset Value s = Ok (tt, s') /\ bar0_ok (ks_pdo s') /\
    forall r, r mod 4 = 0 -> 0 <= r < VNVME_BAR0_SIZE ->
      reg32 s' r = register_after Offset Value r (reg32 s r).
Proof.
  intros Hok Hregs Ho Hal Hv. pose proof Hok as [[m Hm] Hsz]. change VNVME_BAR0_SIZE with 65536 in *.
  assert (forall a, 0 <= load_le m a 4 < 2 ^ 32) as Hld by (intros; apply (load_le_range m a 4)).
  assert (forall r, reg32 s r = load_le m r 4) as Hreg by (intros; unfold reg32; by rewrite Hm).
  pose proof (fun off => bar0_load_register s m off Hm) as Hload. pose proof (fun off v => bar0_store_register s m off v Hok Hm) as Hstore.
  change VNVME_BAR0_SIZE with 65536 in *.
  unfold VnvmeWriteBar0Register. rewrite (bind_Ok _ _ s s s) by done. cbv beta zeta. rewrite Hm, Hsz.
  rewrite (proj2 (Z.leb_gt _ _)) by lia.
  destruct (decide (Offset ∈ [REG_CAP; REG_CAP + 4; REG_VS; REG_CSTS; REG_CMBLOC; REG_CMBSZ])) as [Hro|Hro].
  { exists s. split; [|split; [done|]].
    - apply list_elem_of_In in Hro. simpl in Hro.
      destruct Hro as [<-|[<-|[<-|[<-|[<-|[<-|[]]]]]]]; done.
    - intros r _ _. unfold register_after. by rewrite bool_decide_eq_true_2. }
  assert (((Offset =? 0x00) || (Offset =? 0x04) || (Offset =? 0x08) || (Offset =? 0x1C) ||
              (Offset =? 0x38) || (Offset =? 0x3C)) = false) as ->.
  { rewrite !orb_false_iff, !Z.eqb_neq. repeat split; intros ->; apply Hro; apply list_elem_of_In; simpl; tauto. }
  unfold register_after. rewrite bool_decide_eq_false_2 by done.
  change (Offset =? REG_INTMS) with (Offset =? 0x0C). change (Offset =? REG_INTMC) with (Offset =? 0x10).
  change (Offset =? REG_NSSR) with (Offset =? 0x20).
  destruct (Z.eqb_spec Offset 0x0C) as [->|_].
  { rewrite Hload by done. rewrite (bind_Ok _ _ s (load_le m 12 4) s) by done. cbv beta.
    destruct (Hstore 12 (Z.lor (load_le m 12 4) Value)) as (s' & -> & ? & Hr); [done|done|by apply lor_range|].
    exists s'. split; [done|]. split; [done|]. intros r ??. rewrite Hr by done. change REG_INTMS with 12.
    destruct (Z.eqb_spec r 12) as [->|]; [by rewrite Hreg | done]. }
  destruct (Z.eqb_spec Offset 0x10) as [->|_].
  { rewrite Hload by done. rewrite (bind_Ok _ _ s (load_le m 12 4) s) by done. cbv beta.
    destruct (Hstore 12 (Z.land (load_le m 12 4) (Z.lxor Value 0xFFFFFFFF))) as (s' & -> & ? & Hr); [done|done|by apply land_range|].
    exists s'. split; [done|]. split; [done|]. intros r ??. rewrite Hr by done. change REG_INTMS with 12.
    destruct (Z.eqb_spec r 12) as [->|]; [|done]. rewrite Hreg. by apply (land_lxor_ones _ _ 32). }
  destruct (Z.eqb_spec Offset 0x14) as [->|_]; [by apply Hstore|].
  destruct (Z.eqb_spec Offset 0x20) as [->|_].
  { destruct (Value =? 0x4E564D65); [|by exists s]. rewrite Hregs.
    destruct (Hstore REG_CSTS 0) as (s1 & E1 & Hok1 & Hr1); [done..|].
    rewrite (bind_Ok _ _ _ _ _ E1). cbv beta. destruct Hok1 as [[m1 Hm1] Hsz1].
    eexists. split; [by apply bar0_store_ok|]. split; [by apply with_bar0_ok|].
    intros r Hra Hrr. rewrite reg32_with, reg32_store by done.
    assert (load_le m1 r 4 = reg32 s1 r) as -> by (unfold reg32; by rewrite Hm1). rewrite Hr1 by done. cbn [andb].
    destruct (decide (r = REG_CC)) as [->|Hc]; [done|]. destruct (Z.eqb_spec r REG_CSTS) as [->|Hc2]; [done|].
    rewrite bool_decide_eq_false_2; [done|]. intros Hin%list_elem_of_In. destruct Hin as [E|[E|[]]]; congruence. }
  destruct (Z.eqb_spec Offset 0x24) as [->|_]; [by apply Hstore|]. by apply Hstore.
Qed.

(** The register contents the initialisation stores, in the order of the code. *)
Definition init_registers (m : mem) : mem :=
  let m := store_le m REG_CAP 8 0x0028000000010FFF in
  let m := store_le m REG_VS 4 0x00010400 in
  let m := store_le m REG_INTMS 4 0 in
  let m := store_le m REG_INTMC 4 0 in
  let m := store_le m REG_CC 4 0 in
  let m := store_le m REG_CSTS 4 0 in
  let m := store_le m REG_AQA 4 0 in
  let m := store_le m REG_ASQ 8 0 in
  store_le m REG_ACQ 8 0.

Lemma with_bar0_with m1 m2 s : with_bar0 m2 (with_bar0 m1 s) = with_bar0 m2 s.
Proof. by destruct s as [? [] ? ? ? ?]. Qed.

Lemma with_bar0_get m s : pdo_Bar0VirtAddr (ks_pdo (with_bar0 m s)) = Some m.
Proof. by destruct s as [? [] ? ? ? ?]. Qed.

Lemma bar0_store_with s m off n v :
  0 <= off -> off + Z.of_nat n <= VNVME_BAR0_SIZE ->
  bar0_store off n v (with_bar0 m s) = Ok (tt, with_bar0 (store_le m off n v) s).
Proof. intros. by rewrite (bar0_store_ok _ m), with_bar0_with by (done || apply with_bar0_get). Qed.

Lemma VnvmeInitializeBar0Registers_ok s m :
  pdo_Bar0VirtAddr (ks_pdo s) = Some m ->
  VnvmeInitializeBar0Registers s = Ok (tt, (with_bar0 (init_registers m) s)
    <| ks_pdo ::= fun p => p <| pdo_Registers := true |> <| pdo_Doorbells := true |> <| pdo_CachedCC := 0 |> |>).
Proof.
  intros Hm. unfold VnvmeInitializeBar0Registers. rewrite (bind_Ok _ _ s s s) by done. cbv beta. rewrite Hm.
  rewrite (bind_Ok _ _ _ _ _ (bar0_store_ok s m REG_CAP 8 _ Hm ltac:(done) ltac:(done))). cbv beta.
  do 8 (erewrite bind_Ok; [|by apply bar0_store_with]; cbv beta). done.
Qed.

(** The controller after a successful allocation. *)
Definition bar0_allocated (s : KState) : KState :=
  (with_bar0 (init_registers mem_zero) (s <| ks_tick ::= S |> <| ks_tick ::= S |>
    <| ks_pdo ::= fun p => p <| pdo_Bar0VirtAddr := Some mem_zero |>
         <| pdo_Bar0PhysAddr := MmGetPhysicalAddress (S (ks_tick s)) |> <| pdo_Bar0Size := VNVME_BAR0_SIZE |> |>))
    <| ks_pdo ::= fun p => p <| pdo_Registers := true |> <| pdo_Doorbells := true |> <| pdo_CachedCC := 0 |> |>.

Lemma VnvmeAllocateBar0_eq s :
  VnvmeAllocateBar0 s =
    if MmAllocateContiguousMemorySpecifyCache (ks_tick s) VNVME_BAR0_SIZE
    then Ok (STATUS_SUCCESS, bar0_allocated s) else Ok (STATUS_INSUFFICIENT_RESOURCES, s <| ks_tick ::= S |>).
Proof.
  unfold VnvmeAllocateBar0. unfold alloc_contiguous, mbind at 1, M_bind at 1.
  destruct (MmAllocateContiguousMemorySpecifyCache _ _); [|done]. cbn [negb].
  unfold physical_address, mbind at 1, M_bind at 1. unfold mbind at 1, M_bind at 1, pdo_update, modify.
  set (s1 := _ <| ks_pdo ::= _ |>). unfold mbind, M_bind.
  assert (pdo_Bar0VirtAddr (ks_pdo s1) = Some mem_zero) as Hm by (by destruct s as [? [] ? ? ? ?]).
  rewrite (VnvmeInitializeBar0Registers_ok s1 _ Hm). done.
Qed.

(** After VnvmeAllocateBar0 the host sees a disabled controller: NVMe 1.4,
    4096-entry contiguous queues, a doorbell stride of 4 bytes, CC, CSTS and the
    admin queue registers zero.  The CAP value decodes, against its comment
    (TO = 40, CSS = 1, MPSMIN = MPSMAX = 0), to a zero timeout, no command set,
    and a minimum page size exponent of 8 above a maximum of 2. *)
Lemma VnvmeAllocateBar0_registers (s s' : KState) :
  VnvmeAllocateBar0 s = Ok (STATUS_SUCCESS, s') ->
  bar0_ok (ks_pdo s') /\ pdo_Registers (ks_pdo s') = true /\ pdo_Doorbells (ks_pdo s') = true /\
  (exists cap, VnvmeReadBar0Register64 (ks_pdo s') REG_CAP = Some cap /\
    CAP_MQES cap = 0xFFF /\ CAP_CQR cap = 1 /\ CAP_AMS cap = 0 /\ CAP_DSTRD cap = 0 /\ CAP_NSSRS cap = 0 /\
    CAP_TO cap = 0 /\ CAP_CSS cap = 0 /\ CAP_MPSMIN cap = 8 /\ CAP_MPSMAX cap = 2) /\
  reg32 s' REG_VS = 0x00010400 /\ CC_EN (reg32 s' REG_CC) = false /\ CSTS_RDY (reg32 s' REG_CSTS) = false /\
  reg32 s' REG_AQA = 0 /\ VnvmeReadBar0Register64 (ks_pdo s') REG_ASQ = Some 0 /\
  VnvmeReadBar0Register64 (ks_pdo s') REG_ACQ = Some 0.
Proof.
  rewrite VnvmeAllocateBar0_eq. destruct (MmAllocateContiguousMemorySpecifyCache _ _); [|done]. intros [= <-].
  destruct s as [fd [] h c t k]. unfold bar0_allocated, with_bar0. unset.
  split; [by split; [eexists|]|]. split; [done|]. split; [done|].
  split; [eexists; split; [reflexivity | by vm_compute]|]. by vm_compute.
Qed.
End Bar0.

(** ** Witnesses *)

#[local] Existing Instances TestKernel.

Definition bar0_test_state : @KState TestKernel :=
  mkState None
    (mkPdo 0 (Some (init_registers mem_zero)) 0x80000000 VNVME_BAR0_SIZE true true 0 None 0 zero_queue zero_queue 0 0 0 0 0 0 1
      (replicate 16 zero_queue) (replicate 16 zero_queue) 0 16 false 100 false false
      (replicate 4 0) 0 0 [] 0 0 0 0)
    mem_zero default_config 0 0.

Lemma VnvmeWriteBar0Register_registers_witness :
  exists s', VnvmeWriteBar0Register REG_INTMS 5 bar0_test_state = Ok (tt, s') /\
    reg32 s' REG_INTMS = 5 /\ reg32 s' REG_VS = 0x00010400.
Proof.
  destruct (VnvmeWriteBar0Register_registers bar0_test_state REG_INTMS 5) as (s' & Hw & _ & Hr);
    [split; [by eexists | reflexivity] | reflexivity | done | reflexivity | done |].
  exists s'. split; [exact Hw|]. split; (rewrite Hr by done); vm_compute; reflexivity.
Defined.

