(* ===== verification/PcieConfig.v ===== *)
(** The PCIe configuration space, [vnvme/pcie_config.c].

    The configuration space is a byte memory of VNVME_PCIE_CONFIG_SIZE bytes;
    an access that leaves it is a fault. *)
From S2P Require Import Prelude NvmeSpec Kernel Config Storage State Shm.
Open Scope Z_scope.
Open Scope c_scope.

Definition VNVME_PCIE_CONFIG_SIZE : Z := 4096.
Definition PCI_VENDOR_ID : Z := 0x00.
Definition PCI_DEVICE_ID : Z := 0x02.
Definition PCI_COMMAND : Z := 0x04.
Definition PCI_STATUS : Z := 0x06.
Definition PCI_REVISION_ID : Z := 0x08.
Definition PCI_CLASS_CODE : Z := 0x09.
Definition PCI_HEADER_TYPE : Z := 0x0E.
Definition PCI_BAR0 : Z := 0x10.
Definition PCI_BAR1 : Z := 0x14.
Definition PCI_SUBSYSTEM_VENDOR_ID : Z := 0x2C.
Definition PCI_SUBSYSTEM_ID : Z := 0x2E.
Definition PCI_CAPABILITY_PTR : Z := 0x34.
Definition PCI_INTERRUPT_LINE : Z := 0x3C.
Definition PCI_INTERRUPT_PIN : Z := 0x3D.
Definition VNVME_VENDOR_ID : Z := 0x1D94.
Definition VNVME_DEVICE_ID : Z := 0x7001.
Definition VNVME_SUBSYSTEM_VID : Z := 0x1D94.
Definition VNVME_SUBSYSTEM_ID : Z := 0x0001.
Definition VNVME_REVISION_ID : Z := 0x01.
Definition PCI_WHICHSPACE_CONFIG : Z := 0.

(** The stores of VnvmeInitializePcieConfig, in order: offset, width, value. *)
Definition pcie_init_stores : list (Z * nat * Z) :=
  [ (PCI_VENDOR_ID, 2%nat, VNVME_VENDOR_ID); (PCI_DEVICE_ID, 2%nat, VNVME_DEVICE_ID);
    (PCI_COMMAND, 2%nat, 0x0000); (PCI_STATUS, 2%nat, 0x0010);
    (PCI_REVISION_ID, 1%nat, VNVME_REVISION_ID);
    (PCI_CLASS_CODE + 0, 1%nat, 0x02); (PCI_CLASS_CODE + 1, 1%nat, 0x08); (PCI_CLASS_CODE + 2, 1%nat, 0x01);
    (PCI_HEADER_TYPE, 1%nat, 0x00);
    (PCI_BAR0, 4%nat, 0x00000004); (PCI_BAR1, 4%nat, 0x00000000);
    (PCI_SUBSYSTEM_VENDOR_ID, 2%nat, VNVME_SUBSYSTEM_VID); (PCI_SUBSYSTEM_ID, 2%nat, VNVME_SUBSYSTEM_ID);
    (PCI_CAPABILITY_PTR, 1%nat, 0x40);
    (PCI_INTERRUPT_LINE, 1%nat, 0x00); (PCI_INTERRUPT_PIN, 1%nat, 0x01);
    (* Power Management *)
    (0x40, 1%nat, 0x01); (0x41, 1%nat, 0x50); (0x42, 2%nat, 0x0003); (0x44, 2%nat, 0x0000);
    (0x46, 1%nat, 0x00); (0x47, 1%nat, 0x00);
    (* MSI *)
    (0x50, 1%nat, 0x05); (0x51, 1%nat, 0x60); (0x52, 2%nat, 0x0080); (0x54, 4%nat, 0x00000000);
    (0x58, 4%nat, 0x00000000); (0x5C, 2%nat, 0x0000);
    (* MSI-X *)
    (0x60, 1%nat, 0x11); (0x61, 1%nat, 0x70); (0x62, 2%nat, 0x001F); (0x64, 4%nat, 0x00002000);
    (0x68, 4%nat, 0x00003000);
    (* PCI Express *)
    (0x70, 1%nat, 0x10); (0x71, 1%nat, 0x00); (0x72, 2%nat, 0x0002); (0x74, 4%nat, 0x00008001);
    (0x78, 2%nat, 0x0010); (0x7A, 2%nat, 0x0000); (0x7C, 4%nat, 0x00000001); (0x80, 2%nat, 0x0000);
    (0x82, 2%nat, 0x0011) ].

Section PcieConfig.
Context {W : WinKernel}.

Definition VnvmeInitializePcieConfig : M KState unit :=
  pdo_update (fun p => p <| pdo_PcieConfig ::= option_map (store_all pcie_init_stores) |>).

Definition VnvmeAllocatePcieConfig : M KState NTSTATUS :=
  ok ← alloc VNVME_PCIE_CONFIG_SIZE;
  if negb ok then mret STATUS_INSUFFICIENT_RESOURCES
  else
    pdo_update (fun p => p <| pdo_PcieConfig := Some mem_zero |> <| pdo_PcieConfigSize := VNVME_PCIE_CONFIG_SIZE |>);;
    VnvmeInitializePcieConfig;;
    mret STATUS_SUCCESS.

Definition VnvmeFreePcieConfig : M KState unit :=
  pdo_update (fun p => match pdo_PcieConfig p with
                       | Some _ => p <| pdo_PcieConfig := None |> <| pdo_PcieConfigSize := 0 |>
                       | None => p
                       end).

(** The status and the buffer; [None] is a fault. *)
Definition VnvmeReadPcieConfig (p : VNVME_PDO_CONTEXT) (Offset Length : Z) (Buffer : block) : option (NTSTATUS * block) :=
  match pdo_PcieConfig p with
  | None => b ← blk_zero Buffer 0 Length; Some (STATUS_INVALID_DEVICE_STATE, b)
  | Some config =>
      if pdo_PcieConfigSize p <? (Offset +₃₂ Length) then
        b ← blk_zero Buffer 0 Length; Some (STATUS_INVALID_PARAMETER, b)
      else if in_block VNVME_PCIE_CONFIG_SIZE Offset Length then
        b ← blk_write Buffer 0 config Offset Length; Some (STATUS_SUCCESS, b)
      else None
  end.

(** The status and the configuration space after the write. *)
Definition pcie_write (config : mem) (Offset Length : Z) (Buffer : block) : option mem :=
  let value16 := if in_block (blk_size Buffer) 0 2 then Some (load_le (blk_mem Buffer) 0 2) else None in
  if (Offset =? PCI_COMMAND) && (2 <=? Length) then
    v ← value16; Some (store_le config Offset 2 (Z.land v 0x0547))
  else if (Offset =? 0x44) && (2 <=? Length) then
    v ← value16;
    let newState := Z.land v 0x03 in
    Some (if (newState =? 0) || (newState =? 3) then store_le config Offset 2 (Z.land v 0x8103) else config)
  else if (Offset =? 0x62) && (2 <=? Length) then
    v ← value16;
    Some (store_le config Offset 2 (Z.lor (Z.land v 0xC000) (Z.land (load_le config Offset 2) 0x07FF)))
  else if (Offset =? 0x52) && (2 <=? Length) then
    v ← value16; Some (store_le config Offset 2 v)
  else if (Offset =? PCI_VENDOR_ID) || (Offset =? PCI_DEVICE_ID) || (Offset =? PCI_REVISION_ID) ||
          (Offset =? PCI_CLASS_CODE) || (Offset =? PCI_HEADER_TYPE) || (Offset =? PCI_CAPABILITY_PTR) then Some config
  else if in_block VNVME_PCIE_CONFIG_SIZE Offset Length && in_block (blk_size Buffer) 0 Length
  then Some (mem_copy config Offset (blk_mem Buffer) 0 Length)
  else None.

Definition VnvmeWritePcieConfig (Offset Length : Z) (Buffer : block) : M KState NTSTATUS :=
  s ← get;
  match pdo_PcieConfig (ks_pdo s) with
  | None => mret STATUS_INVALID_DEVICE_STATE
  | Some config =>
      if pdo_PcieConfigSize (ks_pdo s) <? (Offset +₃₂ Length) then mret STATUS_INVALID_PARAMETER
      else
        config ← of_opt (pcie_write config Offset Length Buffer);
        pdo_update (fun p => p <| pdo_PcieConfig := Some config |>);;
        mret STATUS_SUCCESS
  end.

(** BUS_INTERFACE_STANDARD: the number of bytes transferred, and the buffer. *)
Definition VnvmeInterfaceGetBusData (p : VNVME_PDO_CONTEXT) (DataType : Z) (Buffer : block) (Offset Length : Z) : option (Z * block) :=
  if negb (DataType =? PCI_WHICHSPACE_CONFIG) then Some (0, Buffer)
  else
    '(status, b) ← VnvmeReadPcieConfig p Offset Length Buffer;
    Some (if negb (NT_SUCCESS status) then 0 else Length, b).

Definition VnvmeInterfaceSetBusData (DataType : Z) (Buffer : block) (Offset Length : Z) : M KState Z :=
  if negb (DataType =? PCI_WHICHSPACE_CONFIG) then mret 0
  else
    status ← VnvmeWritePcieConfig Offset Length Buffer;
    mret (if negb (NT_SUCCESS status) then 0 else Length).

(** The other functions of the interface: counting references does nothing; an
    address in memory space (0) is translated to itself, one in I/O space is
    not; there is no DMA adapter, and there are no map registers. *)
Definition VnvmeInterfaceReference : M KState unit := mret tt.
Definition VnvmeInterfaceDereference : M KState unit := mret tt.
Definition VnvmeInterfaceTranslateBusAddress (BusAddress Length AddressSpace : Z) : option Z :=
  if AddressSpace =? 0 then Some BusAddress else None.
Definition VnvmeInterfaceGetDmaAdapter : option unit * Z := (None, 0).

(** BUS_INTERFACE_STANDARD: the operations a driver of the bus gets; its
    Context, the controller, is the state they run on. *)
Record BUS_INTERFACE_STANDARD := mkBusInterface {
  bi_Size : Z;
  bi_Version : Z;
  bi_InterfaceReference : M KState unit;
  bi_InterfaceDereference : M KState unit;
  bi_TranslateBusAddress : Z -> Z -> Z -> option Z;
  bi_GetDmaAdapter : option unit * Z;
  bi_SetBusData : Z -> block -> Z -> Z -> M KState Z;
  bi_GetBusData : VNVME_PDO_CONTEXT -> Z -> block -> Z -> Z -> option (Z * block)
}.

(** Its size on a 64-bit machine: two USHORTs, padded, and seven pointers. *)
Definition sizeof_BUS_INTERFACE_STANDARD : Z := 64.

(** [standard]: InterfaceType is GUID_BUS_INTERFACE_STANDARD.  The status, and [*Interface] when it is filled. *)
Definition VnvmePdoQueryInterface (standard : bool) (Size Version : Z) : NTSTATUS * option BUS_INTERFACE_STANDARD :=
  if negb standard then (STATUS_NOT_SUPPORTED, None)
  else if negb (Version =? 1) || (Size <? sizeof_BUS_INTERFACE_STANDARD) then (STATUS_INVALID_PARAMETER, None)
  else
    (STATUS_SUCCESS,
     Some (mkBusInterface sizeof_BUS_INTERFACE_STANDARD 1 VnvmeInterfaceReference VnvmeInterfaceDereference
             VnvmeInterfaceTranslateBusAddress VnvmeInterfaceGetDmaAdapter VnvmeInterfaceSetBusData VnvmeInterfaceGetBusData)).

(** ** Properties *)

(** The capability list from the pointer at [PCI_CAPABILITY_PTR]. *)
Fixpoint capabilities (fuel : nat) (config : mem) (ptr : Z) : list (Z * Z) :=
  match fuel with
  | O => []
  | S fuel => if ptr =? 0 then [] else (ptr, rd8 config ptr) :: capabilities fuel config (rd8 config (ptr + 1))
  end.

(** What identifies the function: vendor, device, revision, class code and the
    head of the capability list. *)
Definition identity (config : mem) : Z * Z * Z * Z * Z :=
  (load_le config PCI_VENDOR_ID 2, load_le config PCI_DEVICE_ID 2, load_le config PCI_REVISION_ID 1,
   load_le config PCI_CLASS_CODE 3, load_le config PCI_CAPABILITY_PTR 1).

Definition nvme_identity : Z * Z * Z * Z * Z := (VNVME_VENDOR_ID, VNVME_DEVICE_ID, VNVME_REVISION_ID, 0x010802, 0x40).

Definition config_space (s : KState) : option mem := pdo_PcieConfig (ks_pdo s).

(** The configuration space comes up as an NVMe function: vendor, device and
    class code, with a capability list that links power management, MSI, MSI-X
    and PCI Express and ends. *)
Lemma VnvmeAllocatePcieConfig_nvme (s s' : KState) :
  VnvmeAllocatePcieConfig s = Ok (STATUS_SUCCESS, s') ->
  exists config, config_space s' = Some config /\ identity config = nvme_identity /\
    capabilities 10 config (rd8 config PCI_CAPABILITY_PTR) = [(0x40, 0x01); (0x50, 0x05); (0x60, 0x11); (0x70, 0x10)].
Proof.
  unfold VnvmeAllocatePcieConfig, alloc, mbind, M_bind. destruct (ExAllocatePool2 _ _); [|done].
  destruct s as [? [] ? ? ? ?]. intros [= <-]. eexists. split; [reflexivity|]. by vm_compute.
Qed.

(** The identity is a function of eight bytes and the capability pointer. *)
Definition identity_byte (a : Z) : Prop := 0 <= a < 4 \/ 8 <= a < 12 \/ a = PCI_CAPABILITY_PTR.

Lemma load_identity c1 c2 a n :
  (forall b, identity_byte b -> rd8 c1 b = rd8 c2 b) ->
  (forall i, 0 <= i < Z.of_nat n -> identity_byte (a + i)) -> load_le c1 a n = load_le c2 a n.
Proof. intros H Hb. apply load_le_ext. intros i Hi. by apply H, Hb. Qed.

Lemma identity_ext c1 c2 : (forall a, identity_byte a -> rd8 c1 a = rd8 c2 a) -> identity c1 = identity c2.
Proof.
  intros H. unfold identity.
  rewrite (load_identity c1 c2 PCI_VENDOR_ID 2), (load_identity c1 c2 PCI_DEVICE_ID 2),
    (load_identity c1 c2 PCI_REVISION_ID 1), (load_identity c1 c2 PCI_CLASS_CODE 3),
    (load_identity c1 c2 PCI_CAPABILITY_PTR 1); try done.
  all: unfold identity_byte, PCI_VENDOR_ID, PCI_DEVICE_ID, PCI_REVISION_ID, PCI_CLASS_CODE, PCI_CAPABILITY_PTR; lia.
Qed.

Lemma identity_store config off v :
  off = PCI_COMMAND \/ off = 0x44 \/ off = 0x62 \/ off = 0x52 -> identity (store_le config off 2 v) = identity config.
Proof.
  intros Hoff. apply identity_ext. intros a Ha. apply rd8_store_out. change (Z.of_nat 2) with 2.
  unfold identity_byte, PCI_COMMAND, PCI_CAPABILITY_PTR in *. lia.
Qed.

(** An aligned transfer that starts on no protected register meets none. *)
Lemma identity_copy config Offset src Length :
  0 <= Offset -> Offset mod 4 = 0 -> Length <= 4 ->
  Offset <> PCI_VENDOR_ID -> Offset <> PCI_REVISION_ID -> Offset <> PCI_CAPABILITY_PTR ->
  identity (mem_copy config Offset src 0 Length) = identity config.
Proof.
  unfold PCI_VENDOR_ID, PCI_REVISION_ID, PCI_CAPABILITY_PTR. intros. apply identity_ext. intros a Ha.
  apply rd8_copy_out. unfold identity_byte, PCI_CAPABILITY_PTR in Ha. Z.div_mod_to_equations. lia.
Qed.

Lemma pcie_write_identity config Offset Length Buffer config' :
  0 <= Offset -> Offset mod 4 = 0 -> Length <= 4 ->
  pcie_write config Offset Length Buffer = Some config' -> identity config' = identity config.
Proof.
  intros Ho Hal Hlen. unfold pcie_write. destruct (in_block (blk_size Buffer) 0 2); cbn [mbind option_bind].
  all: repeat match goal with |- context [if ?b then _ else _] => destruct b eqn:? end; try done; intros [= <-]; try done.
  all: first [ apply identity_store | apply identity_copy; try done ].
  all: repeat match goal with
         | H : (_ && _) = true |- _ => apply andb_true_iff in H as [? ?]
         | H : (_ || _) = false |- _ => apply orb_false_iff in H as [? ?]
         | H : (_ =? _) = true |- _ => apply Z.eqb_eq in H
         | H : (_ =? _) = false |- _ => apply Z.eqb_neq in H
         end; auto.
Qed.

(** A configuration write of an aligned dword or less, of any value, leaves the
    function's identity (vendor, device, revision, class code, capability
    pointer) as it was, and never fails where the offset is in range. *)
Lemma VnvmeWritePcieConfig_identity (s : KState) config Offset Length Buffer :
  config_space s = Some config -> pdo_PcieConfigSize (ks_pdo s) = VNVME_PCIE_CONFIG_SIZE ->
  0 <= Offset -> Offset mod 4 = 0 -> 2 <= Length <= 4 -> Offset + Length <= VNVME_PCIE_CONFIG_SIZE ->
  blk_size Buffer = Length ->
  exists config' s', VnvmeWritePcieConfig Offset Length Buffer s = Ok (STATUS_SUCCESS, s') /\
    config_space s' = Some config' /\ identity config' = identity config.
Proof.
  intros Hc Hsz Ho Hal Hl Hend Hb. unfold config_space, VNVME_PCIE_CONFIG_SIZE in *.
  assert (exists config', pcie_write config Offset Length Buffer = Some config') as [config' Hw].
  { unfold pcie_write, VNVME_PCIE_CONFIG_SIZE. rewrite Hb, (in_block_true Length 0 2), (in_block_true 4096 Offset Length),
      (in_block_true Length 0 Length) by lia. cbn [mbind option_bind andb].
    repeat match goal with |- context [if ?b then _ else _] => destruct b end; eauto. }
  exists config', (s <| ks_pdo ::= fun p => p <| pdo_PcieConfig := Some config' |> |>).
  split; [|split; [done | by eapply pcie_write_identity, Hw; lia]].
  unfold VnvmeWritePcieConfig, mbind, M_bind, get. rewrite Hc, Hsz, u32_small by lia.
  rewrite (proj2 (Z.ltb_ge _ _)) by lia. by rewrite Hw.
Qed.

(** The registers a write treats in a way of its own. *)
Definition special_register (Offset : Z) : bool :=
  bool_decide (Offset ∈ [PCI_COMMAND; 0x44; 0x62; 0x52; PCI_VENDOR_ID; PCI_DEVICE_ID; PCI_REVISION_ID; PCI_CLASS_CODE; PCI_HEADER_TYPE; PCI_CAPABILITY_PTR]).

(** Through the interface: what SetBusData writes to any other register, GetBusData reads back. *)
Lemma bus_interface_set_get (s : KState) config i Size data buf Offset Length :
  VnvmePdoQueryInterface true Size 1 = (STATUS_SUCCESS, Some i) -> config_space s = Some config -> pdo_PcieConfigSize (ks_pdo s) = VNVME_PCIE_CONFIG_SIZE ->
  special_register Offset = false -> 0 <= Offset -> 0 < Length -> Offset + Length <= VNVME_PCIE_CONFIG_SIZE ->
  blk_size data = Length -> blk_size buf = Length ->
  exists s' buf', bi_SetBusData i PCI_WHICHSPACE_CONFIG data Offset Length s = Ok (Length, s') /\
    bi_GetBusData i (ks_pdo s') PCI_WHICHSPACE_CONFIG buf Offset Length = Some (Length, buf') /\
    forall k, 0 <= k < Length -> rd8 (blk_mem buf') k = rd8 (blk_mem data) k.
Proof.
  intros Hi Hc Hsz Hsp Ho Hl Hend Hd Hb. unfold VnvmePdoQueryInterface in Hi. cbn [negb orb Z.eqb] in Hi. destruct (Size <? _); [done|].
  injection Hi as <-. cbn [bi_SetBusData bi_GetBusData]. unfold config_space, VNVME_PCIE_CONFIG_SIZE in *.
  assert (pcie_write config Offset Length data = Some (mem_copy config Offset (blk_mem data) 0 Length)) as Hw.
  { apply bool_decide_eq_false in Hsp. rewrite !elem_of_cons in Hsp. unfold pcie_write.
    repeat match goal with |- context [Offset =? ?r] => rewrite (proj2 (Z.eqb_neq Offset r)) by naive_solver end.
    cbn [andb orb]. by rewrite Hd, (in_block_true VNVME_PCIE_CONFIG_SIZE), (in_block_true Length 0 Length) by (unfold VNVME_PCIE_CONFIG_SIZE; lia). }
  exists (s <| ks_pdo ::= fun p => p <| pdo_PcieConfig := Some (mem_copy config Offset (blk_mem data) 0 Length) |> |>),
    (Block Length (mem_copy (blk_mem buf) 0 (mem_copy config Offset (blk_mem data) 0 Length) Offset Length)). split; [|split].
  - unfold VnvmeInterfaceSetBusData. cbn [negb Z.eqb PCI_WHICHSPACE_CONFIG]. unfold VnvmeWritePcieConfig, mbind, M_bind, get. cbn.
    rewrite Hc, Hsz, u32_small by lia. rewrite (proj2 (Z.ltb_ge _ _)) by lia. by rewrite Hw.
  - unfold VnvmeInterfaceGetBusData, VnvmeReadPcieConfig. cbn. destruct s as [? [] ? ? ? ?]; cbn in *. rewrite Hsz, u32_small by lia.
    rewrite (proj2 (Z.ltb_ge _ _)), (in_block_true 4096) by lia. unfold blk_write. by rewrite Hb, in_block_true by lia.
  - intros k Hk. cbn [blk_mem]. rewrite rd8_copy_in by lia. rewrite rd8_copy_in by lia. f_equal. lia.
Qed.
End PcieConfig.

Section PcieConfigWitness.
#[local] Existing Instances TestKernel TestKernel_laws.

Definition pcie_test_state : KState := test_state zero_shm mem_zero.
Definition pcie_allocated : KState :=
  match VnvmeAllocatePcieConfig pcie_test_state with Ok (_, s) => s | _ => pcie_test_state end.

End PcieConfigWitness.
