(* ===== verification/AdminCmd.v ===== *)
(** Admin commands: [vnvme/admin_cmd.c].

    A handler takes the fetched command and posts its completion on the admin
    completion queue; the data an Identify or a Get Log Page returns is built
    in a pool block and copied to the host page PRP1 names. *)
From stdpp Require Import gmap.
From S2P Require Import Prelude NvmeSpec Kernel Config Storage State Shm Prp Queue.
Open Scope Z_scope.
Open Scope c_scope.

Section AdminCmd.
Context {W : WinKernel}.

(** ** Completions *)

Definition admin_completion (s : KState) (Cid Dw0 Sct Sc : Z) : NVME_COMPLETION :=
  zero_completion
    <| cpl_CID := Cid |> <| cpl_DW0 := Dw0 |> <| cpl_SQID := 0 |>
    <| cpl_SQHD := u16 (pdo_LastAdminSqTail (ks_pdo s)) |>
    <| cpl_Status := NvmeMakeStatus Sct Sc (u8 (pdo_AdminCqPhase (ks_pdo s))) |>.

Definition PostSuccessCompletion (Cid Dw0 : Z) : M KState NTSTATUS :=
  s ← get;
  VnvmePostCompletion 0 (admin_completion s Cid Dw0 0 0).

Definition PostErrorCompletion (Cid Sct Sc : Z) : M KState NTSTATUS :=
  s ← get;
  VnvmePostCompletion 0 (admin_completion s Cid 0 Sct Sc).

(** The end of the data commands: the block goes to PRP1, and the command
    completes with a transfer error or with success. *)
Definition return_data (Command : NVME_COMMAND) (data : mem) (Length : Z) : M KState NTSTATUS :=
  status ← VnvmeWriteToHostMemory (cmd_PRP1 Command) (Block Length data) Length;
  if negb (NT_SUCCESS status) then PostErrorCompletion (cmd_CID Command) NVME_SCT_GENERIC NVME_SC_DATA_TRANSFER_ERROR
  else PostSuccessCompletion (cmd_CID Command) 0.

(** ** Identify *)

(** NVME_IDENTIFY_CONTROLLER_DATA as HandleIdentifyController fills it in. *)
Definition identify_controller_data (p : VNVME_PDO_CONTEXT) : mem :=
  let m := store_all [(0x00, 2%nat, 0x1B36); (0x02, 2%nat, 0x1B36)] mem_zero in
  let m := mem_copy m 0x04 (str_mem "VNVME00000000001    ") 0 20 in
  let m := mem_copy m 0x18 (str_mem "Virtual NVMe Controller                 ") 0 40 in
  let m := mem_copy m 0x40 (str_mem "1.0.0   ") 0 8 in
  store_all
    [ (0x48, 1%nat, 6); (0x4D, 1%nat, 5); (0x4E, 2%nat, u16 (pdo_ControllerId p)); (0x50, 4%nat, 0x00010400);
      (0x100, 2%nat, 0x0006); (0x102, 1%nat, 3); (0x103, 1%nat, 3); (0x104, 1%nat, 0x02); (0x105, 1%nat, 0x00);
      (0x106, 1%nat, 63); (0x107, 1%nat, 0);
      (0x200, 1%nat, 0x66); (0x201, 1%nat, 0x44);
      (0x204, 4%nat, if 0 <? pdo_NamespaceCount p then pdo_NamespaceCount p else 1);
      (0x208, 2%nat, 0x001F); (0x20D, 1%nat, 0x01); (0x20E, 2%nat, 0); (0x210, 2%nat, 0) ] m.

Definition HandleIdentifyController (Command : NVME_COMMAND) : M KState NTSTATUS :=
  ok ← alloc 4096;
  if negb ok then PostErrorCompletion (cmd_CID Command) NVME_SCT_GENERIC NVME_SC_INTERNAL_ERROR
  else
    s ← get;
    return_data Command (identify_controller_data (ks_pdo s)) 4096.

(** NVME_IDENTIFY_NAMESPACE_DATA; the last two stores are the bit-fields of LBAF[0]. *)
Definition identify_namespace_data (ns : VNVME_NAMESPACE) : mem :=
  let NSFEAT := if ns_ThinProvisioned ns then Z.lor (ns_NsFeatures ns) 0x01 else ns_NsFeatures ns in
  let m := store_all
    [ (0x00, 8%nat, ns_TotalBlocks ns); (0x08, 8%nat, ns_TotalBlocks ns); (0x10, 8%nat, ns_TotalBlocks ns);
      (0x18, 1%nat, NSFEAT); (0x19, 1%nat, ns_NumberOfLbaFormats ns); (0x1A, 1%nat, ns_FormattedLbaSize ns);
      (0x1B, 1%nat, 0); (0x1C, 1%nat, 0); (0x1D, 1%nat, 0) ] mem_zero in
  let m := mem_copy m 0x68 (bytes_mem (ns_Nguid ns)) 0 16 in
  let m := mem_copy m 0x78 (bytes_mem (ns_Eui64 ns)) 0 8 in
  store_all [ (0x82, 1%nat, if ns_BlockSize ns =? 4096 then 12 else 9); (0x80, 2%nat, 0); (0x83, 1%nat, 0) ] m.

Definition HandleIdentifyNamespace (Command : NVME_COMMAND) : M KState NTSTATUS :=
  let nsid := cmd_NSID Command in
  let fail sc := PostErrorCompletion (cmd_CID Command) NVME_SCT_GENERIC sc in
  if negb (VNVME_NSID_VALID nsid) then fail NVME_SC_INVALID_NAMESPACE
  else
    s ← get;
    ns ← of_opt (arr_get (pdo_Namespaces (ks_pdo s)) (VNVME_NSID_TO_INDEX nsid));
    if negb (ns_Active ns) then fail NVME_SC_INVALID_NAMESPACE
    else
      ok ← alloc 4096;
      if negb ok then fail NVME_SC_INTERNAL_ERROR
      else return_data Command (identify_namespace_data ns) 4096.

(** The loop of HandleIdentifyActiveNsList; [n] is [VNVME_MAX_NAMESPACES - i]. *)
Fixpoint active_ns_loop (n : nat) (Namespaces : list VNVME_NAMESPACE) (i index : Z) (nsList : mem) : option mem :=
  match n with
  | O => Some nsList
  | S n =>
      if negb (index <? 1024) then Some nsList
      else
        ns ← arr_get Namespaces i;
        if ns_Active ns then active_ns_loop n Namespaces (i + 1) (index + 1) (store_le nsList (index * 4) 4 (i + 1))
        else active_ns_loop n Namespaces (i + 1) index nsList
  end.

Definition HandleIdentifyActiveNsList (Command : NVME_COMMAND) : M KState NTSTATUS :=
  let startNsid := cmd_NSID Command in
  ok ← alloc VNVME_NVME_PAGE_SIZE;
  if negb ok then PostErrorCompletion (cmd_CID Command) NVME_SCT_GENERIC NVME_SC_INTERNAL_ERROR
  else
    s ← get;
    nsList ← of_opt (active_ns_loop (Z.to_nat (VNVME_MAX_NAMESPACES - startNsid)) (pdo_Namespaces (ks_pdo s)) startNsid 0 mem_zero);
    return_data Command nsList VNVME_NVME_PAGE_SIZE.

Definition HandleIdentify (Command : NVME_COMMAND) : M KState NTSTATUS :=
  let cns := Z.land (cmd_CDW10 Command) 0xFF in
  if cns =? 0x00 then HandleIdentifyNamespace Command
  else if cns =? 0x01 then HandleIdentifyController Command
  else if cns =? 0x02 then HandleIdentifyActiveNsList Command
  else PostErrorCompletion (cmd_CID Command) NVME_SCT_GENERIC NVME_SC_INVALID_FIELD.

(** ** Queue management *)

Definition cdw_low (cdw : Z) : Z := Z.land cdw 0xFFFF.
Definition cdw_high (cdw : Z) : Z := Z.land (Z.shiftr cdw 16) 0xFFFF.

Definition HandleCreateIoCq (Command : NVME_COMMAND) : M KState NTSTATUS :=
  let qid := cdw_low (cmd_CDW10 Command) in
  let qsize := cdw_high (cmd_CDW10 Command) +₁₆ 1 in
  let fail sc := PostErrorCompletion (cmd_CID Command) NVME_SCT_COMMAND sc in
  if negb (VNVME_IO_QUEUE_ID_VALID qid) then fail NVME_SC_INVALID_QUEUE_ID
  else if qsize <? 2 then fail NVME_SC_INVALID_QUEUE_SIZE
  else
    s ← get;
    cq ← of_opt (arr_get (pdo_IoCq (ks_pdo s)) (VNVME_QUEUE_ID_TO_INDEX qid));
    if qs_Created cq then fail NVME_SC_INVALID_QUEUE_ID
    else
      iocq_update (VNVME_QUEUE_ID_TO_INDEX qid) (fun q => q
        <| qs_BaseAddress := cmd_PRP1 Command |> <| qs_Size := qsize |> <| qs_Head := 0 |> <| qs_Tail := 0 |>
        <| qs_PhaseTag := true |> <| qs_Created := true |>);;
      PostSuccessCompletion (cmd_CID Command) 0.

Definition HandleCreateIoSq (Command : NVME_COMMAND) : M KState NTSTATUS :=
  let qid := cdw_low (cmd_CDW10 Command) in
  let qsize := cdw_high (cmd_CDW10 Command) +₁₆ 1 in
  let cqid := cdw_high (cmd_CDW11 Command) in
  let fail sc := PostErrorCompletion (cmd_CID Command) NVME_SCT_COMMAND sc in
  if negb (VNVME_IO_QUEUE_ID_VALID qid) then fail NVME_SC_INVALID_QUEUE_ID
  else if qsize <? 2 then fail NVME_SC_INVALID_QUEUE_SIZE
  else if negb (VNVME_IO_QUEUE_ID_VALID cqid) then fail NVME_SC_CQ_INVALID
  else
    s ← get;
    cq ← of_opt (arr_get (pdo_IoCq (ks_pdo s)) (VNVME_QUEUE_ID_TO_INDEX cqid));
    if negb (qs_Created cq) then fail NVME_SC_CQ_INVALID
    else
      sq ← of_opt (arr_get (pdo_IoSq (ks_pdo s)) (VNVME_QUEUE_ID_TO_INDEX qid));
      if qs_Created sq then fail NVME_SC_INVALID_QUEUE_ID
      else
        iosq_update (VNVME_QUEUE_ID_TO_INDEX qid) (fun q => q
          <| qs_BaseAddress := cmd_PRP1 Command |> <| qs_Size := qsize |> <| qs_Head := 0 |> <| qs_Tail := 0 |>
          <| qs_CqId := cqid |> <| qs_Created := true |>);;
        pdo_update (fun p => if pdo_IoQueueCount p <? qid then p <| pdo_IoQueueCount := qid |> else p);;
        PostSuccessCompletion (cmd_CID Command) 0.

Definition HandleDeleteIoCq (Command : NVME_COMMAND) : M KState NTSTATUS :=
  let qid := cdw_low (cmd_CDW10 Command) in
  let fail sc := PostErrorCompletion (cmd_CID Command) NVME_SCT_COMMAND sc in
  if negb (VNVME_IO_QUEUE_ID_VALID qid) then fail NVME_SC_INVALID_QUEUE_ID
  else
    s ← get;
    cq ← of_opt (arr_get (pdo_IoCq (ks_pdo s)) (VNVME_QUEUE_ID_TO_INDEX qid));
    if negb (qs_Created cq) then fail NVME_SC_INVALID_QUEUE_ID
    else if existsb (fun q => qs_Created q && (qs_CqId q =? qid)) (pdo_IoSq (ks_pdo s)) then fail NVME_SC_INVALID_QUEUE_DELETION
    else
      iocq_update (VNVME_QUEUE_ID_TO_INDEX qid) (fun _ => zero_queue);;
      PostSuccessCompletion (cmd_CID Command) 0.

Definition HandleDeleteIoSq (Command : NVME_COMMAND) : M KState NTSTATUS :=
  let qid := cdw_low (cmd_CDW10 Command) in
  let fail sc := PostErrorCompletion (cmd_CID Command) NVME_SCT_COMMAND sc in
  if negb (VNVME_IO_QUEUE_ID_VALID qid) then fail NVME_SC_INVALID_QUEUE_ID
  else
    s ← get;
    sq ← of_opt (arr_get (pdo_IoSq (ks_pdo s)) (VNVME_QUEUE_ID_TO_INDEX qid));
    if negb (qs_Created sq) then fail NVME_SC_INVALID_QUEUE_ID
    else
      iosq_update (VNVME_QUEUE_ID_TO_INDEX qid) (fun _ => zero_queue);;
      PostSuccessCompletion (cmd_CID Command) 0.

(** ** Features *)

Definition HandleSetFeatures (Command : NVME_COMMAND) : M KState NTSTATUS :=
  let fid := Z.land (cmd_CDW10 Command) 0xFF in
  let cid := cmd_CID Command in
  if (fid =? 0x01) || (fid =? 0x02) || (fid =? 0x04) || (fid =? 0x05) || (fid =? 0x06) then PostSuccessCompletion cid 0
  else if fid =? 0x07 then
    s ← get;
    let ncqr := cdw_low (cmd_CDW11 Command) in
    let nsqr := cdw_high (cmd_CDW11 Command) in
    let maxQueues := u16 (CONFIG_MAX_IO_QUEUES s) in
    let ncqa := if maxQueues <? ncqr then maxQueues else ncqr in
    let nsqa := if maxQueues <? nsqr then maxQueues else nsqr in
    pdo_update (fun p => p <| pdo_MaxIoQueues := if ncqa <? nsqa then ncqa else nsqa |>);;
    PostSuccessCompletion cid (Z.lor ncqa (u32 (Z.shiftl nsqa 16)))
  else if (fid =? 0x0B) || (fid =? 0x0C) then PostSuccessCompletion cid 0
  else PostErrorCompletion cid NVME_SCT_GENERIC NVME_SC_INVALID_FIELD.

(** DW0 of the completion of a Get Features, when the feature is known. *)
Definition feature_value (p : VNVME_PDO_CONTEXT) (fid : Z) : option Z :=
  if fid =? 0x01 then Some 0x00000000
  else if fid =? 0x02 then Some 0x00000000
  else if fid =? 0x04 then Some 0x0157
  else if fid =? 0x05 then Some 0x00000000
  else if fid =? 0x06 then Some 0x00000001
  else if fid =? 0x07 then Some (Z.lor (pdo_MaxIoQueues p) (u32 (Z.shiftl (pdo_MaxIoQueues p) 16)))
  else if fid =? 0x0B then Some 0x00000000
  else None.

Definition HandleGetFeatures (Command : NVME_COMMAND) : M KState NTSTATUS :=
  s ← get;
  match feature_value (ks_pdo s) (Z.land (cmd_CDW10 Command) 0xFF) with
  | Some dw0 => PostSuccessCompletion (cmd_CID Command) dw0
  | None => PostErrorCompletion (cmd_CID Command) NVME_SCT_GENERIC NVME_SC_INVALID_FIELD
  end.

(** ** The other commands *)

Definition HandleAbort (Command : NVME_COMMAND) : M KState NTSTATUS := PostSuccessCompletion (cmd_CID Command) 1.

Definition HandleAsyncEventRequest (Command : NVME_COMMAND) : M KState NTSTATUS :=
  s ← get;
  if VNVME_MAX_AER_COMMANDS <=? pdo_AerCount (ks_pdo s) then
    PostErrorCompletion (cmd_CID Command) NVME_SCT_COMMAND NVME_SC_ASYNC_EVENT_LIMIT_EXCEEDED
  else
    l ← of_opt (arr_set (pdo_AerCids (ks_pdo s)) (pdo_AerCount (ks_pdo s)) (cmd_CID Command));
    pdo_update (fun p => p <| pdo_AerCids := l |> <| pdo_AerCount ::= fun n => n +₁₆ 1 |>);;
    mret STATUS_SUCCESS.

(** The SMART and the firmware slot log, in a zeroed block of [dataLength] bytes. *)
Definition smart_log (dataLength : Z) : mem :=
  if 512 <=? dataLength then
    store_all [ (0, 1%nat, 0); (1, 1%nat, 0x2A); (2, 1%nat, 0x01); (3, 1%nat, 100); (4, 1%nat, 10); (5, 1%nat, 0);
                (128, 1%nat, 1); (144, 1%nat, 1) ] mem_zero
  else mem_zero.
Definition firmware_log (dataLength : Z) : mem :=
  if 512 <=? dataLength then mem_copy (store_all [ (0, 1%nat, 0x01) ] mem_zero) 8 (str_mem "1.0.0   ") 0 8
  else mem_zero.

(** [(numDwords + 1) * 4], at most a page. *)
Definition log_length (Command : NVME_COMMAND) : Z :=
  let numDwords := Z.lor (u32 (Z.shiftl (cdw_low (cmd_CDW11 Command)) 16)) (cdw_high (cmd_CDW10 Command)) in
  let dataLength := (numDwords +₃₂ 1) *₃₂ 4 in
  if VNVME_NVME_PAGE_SIZE <? dataLength then VNVME_NVME_PAGE_SIZE else dataLength.

Definition HandleGetLogPage (Command : NVME_COMMAND) : M KState NTSTATUS :=
  let lid := Z.land (cmd_CDW10 Command) 0xFF in
  let dataLength := log_length Command in
  ok ← alloc dataLength;
  if negb ok then PostErrorCompletion (cmd_CID Command) NVME_SCT_GENERIC NVME_SC_INTERNAL_ERROR
  else if lid =? 0x01 then return_data Command mem_zero dataLength
  else if lid =? 0x02 then return_data Command (smart_log dataLength) dataLength
  else if lid =? 0x03 then return_data Command (firmware_log dataLength) dataLength
  else PostErrorCompletion (cmd_CID Command) NVME_SCT_GENERIC NVME_SC_INVALID_LOG_PAGE.

Definition HandleKeepAlive (Command : NVME_COMMAND) : M KState NTSTATUS := PostSuccessCompletion (cmd_CID Command) 0.

(** ** Dispatch *)

Definition admin_dispatch (Command : NVME_COMMAND) : M KState NTSTATUS :=
  let opc := cmd_OPC Command in
  if opc =? NVME_ADMIN_IDENTIFY then HandleIdentify Command
  else if opc =? NVME_ADMIN_CREATE_IO_CQ then HandleCreateIoCq Command
  else if opc =? NVME_ADMIN_CREATE_IO_SQ then HandleCreateIoSq Command
  else if opc =? NVME_ADMIN_DELETE_IO_CQ then HandleDeleteIoCq Command
  else if opc =? NVME_ADMIN_DELETE_IO_SQ then HandleDeleteIoSq Command
  else if opc =? NVME_ADMIN_SET_FEATURES then HandleSetFeatures Command
  else if opc =? NVME_ADMIN_GET_FEATURES then HandleGetFeatures Command
  else if opc =? NVME_ADMIN_ABORT then HandleAbort Command
  else if opc =? NVME_ADMIN_ASYNC_EVENT_REQUEST then HandleAsyncEventRequest Command
  else if opc =? NVME_ADMIN_KEEP_ALIVE then HandleKeepAlive Command
  else if opc =? NVME_ADMIN_GET_LOG_PAGE then HandleGetLogPage Command
  else PostErrorCompletion (cmd_CID Command) NVME_SCT_GENERIC NVME_SC_INVALID_OPCODE.

Definition VnvmeProcessAdminCommand (Command : NVME_COMMAND) : M KState NTSTATUS :=
  status ← admin_dispatch Command;
  pdo_update (fun p => p <| pdo_AdminCommandsProcessed ::= fun n => s64 (n + 1) |>);;
  mret status.

(** The loop [while (head != tail)]. *)
Fixpoint admin_loop (fuel : nat) (head tail queueSize : Z) : M KState unit :=
  if head =? tail then mret tt
  else match fuel with
  | O => out_of_fuel
  | S fuel =>
      r ← VnvmeFetchCommand 0;
      if negb (NT_SUCCESS r.1) then mret tt
      else
        VnvmeProcessAdminCommand r.2;;
        let head := (head +₃₂ 1) mod queueSize in
        pdo_update (fun p => p <| pdo_AdminSq ::= fun q => q <| qs_Head := head |> |>);;
        admin_loop fuel head tail queueSize
  end.

Definition VnvmeProcessAdminCommands (fuel : nat) (NewTail : Z) : M KState unit :=
  s ← get;
  let queueSize := pdo_AdminSqSize (ks_pdo s) in
  if queueSize =? 0 then mret tt
  else admin_loop fuel (qs_Head (pdo_AdminSq (ks_pdo s))) NewTail queueSize.

(** ** Asynchronous events *)

(** The loop that shifts the stored identifiers down; [n] is [AerCount - 1 - i]. *)
Fixpoint aer_shift (n : nat) (i : Z) (AerCids : list Z) : option (list Z) :=
  match n with
  | O => Some AerCids
  | S n =>
      x ← arr_get AerCids (i + 1);
      l ← arr_set AerCids i x;
      aer_shift n (i + 1) l
  end.

Definition VnvmeCompleteAer (EventType EventInfo LogPage : Z) : M KState NTSTATUS :=
  s ← get;
  if pdo_AerCount (ks_pdo s) =? 0 then mret STATUS_UNSUCCESSFUL
  else
    cid ← of_opt (arr_get (pdo_AerCids (ks_pdo s)) 0);
    l ← of_opt (aer_shift (Z.to_nat (pdo_AerCount (ks_pdo s) - 1)) 0 (pdo_AerCids (ks_pdo s)));
    pdo_update (fun p => p <| pdo_AerCids := l |> <| pdo_AerCount ::= fun n => n - 1 |>);;
    let dw0 := Z.lor (Z.lor (Z.land EventType 0x7) (Z.shiftl (Z.land EventInfo 0xFF) 8)) (Z.shiftl (Z.land LogPage 0xFF) 16) in
    PostSuccessCompletion cid dw0.

(** ** What a completion leaves alone *)

(** The state after an admin post: only the shared memory and the driver's copy
    of the admin completion queue may differ. *)
Lemma posted_admin c s s' :
  posted 0 c s s' -> exists fd q, s' = s <| ks_fdo := fd |> <| ks_pdo ::= fun p => p <| pdo_AdminCq := q |> |>.
Proof.
  intros [->|(v & _ & _ & ->)].
  - exists (ks_fdo s), (pdo_AdminCq (ks_pdo s)). by destruct s as [? [] ? ? ? ?].
  - unfold cq_set. eexists _, _. unfold put_cq_state. cbn [Z.eqb]. by destruct s as [? [] ? ? ? ?].
Qed.

(** Whether a post is harmless depends on the shared memory, the configuration
    and the copy of the queue. *)
Lemma post_ok_admin s s' :
  ks_fdo s' = ks_fdo s -> pdo_AdminCq (ks_pdo s') = pdo_AdminCq (ks_pdo s) -> post_ok 0 s -> post_ok 0 s'.
Proof.
  intros Hf Hq [_ _ Hw]. split; [by left | by left |]. intros v. unfold cq_view, VnvmeShmGetControlBlock. cbn.
  rewrite Hf, Hq. apply Hw.
Qed.

(** ** The state of the admin command set *)

Definition cq_live (p : VNVME_PDO_CONTEXT) (qid : Z) : Prop :=
  exists q, arr_get (pdo_IoCq p) (VNVME_QUEUE_ID_TO_INDEX qid) = Some q /\ qs_Created q = true.
Definition sq_bound (p : VNVME_PDO_CONTEXT) (qid cqid : Z) : Prop :=
  exists q, arr_get (pdo_IoSq p) (VNVME_QUEUE_ID_TO_INDEX qid) = Some q /\ qs_Created q = true /\ qs_CqId q = cqid.

(** The arrays have their C lengths, the count of stored events is within its
    array, and no submission queue outlives its completion queue. *)
Record pdo_inv (p : VNVME_PDO_CONTEXT) : Prop := {
  pi_shape : pdo_shape p;
  pi_aer : 0 <= pdo_AerCount p <= VNVME_MAX_AER_COMMANDS;
  pi_refs qid cqid : sq_bound p qid cqid -> cq_live p cqid
}.

Record admin_inv (s : KState) : Prop := {
  ai_post : post_ok 0 s;
  ai_pdo : pdo_inv (ks_pdo s)
}.

Lemma pdo_inv_cq p q : pdo_inv p -> pdo_inv (p <| pdo_AdminCq := q |>).
Proof. destruct p. intros [? ? ?]. by split. Qed.

Lemma admin_inv_step s s' :
  ks_fdo s' = ks_fdo s -> pdo_AdminCq (ks_pdo s') = pdo_AdminCq (ks_pdo s) -> pdo_inv (ks_pdo s') ->
  admin_inv s -> admin_inv s'.
Proof. intros Hf Hq Hp [H1 H2]. split; [by apply (post_ok_admin s) | done]. Qed.

(** The admin submission queue and how much is in it. *)
Definition admin_sq_count (s : KState) (n : nat) : Prop :=
  sq_ready 0 s /\ exists l, sq_contents 0 s = Some l /\ length l = n.

Lemma sq_desc_cq_set v s : sq_ready 0 s -> forall n, admin_sq_count s n -> admin_sq_count (cq_set 0 v s) n.
Proof.
  intros (_ & (m & d & Hm & Hd & Hwf) & _) n (_ & l & Hl & Hn).
  rewrite (sq_contents_eq _ _ _ _ Hm Hd) in Hl. injection Hl as <-.
  destruct (shm_state_inv _ _ Hm) as (fd & Hfd & Hs).
  assert (exists m', VnvmeShmGetControlBlock (cq_set 0 v s) = Some m' /\ sq_desc m' 0 = Some d) as (m' & Hm' & Hd').
  { unfold cq_set, VnvmeShmGetControlBlock. destruct s as [f ? ? ? ? ?]; cbn in *. rewrite Hfd. unset. rewrite Hs. cbn.
    eexists. split; [done|]. rewrite <- Hd. by destruct m as [[] ? ? ?]. }
  split; [split; [by left|split; [by exists m', d | by left]]|]. eexists. split; [by apply sq_contents_eq|].
  rewrite <- Hn. unfold sq_pending. by rewrite !length_fmap.
Qed.
(** One step of a handler: the invariant holds, and the submission queue has as
    many commands as before. *)
Definition adv (s s' : KState) : Prop := admin_inv s' /\ forall n, admin_sq_count s n -> admin_sq_count s' n.

Lemma adv_step s s' :
  ks_fdo s' = ks_fdo s -> pdo_AdminCq (ks_pdo s') = pdo_AdminCq (ks_pdo s) -> pdo_inv (ks_pdo s') ->
  admin_inv s -> adv s s'.
Proof.
  intros Hf Hq Hp Hs. split; [by apply (admin_inv_step s)|]. intros n ((_ & (m & d & Hm & Hd & Hwf) & _) & l & Hl & Hn).
  assert (VnvmeShmGetControlBlock s' = Some m) as Hm' by (rewrite <- Hm; unfold VnvmeShmGetControlBlock; by rewrite Hf).
  rewrite (sq_contents_eq _ _ _ _ Hm Hd) in Hl. split; [split; [by left|split; [by exists m, d | by left]]|].
  exists l. split; [|done]. by rewrite (sq_contents_eq _ _ _ _ Hm' Hd).
Qed.

Lemma adv_refl s : admin_inv s -> adv s s.
Proof. by split. Qed.

Lemma adv_trans s1 s2 s3 : adv s1 s2 -> adv s2 s3 -> adv s1 s3.
Proof. intros [_ H1] [? H2]. split; auto. Qed.

Lemma adv_tick s : admin_inv s -> adv s (s <| ks_tick ::= S |>).
Proof. intros H. apply adv_step; [by destruct s..| |done]. destruct s. by destruct H. Qed.

(** [keeps_inv m]: [m] comes back, whatever the state of the controller, and is
    such a step. *)
Definition keeps_inv {A} (m : M KState A) : Prop := forall s, admin_inv s -> wp m s (fun _ s' => adv s s').

Lemma post_keeps c : keeps_inv (VnvmePostCompletion 0 c).
Proof.
  intros s [H1 H2]. destruct (VnvmePostCompletion_total 0 c s H1) as (st & s' & Hp & Hs & Hok).
  apply (wp_intro _ _ _ _ _ Hp). split.
  - destruct (posted_admin _ _ _ Hs) as (fd & q & ->). split; [done|]. destruct s. by apply pdo_inv_cq.
  - intros n Hn. destruct Hs as [->|(v & _ & _ & ->)]; [done|]. apply sq_desc_cq_set; [by destruct Hn|done].
Qed.

Lemma bind_keeps {A B} (m : M KState A) (f : A -> M KState B) : keeps_inv m -> (forall a, keeps_inv (f a)) -> keeps_inv (m ≫= f).
Proof.
  intros Hm Hf s Hs. apply wp_bind. apply (wp_mono _ _ _ _ (Hm s Hs)). intros a s1 Hs1.
  eapply wp_mono; [apply Hf, Hs1|]. intros b s2. by apply adv_trans.
Qed.

Lemma get_keeps {B} (f : KState -> M KState B) :
  (forall s, admin_inv s -> wp (f s) s (fun _ s' => adv s s')) -> keeps_inv (get ≫= f).
Proof. intros Hf s Hs. apply wp_bind, wp_get. by apply Hf. Qed.

Lemma ret_keeps {A} (a : A) : keeps_inv (mret a).
Proof. intros s Hs. by apply wp_ret, adv_refl. Qed.

Lemma success_keeps cid dw0 : keeps_inv (PostSuccessCompletion cid dw0).
Proof. apply get_keeps. intros s Hs. by apply post_keeps. Qed.

Lemma error_keeps cid sct sc : keeps_inv (PostErrorCompletion cid sct sc).
Proof. apply get_keeps. intros s Hs. by apply post_keeps. Qed.

Lemma alloc_keeps n : keeps_inv (alloc n).
Proof. intros s Hs. by apply adv_tick. Qed.

Lemma map_io_keeps pa n : keeps_inv (map_io pa n).
Proof. intros s Hs. by apply adv_tick. Qed.

Lemma if_keeps {A} (b : bool) (m1 m2 : M KState A) : keeps_inv m1 -> keeps_inv m2 -> keeps_inv (if b then m1 else m2).
Proof. by destruct b. Qed.

Lemma write_host_keeps pa data n : keeps_inv (VnvmeWriteToHostMemory pa (Block n data) n).
Proof.
  unfold VnvmeWriteToHostMemory. repeat apply if_keeps; try apply ret_keeps.
  apply bind_keeps; [apply map_io_keeps|]. intros ok. apply if_keeps; [apply ret_keeps|]. cbn [blk_size].
  assert (in_block n 0 n = true) as ->.
  { unfold in_block. destruct (Z.leb_spec n 0); [done|]. simpl. apply Z.leb_refl. }
  cbn [negb]. apply bind_keeps; [|intros; apply ret_keeps]. intros s Hs. apply wp_modify.
  apply adv_step; [by destruct s..| |done]. destruct s. by destruct Hs.
Qed.

(** Split on the conditions of the code. *)
Ltac keeps_ifs := repeat match goal with |- keeps_inv (if _ then _ else _) => apply if_keeps end.

Create HintDb keeps.
#[local] Hint Resolve success_keeps error_keeps alloc_keeps map_io_keeps write_host_keeps ret_keeps if_keeps bind_keeps : keeps.

Lemma return_data_keeps c data n : keeps_inv (return_data c data n).
Proof. unfold return_data. auto with keeps. Qed.
#[local] Hint Resolve return_data_keeps : keeps.

Lemma active_ns_loop_ok l n : forall i index m,
  length l = 16%nat -> 0 <= i -> n = 0%nat \/ i + Z.of_nat n <= 16 -> is_Some (active_ns_loop n l i index m).
Proof.
  induction n as [|n IH]; intros i index m Hl Hi Hn; cbn [active_ns_loop]; [by eexists|].
  destruct (negb _); [by eexists|]. destruct (proj2 (arr_get_Some_iff l i)) as [ns ->]; [lia|]. cbn.
  destruct (ns_Active ns); apply IH; lia.
Qed.

Lemma HandleIdentify_keeps c : 0 <= cmd_NSID c -> keeps_inv (HandleIdentify c).
Proof.
  intros Hn. unfold HandleIdentify. cbv zeta. keeps_ifs; [| | |apply error_keeps].
  - unfold HandleIdentifyNamespace. destruct (VNVME_NSID_VALID (cmd_NSID c)) eqn:Hv; cbn [negb]; [|apply error_keeps].
    apply get_keeps. intros s Hs. unfold VNVME_NSID_VALID in Hv. apply andb_true_iff in Hv as [?%Z.ltb_lt ?%Z.leb_le].
    destruct (proj2 (arr_get_Some_iff (pdo_Namespaces (ks_pdo s)) (VNVME_NSID_TO_INDEX (cmd_NSID c)))) as [ns Hns].
    { destruct Hs as [_ [(_ & _ & _ & ->) _ _]]. unfold VNVME_NSID_TO_INDEX, VNVME_MAX_NAMESPACES in *. lia. }
    apply wp_bind. eapply wp_of_opt; [done|]. cbv beta.
    enough (keeps_inv (if negb (ns_Active ns) then PostErrorCompletion (cmd_CID c) NVME_SCT_GENERIC NVME_SC_INVALID_NAMESPACE
      else ok ← alloc 4096; if negb ok then PostErrorCompletion (cmd_CID c) NVME_SCT_GENERIC NVME_SC_INTERNAL_ERROR
      else return_data c (identify_namespace_data ns) 4096)) as Hk by (by apply Hk).
    auto 8 with keeps.
  - unfold HandleIdentifyController. apply bind_keeps; [apply alloc_keeps|]. intros ok. apply if_keeps; [apply error_keeps|].
    apply get_keeps. intros s Hs. by apply return_data_keeps.
  - unfold HandleIdentifyActiveNsList. apply bind_keeps; [apply alloc_keeps|]. intros ok. apply if_keeps; [apply error_keeps|].
    apply get_keeps. intros s Hs. destruct (active_ns_loop_ok (pdo_Namespaces (ks_pdo s))
      (Z.to_nat (VNVME_MAX_NAMESPACES - cmd_NSID c)) (cmd_NSID c) 0 mem_zero) as [m Hm]; [|done| |].
    { by destruct Hs as [_ [(_ & _ & _ & ?) _ _]]. }
    { change VNVME_MAX_NAMESPACES with 16. lia. }
    apply wp_bind. eapply wp_of_opt; [done|]. by apply return_data_keeps.
Qed.

(** ** The queues as a table

    The specification of the four queue commands: the identifiers of the
    completion queues, and the completion queue of each submission queue. *)

Record QueueTable := mkTable { qt_cqs : gset Z; qt_sqs : gmap Z Z }.

Definition represents (p : VNVME_PDO_CONTEXT) (T : QueueTable) : Prop :=
  (forall qid, qid ∈ qt_cqs T <-> cq_live p qid) /\
  (forall qid cqid, qt_sqs T !! qid = Some cqid <-> sq_bound p qid cqid).

Definition valid_queue (q : Z) : bool := bool_decide (1 <= q <= VNVME_MAX_IO_QUEUES).

(** A 0-based size of at least one entry more than the first; the largest
    16-bit one is refused, as the handlers wrap it around. *)
Definition valid_size (last : Z) : bool := bool_decide (1 <= last < 0xFFFF).

(** Each command: status code type, status code, and the table afterwards. *)
Definition create_cq (qid last : Z) (T : QueueTable) : Z * Z * QueueTable :=
  if negb (valid_queue qid) then (NVME_SCT_COMMAND, NVME_SC_INVALID_QUEUE_ID, T)
  else if negb (valid_size last) then (NVME_SCT_COMMAND, NVME_SC_INVALID_QUEUE_SIZE, T)
  else if bool_decide (qid ∈ qt_cqs T) then (NVME_SCT_COMMAND, NVME_SC_INVALID_QUEUE_ID, T)
  else (0, 0, mkTable ({[qid]} ∪ qt_cqs T) (qt_sqs T)).

Definition create_sq (qid last cqid : Z) (T : QueueTable) : Z * Z * QueueTable :=
  if negb (valid_queue qid) then (NVME_SCT_COMMAND, NVME_SC_INVALID_QUEUE_ID, T)
  else if negb (valid_size last) then (NVME_SCT_COMMAND, NVME_SC_INVALID_QUEUE_SIZE, T)
  else if negb (valid_queue cqid && bool_decide (cqid ∈ qt_cqs T)) then (NVME_SCT_COMMAND, NVME_SC_CQ_INVALID, T)
  else if bool_decide (is_Some (qt_sqs T !! qid)) then (NVME_SCT_COMMAND, NVME_SC_INVALID_QUEUE_ID, T)
  else (0, 0, mkTable (qt_cqs T) (<[qid := cqid]> (qt_sqs T))).

Definition delete_cq (qid : Z) (T : QueueTable) : Z * Z * QueueTable :=
  if negb (valid_queue qid && bool_decide (qid ∈ qt_cqs T)) then (NVME_SCT_COMMAND, NVME_SC_INVALID_QUEUE_ID, T)
  else if bool_decide (map_Exists (fun _ cq => cq = qid) (qt_sqs T)) then (NVME_SCT_COMMAND, NVME_SC_INVALID_QUEUE_DELETION, T)
  else (0, 0, mkTable (qt_cqs T ∖ {[qid]}) (qt_sqs T)).

Definition delete_sq (qid : Z) (T : QueueTable) : Z * Z * QueueTable :=
  if negb (valid_queue qid && bool_decide (is_Some (qt_sqs T !! qid))) then (NVME_SCT_COMMAND, NVME_SC_INVALID_QUEUE_ID, T)
  else (0, 0, mkTable (qt_cqs T) (delete qid (qt_sqs T))).

Definition queue_op (c : NVME_COMMAND) (T : QueueTable) : option (Z * Z * QueueTable) :=
  let qid := cdw_low (cmd_CDW10 c) in
  let last := cdw_high (cmd_CDW10 c) in
  if cmd_OPC c =? NVME_ADMIN_CREATE_IO_CQ then Some (create_cq qid last T)
  else if cmd_OPC c =? NVME_ADMIN_CREATE_IO_SQ then Some (create_sq qid last (cdw_high (cmd_CDW11 c)) T)
  else if cmd_OPC c =? NVME_ADMIN_DELETE_IO_CQ then Some (delete_cq qid T)
  else if cmd_OPC c =? NVME_ADMIN_DELETE_IO_SQ then Some (delete_sq qid T)
  else None.

(** No submission queue of the table uses a completion queue that is not in it. *)
Definition table_ok (T : QueueTable) : Prop := forall qid cqid, qt_sqs T !! qid = Some cqid -> cqid ∈ qt_cqs T.

Lemma queue_op_ok c T r : queue_op c T = Some r -> table_ok T -> table_ok r.2.
Proof.
  unfold queue_op, create_cq, create_sq, delete_cq, delete_sq, table_ok. intros H Hok qid cqid.
  repeat match goal with
  | H : context [if ?b then _ else _] |- _ => destruct b eqn:?
  end; try done; injection H as <-; cbn; try (by apply Hok).
  - intros ?%Hok. apply elem_of_union. by right.
  - intros [[<- <-]|[? ?%Hok]]%lookup_insert_Some; [|done].
    match goal with H : negb (_ && _) = false |- _ => apply negb_false_iff, andb_true_iff in H as [_ H] end.
    by eapply bool_decide_eq_true.
  - intros Hg. match goal with H : bool_decide (map_Exists _ _) = false |- _ => apply bool_decide_eq_false in H; rename H into Hn end.
    apply elem_of_difference. split; [by eapply Hok|]. rewrite elem_of_singleton. intros ->. apply Hn. by exists qid, (cdw_low (cmd_CDW10 c)).
  - intros [_ ?%Hok]%lookup_delete_Some. done.
Qed.

(** ** The handlers implement the table *)

Lemma queue_id_valid q : VNVME_IO_QUEUE_ID_VALID q = valid_queue q.
Proof.
  unfold VNVME_IO_QUEUE_ID_VALID, valid_queue. apply eq_true_iff_eq. rewrite andb_true_iff, Z.ltb_lt, Z.leb_le, bool_decide_eq_true. lia.
Qed.

Lemma cdw_range c : 0 <= cdw_low c < 2 ^ 16 /\ 0 <= cdw_high c < 2 ^ 16.
Proof. unfold cdw_low, cdw_high. change 0xFFFF with (Z.ones 16). rewrite !Z.land_ones by done. split; apply Z.mod_pos_bound; lia. Qed.

(** The 16-bit size wraps to 0 at the largest request, and fails the test. *)
Lemma queue_size_ok c : ((cdw_high c +₁₆ 1) <? 2) = negb (valid_size (cdw_high c)).
Proof. unfold valid_size. pose proof (cdw_range c). apply eq_true_iff_eq. rewrite Z.ltb_lt, negb_true_iff, bool_decide_eq_false. word_lia. Qed.

Lemma queue_get {A} (l : list A) qid : length l = 16%nat -> valid_queue qid = true ->
  exists q, arr_get l (VNVME_QUEUE_ID_TO_INDEX qid) = Some q.
Proof. intros Hl Hq%bool_decide_eq_true. apply arr_get_Some_iff. rewrite Hl. unfold VNVME_QUEUE_ID_TO_INDEX, VNVME_MAX_IO_QUEUES in *. lia. Qed.

(** The queues of an array that have property [P], after an update. *)
Lemma live_insert {A} (P : A -> Prop) l x q q' y :
  arr_get l (VNVME_QUEUE_ID_TO_INDEX x) = Some q ->
  (exists z, arr_get (<[Z.to_nat (VNVME_QUEUE_ID_TO_INDEX x) := q']> l) (VNVME_QUEUE_ID_TO_INDEX y) = Some z /\ P z) <->
  (y = x /\ P q') \/ (y <> x /\ exists z, arr_get l (VNVME_QUEUE_ID_TO_INDEX y) = Some z /\ P z).
Proof.
  intros H. destruct (decide (y = x)) as [->|Hne].
  - rewrite (arr_get_insert_eq _ _ _ _ H). split; [intros (z & [= <-] & ?); auto | intros [[_ ?]|[? _]]; [eauto | done]].
  - pose proof (arr_get_lt _ _ _ H). rewrite arr_get_insert_ne by (unfold VNVME_QUEUE_ID_TO_INDEX in *; lia).
    split; [auto | by intros [[? _]|[_ ?]]].
Qed.

Lemma created_in_table p T qid q :
  represents p T -> arr_get (pdo_IoCq p) (VNVME_QUEUE_ID_TO_INDEX qid) = Some q -> qs_Created q = bool_decide (qid ∈ qt_cqs T).
Proof.
  intros [Hc _] Hq. apply eq_true_iff_eq. rewrite bool_decide_eq_true, Hc. unfold cq_live. rewrite Hq.
  split; [eauto | by intros (q' & [= <-] & ?)].
Qed.

Lemma bound_in_table p T qid q :
  represents p T -> arr_get (pdo_IoSq p) (VNVME_QUEUE_ID_TO_INDEX qid) = Some q -> qs_Created q = bool_decide (is_Some (qt_sqs T !! qid)).
Proof.
  intros [_ Hs] Hq. apply eq_true_iff_eq. rewrite bool_decide_eq_true. split.
  - intros Hc. exists (qs_CqId q). apply Hs. by exists q.
  - intros [cq Hg]. apply Hs in Hg as (q' & Hq' & ? & ?). congruence.
Qed.

Lemma queue_id_elem {A} (l : list A) x : x ∈ l <-> exists i, arr_get l (VNVME_QUEUE_ID_TO_INDEX i) = Some x.
Proof.
  rewrite list_elem_of_lookup. unfold arr_get, VNVME_QUEUE_ID_TO_INDEX. split.
  - intros [i Hi]. exists (Z.of_nat i + 1). rewrite (proj2 (Z.ltb_ge _ _)) by lia. by replace (Z.to_nat _) with i by lia.
  - intros [i Hi]. destruct (i - 1 <? 0); [done|]. eauto.
Qed.

Lemma associated_in_table p T qid :
  represents p T ->
  existsb (fun q => qs_Created q && (qs_CqId q =? qid)) (pdo_IoSq p) = bool_decide (map_Exists (fun _ cq => cq = qid) (qt_sqs T)).
Proof.
  intros [_ Hs]. apply eq_true_iff_eq. rewrite existsb_exists, bool_decide_eq_true. split.
  - intros (q & Hin & Hq). apply andb_true_iff in Hq as [? ?%Z.eqb_eq]. apply list_elem_of_In, queue_id_elem in Hin as [i Hi].
    exists i, qid. split; [|done]. apply Hs. by exists q.
  - intros (i & ? & Hg & ->). apply Hs in Hg as (q & Hq & Hc & Hcq). exists q. split; [apply list_elem_of_In, queue_id_elem; eauto|].
    by rewrite Hc, Hcq, Z.eqb_refl.
Qed.

(** The controller with other I/O queues. *)
Definition with_queues (sq cq : list VNVME_QUEUE_STATE) (n : Z) (p : VNVME_PDO_CONTEXT) : VNVME_PDO_CONTEXT :=
  p <| pdo_IoSq := sq |> <| pdo_IoCq := cq |> <| pdo_IoQueueCount := n |>.

Lemma represents_queues p sq cq n T :
  represents (with_queues sq cq n p) T <->
  (forall qid, qid ∈ qt_cqs T <-> exists q, arr_get cq (VNVME_QUEUE_ID_TO_INDEX qid) = Some q /\ qs_Created q = true) /\
  (forall qid cqid, qt_sqs T !! qid = Some cqid <->
    exists q, arr_get sq (VNVME_QUEUE_ID_TO_INDEX qid) = Some q /\ qs_Created q = true /\ qs_CqId q = cqid).
Proof. unfold represents, cq_live, sq_bound, with_queues. destruct p; unset. done. Qed.

Lemma iocq_update_table i f s q : arr_get (pdo_IoCq (ks_pdo s)) i = Some q ->
  iocq_update i f s = Ok (tt, s <| ks_pdo ::= fun p => with_queues (pdo_IoSq p) (<[Z.to_nat i := f q]> (pdo_IoCq p)) (pdo_IoQueueCount p) p |>).
Proof.
  intros H. unfold iocq_update. rewrite bind_get, (bind_opt _ _ _ _ (upd_nth_insert _ _ _ f H)). by destruct s as [? [] ? ? ? ?].
Qed.

Lemma iosq_update_table i f s q : arr_get (pdo_IoSq (ks_pdo s)) i = Some q ->
  iosq_update i f s = Ok (tt, s <| ks_pdo ::= fun p => with_queues (<[Z.to_nat i := f q]> (pdo_IoSq p)) (pdo_IoCq p) (pdo_IoQueueCount p) p |>).
Proof.
  intros H. unfold iosq_update. rewrite bind_get, (bind_opt _ _ _ _ (upd_nth_insert _ _ _ f H)). by destruct s as [? [] ? ? ? ?].
Qed.

(** What each handler does: the completion it posts, the queues it leaves. *)
Definition handler_refines (c : NVME_COMMAND) (s : KState) (sct sc : Z) (T' : QueueTable) (m : M KState NTSTATUS) : Prop :=
  exists sq cq n, m s = VnvmePostCompletion 0 (admin_completion s (cmd_CID c) 0 sct sc) (s <| ks_pdo ::= with_queues sq cq n |>) /\
    length sq = 16%nat /\ length cq = 16%nat /\ represents (with_queues sq cq n (ks_pdo s)) T'.

Lemma handler_fail c s sct sc T :
  pdo_shape (ks_pdo s) -> represents (ks_pdo s) T -> handler_refines c s sct sc T (PostErrorCompletion (cmd_CID c) sct sc).
Proof.
  intros (H1 & H2 & _) Hr. exists (pdo_IoSq (ks_pdo s)), (pdo_IoCq (ks_pdo s)), (pdo_IoQueueCount (ks_pdo s)).
  assert (with_queues (pdo_IoSq (ks_pdo s)) (pdo_IoCq (ks_pdo s)) (pdo_IoQueueCount (ks_pdo s)) (ks_pdo s) = ks_pdo s) as E by (by destruct (ks_pdo s)).
  split; [|by rewrite E]. unfold PostErrorCompletion. rewrite bind_get. f_equal. destruct s; unset. cbn in E. by rewrite E.
Qed.

Lemma completion_queues s sq cq n cid dw0 sct sc :
  admin_completion (s <| ks_pdo ::= with_queues sq cq n |>) cid dw0 sct sc = admin_completion s cid dw0 sct sc.
Proof. by destruct s as [? [] ? ? ? ?]. Qed.

Lemma handler_done c s m sq cq n T' :
  m s = PostSuccessCompletion (cmd_CID c) 0 (s <| ks_pdo ::= with_queues sq cq n |>) ->
  length sq = 16%nat -> length cq = 16%nat -> represents (with_queues sq cq n (ks_pdo s)) T' ->
  handler_refines c s 0 0 T' m.
Proof.
  intros Hm H1 H2 H3. exists sq, cq, n. split; [|done]. rewrite Hm. unfold PostSuccessCompletion.
  by rewrite bind_get, completion_queues.
Qed.

Lemma handler_step c s sct sc T' (m m' : M KState NTSTATUS) :
  m s = m' s -> handler_refines c s sct sc T' m' -> handler_refines c s sct sc T' m.
Proof. intros E (sq & cq & n & H). exists sq, cq, n. by rewrite E. Qed.

Lemma HandleCreateIoCq_refines c s T :
  pdo_shape (ks_pdo s) -> represents (ks_pdo s) T ->
  let r := create_cq (cdw_low (cmd_CDW10 c)) (cdw_high (cmd_CDW10 c)) T in handler_refines c s r.1.1 r.1.2 r.2 (HandleCreateIoCq c).
Proof.
  intros Hsh Hr. unfold HandleCreateIoCq, create_cq. set (qid := cdw_low (cmd_CDW10 c)). cbv zeta.
  rewrite queue_id_valid, queue_size_ok.
  destruct (valid_queue qid) eqn:Hq; cbn [negb fst snd]; [|by apply handler_fail].
  destruct (valid_size _); cbn [negb fst snd]; [|by apply handler_fail].
  pose proof Hsh as (Hl1 & Hl2 & _). destruct (queue_get _ _ Hl2 Hq) as [q Hg].
  pose proof (created_in_table _ _ _ _ Hr Hg) as Hc. eapply handler_step; [rewrite bind_get, (bind_opt _ _ _ _ Hg), Hc; done|].
  destruct (bool_decide (qid ∈ qt_cqs T)) eqn:Hin; cbn [fst snd]; [by apply handler_fail|].
  eapply handler_done; [by rewrite (bind_Ok _ _ _ _ _ (iocq_update_table _ _ _ _ Hg)) | done | by rewrite length_insert |].
  apply bool_decide_eq_false in Hin. destruct Hr as [Hr1 Hr2]. apply represents_queues. split; [|exact Hr2].
  intros y. cbn [qt_cqs]. rewrite (live_insert (fun q => qs_Created q = true) _ _ _ _ _ Hg), elem_of_union, elem_of_singleton, Hr1. cbn.
  unfold cq_live. destruct (decide (y = qid)) as [->|]; intuition.
Qed.

Lemma HandleCreateIoSq_refines c s T :
  pdo_shape (ks_pdo s) -> represents (ks_pdo s) T ->
  let r := create_sq (cdw_low (cmd_CDW10 c)) (cdw_high (cmd_CDW10 c)) (cdw_high (cmd_CDW11 c)) T in
  handler_refines c s r.1.1 r.1.2 r.2 (HandleCreateIoSq c).
Proof.
  intros Hsh Hr. unfold HandleCreateIoSq, create_sq. set (qid := cdw_low (cmd_CDW10 c)). set (cqid := cdw_high (cmd_CDW11 c)). cbv zeta.
  rewrite !queue_id_valid, queue_size_ok.
  destruct (valid_queue qid) eqn:Hq; cbn [negb fst snd]; [|by apply handler_fail].
  destruct (valid_size _); cbn [negb fst snd]; [|by apply handler_fail].
  destruct (valid_queue cqid) eqn:Hcq; cbn [negb fst snd andb]; [|by apply handler_fail].
  pose proof Hsh as (Hl1 & Hl2 & _). destruct (queue_get _ _ Hl1 Hq) as [q Hg], (queue_get _ _ Hl2 Hcq) as [k Hk].
  pose proof (created_in_table _ _ _ _ Hr Hk) as Hc. pose proof (bound_in_table _ _ _ _ Hr Hg) as Hb.
  eapply handler_step; [rewrite bind_get, (bind_opt _ _ _ _ Hk), Hc; done|].
  destruct (bool_decide (cqid ∈ qt_cqs T)) eqn:Hin; cbn [negb fst snd]; [|by apply handler_fail].
  eapply handler_step; [rewrite (bind_opt _ _ _ _ Hg), Hb; done|].
  destruct (bool_decide (is_Some (qt_sqs T !! qid))) eqn:Hfree; cbn [fst snd]; [by apply handler_fail|].
  set (f := fun q => q <| qs_BaseAddress := cmd_PRP1 c |> <| qs_Size := _ |> <| qs_Head := 0 |> <| qs_Tail := 0 |>
    <| qs_CqId := cqid |> <| qs_Created := true |>).
  eapply (handler_done _ _ _ (<[Z.to_nat (VNVME_QUEUE_ID_TO_INDEX qid) := f q]> (pdo_IoSq (ks_pdo s))) (pdo_IoCq (ks_pdo s))
    (if pdo_IoQueueCount (ks_pdo s) <? qid then qid else pdo_IoQueueCount (ks_pdo s)));
    [rewrite (bind_Ok _ _ _ _ _ (iosq_update_table _ f _ _ Hg)); cbv beta; unfold pdo_update; rewrite bind_modify | | |].
  { destruct s as [? [] ? ? ? ?]; unfold with_queues; unset. by destruct (_ <? _). }
  { by rewrite length_insert. } { done. }
  apply bool_decide_eq_false in Hfree. destruct Hr as [Hr1 Hr2]. apply represents_queues. split; [exact Hr1|].
  intros y cy. cbn [qt_sqs]. rewrite (live_insert (fun z => qs_Created z = true /\ qs_CqId z = cy) _ _ _ _ _ Hg), lookup_insert_Some, Hr2. cbn.
  unfold sq_bound. intuition.
Qed.

Lemma HandleDeleteIoCq_refines c s T :
  pdo_shape (ks_pdo s) -> represents (ks_pdo s) T ->
  let r := delete_cq (cdw_low (cmd_CDW10 c)) T in handler_refines c s r.1.1 r.1.2 r.2 (HandleDeleteIoCq c).
Proof.
  intros Hsh Hr. unfold HandleDeleteIoCq, delete_cq. set (qid := cdw_low (cmd_CDW10 c)). cbv zeta.
  rewrite queue_id_valid.
  destruct (valid_queue qid) eqn:Hq; cbn [negb fst snd andb]; [|by apply handler_fail].
  pose proof Hsh as (Hl1 & Hl2 & _). destruct (queue_get _ _ Hl2 Hq) as [q Hg].
  pose proof (created_in_table _ _ _ _ Hr Hg) as Hc.
  eapply handler_step; [rewrite bind_get, (bind_opt _ _ _ _ Hg), Hc, (associated_in_table _ _ _ Hr); done|].
  destruct (bool_decide (qid ∈ qt_cqs T)) eqn:Hin; cbn [negb fst snd]; [|by apply handler_fail].
  destruct (bool_decide (map_Exists _ _)) eqn:Hex; cbn [fst snd]; [by apply handler_fail|].
  eapply handler_done; [by rewrite (bind_Ok _ _ _ _ _ (iocq_update_table _ _ _ _ Hg)) | done | by rewrite length_insert |].
  destruct Hr as [Hr1 Hr2]. apply represents_queues. split; [|exact Hr2].
  intros y. cbn [qt_cqs]. rewrite (live_insert (fun q => qs_Created q = true) _ _ _ _ _ Hg), elem_of_difference, elem_of_singleton, Hr1. cbn.
  unfold cq_live. intuition done.
Qed.

Lemma HandleDeleteIoSq_refines c s T :
  pdo_shape (ks_pdo s) -> represents (ks_pdo s) T ->
  let r := delete_sq (cdw_low (cmd_CDW10 c)) T in handler_refines c s r.1.1 r.1.2 r.2 (HandleDeleteIoSq c).
Proof.
  intros Hsh Hr. unfold HandleDeleteIoSq, delete_sq. set (qid := cdw_low (cmd_CDW10 c)). cbv zeta.
  rewrite queue_id_valid.
  destruct (valid_queue qid) eqn:Hq; cbn [negb fst snd andb]; [|by apply handler_fail].
  pose proof Hsh as (Hl1 & Hl2 & _). destruct (queue_get _ _ Hl1 Hq) as [q Hg].
  pose proof (bound_in_table _ _ _ _ Hr Hg) as Hb.
  eapply handler_step; [rewrite bind_get, (bind_opt _ _ _ _ Hg), Hb; done|].
  destruct (bool_decide (is_Some (qt_sqs T !! qid))) eqn:Hin; cbn [negb fst snd]; [|by apply handler_fail].
  eapply handler_done; [by rewrite (bind_Ok _ _ _ _ _ (iosq_update_table _ _ _ _ Hg)) | by rewrite length_insert | done |].
  destruct Hr as [Hr1 Hr2]. apply represents_queues. split; [exact Hr1|].
  intros y cy. cbn [qt_sqs]. rewrite (live_insert (fun z => qs_Created z = true /\ qs_CqId z = cy) _ _ _ _ _ Hg), lookup_delete_Some, Hr2. cbn.
  unfold sq_bound. split; [intros [? ?]; right; by split; [congruence|] | intros [(_ & ? & _)|[? ?]]; [done | by split; [congruence|]]].
Qed.

(** The dispatch of the queue commands. *)
Lemma queue_op_refines c s T r :
  pdo_shape (ks_pdo s) -> represents (ks_pdo s) T -> queue_op c T = Some r ->
  handler_refines c s r.1.1 r.1.2 r.2 (admin_dispatch c).
Proof.
  intros Hsh Hr. unfold queue_op.
  repeat match goal with
  | |- context [if cmd_OPC c =? ?k then _ else _] => destruct (Z.eqb_spec (cmd_OPC c) k) as [E|_]
  end; try done; intros [= <-]; (eapply handler_step; [unfold admin_dispatch; rewrite E; reflexivity|]).
  - by apply HandleCreateIoCq_refines.
  - by apply HandleCreateIoSq_refines.
  - by apply HandleDeleteIoCq_refines.
  - by apply HandleDeleteIoSq_refines.
Qed.

(** The end of a command whose handler posts the completion [cpl]. *)
Definition complete (cpl : NVME_COMPLETION) : M KState NTSTATUS :=
  status ← VnvmePostCompletion 0 cpl;
  pdo_update (fun p => p <| pdo_AdminCommandsProcessed ::= fun n => s64 (n + 1) |>);;
  mret status.

Definition count_admin (p : VNVME_PDO_CONTEXT) : VNVME_PDO_CONTEXT :=
  p <| pdo_AdminCommandsProcessed ::= fun n => s64 (n + 1) |>.

Lemma represents_count p T q : represents p T -> represents (count_admin (p <| pdo_AdminCq := q |>)) T.
Proof. by destruct p. Qed.

(** C4: the queue management commands implement the table of queues: Create and
    Delete of I/O submission and completion queues, for any command dwords, post
    the completion that the specification [queue_op] prescribes (success,
    invalid identifier, invalid size, completion queue invalid, or deletion of
    a completion queue still in use), after changing the queue arrays to
    represent the new table, and the command always comes back. *)
Theorem queue_commands_refine (c : NVME_COMMAND) (s : KState) (T : QueueTable) (sct sc : Z) (T' : QueueTable) :
  admin_inv s -> represents (ks_pdo s) T -> queue_op c T = Some (sct, sc, T') ->
  exists s1 st s', represents (ks_pdo s1) T' /\ ks_fdo s1 = ks_fdo s /\ ks_host s1 = ks_host s /\
    VnvmeProcessAdminCommand c s = complete (admin_completion s (cmd_CID c) 0 sct sc) s1 /\
    VnvmeProcessAdminCommand c s = Ok (st, s') /\ represents (ks_pdo s') T'.
Proof.
  intros [Hp [Hsh _ _]] Hr Hop. destruct (queue_op_refines c s T _ Hsh Hr Hop) as (sq & cq & n & Hd & _ & _ & HT). cbn [fst snd] in *.
  set (s1 := s <| ks_pdo ::= with_queues sq cq n |>) in *.
  assert (VnvmeProcessAdminCommand c s = complete (admin_completion s (cmd_CID c) 0 sct sc) s1) as E.
  { unfold VnvmeProcessAdminCommand, complete, mbind, M_bind. by rewrite Hd. }
  assert (post_ok 0 s1) as Hp1 by (apply (post_ok_admin s); destruct s as [? [] ? ? ? ?]; done).
  destruct (VnvmePostCompletion_total 0 (admin_completion s (cmd_CID c) 0 sct sc) s1 Hp1) as (st & s2 & Hpost & Hs & _).
  destruct (posted_admin _ _ _ Hs) as (fd & q & ->).
  assert (represents (ks_pdo s1) T') as Hs1 by (unfold s1; by destruct s).
  eexists s1, st, _. split; [done|]. split; [unfold s1; by destruct s|]. split; [unfold s1; by destruct s|]. split; [done|].
  rewrite E. unfold complete. rewrite (bind_Ok _ _ _ _ _ Hpost). cbv beta. split; [done|]. destruct s1. by apply represents_count.
Qed.

(** ** Every command comes back and keeps the invariant *)

(** The table of a controller. *)
Definition table_of (p : VNVME_PDO_CONTEXT) : QueueTable :=
  let ids := seqZ 1 16 in
  let created l qid := q ← arr_get l (VNVME_QUEUE_ID_TO_INDEX qid); if qs_Created q then Some q else None in
  mkTable (list_to_set (filter (fun qid => is_Some (created (pdo_IoCq p) qid)) ids))
    (foldr (fun qid T => match created (pdo_IoSq p) qid with Some q => <[qid := qs_CqId q]> T | None => T end) ∅ ids).

Lemma foldr_lookup (f : Z -> option VNVME_QUEUE_STATE) ids x cq :
  foldr (fun qid T => match f qid with Some q => <[qid := qs_CqId q]> T | None => T end) (∅ : gmap Z Z) ids !! x = Some cq <->
  x ∈ ids /\ exists q, f x = Some q /\ qs_CqId q = cq.
Proof.
  induction ids as [|i ids IH]; cbn [foldr].
  { split; [done | by intros [?%elem_of_nil _]]. }
  rewrite elem_of_cons. destruct (decide (x = i)) as [->|Hne].
  - destruct (f i) as [q|] eqn:Hf.
    + rewrite lookup_insert_eq. split; [intros [= <-]; eauto | by intros [_ (q' & [= <-] & ->)]].
    + rewrite IH. split; intros [_ (q & Hq & _)]; congruence.
  - destruct (f i); rewrite ?lookup_insert_ne by done; rewrite IH; split; intros [? ?]; split; auto; by destruct_or?.
Qed.

Lemma created_get l qid q :
  (q ← arr_get l (VNVME_QUEUE_ID_TO_INDEX qid); if qs_Created q then Some q else None) = Some q <->
  arr_get l (VNVME_QUEUE_ID_TO_INDEX qid) = Some q /\ qs_Created q = true.
Proof.
  destruct (arr_get l _) as [q'|]; cbn; [|split; [done | by intros []]].
  destruct (qs_Created q') eqn:Hc.
  - split; [intros [= <-]; by split | by intros [? _]].
  - split; [done | intros [[= ->] ?]; congruence].
Qed.

Lemma queue_id_in_range {A} (l : list A) qid q :
  length l = 16%nat -> arr_get l (VNVME_QUEUE_ID_TO_INDEX qid) = Some q -> qid ∈ seqZ 1 16.
Proof. intros Hl Hg%arr_get_lt. rewrite elem_of_seqZ. unfold VNVME_QUEUE_ID_TO_INDEX in Hg. lia. Qed.

Lemma table_of_represents p : pdo_shape p -> represents p (table_of p).
Proof.
  intros (Hl1 & Hl2 & _). split; cbn [table_of qt_cqs qt_sqs].
  - intros qid. rewrite elem_of_list_to_set, list_elem_of_filter. unfold cq_live. split.
    + intros [[q Hq] _]. exists q. by apply created_get.
    + intros (q & Hg & Hc). split; [exists q; by apply created_get | exact (queue_id_in_range _ _ _ Hl2 Hg)].
  - intros qid cqid. rewrite foldr_lookup. unfold sq_bound. split.
    + intros (_ & q & Hq & Hc). exists q. apply created_get in Hq as [? ?]. auto.
    + intros (q & Hg & Hc & Hq). split; [exact (queue_id_in_range _ _ _ Hl1 Hg)|]. exists q. split; [by apply created_get|done].
Qed.

Lemma refs_table_ok p T : represents p T -> (forall qid cqid, sq_bound p qid cqid -> cq_live p cqid) <-> table_ok T.
Proof.
  intros [Hc Hs]. unfold table_ok. split; intros H qid cqid.
  - intros ?%Hs. apply Hc. eauto.
  - intros ?%Hs. apply Hc. eauto.
Qed.

Lemma queue_op_keeps c T0 : is_Some (queue_op c T0) -> keeps_inv (admin_dispatch c).
Proof.
  intros Hop s [Hp [Hsh Ha Hrefs]]. pose proof (table_of_represents _ Hsh) as Hr.
  assert (exists r, queue_op c (table_of (ks_pdo s)) = Some r) as [r Hop'].
  { destruct Hop as [r0 Hr0]. unfold queue_op in *. repeat match goal with |- context [if ?b then _ else _] => destruct b; eauto end. }
  destruct (queue_op_refines c s _ r Hsh Hr Hop') as (sq & cq & n & Hd & H1 & H2 & HT).
  assert (adv s (s <| ks_pdo ::= with_queues sq cq n |>)) as Hadv; cycle 1.
  { unfold wp. rewrite Hd. eapply wp_mono; [apply post_keeps, Hadv|]. intros st s2. by apply adv_trans. }
  apply adv_step; [by destruct s | by destruct s as [? [] ? ? ? ?] | | by split].
  assert (ks_pdo (s <| ks_pdo ::= with_queues sq cq n |>) = with_queues sq cq n (ks_pdo s)) as -> by (by destruct s).
  split; [| |].
  - destruct Hsh as (_ & _ & ? & ?). destruct (ks_pdo s); by split_and!.
  - by destruct (ks_pdo s).
  - apply (refs_table_ok _ _ HT). eapply (queue_op_ok _ _ _ Hop'). by apply (refs_table_ok _ _ Hr).
Qed.

(** A change of the controller that the invariant does not see. *)
Lemma pdo_update_keeps f :
  (forall p, pdo_AdminCq (f p) = pdo_AdminCq p) -> (forall p, pdo_inv p -> pdo_inv (f p)) -> keeps_inv (pdo_update f).
Proof.
  intros H1 H2 s Hs. apply wp_modify. apply adv_step; destruct s; cbn; try done. by destruct Hs as [_ ?%H2].
Qed.

Lemma max_queues_keeps n : keeps_inv (pdo_update (fun p => p <| pdo_MaxIoQueues := n |>)).
Proof. apply pdo_update_keeps; [by intros []|]. intros []. by intros [? ? ?]. Qed.

Lemma HandleSetFeatures_keeps c : keeps_inv (HandleSetFeatures c).
Proof.
  unfold HandleSetFeatures. cbv zeta. keeps_ifs; auto with keeps.
  apply get_keeps. intros s Hs. by apply (bind_keeps _ _ (max_queues_keeps _) (fun _ => success_keeps _ _)).
Qed.

Lemma HandleAsyncEventRequest_keeps c : keeps_inv (HandleAsyncEventRequest c).
Proof.
  apply get_keeps. intros s Hs. destruct (Z.leb_spec VNVME_MAX_AER_COMMANDS (pdo_AerCount (ks_pdo s))); [by apply error_keeps|].
  pose proof Hs as [_ [(? & ? & Hl & ?) Ha Hr]]. unfold VNVME_MAX_AER_COMMANDS in *.
  rewrite arr_set_Some by lia. apply wp_bind. eapply wp_of_opt; [done|]. apply wp_bind. apply wp_modify, wp_ret.
  apply adv_step; [by destruct s | by destruct s as [? [] ? ? ? ?] | | done]. set (l := <[_ := _]> _).
  assert (length l = 4%nat) as Hl' by (unfold l; by rewrite length_insert).
  destruct s as [? [] ? ? ? ?]; unset. cbn in *. split; cbn; [done| |exact Hr]. rewrite u16_small; unfold VNVME_MAX_AER_COMMANDS; lia.
Qed.

Lemma HandleGetLogPage_keeps c : keeps_inv (HandleGetLogPage c).
Proof. unfold HandleGetLogPage. cbv zeta. apply bind_keeps; [apply alloc_keeps|]. intros ok. auto 8 with keeps. Qed.

Lemma HandleGetFeatures_keeps c : keeps_inv (HandleGetFeatures c).
Proof. apply get_keeps. intros s Hs. destruct (feature_value _ _); [by apply success_keeps | by apply error_keeps]. Qed.
Lemma admin_dispatch_keeps c : 0 <= cmd_NSID c -> keeps_inv (admin_dispatch c).
Proof.
  intros Hn. destruct (queue_op c (mkTable ∅ ∅)) as [r|] eqn:Hop; [by eapply queue_op_keeps; rewrite Hop|].
  unfold queue_op in Hop. unfold admin_dispatch. cbv zeta.
  repeat match goal with H : context [if ?b then _ else _] |- _ => destruct b; [done|] end.
  keeps_ifs; [by apply HandleIdentify_keeps | apply HandleSetFeatures_keeps | apply HandleGetFeatures_keeps | exact (success_keeps (cmd_CID c) 1)
    | apply HandleAsyncEventRequest_keeps | exact (success_keeps (cmd_CID c) 0) | apply HandleGetLogPage_keeps | apply error_keeps].
Qed.

Lemma count_keeps : keeps_inv (pdo_update (fun p => p <| pdo_AdminCommandsProcessed ::= fun n => s64 (n + 1) |>)).
Proof. apply pdo_update_keeps; [by intros []|]. intros []. by intros [? ? ?]. Qed.

Lemma VnvmeProcessAdminCommand_keeps c : 0 <= cmd_NSID c -> keeps_inv (VnvmeProcessAdminCommand c).
Proof. intros Hn. apply bind_keeps; [by apply admin_dispatch_keeps|]. intros st. apply bind_keeps; [apply count_keeps|]. intros _. apply ret_keeps. Qed.

(** C7: whatever 64 bytes the host puts into the admin queue, the command comes
    back: no field of it takes the driver outside of an array, a mapping or a
    ring, and the controller keeps its invariant: at most
    VNVME_MAX_AER_COMMANDS stored event requests, and no submission queue
    bound to a completion queue that does not exist. *)
Theorem VnvmeProcessAdminCommand_safe (c : NVME_COMMAND) (s : KState) :
  admin_inv s -> cmd_wf c ->
  exists st s', VnvmeProcessAdminCommand c s = Ok (st, s') /\ admin_inv s'.
Proof.
  intros Hs ((_ & _ & _ & _ & _ & Hn) & _).
  destruct (wp_elim _ _ _ (VnvmeProcessAdminCommand_keeps c ltac:(lia) s Hs)) as (st & s' & Hr & Hs' & _). eauto.
Qed.

(** ** Asynchronous event requests *)

(** The stored identifiers, oldest first. *)
Definition aer_pending (p : VNVME_PDO_CONTEXT) : list Z := take (Z.to_nat (pdo_AerCount p)) (pdo_AerCids p).

Lemma take_insert_snoc {A} (l : list A) n x : (n < length l)%nat -> take (S n) (<[n := x]> l) = take n l ++ [x].
Proof.
  intros Hn. rewrite (take_S_r _ _ x) by (by apply list_lookup_insert_eq). by rewrite take_insert_ge.
Qed.

Lemma aer_pending_length s : admin_inv s -> Z.of_nat (length (aer_pending (ks_pdo s))) = pdo_AerCount (ks_pdo s).
Proof.
  intros [_ [(_ & _ & Hl & _) Ha _]]. unfold aer_pending. rewrite length_take. unfold VNVME_MAX_AER_COMMANDS in Ha. lia.
Qed.

Lemma arr_get_app {A} (l1 l2 : list A) x : arr_get (l1 ++ x :: l2) (Z.of_nat (length l1)) = Some x.
Proof. unfold arr_get. rewrite (proj2 (Z.ltb_ge _ _)), Nat2Z.id by lia. by apply list_lookup_middle. Qed.

Lemma arr_set_app {A} (l1 l2 : list A) x y : arr_set (l1 ++ x :: l2) (Z.of_nat (length l1)) y = Some (l1 ++ y :: l2).
Proof.
  rewrite arr_set_Some by (rewrite length_app; cbn; lia). rewrite Nat2Z.id, insert_app_r_alt by done. by rewrite Nat.sub_diag.
Qed.

(** The shift moves the identifiers after the first one down by one. *)
Lemma aer_shift_run mid : forall pre x post,
  exists y, aer_shift (length mid) (Z.of_nat (length pre)) (pre ++ x :: mid ++ post) = Some (pre ++ mid ++ y :: post).
Proof.
  induction mid as [|z mid IH]; intros pre x post; cbn [aer_shift length]; [by exists x|].
  replace (pre ++ x :: (z :: mid) ++ post) with ((pre ++ [x]) ++ z :: mid ++ post) by (by rewrite <- app_assoc).
  replace (Z.of_nat (length pre) + 1) with (Z.of_nat (length (pre ++ [x]))) by (rewrite length_app; simpl; lia).
  rewrite arr_get_app. cbn [mbind option_bind]. rewrite <- app_assoc. cbn [app]. rewrite arr_set_app. cbn [mbind option_bind].
  destruct (IH (pre ++ [z]) z post) as [y Hy]. exists y.
  rewrite <- !app_assoc in Hy. rewrite !length_app in Hy |- *. exact Hy.
Qed.

Lemma aer_shift_pending (l : list Z) n : (n < length l)%nat ->
  exists l', aer_shift n 0 l = Some l' /\ length l' = length l /\ take n l' = tail (take (S n) l).
Proof.
  intros Hn. destruct l as [|x l]; [simpl in Hn; lia|]. simpl in Hn.
  destruct (aer_shift_run (take n l) [] x (drop n l)) as [y Hy]. cbn [app length] in Hy.
  rewrite take_drop, length_take, Nat.min_l in Hy by lia. eexists. split; [exact Hy|]. split.
  - rewrite length_app. cbn [length]. rewrite length_take, length_drop. lia.
  - cbn [take tail]. rewrite take_app_le by (rewrite length_take; lia). by rewrite take_take, Nat.min_id.
Qed.

(** Async Event Request stores the command's identifier behind the ones
    already stored and posts nothing, as long as fewer than
    VNVME_MAX_AER_COMMANDS are stored; then it is refused with the limit
    exceeded error, and the stored ones stay. *)
Lemma HandleAsyncEventRequest_stores (c : NVME_COMMAND) (s : KState) :
  admin_inv s ->
  let l := aer_pending (ks_pdo s) in
  if (length l <? 4)%nat
  then exists s', HandleAsyncEventRequest c s = Ok (STATUS_SUCCESS, s') /\ aer_pending (ks_pdo s') = l ++ [cmd_CID c] /\
         ks_fdo s' = ks_fdo s
  else HandleAsyncEventRequest c s =
         VnvmePostCompletion 0 (admin_completion s (cmd_CID c) 0 NVME_SCT_COMMAND NVME_SC_ASYNC_EVENT_LIMIT_EXCEEDED) s.
Proof.
  intros Hs l. pose proof (aer_pending_length s Hs) as Hlen. fold l in Hlen. pose proof Hs as [_ [(_ & _ & Hl & _) Ha _]].
  unfold HandleAsyncEventRequest. rewrite bind_get. unfold VNVME_MAX_AER_COMMANDS in *.
  destruct (Nat.ltb_spec (length l) 4) as [Hlt|Hge]; [|by rewrite (proj2 (Z.leb_le _ _)) by lia].
  rewrite (proj2 (Z.leb_gt _ _)) by lia. rewrite (bind_opt _ _ _ _ (arr_set_Some (pdo_AerCids (ks_pdo s)) (pdo_AerCount (ks_pdo s)) (cmd_CID c) ltac:(lia))). eexists. split; [done|]. split; [|by destruct s].
  unfold aer_pending, l. destruct s as [? p ? ? ? ?]. cbn in *. unfold aer_pending in *. destruct p; unset. cbn in *.
  rewrite u16_small by lia. rewrite Z2Nat.inj_add by lia. change (Z.to_nat 1) with 1%nat. rewrite Nat.add_1_r. apply take_insert_snoc. lia.
Qed.

(** The doubleword of an event completion. *)
Lemma aer_dw0_fields t i l : 0 <= i < 2 ^ 8 -> 0 <= l < 2 ^ 8 ->
  let dw0 := Z.lor (Z.lor (Z.land t 0x7) (Z.shiftl (Z.land i 0xFF) 8)) (Z.shiftl (Z.land l 0xFF) 16) in
  bits dw0 0 3 = Z.land t 7 /\ bits dw0 8 8 = i /\ bits dw0 16 8 = l.
Proof.
  intros Hi Hl. cbv zeta. change 0xFF with (Z.ones 8). change 7 with (Z.ones 3). rewrite !Z.land_ones by done.
  rewrite !(Z.mod_small _ (2 ^ 8)) by done. pose proof (Z.mod_pos_bound t (2 ^ 3) ltac:(lia)). set (k := t mod 2 ^ 3) in *.
  rewrite (lor_shiftl_add k) by lia. rewrite lor_shiftl_add by lia.
  rewrite !bits_div by lia. change (2 ^ 0) with 1. change (2 ^ 3) with 8 in *. change (2 ^ 8) with 256 in *. change (2 ^ 16) with 65536 in *.
  clearbody k. split_and!; Z.div_mod_to_equations; lia.
Qed.

(** C38: an event completes the oldest stored request: VnvmeCompleteAer takes its
    identifier off the front, keeps the others in order, and posts exactly one
    completion with that identifier, whose DW0 carries the event type, the
    event information and the log page; with no stored request it changes
    nothing and says so. *)
Theorem VnvmeCompleteAer_fifo (EventType EventInfo LogPage : Z) (s : KState) :
  admin_inv s -> 0 <= EventInfo < 2 ^ 8 -> 0 <= LogPage < 2 ^ 8 ->
  match aer_pending (ks_pdo s) with
  | [] => VnvmeCompleteAer EventType EventInfo LogPage s = Ok (STATUS_UNSUCCESSFUL, s)
  | cid :: rest => exists s1 dw0,
      VnvmeCompleteAer EventType EventInfo LogPage s = VnvmePostCompletion 0 (admin_completion s cid dw0 0 0) s1 /\
      aer_pending (ks_pdo s1) = rest /\ ks_fdo s1 = ks_fdo s /\
      bits dw0 0 3 = Z.land EventType 7 /\ bits dw0 8 8 = EventInfo /\ bits dw0 16 8 = LogPage
  end.
Proof.
  intros Hs Hi Hp. pose proof (aer_pending_length s Hs) as Hlen. pose proof Hs as [_ [(_ & _ & Hl & _) Ha _]].
  unfold VnvmeCompleteAer. rewrite bind_get. unfold VNVME_MAX_AER_COMMANDS in *.
  destruct (aer_pending (ks_pdo s)) as [|cid rest] eqn:Hpend.
  { cbn [length] in Hlen. rewrite <- Hlen. done. }
  cbn [length] in Hlen. destruct (Z.eqb_spec (pdo_AerCount (ks_pdo s)) 0) as [|_]; [lia|].
  unfold aer_pending in Hpend. set (n := (Z.to_nat (pdo_AerCount (ks_pdo s)) - 1)%nat) in *.
  assert (Z.to_nat (pdo_AerCount (ks_pdo s)) = S n) as Hn by (unfold n; lia). rewrite Hn in Hpend.
  assert (arr_get (pdo_AerCids (ks_pdo s)) 0 = Some cid) as Hc.
  { unfold arr_get. cbn. destruct (pdo_AerCids (ks_pdo s)); [done|]. by injection Hpend as -> _. }
  rewrite (bind_opt _ _ _ _ Hc). replace (Z.to_nat (pdo_AerCount (ks_pdo s) - 1)) with n by (unfold n; lia).
  destruct (aer_shift_pending (pdo_AerCids (ks_pdo s)) n ltac:(lia)) as (l' & Hsh & _ & Htk). rewrite Hpend in Htk.
  rewrite (bind_opt _ _ _ _ Hsh). eexists _, _. split; [|split; [|split; [|by apply aer_dw0_fields]]].
  - unfold pdo_update. rewrite bind_modify. unfold PostSuccessCompletion. rewrite bind_get. by destruct s as [? [] ? ? ? ?].
  - unfold aer_pending. destruct s as [? [] ? ? ? ?]; unset. cbn in *. rewrite <- Htk. f_equal. unfold n. lia.
  - by destruct s.
Qed.

(** ** Identify data *)

(** The kernel serves the handler's pool allocation and the mapping of PRP1. *)
Definition serves_page (c : NVME_COMMAND) (s : KState) : Prop :=
  ExAllocatePool2 (ks_tick s) 4096 = true /\ MmMapIoSpace (S (ks_tick s)) (cmd_PRP1 c) 4096 = true /\
  VnvmeIsValidPhysicalAddress (cmd_PRP1 c) 4096 = true.

(** The state after a page of data has gone to PRP1, the rest of memory untouched. *)
Definition page_returned (c : NVME_COMMAND) (data : mem) (s s1 : KState) : Prop :=
  ks_pdo s1 = ks_pdo s /\ ks_fdo s1 = ks_fdo s /\ ks_host s1 = mem_copy (ks_host s) (cmd_PRP1 c) data 0 4096.

Lemma return_data_ok c data s :
  MmMapIoSpace (ks_tick s) (cmd_PRP1 c) 4096 = true -> VnvmeIsValidPhysicalAddress (cmd_PRP1 c) 4096 = true ->
  exists s1, page_returned c data s s1 /\
    return_data c data 4096 s = VnvmePostCompletion 0 (admin_completion s (cmd_CID c) 0 0 0) s1.
Proof.
  intros Hm Hv. eexists (s <| ks_tick ::= S |> <| ks_host ::= fun h => mem_copy h (cmd_PRP1 c) data 0 4096 |>).
  split; [by destruct s|]. unfold return_data, VnvmeWriteToHostMemory. change (4096 =? 0) with false. cbv iota. rewrite Hv. cbn [negb].
  unfold map_io, mbind, M_bind. rewrite Hm. cbn [negb blk_size blk_mem]. change (in_block 4096 0 4096) with true. cbn [negb].
  unfold mret, M_ret, modify. cbn [NT_SUCCESS negb]. unfold PostSuccessCompletion. rewrite bind_get. by destruct s.
Qed.

Lemma served_page_ok c s (m : M KState NTSTATUS) (fail : M KState NTSTATUS) data :
  serves_page c s -> (forall s', ks_pdo s' = ks_pdo s -> m s' = return_data c data 4096 s') ->
  exists s1, page_returned c data s s1 /\
    (ok ← alloc 4096; if negb ok then fail else m) s = VnvmePostCompletion 0 (admin_completion s (cmd_CID c) 0 0 0) s1.
Proof.
  intros (Ha & Hm & Hv) Heq. unfold alloc, mbind, M_bind. rewrite Ha. cbn [negb]. rewrite Heq by (by destruct s).
  destruct (return_data_ok c data (s <| ks_tick ::= S |>)) as (s1 & Hp & Hr); [by destruct s | done|].
  exists s1. split; [by destruct s|]. rewrite Hr. by destruct s.
Qed.

(** What the host reads of the namespace at [a]. *)
Record namespace_reported (h : mem) (a : Z) (ns : VNVME_NAMESPACE) : Prop := {
  nr_size : load_le h a 8 = ns_TotalBlocks ns;
  nr_capacity : load_le h (a + 8) 8 = ns_TotalBlocks ns;
  nr_used : load_le h (a + 16) 8 = ns_TotalBlocks ns;
  nr_thin : ns_ThinProvisioned ns = true -> Z.testbit (rd8 h (a + 24)) 0 = true;
  nr_block : ns_BlockSize ns = 512 \/ ns_BlockSize ns = 4096 -> 2 ^ rd8 h (a + 0x82) = ns_BlockSize ns;
  nr_metadata : load_le h (a + 0x80) 2 = 0;
  nr_guid i : 0 <= i < 16 -> rd8 h (a + 0x68 + i) = rd8 (bytes_mem (ns_Nguid ns)) i;
  nr_eui64 i : 0 <= i < 8 -> rd8 h (a + 0x78 + i) = rd8 (bytes_mem (ns_Eui64 ns)) i
}.

Lemma load_rd8 m a : load_le m a 1 = rd8 m a.
Proof. cbn [load_le]. unfold load_le. lia. Qed.

Lemma identify_namespace_data_reported ns :
  0 <= ns_TotalBlocks ns < 2 ^ 64 -> 0 <= ns_NsFeatures ns < 2 ^ 8 -> namespace_reported (identify_namespace_data ns) 0 ns.
Proof.
  intros Ht Hf. unfold identify_namespace_data, store_all. cbn [fold_left fst snd].
  set (feat := if ns_ThinProvisioned ns then _ else _). set (lbads := if _ =? _ then _ else _).
  assert (0 <= feat < 2 ^ 8) as Hfeat by (unfold feat; destruct (ns_ThinProvisioned ns); [apply lor_range; lia | done]).
  assert (0 <= lbads < 2 ^ 8) as Hlb by (unfold lbads; destruct (_ =? _); lia).
  change (2 ^ 8) with 256 in *.
  split; rewrite ?Z.add_0_l.
  - by autorewrite with memory.
  - by autorewrite with memory.
  - by autorewrite with memory.
  - intros Hthin. rewrite <- load_rd8. autorewrite with memory. unfold feat. rewrite Hthin, Z.lor_spec. apply orb_true_r.
  - intros Hb. rewrite <- load_rd8. autorewrite with memory. unfold lbads. by destruct Hb as [-> | ->].
  - by autorewrite with memory.
  - intros i Hi. rewrite !rd8_store_out, rd8_copy_out, rd8_copy_in by lia. f_equal. lia.
  - intros i Hi. rewrite !rd8_store_out, rd8_copy_in by lia. f_equal. lia.
Qed.

Lemma namespace_reported_at h a data ns : namespace_reported data 0 ns -> namespace_reported (mem_copy h a data 0 4096) a ns.
Proof.
  intros [H1 H2 H3 H4 H5 H6 H7 H8].
  assert (forall x n, 0 <= x -> x + Z.of_nat n <= 4096 -> load_le (mem_copy h a data 0 4096) (a + x) n = load_le data (0 + x) n) as Hload.
  { intros. rewrite load_copy_in by lia. f_equal. lia. }
  assert (forall x, 0 <= x < 4096 -> rd8 (mem_copy h a data 0 4096) (a + x) = rd8 data (0 + x)) as Hrd.
  { intros. rewrite rd8_copy_in by lia. f_equal. lia. }
  split; rewrite ?Hload, ?Hrd by lia; try done.
  - pose proof (Hload 0 8%nat ltac:(lia) ltac:(lia)) as E. rewrite !Z.add_0_r in E. by rewrite E.
  - intros i Hi. rewrite <- H7, <- !Z.add_assoc, Hrd by lia. f_equal.
  - intros i Hi. rewrite <- H8, <- !Z.add_assoc, Hrd by lia. f_equal.
Qed.

(** Identify Namespace reports the namespace: for an active one, the page at
    PRP1 gives its size in blocks (three times), the thin provisioning bit, a
    block size of [2 ^ LBADS] bytes, no metadata and its identifiers, the rest
    of host memory is untouched and the command succeeds; for an identifier
    out of range, or of a namespace that is not active, it fails with Invalid
    Namespace before it allocates or writes anything. *)
Lemma HandleIdentifyNamespace_reports (c : NVME_COMMAND) (s : KState) :
  pdo_shape (ks_pdo s) -> 0 <= cmd_NSID c ->
  match (if VNVME_NSID_VALID (cmd_NSID c) then arr_get (pdo_Namespaces (ks_pdo s)) (cmd_NSID c - 1) else None) with
  | Some ns =>
      if ns_Active ns then
        serves_page c s -> 0 <= ns_TotalBlocks ns < 2 ^ 64 -> 0 <= ns_NsFeatures ns < 2 ^ 8 ->
        exists s1, HandleIdentifyNamespace c s = VnvmePostCompletion 0 (admin_completion s (cmd_CID c) 0 0 0) s1 /\
          namespace_reported (ks_host s1) (cmd_PRP1 c) ns /\ ks_pdo s1 = ks_pdo s /\
          forall a, ~ (cmd_PRP1 c <= a < cmd_PRP1 c + 4096) -> rd8 (ks_host s1) a = rd8 (ks_host s) a
      else HandleIdentifyNamespace c s = VnvmePostCompletion 0 (admin_completion s (cmd_CID c) 0 NVME_SCT_GENERIC NVME_SC_INVALID_NAMESPACE) s
  | None => HandleIdentifyNamespace c s = VnvmePostCompletion 0 (admin_completion s (cmd_CID c) 0 NVME_SCT_GENERIC NVME_SC_INVALID_NAMESPACE) s
  end.
Proof.
  intros (_ & _ & _ & Hl) Hn. unfold HandleIdentifyNamespace. cbv zeta.
  destruct (VNVME_NSID_VALID (cmd_NSID c)) eqn:Hv; cbn [negb]; [|done].
  apply andb_true_iff in Hv as [?%Z.ltb_lt ?%Z.leb_le]. unfold VNVME_MAX_NAMESPACES in *.
  destruct (proj2 (arr_get_Some_iff (pdo_Namespaces (ks_pdo s)) (cmd_NSID c - 1)) ltac:(lia)) as [ns Hns].
  rewrite Hns, bind_get, (bind_opt _ _ _ _ Hns). destruct (ns_Active ns); cbn [negb]; [|done].
  intros Hp Ht Hf. set (m := return_data c (identify_namespace_data ns) 4096).
  destruct (served_page_ok c s m (PostErrorCompletion (cmd_CID c) NVME_SCT_GENERIC NVME_SC_INTERNAL_ERROR) _ Hp (fun s' _ => eq_refl))
    as (s1 & (H1 & H2 & H3) & Hr).
  exists s1. split; [done|]. rewrite H3. split; [|split; [done|]].
  - by apply namespace_reported_at, identify_namespace_data_reported.
  - intros a Ha. by rewrite rd8_copy_out.
Qed.

(** ** The list of active namespaces *)

Definition ns_live (p : VNVME_PDO_CONTEXT) (nsid : Z) : bool :=
  match arr_get (pdo_Namespaces p) (nsid - 1) with Some ns => ns_Active ns | None => false end.

(** The active identifiers above [start], ascending. *)
Definition active_nsids (p : VNVME_PDO_CONTEXT) (start : Z) : list Z :=
  filter (fun nsid => ns_live p nsid = true) (seqZ (start + 1) (VNVME_MAX_NAMESPACES - start)).

Lemma active_ns_loop_run p n : forall i index m,
  length (pdo_Namespaces p) = 16%nat -> 0 <= i -> 0 <= index -> Z.of_nat n = Z.max 0 (16 - i) -> index + Z.of_nat n <= 1024 ->
  exists m', active_ns_loop n (pdo_Namespaces p) i index m = Some m' /\
    forall k, 0 <= k -> load_le m' (k * 4) 4 =
      if k <? index then load_le m (k * 4) 4 else default (load_le m (k * 4) 4) (active_nsids p i !! Z.to_nat (k - index)).
Proof.
  induction n as [|n IH]; intros i index m Hl Hi Hx Hn Hb; cbn [active_ns_loop].
  { exists m. split; [done|]. intros k Hk. destruct (k <? index); [done|].
    unfold active_nsids. rewrite seqZ_nil by (unfold VNVME_MAX_NAMESPACES; lia). done. }
  rewrite (proj2 (Z.ltb_lt _ _)) by lia. cbn [negb].
  destruct (proj2 (arr_get_Some_iff (pdo_Namespaces p) i) ltac:(lia)) as [ns Hns]. rewrite Hns. cbn [mbind option_bind].
  assert (active_nsids p i = (if ns_Active ns then [i + 1] else []) ++ active_nsids p (i + 1)) as ->.
  { unfold active_nsids. rewrite seqZ_cons, filter_cons by (unfold VNVME_MAX_NAMESPACES; lia).
    assert (ns_live p (i + 1) = ns_Active ns) as Hlv by (unfold ns_live; by rewrite Z.add_simpl_r, Hns). rewrite Hlv.
    replace (Z.pred (VNVME_MAX_NAMESPACES - i)) with (VNVME_MAX_NAMESPACES - (i + 1)) by lia.
    change (Z.succ (i + 1)) with (i + 1 + 1). by destruct (ns_Active ns). }
  destruct (ns_Active ns).
  - destruct (IH (i + 1) (index + 1) (store_le m (index * 4) 4 (i + 1))) as (m' & Hm & Hk); [lia..|].
    exists m'. split; [done|]. intros k Hk0. rewrite (Hk k Hk0).
    destruct (Z.ltb_spec k index), (Z.ltb_spec k (index + 1)); try lia.
    + by rewrite load_store_le_other by lia.
    + assert (k = index) as -> by lia. rewrite Z.sub_diag. cbn. rewrite load_store_le_small by lia. done.
    + rewrite load_store_le_other by lia. cbn [app]. replace (Z.to_nat (k - index)) with (S (Z.to_nat (k - (index + 1)))) by lia. done.
  - destruct (IH (i + 1) index m) as (m' & Hm & Hk); [lia..|]. by exists m'.
Qed.

(** Identify Active Namespace List returns exactly the active namespaces with
    an identifier above the given one, in ascending order, followed by zeros to
    the end of the 1024-entry page, and succeeds. *)
Lemma HandleIdentifyActiveNsList_lists (c : NVME_COMMAND) (s : KState) :
  pdo_shape (ks_pdo s) -> 0 <= cmd_NSID c -> serves_page c s ->
  exists s1, HandleIdentifyActiveNsList c s = VnvmePostCompletion 0 (admin_completion s (cmd_CID c) 0 0 0) s1 /\
    ks_pdo s1 = ks_pdo s /\
    forall k, 0 <= k < 1024 ->
      load_le (ks_host s1) (cmd_PRP1 c + k * 4) 4 = default 0 (active_nsids (ks_pdo s) (cmd_NSID c) !! Z.to_nat k).
Proof.
  intros (_ & _ & _ & Hl) Hn Hp.
  destruct (active_ns_loop_run (ks_pdo s) (Z.to_nat (VNVME_MAX_NAMESPACES - cmd_NSID c)) (cmd_NSID c) 0 mem_zero) as (m & Hm & Hk);
    [done | lia | lia | unfold VNVME_MAX_NAMESPACES; lia | unfold VNVME_MAX_NAMESPACES; lia |].
  unfold HandleIdentifyActiveNsList. cbv zeta. change VNVME_NVME_PAGE_SIZE with 4096.
  set (k := fun s => nsList ← of_opt (active_ns_loop (Z.to_nat (VNVME_MAX_NAMESPACES - cmd_NSID c)) (pdo_Namespaces (ks_pdo s)) (cmd_NSID c) 0 mem_zero);
    return_data c nsList 4096).
  destruct (served_page_ok c s (get ≫= k) (PostErrorCompletion (cmd_CID c) NVME_SCT_GENERIC NVME_SC_INTERNAL_ERROR) m Hp) as (s1 & (H1 & H2 & H3) & Hr).
  { intros s' Hs'. rewrite bind_get. unfold k. rewrite Hs'. by rewrite (bind_opt _ _ _ _ Hm). }
  exists s1. split; [done|]. split; [done|]. intros j Hj. rewrite H3, load_copy_in by lia.
  replace (0 + (cmd_PRP1 c + j * 4 - cmd_PRP1 c)) with (j * 4) by lia. rewrite Hk by lia.
  rewrite (proj2 (Z.ltb_ge _ _)) by lia. by rewrite Z.sub_0_r.
Qed.

(** ** The number of queues *)

Lemma halves_fields x y : 0 <= x < 2 ^ 16 -> 0 <= y < 2 ^ 16 ->
  let dw0 := Z.lor x (u32 (Z.shiftl y 16)) in bits dw0 0 16 = x /\ bits dw0 16 16 = y.
Proof.
  intros Hx Hy. cbv zeta. rewrite u32_small by (rewrite Z.shiftl_mul_pow2 by lia; lia).
  rewrite lor_shiftl_add by lia. rewrite !bits_div by lia. change (2 ^ 0) with 1. change (2 ^ 16) with 65536 in *.
  split; Z.div_mod_to_equations; lia.
Qed.

Lemma if_min a b : (if a <? b then a else b) = Z.min a b.
Proof. destruct (Z.ltb_spec a b); lia. Qed.

(** Set Features / Number of Queues grants, of completion and of submission
    queues, what the host asks for up to the configured maximum, reports both
    in DW0 and keeps the smaller one; a Get Features then reports that number
    in both halves. *)
Lemma HandleSetFeatures_queues (c : NVME_COMMAND) (s : KState) :
  Z.land (cmd_CDW10 c) 0xFF = 0x07 -> 0 <= CONFIG_MAX_IO_QUEUES s < 2 ^ 16 ->
  let ncq := Z.min (CONFIG_MAX_IO_QUEUES s) (cdw_low (cmd_CDW11 c)) in
  let nsq := Z.min (CONFIG_MAX_IO_QUEUES s) (cdw_high (cmd_CDW11 c)) in
  exists s1 dw0 dw0', HandleSetFeatures c s = VnvmePostCompletion 0 (admin_completion s (cmd_CID c) dw0 0 0) s1 /\
    bits dw0 0 16 = ncq /\ bits dw0 16 16 = nsq /\ pdo_MaxIoQueues (ks_pdo s1) = Z.min ncq nsq /\
    HandleGetFeatures c s1 = VnvmePostCompletion 0 (admin_completion s1 (cmd_CID c) dw0' 0 0) s1 /\
    bits dw0' 0 16 = Z.min ncq nsq /\ bits dw0' 16 16 = Z.min ncq nsq.
Proof.
  intros Hfid Hmax ncq nsq. pose proof (cdw_range (cmd_CDW11 c)).
  unfold HandleSetFeatures. rewrite Hfid. cbn [Z.eqb Pos.eqb orb]. rewrite bind_get, u16_small, !if_min by done. fold ncq nsq.
  assert (0 <= ncq < 2 ^ 16 /\ 0 <= nsq < 2 ^ 16 /\ 0 <= Z.min ncq nsq < 2 ^ 16) as (Hc & Hs & Hm) by lia.
  destruct (halves_fields ncq nsq Hc Hs) as [F1 F2], (halves_fields _ _ Hm Hm) as [F3 F4].
  exists (s <| ks_pdo ::= fun p => p <| pdo_MaxIoQueues := Z.min ncq nsq |> |>), (Z.lor ncq (u32 (Z.shiftl nsq 16))),
    (Z.lor (Z.min ncq nsq) (u32 (Z.shiftl (Z.min ncq nsq) 16))).
  split; [|split; [exact F1|split; [exact F2|split; [by destruct s as [? [] ? ? ? ?]|split; [|by split]]]]].
  - unfold pdo_update. rewrite bind_modify. unfold PostSuccessCompletion. rewrite bind_get. by destruct s as [? [] ? ? ? ?].
  - unfold HandleGetFeatures. rewrite bind_get, Hfid. by destruct s as [? [] ? ? ? ?].
Qed.

(** ** The command loop *)

Lemma admin_inv_fetch s m d h p :
  admin_inv s -> VnvmeShmGetControlBlock s = Some m -> pdo_AdminCq p = pdo_AdminCq (ks_pdo s) -> pdo_inv p ->
  admin_inv ((with_shm (put_sq_desc 0 (with_head h d) m) s) <| ks_pdo := p |>).
Proof.
  intros [[_ _ Hw] _] Hm Hq Hp. split; [|done]. split; [by left|by left|]. intros v.
  set (m1 := put_sq_desc 0 (with_head h d) m). pose proof (with_shm_get m m1 s Hm) as Hm1.
  intros Hv. destruct (Hw v) as [?|[[? ?]|?]]; [|by left|done|by right; right].
  rewrite <- Hv. rewrite (cq_view_some 0 s m _ _ Hm eq_refl eq_refl).
  rewrite (cq_view_some 0 _ m1 (cb_AdminCQ (shm_cb m)) (pdo_AdminCq (ks_pdo s))).
  - by destruct m as [[] ? ? ?].
  - rewrite <- Hm1. by destruct s.
  - by destruct m as [[] ? ? ?].
  - cbn. rewrite <- Hq. by destruct s.
Qed.


(** A fetch from the admin queue takes one command, and is a step. *)
Lemma admin_fetch s n :
  admin_inv s -> admin_sq_count s n ->
  match n with
  | O => VnvmeFetchCommand 0 s = Ok ((STATUS_NO_MORE_ENTRIES, zero_command), s)
  | S n => exists c s', VnvmeFetchCommand 0 s = Ok ((STATUS_SUCCESS, c), s') /\ cmd_wf c /\ admin_inv s' /\ admin_sq_count s' n
  end.
Proof.
  intros Hs (Hr & l & Hl & Hn). pose proof Hr as (Ho & (m & d & Hm & Hd & Hwf) & _).
  rewrite (sq_contents_eq _ _ _ _ Hm Hd) in Hl. injection Hl as <-.
  pose proof (VnvmeFetchCommand_result 0 s m d Hr Hm Hd) as Hf. cbv zeta in Hf. case_decide as E.
  { rewrite (sq_pending_empty _ _ Hwf E) in Hn. by subst. }
  rewrite (sq_pending_cons _ _ Hwf E) in Hn. destruct Hf as (p & Hp & _ & Hf). set (h := (qd_Head d + 1) mod qd_Capacity d) in *.
  subst n. cbn [length]. eexists _, _. split; [exact Hf|]. split; [apply cmd_load_wf|].
  assert (0 <= h < qd_Capacity d) as Hh by (apply Z.mod_pos_bound; destruct Hwf as ((_ & ? & _) & _); lia).
  destruct (sq_advance 0 s m d h Hr Hm Hd Hh) as [Hr1 Hc1].
  destruct (sq_ready_pdo 0 _ p Hr1 (or_introl eq_refl)) as [Hr2 Hc2].
  split; [|split; [done|]; exists (sq_pending (shm_mem m) (with_head h d)); by rewrite Hc2, Hc1].
  unfold sq_state_update, pdo_update, modify in Hp. cbn [Z.eqb] in Hp. injection Hp as Hp.
  destruct Hs as [Hpo Hpi]. apply admin_inv_fetch; [by split | done | |]; rewrite <- Hp.
  - by destruct s as [? [] ? ? ? ?].
  - destruct s as [? [] ? ? ? ?]. destruct Hpi as [? ? ?]. by split.
Qed.

Lemma head_keeps h : keeps_inv (pdo_update (fun p => p <| pdo_AdminSq ::= fun q => q <| qs_Head := h |> |>)).
Proof. apply pdo_update_keeps; [by intros []|]. intros []. by intros [? ? ?]. Qed.

(** One round of the loop. *)
Lemma admin_loop_step fuel head tail size s c s1 :
  head <> tail -> VnvmeFetchCommand 0 s = Ok ((STATUS_SUCCESS, c), s1) -> cmd_wf c -> admin_inv s1 ->
  exists s2, adv s1 s2 /\ admin_loop (S fuel) head tail size s = admin_loop fuel ((head +₃₂ 1) mod size) tail size s2.
Proof.
  intros Hne Hf ((_ & _ & _ & _ & _ & Hn) & _) Hs1. cbn [admin_loop]. destruct (Z.eqb_spec head tail); [done|].
  rewrite (bind_Ok _ _ _ _ _ Hf). cbn [fst snd NT_SUCCESS negb].
  destruct (wp_elim _ _ _ (VnvmeProcessAdminCommand_keeps c ltac:(lia) s1 Hs1)) as (st & s2 & Hr & Hs2).
  rewrite (bind_Ok _ _ _ _ _ Hr). cbv beta zeta.
  destruct (wp_elim _ _ _ (head_keeps ((head +₃₂ 1) mod size) s2 (proj1 Hs2))) as ([] & s3 & Hr3 & Hs3).
  exists s3. split; [by eapply adv_trans|]. by rewrite (bind_Ok _ _ _ _ _ Hr3).
Qed.

Lemma admin_loop_ends n : forall fuel head tail size s,
  admin_inv s -> admin_sq_count s n -> (n < fuel)%nat ->
  exists s', admin_loop fuel head tail size s = Ok (tt, s') /\ admin_inv s' /\
    (head = tail \/ exists k, admin_sq_count s' k /\ (k < n \/ k = 0)%nat).
Proof.
  induction n as [|n IH]; intros fuel head tail size s Hs Hc Hfuel; (destruct fuel as [|fuel]; [lia|]);
    (destruct (Z.eq_dec head tail) as [->|Hne]; [exists s; cbn [admin_loop]; rewrite Z.eqb_refl; by split_and!; [..|left]|]);
    pose proof (admin_fetch s _ Hs Hc) as Hf; cbv beta iota in Hf.
  - exists s. cbn [admin_loop]. rewrite (proj2 (Z.eqb_neq _ _)), (bind_Ok _ _ _ _ _ Hf) by done. split; [done|]. split; [done|].
    right. exists 0%nat. auto.
  - destruct Hf as (c & s1 & Hf & Hwf & Hs1 & Hc1).
    destruct (admin_loop_step fuel head tail size s c s1 Hne Hf Hwf Hs1) as (s2 & [Hs2 Hc2] & ->).
    destruct (IH fuel ((head +₃₂ 1) mod size) tail size s2 Hs2 (Hc2 _ Hc1) ltac:(lia)) as (s' & Hl & Hs' & Hk).
    exists s'. split; [done|]. split; [done|]. right. destruct Hk as [Heq|(k & Hk & Hlt)]; [|exists k; split; [done|lia]].
    rewrite Heq in Hl. destruct fuel; cbn [admin_loop] in Hl; rewrite Z.eqb_refl in Hl; injection Hl as <-; exists n; auto.
Qed.

(** C37: the admin loop ends, for any doorbell value [NewTail], even one outside of
    the queue: with more fuel than there are commands in the submission queue
    it comes back, keeps the invariant, and has either nothing to do (no queue,
    or the tail not moved), or it has taken commands, or found the queue empty. *)
Theorem VnvmeProcessAdminCommands_terminates (fuel n : nat) (NewTail : Z) (s : KState) :
  admin_inv s -> admin_sq_count s n -> (n < fuel)%nat ->
  exists s', VnvmeProcessAdminCommands fuel NewTail s = Ok (tt, s') /\ admin_inv s' /\
    (pdo_AdminSqSize (ks_pdo s) = 0 \/ qs_Head (pdo_AdminSq (ks_pdo s)) = NewTail \/
     exists k, admin_sq_count s' k /\ (k < n \/ k = 0)%nat).
Proof.
  intros Hs Hc Hf. unfold VnvmeProcessAdminCommands. rewrite bind_get. cbv zeta.
  destruct (Z.eqb_spec (pdo_AdminSqSize (ks_pdo s)) 0) as [E|E]; [exists s; auto|].
  destruct (admin_loop_ends n fuel (qs_Head (pdo_AdminSq (ks_pdo s))) NewTail (pdo_AdminSqSize (ks_pdo s)) s Hs Hc Hf) as (s' & ? & ? & ?).
  exists s'. auto.
Qed.
End AdminCmd.

(** ** Witnesses *)

#[local] Existing Instances TestKernel.

Lemma admin_state_inv : admin_inv admin_state.
Proof.
  split.
  - split; [by left | by left |]. intros v Hv. right. right.
    assert (v = admin_cq_view) as -> by (injection Hv as <-; reflexivity). exact admin_cq_wf.
  - split; [by vm_compute | by vm_compute |]. intros qid cqid (q & Hq & Hc & _). exfalso.
    pose proof (arr_get_lt _ _ _ Hq) as Hlt. cbn [length] in Hlt.
    assert (arr_get (pdo_IoSq (ks_pdo admin_state)) (VNVME_QUEUE_ID_TO_INDEX qid) = Some zero_queue) as Hz
      by (apply (arr_get_replicate 16 zero_queue); exact Hlt).
    rewrite Hz in Hq. injection Hq as <-. discriminate Hc.
Qed.

Lemma admin_state_represents : represents (ks_pdo admin_state) (mkTable ∅ ∅).
Proof.
  destruct (table_of_represents (ks_pdo admin_state)) as [H1 H2]; [by vm_compute|].
  assert (table_of (ks_pdo admin_state) = mkTable ∅ ∅) as E by (by vm_compute). by rewrite E in H1, H2.
Qed.

Definition admin_test_command (opc cid nsid prp1 cdw10 cdw11 : Z) : NVME_COMMAND :=
  mkCommand opc 0 0 0 cid nsid 0 0 0 prp1 0 cdw10 cdw11 0 0 0 0.

Lemma admin_test_command_wf opc cid nsid prp1 cdw10 cdw11 :
  0 <= opc < 2 ^ 8 -> 0 <= cid < 2 ^ 16 -> 0 <= nsid < 2 ^ 32 -> 0 <= prp1 < 2 ^ 64 -> 0 <= cdw10 < 2 ^ 32 -> 0 <= cdw11 < 2 ^ 32 ->
  cmd_wf (admin_test_command opc cid nsid prp1 cdw10 cdw11).
Proof. intros. unfold cmd_wf, admin_test_command; cbn -[Z.pow]. lia. Qed.

(** Create I/O CQ 2 with 64 entries. *)
Lemma queue_commands_refine_witness :
  exists s1 st s', represents (ks_pdo s1) (mkTable {[2]} ∅) /\
    VnvmeProcessAdminCommand (admin_test_command 0x05 7 0 0x200000 0x003F0002 1) admin_state = Ok (st, s') /\
    represents (ks_pdo s') (mkTable {[2]} ∅).
Proof.
  destruct (queue_commands_refine (admin_test_command 0x05 7 0 0x200000 0x003F0002 1) admin_state (mkTable ∅ ∅) 0 0 (mkTable {[2]} ∅))
    as (s1 & st & s' & H1 & _ & _ & _ & H2 & H3);
    [exact admin_state_inv | exact admin_state_represents | vm_compute; reflexivity |].
  exists s1, st, s'. split; [exact H1|]. split; [exact H2 | exact H3].
Defined.

Lemma VnvmeProcessAdminCommand_safe_witness :
  exists st s', VnvmeProcessAdminCommand (admin_test_command 0x06 9 16 0x300000 0 0) admin_state = Ok (st, s') /\ admin_inv s'.
Proof.
  apply (VnvmeProcessAdminCommand_safe (admin_test_command 0x06 9 16 0x300000 0 0) admin_state admin_state_inv).
  apply admin_test_command_wf; lia.
Defined.

(** Two stored event requests, with identifiers 5 and 6. *)
Definition aer_state : @KState TestKernel :=
  admin_state <| ks_pdo ::= fun p => p <| pdo_AerCids := [5; 6; 0; 0] |> <| pdo_AerCount := 2 |> |>.

Lemma VnvmeCompleteAer_fifo_witness :
  exists s1 dw0, VnvmeCompleteAer 1 0 2 aer_state = VnvmePostCompletion 0 (admin_completion aer_state 5 dw0 0 0) s1 /\
    aer_pending (ks_pdo s1) = [6] /\ bits dw0 16 8 = 2.
Proof.
  assert (admin_inv aer_state) as Hinv.
  { apply (admin_inv_step admin_state); [reflexivity | reflexivity | | apply admin_state_inv].
    destruct (ai_pdo _ admin_state_inv) as [A _ C]. split; [exact A | by vm_compute | exact C]. }
  destruct (VnvmeCompleteAer_fifo 1 0 2 aer_state Hinv) as (s1 & dw0 & H1 & H2 & _ & _ & _ & H3); [done | done |].
  exists s1, dw0. split; [exact H1|]. split; [exact H2 | exact H3].
Defined.

Lemma VnvmeProcessAdminCommands_terminates_witness :
  exists s', VnvmeProcessAdminCommands 4 0xFFFF
      (admin_state <| ks_pdo ::= fun p => p <| pdo_AdminSqSize := 64 |> |>) = Ok (tt, s') /\ admin_inv s'.
Proof.
  destruct (VnvmeProcessAdminCommands_terminates 4 3 0xFFFF (admin_state <| ks_pdo ::= fun p => p <| pdo_AdminSqSize := 64 |> |>))
    as (s' & H1 & H2 & _); [| |lia|].
  - apply (admin_inv_step admin_state); [reflexivity | reflexivity | | apply admin_state_inv].
    destruct (ai_pdo _ admin_state_inv) as [A B C]. split; [exact A | exact B | exact C].
  - split; [exact admin_sq_ready|]. eexists. split; [reflexivity|]. reflexivity.
  - exists s'. split; [exact H1 | exact H2].
Defined.
