(* ===== verification/IoCmd.v ===== *)
(** I/O commands: [vnvme/io_cmd.c].

    Data moves between the namespace's storage and the host pages of the PRP
    list.  The memory back end is accessed in place: its direct pointer is an
    offset into its buffer. *)
From S2P Require Import Prelude NvmeSpec Kernel Config Storage State Shm Prp Queue.
Open Scope Z_scope.
Open Scope c_scope.

Section IoCmd.
Context {W : WinKernel}.

(** ** Completions *)

Definition io_completion (QueueId Cid Sct Sc sqHead phase : Z) : NVME_COMPLETION :=
  zero_completion
    <| cpl_CID := Cid |> <| cpl_DW0 := 0 |> <| cpl_SQID := QueueId |> <| cpl_SQHD := sqHead |>
    <| cpl_Status := NvmeMakeStatus Sct Sc phase |>.

Definition PostIoCompletion (QueueId Cid Sct Sc : Z) : M KState NTSTATUS :=
  s ← get;
  let p := ks_pdo s in
  if QueueId =? 0 then
    VnvmePostCompletion QueueId
      (io_completion QueueId Cid Sct Sc (u16 (qs_Head (pdo_AdminSq p))) (u8 (pdo_AdminCqPhase p)))
  else if VNVME_MAX_IO_QUEUES <? QueueId then mret STATUS_INVALID_PARAMETER
  else
    cq ← of_opt (arr_get (pdo_IoCq p) (QueueId - 1));
    if negb (qs_Created cq) then mret STATUS_INVALID_PARAMETER
    else
      sq ← of_opt (arr_get (pdo_IoSq p) (QueueId - 1));
      VnvmePostCompletion QueueId
        (io_completion QueueId Cid Sct Sc (u16 (qs_Head sq)) (if qs_PhaseTag cq then 1 else 0)).

(** ** The request *)

Definition io_slba (c : NVME_COMMAND) : Z := Z.lor (u64 (Z.shiftl (cmd_CDW11 c) 32)) (cmd_CDW10 c).

(** [(USHORT)(CDW12 & 0xFFFF) + 1], kept in a USHORT. *)
Definition io_nlb (c : NVME_COMMAND) : Z := Z.land (cmd_CDW12 c) 0xFFFF +₁₆ 1.

Definition MAX_TRANSFER : Z := 2 * 1024 * 1024.

(** The namespace a command names, when it is valid and active. *)
Definition io_namespace (nsid : Z) : M KState (option VNVME_NAMESPACE) :=
  if negb (VNVME_NSID_VALID nsid) then mret None
  else
    s ← get;
    ns ← of_opt (arr_get (pdo_Namespaces (ks_pdo s)) (VNVME_NSID_TO_INDEX nsid));
    mret (if ns_Active ns then Some ns else None).

Definition ns_update (nsid : Z) (f : VNVME_NAMESPACE -> VNVME_NAMESPACE) : M KState unit :=
  s ← get;
  l ← of_opt (upd_nth (pdo_Namespaces (ks_pdo s)) (VNVME_NSID_TO_INDEX nsid) f);
  pdo_update (fun p => p <| pdo_Namespaces := l |>).

Definition set_storage (nsid : Z) (c : option VNVME_STORAGE_CONTEXT) : M KState unit :=
  ns_update nsid (fun ns => ns <| ns_Storage := c |>).

Definition count_io : M KState unit := pdo_update (fun p => p <| pdo_IoCommandsProcessed ::= fun n => s64 (n + 1) |>).

(** ** Transfers

    The two loops over the PRP entries; [bufferOffset] counts the bytes done,
    and an entry that cannot be mapped is passed over. *)

(** From [src] at [base] to the host. *)
Fixpoint prp_to_host (entries : list VNVME_PRP_ENTRY) (src : block) (base totalBytes bufferOffset : Z) : M KState unit :=
  match entries with
  | [] => mret tt
  | e :: entries =>
      if negb (bufferOffset <? totalBytes) then mret tt
      else
        let pa := prp_PhysicalAddress e +₆₄ prp_Offset e in
        let mapSize := if totalBytes - bufferOffset <? prp_Length e then totalBytes - bufferOffset else prp_Length e in
        mapped ← map_io pa mapSize;
        if negb mapped then prp_to_host entries src base totalBytes bufferOffset
        else if negb (in_block (blk_size src) (base + bufferOffset) mapSize) then fault
        else
          modify (fun s => s <| ks_host ::= fun h => mem_copy h pa (blk_mem src) (base + bufferOffset) mapSize |>);;
          prp_to_host entries src base totalBytes (bufferOffset + mapSize)
  end.

(** From the host to [dst] at [base]. *)
Fixpoint prp_from_host (entries : list VNVME_PRP_ENTRY) (dst : block) (base totalBytes bufferOffset : Z) : M KState block :=
  match entries with
  | [] => mret dst
  | e :: entries =>
      if negb (bufferOffset <? totalBytes) then mret dst
      else
        let pa := prp_PhysicalAddress e +₆₄ prp_Offset e in
        let mapSize := if totalBytes - bufferOffset <? prp_Length e then totalBytes - bufferOffset else prp_Length e in
        mapped ← map_io pa mapSize;
        if negb mapped then prp_from_host entries dst base totalBytes bufferOffset
        else
          s ← get;
          dst ← of_opt (blk_write dst (base + bufferOffset) (ks_host s) pa mapSize);
          prp_from_host entries dst base totalBytes (bufferOffset + mapSize)
  end.

(** ** Read *)

(** The data of a Read, a block and an offset in it, or the completion of a failure. *)
Definition read_source (nsid : Z) (ns : VNVME_NAMESPACE) (byteOffset totalBytes : Z) : M KState (Z * Z + block * Z) :=
  match ns_Storage ns with
  | Some c =>
      let '(status, directPtr) := VnvmeStorageGetDirect (Some c) byteOffset (u32 totalBytes) in
      match NT_SUCCESS status, directPtr, sc_MemoryBuffer c with
      | true, Some off, Some buf => mret (inr (buf, off))
      | _, _, _ =>
          if MAX_TRANSFER <? totalBytes then mret (inl (NVME_SCT_GENERIC, NVME_SC_INVALID_FIELD))
          else
            ok ← alloc totalBytes;
            if negb ok then mret (inl (NVME_SCT_GENERIC, NVME_SC_INTERNAL_ERROR))
            else
              r ← of_res (VnvmeStorageRead (Some c) byteOffset (Block totalBytes mem_zero) (u32 totalBytes));
              set_storage nsid r.2;;
              mret (if negb (NT_SUCCESS r.1.1) then inl (NVME_SCT_MEDIA_ERROR, NVME_SC_UNRECOVERED_READ_ERROR)
                    else inr (r.1.2, 0))
      end
  | None =>
      ok ← alloc totalBytes;
      mret (if negb ok then inl (NVME_SCT_GENERIC, NVME_SC_INTERNAL_ERROR) else inr (Block totalBytes mem_zero, 0))
  end.

Definition HandleRead (QueueId : Z) (Command : NVME_COMMAND) : M KState NTSTATUS :=
  let nsid := cmd_NSID Command in
  let slba := io_slba Command in
  let nlb := io_nlb Command in
  let post sct sc := PostIoCompletion QueueId (cmd_CID Command) sct sc in
  ns ← io_namespace nsid;
  match ns with
  | None => post NVME_SCT_GENERIC NVME_SC_INVALID_NAMESPACE
  | Some ns =>
      let totalBytes := VNVME_BLOCKS_TO_BYTES nlb (ns_BlockSize ns) in
      let byteOffset := VNVME_LBA_TO_BYTES slba (ns_BlockSize ns) in
      if negb (VNVME_LBA_RANGE_VALID slba nlb (ns_TotalBlocks ns)) then post NVME_SCT_GENERIC NVME_SC_LBA_OUT_OF_RANGE
      else
        data ← read_source nsid ns byteOffset totalBytes;
        match data with
        | inl (sct, sc) => post sct sc
        | inr (src, base) =>
            r ← VnvmeParsePrpList (cmd_PRP1 Command) (cmd_PRP2 Command) (u32 totalBytes);
            if negb (NT_SUCCESS r.1) then post NVME_SCT_GENERIC NVME_SC_INTERNAL_ERROR
            else
              prp_to_host r.2 src base totalBytes 0;;
              pdo_update (fun p => p <| pdo_BytesRead ::= fun n => s64 (n + totalBytes) |>);;
              count_io;;
              ns_update nsid (fun ns => ns <| ns_ReadBytes ::= fun n => s64 (n + totalBytes) |>
                                           <| ns_ReadCommands ::= fun n => s64 (n + 1) |>);;
              post NVME_SCT_GENERIC NVME_SC_SUCCESS
        end
  end.

(** ** Write *)

(** Where the data of a Write goes: the storage buffer itself, at an offset, a
    temporary buffer, or nowhere. *)
Inductive write_target : Type :=
  | Direct (buf : block) (off : Z)
  | Temporary
  | Discarded.

Definition select_target (ns : VNVME_NAMESPACE) (byteOffset totalBytes : Z) : M KState (Z * Z + write_target) :=
  let direct :=
    match ns_Storage ns with
    | Some c =>
        let '(status, directPtr) := VnvmeStorageGetDirect (Some c) byteOffset (u32 totalBytes) in
        match NT_SUCCESS status, directPtr, sc_MemoryBuffer c with
        | true, Some off, Some buf => Some (buf, off)
        | _, _, _ => None
        end
    | None => None
    end in
  match direct with
  | Some (buf, off) => mret (inr (Direct buf off))
  | None =>
      if MAX_TRANSFER <? totalBytes then mret (inl (NVME_SCT_GENERIC, NVME_SC_INVALID_FIELD))
      else
        ok ← alloc totalBytes;
        mret (if negb ok then
                match ns_Storage ns with
                | Some _ => inl (NVME_SCT_GENERIC, NVME_SC_INTERNAL_ERROR)
                | None => inr Discarded
                end
              else inr Temporary)
  end.

(** The label [Success]. *)
Definition write_success (QueueId : Z) (Command : NVME_COMMAND) (totalBytes : Z) : M KState NTSTATUS :=
  pdo_update (fun p => p <| pdo_BytesWritten ::= fun n => s64 (n + totalBytes) |>);;
  count_io;;
  ns_update (cmd_NSID Command) (fun ns => ns <| ns_WriteBytes ::= fun n => s64 (n + totalBytes) |>
                                             <| ns_WriteCommands ::= fun n => s64 (n + 1) |>);;
  PostIoCompletion QueueId (cmd_CID Command) NVME_SCT_GENERIC NVME_SC_SUCCESS.

Definition HandleWrite (QueueId : Z) (Command : NVME_COMMAND) : M KState NTSTATUS :=
  let nsid := cmd_NSID Command in
  let slba := io_slba Command in
  let nlb := io_nlb Command in
  let post sct sc := PostIoCompletion QueueId (cmd_CID Command) sct sc in
  ns ← io_namespace nsid;
  match ns with
  | None => post NVME_SCT_GENERIC NVME_SC_INVALID_NAMESPACE
  | Some ns =>
      let totalBytes := VNVME_BLOCKS_TO_BYTES nlb (ns_BlockSize ns) in
      let byteOffset := VNVME_LBA_TO_BYTES slba (ns_BlockSize ns) in
      if negb (VNVME_LBA_RANGE_VALID slba nlb (ns_TotalBlocks ns)) then post NVME_SCT_GENERIC NVME_SC_LBA_OUT_OF_RANGE
      else
        target ← select_target ns byteOffset totalBytes;
        match target with
        | inl (sct, sc) => post sct sc
        | inr Discarded => write_success QueueId Command totalBytes
        | inr (Direct buf off) =>
            r ← VnvmeParsePrpList (cmd_PRP1 Command) (cmd_PRP2 Command) (u32 totalBytes);
            if negb (NT_SUCCESS r.1) then post NVME_SCT_GENERIC NVME_SC_INTERNAL_ERROR
            else
              buf ← prp_from_host r.2 buf off totalBytes 0;
              set_storage nsid (option_map (fun c => c <| sc_MemoryBuffer := Some buf |>) (ns_Storage ns));;
              write_success QueueId Command totalBytes
        | inr Temporary =>
            r ← VnvmeParsePrpList (cmd_PRP1 Command) (cmd_PRP2 Command) (u32 totalBytes);
            if negb (NT_SUCCESS r.1) then post NVME_SCT_GENERIC NVME_SC_INTERNAL_ERROR
            else
              buf ← prp_from_host r.2 (Block totalBytes mem_zero) 0 totalBytes 0;
              match ns_Storage ns with
              | None => write_success QueueId Command totalBytes
              | Some c =>
                  w ← of_res (VnvmeStorageWrite (Some c) byteOffset buf (u32 totalBytes));
                  set_storage nsid w.2;;
                  if negb (NT_SUCCESS w.1) then post NVME_SCT_MEDIA_ERROR NVME_SC_WRITE_FAULT
                  else write_success QueueId Command totalBytes
              end
        end
  end.

(** ** Flush *)

(** Whether a flush command counts on a namespace: VnvmeStorageFlush itself does
    not change the state, and its status is ignored. *)
Definition flush_ns (ns : VNVME_NAMESPACE) : VNVME_NAMESPACE :=
  match ns_Active ns, ns_Storage ns with
  | true, Some _ => ns <| ns_FlushCommands ::= fun n => s64 (n + 1) |>
  | _, _ => ns
  end.

Definition HandleFlush (QueueId : Z) (Command : NVME_COMMAND) : M KState NTSTATUS :=
  let nsid := cmd_NSID Command in
  let done :=
    count_io;;
    PostIoCompletion QueueId (cmd_CID Command) NVME_SCT_GENERIC NVME_SC_SUCCESS in
  if nsid =? 0xFFFFFFFF then
    pdo_update (fun p => p <| pdo_Namespaces ::= map flush_ns |>);;
    done
  else
    ns ← io_namespace nsid;
    match ns with
    | None => PostIoCompletion QueueId (cmd_CID Command) NVME_SCT_GENERIC NVME_SC_INVALID_NAMESPACE
    | Some _ =>
        ns_update nsid (fun ns => ns <| ns_FlushCommands ::= fun n => s64 (n + 1) |>);;
        done
    end.

(** ** Write Zeroes *)

Definition WRITE_ZEROES_CHUNK_SIZE : Z := 1 * 1024 * 1024.

(** The storage of a namespace, as it is now. *)
Definition current_storage (nsid : Z) : M KState (option VNVME_STORAGE_CONTEXT) :=
  s ← get;
  ns ← of_opt (arr_get (pdo_Namespaces (ks_pdo s)) (VNVME_NSID_TO_INDEX nsid));
  mret (ns_Storage ns).

Definition zero_storage_range (nsid offset length : Z) : M KState NTSTATUS :=
  c ← current_storage nsid;
  s ← get;
  r ← of_res (VnvmeStorageWriteZeroes (ks_tick s) c offset length);
  modify (fun s => s <| ks_tick ::= S |>);;
  set_storage nsid r.2;;
  mret r.1.

(** The loop [while (remaining > 0)]: did every chunk succeed? *)
Fixpoint write_zeroes_loop (fuel : nat) (nsid offset remaining : Z) : M KState bool :=
  if negb (0 <? remaining) then mret true
  else match fuel with
  | O => out_of_fuel
  | S fuel =>
      let chunkSize := if WRITE_ZEROES_CHUNK_SIZE <? remaining then WRITE_ZEROES_CHUNK_SIZE else u32 remaining in
      status ← zero_storage_range nsid offset chunkSize;
      if negb (NT_SUCCESS status) then mret false
      else write_zeroes_loop fuel nsid (offset +₆₄ chunkSize) (remaining -₆₄ chunkSize)
  end.

(** One round per chunk, and one to stop. *)
Definition write_zeroes_fuel (totalBytes : Z) : nat := Z.to_nat (totalBytes / WRITE_ZEROES_CHUNK_SIZE + 1).

Definition HandleWriteZeroes (QueueId : Z) (Command : NVME_COMMAND) : M KState NTSTATUS :=
  let nsid := cmd_NSID Command in
  let slba := io_slba Command in
  let nlb := io_nlb Command in
  let post sct sc := PostIoCompletion QueueId (cmd_CID Command) sct sc in
  ns ← io_namespace nsid;
  match ns with
  | None => post NVME_SCT_GENERIC NVME_SC_INVALID_NAMESPACE
  | Some ns =>
      let totalBytes := VNVME_BLOCKS_TO_BYTES nlb (ns_BlockSize ns) in
      let byteOffset := VNVME_LBA_TO_BYTES slba (ns_BlockSize ns) in
      if negb (VNVME_LBA_RANGE_VALID slba nlb (ns_TotalBlocks ns)) then post NVME_SCT_GENERIC NVME_SC_LBA_OUT_OF_RANGE
      else
        ok ← (match ns_Storage ns with
              | None => mret true
              | Some _ => write_zeroes_loop (write_zeroes_fuel totalBytes) nsid byteOffset totalBytes
              end);
        if negb ok then post NVME_SCT_MEDIA_ERROR NVME_SC_WRITE_FAULT
        else
          count_io;;
          post NVME_SCT_GENERIC NVME_SC_SUCCESS
  end.

(** ** Dataset Management *)

(** NVME_DSM_RANGE. *)
Record NVME_DSM_RANGE := mkDsmRange {
  dsm_ContextAttributes : Z;
  dsm_LengthInLogicalBlocks : Z;
  dsm_StartingLBA : Z
}.
Definition dsm_load (m : mem) (a : Z) : NVME_DSM_RANGE := mkDsmRange (load_le m a 4) (load_le m (a + 4) 4) (load_le m (a + 8) 8).

(** The loop over the ranges; [n] of them are left, the next one is range [i].
    [ns] is the namespace as the handler found it: only its storage changes. *)
Fixpoint dsm_loop (n : nat) (nsid : Z) (ns : VNVME_NAMESPACE) (ranges i : Z) : M KState unit :=
  match n with
  | O => mret tt
  | S n =>
      s ← get;
      let r := dsm_load (ks_host s) (ranges + i * 16) in
      let slba := dsm_StartingLBA r in
      let nlb := dsm_LengthInLogicalBlocks r in
      if nlb =? 0 then dsm_loop n nsid ns ranges (i + 1)
      else if ns_TotalBlocks ns <? (slba +₆₄ nlb) then dsm_loop n nsid ns ranges (i + 1)
      else
        let byteOffset := slba *₆₄ ns_BlockSize ns in
        let byteLength := nlb *₆₄ ns_BlockSize ns in
        match ns_Storage ns with
        | Some _ => zero_storage_range nsid byteOffset (u32 byteLength);; dsm_loop n nsid ns ranges (i + 1)
        | None => dsm_loop n nsid ns ranges (i + 1)
        end
  end.

Definition HandleDatasetManagement (QueueId : Z) (Command : NVME_COMMAND) : M KState NTSTATUS :=
  let nsid := cmd_NSID Command in
  let nr := Z.land (cmd_CDW10 Command) 0xFF + 1 in
  let deallocate := negb (Z.land (cmd_CDW11 Command) 0x04 =? 0) in
  let post sct sc := PostIoCompletion QueueId (cmd_CID Command) sct sc in
  let done := count_io;; post NVME_SCT_GENERIC NVME_SC_SUCCESS in
  ns ← io_namespace nsid;
  match ns with
  | None => post NVME_SCT_GENERIC NVME_SC_INVALID_NAMESPACE
  | Some ns =>
      if negb deallocate then done
      else
        let nr := if 256 <? nr then 256 else nr in
        mapped ← map_io (cmd_PRP1 Command) (nr * 16);
        if negb mapped then done
        else
          dsm_loop (Z.to_nat nr) nsid ns (cmd_PRP1 Command) 0;;
          done
  end.

(** ** Compare *)

(** [RtlCompareMemory(a, b, n) == n]. *)
Definition mem_eqb (a b : mem) (n : Z) : bool := forallb (fun i => rd8 a i =? rd8 b i) (seqZ 0 n).

Definition HandleCompare (QueueId : Z) (Command : NVME_COMMAND) : M KState NTSTATUS :=
  let nsid := cmd_NSID Command in
  let slba := io_slba Command in
  let nlb := io_nlb Command in
  let post sct sc := PostIoCompletion QueueId (cmd_CID Command) sct sc in
  ns ← io_namespace nsid;
  match ns with
  | None => post NVME_SCT_GENERIC NVME_SC_INVALID_NAMESPACE
  | Some ns =>
      let totalBytes := VNVME_BLOCKS_TO_BYTES nlb (ns_BlockSize ns) in
      let byteOffset := VNVME_LBA_TO_BYTES slba (ns_BlockSize ns) in
      if negb (VNVME_LBA_RANGE_VALID slba nlb (ns_TotalBlocks ns)) then post NVME_SCT_GENERIC NVME_SC_LBA_OUT_OF_RANGE
      else if MAX_TRANSFER <? totalBytes then post NVME_SCT_GENERIC NVME_SC_INVALID_FIELD
      else
        ok ← alloc totalBytes;
        if negb ok then post NVME_SCT_GENERIC NVME_SC_INTERNAL_ERROR
        else
          ok ← alloc totalBytes;
          if negb ok then post NVME_SCT_GENERIC NVME_SC_INTERNAL_ERROR
          else
            r ← VnvmeParsePrpList (cmd_PRP1 Command) (cmd_PRP2 Command) (u32 totalBytes);
            if negb (NT_SUCCESS r.1) then post NVME_SCT_GENERIC NVME_SC_INTERNAL_ERROR
            else
              compareBuffer ← prp_from_host r.2 (Block totalBytes mem_zero) 0 totalBytes 0;
              read ← (match ns_Storage ns with
                      | Some c =>
                          rd ← of_res (VnvmeStorageRead (Some c) byteOffset (Block totalBytes mem_zero) (u32 totalBytes));
                          set_storage nsid rd.2;;
                          mret (if NT_SUCCESS rd.1.1 then Some rd.1.2 else None)
                      | None => mret (Some (Block totalBytes mem_zero))
                      end);
              match read with
              | None => post NVME_SCT_MEDIA_ERROR NVME_SC_UNRECOVERED_READ_ERROR
              | Some storageBuffer =>
                  count_io;;
                  if negb (mem_eqb (blk_mem compareBuffer) (blk_mem storageBuffer) totalBytes)
                  then post NVME_SCT_MEDIA_ERROR NVME_SC_COMPARE_FAILURE
                  else post NVME_SCT_GENERIC NVME_SC_SUCCESS
              end
  end.

(** ** Dispatch *)

Definition VnvmeProcessIoCommand (QueueId : Z) (Command : NVME_COMMAND) : M KState NTSTATUS :=
  let opc := cmd_OPC Command in
  if opc =? NVME_IO_READ then HandleRead QueueId Command
  else if opc =? NVME_IO_WRITE then HandleWrite QueueId Command
  else if opc =? NVME_IO_FLUSH then HandleFlush QueueId Command
  else if opc =? NVME_IO_WRITE_ZEROES then HandleWriteZeroes QueueId Command
  else if opc =? NVME_IO_DATASET_MANAGEMENT then HandleDatasetManagement QueueId Command
  else if opc =? NVME_IO_COMPARE then HandleCompare QueueId Command
  else PostIoCompletion QueueId (cmd_CID Command) NVME_SCT_GENERIC NVME_SC_INVALID_OPCODE.

(** The loop [while (head != tail)]. *)
Fixpoint io_loop (fuel : nat) (QueueId head tail queueSize : Z) : M KState unit :=
  if head =? tail then mret tt
  else match fuel with
  | O => out_of_fuel
  | S fuel =>
      r ← VnvmeFetchCommand QueueId;
      if negb (NT_SUCCESS r.1) then mret tt
      else
        VnvmeProcessIoCommand QueueId r.2;;
        let head := (head +₃₂ 1) mod queueSize in
        iosq_update (QueueId - 1) (fun q => q <| qs_Head := head |>);;
        count_io;;
        io_loop fuel QueueId head tail queueSize
  end.

Definition VnvmeProcessIoCommands (fuel : nat) (QueueId NewTail : Z) : M KState unit :=
  s ← get;
  if (QueueId =? 0) || (pdo_IoQueueCount (ks_pdo s) <? QueueId) then mret tt
  else
    sq ← of_opt (arr_get (pdo_IoSq (ks_pdo s)) (QueueId - 1));
    let queueSize := qs_Size sq in
    if (queueSize =? 0) || negb (qs_Created sq) then mret tt
    else io_loop fuel QueueId (qs_Head sq) NewTail queueSize.

(** ** The transfer loops *)


(** The entries that the kernel maps, when the first is tried at time [t]; the
    loops pass over the others. *)
Fixpoint mapped (t : nat) (l : list VNVME_PRP_ENTRY) : list VNVME_PRP_ENTRY :=
  match l with
  | [] => []
  | e :: l => if MmMapIoSpace t (prp_start e) (prp_Length e) then e :: mapped (S t) l else mapped (S t) l
  end.





Lemma prp_disjoint_sublist l l' : l' `sublist_of` l -> prp_disjoint l -> prp_disjoint l'.
Proof.
  induction 1 as [|e l' l Hs IH|e l' l Hs IH]; [done| |]; intros [H1 H2]; [split; [|by apply IH]|by apply IH].
  rewrite Forall_forall in H1 |- *. intros e' He'. apply H1. by apply (elem_of_sublist l').
Qed.


(** ** Namespaces and their disks *)

Definition ns_at (s : KState) (nsid : Z) : option VNVME_NAMESPACE :=
  arr_get (pdo_Namespaces (ks_pdo s)) (VNVME_NSID_TO_INDEX nsid).

Definition disk (s : KState) (nsid : Z) : option VNVME_STORAGE_CONTEXT := ns ← ns_at s nsid; ns_Storage ns.

(** A change that concerns namespace [nsid] alone: host memory and shared memory
    stay, the others' disks stay, its own disk becomes [d]. *)
Record disk_step (nsid : Z) (d : option VNVME_STORAGE_CONTEXT) (s s' : KState) : Prop := {
  ds_host : ks_host s' = ks_host s;
  ds_fdo : ks_fdo s' = ks_fdo s;
  ds_ns : exists ns, ns_at s' nsid = Some ns;
  ds_disk : disk s' nsid = d;
  ds_other m : m <> nsid -> disk s' m = disk s m
}.

Lemma disk_step_refl nsid s ns : ns_at s nsid = Some ns -> disk_step nsid (disk s nsid) s s.
Proof. intros H. split; eauto. Qed.

Lemma disk_step_trans nsid d1 d2 s1 s2 s3 : disk_step nsid d1 s1 s2 -> disk_step nsid d2 s2 s3 -> disk_step nsid d2 s1 s3.
Proof. intros [? ? ? ? H1] [? ? ? ? H2]. split; [congruence | congruence | done | done |]. intros m Hm. by rewrite H2, H1. Qed.

(** A change of the controller outside of the namespaces. *)
Lemma disk_step_pdo nsid f s ns :
  ns_at s nsid = Some ns -> (forall p, pdo_Namespaces (f p) = pdo_Namespaces p) ->
  disk_step nsid (disk s nsid) s (s <| ks_pdo ::= f |>).
Proof.
  intros H Hf. assert (forall m, ns_at (s <| ks_pdo ::= f |>) m = ns_at s m) as E.
  { intros m. unfold ns_at. destruct s; unset. by rewrite Hf. }
  split; unfold disk; rewrite ?E; eauto; [by destruct s..|]. intros m _. by rewrite E.
Qed.

Lemma disk_step_tick nsid s t ns : ns_at s nsid = Some ns -> disk_step nsid (disk s nsid) s (s <| ks_tick := t |>).
Proof. intros H. split; try (by destruct s). exists ns. by destruct s. Qed.

Lemma ns_update_run nsid f s ns :
  ns_at s nsid = Some ns -> exists s', ns_update nsid f s = Ok (tt, s') /\ disk_step nsid (ns_Storage (f ns)) s s' /\ ks_tick s' = ks_tick s /\
    ns_at s' nsid = Some (f ns).
Proof.
  intros H. pose proof (arr_get_lt _ _ _ H). unfold ns_update. rewrite bind_get, (bind_opt _ _ _ _ (upd_nth_insert _ _ _ f H)).
  eexists. split; [done|]. set (l := <[_ := _]> _).
  assert (forall m, ns_at (s <| ks_pdo ::= fun p => p <| pdo_Namespaces := l |> |>) m = arr_get l (VNVME_NSID_TO_INDEX m)) as E
    by (intros m; unfold ns_at; by destruct s as [? [] ? ? ? ?]).
  assert (arr_get l (VNVME_NSID_TO_INDEX nsid) = Some (f ns)) as Hin by (by apply arr_get_insert_eq with ns).
  split; [|split; [by destruct s|by rewrite E]]. split; [by destruct s | by destruct s | rewrite E; eauto | unfold disk; by rewrite E, Hin |].
  intros m Hm. unfold disk. rewrite E. unfold l. rewrite arr_get_insert_ne by (unfold VNVME_NSID_TO_INDEX in *; lia). done.
Qed.

(** ** A well-formed data request *)

(** The disk of a namespace holds all of its blocks. *)
Definition ns_ok (ns : VNVME_NAMESPACE) (c : VNVME_STORAGE_CONTEXT) : Prop :=
  0 < ns_BlockSize ns /\ ns_TotalBlocks ns * ns_BlockSize ns <= sc_TotalBytes c < 2 ^ 63.

Record io_blocks (s : KState) (c : NVME_COMMAND) (ns : VNVME_NAMESPACE) (d : VNVME_STORAGE_CONTEXT) : Prop := {
  ir_nsid : 1 <= cmd_NSID c <= VNVME_MAX_NAMESPACES;
  ir_ns : ns_at s (cmd_NSID c) = Some ns;
  ir_active : ns_Active ns = true;
  ir_storage : ns_Storage ns = Some d;
  ir_ok : ns_ok ns d;
  ir_slba : 0 <= io_slba c;
  ir_range : io_slba c + io_nlb c <= ns_TotalBlocks ns
}.

Record io_request (s : KState) (c : NVME_COMMAND) (ns : VNVME_NAMESPACE) (d : VNVME_STORAGE_CONTEXT) : Prop := {
  ir_blocks :> io_blocks s c ns d;
  ir_size : 0 < io_nlb c * ns_BlockSize ns <= MAX_TRANSFER
}.

Definition io_bytes (c : NVME_COMMAND) (ns : VNVME_NAMESPACE) : Z := io_nlb c * ns_BlockSize ns.
Definition io_offset (c : NVME_COMMAND) (ns : VNVME_NAMESPACE) : Z := io_slba c * ns_BlockSize ns.

(** The 64-bit arithmetic of the handlers does not wrap for such a request. *)
Lemma io_blocks_bytes s c ns d : io_blocks s c ns d ->
  VNVME_BLOCKS_TO_BYTES (io_nlb c) (ns_BlockSize ns) = io_bytes c ns /\
  VNVME_LBA_TO_BYTES (io_slba c) (ns_BlockSize ns) = io_offset c ns /\
  VNVME_LBA_RANGE_VALID (io_slba c) (io_nlb c) (ns_TotalBlocks ns) = true /\
  0 <= io_bytes c ns /\ 0 <= io_offset c ns /\ io_offset c ns + io_bytes c ns <= sc_TotalBytes d < 2 ^ 63.
Proof.
  intros [_ _ _ _ [Hbs Hd] Hs Hr].
  assert (0 <= io_nlb c < 2 ^ 16) as Hn by apply u16_range.
  assert (io_offset c ns + io_bytes c ns <= sc_TotalBytes d) as Hin.
  { unfold io_offset, io_bytes. rewrite <- Z.mul_add_distr_r.
    pose proof (Z.mul_le_mono_nonneg_r _ _ (ns_BlockSize ns) ltac:(lia) Hr). lia. }
  assert (0 <= io_offset c ns) as Ho by (unfold io_offset; apply Z.mul_nonneg_nonneg; lia).
  assert (0 <= io_bytes c ns) as Hb by (unfold io_bytes; apply Z.mul_nonneg_nonneg; lia).
  assert (io_slba c + io_nlb c < 2 ^ 63).
  { assert (ns_TotalBlocks ns * 1 <= ns_TotalBlocks ns * ns_BlockSize ns) by (apply Z.mul_le_mono_nonneg_l; lia). lia. }
  unfold VNVME_BLOCKS_TO_BYTES, VNVME_LBA_TO_BYTES, VNVME_LBA_RANGE_VALID. fold (io_bytes c ns) (io_offset c ns) in *.
  rewrite !u64_small by lia. split_and!; first [done | lia | apply Z.leb_le; lia].
Qed.


Lemma io_namespace_run s c ns d : io_blocks s c ns d -> io_namespace (cmd_NSID c) s = Ok (Some ns, s).
Proof.
  intros [H1 H2 H3 _ _ _ _]. unfold io_namespace, VNVME_NSID_VALID.
  rewrite (proj2 (Z.ltb_lt _ _)), (proj2 (Z.leb_le _ _)) by lia. cbn [andb negb].
  rewrite bind_get, (bind_opt _ _ _ _ H2). by rewrite H3.
Qed.










Context {L : FileLaws W}.

Lemma set_storage_run nsid d s ns :
  ns_at s nsid = Some ns -> exists s', set_storage nsid d s = Ok (tt, s') /\ disk_step nsid d s s' /\ ks_tick s' = ks_tick s.
Proof.
  intros H. destruct (ns_update_run nsid (fun ns => ns <| ns_Storage := d |>) s ns H) as (s' & Hr & Hd & Ht & _).
  exists s'. split; [done|]. split; [|done]. by destruct ns.
Qed.


#[export] Instance is_file_dec d : Decision (is_file d).
Proof. unfold is_file. apply _. Defined.














(** ** Zeroing *)

Lemma current_storage_run nsid s ns : ns_at s nsid = Some ns -> current_storage nsid s = Ok (ns_Storage ns, s).
Proof. intros H. unfold current_storage. by rewrite bind_get, (bind_opt _ _ _ _ H). Qed.

Lemma disk_ns s nsid d : disk s nsid = Some d -> exists ns, ns_at s nsid = Some ns /\ ns_Storage ns = Some d.
Proof. unfold disk. destruct (ns_at s nsid) as [ns|]; [|done]. cbn. eauto. Qed.

(** One call of the back end, when it comes back. *)
Lemma zero_storage_range_step nsid off len s d st d1 :
  disk s nsid = Some d -> VnvmeStorageWriteZeroes (ks_tick s) (Some d) off len = Ok (st, Some d1) ->
  exists s1, zero_storage_range nsid off len s = Ok (st, s1) /\ disk_step nsid (Some d1) s s1.
Proof.
  intros Hd Hz. destruct (disk_ns _ _ _ Hd) as (ns & Hns & Hst). unfold zero_storage_range.
  rewrite (bind_Ok _ _ _ _ _ (current_storage_run _ _ _ Hns)), bind_get, Hst, (bind_res _ _ _ _ Hz), bind_modify. cbn [fst snd].
  assert (s <| ks_tick ::= S |> = s <| ks_tick := S (ks_tick s) |>) as -> by (by destruct s).
  pose proof (disk_step_tick nsid s (S (ks_tick s)) ns Hns) as St. destruct (ds_ns _ _ _ _ St) as [ns0 Hns0].
  destruct (set_storage_run nsid (Some d1) _ ns0 Hns0) as (s1 & Hs1 & Hd1 & _). rewrite (bind_Ok _ _ _ _ _ Hs1).
  exists s1. split; [done|]. by eapply disk_step_trans.
Qed.

Lemma zero_storage_range_run nsid off len s d :
  disk s nsid = Some d -> sc_ok d -> 0 <= off -> 0 <= len < 2 ^ 32 -> off + len < 2 ^ 64 ->
  exists st s1 d1, zero_storage_range nsid off len s = Ok (st, s1) /\ disk_step nsid (Some d1) s s1 /\
    sc_ok d1 /\ sc_same_shape d d1 /\ (NT_SUCCESS st = true -> sc_updated d d1 off len mem_zero).
Proof.
  intros Hd Hok H1 H2 H3. destruct (VnvmeStorageWriteZeroes_ok (ks_tick s) d off len Hok H1 H2 H3) as (st & d1 & Hz & Hok1 & Hsh & Hu).
  destruct (zero_storage_range_step nsid off len s d st d1 Hd Hz) as (s1 & Hr & Hs). exists st, s1, d1.
  do 4 (split; [done|]). intros Hst. by destruct (Hu Hst).
Qed.

(** The chunk loop ends within its fuel; if every chunk succeeds, the whole range is zero. *)
Lemma write_zeroes_loop_ok nsid fuel : forall off rem s d,
  disk s nsid = Some d -> sc_ok d -> 0 <= off -> 0 <= rem -> off + rem < 2 ^ 63 -> rem < WRITE_ZEROES_CHUNK_SIZE * Z.of_nat fuel + 1 ->
  exists ok s1 d1, write_zeroes_loop fuel nsid off rem s = Ok (ok, s1) /\ disk_step nsid (Some d1) s s1 /\
    sc_ok d1 /\ sc_same_shape d d1 /\ (ok = true -> sc_updated d d1 off rem mem_zero).
Proof.
  unfold WRITE_ZEROES_CHUNK_SIZE. induction fuel as [|fuel IH]; intros off rem s d Hd Hok Ho Hr Hb Hf; cbn [write_zeroes_loop].
  - rewrite (proj2 (Z.ltb_ge _ _)) by lia. cbn [negb]. exists true, s, d. destruct (disk_ns _ _ _ Hd) as (ns & Hns & _).
    split; [done|]. split; [rewrite <- Hd; by eapply disk_step_refl|]. do 2 (split; [done|]). intros _. apply sc_updated_nil; [lia|done].
  - destruct (Z.ltb_spec 0 rem) as [Hpos|]; cbn [negb].
    2: { exists true, s, d. destruct (disk_ns _ _ _ Hd) as (ns & Hns & _). split; [done|]. split; [rewrite <- Hd; by eapply disk_step_refl|].
         do 2 (split; [done|]). intros _. apply sc_updated_nil; [lia|done]. }
    unfold WRITE_ZEROES_CHUNK_SIZE. set (n := if 1 * 1024 * 1024 <? rem then 1 * 1024 * 1024 else u32 rem).
    assert (0 < n <= rem /\ n <= 1024 * 1024 /\ (n = 1024 * 1024 \/ n = rem)) as Hn.
    { unfold n. destruct (Z.ltb_spec (1 * 1024 * 1024) rem); [lia|]. rewrite u32_small by lia. lia. }
    destruct (zero_storage_range_run nsid off n s d Hd Hok) as (st & s1 & d1 & Hz & Hs1 & Hok1 & Hsh1 & Hu1); [lia..|].
    rewrite (bind_Ok _ _ _ _ _ Hz). destruct (NT_SUCCESS st); cbn [negb].
    2: { exists false, s1, d1. by split_and!. }
    rewrite !u64_small by lia.
    destruct (IH (off + n) (rem - n) s1 d1) as (ok & s2 & d2 & Hl & Hs2 & Hok2 & Hsh2 & Hu2); [apply Hs1 | done | lia | lia | lia | lia |].
    exists ok, s2, d2. split; [done|]. split; [by eapply disk_step_trans|]. split; [done|].
    split; [unfold sc_same_shape in *; intuition congruence|]. intros Hok'. specialize (Hu2 Hok'). specialize (Hu1 eq_refl).
    intros a. rewrite (Hu2 a), (Hu1 a). repeat case_decide; try reflexivity; lia.
Qed.

(** C32: Write Zeroes, of up to 65535 blocks, ends: the loop over chunks of 1 MB
    stays within [write_zeroes_fuel]; when the command reports success exactly
    the bytes of the request are zero, and all of the others, the other disks
    and host memory are as before; else it reports a write fault. *)
Theorem HandleWriteZeroes_zeroes (Q : Z) (c : NVME_COMMAND) (s : KState) (ns : VNVME_NAMESPACE) (d : VNVME_STORAGE_CONTEXT) :
  io_blocks s c ns d -> sc_ok d ->
  exists sct sc s1 d', HandleWriteZeroes Q c s = PostIoCompletion Q (cmd_CID c) sct sc s1 /\ disk_step (cmd_NSID c) (Some d') s s1 /\
    sc_ok d' /\ ((sct = NVME_SCT_GENERIC /\ sc = NVME_SC_SUCCESS /\ sc_updated d d' (io_offset c ns) (io_bytes c ns) mem_zero) \/
                 (sct = NVME_SCT_MEDIA_ERROR /\ sc = NVME_SC_WRITE_FAULT)).
Proof.
  intros Hr Hok. destruct (io_blocks_bytes _ _ _ _ Hr) as (E1 & E2 & E3 & H1 & H2 & H3).
  assert (disk s (cmd_NSID c) = Some d) as Hd by (unfold disk; rewrite (ir_ns _ _ _ _ Hr); exact (ir_storage _ _ _ _ Hr)).
  unfold HandleWriteZeroes. cbv zeta. rewrite (bind_Ok _ _ _ _ _ (io_namespace_run _ _ _ _ Hr)), E1, E2, E3, (ir_storage _ _ _ _ Hr). cbn [negb].
  destruct (write_zeroes_loop_ok (cmd_NSID c) (write_zeroes_fuel (io_bytes c ns)) (io_offset c ns) (io_bytes c ns) s d Hd Hok H2 H1 ltac:(lia))
    as (ok & s1 & d1 & Hl & Hs1 & Hok1 & _ & Hu).
  { unfold write_zeroes_fuel, WRITE_ZEROES_CHUNK_SIZE. pose proof (Z.div_pos (io_bytes c ns) (1 * 1024 * 1024)). rewrite Z2Nat.id by lia.
    Z.div_mod_to_equations. lia. }
  rewrite (bind_Ok _ _ _ _ _ Hl). destruct ok; cbn [negb].
  - unfold count_io, pdo_update. rewrite bind_modify. destruct (ds_ns _ _ _ _ Hs1) as [ns1 Hns1].
    eexists _, _, _, d1. split; [done|]. split; [|split; [done|left; auto]]. eapply disk_step_trans; [exact Hs1|].
    rewrite <- (ds_disk _ _ _ _ Hs1). eapply disk_step_pdo; [done | by intros []].
  - exists NVME_SCT_MEDIA_ERROR, NVME_SC_WRITE_FAULT, s1, d1. split; [done|]. split; [done|]. split; [done|]. by right.
Qed.

(** ** Compare *)






(** ** Dataset Management *)

(** Byte [a] of the disk belongs to a range the handler accepts. *)
Definition dsm_covers (ns : VNVME_NAMESPACE) (r : NVME_DSM_RANGE) (a : Z) : Prop :=
  dsm_LengthInLogicalBlocks r <> 0 /\ dsm_StartingLBA r + dsm_LengthInLogicalBlocks r <= ns_TotalBlocks ns /\
  dsm_StartingLBA r * ns_BlockSize ns <= a < (dsm_StartingLBA r + dsm_LengthInLogicalBlocks r) * ns_BlockSize ns.

#[export] Instance dsm_covers_dec ns r a : Decision (dsm_covers ns r a).
Proof. unfold dsm_covers. apply _. Defined.

(** A range whose end does not wrap, and whose length in bytes fits a ULONG. *)
Definition dsm_fits (ns : VNVME_NAMESPACE) (r : NVME_DSM_RANGE) : Prop :=
  dsm_StartingLBA r + dsm_LengthInLogicalBlocks r < 2 ^ 64 /\ dsm_LengthInLogicalBlocks r * ns_BlockSize ns < 2 ^ 32.

(** A writable memory disk is zeroed without fail. *)
Definition memory_disk (d : VNVME_STORAGE_CONTEXT) : Prop :=
  sc_ok d /\ sc_Type d = VNVME_STORAGE_TYPE_MEMORY /\ sc_ReadOnly d = false.

Lemma zero_memory_disk t d off len :
  memory_disk d -> 0 <= off -> 0 <= len -> off + len <= sc_TotalBytes d < 2 ^ 63 ->
  exists d', VnvmeStorageWriteZeroes t (Some d) off len = Ok (STATUS_SUCCESS, Some d') /\ memory_disk d' /\ sc_same_shape d d' /\
    sc_updated d d' off len mem_zero.
Proof.
  intros (Hok & Ht & Hro) H1 H2 H3. unfold VnvmeStorageWriteZeroes, with_context. rewrite Ht.
  destruct (StorageMemoryWriteZeroes_post d off len Hok Ht H1 H2 ltac:(lia)) as (st & d' & Hz & Hok' & Hsh & _ & Hu).
  assert (st = STATUS_SUCCESS) as ->.
  { revert Hz. unfold StorageMemoryWriteZeroes. unfold sc_ok in Hok. rewrite Ht in Hok. destruct Hok as (b & -> & Hsz).
    rewrite Hro, u64_small, (proj2 (Z.ltb_ge _ _)) by lia. unfold blk_zero. rewrite in_block_true by lia. by intros [= <- _]. }
  rewrite Hz. exists d'. split; [done|]. destruct (Hu eq_refl) as [_ Hu']. split; [|by split].
  destruct Hsh as (Ht' & _ & Hro'). split; [done|]. split; congruence.
Qed.

Lemma dsm_load_range m a : 0 <= dsm_LengthInLogicalBlocks (dsm_load m a) /\ 0 <= dsm_StartingLBA (dsm_load m a).
Proof. cbn. pose proof (load_le_range m (a + 4) 4). pose proof (load_le_range m (a + 8) 8). lia. Qed.

(** The state of a disk after some of the ranges. *)
Definition dsm_zeroed (ns : VNVME_NAMESPACE) (rs : list NVME_DSM_RANGE) (d d' : VNVME_STORAGE_CONTEXT) : Prop :=
  forall a, (Exists (fun r => dsm_covers ns r a) rs -> sc_byte d' a = 0) /\
    (~ Exists (fun r => dsm_covers ns r a) rs -> sc_byte d' a = sc_byte d a).

Lemma dsm_loop_ok nsid ns0 ranges host n : forall i s d,
  0 < ns_BlockSize ns0 -> is_Some (ns_Storage ns0) -> ks_host s = host ->
  disk s nsid = Some d -> memory_disk d -> ns_TotalBlocks ns0 * ns_BlockSize ns0 <= sc_TotalBytes d < 2 ^ 63 ->
  let rs := map (fun k => dsm_load host (ranges + k * 16)) (seqZ i (Z.of_nat n)) in
  Forall (dsm_fits ns0) rs ->
  exists s1 d1, dsm_loop n nsid ns0 ranges i s = Ok (tt, s1) /\ disk_step nsid (Some d1) s s1 /\ dsm_zeroed ns0 rs d d1.
Proof.
  induction n as [|n IH]; intros i s d Hbs Hsto Hh Hd Hm Htot rs Hfits; cbn [dsm_loop].
  { exists s, d. destruct (disk_ns _ _ _ Hd) as (ns & Hns & _). split; [done|]. split; [rewrite <- Hd; by eapply disk_step_refl|].
    intros a. subst rs. cbn. split; [by intros ?%Exists_nil | done]. }
  rewrite bind_get, Hh. unfold rs in *. clear rs. rewrite seqZ_cons in Hfits |- * by lia.
  replace (Z.pred (Z.of_nat (S n))) with (Z.of_nat n) in * by lia. change (Z.succ i) with (i + 1) in *. cbn [map] in *.
  set (r := dsm_load host (ranges + i * 16)) in *. inversion Hfits as [|? ? [Hwrap Hlen] Hfits']; subst.
  destruct (dsm_load_range (ks_host s) (ranges + i * 16)) as [Hr1 Hr2]. fold r in Hr1, Hr2.
  set (rs := map _ (seqZ (i + 1) (Z.of_nat n))) in *.
  assert (Hskip : (forall a, ~ dsm_covers ns0 r a) -> exists s1 d1, dsm_loop n nsid ns0 ranges (i + 1) s = Ok (tt, s1) /\
    disk_step nsid (Some d1) s s1 /\ dsm_zeroed ns0 (r :: rs) d d1).
  { intros Hno. destruct (IH (i + 1) s d Hbs Hsto eq_refl Hd Hm Htot Hfits') as (s1 & d1 & Hl & Hs1 & Hz). exists s1, d1.
    split; [done|]. split; [done|]. intros a. rewrite Exists_cons. specialize (Hz a). specialize (Hno a). destruct Hz. split; [intros [?|?]|]; auto; done. }
  destruct (Z.eqb_spec (dsm_LengthInLogicalBlocks r) 0) as [E|E]; [apply Hskip; intros a (? & _); done|].
  rewrite u64_small by lia. destruct (Z.ltb_spec (ns_TotalBlocks ns0) (dsm_StartingLBA r + dsm_LengthInLogicalBlocks r)) as [E2|E2];
    [apply Hskip; intros a (_ & ? & _); lia|].
  destruct Hsto as [c Hc]. rewrite Hc.
  assert ((dsm_StartingLBA r + dsm_LengthInLogicalBlocks r) * ns_BlockSize ns0 <= sc_TotalBytes d) as Hin.
  { pose proof (Z.mul_le_mono_nonneg_r _ _ (ns_BlockSize ns0) ltac:(lia) E2). lia. }
  rewrite Z.mul_add_distr_r in Hin.
  pose proof (Z.mul_nonneg_nonneg (dsm_StartingLBA r) (ns_BlockSize ns0) ltac:(lia) ltac:(lia)).
  pose proof (Z.mul_nonneg_nonneg (dsm_LengthInLogicalBlocks r) (ns_BlockSize ns0) ltac:(lia) ltac:(lia)).
  rewrite !u64_small, u32_small by lia.
  destruct (zero_memory_disk (ks_tick s) d (dsm_StartingLBA r * ns_BlockSize ns0) (dsm_LengthInLogicalBlocks r * ns_BlockSize ns0) Hm)
    as (d1 & Hz & Hm1 & (_ & Htb & _) & Hu); [lia..|].
  destruct (zero_storage_range_step nsid _ _ s d _ _ Hd Hz) as (s1 & Hr & Hs1). rewrite (bind_Ok _ _ _ _ _ Hr).
  destruct (IH (i + 1) s1 d1) as (s2 & d2 & Hl & Hs2 & Hz2); [done | eauto | apply Hs1 | apply Hs1 | done | lia | done |].
  exists s2, d2. split; [done|]. split; [by eapply disk_step_trans|]. intros a. specialize (Hz2 a) as [Hz2 Hz3]. specialize (Hu a).
  rewrite Exists_cons. unfold dsm_covers at 1 3. rewrite Z.mul_add_distr_r.
  destruct (decide (Exists (fun r => dsm_covers ns0 r a) rs)) as [Hex|Hex].
  - split; [by auto | intros Hn; by destruct Hn; right].
  - rewrite (Hz3 Hex), Hu. case_decide; [split; [done | intros Hn; destruct Hn; by left] | split; [intros [(_ & _ & ?)|?]; [lia|done] | done]].
Qed.

(** C33: Dataset Management / Deallocate on a memory disk that is not read-only
    succeeds.  If the kernel maps the host's list of ranges, it zeroes exactly
    the bytes of the listed ranges that are not empty and lie on the namespace,
    and skips ranges that run past its end; if the list cannot be mapped, it
    changes nothing.  Every other byte of the disk, the other disks and host
    memory are as before.  The statement is for a list in which no range's end
    wraps around 2^64 and each length in bytes fits 32 bits. *)
Theorem HandleDatasetManagement_deallocates (Q : Z) (c : NVME_COMMAND) (s : KState) (ns : VNVME_NAMESPACE) (d : VNVME_STORAGE_CONTEXT) :
  1 <= cmd_NSID c <= VNVME_MAX_NAMESPACES -> ns_at s (cmd_NSID c) = Some ns -> ns_Active ns = true ->
  ns_Storage ns = Some d -> memory_disk d -> ns_ok ns d -> Z.testbit (cmd_CDW11 c) 2 = true ->
  let rs := map (fun k => dsm_load (ks_host s) (cmd_PRP1 c + k * 16)) (seqZ 0 (Z.land (cmd_CDW10 c) 0xFF + 1)) in
  Forall (dsm_fits ns) rs ->
  exists s1 d', HandleDatasetManagement Q c s = PostIoCompletion Q (cmd_CID c) NVME_SCT_GENERIC NVME_SC_SUCCESS s1 /\
    disk_step (cmd_NSID c) (Some d') s s1 /\
    if MmMapIoSpace (ks_tick s) (cmd_PRP1 c) ((Z.land (cmd_CDW10 c) 0xFF + 1) * 16) then dsm_zeroed ns rs d d' else d' = d.
Proof.
  intros Hn Hns Hact Hst Hm [Hbs Htot] Hbit rs Hfits. unfold HandleDatasetManagement. cbv zeta.
  assert (disk s (cmd_NSID c) = Some d) as Hd by (unfold disk; by rewrite Hns).
  rewrite (bind_Ok _ _ s (Some ns) s).
  2: { unfold io_namespace, VNVME_NSID_VALID. rewrite (proj2 (Z.ltb_lt _ _)), (proj2 (Z.leb_le _ _)) by lia. cbn [andb negb].
       by rewrite bind_get, (bind_opt _ _ _ _ Hns), Hact. }
  destruct (Z.eqb_spec (Z.land (cmd_CDW11 c) 4) 0) as [E|_]; cbn [negb].
  { apply (f_equal (fun z => Z.testbit z 2)) in E. rewrite Z.land_spec, Hbit in E. done. }
  assert (0 <= Z.land (cmd_CDW10 c) 0xFF < 256) as Hnr by (change 0xFF with (Z.ones 8); rewrite Z.land_ones by done; apply Z.mod_pos_bound; lia).
  rewrite (proj2 (Z.ltb_ge _ _)) by lia. set (nr := Z.land (cmd_CDW10 c) 0xFF + 1) in *. unfold map_io. rewrite (bind_Ok _ _ s _ _ eq_refl).
  assert (s <| ks_tick ::= S |> = s <| ks_tick := S (ks_tick s) |>) as -> by (by destruct s).
  pose proof (disk_step_tick (cmd_NSID c) s (S (ks_tick s)) ns Hns) as St. set (s0 := s <| ks_tick := _ |>) in *. rewrite Hd in St.
  assert (Hdone : forall s1 d1, disk_step (cmd_NSID c) (Some d1) s s1 -> exists s2,
    (count_io;; PostIoCompletion Q (cmd_CID c) NVME_SCT_GENERIC NVME_SC_SUCCESS) s1 =
      PostIoCompletion Q (cmd_CID c) NVME_SCT_GENERIC NVME_SC_SUCCESS s2 /\ disk_step (cmd_NSID c) (Some d1) s s2).
  { intros s1 d1 Hs1. destruct (ds_ns _ _ _ _ Hs1) as [ns1 Hns1]. unfold count_io, pdo_update. rewrite bind_modify. eexists. split; [done|].
    eapply disk_step_trans; [exact Hs1|]. rewrite <- (ds_disk _ _ _ _ Hs1). eapply disk_step_pdo; [done | by intros []]. }
  destruct (MmMapIoSpace _ _ _); cbn [negb].
  2: { destruct (Hdone s0 d St) as (s2 & Hr & Hs2). by exists s2, d. }
  destruct (dsm_loop_ok (cmd_NSID c) ns (cmd_PRP1 c) (ks_host s) (Z.to_nat nr) 0 s0 d) as (s1 & d1 & Hl & Hs1 & Hz);
    [done | eauto | by destruct s | rewrite (ds_disk _ _ _ _ St); done | done | done | by rewrite Z2Nat.id by lia |].
  rewrite Z2Nat.id in Hz by lia. rewrite (bind_Ok _ _ _ _ _ Hl).
  destruct (Hdone s1 d1 (disk_step_trans _ _ _ _ _ _ St Hs1)) as (s2 & Hr & Hs2). by exists s2, d1.
Qed.

(** ** Requests that are refused *)

(** Read, Write, Write Zeroes and Compare look before they touch anything: a
    command for a namespace that does not exist or is not active fails with
    Invalid Namespace, one whose last block is past the end of the namespace
    with LBA Out of Range, both in the state the command arrived in. *)
Lemma io_commands_check_range (Q : Z) (c : NVME_COMMAND) (s : KState) :
  cmd_OPC c = NVME_IO_READ \/ cmd_OPC c = NVME_IO_WRITE \/ cmd_OPC c = NVME_IO_WRITE_ZEROES \/ cmd_OPC c = NVME_IO_COMPARE ->
  pdo_shape (ks_pdo s) ->
  match (if VNVME_NSID_VALID (cmd_NSID c) then ns_at s (cmd_NSID c) else None) with
  | Some ns =>
      if ns_Active ns then
        ns_TotalBlocks ns < io_slba c + io_nlb c < 2 ^ 64 -> 0 <= io_slba c ->
        VnvmeProcessIoCommand Q c s = PostIoCompletion Q (cmd_CID c) NVME_SCT_GENERIC NVME_SC_LBA_OUT_OF_RANGE s
      else VnvmeProcessIoCommand Q c s = PostIoCompletion Q (cmd_CID c) NVME_SCT_GENERIC NVME_SC_INVALID_NAMESPACE s
  | None => VnvmeProcessIoCommand Q c s = PostIoCompletion Q (cmd_CID c) NVME_SCT_GENERIC NVME_SC_INVALID_NAMESPACE s
  end.
Proof.
  intros Hop (_ & _ & _ & Hl).
  assert (forall o, io_namespace (cmd_NSID c) s = Ok (o, s) ->
    match o with
    | None => VnvmeProcessIoCommand Q c s = PostIoCompletion Q (cmd_CID c) NVME_SCT_GENERIC NVME_SC_INVALID_NAMESPACE s
    | Some ns => VNVME_LBA_RANGE_VALID (io_slba c) (io_nlb c) (ns_TotalBlocks ns) = false ->
        VnvmeProcessIoCommand Q c s = PostIoCompletion Q (cmd_CID c) NVME_SCT_GENERIC NVME_SC_LBA_OUT_OF_RANGE s
    end) as Hmain.
  { intros o Ho. unfold VnvmeProcessIoCommand. cbv zeta.
    destruct Hop as [E|[E|[E|E]]]; rewrite E; cbn -[HandleRead HandleWrite HandleWriteZeroes HandleCompare].
    all: unfold HandleRead, HandleWrite, HandleWriteZeroes, HandleCompare; cbv zeta; rewrite (bind_Ok _ _ _ _ _ Ho).
    all: destruct o as [ns|]; [|done]; intros Hr; by rewrite Hr. }
  unfold io_namespace in Hmain. destruct (VNVME_NSID_VALID (cmd_NSID c)) eqn:Hv; cbn [negb] in Hmain; [|by apply (Hmain None)].
  apply andb_true_iff in Hv as [?%Z.ltb_lt ?%Z.leb_le]. unfold VNVME_MAX_NAMESPACES in *.
  destruct (proj2 (arr_get_Some_iff (pdo_Namespaces (ks_pdo s)) (VNVME_NSID_TO_INDEX (cmd_NSID c)))) as [ns Hns].
  { unfold VNVME_NSID_TO_INDEX. lia. }
  unfold ns_at. rewrite Hns. setoid_rewrite bind_get in Hmain. specialize (Hmain (if ns_Active ns then Some ns else None)).
  rewrite (bind_opt _ _ _ _ Hns) in Hmain. specialize (Hmain eq_refl). destruct (ns_Active ns); [|done].
  intros Hr Hs. apply Hmain. unfold VNVME_LBA_RANGE_VALID. pose proof (u16_range (Z.land (cmd_CDW12 c) 0xFFFF + 1)). fold (io_nlb c) in *.
  rewrite u64_small by lia. apply Z.leb_gt. lia.
Qed.
End IoCmd.

(** ** Witnesses *)

#[local] Existing Instances TestKernel TestKernel_laws.


Definition io_state : @KState TestKernel := test_state test_shm (fun a => a).

(** A command for block 1 of namespace 1, one block, its data at [prp1]. *)
Definition io_command (opc prp1 cdw10 cdw11 : Z) : NVME_COMMAND := mkCommand opc 0 0 0 17 1 0 0 0 prp1 0 cdw10 cdw11 0 0 0 0.

Lemma io_state_request opc prp1 : io_request io_state (io_command opc prp1 1 0) test_namespace (test_disk VNVME_STORAGE_TYPE_MEMORY).
Proof. split; [split; by vm_compute | by vm_compute]. Qed.

Lemma test_disk_memory : memory_disk (test_disk VNVME_STORAGE_TYPE_MEMORY).
Proof. split; [eexists; split; reflexivity | by split]. Qed.







Lemma HandleWriteZeroes_zeroes_witness :
  exists sct sc s1 d', HandleWriteZeroes 0 (io_command 8 0x200100 1 0) io_state = PostIoCompletion 0 17 sct sc s1 /\
    disk s1 1 = Some d' /\ sc_ok d'.
Proof.
  destruct (HandleWriteZeroes_zeroes 0 (io_command 8 0x200100 1 0) io_state test_namespace (test_disk VNVME_STORAGE_TYPE_MEMORY)
    (io_state_request 8 0x200100) (proj1 test_disk_memory)) as (sct & sc & s1 & d' & H1 & H2 & H3 & _).
  exists sct, sc, s1, d'. split; [exact H1|]. split; [apply (ds_disk _ _ _ _ H2) | exact H3].
Defined.


(** A host whose memory holds one range: block 1, 2 blocks. *)
Definition dsm_state : @KState TestKernel :=
  test_state test_shm (store_all [(0x200000, 4%nat, 0); (0x200004, 4%nat, 2); (0x200008, 8%nat, 1)] (fun a => a)).

Lemma HandleDatasetManagement_deallocates_witness :
  exists s1 d', HandleDatasetManagement 0 (io_command 9 0x200000 0 4) dsm_state = PostIoCompletion 0 17 NVME_SCT_GENERIC NVME_SC_SUCCESS s1 /\
    disk s1 1 = Some d' /\ sc_byte d' 600 = 0.
Proof.
  destruct (HandleDatasetManagement_deallocates 0 (io_command 9 0x200000 0 4) dsm_state test_namespace (test_disk VNVME_STORAGE_TYPE_MEMORY))
    as (s1 & d' & H1 & H2 & H3); [split; vm_compute; discriminate | reflexivity | reflexivity | reflexivity
    | exact test_disk_memory | exact (ir_ok _ _ _ _ (io_state_request 9 0)) | reflexivity | |].
  { apply List.Forall_cons; [|apply List.Forall_nil]. split; vm_compute; reflexivity. }
  exists s1, d'. split; [exact H1|]. split; [apply (ds_disk _ _ _ _ H2)|]. apply (proj1 (H3 600)). left.
  split; [vm_compute; discriminate|]. split; [vm_compute; discriminate|]. split; [vm_compute; discriminate | vm_compute; reflexivity].
Defined.

