(* ===== verification/UserForward.v ===== *)
(** Forwarding of commands to the user-mode service and the accounting of its
    completions: [vnvme/user_forward.c], without the recovery from a crash of
    the service, which is in [Recovery].

    The notify ring is the kernel's side of a bounded queue whose other side
    is the service; only the kernel moves [Tail], only the service [Head]. *)
From S2P Require Import Prelude NvmeSpec Kernel Config Storage State Shm Queue.
Open Scope Z_scope.
Open Scope c_scope.

Section UserForward.
Context {W : WinKernel}.

(** ** The notify ring *)

Definition NotifyRingPush (QueueId Type_ Index : Z) : M KState bool :=
  s ← get;
  match VnvmeShmGetNotifyRing s with
  | None => mret false
  | Some ring =>
      let tail := nr_Tail ring in
      nextTail ← of_opt (next_index tail (nr_Size ring));
      if nextTail =? nr_Head ring then mret false
      else
        shm_store (fun m =>
          l ← arr_set (nr_Entries (shm_ring m)) tail (mkNotifyEntry QueueId Type_ Index);
          Some (m <| shm_ring ::= fun r => r <| nr_Entries := l |> |>));;
        shm_update (fun m => m <| shm_ring ::= fun r => r <| nr_Tail := nextTail |> |>);;
        mret true
  end.

Definition SignalUserMode : M KState unit :=
  fdo_update (fun d => if fdo_UserReady d then d <| fdo_CommandReadyEvent := true |> else d).

(** The argument is the global FDO, as in every call. *)
Definition VnvmeNotifyUserMode : M KState unit :=
  fdo_update (fun d => if fdo_EventNotificationEnabled d then d <| fdo_CommandReadyEvent := true |> else d).

(** ** Forwarding *)

Definition VnvmeForwardAdminCommandsToUser (NewTail : Z) : M KState unit :=
  s ← get;
  match VnvmeShmGetControlBlock s with
  | None => mret tt
  | Some _ =>
      d ← of_opt (ks_fdo s);
      if negb (fdo_UserReady d) then mret tt
      else
        cb_update (fun cb => cb <| cb_AdminSQ ::= fun q => q <| qd_Tail := NewTail |> |>);;
        NotifyRingPush 0 0 NewTail;;
        SignalUserMode
  end.

Definition VnvmeForwardIoCommandsToUser (QueueId NewTail : Z) : M KState unit :=
  s ← get;
  match VnvmeShmGetControlBlock s with
  | None => mret tt
  | Some m =>
      d ← of_opt (ks_fdo s);
      if negb (fdo_UserReady d) then mret tt
      else if (QueueId =? 0) || (VNVME_MAX_IO_QUEUES <? QueueId) then mret tt
      else
        let queueIndex := QueueId - 1 in
        if cb_IoQueueDescriptorOffset (shm_cb m) =? 0 then mret tt
        else
          shm_store (desc_update (queueIndex * 2) (fun q => q <| qd_Tail := NewTail |>));;
          NotifyRingPush QueueId 0 NewTail;;
          SignalUserMode
  end.

(** ** Completions of the user-mode service *)

(** [delta], in 32-bit arithmetic and then widened. *)
Definition cq_delta (Capacity old tail : Z) : Z :=
  if old <=? tail then tail -₃₂ old else (Capacity -₃₂ old) +₃₂ tail.

(** The loop over the I/O completion queues: [n] iterations from index [i]. *)
Fixpoint user_completions (n : nat) (i : Z) : M KState unit :=
  match n with
  | O => mret tt
  | S n =>
      s ← get;
      m ← of_opt (VnvmeShmGetControlBlock s);
      cqDesc ← of_opt (arr_get (shm_descs m) (i * 2 + 1));
      cq ← of_opt (arr_get (pdo_IoCq (ks_pdo s)) i);
      (if negb (qs_Created cq) then mret tt
       else if qd_Tail cqDesc =? qs_Tail cq then mret tt
       else
         pdo_update (fun p => p <| pdo_IoCommandsProcessed ::= fun k =>
           s64 (k + cq_delta (qd_Capacity cqDesc) (qs_Tail cq) (qd_Tail cqDesc)) |>);;
         iocq_update i (fun q => q <| qs_Tail := qd_Tail cqDesc |>));;
      user_completions n (i + 1)
  end.

Definition VnvmeProcessUserCompletions : M KState NTSTATUS :=
  s ← get;
  match VnvmeShmGetControlBlock s with
  | None => mret STATUS_DEVICE_NOT_READY
  | Some m =>
      let adminCqTail := qd_Tail (cb_AdminCQ (shm_cb m)) in
      let old := qs_Tail (pdo_AdminCq (ks_pdo s)) in
      (if adminCqTail =? old then mret tt
       else
         pdo_update (fun p => p
           <| pdo_AdminCommandsProcessed ::= fun k => s64 (k + cq_delta (qd_Capacity (cb_AdminCQ (shm_cb m))) old adminCqTail) |>
           <| pdo_AdminCq ::= fun q => q <| qs_Tail := adminCqTail |> |>));;
      (if cb_IoQueueDescriptorOffset (shm_cb m) =? 0 then mret tt
       else user_completions (Z.to_nat (pdo_IoQueueCount (ks_pdo s))) 0);;
      mret STATUS_SUCCESS
  end.

(** ** The notify ring is a FIFO between the driver and the service *)

#[export] Instance notify_entry_inhabited : Inhabited VNVME_NOTIFY_ENTRY := populate zero_entry.

Record ring_ok (r : VNVME_NOTIFY_RING) : Prop := {
  ro_size : 1 < nr_Size r < 2 ^ 32 - 1;
  ro_entries : Z.of_nat (length (nr_Entries r)) = nr_Size r;
  ro_head : 0 <= nr_Head r < nr_Size r;
  ro_tail : 0 <= nr_Tail r < nr_Size r
}.

(** The entries from index [h] up to the tail; those from the head are the contents. *)
Definition ring_from (h : Z) (r : VNVME_NOTIFY_RING) : list VNVME_NOTIFY_ENTRY :=
  (fun i => nr_Entries r !!! Z.to_nat i) <$> ring_indices h (nr_Tail r) (nr_Size r).
Definition ring_contents (r : VNVME_NOTIFY_RING) : list VNVME_NOTIFY_ENTRY := ring_from (nr_Head r) r.

Definition ring_push (e : VNVME_NOTIFY_ENTRY) (r : VNVME_NOTIFY_RING) : VNVME_NOTIFY_RING :=
  mkNotifyRing (nr_Head r) ((nr_Tail r + 1) mod nr_Size r) (nr_Size r) (<[Z.to_nat (nr_Tail r) := e]> (nr_Entries r)).

(** The state with its ring replaced. *)
Definition put_ring (r : VNVME_NOTIFY_RING) (s : KState) : KState :=
  s <| ks_fdo ::= option_map (fun d => d <| fdo_Shm ::= option_map (fun m => m <| shm_ring := r |>) |>) |>.

Lemma ring_state_inv s r : VnvmeShmGetNotifyRing s = Some r ->
  exists m, VnvmeShmGetControlBlock s = Some m /\ r = shm_ring m /\ (cb_NotifyRingOffset (shm_cb m) =? 0) = false.
Proof.
  unfold VnvmeShmGetNotifyRing. destruct (VnvmeShmGetControlBlock s) as [m|]; [|done]. cbn.
  destruct (_ =? 0) eqn:E; [done|]. intros [= <-]. eauto.
Qed.

Lemma put_ring_get r r' s : VnvmeShmGetNotifyRing s = Some r -> VnvmeShmGetNotifyRing (put_ring r' s) = Some r'.
Proof.
  intros (m & Hm & -> & E)%ring_state_inv. destruct (shm_state_inv _ _ Hm) as (d & Hd & Hs).
  unfold VnvmeShmGetNotifyRing, VnvmeShmGetControlBlock, put_ring. destruct s as [f ? ? ? ? ?]; cbn in *.
  rewrite Hd. unset. rewrite Hs. cbn. by rewrite E.
Qed.

(** A push on a well-formed ring, on each branch. *)
Lemma NotifyRingPush_eq s r Q T I :
  VnvmeShmGetNotifyRing s = Some r -> ring_ok r ->
  NotifyRingPush Q T I s =
    if decide ((nr_Tail r + 1) mod nr_Size r = nr_Head r) then Ok (false, s)
    else Ok (true, put_ring (ring_push (mkNotifyEntry Q T I) r) s).
Proof.
  intros Hr [Hsz Hen Hh Ht]. unfold NotifyRingPush. rewrite bind_get, Hr.
  rewrite (bind_opt _ _ _ _ (next_index_ok _ _ Ht ltac:(lia))).
  destruct (Z.eqb_spec ((nr_Tail r + 1) mod nr_Size r) (nr_Head r)) as [E|E]; [by rewrite decide_True|].
  rewrite decide_False by done. destruct (ring_state_inv _ _ Hr) as (m & Hm & -> & _).
  erewrite bind_Ok; [|eapply shm_store_eq; [done|rewrite arr_set_Some by lia; done]].
  destruct (shm_state_inv _ _ Hm) as (d & Hd & Hs).
  unfold shm_update, fdo_update. rewrite bind_modify. unfold mret, M_ret. do 2 f_equal.
  unfold put_ring, ring_push. destruct s as [f ? ? ? ? ?]; cbn in *. rewrite Hd. unset. rewrite Hs.
  destruct m as [? [] ? ?]. by unset.
Qed.

Lemma ring_push_ok e r : ring_ok r -> ring_ok (ring_push e r).
Proof.
  intros [Hsz Hen Hh Ht]. split; cbn; [done|by rewrite length_insert|done|apply Z.mod_pos_bound; lia].
Qed.

Lemma ring_push_from e r h :
  ring_ok r -> 0 <= h < nr_Size r -> (nr_Tail r + 1) mod nr_Size r <> h ->
  ring_from h (ring_push e r) = ring_from h r ++ [e].
Proof.
  intros [Hsz Hen Hh Ht] Hr Hne. unfold ring_from, ring_push; cbn.
  rewrite ring_indices_snoc, fmap_app by (done || lia). f_equal.
  - apply list_fmap_ext. intros i x Hx. apply list_lookup_total_insert_ne.
    intros E. apply (ring_indices_tail (nr_Size r) ltac:(lia) h (nr_Tail r) Hr Ht).
    apply list_elem_of_lookup_2 in Hx. pose proof Hx as (k & -> & _)%list_elem_of_fmap.
    pose proof (Z.mod_pos_bound (h + k) (nr_Size r) ltac:(lia)). assert (nr_Tail r = (h + k) mod nr_Size r) as Ek by lia.
    rewrite Ek at 1. exact Hx.
  - cbn. rewrite list_lookup_total_insert_eq by lia. done.
Qed.

(** The driver and the service at work on the ring. The service polls
    (CmdEnginePoll of the service): it takes a copy of Head and Tail, reads the
    entries between them one by one, then publishes the new Head. The driver
    may push at any moment in between; the stores of a push are ordered (the
    entry before Tail), so a push is one step to a reader of Tail. *)
Record RingSystem := mkRingSystem {
  rs_state : KState;
  rs_cursor : option (Z * Z);  (* the service's head and tail, during a poll *)
  rs_accepted : list VNVME_NOTIFY_ENTRY;  (* pushed with success, in order *)
  rs_delivered : list VNVME_NOTIFY_ENTRY  (* read by the service, in order *)
}.

Definition ring_set_head (h : Z) (r : VNVME_NOTIFY_RING) : VNVME_NOTIFY_RING := r <| nr_Head := h |>.

Inductive ring_step : RingSystem -> RingSystem -> Prop :=
  | step_push s s' c a l Q T I :
      NotifyRingPush Q T I s = Ok (true, s') ->
      ring_step (mkRingSystem s c a l) (mkRingSystem s' c (a ++ [mkNotifyEntry Q T I]) l)
  | step_drop s s' c a l Q T I :
      NotifyRingPush Q T I s = Ok (false, s') ->
      ring_step (mkRingSystem s c a l) (mkRingSystem s' c a l)
  | step_other s s' c a l :
      VnvmeShmGetNotifyRing s' = VnvmeShmGetNotifyRing s ->
      ring_step (mkRingSystem s c a l) (mkRingSystem s' c a l)
  | poll_begin s a l r :
      VnvmeShmGetNotifyRing s = Some r ->
      ring_step (mkRingSystem s None a l) (mkRingSystem s (Some (nr_Head r, nr_Tail r)) a l)
  | poll_entry s h h' t a l r e :
      VnvmeShmGetNotifyRing s = Some r -> h <> t ->
      arr_get (nr_Entries r) h = Some e -> next_index h (nr_Size r) = Some h' ->
      ring_step (mkRingSystem s (Some (h, t)) a l) (mkRingSystem s (Some (h', t)) a (l ++ [e]))
  | poll_end s h t a l r :
      VnvmeShmGetNotifyRing s = Some r -> h = t ->
      ring_step (mkRingSystem s (Some (h, t)) a l) (mkRingSystem (put_ring (ring_set_head h r) s) None a l).

(** Where the service reads next. *)
Definition read_index (c : option (Z * Z)) (r : VNVME_NOTIFY_RING) : Z :=
  match c with Some (h, _) => h | None => nr_Head r end.

Definition cursor_ok (c : option (Z * Z)) (r : VNVME_NOTIFY_RING) : Prop :=
  match c with
  | None => True
  | Some (h, t) =>
      0 <= h < nr_Size r /\ 0 <= t < nr_Size r /\
      ring_count h (nr_Tail r) (nr_Size r) <= ring_count (nr_Head r) (nr_Tail r) (nr_Size r) /\
      ring_count t (nr_Tail r) (nr_Size r) <= ring_count h (nr_Tail r) (nr_Size r)
  end.

Definition ring_inv (l0 : list VNVME_NOTIFY_ENTRY) (y : RingSystem) : Prop :=
  exists r, VnvmeShmGetNotifyRing (rs_state y) = Some r /\ ring_ok r /\ cursor_ok (rs_cursor y) r /\
    l0 ++ rs_accepted y = rs_delivered y ++ ring_from (read_index (rs_cursor y) r) r.

Lemma ring_push_cursor e r c :
  ring_ok r -> cursor_ok c r -> (nr_Tail r + 1) mod nr_Size r <> nr_Head r ->
  cursor_ok c (ring_push e r) /\ 0 <= read_index c r < nr_Size r /\ (nr_Tail r + 1) mod nr_Size r <> read_index c r /\
  read_index c (ring_push e r) = read_index c r.
Proof.
  intros [Hsz Hen Hh Ht] Hc Hne. destruct c as [[h t]|]; [|done]. destruct Hc as (H1 & H2 & H3 & H4).
  assert (0 < nr_Size r) as Hs by lia. pose proof (ring_count_full _ Hs (nr_Head r) (nr_Tail r) Hh Ht) as F0.
  pose proof (ring_count_range _ Hs (nr_Head r) (nr_Tail r)).
  assert (ring_count (nr_Head r) (nr_Tail r) (nr_Size r) <> nr_Size r - 1) as Hnf by (intros E; by apply Hne, F0).
  assert ((nr_Tail r + 1) mod nr_Size r <> h) as Hh' by (intros E; apply (ring_count_full _ Hs) in E; [lia|done..]).
  assert ((nr_Tail r + 1) mod nr_Size r <> t) as Ht' by (intros E; apply (ring_count_full _ Hs) in E; [lia|done..]).
  split; [|done]. cbn. rewrite !ring_count_tail by done. split_and!; (done || lia).
Qed.

Lemma ring_step_inv l0 y y' : ring_step y y' -> ring_inv l0 y -> ring_inv l0 y'.
Proof.
  intros Hstep (r & Hr & Hok & Hc & Hl). pose proof Hok as [Hsz Hen Hh Ht]. unfold ring_inv. destruct Hstep; cbn in *.
  - rewrite (NotifyRingPush_eq _ _ _ _ _ Hr Hok) in H. case_decide as E; [done|]. injection H as <-.
    destruct (ring_push_cursor (mkNotifyEntry Q T I) r c Hok Hc E) as (Hc' & Hx & Hy & Hz).
    eexists. split; [by eapply put_ring_get|]. split; [by apply ring_push_ok|]. split; [done|].
    by rewrite Hz, ring_push_from, !app_assoc, Hl by done.
  - rewrite (NotifyRingPush_eq _ _ _ _ _ Hr Hok) in H. case_decide as E; [|done]. injection H as <-. eauto.
  - exists r. rewrite H. done.
  - rewrite Hr in H. injection H as <-. exists r. do 2 (split; [done|]). split; [|done].
    assert (0 < nr_Size r) as Hs by lia. pose proof (ring_count_range _ Hs (nr_Head r) (nr_Tail r)).
    do 2 (split; [done|]). split; [done|]. rewrite (proj2 (ring_count_0 _ Hs _ _ Ht Ht)) by done. lia.
  - rewrite Hr in H. injection H as <-. destruct Hc as (H3 & H4 & H5 & H6). assert (0 < nr_Size r) as Hs by lia.
    rewrite next_index_ok in H2 by lia. injection H2 as <-.
    assert (h <> nr_Tail r) as Hne.
    { intros ->. rewrite (proj2 (ring_count_0 _ Hs _ _ Ht Ht)) in H6 by done. pose proof (ring_count_range _ Hs t (nr_Tail r)).
      apply H0. symmetry. apply (ring_count_0 _ Hs); [done|done|lia]. }
    assert (ring_count t (nr_Tail r) (nr_Size r) <> ring_count h (nr_Tail r) (nr_Size r)) as Hne'
      by (intros E; apply H0; symmetry; by apply ring_count_inj in E).
    exists r. do 2 (split; [done|]). split.
    + split; [apply Z.mod_pos_bound; lia|]. rewrite ring_count_head by done. split; [done|]. lia.
    + rewrite Hl. unfold ring_from. rewrite (ring_indices_cons _ Hs h) by done. cbn. rewrite <- app_assoc. cbn. do 2 f_equal.
      apply list_lookup_total_correct. revert H1. unfold arr_get. by rewrite (proj2 (Z.ltb_ge _ _)) by lia.
  - rewrite Hr in H. injection H as <-. subst t. destruct Hc as (H3 & _).
    eexists. split; [by eapply put_ring_get|]. unfold ring_set_head. destruct r; unset. split; [by split|]. done.
Qed.

(** C23: the notify ring loses, repeats and reorders nothing it has accepted: in
    every interleaving of the driver's pushes with the polls of the service,
    what the ring held at the start followed by the accepted notifications is
    what the service has read followed by what it has still to read. A push
    never faults; it is refused exactly when the ring holds [Size - 1] entries,
    and then changes nothing. *)
Theorem notify_ring_fifo (s0 s : KState) (r0 : VNVME_NOTIFY_RING) (c : option (Z * Z))
    (accepted delivered : list VNVME_NOTIFY_ENTRY) :
  VnvmeShmGetNotifyRing s0 = Some r0 -> ring_ok r0 ->
  rtc ring_step (mkRingSystem s0 None [] []) (mkRingSystem s c accepted delivered) ->
  exists r, VnvmeShmGetNotifyRing s = Some r /\ ring_ok r /\
    ring_contents r0 ++ accepted = delivered ++ ring_from (read_index c r) r /\
    forall Q T I, exists s' b, NotifyRingPush Q T I s = Ok (b, s') /\
      (b = false <-> Z.of_nat (length (ring_contents r)) = nr_Size r - 1) /\ (b = false -> s' = s).
Proof.
  intros Hr0 Hok0 Hsteps.
  assert (ring_inv (ring_contents r0) (mkRingSystem s c accepted delivered)) as (r & Hr & Hok & _ & Hl).
  { apply (rtc_invariant ring_step _ (mkRingSystem s0 None [] [])); [| |done].
    - intros. by eapply ring_step_inv.
    - exists r0. split_and!; try done. cbn. by rewrite app_nil_r. }
  exists r. do 3 (split; [done|]). intros Q T I. pose proof Hok as [Hsz _ Hh Ht].
  rewrite (NotifyRingPush_eq _ _ _ _ _ Hr Hok). unfold ring_contents, ring_from. rewrite length_fmap, ring_indices_length by lia.
  pose proof (ring_count_full (nr_Size r) ltac:(lia) _ _ Hh Ht) as Hfull.
  case_decide as E; eexists _, _; (split; [done|]); split; try done.
  - split; [intros _; by apply Hfull | done].
  - split; [done|]. intros Ec. by apply Hfull in Ec.
Qed.
End UserForward.

(** ** Witnesses *)

#[local] Existing Instances TestKernel.

Lemma test_ring_ok : ring_ok (shm_ring test_shm).
Proof. split; vm_compute; split_and?; done. Qed.

Definition test_entry : VNVME_NOTIFY_ENTRY := mkNotifyEntry 0 0 5.
Definition pushed_ring : VNVME_NOTIFY_RING := ring_push test_entry (shm_ring test_shm).
Definition pushed_state : @KState TestKernel := put_ring pushed_ring (test_state test_shm mem_zero).

(** One push, and a poll that has read it. *)
Lemma pushed_state_reached :
  rtc ring_step (mkRingSystem (test_state test_shm mem_zero) None [] [])
    (mkRingSystem pushed_state (Some (1, 1)) [test_entry] [test_entry]).
Proof.
  assert (VnvmeShmGetNotifyRing pushed_state = Some pushed_ring) as Hr by (by eapply put_ring_get).
  eapply rtc_l; [apply (step_push _ pushed_state _ _ _ 0 0 5)|].
  { rewrite (NotifyRingPush_eq (test_state test_shm mem_zero) (shm_ring test_shm) _ _ _ eq_refl test_ring_ok).
    by rewrite decide_False by (vm_compute; discriminate). }
  eapply rtc_l; [apply (poll_begin _ _ _ pushed_ring Hr)|].
  change (nr_Head pushed_ring) with 0. change (nr_Tail pushed_ring) with 1.
  eapply rtc_l; [apply (poll_entry _ 0 1 1 _ _ pushed_ring test_entry Hr); [done|by vm_compute..]|]. apply rtc_refl.
Qed.

Lemma notify_ring_fifo_witness :
  exists r, VnvmeShmGetNotifyRing pushed_state = Some r /\ ring_ok r /\ [test_entry] = [test_entry] ++ ring_from 1 r.
Proof.
  destruct (notify_ring_fifo (test_state test_shm mem_zero) pushed_state (shm_ring test_shm) (Some (1, 1)) [test_entry] [test_entry]
    eq_refl test_ring_ok pushed_state_reached) as (r & Hr & Hok & Hl & _).
  exists r. split; [exact Hr|]. split; [exact Hok | exact Hl].
Defined.
