(* ===== verification/Recovery.v ===== *)
(** Recovery from a crash of the user-mode service:
    VnvmeAbortPendingUserCommands of [vnvme/user_forward.c]. *)
From S2P Require Import Prelude NvmeSpec Kernel Config Storage State Shm Queue.
Open Scope Z_scope.
Open Scope c_scope.

Section Recovery.
Context {W : WinKernel}.

Definition MakeAbortStatus (phase : Z) : Z := u16 (Z.lor (Z.lor phase (Z.shiftl 0x06 1)) (Z.shiftl 0x00 9)).

(** What the loops of VnvmeAbortPendingUserCommands carry. *)
Record AbortState := mkAbort { ab_head : Z; ab_cqTail : Z; ab_phase : Z; ab_count : Z }.

(** The loop over the pending commands of one queue. [sqid] is 0 for the admin
    queue, whose completion ring is indexed by [cqTail] and advanced with the
    capacity of the submission queue ([cqCapacity]); the loop of an I/O queue
    indexes it by [cqTail % cqDesc->Capacity]. *)
Fixpoint abort_loop (fuel : nat) (sq cq : VNVME_QUEUE_DESCRIPTOR) (cqCapacity sqid : Z) (a : AbortState)
  : M SharedMemory AbortState :=
  if ab_head a =? qd_Tail sq then mret a
  else match fuel with
  | O => out_of_fuel
  | S fuel =>
      m ← get;
      cmd ← of_opt (read_sqe m (qd_Offset sq) (ab_head a));
      slot ← of_opt (if sqid =? 0 then Some (ab_cqTail a)
                     else if cqCapacity =? 0 then None else Some (ab_cqTail a mod cqCapacity));
      m ← of_opt (write_cqe (qd_Offset cq) slot
                    (mkCompletion 0 0 (u16 (ab_head a)) sqid (cmd_CID cmd) (MakeAbortStatus (ab_phase a))) m);
      modify (fun _ => m);;
      cqTail ← of_opt (next_index (ab_cqTail a) cqCapacity);
      let phase := if cqTail =? 0 then (if ab_phase a =? 0 then 1 else 0) else ab_phase a in
      head ← of_opt (next_index (ab_head a) (qd_Capacity sq));
      abort_loop fuel sq cq cqCapacity sqid (mkAbort head cqTail phase (ab_count a +₃₂ 1))
  end.

(** A loop on the shared memory, run on the state. *)
Definition on_shm {A} (f : M SharedMemory A) : M KState A :=
  s ← get;
  m ← of_opt (VnvmeShmGetControlBlock s);
  r ← of_res (f m);
  shm_update (fun _ => r.2);;
  mret r.1.

(** Head, when it is in range, takes every index once before it meets Tail. *)
Definition abort_fuel (sq : VNVME_QUEUE_DESCRIPTOR) : nat := Z.to_nat (qd_Capacity sq).

Definition abort_admin (abortedCount : Z) : M KState Z :=
  s ← get;
  m ← of_opt (VnvmeShmGetControlBlock s);
  let sq := cb_AdminSQ (shm_cb m) in
  let cq := cb_AdminCQ (shm_cb m) in
  if negb (qd_Head sq =? qd_Tail sq) && (0 <? qd_Capacity sq) then
    a ← on_shm (abort_loop (abort_fuel sq) sq cq (qd_Capacity sq) 0
                  (mkAbort (qd_Head sq) (qd_Tail cq) (u8 (qd_Phase cq)) abortedCount));
    cb_update (fun cb => cb
      <| cb_AdminSQ ::= fun q => q <| qd_Head := ab_head a |> |>
      <| cb_AdminCQ ::= fun q => q <| qd_Tail := ab_cqTail a |> <| qd_Phase := ab_phase a |> |>);;
    pdo_update (fun p => p <| pdo_AdminCq ::= fun q => q <| qs_Tail := ab_cqTail a |> |>
                           <| pdo_AdminCqPhase := ab_phase a |>);;
    mret (ab_count a)
  else mret abortedCount.

Definition abort_io (i abortedCount : Z) : M KState Z :=
  s ← get;
  m ← of_opt (VnvmeShmGetControlBlock s);
  sq ← of_opt (arr_get (shm_descs m) (i * 2));
  cq ← of_opt (arr_get (shm_descs m) (i * 2 + 1));
  iosq ← of_opt (arr_get (pdo_IoSq (ks_pdo s)) i);
  if negb (qs_Created iosq) || (qd_Valid sq =? 0) then mret abortedCount
  else if (qd_Head sq =? qd_Tail sq) || (qd_Capacity sq =? 0) then mret abortedCount
  else
    a ← on_shm (abort_loop (abort_fuel sq) sq cq (qd_Capacity cq) (u16 (i + 1))
                  (mkAbort (qd_Head sq) (qd_Tail cq) (u8 (qd_Phase cq)) abortedCount));
    shm_store (desc_update (i * 2) (fun q => q <| qd_Head := ab_head a |>));;
    shm_store (desc_update (i * 2 + 1) (fun q => q <| qd_Tail := ab_cqTail a |> <| qd_Phase := ab_phase a |>));;
    iocq_update i (fun q => q <| qs_Tail := ab_cqTail a |> <| qs_PhaseTag := negb (ab_phase a =? 0) |>);;
    mret (ab_count a).

Fixpoint abort_io_loop (n : nat) (i abortedCount : Z) : M KState Z :=
  match n with
  | O => mret abortedCount
  | S n => c ← abort_io i abortedCount; abort_io_loop n (i + 1) c
  end.

Definition VnvmeAbortPendingUserCommands : M KState Z :=
  s ← get;
  match VnvmeShmGetControlBlock s with
  | None => mret 0
  | Some m =>
      abortedCount ← abort_admin 0;
      abortedCount ← (if cb_IoQueueDescriptorOffset (shm_cb m) =? 0 then mret abortedCount
                      else abort_io_loop (Z.to_nat (pdo_IoQueueCount (ks_pdo s))) 0 abortedCount);
      (if 0 <? abortedCount then
         fdo_update (fun d => d <| fdo_ErrorCount ::= fun k => s64 (k + abortedCount) |>)
       else mret tt);;
      mret abortedCount
  end.


(** ** One queue *)

(** The rings of a queue whose pending commands can be aborted: both in queue
    memory, and apart. *)
Record abort_ok (sq cq : VNVME_QUEUE_DESCRIPTOR) (cqCapacity : Z) : Prop := {
  ao_capacity : 0 < qd_Capacity sq < 2 ^ 32 - 1;
  ao_cqCapacity : 0 < cqCapacity < 2 ^ 32 - 1;
  ao_sq i : 0 <= i < qd_Capacity sq -> queue_memory (qd_Offset sq + i * 64) 64 = true;
  ao_cq i : 0 <= i < cqCapacity -> queue_memory (qd_Offset cq + i * 16) 16 = true;
  ao_apart : qd_Offset cq + cqCapacity * 16 <= qd_Offset sq \/ qd_Offset sq + qd_Capacity sq * 64 <= qd_Offset cq
}.

(** The loop variables are in range. *)
Record abort_state_ok (sq : VNVME_QUEUE_DESCRIPTOR) (cqCapacity : Z) (a : AbortState) : Prop := {
  as_head : 0 <= ab_head a < qd_Capacity sq;
  as_cqTail : 0 <= ab_cqTail a < cqCapacity;
  as_phase : ab_phase a = 0 \/ ab_phase a = 1;
  as_count : 0 <= ab_count a < 2 ^ 32;
  as_tail : 0 <= qd_Tail sq < qd_Capacity sq;
  as_room : ring_count (ab_head a) (qd_Tail sq) (qd_Capacity sq) <= cqCapacity
}.

(** The slot of the completion that is [k]-th from now. *)
Definition abort_slot (cq : VNVME_QUEUE_DESCRIPTOR) (cqCapacity : Z) (a : AbortState) (k : Z) : Z :=
  qd_Offset cq + ((ab_cqTail a + k) mod cqCapacity) * 16.

Definition internal_error (sqid phase h cid : Z) : NVME_COMPLETION :=
  mkCompletion 0 0 (u16 h) sqid cid (MakeAbortStatus phase).

(** What the loop does to the queue memory, [n] commands long: command [k] is
    answered in the [k]-th slot, nothing else is written. *)
Record aborted (sq cq : VNVME_QUEUE_DESCRIPTOR) (cqCapacity sqid : Z) (a : AbortState) (n : Z) (b b' : mem) : Prop := {
  ab_answered k : 0 <= k < n ->
    let h := (ab_head a + k) mod qd_Capacity sq in
    cpl_load b' (abort_slot cq cqCapacity a k) =
      internal_error sqid (phase_after cqCapacity (ab_cqTail a) (ab_phase a) k) h
        (cmd_CID (cmd_load b (qd_Offset sq + h * 64)));
  ab_frame x : (forall k, 0 <= k < n -> ~ (abort_slot cq cqCapacity a k <= x < abort_slot cq cqCapacity a k + 16)) ->
    rd8 b' x = rd8 b x
}.

(** The loop variables after [n] rounds. *)
Definition abort_after (sq : VNVME_QUEUE_DESCRIPTOR) (cqCapacity : Z) (a : AbortState) (n : Z) : AbortState :=
  mkAbort (qd_Tail sq) ((ab_cqTail a + n) mod cqCapacity) (phase_after cqCapacity (ab_cqTail a) (ab_phase a) n)
    (u32 (ab_count a + n)).

Lemma MakeAbortStatus_eq phase : phase = 0 \/ phase = 1 -> MakeAbortStatus phase = phase + 12.
Proof. by intros [->| ->]. Qed.

Lemma internal_error_wf sqid phase h cid :
  0 <= sqid < 2 ^ 16 -> 0 <= cid < 2 ^ 16 -> cpl_wf (internal_error sqid phase h cid).
Proof.
  intros. unfold cpl_wf, internal_error; cbn -[Z.pow u16 MakeAbortStatus].
  repeat split; try lia; try apply u16_range.
Qed.

Lemma cmd_load_CID b x : 0 <= cmd_CID (cmd_load b x) < 2 ^ 16.
Proof. by destruct (cmd_load_wf b x) as ((_ & _ & _ & _ & ? & _) & _). Qed.

(** One round of the loop. *)
Definition abort_next (sq : VNVME_QUEUE_DESCRIPTOR) (cqCapacity : Z) (a : AbortState) : AbortState :=
  let cqTail := (ab_cqTail a + 1) mod cqCapacity in
  mkAbort ((ab_head a + 1) mod qd_Capacity sq) cqTail
    (if cqTail =? 0 then (if ab_phase a =? 0 then 1 else 0) else ab_phase a) (ab_count a +₃₂ 1).

Definition abort_write (sq cq : VNVME_QUEUE_DESCRIPTOR) (cqCapacity sqid : Z) (a : AbortState) (b : mem) : mem :=
  cpl_store b (abort_slot cq cqCapacity a 0)
    (internal_error sqid (ab_phase a) (ab_head a) (cmd_CID (cmd_load b (qd_Offset sq + ab_head a * 64)))).

Lemma abort_loop_step fuel sq cq cqCapacity sqid a m :
  abort_ok sq cq cqCapacity -> 0 <= ab_head a < qd_Capacity sq -> 0 <= ab_cqTail a < cqCapacity -> ab_head a <> qd_Tail sq ->
  abort_loop (S fuel) sq cq cqCapacity sqid a m =
    abort_loop fuel sq cq cqCapacity sqid (abort_next sq cqCapacity a) (m <| shm_mem ::= abort_write sq cq cqCapacity sqid a |>).
Proof.
  intros Hok Hh Ht Hne. cbn [abort_loop]. rewrite (proj2 (Z.eqb_neq _ _)) by done.
  rewrite bind_get. unfold read_sqe. change NVME_SQ_ENTRY_SIZE with 64. rewrite (ao_sq _ _ _ Hok) by done.
  rewrite (bind_opt _ _ _ _ eq_refl).
  assert ((if sqid =? 0 then Some (ab_cqTail a) else if cqCapacity =? 0 then None else Some (ab_cqTail a mod cqCapacity))
    = Some (ab_cqTail a)) as Hslot.
  { destruct (sqid =? 0); [done|]. rewrite (proj2 (Z.eqb_neq _ _)) by lia. by rewrite Z.mod_small. }
  rewrite (bind_opt _ _ _ _ Hslot). unfold write_cqe. change NVME_CQ_ENTRY_SIZE with 16.
  rewrite (ao_cq _ _ _ Hok) by done. rewrite (bind_opt _ _ _ _ eq_refl), bind_modify.
  pose proof (ao_capacity _ _ _ Hok). pose proof (ao_cqCapacity _ _ _ Hok).
  rewrite (bind_opt _ _ _ _ (next_index_ok _ _ Ht ltac:(lia))), (bind_opt _ _ _ _ (next_index_ok _ _ Hh ltac:(lia))).
  assert (abort_slot cq cqCapacity a 0 = qd_Offset cq + ab_cqTail a * 16) as Hs
    by (unfold abort_slot; by rewrite Z.add_0_r, Z.mod_small).
  assert (abort_write sq cq cqCapacity sqid a (shm_mem m) = cpl_store (shm_mem m) (qd_Offset cq + ab_cqTail a * 16)
    (mkCompletion 0 0 (u16 (ab_head a)) sqid (cmd_CID (cmd_load (shm_mem m) (qd_Offset sq + ab_head a * 64))) (MakeAbortStatus (ab_phase a)))) as Hw
    by (unfold abort_write; by rewrite Hs).
  destruct m; unset. cbn in Hw. by rewrite <- Hw.
Qed.

Lemma abort_next_ok sq cq cqCapacity a :
  abort_ok sq cq cqCapacity -> abort_state_ok sq cqCapacity a -> ab_head a <> qd_Tail sq ->
  abort_state_ok sq cqCapacity (abort_next sq cqCapacity a) /\
  ring_count (ab_head (abort_next sq cqCapacity a)) (qd_Tail sq) (qd_Capacity sq)
    = ring_count (ab_head a) (qd_Tail sq) (qd_Capacity sq) - 1.
Proof.
  intros [? ? _ _ _] [Hh Ht Hp Hc Htl Hr] Hne.
  assert (ring_count (ab_head (abort_next sq cqCapacity a)) (qd_Tail sq) (qd_Capacity sq)
    = ring_count (ab_head a) (qd_Tail sq) (qd_Capacity sq) - 1) as E by (cbn; by rewrite ring_count_head by lia).
  split; [|done]. split; [apply Z.mod_pos_bound; lia| apply Z.mod_pos_bound; lia| |apply u32_range|done|lia].
  cbn. destruct (_ =? 0); [|done]. destruct (ab_phase a =? 0); tauto.
Qed.

Lemma phase_after_next sq cqCapacity a k :
  0 <= ab_cqTail a < cqCapacity -> ab_phase a = 0 \/ ab_phase a = 1 -> 0 <= k < cqCapacity ->
  phase_after cqCapacity (ab_cqTail (abort_next sq cqCapacity a)) (ab_phase (abort_next sq cqCapacity a)) k =
  phase_after cqCapacity (ab_cqTail a) (ab_phase a) (k + 1).
Proof.
  intros Ht Hp Hk. cbn. unfold phase_after. destruct (Z.eq_dec (ab_cqTail a + 1) cqCapacity) as [E|E].
  - rewrite E, Z.mod_same by lia. cbn. rewrite (proj2 (Z.ltb_lt _ _)), (proj2 (Z.ltb_ge _ _)) by lia.
    by destruct Hp as [->| ->].
  - rewrite Z.mod_small by lia. rewrite (proj2 (Z.eqb_neq _ _)) by lia. by rewrite (Z.add_comm k), Z.add_assoc.
Qed.

Lemma abort_slot_next sq cq cqCapacity a k :
  abort_slot cq cqCapacity (abort_next sq cqCapacity a) k = abort_slot cq cqCapacity a (k + 1).
Proof. unfold abort_slot; cbn. rewrite Zplus_mod_idemp_l. do 3 f_equal. lia. Qed.

(** Different completions are in different slots. *)
Lemma abort_slot_apart cq cqCapacity a k :
  0 < k < cqCapacity ->
  abort_slot cq cqCapacity a k + 16 <= abort_slot cq cqCapacity a 0 \/
  abort_slot cq cqCapacity a 0 + 16 <= abort_slot cq cqCapacity a k.
Proof.
  intros Hk. unfold abort_slot. rewrite Z.add_0_r.
  pose proof (ring_slots_differ cqCapacity (ab_cqTail a) (ab_cqTail a + k) ltac:(lia)). lia.
Qed.

Lemma abort_slot_range sq cq cqCapacity a k :
  abort_ok sq cq cqCapacity -> qd_Offset cq <= abort_slot cq cqCapacity a k /\ abort_slot cq cqCapacity a k + 16 <= qd_Offset cq + cqCapacity * 16.
Proof.
  intros [_ ? _ _ _]. unfold abort_slot. pose proof (Z.mod_pos_bound (ab_cqTail a + k) cqCapacity ltac:(lia)). lia.
Qed.

Lemma aborted_cons sq cq cqCapacity sqid a n b b' :
  abort_ok sq cq cqCapacity -> abort_state_ok sq cqCapacity a -> ab_head a <> qd_Tail sq -> 0 <= sqid < 2 ^ 16 ->
  0 <= n < cqCapacity ->
  aborted sq cq cqCapacity sqid (abort_next sq cqCapacity a) n (abort_write sq cq cqCapacity sqid a b) b' ->
  aborted sq cq cqCapacity sqid a (n + 1) b b'.
Proof.
  intros Hok [Hh Ht Hp _ _ _] Hne Hq Hn [Hans Hfr]. pose proof (ao_capacity _ _ _ Hok). split.
  - intros k Hk. cbv zeta. destruct (Z.eq_dec k 0) as [->|Hk0].
    + rewrite Z.add_0_r, (Z.mod_small (ab_head a)) by lia.
      rewrite (cpl_load_ext _ (abort_write sq cq cqCapacity sqid a b) _ (abort_slot cq cqCapacity a 0)).
      * unfold abort_write, phase_after. rewrite cpl_load_store by (apply internal_error_wf; [done|apply cmd_load_CID]).
        by rewrite Z.add_0_r, (proj2 (Z.ltb_lt _ _)) by lia.
      * intros i Hi. apply Hfr. intros j Hj. rewrite abort_slot_next.
        pose proof (abort_slot_apart cq cqCapacity a (j + 1) ltac:(lia)). lia.
    + specialize (Hans (k - 1) ltac:(lia)). cbv zeta in Hans. rewrite abort_slot_next, phase_after_next in Hans by lia.
      replace (k - 1 + 1) with k in Hans by lia.
      assert ((ab_head (abort_next sq cqCapacity a) + (k - 1)) mod qd_Capacity sq = (ab_head a + k) mod qd_Capacity sq) as Eh
        by (cbn; rewrite Zplus_mod_idemp_l; f_equal; lia).
      rewrite Eh in Hans. rewrite Hans. f_equal. f_equal. apply cmd_load_ext. intros i Hi. unfold abort_write. apply rd8_cpl_store_out.
      pose proof (abort_slot_range sq cq cqCapacity a 0 Hok). pose proof (ao_apart _ _ _ Hok).
      pose proof (Z.mod_pos_bound (ab_head a + k) (qd_Capacity sq) ltac:(lia)). lia.
  - intros x Hx. rewrite Hfr.
    + unfold abort_write. apply rd8_cpl_store_out. apply (Hx 0). lia.
    + intros k Hk. rewrite abort_slot_next. apply Hx. lia.
Qed.

Lemma abort_loop_run sq cq cqCapacity sqid :
  abort_ok sq cq cqCapacity -> 0 <= sqid < 2 ^ 16 -> forall n fuel a m,
  abort_state_ok sq cqCapacity a -> ring_count (ab_head a) (qd_Tail sq) (qd_Capacity sq) = Z.of_nat n -> (n <= fuel)%nat ->
  exists b', abort_loop fuel sq cq cqCapacity sqid a m =
      Ok (abort_after sq cqCapacity a (Z.of_nat n), m <| shm_mem := b' |>) /\
    aborted sq cq cqCapacity sqid a (Z.of_nat n) (shm_mem m) b'.
Proof.
  intros Hok Hq n. induction n as [|n IH]; intros fuel a m Ha Hn Hfuel; pose proof Ha as [Hh Ht Hp Hc Htl Hr].
  { pose proof (ao_capacity _ _ _ Hok). apply ring_count_0 in Hn; [|lia|done..].
    exists (shm_mem m). split.
    - destruct a as [h t p c]; cbn in *. subst h. unfold abort_after, phase_after; cbn.
      rewrite !Z.add_0_r, (Z.mod_small t), u32_small, (proj2 (Z.ltb_lt _ _)) by lia.
      destruct fuel; cbn; rewrite Z.eqb_refl; by destruct m.
    - split; [lia | done]. }
  destruct fuel as [|fuel]; [lia|].
  assert (ab_head a <> qd_Tail sq) as Hne.
  { intros E. pose proof (ao_capacity _ _ _ Hok). apply (ring_count_0 (qd_Capacity sq) ltac:(lia)) in E; [lia|done..]. }
  rewrite abort_loop_step by done. destruct (abort_next_ok sq cq cqCapacity a Hok Ha Hne) as [Ha' Hn'].
  destruct (IH fuel (abort_next sq cqCapacity a) (m <| shm_mem ::= abort_write sq cq cqCapacity sqid a |>) Ha' ltac:(lia) ltac:(lia))
    as (b' & Hrun & Hab).
  exists b'. rewrite Hrun. split.
  - do 2 f_equal. unfold abort_after. f_equal.
    + cbn. rewrite Zplus_mod_idemp_l. f_equal. lia.
    + rewrite phase_after_next by lia. f_equal. lia.
    + cbn. unfold u32. rewrite Zplus_mod_idemp_l. f_equal. lia.
  - replace (Z.of_nat (S n)) with (Z.of_nat n + 1) by lia. by apply aborted_cons; [| | | |lia|].
Qed.

(** ** One queue of the controller *)

(** The queues by identifier, 0 for the admin queue. *)
Definition abort_one (Q abortedCount : Z) : M KState Z :=
  if Q =? 0 then abort_admin abortedCount else abort_io (Q - 1) abortedCount.

(** The capacity the loop uses for the completion ring. *)
Definition cq_slots (Q : Z) (sq cq : VNVME_QUEUE_DESCRIPTOR) : Z := if Q =? 0 then qd_Capacity sq else qd_Capacity cq.
Definition abort_start (sq cq : VNVME_QUEUE_DESCRIPTOR) (count : Z) : AbortState :=
  mkAbort (qd_Head sq) (qd_Tail cq) (u8 (qd_Phase cq)) count.
Definition pending (sq : VNVME_QUEUE_DESCRIPTOR) : Z := ring_count (qd_Head sq) (qd_Tail sq) (qd_Capacity sq).

(** The queues of the controller [p] that are looked at: the admin queue, and the
    I/O queues that [p] has created and the shared memory has marked valid. *)
Definition queue_active (p : VNVME_PDO_CONTEXT) (Q : Z) (sq : VNVME_QUEUE_DESCRIPTOR) : bool :=
  (0 <? qd_Capacity sq) &&
  ((Q =? 0) || (negb (qd_Valid sq =? 0) &&
    match arr_get (pdo_IoSq p) (Q - 1) with Some q => qs_Created q | None => false end)).
Definition active (p : VNVME_PDO_CONTEXT) (m : SharedMemory) (Q : Z) : bool :=
  match sq_desc m Q with Some sq => queue_active p Q sq | None => false end.
Definition aborts (p : VNVME_PDO_CONTEXT) (m : SharedMemory) (Q : Z) : bool :=
  (0 <=? Q) && ((Q =? 0) || (negb (cb_IoQueueDescriptorOffset (shm_cb m) =? 0) && (Q <=? pdo_IoQueueCount p))) && active p m Q.

(** Where the answer to the [k]-th pending command goes. *)
Definition answer_slot (Q : Z) (sq cq : VNVME_QUEUE_DESCRIPTOR) (k : Z) : Z :=
  qd_Offset cq + ((qd_Tail cq + k) mod cq_slots Q sq cq) * 16.

(** The completion queue's descriptor once everything pending is answered: the
    tail is moved past the answers, and the phase is inverted if it wrapped. *)
Definition drained_cq (Q : Z) (sq cq : VNVME_QUEUE_DESCRIPTOR) : VNVME_QUEUE_DESCRIPTOR :=
  if qd_Head sq =? qd_Tail sq then cq
  else cq <| qd_Tail := (qd_Tail cq + pending sq) mod cq_slots Q sq cq |>
          <| qd_Phase := phase_after (cq_slots Q sq cq) (qd_Tail cq) (u8 (qd_Phase cq)) (pending sq) |>.

(** The shared memory without queue descriptors and queue memory. *)
Definition shm_rest (m : SharedMemory) : SharedMemory :=
  m <| shm_cb ::= fun cb => cb <| cb_AdminSQ := zero_desc |> <| cb_AdminCQ := zero_desc |> |> <| shm_descs := [] |> <| shm_mem := mem_zero |>.

(** The queues [A] are drained.  Every command that was pending in one of them
    is answered, in order, in the next slots of its completion ring, by an
    internal error with the command's identifier and the phase of the slot; the
    submission queue is left empty and the completion queue's descriptor moved
    past the answers.  No other descriptor, no other byte of queue memory and
    no other part of the shared memory has changed. *)
Record drained (A : Z -> bool) (m m' : SharedMemory) : Prop := {
  dr_sq Q : 0 <= Q -> sq_desc m' Q = (fun sq => if A Q then with_head (qd_Tail sq) sq else sq) <$> sq_desc m Q;
  dr_cq Q : 0 <= Q -> cq_desc m' Q =
    match sq_desc m Q with Some sq => (fun cq => if A Q then drained_cq Q sq cq else cq) <$> cq_desc m Q | None => cq_desc m Q end;
  dr_answered Q sq cq k : 0 <= Q -> A Q = true -> sq_desc m Q = Some sq -> cq_desc m Q = Some cq -> 0 <= k < pending sq ->
    let h := (qd_Head sq + k) mod qd_Capacity sq in
    cpl_load (shm_mem m') (answer_slot Q sq cq k) =
      internal_error Q (phase_after (cq_slots Q sq cq) (qd_Tail cq) (u8 (qd_Phase cq)) k) h
        (cmd_CID (cmd_load (shm_mem m) (qd_Offset sq + h * 64)));
  dr_frame x : (forall Q sq cq k, 0 <= Q -> A Q = true -> sq_desc m Q = Some sq -> cq_desc m Q = Some cq -> 0 <= k < pending sq ->
      ~ (answer_slot Q sq cq k <= x < answer_slot Q sq cq k + 16)) -> rd8 (shm_mem m') x = rd8 (shm_mem m) x;
  dr_rest : shm_rest m' = shm_rest m
}.

(** What a controller keeps of completion queue [Q]; the phase of the admin
    queue is kept apart. *)
Definition pdo_cq (p : VNVME_PDO_CONTEXT) (Q : Z) : option (VNVME_QUEUE_STATE * Z) :=
  if Q =? 0 then Some (pdo_AdminCq p, pdo_AdminCqPhase p) else (fun q => (q, 0)) <$> arr_get (pdo_IoCq p) (Q - 1).
Definition sync_cq (Q : Z) (sq cq : VNVME_QUEUE_DESCRIPTOR) (x : VNVME_QUEUE_STATE * Z) : VNVME_QUEUE_STATE * Z :=
  if qd_Head sq =? qd_Tail sq then x
  else
    let d := drained_cq Q sq cq in
    if Q =? 0 then (x.1 <| qs_Tail := qd_Tail d |>, qd_Phase d)
    else (x.1 <| qs_Tail := qd_Tail d |> <| qs_PhaseTag := negb (qd_Phase d =? 0) |>, x.2).
Definition pdo_rest (p : VNVME_PDO_CONTEXT) : VNVME_PDO_CONTEXT :=
  p <| pdo_AdminCq := zero_queue |> <| pdo_AdminCqPhase := 0 |> <| pdo_IoCq := [] |>.

(** The controller takes over the new tail and phase of the queues [A] that had
    something pending, and changes nothing else. *)
Record synced (A : Z -> bool) (m : SharedMemory) (p p' : VNVME_PDO_CONTEXT) : Prop := {
  sy_cq Q : 0 <= Q -> pdo_cq p' Q =
    match sq_desc m Q, cq_desc m Q with
    | Some sq, Some cq => (fun x => if A Q then sync_cq Q sq cq x else x) <$> pdo_cq p Q
    | _, _ => pdo_cq p Q
    end;
  sy_rest : pdo_rest p' = pdo_rest p
}.

(** The state with another shared memory and another controller. *)
Definition with_parts (m : SharedMemory) (p : VNVME_PDO_CONTEXT) (s : KState) : KState := with_shm m s <| ks_pdo := p |>.

Lemma with_shm_with m1 m2 s : with_shm m2 (with_shm m1 s) = with_shm m2 s.
Proof. unfold with_shm. destruct s as [[[]|] ? ? ? ? ?]; by unset. Qed.

Lemma on_shm_run {A} (f : M SharedMemory A) s m a m' :
  VnvmeShmGetControlBlock s = Some m -> f m = Ok (a, m') -> on_shm f s = Ok (a, with_shm m' s).
Proof.
  intros Hm Hf. unfold on_shm. rewrite bind_get, (bind_opt _ _ _ _ Hm), (bind_res _ _ _ _ Hf).
  unfold shm_update, fdo_update. rewrite bind_modify. unfold mret, M_ret. do 2 f_equal.
  unfold with_shm. destruct (shm_state_inv _ _ Hm) as (d & Hd & Hs). destruct s; cbn in *. rewrite Hd. unset. by rewrite Hs.
Qed.

Lemma cb_update_run f s m :
  VnvmeShmGetControlBlock s = Some m -> cb_update f s = Ok (tt, with_shm (m <| shm_cb ::= f |>) s).
Proof.
  intros Hm. destruct (shm_state_inv _ _ Hm) as (fd & Hfd & Hs). unfold cb_update, shm_update, fdo_update, modify, with_shm.
  do 2 f_equal. destruct s; cbn in *. rewrite Hfd. unset. by rewrite Hs.
Qed.

Lemma shm_store_run f s m m' :
  VnvmeShmGetControlBlock s = Some m -> f m = Some m' -> shm_store f s = Ok (tt, with_shm m' s).
Proof. apply shm_store_eq. Qed.

(** A queue with nothing pending, and one that is skipped. *)
Lemma abort_one_idle Q s m sq cq iosq count :
  VnvmeShmGetControlBlock s = Some m -> sq_desc m Q = Some sq -> cq_desc m Q = Some cq ->
  Q = 0 \/ arr_get (pdo_IoSq (ks_pdo s)) (Q - 1) = Some iosq -> 0 <= qd_Capacity sq ->
  queue_active (ks_pdo s) Q sq = false \/ qd_Head sq = qd_Tail sq ->
  abort_one Q count s = Ok (count, s).
Proof.
  intros Hm Hsq Hcq Hio Hcap Hidle. unfold abort_one, sq_desc, cq_desc, queue_active in *. destruct (Z.eqb_spec Q 0) as [->|HQ].
  - injection Hsq as <-. injection Hcq as <-. unfold abort_admin. rewrite bind_get, (bind_opt _ _ _ _ Hm). cbv zeta.
    destruct Hidle as [E|E]; [|by rewrite E, Z.eqb_refl].
    rewrite orb_true_l, andb_true_r in E. by rewrite E, andb_false_r.
  - destruct Hio as [?|Hio]; [done|]. unfold abort_io.
    rewrite bind_get, (bind_opt _ _ _ _ Hm), (bind_opt _ _ _ _ Hsq), (bind_opt _ _ _ _ Hcq), (bind_opt _ _ _ _ Hio).
    rewrite Hio in Hidle. destruct (qs_Created iosq), (qd_Valid sq =? 0); try done. cbn in *.
    destruct (Z.eqb_spec (qd_Head sq) (qd_Tail sq)) as [|Hne]; [done|]. destruct Hidle as [E|E]; [|done].
    rewrite andb_true_r in E. apply Z.ltb_ge in E. by rewrite (proj2 (Z.eqb_eq _ _)) by lia.
Qed.

Lemma abort_admin_run s m a m' sq cq count :
  VnvmeShmGetControlBlock s = Some m -> cb_AdminSQ (shm_cb m) = sq -> cb_AdminCQ (shm_cb m) = cq ->
  qd_Head sq <> qd_Tail sq -> 0 < qd_Capacity sq ->
  abort_loop (abort_fuel sq) sq cq (qd_Capacity sq) 0 (abort_start sq cq count) m = Ok (a, m') ->
  abort_admin count s = Ok (ab_count a,
    (with_shm (m' <| shm_cb ::= fun cb => cb <| cb_AdminSQ ::= fun q => q <| qd_Head := ab_head a |> |>
                <| cb_AdminCQ ::= fun q => q <| qd_Tail := ab_cqTail a |> <| qd_Phase := ab_phase a |> |> |>) s)
      <| ks_pdo ::= fun p => p <| pdo_AdminCq ::= fun q => q <| qs_Tail := ab_cqTail a |> |> <| pdo_AdminCqPhase := ab_phase a |> |>).
Proof.
  intros Hm Hsq Hcq Hne Hcap Hrun. unfold abort_admin. rewrite bind_get, (bind_opt _ _ _ _ Hm). cbv zeta.
  rewrite Hsq, Hcq, (proj2 (Z.eqb_neq _ _)), (proj2 (Z.ltb_lt _ _)) by done. cbn [negb andb].
  rewrite (bind_Ok _ _ _ _ _ (on_shm_run _ _ _ _ _ Hm Hrun)). cbv beta.
  rewrite (bind_Ok _ _ _ _ _ (cb_update_run _ _ _ (with_shm_get _ m' _ Hm))), with_shm_with.
  unfold pdo_update. by rewrite bind_modify.
Qed.

Lemma abort_io_run Q s m a m' sq cq sq' cq' iosq iocq count :
  Q <> 0 -> VnvmeShmGetControlBlock s = Some m -> sq_desc m Q = Some sq -> cq_desc m Q = Some cq ->
  arr_get (pdo_IoSq (ks_pdo s)) (Q - 1) = Some iosq -> arr_get (pdo_IoCq (ks_pdo s)) (Q - 1) = Some iocq ->
  qs_Created iosq = true -> qd_Valid sq <> 0 -> qd_Head sq <> qd_Tail sq -> 0 < qd_Capacity sq ->
  abort_loop (abort_fuel sq) sq cq (qd_Capacity cq) (u16 (Q - 1 + 1)) (abort_start sq cq count) m = Ok (a, m') ->
  sq_desc m' Q = Some sq' -> cq_desc (put_sq_desc Q (sq' <| qd_Head := ab_head a |>) m') Q = Some cq' ->
  abort_one Q count s = Ok (ab_count a,
    (with_shm (put_cq_desc Q (cq' <| qd_Tail := ab_cqTail a |> <| qd_Phase := ab_phase a |>)
                (put_sq_desc Q (sq' <| qd_Head := ab_head a |>) m')) s)
      <| ks_pdo ::= fun p => p <| pdo_IoCq := <[Z.to_nat (Q - 1) :=
           iocq <| qs_Tail := ab_cqTail a |> <| qs_PhaseTag := negb (ab_phase a =? 0) |>]> (pdo_IoCq (ks_pdo s)) |> |>).
Proof.
  intros HQ Hm Hsq Hcq Hiosq Hiocq Hcr Hv Hne Hcap Hrun Hsq' Hcq'. unfold abort_one. rewrite (proj2 (Z.eqb_neq _ _)) by done.
  pose proof Hsq as Hsq0. pose proof Hcq as Hcq0. unfold sq_desc, cq_desc in Hsq0, Hcq0.
  rewrite (proj2 (Z.eqb_neq _ _)) in Hsq0, Hcq0 by done. unfold abort_io.
  rewrite bind_get, (bind_opt _ _ _ _ Hm), (bind_opt _ _ _ _ Hsq0), (bind_opt _ _ _ _ Hcq0), (bind_opt _ _ _ _ Hiosq).
  rewrite Hcr, !(proj2 (Z.eqb_neq _ _)) by (done || lia). cbn [negb orb].
  rewrite (bind_Ok _ _ _ _ _ (on_shm_run _ _ _ _ _ Hm Hrun)). cbv beta.
  pose proof (sq_desc_update_put Q (fun q => q <| qd_Head := ab_head a |>) _ _ Hsq') as H1.
  pose proof (cq_desc_update_put Q (fun q => q <| qd_Tail := ab_cqTail a |> <| qd_Phase := ab_phase a |>) _ _ Hcq') as H2.
  unfold sq_desc_update, cq_desc_update in H1, H2. rewrite (proj2 (Z.eqb_neq _ _)) in H1, H2 by done.
  rewrite (bind_Ok _ _ _ _ _ (shm_store_run _ _ _ _ (with_shm_get _ m' _ Hm) H1)). cbv beta. rewrite with_shm_with.
  rewrite (bind_Ok _ _ _ _ _ (shm_store_run _ _ _ _ (with_shm_get _ _ _ Hm) H2)). cbv beta. rewrite with_shm_with.
  rewrite (bind_Ok _ _ _ _ _ (iocq_update_run (Q - 1) _ (with_shm _ s) iocq ltac:(by destruct s))). by destruct s.
Qed.

(** Updating a descriptor leaves the others. *)
Lemma desc_insert_ne i j (l : list VNVME_QUEUE_DESCRIPTOR) d :
  0 <= i -> 0 <= j -> i <> j -> arr_get (<[Z.to_nat i := d]> l) j = arr_get l j.
Proof. intros. apply arr_get_insert_ne; lia. Qed.

Lemma put_sq_desc_others Q Q' d m : 0 <= Q -> 0 <= Q' ->
  (Q' <> Q -> sq_desc (put_sq_desc Q d m) Q' = sq_desc m Q') /\ cq_desc (put_sq_desc Q d m) Q' = cq_desc m Q'.
Proof.
  intros H1 H2. unfold sq_desc, cq_desc, put_sq_desc. destruct (Z.eqb_spec Q 0), (Z.eqb_spec Q' 0);
    destruct m as [[] ? ? ?]; unset; (split; [intros ?|]); try done; try lia; apply desc_insert_ne; lia.
Qed.

Lemma put_cq_desc_others Q Q' d m : 0 <= Q -> 0 <= Q' ->
  (Q' <> Q -> cq_desc (put_cq_desc Q d m) Q' = cq_desc m Q') /\ sq_desc (put_cq_desc Q d m) Q' = sq_desc m Q'.
Proof.
  intros H1 H2. unfold sq_desc, cq_desc, put_cq_desc. destruct (Z.eqb_spec Q 0), (Z.eqb_spec Q' 0);
    destruct m as [[] ? ? ?]; unset; (split; [intros ?|]); try done; try lia; apply desc_insert_ne; lia.
Qed.

Lemma cq_desc_put Q d d' m : cq_desc m Q = Some d -> cq_desc (put_cq_desc Q d' m) Q = Some d'.
Proof.
  unfold cq_desc, put_cq_desc. destruct (Q =? 0).
  - by destruct m as [[] ? ? ?].
  - destruct m; unset. apply arr_get_insert_eq.
Qed.

Lemma put_cq_desc_mem Q d m : shm_mem (put_cq_desc Q d m) = shm_mem m /\
  cb_IoQueueDescriptorOffset (shm_cb (put_cq_desc Q d m)) = cb_IoQueueDescriptorOffset (shm_cb m).
Proof. unfold put_cq_desc. destruct (Q =? 0), m as [[] ? ? ?]; by unset. Qed.

Lemma desc_mem Q b m : sq_desc (m <| shm_mem := b |>) Q = sq_desc m Q /\ cq_desc (m <| shm_mem := b |>) Q = cq_desc m Q.
Proof. by destruct m. Qed.

(** One queue with pending commands. *)
Lemma abort_one_run Q s m sq cq count iosq iocq :
  VnvmeShmGetControlBlock s = Some m -> sq_desc m Q = Some sq -> cq_desc m Q = Some cq -> 0 <= Q < 2 ^ 16 ->
  Q = 0 \/ arr_get (pdo_IoSq (ks_pdo s)) (Q - 1) = Some iosq /\ arr_get (pdo_IoCq (ks_pdo s)) (Q - 1) = Some iocq ->
  queue_active (ks_pdo s) Q sq = true -> qd_Head sq <> qd_Tail sq ->
  abort_ok sq cq (cq_slots Q sq cq) -> abort_state_ok sq (cq_slots Q sq cq) (abort_start sq cq count) ->
  exists b' p', aborted sq cq (cq_slots Q sq cq) Q (abort_start sq cq count) (pending sq) (shm_mem m) b' /\
    (forall Q', 0 <= Q' -> pdo_cq p' Q' = (fun x => if Q' =? Q then sync_cq Q sq cq x else x) <$> pdo_cq (ks_pdo s) Q') /\
    pdo_rest p' = pdo_rest (ks_pdo s) /\
    abort_one Q count s = Ok (u32 (count + pending sq),
      with_parts (put_cq_desc Q (drained_cq Q sq cq) (put_sq_desc Q (with_head (qd_Tail sq) sq) (m <| shm_mem := b' |>))) p' s).
Proof.
  intros Hm Hsq Hcq HQ Hio Hact Hne Hok Hst. pose proof (ao_capacity _ _ _ Hok) as Hcap.
  pose proof (ring_count_range (qd_Capacity sq) ltac:(lia) (qd_Head sq) (qd_Tail sq)) as Hn.
  destruct (abort_loop_run sq cq (cq_slots Q sq cq) Q Hok HQ (Z.to_nat (pending sq)) (abort_fuel sq) (abort_start sq cq count) m Hst)
    as (b' & Hrun & Hab); [cbn; unfold pending; lia | unfold abort_fuel, pending; lia|].
  rewrite Z2Nat.id in Hrun, Hab by (unfold pending; lia). exists b'. set (a := abort_after _ _ _ _) in Hrun.
  assert (drained_cq Q sq cq = cq <| qd_Tail := ab_cqTail a |> <| qd_Phase := ab_phase a |>) as Ed
    by (unfold drained_cq; by rewrite (proj2 (Z.eqb_neq _ _) Hne)).
  assert (forall x, sync_cq Q sq cq x = if Q =? 0 then (x.1 <| qs_Tail := ab_cqTail a |>, ab_phase a)
    else (x.1 <| qs_Tail := ab_cqTail a |> <| qs_PhaseTag := negb (ab_phase a =? 0) |>, x.2)) as Es
    by (intros x; unfold sync_cq; rewrite (proj2 (Z.eqb_neq _ _) Hne), Ed; by destruct cq).
  destruct (Z.eq_dec Q 0) as [->|HQ0].
  - unfold abort_one, sq_desc, cq_desc in *; cbn [Z.eqb] in *. injection Hsq as Hsq. injection Hcq as Hcq.
    exists ((ks_pdo s) <| pdo_AdminCq ::= fun q => q <| qs_Tail := ab_cqTail a |> |> <| pdo_AdminCqPhase := ab_phase a |>).
    split; [exact Hab|]. split; [|split; [|rewrite (abort_admin_run s m a (m <| shm_mem := b' |>) sq cq count Hm Hsq Hcq Hne ltac:(lia) Hrun);
      rewrite Ed; unfold with_parts, put_cq_desc, put_sq_desc; cbn [Z.eqb]; destruct s, m as [[] ? ? ?]; unset; cbn in Hsq, Hcq; subst; reflexivity]].
    + intros Q' HQ'. unfold pdo_cq. destruct (Z.eqb_spec Q' 0) as [->|]; [|destruct s as [? [] ? ? ? ?]; cbn; by destruct (arr_get pdo_IoCq _)].
      cbn [fmap option_fmap option_map]. rewrite Es. by destruct s as [? [] ? ? ? ?].
    + by destruct s as [? [] ? ? ? ?].
  - destruct Hio as [?|[Hiosq Hiocq]]; [done|]. unfold queue_active in Hact. rewrite Hiosq, (proj2 (Z.eqb_neq Q 0)) in Hact by done.
    cbn [orb] in Hact. apply andb_prop in Hact as [_ [Hv Hcr]%andb_prop]. apply negb_true_iff, Z.eqb_neq in Hv.
    assert (cq_slots Q sq cq = qd_Capacity cq) as Eslots by (unfold cq_slots; by rewrite (proj2 (Z.eqb_neq Q 0))).
    set (m1 := m <| shm_mem := b' |>) in *. destruct (desc_mem Q b' m) as [E1 E2]. fold m1 in E1, E2.
    assert (abort_loop (abort_fuel sq) sq cq (qd_Capacity cq) (u16 (Q - 1 + 1)) (abort_start sq cq count) m = Ok (a, m1)) as Hrun'
      by (replace (Q - 1 + 1) with Q by lia; by rewrite u16_small, <- Eslots).
    destruct (put_sq_desc_others Q Q (sq <| qd_Head := ab_head a |>) m1 ltac:(lia) ltac:(lia)) as [_ E3].
    pose proof (abort_io_run Q s m a m1 sq cq sq cq iosq iocq count HQ0 Hm Hsq Hcq Hiosq Hiocq Hcr Hv Hne ltac:(lia) Hrun'
      (eq_trans E1 Hsq) (eq_trans E3 (eq_trans E2 Hcq))) as Hone.
    exists ((ks_pdo s) <| pdo_IoCq := <[Z.to_nat (Q - 1) := iocq <| qs_Tail := ab_cqTail a |> <| qs_PhaseTag := negb (ab_phase a =? 0) |>]> (pdo_IoCq (ks_pdo s)) |>).
    split; [exact Hab|]. split; [|split; [|rewrite Hone, Ed; unfold with_parts; by destruct s]].
    + intros Q' HQ'. unfold pdo_cq. destruct (Z.eqb_spec Q' 0) as [->|HQ'0].
      { rewrite (proj2 (Z.eqb_neq 0 Q)) by done. by destruct s as [? [] ? ? ? ?]. }
      unset. cbn [pdo_IoCq]. destruct (Z.eqb_spec Q' Q) as [->|Hd].
      * erewrite arr_get_insert_eq by exact Hiocq. rewrite Hiocq. cbn [fmap option_fmap option_map]. rewrite Es. by rewrite (proj2 (Z.eqb_neq Q 0)).
      * rewrite arr_get_insert_ne by lia. by destruct (arr_get (pdo_IoCq (ks_pdo s)) (Q' - 1)).
    + by destruct s as [? [] ? ? ? ?].
Qed.

(** ** All queues *)

Definition union (A B : Z -> bool) (Q : Z) : bool := A Q || B Q.

(** The bytes of the rings of a queue. *)
Definition sq_ring (m : SharedMemory) (Q x : Z) : Prop :=
  exists sq, sq_desc m Q = Some sq /\ qd_Offset sq <= x < qd_Offset sq + qd_Capacity sq * 64.
Definition cq_ring (m : SharedMemory) (Q x : Z) : Prop :=
  exists sq cq, sq_desc m Q = Some sq /\ cq_desc m Q = Some cq /\ qd_Offset cq <= x < qd_Offset cq + cq_slots Q sq cq * 16.

(** The completion rings of the queues [A] are apart from the rings of the others. *)
Definition rings_apart (A : Z -> bool) (m : SharedMemory) : Prop :=
  forall Q Q' x, 0 <= Q -> 0 <= Q' -> A Q = true -> A Q' = true -> Q <> Q' -> cq_ring m Q x -> ~ cq_ring m Q' x /\ ~ sq_ring m Q' x.

(** Each of the queues [A] that has commands pending is in order: its rings are in
    queue memory and apart, its indices and its phase are in range (a tail taken
    from a doorbell need not be), and the completion ring has room for the answers. *)
Definition queues_ready (A : Z -> bool) (m : SharedMemory) : Prop :=
  forall Q sq cq, 0 <= Q -> A Q = true -> sq_desc m Q = Some sq -> cq_desc m Q = Some cq -> qd_Head sq <> qd_Tail sq ->
    abort_ok sq cq (cq_slots Q sq cq) /\ abort_state_ok sq (cq_slots Q sq cq) (abort_start sq cq 0).

(** The arrays a controller and the shared memory have for its queues. *)
Record controller_shape (p : VNVME_PDO_CONTEXT) (m : SharedMemory) : Prop := {
  cs_count : 0 <= pdo_IoQueueCount p <= VNVME_MAX_IO_QUEUES;
  cs_descs Q : 0 <= Q <= pdo_IoQueueCount p -> is_Some (sq_desc m Q) /\ is_Some (cq_desc m Q);
  cs_arrays Q : 1 <= Q <= pdo_IoQueueCount p -> is_Some (arr_get (pdo_IoSq p) (Q - 1)) /\ is_Some (pdo_cq p Q);
  cs_capacity Q sq : sq_desc m Q = Some sq -> 0 <= qd_Capacity sq
}.

(** The number of commands pending in queue [Q], and in all the queues [A]. *)
Definition queue_pending (A : Z -> bool) (m : SharedMemory) (Q : Z) : Z :=
  if A Q then match sq_desc m Q with Some sq => pending sq | None => 0 end else 0.
Definition queue_ids : list Z := seqZ 0 (VNVME_MAX_IO_QUEUES + 1).
Definition total_pending (A : Z -> bool) (m : SharedMemory) : Z := foldr Z.add 0 (queue_pending A m <$> queue_ids).

Lemma pending_idle sq : qd_Head sq = qd_Tail sq -> pending sq = 0.
Proof. unfold pending, ring_count. intros ->. by rewrite Z.sub_diag, Zmod_0_l. Qed.

Lemma drained_desc A m m1 Q : drained A m m1 -> 0 <= Q ->
  (sq_desc m1 Q = None <-> sq_desc m Q = None) /\ (cq_desc m1 Q = None <-> cq_desc m Q = None) /\
  forall sq1, sq_desc m1 Q = Some sq1 -> exists sq, sq_desc m Q = Some sq /\
    (sq1 = sq /\ A Q = false \/ sq1 = with_head (qd_Tail sq) sq /\ A Q = true).
Proof.
  intros D HQ. rewrite (dr_cq _ _ _ D Q HQ), (dr_sq _ _ _ D Q HQ). destruct (sq_desc m Q) as [sq|]; cbn; [|by repeat split].
  destruct (cq_desc m Q); cbn; repeat split; try done; intros ? [= <-]; exists sq; destruct (A Q); auto.
Qed.

Lemma drained_same A m m1 Q : drained A m m1 -> 0 <= Q -> A Q = false -> sq_desc m1 Q = sq_desc m Q /\ cq_desc m1 Q = cq_desc m Q.
Proof.
  intros D HQ HA. rewrite (dr_cq _ _ _ D Q HQ), (dr_sq _ _ _ D Q HQ), HA. destruct (sq_desc m Q); cbn; [|done].
  split; [done|]. by destruct (cq_desc m Q).
Qed.

(** What is still pending was not drained. *)
Lemma drained_pending A m m1 Q sq cq : drained A m m1 -> 0 <= Q -> sq_desc m1 Q = Some sq -> cq_desc m1 Q = Some cq ->
  qd_Head sq <> qd_Tail sq -> A Q = false /\ sq_desc m Q = Some sq /\ cq_desc m Q = Some cq.
Proof.
  intros D HQ H1 H2 Hne. destruct (drained_desc _ _ _ Q D HQ) as (_ & _ & H). destruct (H _ H1) as (sq0 & E & [[-> HA]|[-> _]]).
  - destruct (drained_same _ _ _ Q D HQ HA) as [<- <-]. done.
  - by destruct sq0.
Qed.

Lemma pending_busy sq k : 0 <= k < pending sq -> qd_Head sq <> qd_Tail sq.
Proof. intros Hk E. rewrite pending_idle in Hk by done. lia. Qed.

(** Every answer is in its completion ring, every pending command in its submission ring. *)
Lemma answer_in_ring A m Q sq cq k x : queues_ready A m -> 0 <= Q -> A Q = true -> sq_desc m Q = Some sq -> cq_desc m Q = Some cq ->
  0 <= k < pending sq -> answer_slot Q sq cq k <= x < answer_slot Q sq cq k + 16 -> cq_ring m Q x.
Proof.
  intros Hr H0 HA Hsq Hcq Hk Hx. destruct (Hr Q sq cq H0 HA Hsq Hcq (pending_busy _ _ Hk)) as [Hok _]. exists sq, cq. split; [done|]. split; [done|].
  unfold answer_slot in Hx. pose proof (ao_cqCapacity _ _ _ Hok). pose proof (Z.mod_pos_bound (qd_Tail cq + k) (cq_slots Q sq cq) ltac:(lia)). lia.
Qed.

Lemma command_in_ring A m Q sq cq k x : queues_ready A m -> 0 <= Q -> A Q = true -> sq_desc m Q = Some sq -> cq_desc m Q = Some cq ->
  0 <= k < pending sq -> let h := (qd_Head sq + k) mod qd_Capacity sq in qd_Offset sq + h * 64 <= x < qd_Offset sq + h * 64 + 64 -> sq_ring m Q x.
Proof.
  intros Hr H0 HA Hsq Hcq Hk h Hx. destruct (Hr Q sq cq H0 HA Hsq Hcq (pending_busy _ _ Hk)) as [Hok _]. exists sq. split; [done|].
  pose proof (ao_capacity _ _ _ Hok). pose proof (Z.mod_pos_bound (qd_Head sq + k) (qd_Capacity sq) ltac:(lia)). lia.
Qed.

Lemma drained_union A B m m1 m2 :
  queues_ready (union A B) m -> rings_apart (union A B) m -> drained A m m1 -> drained B m1 m2 -> drained (union A B) m m2.
Proof.
  intros Hr Hap D1 D2. unfold union in *.
  assert (forall Q, A Q = true -> A Q || B Q = true) as HA by (by intros Q ->).
  assert (forall Q, B Q = true -> A Q || B Q = true) as HB by (intros Q ->; apply orb_true_r).
  assert (forall Q sq cq k, 0 <= Q -> sq_desc m1 Q = Some sq -> cq_desc m1 Q = Some cq -> 0 <= k < pending sq ->
    A Q = false /\ sq_desc m Q = Some sq /\ cq_desc m Q = Some cq) as Hstill
    by (intros Q sq cq k HQ H1 H2 Hk; by apply (drained_pending A m m1); [| | | |apply (pending_busy _ k)]).
  split.
  - intros Q HQ. rewrite (dr_sq _ _ _ D2 Q HQ), (dr_sq _ _ _ D1 Q HQ). destruct (sq_desc m Q) as [sq|]; [|done]. cbn. f_equal.
    by destruct (A Q), (B Q), sq.
  - intros Q HQ. rewrite (dr_cq _ _ _ D2 Q HQ), (dr_cq _ _ _ D1 Q HQ), (dr_sq _ _ _ D1 Q HQ).
    destruct (sq_desc m Q) as [sq|]; cbn; [|done]. destruct (cq_desc m Q) as [cq|]; cbn; [|done]. f_equal.
    destruct (A Q), (B Q); cbn; try done. unfold drained_cq at 1. destruct sq. cbn. by rewrite Z.eqb_refl.
  - intros Q sq cq k HQ HAB Hsq Hcq Hk h. destruct (A Q) eqn:EA.
    + pose proof (dr_answered _ _ _ D1 Q sq cq k HQ EA Hsq Hcq Hk) as E. cbv zeta in E. fold h in E. rewrite <- E. apply cpl_load_ext. intros i Hi. apply (dr_frame _ _ _ D2).
      intros Q' sq' cq' k' HQ' HB' Hsq' Hcq' Hk' Hin. destruct (Hstill Q' sq' cq' k' HQ' Hsq' Hcq' Hk') as (EA' & H1 & H2).
      destruct (Hap Q' Q (answer_slot Q sq cq k + i)) as [Hno _]; auto; [congruence| |].
      * by apply (answer_in_ring (fun Q => A Q || B Q) m Q' sq' cq' k'); auto.
      * apply Hno. apply (answer_in_ring (fun Q => A Q || B Q) m Q sq cq k); auto. lia.
    + cbn in HAB. destruct (drained_same _ _ _ Q D1 HQ EA) as [E1 E2].
      pose proof (dr_answered _ _ _ D2 Q sq cq k HQ HAB ltac:(congruence) ltac:(congruence) Hk) as E. cbv zeta in E. fold h in E. rewrite E. do 2 f_equal. apply cmd_load_ext. intros i Hi. apply (dr_frame _ _ _ D1).
      intros Q' sq' cq' k' HQ' HA' Hsq' Hcq' Hk' Hin. fold h in Hi.
      destruct (Hap Q' Q (qd_Offset sq + h * 64 + i)) as [_ Hno]; auto; [congruence| |].
      * by apply (answer_in_ring (fun Q => A Q || B Q) m Q' sq' cq' k'); auto.
      * apply Hno. apply (command_in_ring (fun Q => A Q || B Q) m Q sq cq k); auto. unfold h in *. lia.
  - intros x Hx. rewrite (dr_frame _ _ _ D2), (dr_frame _ _ _ D1); [done| |]; intros Q sq cq k HQ HAB Hsq Hcq Hk.
    + apply (Hx Q sq cq k); auto.
    + destruct (Hstill Q sq cq k HQ Hsq Hcq Hk) as (_ & H1 & H2). apply (Hx Q sq cq k); auto.
  - rewrite (dr_rest _ _ _ D2). apply D1.
Qed.

Lemma synced_union A B m m1 p p1 p2 :
  drained A m m1 -> synced A m p p1 -> synced B m1 p1 p2 -> synced (union A B) m p p2.
Proof.
  intros D S1 S2. split; [|rewrite (sy_rest _ _ _ _ S2); apply S1].
  intros Q HQ. rewrite (sy_cq _ _ _ _ S2 Q HQ), (sy_cq _ _ _ _ S1 Q HQ), (dr_cq _ _ _ D Q HQ), (dr_sq _ _ _ D Q HQ). unfold union.
  destruct (sq_desc m Q) as [sq|]; cbn; [|done]. destruct (cq_desc m Q) as [cq|]; cbn; [|done]. destruct (pdo_cq p Q) as [x|]; cbn; [|done]. f_equal.
  destruct (A Q), (B Q); cbn; try done. unfold sync_cq at 1. destruct sq. cbn. by rewrite Z.eqb_refl.
Qed.

(** The readiness of what is left. *)
Lemma queues_ready_after A B m m1 : drained A m m1 -> queues_ready B m -> queues_ready B m1.
Proof.
  intros D Hr Q sq cq HQ HB Hsq Hcq Hne. destruct (drained_pending _ _ _ _ _ _ D HQ Hsq Hcq Hne) as (_ & H1 & H2). by apply Hr.
Qed.

Lemma drained_geometry A m m1 Q : drained A m m1 -> 0 <= Q ->
  (forall x, sq_ring m1 Q x <-> sq_ring m Q x) /\ (forall x, cq_ring m1 Q x <-> cq_ring m Q x) /\ forall p, active p m1 Q = active p m Q.
Proof.
  intros D HQ. unfold sq_ring, cq_ring, active. rewrite (dr_cq _ _ _ D Q HQ), (dr_sq _ _ _ D Q HQ). destruct (sq_desc m Q) as [sq|]; cbn.
  2: { repeat split; [by intros (? & ? & _)|by intros (? & ? & _)|by intros (? & ? & ? & _)|by intros (? & ? & ? & _)]. }
  assert (forall f : bool, let sq' := if f then with_head (qd_Tail sq) sq else sq in qd_Offset sq' = qd_Offset sq /\ qd_Capacity sq' = qd_Capacity sq /\
    qd_Valid sq' = qd_Valid sq) as Hsq by (intros []; by destruct sq). destruct (Hsq (A Q)) as (E1 & E2 & E3). cbv zeta in E1, E2, E3. set (sq' := if A Q then _ else _) in *.
  split; [|split].
  - intros x. split; intros (? & [= <-] & H); [exists sq|exists sq']; rewrite ?E1, ?E2 in *; done.
  - intros x. destruct (cq_desc m Q) as [cq|]; cbn; [|split; intros (? & ? & _ & ? & _); done].
    assert (qd_Offset (if A Q then drained_cq Q sq cq else cq) = qd_Offset cq /\ qd_Capacity (if A Q then drained_cq Q sq cq else cq) = qd_Capacity cq) as [F1 F2].
    { destruct (A Q); [|done]. unfold drained_cq. destruct (_ =? _); by destruct cq. }
    split; intros (? & ? & [= <-] & [= <-] & H); eexists _, _; (split; [reflexivity|]); (split; [reflexivity|]); unfold cq_slots in *;
      rewrite ?E1, ?E2, ?F1, ?F2 in *; done.
  - intros p. unfold queue_active. by rewrite E2, E3.
Qed.

Lemma rings_apart_after A B m m1 : drained A m m1 -> rings_apart B m -> rings_apart B m1.
Proof.
  intros D Hap Q Q' x HQ HQ' HB HB' Hne. destruct (drained_geometry _ _ _ Q D HQ) as (_ & E & _), (drained_geometry _ _ _ Q' D HQ') as (F1 & F2 & _).
  rewrite E, F1, F2. by apply Hap.
Qed.

Lemma synced_pdo A m p p1 : synced A m p p1 -> pdo_IoSq p1 = pdo_IoSq p /\ pdo_IoQueueCount p1 = pdo_IoQueueCount p.
Proof.
  intros S. pose proof (sy_rest _ _ _ _ S) as E. split; [change (pdo_IoSq (pdo_rest p1) = pdo_IoSq (pdo_rest p))|
    change (pdo_IoQueueCount (pdo_rest p1) = pdo_IoQueueCount (pdo_rest p))]; by rewrite E.
Qed.

Lemma drained_offset A m m1 : drained A m m1 -> cb_IoQueueDescriptorOffset (shm_cb m1) = cb_IoQueueDescriptorOffset (shm_cb m).
Proof.
  intros D. pose proof (dr_rest _ _ _ D) as E.
  assert (forall m, cb_IoQueueDescriptorOffset (shm_cb (shm_rest m)) = cb_IoQueueDescriptorOffset (shm_cb m)) as H by (by intros [[] ? ? ?]).
  by rewrite <- (H m1), E, H.
Qed.

Lemma aborts_after A m m1 p p1 Q : drained A m m1 -> pdo_IoSq p1 = pdo_IoSq p -> pdo_IoQueueCount p1 = pdo_IoQueueCount p ->
  active p1 m1 Q = (if 0 <=? Q then active p m Q else active p1 m1 Q) /\ aborts p1 m1 Q = aborts p m Q.
Proof.
  intros D E1 E2. unfold aborts. rewrite (drained_offset _ _ _ D), E2. destruct (Z.leb_spec 0 Q); cbn [andb]; [|done].
  assert (active p1 m1 Q = active p m Q) as E.
  { destruct (drained_geometry _ _ _ Q D) as (_ & _ & H2); [done|]. rewrite H2. unfold active, queue_active. by rewrite E1. }
  by rewrite E.
Qed.

Lemma shape_after A m m1 p p1 q q1 : drained A m m1 -> synced A m p p1 -> (q = p /\ q1 = p1 \/ q1 = q) -> controller_shape q m -> controller_shape q1 m1.
Proof.
  intros D S Hq [H1 H2 H3 H4].
  assert (pdo_IoSq q1 = pdo_IoSq q /\ pdo_IoQueueCount q1 = pdo_IoQueueCount q) as [E1 E2]
    by (destruct Hq as [[-> ->]| ->]; [by apply synced_pdo in S|done]).
  split; rewrite ?E1, ?E2; [done|..].
  - intros Q HQ. destruct (H2 Q HQ), (drained_desc _ _ _ Q D) as (F1 & F2 & _); [lia|]. rewrite <- !not_eq_None_Some in *. tauto.
  - intros Q HQ. destruct (H3 Q HQ) as [? Hcq]. split; [done|]. destruct Hq as [[-> ->]| ->]; [|done].
    rewrite (sy_cq _ _ _ _ S Q) by lia. destruct (sq_desc m Q), (cq_desc m Q), Hcq as [? ->]; by eexists.
  - intros Q sq Hsq. destruct (Z.lt_ge_cases Q 0).
    + unfold sq_desc in Hsq. rewrite (proj2 (Z.eqb_neq _ _)) in Hsq by lia. apply arr_get_lt in Hsq. lia.
    + destruct (drained_desc _ _ _ Q D) as (_ & _ & F); [lia|]. destruct (F _ Hsq) as (sq0 & E & [[-> _]|[-> _]]); [|destruct sq0]; by apply (H4 Q) in E.
Qed.

(** A function that drains the queues [A]. *)
Record effect (A : Z -> bool) (s : KState) (m : SharedMemory) (s' : KState) (m' : SharedMemory) : Prop := {
  ef_shm : VnvmeShmGetControlBlock s = Some m;
  ef_state : s' = with_parts m' (ks_pdo s') s;
  ef_drained : drained A m m';
  ef_synced : synced A m (ks_pdo s) (ks_pdo s')
}.

Lemma with_parts_facts m m' p s : VnvmeShmGetControlBlock s = Some m ->
  VnvmeShmGetControlBlock (with_parts m' p s) = Some m' /\ ks_pdo (with_parts m' p s) = p /\
  forall m2 p2, with_parts m2 p2 (with_parts m' p s) = with_parts m2 p2 s.
Proof.
  intros Hm. unfold with_parts, with_shm. destruct s as [[fd|] ? ? ? ? ?]; [|done]. unset. split; [by destruct fd|]. split; [done|].
  intros. by destruct fd.
Qed.

Lemma with_parts_id m s : VnvmeShmGetControlBlock s = Some m -> with_parts m (ks_pdo s) s = s.
Proof.
  intros (d & Hd & Hm)%shm_state_inv. unfold with_parts, with_shm. destruct s as [fd ? ? ? ? ?]. cbn in Hd. subst fd. destruct d. cbn in Hm. by subst.
Qed.

Lemma effect_shm A s m s' m' : effect A s m s' m' -> VnvmeShmGetControlBlock s' = Some m'.
Proof. intros [Hm E _ _]. rewrite E. by destruct (with_parts_facts m m' (ks_pdo s') s Hm). Qed.

Lemma effect_union A B s m s1 m1 s2 m2 :
  queues_ready (union A B) m -> rings_apart (union A B) m -> effect A s m s1 m1 -> effect B s1 m1 s2 m2 -> effect (union A B) s m s2 m2.
Proof.
  intros Hr Hap [Hm E1 D1 S1] [_ E2 D2 S2]. split; [done| |by eapply drained_union|by eapply synced_union].
  rewrite E2 at 1. rewrite E1. by destruct (with_parts_facts m m1 (ks_pdo s1) s Hm) as (_ & _ & ->).
Qed.

Lemma drained_ext A B m m' : (forall Q, 0 <= Q -> A Q = B Q) -> drained A m m' -> drained B m m'.
Proof.
  intros HAB D. split; try apply D.
  - intros Q HQ. rewrite (dr_sq _ _ _ D Q HQ). by rewrite HAB.
  - intros Q HQ. rewrite (dr_cq _ _ _ D Q HQ). by rewrite HAB.
  - intros Q sq cq k HQ HB. apply D; [done|by rewrite HAB].
  - intros x Hx. apply D. intros Q sq cq k HQ HA. apply Hx; [done|by rewrite <- HAB].
Qed.

Lemma synced_ext A B m p p' : (forall Q, 0 <= Q -> A Q = B Q) -> synced A m p p' -> synced B m p p'.
Proof. intros H [S1 S2]. split; [|done]. intros Q HQ. rewrite S1 by done. by rewrite H. Qed.

Lemma effect_ext A B s m s' m' : (forall Q, 0 <= Q -> A Q = B Q) -> effect A s m s' m' -> effect B s m s' m'.
Proof. intros HAB [Hm E D S]. split; [done|done|by eapply drained_ext|by eapply synced_ext]. Qed.

(** A function that does nothing drains queues without commands. *)
Lemma effect_idle A s m : VnvmeShmGetControlBlock s = Some m ->
  (forall Q sq, 0 <= Q -> A Q = true -> sq_desc m Q = Some sq -> qd_Head sq = qd_Tail sq) -> effect A s m s m.
Proof.
  intros Hm Hidle. split; [done|by rewrite with_parts_id| |].
  - split; [| | |done|done]; intros Q.
    + intros HQ. destruct (sq_desc m Q) as [sq|] eqn:Hsq; [|done]. cbn. destruct (A Q) eqn:HA; [|done].
      rewrite <- (Hidle Q sq HQ HA Hsq). by destruct sq.
    + intros HQ. destruct (sq_desc m Q) as [sq|] eqn:Hsq; [|done]. destruct (cq_desc m Q) as [cq|]; [|done]. cbn. destruct (A Q) eqn:HA; [|done].
      unfold drained_cq. by rewrite (Hidle Q sq HQ HA Hsq), Z.eqb_refl.
    + intros sq cq k HQ HA Hsq _ Hk. rewrite pending_idle in Hk; [lia|]. by apply (Hidle Q sq).
  - split; [|done]. intros Q HQ. destruct (sq_desc m Q) as [sq|] eqn:Hsq, (cq_desc m Q), (pdo_cq (ks_pdo s) Q); try done. cbn.
    destruct (A Q) eqn:HA; [|done]. unfold sync_cq. by rewrite (Hidle Q sq HQ HA Hsq), Z.eqb_refl.
Qed.

(** Queue [Q] of a controller, if it is looked at. *)
Definition only (p : VNVME_PDO_CONTEXT) (m : SharedMemory) (Q Q' : Z) : bool := (Q' =? Q) && active p m Q.

Lemma queue_pending_range A m Q : queues_ready A m -> (forall sq, sq_desc m Q = Some sq -> is_Some (cq_desc m Q)) -> 0 <= Q ->
  0 <= queue_pending A m Q <= 2 ^ 20.
Proof.
  intros Hr Hcq HQ. unfold queue_pending. destruct (A Q) eqn:HA; [|lia]. destruct (sq_desc m Q) as [sq|] eqn:Hsq; [|lia].
  destruct (Z.eq_dec (qd_Head sq) (qd_Tail sq)) as [E|Hne]; [rewrite pending_idle by done; lia|].
  destruct (Hcq sq eq_refl) as [cq Ecq]. destruct (Hr Q sq cq HQ HA Hsq Ecq Hne) as [Hok _].
  pose proof (ao_capacity _ _ _ Hok) as Hc. pose proof (ring_count_range (qd_Capacity sq) ltac:(lia) (qd_Head sq) (qd_Tail sq)) as Hp.
  pose proof (ao_sq _ _ _ Hok 0 ltac:(lia)) as H0. pose proof (ao_sq _ _ _ Hok (qd_Capacity sq - 1) ltac:(lia)) as H1.
  assert (forall off n, queue_memory off n = true -> 0 <= off /\ off + n <= 2 ^ 26) as Hqm.
  { intros off n [[H1a%Z.leb_le H1b%Z.leb_le]%andb_prop|[H1a%Z.leb_le H1b%Z.leb_le]%andb_prop]%orb_prop.
    - change VNVME_OFFSET_ADMIN_SQ with 0x2000 in *. change VNVME_OFFSET_IO_QUEUE_DESC with 0x4000 in *. lia.
    - change (VNVME_OFFSET_IO_QUEUE_DESC + _) with 17408 in *. change VNVME_SHM_SIZE with (2 ^ 26) in *. lia. }
  apply Hqm in H0, H1. unfold pending. lia.
Qed.

Lemma abort_one_effect Q s m count :
  VnvmeShmGetControlBlock s = Some m -> controller_shape (ks_pdo s) m -> 0 <= Q <= pdo_IoQueueCount (ks_pdo s) -> 0 <= count < 2 ^ 32 ->
  queues_ready (only (ks_pdo s) m Q) m ->
  exists s' m', abort_one Q count s = Ok (u32 (count + queue_pending (only (ks_pdo s) m Q) m Q), s') /\ effect (only (ks_pdo s) m Q) s m s' m'.
Proof.
  intros Hm Hsh HQ Hc Hr. set (A := only (ks_pdo s) m Q) in *. destruct (cs_descs _ _ Hsh Q HQ) as [[sq Hsq] [cq Hcq]].
  pose proof (cs_count _ _ Hsh) as Hn. change VNVME_MAX_IO_QUEUES with 16 in Hn.
  assert (A Q = queue_active (ks_pdo s) Q sq) as HA by (unfold A, only, active; by rewrite Z.eqb_refl, Hsq).
  assert (forall Q', A Q' = true -> Q' = Q) as HA' by (unfold A, only; intros Q' [?%Z.eqb_eq _]%andb_prop; done).
  assert (exists iosq iocq, Q = 0 \/ arr_get (pdo_IoSq (ks_pdo s)) (Q - 1) = Some iosq /\ arr_get (pdo_IoCq (ks_pdo s)) (Q - 1) = Some iocq)
    as (iosq & iocq & Hio).
  { destruct (Z.eq_dec Q 0) as [|HQ0]; [exists (pdo_AdminSq (ks_pdo s)), (pdo_AdminSq (ks_pdo s)); by left|].
    destruct (cs_arrays _ _ Hsh Q ltac:(lia)) as [[x Hx] [y Hy]]. unfold pdo_cq in Hy. rewrite (proj2 (Z.eqb_neq _ _)) in Hy by done.
    destruct (arr_get (pdo_IoCq (ks_pdo s)) (Q - 1)) as [z|]; [|done]. exists x, z. by right. }
  unfold queue_pending. rewrite Hsq, HA.
  destruct (queue_active (ks_pdo s) Q sq && negb (qd_Head sq =? qd_Tail sq)) eqn:Hbusy.
  2: { exists s, m. split.
       - rewrite (abort_one_idle Q s m sq cq iosq count); try done; [|tauto|by apply (cs_capacity _ _ Hsh Q)|].
         + do 2 f_equal. destruct (queue_active _ _ _); cbn in Hbusy; [|by rewrite Z.add_0_r, u32_small by lia].
           apply negb_false_iff, Z.eqb_eq in Hbusy. by rewrite (pending_idle sq Hbusy), Z.add_0_r, u32_small by lia.
         + apply andb_false_iff in Hbusy as [?|?%negb_false_iff%Z.eqb_eq]; [by left|by right].
       - apply effect_idle; [done|]. intros Q' sq' _ HAQ' Hsq'. pose proof (HA' Q' HAQ') as ->. rewrite Hsq in Hsq'. injection Hsq' as <-.
         rewrite HA in HAQ'. rewrite HAQ' in Hbusy. cbn in Hbusy. by apply negb_false_iff, Z.eqb_eq in Hbusy. }
  apply andb_prop in Hbusy as [Hact Hne%negb_true_iff%Z.eqb_neq]. rewrite Hact in *.
  destruct (Hr Q sq cq ltac:(lia) HA Hsq Hcq Hne) as [Hok [S1 S2 S3 _ S5 S6]].
  destruct (abort_one_run Q s m sq cq count iosq iocq Hm Hsq Hcq ltac:(lia) Hio Hact Hne Hok) as (b' & p' & Hab & Hcqs & Hrest & Hrun); [by split|].
  set (m' := put_cq_desc Q _ _) in Hrun. destruct (with_parts_facts m m' p' s Hm) as (G1 & G2 & G3).
  exists (with_parts m' p' s), m'. split; [exact Hrun|]. destruct (desc_mem Q b' m) as [E1 E2]. set (m1 := m <| shm_mem := b' |>) in *.
  destruct (put_sq_desc_mem Q (with_head (qd_Tail sq) sq) m1) as [M1 _].
  destruct (put_cq_desc_mem Q (drained_cq Q sq cq) (put_sq_desc Q (with_head (qd_Tail sq) sq) m1)) as [M2 _].
  assert (shm_mem m' = b') as Emem by (unfold m'; rewrite M2, M1; by destruct m).
  assert (forall Q', 0 <= Q' -> sq_desc m' Q' = if Q' =? Q then Some (with_head (qd_Tail sq) sq) else sq_desc m Q') as Dsq.
  { intros Q' HQ'. unfold m'. destruct (put_cq_desc_others Q Q' (drained_cq Q sq cq) (put_sq_desc Q (with_head (qd_Tail sq) sq) m1)) as [_ ->]; [lia..|].
    destruct (Z.eqb_spec Q' Q) as [->|Hd]; [by erewrite sq_desc_put by by rewrite E1|].
    destruct (put_sq_desc_others Q Q' (with_head (qd_Tail sq) sq) m1) as [F _]; [lia..|]. rewrite F by done. by destruct (desc_mem Q' b' m). }
  assert (forall Q', 0 <= Q' -> cq_desc m' Q' = if Q' =? Q then Some (drained_cq Q sq cq) else cq_desc m Q') as Dcq.
  { intros Q' HQ'. unfold m'. destruct (put_sq_desc_others Q Q' (with_head (qd_Tail sq) sq) m1) as [_ F]; [lia..|].
    destruct (desc_mem Q' b' m) as [_ F']. destruct (Z.eqb_spec Q' Q) as [->|Hd]; [apply cq_desc_put with (d := cq); exact (eq_trans F (eq_trans F' Hcq))|].
    destruct (put_cq_desc_others Q Q' (drained_cq Q sq cq) (put_sq_desc Q (with_head (qd_Tail sq) sq) m1)) as [G _]; [lia..|]. by rewrite G, F. }
  assert (forall Q', 0 <= Q' -> A Q' = (Q' =? Q)) as HAe by (intros; unfold A, only, active; by rewrite Hsq, Hact, andb_true_r).
  split; [done|by rewrite G2| |rewrite G2].
  - split.
    + intros Q' HQ'. rewrite Dsq, HAe by done. destruct (Z.eqb_spec Q' Q) as [->|]; [by rewrite Hsq|]. by destruct (sq_desc m Q').
    + intros Q' HQ'. rewrite Dcq, HAe by done. destruct (Z.eqb_spec Q' Q) as [->|]; [by rewrite Hsq, Hcq|].
      by destruct (sq_desc m Q'), (cq_desc m Q').
    + intros Q' sq' cq' k _ HAQ' Hsq' Hcq' Hk. pose proof (HA' Q' HAQ') as ->. rewrite Hsq in Hsq'. rewrite Hcq in Hcq'.
      injection Hsq' as <-. injection Hcq' as <-. rewrite Emem. exact (ab_answered _ _ _ _ _ _ _ _ Hab k Hk).
    + intros x Hx. rewrite Emem. apply (ab_frame _ _ _ _ _ _ _ _ Hab). intros k Hk. exact (Hx Q sq cq k ltac:(lia) HA Hsq Hcq Hk).
    + unfold m', m1, put_cq_desc, put_sq_desc. destruct (Q =? 0), m as [[] ? ? ?]; reflexivity.
  - split; [|done]. intros Q' HQ'. rewrite Hcqs, HAe by done. destruct (Z.eqb_spec Q' Q) as [->|]; [by rewrite Hsq, Hcq|].
    destruct (sq_desc m Q'), (cq_desc m Q'), (pdo_cq (ks_pdo s) Q'); done.
Qed.

(** *** The number of commands *)

Lemma sum_add (f g : Z -> Z) l : foldr Z.add 0 ((fun x => f x + g x) <$> l) = foldr Z.add 0 (f <$> l) + foldr Z.add 0 (g <$> l).
Proof. induction l as [|x l IH]; cbn; lia. Qed.

Lemma sum_ext (f g : Z -> Z) l : (forall x, x ∈ l -> f x = g x) -> foldr Z.add 0 (f <$> l) = foldr Z.add 0 (g <$> l).
Proof. intros H. f_equal. apply list_fmap_ext. intros i x Hx%list_elem_of_lookup_2. by apply H. Qed.

Lemma sum_single (f : Z -> Z) l y : NoDup l -> y ∈ l -> (forall x, x ∈ l -> x <> y -> f x = 0) -> foldr Z.add 0 (f <$> l) = f y.
Proof.
  induction 1 as [|x l Hx Hl IH]; intros Hy Hf; [by apply elem_of_nil in Hy|]. cbn. destruct (decide (x = y)) as [->|Hne].
  - rewrite (sum_ext f (fun _ => 0)); [clear; induction l; cbn in *; lia|]. intros z Hz. apply Hf; [by right|]. by intros ->.
  - apply elem_of_cons in Hy as [?|Hy]; [done|]. rewrite IH; [|done|intros; apply Hf; [by right|done]]. rewrite Hf; [done|by left|done].
Qed.

Lemma queue_ids_range Q : Q ∈ queue_ids <-> 0 <= Q <= VNVME_MAX_IO_QUEUES.
Proof. unfold queue_ids. rewrite elem_of_seqZ. unfold VNVME_MAX_IO_QUEUES. lia. Qed.

Lemma total_pending_ext A B m : (forall Q, 0 <= Q -> A Q = B Q) -> total_pending A m = total_pending B m.
Proof. intros H. apply sum_ext. intros Q HQ%queue_ids_range. unfold queue_pending. rewrite H by lia. done. Qed.

Lemma total_pending_only p m Q : 0 <= Q <= VNVME_MAX_IO_QUEUES -> total_pending (only p m Q) m = queue_pending (only p m Q) m Q.
Proof.
  intros HQ. apply sum_single; [apply NoDup_seqZ|by apply queue_ids_range|]. intros x _ Hx. unfold queue_pending, only.
  by rewrite (proj2 (Z.eqb_neq _ _)).
Qed.

Lemma total_pending_union A B m m1 : drained A m m1 -> total_pending (union A B) m = total_pending A m + total_pending B m1.
Proof.
  intros D. unfold total_pending. rewrite <- sum_add. apply sum_ext. intros Q HQ%queue_ids_range. unfold queue_pending, union.
  rewrite (dr_sq _ _ _ D Q) by lia. destruct (A Q), (B Q), (sq_desc m Q) as [sq|]; cbn; try lia.
  rewrite (pending_idle (with_head _ _)) by by destruct sq. lia.
Qed.

Lemma total_pending_range A m : queues_ready A m -> (forall Q, 0 <= Q <= VNVME_MAX_IO_QUEUES -> A Q = true -> is_Some (cq_desc m Q)) ->
  0 <= total_pending A m < 2 ^ 32.
Proof.
  intros Hr Hcq. unfold total_pending.
  assert (forall l, Forall (fun Q => 0 <= Q <= VNVME_MAX_IO_QUEUES) l ->
    0 <= foldr Z.add 0 (queue_pending A m <$> l) <= Z.of_nat (length l) * 2 ^ 20) as H.
  { induction 1 as [|Q l HQ _ IH]; cbn -[Z.pow Z.of_nat]; [lia|]. destruct (A Q) eqn:HA.
    - pose proof (queue_pending_range A m Q Hr (fun _ _ => Hcq Q HQ HA) ltac:(lia)). lia.
    - unfold queue_pending at 1 3. rewrite HA. lia. }
  specialize (H queue_ids). change (Z.of_nat (length queue_ids)) with 17 in H. destruct H; [|lia].
  apply Forall_forall. intros Q. apply queue_ids_range.
Qed.

Lemma queues_ready_mono A B m : (forall Q, 0 <= Q -> A Q = true -> B Q = true) -> queues_ready B m -> queues_ready A m.
Proof. intros H Hr Q sq cq HQ HA. apply Hr; auto. Qed.
Lemma rings_apart_mono A B m : (forall Q, 0 <= Q -> A Q = true -> B Q = true) -> rings_apart B m -> rings_apart A m.
Proof. intros H Hr Q Q' x HQ HQ' HA HA'. apply Hr; auto. Qed.

(** *** The loop over the I/O queues *)

Definition between (p : VNVME_PDO_CONTEXT) (m : SharedMemory) (lo hi Q : Z) : bool := (lo <=? Q) && (Q <? hi) && active p m Q.

Lemma between_cons p m lo hi Q : lo < hi -> union (only p m lo) (between p m (lo + 1) hi) Q = between p m lo hi Q.
Proof.
  intros Hlt. unfold union, only, between. destruct (Z.eqb_spec Q lo) as [->|].
  - rewrite (proj2 (Z.leb_gt (lo + 1) lo)), (proj2 (Z.leb_le lo lo)), (proj2 (Z.ltb_lt lo hi)) by lia. cbn. by destruct (active p m lo).
  - cbn. f_equal. f_equal. destruct (Z.leb_spec (lo + 1) Q), (Z.leb_spec lo Q); lia.
Qed.

Lemma u32_add_idemp a b c : u32 (u32 (a + b) + c) = u32 (a + (b + c)).
Proof. unfold u32. rewrite Zplus_mod_idemp_l. f_equal. lia. Qed.

Lemma abort_io_loop_effect n : forall i count s m,
  VnvmeShmGetControlBlock s = Some m -> controller_shape (ks_pdo s) m -> 0 <= i -> i + Z.of_nat n <= pdo_IoQueueCount (ks_pdo s) ->
  0 <= count < 2 ^ 32 -> let B := between (ks_pdo s) m (i + 1) (i + 1 + Z.of_nat n) in queues_ready B m -> rings_apart B m ->
  exists s' m', abort_io_loop n i count s = Ok (u32 (count + total_pending B m), s') /\ effect B s m s' m'.
Proof.
  induction n as [|n IH]; intros i count s m Hm Hsh Hi Hn Hc B Hr Hap; cbn [abort_io_loop].
  { assert (forall Q, 0 <= Q -> B Q = false) as HB.
    { intros Q _. unfold B, between. destruct (Z.leb_spec (i + 1) Q), (Z.ltb_spec Q (i + 1 + Z.of_nat 0)); try done. lia. }
    exists s, m. rewrite (total_pending_ext B (fun _ => false)) by done. change (total_pending _ m) with 0. rewrite Z.add_0_r, u32_small by done.
    split; [done|]. apply effect_idle; [done|]. intros Q sq HQ. by rewrite HB. }
  set (p := ks_pdo s) in *. set (hi := i + 1 + Z.of_nat (S n)) in *.
  pose proof (cs_count _ _ Hsh) as Hcount.
  assert (forall Q, union (only p m (i + 1)) (between p m (i + 1 + 1) hi) Q = B Q) as HU by (intros; apply between_cons; unfold hi; lia).
  assert (forall Q, only p m (i + 1) Q = true -> B Q = true) as HA by (intros Q E; rewrite <- HU; unfold union; by rewrite E).
  assert (forall Q, between p m (i + 1 + 1) hi Q = true -> B Q = true) as HB by (intros Q E; rewrite <- HU; unfold union; by rewrite E, orb_true_r).
  destruct (abort_one_effect (i + 1) s m count Hm Hsh ltac:(fold p; lia) Hc) as (s1 & m1 & Hrun & E1); [by apply (queues_ready_mono _ B); auto|].
  fold p in Hrun, E1. unfold abort_one in Hrun. rewrite (proj2 (Z.eqb_neq _ _)) in Hrun by lia. replace (i + 1 - 1) with i in Hrun by lia.
  rewrite (bind_Ok _ _ _ _ _ Hrun). pose proof E1 as [_ _ D1 S1]. fold p in S1. destruct (synced_pdo _ _ _ _ S1) as [P1 P2].
  assert (forall Q, 0 <= Q -> between (ks_pdo s1) m1 (i + 1 + 1) (i + 1 + 1 + Z.of_nat n) Q = between p m (i + 1 + 1) hi Q) as HB1.
  { intros Q HQ. unfold between. replace (i + 1 + 1 + Z.of_nat n) with hi by (unfold hi; lia). f_equal.
    pose proof (proj1 (aborts_after _ _ _ _ _ Q D1 P1 P2)) as E. rewrite (proj2 (Z.leb_le 0 Q)) in E by done. exact E. }
  assert (forall Q, 0 <= Q -> union (only p m (i + 1)) (between (ks_pdo s1) m1 (i + 1 + 1) (i + 1 + 1 + Z.of_nat n)) Q = B Q) as HU1
    by (intros Q HQ; rewrite <- HU; unfold union; by rewrite HB1).
  destruct (IH (i + 1) (u32 (count + queue_pending (only p m (i + 1)) m (i + 1))) s1 m1) as (s' & m' & Hrun' & E2).
  - by apply effect_shm in E1.
  - apply (shape_after _ m m1 p (ks_pdo s1) p (ks_pdo s1) D1 S1); [by left|done].
  - lia.
  - rewrite P2. lia.
  - apply u32_range.
  - apply (queues_ready_after _ _ _ _ D1), (queues_ready_mono _ B); [|done]. intros Q HQ E. apply HB. by rewrite <- HB1.
  - apply (rings_apart_after _ _ _ _ D1), (rings_apart_mono _ B); [|done]. intros Q HQ E. apply HB. by rewrite <- HB1.
  - exists s', m'. rewrite Hrun', u32_add_idemp. split.
    + do 2 f_equal. f_equal. f_equal. rewrite <- total_pending_only by lia. rewrite <- total_pending_union by done. by apply total_pending_ext.
    + eapply effect_ext; [exact HU1|]. eapply effect_union; [| |exact E1|exact E2];
        [apply (queues_ready_mono _ B)|apply (rings_apart_mono _ B)]; auto; intros Q HQ E; by rewrite <- HU1.
Qed.

(** The error counter of the driver counts the commands. *)
Definition abort_errors (n : Z) (s : KState) : KState :=
  if 0 <? n then s <| ks_fdo ::= option_map (fun d => d <| fdo_ErrorCount ::= fun k => s64 (k + n) |>) |> else s.

Lemma aborts_split p m Q : 0 <= Q -> 0 <= pdo_IoQueueCount p ->
  aborts p m Q = union (only p m 0)
    (fun Q => negb (cb_IoQueueDescriptorOffset (shm_cb m) =? 0) && between p m 1 (1 + Z.of_nat (Z.to_nat (pdo_IoQueueCount p))) Q) Q.
Proof.
  intros HQ Hc. unfold aborts, union, only, between. rewrite (proj2 (Z.leb_le 0 Q)), Z2Nat.id by done. cbn [andb].
  destruct (Z.eqb_spec Q 0) as [->|]; cbn [orb].
  - rewrite andb_false_r, orb_false_r. done.
  - rewrite (proj2 (Z.leb_le 1 Q)) by lia. cbn [andb orb]. rewrite <- andb_assoc. f_equal. f_equal.
    destruct (Z.leb_spec Q (pdo_IoQueueCount p)), (Z.ltb_spec Q (1 + pdo_IoQueueCount p)); lia.
Qed.

Lemma abort_all_effect s m :
  VnvmeShmGetControlBlock s = Some m -> controller_shape (ks_pdo s) m -> let A := aborts (ks_pdo s) m in
  queues_ready A m -> rings_apart A m ->
  0 <= total_pending A m < 2 ^ 32 /\
  exists s' m', VnvmeAbortPendingUserCommands s = Ok (total_pending A m, abort_errors (total_pending A m) s') /\ effect A s m s' m'.
Proof.
  intros Hm Hsh A Hr Hap. set (p := ks_pdo s) in *. pose proof (cs_count _ _ Hsh) as Hcount.
  assert (forall Q, 0 <= Q -> A Q = true -> Q <= pdo_IoQueueCount p) as HAQ.
  { unfold A, aborts. intros Q HQ [[_ [->%Z.eqb_eq|[_ ?%Z.leb_le]%andb_prop]%orb_prop]%andb_prop _]%andb_prop; lia. }
  assert (0 <= total_pending A m < 2 ^ 32) as Ht.
  { apply total_pending_range; [done|]. intros Q HQ HA. apply (cs_descs _ _ Hsh). split; [lia|apply HAQ; [lia|done]]. }
  split; [done|]. set (B := fun Q => negb (cb_IoQueueDescriptorOffset (shm_cb m) =? 0) && between p m 1 (1 + Z.of_nat (Z.to_nat (pdo_IoQueueCount p))) Q).
  assert (forall Q, 0 <= Q -> union (only p m 0) B Q = A Q) as HU by (intros; symmetry; apply aborts_split; lia).
  assert (forall Q, 0 <= Q -> only p m 0 Q = true -> A Q = true) as HA by (intros Q HQ E; rewrite <- HU by done; unfold union; by rewrite E).
  assert (forall Q, 0 <= Q -> B Q = true -> A Q = true) as HB by (intros Q HQ E; rewrite <- HU by done; unfold union; by rewrite E, orb_true_r).
  unfold VnvmeAbortPendingUserCommands. rewrite bind_get, Hm.
  destruct (abort_one_effect 0 s m 0 Hm Hsh ltac:(fold p; lia) ltac:(lia)) as (s1 & m1 & Hrun & E1); [by apply (queues_ready_mono _ A)|].
  fold p in Hrun, E1. change (abort_one 0) with abort_admin in Hrun. rewrite (bind_Ok _ _ _ _ _ Hrun). cbn [Z.add] in Hrun |- *. fold p.
  rewrite <- total_pending_only by lia. pose proof E1 as [_ _ D1 S1]. fold p in S1. destruct (synced_pdo _ _ _ _ S1) as [P1 P2].
  assert (exists s2 m2, (if cb_IoQueueDescriptorOffset (shm_cb m) =? 0 then mret (u32 (total_pending (only p m 0) m))
      else abort_io_loop (Z.to_nat (pdo_IoQueueCount p)) 0 (u32 (total_pending (only p m 0) m))) s1 = Ok (total_pending A m, s2) /\ effect A s m s2 m2)
    as (s2 & m2 & Hrun2 & E2).
  2: { rewrite (bind_Ok _ _ _ _ _ Hrun2). exists s2, m2. split; [|done]. unfold abort_errors, fdo_update. by destruct (0 <? _). }
  destruct (Z.eqb_spec (cb_IoQueueDescriptorOffset (shm_cb m)) 0) as [E0|Hoff]; cbn [negb andb] in B.
  - assert (forall Q, 0 <= Q -> only p m 0 Q = A Q) as HO by (intros Q HQ; rewrite <- HU by done; unfold union, B; by rewrite orb_false_r).
    exists s1, m1. rewrite (total_pending_ext _ A) by done. rewrite u32_small by done. split; [done|]. by eapply effect_ext.
  - assert (forall Q, 0 <= Q -> between (ks_pdo s1) m1 (0 + 1) (0 + 1 + Z.of_nat (Z.to_nat (pdo_IoQueueCount p))) Q = B Q) as HB1.
    { intros Q HQ. unfold B, between. f_equal. pose proof (proj1 (aborts_after _ _ _ _ _ Q D1 P1 P2)) as E.
      rewrite (proj2 (Z.leb_le 0 Q)) in E by done. exact E. }
    destruct (abort_io_loop_effect (Z.to_nat (pdo_IoQueueCount p)) 0 (u32 (total_pending (only p m 0) m)) s1 m1) as (s2 & m2 & Hrun2 & E2).
    + by apply effect_shm in E1.
    + apply (shape_after _ m m1 p (ks_pdo s1) p (ks_pdo s1) D1 S1); [by left|done].
    + done.
    + rewrite P2. lia.
    + apply u32_range.
    + apply (queues_ready_after _ _ _ _ D1), (queues_ready_mono _ A); [|done]. intros Q HQ E. apply HB; [done|]. by rewrite <- HB1.
    + apply (rings_apart_after _ _ _ _ D1), (rings_apart_mono _ A); [|done]. intros Q HQ E. apply HB; [done|]. by rewrite <- HB1.
    + exists s2, m2. rewrite Hrun2. assert (forall Q, 0 <= Q -> union (only p m 0) (between (ks_pdo s1) m1 (0 + 1)
          (0 + 1 + Z.of_nat (Z.to_nat (pdo_IoQueueCount p)))) Q = A Q) as HU1 by (intros Q HQ; rewrite <- HU by done; unfold union; by rewrite HB1).
      split.
      * do 2 f_equal. rewrite <- (Z.add_0_l (total_pending (only p m 0) m)), u32_add_idemp, Z.add_0_l, <- total_pending_union by done.
        rewrite (total_pending_ext _ A) by done. by rewrite u32_small.
      * eapply effect_ext; [exact HU1|]. eapply effect_union; [| |exact E1|exact E2];
          [apply (queues_ready_mono _ A)|apply (rings_apart_mono _ A)]; auto; intros Q HQ E; by rewrite <- HU1.
Qed.

(** C25: when the user-mode service crashes with commands pending, VnvmeAbortPendingUserCommands returns, having
    answered every pending command of every queue the controller has in use ([aborts]: the admin queue, and the I/O
    queues it has created and that are marked valid), once and in order, in the next slots of its completion ring, with an
    internal error that carries the command's identifier and the phase of its slot.  The submission queues are left empty,
    the tail and the phase of the completion queues are moved past the answers, in the shared memory and in the
    controller's own copies.  Nothing else changes: no other byte of queue memory (the other slots of the completion
    rings included), no other descriptor or field of the shared memory, no other part of the controller or the driver,
    but for the error counter, which grows by the number of commands that were pending, which is what the function
    returns.  This supposes that the shared memory is there, that the arrays and descriptors of the controller's queues
    exist ([controller_shape]), that the queues that have commands pending are in order ([queues_ready]: rings in queue
    memory, every index below the capacity, room for the answers) and that the rings of different queues are apart; with a
    tail that is not below the capacity, as a doorbell can leave it, the loop never ends ([abort_loop_diverges]). *)
Theorem VnvmeAbortPendingUserCommands_drains s m :
  VnvmeShmGetControlBlock s = Some m -> controller_shape (ks_pdo s) m ->
  let A := aborts (ks_pdo s) m in let n := total_pending A m in
  queues_ready A m -> rings_apart A m ->
  exists m' p', VnvmeAbortPendingUserCommands s = Ok (n, abort_errors n (with_parts m' p' s)) /\
    drained A m m' /\ synced A m (ks_pdo s) p'.
Proof.
  intros Hm Hsh A n Hr Hap. destruct (abort_all_effect s m Hm Hsh Hr Hap) as (_ & s' & m' & Hrun & [_ E D S]).
  exists m', (ks_pdo s'). by rewrite <- E.
Qed.

(** The loop over a queue's pending commands returns only because Tail is one of the ring's indices: with a Tail
    taken from a doorbell that is not below the capacity, no number of rounds ends it. *)
Lemma abort_loop_diverges sq cq cqCapacity sqid :
  abort_ok sq cq cqCapacity -> qd_Capacity sq <= qd_Tail sq -> forall fuel a m,
  0 <= ab_head a < qd_Capacity sq -> 0 <= ab_cqTail a < cqCapacity ->
  abort_loop fuel sq cq cqCapacity sqid a m = OutOfFuel.
Proof.
  intros Hok Htl fuel. induction fuel as [|fuel IH]; intros a m Hh Ht; (assert (ab_head a <> qd_Tail sq) as Hne by lia).
  - cbn. by rewrite (proj2 (Z.eqb_neq _ _)).
  - rewrite abort_loop_step by done. pose proof (ao_capacity _ _ _ Hok). pose proof (ao_cqCapacity _ _ _ Hok).
    apply IH; cbn; apply Z.mod_pos_bound; lia.
Qed.
End Recovery.

(** ** Witnesses *)

#[local] Existing Instances TestKernel.

(** Three admin commands and four commands of I/O queue 1 are pending; both rings wrap. *)
Definition crash_io_sq : VNVME_QUEUE_DESCRIPTOR := mkQueueDescriptor 0x5000 64 16 1 14 2 0.
Definition crash_io_cq : VNVME_QUEUE_DESCRIPTOR := mkQueueDescriptor 0x9000 16 16 1 0 15 1.
Definition crash_shm : SharedMemory := admin_shm <| shm_descs := crash_io_sq :: crash_io_cq :: replicate 30 zero_desc |>.
Definition crash_pdo (p : VNVME_PDO_CONTEXT) : VNVME_PDO_CONTEXT :=
  p <| pdo_IoQueueCount := 1 |> <| pdo_IoSq := (zero_queue <| qs_Created := true |>) :: replicate 15 zero_queue |>.
Definition crash_state : @KState TestKernel := (test_state crash_shm mem_zero) <| ks_pdo ::= crash_pdo |>.

Section Crash.
Context (p : VNVME_PDO_CONTEXT) (Hcount : pdo_IoQueueCount p = 1)
  (Hsq : pdo_IoSq p = (zero_queue <| qs_Created := true |>) :: replicate 15 zero_queue).

Lemma crash_aborts Q : aborts p crash_shm Q = (0 <=? Q) && (Q <=? 1).
Proof.
  unfold aborts. rewrite Hcount. change (cb_IoQueueDescriptorOffset (shm_cb crash_shm) =? 0) with false. cbn [negb andb].
  destruct (Z.leb_spec 0 Q); [|done]. destruct (Z.eqb_spec Q 0) as [->|]; [done|]. destruct (Z.leb_spec Q 1); [|done].
  assert (Q = 1) as -> by lia. unfold active, queue_active. rewrite Hsq. done.
Qed.

Lemma crash_shape : length (pdo_IoCq p) = 16%nat -> controller_shape p crash_shm.
Proof.
  intros Hcq. split; rewrite ?Hcount, ?Hsq; [done|..].
  - intros Q HQ. assert (Q = 0 \/ Q = 1) as [-> | ->] by lia; split; by eexists.
  - intros Q HQ. assert (Q = 1) as -> by lia. split; [by eexists|]. unfold pdo_cq. cbn [Z.eqb].
    assert (is_Some (arr_get (pdo_IoCq p) (1 - 1))) as [x ->] by (apply arr_get_Some_iff; rewrite Hcq; lia). by eexists.
  - intros Q sq. unfold sq_desc. destruct (Q =? 0); [by intros [= <-]|]. intros H%arr_get_elem.
    apply elem_of_cons in H as [->|H]; [done|]. apply elem_of_cons in H as [->|H]; [done|]. by apply elem_of_replicate in H as [-> _].
Qed.
End Crash.

Lemma crash_memory off n : 0x5000 <= off -> off + n <= 0x9100 -> queue_memory off n = true.
Proof.
  intros. unfold queue_memory. apply orb_true_iff. right.
  change (VNVME_OFFSET_IO_QUEUE_DESC + VNVME_MAX_IO_QUEUES * 2 * sizeof_VNVME_QUEUE_DESCRIPTOR) with 17408.
  change VNVME_SHM_SIZE with 67108864. apply andb_true_iff. split; apply Z.leb_le; lia.
Qed.

(** The two queues that can be in use. *)
Lemma crash_ready A : (forall Q, A Q = true -> Q = 0 \/ Q = 1) -> queues_ready A crash_shm.
Proof.
  intros HA Q sq cq _ HQ Hsq Hcq _. destruct (HA Q HQ) as [-> | ->]; injection Hsq as <-; injection Hcq as <-.
  - split.
    + split; [done|done| | |by right]; intros i Hi; apply admin_area_queue_memory.
      1,2: change (qd_Offset _) with 0x2000; change (qd_Capacity _) with 64 in Hi; lia.
      1,2: change (qd_Offset _) with 0x3000; change (cq_slots _ _ _) with 64 in Hi; lia.
    + split; [done|done|by right|done|done|by vm_compute].
  - split.
    + split; [done|done| | |by right]; intros i Hi; apply crash_memory; cbn in *; lia.
    + split; [done|done|by right|done|done|by vm_compute].
Qed.

Lemma crash_apart A : (forall Q, A Q = true -> Q = 0 \/ Q = 1) -> rings_apart A crash_shm.
Proof.
  intros HA Q Q' x _ _ HQ HQ' Hne (sq & cq & Hsq & Hcq & Hx).
  destruct (HA Q HQ) as [-> | ->], (HA Q' HQ') as [-> | ->]; try done; injection Hsq as <-; injection Hcq as <-;
    (split; [intros (? & ? & [= <-] & [= <-] & Hx')|intros (? & [= <-] & Hx')]); cbn in Hx, Hx';
    change VNVME_OFFSET_ADMIN_SQ with 0x2000 in *; change VNVME_OFFSET_ADMIN_CQ with 0x3000 in *; change VNVME_ADMIN_QUEUE_DEPTH with 64 in *; lia.
Qed.

Lemma crash_queues p Q : pdo_IoQueueCount p = 1 -> pdo_IoSq p = (zero_queue <| qs_Created := true |>) :: replicate 15 zero_queue ->
  aborts p crash_shm Q = true -> Q = 0 \/ Q = 1.
Proof. intros H1 H2. rewrite (crash_aborts p H1 H2). intros [?%Z.leb_le ?%Z.leb_le]%andb_prop. lia. Qed.

Lemma VnvmeAbortPendingUserCommands_drains_witness :
  exists m' p', VnvmeAbortPendingUserCommands crash_state = Ok (7, abort_errors 7 (with_parts m' p' crash_state)) /\
    drained (aborts (ks_pdo crash_state) crash_shm) crash_shm m' /\ synced (aborts (ks_pdo crash_state) crash_shm) crash_shm (ks_pdo crash_state) p'.
Proof.
  assert (forall Q, aborts (ks_pdo crash_state) crash_shm Q = true -> Q = 0 \/ Q = 1) as HA by (intros Q; by apply crash_queues).
  destruct (VnvmeAbortPendingUserCommands_drains crash_state crash_shm) as (m' & p' & Hrun & D & S);
    [reflexivity|by apply crash_shape|by apply crash_ready|by apply crash_apart|].
  exists m', p'. split; [|by split]. assert (total_pending (aborts (ks_pdo crash_state) crash_shm) crash_shm = 7) as E by by vm_compute.
  rewrite E in Hrun. exact Hrun.
Defined.

Lemma crash_rings_ok tail : abort_ok (crash_io_sq <| qd_Tail := tail |>) crash_io_cq 16.
Proof.
  split; [done|done| | |by right]; intros i Hi; apply crash_memory; cbn in *; lia.
Qed.
