(* ===== verification/Doorbell.v ===== *)
(** The polling timer of [vnvme/doorbell.c]: what notices that the host rang a
    doorbell or wrote CC, decides whether the kernel or the user-mode service
    executes the commands, watches the heartbeat of the service, and adapts the
    interval to the load.

    WdfTimerStart has no effect on the driver's state; a function that calls
    it returns the delay it asks for. *)
From S2P Require Import Prelude NvmeSpec Kernel Config Storage State Shm Queue Bar0 AdminCmd IoCmd UserForward Recovery.
Open Scope Z_scope.
Open Scope c_scope.

Definition VNVME_POLL_INTERVAL_DIVISOR : Z := 10.
Definition VNVME_POLL_INTERVAL_MULTIPLIER : Z := 100.

Section Doorbell.
Context {W : WinKernel}.

(** ** The timer *)

(** [WdfTimerCreate] is the status that call returns. *)
Definition VnvmeInitializePollingTimer (WdfTimerCreate : NTSTATUS) : M KState NTSTATUS :=
  if negb (NT_SUCCESS WdfTimerCreate) then mret WdfTimerCreate
  else
    pdo_update (fun p => p <| pdo_PollingTimer := true |>);;
    s ← get;
    pdo_update (fun p => p <| pdo_PollingIntervalUs := cfg_DoorbellPollIntervalUs (ks_cfg s) |>);;
    mret STATUS_SUCCESS.

Definition VnvmeStartPollingTimer : M KState (option Z) :=
  s ← get;
  if pdo_PollingTimer (ks_pdo s) then
    pdo_update (fun p => p <| pdo_PollingActive := true |>);;
    mret (Some (pdo_PollingIntervalUs (ks_pdo s)))
  else mret None.

(** Whether WdfTimerStop is called. *)
Definition VnvmeStopPollingTimer : M KState bool :=
  s ← get;
  if pdo_PollingTimer (ks_pdo s) && pdo_PollingActive (ks_pdo s) then
    pdo_update (fun p => p <| pdo_PollingActive := false |>);;
    mret true
  else mret false.

(** The bounds of the interval, from the configured one. *)
Definition min_interval (configInterval : Z) : Z :=
  let minInterval := configInterval / VNVME_POLL_INTERVAL_DIVISOR in
  if minInterval <? VNVME_MIN_POLL_INTERVAL_US then VNVME_MIN_POLL_INTERVAL_US else minInterval.
Definition max_interval (configInterval : Z) : Z :=
  let maxInterval := u32 (configInterval * VNVME_POLL_INTERVAL_MULTIPLIER) in
  if VNVME_MAX_POLL_INTERVAL_US <? maxInterval then VNVME_MAX_POLL_INTERVAL_US else maxInterval.

Definition adjust_interval (configInterval : Z) (HadWork : bool) (interval : Z) : Z :=
  if HadWork then
    let newInterval := interval / 2 in
    if newInterval <? min_interval configInterval then min_interval configInterval else newInterval
  else
    let newInterval := interval +₃₂ (interval / 4) in
    if max_interval configInterval <? newInterval then max_interval configInterval else newInterval.

Definition AdjustPollingInterval (HadWork : bool) : M KState unit :=
  s ← get;
  pdo_update (fun p => p <| pdo_PollingIntervalUs ::= adjust_interval (cfg_DoorbellPollIntervalUs (ks_cfg s)) HadWork |>).

(** ** The heartbeat of the service *)

(** ChildDeviceList: the controllers of the bus, in the order of the list.  [None]
    stands for the controller of the state, the one whose timer runs (it is
    not in the list once it has been deleted); [Some p] is another one. *)
Definition ChildDeviceList : Type := list (option VNVME_PDO_CONTEXT).

(** Make [pdoContext] the controller that a function is called on. *)
Definition swap_pdo (pdoContext : VNVME_PDO_CONTEXT) : M KState VNVME_PDO_CONTEXT :=
  s ← get;
  pdo_update (fun _ => pdoContext);;
  mret (ks_pdo s).

(** The loop over the list: VnvmeAbortPendingUserCommands of every controller. *)
Fixpoint abort_children (l : ChildDeviceList) : M KState ChildDeviceList :=
  match l with
  | [] => mret []
  | None :: l =>
      VnvmeAbortPendingUserCommands;;
      l ← abort_children l;
      mret (None :: l)
  | Some pdoContext :: l =>
      own ← swap_pdo pdoContext;
      VnvmeAbortPendingUserCommands;;
      pdoContext ← swap_pdo own;
      l ← abort_children l;
      mret (Some pdoContext :: l)
  end.

Definition CheckUserModeHeartbeat (children : ChildDeviceList) : M KState ChildDeviceList :=
  s ← get;
  match ks_fdo s with
  | None => mret children
  | Some d =>
      if negb (fdo_UserReady d) || fdo_UserCrashed d then mret children
      else
        let elapsed := s64 (ks_time s - fdo_LastHeartbeat d) in
        if cfg_HeartbeatTimeout100ns (ks_cfg s) <? elapsed then
          fdo_update (fun d => d <| fdo_UserCrashed := true |> <| fdo_UserReady := false |>);;
          children ← abort_children children;
          fdo_update (fun d => d <| fdo_CommandMode := VNVME_CMD_MODE_KERNEL |>);;
          mret children
        else mret children
  end.

(** ** The doorbells *)

(** [Doorbells[i] & 0xFFFF]. *)
Definition doorbell (p : VNVME_PDO_CONTEXT) (i : Z) : option Z :=
  option_map (fun v => Z.land v 0xFFFF) (bar0_load p (DOORBELL_BASE + 4 * i) 4).

(** CC: the host enables or disables the controller. *)
Definition process_cc : M KState bool :=
  s ← get;
  currentCC ← of_opt (bar0_load (ks_pdo s) REG_CC 4);
  let cachedCC := pdo_CachedCC (ks_pdo s) in
  if currentCC =? cachedCC then mret false
  else
    (if CC_EN currentCC && negb (CC_EN cachedCC) then
       VnvmeInitializeAdminQueues;;
       bar0_store REG_CSTS 4 0x1
     else if negb (CC_EN currentCC) && CC_EN cachedCC then bar0_store REG_CSTS 4 0x0
     else mret tt);;
    pdo_update (fun p => p <| pdo_CachedCC := currentCC |>);;
    mret true.

(** Doorbells 0 and 1. *)
Definition process_admin_doorbells (fuel : nat) (cmdMode : VNVME_COMMAND_MODE) (hadWork : bool) : M KState bool :=
  s ← get;
  sqTail ← of_opt (doorbell (ks_pdo s) 0);
  hadWork ← (if sqTail =? pdo_LastAdminSqTail (ks_pdo s) then mret hadWork
             else
               match cmdMode with
               | VNVME_CMD_MODE_KERNEL => VnvmeProcessAdminCommands fuel sqTail
               | VNVME_CMD_MODE_USER => VnvmeForwardAdminCommandsToUser sqTail
               end;;
               pdo_update (fun p => p <| pdo_LastAdminSqTail := sqTail |>);;
               mret true);
  s ← get;
  cqHead ← of_opt (doorbell (ks_pdo s) 1);
  (if cqHead =? pdo_LastAdminCqHead (ks_pdo s) then mret tt
   else pdo_update (fun p => p <| pdo_LastAdminCqHead := cqHead |>));;
  mret hadWork.

(** One round of the loop over the I/O queues. *)
Definition process_io_doorbells (fuel : nat) (cmdMode : VNVME_COMMAND_MODE) (qid : Z) (hadWork : bool) : M KState bool :=
  let queueIndex := qid - 1 in
  s ← get;
  sq ← of_opt (arr_get (pdo_IoSq (ks_pdo s)) queueIndex);
  if negb (qs_Created sq) then mret hadWork
  else
    sqTail ← of_opt (doorbell (ks_pdo s) (qid * 2));
    hadWork ← (if sqTail =? qs_Tail sq then mret hadWork
               else
                 match cmdMode with
                 | VNVME_CMD_MODE_KERNEL => VnvmeProcessIoCommands fuel qid sqTail
                 | VNVME_CMD_MODE_USER => VnvmeForwardIoCommandsToUser qid sqTail
                 end;;
                 iosq_update queueIndex (fun q => q <| qs_Tail := sqTail |>);;
                 mret true);
    s ← get;
    cqHead ← of_opt (doorbell (ks_pdo s) (qid * 2 + 1));
    cq ← of_opt (arr_get (pdo_IoCq (ks_pdo s)) queueIndex);
    (if cqHead =? qs_Head cq then mret tt else iocq_update queueIndex (fun q => q <| qs_Head := cqHead |>));;
    mret hadWork.

(** The loop; the arrays have 16 elements, so 17 rounds are enough. *)
Fixpoint io_doorbell_loop (rounds fuel : nat) (cmdMode : VNVME_COMMAND_MODE) (qid : Z) (hadWork : bool) : M KState bool :=
  s ← get;
  if pdo_IoQueueCount (ks_pdo s) <? qid then mret hadWork
  else match rounds with
  | O => out_of_fuel
  | S rounds =>
      hadWork ← process_io_doorbells fuel cmdMode qid hadWork;
      io_doorbell_loop rounds fuel cmdMode (qid + 1) hadWork
  end.

(** [fuel] bounds the command loops of each queue. *)
Definition VnvmeProcessDoorbells (fuel : nat) : M KState bool :=
  s ← get;
  if negb (pdo_Doorbells (ks_pdo s)) || negb (pdo_Registers (ks_pdo s)) then mret false
  else
    let cmdMode := match ks_fdo s with Some d => fdo_CommandMode d | None => VNVME_CMD_MODE_USER end in
    hadWork ← process_cc;
    s ← get;
    cc ← of_opt (bar0_load (ks_pdo s) REG_CC 4);
    csts ← of_opt (bar0_load (ks_pdo s) REG_CSTS 4);
    if negb (CC_EN cc && CSTS_RDY csts) then mret hadWork
    else
      hadWork ← process_admin_doorbells fuel cmdMode hadWork;
      io_doorbell_loop 17 fuel cmdMode 1 hadWork.

(** The delay the timer is started again with, if it is, and the other controllers. *)
Definition VnvmeEvtPollingTimer (children : ChildDeviceList) (fuel : nat) : M KState (option Z * ChildDeviceList) :=
  s ← get;
  children ← (match ks_fdo s with
   | Some d => if decide (fdo_CommandMode d = VNVME_CMD_MODE_USER) then CheckUserModeHeartbeat children else mret children
   | None => mret children
   end);
  hadWork ← VnvmeProcessDoorbells fuel;
  AdjustPollingInterval hadWork;;
  s ← get;
  mret (if pdo_PollingActive (ks_pdo s) && pdo_PollingEnabled (ks_pdo s)
        then Some (pdo_PollingIntervalUs (ks_pdo s)) else None, children).

(** ** The interval *)

Lemma interval_bounds c : VNVME_MIN_POLL_INTERVAL_US <= c <= VNVME_MAX_POLL_INTERVAL_US ->
  min_interval c = Z.max 1 (c / 10) /\ max_interval c = Z.min 10000 (c * 100) /\
  1 <= min_interval c <= c /\ c <= max_interval c <= 10000.
Proof.
  unfold min_interval, max_interval, VNVME_MIN_POLL_INTERVAL_US, VNVME_MAX_POLL_INTERVAL_US,
    VNVME_POLL_INTERVAL_DIVISOR, VNVME_POLL_INTERVAL_MULTIPLIER. intros Hc. rewrite u32_small by lia.
  assert (c / 10 <= c) by (Z.div_mod_to_equations; lia). destruct (Z.ltb_spec (c / 10) 1), (Z.ltb_spec 10000 (c * 100)); lia.
Qed.

(** The intervals after a sequence of polls, [true] for one that had work. *)
Definition intervals (c : Z) (polls : list bool) : Z := foldl (fun i w => adjust_interval c w i) c polls.

Lemma adjust_interval_eq c w i :
  VNVME_MIN_POLL_INTERVAL_US <= c <= VNVME_MAX_POLL_INTERVAL_US -> min_interval c <= i <= max_interval c ->
  adjust_interval c w i = (if w then Z.max (min_interval c) (i / 2) else Z.min (max_interval c) (i + i / 4)) /\
  min_interval c <= adjust_interval c w i <= max_interval c.
Proof.
  intros Hc Hi. destruct (interval_bounds c Hc) as (_ & _ & H1 & H2). unfold adjust_interval.
  assert (i / 2 <= i /\ 0 <= i / 4 <= i) as [? ?] by (Z.div_mod_to_equations; lia).
  destruct w; [destruct (Z.ltb_spec (i / 2) (min_interval c))|
    rewrite u32_small by lia; destruct (Z.ltb_spec (max_interval c) (i + i / 4))]; lia.
Qed.

(** Whatever the load, the polling interval stays within a tenth and a hundred times the configured interval, and
    within 1 and 10000 microseconds; a poll with work halves it down to the lower bound, a poll without adds a quarter
    up to the upper bound (the comment says that it doubles), except below 4 microseconds, where it never grows again. *)
Lemma polling_interval_adapts (cfg : VNVME_CONFIG) (polls : list bool) :
  let c := cfg_DoorbellPollIntervalUs cfg in
  VNVME_MIN_POLL_INTERVAL_US <= c <= VNVME_MAX_POLL_INTERVAL_US ->
  let i := intervals c polls in
  Z.max 1 (c / 10) <= i <= Z.min 10000 (c * 100) /\
  intervals c (polls ++ [true]) = Z.max (Z.max 1 (c / 10)) (i / 2) /\
  intervals c (polls ++ [false]) = Z.min (Z.min 10000 (c * 100)) (i + i / 4) /\
  (i < 4 -> forall n, intervals c (polls ++ replicate n false) = i) /\
  (4 <= i < Z.min 10000 (c * 100) -> i < intervals c (polls ++ [false])).
Proof.
  intros c Hc. destruct (interval_bounds c Hc) as (Emin & Emax & H1 & H2).
  assert (forall l, min_interval c <= intervals c l <= max_interval c) as Hb.
  { intros l. unfold intervals. induction l as [|w l IH] using rev_ind; [cbn; lia|]. rewrite foldl_app. cbn.
    by apply adjust_interval_eq. }
  assert (forall l w, intervals c (l ++ [w]) = adjust_interval c w (intervals c l)) as Hs
    by (intros; unfold intervals; by rewrite foldl_app).
  pose proof (Hb polls) as Hi. set (i := intervals c polls) in *. rewrite <- Emin, <- Emax.
  rewrite !Hs. fold i. destruct (adjust_interval_eq c true i Hc Hi) as [-> _], (adjust_interval_eq c false i Hc Hi) as [-> _].
  split; [done|]. split; [done|]. split; [done|]. split.
  - intros Hlt n. induction n as [|n IH]; [by rewrite app_nil_r|].
    rewrite replicate_S_end, app_assoc, Hs, IH. destruct (adjust_interval_eq c false i Hc Hi) as [-> _].
    rewrite (Z.div_small i 4) by lia. lia.
  - intros Hlt. assert (1 <= i / 4) by (Z.div_mod_to_equations; lia). lia.
Qed.

(** ** The heartbeat *)

Definition fdo_map (f : VNVME_FDO_CONTEXT -> VNVME_FDO_CONTEXT) (s : KState) : KState := s <| ks_fdo ::= option_map f |>.

(** The service is given up. *)
Definition switched (d : VNVME_FDO_CONTEXT) : VNVME_FDO_CONTEXT :=
  d <| fdo_UserCrashed := true |> <| fdo_UserReady := false |> <| fdo_CommandMode := VNVME_CMD_MODE_KERNEL |>.

(** The queues that some controller of the list has in use. *)
Definition in_use (children : ChildDeviceList) (own : VNVME_PDO_CONTEXT) (m : SharedMemory) (Q : Z) : bool :=
  existsb (fun c => aborts (default own c) m Q) children.

(** The queues [A] without the queues [B]. *)
Definition minus (A B : Z -> bool) (Q : Z) : bool := A Q && negb (B Q).

(** Each controller of the list takes over the new tail and phase of the queues it
    has in use, unless an earlier one ([A]: those of the earlier controllers) has
    already emptied them, and changes nothing else. *)
Fixpoint children_synced (A : Z -> bool) (m : SharedMemory) (l l' : ChildDeviceList) (own own' : VNVME_PDO_CONTEXT) : Prop :=
  match l, l' with
  | [], [] => own' = own
  | None :: l, None :: l' =>
      exists own1, synced (minus (aborts own m) A) m own own1 /\ children_synced (union A (aborts own m)) m l l' own1 own'
  | Some p :: l, Some p' :: l' =>
      synced (minus (aborts p m) A) m p p' /\ children_synced (union A (aborts p m)) m l l' own own'
  | _, _ => False
  end.

Lemma synced_shift A B m m1 p p' : drained A m m1 -> synced B m1 p p' -> synced (minus B A) m p p'.
Proof.
  intros D [S1 S2]. split; [|done]. intros Q HQ. rewrite S1, (dr_cq _ _ _ D Q HQ), (dr_sq _ _ _ D Q HQ) by done. unfold minus.
  destruct (sq_desc m Q) as [sq|]; [|done]. destruct (cq_desc m Q) as [cq|]; [|done]. destruct (pdo_cq p Q) as [x|]; [|done]. cbn. f_equal.
  destruct (A Q), (B Q); cbn; try done. unfold sync_cq. destruct sq. cbn. by rewrite Z.eqb_refl.
Qed.

Lemma children_synced_ext l : forall A B m l' own own', (forall Q, 0 <= Q -> A Q = B Q) ->
  children_synced A m l l' own own' -> children_synced B m l l' own own'.
Proof.
  induction l as [|[p|] l IH]; intros A B m [|[p'|] l'] own own' H; cbn; try done.
  - intros [S C]. split; [eapply synced_ext; [|exact S]|eapply IH; [|exact C]]; intros Q HQ; unfold minus, union; by rewrite H.
  - intros (own1 & S & C). exists own1. split; [eapply synced_ext; [|exact S]|eapply IH; [|exact C]]; intros Q HQ; unfold minus, union; by rewrite H.
Qed.

Lemma children_synced_shift l : forall A B m m1 l' own own', drained A m m1 ->
  children_synced B m1 l l' own own' -> children_synced (union A B) m l l' own own'.
Proof.
  induction l as [|c l IH]; intros A B m m1 l' own own' D; [done|].
  assert (forall p Q, 0 <= Q -> minus (minus (aborts p m1) B) A Q = minus (aborts p m) (union A B) Q) as E1.
  { intros p Q HQ. unfold minus, union. rewrite (proj2 (aborts_after A m m1 p p Q D eq_refl eq_refl)). by destruct (aborts p m Q), (A Q), (B Q). }
  assert (forall p Q, 0 <= Q -> union A (union B (aborts p m1)) Q = union (union A B) (aborts p m) Q) as E2.
  { intros p Q HQ. unfold union. rewrite (proj2 (aborts_after A m m1 p p Q D eq_refl eq_refl)). by rewrite orb_assoc. }
  destruct c as [p|], l' as [|[p'|] l']; cbn; try done.
  - intros [S C]. split; [eapply synced_ext; [apply E1|by eapply synced_shift]|eapply children_synced_ext; [apply E2|by eapply IH]].
  - intros (own1 & S & C). exists own1.
    split; [eapply synced_ext; [apply E1|by eapply synced_shift]|eapply children_synced_ext; [apply E2|by eapply IH]].
Qed.

Lemma abort_errors_add a b s : 0 <= a -> 0 <= b -> abort_errors b (abort_errors a s) = abort_errors (a + b) s.
Proof.
  intros Ha Hb. unfold abort_errors. destruct (Z.ltb_spec 0 a), (Z.ltb_spec 0 b), (Z.ltb_spec 0 (a + b)); try lia; try done;
    [|by replace (a + b) with a by lia|by replace (a + b) with b by lia].
  destruct s as [[d|] ? ? ? ? ?]; [|done]. unset. cbn. do 2 f_equal. destruct d; cbn. f_equal. by rewrite s64_add, Z.add_assoc.
Qed.

Lemma abort_errors_parts n m p s : abort_errors n (with_parts m p s) = with_parts m p (abort_errors n s) /\
  ks_pdo (abort_errors n s) = ks_pdo s /\ VnvmeShmGetControlBlock (abort_errors n s) = VnvmeShmGetControlBlock s.
Proof. unfold abort_errors, with_parts, with_shm. destruct (0 <? n), s as [[[]|] ? ? ? ? ?]; done. Qed.

Lemma with_parts_swap m p q s : with_parts m p (s <| ks_pdo := q |>) = with_parts m p s /\ (with_parts m p s) <| ks_pdo := q |> = with_parts m q s.
Proof. by destruct s. Qed.

Lemma swap_pdo_run p s : swap_pdo p s = Ok (ks_pdo s, s <| ks_pdo := p |>).
Proof. done. Qed.

(** One controller of the list. *)
Lemma abort_child p s m :
  VnvmeShmGetControlBlock s = Some m -> controller_shape p m -> queues_ready (aborts p m) m -> rings_apart (aborts p m) m ->
  let n := total_pending (aborts p m) m in 0 <= n /\
  exists p' m', VnvmeAbortPendingUserCommands (s <| ks_pdo := p |>) = Ok (n, abort_errors n (with_parts m' p' s)) /\
    drained (aborts p m) m m' /\ synced (aborts p m) m p p' /\ forall q, controller_shape q m -> controller_shape q m'.
Proof.
  intros Hm Hsh Hr Hap n. destruct (abort_all_effect (s <| ks_pdo := p |>) m) as ([Hn _] & s' & m' & Hrun & [_ E D S]); [by destruct s|done..|].
  change (ks_pdo (s <| ks_pdo := p |>)) with p in *. split; [done|]. exists (ks_pdo s'), m'.
  rewrite Hrun, E at 1. rewrite (proj1 (with_parts_swap _ _ _ _)). split; [done|]. split; [done|]. split; [done|].
  intros q. eapply shape_after; [exact D|exact S|by right].
Qed.

Lemma abort_children_run l : forall s m,
  VnvmeShmGetControlBlock s = Some m -> controller_shape (ks_pdo s) m -> Forall (fun c => controller_shape (default (ks_pdo s) c) m) l ->
  let A := in_use l (ks_pdo s) m in let n := total_pending A m in queues_ready A m -> rings_apart A m ->
  0 <= n /\ exists l' own' m', abort_children l s = Ok (l', abort_errors n (with_parts m' own' s)) /\ drained A m m' /\
    children_synced (fun _ => false) m l l' (ks_pdo s) own'.
Proof.
  induction l as [|c l IH]; intros s m Hm Hown Hl A n Hr Hap.
  { assert (n = 0) as -> by done. split; [done|]. exists [], (ks_pdo s), m. rewrite with_parts_id by done. split; [done|]. split; [|done].
    apply (ef_drained _ s m s m), effect_idle; [done|]. by intros. }
  apply Forall_cons in Hl as [Hc Hl]. set (own := ks_pdo s) in *. set (p := default own c) in *.
  assert (forall Q, union (aborts p m) (in_use l own m) Q = A Q) as HU by done.
  assert (forall Q, aborts p m Q = true -> A Q = true) as HA by (intros Q E; rewrite <- HU; unfold union; by rewrite E).
  assert (forall Q, in_use l own m Q = true -> A Q = true) as HB by (intros Q E; rewrite <- HU; unfold union; by rewrite E, orb_true_r).
  destruct (abort_child p s m Hm Hc) as (Hn1 & p' & m1 & Hrun & D1 & S1 & Hsh1);
    [by apply (queues_ready_mono _ A); auto|by apply (rings_apart_mono _ A); auto|]. set (n1 := total_pending (aborts p m) m) in *.
  set (own1 := match c with None => p' | Some _ => own end).
  set (s1 := abort_errors n1 (with_parts m1 own1 s)).
  destruct (with_parts_facts m m1 own1 s Hm) as (G1 & G2 & _).
  destruct (abort_errors_parts n1 m1 own1 (with_parts m1 own1 s)) as (_ & G3 & G4). fold s1 in G3, G4. rewrite G2 in G3. rewrite G1 in G4.
  assert (pdo_IoSq own1 = pdo_IoSq own /\ pdo_IoQueueCount own1 = pdo_IoQueueCount own) as [P1 P2]
    by (unfold own1; destruct c; [done|]; by apply synced_pdo in S1).
  assert (forall Q, in_use l own1 m1 Q = in_use l own m Q) as Hin.
  { intros Q. unfold in_use. clear -D1 P1 P2. induction l as [|c' l IHl]; cbn; [done|]. rewrite IHl. f_equal.
    destruct c' as [q|]; cbn; [by apply (aborts_after (aborts p m) m m1 q q)|by apply (aborts_after (aborts p m) m m1 own own1)]. }
  assert (controller_shape own1 m1) as Hown1.
  { unfold own1. destruct c as [q|]; [by apply Hsh1|]. by apply (shape_after (aborts p m) m m1 p p' p p'); auto. }
  destruct (IH s1 m1) as (Hn2 & l' & own' & m' & Hrun2 & D2 & C2).
  - done.
  - by rewrite G3.
  - rewrite G3. eapply Forall_impl; [exact Hl|]. intros [q|] Hq; [by apply Hsh1|done].
  - rewrite G3. eapply queues_ready_after; [exact D1|]. apply (queues_ready_mono _ A); [|done]. intros Q _ E. apply HB. by rewrite <- Hin.
  - rewrite G3. eapply rings_apart_after; [exact D1|]. apply (rings_apart_mono _ A); [|done]. intros Q _ E. apply HB. by rewrite <- Hin.
  - rewrite G3 in Hn2, Hrun2, D2, C2.
    assert (n = n1 + total_pending (in_use l own1 m1) m1) as Hn.
    { unfold n, n1. rewrite <- (total_pending_union _ _ _ _ D1). apply total_pending_ext. intros Q _. rewrite <- HU. unfold union. by rewrite Hin. }
    split; [lia|]. exists (match c with None => None | Some _ => Some p' end :: l'), own', m'.
    assert (abort_errors (total_pending (in_use l own1 m1) m1) (with_parts m' own' s1) = abort_errors n (with_parts m' own' s)) as Hfin.
    { unfold s1. rewrite (proj1 (abort_errors_parts n1 m1 own1 s)), (proj1 (abort_errors_parts n m' own' s)), Hn.
      rewrite (proj1 (abort_errors_parts _ m' own' _)), <- (abort_errors_add n1) by done.
      unfold abort_errors, with_parts, with_shm. destruct (0 <? n1), (0 <? total_pending _ _), s as [[[]|] ? ? ? ? ?]; done. }
    rewrite Hfin in Hrun2. split; [|split].
    + destruct c as [q|]; cbn [abort_children].
      * rewrite (bind_Ok _ _ _ _ _ (swap_pdo_run q s)), (bind_Ok _ _ _ _ _ Hrun), (bind_Ok _ _ _ _ _ (swap_pdo_run (ks_pdo s) _)).
        assert ((abort_errors n1 (with_parts m1 p' s)) <| ks_pdo := ks_pdo s |> = s1) as ->
          by (unfold s1, abort_errors, with_parts; destruct (0 <? n1); by destruct s).
        rewrite (bind_Ok _ _ _ _ _ Hrun2).
        assert (ks_pdo (abort_errors n1 (with_parts m1 p' s)) = p') as -> by (unfold abort_errors, with_parts; destruct (0 <? n1); by destruct s).
        done.
      * assert (s <| ks_pdo := p |> = s) as Es by by destruct s. rewrite Es in Hrun. rewrite (bind_Ok _ _ _ _ _ Hrun). fold s1.
        by rewrite (bind_Ok _ _ _ _ _ Hrun2).
    + eapply drained_ext; [|eapply drained_union; [| |exact D1|exact D2]].
      * intros Q _. rewrite <- HU. unfold union. by rewrite Hin.
      * apply (queues_ready_mono _ A); [|done]. intros Q _ E. rewrite <- HU. unfold union in *. by rewrite Hin in E.
      * apply (rings_apart_mono _ A); [|done]. intros Q _ E. rewrite <- HU. unfold union in *. by rewrite Hin in E.
    + assert (children_synced (union (fun _ => false) (aborts p m)) m l l' own1 own') as C.
      { eapply children_synced_ext; [|eapply children_synced_shift; [exact D1|exact C2]]. intros Q _. unfold union. by rewrite orb_false_r. }
      assert (synced (minus (aborts p m) (fun _ => false)) m p p') as S.
      { eapply synced_ext; [|exact S1]. intros Q _. unfold minus. by rewrite andb_true_r. }
      destruct c as [q|]; cbn; [by split|]. exists p'. by split.
Qed.

(** C27: when the service that had reported to be ready has been silent for longer than the configured timeout, one
    heartbeat check goes through all the controllers of the bus, answers all the commands they have left pending - in
    every queue that one of them has in use, each once and in order, with internal errors, moving the indices as
    VnvmeAbortPendingUserCommands does and changing nothing else of the shared memory -, counts them as errors, marks the service
    crashed and not ready, and switches to kernel-mode processing.  Queues that several controllers share (the admin
    queue, and I/O queues with the same number) are emptied once: only the first of them takes over the new tail and
    phase.  This supposes that the shared memory and the arrays and descriptors of all the controllers' queues are there
    ([controller_shape]), that the queues with commands pending are in order ([queues_ready], as for
    VnvmeAbortPendingUserCommands: every tail below the capacity, room for the answers) and the rings of different queues apart.  A
    service that is in time, is not ready or is already marked as crashed is left alone, and nothing changes. *)
Theorem CheckUserModeHeartbeat_switches s d children :
  ks_fdo s = Some d ->
  let timeout := cfg_HeartbeatTimeout100ns (ks_cfg s) in
  let silent := s64 (ks_time s - fdo_LastHeartbeat d) in
  (fdo_UserReady d = false \/ fdo_UserCrashed d = true \/ silent <= timeout -> CheckUserModeHeartbeat children s = Ok (children, s)) /\
  (fdo_UserReady d = true -> fdo_UserCrashed d = false -> timeout < silent -> forall m,
   fdo_Shm d = Some m -> controller_shape (ks_pdo s) m -> Forall (fun c => controller_shape (default (ks_pdo s) c) m) children ->
   let A := in_use children (ks_pdo s) m in let n := total_pending A m in
   queues_ready A m -> rings_apart A m ->
   exists children' own' m',
     CheckUserModeHeartbeat children s = Ok (children', fdo_map switched (abort_errors n (with_parts m' own' s))) /\
     drained A m m' /\ children_synced (fun _ => false) m children children' (ks_pdo s) own').
Proof.
  intros Hd timeout silent. unfold CheckUserModeHeartbeat. rewrite bind_get, Hd. fold silent timeout. split.
  - destruct (fdo_UserReady d), (fdo_UserCrashed d); try done. intros [?|[?|H]]; try done.
    by rewrite (proj2 (Z.ltb_ge _ _)).
  - intros -> -> Hlt m Hm Hown Hall. cbv zeta. set (A := in_use children (ks_pdo s) m). set (n := total_pending A m). intros Hr Hap. cbn [negb orb]. rewrite (proj2 (Z.ltb_lt _ _) Hlt).
    unfold fdo_update. rewrite bind_modify. set (s0 := s <| ks_fdo ::= _ |>).
    assert (VnvmeShmGetControlBlock s0 = Some m /\ ks_pdo s0 = ks_pdo s) as [Hm0 E0].
    { unfold s0, VnvmeShmGetControlBlock. destruct s as [fd ? ? ? ? ?]. cbn in Hd. subst fd. destruct d. cbn in Hm. by subst. }
    destruct (abort_children_run children s0 m Hm0) as (_ & l' & own' & m' & Hrun & D & C); rewrite ?E0; try done.
    rewrite E0 in *. fold A n in Hrun, D. exists l', own', m'. rewrite (bind_Ok _ _ _ _ _ Hrun), bind_modify. split; [|by split].
    unfold mret, M_ret. do 2 f_equal. unfold s0, abort_errors, with_parts, with_shm, fdo_map.
    destruct (0 <? n), s as [fd ? ? ? ? ?]; cbn in Hd; subst fd; by destruct d.
Qed.

(** ** CC *)

Lemma bar0_load_eq s m off n : pdo_Bar0VirtAddr (ks_pdo s) = Some m -> 0 <= off -> off + Z.of_nat n <= VNVME_BAR0_SIZE ->
  bar0_load (ks_pdo s) off n = Some (load_le m off n).
Proof. intros Hm H1 H2. unfold bar0_load. rewrite Hm. cbn. by rewrite in_block_true. Qed.

(** What VnvmeInitializeAdminQueues reads from BAR0. *)
Definition admin_queues (bar : mem) (p : VNVME_PDO_CONTEXT) : VNVME_PDO_CONTEXT :=
  p <| pdo_AdminSqBase := load_le bar REG_ASQ 8 |> <| pdo_AdminSqSize := Z.land (load_le bar REG_AQA 4) 0xFFF + 1 |>
    <| pdo_AdminCqBase := load_le bar REG_ACQ 8 |> <| pdo_AdminCqSize := Z.land (Z.shiftr (load_le bar REG_AQA 4) 16) 0xFFF + 1 |>
    <| pdo_LastAdminSqTail := 0 |> <| pdo_LastAdminCqHead := 0 |> <| pdo_AdminCqPhase := 1 |>.

Lemma VnvmeInitializeAdminQueues_eq s bar : pdo_Bar0VirtAddr (ks_pdo s) = Some bar ->
  VnvmeInitializeAdminQueues s = Ok (STATUS_SUCCESS, s <| ks_pdo := admin_queues bar (ks_pdo s) |>).
Proof. intros Hm. unfold VnvmeInitializeAdminQueues. rewrite bind_get, Hm. unfold pdo_update. rewrite bind_modify. by destruct s. Qed.

Definition cc_pdo (bar : mem) (p : VNVME_PDO_CONTEXT) : VNVME_PDO_CONTEXT :=
  let cc := load_le bar REG_CC 4 in
  let p := if CC_EN cc && negb (CC_EN (pdo_CachedCC p)) then (admin_queues bar p) <| pdo_Bar0VirtAddr := Some (store_le bar REG_CSTS 4 1) |>
           else if negb (CC_EN cc) && CC_EN (pdo_CachedCC p) then p <| pdo_Bar0VirtAddr := Some (store_le bar REG_CSTS 4 0) |>
           else p in
  p <| pdo_CachedCC := cc |>.

Lemma process_cc_eq s bar :
  pdo_Bar0VirtAddr (ks_pdo s) = Some bar ->
  process_cc s = let cc := load_le bar REG_CC 4 in
    if cc =? pdo_CachedCC (ks_pdo s) then Ok (false, s) else Ok (true, s <| ks_pdo := cc_pdo bar (ks_pdo s) |>).
Proof.
  intros Hm. unfold process_cc. rewrite bind_get, (bind_opt _ _ _ _ (bar0_load_eq s bar REG_CC 4 Hm ltac:(done) ltac:(done))).
  cbv zeta. destruct (_ =? _); [done|]. unfold cc_pdo. cbv zeta.
  destruct (CC_EN (load_le bar REG_CC 4)), (CC_EN (pdo_CachedCC (ks_pdo s))); cbn [andb negb].
  - unfold pdo_update. rewrite bind_ret, bind_modify. by destruct s.
  - set (s1 := s <| ks_pdo := admin_queues bar (ks_pdo s) |>).
    assert (pdo_Bar0VirtAddr (ks_pdo s1) = Some bar) as H1 by (rewrite <- Hm; by destruct s as [? [] ? ? ? ?]).
    assert ((VnvmeInitializeAdminQueues;; bar0_store REG_CSTS 4 0x1) s = Ok (tt, with_bar0 (store_le bar REG_CSTS 4 1) s1)) as H2.
    { rewrite (bind_Ok _ _ _ _ _ (VnvmeInitializeAdminQueues_eq s bar Hm)). by apply bar0_store_ok. }
    rewrite (bind_Ok _ _ _ _ _ H2). unfold pdo_update. rewrite bind_modify. destruct s; reflexivity.
  - rewrite (bind_Ok _ _ _ _ _ (bar0_store_ok s bar REG_CSTS 4 0 Hm ltac:(done) ltac:(done))).
    unfold pdo_update. rewrite bind_modify. destruct s; reflexivity.
  - unfold pdo_update. rewrite bind_ret, bind_modify. by destruct s.
Qed.

Lemma cc_pdo_facts bar p : pdo_Bar0VirtAddr p = Some bar ->
  let cc := load_le bar REG_CC 4 in
  CSTS_RDY (load_le bar REG_CSTS 4) = CC_EN (pdo_CachedCC p) ->
  exists bar', pdo_Bar0VirtAddr (cc_pdo bar p) = Some bar' /\ pdo_CachedCC (cc_pdo bar p) = cc /\
    CSTS_RDY (load_le bar' REG_CSTS 4) = CC_EN cc /\
    (forall r, r mod 4 = 0 -> r <> REG_CSTS -> load_le bar' r 4 = load_le bar r 4) /\
    (CC_EN cc = true -> CC_EN (pdo_CachedCC p) = false -> pdo_AdminSqSize (cc_pdo bar p) = Z.land (load_le bar REG_AQA 4) 0xFFF + 1 /\
       pdo_AdminSqBase (cc_pdo bar p) = load_le bar REG_ASQ 8 /\
       pdo_AdminCqSize (cc_pdo bar p) = Z.land (Z.shiftr (load_le bar REG_AQA 4) 16) 0xFFF + 1 /\
       pdo_AdminCqBase (cc_pdo bar p) = load_le bar REG_ACQ 8 /\
       pdo_LastAdminSqTail (cc_pdo bar p) = 0 /\ pdo_LastAdminCqHead (cc_pdo bar p) = 0 /\ pdo_AdminCqPhase (cc_pdo bar p) = 1) /\
    pdo_Registers (cc_pdo bar p) = pdo_Registers p /\ pdo_Doorbells (cc_pdo bar p) = pdo_Doorbells p.
Proof.
  intros Hp cc Hinv.
  assert (forall v, 0 <= v < 2 ^ 32 -> load_le (store_le bar REG_CSTS 4 v) REG_CSTS 4 = v /\
    forall r, r mod 4 = 0 -> r <> REG_CSTS -> load_le (store_le bar REG_CSTS 4 v) r 4 = load_le bar r 4) as Hst.
  { intros v Hv. split; [by rewrite reg32_store, decide_True by done|]. intros r Hr Hne. by rewrite reg32_store, decide_False by done. }
  unfold cc_pdo. fold cc. cbv zeta. destruct (CC_EN cc) eqn:E1, (CC_EN (pdo_CachedCC p)) eqn:E2; cbn [andb negb].
  - exists bar. repeat split; try done.
  - destruct (Hst 1 ltac:(done)) as [H1 H2]. eexists. split; [reflexivity|]. split; [reflexivity|]. rewrite H1.
    split; [reflexivity|]. split; [exact H2|]. repeat split.
  - destruct (Hst 0 ltac:(done)) as [H1 H2]. eexists. split; [reflexivity|]. split; [reflexivity|]. rewrite H1.
    split; [reflexivity|]. split; [exact H2|]. repeat split; discriminate.
  - exists bar. repeat split; try done.
Qed.

(** C28: the enable handshake. When CSTS.RDY follows the last CC seen, a poll sees the host's CC and makes RDY follow it,
    touching no other register; on a rising EN the admin queues are those of AQA, ASQ and ACQ, from the start; and while
    EN is clear the poll does nothing else: no doorbell is looked at, whatever it says. *)
Theorem VnvmeProcessDoorbells_handshake (fuel : nat) (s : KState) (bar : mem) :
  pdo_Bar0VirtAddr (ks_pdo s) = Some bar -> pdo_Registers (ks_pdo s) = true -> pdo_Doorbells (ks_pdo s) = true ->
  let cc := load_le bar REG_CC 4 in
  let cached := pdo_CachedCC (ks_pdo s) in
  CSTS_RDY (load_le bar REG_CSTS 4) = CC_EN cached ->
  exists p, let s1 := s <| ks_pdo := p |> in
    process_cc s = Ok (negb (cc =? cached), s1) /\
    pdo_CachedCC p = cc /\ CSTS_RDY (reg32 s1 REG_CSTS) = CC_EN cc /\
    (forall r, r mod 4 = 0 -> r <> REG_CSTS -> reg32 s1 r = reg32 s r) /\
    (CC_EN cc = true -> CC_EN cached = false -> pdo_AdminSqSize p = Z.land (reg32 s REG_AQA) 0xFFF + 1 /\
       pdo_AdminSqBase p = load_le bar REG_ASQ 8 /\
       pdo_AdminCqSize p = Z.land (Z.shiftr (reg32 s REG_AQA) 16) 0xFFF + 1 /\ pdo_AdminCqBase p = load_le bar REG_ACQ 8 /\
       pdo_LastAdminSqTail p = 0 /\ pdo_LastAdminCqHead p = 0 /\ pdo_AdminCqPhase p = 1) /\
    (CC_EN cc = false -> VnvmeProcessDoorbells fuel s = Ok (negb (cc =? cached), s1)).
Proof.
  intros Hbar Hreg Hdb cc cached Hinv.
  assert (forall s', reg32 s' = fun r => match pdo_Bar0VirtAddr (ks_pdo s') with Some m => load_le m r 4 | None => 0 end) as Er by done.
  set (p := if cc =? cached then ks_pdo s else cc_pdo bar (ks_pdo s)). exists p.
  assert (process_cc s = Ok (negb (cc =? cached), s <| ks_pdo := p |>)) as Hcc.
  { rewrite (process_cc_eq s bar Hbar). fold cc cached. unfold p. cbv zeta. destruct (cc =? cached); [by destruct s | done]. }
  assert (exists bar', pdo_Bar0VirtAddr p = Some bar' /\ pdo_CachedCC p = cc /\ CSTS_RDY (load_le bar' REG_CSTS 4) = CC_EN cc /\
    (forall r, r mod 4 = 0 -> r <> REG_CSTS -> load_le bar' r 4 = load_le bar r 4) /\
    pdo_Registers p = true /\ pdo_Doorbells p = true) as (bar' & Hb' & Hc' & Hr' & Ho' & _ & _).
  { unfold p. destruct (Z.eqb_spec cc cached) as [E|E].
    - exists bar. repeat split; try done. by rewrite Hinv, E.
    - destruct (cc_pdo_facts bar (ks_pdo s) Hbar Hinv) as (b & H1 & H2 & H3 & H4 & _ & H5 & H6).
      exists b. rewrite H5, H6. by repeat split. }
  cbv zeta. rewrite !Er. change (ks_pdo (s <| ks_pdo := p |>)) with p. rewrite Hbar, Hb'.
  split; [done|]. split; [done|]. split; [done|]. split; [done|]. split.
  - intros H1 H2. unfold p. destruct (Z.eqb_spec cc cached) as [E|_]; [rewrite E in H1; congruence|].
    destruct (cc_pdo_facts bar (ks_pdo s) Hbar Hinv) as (b & _ & _ & _ & _ & H & _). by apply H.
  - intros Hen. unfold VnvmeProcessDoorbells. rewrite bind_get, Hreg, Hdb. cbn [negb orb]. cbv zeta.
    rewrite (bind_Ok _ _ _ _ _ Hcc), bind_get.
    assert (pdo_Bar0VirtAddr (ks_pdo (s <| ks_pdo := p |>)) = Some bar') as Hb1 by exact Hb'.
    rewrite (bind_opt _ _ _ _ (bar0_load_eq _ bar' REG_CC 4 Hb1 ltac:(done) ltac:(done))).
    rewrite (bind_opt _ _ _ _ (bar0_load_eq _ bar' REG_CSTS 4 Hb1 ltac:(done) ltac:(done))).
    rewrite Ho' by done. fold cc. by rewrite Hen.
Qed.

(** ** Forwarding to the service *)

(** A push that gives up when the ring is full. *)
Definition push_room (r : VNVME_NOTIFY_RING) (e : VNVME_NOTIFY_ENTRY) : VNVME_NOTIFY_RING :=
  if decide ((nr_Tail r + 1) mod nr_Size r = nr_Head r) then r else ring_push e r.

(** The shared memory and the state after forwarding queue [Q] up to [t]. *)
Definition fwd_shm (Q t : Z) (sq : VNVME_QUEUE_DESCRIPTOR) (m : SharedMemory) : SharedMemory :=
  (put_sq_desc Q (sq <| qd_Tail := t |>) m) <| shm_ring ::= fun r => push_room r (mkNotifyEntry Q 0 t) |>.
Definition fwd_state (Q t : Z) (sq : VNVME_QUEUE_DESCRIPTOR) (m : SharedMemory) (s : KState) : KState :=
  fdo_map (fun d => d <| fdo_CommandReadyEvent := true |>) (with_shm (fwd_shm Q t sq m) s).

Lemma push_room_ok r e : ring_ok r -> ring_ok (push_room r e).
Proof. intros H. unfold push_room. case_decide; [done|]. by apply ring_push_ok. Qed.

Lemma put_sq_desc_ring Q d m : shm_ring (put_sq_desc Q d m) = shm_ring m /\
  cb_NotifyRingOffset (shm_cb (put_sq_desc Q d m)) = cb_NotifyRingOffset (shm_cb m).
Proof. unfold put_sq_desc. destruct (Q =? 0), m as [[] ? ? ?]; by unset. Qed.

(** The driver is in user mode, with shared memory and its notify ring. *)
Record user_mode (s : KState) (m : SharedMemory) : Prop := {
  um_shm : VnvmeShmGetControlBlock s = Some m;
  um_mode : fdo_CommandMode <$> ks_fdo s = Some VNVME_CMD_MODE_USER;
  um_ring : ring_ok (shm_ring m);
  um_ring_offset : cb_NotifyRingOffset (shm_cb m) <> 0;
  um_desc_offset : cb_IoQueueDescriptorOffset (shm_cb m) <> 0
}.

(** The service has reported that it is ready. *)
Definition service_ready (s : KState) : bool := match ks_fdo s with Some d => fdo_UserReady d | None => false end.

Lemma with_shm_put_ring r m s : put_ring r (with_shm m s) = with_shm (m <| shm_ring := r |>) s.
Proof. destruct s as [[[]|] ? ? ? ? ?]; by unset. Qed.

(** The end of both forwarding functions. *)
Lemma notify_and_signal Q t s m m1 :
  user_mode s m -> service_ready s = true -> shm_ring m1 = shm_ring m -> cb_NotifyRingOffset (shm_cb m1) = cb_NotifyRingOffset (shm_cb m) ->
  (NotifyRingPush Q 0 t;; SignalUserMode) (with_shm m1 s) =
    Ok (tt, fdo_map (fun d => d <| fdo_CommandReadyEvent := true |>)
              (with_shm (m1 <| shm_ring ::= fun r => push_room r (mkNotifyEntry Q 0 t) |>) s)).
Proof.
  intros [Hm _ Hring Hroff _] Hrd E1 E2.
  assert (VnvmeShmGetNotifyRing (with_shm m1 s) = Some (shm_ring m)) as Hr.
  { unfold VnvmeShmGetNotifyRing. rewrite (with_shm_get m m1 s Hm). cbn. by rewrite E2, (proj2 (Z.eqb_neq _ _) Hroff), E1. }
  assert (forall b : bool, exists b', NotifyRingPush Q 0 t (with_shm m1 s) =
    Ok (b', with_shm (m1 <| shm_ring ::= fun r => push_room r (mkNotifyEntry Q 0 t) |>) s)) as [b' Hpush]; [|exact false|].
  { intros _. rewrite (NotifyRingPush_eq _ _ _ _ _ Hr Hring). unfold push_room. rewrite <- E1. case_decide as Hd.
    - exists false. do 2 f_equal. f_equal. destruct m1; unset. by rewrite decide_True.
    - exists true. rewrite with_shm_put_ring. do 2 f_equal. f_equal. destruct m1; unset. by rewrite decide_False. }
  rewrite (bind_Ok _ _ _ _ _ Hpush). unfold SignalUserMode, fdo_update, modify, fdo_map, with_shm. do 2 f_equal.
  destruct s as [[d|] ? ? ? ? ?]; [|done]. unfold service_ready in Hrd. cbn in Hrd. unset. destruct d; cbn in *. by subst.
Qed.

Lemma VnvmeForwardAdminCommandsToUser_run t s m :
  user_mode s m -> VnvmeForwardAdminCommandsToUser t s =
    Ok (tt, if service_ready s then fwd_state 0 t (cb_AdminSQ (shm_cb m)) m s else s).
Proof.
  intros Hu. pose proof Hu as [Hm Hmode _ _ _]. unfold VnvmeForwardAdminCommandsToUser. rewrite bind_get, Hm.
  destruct (ks_fdo s) as [d|] eqn:Hd; [|done]. assert (service_ready s = fdo_UserReady d) as Hrd by (unfold service_ready; by rewrite Hd).
  rewrite (bind_opt _ _ _ _ eq_refl), <- Hrd. destruct (service_ready s) eqn:Er; cbn [negb]; [|done].
  rewrite (bind_Ok _ _ _ _ _ (cb_update_run _ _ _ Hm)).
  assert ((m <| shm_cb ::= fun cb => cb <| cb_AdminSQ ::= fun q => q <| qd_Tail := t |> |> |>) =
    put_sq_desc 0 ((cb_AdminSQ (shm_cb m)) <| qd_Tail := t |>) m) as -> by (by destruct m as [[] ? ? ?]).
  destruct (put_sq_desc_ring 0 ((cb_AdminSQ (shm_cb m)) <| qd_Tail := t |>) m) as [E1 E2].
  by apply (notify_and_signal 0 t s m).
Qed.

Lemma VnvmeForwardIoCommandsToUser_run Q t s m sq :
  user_mode s m -> 1 <= Q <= VNVME_MAX_IO_QUEUES -> sq_desc m Q = Some sq ->
  VnvmeForwardIoCommandsToUser Q t s = Ok (tt, if service_ready s then fwd_state Q t sq m s else s).
Proof.
  intros Hu HQ Hsq. pose proof Hu as [Hm Hmode _ _ Hoff]. unfold VnvmeForwardIoCommandsToUser. rewrite bind_get, Hm.
  destruct (ks_fdo s) as [d|] eqn:Hd; [|done]. assert (service_ready s = fdo_UserReady d) as Hrd by (unfold service_ready; by rewrite Hd).
  rewrite (bind_opt _ _ _ _ eq_refl), <- Hrd. destruct (service_ready s) eqn:Er; cbn [negb]; [|done].
  rewrite (proj2 (Z.eqb_neq Q 0)), (proj2 (Z.ltb_ge _ _)) by lia. cbn [orb]. rewrite (proj2 (Z.eqb_neq _ _) Hoff). cbv zeta.
  pose proof (sq_desc_update_put Q (fun q => q <| qd_Tail := t |>) _ _ Hsq) as H1.
  unfold sq_desc_update in H1. rewrite (proj2 (Z.eqb_neq Q 0)) in H1 by lia.
  rewrite (bind_Ok _ _ _ _ _ (shm_store_run _ _ _ _ Hm H1)).
  destruct (put_sq_desc_ring Q (sq <| qd_Tail := t |>) m) as [E1 E2].
  by apply (notify_and_signal Q t s m).
Qed.

(** The tail that was last seen, the queue's existence, the doorbell's value, and
    whether it was rung since. *)
Definition last_tail (s : KState) (Q : Z) : option Z :=
  if Q =? 0 then Some (pdo_LastAdminSqTail (ks_pdo s)) else qs_Tail <$> arr_get (pdo_IoSq (ks_pdo s)) (Q - 1).
Definition queue_created (s : KState) (Q : Z) : bool :=
  if Q =? 0 then true else match arr_get (pdo_IoSq (ks_pdo s)) (Q - 1) with Some q => qs_Created q | None => false end.
Definition tail_of (s : KState) (Q : Z) : Z :=
  match doorbell (ks_pdo s) (Q * 2) with Some t => t | None => 0 end.
Definition rang (s : KState) (Q : Z) : bool :=
  queue_created s Q && negb (bool_decide (last_tail s Q = Some (tail_of s Q))).

(** The service is told of a queue that was rung, if it is ready. *)
Definition told (s : KState) (Q : Z) : bool := rang s Q && service_ready s.

(** The notifications of the queues from [lo] up to [hi], in order. *)
Definition notifications (s : KState) (lo hi : Z) : list VNVME_NOTIFY_ENTRY :=
  (fun Q => mkNotifyEntry Q 0 (tail_of s Q)) <$> filter (fun Q => told s Q = true) (seqZ lo (hi - lo)).

(** The queues from [lo] up to [hi] are polled: if the service is ready it sees the
    new tails and is told of each queue that was rung; ready or not, the driver
    remembers the tails. *)
Record polled (lo hi : Z) (s : KState) (m : SharedMemory) (s' : KState) (m' : SharedMemory) : Prop := {
  pl_user : user_mode s' m';
  pl_sq Q : lo <= Q < hi ->
    sq_desc m' Q = (fun d => if told s Q then d <| qd_Tail := tail_of s Q |> else d) <$> sq_desc m Q;
  pl_others Q : 0 <= Q -> Q < lo \/ hi <= Q -> sq_desc m' Q = sq_desc m Q;
  pl_cq Q : 0 <= Q -> cq_desc m' Q = cq_desc m Q;
  pl_mem : shm_mem m' = shm_mem m;
  pl_ring : shm_ring m' = foldl push_room (shm_ring m) (notifications s lo hi);
  pl_last Q : 0 <= Q ->
    last_tail s' Q = if queue_created s Q && bool_decide (lo <= Q < hi) then Some (tail_of s Q) else last_tail s Q;
  pl_created Q : 0 <= Q -> queue_created s' Q = queue_created s Q;
  pl_bar0 : pdo_Bar0VirtAddr (ks_pdo s') = pdo_Bar0VirtAddr (ks_pdo s);
  pl_count : pdo_IoQueueCount (ks_pdo s') = pdo_IoQueueCount (ks_pdo s);
  pl_arrays : length (pdo_IoSq (ks_pdo s')) = length (pdo_IoSq (ks_pdo s)) /\
              length (pdo_IoCq (ks_pdo s')) = length (pdo_IoCq (ks_pdo s));
  pl_mapped : fdo_ShmUserVirtAddr <$> ks_fdo s' = fdo_ShmUserVirtAddr <$> ks_fdo s;
  pl_ready : service_ready s' = service_ready s
}.

Lemma polled_frame lo hi s m s' m' Q : polled lo hi s m s' m' -> 0 <= Q ->
  tail_of s' Q = tail_of s Q /\ (Q < lo \/ hi <= Q -> rang s' Q = rang s Q) /\ (lo <= Q < hi -> rang s' Q = false).
Proof.
  intros D HQ.
  assert (tail_of s' Q = tail_of s Q) as Et by (unfold tail_of, doorbell, bar0_load; by rewrite (pl_bar0 _ _ _ _ _ _ D)).
  unfold rang. rewrite Et, (pl_created _ _ _ _ _ _ D Q HQ), (pl_last _ _ _ _ _ _ D Q HQ). split; [done|]. split; intros H.
  - by rewrite (bool_decide_eq_false_2 (lo <= Q < hi)), andb_false_r by lia.
  - destruct (queue_created s Q); [|done]. rewrite (bool_decide_eq_true_2 (lo <= Q < hi)) by lia. cbn.
    by rewrite bool_decide_eq_true_2.
Qed.

Lemma notifications_app s lo mid hi : lo <= mid -> mid <= hi ->
  notifications s lo hi = notifications s lo mid ++ notifications s mid hi.
Proof.
  intros H1 H2. unfold notifications. rewrite <- fmap_app, <- filter_app. do 2 f_equal.
  replace (hi - lo) with ((mid - lo) + (hi - mid)) by lia. rewrite seqZ_app by lia. do 2 f_equal. lia.
Qed.

Lemma notifications_ext s s' lo hi :
  (forall Q, lo <= Q < hi -> told s' Q = told s Q /\ tail_of s' Q = tail_of s Q) -> notifications s' lo hi = notifications s lo hi.
Proof.
  intros H. unfold notifications. assert (forall Q, Q ∈ seqZ lo (hi - lo) -> lo <= Q < hi) as Hin.
  { intros Q HQ%elem_of_seqZ. lia. }
  induction (seqZ lo (hi - lo)) as [|Q l IH]; [done|]. destruct (H Q (Hin Q (list_elem_of_here _ _))) as [E1 E2].
  rewrite !filter_cons, E1. case_decide; [rewrite !fmap_cons, E2; f_equal|]; apply IH; intros; apply Hin; by right.
Qed.

Lemma polled_trans lo mid hi s m s1 m1 s' m' :
  0 <= lo -> lo <= mid -> mid <= hi -> polled lo mid s m s1 m1 -> polled mid hi s1 m1 s' m' -> polled lo hi s m s' m'.
Proof.
  intros H0 H1 H2 D1 D2.
  assert (forall Q, mid <= Q -> told s1 Q = told s Q /\ tail_of s1 Q = tail_of s Q) as Hr.
  { intros Q HQ. destruct (polled_frame _ _ _ _ _ _ Q D1 ltac:(lia)) as (? & H & _).
    unfold told. by rewrite H, (pl_ready _ _ _ _ _ _ D1) by lia. }
  assert (forall Q, 0 <= Q -> tail_of s1 Q = tail_of s Q) as Ht by (intros Q HQ; apply (polled_frame _ _ _ _ _ _ Q D1 HQ)).
  split.
  - apply D2.
  - intros Q HQ. destruct (Z.lt_ge_cases Q mid).
    + rewrite (pl_others _ _ _ _ _ _ D2) by lia. apply D1; lia.
    + rewrite (pl_sq _ _ _ _ _ _ D2), (pl_others _ _ _ _ _ _ D1) by lia. by destruct (Hr Q ltac:(lia)) as [-> ->].
  - intros Q HQ Ho. rewrite (pl_others _ _ _ _ _ _ D2), (pl_others _ _ _ _ _ _ D1); (done || lia).
  - intros Q HQ. rewrite (pl_cq _ _ _ _ _ _ D2) by done. by apply D1.
  - rewrite (pl_mem _ _ _ _ _ _ D2). apply D1.
  - rewrite (pl_ring _ _ _ _ _ _ D2), (pl_ring _ _ _ _ _ _ D1), (notifications_app s lo mid hi), foldl_app by lia.
    f_equal. apply notifications_ext. intros Q HQ. apply Hr. lia.
  - intros Q HQ. rewrite (pl_last _ _ _ _ _ _ D2), (pl_last _ _ _ _ _ _ D1), (pl_created _ _ _ _ _ _ D1), Ht by done.
    destruct (queue_created s Q); [|done]. cbn. repeat case_bool_decide; (done || lia).
  - intros Q HQ. rewrite (pl_created _ _ _ _ _ _ D2) by done. by apply D1.
  - rewrite (pl_bar0 _ _ _ _ _ _ D2). apply D1.
  - rewrite (pl_count _ _ _ _ _ _ D2). apply D1.
  - destruct (pl_arrays _ _ _ _ _ _ D1) as [<- <-]. apply D2.
  - rewrite (pl_mapped _ _ _ _ _ _ D2). apply D1.
  - rewrite (pl_ready _ _ _ _ _ _ D2). apply D1.
Qed.

Lemma user_mode_pdo s m p : user_mode s m -> user_mode (s <| ks_pdo := p |>) m.
Proof. intros [H1 H3 H4 H5 H6]. destruct s. by split. Qed.

Lemma fwd_user Q t sq s m : user_mode s m -> user_mode (fwd_state Q t sq m s) (fwd_shm Q t sq m).
Proof.
  intros [H1 H3 H4 H5 H6]. destruct (put_sq_desc_ring Q (sq <| qd_Tail := t |>) m) as [E1 E2].
  destruct (put_sq_desc_mem Q (sq <| qd_Tail := t |>) m) as [_ E3].
  destruct (shm_state_inv _ _ H1) as (d & Hd & Hs).
  unfold fwd_state, fwd_shm, fdo_map, with_shm. set (m1 := put_sq_desc _ _ _) in *. destruct s; cbn in *. subst. split.
  - reflexivity.
  - exact H3.
  - destruct m1; unset. cbn in E1. rewrite E1. by apply push_room_ok.
  - destruct m1; unset. cbn in E2. by rewrite E2.
  - destruct m1; unset. cbn in E3. by rewrite E3.
Qed.

Lemma fwd_shm_facts Q t sq m : sq_desc m Q = Some sq -> 0 <= Q ->
  let m' := fwd_shm Q t sq m in
  sq_desc m' Q = Some (sq <| qd_Tail := t |>) /\ (forall Q', 0 <= Q' -> Q' <> Q -> sq_desc m' Q' = sq_desc m Q') /\
  (forall Q', 0 <= Q' -> cq_desc m' Q' = cq_desc m Q') /\ shm_mem m' = shm_mem m /\
  shm_ring m' = push_room (shm_ring m) (mkNotifyEntry Q 0 t).
Proof.
  intros Hsq HQ. cbv zeta. set (sq' := sq <| qd_Tail := t |>).
  assert (forall Q', sq_desc (fwd_shm Q t sq m) Q' = sq_desc (put_sq_desc Q sq' m) Q' /\
    cq_desc (fwd_shm Q t sq m) Q' = cq_desc (put_sq_desc Q sq' m) Q') as He
    by (intros; unfold fwd_shm; fold sq'; by destruct (put_sq_desc Q sq' m)).
  repeat split.
  - rewrite (proj1 (He Q)). by apply (sq_desc_put Q sq).
  - intros Q' H1 H2. rewrite (proj1 (He Q')). by apply put_sq_desc_others.
  - intros Q' H1. rewrite (proj2 (He Q')). by apply put_sq_desc_others.
  - rewrite <- (proj1 (put_sq_desc_mem Q sq' m)). unfold fwd_shm. fold sq'. by destruct (put_sq_desc Q sq' m).
  - rewrite <- (proj1 (put_sq_desc_ring Q sq' m)). unfold fwd_shm. fold sq'. by destruct (put_sq_desc Q sq' m).
Qed.

Lemma notifications_one s Q : notifications s Q (Q + 1) = if told s Q then [mkNotifyEntry Q 0 (tail_of s Q)] else [].
Proof.
  unfold notifications. replace (Q + 1 - Q) with 1 by lia. rewrite seqZ_cons, filter_cons by done.
  change (seqZ (Z.succ Q) (Z.pred 1)) with (@nil Z). by destruct (told s Q).
Qed.

(** The state of the driver after queue [Q] is polled: [p'] remembers the tail, and
    differs in nothing else that matters. *)
Lemma polled_one Q s m sq p' :
  user_mode s m -> 0 <= Q -> sq_desc m Q = Some sq ->
  let t := tail_of s Q in
  let s1 := if told s Q then fwd_state Q t sq m s else s in
  let m1 := if told s Q then fwd_shm Q t sq m else m in
  let s' := s1 <| ks_pdo := p' |> in
  pdo_Bar0VirtAddr p' = pdo_Bar0VirtAddr (ks_pdo s) -> pdo_IoQueueCount p' = pdo_IoQueueCount (ks_pdo s) ->
  length (pdo_IoSq p') = length (pdo_IoSq (ks_pdo s)) -> length (pdo_IoCq p') = length (pdo_IoCq (ks_pdo s)) ->
  (forall Q', 0 <= Q' -> queue_created s' Q' = queue_created s Q') ->
  (forall Q', 0 <= Q' -> Q' <> Q -> last_tail s' Q' = last_tail s Q') ->
  (last_tail s' Q = if queue_created s Q then Some t else last_tail s Q) ->
  polled Q (Q + 1) s m s' m1.
Proof.
  intros Hu HQ Hsq t s1 m1 s' Hbar Hcnt Hl1 Hl2 Hcr Hlo Hlq.
  destruct (fwd_shm_facts Q t sq m Hsq HQ) as (F1 & F2 & F3 & F4 & F5). split.
  - apply user_mode_pdo. unfold s1, m1. destruct (told s Q); [by apply fwd_user | done].
  - intros Q' HQ'. assert (Q' = Q) as -> by lia. rewrite Hsq. unfold m1. fold t. by destruct (told s Q).
  - intros Q' H1 H2. unfold m1. destruct (told s Q); [|done]. apply F2; lia.
  - intros Q' H1. unfold m1. destruct (told s Q); [|done]. by apply F3.
  - unfold m1. by destruct (told s Q).
  - rewrite notifications_one. unfold m1. by destruct (told s Q).
  - intros Q' H1. destruct (Z.eq_dec Q' Q) as [->|Hne].
    + rewrite Hlq, (bool_decide_eq_true_2 (Q <= Q < Q + 1)) by lia. by rewrite andb_true_r.
    + rewrite Hlo, (bool_decide_eq_false_2 (Q <= Q' < Q + 1)) by lia. by rewrite andb_false_r.
  - done.
  - done.
  - done.
  - done.
  - unfold s', s1. destruct (told s Q); [|done]. unfold fwd_state, fdo_map, with_shm. by destruct s as [[[]|] ? ? ? ? ?].
  - unfold s', s1. destruct (told s Q); [|done]. unfold fwd_state, fdo_map, with_shm. by destruct s as [[[]|] ? ? ? ? ?].
Qed.

(** BAR0 is mapped. *)
Lemma doorbell_read s i : is_Some (pdo_Bar0VirtAddr (ks_pdo s)) -> 0 <= i <= 0x1000 -> is_Some (doorbell (ks_pdo s) i).
Proof.
  intros [bar Hbar] Hi. unfold doorbell. rewrite (bar0_load_eq s bar); [by eexists|done| |];
    unfold DOORBELL_BASE; change VNVME_BAR0_SIZE with 65536; lia.
Qed.

Lemma doorbell_pdo p p' i : pdo_Bar0VirtAddr p' = pdo_Bar0VirtAddr p -> doorbell p' i = doorbell p i.
Proof. intros E. unfold doorbell, bar0_load. by rewrite E. Qed.

Lemma tail_of_eq s Q : is_Some (pdo_Bar0VirtAddr (ks_pdo s)) -> 0 <= Q <= 16 -> doorbell (ks_pdo s) (Q * 2) = Some (tail_of s Q).
Proof. intros Hb HQ. unfold tail_of. destruct (doorbell_read s (Q * 2) Hb ltac:(lia)) as [t ->]. done. Qed.

Lemma process_admin_doorbells_run fuel hw s m :
  user_mode s m -> is_Some (pdo_Bar0VirtAddr (ks_pdo s)) ->
  exists s' m', process_admin_doorbells fuel VNVME_CMD_MODE_USER hw s = Ok (hw || rang s 0, s') /\ polled 0 1 s m s' m'.
Proof.
  intros Hu Hb. set (t := tail_of s 0). set (sq := cb_AdminSQ (shm_cb m)).
  set (s1 := if told s 0 then fwd_state 0 t sq m s else s).
  set (p1 := if rang s 0 then (ks_pdo s) <| pdo_LastAdminSqTail := t |> else ks_pdo s).
  destruct (doorbell_read s 1 Hb ltac:(done)) as [cqHead Hcq].
  set (p2 := if cqHead =? pdo_LastAdminCqHead p1 then p1 else p1 <| pdo_LastAdminCqHead := cqHead |>).
  assert (Hr : rang s 0 = negb (t =? pdo_LastAdminSqTail (ks_pdo s))).
  { unfold rang. cbn. fold t. f_equal. destruct (Z.eqb_spec t (pdo_LastAdminSqTail (ks_pdo s))) as [->|Hne];
      [by rewrite bool_decide_eq_true_2 | rewrite bool_decide_eq_false_2; [done | congruence]]. }
  exists (s1 <| ks_pdo := p2 |>), (if told s 0 then fwd_shm 0 t sq m else m). split.
  - unfold process_admin_doorbells. pose proof (tail_of_eq s 0 Hb ltac:(lia)) as Ht.
    rewrite bind_get, (bind_opt _ _ _ _ Ht). fold t.
    erewrite bind_Ok with (a := hw || rang s 0) (s' := s1 <| ks_pdo := p1 |>).
    2: { unfold s1, p1, told. rewrite Hr. destruct (t =? _); cbn [negb andb].
         - rewrite orb_false_r. by destruct s.
         - rewrite (bind_Ok _ _ _ _ _ (VnvmeForwardAdminCommandsToUser_run t s m Hu)). unfold pdo_update.
           rewrite bind_modify, orb_true_r. fold sq. destruct (service_ready s); by destruct s. }
    rewrite bind_get. change (ks_pdo (s1 <| ks_pdo := p1 |>)) with p1.
    assert (doorbell p1 1 = Some cqHead) as H1 by (rewrite <- Hcq; apply doorbell_pdo; unfold p1; by destruct (rang s 0)).
    rewrite (bind_opt _ _ _ _ H1). unfold p2. destruct (cqHead =? _); [done|]. unfold pdo_update. by rewrite bind_modify.
  - apply polled_one; try done.
    + unfold p2, p1. destruct (rang s 0), (cqHead =? _); reflexivity.
    + unfold p2, p1. destruct (rang s 0), (cqHead =? _); reflexivity.
    + unfold p2, p1. destruct (rang s 0), (cqHead =? _); reflexivity.
    + unfold p2, p1. destruct (rang s 0), (cqHead =? _); reflexivity.
    + intros Q' _. unfold queue_created, p2, p1. by destruct (rang s 0), (cqHead =? _).
    + intros Q' _ Hne. unfold last_tail. rewrite !(proj2 (Z.eqb_neq Q' 0)) by done. unfold p2, p1. by destruct (rang s 0), (cqHead =? _).
    + cbn [queue_created Z.eqb]. unfold queue_created, last_tail; cbn [Z.eqb]. fold t.
      change (ks_pdo (_ <| ks_pdo := p2 |>)) with p2. f_equal. unfold p2, p1. rewrite Hr.
      destruct (Z.eqb_spec t (pdo_LastAdminSqTail (ks_pdo s))) as [E|E]; cbn; destruct (cqHead =? pdo_LastAdminCqHead (ks_pdo s)); cbn; congruence.
Qed.

(** What the rest of the poll can see of the queue array. *)
Lemma iosq_insert_facts s1 p l2 Q q t :
  arr_get (pdo_IoSq p) (Q - 1) = Some q -> 1 <= Q ->
  let p' := p <| pdo_IoSq := <[Z.to_nat (Q - 1) := q <| qs_Tail := t |>]> (pdo_IoSq p) |> <| pdo_IoCq := l2 |> in
  let s' := s1 <| ks_pdo := p' |> in let s0 := s1 <| ks_pdo := p |> in
  (forall Q', 0 <= Q' -> queue_created s' Q' = queue_created s0 Q') /\
  (forall Q', 0 <= Q' -> Q' <> Q -> last_tail s' Q' = last_tail s0 Q') /\ last_tail s' Q = Some t.
Proof.
  intros Hq HQ p' s' s0. set (l := <[Z.to_nat (Q - 1) := q <| qs_Tail := t |>]> (pdo_IoSq p)).
  assert (arr_get l (Q - 1) = Some (q <| qs_Tail := t |>)) as H1 by by eapply arr_get_insert_eq.
  assert (forall Q', 1 <= Q' -> Q' <> Q -> arr_get l (Q' - 1) = arr_get (pdo_IoSq p) (Q' - 1)) as H2
    by (intros; apply arr_get_insert_ne; lia).
  assert (pdo_IoSq (ks_pdo s') = l /\ pdo_LastAdminSqTail (ks_pdo s') = pdo_LastAdminSqTail p) as [E1 E2] by by destruct p.
  unfold queue_created, last_tail. rewrite E1, E2. change (ks_pdo s0) with p. repeat split.
  - intros Q' H. destruct (Z.eqb_spec Q' 0); [done|]. destruct (Z.eq_dec Q' Q) as [->|]; [by rewrite H1, Hq | by rewrite H2 by lia].
  - intros Q' H ?. destruct (Z.eqb_spec Q' 0); [done|]. by rewrite H2 by lia.
  - rewrite (proj2 (Z.eqb_neq Q 0)), H1 by lia. done.
Qed.

Lemma process_io_doorbells_run fuel Q hw s m :
  user_mode s m -> is_Some (pdo_Bar0VirtAddr (ks_pdo s)) -> 1 <= Q <= 16 -> is_Some (sq_desc m Q) ->
  is_Some (arr_get (pdo_IoSq (ks_pdo s)) (Q - 1)) -> is_Some (arr_get (pdo_IoCq (ks_pdo s)) (Q - 1)) ->
  exists s' m', process_io_doorbells fuel VNVME_CMD_MODE_USER Q hw s = Ok (hw || rang s Q, s') /\ polled Q (Q + 1) s m s' m'.
Proof.
  intros Hu Hb HQ [sq Hsq] [iosq Hiosq] [iocq Hiocq].
  set (t := tail_of s Q). set (p := ks_pdo s).
  set (s1 := if told s Q then fwd_state Q t sq m s else s).
  assert (Hr : rang s Q = qs_Created iosq && negb (t =? qs_Tail iosq)).
  { unfold rang, queue_created, last_tail. rewrite (proj2 (Z.eqb_neq Q 0)), Hiosq by lia. cbn. fold t. f_equal. f_equal.
    destruct (Z.eqb_spec t (qs_Tail iosq)) as [->|Hne]; [by rewrite bool_decide_eq_true_2 | rewrite bool_decide_eq_false_2; [done | congruence]]. }
  destruct (qs_Created iosq) eqn:Hcr.
  2: { exists s, m. split.
       - unfold process_io_doorbells. cbv zeta. rewrite bind_get, (bind_opt _ _ _ _ Hiosq), Hcr. cbn [negb].
         rewrite Hr. by rewrite orb_false_r.
       - assert (s <| ks_pdo := ks_pdo s |> = s) as Es by by destruct s.
         pose proof (polled_one Q s m sq (ks_pdo s) Hu ltac:(lia) Hsq) as H. unfold told in H. rewrite Hr in H. cbn [andb] in H. cbv zeta in H.
         rewrite Es in H. apply H; try done. unfold queue_created. by rewrite (proj2 (Z.eqb_neq Q 0)), Hiosq, Hcr by lia. }
  cbn [andb] in Hr. destruct (doorbell_read s (Q * 2 + 1) Hb ltac:(lia)) as [cqHead Hcq].
  set (p1 := p <| pdo_IoSq := <[Z.to_nat (Q - 1) := iosq <| qs_Tail := t |>]> (pdo_IoSq p) |>).
  set (l2 := if cqHead =? qs_Head iocq then pdo_IoCq p else <[Z.to_nat (Q - 1) := iocq <| qs_Head := cqHead |>]> (pdo_IoCq p)).
  exists (s1 <| ks_pdo := p1 <| pdo_IoCq := l2 |> |>), (if told s Q then fwd_shm Q t sq m else m). split.
  - unfold process_io_doorbells. cbv zeta. pose proof (tail_of_eq s Q Hb ltac:(lia)) as Ht.
    rewrite bind_get, (bind_opt _ _ _ _ Hiosq), Hcr. cbn [negb]. rewrite (bind_opt _ _ _ _ Ht). fold t.
    erewrite bind_Ok with (a := hw || rang s Q) (s' := s1 <| ks_pdo := p1 |>).
    2: { unfold s1, p1, told. rewrite Hr. destruct (Z.eqb_spec t (qs_Tail iosq)) as [E|E]; cbn [negb andb].
         - rewrite orb_false_r, E. unfold arr_get in Hiosq. rewrite (proj2 (Z.ltb_ge _ _)) in Hiosq by lia.
           rewrite (list_insert_id (pdo_IoSq p)) by (etransitivity; [exact Hiosq|]; by destruct iosq). subst p. by destruct s as [? [] ? ? ? ?].
         - rewrite (bind_Ok _ _ _ _ _ (VnvmeForwardIoCommandsToUser_run Q t s m sq Hu HQ Hsq)), orb_true_r.
           rewrite (bind_Ok _ _ _ _ _ (iosq_update_run (Q - 1) _ (if service_ready s then fwd_state Q t sq m s else s) iosq
             ltac:(by destruct (service_ready s)))). destruct (service_ready s); by destruct s. }
    rewrite bind_get. change (ks_pdo (s1 <| ks_pdo := p1 |>)) with p1.
    assert (doorbell p1 (Q * 2 + 1) = Some cqHead) as H1 by (rewrite <- Hcq; by apply doorbell_pdo).
    rewrite (bind_opt _ _ _ _ H1). change (pdo_IoCq p1) with (pdo_IoCq p). rewrite (bind_opt _ _ _ _ Hiocq). unfold l2.
    destruct (cqHead =? _); [by destruct s1|].
    assert (arr_get (pdo_IoCq (ks_pdo (s1 <| ks_pdo := p1 |>))) (Q - 1) = Some iocq) as H2 by (cbn; exact Hiocq).
    rewrite (bind_Ok _ _ _ _ _ (iocq_update_run (Q - 1) _ _ iocq H2)). by destruct s1.
  - destruct (iosq_insert_facts s1 p l2 Q iosq t Hiosq ltac:(lia)) as (F1 & F2 & F3).
    apply polled_one; try done; try lia.
    + cbn. by rewrite length_insert.
    + cbn [pdo_IoCq]. unfold l2. destruct (cqHead =? qs_Head iocq); cbn; by rewrite ?length_insert.
    + refine (eq_trans F3 _). unfold queue_created. by rewrite (proj2 (Z.eqb_neq Q 0)), Hiosq, Hcr by lia.
Qed.

(** The arrays are the 16 elements of the declarations, the descriptors of the [n] queues exist. *)
Record poll_shape (s : KState) (m : SharedMemory) (n : Z) : Prop := {
  ps_bar0 : is_Some (pdo_Bar0VirtAddr (ks_pdo s));
  ps_count : pdo_IoQueueCount (ks_pdo s) = n /\ 0 <= n <= 16;
  ps_arrays : length (pdo_IoSq (ks_pdo s)) = 16%nat /\ length (pdo_IoCq (ks_pdo s)) = 16%nat;
  ps_descs Q : 1 <= Q <= n -> is_Some (sq_desc m Q)
}.

Lemma existsb_seqZ_cons {f : Z -> bool} lo hi : lo < hi -> existsb f (seqZ lo (hi - lo)) = f lo || existsb f (seqZ (lo + 1) (hi - (lo + 1))).
Proof. intros H. rewrite seqZ_cons by lia. cbn. by replace (Z.pred (hi - lo)) with (hi - (lo + 1)) by lia. Qed.

Lemma io_doorbell_loop_run fuel s0 m0 n : poll_shape s0 m0 n -> forall rounds Q hw s m,
  polled 0 Q s0 m0 s m -> 1 <= Q <= n + 1 -> n + 1 - Q < Z.of_nat rounds ->
  exists s' m', io_doorbell_loop rounds fuel VNVME_CMD_MODE_USER Q hw s =
      Ok (hw || existsb (rang s0) (seqZ Q (n + 1 - Q)), s') /\ polled 0 (n + 1) s0 m0 s' m'.
Proof.
  intros [Hb [Hn Hn16] [Hl1 Hl2] Hdesc] rounds. induction rounds as [|rounds IH]; intros Q hw s m D HQ Hr; [lia|].
  cbn [io_doorbell_loop]. rewrite bind_get, (pl_count _ _ _ _ _ _ D), Hn. destruct (Z.ltb_spec n Q).
  - assert (Q = n + 1) as -> by lia. exists s, m. rewrite Z.sub_diag. change (seqZ (n + 1) 0) with (@nil Z). cbn. by rewrite orb_false_r.
  - destruct (pl_arrays _ _ _ _ _ _ D) as [E1 E2].
    destruct (process_io_doorbells_run fuel Q hw s m) as (s1 & m1 & Hrun & D1).
    + apply D.
    + by rewrite (pl_bar0 _ _ _ _ _ _ D).
    + lia.
    + rewrite (pl_others _ _ _ _ _ _ D) by lia. apply Hdesc. lia.
    + apply arr_get_Some_iff. lia.
    + apply arr_get_Some_iff. lia.
    + rewrite (bind_Ok _ _ _ _ _ Hrun).
      destruct (polled_frame _ _ _ _ _ _ Q D ltac:(lia)) as (_ & Er & _). rewrite (Er ltac:(lia)).
      destruct (IH (Q + 1) (hw || rang s0 Q) s1 m1) as (s' & m' & Hrun' & D'); [|lia..|].
      { by apply (polled_trans 0 Q (Q + 1) s0 m0 s m s1 m1); try lia. }
      exists s', m'. rewrite Hrun', (existsb_seqZ_cons Q) by lia. by rewrite orb_assoc.
Qed.

(** The poll in user mode. *)
Lemma VnvmeProcessDoorbells_user (fuel : nat) (s : KState) (m : SharedMemory) (bar : mem) (n : Z) :
  user_mode s m -> poll_shape s m n ->
  pdo_Bar0VirtAddr (ks_pdo s) = Some bar -> pdo_Registers (ks_pdo s) = true -> pdo_Doorbells (ks_pdo s) = true ->
  load_le bar REG_CC 4 = pdo_CachedCC (ks_pdo s) -> CC_EN (load_le bar REG_CC 4) = true ->
  CSTS_RDY (load_le bar REG_CSTS 4) = true ->
  exists s' m', VnvmeProcessDoorbells fuel s = Ok (existsb (rang s) (seqZ 0 (n + 1)), s') /\
    polled 0 (n + 1) s m s' m' /\ forall Q, 0 <= Q <= n -> rang s' Q = false.
Proof.
  intros Hu Hsh Hbar Hreg Hdb Hcc Hen Hrdy. unfold VnvmeProcessDoorbells. rewrite bind_get, Hreg, Hdb. cbn [negb orb]. cbv zeta.
  pose proof (um_mode _ _ Hu) as Hmode. destruct (ks_fdo s) as [d|] eqn:Hd; [|done]. injection Hmode as ->.
  pose proof (process_cc_eq s bar Hbar) as Hpc. cbv zeta in Hpc. rewrite Hcc, Z.eqb_refl in Hpc.
  rewrite (bind_Ok _ _ _ _ _ Hpc), bind_get.
  rewrite (bind_opt _ _ _ _ (bar0_load_eq s bar REG_CC 4 Hbar ltac:(done) ltac:(done))).
  rewrite (bind_opt _ _ _ _ (bar0_load_eq s bar REG_CSTS 4 Hbar ltac:(done) ltac:(done))), Hen, Hrdy. cbn [negb andb].
  destruct (process_admin_doorbells_run fuel false s m Hu (ps_bar0 _ _ _ Hsh)) as (s1 & m1 & Hrun & D1).
  rewrite (bind_Ok _ _ _ _ _ Hrun). pose proof (ps_count _ _ _ Hsh) as [_ Hn].
  destruct (io_doorbell_loop_run fuel s m n Hsh 17 1 (false || rang s 0) s1 m1 D1) as (s' & m' & Hrun' & D'); [lia..|].
  exists s', m'. split; [|split; [done|]].
  - rewrite Hrun'. do 2 f_equal. replace (n + 1) with (n + 1 - 0) at 2 by lia. rewrite (existsb_seqZ_cons 0 (n + 1)) by lia. done.
  - intros Q HQ. apply (polled_frame _ _ _ _ _ _ Q D'); lia.
Qed.

(** C26: in user mode, with the shared memory there, its notify ring in order and its descriptors in place, one poll of a
    controller with its BAR 0 and register pages, at most 16 I/O queues, and enabled and ready (CC.EN and CSTS.RDY, CC as
    it was last seen) always ends, says whether any queue was rung since the last poll, and leaves none rung: the driver
    remembers the tails.
    If the service has reported that it is ready, every queue that was rung is handed over to it: its submission queue's
    descriptor gets the doorbell's tail, and a notification is pushed for it, in the order of the queues, as long as the
    notify ring has room.  If the service is not ready (the state the driver starts in, although user mode is the
    default) nothing is handed over: no descriptor changes and no notification is pushed, now or at a later poll, since
    the tails count as seen.  In both cases the descriptors of queues that were not rung, the completion queues' and the
    bytes of queue memory are untouched. *)
Theorem VnvmeProcessDoorbells_forwards (fuel : nat) (s : KState) (m : SharedMemory) (bar : mem) (n : Z) :
  user_mode s m -> poll_shape s m n ->
  pdo_Bar0VirtAddr (ks_pdo s) = Some bar -> pdo_Registers (ks_pdo s) = true -> pdo_Doorbells (ks_pdo s) = true ->
  load_le bar REG_CC 4 = pdo_CachedCC (ks_pdo s) -> CC_EN (load_le bar REG_CC 4) = true ->
  CSTS_RDY (load_le bar REG_CSTS 4) = true ->
  exists s' m', VnvmeProcessDoorbells fuel s = Ok (existsb (rang s) (seqZ 0 (n + 1)), s') /\
    polled 0 (n + 1) s m s' m' /\ forall Q, 0 <= Q <= n -> rang s' Q = false.
Proof. apply VnvmeProcessDoorbells_user. Qed.
End Doorbell.

(** ** Witnesses *)

#[local] Existing Instances TestKernel.

(** The state of [Recovery] before the crash is noticed, and a second controller
    that has created I/O queue 1 as well. *)
Definition silent_state : @KState TestKernel :=
  crash_state <| ks_time := 10000000000 |>
    <| ks_fdo ::= option_map (fun d => d <| fdo_UserReady := true |> <| fdo_CommandMode := VNVME_CMD_MODE_USER |>) |>.
Definition silent_children : ChildDeviceList := [None; Some (ks_pdo crash_state)].

Lemma CheckUserModeHeartbeat_switches_witness :
  exists children' own' m',
    CheckUserModeHeartbeat silent_children silent_state =
      Ok (children', fdo_map switched (abort_errors 7 (with_parts m' own' silent_state))) /\
    drained (in_use silent_children (ks_pdo silent_state) crash_shm) crash_shm m'.
Proof.
  assert (controller_shape (ks_pdo crash_state) crash_shm) as Hsh by by apply crash_shape.
  assert (forall Q, in_use silent_children (ks_pdo silent_state) crash_shm Q = true -> Q = 0 \/ Q = 1) as HA.
  { intros Q H. assert (aborts (ks_pdo crash_state) crash_shm Q = true) as H' by (revert H; cbn; by destruct (aborts _ _ _)).
    by apply (crash_queues (ks_pdo crash_state)). }
  assert (total_pending (in_use silent_children (ks_pdo silent_state) crash_shm) crash_shm = 7) as E by by vm_compute.
  destruct (CheckUserModeHeartbeat_switches silent_state _ silent_children eq_refl) as [_ H].
  destruct (H eq_refl eq_refl eq_refl crash_shm eq_refl Hsh) as (children' & own' & m' & Hrun & D & _);
    [apply Forall_cons_2; [exact Hsh|]; apply Forall_cons_2; [exact Hsh|]; by apply Forall_nil_2|by apply crash_ready|by apply crash_apart|].
  exists children', own', m'. rewrite E in Hrun. split; [exact Hrun|exact D].
Defined.

(** A ready controller; admin doorbell 5 and the doorbell of I/O queue 1, 3, are rung. *)
Definition rung_bar (cc csts : Z) : mem :=
  let m := store_le (init_registers mem_zero) REG_CC 4 cc in
  let m := store_le m REG_CSTS 4 csts in
  let m := store_le m DOORBELL_BASE 4 5 in
  store_le m (DOORBELL_BASE + 8) 4 3.
Definition rung_state (cc csts cached : Z) : @KState TestKernel :=
  (test_state test_shm mem_zero)
    <| ks_fdo ::= option_map (fun d => d <| fdo_UserReady := true |> <| fdo_CommandMode := VNVME_CMD_MODE_USER |>) |>
    <| ks_pdo ::= fun p => p <| pdo_Bar0VirtAddr := Some (rung_bar cc csts) |> <| pdo_Bar0Size := VNVME_BAR0_SIZE |>
         <| pdo_Registers := true |> <| pdo_Doorbells := true |> <| pdo_CachedCC := cached |> <| pdo_IoQueueCount := 1 |>
         <| pdo_IoSq := (zero_queue <| qs_Created := true |>) :: replicate 15 zero_queue |> |>.

Lemma VnvmeProcessDoorbells_handshake_witness :
  exists s', process_cc (rung_state 1 0 0) = Ok (true, s') /\ CSTS_RDY (reg32 s' REG_CSTS) = true /\
    pdo_LastAdminSqTail (ks_pdo s') = 0.
Proof.
  destruct (VnvmeProcessDoorbells_handshake 0 (rung_state 1 0 0) (rung_bar 1 0) eq_refl eq_refl eq_refl eq_refl)
    as (p & Hrun & _ & Hrdy & _ & Hen & _).
  exists ((rung_state 1 0 0) <| ks_pdo := p |>). split; [exact Hrun|]. split; [exact Hrdy|].
  exact (proj1 (proj2 (proj2 (proj2 (proj2 (Hen eq_refl eq_refl)))))).
Defined.

Lemma rung_user : user_mode (rung_state 1 1 1) test_shm.
Proof. split; [reflexivity|reflexivity|exact test_ring_ok|discriminate|discriminate]. Qed.

Lemma rung_shape : poll_shape (rung_state 1 1 1) test_shm 1.
Proof.
  split; [by eexists|by split|by split|]. intros Q HQ. assert (Q = 1) as -> by lia. by eexists.
Qed.

Lemma VnvmeProcessDoorbells_forwards_witness :
  exists s' m', VnvmeProcessDoorbells 0 (rung_state 1 1 1) = Ok (true, s') /\
    VnvmeShmGetControlBlock s' = Some m' /\ ring_contents (shm_ring m') = [mkNotifyEntry 0 0 5; mkNotifyEntry 1 0 3].
Proof.
  destruct (VnvmeProcessDoorbells_forwards 0 (rung_state 1 1 1) test_shm (rung_bar 1 1) 1 rung_user rung_shape
    eq_refl eq_refl eq_refl eq_refl eq_refl eq_refl) as (s' & m' & Hrun & D & _).
  exists s', m'. split; [exact Hrun|]. split; [exact (um_shm _ _ (pl_user _ _ _ _ _ _ D))|].
  rewrite (pl_ring _ _ _ _ _ _ D). vm_compute. reflexivity.
Defined.
