(* ===== verification/Mapping.v ===== *)
(** What the polling timer's callback leaves alone: whatever commands it executes
    or hands over, it neither maps nor unmaps a controller's BAR0 and
    configuration space, and neither creates nor stops its timer.

    A computation of the driver that does this is said to keep the mapping; the
    functions of the command path are built from parts that do. *)
From S2P Require Import Prelude NvmeSpec Kernel Config Storage State Shm Prp Queue Bar0 AdminCmd IoCmd UserForward Recovery Doorbell.
Open Scope Z_scope.
Open Scope c_scope.

Section Mapping.
Context {W : WinKernel}.

(** What is mapped, and whether there is a timer and it runs. *)
Definition mapping (p : VNVME_PDO_CONTEXT) : bool * Z * Z * bool * bool * bool * Z * bool * bool :=
  (bool_decide (is_Some (pdo_Bar0VirtAddr p)), pdo_Bar0PhysAddr p, pdo_Bar0Size p, pdo_Registers p, pdo_Doorbells p,
   bool_decide (is_Some (pdo_PcieConfig p)), pdo_PcieConfigSize p, pdo_PollingTimer p, pdo_PollingActive p).

Definition keeps_mapping {A} (m : M KState A) : Prop := forall s a s', m s = Ok (a, s') -> mapping (ks_pdo s') = mapping (ks_pdo s).

Lemma km_bind {A B} (m : M KState A) (f : A -> M KState B) : keeps_mapping m -> (forall a, keeps_mapping (f a)) -> keeps_mapping (m ≫= f).
Proof. intros Hm Hf s b s' (a & s1 & E1 & E2)%bind_inv. rewrite (Hf _ _ _ _ E2). by eapply Hm. Qed.
Lemma km_ret {A} (a : A) : keeps_mapping (mret a).
Proof. by intros s b s' [= <- <-]. Qed.
Lemma km_get : keeps_mapping get.
Proof. by intros s b s' [= <- <-]. Qed.
Lemma km_opt {A} (o : option A) : keeps_mapping (of_opt o).
Proof. intros s b s' E. destruct o; [by injection E as <- <-|done]. Qed.
Lemma km_res {A} (r : res A) : keeps_mapping (of_res r).
Proof. intros s b s' E. destruct r; [by injection E as <- <-|done|done]. Qed.
Lemma km_fault {A} : keeps_mapping (fault (A := A)).
Proof. by intros s b s' E. Qed.
Lemma km_fuel {A} : keeps_mapping (out_of_fuel (A := A)).
Proof. by intros s b s' E. Qed.
Lemma km_modify f : (forall s, mapping (ks_pdo (f s)) = mapping (ks_pdo s)) -> keeps_mapping (modify f).
Proof. by intros Hf s a s' [= <- <-]. Qed.
Lemma km_pdo f : (forall p, mapping (f p) = mapping p) -> keeps_mapping (pdo_update f).
Proof. intros Hf. apply km_modify. intros []. apply Hf. Qed.
Lemma km_fdo f : keeps_mapping (fdo_update f).
Proof. apply km_modify. by intros []. Qed.

Lemma km_bar0 off n v : keeps_mapping (bar0_store off n v).
Proof.
  unfold bar0_store. intros s u s' E. rewrite bind_get in E. destruct (pdo_Bar0VirtAddr (ks_pdo s)) as [m|] eqn:Hm; [|done].
  rewrite (bind_opt _ _ _ _ eq_refl) in E. destruct (in_block _ _ _); [|done]. injection E as <- <-.
  unfold mapping. destruct s as [? [] ? ? ? ?]. cbn in *. by subst.
Qed.

Lemma km_alloc n : keeps_mapping (alloc n).
Proof. by intros [] a s' [= <- <-]. Qed.
Lemma km_map_io pa n : keeps_mapping (map_io pa n).
Proof. by intros [] a s' [= <- <-]. Qed.

Create HintDb mapping.
Hint Resolve km_ret km_get km_opt km_res km_fault km_fuel km_fdo km_bar0 km_alloc km_map_io : mapping.
#[local] Hint Extern 1 (keeps_mapping (pdo_update _)) => (apply km_pdo; intros []; first [reflexivity | case_match; reflexivity]) : mapping.
#[local] Hint Extern 1 (keeps_mapping (modify _)) => (apply km_modify; intros []; reflexivity) : mapping.
#[local] Hint Extern 1 (keeps_mapping (shm_update _)) => apply km_fdo : mapping.
#[local] Hint Extern 1 (keeps_mapping (cb_update _)) => apply km_fdo : mapping.

(** Go through a computation; what its parts are is a hint. *)
Ltac go_mapping :=
  repeat first
    [ progress auto with mapping nocore
    | lazymatch goal with
      | |- keeps_mapping (_ ≫= _) => apply km_bind; [|intros ?]
      | |- keeps_mapping (if ?b then _ else _) => destruct b
      | |- keeps_mapping (match ?x with _ => _ end) => destruct x
      | |- keeps_mapping (let '_ := ?x in _) => destruct x
      end
    | progress cbv zeta ].

(** ** The queues *)

Lemma km_iosq i f : keeps_mapping (iosq_update i f).
Proof. unfold iosq_update. go_mapping. Qed.
Lemma km_iocq i f : keeps_mapping (iocq_update i f).
Proof. unfold iocq_update. go_mapping. Qed.
Lemma km_store f : keeps_mapping (shm_store f).
Proof. unfold shm_store. go_mapping. Qed.
Hint Resolve km_iosq km_iocq km_store : mapping.

Lemma km_sq_state Q f : keeps_mapping (sq_state_update Q f).
Proof. unfold sq_state_update. go_mapping. Qed.
Lemma km_cq_state Q f : keeps_mapping (cq_state_update Q f).
Proof. unfold cq_state_update. go_mapping. Qed.
Lemma km_check s Q l : keeps_mapping (check_io_queue s Q l).
Proof. unfold check_io_queue. go_mapping. Qed.
Hint Resolve km_sq_state km_cq_state km_check : mapping.

Lemma km_fetch Q : keeps_mapping (VnvmeFetchCommand Q).
Proof. unfold VnvmeFetchCommand. go_mapping. Qed.
Lemma km_post Q c : keeps_mapping (VnvmePostCompletion Q c).
Proof. unfold VnvmePostCompletion. go_mapping. Qed.
Lemma km_init_queues : keeps_mapping VnvmeInitializeAdminQueues.
Proof. unfold VnvmeInitializeAdminQueues. go_mapping. Qed.
Lemma km_create_sq a b c d : keeps_mapping (VnvmeCreateIoSubmissionQueue a b c d).
Proof. unfold VnvmeCreateIoSubmissionQueue. go_mapping. Qed.
Lemma km_create_cq a b c d : keeps_mapping (VnvmeCreateIoCompletionQueue a b c d).
Proof. unfold VnvmeCreateIoCompletionQueue. go_mapping. Qed.
Lemma km_delete_sq a : keeps_mapping (VnvmeDeleteIoSubmissionQueue a).
Proof. unfold VnvmeDeleteIoSubmissionQueue. go_mapping. Qed.
Lemma km_delete_cq a : keeps_mapping (VnvmeDeleteIoCompletionQueue a).
Proof. unfold VnvmeDeleteIoCompletionQueue. go_mapping. Qed.
Hint Resolve km_fetch km_post km_init_queues km_create_sq km_create_cq km_delete_sq km_delete_cq : mapping.

(** ** Memory of the host *)

Lemma km_prp_list a b c : keeps_mapping (VnvmeParsePrpList a b c).
Proof. unfold VnvmeParsePrpList. go_mapping. Qed.
Lemma km_write_host a b c : keeps_mapping (VnvmeWriteToHostMemory a b c).
Proof. unfold VnvmeWriteToHostMemory. go_mapping. Qed.
Lemma km_read_host a b c : keeps_mapping (VnvmeReadFromHostMemory a b c).
Proof. unfold VnvmeReadFromHostMemory. go_mapping. Qed.
Hint Resolve km_prp_list km_write_host km_read_host : mapping.

(** ** Admin commands *)

Lemma km_return_data c d n : keeps_mapping (return_data c d n).
Proof. unfold return_data, PostSuccessCompletion, PostErrorCompletion. go_mapping. Qed.
Hint Resolve km_return_data : mapping.

Lemma km_admin_command c : keeps_mapping (VnvmeProcessAdminCommand c).
Proof.
  unfold VnvmeProcessAdminCommand, admin_dispatch, HandleIdentify, HandleIdentifyController, HandleIdentifyNamespace, HandleIdentifyActiveNsList,
    HandleCreateIoCq, HandleCreateIoSq, HandleDeleteIoCq, HandleDeleteIoSq, HandleSetFeatures, HandleGetFeatures, HandleAbort,
    HandleAsyncEventRequest, HandleGetLogPage, HandleKeepAlive, PostSuccessCompletion, PostErrorCompletion. go_mapping.
Qed.
Hint Resolve km_admin_command : mapping.

Lemma km_admin_loop fuel : forall h t n, keeps_mapping (admin_loop fuel h t n).
Proof. induction fuel; intros; cbn [admin_loop]; go_mapping. Qed.
Hint Resolve km_admin_loop : mapping.
Lemma km_admin fuel t : keeps_mapping (VnvmeProcessAdminCommands fuel t).
Proof. unfold VnvmeProcessAdminCommands. go_mapping. Qed.

(** ** I/O commands *)

Lemma km_post_io a b c d : keeps_mapping (PostIoCompletion a b c d).
Proof. unfold PostIoCompletion. go_mapping. Qed.
Hint Resolve km_post_io : mapping.
Lemma km_count : keeps_mapping count_io.
Proof. apply km_pdo. by intros []. Qed.
Hint Resolve km_count : mapping.
Lemma km_ns_update n f : keeps_mapping (ns_update n f).
Proof. unfold ns_update. go_mapping. Qed.
Lemma km_namespace n : keeps_mapping (io_namespace n).
Proof. unfold io_namespace. go_mapping. Qed.
Hint Resolve km_ns_update km_namespace : mapping.
Lemma km_write_success a b c : keeps_mapping (write_success a b c).
Proof. unfold write_success, count_io. go_mapping. Qed.
Hint Resolve km_write_success : mapping.
Lemma km_to_host l : forall src base n off, keeps_mapping (prp_to_host l src base n off).
Proof. induction l; intros; cbn [prp_to_host]; go_mapping. Qed.
Lemma km_from_host l : forall dst base n off, keeps_mapping (prp_from_host l dst base n off).
Proof. induction l; intros; cbn [prp_from_host]; go_mapping. Qed.
Hint Resolve km_to_host km_from_host : mapping.
Lemma km_zero_range n a b : keeps_mapping (zero_storage_range n a b).
Proof. unfold zero_storage_range, current_storage, set_storage. go_mapping. Qed.
Hint Resolve km_zero_range : mapping.
Lemma km_zeroes_loop fuel : forall n a b, keeps_mapping (write_zeroes_loop fuel n a b).
Proof. induction fuel; intros; cbn [write_zeroes_loop]; go_mapping. Qed.
Lemma km_dsm_loop k : forall n ns r i, keeps_mapping (dsm_loop k n ns r i).
Proof. induction k; intros; cbn [dsm_loop]; go_mapping. Qed.
Hint Resolve km_zeroes_loop km_dsm_loop : mapping.

Lemma km_io_command Q c : keeps_mapping (VnvmeProcessIoCommand Q c).
Proof.
  unfold VnvmeProcessIoCommand. repeat case_match.
  all: unfold HandleRead, HandleWrite, HandleFlush, HandleWriteZeroes, HandleDatasetManagement, HandleCompare, read_source,
    select_target, current_storage, set_storage, count_io; go_mapping.
Qed.
Hint Resolve km_io_command : mapping.

Lemma km_io_loop fuel : forall Q h t n, keeps_mapping (io_loop fuel Q h t n).
Proof. induction fuel; intros; cbn [io_loop]; go_mapping. Qed.
Hint Resolve km_io_loop : mapping.
Lemma km_io fuel Q t : keeps_mapping (VnvmeProcessIoCommands fuel Q t).
Proof. unfold VnvmeProcessIoCommands. go_mapping. Qed.
Hint Resolve km_admin km_io : mapping.

(** ** Forwarding and recovery *)

Lemma km_push a b c : keeps_mapping (NotifyRingPush a b c).
Proof. unfold NotifyRingPush. go_mapping. Qed.
Hint Resolve km_push : mapping.
Lemma km_forward_admin t : keeps_mapping (VnvmeForwardAdminCommandsToUser t).
Proof. unfold VnvmeForwardAdminCommandsToUser, SignalUserMode. go_mapping. Qed.
Lemma km_forward_io Q t : keeps_mapping (VnvmeForwardIoCommandsToUser Q t).
Proof. unfold VnvmeForwardIoCommandsToUser, SignalUserMode. go_mapping. Qed.
Lemma km_on_shm {A} (f : M SharedMemory A) : keeps_mapping (on_shm f).
Proof. unfold on_shm. go_mapping. Qed.
Hint Resolve km_forward_admin km_forward_io km_on_shm : mapping.
Lemma km_abort_io_loop n : forall i c, keeps_mapping (abort_io_loop n i c).
Proof. induction n; intros; cbn [abort_io_loop]; unfold abort_io; go_mapping. Qed.
Hint Resolve km_abort_io_loop : mapping.
Lemma km_abort : keeps_mapping VnvmeAbortPendingUserCommands.
Proof. unfold VnvmeAbortPendingUserCommands, abort_admin. go_mapping. Qed.
Hint Resolve km_abort : mapping.

(** The other controllers' turns: the controller itself is put back. *)
Lemma km_children l : keeps_mapping (abort_children l).
Proof.
  induction l as [|[p|] l IH]; cbn [abort_children]; [go_mapping| |go_mapping].
  intros s r s' E. rewrite (bind_Ok _ _ _ _ _ (swap_pdo_run p s)) in E. apply bind_inv in E as (n & s1 & _ & E).
  rewrite (bind_Ok _ _ _ _ _ (swap_pdo_run (ks_pdo s) s1)) in E. apply bind_inv in E as (l1 & s2 & E2 & E). injection E as <- <-.
  exact (IH _ _ _ E2).
Qed.
Hint Resolve km_children : mapping.

(** ** The callback *)

Lemma km_process_cc : keeps_mapping process_cc.
Proof. unfold process_cc. go_mapping. Qed.
Lemma km_admin_doorbells fuel mode hw : keeps_mapping (process_admin_doorbells fuel mode hw).
Proof. unfold process_admin_doorbells. go_mapping. Qed.
Hint Resolve km_process_cc km_admin_doorbells : mapping.
Lemma km_io_doorbells rounds : forall fuel mode Q hw, keeps_mapping (io_doorbell_loop rounds fuel mode Q hw).
Proof. induction rounds; intros; cbn [io_doorbell_loop]; unfold process_io_doorbells; go_mapping. Qed.
Hint Resolve km_io_doorbells : mapping.

Lemma km_timer children fuel : keeps_mapping (VnvmeEvtPollingTimer children fuel).
Proof. unfold VnvmeEvtPollingTimer, CheckUserModeHeartbeat, VnvmeProcessDoorbells, AdjustPollingInterval. go_mapping. Qed.
End Mapping.
