(* ===== verification/Pdo.v ===== *)
(** The controller's device object: [vnvme/pdo.c], with the string functions of
    [vnvme/utils.c].

    The PnP and power callbacks put BAR0, the configuration space and the
    polling timer of a controller in place and take them away again; the query
    functions describe the device.  A wide string is the list of its WCHARs;
    the formatting functions are those of the C runtime. *)
From S2P Require Import Prelude NvmeSpec Kernel Config Storage State Shm Bar0 PcieConfig Doorbell Mapping.
From stdpp Require Import pretty.
Open Scope Z_scope.
Open Scope c_scope.

(** ** Wide strings *)

(** The WCHARs of a literal, without the terminator. *)
Definition wide (s : string) : list Z := (fun c => Z.of_N (Ascii.N_of_ascii c)) <$> String.list_ascii_of_string s.

(** [%lu] *)
Definition lu (v : Z) : string := pretty (Z.to_N v).

(** RtlStringCbPrintfW into a buffer of [cap] WCHARs: it fails, and truncates,
    when the text and its terminator do not fit. *)
Definition STATUS_BUFFER_OVERFLOW : NTSTATUS := STATUS_EXTERNAL 0x80000005.
Definition RtlStringCbPrintfW (cap : nat) (text : string) : NTSTATUS * list Z :=
  if decide (String.length text < cap)%nat then (STATUS_SUCCESS, wide text)
  else (STATUS_BUFFER_OVERFLOW, take (cap - 1) (wide text)).

Section Strings.
Context {W : WinKernel}.

(** The new string, with its terminator; [None] is NULL. *)
Definition VnvmeAllocateString (SourceString : option (list Z)) : M KState (option (list Z)) :=
  match SourceString with
  | None => mret None
  | Some str =>
      ok ← alloc ((Z.of_nat (length str) + 1) * 2);
      mret (if (ok : bool) then Some (str ++ [0]) else None)
  end.

Definition VnvmeAllocateMultiString (String1 String2 : option (list Z)) : M KState (option (list Z)) :=
  match String1 with
  | None => mret None
  | Some str1 =>
      let len1 := (Z.of_nat (length str1) + 1) * 2 in
      let len2 := match String2 with Some str2 => (Z.of_nat (length str2) + 1) * 2 | None => 0 end in
      ok ← alloc (len1 + len2 + 2);
      mret (if (ok : bool) then Some ((str1 ++ [0]) ++ (match String2 with Some str2 => str2 ++ [0] | None => [] end) ++ [0]) else None)
  end.
End Strings.

(** ** PnP and power callbacks *)

Definition VNVME_PDO_DEVICE_ID : string := "PCI\VEN_1B36&DEV_0010".
Definition VNVME_HARDWARE_ID : string := "PCI\VEN_1B36&DEV_0010&REV_01".
Definition VNVME_COMPATIBLE_ID : string := "PCI\CC_010802".
Definition VNVME_DEVICE_DESCRIPTION : string := "Virtual NVMe Controller".
Definition VNVME_DEVICE_LOCATION : string := "Virtual Bus".

Section Pdo.
Context {W : WinKernel}.

(** [timer] is the status of WdfTimerCreate. *)
Definition VnvmePdoEvtDevicePrepareHardware (timer : NTSTATUS) : M KState NTSTATUS :=
  status ← VnvmeAllocateBar0;
  if negb (NT_SUCCESS status) then mret status
  else
    VnvmeInitializeBar0Registers;;
    status ← VnvmeAllocatePcieConfig;
    if negb (NT_SUCCESS status) then VnvmeFreeBar0;; mret status
    else
      VnvmeInitializePcieConfig;;
      status ← VnvmeInitializePollingTimer timer;
      if negb (NT_SUCCESS status) then VnvmeFreePcieConfig;; VnvmeFreeBar0;; mret status
      else mret STATUS_SUCCESS.

(** The calls of the timer functions that start or stop the WDF timer have no
    effect on the controller. *)
Definition VnvmePdoEvtDeviceReleaseHardware : M KState NTSTATUS :=
  VnvmeStopPollingTimer;;
  VnvmeFreePcieConfig;;
  VnvmeFreeBar0;;
  mret STATUS_SUCCESS.

Definition VnvmePdoEvtDeviceD0Entry : M KState NTSTATUS :=
  VnvmeStartPollingTimer;;
  mret STATUS_SUCCESS.

Definition VnvmePdoEvtDeviceD0Exit : M KState NTSTATUS :=
  VnvmeStopPollingTimer;;
  mret STATUS_SUCCESS.

(** ** Queries *)

Inductive BUS_QUERY_ID_TYPE : Type :=
  | BusQueryDeviceID
  | BusQueryHardwareIDs
  | BusQueryCompatibleIDs
  | BusQueryInstanceID
  | BusQueryOther.

(** The status, and [*DeviceId]. *)
Definition VnvmePdoQueryDeviceId (IdType : BUS_QUERY_ID_TYPE) : M KState (NTSTATUS * option (list Z)) :=
  s ← get;
  '(status, id) ←
    match IdType with
    | BusQueryDeviceID =>
        id ← VnvmeAllocateString (Some (wide VNVME_PDO_DEVICE_ID));
        mret (STATUS_SUCCESS, id)
    | BusQueryHardwareIDs =>
        id ← VnvmeAllocateMultiString (Some (wide VNVME_HARDWARE_ID)) (Some (wide VNVME_COMPATIBLE_ID));
        mret (STATUS_SUCCESS, id)
    | BusQueryCompatibleIDs =>
        id ← VnvmeAllocateMultiString (Some (wide VNVME_COMPATIBLE_ID)) None;
        mret (STATUS_SUCCESS, id)
    | BusQueryInstanceID =>
        let '(status, instanceId) := RtlStringCbPrintfW 16 (lu (pdo_ControllerId (ks_pdo s))) in
        if NT_SUCCESS status then
          id ← VnvmeAllocateString (Some instanceId);
          mret (status, id)
        else mret (status, None)
    | BusQueryOther => mret (STATUS_NOT_SUPPORTED, None)
    end;
  mret (match id with
        | None => (if NT_SUCCESS status then STATUS_INSUFFICIENT_RESOURCES else status, None)
        | Some _ => (status, id)
        end).

Inductive DEVICE_TEXT_TYPE : Type :=
  | DeviceTextDescription
  | DeviceTextLocationInformation
  | DeviceTextOther.

(** The status, and [*DeviceText]. *)
Definition VnvmePdoQueryDeviceText (TextType : DEVICE_TEXT_TYPE) : M KState (NTSTATUS * option (list Z)) :=
  s ← get;
  '(status, text) ←
    match TextType with
    | DeviceTextDescription =>
        let '(status, description) :=
          RtlStringCbPrintfW 128 (VNVME_DEVICE_DESCRIPTION +:+ " #" +:+ lu (pdo_ControllerId (ks_pdo s))) in
        if NT_SUCCESS status then
          text ← VnvmeAllocateString (Some description);
          mret (status, text)
        else mret (status, None)
    | DeviceTextLocationInformation =>
        text ← VnvmeAllocateString (Some (wide VNVME_DEVICE_LOCATION));
        mret (STATUS_SUCCESS, text)
    | DeviceTextOther => mret (STATUS_NOT_SUPPORTED, None)
    end;
  mret (match text with
        | None => (if NT_SUCCESS status then STATUS_INSUFFICIENT_RESOURCES else status, None)
        | Some _ => (status, text)
        end).

(** The fields of DEVICE_CAPABILITIES the driver sets. *)
Record DEVICE_CAPABILITIES := mkCapabilities {
  dc_Size : Z;
  dc_Version : Z;
  dc_DeviceD1 : bool;
  dc_DeviceD2 : bool;
  dc_LockSupported : bool;
  dc_EjectSupported : bool;
  dc_Removable : bool;
  dc_DockDevice : bool;
  dc_UniqueID : bool;
  dc_SilentInstall : bool;
  dc_RawDeviceOK : bool;
  dc_SurpriseRemovalOK : bool;
  dc_WakeFromD : list bool;  (* WakeFromD0 to WakeFromD3 *)
  dc_HardwareDisabled : bool;
  dc_NoDisplayInUI : bool;
  dc_DeviceState : list Z;  (* PowerSystemWorking, Sleeping1 .. 3, Hibernate, Shutdown: the D state *)
  dc_SystemWake : Z;
  dc_DeviceWake : Z;
  dc_D1Latency : Z;
  dc_D2Latency : Z;
  dc_D3Latency : Z;
  dc_Address : Z;
  dc_UINumber : Z
}.

Definition sizeof_DEVICE_CAPABILITIES : Z := 64.
Definition PowerDeviceUnspecified : Z := 0.
Definition PowerDeviceD0 : Z := 1.
Definition PowerDeviceD3 : Z := 4.
Definition PowerSystemUnspecified : Z := 0.

Definition VnvmePdoQueryCapabilities (p : VNVME_PDO_CONTEXT) (c : DEVICE_CAPABILITIES) : NTSTATUS * DEVICE_CAPABILITIES :=
  if (dc_Version c <? 1) || (dc_Size c <? sizeof_DEVICE_CAPABILITIES) then (STATUS_UNSUCCESSFUL, c)
  else
    (STATUS_SUCCESS,
     mkCapabilities (dc_Size c) (dc_Version c) false false false true true false true true false true
       [false; false; false; false] false false
       [PowerDeviceD0; PowerDeviceD3; PowerDeviceD3; PowerDeviceD3; PowerDeviceD3; PowerDeviceD3]
       PowerSystemUnspecified PowerDeviceUnspecified 0 0 0 (pdo_ControllerId p) (pdo_ControllerId p)).

(** A PNP_BUS_INFORMATION: the GUID, the legacy bus type, the number. *)
Inductive BUS_TYPE := GUID_BUS_TYPE_PCI.
Inductive INTERFACE_TYPE := PCIBus.
Definition VnvmePdoQueryBusInformation : M KState (NTSTATUS * option (BUS_TYPE * INTERFACE_TYPE * Z)) :=
  ok ← alloc 24;
  if negb ok then mret (STATUS_INSUFFICIENT_RESOURCES, None)
  else mret (STATUS_SUCCESS, Some (GUID_BUS_TYPE_PCI, PCIBus, 0)).

(** The one memory range of a requirements list: minimum, maximum, length,
    alignment, and the slot number of the list. *)
Record MemoryRequirement := mkMemoryRequirement {
  mr_SlotNumber : Z;
  mr_MinimumAddress : Z;
  mr_MaximumAddress : Z;
  mr_Length : Z;
  mr_Alignment : Z
}.

Definition VnvmePdoQueryResourceRequirements : M KState (NTSTATUS * option MemoryRequirement) :=
  s ← get;
  ok ← alloc 72;
  if negb ok then mret (STATUS_INSUFFICIENT_RESOURCES, None)
  else mret (STATUS_SUCCESS,
    Some (mkMemoryRequirement (pdo_ControllerId (ks_pdo s)) 0 (2 ^ 64 - 1) VNVME_BAR0_SIZE VNVME_BAR0_SIZE)).

(** The allocated resources: the start and the length of the one memory range. *)
Definition VnvmePdoQueryResources : M KState (NTSTATUS * option (Z * Z)) :=
  s ← get;
  match pdo_Bar0VirtAddr (ks_pdo s) with
  | None => mret (STATUS_SUCCESS, None)
  | Some _ =>
      ok ← alloc 36;
      if negb ok then mret (STATUS_INSUFFICIENT_RESOURCES, None)
      else mret (STATUS_SUCCESS, Some (pdo_Bar0PhysAddr (ks_pdo s), u32 (pdo_Bar0Size (ks_pdo s))))
  end.

(** ** What the callbacks guarantee *)

(** Neither BAR0 nor the configuration space is allocated or mapped.  (The timer
    object is not part of it: nothing deletes it before the device is.) *)
Definition hardware_free (p : VNVME_PDO_CONTEXT) : Prop :=
  pdo_Bar0VirtAddr p = None /\ pdo_Bar0PhysAddr p = 0 /\ pdo_Bar0Size p = 0 /\ pdo_Registers p = false /\
  pdo_Doorbells p = false /\ pdo_PcieConfig p = None /\ pdo_PcieConfigSize p = 0.

(** The host sees a disabled NVMe controller, and the poll can run. *)
Definition hardware_ready (s : KState) : Prop :=
  let p := ks_pdo s in
  bar0_ok p /\ pdo_Registers p = true /\ pdo_Doorbells p = true /\ pdo_CachedCC p = 0 /\
  CC_EN (reg32 s REG_CC) = false /\ CSTS_RDY (reg32 s REG_CSTS) = false /\ reg32 s REG_VS = 0x00010400 /\
  (exists config, config_space s = Some config /\ identity config = nvme_identity) /\
  pdo_PollingTimer p = true /\ pdo_PollingIntervalUs p = cfg_DoorbellPollIntervalUs (ks_cfg s).

(** The controller as both initialisations of its registers leave it. *)
Definition bar0_initialized (s : KState) : KState := (with_bar0 (init_registers (init_registers mem_zero)) (bar0_allocated s))
  <| ks_pdo ::= fun p => p <| pdo_Registers := true |> <| pdo_Doorbells := true |> <| pdo_CachedCC := 0 |> |>.

Lemma bar0_initialized_run s : VnvmeInitializeBar0Registers (bar0_allocated s) = Ok (tt, bar0_initialized s).
Proof. apply VnvmeInitializeBar0Registers_ok. by destruct s as [? [] ? ? ? ?]. Qed.

(** VnvmePdoEvtDevicePrepareHardware puts everything in place or, when an
    allocation or the creation of the timer fails, releases what it had allocated. *)
Lemma VnvmePdoEvtDevicePrepareHardware_run timer s :
  wp (VnvmePdoEvtDevicePrepareHardware timer) s (fun st s' =>
    pdo_PollingActive (ks_pdo s') = pdo_PollingActive (ks_pdo s) /\ pdo_ControllerId (ks_pdo s') = pdo_ControllerId (ks_pdo s) /\
    ((st = STATUS_SUCCESS /\ hardware_ready s') \/
     (NT_SUCCESS st = false /\ (hardware_free (ks_pdo s) -> hardware_free (ks_pdo s'))))).
Proof.
  unfold VnvmePdoEvtDevicePrepareHardware. apply wp_bind. unfold wp at 1. rewrite VnvmeAllocateBar0_eq.
  destruct s as [fd [] h c t k]. destruct (MmAllocateContiguousMemorySpecifyCache _ _); cbn [NT_SUCCESS negb].
  2: { apply wp_ret. split_and!; [done..|]. right. by split. }
  apply wp_bind. unfold wp at 1. rewrite bar0_initialized_run. unfold VnvmeAllocatePcieConfig.
  apply wp_bind, wp_bind. unfold wp at 1, alloc. destruct (ExAllocatePool2 _ _); cbn [negb].
  2: { wp_run. cbn [NT_SUCCESS negb]. unfold VnvmeFreeBar0. wp_run. apply wp_modify. wp_run. split_and!; [done..|].
       right. split; [done|]. intros (_ & _ & _ & _ & _ & H1 & H2). by repeat split. }
  wp_run. apply wp_modify. wp_run. apply wp_modify. wp_run. cbn [NT_SUCCESS negb]. wp_run. apply wp_modify.
  wp_run. unfold VnvmeInitializePollingTimer. destruct (NT_SUCCESS timer) eqn:Et; cbn [negb].
  - wp_run. apply wp_modify. wp_run. apply wp_modify. wp_run. cbn [NT_SUCCESS negb]. wp_run. split_and!; [done..|]. left. split; [done|].
    unfold hardware_ready. cbv zeta. split; [by split; [eexists|]|]. do 6 (split; [by vm_compute|]).
    split; [eexists; split; [reflexivity | by vm_compute] | by vm_compute].
  - wp_run. rewrite Et. cbn [negb]. wp_run. apply wp_modify. wp_run. apply wp_modify. wp_run. split_and!; [done..|].
    right. split; [done|]. intros _. by repeat split.
Qed.

Lemma VnvmeWriteBar0Register_mapping off v s u s' :
  VnvmeWriteBar0Register off v s = Ok (u, s') -> mapping (ks_pdo s') = mapping (ks_pdo s).
Proof.
  unfold VnvmeWriteBar0Register. rewrite bind_get. cbv zeta.
  destruct (pdo_Bar0VirtAddr (ks_pdo s)); [|by intros [= _ <-]].
  repeat (case_match; [first [by intros [= _ <-] | by eapply km_bar0 | idtac]|]);
    try (by eapply km_bar0); try (by intros [= _ <-]).
  - unfold of_opt, mbind, M_bind. destruct (bar0_load _ _ _); [by eapply km_bar0|done].
  - unfold of_opt, mbind, M_bind. destruct (bar0_load _ _ _); [by eapply km_bar0|done].
  - unfold mbind, M_bind. destruct (bar0_store REG_CSTS _ _ _) as [[[] s1]| |] eqn:E1; [|done..]. intros E2.
    apply km_bar0 in E1, E2. congruence.
Qed.

Lemma VnvmeWritePcieConfig_mapping off len buf s st s' :
  VnvmeWritePcieConfig off len buf s = Ok (st, s') -> mapping (ks_pdo s') = mapping (ks_pdo s).
Proof.
  unfold VnvmeWritePcieConfig. rewrite bind_get. destruct (pdo_PcieConfig (ks_pdo s)) as [m|] eqn:Hm; [|by intros [= _ <-]].
  destruct (_ <? _); [by intros [= _ <-]|]. destruct (pcie_write m off len buf); [|done]. intros [= _ <-].
  unfold mapping. destruct s as [? [] ? ? ? ?]. cbn in *. by subst.
Qed.

(** ** The life of a controller

    The order in which the framework calls the callbacks of a device, with the
    timer's callback and the accesses of the host to BAR0 and the configuration
    space in between.  The timer's callback comes in every phase: one that was
    due when the device was stopped may still run. *)
Inductive pnp_state : Type :=
  | PnpStopped
  | PnpPrepared
  | PnpWorking.

#[export] Instance pnp_state_EqDecision : EqDecision pnp_state.
Proof. solve_decision. Defined.

Inductive pnp_step : pnp_state * KState -> pnp_state * KState -> Prop :=
  | pnp_prepare timer s s' :
      VnvmePdoEvtDevicePrepareHardware timer s = Ok (STATUS_SUCCESS, s') -> pnp_step (PnpStopped, s) (PnpPrepared, s')
  | pnp_prepare_fails timer st s s' :
      VnvmePdoEvtDevicePrepareHardware timer s = Ok (st, s') -> NT_SUCCESS st = false -> pnp_step (PnpStopped, s) (PnpStopped, s')
  | pnp_d0_entry st s s' : VnvmePdoEvtDeviceD0Entry s = Ok (st, s') -> pnp_step (PnpPrepared, s) (PnpWorking, s')
  | pnp_d0_exit st s s' : VnvmePdoEvtDeviceD0Exit s = Ok (st, s') -> pnp_step (PnpWorking, s) (PnpPrepared, s')
  | pnp_release ph st s s' :
      ph <> PnpWorking -> VnvmePdoEvtDeviceReleaseHardware s = Ok (st, s') -> pnp_step (ph, s) (PnpStopped, s')
  | pnp_timer ph children fuel r s s' : VnvmeEvtPollingTimer children fuel s = Ok (r, s') -> pnp_step (ph, s) (ph, s')
  | pnp_register ph off v u s s' : VnvmeWriteBar0Register off v s = Ok (u, s') -> pnp_step (ph, s) (ph, s')
  | pnp_config ph off len buf st s s' : VnvmeWritePcieConfig off len buf s = Ok (st, s') -> pnp_step (ph, s) (ph, s').

(** BAR0, its register pointers, the configuration space and the timer exist. *)
Definition hardware_mapped (p : VNVME_PDO_CONTEXT) : Prop :=
  bar0_ok p /\ pdo_Registers p = true /\ pdo_Doorbells p = true /\ is_Some (pdo_PcieConfig p) /\ pdo_PollingTimer p = true.

Definition pnp_inv (x : pnp_state * KState) : Prop :=
  let p := ks_pdo x.2 in
  match x.1 with
  | PnpStopped => hardware_free p /\ pdo_PollingActive p = false
  | PnpPrepared => hardware_mapped p /\ pdo_PollingActive p = false
  | PnpWorking => hardware_mapped p /\ pdo_PollingActive p = true
  end.

Lemma bool_decide_same (P Q : Prop) `{Decision P, Decision Q} : bool_decide P = bool_decide Q -> P <-> Q.
Proof. do 2 case_bool_decide; done. Qed.

(** The invariant depends on what is mapped alone. *)
Lemma pnp_inv_mapping ph s s' : mapping (ks_pdo s') = mapping (ks_pdo s) -> pnp_inv (ph, s) -> pnp_inv (ph, s').
Proof.
  unfold mapping. intros [= H1 H2 H3 H4 H5 H6 H7 H8 H9]. apply bool_decide_same in H1, H6.
  unfold pnp_inv, hardware_free, hardware_mapped, bar0_ok. destruct ph; cbn;
  rewrite ?eq_None_not_Some, H1, ?H2, H3, H4, H5, H6, ?H7, ?H8, H9; done.
Qed.

(** What the release of a device relies on. *)
Definition release_pre (p : VNVME_PDO_CONTEXT) : Prop :=
  pdo_PollingActive p = false /\ (pdo_Bar0VirtAddr p = None -> hardware_free p) /\
  (pdo_PcieConfig p = None -> pdo_PcieConfigSize p = 0).

Lemma VnvmePdoEvtDeviceReleaseHardware_run s :
  release_pre (ks_pdo s) ->
  wp VnvmePdoEvtDeviceReleaseHardware s (fun _ s' => hardware_free (ks_pdo s') /\ pdo_PollingActive (ks_pdo s') = false).
Proof.
  intros (Ha & Hf & Hp). unfold VnvmePdoEvtDeviceReleaseHardware, VnvmeStopPollingTimer, VnvmeFreePcieConfig, VnvmeFreeBar0.
  wp_run. rewrite Ha, andb_false_r. wp_run. apply wp_modify. wp_run. apply wp_modify. wp_run.
  destruct s as [fd [] h c t k]. unfold hardware_free in *. cbn in *.
  destruct pdo_Bar0VirtAddr, pdo_PcieConfig; cbn; split_and!; auto; by destruct Hf as (? & ? & ? & ? & ? & ? & ?).
Qed.

Lemma pnp_step_inv x y : pnp_step x y -> pnp_inv x -> pnp_inv y.
Proof.
  destruct 1 as [timer s s' H | timer st s s' H Hst | st s s' H | st s s' H | ph st s s' Hph H | ph l fuel r s s' H | ph off v u s s' H | ph off len buf st s s' H].
  - pose proof (VnvmePdoEvtDevicePrepareHardware_run timer s) as Hw. unfold wp in Hw. rewrite H in Hw.
    destruct Hw as (Ha & _ & [[_ Hr]|[? _]]); [|done]. intros [_ Hf]. cbn in Hf. split; cbn; [|congruence].
    destruct Hr as (H1 & H2 & H3 & _ & _ & _ & _ & (c & H4 & _) & H5 & _). exact (conj H1 (conj H2 (conj H3 (conj (ex_intro _ c H4) H5)))).
  - pose proof (VnvmePdoEvtDevicePrepareHardware_run timer s) as Hw. unfold wp in Hw. rewrite H in Hw.
    destruct Hw as (Ha & _ & [[-> _]|[_ Hr]]); [done|]. intros [Hf1 Hf2]. cbn in *. split; cbn; [auto|congruence].
  - unfold VnvmePdoEvtDeviceD0Entry, VnvmeStartPollingTimer in H. intros [Hm Ha]. cbn in *.
    destruct s as [? [] ? ? ? ?]. destruct Hm as (? & ? & ? & ? & Ht). cbn in *. subst. injection H as <- <-. done.
  - unfold VnvmePdoEvtDeviceD0Exit, VnvmeStopPollingTimer in H. intros [Hm Ha]. cbn in *.
    destruct s as [? [] ? ? ? ?]. destruct Hm as (? & ? & ? & ? & Ht). cbn in *. subst. injection H as <- <-. done.
  - intros Hi. assert (release_pre (ks_pdo s)) as Hpre.
    { destruct ph; [| |done]; destruct Hi as [Hm Ha]; [by split_and!; [|intros _|intros _; apply Hm]|].
      destruct Hm as ([[b Hb] _] & _ & _ & [c Hc] & _). cbn in *. split_and!; [done|congruence|congruence]. }
    pose proof (VnvmePdoEvtDeviceReleaseHardware_run s Hpre) as Hw. unfold wp in Hw. by rewrite H in Hw.
  - apply pnp_inv_mapping. by apply km_timer in H.
  - apply pnp_inv_mapping. by apply VnvmeWriteBar0Register_mapping in H.
  - apply pnp_inv_mapping. by apply VnvmeWritePcieConfig_mapping in H.
Qed.

(** The timer object, once created, is kept. *)
Definition has_timer (x : pnp_state * KState) : Prop := pdo_PollingTimer (ks_pdo x.2) = true.

Lemma pnp_step_timer x y : pnp_step x y -> has_timer x -> has_timer y.
Proof.
  unfold has_timer. assert (forall s s', mapping (ks_pdo s') = mapping (ks_pdo s) -> pdo_PollingTimer (ks_pdo s') = pdo_PollingTimer (ks_pdo s)) as Hm
    by (unfold mapping; by intros s s' [=]).
  assert (forall timer s st s', VnvmePdoEvtDevicePrepareHardware timer s = Ok (st, s') -> pdo_PollingTimer (ks_pdo s) = true ->
    pdo_PollingTimer (ks_pdo s') = true) as Hp.
  { intros timer s st s' H Ht. cut (wp (VnvmePdoEvtDevicePrepareHardware timer) s (fun _ s' => pdo_PollingTimer (ks_pdo s') = true));
      [unfold wp; by rewrite H|]. clear H. unfold VnvmePdoEvtDevicePrepareHardware. apply wp_bind. unfold wp at 1. rewrite VnvmeAllocateBar0_eq.
    destruct s as [fd [] h c t k]. destruct (MmAllocateContiguousMemorySpecifyCache _ _); cbn [NT_SUCCESS negb]; [|by apply wp_ret].
    apply wp_bind. unfold wp at 1. rewrite bar0_initialized_run. unfold VnvmeAllocatePcieConfig.
    apply wp_bind, wp_bind. unfold wp at 1, alloc. destruct (ExAllocatePool2 _ _); cbn [negb].
    - wp_run. apply wp_modify. wp_run. apply wp_modify. wp_run. cbn [NT_SUCCESS negb]. wp_run. apply wp_modify.
      wp_run. unfold VnvmeInitializePollingTimer. destruct (NT_SUCCESS timer) eqn:Et; cbn [negb].
      + wp_run. apply wp_modify. wp_run. apply wp_modify. wp_run. done.
      + wp_run. rewrite Et. cbn [negb]. wp_run. apply wp_modify. wp_run. apply wp_modify. wp_run. done.
    - wp_run. cbn [NT_SUCCESS negb]. unfold VnvmeFreeBar0. wp_run. apply wp_modify. wp_run. done. }
  destruct 1 as [timer s s' H | timer st s s' H Hst | st s s' H | st s s' H | ph st s s' Hph H | ph l fuel r s s' H | ph off v u s s' H | ph off len buf st s s' H];
    cbn [snd]; intros Ht.
  - by eapply Hp.
  - by eapply Hp.
  - unfold VnvmePdoEvtDeviceD0Entry, VnvmeStartPollingTimer in H. destruct s as [? [] ? ? ? ?]. cbn in *. subst. by injection H as <- <-.
  - unfold VnvmePdoEvtDeviceD0Exit, VnvmeStopPollingTimer in H. destruct s as [? [] ? ? ? ?]. cbn in *. subst. destruct pdo_PollingActive; by injection H as <- <-.
  - unfold VnvmePdoEvtDeviceReleaseHardware, VnvmeStopPollingTimer, VnvmeFreePcieConfig, VnvmeFreeBar0 in H. destruct s as [? [] ? ? ? ?]. cbn in *. subst.
    destruct pdo_PollingActive, pdo_PcieConfig, pdo_Bar0VirtAddr; by injection H as <- <-.
  - apply km_timer in H. by rewrite (Hm _ _ H).
  - apply VnvmeWriteBar0Register_mapping in H. by rewrite (Hm _ _ H).
  - apply VnvmeWritePcieConfig_mapping in H. by rewrite (Hm _ _ H).
Qed.

(** C16: the life of a controller's device, in every order in which the framework
    may call its callbacks, with callbacks of the polling timer and any accesses
    of the host to BAR0 and the configuration space in between: a failed start
    releases the BAR0 and the configuration space it had allocated, and a stopped
    device has neither; the polling timer is active exactly while the device is
    in D0, and then BAR0, its register pointers and the configuration space exist; and the
    resources reported to the framework are the BAR0 there is, or none when there
    is none.  What a stopped device does keep is the timer object: once a
    start has created one no callback gives it up, though the next start creates another. *)
Theorem pdo_lifecycle_safe (s0 s : KState) (ph : pnp_state) :
  hardware_free (ks_pdo s0) -> pdo_PollingActive (ks_pdo s0) = false ->
  rtc pnp_step (PnpStopped, s0) (ph, s) ->
  (ph = PnpStopped -> hardware_free (ks_pdo s)) /\
  (pdo_PollingActive (ks_pdo s) = true <-> ph = PnpWorking) /\
  (pdo_PollingActive (ks_pdo s) = true -> hardware_mapped (ks_pdo s)) /\
  (forall ph' s', rtc pnp_step (ph, s) (ph', s') -> ph <> PnpStopped -> pdo_PollingTimer (ks_pdo s') = true) /\
  wp VnvmePdoQueryResources s (fun r s' => ks_pdo s' = ks_pdo s /\
    if decide (ph = PnpStopped) then r = (STATUS_SUCCESS, None)
    else r = (STATUS_INSUFFICIENT_RESOURCES, None) \/ r = (STATUS_SUCCESS, Some (pdo_Bar0PhysAddr (ks_pdo s), VNVME_BAR0_SIZE))).
Proof.
  intros Hf Ha Hr.
  assert (pnp_inv (ph, s)) as Hi by (apply (rtc_invariant pnp_step pnp_inv (PnpStopped, s0)); [apply pnp_step_inv | by split | done]).
  split; [intros ->; apply Hi|]. split; [destruct ph; destruct Hi as [_ Hi]; cbn in Hi; rewrite Hi; done|].
  split; [destruct ph; destruct Hi as [Hm Hi]; cbn in *; congruence|].
  split.
  { intros ph' s' Hr' Hne. apply (rtc_invariant pnp_step has_timer (ph, s) (ph', s') pnp_step_timer); [|done].
    destruct ph; [done| |]; apply Hi. }
  unfold VnvmePdoQueryResources, alloc. wp_step. apply wp_get. destruct ph; destruct Hi as [Hm _]; cbn in Hm.
  { by rewrite (proj1 Hm). }
  all: destruct Hm as [[[b ->] Hs] _]; wp_step; unfold wp at 1; destruct (ExAllocatePool2 _ _); cbn [negb]; wp_run;
    (split; [done|]); [right; by rewrite Hs | by left].
Qed.
End Pdo.

(** ** The identification strings *)

(** The strings of a multi-string: what the PnP manager reads. *)
Fixpoint multi_strings (current l : list Z) : list (list Z) :=
  match l with
  | [] => []
  | c :: l => if decide (c = 0) then (if decide (current = []) then [] else current :: multi_strings [] l)
              else multi_strings (current ++ [c]) l
  end.

Lemma multi_strings_one cur str rest :
  0 ∉ str -> cur ++ str <> [] -> multi_strings cur (str ++ 0 :: rest) = (cur ++ str) :: multi_strings [] rest.
Proof.
  revert cur. induction str as [|c str IH]; intros cur H0 Hne; cbn.
  - rewrite app_nil_r in *. rewrite (decide_True (P := 0 = 0)) by done. by rewrite decide_False.
  - apply not_elem_of_cons in H0 as [Hc H0]. rewrite decide_False by done.
    rewrite IH, <- app_assoc; [done | done | by destruct cur].
Qed.

Section Strings.
Context {W : WinKernel}.

(** A multi-string reads back as the strings it was made from. *)
Lemma VnvmeAllocateMultiString_reads str1 str2 s r s' :
  0 ∉ str1 -> str1 <> [] -> match str2 with Some t => 0 ∉ t /\ t <> [] | None => True end ->
  VnvmeAllocateMultiString (Some str1) str2 s = Ok (Some r, s') ->
  multi_strings [] r = str1 :: match str2 with Some t => [t] | None => [] end.
Proof.
  intros H1 Hn1 H2. unfold VnvmeAllocateMultiString, alloc, mbind, M_bind.
  destruct (ExAllocatePool2 _ _); [|done]. intros [= <- _]. rewrite <- app_assoc. cbn [app].
  rewrite multi_strings_one by done. f_equal. destruct str2 as [t|]; [|done].
  destruct H2 as [Ht Hnt]. rewrite <- app_assoc. cbn [app]. by rewrite multi_strings_one.
Qed.

(** Different controllers have different instance ids. *)
Lemma instance_id_inj a b : 0 <= a -> 0 <= b -> lu a = lu b -> a = b.
Proof. unfold lu. intros Ha Hb H%pretty_N_inj. lia. Qed.

End Strings.

(** ** Witnesses *)

#[local] Existing Instances TestKernel.

Definition pdo_state : @KState TestKernel := test_state test_shm mem_zero.
Definition prepared_state : @KState TestKernel := final (VnvmePdoEvtDevicePrepareHardware STATUS_SUCCESS) pdo_state.
Definition working_state : @KState TestKernel := final VnvmePdoEvtDeviceD0Entry prepared_state.

Lemma prepared_run : VnvmePdoEvtDevicePrepareHardware STATUS_SUCCESS pdo_state = Ok (STATUS_SUCCESS, prepared_state).
Proof. refine (final_run (VnvmePdoEvtDevicePrepareHardware STATUS_SUCCESS) pdo_state STATUS_SUCCESS _). by vm_compute. Qed.
Lemma working_run : VnvmePdoEvtDeviceD0Entry prepared_state = Ok (STATUS_SUCCESS, working_state).
Proof. refine (final_run VnvmePdoEvtDeviceD0Entry prepared_state STATUS_SUCCESS _). by vm_compute. Qed.

Lemma pdo_lifecycle_safe_witness :
  rtc pnp_step (PnpStopped, pdo_state) (PnpWorking, working_state) /\ hardware_mapped (ks_pdo working_state).
Proof.
  assert (rtc pnp_step (PnpStopped, pdo_state) (PnpWorking, working_state)) as Hr.
  { apply rtc_l with (PnpPrepared, prepared_state); [exact (pnp_prepare _ _ _ prepared_run)|].
    apply rtc_once. exact (pnp_d0_entry _ _ _ working_run). }
  split; [exact Hr|].
  destruct (pdo_lifecycle_safe pdo_state working_state PnpWorking) as (_ & Ha & Hm & _ & _); [by repeat split|reflexivity|exact Hr|].
  apply Hm, Ha. reflexivity.
Defined.
