(* ===== verification/Bus.v ===== *)
(** The bus: the driver with all of its controllers, [vnvme/bus.c] and the callbacks
    of [vnvme/vnvme.c].

    [BusState] is the state of the whole driver: the FDO context, the list of
    child devices, host memory and the configuration.  The functions of the other
    files run on one controller; [on_child] runs them on a child of the list.

    The list of children and its counter are protected by a spin lock, but a
    creation releases the lock while the framework creates the device object: the
    sections under the lock are definitions of their own, and [bus_step] lets
    creations and deletions of several threads interleave between them. *)
From S2P Require Import Prelude NvmeSpec Kernel Config Storage State Shm Bar0 PcieConfig Doorbell Pdo.
Open Scope Z_scope.
Open Scope c_scope.

Definition VNVME_MAX_CONTROLLERS : Z := 16.
Definition VNVME_POLLING_INTERVAL_MS : Z := 1.

(** ** The framework *)

(** What a PDO initialisation structure is given. *)
Inductive PdoInitString : Type :=
  | DeviceID
  | HardwareID
  | CompatibleID
  | InstanceID
  | DeviceText.

(** The calls of the framework may fail; the number of the call decides. *)
Class WdfFramework := {
  WdfPdoInitAllocate : nat -> bool;
  WdfPdoInitAssign : nat -> PdoInitString -> list Z -> NTSTATUS;
  WdfDeviceCreate : nat -> NTSTATUS;
  WdfControlDeviceInitAllocate : nat -> bool;
  WdfDeviceInitAssignName : nat -> list Z -> NTSTATUS;
  WdfDeviceCreateSymbolicLink : nat -> list Z -> NTSTATUS;
  WdfIoQueueCreate : nat -> NTSTATUS;
  WdfTimerCreate : nat -> NTSTATUS;
  ObOpenObjectByPointer : nat -> NTSTATUS * Z;  (* the status and the handle *)
}.

Section Bus.
Context {W : WinKernel} {F : WdfFramework}.

(** ** State *)

(** The fields of VNVME_FDO_CONTEXT that the command path does not use. *)
Record VNVME_FDO_BUS := mkFdoBus {
  fb_ControlDevice : bool;  (* the control device exists *)
  fb_ControlQueue : bool;  (* its queue exists *)
  fb_ChildDeviceCount : Z;
  fb_NextControllerId : Z;
  fb_MaxControllers : Z;
  fb_UserReadyEvent : bool;  (* signalled *)
  fb_ShutdownEvent : bool;  (* signalled *)
  fb_ShutdownRequested : bool;
  fb_UserPid : Z;
  fb_UserEventHandle : Z;  (* 0 is NULL *)
  fb_CommandsProcessed : Z;
  fb_StartTime : Z
}.
Definition etaFdoBus r :=
  mkFdoBus (fb_ControlDevice r) (fb_ControlQueue r) (fb_ChildDeviceCount r) (fb_NextControllerId r)
    (fb_MaxControllers r) (fb_UserReadyEvent r) (fb_ShutdownEvent r) (fb_ShutdownRequested r) (fb_UserPid r)
    (fb_UserEventHandle r) (fb_CommandsProcessed r) (fb_StartTime r).
#[export] Instance set_fb_ControlDevice : Setter fb_ControlDevice := ltac:(mk_setter etaFdoBus).
#[export] Instance set_fb_ControlQueue : Setter fb_ControlQueue := ltac:(mk_setter etaFdoBus).
#[export] Instance set_fb_ChildDeviceCount : Setter fb_ChildDeviceCount := ltac:(mk_setter etaFdoBus).
#[export] Instance set_fb_NextControllerId : Setter fb_NextControllerId := ltac:(mk_setter etaFdoBus).
#[export] Instance set_fb_MaxControllers : Setter fb_MaxControllers := ltac:(mk_setter etaFdoBus).
#[export] Instance set_fb_UserReadyEvent : Setter fb_UserReadyEvent := ltac:(mk_setter etaFdoBus).
#[export] Instance set_fb_ShutdownEvent : Setter fb_ShutdownEvent := ltac:(mk_setter etaFdoBus).
#[export] Instance set_fb_ShutdownRequested : Setter fb_ShutdownRequested := ltac:(mk_setter etaFdoBus).
#[export] Instance set_fb_UserPid : Setter fb_UserPid := ltac:(mk_setter etaFdoBus).
#[export] Instance set_fb_UserEventHandle : Setter fb_UserEventHandle := ltac:(mk_setter etaFdoBus).
#[export] Instance set_fb_CommandsProcessed : Setter fb_CommandsProcessed := ltac:(mk_setter etaFdoBus).
#[export] Instance set_fb_StartTime : Setter fb_StartTime := ltac:(mk_setter etaFdoBus).

(** The driver with all of its controllers. *)
Record BusState := mkBus {
  bs_fdo : option VNVME_FDO_CONTEXT;  (* g_FdoContext *)
  bs_bus : VNVME_FDO_BUS;  (* the rest of *g_FdoContext *)
  bs_children : list VNVME_PDO_CONTEXT;  (* ChildDeviceList, in order *)
  bs_host : mem;
  bs_cfg : VNVME_CONFIG;
  bs_time : Z;
  bs_tick : nat
}.
Definition etaBus r :=
  mkBus (bs_fdo r) (bs_bus r) (bs_children r) (bs_host r) (bs_cfg r) (bs_time r) (bs_tick r).
#[export] Instance set_bs_fdo : Setter bs_fdo := ltac:(mk_setter etaBus).
#[export] Instance set_bs_bus : Setter bs_bus := ltac:(mk_setter etaBus).
#[export] Instance set_bs_children : Setter bs_children := ltac:(mk_setter etaBus).
#[export] Instance set_bs_host : Setter bs_host := ltac:(mk_setter etaBus).
#[export] Instance set_bs_cfg : Setter bs_cfg := ltac:(mk_setter etaBus).
#[export] Instance set_bs_time : Setter bs_time := ltac:(mk_setter etaBus).
#[export] Instance set_bs_tick : Setter bs_tick := ltac:(mk_setter etaBus).

(** The calls of the framework, numbered with the allocations. *)
Definition wdf {A} (call : nat -> A) : M BusState A := fun b => Ok (call (bs_tick b), b <| bs_tick ::= S |>).

(** ** Running a function of one controller *)

Definition view (b : BusState) (p : VNVME_PDO_CONTEXT) : KState :=
  mkState (bs_fdo b) p (bs_host b) (bs_cfg b) (bs_time b) (bs_tick b).

Definition unview (b : BusState) (s : KState) : BusState :=
  b <| bs_fdo := ks_fdo s |> <| bs_host := ks_host s |> <| bs_cfg := ks_cfg s |> <| bs_time := ks_time s |> <| bs_tick := ks_tick s |>.

(** The [PdoContext] argument of [f] is child [i]. *)
Definition on_child {A} (i : nat) (f : M KState A) : M BusState A := fun b =>
  match bs_children b !! i with
  | None => Fault
  | Some p =>
      match f (view b p) with
      | Ok (a, s) => Ok (a, (unview b s) <| bs_children := <[i := ks_pdo s]> (bs_children b) |>)
      | Fault => Fault
      | OutOfFuel => OutOfFuel
      end
  end.

(** A zeroed controller ([RtlZeroMemory]). *)
Definition zero_namespace : VNVME_NAMESPACE :=
  mkNamespace 0 false false false (replicate 16 0) (replicate 8 0) 0 0 0 None 0 0 0 0 0 0 0 0.
Definition zero_pdo : VNVME_PDO_CONTEXT :=
  mkPdo 0 None 0 0 false false 0 None 0 zero_queue zero_queue 0 0 0 0 0 0 0
    (replicate 16 zero_queue) (replicate 16 zero_queue) 0 0 false 0 false false
    (replicate 4 0) 0 0 (replicate 16 zero_namespace) 0 0 0 0.

(** [f] has no [PdoContext] argument: it is given a controller that it does not look at. *)
Definition on_fdo {A} (f : M KState A) : M BusState A := fun b =>
  match f (view b zero_pdo) with
  | Ok (a, s) => Ok (a, unview b s)
  | Fault => Fault
  | OutOfFuel => OutOfFuel
  end.

Definition bus_update (f : VNVME_FDO_BUS -> VNVME_FDO_BUS) : M BusState unit := modify (fun b => b <| bs_bus ::= f |>).
Definition bus_fdo_update (f : VNVME_FDO_CONTEXT -> VNVME_FDO_CONTEXT) : M BusState unit :=
  modify (fun b => b <| bs_fdo ::= option_map f |>).

(** ** bus.c *)

(** The position of the controller in the list of children; [None] is NULL. *)
Definition find_index (l : list VNVME_PDO_CONTEXT) (ControllerId : Z) : option nat :=
  fst <$> list_find (fun p => pdo_ControllerId p = ControllerId) l.

Definition VnvmeFindController (ControllerId : Z) (b : BusState) : option nat := find_index (bs_children b) ControllerId.

(** RtlUnicodeStringPrintf into a string of [cap] WCHARs. *)
Definition RtlUnicodeStringPrintf (cap : nat) (text : string) : NTSTATUS * list Z :=
  if decide (String.length text <= cap)%nat then (STATUS_SUCCESS, wide text)
  else (STATUS_BUFFER_OVERFLOW, take cap (wide text)).

(** [%04lu] *)
Fixpoint zeros (n : nat) : string := match n with O => EmptyString | S n => "0" +:+ zeros n end.
Definition lu4 (v : Z) : string := zeros (4 - String.length (lu v)) +:+ lu v.

(** Format a string, and put it into the initialisation structure. *)
Definition pdo_init_string (kind : PdoInitString) (cap : nat) (text : string) : M BusState NTSTATUS :=
  let '(status, str) := RtlUnicodeStringPrintf cap text in
  if negb (NT_SUCCESS status) then mret status
  else wdf (fun t => WdfPdoInitAssign t kind str).

(** The context of a new controller. *)
Definition new_pdo (ControllerId : Z) : VNVME_PDO_CONTEXT :=
  zero_pdo <| pdo_ControllerId := ControllerId |>
    <| pdo_MaxIoQueues := VNVME_MAX_IO_QUEUES |> <| pdo_PollingIntervalUs := VNVME_POLLING_INTERVAL_MS * 1000 |>.

(** The status and the context of the new device. *)
Definition VnvmeCreateControllerPdo (ControllerId : Z) : M BusState (NTSTATUS * option VNVME_PDO_CONTEXT) :=
  init ← wdf WdfPdoInitAllocate;
  if negb (init : bool) then mret (STATUS_INSUFFICIENT_RESOURCES, None)
  else
    status ← pdo_init_string DeviceID 128 "PCI\VEN_1B36&DEV_0010";
    if negb (NT_SUCCESS status) then mret (status, None) else
    status ← pdo_init_string HardwareID 256 "PCI\VEN_1B36&DEV_0010&REV_01";
    if negb (NT_SUCCESS status) then mret (status, None) else
    status ← pdo_init_string CompatibleID 128 "PCI\CC_010802";
    if negb (NT_SUCCESS status) then mret (status, None) else
    status ← pdo_init_string InstanceID 32 ("CTRL" +:+ lu4 ControllerId);
    if negb (NT_SUCCESS status) then mret (status, None) else
    status ← pdo_init_string DeviceText 64 ("Virtual NVMe Controller " +:+ lu ControllerId);
    if negb (NT_SUCCESS status) then mret (status, None) else
    status ← wdf WdfDeviceCreate;
    if negb (NT_SUCCESS status) then mret (status, None) else
    mret (STATUS_SUCCESS, Some (new_pdo ControllerId)).

(** The first section under the lock: refuse (the status), or count the new controller. *)
Definition create_begin (ControllerId : Z) : M BusState (option NTSTATUS) :=
  b ← get;
  if bool_decide (is_Some (find_index (bs_children b) ControllerId)) then mret (Some STATUS_OBJECT_NAME_COLLISION)
  else if fb_MaxControllers (bs_bus b) <=? fb_ChildDeviceCount (bs_bus b) then mret (Some STATUS_INSUFFICIENT_RESOURCES)
  else
    bus_update (fun f => f <| fb_ChildDeviceCount ::= fun n => n +₃₂ 1 |>);;
    mret None.

(** The other sections: take the count back, or insert the new device. *)
Definition create_rollback : M BusState unit :=
  bus_update (fun f => f <| fb_ChildDeviceCount ::= fun n => n -₃₂ 1 |>).
Definition create_commit (p : VNVME_PDO_CONTEXT) : M BusState unit :=
  modify (fun b => b <| bs_children ::= fun l => l ++ [p] |>).

Definition VnvmeCreateVirtualController (ControllerId : Z) : M BusState NTSTATUS :=
  refused ← create_begin ControllerId;
  match refused with
  | Some status => mret status
  | None =>
      '(status, child) ← VnvmeCreateControllerPdo ControllerId;
      if negb (NT_SUCCESS status) then create_rollback;; mret status
      else
        match child with
        | None => fault
        | Some p => create_commit p;; mret STATUS_SUCCESS
        end
  end.

(** WdfObjectDelete: the device and its context are gone. *)
Definition VnvmeDeleteControllerPdo (PdoContext : VNVME_PDO_CONTEXT) : NTSTATUS := STATUS_SUCCESS.

Definition VnvmeDeleteVirtualController (ControllerId : Z) : M BusState NTSTATUS :=
  b ← get;
  match find_index (bs_children b) ControllerId with
  | None => mret STATUS_NOT_FOUND
  | Some i =>
      modify (fun b => b <| bs_children ::= delete i |>);;
      bus_update (fun f => f <| fb_ChildDeviceCount ::= fun n => n -₃₂ 1 |>);;
      mret STATUS_SUCCESS
  end.

Definition VnvmeEnumerateChildren : NTSTATUS := STATUS_SUCCESS.

(** ** The control device object, of ctrl_dev.c *)

Definition VnvmeCreateControlDevice : M BusState NTSTATUS :=
  init ← wdf WdfControlDeviceInitAllocate;
  if negb (init : bool) then mret STATUS_INSUFFICIENT_RESOURCES
  else
    status ← wdf (fun t => WdfDeviceInitAssignName t (wide "\Device\VNVMEControl"));
    if negb (NT_SUCCESS status) then mret status else
    status ← wdf WdfDeviceCreate;
    if negb (NT_SUCCESS status) then mret status else
    status ← wdf (fun t => WdfDeviceCreateSymbolicLink t (wide "\DosDevices\VNVMEControl"));
    if negb (NT_SUCCESS status) then mret status else
    status ← wdf WdfIoQueueCreate;
    if negb (NT_SUCCESS status) then mret status else
    bus_update (fun f => f <| fb_ControlDevice := true |> <| fb_ControlQueue := true |>);;
    mret STATUS_SUCCESS.

Definition VnvmeDeleteControlDevice : M BusState unit :=
  bus_update (fun f => if fb_ControlDevice f then f <| fb_ControlDevice := false |> else f).

(** ** vnvme.c *)

Definition VnvmeGetFdoContextSafe (b : BusState) : option VNVME_FDO_CONTEXT := bs_fdo b.

(** The FDO context VnvmeEvtDeviceAdd sets up. *)
Definition new_fdo : VNVME_FDO_CONTEXT := mkFdo VNVME_CMD_MODE_USER None 0 false false false false false 0 false 0.
Definition new_fdo_bus (now : Z) : VNVME_FDO_BUS := mkFdoBus false false 0 1 VNVME_MAX_CONTROLLERS false false false 0 0 0 now.

Definition VnvmeEvtDeviceAdd : M BusState NTSTATUS :=
  status ← wdf WdfDeviceCreate;
  if negb (NT_SUCCESS status) then mret status
  else
    b ← get;
    match bs_fdo b with
    | Some _ => mret STATUS_DEVICE_ALREADY_ATTACHED
    | None =>
        modify (fun b => b <| bs_fdo := Some new_fdo |> <| bs_bus := new_fdo_bus (bs_time b) |> <| bs_children := [] |>);;
        status ← VnvmeCreateControlDevice;
        if negb (NT_SUCCESS status) then mret status else mret STATUS_SUCCESS
    end.

Definition VnvmeEvtDevicePrepareHardware : M BusState NTSTATUS :=
  status ← on_fdo VnvmeAllocateShm;
  if negb (NT_SUCCESS status) then mret status else mret STATUS_SUCCESS.

Definition VnvmeEvtDeviceReleaseHardware : M BusState NTSTATUS :=
  b ← get;
  (if negb (fb_UserEventHandle (bs_bus b) =? 0) then
     bus_update (fun f => f <| fb_UserEventHandle := 0 |>);;
     bus_fdo_update (fun d => d <| fdo_EventNotificationEnabled := false |>)
   else mret tt);;
  on_fdo VnvmeFreeShm;;
  mret STATUS_SUCCESS.

Definition VnvmeEvtDeviceD0Entry : M BusState NTSTATUS := mret STATUS_SUCCESS.

(** The status, and the limit of the wait for UserReadyEvent (relative, in
    100 ns) when the caller has to wait: a signalled event lets it go on at once. *)
Definition VnvmeEvtDeviceD0Exit : M BusState (NTSTATUS * option Z) :=
  bus_update (fun f => f <| fb_ShutdownRequested := true |>);;
  bus_update (fun f => f <| fb_ShutdownEvent := true |>);;
  on_fdo (cb_update (fun cb => cb <| cb_ShutdownRequested := 1 |>));;
  b ← get;
  match bs_fdo b with
  | Some d => mret (STATUS_SUCCESS, if fdo_UserReady d && negb (fb_UserReadyEvent (bs_bus b)) then Some (-50000000) else None)
  | None => mret (STATUS_SUCCESS, None)
  end.

Definition VnvmeEvtDriverContextCleanup : M BusState unit :=
  b ← get;
  modify (fun b => b <| bs_fdo := None |>);;
  match bs_fdo b with
  | Some _ => VnvmeDeleteControlDevice
  | None => mret tt
  end.

(** ** Creations and deletions by several threads

    A creating thread takes an id from NextControllerId (InterlockedIncrement),
    enters the first section under the lock, creates the device object without
    the lock, and enters the second section. *)

(** ctrl_dev.c: the id of the next controller. *)
Definition take_id : M BusState Z :=
  b ← get;
  let next := fb_NextControllerId (bs_bus b) +₃₂ 1 in
  bus_update (fun f => f <| fb_NextControllerId := next |>);;
  mret (next -₃₂ 1).

(** The step leaves the list of ids and the counters alone. *)
Definition bus_frame (b b' : BusState) : Prop :=
  pdo_ControllerId <$> bs_children b' = pdo_ControllerId <$> bs_children b /\
  fb_ChildDeviceCount (bs_bus b') = fb_ChildDeviceCount (bs_bus b) /\
  fb_NextControllerId (bs_bus b') = fb_NextControllerId (bs_bus b) /\
  fb_MaxControllers (bs_bus b') = fb_MaxControllers (bs_bus b).

#[export] Instance bus_frame_PreOrder : PreOrder bus_frame.
Proof. split; [done|]. intros b1 b2 b3 (H1 & H2 & H3 & H4) (H5 & H6 & H7 & H8). unfold bus_frame. by rewrite H5, H6, H7, H8. Qed.

Record BusSystem := mkBusSystem {
  sys_bus : BusState;
  sys_taken : list Z;  (* ids taken by threads that have not entered the first section *)
  sys_creating : list Z;  (* ids of the devices being created *)
  sys_issued : Z  (* how many ids were taken *)
}.

Inductive bus_step : BusSystem -> BusSystem -> Prop :=
  | step_take b b' id taken creating n :
      take_id b = Ok (id, b') -> bus_step (mkBusSystem b taken creating n) (mkBusSystem b' (id :: taken) creating (n + 1))
  | step_begin b b' id l1 l2 creating n :
      create_begin id b = Ok (None, b') ->
      bus_step (mkBusSystem b (l1 ++ id :: l2) creating n) (mkBusSystem b' (l1 ++ l2) (id :: creating) n)
  | step_refuse b b' id st l1 l2 creating n :
      create_begin id b = Ok (Some st, b') ->
      bus_step (mkBusSystem b (l1 ++ id :: l2) creating n) (mkBusSystem b' (l1 ++ l2) creating n)
  | step_commit b b1 b2 id p taken l1 l2 n :
      VnvmeCreateControllerPdo id b = Ok ((STATUS_SUCCESS, Some p), b1) -> create_commit p b1 = Ok (tt, b2) ->
      bus_step (mkBusSystem b taken (l1 ++ id :: l2) n) (mkBusSystem b2 taken (l1 ++ l2) n)
  | step_rollback b b1 b2 id st p taken l1 l2 n :
      VnvmeCreateControllerPdo id b = Ok ((st, p), b1) -> NT_SUCCESS st = false -> create_rollback b1 = Ok (tt, b2) ->
      bus_step (mkBusSystem b taken (l1 ++ id :: l2) n) (mkBusSystem b2 taken (l1 ++ l2) n)
  | step_delete b b' id st taken creating n :
      VnvmeDeleteVirtualController id b = Ok (st, b') ->
      bus_step (mkBusSystem b taken creating n) (mkBusSystem b' taken creating n)
  | step_other b b' taken creating n :
      bus_frame b b' -> bus_step (mkBusSystem b taken creating n) (mkBusSystem b' taken creating n).

(** A function of one controller that does not change its id is such a step. *)
Lemma on_child_frame {A} i (f : M KState A) a b b' :
  (forall x s s', f s = Ok (x, s') -> pdo_ControllerId (ks_pdo s') = pdo_ControllerId (ks_pdo s)) ->
  on_child i f b = Ok (a, b') -> bus_frame b b'.
Proof.
  unfold on_child. intros Hf H. destruct (bs_children b !! i) as [q|] eqn:Hq; [|done].
  destruct (f (view b q)) as [[a' s']| |] eqn:Hr; [|done..]. injection H as -> <-. apply Hf in Hr. cbn in Hr.
  destruct b as [d fb ch h c t k]. unfold bus_frame. cbn in *. split; [|done].
  rewrite list_fmap_insert, Hr, list_insert_id; [done|]. by rewrite list_lookup_fmap, Hq.
Qed.

(** ** The invariant of the bus *)

Definition all_ids (x : BusSystem) : list Z :=
  (pdo_ControllerId <$> bs_children (sys_bus x)) ++ sys_creating x ++ sys_taken x.

Definition ids_ok (n : Z) (l : list Z) : Prop := NoDup l /\ Forall (fun id => 1 <= id <= n) l.

Lemma ids_ok_sub n l l' extra : l ≡ₚ l' ++ extra -> ids_ok n l -> ids_ok n l'.
Proof. unfold ids_ok. intros ->. rewrite Forall_app, NoDup_app. tauto. Qed.

Definition bus_inv (x : BusSystem) : Prop :=
  let f := bs_bus (sys_bus x) in
  fb_ChildDeviceCount f = Z.of_nat (length (bs_children (sys_bus x)) + length (sys_creating x)) /\
  fb_ChildDeviceCount f <= VNVME_MAX_CONTROLLERS /\ fb_MaxControllers f = VNVME_MAX_CONTROLLERS /\
  0 <= sys_issued x /\ fb_NextControllerId f = u32 (sys_issued x + 1) /\
  (sys_issued x < 2 ^ 32 - 1 -> ids_ok (sys_issued x) (all_ids x)).

(** The framework calls change nothing but the number of the next call. *)
Definition same_bus (b b' : BusState) : Prop :=
  bs_fdo b' = bs_fdo b /\ bs_bus b' = bs_bus b /\ bs_children b' = bs_children b /\ bs_cfg b' = bs_cfg b.

Lemma same_bus_refl b : same_bus b b.
Proof. done. Qed.
Lemma same_bus_trans b1 b2 b3 : same_bus b1 b2 -> same_bus b2 b3 -> same_bus b1 b3.
Proof. unfold same_bus. intuition congruence. Qed.

Lemma wdf_wp {A} (call : nat -> A) b : wp (wdf call) b (fun _ b' => same_bus b b').
Proof. by destruct b. Qed.

Lemma pdo_init_string_wp kind cap text b : wp (pdo_init_string kind cap text) b (fun _ b' => same_bus b b').
Proof.
  unfold pdo_init_string. destruct (RtlUnicodeStringPrintf cap text) as [st1 str].
  destruct (NT_SUCCESS st1); cbn [negb]; [apply wdf_wp | apply wp_ret, same_bus_refl].
Qed.

Lemma VnvmeCreateControllerPdo_wp id b :
  wp (VnvmeCreateControllerPdo id) b (fun r b' => same_bus b b' /\
    (r = (STATUS_SUCCESS, Some (new_pdo id)) \/ NT_SUCCESS r.1 = false)).
Proof.
  unfold VnvmeCreateControllerPdo. apply wp_bind. eapply wp_mono; [apply wdf_wp|]. intros init b1 Hb.
  destruct (init : bool); cbn [negb]; [|by apply wp_ret; auto].
  assert (forall kind cap text (k : M BusState (NTSTATUS * option VNVME_PDO_CONTEXT)) b1 Q,
    same_bus b b1 -> (forall st b2, same_bus b b2 -> NT_SUCCESS st = false -> Q (st, None) b2) ->
    (forall b2, same_bus b b2 -> wp k b2 Q) ->
    wp (st ← pdo_init_string kind cap text; if negb (NT_SUCCESS st) then mret (st, None) else k) b1 Q) as Hstep.
  { intros kind cap text k b2 Q Hs Hf Hk. apply wp_bind. eapply wp_mono; [apply pdo_init_string_wp|].
    intros st b3 Hb3. pose proof (same_bus_trans _ _ _ Hs Hb3).
    destruct (NT_SUCCESS st) eqn:E; cbn [negb]; [by apply Hk | by apply wp_ret, Hf]. }
  do 5 (apply Hstep; [done|by auto|]; clear dependent b1; intros b1 Hb).
  apply wp_bind. eapply wp_mono; [apply wdf_wp|]. intros st b2 H2. pose proof (same_bus_trans _ _ _ Hb H2).
  destruct (NT_SUCCESS st) eqn:E; cbn [negb]; apply wp_ret; auto.
Qed.

Lemma VnvmeCreateControllerPdo_result id b st p b' :
  VnvmeCreateControllerPdo id b = Ok ((st, p), b') -> same_bus b b' /\
  (st = STATUS_SUCCESS /\ p = Some (new_pdo id) \/ NT_SUCCESS st = false).
Proof.
  pose proof (VnvmeCreateControllerPdo_wp id b) as H. unfold wp in H. intros E. rewrite E in H.
  destruct H as [H [[= -> ->]|H2]]; auto.
Qed.

Lemma find_index_Some l id i : find_index l id = Some i -> exists p, l !! i = Some p /\ pdo_ControllerId p = id.
Proof.
  unfold find_index. intros ([j p] & H & ->)%fmap_Some. apply list_find_Some in H as (? & ? & _). by exists p.
Qed.

Lemma find_index_unique l i p :
  NoDup (pdo_ControllerId <$> l) -> l !! i = Some p -> find_index l (pdo_ControllerId p) = Some i.
Proof.
  intros Hd Hi. unfold find_index. apply fmap_Some. exists (i, p). split; [|done]. apply list_find_Some. split_and!; [done..|].
  intros j q Hj Hlt Heq. assert (j = i); [|lia].
  eapply (NoDup_lookup (pdo_ControllerId <$> l) j i); [done| |]; rewrite list_lookup_fmap; [by rewrite Hj|]. rewrite Hi. cbn. by rewrite Heq.
Qed.

(** Each step keeps the ids distinct: but for a new one, it only drops or moves them. *)
Lemma bus_step_inv x y : bus_step x y -> bus_inv x -> bus_inv y.
Proof.
  unfold bus_inv. change VNVME_MAX_CONTROLLERS with 16.
  destruct 1 as [b b' id taken creating n H | b b' id l1 l2 creating n H | b b' id st l1 l2 creating n H
    | b b1 b2 id p taken l1 l2 n H1 H2 | b b1 b2 id st p taken l1 l2 n H1 Hst H2 | b b' id st taken creating n H
    | b b' taken creating n H]; unfold all_ids; cbn [sys_bus sys_creating sys_taken sys_issued];
    intros (Hc & Hle & Hmax & Hn & Hnext & Hids).
  - unfold take_id in H. rewrite bind_get in H. destruct b as [d [] ch h c t k]. injection H as <- <-. cbn in *.
    split_and!; [done..|lia|subst; word_lia|]. intros Hlt. destruct Hids as [Hd Hf]; [lia|]. subst.
    replace (u32 (u32 (n + 1) +₃₂ 1 - 1)) with (n + 1) by word_lia.
    assert (Permutation ((pdo_ControllerId <$> ch) ++ creating ++ (n + 1) :: taken) ((n + 1) :: ((pdo_ControllerId <$> ch) ++ creating ++ taken))) as Hp
      by solve_Permutation.
    unfold ids_ok. rewrite Hp, NoDup_cons, Forall_cons. split_and!; [|done|lia|lia|].
    + rewrite Forall_forall in Hf. intros Hin. apply Hf in Hin. lia.
    + eapply Forall_impl; [done|]. cbn. lia.
  - unfold create_begin in H. rewrite bind_get in H. case_bool_decide; [done|].
    destruct (Z.leb_spec (fb_MaxControllers (bs_bus b)) (fb_ChildDeviceCount (bs_bus b))); [done|].
    destruct b as [d [] ch h c t k]. injection H as <-. cbn in *.
    rewrite (u32_small (_ + 1)) by lia. split_and!; [lia|lia|done..|]. intros Hlt. eapply (ids_ok_sub _ _ _ []); [|by apply Hids]. solve_Permutation.
  - unfold create_begin in H. rewrite bind_get in H. assert (b' = b) as ->.
    { destruct (bool_decide _); [by injection H|]. destruct (_ <=? _); [by injection H | done]. }
    split_and!; [done..|]. intros Hlt. eapply (ids_ok_sub _ _ _ [id]); [|by apply Hids]. solve_Permutation.
  - destruct (VnvmeCreateControllerPdo_result _ _ _ _ _ H1) as ((_ & E1 & E2 & _) & [[_ [= ->]]|?]); [|done].
    injection H2 as <-. destruct b1 as [d f ch h c t k]. cbn in *. subst f ch. rewrite !length_app, fmap_app in *. cbn in *.
    split_and!; [lia|done..|]. intros Hlt. eapply (ids_ok_sub _ _ _ []); [|by apply Hids]. solve_Permutation.
  - destruct (VnvmeCreateControllerPdo_result _ _ _ _ _ H1) as ((_ & E1 & E2 & _) & _).
    injection H2 as <-. destruct b1 as [d [] ch h c t k]. cbn in *. subst ch. rewrite <- E1 in *. cbn in *. rewrite !length_app in *. cbn in *.
    rewrite (u32_small (_ - 1)) by lia.
    split_and!; [lia|lia|done..|]. intros Hlt. eapply (ids_ok_sub _ _ _ [id]); [|by apply Hids]. solve_Permutation.
  - unfold VnvmeDeleteVirtualController in H. rewrite bind_get in H.
    destruct (find_index (bs_children b) id) as [j|] eqn:Hj; [|by injection H as _ <-].
    apply find_index_Some in Hj as (q & Hq & Hid). pose proof (delete_Permutation _ _ _ Hq) as Hperm.
    pose proof (Permutation_length Hperm) as Hlen. cbn in Hlen.
    destruct b as [d [] ch h c t k]. injection H as _ <-. cbn in *. rewrite (u32_small (_ - 1)) by lia.
    split_and!; [lia|lia|done..|]. intros Hlt. eapply (ids_ok_sub _ _ _ [id]); [|by apply Hids].
    rewrite Hperm at 1. cbn. rewrite Hid. solve_Permutation.
  - destruct H as (Hl & H1 & H2 & H3). rewrite Hl, H1, H2, H3.
    rewrite <- (length_fmap pdo_ControllerId (bs_children b')), Hl, length_fmap. split_and!; done.
Qed.

Lemma VnvmeCreateControlDevice_result b st b' :
  VnvmeCreateControlDevice b = Ok (st, b') -> bs_fdo b' = bs_fdo b /\ bs_children b' = bs_children b /\
  (st = STATUS_SUCCESS /\ bs_bus b' = (bs_bus b) <| fb_ControlDevice := true |> <| fb_ControlQueue := true |> \/
   NT_SUCCESS st = false /\ bs_bus b' = bs_bus b).
Proof.
  destruct b as [d f ch h c t k]. unfold VnvmeCreateControlDevice, wdf, mbind, M_bind.
  destruct (WdfControlDeviceInitAllocate _); cbn [negb]; [|intros [= <- <-]; by auto].
  do 4 (match goal with |- context [NT_SUCCESS ?x] => destruct (NT_SUCCESS x) eqn:? end; cbn [negb]; [|intros [= <- <-]; by auto]).
  intros [= <- <-]. cbn. by auto.
Qed.

(** The driver attaches to one device only.  Once the context is published it
    stays, also when the control device cannot be created and the addition of
    the device fails: from then on every device is refused. *)
Lemma VnvmeEvtDeviceAdd_result b st b' :
  VnvmeEvtDeviceAdd b = Ok (st, b') ->
  (NT_SUCCESS st = false /\ bs_fdo b' = bs_fdo b /\ bs_children b' = bs_children b) \/
  (bs_fdo b = None /\ bs_fdo b' = Some new_fdo /\ bs_children b' = [] /\
   fb_ControlDevice (bs_bus b') = NT_SUCCESS st /\ fb_ChildDeviceCount (bs_bus b') = 0 /\
   fb_MaxControllers (bs_bus b') = VNVME_MAX_CONTROLLERS /\ fb_NextControllerId (bs_bus b') = 1).
Proof.
  unfold VnvmeEvtDeviceAdd. intros (st1 & b1 & H1 & H)%bind_inv. destruct b as [d f ch h c t k]. injection H1 as <- <-.
  destruct (NT_SUCCESS (WdfDeviceCreate k)) eqn:E; cbn [negb] in H; [|injection H as <- <-; by left].
  rewrite bind_get in H. cbn in H. destruct d as [d|]; [injection H as <- <-; by left|].
  right. split; [done|]. rewrite bind_modify in H. apply bind_inv in H as (st2 & b2 & H2 & H).
  apply VnvmeCreateControlDevice_result in H2 as (Hd & Hch & Hs). cbn in Hd, Hch.
  destruct Hs as [[-> Hb]|[Hst Hb]]; [|rewrite Hst in H]; cbn [negb NT_SUCCESS] in H; injection H as <- <-;
    rewrite Hd, Hch, Hb; [done|]. by rewrite Hst.
Qed.

(** C15: whatever creations, deletions and commands interleave after the driver's
    device is added, the count of child devices is the length of their list plus
    the creations under way, so that there never are more than 16; and as long
    as fewer than 2^32 - 1 ids were handed out, no two controllers have the same id,
    none has the id 0 that means all controllers, and looking a controller up by
    its id finds that controller. *)
Theorem bus_controllers_consistent (b0 b : BusState) (x : BusSystem) :
  VnvmeEvtDeviceAdd b = Ok (STATUS_SUCCESS, b0) -> rtc bus_step (mkBusSystem b0 [] [] 0) x ->
  let children := bs_children (sys_bus x) in
  fb_ChildDeviceCount (bs_bus (sys_bus x)) = Z.of_nat (length children + length (sys_creating x)) /\
  Z.of_nat (length children) <= VNVME_MAX_CONTROLLERS /\
  (sys_issued x < 2 ^ 32 - 1 ->
     NoDup (pdo_ControllerId <$> children) /\
     forall i p, children !! i = Some p ->
       pdo_ControllerId p <> 0 /\ VnvmeFindController (pdo_ControllerId p) (sys_bus x) = Some i).
Proof.
  intros Hadd Hr. assert (bus_inv x) as (Hc & Hle & _ & _ & _ & Hids).
  { apply (rtc_invariant bus_step bus_inv (mkBusSystem b0 [] [] 0)); [apply bus_step_inv| |done].
    destruct (VnvmeEvtDeviceAdd_result _ _ _ Hadd) as [(? & _)|(_ & _ & Hch & _ & H1 & H2 & H3)]; [done|].
    unfold bus_inv, all_ids. cbn. rewrite Hch, H1, H2, H3. split_and!; try done. intros _. split; [constructor|done]. }
  cbv zeta. split; [done|]. split; [lia|]. intros Hlt. destruct (Hids Hlt) as [Hd Hf]. unfold all_ids in *.
  apply NoDup_app in Hd as [Hd _]. apply Forall_app in Hf as [Hf _]. split; [done|]. intros i p Hi. split.
  - rewrite Forall_fmap in Hf. eapply (Forall_lookup_1 _ _ _ _ Hf) in Hi. cbn in Hi. lia.
  - by apply find_index_unique.
Qed.
End Bus.

(** Setters unfold on demand. *)
#[export] Hint Unfold set_fb_ControlDevice set_fb_ControlQueue set_fb_ChildDeviceCount set_fb_NextControllerId
  set_fb_MaxControllers set_fb_UserReadyEvent set_fb_ShutdownEvent set_fb_ShutdownRequested set_fb_UserPid
  set_fb_UserEventHandle set_fb_CommandsProcessed set_fb_StartTime set_bs_fdo set_bs_bus set_bs_children
  set_bs_host set_bs_cfg set_bs_time set_bs_tick : setters.

(** ** Witnesses *)

#[local] Existing Instances TestKernel.

(** A framework whose calls all succeed. *)
#[local] Instance TestFramework : WdfFramework := {|
  WdfPdoInitAllocate _ := true;
  WdfPdoInitAssign _ _ _ := STATUS_SUCCESS;
  WdfDeviceCreate _ := STATUS_SUCCESS;
  WdfControlDeviceInitAllocate _ := true;
  WdfDeviceInitAssignName _ _ := STATUS_SUCCESS;
  WdfDeviceCreateSymbolicLink _ _ := STATUS_SUCCESS;
  WdfIoQueueCreate _ := STATUS_SUCCESS;
  WdfTimerCreate _ := STATUS_SUCCESS;
  ObOpenObjectByPointer _ := (STATUS_SUCCESS, 0x44);
|}.

Definition empty_bus : BusState := mkBus None (new_fdo_bus 0) [] mem_zero default_config 0 0.
Definition added_bus : BusState := final VnvmeEvtDeviceAdd empty_bus.
Definition taken_bus : BusState := final take_id added_bus.
Definition begun_bus : BusState := final (create_begin 1) taken_bus.
Definition created_bus : BusState := final (VnvmeCreateControllerPdo 1) begun_bus.
Definition committed_bus : BusState := final (create_commit (new_pdo 1)) created_bus.

Lemma added_run : VnvmeEvtDeviceAdd empty_bus = Ok (STATUS_SUCCESS, added_bus).
Proof. refine (final_run VnvmeEvtDeviceAdd empty_bus STATUS_SUCCESS _). by vm_compute. Qed.

Lemma committed_steps : rtc bus_step (mkBusSystem added_bus [] [] 0) (mkBusSystem committed_bus [] [] 1).
Proof.
  apply rtc_l with (mkBusSystem taken_bus [1] [] 1); [by apply (step_take added_bus taken_bus 1 [] [] 0)|].
  apply rtc_l with (mkBusSystem begun_bus [] [1] 1); [by apply (step_begin taken_bus begun_bus 1 [] [] [] 1)|].
  apply rtc_once. by apply (step_commit begun_bus created_bus committed_bus 1 (new_pdo 1) [] [] [] 1).
Qed.

Lemma bus_controllers_consistent_witness :
  fb_ChildDeviceCount (bs_bus committed_bus) = 1 /\ NoDup (pdo_ControllerId <$> bs_children committed_bus).
Proof.
  pose proof (bus_controllers_consistent _ _ _ added_run committed_steps) as (Hc & _ & Hd).
  split; [exact Hc|]. apply Hd. reflexivity.
Defined.
