(* ===== verification/Dormant.v ===== *)
(** The driver from the outside: everything that happens to a controller between
    its creation and its removal, as the steps of one relation, and what of the
    controller never changes.

    The admin queue of the shared memory is marked valid by nothing in the
    repository (shm.c clears the mark, and only the functions of queue.c that
    create I/O queues set one, which nobody calls).  In kernel mode this keeps
    VnvmeFetchCommand from taking a command, so that no I/O queue is ever
    created, in kernel mode or for the service. *)
From S2P Require Import Prelude NvmeSpec Kernel Config Storage State Shm Queue Bar0 PcieConfig AdminCmd IoCmd UserForward Recovery Doorbell Pdo Bus.
Open Scope Z_scope.
Open Scope c_scope.

Section Dormant.
Context {W : WinKernel}.

(** ** What is observed *)

(** The queues that exist, the disks, the events, the count of I/O commands. *)
Definition pdo_observed (p : VNVME_PDO_CONTEXT) :=
  (qs_Created <$> pdo_IoSq p, qs_Created <$> pdo_IoCq p, pdo_IoQueueCount p,
   pdo_Namespaces p, pdo_AerCids p, pdo_AerCount p, pdo_IoCommandsProcessed p).
(** The mark of the admin submission queue. *)
Definition admin_valid (s : KState) : option Z := (fun m => qd_Valid (cb_AdminSQ (shm_cb m))) <$> VnvmeShmGetControlBlock s.
Definition observed (s : KState) := (pdo_observed (ks_pdo s), admin_valid s, ks_host s).

Record dormant (s : KState) : Prop := {
  dt_admin v : admin_valid s = Some v -> v = 0;
  dt_sq : Forall (fun q => qs_Created q = false) (pdo_IoSq (ks_pdo s));
  dt_cq : Forall (fun q => qs_Created q = false) (pdo_IoCq (ks_pdo s))
}.

Lemma created_flags (l l' : list VNVME_QUEUE_STATE) : qs_Created <$> l' = qs_Created <$> l ->
  Forall (fun q => qs_Created q = false) l -> Forall (fun q => qs_Created q = false) l'.
Proof.
  intros E H. apply Forall_lookup. intros i q Hq.
  assert ((qs_Created <$> l') !! i = Some (qs_Created q)) as Hi by (by rewrite list_lookup_fmap, Hq).
  rewrite E, list_lookup_fmap in Hi. destruct (l !! i) as [q0|] eqn:Hl; [|done]. injection Hi as <-.
  by apply (proj1 (Forall_lookup _ _) H i q0).
Qed.

Lemma dormant_observed s s' : observed s' = observed s -> dormant s -> dormant s'.
Proof.
  intros E [H1 H2 H3]. unfold observed, pdo_observed in E. injection E as E1 E2 _ _ _ _ _ E3 _.
  split; [by rewrite E3|by eapply created_flags|by eapply created_flags].
Qed.

(** ** Computations that leave it alone *)

(** [m] changes nothing of a dormant controller that is observed. *)
Definition silent {A} (m : M KState A) : Prop := forall s a s', m s = Ok (a, s') -> dormant s -> observed s' = observed s.

Lemma silent_bind {A B} (m : M KState A) (f : A -> M KState B) : silent m -> (forall a, silent (f a)) -> silent (m ≫= f).
Proof.
  intros Hm Hf s b s' (a & s1 & E1 & E2)%bind_inv H. pose proof (Hm _ _ _ E1 H) as E. rewrite <- E. eapply Hf; [exact E2|].
  by eapply dormant_observed.
Qed.
Lemma silent_ret {A} (a : A) : silent (mret a).
Proof. by intros s b s' [= <- <-]. Qed.
Lemma silent_get : silent get.
Proof. by intros s b s' [= <- <-]. Qed.
Lemma silent_opt {A} (o : option A) : silent (of_opt o).
Proof. intros s b s' E. destruct o; [by injection E as <- <-|done]. Qed.
Lemma silent_res {A} (r : res A) : silent (of_res r).
Proof. intros s b s' E. destruct r; [by injection E as <- <-|done|done]. Qed.
Lemma silent_fault {A} : silent (fault (A := A)).
Proof. by intros s b s' E. Qed.
Lemma silent_out_of_fuel {A} : silent (out_of_fuel (A := A)).
Proof. by intros s b s' E. Qed.

(** What a computation that begins with [get] does may depend on the state being dormant. *)
Lemma silent_with {A} (f : KState -> M KState A) : (forall s, dormant s -> silent (f s)) -> silent (get ≫= f).
Proof. intros Hf s a s' E H. rewrite bind_get in E. by eapply Hf. Qed.

Lemma silent_pdo f : (forall p, pdo_observed (f p) = pdo_observed p) -> silent (pdo_update f).
Proof. intros Hf s a s' [= <- <-] _. unfold observed. destruct s as [d p h c t k]. cbn. by rewrite Hf. Qed.
Lemma silent_fdo f : (forall d, (fun m => qd_Valid (cb_AdminSQ (shm_cb m))) <$> fdo_Shm (f d) = (fun m => qd_Valid (cb_AdminSQ (shm_cb m))) <$> fdo_Shm d) ->
  silent (fdo_update f).
Proof.
  intros Hf s a s' [= <- <-] _. unfold observed, admin_valid, VnvmeShmGetControlBlock. destruct s as [[d|] p h c t k]; [|done].
  cbn. by rewrite Hf.
Qed.
Lemma silent_shm f : (forall m, qd_Valid (cb_AdminSQ (shm_cb (f m))) = qd_Valid (cb_AdminSQ (shm_cb m))) -> silent (shm_update f).
Proof. intros Hf. apply silent_fdo. intros d. destruct d as [? [m|] ? ? ? ? ? ? ? ? ?]; cbn; [by rewrite Hf|done]. Qed.
Lemma silent_store f : (forall m m', f m = Some m' -> qd_Valid (cb_AdminSQ (shm_cb m')) = qd_Valid (cb_AdminSQ (shm_cb m))) -> silent (shm_store f).
Proof.
  intros Hf s a s' E _. unfold shm_store in E. rewrite bind_get in E. apply bind_inv in E as (m' & s1 & E1 & E2).
  destruct (VnvmeShmGetControlBlock s) as [m|] eqn:Hm; [|done]. cbn in E1. destruct (f m) as [m1|] eqn:Ef; [|done].
  injection E1 as <- <-. injection E2 as <- <-. apply Hf in Ef. unfold observed, admin_valid. rewrite Hm. cbn. rewrite <- Ef.
  destruct s as [[d|] p h c t k]; [|done]. cbn in Hm. unfold VnvmeShmGetControlBlock, set_field. cbn. rewrite Hm. done.
Qed.
Lemma silent_bar0 off n v : silent (bar0_store off n v).
Proof.
  apply silent_with. intros s _. apply silent_bind; [apply silent_opt|]. intros m. destruct (in_block _ _ _); [|apply silent_fault].
  apply silent_pdo. by intros [].
Qed.

Create HintDb silent.
Hint Resolve silent_ret silent_get silent_opt silent_res silent_fault silent_out_of_fuel silent_bar0 : silent.
(** Go through a computation; what its parts are is a hint. *)
Ltac go_silent :=
  repeat first
    [ progress auto with silent nocore
    | lazymatch goal with
      | |- silent (_ ≫= _) => apply silent_bind; [|intros ?]
      | |- silent (if ?b then _ else _) => destruct b
      | |- silent (match ?x with _ => _ end) => destruct x
      | |- silent (pdo_update _) => apply silent_pdo; intros []; reflexivity
      end ].

(** ** The parts of the driver *)

Lemma opt_inv {S A} (o : option A) (s : S) a s' : of_opt o s = Ok (a, s') -> o = Some a /\ s' = s.
Proof. destruct o; [by intros [= <- <-]|done]. Qed.

Lemma abort_loop_cb fuel sq cq cap sqid a m r m' : abort_loop fuel sq cq cap sqid a m = Ok (r, m') -> shm_cb m' = shm_cb m.
Proof.
  revert a m. induction fuel as [|fuel IH]; intros a m; cbn [abort_loop].
  { destruct (_ =? _); [by intros [= <- <-]|done]. }
  destruct (_ =? _); [by intros [= <- <-]|]. rewrite bind_get.
  intros (cmd & m1 & [_ ->]%opt_inv & E)%bind_inv. apply bind_inv in E as (slot & m2 & [_ ->]%opt_inv & E).
  apply bind_inv in E as (mw & m3 & [Hw ->]%opt_inv & E). rewrite bind_modify in E.
  apply bind_inv in E as (t & m4 & [_ ->]%opt_inv & E). apply bind_inv in E as (h & m5 & [_ ->]%opt_inv & E).
  apply IH in E. rewrite E. unfold write_cqe in Hw. destruct (queue_memory _ _); [|done]. injection Hw as <-. by destruct m.
Qed.

Lemma silent_on_shm {A} (f : M SharedMemory A) : (forall m r m', f m = Ok (r, m') -> shm_cb m' = shm_cb m) -> silent (on_shm f).
Proof.
  intros Hf s a s' E H. unfold on_shm in E. rewrite bind_get in E. apply bind_inv in E as (m & s1 & E1 & E).
  destruct (VnvmeShmGetControlBlock s) as [m0|] eqn:Hm; [|done]. injection E1 as <- <-.
  apply bind_inv in E as (r & s2 & E2 & E). unfold of_res in E2. destruct (f m0) as [[r0 m1]| |] eqn:Ef; try done. injection E2 as <- <-.
  apply bind_inv in E as (u & s3 & E3 & E). injection E as <- <-. injection E3 as <- <-. cbn [snd]. apply Hf in Ef.
  unfold observed, admin_valid. rewrite Hm. cbn. rewrite <- Ef. destruct s as [[d|] p h c t k]; [|done]. cbn in Hm.
  unfold VnvmeShmGetControlBlock, set_field. cbn. by rewrite Hm.
Qed.

Lemma silent_abort_admin n : silent (abort_admin n).
Proof.
  unfold abort_admin. go_silent.
  - apply silent_on_shm. intros. by eapply abort_loop_cb.
  - apply silent_shm. by intros [[] ? ? ?].
Qed.

(** A queue that has not been created: the functions for it do nothing. *)
Lemma not_created s i q : dormant s -> arr_get (pdo_IoSq (ks_pdo s)) i = Some q -> qs_Created q = false.
Proof. intros H Hq%arr_get_elem. by eapply (proj1 (Forall_forall _ _) (dt_sq _ H)). Qed.
Lemma not_created_cq s i q : dormant s -> arr_get (pdo_IoCq (ks_pdo s)) i = Some q -> qs_Created q = false.
Proof. intros H Hq%arr_get_elem. by eapply (proj1 (Forall_forall _ _) (dt_cq _ H)). Qed.

(** A read that is known to succeed with an element that was not created. *)
Lemma silent_not_created {A} (l : list VNVME_QUEUE_STATE) i (f : VNVME_QUEUE_STATE -> M KState A) :
  Forall (fun q => qs_Created q = false) l -> (forall q, qs_Created q = false -> silent (f q)) -> silent (q ← of_opt (arr_get l i); f q).
Proof.
  intros Hl Hf. destruct (arr_get l i) as [q|] eqn:E; [|by intros s a s' ?]. intros s a s' Er. eapply Hf; [|exact Er].
  apply arr_get_elem in E. by eapply (proj1 (Forall_forall _ _) Hl).
Qed.

Lemma silent_abort_io i n : silent (abort_io i n).
Proof.
  unfold abort_io. apply silent_with. intros s H. do 3 (apply silent_bind; [apply silent_opt|intros ?]). apply silent_not_created; [apply (dt_sq _ H)|]. intros q Hq. rewrite Hq. apply silent_ret.
Qed.

Lemma silent_abort_io_loop n i c : silent (abort_io_loop n i c).
Proof. revert i c. induction n as [|n IH]; intros i c; cbn; go_silent. apply silent_abort_io. Qed.

Lemma silent_abort : silent VnvmeAbortPendingUserCommands.
Proof.
  unfold VnvmeAbortPendingUserCommands. go_silent; [apply silent_abort_admin|apply silent_abort_io_loop|]. apply silent_fdo. by intros [].
Qed.

(** Another controller, without I/O queues. *)
Definition no_queues (c : option VNVME_PDO_CONTEXT) : Prop :=
  match c with
  | Some p => Forall (fun q => qs_Created q = false) (pdo_IoSq p) /\ Forall (fun q => qs_Created q = false) (pdo_IoCq p)
  | None => True
  end.

(** The loop over the controllers of the bus. *)
Lemma abort_children_silent l : forall s l' s', abort_children l s = Ok (l', s') -> dormant s -> Forall no_queues l ->
  observed s' = observed s /\ Forall no_queues l'.
Proof.
  induction l as [|c l IH]; intros s l' s' E H Hl; cbn [abort_children] in E; [by injection E as <- <-|].
  apply Forall_cons in Hl as [Hc Hl]. destruct c as [p|].
  - rewrite (bind_Ok _ _ _ _ _ (swap_pdo_run p s)) in E. apply bind_inv in E as (n & s1 & E1 & E).
    rewrite (bind_Ok _ _ _ _ _ (swap_pdo_run (ks_pdo s) s1)) in E. apply bind_inv in E as (l1 & s2 & E2 & E). injection E as <- <-.
    assert (dormant (s <| ks_pdo := p |>)) as Hd by (destruct H, Hc; by split).
    pose proof (silent_abort _ _ _ E1 Hd) as O1. pose proof (dormant_observed _ _ O1 Hd) as [_ D2 D3].
    assert (observed (s1 <| ks_pdo := ks_pdo s |>) = observed s) as O2.
    { unfold observed in *. injection O1 as _ _ _ _ _ _ _ O1 O1'. change (ks_pdo (s1 <| ks_pdo := ks_pdo s |>)) with (ks_pdo s).
      f_equal; [f_equal|]; [exact O1|exact O1']. }
    destruct (IH _ _ _ E2 (dormant_observed _ _ O2 H) Hl) as [O3 Hl1]. split; [by rewrite O3|]. by constructor.
  - apply bind_inv in E as (n & s1 & E1 & E). apply bind_inv in E as (l1 & s2 & E2 & E). injection E as <- <-.
    pose proof (silent_abort _ _ _ E1 H) as O1. destruct (IH _ _ _ E2 (dormant_observed _ _ O1 H) Hl) as [O2 Hl1].
    split; [by rewrite O2|]. by constructor.
Qed.

Lemma silent_children l : Forall no_queues l -> silent (abort_children l).
Proof. intros Hl s l' s' E H. by destruct (abort_children_silent l s l' s' E H Hl). Qed.

Lemma silent_heartbeat l : Forall no_queues l -> silent (CheckUserModeHeartbeat l).
Proof.
  intros Hl. unfold CheckUserModeHeartbeat. go_silent; [|by apply silent_children|]; apply silent_fdo; by intros [].
Qed.

Lemma heartbeat_children l s l' s' : CheckUserModeHeartbeat l s = Ok (l', s') -> dormant s -> Forall no_queues l -> Forall no_queues l'.
Proof.
  intros E H Hl. unfold CheckUserModeHeartbeat in E. rewrite bind_get in E. destruct (ks_fdo s) as [d|]; [|by injection E as <- <-].
  destruct (negb _ || _); [by injection E as <- <-|]. destruct (_ <? _); [|by injection E as <- <-].
  apply bind_inv in E as ([] & s1 & E1 & E). apply bind_inv in E as (l1 & s2 & E2 & E). apply bind_inv in E as ([] & s3 & E3 & E). injection E as <- <-.
  assert (observed s1 = observed s) as O1 by (eapply (silent_fdo _); [|exact E1|done]; by intros []).
  by destruct (abort_children_silent l s1 l1 s2 E2 (dormant_observed _ _ O1 H) Hl).
Qed.

Lemma silent_init_queues : silent VnvmeInitializeAdminQueues.
Proof. unfold VnvmeInitializeAdminQueues. go_silent. Qed.
Hint Resolve silent_abort silent_init_queues : silent.

Lemma silent_process_cc : silent process_cc.
Proof. unfold process_cc. go_silent. Qed.

Lemma silent_push q t i : silent (NotifyRingPush q t i).
Proof.
  unfold NotifyRingPush. go_silent.
  - apply silent_store. intros m m' E. destruct (arr_set _ _ _); [|done]. injection E as <-. by destruct m.
  - apply silent_shm. by intros [].
Qed.

Lemma silent_signal : silent SignalUserMode.
Proof. apply silent_fdo. intros d. by destruct d as [? ? ? ? ? ? [] ? ? ? ?]. Qed.
Hint Resolve silent_push silent_signal silent_process_cc : silent.

Lemma silent_forward_admin t : silent (VnvmeForwardAdminCommandsToUser t).
Proof. unfold VnvmeForwardAdminCommandsToUser. go_silent. apply silent_shm. by intros [[] ? ? ?]. Qed.

(** The kernel takes no command: the queue is not valid. *)
Lemma fetch_refused s : dormant s -> is_Some (VnvmeShmGetControlBlock s) ->
  VnvmeFetchCommand 0 s = Ok ((STATUS_INVALID_DEVICE_STATE, zero_command), s).
Proof.
  intros H [m Hm]. unfold VnvmeFetchCommand. rewrite bind_get, Hm. cbn [check_io_queue Z.eqb]. rewrite bind_ret. cbn [sq_desc Z.eqb].
  rewrite (bind_opt _ _ _ (cb_AdminSQ (shm_cb m))) by done.
  assert (qd_Valid (cb_AdminSQ (shm_cb m)) = 0) as -> by (apply (dt_admin _ H); unfold admin_valid; by rewrite Hm). done.
Qed.

(** With a command pending, one attempt is made, whose failure ends the loop. *)
Lemma kernel_admin_nothing fuel t s : dormant s -> VnvmeProcessAdminCommands (S fuel) t s = Ok (tt, s).
Proof.
  intros H. unfold VnvmeProcessAdminCommands. rewrite bind_get. destruct (_ =? 0); [done|]. cbn [admin_loop].
  destruct (_ =? _); [done|]. destruct (VnvmeShmGetControlBlock s) as [m|] eqn:Hm.
  - by rewrite (bind_Ok _ _ _ _ _ (fetch_refused s H (mk_is_Some _ _ Hm))).
  - rewrite (bind_Ok _ _ s (STATUS_DEVICE_NOT_READY, zero_command) s); [done|]. unfold VnvmeFetchCommand. by rewrite bind_get, Hm.
Qed.

Lemma silent_kernel_admin fuel t : silent (VnvmeProcessAdminCommands fuel t).
Proof.
  intros s a s' E H. destruct fuel as [|fuel]; [|rewrite kernel_admin_nothing in E by done; by injection E as <- <-].
  unfold VnvmeProcessAdminCommands in E. rewrite bind_get in E. destruct (_ =? 0); [by injection E as <- <-|]. cbn in E.
  destruct (_ =? _); [by injection E as <- <-|done].
Qed.
Hint Resolve silent_forward_admin silent_kernel_admin : silent.

Lemma silent_admin_doorbells fuel mode hw : silent (process_admin_doorbells fuel mode hw).
Proof. unfold process_admin_doorbells. go_silent. Qed.

Lemma silent_io_doorbells fuel mode qid hw : silent (process_io_doorbells fuel mode qid hw).
Proof.
  unfold process_io_doorbells. apply silent_with. intros s H. apply silent_not_created; [apply (dt_sq _ H)|].
  intros q Hq. rewrite Hq. apply silent_ret.
Qed.

Lemma silent_io_loop rounds fuel mode qid hw : silent (io_doorbell_loop rounds fuel mode qid hw).
Proof.
  revert qid hw. induction rounds as [|rounds IH]; intros qid hw; cbn [io_doorbell_loop]; go_silent. apply silent_io_doorbells.
Qed.
Hint Resolve silent_admin_doorbells silent_io_loop : silent.

Lemma silent_doorbells fuel : silent (VnvmeProcessDoorbells fuel).
Proof. unfold VnvmeProcessDoorbells. go_silent. Qed.
Hint Resolve silent_doorbells : silent.

Lemma silent_timer l fuel : Forall no_queues l -> silent (VnvmeEvtPollingTimer l fuel).
Proof. intros Hl. unfold VnvmeEvtPollingTimer, AdjustPollingInterval. go_silent. by apply silent_heartbeat. Qed.

Lemma timer_children l fuel s r s' : VnvmeEvtPollingTimer l fuel s = Ok (r, s') -> dormant s -> Forall no_queues l -> Forall no_queues r.2.
Proof.
  intros E H Hl. unfold VnvmeEvtPollingTimer in E. rewrite bind_get in E. apply bind_inv in E as (l1 & s1 & E1 & E).
  apply bind_inv in E as (hw & s2 & _ & E). apply bind_inv in E as ([] & s3 & _ & E). rewrite bind_get in E. injection E as <- <-. cbn [snd].
  destruct (ks_fdo s) as [d|]; [|by injection E1 as <- <-]. case_decide; [by eapply heartbeat_children|by injection E1 as <- <-].
Qed.

Lemma silent_user_completions n i : silent (user_completions n i).
Proof.
  revert i. induction n as [|n IH]; intros i; cbn [user_completions]; [go_silent|]. apply silent_with. intros s H.
  do 2 (apply silent_bind; [apply silent_opt|intros ?]). apply silent_not_created; [apply (dt_cq _ H)|]. intros q Hq. rewrite Hq.
  apply silent_bind; [apply silent_ret|intros; apply IH].
Qed.

Lemma silent_process_user_completions : silent VnvmeProcessUserCompletions.
Proof. unfold VnvmeProcessUserCompletions. go_silent. apply silent_user_completions. Qed.

(** *** The host's accesses, and the power and PnP callbacks *)

Lemma silent_alloc n : silent (alloc n).
Proof. by intros [] a s' [= <- <-]. Qed.
Lemma silent_contiguous n : silent (alloc_contiguous n).
Proof. by intros [] a s' [= <- <-]. Qed.
Lemma silent_physical : silent physical_address.
Proof. by intros [] a s' [= <- <-]. Qed.
Hint Resolve silent_alloc silent_contiguous silent_physical : silent.

Lemma silent_write_register off v : silent (VnvmeWriteBar0Register off v).
Proof. unfold VnvmeWriteBar0Register. go_silent. Qed.
Lemma silent_write_register64 off v : silent (VnvmeWriteBar0Register64 off v).
Proof. unfold VnvmeWriteBar0Register64. go_silent. Qed.
Lemma silent_write_config off len buf : silent (VnvmeWritePcieConfig off len buf).
Proof. unfold VnvmeWritePcieConfig. go_silent. Qed.

Lemma silent_registers : silent VnvmeInitializeBar0Registers.
Proof. unfold VnvmeInitializeBar0Registers. go_silent. Qed.
Lemma silent_free_bar0 : silent VnvmeFreeBar0.
Proof. apply silent_pdo. intros p. by destruct p as [? [] ? ? ? ? ? ? ? ? ? ? ? ? ? ? ? ? ? ? ? ? ? ? ? ? ? ? ? ? ? ? ? ?]. Qed.
Lemma silent_free_config : silent VnvmeFreePcieConfig.
Proof. apply silent_pdo. intros p. by destruct p as [? ? ? ? ? ? ? [] ? ? ? ? ? ? ? ? ? ? ? ? ? ? ? ? ? ? ? ? ? ? ? ? ? ?]. Qed.
Hint Resolve silent_registers silent_free_bar0 silent_free_config : silent.

Lemma silent_prepare timer : silent (VnvmePdoEvtDevicePrepareHardware timer).
Proof.
  unfold VnvmePdoEvtDevicePrepareHardware, VnvmeAllocateBar0, VnvmeAllocatePcieConfig, VnvmeInitializePcieConfig, VnvmeInitializePollingTimer. go_silent.
Qed.
Lemma silent_stop_timer : silent VnvmeStopPollingTimer.
Proof. unfold VnvmeStopPollingTimer. go_silent. Qed.
Hint Resolve silent_stop_timer : silent.
Lemma silent_release : silent VnvmePdoEvtDeviceReleaseHardware.
Proof. unfold VnvmePdoEvtDeviceReleaseHardware. go_silent. Qed.
Lemma silent_d0_entry : silent VnvmePdoEvtDeviceD0Entry.
Proof. unfold VnvmePdoEvtDeviceD0Entry, VnvmeStartPollingTimer. go_silent. Qed.
Lemma silent_d0_exit : silent VnvmePdoEvtDeviceD0Exit.
Proof. unfold VnvmePdoEvtDeviceD0Exit. go_silent. Qed.

(** ** A poll in kernel mode *)

Definition kernel_mode (s : KState) : Prop := exists d, ks_fdo s = Some d /\ fdo_CommandMode d = VNVME_CMD_MODE_KERNEL.

(** BAR0 is mapped, and the arrays have the lengths of their declarations. *)
Record polled_shape (s : KState) : Prop := {
  po_bar0 : is_Some (pdo_Bar0VirtAddr (ks_pdo s));
  po_count : 0 <= pdo_IoQueueCount (ks_pdo s) <= 16;
  po_sq : length (pdo_IoSq (ks_pdo s)) = 16%nat
}.

(** The bus, with the shared memory, is as before, and what is observed too. *)
Definition undisturbed (s s' : KState) : Prop := ks_fdo s' = ks_fdo s /\ observed s' = observed s /\ polled_shape s'.

Lemma polled_shape_observed s s' : observed s' = observed s -> is_Some (pdo_Bar0VirtAddr (ks_pdo s')) -> polled_shape s -> polled_shape s'.
Proof.
  intros E Hb [_ H2 H3]. unfold observed, pdo_observed in E. injection E as E1 E2 E3 _ _ _ _ _ _.
  split; [done|by rewrite E3|]. by rewrite <- H3, <- !(length_fmap qs_Created), E1.
Qed.

Lemma undisturbed_pdo s f : polled_shape s -> (forall p, pdo_observed (f p) = pdo_observed p) ->
  (forall p, is_Some (pdo_Bar0VirtAddr p) -> is_Some (pdo_Bar0VirtAddr (f p))) -> undisturbed s (s <| ks_pdo ::= f |>).
Proof.
  intros H Hf Hb. assert (observed (s <| ks_pdo ::= f |>) = observed s) as E.
  { unfold observed. destruct s as [d p h c t k]. cbn. by rewrite Hf. }
  split_and!; [by destruct s|done|]. eapply polled_shape_observed; [exact E| |done]. destruct s. apply Hb, (po_bar0 _ H).
Qed.

Lemma undisturbed_trans s1 s2 s3 : undisturbed s1 s2 -> undisturbed s2 s3 -> undisturbed s1 s3.
Proof. intros (E1 & O1 & _) (E2 & O2 & H). split_and!; [congruence|congruence|done]. Qed.
Lemma undisturbed_refl s : polled_shape s -> undisturbed s s.
Proof. done. Qed.

Lemma process_cc_kernel s : polled_shape s -> wp process_cc s (fun _ s' => undisturbed s s').
Proof.
  intros H. destruct (po_bar0 _ H) as [bar Hbar]. unfold wp. rewrite (process_cc_eq s bar Hbar). cbv zeta. destruct (_ =? _); [by apply undisturbed_refl|].
  replace (s <| ks_pdo := cc_pdo bar (ks_pdo s) |>) with (s <| ks_pdo ::= cc_pdo bar |>) by (by destruct s).
  apply undisturbed_pdo; [done| |]; intros p; unfold cc_pdo; cbv zeta; (destruct (_ && _); [|destruct (_ && _)]); by destruct p.
Qed.

(** The admin doorbell is marked as seen. *)
Lemma admin_doorbells_kernel fuel hw s t : polled_shape s -> dormant s -> doorbell (ks_pdo s) 0 = Some t ->
  wp (process_admin_doorbells (S fuel) VNVME_CMD_MODE_KERNEL hw) s (fun _ s' => undisturbed s s' /\ pdo_LastAdminSqTail (ks_pdo s') = t).
Proof.
  intros H Hd Ht. unfold process_admin_doorbells. apply wp_bind, wp_get. apply wp_bind. eapply wp_of_opt; [exact Ht|].
  apply wp_bind. apply (wp_mono _ _ (fun _ s' => undisturbed s s' /\ pdo_LastAdminSqTail (ks_pdo s') = t)).
  { destruct (Z.eqb_spec t (pdo_LastAdminSqTail (ks_pdo s))) as [->|]; [by apply wp_ret|].
    apply wp_bind. eapply wp_intro; [by apply kernel_admin_nothing|]. wp_run. split; [|by destruct s as [? [] ? ? ? ?]].
    apply undisturbed_pdo; [done|by intros []|by intros []]. }
  intros hw1 s1 [H1 Hl]. apply wp_bind, wp_get. destruct (doorbell_read s1 1 (po_bar0 _ (proj2 (proj2 H1))) ltac:(lia)) as [h Hh].
  apply wp_bind. eapply wp_of_opt; [exact Hh|]. apply wp_bind. destruct (_ =? _); wp_run; [done|].
  split; [|by destruct s1 as [? [] ? ? ? ?]]. eapply undisturbed_trans; [exact H1|]. apply undisturbed_pdo; [apply H1|by intros []|by intros []].
Qed.

(** No I/O queue exists: the loop does nothing. *)
Lemma io_loop_nothing fuel mode hw s : polled_shape s -> dormant s -> forall rounds qid, 1 <= qid -> 17 <= qid + Z.of_nat rounds ->
  io_doorbell_loop rounds fuel mode qid hw s = Ok (hw, s).
Proof.
  intros H Hd. destruct H as [_ Hc Hl]. induction rounds as [|rounds IH]; intros qid H1 H2; cbn [io_doorbell_loop]; rewrite bind_get.
  - by rewrite (proj2 (Z.ltb_lt _ _)) by lia.
  - destruct (Z.ltb_spec (pdo_IoQueueCount (ks_pdo s)) qid); [done|]. rewrite (bind_Ok _ _ s hw s); [by apply IH; lia|].
    unfold process_io_doorbells. rewrite bind_get. destruct (proj2 (arr_get_Some_iff (pdo_IoSq (ks_pdo s)) (qid - 1))) as [q Hq]; [lia|].
    rewrite (bind_opt _ _ _ _ Hq). by rewrite (not_created _ _ _ Hd Hq).
Qed.

(** The controller is enabled and ready, and CC has not changed since the last poll. *)
Definition controller_ready (s : KState) : Prop :=
  pdo_Doorbells (ks_pdo s) = true /\ pdo_Registers (ks_pdo s) = true /\
  CC_EN (reg32 s REG_CC) && CSTS_RDY (reg32 s REG_CSTS) = true /\ reg32 s REG_CC = pdo_CachedCC (ks_pdo s).

Lemma doorbells_kernel fuel s : polled_shape s -> dormant s -> kernel_mode s ->
  wp (VnvmeProcessDoorbells (S fuel)) s (fun _ s' => undisturbed s s' /\ (controller_ready s -> Some (pdo_LastAdminSqTail (ks_pdo s')) = doorbell (ks_pdo s) 0)).
Proof.
  intros H Hd (d & Hfdo & Hmode). unfold VnvmeProcessDoorbells. apply wp_bind, wp_get.
  destruct (negb _ || negb _) eqn:Hreg.
  { wp_run. split; [by apply undisturbed_refl|]. intros (E1 & E2 & _). by rewrite E1, E2 in Hreg. }
  rewrite Hfdo, Hmode. cbn zeta. apply wp_bind.
  apply (wp_mono _ _ (fun _ s' => undisturbed s s' /\ (controller_ready s -> s' = s))).
  { destruct (po_bar0 _ H) as [bar Hbar]. apply wp_and; [by apply process_cc_kernel|]. unfold wp. rewrite (process_cc_eq s bar Hbar). cbv zeta.
    destruct (Z.eqb_spec (load_le bar REG_CC 4) (pdo_CachedCC (ks_pdo s))) as [E|E]; [done|]. intros (_ & _ & _ & Hcc). unfold reg32 in Hcc. by rewrite Hbar in Hcc. }
  intros hw s1 [H1 Hr]. apply wp_bind, wp_get. pose proof (proj2 (proj2 H1)) as Hs1. destruct (po_bar0 _ Hs1) as [bar Hbar].
  apply wp_bind. eapply wp_of_opt; [by apply (bar0_load_eq s1 bar)|]. apply wp_bind. eapply wp_of_opt; [by apply (bar0_load_eq s1 bar)|].
  cbv beta. destruct (negb (_ && _)) eqn:Hrdy.
  { wp_run. split; [done|]. intros Hready. pose proof (Hr Hready) as ->. destruct Hready as (_ & _ & Hready & _). unfold reg32 in Hready.
    rewrite Hbar in Hready. by rewrite Hready in Hrdy. }
  destruct (doorbell_read s1 0 (po_bar0 _ Hs1) ltac:(lia)) as [t Ht]. pose proof (dormant_observed _ _ (proj1 (proj2 H1)) Hd) as Hd1.
  apply wp_bind. eapply wp_mono; [by apply (admin_doorbells_kernel fuel hw s1 t)|]. intros hw2 s2 [H2 Hl].
  eapply wp_intro; [apply (io_loop_nothing (S fuel) _ hw2 s2 (proj2 (proj2 H2)) (dormant_observed _ _ (proj1 (proj2 H2)) Hd1) 17 1); lia|].
  split; [by eapply undisturbed_trans|]. intros Hready. rewrite Hl. rewrite (Hr Hready) in Ht. done.
Qed.

Lemma timer_kernel l fuel s : polled_shape s -> dormant s -> kernel_mode s ->
  wp (VnvmeEvtPollingTimer l (S fuel)) s (fun r s' => r.2 = l /\ undisturbed s s' /\ (controller_ready s -> Some (pdo_LastAdminSqTail (ks_pdo s')) = doorbell (ks_pdo s) 0)).
Proof.
  intros H Hd Hk. pose proof Hk as (d & Hfdo & Hmode). unfold VnvmeEvtPollingTimer. apply wp_bind, wp_get. apply wp_bind. rewrite Hfdo.
  rewrite decide_False by (by rewrite Hmode). apply wp_ret. apply wp_bind. eapply wp_mono; [by apply doorbells_kernel|]. intros hw s1 [H1 Hl].
  unfold AdjustPollingInterval. wp_run. split; [done|]. split.
  - eapply undisturbed_trans; [exact H1|]. apply undisturbed_pdo; [apply H1|by intros []|by intros []].
  - intros Hr. rewrite <- (Hl Hr). by destruct s1 as [? [] ? ? ? ?].
Qed.

(** ** Everything that happens *)

Inductive driver_step : KState -> KState -> Prop :=
  (* the driver *)
  | step_poll others fuel r s s' : Forall no_queues others -> VnvmeEvtPollingTimer others fuel s = Ok (r, s') -> driver_step s s'
  | step_completions st s s' : VnvmeProcessUserCompletions s = Ok (st, s') -> driver_step s s'
  | step_prepare timer st s s' : VnvmePdoEvtDevicePrepareHardware timer s = Ok (st, s') -> driver_step s s'
  | step_release st s s' : VnvmePdoEvtDeviceReleaseHardware s = Ok (st, s') -> driver_step s s'
  | step_d0_entry st s s' : VnvmePdoEvtDeviceD0Entry s = Ok (st, s') -> driver_step s s'
  | step_d0_exit st s s' : VnvmePdoEvtDeviceD0Exit s = Ok (st, s') -> driver_step s s'
  (* the host: its memory, BAR0 and the configuration space *)
  | step_host host s : driver_step s (s <| ks_host := host |>)
  | step_register off v u s s' : VnvmeWriteBar0Register off v s = Ok (u, s') -> driver_step s s'
  | step_register64 off v u s s' : VnvmeWriteBar0Register64 off v s = Ok (u, s') -> driver_step s s'
  | step_config off len buf st s s' : VnvmeWritePcieConfig off len buf s = Ok (st, s') -> driver_step s s'
  (* the service, or whoever has the shared memory mapped: any store but to the mark *)
  | step_service f s : (forall m, qd_Valid (cb_AdminSQ (shm_cb (f m))) = qd_Valid (cb_AdminSQ (shm_cb m))) ->
      driver_step s (s <| ks_fdo ::= option_map (fun d => d <| fdo_Shm ::= option_map f |>) |>)
  (* requests that change the bus: the mode, the heartbeat, the events; the clock, the configuration *)
  | step_bus f s : (forall d, fdo_Shm (f d) = fdo_Shm d) -> driver_step s (s <| ks_fdo ::= option_map f |>)
  | step_clock t s : driver_step s (s <| ks_time := t |>)
  | step_settings cfg s : driver_step s (s <| ks_cfg := cfg |>).

(** All of them are silent, but for the host's change of its own memory. *)
Lemma driver_step_observed s s' : driver_step s s' -> dormant s ->
  pdo_observed (ks_pdo s') = pdo_observed (ks_pdo s) /\ admin_valid s' = admin_valid s.
Proof.
  intros Hs H. assert (observed s' = observed s \/ exists host, s' = s <| ks_host := host |>) as [E|[host ->]].
  { destruct Hs as [| | | | | |host s| | | |f s Hf|f s Hf| |].
    - left. by eapply silent_timer.
    - left. by eapply silent_process_user_completions.
    - left. by eapply silent_prepare.
    - left. by eapply silent_release.
    - left. by eapply silent_d0_entry.
    - left. by eapply silent_d0_exit.
    - right. by exists host.
    - left. by eapply silent_write_register.
    - left. by eapply silent_write_register64.
    - left. by eapply silent_write_config.
    - left. by eapply (silent_shm f Hf).
    - left. eapply (silent_fdo f); [|done|done]. intros d. by rewrite Hf.
    - left. by destruct s.
    - left. by destruct s. }
  - split; [exact (f_equal (fun o => o.1.1) E)|exact (f_equal (fun o => o.1.2) E)].
  - by destruct s.
Qed.

Lemma driver_step_dormant s s' : driver_step s s' -> dormant s -> dormant s'.
Proof.
  intros Hs H. destruct (driver_step_observed s s' Hs H) as [E1 E2]. destruct H as [H1 H2 H3]. unfold pdo_observed in E1. injection E1 as E1 E3 _ _ _ _ _.
  split; [by rewrite E2|by eapply created_flags|by eapply created_flags].
Qed.

(** C12: No command is ever executed. From a dormant controller, which it is as VnvmeCreateControllerPdo leaves it, with a
    shared memory as VnvmeAllocateShm leaves it ([new_controller_dormant], [VnvmeAllocateShm_marks]), nothing that can happen brings an I/O queue into being, changes a disk, stores an event
    request or counts an I/O command: not the host's writes to its memory, to BAR0 and the configuration space, not polls
    in either mode, with any number of other controllers on the bus that have no I/O queues either (and get none: a poll
    leaves them without), a service that crashes, or that stores what it likes except the mark of the admin queue, power and
    PnP callbacks, in any order. No poll writes to the host's memory. In kernel mode a poll returns, whatever the host
    has rung, and leaves the shared memory as it is, so that no completion is posted; yet when the controller is ready
    it takes the admin doorbell as seen, so that the command stays without an answer. *)
Theorem driver_executes_nothing s0 s : dormant s0 -> rtc driver_step s0 s ->
  dormant s /\ pdo_observed (ks_pdo s) = pdo_observed (ks_pdo s0) /\
  (forall others fuel r s', Forall no_queues others -> VnvmeEvtPollingTimer others fuel s = Ok (r, s') ->
    ks_host s' = ks_host s /\ Forall no_queues r.2) /\
  (forall others fuel, is_Some (pdo_Bar0VirtAddr (ks_pdo s)) -> 0 <= pdo_IoQueueCount (ks_pdo s0) <= 16 -> length (pdo_IoSq (ks_pdo s0)) = 16%nat -> kernel_mode s ->
    exists delay s', VnvmeEvtPollingTimer others (S fuel) s = Ok (delay, others, s') /\ ks_fdo s' = ks_fdo s /\
      (controller_ready s -> Some (pdo_LastAdminSqTail (ks_pdo s')) = doorbell (ks_pdo s) 0)).
Proof.
  intros H0 Hr. assert (dormant s /\ pdo_observed (ks_pdo s) = pdo_observed (ks_pdo s0)) as [H E].
  { apply (rtc_invariant driver_step (fun s => dormant s /\ pdo_observed (ks_pdo s) = pdo_observed (ks_pdo s0)) s0 s); [|done|done].
    intros a b Hab [Ha Ea]. split; [by eapply driver_step_dormant|]. rewrite <- Ea. by apply driver_step_observed. }
  split; [done|]. split; [done|]. split.
  - intros others fuel r s' Ho Hp. split; [exact (f_equal snd (silent_timer _ _ Ho _ _ _ Hp H))|by eapply timer_children].
  - intros others fuel Hb Hn Hl Hk. assert (polled_shape s) as Hs.
    { unfold pdo_observed in E. injection E as E1 E2 E3 _ _ _ _. split; [done|by rewrite E3|]. by rewrite <- Hl, <- !(length_fmap qs_Created), E1. }
    destruct (wp_elim _ _ _ (timer_kernel others fuel s Hs H Hk)) as ([delay l'] & s' & Hp & Hl' & (Hf & _) & Hd). cbn in Hl'. subst l'.
    by exists delay, s'.
Qed.

(** The beginning: a new controller, and a new shared memory. *)
Lemma new_controller_dormant id s : ks_pdo s = new_pdo id -> (forall v, admin_valid s = Some v -> v = 0) -> dormant s.
Proof. intros E H. split; [done| |]; rewrite E; apply (bool_decide_unpack _); by vm_compute. Qed.
Lemma VnvmeAllocateShm_marks (s s' : KState) : VnvmeAllocateShm s = Ok (STATUS_SUCCESS, s') -> forall v, admin_valid s' = Some v -> v = 0.
Proof.
  intros E v. destruct (ks_fdo s) as [d|] eqn:Hd.
  - unfold admin_valid, VnvmeShmGetControlBlock. rewrite (VnvmeAllocateShm_fdo s s' d Hd E). by intros [= <-].
  - unfold VnvmeAllocateShm, alloc_contiguous, mbind, M_bind in E. destruct (MmAllocateContiguousMemorySpecifyCache _ _); [|done].
    injection E as <-. unfold admin_valid, VnvmeShmGetControlBlock. cbn. by rewrite Hd.
Qed.
End Dormant.

(** *** The theorem at work *)

(** The driver after its start, with one controller that has been prepared; the host enables it, polls follow, and it
    puts a command into the admin queue and rings the doorbell. *)
#[local] Existing Instances TestKernel.

Definition dormant_start : @KState TestKernel := test_state test_shm mem_zero.
Definition dormant_prepared : @KState TestKernel := final (VnvmePdoEvtDevicePrepareHardware STATUS_SUCCESS) dormant_start.
Definition dormant_enabled : @KState TestKernel := final (VnvmeWriteBar0Register REG_CC 1) dormant_prepared.
Definition dormant_polled : @KState TestKernel := final (VnvmeEvtPollingTimer [None] 1) dormant_enabled.
Definition dormant_rung : @KState TestKernel := final (VnvmeWriteBar0Register DOORBELL_BASE 1) dormant_polled.

Lemma dormant_start_ok : dormant dormant_start.
Proof. split; [by intros v [= <-]| |]; apply (bool_decide_unpack _); by vm_compute. Qed.

Lemma dormant_prepared_run : VnvmePdoEvtDevicePrepareHardware STATUS_SUCCESS dormant_start = Ok (STATUS_SUCCESS, dormant_prepared).
Proof. refine (final_run (VnvmePdoEvtDevicePrepareHardware STATUS_SUCCESS) dormant_start STATUS_SUCCESS _). by vm_compute. Qed.
Lemma dormant_enabled_run : VnvmeWriteBar0Register REG_CC 1 dormant_prepared = Ok (tt, dormant_enabled).
Proof. refine (final_run (VnvmeWriteBar0Register REG_CC 1) dormant_prepared tt _). by vm_compute. Qed.
Lemma dormant_polled_run : VnvmeEvtPollingTimer [None] 1 dormant_enabled = Ok (None, [None], dormant_polled).
Proof. refine (final_run (VnvmeEvtPollingTimer [None] 1) dormant_enabled (None, [None]) _). by vm_compute. Qed.
Lemma dormant_rung_run : VnvmeWriteBar0Register DOORBELL_BASE 1 dormant_polled = Ok (tt, dormant_rung).
Proof. refine (final_run (VnvmeWriteBar0Register DOORBELL_BASE 1) dormant_polled tt _). by vm_compute. Qed.

Lemma dormant_run : rtc driver_step dormant_start dormant_rung.
Proof.
  apply rtc_l with dormant_prepared; [exact (step_prepare _ _ _ _ dormant_prepared_run)|].
  apply rtc_l with dormant_enabled; [exact (step_register _ _ _ _ _ dormant_enabled_run)|].
  apply rtc_l with dormant_polled; [refine (step_poll _ _ _ _ _ _ dormant_polled_run); by constructor|].
  apply rtc_once. exact (step_register _ _ _ _ _ dormant_rung_run).
Qed.

Lemma dormant_rung_ready : controller_ready dormant_rung /\ doorbell (ks_pdo dormant_rung) 0 = Some 1 /\ pdo_LastAdminSqTail (ks_pdo dormant_rung) = 0.
Proof. by vm_compute. Qed.

Lemma driver_executes_nothing_witness : exists delay s', VnvmeEvtPollingTimer [None] 1 dormant_rung = Ok (delay, [None], s') /\
  VnvmeShmGetControlBlock s' = VnvmeShmGetControlBlock dormant_rung /\ pdo_LastAdminSqTail (ks_pdo s') = 1.
Proof.
  destruct (driver_executes_nothing dormant_start dormant_rung dormant_start_ok dormant_run) as (_ & _ & _ & Hk).
  destruct (Hk [None] 0%nat) as (delay & s' & Hp & Hf & Hd).
  - vm_compute. eexists. reflexivity.
  - split; vm_compute; discriminate.
  - reflexivity.
  - eexists. split; [vm_compute; reflexivity|reflexivity].
  - exists delay, s'. split; [exact Hp|]. split; [unfold VnvmeShmGetControlBlock; rewrite Hf; reflexivity|].
    specialize (Hd (proj1 dormant_rung_ready)). rewrite (proj1 (proj2 dormant_rung_ready)) in Hd. injection Hd. trivial.
Defined.
