(* ===== verification/CtrlDev.v ===== *)
(** The control device: the IOCTL interface of [include/vnvme_ioctl.h] and
    [vnvme/ctrl_dev.c].

    A request has an input and an output buffer, at two addresses of a byte
    memory.  All the codes are METHOD_BUFFERED: the framework then passes the
    same system buffer for both ([buffered]), so what a handler writes to its
    output it also writes over its input.  The structures are packed: a field is
    a load or a store at its offset, and one that leaves the buffer is a fault. *)
From S2P Require Import Prelude NvmeSpec Kernel Config Storage State Shm Pdo Bus.
Open Scope Z_scope.
Open Scope c_scope.

(** ** Constants *)

Definition VNVME_VERSION : Z := Z.lor (Z.lor (Z.shiftl 1 16) (Z.shiftl 0 8)) 0.
Definition VNVME_MAX_COMPLETIONS_PER_SUBMIT : Z := 4096.
Definition VNVME_BLOCK_SIZE_512 : Z := 512.
Definition VNVME_BLOCK_SIZE_4096 : Z := 4096.
Definition VNVME_MAX_DEBUG_LEVEL : Z := 5.
Definition VNVME_MAX_NAMESPACE_CAPACITY : Z := 16 * 1024 * 1024 * 1024 * 1024.
Definition VNVME_NS_FLAG_ENABLED : Z := 0x0001.
Definition VNVME_NS_FLAG_READONLY : Z := 0x0002.
Definition VNVME_NS_FLAG_SPARSE : Z := 0x0004.
Definition VNVME_DRIVER_STATUS_READY : Z := 1.
Definition VNVME_USER_STATUS_NOT_CONNECTED : Z := 0.
Definition VNVME_USER_STATUS_READY : Z := 2.
Definition VNVME_MAX_STATS_CONTROLLERS : Z := 8.
Definition VNVME_MAX_STATS_NAMESPACES : Z := 16.
Definition VNVME_CONFIG_FIELD_DEBUG_LEVEL : Z := 0x0001.
Definition VNVME_CONFIG_FIELD_DEBUG_FLAGS : Z := 0x0002.
Definition VNVME_CONFIG_FIELD_HEARTBEAT : Z := 0x0004.
Definition VNVME_CONFIG_FIELD_POLL_INTERVAL : Z := 0x0008.
Definition VNVME_CONFIG_FIELD_BATCH_SIZE : Z := 0x0010.
Definition VNVME_CONFIG_FIELD_ALL_DYNAMIC : Z := 0x001F.

(** CTL_CODE with FILE_DEVICE_VNVME and METHOD_BUFFERED. *)
Definition FILE_DEVICE_VNVME : Z := 0x8000.
Definition VNVME_IOCTL_INDEX_BASE : Z := 0x800.
Definition FILE_ANY_ACCESS : Z := 0.
Definition FILE_READ_DATA : Z := 1.
Definition FILE_WRITE_DATA : Z := 2.
Definition CTL_CODE (index access : Z) : Z :=
  Z.lor (Z.lor (Z.shiftl FILE_DEVICE_VNVME 16) (Z.shiftl access 14)) (Z.shiftl (VNVME_IOCTL_INDEX_BASE + index) 2).

Definition IOCTL_VNVME_GET_VERSION : Z := CTL_CODE 0 FILE_ANY_ACCESS.
Definition IOCTL_VNVME_GET_STATUS : Z := CTL_CODE 1 FILE_ANY_ACCESS.
Definition IOCTL_VNVME_MAP_SHM : Z := CTL_CODE 10 (Z.lor FILE_READ_DATA FILE_WRITE_DATA).
Definition IOCTL_VNVME_UNMAP_SHM : Z := CTL_CODE 11 (Z.lor FILE_READ_DATA FILE_WRITE_DATA).
Definition IOCTL_VNVME_USER_READY : Z := CTL_CODE 20 FILE_WRITE_DATA.
Definition IOCTL_VNVME_USER_SHUTDOWN : Z := CTL_CODE 21 FILE_WRITE_DATA.
Definition IOCTL_VNVME_HEARTBEAT : Z := CTL_CODE 22 FILE_WRITE_DATA.
Definition IOCTL_VNVME_GET_COMMAND_EVENT : Z := CTL_CODE 30 FILE_READ_DATA.
Definition IOCTL_VNVME_SUBMIT_COMPLETIONS : Z := CTL_CODE 31 FILE_WRITE_DATA.
Definition IOCTL_VNVME_CREATE_CONTROLLER : Z := CTL_CODE 40 FILE_WRITE_DATA.
Definition IOCTL_VNVME_DELETE_CONTROLLER : Z := CTL_CODE 41 FILE_WRITE_DATA.
Definition IOCTL_VNVME_LIST_CONTROLLERS : Z := CTL_CODE 42 FILE_READ_DATA.
Definition IOCTL_VNVME_CREATE_NAMESPACE : Z := CTL_CODE 50 FILE_WRITE_DATA.
Definition IOCTL_VNVME_DELETE_NAMESPACE : Z := CTL_CODE 51 FILE_WRITE_DATA.
Definition IOCTL_VNVME_LIST_NAMESPACES : Z := CTL_CODE 52 FILE_READ_DATA.
Definition IOCTL_VNVME_GET_DEBUG_INFO : Z := CTL_CODE 100 FILE_READ_DATA.
Definition IOCTL_VNVME_SET_DEBUG_LEVEL : Z := CTL_CODE 101 FILE_WRITE_DATA.
Definition IOCTL_VNVME_GET_STATS : Z := CTL_CODE 110 FILE_READ_DATA.
Definition IOCTL_VNVME_RESET_STATS : Z := CTL_CODE 111 FILE_WRITE_DATA.
Definition IOCTL_VNVME_GET_CONFIG : Z := CTL_CODE 120 FILE_READ_DATA.
Definition IOCTL_VNVME_SET_CONFIG : Z := CTL_CODE 121 FILE_WRITE_DATA.

(** Sizes of the packed structures. *)
Definition sizeof_VNVME_GET_VERSION_OUTPUT : Z := 4 * 4.
Definition sizeof_VNVME_GET_STATUS_OUTPUT : Z := 8 * 4 + 7 * 8.
Definition sizeof_VNVME_MAP_SHM_OUTPUT : Z := 8 + 4 + 4 + 8.
Definition sizeof_VNVME_USER_READY_INPUT : Z := 4 * 4.
Definition sizeof_VNVME_HEARTBEAT_INPUT : Z := 8 + 8.
Definition sizeof_VNVME_HEARTBEAT_OUTPUT : Z := 8 + 4 + 4.
Definition sizeof_VNVME_GET_COMMAND_EVENT_OUTPUT : Z := 8.
Definition sizeof_VNVME_SUBMIT_COMPLETIONS_INPUT : Z := 4 + 4.
Definition sizeof_VNVME_CONTROLLER_CONFIG : Z := 20 + 40 + 8 + 4 * 4 + 4 + 8 + 4 + 4 + 260 * 2.
Definition sizeof_VNVME_CREATE_CONTROLLER_INPUT : Z := sizeof_VNVME_CONTROLLER_CONFIG.
Definition sizeof_VNVME_CREATE_CONTROLLER_OUTPUT : Z := 4 + 200 * 2.
Definition sizeof_VNVME_DELETE_CONTROLLER_INPUT : Z := 4 + 4.
Definition sizeof_VNVME_CONTROLLER_INFO : Z := 4 + 4 + 20 + 40 + 4 + 8.
Definition sizeof_VNVME_LIST_CONTROLLERS_OUTPUT : Z := 4 + 4 + 16 * sizeof_VNVME_CONTROLLER_INFO.
Definition sizeof_VNVME_NAMESPACE_CONFIG : Z := 4 + 8 + 4 + 4 + 260.
Definition sizeof_VNVME_CREATE_NAMESPACE_INPUT : Z := 4 + sizeof_VNVME_NAMESPACE_CONFIG.
Definition sizeof_VNVME_CREATE_NAMESPACE_OUTPUT : Z := 4 + 4.
Definition sizeof_VNVME_DELETE_NAMESPACE_INPUT : Z := 4 + 4.
Definition sizeof_VNVME_LIST_NAMESPACES_INPUT : Z := 4 + 4.
Definition sizeof_VNVME_NAMESPACE_INFO : Z := 4 + 4 + 8 + 4 + 4.
Definition sizeof_VNVME_LIST_NAMESPACES_OUTPUT : Z := 4 + 4 + 16 * sizeof_VNVME_NAMESPACE_INFO.
Definition sizeof_VNVME_SET_DEBUG_LEVEL_INPUT : Z := 4 + 4.
Definition sizeof_VNVME_NAMESPACE_STATS : Z := 4 + 4 + 8 + 4 + 5 * 8.
Definition sizeof_VNVME_CONTROLLER_STATS : Z := 4 + 4 + 4 * 8 + 4 + 4.
Definition sizeof_VNVME_GET_STATS_INPUT : Z := 4 + 4.
Definition sizeof_VNVME_GET_STATS_OUTPUT : Z :=
  4 + 4 + 8 + 8 + VNVME_MAX_STATS_CONTROLLERS * sizeof_VNVME_CONTROLLER_STATS + VNVME_MAX_STATS_NAMESPACES * sizeof_VNVME_NAMESPACE_STATS.
Definition sizeof_VNVME_IOCTL_CONFIG : Z := 4 * 4 + 2 * 4 + 260 * 2 + 4 * 4 + 2 * 4 + 2 * 4.
Definition sizeof_VNVME_SET_CONFIG_INPUT : Z := 4 + 4 + sizeof_VNVME_IOCTL_CONFIG.
Definition sizeof_VNVME_GET_CONFIG_OUTPUT : Z := sizeof_VNVME_IOCTL_CONFIG + 4 + 4.

(** ** Requests *)

(** A request: the lengths and the addresses of its buffers, and the answers of
    WdfRequestRetrieveInputBuffer and WdfRequestRetrieveOutputBuffer. *)
Record WDFREQUEST := mkRequest {
  rq_InputBufferLength : Z;
  rq_OutputBufferLength : Z;
  rq_Input : Z;
  rq_Output : Z;
  rq_InputStatus : NTSTATUS;
  rq_OutputStatus : NTSTATUS
}.

(** METHOD_BUFFERED. *)
Definition buffered (rq : WDFREQUEST) : Prop := rq_Input rq = rq_Output rq.

Section CtrlDev.
Context {W : WinKernel} {F : WdfFramework}.

(** The driver, and the memory that holds the buffers of the request. *)
Record CtrlState := mkCtrl {
  ct_bus : BusState;
  ct_mem : mem
}.
Definition etaCtrl r := mkCtrl (ct_bus r) (ct_mem r).
#[export] Instance set_ct_bus : Setter ct_bus := ltac:(mk_setter etaCtrl).
#[export] Instance set_ct_mem : Setter ct_mem := ltac:(mk_setter etaCtrl).

Definition on_bus {A} (f : M BusState A) : M CtrlState A := fun s =>
  match f (ct_bus s) with
  | Ok (a, b) => Ok (a, s <| ct_bus := b |>)
  | Fault => Fault
  | OutOfFuel => OutOfFuel
  end.

(** [input->field] and [output->field = v]. *)
Definition input (rq : WDFREQUEST) (off : Z) (n : nat) : M CtrlState Z :=
  s ← get;
  if in_block (rq_InputBufferLength rq) off (Z.of_nat n) then mret (load_le (ct_mem s) (rq_Input rq + off) n) else fault.

Definition output (rq : WDFREQUEST) (off : Z) (n : nat) (v : Z) : M CtrlState unit :=
  if in_block (rq_OutputBufferLength rq) off (Z.of_nat n)
  then modify (fun s => s <| ct_mem ::= fun m => store_le m (rq_Output rq + off) n v |>)
  else fault.

Fixpoint outputs (rq : WDFREQUEST) (l : list (Z * nat * Z)) : M CtrlState unit :=
  match l with
  | [] => mret tt
  | (off, n, v) :: l => output rq off n v;; outputs rq l
  end.

(** RtlCopyMemory to, and RtlZeroMemory of, the output. *)
Definition output_copy (rq : WDFREQUEST) (off : Z) (src : mem) (n : Z) : M CtrlState unit :=
  if in_block (rq_OutputBufferLength rq) off n
  then modify (fun s => s <| ct_mem ::= fun m => mem_copy m (rq_Output rq + off) src 0 n |>)
  else fault.

Definition output_zero (rq : WDFREQUEST) (off n : Z) : M CtrlState unit :=
  if in_block (rq_OutputBufferLength rq) off n
  then modify (fun s => s <| ct_mem ::= fun m => mem_fill m (rq_Output rq + off) n 0 |>)
  else fault.

(** The bytes of a wide string that is followed by zeros. *)
Definition wide_mem (l : list Z) : mem := fun a =>
  if a <? 0 then 0 else u8 (Z.shiftr (nth (Z.to_nat (a / 2)) l 0) (8 * (a mod 2))).

(** What a handler returns: the status, and [*BytesReturned]. *)
Definition result : Type := NTSTATUS * Z.
Definition failed (status : NTSTATUS) : M CtrlState result := mret (status, 0).

(** [fdoContext], which is g_FdoContext; NULL ends the handler. *)
Definition with_fdo (k : VNVME_FDO_CONTEXT -> M CtrlState result) : M CtrlState result :=
  s ← get;
  match bs_fdo (ct_bus s) with
  | None => failed STATUS_DEVICE_NOT_READY
  | Some fdoContext => k fdoContext
  end.

(** The length checks and the retrieval of the buffers. *)
Definition retrieve_input (rq : WDFREQUEST) (k : M CtrlState result) : M CtrlState result :=
  if negb (NT_SUCCESS (rq_InputStatus rq)) then failed (rq_InputStatus rq) else k.
Definition retrieve_output (rq : WDFREQUEST) (k : M CtrlState result) : M CtrlState result :=
  if negb (NT_SUCCESS (rq_OutputStatus rq)) then failed (rq_OutputStatus rq) else k.
Definition check_input (rq : WDFREQUEST) (size : Z) (k : M CtrlState result) : M CtrlState result :=
  if rq_InputBufferLength rq <? size then failed STATUS_BUFFER_TOO_SMALL else k.
Definition check_output (rq : WDFREQUEST) (size : Z) (k : M CtrlState result) : M CtrlState result :=
  if rq_OutputBufferLength rq <? size then failed STATUS_BUFFER_TOO_SMALL else k.

(** Changes of child [i] of the list, and of one of its namespaces. *)
Definition child_update (i : nat) (f : VNVME_PDO_CONTEXT -> VNVME_PDO_CONTEXT) : M CtrlState unit :=
  modify (fun s => s <| ct_bus ::= fun b => b <| bs_children ::= fun l => alter f i l |> |>).

Definition child_ns_update (i : nat) (index : Z) (f : VNVME_NAMESPACE -> VNVME_NAMESPACE) : M CtrlState unit :=
  s ← get;
  p ← of_opt (bs_children (ct_bus s) !! i);
  l ← of_opt (upd_nth (pdo_Namespaces p) index f);
  child_update i (fun p => p <| pdo_Namespaces := l |>).

(** ** Handlers *)

Definition VnvmeHandleGetVersion (rq : WDFREQUEST) : M CtrlState result :=
  check_output rq sizeof_VNVME_GET_VERSION_OUTPUT (retrieve_output rq (
    outputs rq [(0, 4%nat, VNVME_VERSION); (4, 4%nat, VNVME_VERSION); (8, 4%nat, 1); (12, 4%nat, 0)];;
    mret (STATUS_SUCCESS, sizeof_VNVME_GET_VERSION_OUTPUT))).

(** The loop that counts the active namespaces of all controllers. *)
Definition active_namespaces (p : VNVME_PDO_CONTEXT) : list VNVME_NAMESPACE := filter (fun ns => ns_Active ns = true) (pdo_Namespaces p).
Definition count_namespaces (children : list VNVME_PDO_CONTEXT) : Z :=
  foldl (fun n p => foldl (fun n _ => n +₃₂ 1) n (active_namespaces p)) 0 children.

Definition VnvmeHandleGetStatus (rq : WDFREQUEST) : M CtrlState result :=
  with_fdo (fun fdo =>
    check_output rq sizeof_VNVME_GET_STATUS_OUTPUT (retrieve_output rq (
      s ← get;
      let b := ct_bus s in
      outputs rq [
        (0, 4%nat, VNVME_DRIVER_STATUS_READY);
        (4, 4%nat, if fdo_UserReady fdo then VNVME_USER_STATUS_READY else VNVME_USER_STATUS_NOT_CONNECTED);
        (8, 4%nat, fb_ChildDeviceCount (bs_bus b));
        (12, 4%nat, count_namespaces (bs_children b));
        (16, 4%nat, if fdo_ShmUserVirtAddr fdo then 1 else 0);
        (20, 4%nat, u32 (fdo_ShmSize fdo));
        (32, 8%nat, fb_CommandsProcessed (bs_bus b));
        (64, 8%nat, fdo_ErrorCount fdo)];;
      mret (STATUS_SUCCESS, sizeof_VNVME_GET_STATUS_OUTPUT)))).

(** [userAddress] is the address MmMapLockedPagesSpecifyCache returns. *)
Definition VnvmeHandleMapShm (userAddress : Z) (rq : WDFREQUEST) : M CtrlState result :=
  with_fdo (fun fdo =>
    check_output rq sizeof_VNVME_MAP_SHM_OUTPUT (retrieve_output rq (
      (if fdo_ShmUserVirtAddr fdo then on_bus (on_fdo VnvmeUnmapShmFromUser) else mret tt);;
      '(status, mapped) ← on_bus (on_fdo (VnvmeMapShmToUser fdo));
      if negb (NT_SUCCESS status) then failed status
      else
        outputs rq [(0, 8%nat, if (mapped : bool) then userAddress else 0); (8, 4%nat, u32 (fdo_ShmSize fdo)); (12, 4%nat, 0); (16, 8%nat, 0)];;
        mret (STATUS_SUCCESS, sizeof_VNVME_MAP_SHM_OUTPUT)))).

Definition VnvmeHandleUserReady (rq : WDFREQUEST) : M CtrlState result :=
  with_fdo (fun _ =>
    check_input rq sizeof_VNVME_USER_READY_INPUT (retrieve_input rq (
      version ← input rq 4 4;
      if negb (Z.shiftr version 16 =? Z.shiftr VNVME_VERSION 16) then failed STATUS_REVISION_MISMATCH
      else
        pid ← input rq 0 4;
        on_bus (bus_update (fun f => f <| fb_UserPid := pid |>));;
        s ← get;
        on_bus (bus_fdo_update (fun d => d <| fdo_UserReady := true |> <| fdo_LastHeartbeat := bs_time (ct_bus s) |>));;
        on_bus (bus_update (fun f => f <| fb_UserReadyEvent := true |>));;
        failed STATUS_SUCCESS))).

(** What Tail and Head say is pending in a submission queue: nothing when the tail has wrapped. *)
Definition pending_in (q : VNVME_QUEUE_STATE) (pending : Z) : Z :=
  if qs_Head q <=? qs_Tail q then pending +₃₂ (qs_Tail q - qs_Head q) else pending.

Fixpoint pending_io (IoSq : list VNVME_QUEUE_STATE) (n : nat) (i pending : Z) : option Z :=
  match n with
  | O => Some pending
  | S n =>
      q ← arr_get IoSq i;
      pending_io IoSq n (i + 1) (if qs_Created q then pending_in q pending else pending)
  end.

Fixpoint pending_commands (children : list VNVME_PDO_CONTEXT) (pending : Z) : option Z :=
  match children with
  | [] => Some pending
  | p :: children =>
      pending ← pending_io (pdo_IoSq p) (Z.to_nat (pdo_IoQueueCount p)) 0 (pending_in (pdo_AdminSq p) pending);
      pending_commands children pending
  end.

Definition VnvmeHandleHeartbeat (rq : WDFREQUEST) : M CtrlState result :=
  s ← get;
  match bs_fdo (ct_bus s) with
  | None => failed STATUS_DEVICE_NOT_READY
  | Some fdo =>
      if negb (fdo_UserReady fdo) then failed STATUS_DEVICE_NOT_READY
      else
        check_input rq sizeof_VNVME_HEARTBEAT_INPUT (check_output rq sizeof_VNVME_HEARTBEAT_OUTPUT (
          retrieve_input rq (retrieve_output rq (
            on_bus (bus_fdo_update (fun d => d <| fdo_LastHeartbeat := bs_time (ct_bus s) |>));;
            pending ← of_opt (pending_commands (bs_children (ct_bus s)) 0);
            outputs rq [(8, 4%nat, pending); (0, 8%nat, bs_time (ct_bus s)); (12, 4%nat, 0)];;
            mret (STATUS_SUCCESS, sizeof_VNVME_HEARTBEAT_OUTPUT)))))
  end.

Definition VnvmeHandleCreateController (rq : WDFREQUEST) : M CtrlState result :=
  with_fdo (fun _ =>
    check_input rq sizeof_VNVME_CREATE_CONTROLLER_INPUT (check_output rq sizeof_VNVME_CREATE_CONTROLLER_OUTPUT (
      retrieve_input rq (retrieve_output rq (
        controllerId ← on_bus take_id;
        status ← on_bus (VnvmeCreateVirtualController controllerId);
        if negb (NT_SUCCESS status) then failed status
        else
          output rq 0 4 controllerId;;
          output_zero rq 4 400;;
          (let '(_, text) := RtlStringCbPrintfW 200 ("VNVME\CONTROLLER\" +:+ lu controllerId) in
           output_copy rq 4 (wide_mem text) ((Z.of_nat (length text) + 1) * 2));;
          mret (STATUS_SUCCESS, sizeof_VNVME_CREATE_CONTROLLER_OUTPUT)))))).

Definition VnvmeHandleDeleteController (rq : WDFREQUEST) : M CtrlState result :=
  with_fdo (fun _ =>
    check_input rq sizeof_VNVME_DELETE_CONTROLLER_INPUT (retrieve_input rq (
      controllerId ← input rq 0 4;
      status ← on_bus (VnvmeDeleteVirtualController controllerId);
      if negb (NT_SUCCESS status) then failed status else failed STATUS_SUCCESS))).

(** The total capacity of the active namespaces. *)
Definition capacity (p : VNVME_PDO_CONTEXT) : Z :=
  foldl (fun n ns => n +₆₄ (ns_TotalBlocks ns *₆₄ ns_BlockSize ns)) 0 (active_namespaces p).

(** The loop over the controllers; [index] is the next entry of the output. *)
Fixpoint list_controllers (rq : WDFREQUEST) (children : list VNVME_PDO_CONTEXT) (index : Z) : M CtrlState Z :=
  match children with
  | [] => mret index
  | p :: children =>
      if index <? 16 then
        let info := 8 + index * sizeof_VNVME_CONTROLLER_INFO in
        outputs rq [(info, 4%nat, pdo_ControllerId p);
                    (info + 4, 4%nat, if negb (Z.land (pdo_CachedCC p) 1 =? 0) then 1 else 0);
                    (info + 68, 4%nat, pdo_NamespaceCount p);
                    (info + 72, 8%nat, capacity p)];;
        output_copy rq (info + 8) (str_mem "VNVME000        ") 16;;
        output_copy rq (info + 28) (str_mem "Virtual NVMe Controller         ") 32;;
        list_controllers rq children (index + 1)
      else mret index
  end.

Definition VnvmeHandleListControllers (rq : WDFREQUEST) : M CtrlState result :=
  with_fdo (fun _ =>
    check_output rq sizeof_VNVME_LIST_CONTROLLERS_OUTPUT (retrieve_output rq (
      output_zero rq 0 sizeof_VNVME_LIST_CONTROLLERS_OUTPUT;;
      s ← get;
      index ← list_controllers rq (bs_children (ct_bus s)) 0;
      output rq 0 4 index;;
      mret (STATUS_SUCCESS, sizeof_VNVME_LIST_CONTROLLERS_OUTPUT)))).

Definition VnvmeHandleGetCommandEvent (rq : WDFREQUEST) : M CtrlState result :=
  with_fdo (fun _ =>
    check_output rq sizeof_VNVME_GET_COMMAND_EVENT_OUTPUT (retrieve_output rq (
      s ← get;
      (if fb_UserEventHandle (bs_bus (ct_bus s)) =? 0 then
         '(status, userHandle) ← on_bus (wdf ObOpenObjectByPointer);
         if NT_SUCCESS status then
           on_bus (bus_update (fun f => f <| fb_UserEventHandle := userHandle |>));;
           on_bus (bus_fdo_update (fun d => d <| fdo_EventNotificationEnabled := true |>))
         else mret tt
       else mret tt);;
      s ← get;
      output rq 0 8 (fb_UserEventHandle (bs_bus (ct_bus s)));;
      mret (STATUS_SUCCESS, sizeof_VNVME_GET_COMMAND_EVENT_OUTPUT)))).

(** The loop over the controllers: the number of those that were notified. *)
Fixpoint submit_loop (completionCount targetControllerId : Z) (children : list VNVME_PDO_CONTEXT) (notified : Z) : M CtrlState Z :=
  match children with
  | [] => mret notified
  | p :: children =>
      if negb (targetControllerId =? 0) && negb (pdo_ControllerId p =? targetControllerId)
      then submit_loop completionCount targetControllerId children notified
      else if pdo_Registers p then
        on_bus (bus_update (fun f => f <| fb_CommandsProcessed ::= fun n => s64 (n + completionCount) |>));;
        if negb (targetControllerId =? 0) then mret (notified +₃₂ 1)
        else submit_loop completionCount targetControllerId children (notified +₃₂ 1)
      else submit_loop completionCount targetControllerId children notified
  end.

Definition VnvmeHandleSubmitCompletions (rq : WDFREQUEST) : M CtrlState result :=
  with_fdo (fun _ =>
    check_input rq sizeof_VNVME_SUBMIT_COMPLETIONS_INPUT (retrieve_input rq (
      completionCount ← input rq 0 4;
      targetControllerId ← input rq 4 4;
      if completionCount =? 0 then failed STATUS_SUCCESS
      else if VNVME_MAX_COMPLETIONS_PER_SUBMIT <? completionCount then failed STATUS_INVALID_PARAMETER
      else
        s ← get;
        submit_loop completionCount targetControllerId (bs_children (ct_bus s)) 0;;
        failed STATUS_SUCCESS))).

(** The namespaces of one controller; [nsIdx] is the next entry of the output. *)
Fixpoint stats_namespaces (rq : WDFREQUEST) (namespaces : list VNVME_NAMESPACE) (nsIdx : Z) : M CtrlState Z :=
  match namespaces with
  | [] => mret nsIdx
  | ns :: namespaces =>
      if negb (nsIdx <? VNVME_MAX_STATS_NAMESPACES) then mret nsIdx
      else if ns_Active ns then
        let e := 24 + VNVME_MAX_STATS_CONTROLLERS * sizeof_VNVME_CONTROLLER_STATS + nsIdx * sizeof_VNVME_NAMESPACE_STATS in
        outputs rq [(e, 4%nat, ns_NsId ns); (e + 4, 4%nat, 1); (e + 8, 8%nat, ns_TotalBlocks ns); (e + 16, 4%nat, ns_BlockSize ns);
                    (e + 20, 8%nat, ns_ReadCommands ns); (e + 28, 8%nat, ns_WriteCommands ns); (e + 36, 8%nat, ns_FlushCommands ns);
                    (e + 44, 8%nat, ns_ReadBytes ns); (e + 52, 8%nat, ns_WriteBytes ns)];;
        s ← get;
        output rq 4 4 (load_le (ct_mem s) (rq_Output rq + 4) 4 +₃₂ 1);;
        stats_namespaces rq namespaces (nsIdx + 1)
      else stats_namespaces rq namespaces nsIdx
  end.

(** The controllers; the result is the number of entries used. *)
Fixpoint stats_controllers (rq : WDFREQUEST) (targetControllerId : Z) (children : list VNVME_PDO_CONTEXT) (ctrlIdx nsIdx : Z) : M CtrlState Z :=
  match children with
  | [] => mret ctrlIdx
  | p :: children =>
      if negb (ctrlIdx <? VNVME_MAX_STATS_CONTROLLERS) then mret ctrlIdx
      else if negb (targetControllerId =? 0) && negb (pdo_ControllerId p =? targetControllerId)
      then stats_controllers rq targetControllerId children ctrlIdx nsIdx
      else
        let e := 24 + ctrlIdx * sizeof_VNVME_CONTROLLER_STATS in
        outputs rq [(e, 4%nat, pdo_ControllerId p); (e + 4, 4%nat, pdo_NamespaceCount p); (e + 8, 8%nat, pdo_AdminCommandsProcessed p);
                    (e + 16, 8%nat, pdo_IoCommandsProcessed p); (e + 24, 8%nat, pdo_BytesRead p); (e + 32, 8%nat, pdo_BytesWritten p);
                    (e + 40, 4%nat, pdo_IoQueueCount p); (e + 44, 4%nat, pdo_PollingIntervalUs p)];;
        nsIdx ← stats_namespaces rq (pdo_Namespaces p) nsIdx;
        stats_controllers rq targetControllerId children (ctrlIdx + 1) nsIdx
  end.

Definition VnvmeHandleGetStats (rq : WDFREQUEST) : M CtrlState result :=
  with_fdo (fun _ =>
    check_output rq sizeof_VNVME_GET_STATS_OUTPUT (
      targetControllerId ←
        (if (sizeof_VNVME_GET_STATS_INPUT <=? rq_InputBufferLength rq) && NT_SUCCESS (rq_InputStatus rq) then input rq 0 4 else mret 0);
      retrieve_output rq (
        output_zero rq 0 sizeof_VNVME_GET_STATS_OUTPUT;;
        s ← get;
        let b := ct_bus s in
        outputs rq [(8, 8%nat, Z.quot (s64 (bs_time b - fb_StartTime (bs_bus b))) 10000); (16, 8%nat, fb_CommandsProcessed (bs_bus b))];;
        ctrlIdx ← stats_controllers rq targetControllerId (bs_children b) 0 0;
        output rq 0 4 ctrlIdx;;
        mret (STATUS_SUCCESS, sizeof_VNVME_GET_STATS_OUTPUT)))).

Definition cfg_update (f : VNVME_CONFIG -> VNVME_CONFIG) : M CtrlState unit :=
  modify (fun s => s <| ct_bus ::= fun b => b <| bs_cfg ::= f |> |>).

Definition VnvmeHandleSetDebugLevel (rq : WDFREQUEST) : M CtrlState result :=
  check_input rq sizeof_VNVME_SET_DEBUG_LEVEL_INPUT (retrieve_input rq (
    level ← input rq 0 4;
    (if VNVME_MAX_DEBUG_LEVEL <? level
     then cfg_update (fun c => c <| cfg_DebugLevel := VNVME_MAX_DEBUG_LEVEL |>)
     else cfg_update (fun c => c <| cfg_DebugLevel := level |>));;
    flags ← input rq 4 4;
    cfg_update (fun c => c <| cfg_DebugFlags := flags |>);;
    failed STATUS_SUCCESS)).

Definition CtrlDevFindController (ControllerId : Z) (b : BusState) : option nat := find_index (bs_children b) ControllerId.

Definition VnvmeHandleUnmapShm : M CtrlState result := with_fdo (fun _ => failed STATUS_SUCCESS).

(** ** Namespaces *)

(** The first slot that is not active; [None]: there is none. *)
Definition free_slot (l : list VNVME_NAMESPACE) : option nat := fst <$> list_find (fun ns => ns_Active ns = false) l.

(** The zeroed namespace with what the request says. *)
Definition new_namespace (nsid totalBlocks blockSize flags : Z) : VNVME_NAMESPACE :=
  let bs := if blockSize =? 0 then 512 else blockSize in
  zero_namespace <| ns_NsId := nsid |> <| ns_TotalBlocks := totalBlocks |> <| ns_BlockSize := bs |>
    <| ns_TotalBytes := totalBlocks *₆₄ bs |>
    <| ns_ReadOnly := negb (Z.land flags VNVME_NS_FLAG_READONLY =? 0) |>
    <| ns_ThinProvisioned := negb (Z.land flags VNVME_NS_FLAG_SPARSE =? 0) |>.

(** The type and the path of the storage of a namespace: a file needs a configured path. *)
Definition storage_choice (c : VNVME_CONFIG) (ns : VNVME_NAMESPACE) : VNVME_STORAGE_TYPE * option (list Z) :=
  let storageType := if ns_ThinProvisioned ns then VNVME_STORAGE_TYPE_SPARSE else cfg_StorageType c in
  match storageType with
  | VNVME_STORAGE_TYPE_FILE | VNVME_STORAGE_TYPE_SPARSE =>
      match cfg_StoragePath c with
      | [] => (VNVME_STORAGE_TYPE_MEMORY, None)
      | path => (storageType, Some path)
      end
  | _ => (storageType, None)
  end.

(** What the request is refused for; [None]: it is valid. *)
Definition check_namespace_config (blockSize totalBlocks : Z) : option NTSTATUS :=
  if negb (blockSize =? 0) && negb (blockSize =? VNVME_BLOCK_SIZE_512) && negb (blockSize =? VNVME_BLOCK_SIZE_4096)
  then Some STATUS_INVALID_PARAMETER
  else if totalBlocks =? 0 then Some STATUS_INVALID_PARAMETER
  else
    let bs := if negb (blockSize =? 0) then blockSize else VNVME_BLOCK_SIZE_512 in
    let totalCapacity := totalBlocks *₆₄ bs in
    if negb (totalCapacity / bs =? totalBlocks) then Some STATUS_INTEGER_OVERFLOW
    else if VNVME_MAX_NAMESPACE_CAPACITY <? totalCapacity then Some STATUS_INVALID_PARAMETER
    else None.

(** VnvmeStorageCreate, at the time it is called; it makes up to two numbered calls. *)
Definition storage_create (type : VNVME_STORAGE_TYPE) (total bs : Z) (path : option (list Z))
  : M CtrlState (NTSTATUS * option VNVME_STORAGE_CONTEXT) :=
  s ← get;
  modify (fun s => s <| ct_bus ::= fun b => b <| bs_tick ::= fun t => (t + 2)%nat |> |>);;
  mret (VnvmeStorageCreate (bs_tick (ct_bus s)) type total bs path).

(** The rest of the handler: initialise the namespace, create its storage, activate it and answer. *)
Definition create_namespace (rq : WDFREQUEST) (i : nat) (nsid : Z) (ns : VNVME_NAMESPACE) (cfg : VNVME_CONFIG) : M CtrlState result :=
  child_ns_update i (nsid - 1) (fun _ => ns);;
  let '(storageType, path) := storage_choice cfg ns in
  '(status, storage) ← storage_create storageType (ns_TotalBytes ns) (ns_BlockSize ns) path;
  child_ns_update i (nsid - 1) (fun ns => ns <| ns_Storage := storage |>);;
  if negb (NT_SUCCESS status) then failed status
  else
    child_ns_update i (nsid - 1) (fun ns => ns <| ns_Active := true |>);;
    child_update i (fun p => p <| pdo_NamespaceCount ::= fun n => n +₁₆ 1 |>);;
    outputs rq [(0, 4%nat, nsid); (4, 4%nat, 0)];;
    mret (STATUS_SUCCESS, sizeof_VNVME_CREATE_NAMESPACE_OUTPUT).

Definition VnvmeHandleCreateNamespace (rq : WDFREQUEST) : M CtrlState result :=
  with_fdo (fun _ =>
    check_input rq sizeof_VNVME_CREATE_NAMESPACE_INPUT (check_output rq sizeof_VNVME_CREATE_NAMESPACE_OUTPUT (
      retrieve_input rq (retrieve_output rq (
        controllerId ← input rq 0 4;
        s ← get;
        match CtrlDevFindController controllerId (ct_bus s) with
        | None => failed STATUS_NOT_FOUND
        | Some i =>
            blockSize ← input rq 16 4;
            totalBlocks ← input rq 8 8;
            match check_namespace_config blockSize totalBlocks with
            | Some status => failed status
            | None =>
                pdo ← of_opt (bs_children (ct_bus s) !! i);
                if VNVME_MAX_NAMESPACES <=? pdo_NamespaceCount pdo then failed STATUS_QUOTA_EXCEEDED
                else
                  match free_slot (pdo_Namespaces pdo) with
                  | None => failed STATUS_QUOTA_EXCEEDED
                  | Some slot =>
                      let nsid := Z.of_nat slot + 1 in
                      flags ← input rq 20 4;
                      create_namespace rq i nsid (new_namespace nsid totalBlocks blockSize flags) (bs_cfg (ct_bus s))
                  end
            end
        end))))).

(** VnvmeStorageDestroy releases the context the namespace no longer points at. *)
Definition VnvmeHandleDeleteNamespace (rq : WDFREQUEST) : M CtrlState result :=
  with_fdo (fun _ =>
    check_input rq sizeof_VNVME_DELETE_NAMESPACE_INPUT (retrieve_input rq (
      controllerId ← input rq 0 4;
      s ← get;
      match CtrlDevFindController controllerId (ct_bus s) with
      | None => failed STATUS_NOT_FOUND
      | Some i =>
          nsid ← input rq 4 4;
          if (nsid =? 0) || (VNVME_MAX_NAMESPACES <? nsid) then failed STATUS_INVALID_PARAMETER
          else
            pdo ← of_opt (bs_children (ct_bus s) !! i);
            ns ← of_opt (arr_get (pdo_Namespaces pdo) (nsid - 1));
            if negb (ns_Active ns) then failed STATUS_NOT_FOUND
            else
              (match ns_Storage ns with
               | Some _ => child_ns_update i (nsid - 1) (fun ns => ns <| ns_Storage := None |>)
               | None => mret tt
               end);;
              child_ns_update i (nsid - 1) (fun ns => ns <| ns_Active := false |>);;
              child_update i (fun p => p <| pdo_NamespaceCount ::= fun n => u16 (n - 1) |>);;
              failed STATUS_SUCCESS
      end))).

(** The loop over the namespaces; [count] is the next entry of the output. *)
Fixpoint list_namespaces (rq : WDFREQUEST) (namespaces : list VNVME_NAMESPACE) (count : Z) : M CtrlState Z :=
  match namespaces with
  | [] => mret count
  | ns :: namespaces =>
      if negb (count <? VNVME_MAX_NAMESPACES) then mret count
      else if ns_Active ns then
        let info := 8 + count * sizeof_VNVME_NAMESPACE_INFO in
        let flags := if ns_Active ns then VNVME_NS_FLAG_ENABLED else 0 in
        let flags := if ns_ReadOnly ns then Z.lor flags VNVME_NS_FLAG_READONLY else flags in
        let flags := if ns_ThinProvisioned ns then Z.lor flags VNVME_NS_FLAG_SPARSE else flags in
        outputs rq [(info, 4%nat, ns_NsId ns); (info + 4, 4%nat, flags); (info + 8, 8%nat, ns_TotalBlocks ns);
                    (info + 16, 4%nat, ns_BlockSize ns); (info + 20, 4%nat, 0)];;
        list_namespaces rq namespaces (count + 1)
      else list_namespaces rq namespaces count
  end.

Definition VnvmeHandleListNamespaces (rq : WDFREQUEST) : M CtrlState result :=
  with_fdo (fun _ =>
    check_input rq sizeof_VNVME_LIST_NAMESPACES_INPUT (check_output rq sizeof_VNVME_LIST_NAMESPACES_OUTPUT (
      retrieve_input rq (retrieve_output rq (
        output_zero rq 0 sizeof_VNVME_LIST_NAMESPACES_OUTPUT;;
        controllerId ← input rq 0 4;
        s ← get;
        match CtrlDevFindController controllerId (ct_bus s) with
        | None => failed STATUS_NOT_FOUND
        | Some i =>
            pdo ← of_opt (bs_children (ct_bus s) !! i);
            count ← list_namespaces rq (pdo_Namespaces pdo) 0;
            output rq 0 4 count;;
            mret (STATUS_SUCCESS, sizeof_VNVME_LIST_NAMESPACES_OUTPUT)
        end))))).

(** ** Configuration *)

Definition storage_type_code (t : VNVME_STORAGE_TYPE) : Z :=
  match t with
  | VNVME_STORAGE_TYPE_NONE => 0
  | VNVME_STORAGE_TYPE_MEMORY => 1
  | VNVME_STORAGE_TYPE_FILE => 2
  | VNVME_STORAGE_TYPE_SPARSE => 3
  end.

Definition VnvmeHandleGetConfig (rq : WDFREQUEST) : M CtrlState result :=
  check_output rq sizeof_VNVME_GET_CONFIG_OUTPUT (retrieve_output rq (
    s ← get;
    config ← of_opt (VnvmeConfigGet (bs_cfg (ct_bus s)) true);
    output_zero rq 0 sizeof_VNVME_GET_CONFIG_OUTPUT;;
    outputs rq [(0, 4%nat, cfg_DebugLevel config); (4, 4%nat, cfg_DebugFlags config);
                (8, 4%nat, u32 (Z.quot (cfg_HeartbeatTimeout100ns config) 10000));
                (16, 4%nat, storage_type_code (cfg_StorageType config)); (20, 4%nat, cfg_StorageSizeGB config)];;
    output_copy rq 24 (wide_mem (cfg_StoragePath config)) 520;;
    outputs rq [(544, 4%nat, cfg_MaxIOQueues config); (548, 4%nat, cfg_AdminQueueDepth config); (552, 4%nat, cfg_IOQueueDepth config);
                (560, 4%nat, cfg_DoorbellPollIntervalUs config); (564, 4%nat, cfg_BatchSize config);
                (568, 4%nat, if cfg_AllowUserModeAccess config then 1 else 0);
                (572, 4%nat, if cfg_RequireAdminPrivilege config then 1 else 0);
                (576, 4%nat, VNVME_CONFIG_FIELD_ALL_DYNAMIC)];;
    mret (STATUS_SUCCESS, sizeof_VNVME_GET_CONFIG_OUTPUT))).

(** [if (fieldMask & field) newConfig.x = input->Config.x] *)
Definition set_field_if (rq : WDFREQUEST) (fieldMask field off : Z) (f : Z -> VNVME_CONFIG -> VNVME_CONFIG) (newConfig : VNVME_CONFIG)
  : M CtrlState VNVME_CONFIG :=
  if negb (Z.land fieldMask field =? 0) then v ← input rq (8 + off) 4; mret (f v newConfig) else mret newConfig.

Definition VnvmeHandleSetConfig (rq : WDFREQUEST) : M CtrlState result :=
  check_input rq sizeof_VNVME_SET_CONFIG_INPUT (retrieve_input rq (
    fieldMask ← input rq 0 4;
    if negb (Z.land fieldMask (Z.lxor VNVME_CONFIG_FIELD_ALL_DYNAMIC 0xFFFFFFFF) =? 0) then failed STATUS_ACCESS_DENIED
    else
      s ← get;
      c ← of_opt (VnvmeConfigGet (bs_cfg (ct_bus s)) true);
      c ← set_field_if rq fieldMask VNVME_CONFIG_FIELD_DEBUG_LEVEL 0 (fun v c => c <| cfg_DebugLevel := v |>) c;
      c ← set_field_if rq fieldMask VNVME_CONFIG_FIELD_DEBUG_FLAGS 4 (fun v c => c <| cfg_DebugFlags := v |>) c;
      c ← set_field_if rq fieldMask VNVME_CONFIG_FIELD_HEARTBEAT 8 (fun v c => c <| cfg_HeartbeatTimeout100ns := v * 10000 |>) c;
      c ← set_field_if rq fieldMask VNVME_CONFIG_FIELD_POLL_INTERVAL 560 (fun v c => c <| cfg_DoorbellPollIntervalUs := v |>) c;
      c ← set_field_if rq fieldMask VNVME_CONFIG_FIELD_BATCH_SIZE 564 (fun v c => c <| cfg_BatchSize := v |>) c;
      s ← get;
      let '(status, g_Config) := VnvmeConfigUpdate (Some c) (bs_cfg (ct_bus s)) in
      cfg_update (fun _ => g_Config);;
      if negb (NT_SUCCESS status) then failed status else failed STATUS_SUCCESS)).

(** ** Dispatch *)

(** The status and the number of bytes of WdfRequestCompleteWithInformation. *)
Definition VnvmeEvtIoDeviceControl (userAddress : Z) (rq : WDFREQUEST) (IoControlCode : Z) : M CtrlState result :=
  if IoControlCode =? IOCTL_VNVME_GET_VERSION then VnvmeHandleGetVersion rq
  else if IoControlCode =? IOCTL_VNVME_GET_STATUS then VnvmeHandleGetStatus rq
  else if IoControlCode =? IOCTL_VNVME_MAP_SHM then VnvmeHandleMapShm userAddress rq
  else if IoControlCode =? IOCTL_VNVME_USER_READY then VnvmeHandleUserReady rq
  else if IoControlCode =? IOCTL_VNVME_HEARTBEAT then VnvmeHandleHeartbeat rq
  else if IoControlCode =? IOCTL_VNVME_CREATE_CONTROLLER then VnvmeHandleCreateController rq
  else if IoControlCode =? IOCTL_VNVME_DELETE_CONTROLLER then VnvmeHandleDeleteController rq
  else if IoControlCode =? IOCTL_VNVME_LIST_CONTROLLERS then VnvmeHandleListControllers rq
  else if IoControlCode =? IOCTL_VNVME_GET_COMMAND_EVENT then VnvmeHandleGetCommandEvent rq
  else if IoControlCode =? IOCTL_VNVME_SUBMIT_COMPLETIONS then VnvmeHandleSubmitCompletions rq
  else if IoControlCode =? IOCTL_VNVME_GET_STATS then VnvmeHandleGetStats rq
  else if IoControlCode =? IOCTL_VNVME_SET_DEBUG_LEVEL then VnvmeHandleSetDebugLevel rq
  else if IoControlCode =? IOCTL_VNVME_UNMAP_SHM then VnvmeHandleUnmapShm
  else if IoControlCode =? IOCTL_VNVME_CREATE_NAMESPACE then VnvmeHandleCreateNamespace rq
  else if IoControlCode =? IOCTL_VNVME_DELETE_NAMESPACE then VnvmeHandleDeleteNamespace rq
  else if IoControlCode =? IOCTL_VNVME_LIST_NAMESPACES then VnvmeHandleListNamespaces rq
  else if IoControlCode =? IOCTL_VNVME_GET_CONFIG then VnvmeHandleGetConfig rq
  else if IoControlCode =? IOCTL_VNVME_SET_CONFIG then VnvmeHandleSetConfig rq
  else failed STATUS_INVALID_DEVICE_REQUEST.
End CtrlDev.

(** Setters unfold on demand. *)
#[export] Hint Unfold set_ct_bus set_ct_mem : setters.

