(* ===== verification/CtrlSafe.v ===== *)
(** What every I/O control request keeps: the invariant of the controllers and of
    the configuration, the memory outside of the request's output buffer, and the
    ids and the counters of the bus.

    [quiet rq Q m] is the triple used for that: [m] runs from every state of the
    invariant to one of the invariant, changes only the output buffer of [rq] and
    nothing the bus counts, and its result satisfies [Q].  Its rules follow the
    combinators of the handlers, so that a handler's proof is its structure. *)
From S2P Require Import Prelude NvmeSpec Kernel Config Storage State Shm IoCmd Pdo Bus CtrlDev.
Open Scope Z_scope.
Open Scope c_scope.

Section Triple.
Context {W : WinKernel} {F : WdfFramework}.

(** ** The invariant *)

(** Namespace [i] of a controller: when it is active, its id is [i + 1] and its
    disk is ready and large enough for all of its blocks; otherwise it owns no disk. *)
Definition ns_inv (i : nat) (ns : VNVME_NAMESPACE) : Prop :=
  if ns_Active ns
  then ns_NsId ns = Z.of_nat i + 1 /\ exists d, ns_Storage ns = Some d /\ sc_ok d /\ ns_ok ns d
  else ns_Storage ns = None.

Record child_inv (p : VNVME_PDO_CONTEXT) : Prop := {
  ci_shape : pdo_shape p;
  ci_queues : 0 <= pdo_IoQueueCount p <= VNVME_MAX_IO_QUEUES;
  ci_count : pdo_NamespaceCount p = Z.of_nat (length (active_namespaces p));
  ci_ns : forall i ns, pdo_Namespaces p !! i = Some ns -> ns_inv i ns
}.

Definition bus_ok (b : BusState) : Prop := Forall child_inv (bs_children b) /\ cfg_wf (bs_cfg b).
Definition ctl_inv (s : CtrlState) : Prop := bus_ok (ct_bus s).

Lemma child_inv_new id : child_inv (new_pdo id).
Proof.
  assert (forall i ns, pdo_Namespaces (new_pdo id) !! i = Some ns -> ns = zero_namespace) as H.
  { intros i ns [-> _]%lookup_replicate. done. }
  split; [done|done|done|]. intros i ns ->%H. done.
Qed.

Lemma child_at s i p : ctl_inv s -> bs_children (ct_bus s) !! i = Some p -> child_inv p.
Proof. intros [Hc _]. by apply Forall_lookup_1. Qed.

(** The bytes outside of the output buffer are the same. *)
Definition mem_frame (rq : WDFREQUEST) (m m' : mem) : Prop :=
  forall a, ~ (rq_Output rq <= a < rq_Output rq + rq_OutputBufferLength rq) -> rd8 m' a = rd8 m a.

#[export] Instance mem_frame_PreOrder rq : PreOrder (mem_frame rq).
Proof. split; [done|]. intros m1 m2 m3 H1 H2 a Ha. by rewrite H2, H1. Qed.

Definition frame (rq : WDFREQUEST) (s s' : CtrlState) : Prop :=
  mem_frame rq (ct_mem s) (ct_mem s') /\ bus_frame (ct_bus s) (ct_bus s').

#[export] Instance frame_PreOrder rq : PreOrder (frame rq).
Proof. split; [done|]. intros s1 s2 s3 [H1 H2] [H3 H4]. split; by etrans. Qed.

(** ** The triple and its rules *)

Definition quiet {A} (rq : WDFREQUEST) (Q : A -> Prop) (m : M CtrlState A) : Prop :=
  forall s, ctl_inv s -> wp m s (fun a s' => Q a /\ ctl_inv s' /\ frame rq s s').

Context (rq : WDFREQUEST).

Lemma quiet_ret {A} (Q : A -> Prop) a : Q a -> quiet rq Q (mret a).
Proof. intros H s Hs. by apply wp_ret. Qed.

Lemma quiet_bind {A B} (P : A -> Prop) (Q : B -> Prop) (m : M CtrlState A) f :
  quiet rq P m -> (forall a, P a -> quiet rq Q (f a)) -> quiet rq Q (m ≫= f).
Proof.
  intros Hm Hf s Hs. apply wp_bind. eapply wp_mono; [by apply Hm|]. intros a s1 (Ha & Hs1 & H1). cbn.
  eapply wp_mono; [by apply Hf|]. intros b s2 (Hb & Hs2 & H2). split_and!; [done..|by etrans].
Qed.

Lemma quiet_seq {A B} (Q : B -> Prop) (m : M CtrlState A) (k : M CtrlState B) :
  quiet rq (fun _ => True) m -> quiet rq Q k -> quiet rq Q (m ≫= fun _ => k).
Proof. intros Hm Hk. eapply quiet_bind; [done|]. by intros. Qed.

Lemma quiet_get {A} (Q : A -> Prop) f : (forall s, ctl_inv s -> quiet rq Q (f s)) -> quiet rq Q (get ≫= f).
Proof. intros H s Hs. rewrite <- (bind_get f s) || idtac. unfold wp. rewrite bind_get. by apply H. Qed.

Lemma quiet_of_opt {A} (Q : A -> Prop) o a : o = Some a -> Q a -> quiet rq Q (of_opt o).
Proof. intros -> H s Hs. by apply wp_ret. Qed.

Lemma quiet_mono {A} (P Q : A -> Prop) m : quiet rq P m -> (forall a, P a -> Q a) -> quiet rq Q m.
Proof. intros Hm HPQ s Hs. eapply wp_mono; [by apply Hm|]. intros a s' (Ha & H). split; [by apply HPQ|done]. Qed.

(** A change of the driver that keeps the children and the configuration. *)
Lemma quiet_on_bus {A} (Q : A -> Prop) (f : M BusState A) :
  (forall b, bus_ok b -> wp f b (fun a b' => Q a /\ bus_ok b' /\ bus_frame b b')) -> quiet rq Q (on_bus f).
Proof.
  intros Hf s Hs. destruct (wp_elim _ _ _ (Hf _ Hs)) as (a & b' & E & Ha & Hb & Hfr).
  unfold wp, on_bus. rewrite E. by destruct s.
Qed.

Lemma quiet_bus_modify (f : BusState -> BusState) :
  (forall b, bs_children (f b) = bs_children b /\ bs_cfg (f b) = bs_cfg b /\ bus_frame b (f b)) ->
  quiet rq (fun _ => True) (on_bus (modify f)).
Proof. intros Hf. apply quiet_on_bus. intros b [H1 H2]. apply wp_modify. destruct (Hf b) as (E1 & E2 & E3). unfold bus_ok. by rewrite E1, E2. Qed.

(** Reading the input, writing the output. *)
Lemma quiet_input off n :
  0 <= off -> off + Z.of_nat n <= rq_InputBufferLength rq -> quiet rq (fun v => 0 <= v < 2 ^ (8 * Z.of_nat n)) (input rq off n).
Proof.
  intros H1 H2. apply quiet_get. intros s _. rewrite in_block_true by lia. apply quiet_ret, load_le_range.
Qed.

Lemma quiet_output_modify off n (g : mem -> mem) :
  (forall m a, ~ (rq_Output rq + off <= a < rq_Output rq + off + n) -> rd8 (g m) a = rd8 m a) ->
  0 <= off -> off + n <= rq_OutputBufferLength rq ->
  quiet rq (fun _ => True) (if in_block (rq_OutputBufferLength rq) off n then modify (fun s => s <| ct_mem ::= g |>) else fault).
Proof.
  intros Hg H1 H2 s Hs. rewrite in_block_true by lia. apply wp_modify. split; [done|]. split; [by destruct s|].
  destruct s as [b m]. split; [|done]. intros a Ha. cbn. apply Hg. lia.
Qed.

Lemma quiet_output off n v :
  0 <= off -> off + Z.of_nat n <= rq_OutputBufferLength rq -> quiet rq (fun _ => True) (output rq off n v).
Proof. apply quiet_output_modify. intros m a Ha. by apply rd8_store_out. Qed.

Lemma quiet_output_copy off src n :
  0 <= off -> off + n <= rq_OutputBufferLength rq -> quiet rq (fun _ => True) (output_copy rq off src n).
Proof. apply quiet_output_modify. intros m a Ha. by apply rd8_copy_out. Qed.

Lemma quiet_output_zero off n :
  0 <= off -> off + n <= rq_OutputBufferLength rq -> quiet rq (fun _ => True) (output_zero rq off n).
Proof. apply quiet_output_modify. intros m a Ha. by apply rd8_fill_out. Qed.

Lemma quiet_outputs l :
  Forall (fun st => 0 <= st.1.1 /\ st.1.1 + Z.of_nat st.1.2 <= rq_OutputBufferLength rq) l ->
  quiet rq (fun _ => True) (outputs rq l).
Proof.
  induction 1 as [|[[off n] v] l [H1 H2] Hl IH]; [by apply quiet_ret|]. apply quiet_seq; [by apply quiet_output|done].
Qed.

(** ** Handlers

    The result of a handler: at most [OutputBufferLength] bytes, none of them on failure. *)
Definition answer (r : result) : Prop :=
  (r.2 = 0 \/ (r.1 = STATUS_SUCCESS /\ 0 < r.2 <= rq_OutputBufferLength rq)).
Abbreviation handles := (quiet rq answer).

Lemma handles_failed st : handles (failed st).
Proof. apply quiet_ret. by left. Qed.

Lemma handles_done n : 0 < n <= rq_OutputBufferLength rq -> handles (mret (STATUS_SUCCESS, n)).
Proof. intros. apply quiet_ret. by right. Qed.

Lemma handles_fdo k : (forall fdo, handles (k fdo)) -> handles (with_fdo k).
Proof. intros Hk. apply quiet_get. intros s _. destruct (bs_fdo _); [apply Hk | apply handles_failed]. Qed.

Lemma handles_retrieve_input k : handles k -> handles (retrieve_input rq k).
Proof. intros Hk. unfold retrieve_input. destruct (NT_SUCCESS _); [done | apply handles_failed]. Qed.
Lemma handles_retrieve_output k : handles k -> handles (retrieve_output rq k).
Proof. intros Hk. unfold retrieve_output. destruct (NT_SUCCESS _); [done | apply handles_failed]. Qed.
Lemma handles_check_input size k : (size <= rq_InputBufferLength rq -> handles k) -> handles (check_input rq size k).
Proof. intros Hk. unfold check_input. destruct (Z.ltb_spec (rq_InputBufferLength rq) size); [apply handles_failed | by apply Hk]. Qed.
Lemma handles_check_output size k : (size <= rq_OutputBufferLength rq -> handles k) -> handles (check_output rq size k).
Proof. intros Hk. unfold check_output. destruct (Z.ltb_spec (rq_OutputBufferLength rq) size); [apply handles_failed | by apply Hk]. Qed.

Lemma handles_if (c : bool) k1 k2 : handles k1 -> handles k2 -> handles (if c then k1 else k2).
Proof. by destruct c. Qed.

End Triple.

(** The sizes of the structures, as numbers. *)
Ltac sizes := cbv [sizeof_VNVME_GET_VERSION_OUTPUT sizeof_VNVME_GET_STATUS_OUTPUT sizeof_VNVME_MAP_SHM_OUTPUT
  sizeof_VNVME_USER_READY_INPUT sizeof_VNVME_HEARTBEAT_INPUT sizeof_VNVME_HEARTBEAT_OUTPUT sizeof_VNVME_GET_COMMAND_EVENT_OUTPUT
  sizeof_VNVME_SUBMIT_COMPLETIONS_INPUT sizeof_VNVME_CREATE_CONTROLLER_INPUT sizeof_VNVME_CREATE_CONTROLLER_OUTPUT
  sizeof_VNVME_DELETE_CONTROLLER_INPUT sizeof_VNVME_CONTROLLER_INFO sizeof_VNVME_LIST_CONTROLLERS_OUTPUT sizeof_VNVME_NAMESPACE_CONFIG
  sizeof_VNVME_CREATE_NAMESPACE_INPUT sizeof_VNVME_CREATE_NAMESPACE_OUTPUT sizeof_VNVME_DELETE_NAMESPACE_INPUT
  sizeof_VNVME_LIST_NAMESPACES_INPUT sizeof_VNVME_NAMESPACE_INFO sizeof_VNVME_LIST_NAMESPACES_OUTPUT sizeof_VNVME_SET_DEBUG_LEVEL_INPUT
  sizeof_VNVME_NAMESPACE_STATS sizeof_VNVME_CONTROLLER_STATS sizeof_VNVME_GET_STATS_INPUT sizeof_VNVME_GET_STATS_OUTPUT
  sizeof_VNVME_IOCTL_CONFIG sizeof_VNVME_SET_CONFIG_INPUT sizeof_VNVME_GET_CONFIG_OUTPUT VNVME_MAX_STATS_CONTROLLERS
  VNVME_MAX_STATS_NAMESPACES VNVME_MAX_NAMESPACES] in *.

(** A handler, one combinator at a time. *)
Ltac quiet_step :=
  lazymatch goal with
  | |- quiet _ _ (with_fdo _) => apply handles_fdo; intros ?
  | |- quiet _ _ (check_input _ _ _) => apply handles_check_input; intros ?
  | |- quiet _ _ (check_output _ _ _) => apply handles_check_output; intros ?
  | |- quiet _ _ (retrieve_input _ _) => apply handles_retrieve_input
  | |- quiet _ _ (retrieve_output _ _) => apply handles_retrieve_output
  | |- quiet _ _ (failed _) => apply handles_failed
  | |- quiet _ _ (mret (STATUS_SUCCESS, _)) => apply handles_done; sizes; lia
  | |- quiet _ (fun _ => True) (mret _) => by apply quiet_ret
  | |- quiet _ _ (get ≫= _) => apply quiet_get; intros ? ?; cbv beta zeta
  | |- quiet _ _ (outputs _ _) => apply quiet_outputs; sizes; repeat (constructor; cbn [fst snd]); lia
  | |- quiet _ _ (output _ _ _ _) => apply quiet_output; sizes; lia
  | |- quiet _ _ (output_copy _ _ _ _) => apply quiet_output_copy; sizes; lia
  | |- quiet _ _ (output_zero _ _ _) => apply quiet_output_zero; sizes; lia
  | |- quiet _ _ (on_bus (bus_update _)) => apply quiet_bus_modify; intros []; split_and!; done
  | |- quiet _ _ (on_bus (bus_fdo_update _)) => apply quiet_bus_modify; intros []; split_and!; done
  | |- quiet _ _ (input _ _ _ ≫= _) => eapply quiet_bind; [apply quiet_input; sizes; lia | cbv beta; intros ? ?]
  | |- quiet _ _ (_ ≫= fun _ => _) => apply quiet_seq
  | |- quiet _ _ (if _ then _ else _) => case_match
  end.
Ltac quiet_run := repeat quiet_step.

Section Handlers.
Context {W : WinKernel} {F : WdfFramework}.
Context (rq : WDFREQUEST).
Abbreviation handles := (quiet rq (answer rq)).

Lemma VnvmeHandleGetVersion_quiet : handles (VnvmeHandleGetVersion rq).
Proof. unfold VnvmeHandleGetVersion. quiet_run. Qed.

Lemma VnvmeHandleGetStatus_quiet : handles (VnvmeHandleGetStatus rq).
Proof. unfold VnvmeHandleGetStatus. quiet_run. Qed.

Lemma VnvmeHandleUserReady_quiet : handles (VnvmeHandleUserReady rq).
Proof. unfold VnvmeHandleUserReady. quiet_run. Qed.

Lemma VnvmeHandleUnmapShm_quiet : handles VnvmeHandleUnmapShm.
Proof. unfold VnvmeHandleUnmapShm. quiet_run. Qed.

Lemma submit_loop_quiet n id l k : quiet rq (fun _ => True) (submit_loop n id l k).
Proof. revert k. induction l as [|p l IH]; intros k; cbn [submit_loop]; quiet_run; apply IH. Qed.

Lemma VnvmeHandleSubmitCompletions_quiet : handles (VnvmeHandleSubmitCompletions rq).
Proof. unfold VnvmeHandleSubmitCompletions. quiet_run. apply submit_loop_quiet. Qed.

Lemma VnvmeHandleMapShm_quiet address : handles (VnvmeHandleMapShm address rq).
Proof.
  unfold VnvmeHandleMapShm. quiet_run.
  - apply quiet_bus_modify. intros [[] ? ? ? ? ? ?]; split_and!; done.
  - eapply (quiet_bind rq (fun _ => True)); [|intros [st mapped] _; quiet_run].
    apply quiet_on_bus. intros b Hb. unfold VnvmeMapShmToUser. unfold on_fdo, wp. destruct (fdo_Shm fdo); [|by destruct b].
    rewrite bind_get. cbv zeta. destruct (_ || _); cbn [negb]; [|by destruct b]. unfold fdo_update. rewrite bind_modify.
    destruct (MmMapLockedPagesSpecifyCache _) as [[]|]; destruct b; done.
Qed.

Lemma VnvmeHandleGetCommandEvent_quiet : handles (VnvmeHandleGetCommandEvent rq).
Proof.
  unfold VnvmeHandleGetCommandEvent. quiet_run. eapply (quiet_bind rq (fun _ => True)).
  - apply quiet_on_bus. intros [] Hb. done.
  - intros [st handle] _. quiet_run.
Qed.

Lemma cfg_update_quiet f : (forall c, cfg_wf c -> cfg_wf (f c)) -> quiet rq (fun _ => True) (cfg_update f).
Proof. intros Hf [[d fb ch h c t k] m] [H1 H2]. apply wp_modify. split; [done|]. split; [|done]. split; [done|by apply Hf]. Qed.

Lemma VnvmeHandleSetDebugLevel_quiet : handles (VnvmeHandleSetDebugLevel rq).
Proof. unfold VnvmeHandleSetDebugLevel. quiet_run; by apply cfg_update_quiet; intros [] []. Qed.

(** *** Loops over the controllers *)

Lemma list_controllers_quiet l index :
  sizeof_VNVME_LIST_CONTROLLERS_OUTPUT <= rq_OutputBufferLength rq -> 0 <= index -> quiet rq (fun _ => True) (list_controllers rq l index).
Proof.
  intros Hlen. revert index. induction l as [|p l IH]; intros index Hi; cbn [list_controllers]; [by apply quiet_ret|].
  destruct (Z.ltb_spec index 16); [|by apply quiet_ret]. cbv zeta. quiet_run. apply IH. lia.
Qed.

Lemma VnvmeHandleListControllers_quiet : handles (VnvmeHandleListControllers rq).
Proof.
  unfold VnvmeHandleListControllers. quiet_run. eapply quiet_bind; [by apply list_controllers_quiet|]. intros index _. cbv beta. quiet_run.
Qed.

Lemma stats_namespaces_quiet l nsIdx :
  sizeof_VNVME_GET_STATS_OUTPUT <= rq_OutputBufferLength rq -> 0 <= nsIdx -> quiet rq (fun n => 0 <= n) (stats_namespaces rq l nsIdx).
Proof.
  intros Hlen. revert nsIdx. induction l as [|ns l IH]; intros nsIdx Hi; cbn [stats_namespaces]; [by apply quiet_ret|].
  destruct (Z.ltb_spec nsIdx VNVME_MAX_STATS_NAMESPACES) as [Hlt|]; cbn [negb]; [|by apply quiet_ret].
  destruct (ns_Active ns); [|by apply IH]. cbv zeta. quiet_run. apply IH. lia.
Qed.

Lemma stats_controllers_quiet target l ctrlIdx nsIdx :
  sizeof_VNVME_GET_STATS_OUTPUT <= rq_OutputBufferLength rq -> 0 <= ctrlIdx -> 0 <= nsIdx ->
  quiet rq (fun _ => True) (stats_controllers rq target l ctrlIdx nsIdx).
Proof.
  intros Hlen. revert ctrlIdx nsIdx. induction l as [|p l IH]; intros ctrlIdx nsIdx Hc Hn; cbn [stats_controllers]; [by apply quiet_ret|].
  destruct (Z.ltb_spec ctrlIdx VNVME_MAX_STATS_CONTROLLERS) as [Hlt|]; cbn [negb]; [|by apply quiet_ret].
  destruct (_ && _); [by apply IH|]. cbv zeta. quiet_run.
  eapply quiet_bind; [by apply stats_namespaces_quiet|]. intros n Hn'. apply IH; [lia|done].
Qed.

Lemma VnvmeHandleGetStats_quiet : handles (VnvmeHandleGetStats rq).
Proof.
  unfold VnvmeHandleGetStats. quiet_step. quiet_step. eapply (quiet_bind rq (fun _ => True)).
  - destruct (Z.leb_spec sizeof_VNVME_GET_STATS_INPUT (rq_InputBufferLength rq)); cbn [andb]; [|by apply quiet_ret].
    destruct (NT_SUCCESS _); [|by apply quiet_ret]. eapply quiet_mono; [apply quiet_input; sizes; lia|done].
  - intros target _. quiet_run. eapply quiet_bind; [by apply stats_controllers_quiet|]. intros index _. cbv beta. quiet_run.
Qed.

Lemma pending_io_Some IoSq n i pending : 0 <= i -> i + Z.of_nat n <= Z.of_nat (length IoSq) -> is_Some (pending_io IoSq n i pending).
Proof.
  revert i pending. induction n as [|n IH]; intros i pending H1 H2; [by eexists|]. cbn [pending_io].
  destruct (proj2 (arr_get_Some_iff IoSq i)) as [q ->]; [lia|]. cbn. apply IH; lia.
Qed.

Lemma pending_commands_Some l pending : Forall child_inv l -> is_Some (pending_commands l pending).
Proof.
  intros Hl. revert pending. induction Hl as [|p l Hp Hl IH]; intros pending; [by eexists|]. cbn [pending_commands].
  destruct Hp as [(Hq & _) Hn _ _]. unfold VNVME_MAX_IO_QUEUES in Hn.
  destruct (pending_io_Some (pdo_IoSq p) (Z.to_nat (pdo_IoQueueCount p)) 0 (pending_in (pdo_AdminSq p) pending)) as [n ->]; [lia|lia|apply IH].
Qed.

Lemma VnvmeHandleHeartbeat_quiet : handles (VnvmeHandleHeartbeat rq).
Proof.
  unfold VnvmeHandleHeartbeat. apply quiet_get. intros s [Hs _]. destruct (bs_fdo _) as [fdo|]; [|apply handles_failed].
  quiet_run. destruct (pending_commands_Some (bs_children (ct_bus s)) 0 Hs) as [n Hn].
  eapply quiet_bind; [by apply (quiet_of_opt rq (fun _ => True) _ n)|]. intros pending _. cbv beta. quiet_run.
Qed.

Lemma list_namespaces_quiet l count :
  sizeof_VNVME_LIST_NAMESPACES_OUTPUT <= rq_OutputBufferLength rq -> 0 <= count -> quiet rq (fun _ => True) (list_namespaces rq l count).
Proof.
  intros Hlen. revert count. induction l as [|ns l IH]; intros count Hi; cbn [list_namespaces]; [by apply quiet_ret|].
  destruct (Z.ltb_spec count VNVME_MAX_NAMESPACES) as [Hlt|]; cbn [negb]; [|by apply quiet_ret].
  destruct (ns_Active ns); [|by apply IH]. cbv zeta. quiet_step; [quiet_step|]. apply IH. lia.
Qed.

Lemma find_lookup s id i : CtrlDevFindController id (ct_bus s) = Some i -> exists p, bs_children (ct_bus s) !! i = Some p.
Proof. intros (p & Hp & _)%find_index_Some. eauto. Qed.

Lemma VnvmeHandleListNamespaces_quiet : handles (VnvmeHandleListNamespaces rq).
Proof.
  unfold VnvmeHandleListNamespaces. quiet_run. destruct (CtrlDevFindController _ _) as [i|] eqn:Hi; [|quiet_run].
  apply find_lookup in Hi as [p Hp]. eapply quiet_bind; [by apply (quiet_of_opt rq (fun _ => True) _ p)|]. intros p' _.
  eapply quiet_bind; [by apply list_namespaces_quiet|]. intros count _. cbv beta. quiet_run.
Qed.

(** *** The configuration *)

Lemma VnvmeHandleGetConfig_quiet : handles (VnvmeHandleGetConfig rq).
Proof. unfold VnvmeHandleGetConfig. quiet_run. Qed.

Lemma set_field_if_quiet mask field off f c :
  0 <= off <= 572 -> sizeof_VNVME_SET_CONFIG_INPUT <= rq_InputBufferLength rq -> quiet rq (fun _ => True) (set_field_if rq mask field off f c).
Proof. intros H1 H2. unfold set_field_if. destruct (negb _); [|by apply quiet_ret]. eapply quiet_bind; [apply quiet_input; sizes; lia|]. intros v _. by apply quiet_ret. Qed.

Lemma VnvmeHandleSetConfig_quiet : handles (VnvmeHandleSetConfig rq).
Proof.
  unfold VnvmeHandleSetConfig. do 3 quiet_step. case_match; [quiet_step|]. quiet_step.
  eapply (quiet_bind rq (fun _ => True)); [by eapply quiet_of_opt|]. intros c0 _.
  do 5 (eapply quiet_bind; [by apply set_field_if_quiet; [lia|]|]; intros ? _).
  apply quiet_get. intros s1 Hs1. destruct (VnvmeConfigUpdate _ _) as [st c'] eqn:E.
  apply quiet_seq; [|quiet_run]. apply cfg_update_quiet. intros _ _. change c' with (st, c').2. rewrite <- E. apply VnvmeConfigUpdate_wf, Hs1.
Qed.
End Handlers.
