(* ===== verification/CtrlNs.v ===== *)
(** The I/O control requests that create, delete and list namespaces and change the
    configuration: what they do, and that every request is safe. *)
From S2P Require Import Prelude NvmeSpec Kernel Config Storage State Shm IoCmd Pdo Bus CtrlDev CtrlSafe.
Open Scope Z_scope.
Open Scope c_scope.

Section CtrlNs.
Context {W : WinKernel} {F : WdfFramework}.

(** ** One controller of the list *)

Definition child_set (i : nat) (p : VNVME_PDO_CONTEXT) (s : CtrlState) : CtrlState :=
  s <| ct_bus ::= fun b => b <| bs_children ::= <[i := p]> |> |>.
Definition ns_set (slot : nat) (ns : VNVME_NAMESPACE) (p : VNVME_PDO_CONTEXT) : VNVME_PDO_CONTEXT :=
  p <| pdo_Namespaces ::= <[slot := ns]> |>.
Abbreviation child s i := (bs_children (ct_bus s) !! i).

Lemma child_set_twice i p q s : child_set i p (child_set i q s) = child_set i p s.
Proof. destruct s as [[d fb ch h c t k] m]. unfold child_set. unset. by rewrite list_insert_insert_eq. Qed.

Lemma child_set_get i p q s : child s i = Some q -> child (child_set i p s) i = Some p.
Proof. intros H. apply list_lookup_insert_eq, lookup_lt_is_Some. eauto. Qed.

Lemma ns_set_twice slot ns ns' p : ns_set slot ns (ns_set slot ns' p) = ns_set slot ns p.
Proof. destruct p. unfold ns_set. unset. by rewrite list_insert_insert_eq. Qed.

Lemma ns_set_get slot ns p :
  (slot < length (pdo_Namespaces p))%nat -> arr_get (pdo_Namespaces (ns_set slot ns p)) (Z.of_nat slot) = Some ns.
Proof. intros H. unfold arr_get. rewrite (proj2 (Z.ltb_ge _ _)), Nat2Z.id by lia. by apply list_lookup_insert_eq. Qed.

Lemma child_update_run i f p s : child s i = Some p -> child_update i f s = Ok (tt, child_set i (f p) s).
Proof.
  intros H. unfold child_update, modify, child_set. destruct s as [[d fb ch h c t k] m]. cbn in H. unset. do 4 f_equal.
  rewrite list_insert_alter. apply list_alter_ext; [|done]. intros x Hx. congruence.
Qed.

Lemma child_ns_update_run i slot f p ns s :
  child s i = Some p -> arr_get (pdo_Namespaces p) (Z.of_nat slot) = Some ns ->
  child_ns_update i (Z.of_nat slot) f s = Ok (tt, child_set i (ns_set slot (f ns) p) s).
Proof.
  intros H Hns. unfold child_ns_update. rewrite bind_get, (bind_opt _ _ _ _ H).
  pose proof (arr_get_lt _ _ _ Hns). erewrite bind_opt by (unfold upd_nth; rewrite Hns; cbn; by rewrite arr_set_Some).
  rewrite Nat2Z.id. by rewrite (child_update_run _ _ _ _ H).
Qed.

Lemma filter_Forall {A} (P : A -> Prop) `{!forall x, Decision (P x)} (l : list A) : Forall P l -> filter P l = l.
Proof. induction 1 as [|x l Hx Hl IH]; [done|]. by rewrite filter_cons_True, IH. Qed.

(** ** The invariant after a change of one namespace *)

Lemma active_insert (l : list VNVME_NAMESPACE) slot old new :
  l !! slot = Some old ->
  (length (filter (fun ns => ns_Active ns = true) (<[slot := new]> l)) + Nat.b2n (ns_Active old) =
   length (filter (fun ns => ns_Active ns = true) l) + Nat.b2n (ns_Active new))%nat.
Proof.
  intros H. pose proof (lookup_lt_Some _ _ _ H) as Hlt. rewrite insert_take_drop by done.
  replace (filter (fun ns => ns_Active ns = true) l) with (filter (fun ns => ns_Active ns = true) (take slot l ++ old :: drop (S slot) l))
    by (by rewrite take_drop_middle).
  rewrite !filter_app, !length_app.
  destruct (ns_Active old) eqn:Ho, (ns_Active new) eqn:Hn;
    rewrite ?(filter_cons_True _ old), ?(filter_cons_True _ new), ?(filter_cons_False _ old), ?(filter_cons_False _ new) by congruence; cbn; lia.
Qed.

Lemma child_inv_slot p slot old new n :
  child_inv p -> pdo_Namespaces p !! slot = Some old -> ns_inv slot new ->
  n + Z.b2z (ns_Active old) = pdo_NamespaceCount p + Z.b2z (ns_Active new) ->
  child_inv ((ns_set slot new p) <| pdo_NamespaceCount := n |>).
Proof.
  intros [Hshape Hq Hc Hns] Hold Hnew Hn. split; [|done| |].
  - destruct Hshape as (H1 & H2 & H3 & H4). split_and!; [done..|]. cbn. by rewrite length_insert.
  - unfold active_namespaces in *. cbn. pose proof (active_insert _ _ _ new Hold). rewrite Hc in Hn.
    destruct (ns_Active old), (ns_Active new); cbn in *; lia.
  - intros i ns. cbn. intros [(<- & <- & _)|(? & ?)]%list_lookup_insert_Some; [done|by apply Hns].
Qed.

Lemma child_inv_slot' p slot old new :
  child_inv p -> pdo_Namespaces p !! slot = Some old -> ns_inv slot new -> ns_Active new = ns_Active old -> child_inv (ns_set slot new p).
Proof.
  intros Hp Hold Hnew E. replace (ns_set slot new p) with ((ns_set slot new p) <| pdo_NamespaceCount := pdo_NamespaceCount p |>) by (by destruct p).
  eapply child_inv_slot; [done..|]. by rewrite E.
Qed.

Lemma ctl_inv_child_set i p s : ctl_inv s -> child_inv p -> ctl_inv (child_set i p s).
Proof. intros [Hc Hcfg] Hp. destruct s as [[d fb ch h c t k] m]. split; [|done]. by apply Forall_insert. Qed.

Lemma bus_frame_child_set i p q s :
  child s i = Some q -> pdo_ControllerId p = pdo_ControllerId q -> bus_frame (ct_bus s) (ct_bus (child_set i p s)).
Proof.
  intros H E. destruct s as [[d fb ch h c t k] m]. unfold bus_frame. cbn in *. split; [|done].
  rewrite list_fmap_insert, E, list_insert_id; [done|]. by rewrite list_lookup_fmap, H.
Qed.

(** ** Creating a namespace *)

(** The block size in use. *)
Definition block_size (blockSize : Z) : Z := if blockSize =? 0 then VNVME_BLOCK_SIZE_512 else blockSize.

Lemma check_namespace_config_None blockSize totalBlocks :
  0 <= totalBlocks < 2 ^ 64 -> check_namespace_config blockSize totalBlocks = None ->
  (block_size blockSize = 512 \/ block_size blockSize = 4096) /\ 0 < totalBlocks /\
  totalBlocks *₆₄ block_size blockSize = totalBlocks * block_size blockSize /\
  totalBlocks * block_size blockSize <= VNVME_MAX_NAMESPACE_CAPACITY.
Proof.
  intros Ht. unfold check_namespace_config, block_size, VNVME_BLOCK_SIZE_512, VNVME_BLOCK_SIZE_4096, VNVME_MAX_NAMESPACE_CAPACITY.
  destruct (Z.eqb_spec blockSize 0) as [->|]; cbn [negb andb];
    [|destruct (Z.eqb_spec blockSize 512) as [->|]; cbn [negb andb]; [|destruct (Z.eqb_spec blockSize 4096) as [->|]; cbn [negb andb]; [|done]]];
    (destruct (Z.eqb_spec totalBlocks 0); [done|]);
    (match goal with |- context [negb (?a =? ?b)] => destruct (Z.eqb_spec a b) as [E|]; cbn [negb]; [|done] end);
    (match goal with |- context [?a <? ?b] => destruct (Z.ltb_spec a b); [done|] end); intros _; repeat split; word_lia.
Qed.

Lemma free_slot_Some l slot :
  free_slot l = Some slot -> exists old, l !! slot = Some old /\ ns_Active old = false /\
    forall j ns, (j < slot)%nat -> l !! j = Some ns -> ns_Active ns = true.
Proof.
  unfold free_slot. intros ([j old] & H & ->)%fmap_Some. apply list_find_Some in H as (? & ? & Hlt). exists old. split_and!; [done..|].
  intros i ns Hi Hl. specialize (Hlt _ _ Hl Hi). by destruct (ns_Active ns).
Qed.

Lemma free_slot_exists p : child_inv p -> pdo_NamespaceCount p < VNVME_MAX_NAMESPACES -> is_Some (free_slot (pdo_Namespaces p)).
Proof.
  intros [(_ & _ & _ & Hlen) _ Hc _] Hlt. unfold free_slot. destruct (list_find _ _) as [x|] eqn:E; [by eexists|].
  apply list_find_None in E. exfalso. rewrite Hc in Hlt. unfold active_namespaces, VNVME_MAX_NAMESPACES in Hlt.
  rewrite filter_Forall, Hlen in Hlt; [lia|]. eapply Forall_impl; [exact E|]. intros ns. apply not_false_is_true.
Qed.

(** The controller with the new namespace. *)
Definition add_namespace (slot : nat) (ns : VNVME_NAMESPACE) (p : VNVME_PDO_CONTEXT) : VNVME_PDO_CONTEXT :=
  (ns_set slot (ns <| ns_Active := true |>) p) <| pdo_NamespaceCount ::= fun n => n +₁₆ 1 |>.

Definition tick2 (s : CtrlState) : CtrlState := s <| ct_bus ::= fun b => b <| bs_tick ::= fun t => (t + 2)%nat |> |>.

Lemma create_namespace_run rq i slot ns cfg p s st storage :
  child s i = Some p -> (slot < length (pdo_Namespaces p))%nat ->
  (let '(ty, path) := storage_choice cfg ns in VnvmeStorageCreate (bs_tick (ct_bus s)) ty (ns_TotalBytes ns) (ns_BlockSize ns) path) = (st, storage) ->
  let ns' := ns <| ns_Storage := storage |> in
  create_namespace rq i (Z.of_nat slot + 1) ns cfg s =
    if NT_SUCCESS st
    then (outputs rq [(0, 4%nat, Z.of_nat slot + 1); (4, 4%nat, 0)];; mret (STATUS_SUCCESS, sizeof_VNVME_CREATE_NAMESPACE_OUTPUT))
           (child_set i (add_namespace slot ns' p) (tick2 s))
    else failed st (child_set i (ns_set slot ns' p) (tick2 s)).
Proof.
  intros Hp Hslot Hsto. cbv zeta. unfold create_namespace. rewrite Z.add_simpl_r.
  destruct (proj2 (arr_get_Some_iff (pdo_Namespaces p) (Z.of_nat slot))) as [old Hold]; [lia|].
  rewrite (bind_Ok _ _ _ _ _ (child_ns_update_run _ _ _ _ _ _ Hp Hold)).
  pose proof (ns_set_get slot ns p Hslot) as Hns. set (p1 := ns_set slot ns p) in *.
  destruct (storage_choice cfg ns) as [ty path].
  assert (storage_create ty (ns_TotalBytes ns) (ns_BlockSize ns) path (child_set i p1 s) =
    Ok ((st, storage), child_set i p1 (tick2 s))) as Hcr by (unfold storage_create; rewrite bind_get, bind_modify; by rewrite <- Hsto).
  rewrite (bind_Ok _ _ _ _ _ Hcr).
  assert (child (child_set i p1 (tick2 s)) i = Some p1) as Hp1 by by apply child_set_get with p.
  rewrite (bind_Ok _ _ _ _ _ (child_ns_update_run _ _ _ _ _ _ Hp1 Hns)).
  unfold p1. rewrite child_set_twice, ns_set_twice. destruct (NT_SUCCESS st); cbn [negb]; [|done].
  set (ns' := ns <| ns_Storage := storage |>). pose proof (ns_set_get slot ns' p Hslot) as Hns'. set (p2 := ns_set slot ns' p) in *.
  assert (child (child_set i p2 (tick2 s)) i = Some p2) as Hp2 by by apply child_set_get with p.
  rewrite (bind_Ok _ _ _ _ _ (child_ns_update_run _ _ _ _ _ _ Hp2 Hns')).
  unfold p2. rewrite child_set_twice, ns_set_twice. set (p3 := ns_set slot _ p).
  assert (child (child_set i p3 (tick2 s)) i = Some p3) as Hp3 by by apply child_set_get with p.
  rewrite (bind_Ok _ _ _ _ _ (child_update_run _ _ _ _ Hp3)). by rewrite child_set_twice.
Qed.

(** What a request says of a namespace it creates. *)
Definition valid_namespace (slot : nat) (ns : VNVME_NAMESPACE) : Prop :=
  ns_Active ns = false /\ ns_Storage ns = None /\ ns_NsId ns = Z.of_nat slot + 1 /\ 0 < ns_BlockSize ns /\
  ns_TotalBytes ns = ns_TotalBlocks ns * ns_BlockSize ns /\ ns_TotalBytes ns <= VNVME_MAX_NAMESPACE_CAPACITY.

Lemma new_namespace_valid slot totalBlocks blockSize flags :
  0 <= totalBlocks < 2 ^ 64 -> check_namespace_config blockSize totalBlocks = None ->
  valid_namespace slot (new_namespace (Z.of_nat slot + 1) totalBlocks blockSize flags).
Proof.
  intros Ht Hc. destruct (check_namespace_config_None _ _ Ht Hc) as (Hbs & Hp & Hm & Hle).
  unfold valid_namespace, new_namespace. fold (block_size blockSize). cbn. change (if blockSize =? 0 then 512 else blockSize) with (block_size blockSize).
  rewrite Hm. split_and!; [done|done|done|lia|done|done].
Qed.

(** The disk of a new namespace. *)
Definition disk_for (ns : VNVME_NAMESPACE) (d : VNVME_STORAGE_CONTEXT) : Prop :=
  sc_ok d /\ sc_TotalBytes d = ns_TotalBytes ns /\ sc_BlockSize d = ns_BlockSize ns /\ sc_ReadOnly d = false /\
  (sc_Type d = VNVME_STORAGE_TYPE_MEMORY -> exists b, sc_MemoryBuffer d = Some b /\ blk_mem b = mem_zero).

Lemma disk_for_ok slot ns d : valid_namespace slot ns -> disk_for ns d -> ns_ok (ns <| ns_Storage := Some d |> <| ns_Active := true |>) d.
Proof.
  intros (_ & _ & _ & Hbs & Ht & Hle) (_ & Hd & _). unfold ns_ok. cbn. rewrite Hd. unfold VNVME_MAX_NAMESPACE_CAPACITY in Hle. lia.
Qed.

(** Either the storage cannot be created and the controller keeps its active
    namespaces, or the slot holds the namespace with a disk for it. *)
Lemma create_namespace_result rq i slot old ns cfg p s :
  ctl_inv s -> child s i = Some p -> pdo_Namespaces p !! slot = Some old -> ns_Active old = false -> valid_namespace slot ns ->
  sizeof_VNVME_CREATE_NAMESPACE_OUTPUT <= rq_OutputBufferLength rq ->
  exists r s', create_namespace rq i (Z.of_nat slot + 1) ns cfg s = Ok (r, s') /\
    ((NT_SUCCESS r.1 = false /\ r.2 = 0 /\ s' = child_set i (ns_set slot ns p) (tick2 s)) \/
     (exists d, r = (STATUS_SUCCESS, sizeof_VNVME_CREATE_NAMESPACE_OUTPUT) /\ disk_for ns d /\
        s' = child_set i (add_namespace slot (ns <| ns_Storage := Some d |>) p) (tick2 s)
               <| ct_mem := store_all [(rq_Output rq + 0, 4%nat, Z.of_nat slot + 1); (rq_Output rq + 4, 4%nat, 0)] (ct_mem s) |>)).
Proof.
  intros Hs Hp Hold Ho Hns Hlen. destruct (storage_choice cfg ns) as [ty path] eqn:Hch.
  destruct (VnvmeStorageCreate (bs_tick (ct_bus s)) ty (ns_TotalBytes ns) (ns_BlockSize ns) path) as [st storage] eqn:Hsto.
  rewrite (create_namespace_run rq i slot ns cfg p s st storage Hp (lookup_lt_Some _ _ _ Hold)) by by rewrite Hch.
  destruct (VnvmeStorageCreate_shape _ _ _ _ _ _ _ Hsto) as [[Hst ->]|(-> & d & -> & Hok & Hty & Htot & Hbs & Hro & Hz)].
  - rewrite Hst. exists (st, 0). eexists. split; [done|]. left. split_and!; [done..|].
    destruct Hns as (_ & Hn & _). do 2 f_equal. destruct ns. cbn in Hn. by subst.
  - cbn [NT_SUCCESS outputs]. unfold output. sizes. rewrite !in_block_true by lia. exists (STATUS_SUCCESS, 4 + 4). eexists. split; [reflexivity|].
    right. exists d. split_and!; [done| |by destruct s as [[] ?]]. split_and!; [done..|]. intros Hm. apply Hz. congruence.
Qed.

(** ** Requests that reach the code behind the checks *)

Record in_ready (rq : WDFREQUEST) (insize : Z) (s : CtrlState) : Prop := {
  rd_fdo : is_Some (bs_fdo (ct_bus s));
  rd_in : insize <= rq_InputBufferLength rq;
  rd_instatus : NT_SUCCESS (rq_InputStatus rq) = true
}.

Record ready (rq : WDFREQUEST) (insize outsize : Z) (s : CtrlState) : Prop := {
  rd_input :> in_ready rq insize s;
  rd_out : outsize <= rq_OutputBufferLength rq;
  rd_outstatus : NT_SUCCESS (rq_OutputStatus rq) = true
}.

(** The field of the input at [off]. *)
Definition arg (rq : WDFREQUEST) (s : CtrlState) (off : Z) (n : nat) : Z := load_le (ct_mem s) (rq_Input rq + off) n.

Section Ready.
Context (rq : WDFREQUEST) (insize : Z) (s : CtrlState) (R : in_ready rq insize s).

Lemma in_ready_run k : with_fdo (fun _ => check_input rq insize (retrieve_input rq k)) s = k s.
Proof.
  destruct R as [[d Hd] Hlen Hst]. unfold with_fdo, check_input, retrieve_input.
  rewrite bind_get, Hd, (proj2 (Z.ltb_ge _ _)) by done. by rewrite Hst.
Qed.

Lemma input_run {A} off n (k : Z -> M CtrlState A) : 0 <= off -> off + Z.of_nat n <= insize -> (input rq off n ≫= k) s = k (arg rq s off n) s.
Proof. intros H1 H2. pose proof (rd_in _ _ _ R). unfold input, mbind, M_bind. rewrite in_block_true by lia. done. Qed.

Lemma ready_run outsize k (R' : ready rq insize outsize s) :
  with_fdo (fun _ => check_input rq insize (check_output rq outsize (retrieve_input rq (retrieve_output rq k)))) s = k s.
Proof.
  destruct R' as [[[d Hd] Hlen Hst] Hlen' Hst']. unfold with_fdo, check_input, check_output, retrieve_input, retrieve_output.
  rewrite bind_get, Hd, !(proj2 (Z.ltb_ge _ _)) by done. by rewrite Hst, Hst'.
Qed.
End Ready.

(** A request that is not ready fails and changes nothing. *)
Lemma in_ready_or_failed rq insize k s :
  in_ready rq insize s \/ exists st, with_fdo (fun _ => check_input rq insize (retrieve_input rq k)) s = Ok ((st, 0), s).
Proof.
  unfold with_fdo, check_input, retrieve_input. rewrite bind_get. destruct (bs_fdo _) eqn:Hd; [|right; by eexists].
  destruct (Z.ltb_spec (rq_InputBufferLength rq) insize); [right; by eexists|].
  destruct (NT_SUCCESS _) eqn:E; cbn [negb]; [|right; by eexists]. left. split; [by rewrite Hd|done|done].
Qed.

Lemma ready_or_failed rq insize outsize k s :
  ready rq insize outsize s \/ exists st,
    with_fdo (fun _ => check_input rq insize (check_output rq outsize (retrieve_input rq (retrieve_output rq k)))) s = Ok ((st, 0), s).
Proof.
  unfold with_fdo, check_input, check_output, retrieve_input, retrieve_output. rewrite bind_get. destruct (bs_fdo _) eqn:Hd; [|right; by eexists].
  destruct (Z.ltb_spec (rq_InputBufferLength rq) insize); [right; by eexists|].
  destruct (Z.ltb_spec (rq_OutputBufferLength rq) outsize); [right; by eexists|].
  destruct (NT_SUCCESS (rq_InputStatus rq)) eqn:E; cbn [negb]; [|right; by eexists].
  destruct (NT_SUCCESS (rq_OutputStatus rq)) eqn:E'; cbn [negb]; [|right; by eexists].
  left. split; [split; [by rewrite Hd|done|done]|done|done].
Qed.

Lemma VnvmeHandleCreateNamespace_run rq s :
  ready rq sizeof_VNVME_CREATE_NAMESPACE_INPUT sizeof_VNVME_CREATE_NAMESPACE_OUTPUT s ->
  VnvmeHandleCreateNamespace rq s =
    match CtrlDevFindController (arg rq s 0 4) (ct_bus s) with
    | None => Ok ((STATUS_NOT_FOUND, 0), s)
    | Some i =>
        match check_namespace_config (arg rq s 16 4) (arg rq s 8 8) with
        | Some st => Ok ((st, 0), s)
        | None =>
            (p ← of_opt (child s i);
             if VNVME_MAX_NAMESPACES <=? pdo_NamespaceCount p then failed STATUS_QUOTA_EXCEEDED
             else
               match free_slot (pdo_Namespaces p) with
               | None => failed STATUS_QUOTA_EXCEEDED
               | Some slot =>
                   create_namespace rq i (Z.of_nat slot + 1)
                     (new_namespace (Z.of_nat slot + 1) (arg rq s 8 8) (arg rq s 16 4) (arg rq s 20 4)) (bs_cfg (ct_bus s))
               end) s
        end
    end.
Proof.
  intros R. unfold VnvmeHandleCreateNamespace. rewrite (ready_run _ _ _ _ _ R).
  rewrite (input_run _ _ _ R) by (sizes; lia). rewrite bind_get. destruct (CtrlDevFindController _ _) as [i|]; [|done].
  do 2 rewrite (input_run _ _ _ R) by (sizes; lia).
  destruct (check_namespace_config _ _); [done|]. destruct (child s i) as [p|] eqn:Hp; [|done]. rewrite !(bind_opt _ _ _ p) by done.
  destruct (_ <=? _); [done|]. destruct (free_slot _); [|done]. cbv zeta. by rewrite (input_run _ _ _ R) by (sizes; lia).
Qed.

(** The controller without the namespace. *)
Definition remove_namespace (slot : nat) (ns : VNVME_NAMESPACE) (p : VNVME_PDO_CONTEXT) : VNVME_PDO_CONTEXT :=
  (ns_set slot (ns <| ns_Storage := None |> <| ns_Active := false |>) p) <| pdo_NamespaceCount ::= fun n => u16 (n - 1) |>.

Lemma VnvmeHandleDeleteNamespace_run rq s :
  in_ready rq sizeof_VNVME_DELETE_NAMESPACE_INPUT s ->
  VnvmeHandleDeleteNamespace rq s =
    match CtrlDevFindController (arg rq s 0 4) (ct_bus s) with
    | None => Ok ((STATUS_NOT_FOUND, 0), s)
    | Some i =>
        let nsid := arg rq s 4 4 in
        if (nsid =? 0) || (VNVME_MAX_NAMESPACES <? nsid) then Ok ((STATUS_INVALID_PARAMETER, 0), s)
        else
          match child s i with
          | None => Fault
          | Some p =>
              match pdo_Namespaces p !! Z.to_nat (nsid - 1) with
              | None => Fault
              | Some ns =>
                  if ns_Active ns then Ok ((STATUS_SUCCESS, 0), child_set i (remove_namespace (Z.to_nat (nsid - 1)) ns p) s)
                  else Ok ((STATUS_NOT_FOUND, 0), s)
              end
          end
    end.
Proof.
  intros R. unfold VnvmeHandleDeleteNamespace. rewrite (in_ready_run _ _ _ R). rewrite (input_run _ _ _ R) by (sizes; lia).
  rewrite bind_get. destruct (CtrlDevFindController _ _) as [i|]; [|done].
  rewrite (input_run _ _ _ R) by (sizes; lia). cbv zeta. set (nsid := arg rq s 4 4).
  destruct (Z.eqb_spec nsid 0) as [|Hn]; [done|]. destruct (Z.ltb_spec VNVME_MAX_NAMESPACES nsid); [done|]. cbn [orb].
  pose proof (load_le_range (ct_mem s) (rq_Input rq + 4) 4) as Hr. change (load_le _ _ _) with nsid in Hr.
  set (slot := Z.to_nat (nsid - 1)). assert (nsid - 1 = Z.of_nat slot) as -> by lia.
  destruct (child s i) as [p|] eqn:Hp; [|done]. rewrite (bind_opt _ _ _ p) by done.
  assert (arr_get (pdo_Namespaces p) (Z.of_nat slot) = pdo_Namespaces p !! slot) as Hget
    by (unfold arr_get; by rewrite (proj2 (Z.ltb_ge _ _)), Nat2Z.id by lia).
  destruct (pdo_Namespaces p !! slot) as [ns|] eqn:Hns; rewrite Hget; [|done]. rewrite (bind_opt _ _ _ ns) by done.
  destruct (ns_Active ns) eqn:Ha; cbn [negb]; [|done].
  pose proof (lookup_lt_Some _ _ _ Hns) as Hlt. assert (exists s1 p1,
    (match ns_Storage ns with Some _ => child_ns_update i (Z.of_nat slot) (fun ns => ns <| ns_Storage := None |>) | None => mret tt end) s = Ok (tt, s1) /\
    child s1 i = Some p1 /\ arr_get (pdo_Namespaces p1) (Z.of_nat slot) = Some (ns <| ns_Storage := None |>) /\
    forall q, child_set i (ns_set slot q p1) s1 = child_set i (ns_set slot q p) s) as (s1 & p1 & E & Hp1 & Hns1 & Hsame).
  { destruct (ns_Storage ns) eqn:Es.
    - rewrite (child_ns_update_run _ _ _ _ _ _ Hp Hget). eexists _, _. split; [done|]. split; [by eapply child_set_get|].
      split; [by apply ns_set_get|]. intros q. by rewrite child_set_twice, ns_set_twice.
    - exists s, p. split_and!; [done|done|rewrite Hget; destruct ns; cbn in *; by subst|done]. }
  rewrite (bind_Ok _ _ _ _ _ E), (bind_Ok _ _ _ _ _ (child_ns_update_run _ _ _ _ _ _ Hp1 Hns1)), Hsame.
  set (p2 := ns_set slot _ p). assert (child (child_set i p2 s) i = Some p2) as Hp2 by by eapply child_set_get.
  rewrite (bind_Ok _ _ _ _ _ (child_update_run _ _ _ _ Hp2)). by rewrite child_set_twice.
Qed.

(** ** The invariant *)

Lemma active_bound p : child_inv p -> 0 <= pdo_NamespaceCount p <= VNVME_MAX_NAMESPACES.
Proof.
  intros [(_ & _ & _ & Hlen) _ -> _]. unfold active_namespaces, VNVME_MAX_NAMESPACES.
  pose proof (length_filter (fun ns => ns_Active ns = true) (pdo_Namespaces p)). lia.
Qed.

Lemma child_inv_idle p slot old ns :
  child_inv p -> pdo_Namespaces p !! slot = Some old -> ns_Active old = false -> valid_namespace slot ns -> child_inv (ns_set slot ns p).
Proof.
  intros Hp Hold Ho (Ha & Hst & _). eapply child_inv_slot'; [done..| |congruence]. unfold ns_inv. by rewrite Ha.
Qed.

Lemma child_inv_add p slot old ns d :
  child_inv p -> pdo_Namespaces p !! slot = Some old -> ns_Active old = false -> pdo_NamespaceCount p < VNVME_MAX_NAMESPACES ->
  valid_namespace slot ns -> disk_for ns d -> child_inv (add_namespace slot (ns <| ns_Storage := Some d |>) p).
Proof.
  intros Hp Hold Ho Hlt Hns Hd. pose proof (active_bound _ Hp) as Hb. unfold VNVME_MAX_NAMESPACES in *.
  set (new := ns <| ns_Storage := Some d |> <| ns_Active := true |>).
  replace (add_namespace _ _ p) with ((ns_set slot new p) <| pdo_NamespaceCount := pdo_NamespaceCount p + 1 |>).
  - eapply child_inv_slot; [done..| |rewrite Ho; cbn; lia]. split; [apply Hns|]. exists d. split; [done|]. split; [apply Hd|].
    by apply (disk_for_ok slot).
  - unfold add_namespace. destruct p. cbn in *. unset. by rewrite u16_small by lia.
Qed.

Lemma child_inv_remove p slot ns :
  child_inv p -> pdo_Namespaces p !! slot = Some ns -> ns_Active ns = true ->
  child_inv (remove_namespace slot ns p).
Proof.
  intros Hp Hns Ha. pose proof (active_bound _ Hp) as Hb. unfold VNVME_MAX_NAMESPACES in *.
  assert (1 <= pdo_NamespaceCount p) as H1.
  { destruct Hp as [_ _ -> _]. unfold active_namespaces. pose proof (active_insert _ _ _ ns Hns). apply list_elem_of_lookup_2 in Hns.
    destruct (filter _ (pdo_Namespaces p)) eqn:E; [|cbn; lia]. assert (ns ∈ filter (fun ns => ns_Active ns = true) (pdo_Namespaces p)) as Hin
      by by apply list_elem_of_filter. rewrite E in Hin. by apply elem_of_nil in Hin. }
  set (new := ns <| ns_Storage := None |> <| ns_Active := false |>).
  replace (remove_namespace _ _ _) with ((ns_set slot new p) <| pdo_NamespaceCount := pdo_NamespaceCount p - 1 |>).
  - eapply child_inv_slot; [done..|rewrite Ha; cbn; lia].
  - unfold remove_namespace. destruct p. cbn in *. unset. by rewrite u16_small by lia.
Qed.

Lemma frame_child_set rq i p q s s' :
  child s i = Some q -> pdo_ControllerId p = pdo_ControllerId q -> bs_bus (ct_bus s') = bs_bus (ct_bus s) ->
  bs_children (ct_bus s') = <[i := p]> (bs_children (ct_bus s)) -> mem_frame rq (ct_mem s) (ct_mem s') -> frame rq s s'.
Proof.
  intros Hq E Hb Hc Hm. split; [done|]. unfold bus_frame. rewrite Hb, Hc. split; [|done].
  rewrite list_fmap_insert, E, list_insert_id; [done|]. by rewrite list_lookup_fmap, Hq.
Qed.

Lemma ctl_inv_tick2 s : ctl_inv s -> ctl_inv (tick2 s).
Proof. by destruct s as [[] ?]. Qed.

Lemma create_namespace_quiet rq i slot old ns cfg p s :
  ctl_inv s -> child s i = Some p -> pdo_Namespaces p !! slot = Some old -> ns_Active old = false -> valid_namespace slot ns ->
  pdo_NamespaceCount p < VNVME_MAX_NAMESPACES -> sizeof_VNVME_CREATE_NAMESPACE_OUTPUT <= rq_OutputBufferLength rq ->
  wp (create_namespace rq i (Z.of_nat slot + 1) ns cfg) s (fun r s' => answer rq r /\ ctl_inv s' /\ frame rq s s').
Proof.
  intros Hs Hp Hold Ho Hns Hlt Hlen. pose proof (child_at _ _ _ Hs Hp) as Hpi.
  destruct (create_namespace_result rq i slot old ns cfg p s Hs Hp Hold Ho Hns Hlen) as (r & s' & E & H).
  eapply wp_intro; [exact E|]. destruct H as [(H1 & H2 & ->)|(d & -> & Hd & ->)].
  - split; [by left|]. split; [apply ctl_inv_child_set; [by apply ctl_inv_tick2|by eapply child_inv_idle]|].
    by apply (frame_child_set rq i (ns_set slot ns p) p); [exact Hp|..]; destruct s as [[] ?].
  - split; [right; sizes; cbn; split; [done|lia]|]. pose proof (child_inv_add _ _ _ _ _ Hpi Hold Ho Hlt Hns Hd) as Hpi'.
    split.
    + pose proof (ctl_inv_child_set i _ (tick2 s) (ctl_inv_tick2 _ Hs) Hpi') as Hc. by destruct s as [[] ?].
    + apply (frame_child_set rq i (add_namespace slot (ns <| ns_Storage := Some d |>) p) p); [exact Hp|done|by destruct s as [[] ?]..|].
      intros a Ha. sizes. unset. unfold store_all. cbn. by rewrite !rd8_store_out by lia.
Qed.

Lemma wp_unchanged rq (m : M CtrlState result) s st :
  ctl_inv s -> m s = Ok ((st, 0), s) -> wp m s (fun r s' => answer rq r /\ ctl_inv s' /\ frame rq s s').
Proof. intros Hs E. eapply wp_intro; [exact E|]. split; [by left|done]. Qed.

Lemma VnvmeHandleCreateNamespace_quiet rq : quiet rq (answer rq) (VnvmeHandleCreateNamespace rq).
Proof.
  intros s Hs.
  match eval unfold VnvmeHandleCreateNamespace in (VnvmeHandleCreateNamespace rq) with
    with_fdo (fun _ => check_input _ ?a (check_output _ ?b (retrieve_input _ (retrieve_output _ ?k)))) =>
      destruct (ready_or_failed rq a b k s) as [R|[st E]] end; [|by eapply wp_unchanged].
  pose proof (VnvmeHandleCreateNamespace_run rq s R) as E.
  destruct (CtrlDevFindController _ _) as [i|] eqn:Hi; [|by eapply wp_unchanged].
  destruct (check_namespace_config _ _) eqn:Hc; [by eapply wp_unchanged|].
  apply find_lookup in Hi as [p Hp]. rewrite (bind_opt _ _ _ _ Hp) in E. pose proof (child_at _ _ _ Hs Hp) as Hpi.
  destruct (Z.leb_spec VNVME_MAX_NAMESPACES (pdo_NamespaceCount p)); [by eapply wp_unchanged|].
  destruct (free_slot_exists p Hpi) as [slot Hslot]; [done|]. rewrite Hslot in E.
  apply free_slot_Some in Hslot as (old & Hold & Ho & _). unfold wp. rewrite E.
  eapply create_namespace_quiet; [done..| |done|apply R]. apply new_namespace_valid; [apply (load_le_range _ _ 8)|done].
Qed.

Lemma VnvmeHandleDeleteNamespace_quiet rq : quiet rq (answer rq) (VnvmeHandleDeleteNamespace rq).
Proof.
  intros s Hs.
  match eval unfold VnvmeHandleDeleteNamespace in (VnvmeHandleDeleteNamespace rq) with
    with_fdo (fun _ => check_input _ ?a (retrieve_input _ ?k)) =>
      destruct (in_ready_or_failed rq a k s) as [R|[st E]] end; [|by eapply wp_unchanged].
  pose proof (VnvmeHandleDeleteNamespace_run rq s R) as E.
  destruct (CtrlDevFindController _ _) as [i|] eqn:Hi; [|by eapply wp_unchanged].
  apply find_lookup in Hi as [p Hp]. pose proof (child_at _ _ _ Hs Hp) as Hpi. rewrite Hp in E. cbv zeta in E. set (nsid := arg rq s 4 4) in *.
  revert E. destruct (Z.eqb_spec nsid 0); cbn [orb]; [intros E; by eapply wp_unchanged|].
  destruct (Z.ltb_spec VNVME_MAX_NAMESPACES nsid); cbn [orb]; intros E; [by eapply wp_unchanged|].
  pose proof (load_le_range (ct_mem s) (rq_Input rq + 4) 4) as Hr. change (load_le _ _ _) with nsid in Hr.
  destruct (pdo_Namespaces p !! Z.to_nat (nsid - 1)) as [ns|] eqn:Hns.
  - destruct (ns_Active ns) eqn:Ha; [|by eapply wp_unchanged]. eapply wp_intro; [exact E|]. split; [by left|]. split.
    + apply ctl_inv_child_set; [done|]. by apply child_inv_remove.
    + by apply (frame_child_set rq i (remove_namespace (Z.to_nat (nsid - 1)) ns p) p); [exact Hp|..]; destruct s as [[] ?].
  - apply lookup_ge_None in Hns. destruct Hpi as [(_ & _ & _ & Hlen) _ _ _]. unfold VNVME_MAX_NAMESPACES in *. lia.
Qed.

(** ** Every request *)

(** What a request does to the bus is a sequence of the steps of [bus_step]. *)
Definition bus_steps (b b' : BusState) : Prop :=
  forall n, exists n', rtc bus_step (mkBusSystem b [] [] n) (mkBusSystem b' [] [] n').

Lemma bus_steps_frame b b' : bus_frame b b' -> bus_steps b b'.
Proof. intros H n. exists n. by apply rtc_once, step_other. Qed.

(** The triple of a whole request. *)
Definition safe (rq : WDFREQUEST) (m : M CtrlState result) : Prop :=
  forall s, ctl_inv s -> wp m s (fun r s' =>
    answer rq r /\ ctl_inv s' /\ mem_frame rq (ct_mem s) (ct_mem s') /\ bus_steps (ct_bus s) (ct_bus s')).

Lemma quiet_safe rq m : quiet rq (answer rq) m -> safe rq m.
Proof. intros Hm s Hs. eapply wp_mono; [by apply Hm|]. intros r s' (H1 & H2 & H3 & H4). split_and!; [done..|by apply bus_steps_frame]. Qed.

(** Taking an id and creating a controller with it. *)
Lemma create_controller_steps b : bus_ok b ->
  exists id st b1 b2, take_id b = Ok (id, b1) /\ VnvmeCreateVirtualController id b1 = Ok (st, b2) /\ bus_ok b2 /\ bus_steps b b2 /\
    (NT_SUCCESS st = true -> st = STATUS_SUCCESS).
Proof.
  intros Hb. destruct b as [d fb ch h c t k]. set (b := mkBus d fb ch h c t k) in *.
  set (id := fb_NextControllerId fb +₃₂ 1 -₃₂ 1). set (b1 := mkBus d (fb <| fb_NextControllerId := fb_NextControllerId fb +₃₂ 1 |>) ch h c t k).
  assert (take_id b = Ok (id, b1)) as Ht by done. assert (bus_ok b1) as Hb1 by done.
  exists id. assert (forall b2, (forall n, rtc bus_step (mkBusSystem b1 [id] [] n) (mkBusSystem b2 [] [] n)) -> bus_steps b b2) as Hsteps.
  { intros b2 H n. exists (n + 1). eapply rtc_l; [by apply step_take|apply H]. }
  unfold VnvmeCreateVirtualController.
  assert (exists refused b2, create_begin id b1 = Ok (refused, b2) /\ bus_ok b2 /\ (forall st, refused = Some st -> NT_SUCCESS st = false /\ b2 = b1))
    as (refused & b2 & Hbegin & Hb2 & Href).
  { unfold create_begin. rewrite bind_get. destruct (bool_decide _); [do 2 eexists; (split; [done|]); (split; [exact Hb1|by intros ? [= <-]])|].
    destruct (_ <=? _); [do 2 eexists; (split; [done|]); (split; [exact Hb1|by intros ? [= <-]])|].
    do 2 eexists. split; [done|]. split; [exact Hb1|done]. }
  destruct refused as [st|].
  - destruct (Href st eq_refl) as [Hst ->]. exists st, b1, b1. split_and!; [done|by rewrite (bind_Ok _ _ _ _ _ Hbegin)|done| |congruence].
    apply Hsteps. intros n. apply rtc_once. by apply (step_refuse b1 b1 id st [] [] [] n).
  - destruct (wp_elim _ _ _ (VnvmeCreateControllerPdo_wp id b2)) as ([st child] & b3 & Hpdo & (Hs1 & Hs2 & Hs3 & Hs4) & Hres).
    destruct b3 as [d3 fb3 ch3 h3 c3 t3 k3]. cbn in Hs1, Hs2, Hs3, Hs4. subst d3 fb3 ch3 c3.
    destruct Hres as [[= -> ->]|Hst].
    + set (b3 := mkBus _ _ _ _ _ _ _) in Hpdo. exists STATUS_SUCCESS, b1, (b3 <| bs_children ::= fun l => l ++ [new_pdo id] |>).
      split; [done|]. split; [rewrite (bind_Ok _ _ _ _ _ Hbegin); cbv beta iota; by rewrite (bind_Ok _ _ _ _ _ Hpdo)|]. split; [|split].
      * destruct Hb2 as [H1 H2]. split; [|done]. apply Forall_app. split; [done|]. apply Forall_singleton, child_inv_new.
      * apply Hsteps. intros n. eapply rtc_l; [by apply (step_begin b1 b2 id [] [] [] n)|]. apply rtc_once.
        by apply (step_commit b2 b3 _ id (new_pdo id) [] [] [] n).
      * done.
    + set (b3 := mkBus _ _ _ _ _ _ _) in Hpdo. exists st, b1, (b3 <| bs_bus ::= fun f => f <| fb_ChildDeviceCount ::= fun n => n -₃₂ 1 |> |>).
      split; [done|]. split; [|split; [done|split; [|cbn in Hst; congruence]]].
      * rewrite (bind_Ok _ _ _ _ _ Hbegin). cbv beta iota. rewrite (bind_Ok _ _ _ _ _ Hpdo). cbn in Hst. by rewrite Hst.
      * apply Hsteps. intros n. eapply rtc_l; [by apply (step_begin b1 b2 id [] [] [] n)|]. apply rtc_once.
        by apply (step_rollback b2 b3 _ id st child [] [] [] n).
Qed.

Lemma safe_unchanged rq (m : M CtrlState result) s st :
  m s = Ok ((st, 0), s) -> ctl_inv s -> wp m s (fun r s' =>
    answer rq r /\ ctl_inv s' /\ mem_frame rq (ct_mem s) (ct_mem s') /\ bus_steps (ct_bus s) (ct_bus s')).
Proof. intros E Hs. eapply wp_intro; [exact E|]. split_and!; [by left|done|done|by apply bus_steps_frame]. Qed.

Lemma wide_length text : length (wide text) = String.length text.
Proof. unfold wide. rewrite length_fmap. by induction text; cbn; [|f_equal]. Qed.

Lemma RtlStringCbPrintfW_fits cap text : (0 < cap)%nat -> (length (RtlStringCbPrintfW cap text).2 < cap)%nat.
Proof. intros H. unfold RtlStringCbPrintfW. case_decide; cbn [snd]; rewrite ?length_take, wide_length; lia. Qed.

Lemma VnvmeHandleCreateController_safe rq : safe rq (VnvmeHandleCreateController rq).
Proof.
  intros s Hs.
  match eval unfold VnvmeHandleCreateController in (VnvmeHandleCreateController rq) with
    with_fdo (fun _ => check_input _ ?a (check_output _ ?b (retrieve_input _ (retrieve_output _ ?k)))) =>
      destruct (ready_or_failed rq a b k s) as [R|[st E]] end; [|by eapply safe_unchanged].
  unfold wp, VnvmeHandleCreateController. rewrite (ready_run _ _ _ _ _ R).
  destruct (create_controller_steps (ct_bus s) Hs) as (id & st & b1 & b2 & E1 & E2 & Hb2 & Hsteps & Hid).
  destruct s as [b m]. cbn in *. unfold on_bus.
  erewrite bind_Ok by (cbn; by rewrite E1). erewrite bind_Ok by (cbn; by rewrite E2).
  destruct (NT_SUCCESS st) eqn:Hst; cbn [negb].
  - pose proof (RtlStringCbPrintfW_fits 200 ("VNVME\CONTROLLER\" +:+ lu id) ltac:(lia)).
    destruct (RtlStringCbPrintfW _ _) as [? text]. cbn in *.
    pose proof (rd_out _ _ _ _ R).
    assert (quiet rq (answer rq) (output rq 0 4 id;; output_zero rq 4 400;; output_copy rq 4 (wide_mem text) ((Z.of_nat (length text) + 1) * 2);;
      mret (STATUS_SUCCESS, sizeof_VNVME_CREATE_CONTROLLER_OUTPUT))) as Hq by quiet_run.
    eapply wp_mono; [exact (Hq (mkCtrl b2 m) Hb2)|]. intros r s' (H1 & H2 & H3 & H4). split_and!; [done..|]. cbn in H4.
    intros issued. destruct (Hsteps issued) as [n1 Hn]. exists n1. etrans; [done|]. by apply rtc_once, step_other.
  - split_and!; [by left|done|done|done].
Qed.

Lemma VnvmeHandleDeleteController_safe rq : safe rq (VnvmeHandleDeleteController rq).
Proof.
  intros s Hs.
  match eval unfold VnvmeHandleDeleteController in (VnvmeHandleDeleteController rq) with
    with_fdo (fun _ => check_input _ ?a (retrieve_input _ ?k)) =>
      destruct (in_ready_or_failed rq a k s) as [R|[st E]] end; [|by eapply safe_unchanged].
  unfold wp, VnvmeHandleDeleteController. rewrite (in_ready_run _ _ _ R). rewrite (input_run _ _ _ R) by (sizes; lia).
  assert (exists st b', VnvmeDeleteVirtualController (arg rq s 0 4) (ct_bus s) = Ok (st, b') /\ bus_ok b') as (st & b' & E & Hb').
  { destruct s as [b m]. unfold VnvmeDeleteVirtualController. rewrite bind_get. destruct (find_index _ _) as [i|]; [|by do 2 eexists].
    do 2 eexists. split; [done|]. destruct Hs as [H1 H2]. destruct b. split; [|done]. by apply Forall_delete. }
  assert (on_bus (VnvmeDeleteVirtualController (arg rq s 0 4)) s = Ok (st, s <| ct_bus := b' |>)) as E'
    by (unfold on_bus; by rewrite E).
  rewrite (bind_Ok _ _ _ _ _ E'). destruct s as [b m]. assert (bus_steps b b') as Hsteps by (intros n; exists n; apply rtc_once; by eapply step_delete).
  destruct (NT_SUCCESS st); cbn [negb]; (split_and!; [by left|done|done|done]).
Qed.

(** C10: whatever a caller sends - any code, any contents of its buffers, buffers
    of any lengths, separate or the same - the driver handles the request without
    going wrong: it never leaves an array or a buffer, it keeps every controller
    well formed (each active namespace at the slot of its id, with a disk that
    holds all of its blocks, and counted) and the configuration in its limits,
    writes only to the output buffer, reports bytes only on success and at most
    [OutputBufferLength], and changes the set of controllers only by the steps
    whose interleavings keep the ids distinct. *)
Theorem VnvmeEvtIoDeviceControl_safe (rq : WDFREQUEST) (userAddress IoControlCode : Z) (s : CtrlState) :
  ctl_inv s ->
  wp (VnvmeEvtIoDeviceControl userAddress rq IoControlCode) s (fun r s' =>
    answer rq r /\ ctl_inv s' /\ mem_frame rq (ct_mem s) (ct_mem s') /\ bus_steps (ct_bus s) (ct_bus s')).
Proof.
  revert s. change (safe rq (VnvmeEvtIoDeviceControl userAddress rq IoControlCode)). unfold VnvmeEvtIoDeviceControl.
  repeat case_match; eauto using quiet_safe, VnvmeHandleGetVersion_quiet, VnvmeHandleGetStatus_quiet, VnvmeHandleMapShm_quiet,
    VnvmeHandleUserReady_quiet, VnvmeHandleHeartbeat_quiet, VnvmeHandleCreateController_safe, VnvmeHandleDeleteController_safe,
    VnvmeHandleListControllers_quiet, VnvmeHandleGetCommandEvent_quiet, VnvmeHandleSubmitCompletions_quiet, VnvmeHandleGetStats_quiet,
    VnvmeHandleSetDebugLevel_quiet, VnvmeHandleUnmapShm_quiet, VnvmeHandleCreateNamespace_quiet, VnvmeHandleDeleteNamespace_quiet,
    VnvmeHandleListNamespaces_quiet, VnvmeHandleGetConfig_quiet, VnvmeHandleSetConfig_quiet, handles_failed.
Qed.

(** ** What creating and deleting a namespace do *)

Lemma find_index_ids l l' id : pdo_ControllerId <$> l' = pdo_ControllerId <$> l -> find_index l' id = find_index l id.
Proof.
  assert (forall l, find_index l id = fst <$> list_find (fun x => x = id) (pdo_ControllerId <$> l)) as H.
  { intros k. unfold find_index. rewrite list_find_fmap. by destruct (list_find _ k) as [[]|]. }
  intros E. by rewrite !H, E.
Qed.

Lemma find_child_set i p q s id :
  child s i = Some q -> pdo_ControllerId p = pdo_ControllerId q ->
  CtrlDevFindController id (ct_bus (child_set i p s)) = CtrlDevFindController id (ct_bus s).
Proof. intros H E. apply find_index_ids. by destruct (bus_frame_child_set i p q s H E). Qed.

Lemma active_idle p slot old new :
  pdo_Namespaces p !! slot = Some old -> ns_Active old = false -> ns_Active new = false ->
  active_namespaces (ns_set slot new p) = active_namespaces p.
Proof.
  intros H Ho Hn. unfold active_namespaces, ns_set. unset. pose proof (lookup_lt_Some _ _ _ H) as Hlt. rewrite insert_take_drop by done.
  rewrite <- (take_drop_middle (pdo_Namespaces p) slot old H) at 3. rewrite !filter_app. f_equal.
  by rewrite (filter_cons_False _ old), (filter_cons_False _ new) by congruence.
Qed.

Lemma check_namespace_config_Some blockSize totalBlocks st : check_namespace_config blockSize totalBlocks = Some st -> NT_SUCCESS st = false.
Proof. unfold check_namespace_config. repeat case_match; by intros [= <-]. Qed.

(** Another inactive namespace at the first free slot leaves it the first. *)
Lemma free_slot_insert l slot old new :
  l !! slot = Some old -> free_slot l = Some slot -> ns_Active new = false -> free_slot (<[slot := new]> l) = Some slot.
Proof.
  intros Hold Hfree Hn. destruct (free_slot_Some _ _ Hfree) as (? & _ & _ & Hfirst). unfold free_slot. apply fmap_Some. exists (slot, new).
  split; [|done]. apply list_find_Some. split; [by apply list_lookup_insert_eq, lookup_lt_is_Some; eauto|]. split; [done|].
  intros j ns Hj Hlt. rewrite list_lookup_insert_ne in Hj by lia. rewrite (Hfirst j ns Hlt Hj). done.
Qed.

(** A valid request to create a namespace: the slot it takes, and what comes of it. *)
Lemma create_request_result rq s i p :
  let blockSize := arg rq s 16 4 in
  let totalBlocks := arg rq s 8 8 in
  ctl_inv s -> ready rq sizeof_VNVME_CREATE_NAMESPACE_INPUT sizeof_VNVME_CREATE_NAMESPACE_OUTPUT s ->
  CtrlDevFindController (arg rq s 0 4) (ct_bus s) = Some i -> child s i = Some p ->
  check_namespace_config blockSize totalBlocks = None -> pdo_NamespaceCount p < VNVME_MAX_NAMESPACES ->
  exists slot old r s', let ns := new_namespace (Z.of_nat slot + 1) totalBlocks blockSize (arg rq s 20 4) in
    free_slot (pdo_Namespaces p) = Some slot /\ pdo_Namespaces p !! slot = Some old /\ ns_Active old = false /\ valid_namespace slot ns /\
    VnvmeHandleCreateNamespace rq s = Ok (r, s') /\
    ((NT_SUCCESS r.1 = false /\ r.2 = 0 /\ s' = child_set i (ns_set slot ns p) (tick2 s)) \/
     (exists d, r = (STATUS_SUCCESS, sizeof_VNVME_CREATE_NAMESPACE_OUTPUT) /\ disk_for ns d /\
        s' = child_set i (add_namespace slot (ns <| ns_Storage := Some d |>) p) (tick2 s)
               <| ct_mem := store_all [(rq_Output rq + 0, 4%nat, Z.of_nat slot + 1); (rq_Output rq + 4, 4%nat, 0)] (ct_mem s) |>)).
Proof.
  intros blockSize totalBlocks Hs R Hi Hp Hc Hlt. subst blockSize totalBlocks. pose proof (child_at _ _ _ Hs Hp) as Hpi.
  rewrite (VnvmeHandleCreateNamespace_run rq s R), Hi, Hc, (bind_opt _ _ _ _ Hp), (proj2 (Z.leb_gt _ _)) by done.
  destruct (free_slot_exists p Hpi Hlt) as [slot Hfree]. rewrite Hfree. destruct (free_slot_Some _ _ Hfree) as (old & Hold & Ho & _).
  set (ns := new_namespace _ _ _ _). assert (valid_namespace slot ns) as Hns by (apply new_namespace_valid; [apply (load_le_range _ _ 8)|done]).
  destruct (create_namespace_result rq i slot old ns (bs_cfg (ct_bus s)) p s Hs Hp Hold Ho Hns) as (r & s' & E & H); [apply R|].
  exists slot, old, r, s'. by split_and!.
Qed.

(** C17: a valid request to create a namespace of a controller that is not full
    either fails for want of storage, and then the active namespaces and their
    count are the same, or it puts the namespace at the first free slot, answers
    the id that is one more than the slot, counts it, leaves the other
    namespaces and controllers alone, and every read or write inside of its
    blocks meets the precondition of the I/O commands: an active namespace with a
    disk of the right size (all zero, when it is in memory). *)
Theorem VnvmeHandleCreateNamespace_creates (rq : WDFREQUEST) (s : CtrlState) (i : nat) (p : VNVME_PDO_CONTEXT) :
  let blockSize := arg rq s 16 4 in
  let totalBlocks := arg rq s 8 8 in
  ctl_inv s -> ready rq sizeof_VNVME_CREATE_NAMESPACE_INPUT sizeof_VNVME_CREATE_NAMESPACE_OUTPUT s ->
  CtrlDevFindController (arg rq s 0 4) (ct_bus s) = Some i -> child s i = Some p ->
  check_namespace_config blockSize totalBlocks = None -> pdo_NamespaceCount p < VNVME_MAX_NAMESPACES ->
  exists r s' p', VnvmeHandleCreateNamespace rq s = Ok (r, s') /\ bs_children (ct_bus s') = <[i := p']> (bs_children (ct_bus s)) /\
  ((NT_SUCCESS r.1 = false /\ r.2 = 0 /\ active_namespaces p' = active_namespaces p /\ pdo_NamespaceCount p' = pdo_NamespaceCount p) \/
   (r = (STATUS_SUCCESS, sizeof_VNVME_CREATE_NAMESPACE_OUTPUT) /\ exists slot ns d,
      free_slot (pdo_Namespaces p) = Some slot /\ pdo_Namespaces p' = <[slot := ns]> (pdo_Namespaces p) /\
      pdo_NamespaceCount p' = pdo_NamespaceCount p + 1 /\
      load_le (ct_mem s') (rq_Output rq) 4 = Z.of_nat slot + 1 /\
      ns_TotalBlocks ns = totalBlocks /\ ns_BlockSize ns = block_size blockSize /\
      (forall b, sc_Type d = VNVME_STORAGE_TYPE_MEMORY -> sc_MemoryBuffer d = Some b -> blk_mem b = mem_zero) /\
      forall c, cmd_NSID c = Z.of_nat slot + 1 -> 0 <= io_slba c -> io_slba c + io_nlb c <= totalBlocks ->
        io_blocks (view (ct_bus s') p') c ns d)).
Proof.
  intros blockSize totalBlocks Hs R Hi Hp Hc Hlt. subst blockSize totalBlocks. pose proof (child_at _ _ _ Hs Hp) as Hpi.
  destruct (create_request_result rq s i p Hs R Hi Hp Hc Hlt) as (slot & old & r & s' & Hfree & Hold & Ho & Hns & E & H).
  set (ns := new_namespace _ _ _ _) in *. exists r, s'. destruct H as [(H1 & H2 & ->)|(d & -> & Hd & ->)].
  - exists (ns_set slot ns p). split; [done|]. split; [by destruct s as [[] ?]|]. left. split_and!; [done..| |done].
    eapply active_idle; [done..|apply Hns].
  - exists (add_namespace slot (ns <| ns_Storage := Some d |>) p). split; [done|]. split; [by destruct s as [[] ?]|]. right. split; [done|].
    exists slot, (ns <| ns_Storage := Some d |> <| ns_Active := true |>), d. pose proof (active_bound _ Hpi). unfold VNVME_MAX_NAMESPACES in *.
    pose proof (lookup_lt_Some _ _ _ Hold) as Hslot. destruct Hpi as [(_ & _ & _ & Hlen) _ _ _].
    split_and!; [done|done|unfold add_namespace; unset; apply u16_small; lia| |done|done| |].
    + unset. unfold store_all. cbn. rewrite load_store_le_other, Z.add_0_r by lia. apply load_store_le_small. lia.
    + intros b Hm Hb. destruct Hd as (_ & _ & _ & _ & Hz). destruct (Hz Hm) as (b' & Hb' & Hz'). congruence.
    + intros c Hn H1 H2. unfold VNVME_NSID_TO_INDEX in *. split; [rewrite Hn; unfold VNVME_MAX_NAMESPACES; lia| |done|done|by apply (disk_for_ok slot)|done|done].
      unfold ns_at, VNVME_NSID_TO_INDEX. rewrite Hn, Z.add_simpl_r. by apply ns_set_get.
Qed.

(** Deleting a namespace undoes its creation: a later request that names the
    controller and the id the creation answered succeeds, and the controller has
    the active namespaces, the count and the free slot it had before. *)
Lemma namespace_create_delete (rq rq' : WDFREQUEST) (s s' s2 : CtrlState) (n : Z) (i : nat) (p : VNVME_PDO_CONTEXT) :
  ctl_inv s -> ready rq sizeof_VNVME_CREATE_NAMESPACE_INPUT sizeof_VNVME_CREATE_NAMESPACE_OUTPUT s ->
  CtrlDevFindController (arg rq s 0 4) (ct_bus s) = Some i -> child s i = Some p ->
  VnvmeHandleCreateNamespace rq s = Ok ((STATUS_SUCCESS, n), s') ->
  ct_bus s2 = ct_bus s' -> in_ready rq' sizeof_VNVME_DELETE_NAMESPACE_INPUT s2 ->
  arg rq' s2 0 4 = arg rq s 0 4 -> arg rq' s2 4 4 = load_le (ct_mem s') (rq_Output rq) 4 ->
  exists s'' p'', VnvmeHandleDeleteNamespace rq' s2 = Ok ((STATUS_SUCCESS, 0), s'') /\
    bs_children (ct_bus s'') = <[i := p'']> (bs_children (ct_bus s)) /\
    active_namespaces p'' = active_namespaces p /\ pdo_NamespaceCount p'' = pdo_NamespaceCount p /\
    free_slot (pdo_Namespaces p'') = free_slot (pdo_Namespaces p).
Proof.
  intros Hs R Hi Hp Hcreate Hbus R' Hid Hnsid. pose proof (child_at _ _ _ Hs Hp) as Hpi.
  rewrite (VnvmeHandleCreateNamespace_run rq s R), Hi in Hcreate. destruct (check_namespace_config _ _) as [st|] eqn:Hc.
  { injection Hcreate as -> _ _. by apply check_namespace_config_Some in Hc. }
  rewrite (bind_opt _ _ _ _ Hp) in Hcreate. destruct (Z.leb_spec VNVME_MAX_NAMESPACES (pdo_NamespaceCount p)) as [|Hlt]; [done|].
  destruct (free_slot_exists p Hpi Hlt) as [slot Hfree]. rewrite Hfree in Hcreate. destruct (free_slot_Some _ _ Hfree) as (old & Hold & Ho & Hfirst).
  set (ns := new_namespace _ _ _ _) in *. assert (valid_namespace slot ns) as Hns by (apply new_namespace_valid; [apply (load_le_range _ _ 8)|done]).
  destruct (create_namespace_result rq i slot old ns (bs_cfg (ct_bus s)) p s Hs Hp Hold Ho Hns) as (r & s1 & E & H); [apply R|].
  rewrite Hcreate in E. injection E as <- <-. destruct H as [(H1 & _ & _)|(d & _ & Hd & Hs')]; [done|].
  pose proof (lookup_lt_Some _ _ _ Hold) as Hslot. pose proof (active_bound _ Hpi). unfold VNVME_MAX_NAMESPACES in *.
  destruct Hpi as [(_ & _ & _ & Hlen) _ _ _]. set (new := ns <| ns_Storage := Some d |>) in *. set (p' := add_namespace slot new p) in *.
  assert (bs_children (ct_bus s2) = <[i := p']> (bs_children (ct_bus s))) as Hch by (rewrite Hbus, Hs'; by destruct s as [[] ?]).
  assert (load_le (ct_mem s') (rq_Output rq) 4 = Z.of_nat slot + 1) as Hans.
  { rewrite Hs'. unset. unfold store_all. cbn. rewrite load_store_le_other, Z.add_0_r by lia. apply load_store_le_small. lia. }
  rewrite (VnvmeHandleDeleteNamespace_run rq' s2 R'), Hid, Hnsid, Hans. cbv zeta.
  assert (CtrlDevFindController (arg rq s 0 4) (ct_bus s2) = Some i) as ->.
  { rewrite <- Hi. apply find_index_ids. rewrite Hch, list_fmap_insert, list_insert_id; [done|]. rewrite list_lookup_fmap, Hp. done. }
  assert (child s2 i = Some p') as Hp' by (rewrite Hch; apply list_lookup_insert_eq, lookup_lt_is_Some; eauto). rewrite Hp'.
  unfold VNVME_MAX_NAMESPACES. rewrite (proj2 (Z.eqb_neq _ _)), (proj2 (Z.ltb_ge _ _)), Z.add_simpl_r, Nat2Z.id by lia. cbn [orb].
  assert (pdo_Namespaces p' !! slot = Some (new <| ns_Active := true |>)) as -> by by apply list_lookup_insert_eq.
  set (gone := new <| ns_Active := true |> <| ns_Storage := None |> <| ns_Active := false |>).
  eexists _, _. split; [reflexivity|]. split; [|split; [|split]].
  - unfold child_set. cbn. unset. rewrite Hch. by rewrite list_insert_insert_eq.
  - transitivity (active_namespaces (ns_set slot gone p')); [done|]. transitivity (active_namespaces (ns_set slot gone p)).
    + unfold active_namespaces, p', add_namespace, ns_set. unset. by rewrite list_insert_insert_eq.
    + by eapply active_idle.
  - unfold remove_namespace, p', add_namespace. unset. word_lia.
  - unfold remove_namespace, p', add_namespace, ns_set. unset. rewrite list_insert_insert_eq, Hfree. by apply free_slot_insert with old.
Qed.
End CtrlNs.

(** ** Witnesses *)

#[local] Existing Instances TestKernel TestFramework.

(** A caller asks controller 1 for a namespace of 16 blocks, in one buffer. *)
Definition sample_request : WDFREQUEST := mkRequest 284 8 0x100 0x100 STATUS_SUCCESS STATUS_SUCCESS.
Definition sample_memory : mem := store_all [(0x100, 4%nat, 1); (0x108, 8%nat, 16); (0x110, 4%nat, 512)] mem_zero.
Definition sample_ctrl : CtrlState := mkCtrl committed_bus sample_memory.

(** Then it deletes namespace 1. *)
Lemma sample_children : bs_children committed_bus = [new_pdo 1].
Proof. by vm_compute. Qed.

Lemma sample_inv : ctl_inv sample_ctrl.
Proof.
  split; [|exact default_config_wf]. change (Forall child_inv (bs_children committed_bus)). rewrite sample_children.
  apply Forall_singleton, child_inv_new.
Qed.

Lemma VnvmeEvtIoDeviceControl_safe_witness :
  wp (VnvmeEvtIoDeviceControl 0 sample_request IOCTL_VNVME_CREATE_NAMESPACE) sample_ctrl (fun r s' =>
    answer sample_request r /\ ctl_inv s' /\ mem_frame sample_request sample_memory (ct_mem s') /\ bus_steps committed_bus (ct_bus s')).
Proof. exact (VnvmeEvtIoDeviceControl_safe sample_request 0 IOCTL_VNVME_CREATE_NAMESPACE sample_ctrl sample_inv). Defined.

Lemma sample_ready s : ct_bus s = committed_bus ->
  ready sample_request sizeof_VNVME_CREATE_NAMESPACE_INPUT sizeof_VNVME_CREATE_NAMESPACE_OUTPUT s.
Proof. intros E. split; [split|..]; try done. rewrite E. by eexists. Qed.

Lemma sample_found : CtrlDevFindController 1 committed_bus = Some 0%nat.
Proof. by vm_compute. Qed.

Lemma sample_child : bs_children committed_bus !! 0%nat = Some (new_pdo 1).
Proof. by rewrite sample_children. Qed.

Lemma sample_success (s : CtrlState) (r : result) s' :
  match VnvmeHandleCreateNamespace sample_request s with Ok (r, _) => r = (STATUS_SUCCESS, 8) | _ => False end ->
  VnvmeHandleCreateNamespace sample_request s = Ok (r, s') -> r = (STATUS_SUCCESS, 8).
Proof. intros H E. by rewrite E in H. Qed.

Lemma sample_run : match VnvmeHandleCreateNamespace sample_request sample_ctrl with Ok (r, _) => r = (STATUS_SUCCESS, 8) | _ => False end.
Proof. by vm_compute. Qed.

Lemma VnvmeHandleCreateNamespace_creates_witness :
  exists s' p', VnvmeHandleCreateNamespace sample_request sample_ctrl = Ok ((STATUS_SUCCESS, 8), s') /\
    bs_children (ct_bus s') = [p'] /\ pdo_NamespaceCount p' = 1 /\ load_le (ct_mem s') 0x100 4 = 1.
Proof.
  destruct (VnvmeHandleCreateNamespace_creates sample_request sample_ctrl 0 (new_pdo 1) sample_inv (sample_ready sample_ctrl eq_refl))
    as (r & s' & p' & E & Hch & H); [exact sample_found|exact sample_child|reflexivity|reflexivity|].
  pose proof (sample_success sample_ctrl r s' sample_run E). subst r. exists s', p'. split; [exact E|]. split; [rewrite Hch; exact (f_equal <[0%nat := p']> sample_children)|].
  destruct H as [[H _]|(_ & slot & ns & d & Hs & _ & Hc & Hl & _)]; [discriminate H|]. split; [exact Hc|]. injection Hs as <-. exact Hl.
Defined.
