(* ===== verification/CtrlRequests.v ===== *)
(** The answers of single I/O control requests: the lengths they ask for, the
    configuration requests, and the requests that can only fail. *)
From S2P Require Import Prelude NvmeSpec Kernel Config Storage State Shm IoCmd Pdo Bus CtrlDev CtrlSafe CtrlNs.
Open Scope Z_scope.
Open Scope c_scope.

Section CtrlRequests.
Context {W : WinKernel} {F : WdfFramework}.

(** ** Lengths *)

(** The requests the driver handles, and the lengths of the structures of
    vnvme_ioctl.h they go with: input and output. *)
Definition ioctl_sizes : list (Z * (Z * Z)) := [
  (IOCTL_VNVME_GET_VERSION, (0, sizeof_VNVME_GET_VERSION_OUTPUT));
  (IOCTL_VNVME_GET_STATUS, (0, sizeof_VNVME_GET_STATUS_OUTPUT));
  (IOCTL_VNVME_MAP_SHM, (0, sizeof_VNVME_MAP_SHM_OUTPUT));
  (IOCTL_VNVME_USER_READY, (sizeof_VNVME_USER_READY_INPUT, 0));
  (IOCTL_VNVME_HEARTBEAT, (sizeof_VNVME_HEARTBEAT_INPUT, sizeof_VNVME_HEARTBEAT_OUTPUT));
  (IOCTL_VNVME_CREATE_CONTROLLER, (sizeof_VNVME_CREATE_CONTROLLER_INPUT, sizeof_VNVME_CREATE_CONTROLLER_OUTPUT));
  (IOCTL_VNVME_DELETE_CONTROLLER, (sizeof_VNVME_DELETE_CONTROLLER_INPUT, 0));
  (IOCTL_VNVME_LIST_CONTROLLERS, (0, sizeof_VNVME_LIST_CONTROLLERS_OUTPUT));
  (IOCTL_VNVME_GET_COMMAND_EVENT, (0, sizeof_VNVME_GET_COMMAND_EVENT_OUTPUT));
  (IOCTL_VNVME_SUBMIT_COMPLETIONS, (sizeof_VNVME_SUBMIT_COMPLETIONS_INPUT, 0));
  (IOCTL_VNVME_GET_STATS, (0, sizeof_VNVME_GET_STATS_OUTPUT));
  (IOCTL_VNVME_SET_DEBUG_LEVEL, (sizeof_VNVME_SET_DEBUG_LEVEL_INPUT, 0));
  (IOCTL_VNVME_CREATE_NAMESPACE, (sizeof_VNVME_CREATE_NAMESPACE_INPUT, sizeof_VNVME_CREATE_NAMESPACE_OUTPUT));
  (IOCTL_VNVME_DELETE_NAMESPACE, (sizeof_VNVME_DELETE_NAMESPACE_INPUT, 0));
  (IOCTL_VNVME_LIST_NAMESPACES, (sizeof_VNVME_LIST_NAMESPACES_INPUT, sizeof_VNVME_LIST_NAMESPACES_OUTPUT));
  (IOCTL_VNVME_GET_CONFIG, (0, sizeof_VNVME_GET_CONFIG_OUTPUT));
  (IOCTL_VNVME_SET_CONFIG, (sizeof_VNVME_SET_CONFIG_INPUT, 0))].

(** No service is there to answer: no device, or for a heartbeat no ready service. *)
Definition not_ready (code : Z) (s : CtrlState) : Prop :=
  match bs_fdo (ct_bus s) with
  | None => True
  | Some fdo => code = IOCTL_VNVME_HEARTBEAT /\ fdo_UserReady fdo = false
  end.

(** Evaluates the tests of the dispatch. *)
Ltac dispatch := unfold VnvmeEvtIoDeviceControl;
  repeat match goal with |- context [if ?a =? ?b then _ else _] =>
    let v := eval vm_compute in (a =? b) in change (a =? b) with v; cbv iota end.

Ltac short_run := unfold with_fdo, check_input, check_output; rewrite ?bind_get;
  repeat match goal with
  | |- context [match bs_fdo ?b with Some _ => _ | None => _ end] => destruct (bs_fdo b) eqn:?
  | |- context [fdo_UserReady ?d] => destruct (fdo_UserReady d) eqn:?; cbn [negb]
  | |- context [?a <? ?b] => destruct (Z.ltb_spec a b)
  end; try lia;
  eexists; (split; [|reflexivity]); first [by left | by right; unfold not_ready; repeat match goal with E : bs_fdo _ = _ |- _ => rewrite E end].

(** A request with a buffer that is too short for its structure is refused,
    with STATUS_BUFFER_TOO_SMALL or because the driver is not ready; it reports
    no bytes, and neither the driver nor a byte of memory changes. *)
Lemma VnvmeEvtIoDeviceControl_short (rq : WDFREQUEST) (userAddress code insize outsize : Z) (s : CtrlState) :
  (code, (insize, outsize)) ∈ ioctl_sizes ->
  0 <= rq_InputBufferLength rq -> 0 <= rq_OutputBufferLength rq ->
  rq_InputBufferLength rq < insize \/ rq_OutputBufferLength rq < outsize ->
  exists st, (st = STATUS_BUFFER_TOO_SMALL \/ st = STATUS_DEVICE_NOT_READY /\ not_ready code s) /\
    VnvmeEvtIoDeviceControl userAddress rq code s = Ok ((st, 0), s).
Proof.
  intros Hin Hi Ho Hshort. unfold ioctl_sizes in Hin.
  repeat (apply elem_of_cons in Hin as [E|Hin]; [injection E as -> -> ->; dispatch|]); [..|by apply elem_of_nil in Hin];
    [unfold VnvmeHandleGetVersion; short_run | unfold VnvmeHandleGetStatus; short_run | unfold VnvmeHandleMapShm; short_run
    | unfold VnvmeHandleUserReady; short_run | unfold VnvmeHandleHeartbeat; short_run | unfold VnvmeHandleCreateController; short_run
    | unfold VnvmeHandleDeleteController; short_run | unfold VnvmeHandleListControllers; short_run | unfold VnvmeHandleGetCommandEvent; short_run
    | unfold VnvmeHandleSubmitCompletions; short_run | unfold VnvmeHandleGetStats; short_run | unfold VnvmeHandleSetDebugLevel; short_run
    | unfold VnvmeHandleCreateNamespace; short_run | unfold VnvmeHandleDeleteNamespace; short_run | unfold VnvmeHandleListNamespaces; short_run
    | unfold VnvmeHandleGetConfig; short_run | unfold VnvmeHandleSetConfig; short_run].
Qed.

(** Every other request but UNMAP_SHM is refused: also USER_SHUTDOWN, GET_DEBUG_INFO and RESET_STATS. *)
Lemma VnvmeEvtIoDeviceControl_unknown rq userAddress code s :
  code ∉ ioctl_sizes.*1 -> code <> IOCTL_VNVME_UNMAP_SHM ->
  VnvmeEvtIoDeviceControl userAddress rq code s = Ok ((STATUS_INVALID_DEVICE_REQUEST, 0), s).
Proof.
  intros Hn Hu. unfold VnvmeEvtIoDeviceControl.
  repeat match goal with |- context [code =? ?c] =>
    destruct (Z.eqb_spec code c) as [->|]; [exfalso; first [by apply Hu | apply Hn; by vm_compute; repeat constructor; set_solver]|] end.
  done.
Qed.

(** ** The configuration *)

Lemma set_field_if_run rq mask field off f c s :
  0 <= 8 + off -> 8 + off + 4 <= rq_InputBufferLength rq ->
  set_field_if rq mask field off f c s = Ok (if negb (Z.land mask field =? 0) then f (arg rq s (8 + off) 4) c else c, s).
Proof. intros H1 H2. unfold set_field_if, input. destruct (negb _); [|done]. unfold mbind, M_bind. cbn [get]. by rewrite in_block_true by lia. Qed.

(** The value of a field that the request may change. *)
Definition choose (mask field : Z) (valid : bool) (new old : Z) : Z := if negb (Z.land mask field =? 0) && valid then new else old.

(** The configuration a request asks for. *)
Definition requested_config (rq : WDFREQUEST) (s : CtrlState) (c : VNVME_CONFIG) : VNVME_CONFIG :=
  let mask := arg rq s 0 4 in
  let new off := arg rq s (8 + off) 4 in
  c <| cfg_DebugLevel := choose mask VNVME_CONFIG_FIELD_DEBUG_LEVEL true (new 0) (cfg_DebugLevel c) |>
    <| cfg_DebugFlags := choose mask VNVME_CONFIG_FIELD_DEBUG_FLAGS true (new 4) (cfg_DebugFlags c) |>
    <| cfg_HeartbeatTimeout100ns := choose mask VNVME_CONFIG_FIELD_HEARTBEAT true (new 8 * 10000) (cfg_HeartbeatTimeout100ns c) |>
    <| cfg_DoorbellPollIntervalUs := choose mask VNVME_CONFIG_FIELD_POLL_INTERVAL true (new 560) (cfg_DoorbellPollIntervalUs c) |>
    <| cfg_BatchSize := choose mask VNVME_CONFIG_FIELD_BATCH_SIZE true (new 564) (cfg_BatchSize c) |>.

Definition set_cfg (c : VNVME_CONFIG) (s : CtrlState) : CtrlState := s <| ct_bus ::= fun b => b <| bs_cfg := c |> |>.

Lemma VnvmeHandleSetConfig_run rq s :
  sizeof_VNVME_SET_CONFIG_INPUT <= rq_InputBufferLength rq -> NT_SUCCESS (rq_InputStatus rq) = true ->
  Z.land (arg rq s 0 4) (Z.lxor VNVME_CONFIG_FIELD_ALL_DYNAMIC 0xFFFFFFFF) = 0 ->
  let old := bs_cfg (ct_bus s) in
  VnvmeHandleSetConfig rq s = Ok ((STATUS_SUCCESS, 0), set_cfg (VnvmeConfigUpdate (Some (requested_config rq s old)) old).2 s).
Proof.
  intros Hlen Hst Hmask old. sizes. unfold VnvmeHandleSetConfig, check_input, retrieve_input. sizes. rewrite (proj2 (Z.ltb_ge _ _)), Hst by lia. cbn [negb].
  assert (forall off n (k : Z -> M CtrlState result), 0 <= off -> off + Z.of_nat n <= 584 -> (input rq off n ≫= k) s = k (arg rq s off n) s) as Hin.
  { intros off n k H1 H2. unfold input, mbind, M_bind. cbn [get]. by rewrite in_block_true by lia. }
  rewrite Hin by lia. cbv zeta. rewrite Hmask, Z.eqb_refl. cbn [negb]. rewrite bind_get. rewrite (bind_opt _ _ _ (bs_cfg (ct_bus s))) by done.
  do 5 (erewrite bind_Ok by (apply set_field_if_run; lia)). rewrite bind_get.
  match goal with |- context [VnvmeConfigUpdate (Some ?c) (bs_cfg (ct_bus s))] => assert (c = requested_config rq s old) as -> end.
  { unfold requested_config, choose, old. rewrite !andb_true_r. destruct (bs_cfg (ct_bus s)). cbv zeta.
    destruct (negb (Z.land _ VNVME_CONFIG_FIELD_DEBUG_LEVEL =? 0)), (negb (Z.land _ VNVME_CONFIG_FIELD_DEBUG_FLAGS =? 0)),
      (negb (Z.land _ VNVME_CONFIG_FIELD_HEARTBEAT =? 0)), (negb (Z.land _ VNVME_CONFIG_FIELD_POLL_INTERVAL =? 0)),
      (negb (Z.land _ VNVME_CONFIG_FIELD_BATCH_SIZE =? 0)); reflexivity. }
  unfold old. by destruct s as [[] ?].
Qed.

(** What GET_CONFIG reports of the fields that may change. *)
Definition reported (m : mem) (rq : WDFREQUEST) (c : VNVME_CONFIG) : Prop :=
  let out off := load_le m (rq_Output rq + off) 4 in
  out 0 = u32 (cfg_DebugLevel c) /\ out 4 = u32 (cfg_DebugFlags c) /\
  out 8 = u32 (Z.quot (cfg_HeartbeatTimeout100ns c) 10000) /\
  out 560 = u32 (cfg_DoorbellPollIntervalUs c) /\ out 564 = u32 (cfg_BatchSize c).

Lemma VnvmeHandleGetConfig_run rq s :
  sizeof_VNVME_GET_CONFIG_OUTPUT <= rq_OutputBufferLength rq -> NT_SUCCESS (rq_OutputStatus rq) = true ->
  exists s', VnvmeHandleGetConfig rq s = Ok ((STATUS_SUCCESS, sizeof_VNVME_GET_CONFIG_OUTPUT), s') /\
    ct_bus s' = ct_bus s /\ reported (ct_mem s') rq (bs_cfg (ct_bus s)).
Proof.
  intros Hlen Hst. unfold VnvmeHandleGetConfig, check_output, retrieve_output. rewrite (proj2 (Z.ltb_ge _ _)), Hst by lia. cbn [negb].
  rewrite bind_get. rewrite (bind_opt _ _ _ (bs_cfg (ct_bus s))) by done. unfold output_zero, output_copy. sizes.
  cbn [outputs]. unfold output. rewrite !in_block_true by lia. eexists. split; [reflexivity|]. split; [by destruct s|].
  destruct s as [b m]. unset. unfold reported. split_and!; autorewrite with memory; rewrite load_store_le; first [done | apply Z.mod_small, u32_range].
Qed.

Lemma choose_dist mask field valid new old (g : Z -> Z) : g (choose mask field valid new old) = choose mask field valid (g new) (g old).
Proof. unfold choose. by destruct (_ && _). Qed.

(** A field that is taken over when it is in range. *)
Lemma choose_range lo hi mask field new old (valid : Prop) `{!Decision valid} :
  (lo <= new <= hi <-> valid) ->
  (if decide (lo <= choose mask field true new old <= hi) then choose mask field true new old else old) =
  choose mask field (bool_decide valid) new old.
Proof.
  intros Hv. unfold choose. rewrite andb_true_r. destruct (negb _); cbn [andb]; [|by case_decide].
  case_decide; [rewrite bool_decide_eq_true_2 by tauto; done|rewrite bool_decide_eq_false_2 by tauto; done].
Qed.

(** The fields a request may change, as far as the request is granted: one
    whose mask names any other field is refused as a whole. *)
Definition granted_fields (mask : Z) : Z := if Z.land mask (Z.lxor VNVME_CONFIG_FIELD_ALL_DYNAMIC 0xFFFFFFFF) =? 0 then mask else 0.

(** The configuration after the fields [fields] have been set: the three timing
    fields only to a value in range. *)
Definition changed_config (fields : Z) (new : Z -> Z) (c : VNVME_CONFIG) : VNVME_CONFIG :=
  c <| cfg_DebugLevel := choose fields VNVME_CONFIG_FIELD_DEBUG_LEVEL true (new 0) (cfg_DebugLevel c) |>
    <| cfg_DebugFlags := choose fields VNVME_CONFIG_FIELD_DEBUG_FLAGS true (new 4) (cfg_DebugFlags c) |>
    <| cfg_HeartbeatTimeout100ns := choose fields VNVME_CONFIG_FIELD_HEARTBEAT
         (bool_decide (VNVME_MIN_HEARTBEAT_MS <= new 8 <= VNVME_MAX_HEARTBEAT_MS)) (new 8 * 10000) (cfg_HeartbeatTimeout100ns c) |>
    <| cfg_DoorbellPollIntervalUs := choose fields VNVME_CONFIG_FIELD_POLL_INTERVAL
         (bool_decide (VNVME_MIN_POLL_INTERVAL_US <= new 560 <= VNVME_MAX_POLL_INTERVAL_US)) (new 560) (cfg_DoorbellPollIntervalUs c) |>
    <| cfg_BatchSize := choose fields VNVME_CONFIG_FIELD_BATCH_SIZE
         (bool_decide (VNVME_MIN_BATCH_SIZE <= new 564 <= VNVME_MAX_BATCH_SIZE)) (new 564) (cfg_BatchSize c) |>.

Lemma changed_config_none new c : changed_config 0 new c = c.
Proof. by destruct c. Qed.

Lemma config_ext (c c' : VNVME_CONFIG) :
  cfg_DebugLevel c' = cfg_DebugLevel c -> cfg_DebugFlags c' = cfg_DebugFlags c -> cfg_HeartbeatTimeout100ns c' = cfg_HeartbeatTimeout100ns c ->
  cfg_DoorbellPollIntervalUs c' = cfg_DoorbellPollIntervalUs c -> cfg_BatchSize c' = cfg_BatchSize c ->
  (cfg_StorageType c', cfg_StoragePath c', cfg_StorageSizeGB c') = (cfg_StorageType c, cfg_StoragePath c, cfg_StorageSizeGB c) ->
  (cfg_MaxIOQueues c', cfg_AdminQueueDepth c', cfg_IOQueueDepth c') = (cfg_MaxIOQueues c, cfg_AdminQueueDepth c, cfg_IOQueueDepth c) ->
  (cfg_AllowUserModeAccess c', cfg_RequireAdminPrivilege c') = (cfg_AllowUserModeAccess c, cfg_RequireAdminPrivilege c) -> c' = c.
Proof. destruct c, c'; cbn. by intros -> -> -> -> -> [= -> -> ->] [= -> -> ->] [= -> ->]. Qed.

Lemma updated_config rq s : let old := bs_cfg (ct_bus s) in
  (VnvmeConfigUpdate (Some (requested_config rq s old)) old).2 = changed_config (arg rq s 0 4) (fun off => arg rq s (8 + off) 4) old.
Proof.
  intros old. destruct (VnvmeConfigUpdate_spec (requested_config rq s old) old) as (E1 & E2 & E3 & E4 & E5 & E6 & E7 & E8).
  apply config_ext; [by rewrite E1|by rewrite E2|rewrite E3|rewrite E4|rewrite E5|exact E6|exact E7|exact E8].
  all: unfold requested_config, changed_config; unset; cbn [cfg_HeartbeatTimeout100ns cfg_DoorbellPollIntervalUs cfg_BatchSize].
  - apply choose_range. unfold VNVME_MIN_HEARTBEAT_MS, VNVME_MAX_HEARTBEAT_MS. lia.
  - by apply choose_range.
  - by apply choose_range.
Qed.

Lemma VnvmeHandleSetConfig_full rq s :
  sizeof_VNVME_SET_CONFIG_INPUT <= rq_InputBufferLength rq -> NT_SUCCESS (rq_InputStatus rq) = true ->
  let denied := negb (Z.land (arg rq s 0 4) (Z.lxor VNVME_CONFIG_FIELD_ALL_DYNAMIC 0xFFFFFFFF) =? 0) in
  VnvmeHandleSetConfig rq s = Ok ((if denied then STATUS_ACCESS_DENIED else STATUS_SUCCESS, 0),
    if denied then s else set_cfg (changed_config (arg rq s 0 4) (fun off => arg rq s (8 + off) 4) (bs_cfg (ct_bus s))) s).
Proof.
  intros Hlen Hst denied. destruct (Z.land _ _ =? 0) eqn:E; cbn [negb] in denied; unfold denied.
  - apply Z.eqb_eq in E. rewrite (VnvmeHandleSetConfig_run rq s Hlen Hst E). by rewrite updated_config.
  - unfold VnvmeHandleSetConfig, check_input, retrieve_input. sizes. rewrite (proj2 (Z.ltb_ge _ _)), Hst by lia. cbn [negb].
    unfold input, mbind, M_bind. cbn [get]. rewrite in_block_true by lia. cbn [mret M_ret].
    change (load_le (ct_mem s) (rq_Input rq + 0) 4) with (arg rq s 0 4). by rewrite E.
Qed.

(** C35: what SET_CONFIG sets, GET_CONFIG reports.  Both requests come with
    buffers of the size of their structure.  A SET_CONFIG whose mask names a field
    fixed at start-up is refused with STATUS_ACCESS_DENIED and changes nothing at
    all.  Any other succeeds, and changes the configuration and nothing else: of
    the five fields that may change, each that the mask names is set, the debug
    level and flags to any value and the heartbeat timeout, the poll interval and
    the batch size when the value is in range (a value out of range is dropped in
    silence); every other field of the configuration, the access rights included,
    keeps its value.  A GET_CONFIG that follows reports exactly the five fields so
    set and changes nothing of the driver. *)
Theorem VnvmeHandleSetConfig_get (rq rq' : WDFREQUEST) (s : CtrlState) :
  let mask := arg rq s 0 4 in
  let new off := arg rq s (8 + off) 4 in
  let old := bs_cfg (ct_bus s) in
  let denied := negb (Z.land mask (Z.lxor VNVME_CONFIG_FIELD_ALL_DYNAMIC 0xFFFFFFFF) =? 0) in
  let s1 := if denied then s else set_cfg (changed_config mask new old) s in
  sizeof_VNVME_SET_CONFIG_INPUT <= rq_InputBufferLength rq -> NT_SUCCESS (rq_InputStatus rq) = true ->
  sizeof_VNVME_GET_CONFIG_OUTPUT <= rq_OutputBufferLength rq' -> NT_SUCCESS (rq_OutputStatus rq') = true ->
  VnvmeHandleSetConfig rq s = Ok ((if denied then STATUS_ACCESS_DENIED else STATUS_SUCCESS, 0), s1) /\
  exists s2,
    VnvmeHandleGetConfig rq' s1 = Ok ((STATUS_SUCCESS, sizeof_VNVME_GET_CONFIG_OUTPUT), s2) /\ ct_bus s2 = ct_bus s1 /\
    let fields := granted_fields mask in
    let out off := load_le (ct_mem s2) (rq_Output rq' + off) 4 in
    out 0 = choose fields VNVME_CONFIG_FIELD_DEBUG_LEVEL true (new 0) (u32 (cfg_DebugLevel old)) /\
    out 4 = choose fields VNVME_CONFIG_FIELD_DEBUG_FLAGS true (new 4) (u32 (cfg_DebugFlags old)) /\
    out 8 = choose fields VNVME_CONFIG_FIELD_HEARTBEAT (bool_decide (VNVME_MIN_HEARTBEAT_MS <= new 8 <= VNVME_MAX_HEARTBEAT_MS)) (new 8)
              (u32 (Z.quot (cfg_HeartbeatTimeout100ns old) 10000)) /\
    out 560 = choose fields VNVME_CONFIG_FIELD_POLL_INTERVAL (bool_decide (VNVME_MIN_POLL_INTERVAL_US <= new 560 <= VNVME_MAX_POLL_INTERVAL_US)) (new 560)
              (u32 (cfg_DoorbellPollIntervalUs old)) /\
    out 564 = choose fields VNVME_CONFIG_FIELD_BATCH_SIZE (bool_decide (VNVME_MIN_BATCH_SIZE <= new 564 <= VNVME_MAX_BATCH_SIZE)) (new 564)
              (u32 (cfg_BatchSize old)).
Proof.
  intros mask new old denied s1 H1 H2 H3 H4. split; [exact (VnvmeHandleSetConfig_full rq s H1 H2)|].
  destruct (VnvmeHandleGetConfig_run rq' s1 H3 H4) as (s2 & Hget & Hbus & Ho).
  exists s2. split; [done|]. split; [done|]. cbv zeta.
  assert (bs_cfg (ct_bus s1) = changed_config (granted_fields mask) new old) as Hc.
  { unfold s1, denied, granted_fields. destruct (Z.land _ _ =? 0); cbn [negb]; [done|]. by rewrite changed_config_none. }
  rewrite Hc in Ho. destruct Ho as (-> & -> & -> & -> & ->).
  assert (forall off, u32 (new off) = new off) as Hnew by (intros off; apply u32_small, (load_le_range _ _ 4)).
  unfold changed_config. unset. rewrite !(choose_dist _ _ _ _ _ u32), (choose_dist _ _ _ _ _ (fun z => u32 (Z.quot z 10000))), Z.quot_mul, !Hnew by done.
  done.
Qed.

(** ** Requests that cannot succeed *)

(** With METHOD_BUFFERED, which all the codes use, LIST_NAMESPACES clears its
    output before it reads the controller's id from its input, which is the same
    buffer: it looks for controller 0, which no controller is, and fails. *)
Lemma VnvmeHandleListNamespaces_buffered (rq : WDFREQUEST) (s : CtrlState) :
  buffered rq -> ready rq sizeof_VNVME_LIST_NAMESPACES_INPUT sizeof_VNVME_LIST_NAMESPACES_OUTPUT s ->
  Forall (fun p => pdo_ControllerId p <> 0) (bs_children (ct_bus s)) ->
  exists s', VnvmeHandleListNamespaces rq s = Ok ((STATUS_NOT_FOUND, 0), s') /\ ct_bus s' = ct_bus s.
Proof.
  intros Hb R Hids. pose proof (rd_out _ _ _ _ R) as Hout. pose proof (rd_in _ _ _ R) as Hin. unfold VnvmeHandleListNamespaces.
  rewrite (ready_run _ _ _ _ _ R). sizes. unfold output_zero. rewrite in_block_true by lia. rewrite bind_modify.
  unfold input, mbind, M_bind. cbn [get]. rewrite in_block_true by lia. cbv [mret M_ret].
  match goal with |- context [load_le ?m ?a 4] => assert (load_le m a 4 = 0) as -> end.
  { rewrite Hb. destruct s as [b m]. unset. apply load_fill_le_zero; lia. }
  assert (CtrlDevFindController 0 (ct_bus s) = None) as Hnone.
  { unfold CtrlDevFindController, find_index. by rewrite (proj2 (list_find_None _ _)). }
  destruct s as [b m]. unset. cbn in Hnone. rewrite Hnone. by eexists.
Qed.

(** A service that connects again after a crash is recorded as ready, but the
    commands stay with the kernel: neither the crash nor the mode is reset. *)
Lemma VnvmeHandleUserReady_mode rq s r s' d :
  VnvmeHandleUserReady rq s = Ok (r, s') -> bs_fdo (ct_bus s) = Some d ->
  exists d', bs_fdo (ct_bus s') = Some d' /\ fdo_UserCrashed d' = fdo_UserCrashed d /\ fdo_CommandMode d' = fdo_CommandMode d.
Proof.
  intros H Hd. destruct s as [[fd fb ch h c t k] m]. cbn in Hd. subst fd. revert H.
  unfold VnvmeHandleUserReady, with_fdo, check_input, retrieve_input, input. rewrite bind_get. cbn [ct_bus bs_fdo].
  destruct (_ <? _); [intros [= <- <-]; by exists d|]. destruct (NT_SUCCESS _); cbn [negb]; [|intros [= <- <-]; by exists d].
  unfold mbind, M_bind. cbn [get]. destruct (in_block _ _ _); cbn; [|done].
  destruct (negb _); [intros [= <- <-]; by exists d|]. destruct (in_block _ _ _); cbn; [|done]. intros [= <- <-]. by eexists.
Qed.

(** The event of a ready service is signalled: D0Exit does not wait for it. *)
Lemma VnvmeHandleUserReady_event rq s r s' :
  VnvmeHandleUserReady rq s = Ok (r, s') ->
  (forall d, bs_fdo (ct_bus s) = Some d -> fdo_UserReady d = true -> fb_UserReadyEvent (bs_bus (ct_bus s)) = true) ->
  (forall d, bs_fdo (ct_bus s') = Some d -> fdo_UserReady d = true -> fb_UserReadyEvent (bs_bus (ct_bus s')) = true).
Proof.
  intros H Hs. destruct s as [[fd fb ch h c t k] m]. revert H.
  unfold VnvmeHandleUserReady, with_fdo, check_input, retrieve_input, input. rewrite bind_get. cbn [ct_bus bs_fdo].
  destruct fd as [d|]; [|by intros [= <- <-]].
  destruct (_ <? _); [by intros [= <- <-]|]. destruct (NT_SUCCESS _); cbn [negb]; [|by intros [= <- <-]].
  unfold mbind, M_bind. cbn [get]. destruct (in_block _ _ _); cbn; [|done].
  destruct (negb _); [by intros [= <- <-]|]. destruct (in_block _ _ _); cbn; [|done]. by intros [= <- <-].
Qed.

Lemma VnvmeEvtDeviceD0Exit_no_wait b st limit b' :
  (forall d, bs_fdo b = Some d -> fdo_UserReady d = true -> fb_UserReadyEvent (bs_bus b) = true) ->
  VnvmeEvtDeviceD0Exit b = Ok ((st, limit), b') -> limit = None.
Proof.
  set (obs := fun b => (option_map fdo_UserReady (bs_fdo b), fb_UserReadyEvent (bs_bus b))). intros Hev H. unfold VnvmeEvtDeviceD0Exit in H.
  apply bind_inv in H as ([] & b1 & H1 & H). assert (obs b1 = obs b) as E1 by (injection H1 as <-; by destruct b as [? [] ? ? ? ? ?]).
  apply bind_inv in H as ([] & b2 & H2 & H). assert (obs b2 = obs b) as E2 by (rewrite <- E1; injection H2 as <-; by destruct b1 as [? [] ? ? ? ? ?]).
  apply bind_inv in H as ([] & b3 & H3 & H).
  assert (obs b3 = obs b) as E3 by (rewrite <- E2; injection H3 as <-; by destruct b2 as [[d|] ? ? ? ? ? ?]).
  rewrite bind_get in H. unfold obs in E3. injection E3 as Ed Ee. rewrite Ee in H.
  destruct (bs_fdo b3) as [d3|]; [|by injection H]. injection H as _ <- _. destruct (bs_fdo b) as [d|]; [|done]. injection Ed as Ed.
  rewrite Ed. destruct (fdo_UserReady d) eqn:Hu; [|done]. by rewrite (Hev d eq_refl Hu).
Qed.
End CtrlRequests.

(** ** Witnesses *)

#[local] Existing Instances TestKernel TestFramework.

(** A caller sets the batch size to 64 and asks for a poll interval of 20000, which is too long. *)
Definition config_request : WDFREQUEST := mkRequest 584 584 0x1000 0x1000 STATUS_SUCCESS STATUS_SUCCESS.
Definition config_ctrl : CtrlState :=
  mkCtrl committed_bus (store_all [(0x1000, 4%nat, 0x18); (0x1238, 4%nat, 20000); (0x123C, 4%nat, 64)] mem_zero).

Lemma config_args : arg config_request config_ctrl 0 4 = 0x18 /\ arg config_request config_ctrl 568 4 = 20000 /\ arg config_request config_ctrl 572 4 = 64.
Proof. by vm_compute. Qed.

Lemma VnvmeHandleSetConfig_get_witness :
  exists s1 s2, VnvmeHandleSetConfig config_request config_ctrl = Ok ((STATUS_SUCCESS, 0), s1) /\
    VnvmeHandleGetConfig config_request s1 = Ok ((STATUS_SUCCESS, 584), s2) /\
    load_le (ct_mem s2) (0x1000 + 560) 4 = 100 /\ load_le (ct_mem s2) (0x1000 + 564) 4 = 64.
Proof.
  destruct config_args as (E1 & E2 & E3).
  destruct (VnvmeHandleSetConfig_get config_request config_request config_ctrl) as (H1 & s2 & H2 & _ & _ & _ & _ & H4 & H5);
    [done|done|done|done|].
  cbv zeta in H1, H2, H4, H5. rewrite E1 in H1, H2, H4, H5. cbn [Z.add Pos.add] in H4, H5.
  eexists _, s2. split; [exact H1|]. split; [exact H2|].
  change (8 + 560) with 568 in H4. change (8 + 564) with 572 in H5. rewrite E2 in H4. rewrite E3 in H5. split; [exact H4|exact H5].
Defined.

(** The request names controller 1, which exists. *)
Definition list_request : WDFREQUEST := mkRequest 400 400 0x100 0x100 STATUS_SUCCESS STATUS_SUCCESS.

