(* ===== verification/IoSafe.v ===== *)
(** Every I/O command comes back: no field of a command that respects the
    limits of [io_sound] takes the driver outside of an array, a buffer or a
    ring, whatever the kernel answers to its requests for memory, and the
    controller keeps the invariant that the control requests keep too
    ([child_inv] of CtrlSafe).

    [keeps J P m] is the triple used for that: [m] runs from every state of the
    invariant in which [J] holds, ends in a state of the invariant with the
    geometry of the namespaces unchanged, and its result satisfies [P]. *)
From S2P Require Import Prelude NvmeSpec Kernel Config Storage State Shm Prp Queue IoCmd Bus CtrlDev CtrlSafe.
Open Scope Z_scope.
Open Scope c_scope.

Section IoSafe.
Context {W : WinKernel} {L : FileLaws W}.

(** ** The invariant and the steps *)

Definition same_storage (d d' : option VNVME_STORAGE_CONTEXT) : Prop :=
  match d, d' with
  | None, None => True
  | Some d, Some d' => (sc_ok d -> sc_ok d') /\ sc_TotalBytes d' = sc_TotalBytes d
  | _, _ => False
  end.

(** The geometry of a namespace is the same. *)
Record same_ns (ns ns' : VNVME_NAMESPACE) : Prop := {
  sn_active : ns_Active ns' = ns_Active ns;
  sn_id : ns_NsId ns' = ns_NsId ns;
  sn_size : ns_BlockSize ns' = ns_BlockSize ns;
  sn_blocks : ns_TotalBlocks ns' = ns_TotalBlocks ns;
  sn_storage : same_storage (ns_Storage ns) (ns_Storage ns')
}.

#[export] Instance same_storage_PreOrder : PreOrder same_storage.
Proof.
  split; [intros [d|]; by cbn|]. intros [d1|] [d2|] [d3|]; cbn; try done. intros [H1 E1] [H2 E2]. split; [auto|congruence].
Qed.

#[export] Instance same_ns_PreOrder : PreOrder same_ns.
Proof. split; [by split|]. intros ? ? ? [? ? ? ? ?] [? ? ? ? ?]. split; first [congruence | by etrans]. Qed.

Lemma ns_inv_same i ns ns' : same_ns ns ns' -> ns_inv i ns -> ns_inv i ns'.
Proof.
  unfold ns_inv. intros [-> -> E1 E2 Hs]. destruct (ns_Active ns).
  - intros [Hid (d & Hd & Hok & Hns)]. split; [done|]. rewrite Hd in Hs. destruct (ns_Storage ns') as [d'|] eqn:Hd'; [|done].
    destruct Hs as [Hs Et]. exists d'. split; [done|]. split; [auto|]. unfold ns_ok in *. by rewrite E1, E2, Et.
  - intros Hd. rewrite Hd in Hs. by destruct (ns_Storage ns').
Qed.

Lemma same_ns_active l l' : Forall2 same_ns l l' ->
  length (filter (fun ns => ns_Active ns = true) l') = length (filter (fun ns => ns_Active ns = true) l).
Proof.
  induction 1 as [|ns ns' l l' Hns _ IH]; [done|]. rewrite !filter_cons, (sn_active _ _ Hns). by case_decide; cbn; rewrite IH.
Qed.

(** What the invariant sees of a controller besides its namespaces. *)
Definition rest (p : VNVME_PDO_CONTEXT) :=
  (pdo_AdminCq p, pdo_IoCq p, pdo_IoSq p, pdo_AerCids p, pdo_IoQueueCount p, pdo_NamespaceCount p).

Lemma child_inv_step p p' :
  length (pdo_IoCq p') = length (pdo_IoCq p) -> length (pdo_IoSq p') = length (pdo_IoSq p) -> pdo_AerCids p' = pdo_AerCids p ->
  pdo_IoQueueCount p' = pdo_IoQueueCount p -> pdo_NamespaceCount p' = pdo_NamespaceCount p ->
  Forall2 same_ns (pdo_Namespaces p) (pdo_Namespaces p') -> child_inv p -> child_inv p'.
Proof.
  intros E1 E2 E3 E4 E5 Hns [(Hs1 & Hs2 & Hs3 & Hs4) Hq Hc Hi]. split.
  - unfold pdo_shape. rewrite E1, E2, E3, <- (Forall2_length _ _ _ Hns). done.
  - by rewrite E4.
  - rewrite E5, Hc. unfold active_namespaces. by rewrite (same_ns_active _ _ Hns).
  - intros i ns' Hi'. destruct (Forall2_lookup_r _ _ _ _ _ Hns Hi') as (ns & Hn & Hsame). eapply ns_inv_same; [done|]. by apply Hi.
Qed.

(** The state in which queue [Q] is served. *)
Record io_inv (Q : Z) (s : KState) : Prop := {
  ii_queue : 0 <= Q;
  ii_post : post_ok Q s;
  ii_child : child_inv (ks_pdo s)
}.

(** The slots of the two rings of queue [Q] do not overlap. *)
Definition rings_apart (Q : Z) (m : SharedMemory) : Prop :=
  forall d e, sq_desc m Q = Some d -> cq_desc m Q = Some e ->
  forall i j, 0 <= i < qd_Capacity d -> 0 <= j < qd_Capacity e ->
    qd_Offset d + i * 64 + 64 <= qd_Offset e + j * 16 \/ qd_Offset e + j * 16 + 16 <= qd_Offset d + i * 64.

(** Queue [Q] is in use, and holds the commands [l]. *)
Record sq_holds (Q : Z) (s : KState) (l : list NVME_COMMAND) : Prop := {
  sh_ready : sq_ready Q s;
  sh_contents : sq_contents Q s = Some l;
  sh_apart m : VnvmeShmGetControlBlock s = Some m -> rings_apart Q m
}.

Record io_step (Q : Z) (s s' : KState) : Prop := {
  st_inv : io_inv Q s';
  st_ns : Forall2 same_ns (pdo_Namespaces (ks_pdo s)) (pdo_Namespaces (ks_pdo s'));
  st_sq l : sq_holds Q s l -> sq_holds Q s' l
}.

Lemma io_step_refl Q s : io_inv Q s -> io_step Q s s.
Proof. intros H. by split. Qed.

Lemma io_step_trans Q s1 s2 s3 : io_step Q s1 s2 -> io_step Q s2 s3 -> io_step Q s1 s3.
Proof. intros [_ H1 H2] [? H3 H4]. split; [done|by etrans|auto]. Qed.

Lemma post_ok_frame Q s s' :
  ks_fdo s' = ks_fdo s -> ks_cfg s' = ks_cfg s -> pdo_AdminCq (ks_pdo s') = pdo_AdminCq (ks_pdo s) ->
  pdo_IoCq (ks_pdo s') = pdo_IoCq (ks_pdo s) -> post_ok Q s -> post_ok Q s'.
Proof.
  intros Hf Hc E1 E2 [Ha Hd Hw]. unfold cq_view, VnvmeShmGetControlBlock, CONFIG_MAX_IO_QUEUES in *.
  split; unfold cq_view, VnvmeShmGetControlBlock, CONFIG_MAX_IO_QUEUES; rewrite ?Hf, ?Hc, ?E1, ?E2; done.
Qed.

Lemma sq_holds_frame Q s s' l :
  ks_fdo s' = ks_fdo s -> ks_cfg s' = ks_cfg s -> pdo_IoSq (ks_pdo s') = pdo_IoSq (ks_pdo s) -> sq_holds Q s l -> sq_holds Q s' l.
Proof.
  intros Hf Hc E [H1 H2 H3].
  unfold sq_ready, queue_open, sq_contents, VnvmeShmGetIoQueueDescriptors, VnvmeShmGetControlBlock, CONFIG_MAX_IO_QUEUES in *.
  split; unfold sq_ready, queue_open, sq_contents, VnvmeShmGetIoQueueDescriptors, VnvmeShmGetControlBlock, CONFIG_MAX_IO_QUEUES; by rewrite Hf, ?Hc, ?E.
Qed.

(** A change of the namespaces, of the statistics, of host memory or of the clock. *)
Lemma io_step_intro Q s s' :
  ks_fdo s' = ks_fdo s -> ks_cfg s' = ks_cfg s -> rest (ks_pdo s') = rest (ks_pdo s) ->
  Forall2 same_ns (pdo_Namespaces (ks_pdo s)) (pdo_Namespaces (ks_pdo s')) -> io_inv Q s -> io_step Q s s'.
Proof.
  unfold rest. intros Hf Hc Hr Hns [HQ Hp Hi]. injection Hr as E1 E2 E3 E4 E5 E6.
  split; [split; [done|by apply (post_ok_frame Q s)|] | done | intros l; by apply sq_holds_frame].
  by apply (child_inv_step (ks_pdo s)); rewrite ?E2, ?E3.
Qed.

Lemma io_step_pdo Q s f :
  (forall p, rest (f p) = rest p /\ pdo_Namespaces (f p) = pdo_Namespaces p) -> io_inv Q s -> io_step Q s (s <| ks_pdo ::= f |>).
Proof.
  intros Hf Hs. destruct (Hf (ks_pdo s)) as [E1 E2]. apply io_step_intro; destruct s; cbn in *; try done. by rewrite E2.
Qed.

Lemma io_step_tick Q s t : io_inv Q s -> io_step Q s (s <| ks_tick := t |>).
Proof. intros Hs. by apply io_step_intro; destruct s. Qed.

Lemma io_step_host Q s h : io_inv Q s -> io_step Q s (s <| ks_host ::= h |>).
Proof. intros Hs. by apply io_step_intro; destruct s. Qed.

(** ** The namespace of a command *)

(** Namespace [nsid] still has the geometry of [ns]. *)
Definition known (nsid : Z) (ns : VNVME_NAMESPACE) (s : KState) : Prop :=
  exists ns', ns_at s nsid = Some ns' /\ same_ns ns ns'.

Lemma known_step Q nsid ns s s' : known nsid ns s -> io_step Q s s' -> known nsid ns s'.
Proof.
  intros (ns1 & H1 & Hs1) Hstep. unfold known, ns_at, arr_get in *. destruct (_ <? 0); [done|].
  destruct (Forall2_lookup_l _ _ _ _ _ (st_ns _ _ _ Hstep) H1) as (ns2 & H2 & Hs2). exists ns2. split; [done|by etrans].
Qed.

(** The namespace a command works on: it is active, and its disk holds its blocks. *)
Record target (s : KState) (nsid : Z) (ns : VNVME_NAMESPACE) (d : VNVME_STORAGE_CONTEXT) : Prop := {
  tg_nsid : 1 <= nsid <= VNVME_MAX_NAMESPACES;
  tg_at : ns_at s nsid = Some ns;
  tg_active : ns_Active ns = true;
  tg_disk : ns_Storage ns = Some d;
  tg_ok : sc_ok d;
  tg_ns : ns_ok ns d
}.

Lemma ns_at_target Q s nsid ns : io_inv Q s -> 1 <= nsid <= VNVME_MAX_NAMESPACES -> ns_at s nsid = Some ns -> ns_Active ns = true ->
  exists d, target s nsid ns d.
Proof.
  intros Hs Hv Hn Ha. pose proof Hn as Hl. unfold ns_at, arr_get in Hl. destruct (_ <? 0); [done|].
  pose proof (ci_ns _ (ii_child _ _ Hs) _ _ Hl) as Hi. unfold ns_inv in Hi. rewrite Ha in Hi. destruct Hi as [_ (d & ? & ? & ?)].
  by exists d.
Qed.

Lemma known_target s nsid ns d : target s nsid ns d -> known nsid ns s.
Proof. intros H. exists ns. split; [apply H|reflexivity]. Qed.

(** ** Posting *)

Lemma sq_desc_put_cq Q d m : sq_desc (put_cq_desc Q d m) Q = sq_desc m Q.
Proof.
  unfold sq_desc, put_cq_desc. destruct (Z.eqb_spec Q 0); [by destruct m as [[] ? ? ?]|].
  unfold arr_get. destruct (Z.ltb_spec ((Q - 1) * 2) 0); [done|]. destruct m; unset. rewrite list_lookup_insert_ne by lia. done.
Qed.

Lemma ring_index_range cap h t i : 0 < cap -> i ∈ ring_indices h t cap -> 0 <= i < cap.
Proof. intros Hc (x & -> & _)%list_elem_of_fmap. by apply Z.mod_pos_bound. Qed.

(** A post writes into the completion ring alone. *)
Lemma sq_pending_post Q m d v c : rings_apart Q m -> sq_desc m Q = Some d -> cq_desc m Q = Some (cv_desc v) -> cq_wf Q v ->
  sq_desc_wf d -> cv_mem v = shm_mem m -> sq_pending (cv_mem (post_view c v)) d = sq_pending (shm_mem m) d.
Proof.
  intros Ha Hd He (_ & Ht & _) ((_ & Hcap & _) & _) <-. unfold sq_pending. apply list_fmap_ext. intros k i Hi.
  apply list_elem_of_lookup_2, ring_index_range in Hi; [|lia]. apply cmd_load_ext. intros o Ho. apply rd8_cpl_store_out.
  destruct (Ha _ _ Hd He i (qd_Tail (cv_desc v)) Hi Ht); lia.
Qed.

Lemma post_view_ring c v : qd_Offset (cv_desc (post_view c v)) = qd_Offset (cv_desc v) /\ qd_Capacity (cv_desc (post_view c v)) = qd_Capacity (cv_desc v).
Proof. unfold post_view. cbn [cv_desc]. by destruct (_ =? 0), (cv_desc v). Qed.

Lemma sq_holds_post Q c v s l : cq_view Q s = Some v -> cq_wf Q v -> sq_holds Q s l -> sq_holds Q (cq_set Q (post_view c v) s) l.
Proof.
  intros Hv Hcwf [(Ho & (m & d & Hm & Hd & Hwf) & Hq) Hl Ha]. specialize (Ha m Hm).
  rewrite (sq_contents_eq _ _ _ _ Hm Hd) in Hl. injection Hl as <-.
  destruct (cq_view_inv _ _ _ Hv) as (m0 & Hm0 & He & Hmem & _). rewrite Hm in Hm0. injection Hm0 as <-.
  destruct (cq_view_inv _ _ _ (cq_view_set Q v (post_view c v) s Hv)) as (m' & Hm' & He' & Hmem' & _).
  assert (exists m2, VnvmeShmGetControlBlock (cq_set Q (post_view c v) s) = Some m2 /\ sq_desc m2 Q = Some d) as (m2 & Hm2 & Hd').
  { destruct (shm_state_inv _ _ Hm) as (fd & Hfd & Hs). unfold cq_set, VnvmeShmGetControlBlock.
    destruct s as [f ? ? ? ? ?]; cbn in *. rewrite Hfd. unset. rewrite Hs. cbn. eexists. split; [done|].
    rewrite sq_desc_put_cq, <- Hd. unfold sq_desc. by destruct m as [[] ? ? ?]. }
  rewrite Hm' in Hm2. injection Hm2 as <-.
  destruct (post_view_ring c v) as [E1 E2]. split; [split; [by apply queue_open_set|split; [by exists m', d|]]| |].
  - destruct Hq as [->|(q & Hq & Hc)]; [by left|right]. exists q. split; [|done]. rewrite <- Hq.
    unfold cq_set, put_cq_state. by destruct s as [? [] ? ? ? ?], (Q =? 0).
  - rewrite (sq_contents_eq _ _ _ _ Hm' Hd'), Hmem'. f_equal. by apply (sq_pending_post Q).
  - rewrite Hm'. intros ? [= <-] d1 e1 H1 H2. rewrite Hd' in H1. rewrite He' in H2. apply (inj Some) in H1 as <-, H2 as <-. rewrite E1, E2. by apply Ha.
Qed.

Lemma cq_set_pdo Q v s : let p := ks_pdo s in let p' := ks_pdo (cq_set Q v s) in
  length (pdo_IoCq p') = length (pdo_IoCq p) /\ pdo_IoSq p' = pdo_IoSq p /\ pdo_AerCids p' = pdo_AerCids p /\
  pdo_IoQueueCount p' = pdo_IoQueueCount p /\ pdo_NamespaceCount p' = pdo_NamespaceCount p /\ pdo_Namespaces p' = pdo_Namespaces p.
Proof.
  unfold cq_set, put_cq_state. destruct s as [? [] ? ? ? ?], (Q =? 0); unset; cbn; rewrite ?length_insert; done.
Qed.

Lemma io_step_posted Q c s s' : io_inv Q s -> posted Q c s s' -> post_ok Q s' -> io_step Q s s'.
Proof.
  intros Hs [->|(v & Hv & Hwf & ->)] Hp; [by apply io_step_refl|]. pose proof Hs as [HQ _ Hi].
  destruct (cq_set_pdo Q (post_view c v) s) as (E1 & E2 & E3 & E4 & E5 & E6).
  split; [split; [done|done|] | by rewrite E6 | intros l; by apply sq_holds_post].
  apply (child_inv_step (ks_pdo s)); try done; [by rewrite E2|by rewrite E6].
Qed.

(** ** The triple *)

Context (Q : Z).

Definition keeps {A} (J : KState -> Prop) (P : A -> Prop) (m : M KState A) : Prop :=
  forall s, io_inv Q s -> J s -> wp m s (fun a s' => P a /\ io_step Q s s').

Definition stable (J : KState -> Prop) : Prop := forall s s', J s -> io_step Q s s' -> J s'.

Lemma known_stable nsid ns : stable (known nsid ns).
Proof. intros s s'. apply known_step. Qed.

Lemma keeps_weaken {A} (J : KState -> Prop) (P : A -> Prop) m : keeps (fun _ => True) P m -> keeps J P m.
Proof. intros H s Hs _. by apply H. Qed.

Lemma keeps_post {A} J (P P' : A -> Prop) m : keeps J P m -> (forall a, P a -> P' a) -> keeps J P' m.
Proof. intros H HP s Hs HJ. eapply wp_mono; [by apply H|]. intros a s' [? ?]. auto. Qed.

Lemma keeps_ret {A} J (P : A -> Prop) a : P a -> keeps J P (mret a).
Proof. intros H s Hs _. apply wp_ret. split; [done|by apply io_step_refl]. Qed.

Lemma keeps_bind {A B} J (P : A -> Prop) (R : B -> Prop) (m : M KState A) f :
  stable J -> keeps J P m -> (forall a, P a -> keeps J R (f a)) -> keeps J R (m ≫= f).
Proof.
  intros HJ Hm Hf s Hs Hj. apply wp_bind. eapply wp_mono; [by apply Hm|]. intros a s1 [Ha H1]. cbn.
  eapply wp_mono; [apply Hf; [done|apply H1|by eapply HJ]|]. intros b s2 [Hb H2]. split; [done|by eapply io_step_trans].
Qed.

Lemma keeps_seq {A B} J (R : B -> Prop) (m : M KState A) k :
  stable J -> keeps J (fun _ => True) m -> keeps J R k -> keeps J R (m ≫= fun _ => k).
Proof. intros HJ Hm Hk. eapply keeps_bind; [done..|]. by intros. Qed.

Lemma keeps_get {B} J (R : B -> Prop) f : (forall s, io_inv Q s -> J s -> wp (f s) s (fun b s' => R b /\ io_step Q s s')) -> keeps J R (get ≫= f).
Proof. intros H s Hs HJ. apply wp_bind, wp_get. by apply H. Qed.

Lemma keeps_if {A} J (P : A -> Prop) (b : bool) m1 m2 : keeps J P m1 -> keeps J P m2 -> keeps J P (if b then m1 else m2).
Proof. by destruct b. Qed.

(** A result that is known, of a computation outside of the monad. *)
Lemma keeps_res {A} J (P : A -> Prop) (r : res A) a : r = Ok a -> P a -> keeps J P (of_res r).
Proof. intros -> H s Hs _. by apply (keeps_ret (fun _ => True)). Qed.

Lemma keeps_alloc J n : keeps J (fun _ => True) (alloc n).
Proof. intros s Hs _. split; [done|]. change (s <| ks_tick ::= S |>) with (s <| ks_tick := S (ks_tick s) |>). by apply io_step_tick. Qed.

Lemma keeps_map_io J pa n : keeps J (fun _ => True) (map_io pa n).
Proof. intros s Hs _. split; [done|]. change (s <| ks_tick ::= S |>) with (s <| ks_tick := S (ks_tick s) |>). by apply io_step_tick. Qed.

Lemma keeps_pdo J f : (forall p, rest (f p) = rest p /\ pdo_Namespaces (f p) = pdo_Namespaces p) -> keeps J (fun _ => True) (pdo_update f).
Proof. intros Hf s Hs _. apply wp_modify. split; [done|by apply io_step_pdo]. Qed.

Lemma keeps_count_io J : keeps J (fun _ => True) count_io.
Proof. apply keeps_pdo. by intros []. Qed.

Lemma keeps_PostIoCompletion J Cid Sct Sc : keeps J (fun _ => True) (PostIoCompletion Q Cid Sct Sc).
Proof.
  assert (forall c s, io_inv Q s -> wp (VnvmePostCompletion Q c) s (fun _ s' => True /\ io_step Q s s')) as Hpost.
  { intros c s Hs. destruct (VnvmePostCompletion_total Q c s (ii_post _ _ Hs)) as (st & s' & Hr & Hp & Hok).
    apply (wp_intro _ _ _ _ _ Hr). split; [done|by eapply io_step_posted]. }
  apply keeps_get. intros s Hs _. cbv zeta. destruct (Z.eqb_spec Q 0); [by apply Hpost|].
  pose proof (ii_queue _ _ Hs). destruct (ci_shape _ (ii_child _ _ Hs)) as (Hl1 & Hl2 & _).
  unfold VNVME_MAX_IO_QUEUES. destruct (Z.ltb_spec 16 Q); [apply wp_ret; split; [done|by apply io_step_refl]|].
  destruct (proj2 (arr_get_Some_iff (pdo_IoCq (ks_pdo s)) (Q - 1)) ltac:(lia)) as [cq Hcq].
  destruct (proj2 (arr_get_Some_iff (pdo_IoSq (ks_pdo s)) (Q - 1)) ltac:(lia)) as [sq Hsq].
  apply wp_bind, (wp_of_opt _ cq); [done|]. destruct (negb _); [apply wp_ret; split; [done|by apply io_step_refl]|].
  apply wp_bind, (wp_of_opt _ sq); [done|]. by apply Hpost.
Qed.

(** ** Namespaces *)

Lemma keeps_ns_update nsid ns g :
  (forall n, same_ns ns n -> same_ns n (g n)) -> keeps (known nsid ns) (fun _ => True) (ns_update nsid g).
Proof.
  intros Hg s Hs (ns0 & Hn & Hsame). unfold ns_update. apply wp_bind, wp_get, wp_bind.
  eapply wp_of_opt; [by apply upd_nth_insert|]. apply wp_modify. split; [done|].
  apply io_step_intro; [by destruct s as [? [] ? ? ? ?]..| |done].
  assert (pdo_Namespaces (ks_pdo s) !! Z.to_nat (VNVME_NSID_TO_INDEX nsid) = Some ns0) as Hl
    by (unfold ns_at, arr_get in Hn; by destruct (_ <? 0)).
  set (l := <[_ := _]> _). assert (Forall2 same_ns (pdo_Namespaces (ks_pdo s)) l) as H; [|by destruct s as [? [] ? ? ? ?]].
  unfold l. rewrite <- (list_insert_id (pdo_Namespaces (ks_pdo s)) _ ns0 Hl) at 1. apply Forall2_insert; [done|by apply Hg].
Qed.

Lemma keeps_set_storage nsid ns d d' :
  ns_Storage ns = Some d -> sc_ok d' -> sc_TotalBytes d' = sc_TotalBytes d ->
  keeps (known nsid ns) (fun _ => True) (set_storage nsid (Some d')).
Proof.
  intros Hd Hok Ht. apply keeps_ns_update. intros n [_ _ _ _ Hs]. rewrite Hd in Hs.
  destruct n as [? ? ? ? ? ? ? ? ? [d0|] ? ? ? ? ? ? ? ?]; [|done]. cbn in Hs. destruct Hs as [_ Hs].
  split; try done. cbn. split; [done|congruence].
Qed.

(** The namespace of a command: none, or one that is active and so has a disk. *)
Lemma wp_namespace nsid {A} (k : option VNVME_NAMESPACE -> M KState A) s (R : A -> KState -> Prop) :
  io_inv Q s -> wp (k None) s R -> (forall ns d, target s nsid ns d -> wp (k (Some ns)) s R) ->
  wp (io_namespace nsid ≫= k) s R.
Proof.
  intros Hs Hnone Hsome. apply wp_bind. unfold io_namespace. destruct (VNVME_NSID_VALID nsid) eqn:Hv; cbn [negb]; [|by apply wp_ret].
  unfold VNVME_NSID_VALID in Hv. apply andb_prop in Hv as [H1%Z.ltb_lt H2%Z.leb_le].
  destruct (ci_shape _ (ii_child _ _ Hs)) as (_ & _ & _ & Hl). unfold VNVME_MAX_NAMESPACES in *.
  destruct (proj2 (arr_get_Some_iff (pdo_Namespaces (ks_pdo s)) (VNVME_NSID_TO_INDEX nsid)) ltac:(unfold VNVME_NSID_TO_INDEX; lia)) as [ns Hns].
  apply wp_bind, wp_get, wp_bind, (wp_of_opt _ ns); [done|]. apply wp_ret. destruct (ns_Active ns) eqn:Ha; [|done].
  destruct (ns_at_target Q s nsid ns Hs ltac:(unfold VNVME_MAX_NAMESPACES; lia) Hns Ha) as [d Hd]. by apply (Hsome ns d).
Qed.

(** ** Transfers *)

Lemma prp_span total off len : 0 <= off < total -> 0 <= len ->
  let n := if total - off <? len then total - off else len in 0 <= n /\ off + n <= total.
Proof. intros ? ?. cbv zeta. destruct (Z.ltb_spec (total - off) len); lia. Qed.

Lemma keeps_prp_from_host J base total entries : stable J -> 0 <= base -> forall dst off,
  Forall prp_ok entries -> 0 <= off -> base + total <= blk_size dst ->
  keeps J (fun dst' => blk_size dst' = blk_size dst) (prp_from_host entries dst base total off).
Proof.
  intros HJ Hb. induction entries as [|e entries IH]; intros dst off Hf Ho Hsz; cbn [prp_from_host]; [by apply keeps_ret|].
  inversion Hf as [|? ? He Hf']; subst. destruct (Z.ltb_spec off total); cbn [negb]; [|by apply keeps_ret]. cbv zeta.
  assert (0 <= prp_Length e) as Hlen by (destruct He as (_ & _ & _ & ? & _); lia).
  destruct (prp_span total off (prp_Length e) ltac:(lia) Hlen) as [H1 H2]. set (n := if _ <? prp_Length e then _ else _) in *.
  eapply keeps_bind; [done|apply keeps_map_io|]. intros ok _. destruct ok; cbn [negb]; [|by apply IH].
  apply keeps_get. intros s Hs Hj. unfold blk_write. rewrite in_block_true by lia.
  apply wp_bind. eapply wp_of_opt; [done|]. apply (IH (Block _ _)); try done; lia.
Qed.

Lemma keeps_prp_to_host J src base total entries : stable J -> 0 <= base -> base + total <= blk_size src -> forall off,
  Forall prp_ok entries -> 0 <= off -> keeps J (fun _ => True) (prp_to_host entries src base total off).
Proof.
  intros HJ Hb Hsz. induction entries as [|e entries IH]; intros off Hf Ho; cbn [prp_to_host]; [by apply keeps_ret|].
  inversion Hf as [|? ? He Hf']; subst. destruct (Z.ltb_spec off total); cbn [negb]; [|by apply keeps_ret]. cbv zeta.
  assert (0 <= prp_Length e) as Hlen by (destruct He as (_ & _ & _ & ? & _); lia).
  destruct (prp_span total off (prp_Length e) ltac:(lia) Hlen) as [H1 H2]. set (n := if _ <? prp_Length e then _ else _) in *.
  eapply keeps_bind; [done|apply keeps_map_io|]. intros ok _. destruct ok; cbn [negb]; [|by apply IH].
  rewrite in_block_true by lia. cbn [negb]. apply keeps_seq; [done| |apply IH; [done|lia]].
  intros s Hs _. apply wp_modify. split; [done|by apply io_step_host].
Qed.

Lemma keeps_prp_list J Prp1 Prp2 n : 0 <= n <= MAX_TRANSFER ->
  keeps J (fun r => NT_SUCCESS r.1 = true -> Forall prp_ok r.2) (VnvmeParsePrpList Prp1 Prp2 n).
Proof.
  intros Hn s Hs _. destruct (VnvmeParsePrpList_spec s Prp1 Prp2 n Hn) as (r & t & Hr & Hok). apply (wp_intro _ _ _ _ _ Hr).
  split; [|by apply io_step_tick]. intros Hst. destruct Hok as [Hok _]. by destruct (Hok Hst).
Qed.

(** ** Storage *)

(** The range of a command, when it does not wrap around 2^64 and is accepted. *)
Lemma target_blocks s c ns d : target s (cmd_NSID c) ns d -> 0 <= io_slba c -> io_slba c + io_nlb c < 2 ^ 64 ->
  VNVME_LBA_RANGE_VALID (io_slba c) (io_nlb c) (ns_TotalBlocks ns) = true -> io_blocks s c ns d.
Proof.
  intros [? ? ? ? ? ?] Hl Hw Hv. split; try done. unfold VNVME_LBA_RANGE_VALID in Hv. apply Z.leb_le in Hv.
  pose proof (u16_range (Z.land (cmd_CDW12 c) 0xFFFF + 1)). fold (io_nlb c) in *. rewrite u64_small in Hv by lia. done.
Qed.

(** A direct pointer is inside of the buffer. *)
Lemma direct_fits d off n st p buf : sc_ok d -> 0 <= off -> 0 <= n -> off + n < 2 ^ 64 ->
  VnvmeStorageGetDirect (Some d) off n = (st, Some p) -> sc_MemoryBuffer d = Some buf ->
  sc_Type d = VNVME_STORAGE_TYPE_MEMORY /\ blk_size buf = sc_TotalBytes d /\ 0 <= p /\ p + n <= blk_size buf.
Proof.
  unfold sc_ok, VnvmeStorageGetDirect, StorageMemoryGetDirect. intros Hok Ho Hn Hs Hd Hb. destruct (sc_Type d); try done.
  destruct Hok as (b & Hb' & Hsz). rewrite Hb' in *. injection Hb as <-. rewrite u64_small in Hd by lia.
  destruct (Z.ltb_spec (sc_TotalBytes d) (off + n)); [done|]. injection Hd as <- <-. split; [done|]. split; [done|]. lia.
Qed.

Lemma sc_ok_direct d buf : sc_ok d -> sc_Type d = VNVME_STORAGE_TYPE_MEMORY -> blk_size buf = sc_TotalBytes d ->
  sc_ok (d <| sc_MemoryBuffer := Some buf |>).
Proof. unfold sc_ok. destruct d; unset. intros _ -> ?. eauto. Qed.

Lemma sc_ok_count_read n d : sc_ok d -> sc_ok (count_read n d).
Proof. unfold sc_ok. by destruct d. Qed.

(** A read through the back end, of a buffer of its own. *)
Lemma keeps_storage_read nsid ns d off n {A} (P : A -> Prop) (k : NTSTATUS * block -> M KState A) :
  ns_Storage ns = Some d -> sc_ok d -> 0 <= off -> 0 <= n -> off + n < 2 ^ 64 ->
  (forall st buf, blk_size buf = n -> keeps (known nsid ns) P (k (st, buf))) ->
  keeps (known nsid ns) P (r ← of_res (VnvmeStorageRead (Some d) off (Block n mem_zero) n); set_storage nsid r.2;; k r.1).
Proof.
  intros Hd Hok H1 H2 H3 Hk.
  destruct (VnvmeStorageRead_ok d off (Block n mem_zero) n Hok H1 ltac:(cbn; lia) H3) as (st & buf & d' & Hr & Hsz & Hd' & _).
  eapply keeps_bind; [apply known_stable|by apply (keeps_res _ (eq (st, buf, Some d')) _ _ Hr)|]. intros ? <-. cbn [fst snd].
  apply keeps_seq; [apply known_stable| |by apply Hk].
  eapply keeps_set_storage; [done|destruct Hd' as [->| ->]; [done|by apply sc_ok_count_read]|destruct Hd' as [->| ->]; [done|by destruct d]].
Qed.

(** One call of WriteZeroes on the disk as it is now; host memory stays. *)
Lemma zero_range_step nsid ns d off n s :
  ns_Storage ns = Some d -> sc_ok d -> 0 <= off -> 0 <= n < 2 ^ 32 -> off + n < 2 ^ 64 -> io_inv Q s -> known nsid ns s ->
  wp (zero_storage_range nsid off n) s (fun _ s' => io_step Q s s' /\ ks_host s' = ks_host s).
Proof.
  intros Hd Hok H1 H2 H3 Hs Hk. pose proof Hk as (ns0 & Hn0 & Hsame). pose proof (sn_storage _ _ Hsame) as Hst. rewrite Hd in Hst.
  destruct (ns_Storage ns0) as [d0|] eqn:Hd0; [|done]. destruct Hst as [Hok0 Ht0]. specialize (Hok0 Hok).
  destruct (VnvmeStorageWriteZeroes_ok (ks_tick s) d0 off n Hok0 H1 H2 H3) as (st & d1 & Hz & Hok1 & (_ & Ht1 & _) & _).
  destruct (zero_storage_range_step nsid off n s d0 st d1) as (s1 & Hr & Hds); [unfold disk; by rewrite Hn0|done|].
  apply (wp_intro _ _ _ _ _ Hr). split; [|apply Hds].
  unfold zero_storage_range in Hr. rewrite (bind_Ok _ _ _ _ _ (current_storage_run _ _ _ Hn0)), bind_get, Hd0, (bind_res _ _ _ _ Hz), bind_modify in Hr.
  cbn [fst snd] in Hr. set (s0 := s <| ks_tick ::= S |>) in Hr.
  assert (io_step Q s s0) as Hs0 by (change s0 with (s <| ks_tick := S (ks_tick s) |>); by apply io_step_tick).
  pose proof (keeps_set_storage nsid ns0 d0 d1 Hd0 Hok1 Ht1 s0 (st_inv _ _ _ Hs0)) as Hset. unfold wp in Hset.
  assert (known nsid ns0 s0) as Hk0 by (exists ns0; split; [by destruct s|reflexivity]). specialize (Hset Hk0).
  destruct (set_storage nsid (Some d1) s0) as [[[] s2]| |] eqn:E; [|done..]. rewrite (bind_Ok _ _ _ _ _ E) in Hr.
  injection Hr as <-. eapply io_step_trans; [done|apply Hset].
Qed.

(** ** The handlers *)

Create HintDb io_keeps.
#[local] Hint Resolve known_stable keeps_PostIoCompletion keeps_count_io keeps_alloc keeps_map_io keeps_prp_list : io_keeps.

Lemma keeps_statistics nsid ns f g (post : M KState NTSTATUS) :
  (forall p, rest (f p) = rest p /\ pdo_Namespaces (f p) = pdo_Namespaces p) -> (forall n, same_ns n (g n)) ->
  keeps (known nsid ns) (fun _ => True) post -> keeps (known nsid ns) (fun _ => True) (pdo_update f;; count_io;; ns_update nsid g;; post).
Proof.
  intros Hf Hg Hpost. apply keeps_seq; [auto with io_keeps|by apply keeps_pdo|]. apply keeps_seq; [auto with io_keeps..|].
  apply keeps_seq; [auto with io_keeps| |done]. apply keeps_ns_update. intros n Hn. by etrans.
Qed.

Lemma same_ns_counts f : (forall n, ns_Active (f n) = ns_Active n /\ ns_NsId (f n) = ns_NsId n /\ ns_BlockSize (f n) = ns_BlockSize n /\
    ns_TotalBlocks (f n) = ns_TotalBlocks n /\ ns_Storage (f n) = ns_Storage n) -> forall n, same_ns n (f n).
Proof. intros Hf n. destruct (Hf n) as (? & ? & ? & ? & E). split; [done..|]. rewrite E. reflexivity. Qed.

(** Where the data of a Read comes from: enough bytes for the transfer. *)
Definition source_ok (n : Z) (r : Z * Z + block * Z) : Prop :=
  match r with inl _ => True | inr (src, base) => 0 <= base /\ base + n <= blk_size src end.

Lemma keeps_read_source s nsid ns d off n : target s nsid ns d -> 0 <= off -> 0 <= n <= MAX_TRANSFER -> off + n < 2 ^ 63 ->
  keeps (known nsid ns) (source_ok n) (read_source nsid ns off n).
Proof.
  intros [_ _ _ Hd Hok _] Ho Hn Hb. unfold read_source, MAX_TRANSFER in *. rewrite Hd, !u32_small by lia.
  set (other := if _ <? n then _ else _). assert (keeps (known nsid ns) (source_ok n) other) as Hother.
  { apply keeps_if; [by apply keeps_ret|]. eapply keeps_bind; [auto with io_keeps..|]. intros [] _; cbn [negb]; [|by apply keeps_ret].
    apply (keeps_storage_read nsid ns d off n _ (fun x => mret (if negb (NT_SUCCESS x.1)
      then inl (NVME_SCT_MEDIA_ERROR, NVME_SC_UNRECOVERED_READ_ERROR) else inr (x.2, 0)))); [done..|lia|lia|].
    intros st buf Hsz. apply keeps_ret. cbn [fst snd]. destruct (NT_SUCCESS st); cbn; [lia|done]. }
  destruct (VnvmeStorageGetDirect (Some d) off n) as [st p] eqn:Hdir.
  destruct (NT_SUCCESS st); [|done]. destruct p as [p|]; [|done]. destruct (sc_MemoryBuffer d) as [buf|] eqn:Hbuf; [|done].
  destruct (direct_fits d off n st p buf Hok Ho ltac:(lia) ltac:(lia) Hdir Hbuf) as (_ & _ & H1 & H2). by apply keeps_ret.
Qed.

(** The limits within which a data command stays: the block range does not wrap
    around 2^64, and a transfer has at most 2 MB. *)
Definition range_sound (c : NVME_COMMAND) : Prop := 0 <= io_slba c /\ io_slba c + io_nlb c < 2 ^ 64.
Definition transfer_sound (s : KState) (c : NVME_COMMAND) : Prop :=
  forall ns, ns_at s (cmd_NSID c) = Some ns -> io_bytes c ns <= MAX_TRANSFER.

Definition comes_back {A} (s : KState) (m : M KState A) : Prop := wp m s (fun _ s' => True /\ io_step Q s s').

Lemma comes_back_post s Cid Sct Sc : io_inv Q s -> comes_back s (PostIoCompletion Q Cid Sct Sc).
Proof. intros Hs. by apply (keeps_PostIoCompletion (fun _ => True)). Qed.

Lemma comes_back_keeps {A} J s (m : M KState A) : io_inv Q s -> J s -> keeps J (fun _ => True) m -> comes_back s m.
Proof. intros Hs Hj H. by apply H. Qed.

(** A data command whose range is accepted: where its bytes are. *)
Record accepted (s : KState) (c : NVME_COMMAND) (ns : VNVME_NAMESPACE) (d : VNVME_STORAGE_CONTEXT) : Prop := {
  ac_target : target s (cmd_NSID c) ns d;
  ac_bytes : VNVME_BLOCKS_TO_BYTES (io_nlb c) (ns_BlockSize ns) = io_bytes c ns;
  ac_offset : VNVME_LBA_TO_BYTES (io_slba c) (ns_BlockSize ns) = io_offset c ns;
  ac_pos : 0 <= io_bytes c ns /\ 0 <= io_offset c ns;
  ac_fits : io_offset c ns + io_bytes c ns <= sc_TotalBytes d < 2 ^ 63
}.

Lemma comes_back_range c s (k : VNVME_NAMESPACE -> M KState NTSTATUS) :
  io_inv Q s -> range_sound c -> (forall ns d, accepted s c ns d -> comes_back s (k ns)) ->
  comes_back s (
    ns ← io_namespace (cmd_NSID c);
    match ns with
    | None => PostIoCompletion Q (cmd_CID c) NVME_SCT_GENERIC NVME_SC_INVALID_NAMESPACE
    | Some ns =>
        if negb (VNVME_LBA_RANGE_VALID (io_slba c) (io_nlb c) (ns_TotalBlocks ns))
        then PostIoCompletion Q (cmd_CID c) NVME_SCT_GENERIC NVME_SC_LBA_OUT_OF_RANGE
        else k ns
    end).
Proof.
  intros Hs [H1 H2] Hk. apply wp_namespace; [done|by apply comes_back_post|]. intros ns d Ht.
  destruct (VNVME_LBA_RANGE_VALID _ _ _) eqn:Hv; cbn [negb]; [|by apply comes_back_post].
  destruct (io_blocks_bytes _ _ _ _ (target_blocks _ _ _ _ Ht H1 H2 Hv)) as (E1 & E2 & _ & Hn & Ho & Hb). by apply (Hk ns d).
Qed.

Lemma HandleRead_back c s : io_inv Q s -> range_sound c -> transfer_sound s c -> comes_back s (HandleRead Q c).
Proof.
  intros Hs Hr Ht. apply (comes_back_range c s _ Hs Hr). intros ns d [Htg -> -> [Hn Ho] Hb].
  specialize (Ht ns (tg_at _ _ _ _ Htg)). apply (comes_back_keeps _ _ _ Hs (known_target _ _ _ _ Htg)).
  eapply keeps_bind; [auto with io_keeps|eapply keeps_read_source; [done|done|lia|lia]|].
  intros [[sct sc]|[src base]] Hsrc; [auto with io_keeps|]. destruct Hsrc as [H1 H2].
  rewrite u32_small by (unfold MAX_TRANSFER in *; lia). eapply keeps_bind; [auto with io_keeps..|]. intros [st l] Hl. cbn [fst snd] in *.
  destruct (NT_SUCCESS st); cbn [negb]; [|auto with io_keeps].
  apply keeps_seq; [auto with io_keeps|apply keeps_prp_to_host; auto with io_keeps; lia|].
  apply keeps_statistics; [by intros []|apply same_ns_counts; by intros []|auto with io_keeps].
Qed.

(** Where the data of a Write goes: into the buffer of the memory back end at
    most. *)
Definition target_ok (d : VNVME_STORAGE_CONTEXT) (n : Z) (t : Z * Z + write_target) : Prop :=
  match t with
  | inr (Direct buf off) =>
      sc_Type d = VNVME_STORAGE_TYPE_MEMORY /\ blk_size buf = sc_TotalBytes d /\ 0 <= off /\ off + n <= blk_size buf
  | _ => True
  end.

Lemma keeps_select_target J ns d off n : stable J -> ns_Storage ns = Some d -> sc_ok d -> 0 <= off -> 0 <= n <= MAX_TRANSFER ->
  off + n < 2 ^ 63 -> keeps J (target_ok d n) (select_target ns off n).
Proof.
  intros HJ Hd Hok Ho Hn Hb. unfold select_target. rewrite Hd, u32_small by (unfold MAX_TRANSFER in *; lia). cbv zeta.
  set (other := if _ <? n then _ else _). assert (keeps J (target_ok d n) other) as Hother.
  { apply keeps_if; [by apply keeps_ret|]. eapply keeps_bind; [auto with io_keeps..|]. intros [] _; by apply keeps_ret. }
  destruct (VnvmeStorageGetDirect (Some d) off n) as [st p] eqn:Hdir.
  destruct (NT_SUCCESS st); [|done]. destruct p as [p|]; [|done]. destruct (sc_MemoryBuffer d) as [buf|] eqn:Hbuf; [|done].
  destruct (direct_fits d off n st p buf Hok Ho ltac:(lia) ltac:(lia) Hdir Hbuf) as (H0 & H1 & H2 & H3). by apply keeps_ret.
Qed.

Lemma keeps_write_success c ns n : keeps (known (cmd_NSID c) ns) (fun _ => True) (write_success Q c n).
Proof. apply keeps_statistics; [by intros []|apply same_ns_counts; by intros []|auto with io_keeps]. Qed.
Hint Resolve keeps_write_success : io_keeps.

(** The data of a command, fetched into a block that has room for it. *)
Lemma keeps_fetch_data {A} J (P : A -> Prop) Prp1 Prp2 n dst base (error : M KState A) (k : block -> M KState A) :
  stable J -> 0 <= n <= MAX_TRANSFER -> 0 <= base -> base + n <= blk_size dst -> keeps J P error ->
  (forall buf, blk_size buf = blk_size dst -> keeps J P (k buf)) ->
  keeps J P (r ← VnvmeParsePrpList Prp1 Prp2 n; if negb (NT_SUCCESS r.1) then error else buf ← prp_from_host r.2 dst base n 0; k buf).
Proof.
  intros HJ Hn Hb Hsz He Hk. eapply keeps_bind; [done|by apply keeps_prp_list|]. intros [st l] Hl. cbn [fst snd] in *.
  destruct (NT_SUCCESS st); cbn [negb]; [|done]. eapply keeps_bind; [done|by apply keeps_prp_from_host; auto|done].
Qed.

Lemma HandleWrite_back c s : io_inv Q s -> range_sound c -> transfer_sound s c -> comes_back s (HandleWrite Q c).
Proof.
  intros Hs Hr Ht. apply (comes_back_range c s _ Hs Hr). intros ns d [Htg -> -> [Hn Ho] Hb].
  specialize (Ht ns (tg_at _ _ _ _ Htg)). apply (comes_back_keeps _ _ _ Hs (known_target _ _ _ _ Htg)).
  pose proof (tg_disk _ _ _ _ Htg) as Hd. pose proof (tg_ok _ _ _ _ Htg) as Hok.
  eapply keeps_bind; [auto with io_keeps|eapply keeps_select_target; [auto with io_keeps|done|done|done|lia|lia]|].
  intros [[sct sc]|[buf off| |]] Htgt; [auto with io_keeps| | |auto with io_keeps];
    rewrite u32_small by (unfold MAX_TRANSFER in *; lia).
  - destruct Htgt as (Hmem & Hsz & H1 & H2). apply keeps_fetch_data; [auto with io_keeps|lia|done|done|auto with io_keeps|].
    intros buf' Hsz'. apply keeps_seq; [auto with io_keeps| |auto with io_keeps]. rewrite Hd.
    eapply keeps_set_storage; [done| |by destruct d]. apply sc_ok_direct; [done|done|congruence].
  - apply keeps_fetch_data; [auto with io_keeps|lia|done|cbn; lia|auto with io_keeps|].
    intros buf' Hsz'. cbn in Hsz'. rewrite Hd.
    destruct (VnvmeStorageWrite_ok d (io_offset c ns) buf' (io_bytes c ns) Hok Ho ltac:(lia) ltac:(lia)) as (st & d' & Hw & Hok' & (_ & Ht' & _) & _).
    eapply keeps_bind; [auto with io_keeps|by apply (keeps_res _ (eq (st, Some d')) _ _ Hw)|]. intros ? <-. cbn [fst snd].
    apply keeps_seq; [auto with io_keeps|by eapply keeps_set_storage|]. destruct (NT_SUCCESS st); cbn [negb]; auto with io_keeps.
Qed.

Lemma flush_ns_same n : same_ns n (flush_ns n).
Proof. apply same_ns_counts. clear n. intros n. unfold flush_ns. destruct n as [? [] ? ? ? ? ? ? ? [] ? ? ? ? ? ? ? ?]; done. Qed.

Lemma HandleFlush_back c s : io_inv Q s -> comes_back s (HandleFlush Q c).
Proof.
  intros Hs. unfold HandleFlush. cbv zeta. destruct (_ =? 0xFFFFFFFF).
  - apply (comes_back_keeps (fun _ => True)); [done..|]. apply keeps_seq; [done| |apply keeps_seq; [done|auto with io_keeps..]].
    intros s1 Hs1 _. apply wp_modify. split; [done|]. apply io_step_intro; [by destruct s1 as [? [] ? ? ? ?]..| |done].
    assert (pdo_Namespaces (ks_pdo (s1 <| ks_pdo ::= fun p => p <| pdo_Namespaces ::= map flush_ns |> |>)) =
      map flush_ns (pdo_Namespaces (ks_pdo s1))) as -> by (by destruct s1 as [? [] ? ? ? ?]).
    apply Forall2_fmap_r, Forall_Forall2_diag, Forall_true. apply flush_ns_same.
  - apply wp_namespace; [done|by apply comes_back_post|]. intros ns d Ht. apply (comes_back_keeps _ _ _ Hs (known_target _ _ _ _ Ht)).
    apply keeps_seq; [auto with io_keeps| |apply keeps_seq; auto with io_keeps].
    apply keeps_ns_update. intros n Hn. etrans; [done|]. apply same_ns_counts. by intros [].
Qed.

Lemma write_zeroes_loop_keeps nsid ns d fuel : ns_Storage ns = Some d -> sc_ok d -> forall off rem,
  0 <= off -> 0 <= rem -> off + rem < 2 ^ 63 -> rem < WRITE_ZEROES_CHUNK_SIZE * Z.of_nat fuel + 1 ->
  keeps (known nsid ns) (fun _ => True) (write_zeroes_loop fuel nsid off rem).
Proof.
  unfold WRITE_ZEROES_CHUNK_SIZE. intros Hd Hok. induction fuel as [|fuel IH]; intros off rem Ho Hr Hb Hf; cbn [write_zeroes_loop];
    destruct (Z.ltb_spec 0 rem); cbn [negb]; try lia; try by apply keeps_ret.
  unfold WRITE_ZEROES_CHUNK_SIZE. set (n := if 1 * 1024 * 1024 <? rem then 1 * 1024 * 1024 else u32 rem).
  assert (0 < n <= rem /\ n <= 1024 * 1024 /\ (n = 1024 * 1024 \/ n = rem)) as Hn.
  { unfold n. destruct (Z.ltb_spec (1 * 1024 * 1024) rem); [lia|]. rewrite u32_small by lia. lia. }
  eapply (keeps_bind _ (fun _ => True)); [auto with io_keeps| |].
  - intros s Hs Hk. eapply wp_mono; [eapply zero_range_step; [done..|lia|lia|done|done]|]. intros a s' [H' _]. by split.
  - intros st _. destruct (NT_SUCCESS st); cbn [negb]; [|by apply keeps_ret]. rewrite !u64_small by lia. apply IH; lia.
Qed.

Lemma write_zeroes_fuel_enough n : 0 <= n -> n < WRITE_ZEROES_CHUNK_SIZE * Z.of_nat (write_zeroes_fuel n) + 1.
Proof.
  intros Hn. unfold write_zeroes_fuel, WRITE_ZEROES_CHUNK_SIZE. pose proof (Z.div_pos n (1 * 1024 * 1024)). rewrite Z2Nat.id by lia.
  Z.div_mod_to_equations. lia.
Qed.

Lemma HandleWriteZeroes_back c s : io_inv Q s -> range_sound c -> comes_back s (HandleWriteZeroes Q c).
Proof.
  intros Hs Hr. apply (comes_back_range c s _ Hs Hr). intros ns d [Htg -> -> [Hn Ho] Hb].
  apply (comes_back_keeps _ _ _ Hs (known_target _ _ _ _ Htg)). rewrite (tg_disk _ _ _ _ Htg).
  eapply (keeps_bind _ (fun _ => True)); [auto with io_keeps| |].
  - apply write_zeroes_loop_keeps with d; [apply Htg..|done|done|lia|by apply write_zeroes_fuel_enough].
  - intros [] _; cbn [negb]; [apply keeps_seq|]; auto with io_keeps.
Qed.

(** The ranges of a Dataset Management command in host memory do not wrap either. *)
Definition ranges_sound (h : mem) (c : NVME_COMMAND) : Prop :=
  forall i, 0 <= i < 256 -> let r := dsm_load h (cmd_PRP1 c + i * 16) in dsm_StartingLBA r + dsm_LengthInLogicalBlocks r < 2 ^ 64.

Lemma dsm_range_bytes ns d r : ns_ok ns d -> 0 <= dsm_StartingLBA r -> 0 <= dsm_LengthInLogicalBlocks r ->
  dsm_StartingLBA r + dsm_LengthInLogicalBlocks r <= ns_TotalBlocks ns ->
  0 <= dsm_StartingLBA r *₆₄ ns_BlockSize ns < 2 ^ 63.
Proof.
  intros [Hbs Ht] H1 H2 H3. pose proof (Z.mul_le_mono_nonneg_r (dsm_StartingLBA r) (ns_TotalBlocks ns) (ns_BlockSize ns) ltac:(lia) ltac:(lia)).
  pose proof (Z.mul_nonneg_nonneg (dsm_StartingLBA r) (ns_BlockSize ns) H1 ltac:(lia)). rewrite u64_small by lia. lia.
Qed.

Lemma dsm_loop_back nsid ns d ranges n : ns_Storage ns = Some d -> sc_ok d -> ns_ok ns d -> forall i s,
  io_inv Q s -> known nsid ns s ->
  (forall j, i <= j < i + Z.of_nat n -> let r := dsm_load (ks_host s) (ranges + j * 16) in dsm_StartingLBA r + dsm_LengthInLogicalBlocks r < 2 ^ 64) ->
  wp (dsm_loop n nsid ns ranges i) s (fun _ s' => True /\ io_step Q s s').
Proof.
  intros Hd Hok Hns. induction n as [|n IH]; intros i s Hs Hk Hr; cbn [dsm_loop]; [by apply (keeps_ret (fun _ => True))|].
  apply wp_bind, wp_get. cbv zeta. set (r := dsm_load _ _).
  assert (forall s', io_inv Q s' -> known nsid ns s' -> ks_host s' = ks_host s ->
    wp (dsm_loop n nsid ns ranges (i + 1)) s' (fun _ s'' => True /\ io_step Q s' s'')) as Hnext
    by (intros s' Hs' Hk' Hh; apply IH; [done|done|]; rewrite Hh; intros j Hj; apply Hr; lia).
  destruct (Z.eqb_spec (dsm_LengthInLogicalBlocks r) 0); [by apply Hnext|].
  specialize (Hr i ltac:(lia)). cbv zeta in Hr. fold r in Hr. destruct (dsm_load_range (ks_host s) (ranges + i * 16)) as [R1 R2]. fold r in R1, R2.
  rewrite u64_small by lia. destruct (Z.ltb_spec (ns_TotalBlocks ns) (dsm_StartingLBA r + dsm_LengthInLogicalBlocks r)); [by apply Hnext|].
  pose proof (dsm_range_bytes ns d r Hns ltac:(lia) ltac:(lia) ltac:(lia)) as Hoff. rewrite Hd.
  pose proof (u32_range (dsm_LengthInLogicalBlocks r *₆₄ ns_BlockSize ns)).
  apply wp_bind. eapply wp_mono; [eapply (zero_range_step nsid ns d); [done|done|lia|done|lia|done|done]|].
  intros _ s1 [H1 Hh]. cbv beta. eapply wp_mono; [apply Hnext; [apply H1|by eapply known_step|done]|].
  intros [] s2 [_ H2]. split; [done|by eapply io_step_trans].
Qed.

Lemma HandleDatasetManagement_back c s :
  io_inv Q s -> Z.land (cmd_CDW11 c) 0x04 = 0 \/ ranges_sound (ks_host s) c -> comes_back s (HandleDatasetManagement Q c).
Proof.
  intros Hs Hr. unfold HandleDatasetManagement. cbv zeta. set (done_ := count_io;; _).
  assert (forall J, stable J -> keeps J (fun _ => True) done_) as Hdone by (intros J HJ; apply keeps_seq; auto with io_keeps).
  apply wp_namespace; [done|by apply comes_back_post|]. intros ns d Ht. pose proof (known_target _ _ _ _ Ht) as Hk.
  destruct (Z.eqb_spec (Z.land (cmd_CDW11 c) 4) 0) as [|Hne]; cbn [negb]; [by apply (Hdone _ (known_stable (cmd_NSID c) ns))|].
  destruct Hr as [?|Hr]; [done|]. set (nr := if 256 <? _ then 256 else _).
  assert (nr <= 256) as Hnr by (unfold nr; destruct (Z.ltb_spec 256 (Z.land (cmd_CDW10 c) 255 + 1)); lia).
  apply wp_bind. eapply wp_intro; [reflexivity|]. set (s1 := s <| ks_tick ::= S |>).
  assert (io_step Q s s1) as H1 by (change s1 with (s <| ks_tick := S (ks_tick s) |>); by apply io_step_tick).
  assert (known (cmd_NSID c) ns s1) as Hk1 by by eapply known_step.
  destruct (MmMapIoSpace _ _ _); cbn [negb].
  2: { eapply wp_mono; [apply (Hdone _ (known_stable (cmd_NSID c) ns)); [apply H1|done]|]. intros st s2 [_ H2]. split; [done|by eapply io_step_trans]. }
  apply wp_bind. eapply wp_mono; [eapply (dsm_loop_back _ ns d); [apply Ht|apply Ht|apply Ht|apply H1|done|]|].
  { intros j Hj. apply Hr. lia. }
  intros [] s2 [_ H2]. cbv beta. eapply wp_mono; [apply (Hdone _ (known_stable (cmd_NSID c) ns)); [apply H2|by eapply known_step]|].
  intros st s3 [_ H3]. split; [done|]. eapply io_step_trans, io_step_trans; [done..|exact H3].
Qed.

Lemma HandleCompare_back c s : io_inv Q s -> range_sound c -> comes_back s (HandleCompare Q c).
Proof.
  intros Hs Hr. apply (comes_back_range c s _ Hs Hr). intros ns d [Htg -> -> [Hn Ho] Hb].
  pose proof (tg_disk _ _ _ _ Htg) as Hd. pose proof (tg_ok _ _ _ _ Htg) as Hok. pose proof (comes_back_post s) as Hpost.
  destruct (Z.ltb_spec MAX_TRANSFER (io_bytes c ns)); [by apply comes_back_post|].
  apply (comes_back_keeps _ _ _ Hs (known_target _ _ _ _ Htg)).
  do 2 (eapply keeps_bind; [auto with io_keeps..|]; intros [] _; cbn [negb]; [|auto with io_keeps]).
  rewrite u32_small by (unfold MAX_TRANSFER in *; lia).
  apply keeps_fetch_data; [auto with io_keeps|lia|done|cbn; lia|auto with io_keeps|]. intros buf _. rewrite Hd.
  eapply (keeps_bind _ (fun _ => True)); [auto with io_keeps| |].
  - apply (keeps_storage_read _ ns d (io_offset c ns) (io_bytes c ns) _ (fun x => mret (if NT_SUCCESS x.1 then Some x.2 else None)));
      [done..|lia|]. intros. by apply keeps_ret.
  - intros [b|] _; [|auto with io_keeps]. apply keeps_seq; [auto with io_keeps..|]. apply keeps_if; auto with io_keeps.
Qed.

(** ** Every command *)

(** The limits of the driver, for each command: outside of them the arithmetic
    of an access wraps around, or the parsed PRP list is longer than its array. *)
Record io_sound (s : KState) (c : NVME_COMMAND) : Prop := {
  so_range : cmd_OPC c ∈ [NVME_IO_READ; NVME_IO_WRITE; NVME_IO_WRITE_ZEROES; NVME_IO_COMPARE] -> range_sound c;
  so_transfer : cmd_OPC c ∈ [NVME_IO_READ; NVME_IO_WRITE] -> transfer_sound s c;
  so_ranges : cmd_OPC c = NVME_IO_DATASET_MANAGEMENT -> Z.land (cmd_CDW11 c) 0x04 = 0 \/ ranges_sound (ks_host s) c
}.

Lemma VnvmeProcessIoCommand_back c s : io_inv Q s -> io_sound s c -> comes_back s (VnvmeProcessIoCommand Q c).
Proof.
  intros Hs [H1 H2 H3]. rewrite !list_elem_of_In in H1, H2. cbn in H1, H2. unfold VnvmeProcessIoCommand. cbv zeta.
  repeat match goal with |- context [cmd_OPC c =? ?x] => destruct (Z.eqb_spec (cmd_OPC c) x) end.
  - apply HandleRead_back; auto.
  - apply HandleWrite_back; auto 6.
  - by apply HandleFlush_back.
  - apply HandleWriteZeroes_back; auto 6.
  - apply HandleDatasetManagement_back; auto.
  - apply HandleCompare_back; auto 7.
  - by apply comes_back_post.
Qed.

(** ** The command loop *)

(** Sound whatever host memory holds when the command is executed. *)
Definition always_sound (s : KState) (c : NVME_COMMAND) : Prop := forall h, io_sound (s <| ks_host := h |>) c.

Lemma always_sound_ns s s' c :
  Forall2 same_ns (pdo_Namespaces (ks_pdo s)) (pdo_Namespaces (ks_pdo s')) -> always_sound s c -> always_sound s' c.
Proof.
  intros Hns H h. destruct (H h) as [H1 H2 H3]. split; [done| |by destruct s, s'].
  intros Hc ns' Hn. assert (exists ns, ns_at (s <| ks_host := h |>) (cmd_NSID c) = Some ns /\ same_ns ns ns') as (ns & Hn0 & Hsame).
  { unfold ns_at, arr_get in *. destruct (_ <? 0); [done|]. assert (ks_pdo (s' <| ks_host := h |>) = ks_pdo s') as E by (by destruct s').
    rewrite E in Hn. destruct (Forall2_lookup_r _ _ _ _ _ Hns Hn) as (ns & ? & ?). exists ns. split; [by destruct s|done]. }
  unfold io_bytes. rewrite (sn_size _ _ Hsame). exact (H2 Hc ns Hn0).
Qed.

Lemma always_sound_step s s' l : io_step Q s s' -> Forall (always_sound s) l -> Forall (always_sound s') l.
Proof. intros Hs Hl. eapply Forall_impl; [exact Hl|]. intros c. by apply always_sound_ns, Hs. Qed.

Lemma always_sound_now s c : always_sound s c -> io_sound s c.
Proof. intros H. specialize (H (ks_host s)). by destruct s. Qed.

Lemma cq_desc_put_sq d m : cq_desc (put_sq_desc Q d m) Q = cq_desc m Q.
Proof.
  unfold cq_desc, put_sq_desc. destruct (Z.eqb_spec Q 0); [by destruct m as [[] ? ? ?]|].
  unfold arr_get. destruct (Z.ltb_spec ((Q - 1) * 2 + 1) 0); [done|]. destruct m; unset. by rewrite list_lookup_insert_ne by lia.
Qed.

(** A move of the submission queue's head, in the descriptor and in the
    driver's copy, concerns no completion queue. *)
Lemma io_inv_fetch s m d l :
  io_inv Q s -> VnvmeShmGetControlBlock s = Some m -> length l = length (pdo_IoSq (ks_pdo s)) ->
  io_inv Q ((with_shm (put_sq_desc Q d m) s) <| ks_pdo := (ks_pdo s) <| pdo_IoSq := l |> |>).
Proof.
  intros [HQ [Ha Hd Hw] Hi] Hm Hl. set (m1 := put_sq_desc Q d m). set (s1 := _ <| ks_pdo := _ |>).
  assert (VnvmeShmGetControlBlock s1 = Some m1) as Hm1 by (rewrite <- (with_shm_get m m1 s Hm); unfold s1; by destruct s).
  assert (CONFIG_MAX_IO_QUEUES s1 = CONFIG_MAX_IO_QUEUES s) as Ec by (unfold s1; by destruct s).
  assert (pdo_IoCq (ks_pdo s1) = pdo_IoCq (ks_pdo s) /\ pdo_AdminCq (ks_pdo s1) = pdo_AdminCq (ks_pdo s)) as [E1 E2]
    by (unfold s1; by destruct s as [? [] ? ? ? ?]).
  assert (cq_view Q s1 = cq_view Q s) as Ev.
  { unfold cq_view. rewrite Hm1, Hm, E1, E2. cbn. unfold m1. rewrite cq_desc_put_sq, (proj1 (put_sq_desc_mem Q d m)).
    destruct (cq_desc m Q); [|done]. cbn. unfold put_sq_desc. by destruct (Q =? 0), m as [[] ? ? ?]. }
  split; [done| |].
  - split; [by rewrite Ec, E1| |by rewrite Ev]. rewrite Ec, Hm1. intros m2. destruct (Hd m) as [?|[?|Hd']]; [by left|by right; left|].
    right. right. intros [= <-]. unfold m1. rewrite cq_desc_put_sq. by apply Hd'.
  - apply (child_inv_step (ks_pdo s)); try done; unfold s1; destruct s as [? [] ? ? ? ?]; cbn in *; done.
Qed.

Lemma iosq_update_pdo i f s p q : arr_get (pdo_IoSq (ks_pdo s)) i = Some q -> iosq_update i f s = Ok (tt, s <| ks_pdo := p |>) ->
  p = (ks_pdo s) <| pdo_IoSq := <[Z.to_nat i := f q]> (pdo_IoSq (ks_pdo s)) |>.
Proof. intros Hq. rewrite (iosq_update_run _ _ _ _ Hq). destruct s; unset. by intros [= <-]. Qed.

(** A fetch takes the oldest command. *)
Lemma io_fetch s l : 0 < Q -> io_inv Q s -> sq_holds Q s l ->
  match l with
  | [] => VnvmeFetchCommand Q s = Ok ((STATUS_NO_MORE_ENTRIES, zero_command), s)
  | c :: l' => exists s', VnvmeFetchCommand Q s = Ok ((STATUS_SUCCESS, c), s') /\ io_inv Q s' /\ sq_holds Q s' l' /\
      pdo_Namespaces (ks_pdo s') = pdo_Namespaces (ks_pdo s)
  end.
Proof.
  intros HQ Hs [Hr Hl Ha]. pose proof Hr as (Ho & (m & d & Hm & Hd & Hwf) & Hq). specialize (Ha m Hm).
  rewrite (sq_contents_eq _ _ _ _ Hm Hd) in Hl. injection Hl as <-.
  pose proof (VnvmeFetchCommand_result Q s m d Hr Hm Hd) as Hf. cbv zeta in Hf. case_decide as E.
  { by rewrite (sq_pending_empty _ _ Hwf E). }
  rewrite (sq_pending_cons _ _ Hwf E). destruct Hf as (p & Hp & Hpc & ->). set (h := (qd_Head d + 1) mod qd_Capacity d) in *.
  assert (0 <= h < qd_Capacity d) as Hh by (apply Z.mod_pos_bound; destruct Hwf as ((_ & ? & _) & _); lia).
  destruct (sq_advance Q s m d h Hr Hm Hd Hh) as [Hr1 Hc1]. destruct (sq_ready_pdo Q _ p Hr1 Hpc) as [Hr2 Hc2].
  destruct Hq as [->|(q & Hq & _)]; [done|].
  unfold sq_state_update in Hp. rewrite (proj2 (Z.eqb_neq Q 0)) in Hp by lia.
  assert (ks_pdo (with_shm (put_sq_desc Q (with_head h d) m) s) = ks_pdo s) as Ep by (by destruct s).
  apply (iosq_update_pdo _ _ _ _ q) in Hp; [|by rewrite Ep]. rewrite Ep in Hp. subst p.
  eexists. split; [done|]. split; [apply io_inv_fetch; [done..|apply length_insert]|]. split; [|by destruct s as [? [] ? ? ? ?]].
  split; [done|by rewrite Hc2|]. intros m1 Hm1.
  assert (m1 = put_sq_desc Q (with_head h d) m) as ->.
  { apply (inj Some). rewrite <- Hm1, <- (with_shm_get m (put_sq_desc Q (with_head h d) m) s Hm). by destruct s. }
  intros d1 e1 H1 H2. rewrite (sq_desc_put Q d _ m Hd) in H1. rewrite cq_desc_put_sq in H2. apply (inj Some) in H1 as <-.
  specialize (Ha d e1 Hd H2). by destruct d.
Qed.

(** The loop's own copy of the head. *)
Lemma io_head_step h s l : 0 < Q -> io_inv Q s -> sq_holds Q s l ->
  exists s', iosq_update (Q - 1) (fun q => q <| qs_Head := h |>) s = Ok (tt, s') /\ io_inv Q s' /\ sq_holds Q s' l /\
    pdo_Namespaces (ks_pdo s') = pdo_Namespaces (ks_pdo s).
Proof.
  intros HQ [_ Hp Hi] [Hr Hl Ha]. pose proof Hr as (_ & _ & [->|(q & Hq & Hc)]); [done|].
  eexists. split; [by apply (iosq_update_run _ _ _ q)|]. set (l' := <[_ := _]> _).
  assert (Hl' : arr_get l' (Q - 1) = Some (q <| qs_Head := h |>)) by (by apply arr_get_insert_eq with q).
  assert (length l' = length (pdo_IoSq (ks_pdo s))) as Hlen by apply length_insert.
  set (p := (ks_pdo s) <| pdo_IoSq := l' |>).
  assert (s <| ks_pdo ::= fun p => p <| pdo_IoSq := l' |> |> = s <| ks_pdo := p |>) as -> by (by destruct s).
  destruct (sq_ready_pdo Q s p Hr) as [Hr' Hc'].
  { right. eexists. split; [unfold p; destruct (ks_pdo s); exact Hl'|]. by destruct q. }
  split; [split; [lia| |]|split; [split; [done|by rewrite Hc'|by destruct s]|by destruct s as [? [] ? ? ? ?]]].
  - apply (post_ok_frame Q s); [..|done]; by destruct s as [? [] ? ? ? ?].
  - apply (child_inv_step (ks_pdo s)); [..|done]; unfold p; by destruct s as [? [] ? ? ? ?].
Qed.

(** How many commands the loop takes from a queue of [n], as its head moves to [tail]. *)
Fixpoint io_rounds (n : nat) (head tail size : Z) : nat :=
  match n with
  | O => O
  | S n => if head =? tail then O else S (io_rounds n ((head +₃₂ 1) mod size) tail size)
  end.

(** For a tail inside of the queue: the distance of the two. *)
Lemma io_rounds_ring n : forall head tail size, 0 <= head < size -> 0 <= tail < size -> size < 2 ^ 32 ->
  Z.of_nat (io_rounds n head tail size) = Z.min (Z.of_nat n) (ring_count head tail size).
Proof.
  induction n as [|n IH]; intros head tail size Hh Ht Hs; cbn [io_rounds]; pose proof (ring_count_range size ltac:(lia) head tail); [lia|].
  destruct (Z.eqb_spec head tail) as [->|Hne].
  - rewrite (proj2 (ring_count_0 size ltac:(lia) tail tail ltac:(lia) ltac:(lia))) by done. lia.
  - rewrite u32_small by lia. rewrite Nat2Z.inj_succ, IH by (try apply Z.mod_pos_bound; lia).
    rewrite (ring_count_head size) by lia. lia.
Qed.

(** The commands [l] are executed, one after the other: each is what the fetch
    takes from the queue, and is processed in the state the fetch leaves; then the
    driver's copy of the head moves, from [head], and the command is counted. *)
Inductive serves (size : Z) : Z -> list NVME_COMMAND -> KState -> KState -> Prop :=
  | serves_nil head s : serves size head [] s s
  | serves_cons head c l st s s1 s2 s3 s4 s' :
      VnvmeFetchCommand Q s = Ok ((STATUS_SUCCESS, c), s1) ->
      VnvmeProcessIoCommand Q c s1 = Ok (st, s2) ->
      iosq_update (Q - 1) (fun q => q <| qs_Head := (head +₃₂ 1) mod size |>) s2 = Ok (tt, s3) ->
      count_io s3 = Ok (tt, s4) ->
      serves size ((head +₃₂ 1) mod size) l s4 s' -> serves size head (c :: l) s s'.

Lemma io_loop_ends tail size l : 0 < Q -> forall fuel head s,
  io_inv Q s -> sq_holds Q s l -> Forall (always_sound s) l -> (length l < fuel)%nat ->
  let n := io_rounds (length l) head tail size in
  exists s', io_loop fuel Q head tail size s = Ok (tt, s') /\ serves size head (take n l) s s' /\ io_inv Q s' /\ sq_holds Q s' (drop n l).
Proof.
  intros HQ. induction l as [|c l IH]; intros fuel head s Hs Hl Hsound Hf; (destruct fuel as [|fuel]; [cbn in Hf; lia|]);
    cbn [io_loop io_rounds length]; destruct (Z.eqb_spec head tail);
    [exists s; split_and!; [done|apply serves_nil|done|done]| |exists s; split_and!; [done|apply serves_nil|done|done]|]; pose proof (io_fetch s _ HQ Hs Hl) as Hfetch; cbn in Hfetch.
  { rewrite (bind_Ok _ _ _ _ _ Hfetch). exists s. split_and!; [done|apply serves_nil|done|done]. }
  destruct Hfetch as (s1 & Hr & Hs1 & Hl1 & Hns1). rewrite (bind_Ok _ _ _ _ _ Hr). cbn [fst snd NT_SUCCESS negb].
  assert (Forall (always_sound s1) (c :: l)) as Hsound1.
  { eapply Forall_impl; [exact Hsound|]. intros c'. apply always_sound_ns. by rewrite Hns1. }
  inversion Hsound1 as [|? ? Hc Hsound']; subst.
  destruct (wp_elim _ _ _ (VnvmeProcessIoCommand_back c s1 Hs1 (always_sound_now _ _ Hc))) as (st & s2 & Hr2 & _ & Hs2).
  cbn. rewrite (bind_Ok _ _ _ _ _ Hr2). cbv beta zeta.
  destruct (io_head_step ((head +₃₂ 1) mod size) s2 l HQ (st_inv _ _ _ Hs2) (st_sq _ _ _ Hs2 _ Hl1)) as (s3 & Hr3 & Hs3 & Hl3 & Hns3).
  rewrite (bind_Ok _ _ _ _ _ Hr3). cbv beta.
  destruct (wp_elim _ _ _ (keeps_count_io (fun _ => True) s3 Hs3 I)) as ([] & s4 & Hr4 & _ & Hs4). rewrite (bind_Ok _ _ _ _ _ Hr4).
  destruct (IH fuel ((head +₃₂ 1) mod size) s4 (st_inv _ _ _ Hs4) (st_sq _ _ _ Hs4 _ Hl3)) as (s' & ? & ? & ? & ?); [|cbn in Hf; lia|].
  2: { exists s'. split; [done|]. split; [cbn; by eapply serves_cons|by split]. }
  eapply always_sound_step; [exact Hs4|]. eapply Forall_impl; [exact (always_sound_step _ _ _ Hs2 Hsound')|].
  intros c'. apply always_sound_ns. by rewrite Hns3.
Qed.

End IoSafe.

Section Theorems.
Context {W : WinKernel} {L : FileLaws W}.

(** C8: an I/O command comes back, whatever its opcode, namespace, block range
    and PRP entries, and whether or not the kernel grants the memory, the
    mappings and the file accesses it asks for: no access leaves an array, a
    data buffer or a ring, no loop runs on, and the state keeps the invariant
    of the control requests, with every namespace as large as it was and its
    disk still large enough for it. The limits are those of [io_sound]: a block
    range that does not wrap around 2^64, and at most 2 MB for Read and Write. *)
Theorem VnvmeProcessIoCommand_safe (Q : Z) (c : NVME_COMMAND) (s : KState) :
  io_inv Q s -> io_sound s c ->
  exists st s', VnvmeProcessIoCommand Q c s = Ok (st, s') /\ io_inv Q s' /\
    Forall2 same_ns (pdo_Namespaces (ks_pdo s)) (pdo_Namespaces (ks_pdo s')).
Proof.
  intros Hs Hc. destruct (wp_elim _ _ _ (VnvmeProcessIoCommand_back Q c s Hs Hc)) as (st & s' & Hr & _ & Hstep).
  exists st, s'. split; [done|]. split; apply Hstep.
Qed.

(** C36: serving an I/O queue ends for any doorbell value: with more fuel than
    there are commands in the submission queue, VnvmeProcessIoCommands returns,
    having executed exactly the oldest [io_rounds] of them, one after the
    other and in their order ([serves]: fetched from the queue, processed by
    VnvmeProcessIoCommand, the driver's head moved, counted), where the count runs until
    its head meets [NewTail] or the queue is empty.  It leaves the others in the
    queue as the host wrote them, although it writes completions and host
    memory in between, and the state keeps the invariant.  The queue exists and
    is in use ([sq_holds]: created, valid, its two rings apart), and every command in
    it is within the limits of VnvmeProcessIoCommand's safety whatever the host's
    memory holds by the time it is executed ([always_sound]): a block range
    that does not wrap around, at most 2 MB for Read and Write, and no
    deallocating Dataset Management, whose range list the host could have changed
    to one that wraps around. *)
Theorem VnvmeProcessIoCommands_terminates (fuel : nat) (Q NewTail : Z) (s : KState) (l : list NVME_COMMAND) (q : VNVME_QUEUE_STATE) :
  0 < Q <= pdo_IoQueueCount (ks_pdo s) -> io_inv Q s -> sq_holds Q s l -> Forall (always_sound s) l ->
  arr_get (pdo_IoSq (ks_pdo s)) (Q - 1) = Some q -> qs_Size q <> 0 -> (length l < fuel)%nat ->
  let n := io_rounds (length l) (qs_Head q) NewTail (qs_Size q) in
  exists s', VnvmeProcessIoCommands fuel Q NewTail s = Ok (tt, s') /\ serves Q (qs_Size q) (qs_Head q) (take n l) s s' /\
    io_inv Q s' /\ sq_holds Q s' (drop n l).
Proof.
  intros HQ Hs Hl Hsound Hq Hsize Hf. unfold VnvmeProcessIoCommands.
  rewrite bind_get, (proj2 (Z.eqb_neq Q 0)), (proj2 (Z.ltb_ge _ _)) by lia. cbn [orb]. rewrite (bind_opt _ _ _ _ Hq). cbv zeta.
  destruct (sh_ready _ _ _ Hl) as (_ & _ & [?|(q' & Hq' & Hc)]); [lia|]. rewrite Hq in Hq'. injection Hq' as <-.
  rewrite Hc, (proj2 (Z.eqb_neq _ _)) by done. apply io_loop_ends; [lia|done..].
Qed.

End Theorems.

(** ** Witnesses *)

#[local] Existing Instances TestKernel TestKernel_laws.

(** Queue pair 1 with two commands, a Read of block 1 and a Flush. *)
Definition test_read : NVME_COMMAND := io_command 2 0x200100 1 0.
Definition test_flush : NVME_COMMAND := io_command 0 0 0 0.

Definition queue_shm : SharedMemory :=
  test_shm <| shm_descs ::= fun l => <[0%nat := mkQueueDescriptor 0x4400 64 64 1 0 2 0]> (<[1%nat := mkQueueDescriptor 0x8400 16 64 1 0 0 1]> l) |>
           <| shm_mem ::= fun b => cmd_store (cmd_store b 0x4440 test_flush) 0x4400 test_read |>.

Definition queue_pdo : @VNVME_PDO_CONTEXT TestKernel :=
  test_pdo <| pdo_IoSq ::= <[0%nat := mkQueueState 0x300000 64 0 2 false true 1]> |>
           <| pdo_IoCq ::= <[0%nat := mkQueueState 0x310000 64 0 0 true true 0]> |> <| pdo_IoQueueCount := 1 |>.

Definition queue_state : @KState TestKernel := (test_state queue_shm (fun a => a)) <| ks_pdo := queue_pdo |>.

Lemma queue_pdo_inv : child_inv queue_pdo.
Proof.
  split; [by vm_compute|split; vm_compute; discriminate|reflexivity|]. intros [|i] ns.
  - intros [= <-]. split; [reflexivity|]. exists (test_disk VNVME_STORAGE_TYPE_MEMORY). split; [reflexivity|].
    split; [exact (proj1 test_disk_memory)|exact (ir_ok _ _ _ _ (io_state_request 2 0))].
  - change (pdo_Namespaces queue_pdo !! S i) with (replicate 15 no_namespace !! i). by intros [-> _]%lookup_replicate.
Qed.

Lemma queue_slots off n i : 0x4400 <= off -> off + 64 * n <= VNVME_SHM_SIZE -> 0 <= i < 64 -> 0 <= n -> queue_memory (off + i * n) n = true.
Proof. intros H1 H2 Hi Hn. apply io_area_queue_memory; nia. Qed.

Lemma queue_state_inv : io_inv 1 queue_state.
Proof.
  split; [lia| |exact queue_pdo_inv]. split.
  - right. right. by eexists.
  - intros m. right. right. intros [= <-]. by eexists.
  - intros v [= <-]. right. right. split; [split; [done|split; [done|]]|split; [done|split; [done|by right]]].
    intros i Hi. apply queue_slots; cbn in *; [lia|vm_compute; discriminate|lia|lia].
Qed.

Lemma queue_state_holds : sq_holds 1 queue_state [test_read; test_flush].
Proof.
  split.
  - split; [right; split; [by vm_compute|by eexists]|]. split; [|right; by eexists].
    eexists _, _. split; [reflexivity|]. split; [reflexivity|]. split; [split; [done|split; [done|]]|done].
    intros i Hi. apply queue_slots; cbn in *; [lia|vm_compute; discriminate|lia|lia].
  - by vm_compute.
  - intros m [= <-] d e [= <-] [= <-]. cbn. lia.
Qed.

Lemma test_read_sound (s : @KState TestKernel) :
  pdo_Namespaces (ks_pdo s) = pdo_Namespaces queue_pdo -> io_sound s test_read.
Proof.
  intros Hn. split; [intros _; split; [vm_compute; discriminate|vm_compute; reflexivity]| |discriminate].
  intros _ ns. unfold ns_at. rewrite Hn. intros [= <-]. vm_compute. discriminate.
Qed.

Lemma test_flush_sound (s : @KState TestKernel) : io_sound s test_flush.
Proof. split; [| |discriminate]; intros H; rewrite !list_elem_of_In in H; cbn in H; by repeat destruct H as [H|H]. Qed.

Lemma VnvmeProcessIoCommand_safe_witness :
  exists st s', VnvmeProcessIoCommand 1 test_read queue_state = Ok (st, s') /\ io_inv 1 s'.
Proof.
  destruct (VnvmeProcessIoCommand_safe 1 test_read queue_state queue_state_inv (test_read_sound queue_state eq_refl)) as (st & s' & H1 & H2 & _).
  exists st, s'. split; [exact H1|exact H2].
Defined.

(** The doorbell says 1: the Read is executed, the Flush stays. *)
Lemma VnvmeProcessIoCommands_terminates_witness :
  exists s', VnvmeProcessIoCommands 3 1 1 queue_state = Ok (tt, s') /\ serves 1 64 0 [test_read] queue_state s' /\ sq_holds 1 s' [test_flush].
Proof.
  destruct (VnvmeProcessIoCommands_terminates 3 1 1 queue_state [test_read; test_flush] (mkQueueState 0x300000 64 0 2 false true 1))
    as (s' & H1 & H2 & _ & H3); [by vm_compute|exact queue_state_inv|exact queue_state_holds| |reflexivity|discriminate|cbn; lia|].
  - apply List.Forall_cons; [intros h; apply test_read_sound; reflexivity|]. apply List.Forall_cons; [|apply List.Forall_nil].
    intros h. exact (test_flush_sound _).
  - exists s'. split; [exact H1|]. split; [exact H2|exact H3].
Defined.
