(* ===== verification/Backend.v ===== *)
(** The storage back ends of the user-mode service: [vnvme-server/backend.h],
    [backend_common.c], [backend_memory.c] and [backend_file.c].

    The first field of a back end, its type, is the constructor here.  The
    Win32 file calls are the members of the class [Win32Files], their documented
    behaviour is [Win32FileLaws].  [calloc] and [VirtualAlloc] may fail: whether
    they do is an argument of the functions that call them.  The critical
    sections only serialise the operations. *)
From S2P Require Import Prelude.
Open Scope Z_scope.
Open Scope c_scope.

Inductive BACKEND_TYPE : Type :=
  | BACKEND_TYPE_MEMORY
  | BACKEND_TYPE_FILE.

(** The configuration of a back end. *)
Record BACKEND_CONFIG := mkBackendConfig {
  bc_Type : BACKEND_TYPE;
  bc_Size : Z;
  bc_FilePath : list Z;
  bc_ReadOnly : bool;
  bc_BlockSize : Z;
  bc_DirectIO : bool;
  bc_Preallocate : bool
}.
Definition etaBackendConfig r :=
  mkBackendConfig (bc_Type r) (bc_Size r) (bc_FilePath r) (bc_ReadOnly r) (bc_BlockSize r) (bc_DirectIO r)
    (bc_Preallocate r).
#[export] Instance set_bc_Type : Setter bc_Type := ltac:(mk_setter etaBackendConfig).
#[export] Instance set_bc_Size : Setter bc_Size := ltac:(mk_setter etaBackendConfig).
#[export] Instance set_bc_FilePath : Setter bc_FilePath := ltac:(mk_setter etaBackendConfig).
#[export] Instance set_bc_ReadOnly : Setter bc_ReadOnly := ltac:(mk_setter etaBackendConfig).
#[export] Instance set_bc_BlockSize : Setter bc_BlockSize := ltac:(mk_setter etaBackendConfig).
#[export] Instance set_bc_DirectIO : Setter bc_DirectIO := ltac:(mk_setter etaBackendConfig).
#[export] Instance set_bc_Preallocate : Setter bc_Preallocate := ltac:(mk_setter etaBackendConfig).

(** ** The file calls of Win32 *)

Class Win32Files := {
  HFILE : Type;
  CreateFileW : list Z -> bool -> bool -> option HFILE;  (* path, read only, unbuffered *)
  GetFileSizeEx : HFILE -> option Z;
  SetFilePointerEx : HFILE -> Z -> bool * HFILE;
  SetEndOfFile : HFILE -> bool * HFILE;
  SetFileValidData : HFILE -> Z -> bool * HFILE;
  ReadFile : HFILE -> Z -> bool * Z * mem * HFILE;  (* the result, the number of bytes, the bytes *)
  WriteFile : HFILE -> mem -> Z -> Z -> bool * Z * HFILE;  (* buffer and offset in it, size *)
  FlushFileBuffers : HFILE -> bool * HFILE;
}.

(** A file is bytes and a position; a transfer that reports all its bytes has
    moved them, at the position, which it advances. *)
Class Win32FileLaws (F : Win32Files) := {
  wf_byte : HFILE -> Z -> Z;
  wf_pos : HFILE -> Z;
  seek_law f p f' : SetFilePointerEx f p = (true, f') -> wf_pos f' = p /\ forall a, wf_byte f' a = wf_byte f a;
  seek_fail f p f' : SetFilePointerEx f p = (false, f') -> forall a, wf_byte f' a = wf_byte f a;
  readfile_law f n r k d f' : ReadFile f n = (r, k, d, f') -> 0 <= n ->
    (forall a, wf_byte f' a = wf_byte f a) /\ 0 <= k <= n /\
    (r = true -> forall i, 0 <= i < k -> rd8 d i = wf_byte f (wf_pos f + i));
  writefile_law f m o n k f' : WriteFile f m o n = (true, k, f') -> k = n ->
    wf_pos f' = wf_pos f + n /\
    forall a, wf_byte f' a = if decide (wf_pos f <= a < wf_pos f + n) then rd8 m (o + (a - wf_pos f)) else wf_byte f a;
  writefile_frame f m o n r k f' : WriteFile f m o n = (r, k, f') ->
    forall a, ~ (wf_pos f <= a < wf_pos f + n) -> wf_byte f' a = wf_byte f a;
  flush_law f r f' : FlushFileBuffers f = (r, f') -> forall a, wf_byte f' a = wf_byte f a;
}.

Section Backend.
Context {F : Win32Files}.

Record MEMORY_BACKEND_CONTEXT := mkMemoryBackend {
  mb_Size : Z;
  mb_BlockSize : Z;
  mb_ReadOnly : bool;
  mb_Data : option block  (* NULL or a buffer *)
}.
Definition etaMemoryBackend r :=
  mkMemoryBackend (mb_Size r) (mb_BlockSize r) (mb_ReadOnly r) (mb_Data r).
#[export] Instance set_mb_Size : Setter mb_Size := ltac:(mk_setter etaMemoryBackend).
#[export] Instance set_mb_BlockSize : Setter mb_BlockSize := ltac:(mk_setter etaMemoryBackend).
#[export] Instance set_mb_ReadOnly : Setter mb_ReadOnly := ltac:(mk_setter etaMemoryBackend).
#[export] Instance set_mb_Data : Setter mb_Data := ltac:(mk_setter etaMemoryBackend).
Record FILE_BACKEND_CONTEXT := mkFileBackend {
  fb_Size : Z;
  fb_BlockSize : Z;
  fb_ReadOnly : bool;
  fb_DirectIO : bool;
  fb_Preallocate : bool;
  fb_FileHandle : option HFILE;  (* None: INVALID_HANDLE_VALUE *)
  fb_FilePath : list Z
}.
Definition etaFileBackend r :=
  mkFileBackend (fb_Size r) (fb_BlockSize r) (fb_ReadOnly r) (fb_DirectIO r) (fb_Preallocate r) (fb_FileHandle
    r) (fb_FilePath r).
#[export] Instance set_fb_Size : Setter fb_Size := ltac:(mk_setter etaFileBackend).
#[export] Instance set_fb_BlockSize : Setter fb_BlockSize := ltac:(mk_setter etaFileBackend).
#[export] Instance set_fb_ReadOnly : Setter fb_ReadOnly := ltac:(mk_setter etaFileBackend).
#[export] Instance set_fb_DirectIO : Setter fb_DirectIO := ltac:(mk_setter etaFileBackend).
#[export] Instance set_fb_Preallocate : Setter fb_Preallocate := ltac:(mk_setter etaFileBackend).
#[export] Instance set_fb_FileHandle : Setter fb_FileHandle := ltac:(mk_setter etaFileBackend).
#[export] Instance set_fb_FilePath : Setter fb_FilePath := ltac:(mk_setter etaFileBackend).

Inductive BACKEND_CONTEXT : Type :=
  | MemoryBackend (b : MEMORY_BACKEND_CONTEXT)
  | FileBackend (b : FILE_BACKEND_CONTEXT).

(** ** The memory back end *)

(** The buffer is [at_] in the memory [buf], which is returned with the bytes read. *)
Definition MemoryBackendRead (offset : Z) (buf : mem) (at_ size : Z) : M MEMORY_BACKEND_CONTEXT (bool * mem) :=
  b ← get;
  match mb_Data b with
  | None => mret (false, buf)
  | Some d =>
      if mb_Size b <? (offset +₆₄ size) then mret (false, buf)
      else if in_block (blk_size d) offset size then mret (true, mem_copy buf at_ (blk_mem d) offset size)
      else fault
  end.

Definition MemoryBackendWrite (offset : Z) (buf : mem) (at_ size : Z) : M MEMORY_BACKEND_CONTEXT bool :=
  b ← get;
  match mb_Data b with
  | None => mret false
  | Some d =>
      if mb_ReadOnly b then mret false
      else if mb_Size b <? (offset +₆₄ size) then mret false
      else
        d ← of_opt (blk_write d offset buf at_ size);
        modify (fun b => b <| mb_Data := Some d |>);;
        mret true
  end.

Definition MemoryBackendFlush : M MEMORY_BACKEND_CONTEXT bool := mret true.

Definition MemoryBackendWriteZeroes (offset size : Z) : M MEMORY_BACKEND_CONTEXT bool :=
  b ← get;
  match mb_Data b with
  | None => mret false
  | Some d =>
      if mb_ReadOnly b then mret false
      else if mb_Size b <? (offset +₆₄ size) then mret false
      else
        d ← of_opt (blk_zero d offset size);
        modify (fun b => b <| mb_Data := Some d |>);;
        mret true
  end.

Definition BackendMemoryCreate (calloc VirtualAlloc : bool) (pConfig : BACKEND_CONFIG) : option MEMORY_BACKEND_CONTEXT :=
  if bc_Size pConfig =? 0 then None
  else
    let maxSize := 4 * 1024 * 1024 * 1024 in
    let actualSize := if maxSize <? bc_Size pConfig then maxSize else bc_Size pConfig in
    if negb calloc then None
    else if negb VirtualAlloc then None
    else Some (mkMemoryBackend actualSize (if 0 <? bc_BlockSize pConfig then bc_BlockSize pConfig else 512)
                 (bc_ReadOnly pConfig) (Some (Block actualSize mem_zero))).

(** ** The file back end *)

Definition file_update (f : HFILE) : M FILE_BACKEND_CONTEXT unit := modify (fun b => b <| fb_FileHandle := Some f |>).

Definition FileBackendRead (offset : Z) (buf : mem) (at_ size : Z) : M FILE_BACKEND_CONTEXT (bool * mem) :=
  b ← get;
  match fb_FileHandle b with
  | None => mret (false, buf)
  | Some f =>
      if fb_Size b <? (offset +₆₄ size) then mret (false, buf)
      else
        let '(ok, f) := SetFilePointerEx f (s64 offset) in
        file_update f;;
        if negb ok then mret (false, buf)
        else
          let '(result, bytesRead, data, f) := ReadFile f size in
          file_update f;;
          let buf := mem_copy buf at_ data 0 bytesRead in
          if negb result || negb (bytesRead =? size) then mret (false, buf) else mret (true, buf)
  end.

Definition FileBackendWrite (offset : Z) (buf : mem) (at_ size : Z) : M FILE_BACKEND_CONTEXT bool :=
  b ← get;
  match fb_FileHandle b with
  | None => mret false
  | Some f =>
      if fb_ReadOnly b then mret false
      else if fb_Size b <? (offset +₆₄ size) then mret false
      else
        let '(ok, f) := SetFilePointerEx f (s64 offset) in
        file_update f;;
        if negb ok then mret false
        else
          let '(result, bytesWritten, f) := WriteFile f buf at_ size in
          file_update f;;
          if negb result || negb (bytesWritten =? size) then mret false else mret true
  end.

Definition FileBackendFlush : M FILE_BACKEND_CONTEXT bool :=
  b ← get;
  match fb_FileHandle b with
  | None => mret false
  | Some f => let '(result, f) := FlushFileBuffers f in file_update f;; mret result
  end.

Definition chunkSize : Z := 64 * 1024.

(** The loop [while (remaining > 0)]. *)
Fixpoint zero_chunks (fuel : nat) (f : HFILE) (remaining : Z) : M FILE_BACKEND_CONTEXT bool :=
  if remaining <=? 0 then mret true
  else match fuel with
  | O => out_of_fuel
  | S fuel =>
      let toWrite := if chunkSize <? remaining then chunkSize else remaining in
      let '(result, bytesWritten, f) := WriteFile f mem_zero 0 toWrite in
      file_update f;;
      if negb result || negb (bytesWritten =? toWrite) then mret false
      else zero_chunks fuel f (remaining - toWrite)
  end.

(** One round for each chunk. *)
Definition zero_chunks_fuel (size : Z) : nat := Z.to_nat (size / chunkSize + 1).

Definition FileBackendWriteZeroes (offset size : Z) : M FILE_BACKEND_CONTEXT bool :=
  b ← get;
  match fb_FileHandle b with
  | None => mret false
  | Some f =>
      if fb_ReadOnly b then mret false
      else if fb_Size b <? (offset +₆₄ size) then mret false
      else
        let '(ok, f) := SetFilePointerEx f (s64 offset) in
        file_update f;;
        if negb ok then mret false else zero_chunks (zero_chunks_fuel size) f size
  end.

Definition BackendFileCreate (calloc : bool) (pConfig : BACKEND_CONFIG) : option FILE_BACKEND_CONTEXT :=
  if (bc_Size pConfig =? 0) || match bc_FilePath pConfig with [] => true | c :: _ => c =? 0 end then None
  else if negb calloc then None
  else
    match CreateFileW (bc_FilePath pConfig) (bc_ReadOnly pConfig) (bc_DirectIO pConfig) with
    | None => None
    | Some f =>
        let ctx size f := mkFileBackend size (if 0 <? bc_BlockSize pConfig then bc_BlockSize pConfig else 512)
                            (bc_ReadOnly pConfig) (bc_DirectIO pConfig) (bc_Preallocate pConfig) (Some f) (bc_FilePath pConfig) in
        match GetFileSizeEx f with
        | None => None
        | Some fileSize =>
            if (u64 fileSize <? bc_Size pConfig) && negb (bc_ReadOnly pConfig) then
              let '(ok1, f) := SetFilePointerEx f (s64 (bc_Size pConfig)) in
              if negb ok1 then None
              else
                let '(ok2, f) := SetEndOfFile f in
                if negb ok2 then None
                else
                  let f := if bc_Preallocate pConfig then (SetFileValidData f (s64 (bc_Size pConfig))).2 else f in
                  Some (ctx (bc_Size pConfig) f)
            else if (0 <? u64 fileSize) && (u64 fileSize <? bc_Size pConfig) then Some (ctx (u64 fileSize) f)
            else Some (ctx (bc_Size pConfig) f)
        end
    end.

(** ** The dispatch *)

Definition BackendCreate (calloc VirtualAlloc : bool) (pConfig : BACKEND_CONFIG) : option BACKEND_CONTEXT :=
  match bc_Type pConfig with
  | BACKEND_TYPE_MEMORY => MemoryBackend <$> BackendMemoryCreate calloc VirtualAlloc pConfig
  | BACKEND_TYPE_FILE => FileBackend <$> BackendFileCreate calloc pConfig
  end.

(** Run the operation of the type of the back end. *)
Definition dispatch {A} (mem_op : M MEMORY_BACKEND_CONTEXT A) (file_op : M FILE_BACKEND_CONTEXT A) : M BACKEND_CONTEXT A :=
  c ← get;
  match c with
  | MemoryBackend b => r ← of_res (mem_op b); modify (fun _ => MemoryBackend r.2);; mret r.1
  | FileBackend b => r ← of_res (file_op b); modify (fun _ => FileBackend r.2);; mret r.1
  end.

Definition BackendRead (offset : Z) (buf : mem) (at_ size : Z) : M BACKEND_CONTEXT (bool * mem) :=
  dispatch (MemoryBackendRead offset buf at_ size) (FileBackendRead offset buf at_ size).
Definition BackendWrite (offset : Z) (buf : mem) (at_ size : Z) : M BACKEND_CONTEXT bool :=
  dispatch (MemoryBackendWrite offset buf at_ size) (FileBackendWrite offset buf at_ size).
Definition BackendFlush : M BACKEND_CONTEXT bool := dispatch MemoryBackendFlush FileBackendFlush.
Definition BackendWriteZeroes (offset size : Z) : M BACKEND_CONTEXT bool :=
  dispatch (MemoryBackendWriteZeroes offset size) (FileBackendWriteZeroes offset size).
Definition BackendGetSize (c : BACKEND_CONTEXT) : Z :=
  match c with MemoryBackend b => mb_Size b | FileBackend b => fb_Size b end.
Definition BackendGetBlockSize (c : BACKEND_CONTEXT) : Z :=
  match c with MemoryBackend b => mb_BlockSize b | FileBackend b => fb_BlockSize b end.
Definition BackendIsReadOnly (c : BACKEND_CONTEXT) : bool :=
  match c with MemoryBackend b => mb_ReadOnly b | FileBackend b => fb_ReadOnly b end.

(** ** What a back end promises *)

Context {L : Win32FileLaws F}.

(** The bytes that are stored. *)
Definition backend_byte (c : BACKEND_CONTEXT) (a : Z) : Z :=
  match c with
  | MemoryBackend b => match mb_Data b with Some d => rd8 (blk_mem d) a | None => 0 end
  | FileBackend b => match fb_FileHandle b with Some f => wf_byte f a | None => 0 end
  end.

Definition backend_ok (c : BACKEND_CONTEXT) : Prop :=
  match c with
  | MemoryBackend b => 0 <= mb_Size b < 2 ^ 63 /\ exists d, mb_Data b = Some d /\ blk_size d = mb_Size b
  | FileBackend b => 0 <= fb_Size b < 2 ^ 63 /\ is_Some (fb_FileHandle b)
  end.

Definition in_memory (c : BACKEND_CONTEXT) : bool := match c with MemoryBackend _ => true | FileBackend _ => false end.

(** An operation keeps the back end usable, its size and its mode. *)
Definition backend_same (c c' : BACKEND_CONTEXT) : Prop :=
  backend_ok c' /\ BackendGetSize c' = BackendGetSize c /\ BackendIsReadOnly c' = BackendIsReadOnly c /\
  BackendGetBlockSize c' = BackendGetBlockSize c /\ in_memory c' = in_memory c.

Lemma dispatch_memory {A} (m : M MEMORY_BACKEND_CONTEXT A) (f : M FILE_BACKEND_CONTEXT A) b a b' :
  m b = Ok (a, b') -> dispatch m f (MemoryBackend b) = Ok (a, MemoryBackend b').
Proof. intros H. unfold dispatch. by rewrite bind_get, (bind_res _ _ _ _ H). Qed.

Lemma dispatch_file {A} (m : M MEMORY_BACKEND_CONTEXT A) (f : M FILE_BACKEND_CONTEXT A) b a b' :
  f b = Ok (a, b') -> dispatch m f (FileBackend b) = Ok (a, FileBackend b').
Proof. intros H. unfold dispatch. by rewrite bind_get, (bind_res _ _ _ _ H). Qed.

(** A file back end whose handle is [f]. *)
Lemma file_same b f : backend_ok (FileBackend b) -> backend_same (FileBackend b) (FileBackend (b <| fb_FileHandle := Some f |>)).
Proof. intros [H _]. destruct b. split; [split; [done | by eexists]|]. done. Qed.

Lemma backend_same_refl c : backend_ok c -> backend_same c c.
Proof. by intros. Qed.

Lemma BackendRead_spec c offset buf at_ size :
  backend_ok c -> 0 <= offset -> 0 <= size < 2 ^ 32 -> offset + size < 2 ^ 64 ->
  exists r buf' c', BackendRead offset buf at_ size c = Ok ((r, buf'), c') /\ backend_same c c' /\
    (forall a, backend_byte c' a = backend_byte c a) /\
    (r = true -> offset + size <= BackendGetSize c /\
       forall i, rd8 buf' i = if decide (at_ <= i < at_ + size) then backend_byte c (offset + (i - at_)) else rd8 buf i) /\
    (forall i, ~ (at_ <= i < at_ + size) -> rd8 buf' i = rd8 buf i) /\
    (in_memory c = true -> offset + size <= BackendGetSize c -> r = true).
Proof.
  intros Hok Ho Hs Hsum. destruct c as [b|b].
  - destruct Hok as (Hsz & d & Hd & Hbd).
    set (in_range := bool_decide (offset + size <= mb_Size b)).
    exists in_range, (if in_range then mem_copy buf at_ (blk_mem d) offset size else buf), (MemoryBackend b).
    split; [|split; [split; [split; [done|by exists d]|done]|split; [done|]]].
    + apply dispatch_memory. unfold MemoryBackendRead. rewrite bind_get, Hd, u64_small by lia. unfold in_range.
      case_bool_decide; [rewrite (proj2 (Z.ltb_ge _ _)) by lia | by rewrite (proj2 (Z.ltb_lt _ _)) by lia].
      by rewrite in_block_true by lia.
    + cbn [backend_byte]. rewrite Hd. unfold in_range. case_bool_decide; (split; [intros ?|split]); try done.
      * split; [done|]. intros i. case_decide; [by rewrite rd8_copy_in | by rewrite rd8_copy_out by lia].
      * intros i Hi. by rewrite rd8_copy_out by lia.
  - destruct Hok as (Hsz & f & Hf). unfold BackendRead.
    destruct (Z.le_gt_cases (offset + size) (fb_Size b)) as [Hr|Hr].
    2: { exists false, buf, (FileBackend b). split; [|split; [split; [split; [done|by eexists]|done]|by repeat split]].
         apply dispatch_file. unfold FileBackendRead. by rewrite bind_get, Hf, u64_small, (proj2 (Z.ltb_lt _ _)) by lia. }
    destruct (SetFilePointerEx f offset) as [ok f1] eqn:E1. destruct (ReadFile f1 size) as [[[r k] data] f2] eqn:E2.
    destruct (readfile_law _ _ _ _ _ _ E2 (proj1 Hs)) as (B2 & Hk & Hdata).
    set (f' := if ok then f2 else f1). set (r' := ok && r && (k =? size)). set (buf' := if ok then mem_copy buf at_ data 0 k else buf).
    exists r', buf', (FileBackend (b <| fb_FileHandle := Some f' |>)).
    assert (forall a, wf_byte f1 a = wf_byte f a) as B1 by (destruct ok; [by eapply seek_law | by eapply seek_fail]).
    split; [|split; [by apply file_same; split; [|eexists]|split; [|split; [|split; [|done]]]]].
    + apply dispatch_file. unfold FileBackendRead. rewrite bind_get, Hf, u64_small, (proj2 (Z.ltb_ge _ _)), s64_small, E1 by lia.
      unfold file_update. cbv beta iota. rewrite bind_modify. unfold r', buf', f'. destruct ok; [|by destruct b].
      cbn [negb]. rewrite E2. cbv beta iota. rewrite bind_modify. destruct r, (k =? size); by destruct b.
    + intros a. cbn [backend_byte fb_FileHandle]. rewrite Hf. destruct b; cbn. unfold f'. destruct ok; [by rewrite B2, B1|apply B1].
    + unfold r', buf'. cbn [backend_byte BackendGetSize]. rewrite Hf. intros [[-> ->]%andb_prop Hks%Z.eqb_eq]%andb_prop.
      split; [done|]. destruct (seek_law _ _ _ E1) as [Hpos _]. subst k. intros i.
      case_decide; [rewrite rd8_copy_in, Hdata by (done || lia) | by rewrite rd8_copy_out by lia].
      rewrite B1, Hpos. done.
    + intros i Hi. unfold buf'. destruct ok; [|done]. by rewrite rd8_copy_out by lia.
Qed.

(** The memory back end with other data. *)
Lemma memory_same b d : 0 <= mb_Size b < 2 ^ 63 -> blk_size d = mb_Size b ->
  backend_same (MemoryBackend b) (MemoryBackend (b <| mb_Data := Some d |>)).
Proof. intros H1 H2. destruct b. split; [split; [done | by exists d]|]. done. Qed.

Lemma BackendWrite_spec c offset buf at_ size :
  backend_ok c -> 0 <= offset -> 0 <= size < 2 ^ 32 -> offset + size < 2 ^ 64 ->
  exists r c', BackendWrite offset buf at_ size c = Ok (r, c') /\ backend_same c c' /\
    (r = true -> BackendIsReadOnly c = false /\ offset + size <= BackendGetSize c /\
       forall a, backend_byte c' a = if decide (offset <= a < offset + size) then rd8 buf (at_ + (a - offset)) else backend_byte c a) /\
    (forall a, ~ (offset <= a < offset + size) -> backend_byte c' a = backend_byte c a) /\
    (BackendIsReadOnly c = true \/ BackendGetSize c < offset + size -> r = false /\ c' = c) /\
    (in_memory c = true -> BackendIsReadOnly c = false -> offset + size <= BackendGetSize c -> r = true).
Proof.
  intros Hok Ho Hs Hsum.
  destruct (BackendIsReadOnly c) eqn:Hro.
  { exists false, c. split; [|by repeat split]. destruct c as [b|b]; cbn in Hro.
    - destruct Hok as (Hsz & d & Hd & _). apply dispatch_memory. unfold MemoryBackendWrite. by rewrite bind_get, Hd, Hro.
    - destruct Hok as (Hsz & f & Hf). apply dispatch_file. unfold FileBackendWrite. by rewrite bind_get, Hf, Hro. }
  destruct (Z.le_gt_cases (offset + size) (BackendGetSize c)) as [Hr|Hr].
  2: { exists false, c. split; [|repeat split; try done; intros; lia]. destruct c as [b|b]; cbn in Hro, Hr.
    - destruct Hok as (Hsz & d & Hd & _). apply dispatch_memory. unfold MemoryBackendWrite.
      by rewrite bind_get, Hd, Hro, u64_small, (proj2 (Z.ltb_lt _ _)) by lia.
    - destruct Hok as (Hsz & f & Hf). apply dispatch_file. unfold FileBackendWrite.
      by rewrite bind_get, Hf, Hro, u64_small, (proj2 (Z.ltb_lt _ _)) by lia. }
  destruct c as [b|b]; cbn in Hro, Hr.
  - destruct Hok as (Hsz & d & Hd & Hbd). set (d' := Block (blk_size d) (mem_copy (blk_mem d) offset buf at_ size)).
    exists true, (MemoryBackend (b <| mb_Data := Some d' |>)). split; [|split; [by apply memory_same|]].
    + apply dispatch_memory. unfold MemoryBackendWrite. rewrite bind_get, Hd, Hro, u64_small, (proj2 (Z.ltb_ge _ _)) by lia.
      assert (blk_write d offset buf at_ size = Some d') as Hw by (unfold blk_write; by rewrite in_block_true by lia).
      by rewrite (bind_opt _ _ _ _ Hw).
    + cbn [backend_byte]. rewrite Hd. destruct b; unset. cbn in *. split; [|split; [|split; [|done]]].
      * intros _. split; [done|]. split; [done|]. intros a. case_decide; [by rewrite rd8_copy_in | by rewrite rd8_copy_out].
      * intros a Ha. by rewrite rd8_copy_out.
      * intros [?|?]; [congruence|lia].
  - destruct Hok as (Hsz & f & Hf).
    destruct (SetFilePointerEx f offset) as [ok f1] eqn:E1. destruct (WriteFile f1 buf at_ size) as [[r k] f2] eqn:E2.
    set (f' := if ok then f2 else f1). set (r' := ok && r && (k =? size)).
    exists r', (FileBackend (b <| fb_FileHandle := Some f' |>)).
    assert (forall a, wf_byte f1 a = wf_byte f a) as B1 by (destruct ok; [by eapply seek_law | by eapply seek_fail]).
    split; [|split; [by apply file_same; split; [|eexists]|split; [|split; [|split; [|done]]]]].
    + apply dispatch_file. unfold FileBackendWrite. rewrite bind_get, Hf, Hro, u64_small, (proj2 (Z.ltb_ge _ _)), s64_small, E1 by lia.
      unfold file_update. cbv beta iota. rewrite bind_modify. unfold r', f'. destruct ok; [|by destruct b].
      cbn [negb]. rewrite E2. cbv beta iota. rewrite bind_modify. destruct r, (k =? size); by destruct b.
    + unfold r'. intros [[-> ->]%andb_prop Hks%Z.eqb_eq]%andb_prop. split; [done|]. split; [done|]. intros a.
      destruct (seek_law _ _ _ E1) as [Hpos _]. destruct (writefile_law _ _ _ _ _ _ E2 Hks) as [_ Hb].
      cbn [backend_byte]. rewrite Hf. destruct b; cbn. unfold f'. by rewrite Hb, Hpos, B1.
    + intros a Ha. cbn [backend_byte]. rewrite Hf. destruct b; cbn. unfold f'. destruct ok; [|apply B1].
      destruct (seek_law _ _ _ E1) as [Hpos _]. rewrite (writefile_frame _ _ _ _ _ _ _ E2); [apply B1|by rewrite Hpos].
    + intros [?|?]; [congruence|cbn in *; lia].
Qed.

(** The chunks cover the range: with the fuel given the loop ends. *)
Lemma zero_chunks_run fuel : forall f remaining b,
  0 <= remaining <= chunkSize * Z.of_nat fuel ->
  exists r f', zero_chunks fuel f remaining (b <| fb_FileHandle := Some f |>) = Ok (r, b <| fb_FileHandle := Some f' |>) /\
    (r = true -> forall a, wf_pos f <= a < wf_pos f + remaining -> wf_byte f' a = 0) /\
    (forall a, ~ (wf_pos f <= a < wf_pos f + remaining) -> wf_byte f' a = wf_byte f a).
Proof.
  induction fuel as [|fuel IH]; intros f n b Hn; cbn [zero_chunks].
  { rewrite (proj2 (Z.leb_le _ _)) by lia. exists true, f. split; [done|]. split; [lia|done]. }
  destruct (Z.leb_spec n 0). { exists true, f. split; [done|]. split; [lia|done]. }
  set (k := if chunkSize <? n then chunkSize else n).
  assert (0 < k <= n /\ 0 <= n - k <= chunkSize * Z.of_nat fuel) as [Hk Hfuel].
  { change chunkSize with 65536 in *. unfold k. destruct (Z.ltb_spec 65536 n); lia. }
  destruct (WriteFile f mem_zero 0 k) as [[r w] f1] eqn:E. unfold file_update. cbv beta iota zeta. rewrite bind_modify.
  replace (b <| fb_FileHandle := Some f |> <| fb_FileHandle := Some f1 |>) with (b <| fb_FileHandle := Some f1 |>) by (by destruct b).
  pose proof (writefile_frame _ _ _ _ _ _ _ E) as Hfr.
  destruct r; cbn [negb orb].
  2: { exists false, f1. split; [done|]. split; [done|]. intros a Ha. apply Hfr. lia. }
  destruct (Z.eqb_spec w k) as [Hw|Hw]; cbn [negb].
  2: { exists false, f1. split; [done|]. split; [done|]. intros a Ha. apply Hfr. lia. }
  destruct (writefile_law _ _ _ _ _ _ E Hw) as [Hpos Hby].
  destruct (IH f1 (n - k) b Hfuel) as (r' & f' & Hrun & Hz & Hout). rewrite Hpos in Hz, Hout.
  exists r', f'. split; [done|]. split.
  - intros Hr a Ha. destruct (Z.lt_ge_cases a (wf_pos f + k)).
    + rewrite Hout, Hby, decide_True by lia. done.
    + apply Hz; [done|lia].
  - intros a Ha. rewrite Hout, Hby, decide_False by lia. done.
Qed.

Lemma BackendWriteZeroes_spec c offset size :
  backend_ok c -> 0 <= offset -> 0 <= size -> offset + size < 2 ^ 64 ->
  exists r c', BackendWriteZeroes offset size c = Ok (r, c') /\ backend_same c c' /\
    (r = true -> BackendIsReadOnly c = false /\ offset + size <= BackendGetSize c /\
       forall a, offset <= a < offset + size -> backend_byte c' a = 0) /\
    (forall a, ~ (offset <= a < offset + size) -> backend_byte c' a = backend_byte c a) /\
    (BackendIsReadOnly c = true \/ BackendGetSize c < offset + size -> r = false /\ c' = c) /\
    (in_memory c = true -> BackendIsReadOnly c = false -> offset + size <= BackendGetSize c -> r = true).
Proof.
  intros Hok Ho Hs Hsum.
  destruct (BackendIsReadOnly c) eqn:Hro.
  { exists false, c. split; [|by repeat split]. destruct c as [b|b]; cbn in Hro.
    - destruct Hok as (Hsz & d & Hd & _). apply dispatch_memory. unfold MemoryBackendWriteZeroes. by rewrite bind_get, Hd, Hro.
    - destruct Hok as (Hsz & f & Hf). apply dispatch_file. unfold FileBackendWriteZeroes. by rewrite bind_get, Hf, Hro. }
  destruct (Z.le_gt_cases (offset + size) (BackendGetSize c)) as [Hr|Hr].
  2: { exists false, c. split; [|repeat split; try done; intros; lia]. destruct c as [b|b]; cbn in Hro, Hr.
    - destruct Hok as (Hsz & d & Hd & _). apply dispatch_memory. unfold MemoryBackendWriteZeroes.
      by rewrite bind_get, Hd, Hro, u64_small, (proj2 (Z.ltb_lt _ _)) by lia.
    - destruct Hok as (Hsz & f & Hf). apply dispatch_file. unfold FileBackendWriteZeroes.
      by rewrite bind_get, Hf, Hro, u64_small, (proj2 (Z.ltb_lt _ _)) by lia. }
  destruct c as [b|b]; cbn in Hro, Hr.
  - destruct Hok as (Hsz & d & Hd & Hbd). set (d' := Block (blk_size d) (mem_fill (blk_mem d) offset size 0)).
    exists true, (MemoryBackend (b <| mb_Data := Some d' |>)). split; [|split; [by apply memory_same|]].
    + apply dispatch_memory. unfold MemoryBackendWriteZeroes. rewrite bind_get, Hd, Hro, u64_small, (proj2 (Z.ltb_ge _ _)) by lia.
      assert (blk_zero d offset size = Some d') as Hw by (unfold blk_zero; by rewrite in_block_true by lia).
      by rewrite (bind_opt _ _ _ _ Hw).
    + cbn [backend_byte]. rewrite Hd. destruct b; unset. cbn in *. split; [|split; [|split; [|done]]].
      * intros _. split; [done|]. split; [done|]. intros a Ha. by rewrite rd8_fill_in.
      * intros a Ha. by rewrite rd8_fill_out.
      * intros [?|?]; [congruence|lia].
  - destruct Hok as (Hsz & f & Hf).
    destruct (SetFilePointerEx f offset) as [ok f1] eqn:E1.
    assert (forall a, wf_byte f1 a = wf_byte f a) as B1 by (destruct ok; [by eapply seek_law | by eapply seek_fail]).
    assert (exists r f', FileBackendWriteZeroes offset size b = Ok (r, b <| fb_FileHandle := Some f' |>) /\
      (r = true -> forall a, offset <= a < offset + size -> wf_byte f' a = 0) /\
      (forall a, ~ (offset <= a < offset + size) -> wf_byte f' a = wf_byte f a)) as (r & f' & Hrun & Hz & Hout).
    { unfold FileBackendWriteZeroes. rewrite bind_get, Hf, Hro, u64_small, (proj2 (Z.ltb_ge _ _)), s64_small, E1 by lia.
      unfold file_update. cbv beta iota. rewrite bind_modify. destruct ok; cbn [negb]; [|by exists false, f1].
      destruct (seek_law _ _ _ E1) as [Hpos _].
      destruct (zero_chunks_run (zero_chunks_fuel size) f1 size b) as (r & f' & Hrun & Hz & Hout).
      { unfold zero_chunks_fuel. change chunkSize with 65536. Z.div_mod_to_equations. lia. }
      rewrite Hpos in Hz, Hout. exists r, f'. split; [done|]. split; [done|]. intros a Ha. by rewrite Hout, B1. }
    exists r, (FileBackend (b <| fb_FileHandle := Some f' |>)).
    split; [by apply dispatch_file|]. split; [by apply file_same; split; [|eexists]|]. cbn [backend_byte]. rewrite Hf.
    destruct b; cbn in *. split; [by auto|]. split; [done|]. split; [|done]. intros [?|?]; [congruence|lia].
Qed.

Lemma BackendFlush_spec c : backend_ok c ->
  exists r c', BackendFlush c = Ok (r, c') /\ backend_same c c' /\ (forall a, backend_byte c' a = backend_byte c a) /\
    (in_memory c = true -> r = true).
Proof.
  intros Hok. destruct c as [b|b].
  - by exists true, (MemoryBackend b).
  - pose proof Hok as (Hsz & f & Hf). destruct (FlushFileBuffers f) as [r f'] eqn:E.
    exists r, (FileBackend (b <| fb_FileHandle := Some f' |>)). split; [|split; [by apply file_same|split; [|done]]].
    + apply dispatch_file. unfold FileBackendFlush. by rewrite bind_get, Hf, E.
    + intros a. cbn [backend_byte]. rewrite Hf. destruct b; cbn. by eapply flush_law.
Qed.
End Backend.

#[export] Hint Unfold set_mb_Size set_mb_BlockSize set_mb_ReadOnly set_mb_Data set_fb_Size set_fb_BlockSize
  set_fb_ReadOnly set_fb_DirectIO set_fb_Preallocate set_fb_FileHandle set_fb_FilePath : setters.

(** ** A concrete file, for the witnesses: its bytes and its position *)

Module TestFiles.
#[local] Instance test_files : Win32Files := {|
  HFILE := mem * Z;
  CreateFileW _ _ _ := Some (mem_zero, 0);
  GetFileSizeEx _ := Some 0;
  SetFilePointerEx f p := (true, (f.1, p));
  SetEndOfFile f := (true, f);
  SetFileValidData f _ := (true, f);
  ReadFile f n := (true, n, fun i => rd8 f.1 (f.2 + i), (f.1, f.2 + n));
  WriteFile f m o n := (true, n, (mem_copy f.1 f.2 m o n, f.2 + n));
  FlushFileBuffers f := (true, f)
|}.
#[local] Instance test_file_laws : Win32FileLaws test_files.
Proof.
  unshelve refine {| wf_byte f a := rd8 f.1 a; wf_pos f := f.2 |}; cbn.
  - by intros f p f' [= <-].
  - done.
  - intros f n r k d f' [= <- <- <- <-] Hn. split; [done|]. split; [lia|]. intros _ i Hi. exact (u8_small _ (rd8_range _ _)).
  - intros f m o n k f' [= <- <-] _. split; [done|]. intros a. cbn.
    case_decide; [by rewrite rd8_copy_in | by rewrite rd8_copy_out].
  - intros f m o n r k f' [= <- <- <-] a Ha. cbn. by rewrite rd8_copy_out.
  - by intros f r f' [= <- <-].
Defined.
End TestFiles.
