(* ===== verification/ServerState.v ===== *)
(** The state of the user-mode service: the structures of
    [vnvme-server/admin_commands.h], [io_commands.h] and [command_engine.h], and
    the record of everything a command handler can change.

    The service maps the shared memory of the driver, so its state has the same
    [SharedMemory] record; pointers into it are offsets.  An access of the data
    buffer or of a queue that would leave the queue memory is a fault. *)
From S2P Require Import Prelude NvmeSpec Kernel Config Storage State Shm Backend.
Open Scope Z_scope.
Open Scope c_scope.

(** A queue as the service sees it; pointers into the shared memory are offsets. *)
Record ADMIN_IO_QUEUE_INFO := mkQueueInfo {
  qi_created : bool;
  qi_capacity : Z;
  qi_cqId : Z;
  qi_phase : Z;
  qi_sqBase : option Z;
  qi_cqBase : option Z;
  qi_descriptor : option Z  (* index into the descriptor array *)
}.
Definition etaQueueInfo r :=
  mkQueueInfo (qi_created r) (qi_capacity r) (qi_cqId r) (qi_phase r) (qi_sqBase r) (qi_cqBase r)
    (qi_descriptor r).
#[export] Instance set_qi_created : Setter qi_created := ltac:(mk_setter etaQueueInfo).
#[export] Instance set_qi_capacity : Setter qi_capacity := ltac:(mk_setter etaQueueInfo).
#[export] Instance set_qi_cqId : Setter qi_cqId := ltac:(mk_setter etaQueueInfo).
#[export] Instance set_qi_phase : Setter qi_phase := ltac:(mk_setter etaQueueInfo).
#[export] Instance set_qi_sqBase : Setter qi_sqBase := ltac:(mk_setter etaQueueInfo).
#[export] Instance set_qi_cqBase : Setter qi_cqBase := ltac:(mk_setter etaQueueInfo).
#[export] Instance set_qi_descriptor : Setter qi_descriptor := ltac:(mk_setter etaQueueInfo).

(** What Identify Controller reports. *)
Record ADMIN_CONTROLLER_INFO := mkControllerInfo {
  ci_serialNumber : list Z;  (* 20 bytes *)
  ci_modelNumber : list Z;  (* 40 bytes *)
  ci_firmwareRevision : list Z;  (* 8 bytes *)
  ci_vendorId : Z;
  ci_maxNamespaces : Z;
  ci_maxQueueEntries : Z
}.
Definition etaControllerInfo r :=
  mkControllerInfo (ci_serialNumber r) (ci_modelNumber r) (ci_firmwareRevision r) (ci_vendorId r)
    (ci_maxNamespaces r) (ci_maxQueueEntries r).
#[export] Instance set_ci_serialNumber : Setter ci_serialNumber := ltac:(mk_setter etaControllerInfo).
#[export] Instance set_ci_modelNumber : Setter ci_modelNumber := ltac:(mk_setter etaControllerInfo).
#[export] Instance set_ci_firmwareRevision : Setter ci_firmwareRevision := ltac:(mk_setter etaControllerInfo).
#[export] Instance set_ci_vendorId : Setter ci_vendorId := ltac:(mk_setter etaControllerInfo).
#[export] Instance set_ci_maxNamespaces : Setter ci_maxNamespaces := ltac:(mk_setter etaControllerInfo).
#[export] Instance set_ci_maxQueueEntries : Setter ci_maxQueueEntries := ltac:(mk_setter etaControllerInfo).

(** What Identify Namespace reports. *)
Record ADMIN_NAMESPACE_INFO := mkAdminNamespace {
  an_nsid : Z;
  an_size : Z;
  an_capacity : Z;
  an_blockSize : Z;
  an_metadataSize : Z;
  an_active : bool
}.
Definition etaAdminNamespace r :=
  mkAdminNamespace (an_nsid r) (an_size r) (an_capacity r) (an_blockSize r) (an_metadataSize r) (an_active r).
#[export] Instance set_an_nsid : Setter an_nsid := ltac:(mk_setter etaAdminNamespace).
#[export] Instance set_an_size : Setter an_size := ltac:(mk_setter etaAdminNamespace).
#[export] Instance set_an_capacity : Setter an_capacity := ltac:(mk_setter etaAdminNamespace).
#[export] Instance set_an_blockSize : Setter an_blockSize := ltac:(mk_setter etaAdminNamespace).
#[export] Instance set_an_metadataSize : Setter an_metadataSize := ltac:(mk_setter etaAdminNamespace).
#[export] Instance set_an_active : Setter an_active := ltac:(mk_setter etaAdminNamespace).

(** The context of the admin commands. *)
Record ADMIN_CMD_CONTEXT := mkAdminCtx {
  ac_shmBase : bool;
  ac_adminSqBase : option Z;
  ac_adminCqBase : option Z;
  ac_adminCqPhase : Z;
  ac_ioSq : list ADMIN_IO_QUEUE_INFO;  (* 16 of them *)
  ac_ioCq : list ADMIN_IO_QUEUE_INFO;  (* 16 of them *)
  ac_maxIoQueues : Z;
  ac_controller : ADMIN_CONTROLLER_INFO;
  ac_namespaces : list ADMIN_NAMESPACE_INFO;  (* 16 of them *)
  ac_namespaceCount : Z;
  ac_dataBuffer : option Z;
  ac_dataBufferSize : Z;
  ac_numQueues : Z;
  ac_arbitration : Z;
  ac_powerManagement : Z;
  ac_volatileWriteCache : Z;
  ac_commandsProcessed : Z;
  ac_errors : Z
}.
Definition etaAdminCtx r :=
  mkAdminCtx (ac_shmBase r) (ac_adminSqBase r) (ac_adminCqBase r) (ac_adminCqPhase r) (ac_ioSq r) (ac_ioCq r)
    (ac_maxIoQueues r) (ac_controller r) (ac_namespaces r) (ac_namespaceCount r) (ac_dataBuffer r)
    (ac_dataBufferSize r) (ac_numQueues r) (ac_arbitration r) (ac_powerManagement r) (ac_volatileWriteCache r)
    (ac_commandsProcessed r) (ac_errors r).
#[export] Instance set_ac_shmBase : Setter ac_shmBase := ltac:(mk_setter etaAdminCtx).
#[export] Instance set_ac_adminSqBase : Setter ac_adminSqBase := ltac:(mk_setter etaAdminCtx).
#[export] Instance set_ac_adminCqBase : Setter ac_adminCqBase := ltac:(mk_setter etaAdminCtx).
#[export] Instance set_ac_adminCqPhase : Setter ac_adminCqPhase := ltac:(mk_setter etaAdminCtx).
#[export] Instance set_ac_ioSq : Setter ac_ioSq := ltac:(mk_setter etaAdminCtx).
#[export] Instance set_ac_ioCq : Setter ac_ioCq := ltac:(mk_setter etaAdminCtx).
#[export] Instance set_ac_maxIoQueues : Setter ac_maxIoQueues := ltac:(mk_setter etaAdminCtx).
#[export] Instance set_ac_controller : Setter ac_controller := ltac:(mk_setter etaAdminCtx).
#[export] Instance set_ac_namespaces : Setter ac_namespaces := ltac:(mk_setter etaAdminCtx).
#[export] Instance set_ac_namespaceCount : Setter ac_namespaceCount := ltac:(mk_setter etaAdminCtx).
#[export] Instance set_ac_dataBuffer : Setter ac_dataBuffer := ltac:(mk_setter etaAdminCtx).
#[export] Instance set_ac_dataBufferSize : Setter ac_dataBufferSize := ltac:(mk_setter etaAdminCtx).
#[export] Instance set_ac_numQueues : Setter ac_numQueues := ltac:(mk_setter etaAdminCtx).
#[export] Instance set_ac_arbitration : Setter ac_arbitration := ltac:(mk_setter etaAdminCtx).
#[export] Instance set_ac_powerManagement : Setter ac_powerManagement := ltac:(mk_setter etaAdminCtx).
#[export] Instance set_ac_volatileWriteCache : Setter ac_volatileWriteCache := ltac:(mk_setter etaAdminCtx).
#[export] Instance set_ac_commandsProcessed : Setter ac_commandsProcessed := ltac:(mk_setter etaAdminCtx).
#[export] Instance set_ac_errors : Setter ac_errors := ltac:(mk_setter etaAdminCtx).

(** The statistics of the I/O commands. *)
Record IO_STATS := mkIoStats {
  io_commandsProcessed : Z;
  io_bytesRead : Z;
  io_bytesWritten : Z;
  io_readCommands : Z;
  io_writeCommands : Z;
  io_flushCommands : Z;
  io_writeZeroesCommands : Z;
  io_errors : Z
}.
Definition etaIoStats r :=
  mkIoStats (io_commandsProcessed r) (io_bytesRead r) (io_bytesWritten r) (io_readCommands r)
    (io_writeCommands r) (io_flushCommands r) (io_writeZeroesCommands r) (io_errors r).
#[export] Instance set_io_commandsProcessed : Setter io_commandsProcessed := ltac:(mk_setter etaIoStats).
#[export] Instance set_io_bytesRead : Setter io_bytesRead := ltac:(mk_setter etaIoStats).
#[export] Instance set_io_bytesWritten : Setter io_bytesWritten := ltac:(mk_setter etaIoStats).
#[export] Instance set_io_readCommands : Setter io_readCommands := ltac:(mk_setter etaIoStats).
#[export] Instance set_io_writeCommands : Setter io_writeCommands := ltac:(mk_setter etaIoStats).
#[export] Instance set_io_flushCommands : Setter io_flushCommands := ltac:(mk_setter etaIoStats).
#[export] Instance set_io_writeZeroesCommands : Setter io_writeZeroesCommands := ltac:(mk_setter etaIoStats).
#[export] Instance set_io_errors : Setter io_errors := ltac:(mk_setter etaIoStats).

(** A namespace as the I/O commands see it. *)
Record IO_NAMESPACE_CONFIG := mkIoNamespace {
  in_nsid : Z;
  in_size : Z;
  in_blockSize : Z;
  in_active : bool;
  in_readOnly : bool
}.
Definition etaIoNamespace r :=
  mkIoNamespace (in_nsid r) (in_size r) (in_blockSize r) (in_active r) (in_readOnly r).
#[export] Instance set_in_nsid : Setter in_nsid := ltac:(mk_setter etaIoNamespace).
#[export] Instance set_in_size : Setter in_size := ltac:(mk_setter etaIoNamespace).
#[export] Instance set_in_blockSize : Setter in_blockSize := ltac:(mk_setter etaIoNamespace).
#[export] Instance set_in_active : Setter in_active := ltac:(mk_setter etaIoNamespace).
#[export] Instance set_in_readOnly : Setter in_readOnly := ltac:(mk_setter etaIoNamespace).

(** The context of the I/O commands; the back end it points at is the one of the service. *)
Record IO_CMD_CONTEXT := mkIoCtx {
  ic_adminCtx : bool;  (* set: it points at the admin context of the engine *)
  ic_dataBuffer : option Z;
  ic_dataBufferSize : Z;
  ic_namespaces : list IO_NAMESPACE_CONFIG;  (* 16 of them *)
  ic_namespaceCount : Z;
  ic_stats : IO_STATS;
  ic_debugMode : bool
}.
Definition etaIoCtx r :=
  mkIoCtx (ic_adminCtx r) (ic_dataBuffer r) (ic_dataBufferSize r) (ic_namespaces r) (ic_namespaceCount r)
    (ic_stats r) (ic_debugMode r).
#[export] Instance set_ic_adminCtx : Setter ic_adminCtx := ltac:(mk_setter etaIoCtx).
#[export] Instance set_ic_dataBuffer : Setter ic_dataBuffer := ltac:(mk_setter etaIoCtx).
#[export] Instance set_ic_dataBufferSize : Setter ic_dataBufferSize := ltac:(mk_setter etaIoCtx).
#[export] Instance set_ic_namespaces : Setter ic_namespaces := ltac:(mk_setter etaIoCtx).
#[export] Instance set_ic_namespaceCount : Setter ic_namespaceCount := ltac:(mk_setter etaIoCtx).
#[export] Instance set_ic_stats : Setter ic_stats := ltac:(mk_setter etaIoCtx).
#[export] Instance set_ic_debugMode : Setter ic_debugMode := ltac:(mk_setter etaIoCtx).

(** A namespace in the configuration of the engine. *)
Record CMD_ENGINE_NAMESPACE := mkEngineNamespace {
  en_size : Z;
  en_blockSize : Z;
  en_active : bool;
  en_readOnly : bool
}.
Definition etaEngineNamespace r :=
  mkEngineNamespace (en_size r) (en_blockSize r) (en_active r) (en_readOnly r).
#[export] Instance set_en_size : Setter en_size := ltac:(mk_setter etaEngineNamespace).
#[export] Instance set_en_blockSize : Setter en_blockSize := ltac:(mk_setter etaEngineNamespace).
#[export] Instance set_en_active : Setter en_active := ltac:(mk_setter etaEngineNamespace).
#[export] Instance set_en_readOnly : Setter en_readOnly := ltac:(mk_setter etaEngineNamespace).

(** The configuration of the engine. *)
Record CMD_ENGINE_CONFIG := mkEngineConfig {
  cc_shmAddress : bool;
  cc_serialNumber : list Z;
  cc_modelNumber : list Z;
  cc_firmwareRevision : list Z;
  cc_vendorId : Z;
  cc_namespaces : list CMD_ENGINE_NAMESPACE;  (* 16 of them *)
  cc_namespaceCount : Z;
  cc_maxIoQueues : Z;
  cc_debugMode : bool
}.
Definition etaEngineConfig r :=
  mkEngineConfig (cc_shmAddress r) (cc_serialNumber r) (cc_modelNumber r) (cc_firmwareRevision r) (cc_vendorId
    r) (cc_namespaces r) (cc_namespaceCount r) (cc_maxIoQueues r) (cc_debugMode r).
#[export] Instance set_cc_shmAddress : Setter cc_shmAddress := ltac:(mk_setter etaEngineConfig).
#[export] Instance set_cc_serialNumber : Setter cc_serialNumber := ltac:(mk_setter etaEngineConfig).
#[export] Instance set_cc_modelNumber : Setter cc_modelNumber := ltac:(mk_setter etaEngineConfig).
#[export] Instance set_cc_firmwareRevision : Setter cc_firmwareRevision := ltac:(mk_setter etaEngineConfig).
#[export] Instance set_cc_vendorId : Setter cc_vendorId := ltac:(mk_setter etaEngineConfig).
#[export] Instance set_cc_namespaces : Setter cc_namespaces := ltac:(mk_setter etaEngineConfig).
#[export] Instance set_cc_namespaceCount : Setter cc_namespaceCount := ltac:(mk_setter etaEngineConfig).
#[export] Instance set_cc_maxIoQueues : Setter cc_maxIoQueues := ltac:(mk_setter etaEngineConfig).
#[export] Instance set_cc_debugMode : Setter cc_debugMode := ltac:(mk_setter etaEngineConfig).

(** The statistics of the engine. *)
Record CMD_ENGINE_STATS := mkEngineStats {
  es_adminCommandsProcessed : Z;
  es_ioCommandsProcessed : Z;
  es_bytesRead : Z;
  es_bytesWritten : Z;
  es_errors : Z;
  es_pollCount : Z;
  es_eventWakeups : Z;
  es_lastPollTimestamp : Z
}.
Definition etaEngineStats r :=
  mkEngineStats (es_adminCommandsProcessed r) (es_ioCommandsProcessed r) (es_bytesRead r) (es_bytesWritten r)
    (es_errors r) (es_pollCount r) (es_eventWakeups r) (es_lastPollTimestamp r).
#[export] Instance set_es_adminCommandsProcessed : Setter es_adminCommandsProcessed := ltac:(mk_setter etaEngineStats).
#[export] Instance set_es_ioCommandsProcessed : Setter es_ioCommandsProcessed := ltac:(mk_setter etaEngineStats).
#[export] Instance set_es_bytesRead : Setter es_bytesRead := ltac:(mk_setter etaEngineStats).
#[export] Instance set_es_bytesWritten : Setter es_bytesWritten := ltac:(mk_setter etaEngineStats).
#[export] Instance set_es_errors : Setter es_errors := ltac:(mk_setter etaEngineStats).
#[export] Instance set_es_pollCount : Setter es_pollCount := ltac:(mk_setter etaEngineStats).
#[export] Instance set_es_eventWakeups : Setter es_eventWakeups := ltac:(mk_setter etaEngineStats).
#[export] Instance set_es_lastPollTimestamp : Setter es_lastPollTimestamp := ltac:(mk_setter etaEngineStats).

(** The command engine. *)
Record CMD_ENGINE_CONTEXT := mkEngine {
  ce_initialized : bool;
  ce_running : bool;
  ce_shm : bool;  (* the pointer is set *)
  ce_adminSqBase : Z;
  ce_adminCqBase : Z;
  ce_dataBuffer : option Z;
  ce_dataBufferSize : Z;
  ce_adminCtx : ADMIN_CMD_CONTEXT;
  ce_ioCtx : IO_CMD_CONTEXT;
  ce_ioQueueDescriptors : bool;
  ce_adminCqPhase : Z;
  ce_maxIoQueues : Z;
  ce_debugMode : bool;
  ce_commandEvent : bool;
  ce_useEventWait : bool;
  ce_stats : CMD_ENGINE_STATS
}.
Definition etaEngine r :=
  mkEngine (ce_initialized r) (ce_running r) (ce_shm r) (ce_adminSqBase r) (ce_adminCqBase r) (ce_dataBuffer
    r) (ce_dataBufferSize r) (ce_adminCtx r) (ce_ioCtx r) (ce_ioQueueDescriptors r) (ce_adminCqPhase r)
    (ce_maxIoQueues r) (ce_debugMode r) (ce_commandEvent r) (ce_useEventWait r) (ce_stats r).
#[export] Instance set_ce_initialized : Setter ce_initialized := ltac:(mk_setter etaEngine).
#[export] Instance set_ce_running : Setter ce_running := ltac:(mk_setter etaEngine).
#[export] Instance set_ce_shm : Setter ce_shm := ltac:(mk_setter etaEngine).
#[export] Instance set_ce_adminSqBase : Setter ce_adminSqBase := ltac:(mk_setter etaEngine).
#[export] Instance set_ce_adminCqBase : Setter ce_adminCqBase := ltac:(mk_setter etaEngine).
#[export] Instance set_ce_dataBuffer : Setter ce_dataBuffer := ltac:(mk_setter etaEngine).
#[export] Instance set_ce_dataBufferSize : Setter ce_dataBufferSize := ltac:(mk_setter etaEngine).
#[export] Instance set_ce_adminCtx : Setter ce_adminCtx := ltac:(mk_setter etaEngine).
#[export] Instance set_ce_ioCtx : Setter ce_ioCtx := ltac:(mk_setter etaEngine).
#[export] Instance set_ce_ioQueueDescriptors : Setter ce_ioQueueDescriptors := ltac:(mk_setter etaEngine).
#[export] Instance set_ce_adminCqPhase : Setter ce_adminCqPhase := ltac:(mk_setter etaEngine).
#[export] Instance set_ce_maxIoQueues : Setter ce_maxIoQueues := ltac:(mk_setter etaEngine).
#[export] Instance set_ce_debugMode : Setter ce_debugMode := ltac:(mk_setter etaEngine).
#[export] Instance set_ce_commandEvent : Setter ce_commandEvent := ltac:(mk_setter etaEngine).
#[export] Instance set_ce_useEventWait : Setter ce_useEventWait := ltac:(mk_setter etaEngine).
#[export] Instance set_ce_stats : Setter ce_stats := ltac:(mk_setter etaEngine).

Section ServerState.
Context {F : Win32Files}.

(** The service. *)
Record SvState := mkSv {
  sv_shm : SharedMemory;
  sv_engine : CMD_ENGINE_CONTEXT;
  sv_backend : option BACKEND_CONTEXT
}.
Definition etaSv r :=
  mkSv (sv_shm r) (sv_engine r) (sv_backend r).
#[export] Instance set_sv_shm : Setter sv_shm := ltac:(mk_setter etaSv).
#[export] Instance set_sv_engine : Setter sv_engine := ltac:(mk_setter etaSv).
#[export] Instance set_sv_backend : Setter sv_backend := ltac:(mk_setter etaSv).

(** ** Access to the state *)

Definition engine_update (f : CMD_ENGINE_CONTEXT -> CMD_ENGINE_CONTEXT) : M SvState unit := modify (fun s => s <| sv_engine ::= f |>).
Definition admin_update (f : ADMIN_CMD_CONTEXT -> ADMIN_CMD_CONTEXT) : M SvState unit := engine_update (fun e => e <| ce_adminCtx ::= f |>).
Definition io_update (f : IO_CMD_CONTEXT -> IO_CMD_CONTEXT) : M SvState unit := engine_update (fun e => e <| ce_ioCtx ::= f |>).
Definition io_count (f : IO_STATS -> IO_STATS) : M SvState unit := io_update (fun c => c <| ic_stats ::= f |>).
Definition sv_cb_update (f : VNVME_SHM_CONTROL_BLOCK -> VNVME_SHM_CONTROL_BLOCK) : M SvState unit :=
  modify (fun s => s <| sv_shm ::= fun m => m <| shm_cb ::= f |> |>).
Definition admin_ctx (s : SvState) : ADMIN_CMD_CONTEXT := ce_adminCtx (sv_engine s).
Definition io_ctx (s : SvState) : IO_CMD_CONTEXT := ce_ioCtx (sv_engine s).

(** Change [n] bytes of the shared memory at [off]. *)
Definition shm_bytes (off n : Z) (f : mem -> mem) : M SvState unit :=
  if queue_memory off n then modify (fun s => s <| sv_shm ::= fun m => m <| shm_mem ::= f |> |>) else fault.

(** An operation of the back end. *)
Definition on_backend {A} (op : M BACKEND_CONTEXT A) (c : BACKEND_CONTEXT) : M SvState A :=
  r ← of_res (op c);
  modify (fun s => s <| sv_backend := Some r.2 |>);;
  mret r.1.

(** strncpy of at most [n] characters into a zeroed array of [n]. *)
Fixpoint c_string (s : list Z) : list Z :=
  match s with
  | [] => []
  | c :: s => if c =? 0 then [] else c :: c_string s
  end.
Definition strncpy (s : list Z) (n : nat) : list Z :=
  let t := take n (c_string s) in t ++ replicate (n - length t) 0.
End ServerState.

#[export] Hint Unfold set_qi_created set_qi_capacity set_qi_cqId set_qi_phase set_qi_sqBase set_qi_cqBase
  set_qi_descriptor set_ci_serialNumber set_ci_modelNumber set_ci_firmwareRevision set_ci_vendorId
  set_ci_maxNamespaces set_ci_maxQueueEntries set_an_nsid set_an_size set_an_capacity set_an_blockSize
  set_an_metadataSize set_an_active set_ac_shmBase set_ac_adminSqBase set_ac_adminCqBase set_ac_adminCqPhase
  set_ac_ioSq set_ac_ioCq set_ac_maxIoQueues set_ac_controller set_ac_namespaces set_ac_namespaceCount
  set_ac_dataBuffer set_ac_dataBufferSize set_ac_numQueues set_ac_arbitration set_ac_powerManagement
  set_ac_volatileWriteCache set_ac_commandsProcessed set_ac_errors set_io_commandsProcessed set_io_bytesRead
  set_io_bytesWritten set_io_readCommands set_io_writeCommands set_io_flushCommands set_io_writeZeroesCommands
  set_io_errors set_in_nsid set_in_size set_in_blockSize set_in_active set_in_readOnly set_ic_adminCtx
  set_ic_dataBuffer set_ic_dataBufferSize set_ic_namespaces set_ic_namespaceCount set_ic_stats set_ic_debugMode
  set_en_size set_en_blockSize set_en_active set_en_readOnly set_cc_shmAddress set_cc_serialNumber
  set_cc_modelNumber set_cc_firmwareRevision set_cc_vendorId set_cc_namespaces set_cc_namespaceCount
  set_cc_maxIoQueues set_cc_debugMode set_es_adminCommandsProcessed set_es_ioCommandsProcessed set_es_bytesRead
  set_es_bytesWritten set_es_errors set_es_pollCount set_es_eventWakeups set_es_lastPollTimestamp
  set_ce_initialized set_ce_running set_ce_shm set_ce_adminSqBase set_ce_adminCqBase set_ce_dataBuffer
  set_ce_dataBufferSize set_ce_adminCtx set_ce_ioCtx set_ce_ioQueueDescriptors set_ce_adminCqPhase
  set_ce_maxIoQueues set_ce_debugMode set_ce_commandEvent set_ce_useEventWait set_ce_stats set_sv_shm
  set_sv_engine set_sv_backend : setters.
