(* ===== verification/ServerAdmin.v ===== *)
(** The admin commands of the user-mode service: [vnvme-server/admin_commands.c].

    A handler returns the status word and the value it stores in [*pResult];
    data goes to the data buffer of the shared memory. *)
From S2P Require Import Prelude NvmeSpec Kernel Config Storage State Shm Backend ServerState.
Open Scope Z_scope.
Open Scope c_scope.

Definition ADMIN_MAX_IO_QUEUES : Z := 16.

(** MakeStatus of this file; the other files of the service have [MakeStatus]. *)
Definition AdminMakeStatus (sct sc phase : Z) : Z :=
  u16 (Z.lor (Z.lor (Z.land phase 1) (Z.shiftl (Z.land sc 0xFF) 1)) (Z.shiftl (Z.land sct 0x7) 9)).

(** ** Initialisation *)

Definition zero_queue_info : ADMIN_IO_QUEUE_INFO := mkQueueInfo false 0 0 0 None None None.
Definition zero_admin_namespace : ADMIN_NAMESPACE_INFO := mkAdminNamespace 0 0 0 0 0 false.
Definition zero_controller : ADMIN_CONTROLLER_INFO := mkControllerInfo (replicate 20 0) (replicate 40 0) (replicate 8 0) 0 0 0.

Definition AdminCmdInit (shmBase : bool) (adminSqBase adminCqBase dataBuffer : option Z) (dataBufferSize : Z) : ADMIN_CMD_CONTEXT :=
  mkAdminCtx shmBase adminSqBase adminCqBase 1 (replicate 16 zero_queue_info) (replicate 16 zero_queue_info) ADMIN_MAX_IO_QUEUES
    (mkControllerInfo (strncpy (chars "VNVME0001234567890") 20) (strncpy (chars "Virtual NVMe Controller") 40)
       (strncpy (chars "1.0.0") 8) 0x1234 16 64)
    (replicate 16 zero_admin_namespace) 0 dataBuffer dataBufferSize (ADMIN_MAX_IO_QUEUES - 1) 0 0 1 0 0.

Definition AdminCmdSetControllerInfo (pInfo : ADMIN_CONTROLLER_INFO) (c : ADMIN_CMD_CONTEXT) : ADMIN_CMD_CONTEXT :=
  c <| ac_controller := pInfo |>.

Definition AdminCmdAddNamespace (pNsInfo : ADMIN_NAMESPACE_INFO) (c : ADMIN_CMD_CONTEXT) : option (bool * ADMIN_CMD_CONTEXT) :=
  if 16 <=? ac_namespaceCount c then Some (false, c)
  else
    l ← arr_set (ac_namespaces c) (ac_namespaceCount c) pNsInfo;
    Some (true, c <| ac_namespaces := l |> <| ac_namespaceCount ::= fun n => n + 1 |>).

Section ServerAdmin.
Context {F : Win32Files}.

(** Writes the entry, always in the first slot of the queue. *)
Definition AdminCmdPostCompletion (cid result sqHead status : Z) : M SvState unit :=
  s ← get;
  match ac_adminCqBase (admin_ctx s) with
  | None => mret tt
  | Some base =>
      shm_bytes base 16 (fun b => cpl_store b base (mkCompletion result 0 sqHead 0 cid status));;
      admin_update (fun c => c <| ac_commandsProcessed ::= fun n => n +₆₄ 1 |>)
  end.

(** ** Identify *)

(** Replace [n] bytes of the data buffer, when there is one of at least 4096 bytes. *)
Definition fill_page (data : mem) : M SvState unit :=
  s ← get;
  match ac_dataBuffer (admin_ctx s) with
  | Some off => if 4096 <=? ac_dataBufferSize (admin_ctx s) then shm_bytes off 4096 (fun b => mem_copy b off data 0 4096) else mret tt
  | None => mret tt
  end.

(** The status of the handler in the phase of the admin context. *)
Definition status_of (sct sc : Z) : M SvState (Z * Z) :=
  s ← get; mret (AdminMakeStatus sct sc (ac_adminCqPhase (admin_ctx s)), 0).
Definition status_result (result : Z) : M SvState (Z * Z) :=
  s ← get; mret (AdminMakeStatus 0 0 (ac_adminCqPhase (admin_ctx s)), result).

Definition controller_page (c : ADMIN_CMD_CONTEXT) : mem :=
  let i := ac_controller c in
  let m := store_all [ (0, 2%nat, ci_vendorId i); (2, 2%nat, ci_vendorId i) ] mem_zero in
  let m := mem_copy m 4 (bytes_mem (ci_serialNumber i)) 0 20 in
  let m := mem_copy m 24 (bytes_mem (ci_modelNumber i)) 0 40 in
  let m := mem_copy m 64 (bytes_mem (ci_firmwareRevision i)) 0 8 in
  store_all [ (72, 1%nat, 6); (256, 2%nat, 0x0006); (258, 1%nat, 3); (520, 2%nat, 0x0014);
              (516, 4%nat, if 0 <? ac_namespaceCount c then ac_namespaceCount c else 1) ] m.

Definition AdminCmdIdentifyController (pCmd : NVME_COMMAND) : M SvState (Z * Z) :=
  s ← get;
  fill_page (controller_page (admin_ctx s));;
  status_of 0 0.

Definition lba_data_size (blockSize : Z) : Z :=
  if 4096 <=? blockSize then 12 else if 2048 <=? blockSize then 11 else if 1024 <=? blockSize then 10 else 9.

Definition namespace_page (ns : ADMIN_NAMESPACE_INFO) : mem :=
  store_all [ (0, 8%nat, an_size ns); (8, 8%nat, if 0 <? an_capacity ns then an_capacity ns else an_size ns); (16, 8%nat, an_size ns);
              (24, 1%nat, 0); (25, 1%nat, 0); (26, 1%nat, 0);
              (128, 1%nat, 0); (129, 1%nat, 0); (130, 1%nat, lba_data_size (an_blockSize ns)); (131, 1%nat, 0) ] mem_zero.

Definition AdminCmdIdentifyNamespace (pCmd : NVME_COMMAND) : M SvState (Z * Z) :=
  s ← get;
  let nsid := cmd_NSID pCmd in
  if (nsid =? 0) || (ac_namespaceCount (admin_ctx s) <? nsid) then status_of 0 0x0B
  else
    nsInfo ← of_opt (arr_get (ac_namespaces (admin_ctx s)) (nsid - 1));
    fill_page (namespace_page nsInfo);;
    status_of 0 0.

(** [n] namespaces from index [i]; [count] entries are stored. *)
Fixpoint nsid_list (n : nat) (namespaces : list ADMIN_NAMESPACE_INFO) (i count startNsid : Z) (data : mem) : option mem :=
  match n with
  | O => Some data
  | S n =>
      if 1024 <=? count then Some data
      else
        let nsid := i + 1 in
        if startNsid <? nsid then
          ns ← arr_get namespaces i;
          if an_active ns then nsid_list n namespaces (i + 1) (count + 1) startNsid (store_le data (count * 4) 4 nsid)
          else nsid_list n namespaces (i + 1) count startNsid data
        else nsid_list n namespaces (i + 1) count startNsid data
  end.

Definition AdminCmdIdentifyNamespaceList (pCmd : NVME_COMMAND) : M SvState (Z * Z) :=
  s ← get;
  let c := admin_ctx s in
  data ← of_opt (nsid_list (Z.to_nat (ac_namespaceCount c)) (ac_namespaces c) 0 0 (cmd_NSID pCmd) mem_zero);
  fill_page data;;
  status_of 0 0.

Definition AdminCmdIdentify (pCmd : NVME_COMMAND) : M SvState (Z * Z) :=
  let cns := Z.land (cmd_CDW10 pCmd) 0xFF in
  if cns =? 0x00 then AdminCmdIdentifyNamespace pCmd
  else if cns =? 0x01 then AdminCmdIdentifyController pCmd
  else if cns =? 0x02 then AdminCmdIdentifyNamespaceList pCmd
  else status_of 0 0x02.

(** ** Queues *)

Definition cq_info_update (i : Z) (f : ADMIN_IO_QUEUE_INFO -> ADMIN_IO_QUEUE_INFO) : M SvState unit :=
  s ← get; l ← of_opt (upd_nth (ac_ioCq (admin_ctx s)) i f); admin_update (fun c => c <| ac_ioCq := l |>).
Definition sq_info_update (i : Z) (f : ADMIN_IO_QUEUE_INFO -> ADMIN_IO_QUEUE_INFO) : M SvState unit :=
  s ← get; l ← of_opt (upd_nth (ac_ioSq (admin_ctx s)) i f); admin_update (fun c => c <| ac_ioSq := l |>).

Definition AdminCmdCreateIoCq (pCmd : NVME_COMMAND) : M SvState (Z * Z) :=
  s ← get;
  let qid := Z.land (cmd_CDW10 pCmd) 0xFFFF in
  let qsize := Z.land (Z.shiftr (cmd_CDW10 pCmd) 16) 0xFFFF +₁₆ 1 in
  if (qid =? 0) || (ac_maxIoQueues (admin_ctx s) <? qid) then status_of 0 0x01
  else
    let queueIndex := qid - 1 in
    q ← of_opt (arr_get (ac_ioCq (admin_ctx s)) queueIndex);
    if qi_created q then status_of 0 0x01
    else
      cq_info_update queueIndex (fun q => q <| qi_created := true |> <| qi_capacity := qsize |> <| qi_phase := 1 |>);;
      (if ac_shmBase (admin_ctx s) then cq_info_update queueIndex (fun q => q <| qi_cqBase := Some (VNVME_IO_CQ_OFFSET queueIndex) |>)
       else mret tt);;
      status_of 0 0.

Definition AdminCmdCreateIoSq (pCmd : NVME_COMMAND) : M SvState (Z * Z) :=
  s ← get;
  let c := admin_ctx s in
  let qid := Z.land (cmd_CDW10 pCmd) 0xFFFF in
  let qsize := Z.land (Z.shiftr (cmd_CDW10 pCmd) 16) 0xFFFF +₁₆ 1 in
  let cqid := Z.land (cmd_CDW11 pCmd) 0xFFFF in
  if (qid =? 0) || (ac_maxIoQueues c <? qid) then status_of 0 0x01
  else
    let queueIndex := qid - 1 in
    cqOk ← (if (cqid =? 0) || (ac_maxIoQueues c <? cqid) then mret false
            else q ← of_opt (arr_get (ac_ioCq c) (cqid - 1)); mret (qi_created q));
    if negb cqOk then status_of 0 0x00
    else
      q ← of_opt (arr_get (ac_ioSq c) queueIndex);
      if qi_created q then status_of 0 0x01
      else
        sq_info_update queueIndex (fun q => q <| qi_created := true |> <| qi_capacity := qsize |> <| qi_cqId := cqid |>);;
        (if ac_shmBase c then sq_info_update queueIndex (fun q => q <| qi_sqBase := Some (VNVME_IO_SQ_OFFSET queueIndex) |>)
         else mret tt);;
        status_of 0 0.

Definition AdminCmdDeleteIoCq (pCmd : NVME_COMMAND) : M SvState (Z * Z) :=
  s ← get;
  let qid := Z.land (cmd_CDW10 pCmd) 0xFFFF in
  if (qid =? 0) || (ac_maxIoQueues (admin_ctx s) <? qid) then status_of 0 0x01
  else
    q ← of_opt (arr_get (ac_ioCq (admin_ctx s)) (qid - 1));
    if negb (qi_created q) then status_of 0 0x01
    else cq_info_update (qid - 1) (fun _ => zero_queue_info);; status_of 0 0.

Definition AdminCmdDeleteIoSq (pCmd : NVME_COMMAND) : M SvState (Z * Z) :=
  s ← get;
  let qid := Z.land (cmd_CDW10 pCmd) 0xFFFF in
  if (qid =? 0) || (ac_maxIoQueues (admin_ctx s) <? qid) then status_of 0 0x01
  else
    q ← of_opt (arr_get (ac_ioSq (admin_ctx s)) (qid - 1));
    if negb (qi_created q) then status_of 0 0x01
    else sq_info_update (qid - 1) (fun _ => zero_queue_info);; status_of 0 0.

(** ** Features *)

Definition AdminCmdGetFeatures (pCmd : NVME_COMMAND) : M SvState (Z * Z) :=
  s ← get;
  let c := admin_ctx s in
  let fid := Z.land (cmd_CDW10 pCmd) 0xFF in
  if fid =? 0x01 then status_result (ac_arbitration c)
  else if fid =? 0x02 then status_result (ac_powerManagement c)
  else if fid =? 0x06 then status_result (ac_volatileWriteCache c)
  else if fid =? 0x07 then
    let nsqa := u16 (ac_maxIoQueues c -₃₂ 1) in
    let ncqa := u16 (ac_maxIoQueues c -₃₂ 1) in
    status_result (Z.lor nsqa (u32 (Z.shiftl ncqa 16)))
  else status_result 0.

(** The number of queues granted of those requested. *)
Definition queues_granted (maxIoQueues r : Z) : Z := if r <? (maxIoQueues -₃₂ 1) then r else u16 (maxIoQueues -₃₂ 1).

Definition AdminCmdSetFeatures (pCmd : NVME_COMMAND) : M SvState (Z * Z) :=
  s ← get;
  let c := admin_ctx s in
  let fid := Z.land (cmd_CDW10 pCmd) 0xFF in
  if fid =? 0x01 then admin_update (fun c => c <| ac_arbitration := cmd_CDW11 pCmd |>);; status_result 0
  else if fid =? 0x02 then admin_update (fun c => c <| ac_powerManagement := cmd_CDW11 pCmd |>);; status_result 0
  else if fid =? 0x06 then admin_update (fun c => c <| ac_volatileWriteCache := Z.land (cmd_CDW11 pCmd) 0x01 |>);; status_result 0
  else if fid =? 0x07 then
    let nsqa := queues_granted (ac_maxIoQueues c) (Z.land (cmd_CDW11 pCmd) 0xFFFF) in
    let ncqa := queues_granted (ac_maxIoQueues c) (Z.land (Z.shiftr (cmd_CDW11 pCmd) 16) 0xFFFF) in
    status_result (Z.lor nsqa (u32 (Z.shiftl ncqa 16)))
  else status_result 0.

(** ** The other commands *)

Definition AdminCmdAbort (pCmd : NVME_COMMAND) : M SvState (Z * Z) := status_of 0 0.

Definition AdminCmdGetLogPage (pCmd : NVME_COMMAND) : M SvState (Z * Z) :=
  s ← get;
  let c := admin_ctx s in
  let lid := Z.land (cmd_CDW10 pCmd) 0xFF in
  let numdl := Z.land (Z.shiftr (cmd_CDW10 pCmd) 16) 0xFFFF in
  let numdu := Z.land (cmd_CDW11 pCmd) 0xFFFF in
  let bytes := (Z.lor (Z.shiftl numdu 16) numdl *₃₂ 4) +₃₂ 4 in
  match ac_dataBuffer c with
  | Some off =>
      if bytes <=? ac_dataBufferSize c then
        shm_bytes off bytes (fun b => mem_fill b off bytes 0);;
        if lid =? 0x01 then status_of 0 0
        else if lid =? 0x02 then
          shm_bytes off 6 (store_all [ (off + 1, 2%nat, 298); (off + 3, 1%nat, 100); (off + 4, 1%nat, 10); (off + 5, 1%nat, 0) ]);;
          status_of 0 0
        else if lid =? 0x03 then status_of 0 0
        else status_of 0 0x09
      else status_of 0 0
  | None => status_of 0 0
  end.

Definition AdminCmdKeepAlive (pCmd : NVME_COMMAND) : M SvState (Z * Z) := status_of 0 0.

(** ** The dispatch *)

(** The switch of AdminCmdProcess; None is its default case. *)
Definition admin_command (pCmd : NVME_COMMAND) : option (M SvState (Z * Z)) :=
  let opc := cmd_OPC pCmd in
  if opc =? NVME_ADMIN_IDENTIFY then Some (AdminCmdIdentify pCmd)
  else if opc =? NVME_ADMIN_CREATE_IO_CQ then Some (AdminCmdCreateIoCq pCmd)
  else if opc =? NVME_ADMIN_CREATE_IO_SQ then Some (AdminCmdCreateIoSq pCmd)
  else if opc =? NVME_ADMIN_DELETE_IO_CQ then Some (AdminCmdDeleteIoCq pCmd)
  else if opc =? NVME_ADMIN_DELETE_IO_SQ then Some (AdminCmdDeleteIoSq pCmd)
  else if opc =? NVME_ADMIN_SET_FEATURES then Some (AdminCmdSetFeatures pCmd)
  else if opc =? NVME_ADMIN_GET_FEATURES then Some (AdminCmdGetFeatures pCmd)
  else if opc =? NVME_ADMIN_ABORT then Some (AdminCmdAbort pCmd)
  else if opc =? NVME_ADMIN_GET_LOG_PAGE then Some (AdminCmdGetLogPage pCmd)
  else if opc =? NVME_ADMIN_KEEP_ALIVE then Some (AdminCmdKeepAlive pCmd)
  else None.

Definition AdminCmdProcess (pCmd : NVME_COMMAND) : M SvState Z :=
  r ← (match admin_command pCmd with
       | Some m => m
       | None => r ← status_of 0 0x01; admin_update (fun c => c <| ac_errors ::= fun n => n +₆₄ 1 |>);; mret r
       end);
  AdminCmdPostCompletion (cmd_CID pCmd) r.2 0 r.1;;
  mret 1.

(** ** Queries *)

Definition AdminCmdGetIoSq (c : ADMIN_CMD_CONTEXT) (qid : Z) : option (option ADMIN_IO_QUEUE_INFO) :=
  if (qid =? 0) || (ac_maxIoQueues c <? qid) then Some None else option_map Some (arr_get (ac_ioSq c) (qid - 1)).
Definition AdminCmdGetIoCq (c : ADMIN_CMD_CONTEXT) (qid : Z) : option (option ADMIN_IO_QUEUE_INFO) :=
  if (qid =? 0) || (ac_maxIoQueues c <? qid) then Some None else option_map Some (arr_get (ac_ioCq c) (qid - 1)).
Definition AdminCmdIsIoQueueCreated (c : ADMIN_CMD_CONTEXT) (sqid : Z) : option bool :=
  if (sqid =? 0) || (ac_maxIoQueues c <? sqid) then Some false else option_map qi_created (arr_get (ac_ioSq c) (sqid - 1)).

(** ** What an admin command can change *)

(** The context is in order; no queue has a descriptor, since nothing ever sets one. *)
Record admin_ok (c : ADMIN_CMD_CONTEXT) : Prop := {
  ak_sq : length (ac_ioSq c) = 16%nat;
  ak_cq : length (ac_ioCq c) = 16%nat;
  ak_max : ac_maxIoQueues c = 16;
  ak_namespaces : length (ac_namespaces c) = 16%nat /\ 0 <= ac_namespaceCount c <= 16;
  ak_phase : ac_adminCqPhase c = 1;
  ak_buffer off : ac_dataBuffer c = Some off -> 4096 <= ac_dataBufferSize c /\ queue_memory off (ac_dataBufferSize c) = true;
  ak_features : 0 <= ac_arbitration c < 2 ^ 32 /\ 0 <= ac_powerManagement c < 2 ^ 32 /\ 0 <= ac_volatileWriteCache c < 2 ^ 32;
  ak_descriptors : Forall (fun q => qi_descriptor q = None) (ac_ioSq c)
}.

Definition in_buffer (c : ADMIN_CMD_CONTEXT) (x : Z) : Prop :=
  exists off, ac_dataBuffer c = Some off /\ off <= x < off + ac_dataBufferSize c.

(** A step of an admin handler: the admin context stays in order, and of the
    rest only the data buffer can change. *)
Record admin_step (s s' : SvState) : Prop := {
  as_ok : admin_ok (admin_ctx s');
  as_buffer : ac_dataBuffer (admin_ctx s') = ac_dataBuffer (admin_ctx s) /\
              ac_dataBufferSize (admin_ctx s') = ac_dataBufferSize (admin_ctx s);
  as_engine : sv_engine s' = (sv_engine s) <| ce_adminCtx := admin_ctx s' |>;
  as_backend : sv_backend s' = sv_backend s;
  as_shm : sv_shm s' = (sv_shm s) <| shm_mem := shm_mem (sv_shm s') |>;
  as_mem x : ~ in_buffer (admin_ctx s) x -> rd8 (shm_mem (sv_shm s')) x = rd8 (shm_mem (sv_shm s)) x
}.

Definition admin_keeps {A} (m : M SvState A) : Prop := forall s, admin_ok (admin_ctx s) -> wp m s (fun _ s' => admin_step s s').

Lemma admin_step_refl s : admin_ok (admin_ctx s) -> admin_step s s.
Proof. intros H. split; try done; destruct s as [[] [] ?]; done. Qed.

Lemma admin_step_trans s1 s2 s3 : admin_step s1 s2 -> admin_step s2 s3 -> admin_step s1 s3.
Proof.
  intros D1 D2. destruct (as_buffer _ _ D1) as [B1 B2], (as_buffer _ _ D2) as [B3 B4]. split.
  - apply D2.
  - split; congruence.
  - rewrite (as_engine _ _ D2), (as_engine _ _ D1). by destruct (sv_engine s1).
  - rewrite (as_backend _ _ D2). apply D1.
  - rewrite (as_shm _ _ D2), (as_shm _ _ D1). by destruct (sv_shm s1).
  - intros x Hx. rewrite (as_mem _ _ D2), (as_mem _ _ D1); [done|done|]. unfold in_buffer in *. by rewrite B1, B2.
Qed.

Lemma admin_bind {A B} (m : M SvState A) (f : A -> M SvState B) :
  admin_keeps m -> (forall a, admin_keeps (f a)) -> admin_keeps (m ≫= f).
Proof.
  intros Hm Hf s Hs. apply wp_bind. eapply wp_mono; [by apply Hm|]. intros a s1 D1. cbn in D1.
  eapply wp_mono; [apply Hf, D1|]. intros b s2 D2. by eapply admin_step_trans.
Qed.

Lemma admin_get {A} (f : SvState -> M SvState A) :
  (forall s, admin_ok (admin_ctx s) -> wp (f s) s (fun _ s' => admin_step s s')) -> admin_keeps (get ≫= f).
Proof. intros H s Hs. apply wp_bind, wp_get. by apply H. Qed.

Lemma admin_ret {A} (a : A) : admin_keeps (mret a).
Proof. intros s Hs. apply wp_ret. by apply admin_step_refl. Qed.

Lemma admin_if {A} (b : bool) (m1 m2 : M SvState A) : admin_keeps m1 -> admin_keeps m2 -> admin_keeps (if b then m1 else m2).
Proof. by destruct b. Qed.

Lemma admin_status sct sc : admin_keeps (status_of sct sc).
Proof. apply admin_get. intros s Hs. apply wp_ret. by apply admin_step_refl. Qed.
Lemma admin_result r : admin_keeps (status_result r).
Proof. apply admin_get. intros s Hs. apply wp_ret. by apply admin_step_refl. Qed.

(** An update of the context that keeps it in order. *)
Lemma admin_update_keeps f :
  (forall c, admin_ok c -> admin_ok (f c)) ->
  (forall c, ac_dataBuffer (f c) = ac_dataBuffer c /\ ac_dataBufferSize (f c) = ac_dataBufferSize c) -> admin_keeps (admin_update f).
Proof.
  intros H1 H2 s Hs. apply wp_modify. destruct (H2 (admin_ctx s)) as [E1 E2].
  destruct s as [[] [] ?]; split; cbn in *; try done. by apply H1.
Qed.

(** Queue memory, and parts of it. *)
Lemma queue_memory_sub off n off' n' :
  queue_memory off n = true -> off <= off' -> off' + n' <= off + n -> queue_memory off' n' = true.
Proof.
  unfold queue_memory. intros [[H1 H2]%andb_prop|[H1 H2]%andb_prop]%orb_prop Ha Hb; apply Z.leb_le in H1, H2;
    apply orb_true_iff; [left|right]; apply andb_true_iff; split; apply Z.leb_le; lia.
Qed.

(** A write to the data buffer. *)
Lemma shm_bytes_keeps s off n f :
  admin_ok (admin_ctx s) -> ac_dataBuffer (admin_ctx s) = Some off -> n <= ac_dataBufferSize (admin_ctx s) ->
  (forall b x, ~ (off <= x < off + n) -> rd8 (f b) x = rd8 b x) -> wp (shm_bytes off n f) s (fun _ s' => admin_step s s').
Proof.
  intros Hs Hoff Hn Hf. destruct (ak_buffer _ Hs off Hoff) as [_ Hq].
  unfold shm_bytes. rewrite (queue_memory_sub off (ac_dataBufferSize (admin_ctx s)) off n) by (done || lia). apply wp_modify.
  destruct s as [[] [] ?]; split; cbn in *; try done. intros x Hx. apply Hf. intros Hin. apply Hx. exists off. split; [done|lia].
Qed.

Lemma fill_page_keeps data : admin_keeps (fill_page data).
Proof.
  apply admin_get. intros s Hs. destruct (ac_dataBuffer (admin_ctx s)) as [off|] eqn:E; [|by apply admin_ret].
  destruct (Z.leb_spec 4096 (ac_dataBufferSize (admin_ctx s))); [|by apply admin_ret].
  apply shm_bytes_keeps; try done. intros b x Hx. by apply rd8_copy_out.
Qed.

(** A handler: such a step, and a 32-bit result. *)
Definition admin_replies (m : M SvState (Z * Z)) : Prop :=
  forall s, admin_ok (admin_ctx s) -> wp m s (fun r s' => admin_step s s' /\ 0 <= r.2 < 2 ^ 32).

Lemma replies_bind {A} (m : M SvState A) (f : A -> M SvState (Z * Z)) :
  admin_keeps m -> (forall a, admin_replies (f a)) -> admin_replies (m ≫= f).
Proof.
  intros Hm Hf s Hs. apply wp_bind. eapply wp_mono; [by apply Hm|]. intros a s1 D1. cbn in D1.
  eapply wp_mono; [apply Hf, D1|]. intros b s2 [D2 H]. split; [by eapply admin_step_trans|done].
Qed.

Lemma replies_get (f : SvState -> M SvState (Z * Z)) :
  (forall s, admin_ok (admin_ctx s) -> wp (f s) s (fun r s' => admin_step s s' /\ 0 <= r.2 < 2 ^ 32)) -> admin_replies (get ≫= f).
Proof. intros H s Hs. apply wp_bind, wp_get. by apply H. Qed.

Lemma replies_status sct sc : admin_replies (status_of sct sc).
Proof. apply replies_get. intros s Hs. apply wp_ret. split; [by apply admin_step_refl | done]. Qed.

Lemma replies_result r : 0 <= r < 2 ^ 32 -> admin_replies (status_result r).
Proof. intros Hr. apply replies_get. intros s Hs. apply wp_ret. split; [by apply admin_step_refl | done]. Qed.

Lemma replies_if (b : bool) m1 m2 : admin_replies m1 -> admin_replies m2 -> admin_replies (if b then m1 else m2).
Proof. by destruct b. Qed.

Ltac replies_ifs := repeat first [apply replies_if | apply replies_status].

Lemma nsid_list_ok l n : forall i count start data,
  length l = 16%nat -> 0 <= i -> i + Z.of_nat n <= 16 -> is_Some (nsid_list n l i count start data).
Proof.
  induction n as [|n IH]; intros i count start data Hl Hi Hn; cbn [nsid_list]; [by eexists|].
  destruct (1024 <=? count); [by eexists|]. destruct (start <? i + 1); [|apply IH; lia].
  destruct (proj2 (arr_get_Some_iff l i) ltac:(lia)) as [ns ->]. cbn. destruct (an_active ns); apply IH; lia.
Qed.

Lemma AdminCmdIdentify_replies c : 0 <= cmd_NSID c -> admin_replies (AdminCmdIdentify c).
Proof.
  intros Hn. unfold AdminCmdIdentify. cbv zeta. apply replies_if; [|apply replies_if; [|apply replies_if; [|apply replies_status]]].
  - apply replies_get. intros s Hs. cbv zeta. destruct (ak_namespaces _ Hs) as [Hl Hc].
    destruct (Z.eqb_spec (cmd_NSID c) 0); [by apply replies_status|]. destruct (Z.ltb_spec (ac_namespaceCount (admin_ctx s)) (cmd_NSID c));
      [by apply replies_status|]. cbn [orb].
    destruct (proj2 (arr_get_Some_iff (ac_namespaces (admin_ctx s)) (cmd_NSID c - 1)) ltac:(lia)) as [ns Hns].
    rewrite Hns. apply wp_bind. eapply wp_of_opt; [done|]. revert s Hs Hl Hc H Hns. intros s Hs _ _ _ _.
    refine (replies_bind _ _ (fill_page_keeps _) _ s Hs). intros []. apply replies_status.
  - apply replies_get. intros s Hs. refine (replies_bind _ _ (fill_page_keeps _) _ s Hs). intros []. apply replies_status.
  - apply replies_get. intros s Hs. cbv zeta. destruct (ak_namespaces _ Hs) as [Hl Hc].
    destruct (nsid_list_ok (ac_namespaces (admin_ctx s)) (Z.to_nat (ac_namespaceCount (admin_ctx s))) 0 0 (cmd_NSID c) mem_zero)
      as [data Hd]; [done|lia|lia|].
    rewrite Hd. apply wp_bind. eapply wp_of_opt; [done|].
    refine (replies_bind _ _ (fill_page_keeps _) _ s Hs). intros []. apply replies_status.
Qed.

(** Updates of one queue that leave it without a descriptor. *)
Lemma cq_info_update_keeps i f : 0 <= i < 16 -> admin_keeps (cq_info_update i f).
Proof.
  intros Hi. apply admin_get. intros s Hs. destruct (upd_nth_Some (ac_ioCq (admin_ctx s)) i f) as (x & _ & Hu);
    [rewrite (ak_cq _ Hs); lia|].
  rewrite Hu. apply wp_bind. eapply wp_of_opt; [done|]. revert s Hs x Hu. intros s Hs x Hu.
  set (l := <[Z.to_nat i := f x]> (ac_ioCq (admin_ctx s))) in *.
  assert (length l = 16%nat) as Hl by (unfold l; rewrite length_insert; apply Hs).
  apply (admin_update_keeps (fun c => c <| ac_ioCq := l |>)); [|by intros []|done]. intros [] []. by split.
Qed.

Lemma sq_info_update_keeps i f :
  0 <= i < 16 -> (forall q, qi_descriptor q = None -> qi_descriptor (f q) = None) -> admin_keeps (sq_info_update i f).
Proof.
  intros Hi Hf. apply admin_get. intros s Hs. destruct (upd_nth_Some (ac_ioSq (admin_ctx s)) i f) as (x & Hx & Hu);
    [rewrite (ak_sq _ Hs); lia|].
  rewrite Hu. apply wp_bind. eapply wp_of_opt; [done|].
  set (l := <[Z.to_nat i := f x]> (ac_ioSq (admin_ctx s))) in *.
  assert (length l = 16%nat) as Hl by (unfold l; rewrite length_insert; apply Hs).
  assert (Forall (fun q => qi_descriptor q = None) l) as Hd.
  { apply Forall_insert; [apply Hs|]. apply Hf. pose proof (ak_descriptors _ Hs) as Hall. rewrite Forall_forall in Hall. by eapply Hall, arr_get_elem. }
  apply (admin_update_keeps (fun c => c <| ac_ioSq := l |>)); [|by intros []|done]. intros [] []. by split.
Qed.

(** The identifier and the size of a command are 16 bits of a doubleword. *)
Lemma qid_range x : 0 <= Z.land x 0xFFFF < 2 ^ 16.
Proof. change 0xFFFF with (Z.ones 16). rewrite Z.land_ones by done. by apply Z.mod_pos_bound. Qed.

Lemma service_queue_get (l : list ADMIN_IO_QUEUE_INFO) qid : length l = 16%nat -> 0 <= qid -> (qid =? 0) || (16 <? qid) = false ->
  0 <= qid - 1 < 16 /\ exists q, arr_get l (qid - 1) = Some q.
Proof.
  intros Hl H0 [H1%Z.eqb_neq H2%Z.ltb_ge]%orb_false_iff. split; [lia|]. apply arr_get_Some_iff. lia.
Qed.

Lemma AdminCmdCreateIoCq_replies c : admin_replies (AdminCmdCreateIoCq c).
Proof.
  apply replies_get. intros s Hs. cbv zeta. rewrite (ak_max _ Hs). set (qid := Z.land (cmd_CDW10 c) 0xFFFF).
  destruct ((qid =? 0) || (16 <? qid)) eqn:Hq; [by apply replies_status|].
  destruct (service_queue_get (ac_ioCq (admin_ctx s)) qid (ak_cq _ Hs) (proj1 (qid_range _)) Hq) as (Hi & q & Hg).
  apply wp_bind. eapply wp_of_opt; [done|]. destruct (qi_created q); [by apply replies_status|].
  refine (replies_bind _ _ (cq_info_update_keeps _ _ Hi) _ s Hs). intros [].
  refine (replies_bind _ _ _ _); [|intros []; apply replies_status].
  apply admin_if; [by apply cq_info_update_keeps | apply admin_ret].
Qed.

Lemma AdminCmdCreateIoSq_replies c : admin_replies (AdminCmdCreateIoSq c).
Proof.
  apply replies_get. intros s Hs. cbv zeta. rewrite (ak_max _ Hs). set (qid := Z.land (cmd_CDW10 c) 0xFFFF).
  set (cqid := Z.land (cmd_CDW11 c) 0xFFFF).
  destruct ((qid =? 0) || (16 <? qid)) eqn:Hq; [by apply replies_status|].
  assert (exists b, (if (cqid =? 0) || (16 <? cqid) then mret false
    else q ← of_opt (arr_get (ac_ioCq (admin_ctx s)) (cqid - 1)); mret (qi_created q)) s = Ok (b, s)) as [b Hb].
  { destruct ((cqid =? 0) || (16 <? cqid)) eqn:Hc; [by exists false|].
    destruct (service_queue_get (ac_ioCq (admin_ctx s)) cqid (ak_cq _ Hs) (proj1 (qid_range _)) Hc) as (_ & q & Hg).
    exists (qi_created q). by rewrite (bind_opt _ _ _ _ Hg). }
  apply wp_bind. eapply wp_intro; [exact Hb|]. cbv beta.
  destruct b; cbn [negb]; [|by apply replies_status].
  destruct (service_queue_get (ac_ioSq (admin_ctx s)) qid (ak_sq _ Hs) (proj1 (qid_range _)) Hq) as (Hi & q & Hg).
  apply wp_bind. eapply wp_of_opt; [done|]. destruct (qi_created q); [by apply replies_status|].
  refine (replies_bind _ _ (sq_info_update_keeps _ _ Hi _) _ s Hs); [by intros []|]. intros [].
  refine (replies_bind _ _ _ _); [|intros []; apply replies_status].
  apply admin_if; [by apply sq_info_update_keeps; [|intros []] | apply admin_ret].
Qed.

Lemma AdminCmdDeleteIoCq_replies c : admin_replies (AdminCmdDeleteIoCq c).
Proof.
  apply replies_get. intros s Hs. cbv zeta. rewrite (ak_max _ Hs). set (qid := Z.land (cmd_CDW10 c) 0xFFFF).
  destruct ((qid =? 0) || (16 <? qid)) eqn:Hq; [by apply replies_status|].
  destruct (service_queue_get (ac_ioCq (admin_ctx s)) qid (ak_cq _ Hs) (proj1 (qid_range _)) Hq) as (Hi & q & Hg).
  apply wp_bind. eapply wp_of_opt; [done|]. destruct (qi_created q); cbn [negb]; [|by apply replies_status].
  refine (replies_bind _ _ (cq_info_update_keeps _ _ Hi) _ s Hs). intros []. apply replies_status.
Qed.

Lemma AdminCmdDeleteIoSq_replies c : admin_replies (AdminCmdDeleteIoSq c).
Proof.
  apply replies_get. intros s Hs. cbv zeta. rewrite (ak_max _ Hs). set (qid := Z.land (cmd_CDW10 c) 0xFFFF).
  destruct ((qid =? 0) || (16 <? qid)) eqn:Hq; [by apply replies_status|].
  destruct (service_queue_get (ac_ioSq (admin_ctx s)) qid (ak_sq _ Hs) (proj1 (qid_range _)) Hq) as (Hi & q & Hg).
  apply wp_bind. eapply wp_of_opt; [done|]. destruct (qi_created q); cbn [negb]; [|by apply replies_status].
  refine (replies_bind _ _ (sq_info_update_keeps _ _ Hi _) _ s Hs); [done|]. intros []. apply replies_status.
Qed.

Lemma queue_counts_range a b : 0 <= a < 2 ^ 16 -> 0 <= b -> 0 <= Z.lor a (u32 (Z.shiftl b 16)) < 2 ^ 32.
Proof. intros. apply lor_range; [done|lia|apply u32_range]. Qed.

Lemma queues_granted_range r : 0 <= r < 2 ^ 16 -> 0 <= queues_granted 16 r < 2 ^ 16.
Proof. intros H. unfold queues_granted. destruct (_ <? _); [done | apply u16_range]. Qed.

Lemma AdminCmdGetFeatures_replies c : admin_replies (AdminCmdGetFeatures c).
Proof.
  apply replies_get. intros s Hs. cbv zeta. destruct (ak_features _ Hs) as (H1 & H2 & H3).
  destruct (_ =? 0x01); [by apply replies_result|]. destruct (_ =? 0x02); [by apply replies_result|].
  destruct (_ =? 0x06); [by apply replies_result|]. destruct (_ =? 0x07); [|by apply replies_result].
  rewrite (ak_max _ Hs). by apply replies_result.
Qed.

Lemma AdminCmdSetFeatures_replies c : 0 <= cmd_CDW11 c < 2 ^ 32 -> admin_replies (AdminCmdSetFeatures c).
Proof.
  intros Hc. apply replies_get. intros s Hs. cbv zeta.
  assert (forall x, 0 <= x < 2 ^ 32 -> 0 <= Z.land x 0x01 < 2 ^ 32) as Hbit.
  { intros x Hx. change 0x01 with (Z.ones 1). rewrite Z.land_ones by done. pose proof (Z.mod_pos_bound x (2 ^ 1) ltac:(done)). lia. }
  assert (forall f, (forall k, admin_ok k -> admin_ok (f k)) -> (forall k, ac_dataBuffer (f k) = ac_dataBuffer k /\
    ac_dataBufferSize (f k) = ac_dataBufferSize k) -> admin_replies (admin_update f;; status_result 0)) as Hup.
  { intros f H1 H2. apply replies_bind; [by apply admin_update_keeps|]. intros []. by apply replies_result. }
  destruct (_ =? 0x01); [|destruct (_ =? 0x02); [|destruct (_ =? 0x06); [|destruct (_ =? 0x07)]]].
  - refine (Hup (fun k => k <| ac_arbitration := cmd_CDW11 c |>) _ _ s Hs); [|by intros []]. intros [] []; split; cbn in *; tauto.
  - refine (Hup (fun k => k <| ac_powerManagement := cmd_CDW11 c |>) _ _ s Hs); [|by intros []]. intros [] []; split; cbn in *; tauto.
  - specialize (Hbit _ Hc). refine (Hup (fun k => k <| ac_volatileWriteCache := Z.land (cmd_CDW11 c) 0x01 |>) _ _ s Hs); [|by intros []].
    intros [] []; split; cbn in *; tauto.
  - rewrite (ak_max _ Hs). apply replies_result; [|done].
    apply queue_counts_range; [apply queues_granted_range, qid_range|]. apply (queues_granted_range _ (qid_range _)).
  - by apply replies_result.
Qed.

Lemma AdminCmdGetLogPage_replies c : admin_replies (AdminCmdGetLogPage c).
Proof.
  apply replies_get. intros s Hs. cbv zeta. destruct (ac_dataBuffer (admin_ctx s)) as [off|] eqn:Eb; [|by apply replies_status].
  destruct (ak_buffer _ Hs off Eb) as [Hsz _].
  destruct (Z.leb_spec (((Z.lor (Z.shiftl (Z.land (cmd_CDW11 c) 0xFFFF) 16) (Z.land (Z.shiftr (cmd_CDW10 c) 16) 0xFFFF)) *₃₂ 4) +₃₂ 4)
    (ac_dataBufferSize (admin_ctx s))) as [Hle|]; [|by apply replies_status].
  set (bytes := _ +₃₂ 4) in *. apply wp_bind. eapply wp_mono.
  { apply (shm_bytes_keeps s off bytes); [done|done|done|]. intros b x Hx. by apply rd8_fill_out. }
  intros [] s1 D1. cbn in D1. destruct (as_buffer _ _ D1) as [B1 B2].
  assert (wp ((if Z.land (cmd_CDW10 c) 0xFF =? 0x01 then status_of 0 0
        else if Z.land (cmd_CDW10 c) 0xFF =? 0x02 then
          shm_bytes off 6 (store_all [ (off + 1, 2%nat, 298); (off + 3, 1%nat, 100); (off + 4, 1%nat, 10); (off + 5, 1%nat, 0) ]);;
          status_of 0 0
        else if Z.land (cmd_CDW10 c) 0xFF =? 0x03 then status_of 0 0
        else status_of 0 0x09)) s1 (fun r s' => admin_step s1 s' /\ 0 <= r.2 < 2 ^ 32)) as H.
  { pose proof (as_ok _ _ D1) as Hs1.
    destruct (_ =? 0x01); [by apply replies_status|]. destruct (_ =? 0x02); [|destruct (_ =? 0x03); by apply replies_status].
    apply wp_bind. eapply wp_mono.
    { apply (shm_bytes_keeps s1 off 6); [done|congruence|lia|]. intros b x Hx. cbn [store_all fold_left fst snd].
      rewrite !rd8_store_out by (change (Z.of_nat 2) with 2; change (Z.of_nat 1) with 1; lia). done. }
    intros [] s2 D2. cbn in D2. eapply wp_mono; [apply replies_status, D2|]. intros r s3 [D3 ?]. split; [by eapply admin_step_trans|done]. }
  eapply wp_mono; [exact H|]. intros r s2 [D2 ?]. split; [by eapply admin_step_trans|done].
Qed.

(** Every admin command of the service comes back with a 32-bit result, having
    changed nothing but the admin context and the data buffer. *)
Lemma admin_command_replies c m : cmd_wf c -> admin_command c = Some m -> admin_replies m.
Proof.
  intros Hwf. assert (0 <= cmd_NSID c /\ 0 <= cmd_CDW11 c < 2 ^ 32) as [Hn Hc] by (unfold cmd_wf in Hwf; tauto).
  unfold admin_command. cbv zeta.
  repeat match goal with |- (if ?b then _ else _) = _ -> _ => destruct b; [intros [= <-]|] end; [..|done].
  - by apply AdminCmdIdentify_replies.
  - apply AdminCmdCreateIoCq_replies.
  - apply AdminCmdCreateIoSq_replies.
  - apply AdminCmdDeleteIoCq_replies.
  - apply AdminCmdDeleteIoSq_replies.
  - by apply AdminCmdSetFeatures_replies.
  - apply AdminCmdGetFeatures_replies.
  - apply replies_status.
  - apply AdminCmdGetLogPage_replies.
  - apply replies_status.
Qed.
End ServerAdmin.
