(* ===== verification/ServerIo.v ===== *)
(** The I/O commands of the user-mode service: [vnvme-server/io_commands.c].

    Data moves between the back end and the data buffer of the shared memory. *)
From S2P Require Import Prelude NvmeSpec Kernel Config Storage State Shm Backend ServerState ServerAdmin.
Open Scope Z_scope.
Open Scope c_scope.

(** MakeStatus of io_commands.c and of command_engine.c; the arguments are bytes. *)
Definition MakeStatus (sct sc phase : Z) : Z := u16 (Z.lor (Z.lor phase (Z.shiftl sc 1)) (Z.shiftl sct 9)).
Definition status_sct (status : Z) : Z := Z.land (Z.shiftr status 9) 0x07.
Definition status_sc (status : Z) : Z := Z.land (Z.shiftr status 1) 0xFF.

Definition zero_io_namespace : IO_NAMESPACE_CONFIG := mkIoNamespace 0 0 0 false false.
Definition zero_io_stats : IO_STATS := mkIoStats 0 0 0 0 0 0 0 0.

(** ** Initialisation *)

Definition IoCmdInit (dataBuffer : option Z) (dataBufferSize : Z) : IO_CMD_CONTEXT :=
  mkIoCtx true dataBuffer dataBufferSize (replicate 16 zero_io_namespace) 0 zero_io_stats false.

Definition IoCmdAddNamespace (pNsConfig : IO_NAMESPACE_CONFIG) (c : IO_CMD_CONTEXT) : option (bool * IO_CMD_CONTEXT) :=
  if 16 <=? ic_namespaceCount c then Some (false, c)
  else
    l ← arr_set (ic_namespaces c) (ic_namespaceCount c) pNsConfig;
    Some (true, c <| ic_namespaces := l |> <| ic_namespaceCount ::= fun n => n + 1 |>).

Definition IoCmdSetDebugMode (debugMode : bool) (c : IO_CMD_CONTEXT) : IO_CMD_CONTEXT := c <| ic_debugMode := debugMode |>.
Definition IoCmdGetStats (c : IO_CMD_CONTEXT) : IO_STATS := ic_stats c.
Definition IoCmdResetStats (c : IO_CMD_CONTEXT) : IO_CMD_CONTEXT := c <| ic_stats := zero_io_stats |>.

(** ** Validation *)

(** None: the access leaves the array. *)
Definition IoCmdIsNamespaceValid (c : IO_CMD_CONTEXT) (nsid : Z) : option bool :=
  if (nsid =? 0) || (ic_namespaceCount c <? nsid) then Some false else option_map in_active (arr_get (ic_namespaces c) (nsid - 1)).

Definition IoCmdGetBlockSize (c : IO_CMD_CONTEXT) (nsid : Z) : option Z :=
  if (nsid =? 0) || (ic_namespaceCount c <? nsid) then Some 512 else option_map in_blockSize (arr_get (ic_namespaces c) (nsid - 1)).

Definition IoCmdValidateLbaRange (c : IO_CMD_CONTEXT) (nsid slba nlb : Z) : option bool :=
  valid ← IoCmdIsNamespaceValid c nsid;
  if negb valid then Some false
  else
    ns ← arr_get (ic_namespaces c) (nsid - 1);
    if (slba +₆₄ nlb) <? slba then Some false
    else if in_size ns <? (slba +₆₄ nlb) then Some false
    else Some true.

Section ServerIo.
Context {F : Win32Files}.

Definition GetCqPhase (queueId : Z) : M SvState Z :=
  s ← get;
  if negb (ic_adminCtx (io_ctx s)) then mret 1
  else
    sqInfo ← of_opt (AdminCmdGetIoSq (admin_ctx s) queueId);
    match sqInfo with
    | None => mret 1
    | Some sqInfo =>
        cqInfo ← of_opt (AdminCmdGetIoCq (admin_ctx s) (u16 (qi_cqId sqInfo)));
        match cqInfo with None => mret 1 | Some cqInfo => mret (qi_phase cqInfo) end
    end.

(** Writes the entry, always in the first slot of the completion queue. *)
Definition IoCmdPostCompletion (queueId cid result sct sc : Z) : M SvState unit :=
  s ← get;
  if negb (ic_adminCtx (io_ctx s)) then mret tt
  else if (queueId =? 0) || (16 <? queueId) then mret tt
  else
    sqInfo ← of_opt (AdminCmdGetIoSq (admin_ctx s) queueId);
    match sqInfo with
    | None => mret tt
    | Some sqInfo =>
        if negb (qi_created sqInfo) then mret tt
        else
          cqInfo ← of_opt (AdminCmdGetIoCq (admin_ctx s) (u16 (qi_cqId sqInfo)));
          match cqInfo with
          | None => mret tt
          | Some cqInfo =>
              match qi_created cqInfo, qi_cqBase cqInfo with
              | true, Some base =>
                  shm_bytes base 16 (fun b => cpl_store b base (mkCompletion result 0 0 queueId cid (MakeStatus sct sc (u8 (qi_phase cqInfo)))));;
                  io_count (fun t => t <| io_commandsProcessed ::= fun n => n +₆₄ 1 |>)
              | _, _ => mret tt
              end
          end
    end.

(** ** The commands *)

Definition sv_slba (pCmd : NVME_COMMAND) : Z := Z.lor (cmd_CDW10 pCmd) (Z.shiftl (cmd_CDW11 pCmd) 32).
Definition sv_nlb (pCmd : NVME_COMMAND) : Z := Z.land (cmd_CDW12 pCmd) 0xFFFF +₁₆ 1.

Definition io_error (sct sc phase : Z) : M SvState Z :=
  io_count (fun t => t <| io_errors ::= fun n => n +₆₄ 1 |>);;
  mret (MakeStatus sct sc phase).

(** The back end and the data buffer, when both are there and the transfer fits. *)
Definition transfer (s : SvState) (length : Z) : option (BACKEND_CONTEXT * Z) :=
  match sv_backend s, ic_dataBuffer (io_ctx s) with
  | Some b, Some off => if length <=? ic_dataBufferSize (io_ctx s) then Some (b, off) else None
  | _, _ => None
  end.

Definition IoCmdRead (pCmd : NVME_COMMAND) (queueId : Z) : M SvState Z :=
  phase ← GetCqPhase queueId;
  let phase := u8 phase in
  s ← get;
  let nsid := cmd_NSID pCmd in
  let slba := sv_slba pCmd in
  let nlb := sv_nlb pCmd in
  valid ← of_opt (IoCmdIsNamespaceValid (io_ctx s) nsid);
  if negb valid then io_error 0 0x0B phase
  else
    blockSize ← of_opt (IoCmdGetBlockSize (io_ctx s) nsid);
    let length := nlb *₃₂ blockSize in
    let byteOffset := slba *₆₄ blockSize in
    inRange ← of_opt (IoCmdValidateLbaRange (io_ctx s) nsid slba nlb);
    if negb inRange then io_error 0 0x80 phase
    else
      ok ← (match transfer s length with
            | None => mret true
            | Some (b, off) =>
                r ← on_backend (BackendRead byteOffset (shm_mem (sv_shm s)) off length) b;
                shm_bytes off length (fun _ => r.2);;
                mret r.1
            end);
      if negb ok then io_error 0x02 0x81 phase
      else
        io_count (fun t => t <| io_bytesRead ::= fun n => n +₆₄ length |> <| io_readCommands ::= fun n => n +₆₄ 1 |>);;
        mret (MakeStatus 0 0 phase).

(** Write and Write Zeroes check the namespace in the same way. *)
Definition write_checks (pCmd : NVME_COMMAND) (phase : Z) (k : IO_NAMESPACE_CONFIG -> M SvState Z) : M SvState Z :=
  s ← get;
  let nsid := cmd_NSID pCmd in
  valid ← of_opt (IoCmdIsNamespaceValid (io_ctx s) nsid);
  if negb valid then io_error 0 0x0B phase
  else
    nsConfig ← of_opt (arr_get (ic_namespaces (io_ctx s)) (nsid - 1));
    if in_readOnly nsConfig then io_error 0 0x82 phase
    else
      inRange ← of_opt (IoCmdValidateLbaRange (io_ctx s) nsid (sv_slba pCmd) (sv_nlb pCmd));
      if negb inRange then io_error 0 0x80 phase else k nsConfig.

Definition IoCmdWrite (pCmd : NVME_COMMAND) (queueId : Z) : M SvState Z :=
  phase ← GetCqPhase queueId;
  let phase := u8 phase in
  write_checks pCmd phase (fun nsConfig =>
    s ← get;
    let length := sv_nlb pCmd *₃₂ in_blockSize nsConfig in
    let byteOffset := sv_slba pCmd *₆₄ in_blockSize nsConfig in
    ok ← (match transfer s length with
          | None => mret true
          | Some (b, off) =>
              if queue_memory off length then on_backend (BackendWrite byteOffset (shm_mem (sv_shm s)) off length) b else fault
          end);
    if negb ok then io_error 0x02 0x82 phase
    else
      io_count (fun t => t <| io_bytesWritten ::= fun n => n +₆₄ length |> <| io_writeCommands ::= fun n => n +₆₄ 1 |>);;
      mret (MakeStatus 0 0 phase)).

Definition IoCmdFlush (pCmd : NVME_COMMAND) (queueId : Z) : M SvState Z :=
  phase ← GetCqPhase queueId;
  let phase := u8 phase in
  s ← get;
  ok ← (match sv_backend s with None => mret true | Some b => on_backend BackendFlush b end);
  if negb ok then io_error 0x02 0x82 phase
  else
    io_count (fun t => t <| io_flushCommands ::= fun n => n +₆₄ 1 |>);;
    mret (MakeStatus 0 0 phase).

Definition IoCmdWriteZeroes (pCmd : NVME_COMMAND) (queueId : Z) : M SvState Z :=
  phase ← GetCqPhase queueId;
  let phase := u8 phase in
  write_checks pCmd phase (fun nsConfig =>
    s ← get;
    let length := sv_nlb pCmd *₆₄ in_blockSize nsConfig in
    let byteOffset := sv_slba pCmd *₆₄ in_blockSize nsConfig in
    ok ← (match sv_backend s with None => mret true | Some b => on_backend (BackendWriteZeroes byteOffset length) b end);
    if negb ok then io_error 0x02 0x82 phase
    else
      io_count (fun t => t <| io_bytesWritten ::= fun n => n +₆₄ length |> <| io_writeZeroesCommands ::= fun n => n +₆₄ 1 |>);;
      mret (MakeStatus 0 0 phase)).

Definition IoCmdDatasetManagement (pCmd : NVME_COMMAND) (queueId : Z) : M SvState Z :=
  phase ← GetCqPhase queueId; mret (MakeStatus 0 0 (u8 phase)).

Definition IoCmdProcess (pCmd : NVME_COMMAND) (queueId : Z) : M SvState Z :=
  let opc := cmd_OPC pCmd in
  status ← (if opc =? NVME_IO_READ then IoCmdRead pCmd queueId
            else if opc =? NVME_IO_WRITE then IoCmdWrite pCmd queueId
            else if opc =? NVME_IO_FLUSH then IoCmdFlush pCmd queueId
            else if opc =? NVME_IO_WRITE_ZEROES then IoCmdWriteZeroes pCmd queueId
            else if opc =? 0x09 then IoCmdDatasetManagement pCmd queueId
            else phase ← GetCqPhase queueId; io_error 0 0x01 (u8 phase));
  IoCmdPostCompletion queueId (cmd_CID pCmd) 0 (status_sct status) (status_sc status);;
  mret 1.

(** ** What the I/O commands do *)

(** The namespace a command names, when there is an active one. *)
Definition namespace_of (c : IO_CMD_CONTEXT) (nsid : Z) : option IO_NAMESPACE_CONFIG :=
  if (nsid =? 0) || (ic_namespaceCount c <? nsid) then None
  else ns ← arr_get (ic_namespaces c) (nsid - 1); if in_active ns then Some ns else None.

(** The I/O context is in order. *)
Record io_ok (s : SvState) : Prop := {
  ik_admin : admin_ok (admin_ctx s);
  ik_namespaces : length (ic_namespaces (io_ctx s)) = 16%nat /\ 0 <= ic_namespaceCount (io_ctx s) <= 16;
  ik_sizes : Forall (fun ns => 0 <= in_size ns < 2 ^ 64 /\ 0 <= in_blockSize ns <= 2 ^ 16 /\ in_size ns * in_blockSize ns < 2 ^ 63) (ic_namespaces (io_ctx s));
  ik_backend b : sv_backend s = Some b -> backend_ok b;
  ik_buffer off : ic_dataBuffer (io_ctx s) = Some off -> queue_memory off (ic_dataBufferSize (io_ctx s)) = true
}.

Lemma sv_slba_range c : cmd_wf c -> 0 <= sv_slba c < 2 ^ 64.
Proof.
  intros Hwf. assert (0 <= cmd_CDW10 c < 2 ^ 32 /\ 0 <= cmd_CDW11 c < 2 ^ 32) as [H10 H11] by (unfold cmd_wf in Hwf; tauto).
  unfold sv_slba. apply lor_range; [done|lia|]. rewrite Z.shiftl_mul_pow2 by done. lia.
Qed.

Lemma sv_nlb_range c : 0 <= sv_nlb c < 2 ^ 16.
Proof. apply u16_range. Qed.

Lemma queue_lookup (l : list ADMIN_IO_QUEUE_INFO) (q : Z) : length l = 16%nat -> 0 <= q ->
  (q =? 0) || (16 <? q) = true \/ exists i, arr_get l (q - 1) = Some i /\ (q =? 0) || (16 <? q) = false.
Proof.
  intros Hl Hq. destruct ((q =? 0) || (16 <? q)) eqn:E; [by left|right]. pose proof E as E'.
  apply orb_false_iff in E as [E1%Z.eqb_neq E2%Z.ltb_ge].
  destruct (proj2 (arr_get_Some_iff l (q - 1)) ltac:(lia)) as [i Hi]. by exists i.
Qed.

Lemma GetCqPhase_run q s : io_ok s -> 0 <= q -> exists phase, GetCqPhase q s = Ok (phase, s).
Proof.
  intros [Ha _ _ _ _] Hq. unfold GetCqPhase, AdminCmdGetIoSq, AdminCmdGetIoCq. rewrite bind_get, (ak_max _ Ha).
  destruct (ic_adminCtx (io_ctx s)); [cbn [negb]|by eexists].
  destruct (queue_lookup (ac_ioSq (admin_ctx s)) q (ak_sq _ Ha) Hq) as [-> | (i & Hi & ->)]; [by eexists|].
  rewrite Hi. cbn [option_map]. rewrite (bind_opt _ _ _ _ (eq_refl (Some (Some i)))).
  destruct (queue_lookup (ac_ioCq (admin_ctx s)) (u16 (qi_cqId i)) (ak_cq _ Ha) (proj1 (u16_range _))) as [-> | (c & Hc & ->)].
  - rewrite (bind_opt _ _ _ _ (eq_refl (Some None))). by eexists.
  - rewrite Hc. cbn [option_map]. rewrite (bind_opt _ _ _ _ (eq_refl (Some (Some c)))). by eexists.
Qed.

(** A change of the I/O statistics. *)
Definition with_io_stats (t : IO_STATS) (s : SvState) : SvState := s <| sv_engine ::= fun e => e <| ce_ioCtx ::= fun c => c <| ic_stats := t |> |> |>.

Lemma io_count_eq f s : io_count f s = Ok (tt, with_io_stats (f (ic_stats (io_ctx s))) s).
Proof. by destruct s as [? [? ? ? ? ? ? ? ? [] ? ? ? ? ? ? ?] ?]. Qed.

Lemma io_error_eq sct sc phase s :
  io_error sct sc phase s = Ok (MakeStatus sct sc phase, with_io_stats ((ic_stats (io_ctx s)) <| io_errors ::= fun n => n +₆₄ 1 |>) s).
Proof. unfold io_error. by rewrite (bind_Ok _ _ _ _ _ (io_count_eq _ _)). Qed.

(** The namespace lookups of a command, together. *)
Lemma namespace_lookup s nsid : io_ok s -> 0 <= nsid ->
  IoCmdIsNamespaceValid (io_ctx s) nsid = Some (bool_decide (is_Some (namespace_of (io_ctx s) nsid))) /\
  forall ns, namespace_of (io_ctx s) nsid = Some ns ->
    arr_get (ic_namespaces (io_ctx s)) (nsid - 1) = Some ns /\ IoCmdGetBlockSize (io_ctx s) nsid = Some (in_blockSize ns) /\
    0 <= in_size ns < 2 ^ 64 /\ 0 <= in_blockSize ns <= 2 ^ 16 /\ in_size ns * in_blockSize ns < 2 ^ 63.
Proof.
  intros [_ [Hl Hn] Hsz _ _] H0. unfold IoCmdIsNamespaceValid, IoCmdGetBlockSize, namespace_of.
  destruct ((nsid =? 0) || (_ <? nsid)) eqn:E; [split; [by rewrite bool_decide_eq_false_2 by (by intros [? ?])|done]|].
  apply orb_false_iff in E as [E1%Z.eqb_neq E2%Z.ltb_ge].
  destruct (proj2 (arr_get_Some_iff (ic_namespaces (io_ctx s)) (nsid - 1)) ltac:(lia)) as [ns Hns]. rewrite Hns. cbn.
  destruct (in_active ns) eqn:Ea; cbn; [|by split].
  split; [done|]. intros ns' [= <-]. do 2 (split; [done|]).
  rewrite Forall_forall in Hsz. by eapply Hsz, arr_get_elem.
Qed.

Lemma in_range_eq s nsid ns slba nlb :
  io_ok s -> 0 <= nsid -> namespace_of (io_ctx s) nsid = Some ns -> 0 <= slba < 2 ^ 64 -> 0 <= nlb < 2 ^ 16 -> in_size ns < 2 ^ 64 ->
  IoCmdValidateLbaRange (io_ctx s) nsid slba nlb = Some (bool_decide (slba + nlb <= in_size ns)).
Proof.
  intros Hs H0 Hns Hslba Hnlb Hsz. destruct (namespace_lookup s nsid Hs H0) as [Hv Hl]. destruct (Hl ns Hns) as (Hget & _).
  unfold IoCmdValidateLbaRange. rewrite Hv, Hns, bool_decide_eq_true_2 by (by eexists). cbn [mbind option_bind negb]. rewrite Hget. cbn [mbind option_bind].
  destruct (Z.lt_ge_cases (slba + nlb) (2 ^ 64)).
  - rewrite !u64_small, (proj2 (Z.ltb_ge (slba + nlb) slba)) by lia.
    destruct (Z.ltb_spec (in_size ns) (slba + nlb)); [by rewrite bool_decide_eq_false_2 by lia | by rewrite bool_decide_eq_true_2 by lia].
  - assert (slba +₆₄ nlb = slba + nlb - 2 ^ 64) as ->.
    { unfold u64. symmetry. apply (Z.mod_unique_pos _ _ 1); lia. }
    rewrite (proj2 (Z.ltb_lt _ _)), bool_decide_eq_false_2 by lia. done.
Qed.

Lemma write_checks_eq c phase k s : io_ok s -> cmd_wf c ->
  write_checks c phase k s =
    match namespace_of (io_ctx s) (cmd_NSID c) with
    | None => io_error 0 0x0B phase s
    | Some ns =>
        if in_readOnly ns then io_error 0 0x82 phase s
        else if bool_decide (sv_slba c + sv_nlb c <= in_size ns) then k ns s else io_error 0 0x80 phase s
    end.
Proof.
  intros Hs Hwf. assert (0 <= cmd_NSID c) as H0 by (unfold cmd_wf in Hwf; lia). destruct (namespace_lookup s (cmd_NSID c) Hs H0) as [Hv Hl].
  unfold write_checks. rewrite bind_get. cbv zeta. rewrite (bind_opt _ _ _ _ Hv).
  destruct (namespace_of (io_ctx s) (cmd_NSID c)) as [ns|] eqn:Ens; [|done].
  rewrite bool_decide_eq_true_2 by (by eexists). cbn [negb]. destruct (Hl ns eq_refl) as (Hget & _ & H1 & H2 & H3).
  rewrite (bind_opt _ _ _ _ Hget). destruct (in_readOnly ns); [done|].
  rewrite (bind_opt _ _ _ _ (in_range_eq s _ ns _ _ Hs H0 Ens (sv_slba_range c Hwf) (sv_nlb_range c) ltac:(lia))).
  repeat case_bool_decide; (done || lia).
Qed.

(** Where the blocks of a command are: no product wraps. *)
Lemma io_bytes s c ns : io_ok s -> cmd_wf c -> namespace_of (io_ctx s) (cmd_NSID c) = Some ns -> sv_slba c + sv_nlb c <= in_size ns ->
  let offset := sv_slba c * in_blockSize ns in let len := sv_nlb c * in_blockSize ns in
  sv_slba c *₆₄ in_blockSize ns = offset /\ sv_nlb c *₃₂ in_blockSize ns = len /\ sv_nlb c *₆₄ in_blockSize ns = len /\
  0 <= offset /\ 0 <= len < 2 ^ 32 /\ offset + len < 2 ^ 63.
Proof.
  intros Hs Hwf Hns Hr offset len. assert (0 <= cmd_NSID c) as H0 by (unfold cmd_wf in Hwf; lia).
  destruct (namespace_lookup s (cmd_NSID c) Hs H0) as [_ Hl]. destruct (Hl ns Hns) as (_ & _ & H1 & H2 & H3).
  pose proof (sv_slba_range c Hwf). pose proof (sv_nlb_range c). unfold offset, len.
  assert (0 <= sv_slba c * in_blockSize ns /\ 0 <= sv_nlb c * in_blockSize ns < 2 ^ 32 /\
    sv_slba c * in_blockSize ns + sv_nlb c * in_blockSize ns <= in_size ns * in_blockSize ns) as (B1 & B2 & B3) by nia.
  rewrite !u64_small, u32_small by lia. lia.
Qed.

Lemma on_backend_run {A} (op : M BACKEND_CONTEXT A) b a b' s :
  op b = Ok (a, b') -> on_backend op b s = Ok (a, s <| sv_backend := Some b' |>).
Proof. intros H. unfold on_backend. rewrite H. by unfold of_res. Qed.

Lemma transfer_inv s len b off : transfer s len = Some (b, off) ->
  sv_backend s = Some b /\ ic_dataBuffer (io_ctx s) = Some off /\ len <= ic_dataBufferSize (io_ctx s).
Proof.
  unfold transfer. destruct (sv_backend s), (ic_dataBuffer (io_ctx s)); try done. destruct (Z.leb_spec len (ic_dataBufferSize (io_ctx s))); [|done].
  by intros [= <- <-].
Qed.

(** What a command leaves in order. *)
Lemma io_ok_change s s' :
  io_ok s -> admin_ctx s' = admin_ctx s -> (exists t, io_ctx s' = (io_ctx s) <| ic_stats := t |>) ->
  (forall b, sv_backend s' = Some b -> backend_ok b) -> io_ok s'.
Proof.
  intros [H1 H2 H3 H4 H5] Ea [t Ei] Hb. split; rewrite ?Ea, ?Ei; try done.
Qed.

(** A command keeps the contexts, but for the I/O statistics. *)
Definition io_keeps (s s' : SvState) : Prop :=
  io_ok s' /\ admin_ctx s' = admin_ctx s /\ exists t, io_ctx s' = (io_ctx s) <| ic_stats := t |>.

Lemma io_keeps_ctx s s' : io_keeps s s' ->
  namespace_of (io_ctx s') = namespace_of (io_ctx s) /\ ic_dataBuffer (io_ctx s') = ic_dataBuffer (io_ctx s) /\
  ic_dataBufferSize (io_ctx s') = ic_dataBufferSize (io_ctx s).
Proof. by intros (_ & _ & t & ->). Qed.

(** The end of a command: the statistics, and the status. *)
Lemma io_count_run f (st : Z) s : io_ok s ->
  exists s', (io_count f;; mret st) s = Ok (st, s') /\ io_keeps s s' /\ sv_shm s' = sv_shm s /\ sv_backend s' = sv_backend s.
Proof.
  intros Hs. rewrite (bind_Ok _ _ _ _ _ (io_count_eq _ _)). eexists. split; [reflexivity|]. split; [|done].
  split; [|split; [done|by eexists]]. apply (io_ok_change s); [done|done|by eexists|apply Hs].
Qed.

Lemma io_error_run sct sc phase s : io_ok s ->
  exists s', io_error sct sc phase s = Ok (MakeStatus sct sc phase, s') /\ io_keeps s s' /\ sv_shm s' = sv_shm s /\ sv_backend s' = sv_backend s.
Proof. apply io_count_run. Qed.

Lemma io_end_run (ok : bool) f sct sc p s : io_ok s ->
  exists s', (if negb ok then io_error sct sc p else io_count f;; mret (MakeStatus 0 0 p)) s =
      Ok ((if ok then MakeStatus 0 0 p else MakeStatus sct sc p), s') /\ io_keeps s s' /\ sv_shm s' = sv_shm s /\ sv_backend s' = sv_backend s.
Proof. destruct ok; apply io_count_run. Qed.

Lemma io_ok_backend s b b' : io_ok s -> backend_same b b' -> io_ok (s <| sv_backend := Some b' |>).
Proof. intros Hs Hb. apply (io_ok_change s); [done|done|exists (ic_stats (io_ctx s))|by intros ? [= <-]; apply Hb]. by destruct s as [? [? ? ? ? ? ? ? ? [] ? ? ? ? ? ? ?] ?]. Qed.

(** The status code type comes back whatever the phase byte is. *)
Lemma MakeStatus_sct sct sc p : 0 <= sct < 2 ^ 3 -> 0 <= sc < 2 ^ 8 -> status_sct (MakeStatus sct sc (u8 p)) = sct.
Proof.
  intros Hsct Hsc. pose proof (u8_range p). unfold MakeStatus, status_sct.
  assert (0 <= Z.lor (u8 p) (Z.shiftl sc 1) < 2 ^ 9) as Hx.
  { apply lor_range; [done|lia|]. rewrite Z.shiftl_mul_pow2 by done. lia. }
  rewrite lor_shiftl_add, u16_small, land_mask with (n := 3), Z.shiftr_div_pow2 by (done || lia).
  rewrite Z.div_add, Z.div_small, Z.mod_small by lia. done.
Qed.

(** ** The commands against the stored bytes *)

Context {L : Win32FileLaws F}.

(** The status code with which the checks refuse a command, if they do. *)
Definition refusal (s : SvState) (c : NVME_COMMAND) (writes : bool) : option Z :=
  match namespace_of (io_ctx s) (cmd_NSID c) with
  | None => Some 0x0B
  | Some ns => if writes && in_readOnly ns then Some 0x82 else if bool_decide (sv_slba c + sv_nlb c <= in_size ns) then None else Some 0x80
  end.

(** A command that passes the checks, and the phase it answers with. *)
Definition accepted (s : SvState) (c : NVME_COMMAND) (ns : IO_NAMESPACE_CONFIG) : Prop :=
  io_ok s /\ cmd_wf c /\ namespace_of (io_ctx s) (cmd_NSID c) = Some ns /\ sv_slba c + sv_nlb c <= in_size ns.
Definition cmd_offset (c : NVME_COMMAND) (ns : IO_NAMESPACE_CONFIG) : Z := sv_slba c * in_blockSize ns.
Definition cmd_length (c : NVME_COMMAND) (ns : IO_NAMESPACE_CONFIG) : Z := sv_nlb c * in_blockSize ns.

(** Write: success means that exactly the named blocks hold the bytes of the buffer. *)
Lemma IoCmdWrite_run c q s ns b off : accepted s c ns -> in_readOnly ns = false -> transfer s (cmd_length c ns) = Some (b, off) -> 0 <= q ->
  let offset := cmd_offset c ns in let len := cmd_length c ns in
  exists phase (ok : bool) b' s', GetCqPhase q s = Ok (phase, s) /\
    IoCmdWrite c q s = Ok ((if ok then MakeStatus 0 0 (u8 phase) else MakeStatus 2 0x82 (u8 phase)), s') /\
    io_keeps s s' /\ sv_shm s' = sv_shm s /\ sv_backend s' = Some b' /\ backend_same b b' /\
    (ok = true -> forall a, backend_byte b' a =
       if decide (offset <= a < offset + len) then rd8 (shm_mem (sv_shm s)) (off + (a - offset)) else backend_byte b a) /\
    (forall a, ~ (offset <= a < offset + len) -> backend_byte b' a = backend_byte b a) /\
    (in_memory b = true -> BackendIsReadOnly b = false -> offset + len <= BackendGetSize b -> ok = true).
Proof.
  intros (Hs & Hwf & Ens & Hr) Hro Et Hq. destruct (GetCqPhase_run q s Hs Hq) as [phase Hp]. exists phase.
  unfold IoCmdWrite. rewrite (bind_Ok _ _ _ _ _ Hp). cbv zeta. rewrite write_checks_eq, Ens, Hro, bool_decide_eq_true_2 by done.
  cbv beta. rewrite bind_get. cbv beta zeta. unfold cmd_offset, cmd_length in *.
  destruct (io_bytes s c ns Hs Hwf Ens Hr) as (-> & -> & _ & Ho & Hlen & Hsum).
  set (offset := sv_slba c * in_blockSize ns) in *. set (len := sv_nlb c * in_blockSize ns) in *. rewrite Et.
  destruct (transfer_inv _ _ _ _ Et) as (Hb & Hoff & Hfit).
  rewrite (queue_memory_sub off (ic_dataBufferSize (io_ctx s)) off len) by (lia || by apply Hs).
  destruct (BackendWrite_spec b offset (shm_mem (sv_shm s)) off len ltac:(by eapply ik_backend) Ho Hlen ltac:(lia))
    as (ok & b' & Hrun & Hsame & Hstored & Hout & _ & Htotal).
  rewrite (bind_Ok _ _ _ _ _ (on_backend_run _ _ _ _ s Hrun)). pose proof (io_ok_backend s b b' Hs Hsame) as Hs1.
  edestruct (io_end_run ok) as (s' & Hend & Hs' & E1 & E2); [exact Hs1|].
  exists ok, b', s'. split; [done|]. split; [exact Hend|]. split; [done|]. split; [done|]. split; [done|]. split; [done|].
  split; [by intros [_ [_ ?]]%Hstored|]. by split.
Qed.

(** Read: success means that the buffer holds the named blocks. *)
Lemma IoCmdRead_run c q s ns b off : accepted s c ns -> transfer s (cmd_length c ns) = Some (b, off) -> 0 <= q ->
  let offset := cmd_offset c ns in let len := cmd_length c ns in
  exists phase (ok : bool) b' s', GetCqPhase q s = Ok (phase, s) /\
    IoCmdRead c q s = Ok ((if ok then MakeStatus 0 0 (u8 phase) else MakeStatus 2 0x81 (u8 phase)), s') /\
    io_keeps s s' /\ sv_shm s' = (sv_shm s) <| shm_mem := shm_mem (sv_shm s') |> /\ sv_backend s' = Some b' /\ backend_same b b' /\
    (forall a, backend_byte b' a = backend_byte b a) /\
    (ok = true -> forall i, 0 <= i < len -> rd8 (shm_mem (sv_shm s')) (off + i) = backend_byte b (offset + i)) /\
    (forall x, ~ (off <= x < off + len) -> rd8 (shm_mem (sv_shm s')) x = rd8 (shm_mem (sv_shm s)) x) /\
    (in_memory b = true -> offset + len <= BackendGetSize b -> ok = true).
Proof.
  intros (Hs & Hwf & Ens & Hr) Et Hq. destruct (GetCqPhase_run q s Hs Hq) as [phase Hp]. exists phase.
  assert (0 <= cmd_NSID c) as H0 by (unfold cmd_wf in Hwf; lia). destruct (namespace_lookup s (cmd_NSID c) Hs H0) as [Hv Hl].
  destruct (Hl ns Ens) as (_ & Hbs & Hsz & _).
  unfold IoCmdRead. rewrite (bind_Ok _ _ _ _ _ Hp), bind_get. cbv zeta. rewrite (bind_opt _ _ _ _ Hv), Ens, bool_decide_eq_true_2 by (by eexists).
  cbn [negb]. rewrite (bind_opt _ _ _ _ Hbs). unfold cmd_offset, cmd_length in *.
  destruct (io_bytes s c ns Hs Hwf Ens Hr) as (-> & -> & _ & Ho & Hlen & Hsum).
  set (offset := sv_slba c * in_blockSize ns) in *. set (len := sv_nlb c * in_blockSize ns) in *. rewrite Et.
  rewrite (bind_opt _ _ _ _ (in_range_eq s _ ns _ _ Hs H0 Ens (sv_slba_range c Hwf) (sv_nlb_range c) ltac:(lia))), bool_decide_eq_true_2 by done.
  cbn [negb]. destruct (transfer_inv _ _ _ _ Et) as (Hb & Hoff & Hfit).
  destruct (BackendRead_spec b offset (shm_mem (sv_shm s)) off len ltac:(by eapply ik_backend) Ho Hlen ltac:(lia))
    as (ok & buf & b' & Hrun & Hsame & Hkept & Hread & Hout & Htotal).
  pose proof (io_ok_backend s b b' Hs Hsame) as Hs1.
  set (s1 := s <| sv_backend := Some b' |>) in *. set (s2 := s1 <| sv_shm ::= fun m => m <| shm_mem ::= fun _ => buf |> |>).
  assert ((on_backend (BackendRead offset (shm_mem (sv_shm s)) off len) b ≫= fun r => shm_bytes off len (fun _ => r.2);; mret r.1) s = Ok (ok, s2)) as Hmove.
  { rewrite (bind_Ok _ _ _ _ _ (on_backend_run _ _ _ _ s Hrun)). unfold shm_bytes.
    by rewrite (queue_memory_sub off (ic_dataBufferSize (io_ctx s)) off len) by (lia || by apply Hs). }
  assert (io_ok s2) as Hs2 by (by apply (io_ok_backend s b b' Hs) in Hsame; destruct Hsame; split).
  rewrite (bind_Ok _ _ _ _ _ Hmove). edestruct (io_end_run ok) as (s' & Hend & Hs' & E1 & E2); [exact Hs2|].
  exists ok, b', s'. split; [done|]. split; [exact Hend|]. split; [done|]. rewrite E1, E2.
  split; [reflexivity|]. split; [reflexivity|]. split; [done|]. split; [done|].
  change (shm_mem (sv_shm s2)) with buf. split; [|by split].
  intros [_ Hin]%Hread i Hi. rewrite Hin, decide_True by lia. f_equal. lia.
Qed.

(** Without a back end, without a data buffer, or with a transfer larger than the
    buffer, a command that passes the checks moves nothing and reports success. *)
Lemma IoCmdWrite_none c q s ns : accepted s c ns -> in_readOnly ns = false -> transfer s (cmd_length c ns) = None -> 0 <= q ->
  exists phase s', IoCmdWrite c q s = Ok (MakeStatus 0 0 (u8 phase), s') /\ io_keeps s s' /\ sv_shm s' = sv_shm s /\ sv_backend s' = sv_backend s.
Proof.
  intros (Hs & Hwf & Ens & Hr) Hro Et Hq. destruct (GetCqPhase_run q s Hs Hq) as [phase Hp]. exists phase.
  unfold IoCmdWrite. rewrite (bind_Ok _ _ _ _ _ Hp). cbv zeta. rewrite write_checks_eq, Ens, Hro, bool_decide_eq_true_2 by done.
  cbv beta. rewrite bind_get. cbv beta zeta. unfold cmd_length in *.
  destruct (io_bytes s c ns Hs Hwf Ens Hr) as (_ & -> & _). rewrite Et, bind_ret. by apply (io_end_run true).
Qed.

Lemma IoCmdRead_none c q s ns : accepted s c ns -> transfer s (cmd_length c ns) = None -> 0 <= q ->
  exists phase s', IoCmdRead c q s = Ok (MakeStatus 0 0 (u8 phase), s') /\ io_keeps s s' /\ sv_shm s' = sv_shm s /\ sv_backend s' = sv_backend s.
Proof.
  intros (Hs & Hwf & Ens & Hr) Et Hq. destruct (GetCqPhase_run q s Hs Hq) as [phase Hp]. exists phase.
  assert (0 <= cmd_NSID c) as H0 by (unfold cmd_wf in Hwf; lia). destruct (namespace_lookup s (cmd_NSID c) Hs H0) as [Hv Hl].
  destruct (Hl ns Ens) as (_ & Hbs & Hsz & _).
  unfold IoCmdRead. rewrite (bind_Ok _ _ _ _ _ Hp), bind_get. cbv zeta. rewrite (bind_opt _ _ _ _ Hv), Ens, bool_decide_eq_true_2 by (by eexists).
  cbn [negb]. rewrite (bind_opt _ _ _ _ Hbs). unfold cmd_length in *. destruct (io_bytes s c ns Hs Hwf Ens Hr) as (_ & -> & _). rewrite Et.
  rewrite (bind_opt _ _ _ _ (in_range_eq s _ ns _ _ Hs H0 Ens (sv_slba_range c Hwf) (sv_nlb_range c) ltac:(lia))), bool_decide_eq_true_2 by done.
  cbn [negb]. rewrite bind_ret. by apply (io_end_run true).
Qed.

(** A Read of the blocks a Write has written, in the state the Write leaves with other bytes in the memory. *)
Lemma accepted_after s s1 cw cr ns m : accepted s cw ns -> io_keeps s s1 -> cmd_wf cr -> cmd_NSID cr = cmd_NSID cw ->
  sv_slba cr = sv_slba cw -> sv_nlb cr = sv_nlb cw ->
  accepted (s1 <| sv_shm ::= fun h => h <| shm_mem := m |> |>) cr ns /\ cmd_length cr ns = cmd_length cw ns /\ cmd_offset cr ns = cmd_offset cw ns.
Proof.
  intros (_ & _ & Hns & Hin) Hkeeps Hcr Ensid Eslba Enlb. destruct (io_keeps_ctx _ _ Hkeeps) as (En & _).
  split; [|unfold cmd_length, cmd_offset; by rewrite Eslba, Enlb]. split; [|split; [done|split]].
  - destruct Hkeeps as [[] _]. by split.
  - change (io_ctx (s1 <| sv_shm ::= _ |>)) with (io_ctx s1). by rewrite En, Ensid.
  - by rewrite Eslba, Enlb.
Qed.

(** C22: a block written through the service reads back.  Of a Write that passes
    the checks (a namespace that exists and is writable, blocks inside of it) and a
    Read of the same blocks, in the state the Write leaves and whatever bytes [m] the
    shared memory holds by then: both come back, and
    - when there is a back end and the transfer fits into the data buffer, and both
      report success, the Read leaves in the data buffer the bytes the Write found
      there; with a writable memory back end that is large enough both report success;
    - without a back end or a data buffer, and when the transfer is larger than the
      buffer, both report success although no byte moves: the back end is as it
      was, and the shared memory holds [m]. *)
Theorem IoCmdRead_after_write (cw cr : NVME_COMMAND) (qw qr : Z) (s : SvState) (ns : IO_NAMESPACE_CONFIG) (m : mem) :
  accepted s cw ns -> in_readOnly ns = false -> 0 <= qw ->
  cmd_wf cr -> cmd_NSID cr = cmd_NSID cw -> sv_slba cr = sv_slba cw -> sv_nlb cr = sv_nlb cw -> 0 <= qr ->
  exists st s1 st' s3, IoCmdWrite cw qw s = Ok (st, s1) /\
    IoCmdRead cr qr (s1 <| sv_shm ::= fun h => h <| shm_mem := m |> |>) = Ok (st', s3) /\
    match transfer s (cmd_length cw ns) with
    | Some (b, off) =>
        (status_sct st = 0 -> status_sct st' = 0 ->
          forall i, 0 <= i < cmd_length cw ns -> rd8 (shm_mem (sv_shm s3)) (off + i) = rd8 (shm_mem (sv_shm s)) (off + i)) /\
        (in_memory b = true -> BackendIsReadOnly b = false -> cmd_offset cw ns + cmd_length cw ns <= BackendGetSize b ->
          status_sct st = 0 /\ status_sct st' = 0)
    | None => status_sct st = 0 /\ status_sct st' = 0 /\ sv_backend s3 = sv_backend s /\ shm_mem (sv_shm s3) = m
    end.
Proof.
  intros Hw Hro Hqw Hcr Ensid Eslba Enlb Hqr. destruct (transfer s (cmd_length cw ns)) as [[b off]|] eqn:Et.
  - destruct (IoCmdWrite_run cw qw s ns b off Hw Hro Et Hqw)
      as (p & okw & b1 & s1 & _ & Hwrite & Hkeeps & _ & Eb1 & (Hok1 & Hsz1 & Hro1 & _ & Hmem1) & Hst & _ & Htot).
    destruct (io_keeps_ctx _ _ Hkeeps) as (En & Eoff & Esz). destruct (transfer_inv _ _ _ _ Et) as (Hb & Hoff & Hfit).
    destruct (accepted_after s s1 cw cr ns m Hw Hkeeps Hcr Ensid Eslba Enlb) as (Hr & El & Eo). set (s2 := s1 <| sv_shm ::= _ |>) in *.
    assert (transfer s2 (cmd_length cr ns) = Some (b1, off)) as Et2.
    { unfold transfer. change (io_ctx s2) with (io_ctx s1). change (sv_backend s2) with (sv_backend s1).
      by rewrite Eb1, Eoff, Hoff, Esz, El, (proj2 (Z.leb_le _ _)). }
    destruct (IoCmdRead_run cr qr s2 ns b1 off Hr Et2 Hqr) as (p' & okr & b2 & s3 & _ & Hread & _ & _ & _ & _ & _ & Hdata & _ & Htot').
    rewrite El, Eo in *. eexists _, s1, _, s3. split; [exact Hwrite|]. split; [exact Hread|]. split.
    + destruct okw; [|by rewrite MakeStatus_sct]. destruct okr; [|by rewrite (MakeStatus_sct 2)].
      intros _ _ i Hi. rewrite Hdata, Hst, decide_True by (done || lia). f_equal. lia.
    + intros Hmem Hrob Hsize. rewrite (Htot Hmem Hrob Hsize), Htot', !MakeStatus_sct; [done..| |].
      * congruence.
      * by rewrite Hsz1.
  - destruct (IoCmdWrite_none cw qw s ns Hw Hro Et Hqw) as (p & s1 & Hwrite & Hkeeps & Eshm & Eb).
    destruct (io_keeps_ctx _ _ Hkeeps) as (En & Eoff & Esz).
    destruct (accepted_after s s1 cw cr ns m Hw Hkeeps Hcr Ensid Eslba Enlb) as (Hr & El & Eo). set (s2 := s1 <| sv_shm ::= _ |>) in *.
    assert (transfer s2 (cmd_length cr ns) = None) as Et2.
    { unfold transfer in *. change (io_ctx s2) with (io_ctx s1). change (sv_backend s2) with (sv_backend s1). by rewrite Eb, Eoff, Esz, El. }
    destruct (IoCmdRead_none cr qr s2 ns Hr Et2 Hqr) as (p' & s3 & Hread & _ & Eshm' & Eb').
    eexists _, s1, _, s3. split; [exact Hwrite|]. split; [exact Hread|]. rewrite !MakeStatus_sct by done.
    split; [done|]. split; [done|]. split; [rewrite Eb'; exact Eb|by rewrite Eshm'].
Qed.

(** The refusals of the service. Read, Write and Write Zeroes of a command
    without an active namespace get status 0x0B, the two that write get 0x82 on a
    read-only namespace, and all three 0x80 when the blocks do not end inside the
    namespace - also when the sum of the address and the count wraps - in this
    order of precedence. Nothing is moved then: the shared memory, the back end
    and the admin context are as before, and one error is counted. *)
Lemma io_commands_refuse (c : NVME_COMMAND) (q sc : Z) (s : SvState) :
  io_ok s -> cmd_wf c -> 0 <= q ->
  exists phase, GetCqPhase q s = Ok (phase, s) /\
    let refused (op : NVME_COMMAND -> Z -> M SvState Z) :=
      exists s', op c q s = Ok (MakeStatus 0 sc (u8 phase), s') /\ sv_shm s' = sv_shm s /\ sv_backend s' = sv_backend s /\
        admin_ctx s' = admin_ctx s /\ io_ctx s' = (io_ctx s) <| ic_stats ::= fun t => t <| io_errors ::= fun n => n +₆₄ 1 |> |> in
    (refusal s c false = Some sc -> refused IoCmdRead) /\
    (refusal s c true = Some sc -> refused IoCmdWrite /\ refused IoCmdWriteZeroes).
Proof.
  intros Hs Hwf Hq. destruct (GetCqPhase_run q s Hs Hq) as [phase Hp]. exists phase. split; [done|]. intros refused.
  assert (forall op : NVME_COMMAND -> Z -> M SvState Z, op c q s = io_error 0 sc (u8 phase) s -> refused op) as Hend.
  { intros op Hop. unfold refused. rewrite Hop, io_error_eq. eexists. split; [reflexivity|]. by split_and!. }
  assert (0 <= cmd_NSID c) as H0 by (unfold cmd_wf in Hwf; lia). destruct (namespace_lookup s (cmd_NSID c) Hs H0) as [Hv Hl].
  unfold refusal. split; [intros H|intros H; split]; apply Hend.
  - unfold IoCmdRead. rewrite (bind_Ok _ _ _ _ _ Hp), bind_get. cbv zeta. rewrite (bind_opt _ _ _ _ Hv).
    destruct (namespace_of _ _) as [ns|] eqn:Ens; [|by injection H as <-]. destruct (Hl ns eq_refl) as (_ & Hbs & Hsz & _).
    rewrite bool_decide_eq_true_2 by (by eexists). cbn [negb andb] in *. rewrite (bind_opt _ _ _ _ Hbs).
    rewrite (bind_opt _ _ _ _ (in_range_eq s _ ns _ _ Hs H0 Ens (sv_slba_range c Hwf) (sv_nlb_range c) ltac:(lia))).
    revert H. repeat case_bool_decide; (done || lia || by intros [= <-]).
  - unfold IoCmdWrite. rewrite (bind_Ok _ _ _ _ _ Hp). cbv zeta. rewrite write_checks_eq by done.
    destruct (namespace_of _ _) as [ns|]; [|by injection H as <-]. cbn [andb] in H. destruct (in_readOnly ns); [by injection H as <-|].
    revert H. repeat case_bool_decide; (done || lia || by intros [= <-]).
  - unfold IoCmdWriteZeroes. rewrite (bind_Ok _ _ _ _ _ Hp). cbv zeta. rewrite write_checks_eq by done.
    destruct (namespace_of _ _) as [ns|]; [|by injection H as <-]. cbn [andb] in H. destruct (in_readOnly ns); [by injection H as <-|].
    revert H. repeat case_bool_decide; (done || lia || by intros [= <-]).
Qed.

(** Write Zeroes that passes the checks, with a back end: success means that
    the named blocks read as zeros; whatever is reported nothing outside them
    changes; a writable memory back end that is large enough does not fail.
    The shared memory is not touched. *)
Lemma IoCmdWriteZeroes_zeroes (c : NVME_COMMAND) (q : Z) (s : SvState) (ns : IO_NAMESPACE_CONFIG) (b : BACKEND_CONTEXT) :
  accepted s c ns -> in_readOnly ns = false -> sv_backend s = Some b -> 0 <= q ->
  let offset := cmd_offset c ns in let len := cmd_length c ns in
  exists phase (ok : bool) b' s', GetCqPhase q s = Ok (phase, s) /\
    IoCmdWriteZeroes c q s = Ok ((if ok then MakeStatus 0 0 (u8 phase) else MakeStatus 2 0x82 (u8 phase)), s') /\
    io_keeps s s' /\ sv_shm s' = sv_shm s /\ sv_backend s' = Some b' /\ backend_same b b' /\
    (ok = true -> forall a, offset <= a < offset + len -> backend_byte b' a = 0) /\
    (forall a, ~ (offset <= a < offset + len) -> backend_byte b' a = backend_byte b a) /\
    (in_memory b = true -> BackendIsReadOnly b = false -> offset + len <= BackendGetSize b -> ok = true).
Proof.
  intros (Hs & Hwf & Ens & Hr) Hro Hb Hq. destruct (GetCqPhase_run q s Hs Hq) as [phase Hp]. exists phase.
  unfold IoCmdWriteZeroes. rewrite (bind_Ok _ _ _ _ _ Hp). cbv zeta. rewrite write_checks_eq, Ens, Hro, bool_decide_eq_true_2 by done.
  cbv beta. rewrite bind_get. cbv beta zeta. unfold cmd_offset, cmd_length in *.
  destruct (io_bytes s c ns Hs Hwf Ens Hr) as (-> & _ & -> & Ho & Hlen & Hsum).
  set (offset := sv_slba c * in_blockSize ns) in *. set (len := sv_nlb c * in_blockSize ns) in *. rewrite Hb.
  destruct (BackendWriteZeroes_spec b offset len ltac:(by eapply ik_backend) Ho (proj1 Hlen) ltac:(lia))
    as (ok & b' & Hrun & Hsame & Hzero & Hout & _ & Htotal).
  rewrite (bind_Ok _ _ _ _ _ (on_backend_run _ _ _ _ s Hrun)). pose proof (io_ok_backend s b b' Hs Hsame) as Hs1.
  edestruct (io_end_run ok) as (s' & Hend & Hs' & E1 & E2); [exact Hs1|].
  exists ok, b', s'. split; [done|]. split; [exact Hend|]. split; [done|]. split; [done|]. split; [done|]. split; [done|].
  split; [by intros [_ [_ ?]]%Hzero|]. by split.
Qed.

End ServerIo.

(** ** A concrete service, for the witnesses *)

#[local] Existing Instances TestFiles.test_files TestFiles.test_file_laws.

Definition test_admin_ctx : ADMIN_CMD_CONTEXT :=
  AdminCmdInit true (Some VNVME_OFFSET_ADMIN_SQ) (Some VNVME_OFFSET_ADMIN_CQ) (Some VNVME_OFFSET_DATA_BUFFER)
    (VNVME_SHM_SIZE - VNVME_OFFSET_DATA_BUFFER).
Definition test_io_ctx : IO_CMD_CONTEXT :=
  (IoCmdInit (Some VNVME_OFFSET_DATA_BUFFER) (VNVME_SHM_SIZE - VNVME_OFFSET_DATA_BUFFER))
    <| ic_namespaces := mkIoNamespace 1 8 512 true false :: replicate 15 zero_io_namespace |> <| ic_namespaceCount := 1 |>.

(** A service with one namespace of eight blocks, over a file of 4096 bytes. *)
Definition test_service : @SvState TestFiles.test_files :=
  mkSv (test_shm <| shm_mem := fun a => a |>)
    (mkEngine true false true VNVME_OFFSET_ADMIN_SQ VNVME_OFFSET_ADMIN_CQ (Some VNVME_OFFSET_DATA_BUFFER)
       (VNVME_SHM_SIZE - VNVME_OFFSET_DATA_BUFFER) test_admin_ctx test_io_ctx true 1 16 false false false (mkEngineStats 0 0 0 0 0 0 0 0))
    (Some (FileBackend (mkFileBackend 4096 512 false false false (Some (mem_zero, 0)) []))).

Lemma test_service_ok : io_ok test_service.
Proof.
  split; try done.
  - split; try done; [intros off [= <-]; by vm_compute | cbn; by repeat constructor].
  - cbn. repeat constructor; cbn; lia.
  - intros b [= <-]. split; [done|by eexists].
  - intros off [= <-]. by vm_compute.
Qed.

(** Two blocks from block 2. *)
Definition test_io_command (opc nsid slba : Z) : NVME_COMMAND :=
  mkCommand opc 0 0 0 7 nsid 0 0 0 0 0 slba 0 1 0 0 0.

Lemma test_command_wf opc nsid slba : 0 <= opc < 2 ^ 8 -> 0 <= nsid < 2 ^ 32 -> 0 <= slba < 2 ^ 32 -> cmd_wf (test_io_command opc nsid slba).
Proof. unfold cmd_wf. cbn. lia. Qed.

Lemma test_accepted opc : 0 <= opc < 2 ^ 8 -> accepted test_service (test_io_command opc 1 2) (mkIoNamespace 1 8 512 true false).
Proof. intros H. split; [apply test_service_ok|]. split; [by apply test_command_wf|]. split; [done|by vm_compute]. Qed.

Lemma IoCmdRead_after_write_witness :
  exists st s1 st' s3, IoCmdWrite (test_io_command NVME_IO_WRITE 1 2) 1 test_service = Ok (st, s1) /\
    IoCmdRead (test_io_command NVME_IO_READ 1 2) 1 (s1 <| sv_shm ::= fun h => h <| shm_mem := mem_zero |> |>) = Ok (st', s3) /\
    (status_sct st = 0 -> status_sct st' = 0 -> forall i, 0 <= i < 1024 ->
      rd8 (shm_mem (sv_shm s3)) (VNVME_OFFSET_DATA_BUFFER + i) = u8 (VNVME_OFFSET_DATA_BUFFER + i)).
Proof.
  destruct (IoCmdRead_after_write (test_io_command NVME_IO_WRITE 1 2) (test_io_command NVME_IO_READ 1 2) 1 1 test_service
    _ mem_zero (test_accepted NVME_IO_WRITE ltac:(done)) eq_refl ltac:(done) (test_command_wf NVME_IO_READ 1 2 ltac:(done) ltac:(done) ltac:(done)) eq_refl eq_refl eq_refl
    ltac:(done)) as (st & s1 & st' & s3 & Hw & Hr & Hdata).
  exists st, s1, st', s3. split; [exact Hw|]. split; [exact Hr|]. exact (proj1 Hdata).
Defined.

