(* ===== verification/Engine.v ===== *)
(** The command engine of the user-mode service:
    [vnvme-server/command_engine.c].

    It is the consumer of the notify ring: a poll takes every notification,
    runs the commands the queue holds up to the tail it names, and posts their
    completions. *)
From S2P Require Import Prelude NvmeSpec Kernel Config Storage State Shm Queue Backend ServerState ServerAdmin ServerIo UserForward.
Open Scope Z_scope.
Open Scope c_scope.

(** ** Creation *)

Definition zero_engine_stats : CMD_ENGINE_STATS := mkEngineStats 0 0 0 0 0 0 0 0.
Definition zero_admin_ctx : ADMIN_CMD_CONTEXT :=
  mkAdminCtx false None None 0 (replicate 16 zero_queue_info) (replicate 16 zero_queue_info) 0 zero_controller
    (replicate 16 zero_admin_namespace) 0 None 0 0 0 0 0 0 0.
Definition zero_io_ctx : IO_CMD_CONTEXT := mkIoCtx false None 0 (replicate 16 zero_io_namespace) 0 zero_io_stats false.

(** [malloc] may fail. *)
Definition CmdEngineCreate (malloc : bool) : option CMD_ENGINE_CONTEXT :=
  if malloc then Some (mkEngine false false false 0 0 None 0 zero_admin_ctx zero_io_ctx false 0 0 false false false zero_engine_stats)
  else None.

Section Engine.
Context {F : Win32Files}.

(** ** Initialisation *)

(** The loops that add the namespaces of the configuration, from index [i]. *)
Fixpoint add_admin_namespaces (l : list CMD_ENGINE_NAMESPACE) (i : Z) (c : ADMIN_CMD_CONTEXT) : option ADMIN_CMD_CONTEXT :=
  match l with
  | [] => Some c
  | ns :: l =>
      r ← AdminCmdAddNamespace (mkAdminNamespace (i + 1) (en_size ns) (en_size ns) (en_blockSize ns) 0 (en_active ns)) c;
      add_admin_namespaces l (i + 1) r.2
  end.
Fixpoint add_io_namespaces (l : list CMD_ENGINE_NAMESPACE) (i : Z) (c : IO_CMD_CONTEXT) : option IO_CMD_CONTEXT :=
  match l with
  | [] => Some c
  | ns :: l =>
      r ← IoCmdAddNamespace (mkIoNamespace (i + 1) (en_size ns) (en_blockSize ns) (en_active ns) (en_readOnly ns)) c;
      add_io_namespaces l (i + 1) r.2
  end.
Definition configured (pConfig : CMD_ENGINE_CONFIG) : list CMD_ENGINE_NAMESPACE :=
  take (Z.to_nat (Z.min (cc_namespaceCount pConfig) 16)) (cc_namespaces pConfig).

Definition CmdEngineInit (pConfig : CMD_ENGINE_CONFIG) : M SvState bool :=
  s ← get;
  if negb (cc_shmAddress pConfig) then mret false
  else
    let cb := shm_cb (sv_shm s) in
    if negb (cb_Magic cb =? VNVME_SHM_MAGIC) then mret false
    else
      let sq := qd_Offset (cb_AdminSQ cb) in
      let cq := qd_Offset (cb_AdminCQ cb) in
      engine_update (fun e => e <| ce_shm := true |>
        <| ce_maxIoQueues := if 0 <? cc_maxIoQueues pConfig then cc_maxIoQueues pConfig else 16 |>
        <| ce_debugMode := cc_debugMode pConfig |> <| ce_adminSqBase := sq |> <| ce_adminCqBase := cq |> <| ce_adminCqPhase := 1 |>);;
      (if cb_IoQueueDescriptorOffset cb =? 0 then mret tt else engine_update (fun e => e <| ce_ioQueueDescriptors := true |>));;
      (if (cb_DataBufferOffset cb =? 0) || (cb_DataBufferSize cb =? 0) then mret tt
       else engine_update (fun e => e <| ce_dataBuffer := Some (cb_DataBufferOffset cb) |> <| ce_dataBufferSize := cb_DataBufferSize cb |>));;
      s ← get;
      let e := sv_engine s in
      let admin := AdminCmdInit true (Some sq) (Some cq) (ce_dataBuffer e) (ce_dataBufferSize e) in
      let admin := AdminCmdSetControllerInfo (mkControllerInfo (strncpy (cc_serialNumber pConfig) 20)
        (strncpy (cc_modelNumber pConfig) 40) (strncpy (cc_firmwareRevision pConfig) 8) (cc_vendorId pConfig) 16 64) admin in
      admin ← of_opt (add_admin_namespaces (configured pConfig) 0 admin);
      admin_update (fun _ => admin);;
      io ← of_opt (add_io_namespaces (configured pConfig) 0 (IoCmdInit (ce_dataBuffer e) (ce_dataBufferSize e)));
      io_update (fun _ => IoCmdSetDebugMode (cc_debugMode pConfig) io);;
      engine_update (fun e => e <| ce_initialized := true |>);;
      mret true.

Definition CmdEngineInitSimple (debugMode : bool) : M SvState bool :=
  s ← get;
  let size := match sv_backend s with Some b => BackendGetSize b / 512 | None => 128 * 1024 end in
  CmdEngineInit (mkEngineConfig true (strncpy (chars "VNVME0001234567890") 20) (strncpy (chars "Virtual NVMe Controller") 40)
    (strncpy (chars "1.0.0") 8) 0x1234
    (mkEngineNamespace size 512 true false :: replicate 15 (mkEngineNamespace 0 0 false false)) 1 16 debugMode).

Definition CmdEngineSetDebugMode (debugMode : bool) : M SvState unit :=
  engine_update (fun e => e <| ce_debugMode := debugMode |>);; io_update (IoCmdSetDebugMode debugMode).

(** ** Completions *)

Definition engine_count (f : CMD_ENGINE_STATS -> CMD_ENGINE_STATS) : M SvState unit := engine_update (fun e => e <| ce_stats ::= f |>).

Definition CmdEnginePostAdminCompletion (cid dw0 sct sc : Z) : M SvState unit :=
  s ← get;
  if negb (ce_shm (sv_engine s)) then mret tt
  else
    let cb := shm_cb (sv_shm s) in
    let tail := qd_Tail (cb_AdminCQ cb) in
    let a := ce_adminCqBase (sv_engine s) + tail * NVME_CQ_ENTRY_SIZE in
    shm_bytes a 16 (fun b => cpl_store b a (mkCompletion dw0 0 (u16 (qd_Head (cb_AdminSQ cb))) 0 cid
                              (MakeStatus sct sc (u8 (ce_adminCqPhase (sv_engine s))))));;
    tail ← of_opt (next_index tail (qd_Capacity (cb_AdminCQ cb)));
    (if tail =? 0 then engine_update (fun e => e <| ce_adminCqPhase ::= fun p => if p =? 0 then 1 else 0 |>) else mret tt);;
    sv_cb_update (fun cb => cb <| cb_AdminCQ ::= fun q => q <| qd_Tail := tail |> |>);;
    engine_count (fun t => t <| es_adminCommandsProcessed ::= fun n => n +₆₄ 1 |>).

(** ** Commands *)

Definition CmdEngineProcessAdminCommand (pCmd : NVME_COMMAND) : M SvState Z :=
  r ← (match admin_command pCmd with
       | Some m => m
       | None =>
           s ← get;
           engine_count (fun t => t <| es_errors ::= fun n => n +₆₄ 1 |>);;
           mret (MakeStatus 0 0x01 (u8 (ce_adminCqPhase (sv_engine s))), 0)
       end);
  CmdEnginePostAdminCompletion (cmd_CID pCmd) r.2 (status_sct r.1) (status_sc r.1);;
  mret 1.

Definition CmdEngineProcessIoCommand (pCmd : NVME_COMMAND) (queueId : Z) : M SvState Z := IoCmdProcess pCmd queueId.

(** ** The poll *)

(** The command at index [i] of the queue at offset [base]. *)
Definition sv_command (base i : Z) : M SvState NVME_COMMAND :=
  s ← get;
  let a := base + i * NVME_SQ_ENTRY_SIZE in
  if queue_memory a NVME_SQ_ENTRY_SIZE then mret (cmd_load (shm_mem (sv_shm s)) a) else fault.

(** The loop [while (sqHead != sqTail)] of the admin queue; the result is the
    last head and the number of commands. *)
Fixpoint poll_admin (fuel : nat) (sqHead sqTail sqCap processed : Z) : M SvState (Z * Z) :=
  if sqHead =? sqTail then mret (sqHead, processed)
  else match fuel with
  | O => out_of_fuel
  | S fuel =>
      s ← get;
      cmd ← sv_command (ce_adminSqBase (sv_engine s)) sqHead;
      CmdEngineProcessAdminCommand cmd;;
      sqHead ← of_opt (next_index sqHead sqCap);
      poll_admin fuel sqHead sqTail sqCap (processed +₆₄ 1)
  end.

(** The loop of an I/O queue. *)
Fixpoint poll_io (fuel : nat) (base queueId sqHead sqTail sqCap processed : Z) : M SvState (Z * Z) :=
  if sqHead =? sqTail then mret (sqHead, processed)
  else match fuel with
  | O => out_of_fuel
  | S fuel =>
      cmd ← sv_command base sqHead;
      CmdEngineProcessIoCommand cmd queueId;;
      sqHead ← of_opt (next_index sqHead sqCap);
      poll_io fuel base queueId sqHead sqTail sqCap (processed +₆₄ 1)
  end.

(** One notification. *)
Definition poll_entry (fuel : nat) (entry : VNVME_NOTIFY_ENTRY) (processed : Z) : M SvState Z :=
  if negb (ne_Type entry =? 0) then mret processed
  else if ne_QueueId entry =? 0 then
    s ← get;
    let sq := cb_AdminSQ (shm_cb (sv_shm s)) in
    r ← poll_admin fuel (qd_Head sq) (ne_Index entry) (qd_Capacity sq) processed;
    sv_cb_update (fun cb => cb <| cb_AdminSQ ::= fun q => q <| qd_Head := r.1 |> |>);;
    mret r.2
  else
    s ← get;
    let queueId := ne_QueueId entry in
    sqInfo ← of_opt (AdminCmdGetIoSq (admin_ctx s) queueId);
    match sqInfo with
    | None => mret processed
    | Some sqInfo =>
        match qi_created sqInfo, qi_sqBase sqInfo, qi_descriptor sqInfo with
        | true, Some base, Some d =>
            sqDesc ← of_opt (arr_get (shm_descs (sv_shm s)) d);
            r ← poll_io fuel base queueId (qd_Head sqDesc) (ne_Index entry) (qi_capacity sqInfo) processed;
            s ← get;
            m ← of_opt (desc_update d (fun q => q <| qd_Head := r.1 |>) (sv_shm s));
            modify (fun s => s <| sv_shm := m |>);;
            mret r.2
        | _, _, _ => mret processed
        end
    end.

(** The loop over the notify ring. *)
Fixpoint poll_ring (rounds fuel : nat) (head tail processed : Z) : M SvState (Z * Z) :=
  if head =? tail then mret (head, processed)
  else match rounds with
  | O => out_of_fuel
  | S rounds =>
      s ← get;
      entry ← of_opt (arr_get (nr_Entries (shm_ring (sv_shm s))) head);
      processed ← poll_entry fuel entry processed;
      s ← get;
      head ← of_opt (next_index head (nr_Size (shm_ring (sv_shm s))));
      poll_ring rounds fuel head tail processed
  end.

Definition publish_statistics : M SvState unit :=
  s ← get;
  let ioStats := IoCmdGetStats (io_ctx s) in
  sv_cb_update (fun cb => cb
    <| cb_CommandsProcessed := es_adminCommandsProcessed (ce_stats (sv_engine s)) +₆₄ io_commandsProcessed ioStats |>
    <| cb_BytesRead := io_bytesRead ioStats |> <| cb_BytesWritten := io_bytesWritten ioStats |>);;
  engine_count (fun t => t <| es_ioCommandsProcessed := io_commandsProcessed ioStats |>
    <| es_bytesRead := io_bytesRead ioStats |> <| es_bytesWritten := io_bytesWritten ioStats |>).

(** [rounds] bounds the notifications of one poll, [fuel] the commands of each. *)
Definition CmdEnginePoll (rounds fuel : nat) : M SvState Z :=
  s ← get;
  if negb (ce_initialized (sv_engine s)) then mret 0
  else if cb_NotifyRingOffset (shm_cb (sv_shm s)) =? 0 then mret 0
  else
    let ring := shm_ring (sv_shm s) in
    r ← poll_ring rounds fuel (nr_Head ring) (nr_Tail ring) 0;
    modify (fun s => s <| sv_shm ::= fun m => m <| shm_ring ::= fun r' => r' <| nr_Head := r.1 |> |> |>);;
    (if 0 <? r.2 then publish_statistics else mret tt);;
    engine_count (fun t => t <| es_pollCount ::= fun n => n +₆₄ 1 |>);;
    mret r.2.

(** The loop of the service: one round for each element of [waits], which says
    whether WaitForSingleObject was signalled; then [*pRunning] is cleared. *)
Fixpoint run_loop (rounds fuel : nat) (waits : list bool) : M SvState unit :=
  match waits with
  | [] => mret tt
  | signalled :: waits =>
      processed ← CmdEnginePoll rounds fuel;
      s ← get;
      (if (processed =? 0) && ce_useEventWait (sv_engine s) && ce_commandEvent (sv_engine s) && signalled
       then engine_count (fun t => t <| es_eventWakeups ::= fun n => n +₆₄ 1 |>) else mret tt);;
      run_loop rounds fuel waits
  end.
Definition CmdEngineRun (rounds fuel : nat) (waits : list bool) : M SvState bool :=
  s ← get;
  if negb (ce_initialized (sv_engine s)) then mret false
  else
    engine_update (fun e => e <| ce_running := true |>);;
    run_loop rounds fuel waits;;
    engine_update (fun e => e <| ce_running := false |>);;
    mret true.

(** ** Statistics and state *)

Definition CmdEngineGetStats (s : SvState) : CMD_ENGINE_STATS := ce_stats (sv_engine s).
Definition CmdEngineResetStats : M SvState unit :=
  engine_update (fun e => e <| ce_stats := zero_engine_stats |>);; io_update IoCmdResetStats.
Definition CmdEngineSetCommandEvent (hEvent : bool) : M SvState unit :=
  engine_update (fun e => e <| ce_commandEvent := hEvent |> <| ce_useEventWait := hEvent |>).
Definition CmdEngineGetAdminContext (s : SvState) : ADMIN_CMD_CONTEXT := admin_ctx s.
Definition CmdEngineGetIoContext (s : SvState) : IO_CMD_CONTEXT := io_ctx s.

(** ** The admin queue *)

Definition admin_sq (s : SvState) : VNVME_QUEUE_DESCRIPTOR := cb_AdminSQ (shm_cb (sv_shm s)).
Definition admin_cq (s : SvState) : VNVME_QUEUE_DESCRIPTOR := cb_AdminCQ (shm_cb (sv_shm s)).

(** The engine is initialised, its queues and its data buffer are in queue memory and apart. *)
Record engine_ok (s : SvState) : Prop := {
  eo_shm : ce_shm (sv_engine s) = true;
  eo_admin : admin_ok (admin_ctx s);
  eo_bases : ce_adminSqBase (sv_engine s) = qd_Offset (admin_sq s) /\ ce_adminCqBase (sv_engine s) = qd_Offset (admin_cq s);
  eo_sq : 0 < qd_Capacity (admin_sq s) < 2 ^ 32 - 1;
  eo_cq : 0 < qd_Capacity (admin_cq s) < 2 ^ 32 - 1 /\ 0 <= qd_Tail (admin_cq s) < qd_Capacity (admin_cq s);
  eo_sq_memory i : 0 <= i < qd_Capacity (admin_sq s) -> queue_memory (qd_Offset (admin_sq s) + i * 64) 64 = true;
  eo_cq_memory i : 0 <= i < qd_Capacity (admin_cq s) -> queue_memory (qd_Offset (admin_cq s) + i * 16) 16 = true;
  eo_phase : ce_adminCqPhase (sv_engine s) = 0 \/ ce_adminCqPhase (sv_engine s) = 1;
  eo_apart : qd_Offset (admin_cq s) + qd_Capacity (admin_cq s) * 16 <= qd_Offset (admin_sq s) \/
             qd_Offset (admin_sq s) + qd_Capacity (admin_sq s) * 64 <= qd_Offset (admin_cq s);
  eo_buffer x : in_buffer (admin_ctx s) x ->
    ~ (qd_Offset (admin_sq s) <= x < qd_Offset (admin_sq s) + qd_Capacity (admin_sq s) * 64) /\
    ~ (qd_Offset (admin_cq s) <= x < qd_Offset (admin_cq s) + qd_Capacity (admin_cq s) * 16)
}.

(** The slot of the [k]-th completion from now. *)
Definition cq_slot (s : SvState) (k : Z) : Z :=
  qd_Offset (admin_cq s) + ((qd_Tail (admin_cq s) + k) mod qd_Capacity (admin_cq s)) * 16.

(** The commands at the indices of the admin queue that [l] lists are answered,
    in order, in the next slots of the completion queue, each with the head that
    [l] gives for it; the queue's own head becomes [hd]. *)
Record served (s s' : SvState) (l : list (Z * Z)) (hd : Z) : Prop := {
  se_ok : engine_ok s';
  se_shm : sv_shm s' = (sv_shm s) <| shm_mem := shm_mem (sv_shm s') |>
    <| shm_cb ::= fun cb => cb <| cb_AdminSQ := (admin_sq s) <| qd_Head := hd |> |>
         <| cb_AdminCQ := (admin_cq s) <| qd_Tail := (qd_Tail (admin_cq s) + Z.of_nat (length l)) mod qd_Capacity (admin_cq s) |> |> |>;
  se_buffer : ac_dataBuffer (admin_ctx s') = ac_dataBuffer (admin_ctx s) /\
              ac_dataBufferSize (admin_ctx s') = ac_dataBufferSize (admin_ctx s);
  se_io : io_ctx s' = io_ctx s /\ sv_backend s' = sv_backend s /\ ce_initialized (sv_engine s') = ce_initialized (sv_engine s);
  se_phase : ce_adminCqPhase (sv_engine s') =
    phase_after (qd_Capacity (admin_cq s)) (qd_Tail (admin_cq s)) (ce_adminCqPhase (sv_engine s)) (Z.of_nat (length l));
  se_answered (k : nat) h hd0 : l !! k = Some (h, hd0) ->
    let c := cpl_load (shm_mem (sv_shm s')) (cq_slot s (Z.of_nat k)) in
    cpl_CID c = cmd_CID (cmd_load (shm_mem (sv_shm s)) (qd_Offset (admin_sq s) + h * 64)) /\ cpl_SQID c = 0 /\
    cpl_SQHD c = u16 hd0 /\
    NVME_STATUS_P (cpl_Status c) =
      phase_after (qd_Capacity (admin_cq s)) (qd_Tail (admin_cq s)) (ce_adminCqPhase (sv_engine s)) (Z.of_nat k);
  se_mem x : ~ in_buffer (admin_ctx s) x -> (forall k, 0 <= k < Z.of_nat (length l) -> ~ (cq_slot s k <= x < cq_slot s k + 16)) ->
    rd8 (shm_mem (sv_shm s')) x = rd8 (shm_mem (sv_shm s)) x
}.

(** What running the command itself can change. *)
Record command_run (s s' : SvState) : Prop := {
  cr_admin : admin_ok (admin_ctx s');
  cr_buffer : ac_dataBuffer (admin_ctx s') = ac_dataBuffer (admin_ctx s) /\
              ac_dataBufferSize (admin_ctx s') = ac_dataBufferSize (admin_ctx s);
  cr_engine : exists t, sv_engine s' = (sv_engine s) <| ce_adminCtx := admin_ctx s' |> <| ce_stats := t |>;
  cr_backend : sv_backend s' = sv_backend s;
  cr_shm : sv_shm s' = (sv_shm s) <| shm_mem := shm_mem (sv_shm s') |>;
  cr_mem x : ~ in_buffer (admin_ctx s) x -> rd8 (shm_mem (sv_shm s')) x = rd8 (shm_mem (sv_shm s)) x
}.

Lemma admin_command_run c s : cmd_wf c -> engine_ok s ->
  exists r s', (match admin_command c with
       | Some m => m
       | None => s ← get; engine_count (fun t => t <| es_errors ::= fun n => n +₆₄ 1 |>);;
                 mret (MakeStatus 0 0x01 (u8 (ce_adminCqPhase (sv_engine s))), 0)
       end) s = Ok (r, s') /\ command_run s s' /\ 0 <= r.2 < 2 ^ 32.
Proof.
  intros Hwf Hs. pose proof (eo_admin _ Hs) as Ha. destruct (admin_command c) as [m|] eqn:E.
  - destruct (wp_elim _ _ _ (admin_command_replies c m Hwf E s Ha)) as (r & s' & Hrun & D & Hr).
    exists r, s'. split; [done|]. split; [|done]. destruct D as [D1 D2 D3 D4 D5 D6]. split; try done.
    exists (ce_stats (sv_engine s)). rewrite D3. by destruct (sv_engine s).
  - eexists _, _. split; [rewrite bind_get; unfold engine_count, engine_update; rewrite bind_modify; reflexivity|].
    split; [|done]. destruct s as [[] [] ?]. split; cbn in *; try done. eexists. reflexivity.
Qed.

Lemma MakeStatus_P sct sc phase : 0 <= sct < 2 ^ 3 -> 0 <= sc < 2 ^ 8 -> phase = 0 \/ phase = 1 ->
  NVME_STATUS_P (MakeStatus sct sc phase) = phase /\ 0 <= MakeStatus sct sc phase < 2 ^ 16.
Proof.
  intros H1 H2 H3. split; [|apply u16_range]. change (MakeStatus sct sc phase) with (NvmeMakeStatus sct sc phase).
  apply NvmeMakeStatus_fields; lia.
Qed.

Lemma status_parts st : 0 <= status_sct st < 2 ^ 3 /\ 0 <= status_sc st < 2 ^ 8.
Proof.
  unfold status_sct, status_sc. change 0x07 with (Z.ones 3). change 0xFF with (Z.ones 8).
  rewrite !Z.land_ones by done. split; by apply Z.mod_pos_bound.
Qed.

(** Posting a completion. *)
Lemma CmdEnginePostAdminCompletion_run s cid dw0 sct sc :
  engine_ok s -> 0 <= cid < 2 ^ 16 -> 0 <= dw0 < 2 ^ 32 -> 0 <= sct < 2 ^ 3 -> 0 <= sc < 2 ^ 8 ->
  exists t s', CmdEnginePostAdminCompletion cid dw0 sct sc s = Ok (tt, s') /\
    sv_engine s' = (sv_engine s) <| ce_stats := t |>
      <| ce_adminCqPhase := phase_after (qd_Capacity (admin_cq s)) (qd_Tail (admin_cq s)) (ce_adminCqPhase (sv_engine s)) 1 |> /\
    sv_backend s' = sv_backend s /\
    sv_shm s' = (sv_shm s)
      <| shm_mem := cpl_store (shm_mem (sv_shm s)) (cq_slot s 0)
           (mkCompletion dw0 0 (u16 (qd_Head (admin_sq s))) 0 cid (MakeStatus sct sc (ce_adminCqPhase (sv_engine s)))) |>
      <| shm_cb ::= fun cb => cb <| cb_AdminCQ := (admin_cq s) <| qd_Tail := (qd_Tail (admin_cq s) + 1) mod qd_Capacity (admin_cq s) |> |> |>.
Proof.
  intros Hs Hcid Hdw Hsct Hsc. destruct (eo_cq _ Hs) as [Hcap Ht].
  assert (cq_slot s 0 = qd_Offset (admin_cq s) + qd_Tail (admin_cq s) * 16) as Hslot
    by (unfold cq_slot; rewrite Z.add_0_r, Z.mod_small by done; done).
  assert (u8 (ce_adminCqPhase (sv_engine s)) = ce_adminCqPhase (sv_engine s)) as Hphase by (destruct (eo_phase _ Hs) as [-> | ->]; done).
  unfold CmdEnginePostAdminCompletion. rewrite bind_get, (eo_shm _ Hs). cbn [negb]. cbv zeta.
  unfold shm_bytes at 1. rewrite (proj2 (eo_bases _ Hs)). unfold NVME_CQ_ENTRY_SIZE.
  change (cb_AdminCQ (shm_cb (sv_shm s))) with (admin_cq s). change (cb_AdminSQ (shm_cb (sv_shm s))) with (admin_sq s).
  rewrite (eo_cq_memory _ Hs _ Ht), bind_modify, (bind_opt _ _ _ _ (next_index_ok _ _ Ht (proj2 Hcap))), Hphase, <- Hslot.
  rewrite phase_after_one by (done || apply Hs). revert Hphase Hslot Ht Hcap. generalize (cq_slot s 0).
  destruct s as [m e k]. intros a _ _ _ _. unfold admin_cq, admin_sq. cbn.
  destruct (_ =? 0); eexists _, _; (split; [reflexivity|]); cbn; (split; [reflexivity|split; reflexivity]).
Qed.

(** The conditions on the queues and on the buffer outlive what a command changes. *)
Lemma engine_ok_change s s' hd tail :
  engine_ok s -> admin_ok (admin_ctx s') ->
  ac_dataBuffer (admin_ctx s') = ac_dataBuffer (admin_ctx s) -> ac_dataBufferSize (admin_ctx s') = ac_dataBufferSize (admin_ctx s) ->
  ce_shm (sv_engine s') = ce_shm (sv_engine s) -> ce_adminSqBase (sv_engine s') = ce_adminSqBase (sv_engine s) ->
  ce_adminCqBase (sv_engine s') = ce_adminCqBase (sv_engine s) -> ce_adminCqPhase (sv_engine s') = 0 \/ ce_adminCqPhase (sv_engine s') = 1 ->
  admin_sq s' = (admin_sq s) <| qd_Head := hd |> -> admin_cq s' = (admin_cq s) <| qd_Tail := tail |> -> 0 <= tail < qd_Capacity (admin_cq s) ->
  engine_ok s'.
Proof.
  intros [H1 H2 H3 H4 H5 H6 H7 H8 H9 H10] Ha B1 B2 E1 E2 E3 E4 E6 E7 Ht.
  split; rewrite ?E6, ?E7; cbn; unfold in_buffer in *; rewrite ?B1, ?B2; try done; try congruence.
  split; [apply H5 | done].
Qed.

(** One command. *)
Lemma CmdEngineProcessAdminCommand_run s h :
  engine_ok s -> 0 <= h < qd_Capacity (admin_sq s) ->
  exists s', CmdEngineProcessAdminCommand (cmd_load (shm_mem (sv_shm s)) (qd_Offset (admin_sq s) + h * 64)) s = Ok (1, s') /\
    served s s' [(h, qd_Head (admin_sq s))] (qd_Head (admin_sq s)).
Proof.
  intros Hs Hh. set (c := cmd_load _ _). pose proof (cmd_load_wf (shm_mem (sv_shm s)) (qd_Offset (admin_sq s) + h * 64)) as Hwf.
  fold c in Hwf. assert (0 <= cmd_CID c < 2 ^ 16) as Hcid by (unfold cmd_wf in Hwf; tauto).
  destruct (admin_command_run c s Hwf Hs) as (r & s1 & Hrun & D & Hr). destruct D as [D1 [B1 B2] [t1 D3] D4 D5 D6].
  destruct (eo_cq _ Hs) as [Hcap Ht].
  assert (admin_sq s1 = admin_sq s /\ admin_cq s1 = admin_cq s) as [Esq Ecq] by (unfold admin_sq, admin_cq; by rewrite D5).
  assert (ce_adminCqPhase (sv_engine s1) = ce_adminCqPhase (sv_engine s)) as Ep by (rewrite D3; done).
  assert (engine_ok s1) as Hs1.
  { apply (engine_ok_change s s1 (qd_Head (admin_sq s)) (qd_Tail (admin_cq s))); try done; try (rewrite D3; done).
    - rewrite Ep. apply Hs.
    - rewrite Esq. by destruct (admin_sq s).
    - rewrite Ecq. by destruct (admin_cq s). }
  destruct (CmdEnginePostAdminCompletion_run s1 (cmd_CID c) r.2 (status_sct r.1) (status_sc r.1) Hs1 Hcid Hr
    (proj1 (status_parts _)) (proj2 (status_parts _))) as (t2 & s2 & Hpost & P1 & P2 & P3).
  exists s2. split.
  { unfold CmdEngineProcessAdminCommand. rewrite (bind_Ok _ _ _ _ _ Hrun). cbv beta. by rewrite (bind_Ok _ _ _ _ _ Hpost). }
  assert (cq_slot s1 0 = cq_slot s 0) as Eslot by (unfold cq_slot; by rewrite Ecq).
  rewrite Ecq, Esq, Ep, Eslot in *. clear Hpost Hrun Eslot. set (cpl := mkCompletion _ _ _ _ _ _) in *.
  assert (cpl_wf cpl) as Hcpl.
  { clearbody c. unfold cpl_wf; cbn -[Z.pow u16]. pose proof (u16_range (qd_Head (admin_sq s))).
    pose proof (proj2 (MakeStatus_P _ _ _ (proj1 (status_parts r.1)) (proj2 (status_parts r.1)) (eo_phase _ Hs))). lia. }
  assert (admin_ctx s2 = admin_ctx s1) as Ead by (unfold admin_ctx; rewrite P1; done).
  assert (admin_sq s2 = (admin_sq s) <| qd_Head := qd_Head (admin_sq s) |>) as Esq2
    by (transitivity (admin_sq s); [unfold admin_sq; by rewrite P3 | by destruct (admin_sq s)]).
  assert (admin_cq s2 = (admin_cq s) <| qd_Tail := (qd_Tail (admin_cq s) + 1) mod qd_Capacity (admin_cq s) |>) as Ecq2
    by (unfold admin_cq; rewrite P3; done).
  pose proof (Z.mod_pos_bound (qd_Tail (admin_cq s) + 1) (qd_Capacity (admin_cq s)) ltac:(lia)) as Ht2.
  split.
  - eapply (engine_ok_change s s2); rewrite ?Ead; try done; try (rewrite P1, D3; reflexivity).
    rewrite P1. by apply phase_after_range, Hs.
  - rewrite P3, D5. unfold admin_sq. by destruct (sv_shm s) as [[????? [] ?????????????????] ???].
  - by rewrite Ead.
  - unfold io_ctx. rewrite P2, P1, D3. done.
  - by rewrite P1.
  - intros [|k] h' hd0 Hl; [|done]. injection Hl as <- <-. cbv zeta. rewrite P3.
    change (Z.of_nat 0) with 0. match goal with |- context [cpl_load ?m _] => change m with (cpl_store (shm_mem (sv_shm s1)) (cq_slot s 0) cpl) end.
    rewrite cpl_load_store by done. split; [done|]. split; [done|]. split; [done|].
    unfold phase_after. rewrite Z.add_0_r, (proj2 (Z.ltb_lt _ _)) by lia. apply MakeStatus_P; [apply status_parts..|apply Hs].
  - intros x Hx Hk. rewrite P3. match goal with |- rd8 ?m _ = _ => change m with (cpl_store (shm_mem (sv_shm s1)) (cq_slot s 0) cpl) end.
    rewrite rd8_cpl_store_out by (apply (Hk 0); cbn; lia). by apply D6.
Qed.

(** The slots of the next completions are in the completion queue, and apart. *)
Lemma cq_slot_range s k : engine_ok s -> qd_Offset (admin_cq s) <= cq_slot s k /\
  cq_slot s k + 16 <= qd_Offset (admin_cq s) + qd_Capacity (admin_cq s) * 16.
Proof.
  intros Hs. unfold cq_slot. pose proof (Z.mod_pos_bound (qd_Tail (admin_cq s) + k) (qd_Capacity (admin_cq s)) ltac:(apply Hs)). lia.
Qed.

Lemma cq_slot_apart s k n : 0 < n - k < qd_Capacity (admin_cq s) -> cq_slot s k + 16 <= cq_slot s n \/ cq_slot s n + 16 <= cq_slot s k.
Proof.
  intros H. unfold cq_slot. pose proof (ring_slots_differ (qd_Capacity (admin_cq s)) (qd_Tail (admin_cq s) + k) (qd_Tail (admin_cq s) + n)). lia.
Qed.

(** No command: only the head moves. *)
Lemma served_head s hd : engine_ok s ->
  served s (s <| sv_shm ::= fun m => m <| shm_cb ::= fun cb => cb <| cb_AdminSQ ::= fun q => q <| qd_Head := hd |> |> |> |>) [] hd.
Proof.
  intros Hs. destruct (eo_cq _ Hs) as [Hcap Ht].
  split; try done.
  - apply (engine_ok_change s _ hd (qd_Tail (admin_cq s))); try done; [apply Hs..|].
    unfold admin_cq. cbn. by destruct (cb_AdminCQ _).
  - cbn [length Z.of_nat]. rewrite Z.add_0_r, Z.mod_small by done. unfold admin_sq, admin_cq.
    by destruct s as [[[????? [] [] ????????????????] ???] ??].
  - unfold phase_after. cbn [length Z.of_nat]. rewrite Z.add_0_r, (proj2 (Z.ltb_lt _ _)) by lia. done.
Qed.

Lemma served_refl s : engine_ok s -> served s s [] (qd_Head (admin_sq s)).
Proof.
  intros Hs. pose proof (served_head s (qd_Head (admin_sq s)) Hs) as D. by destruct s as [[[????? [] ?????????????????] ???] ??].
Qed.

Lemma served_trans s1 s2 s3 l1 h1 l2 h2 :
  engine_ok s1 -> served s1 s2 l1 h1 -> served s2 s3 l2 h2 -> Forall (fun p => 0 <= p.1 < qd_Capacity (admin_sq s1)) l2 ->
  Z.of_nat (length l1) + Z.of_nat (length l2) <= qd_Capacity (admin_cq s1) -> served s1 s3 (l1 ++ l2) h2.
Proof.
  intros Hs D1 D2 Hl2 Hlen. destruct (eo_cq _ Hs) as [Hcap Ht].
  assert (admin_sq s2 = (admin_sq s1) <| qd_Head := h1 |>) as Esq by (unfold admin_sq at 1; rewrite (se_shm _ _ _ _ D1); done).
  assert (admin_cq s2 = (admin_cq s1) <| qd_Tail := (qd_Tail (admin_cq s1) + Z.of_nat (length l1)) mod qd_Capacity (admin_cq s1) |>) as Ecq
    by (unfold admin_cq at 1; rewrite (se_shm _ _ _ _ D1); done).
  assert (forall k, cq_slot s2 k = cq_slot s1 (Z.of_nat (length l1) + k)) as Eslot.
  { intros k. unfold cq_slot. rewrite Ecq. cbn. rewrite Zplus_mod_idemp_l. by rewrite Z.add_assoc. }
  destruct (se_buffer _ _ _ _ D1) as [B1 B2]. destruct (se_buffer _ _ _ _ D2) as [B3 B4].
  assert (forall x, in_buffer (admin_ctx s2) x <-> in_buffer (admin_ctx s1) x) as Hbuf by (intros x; unfold in_buffer; by rewrite B1, B2).
  split.
  - by apply (se_ok _ _ _ _ D2).
  - rewrite (se_shm _ _ _ _ D2), (se_shm _ _ _ _ D1), Ecq, Esq. cbn. rewrite Zplus_mod_idemp_l, length_app, Nat2Z.inj_add, <- Z.add_assoc.
    reflexivity.
  - by rewrite B3, B4.
  - destruct (se_io _ _ _ _ D1) as (<- & <- & <-). apply D2.
  - rewrite (se_phase _ _ _ _ D2), (se_phase _ _ _ _ D1), Ecq, length_app, Nat2Z.inj_add. cbn. apply phase_after_add; try lia. apply Hs.
  - intros k h hd0 Hk. cbv zeta. destruct (Nat.lt_ge_cases k (length l1)) as [Hlt|Hge].
    + rewrite lookup_app_l in Hk by done. destruct (se_answered _ _ _ _ D1 k h hd0 Hk) as (A1 & A2 & A3 & A4).
      rewrite (cpl_load_ext _ (shm_mem (sv_shm s2)) _ (cq_slot s1 (Z.of_nat k))); [done|].
      intros i Hi. pose proof (cq_slot_range s1 (Z.of_nat k) Hs). apply (se_mem _ _ _ _ D2).
      * rewrite Hbuf. intros Hb. apply (proj2 (eo_buffer _ Hs _ Hb)). lia.
      * intros n Hn. rewrite Eslot. pose proof (cq_slot_apart s1 (Z.of_nat k) (Z.of_nat (length l1) + n)). lia.
    + rewrite lookup_app_r in Hk by done. destruct (se_answered _ _ _ _ D2 _ h hd0 Hk) as (A1 & A2 & A3 & A4).
      rewrite Eslot in *. rewrite Nat2Z.inj_sub in * by done. replace (Z.of_nat (length l1) + (Z.of_nat k - Z.of_nat (length l1))) with (Z.of_nat k) in * by lia.
      rewrite Esq, Ecq in *.
      assert (0 <= h < qd_Capacity (admin_sq s1)) as Hh by (rewrite Forall_forall in Hl2; apply (Hl2 (h, hd0)); by eapply list_elem_of_lookup_2).
      split; [|split; [done|split; [done|]]].
      * rewrite A1. f_equal. apply cmd_load_ext. intros i Hi. apply (se_mem _ _ _ _ D1).
        -- intros Hb. apply (proj1 (eo_buffer _ Hs _ Hb)). lia.
        -- intros n Hn. pose proof (cq_slot_range s1 n Hs). destruct (eo_apart _ Hs); lia.
      * rewrite A4, (se_phase _ _ _ _ D1). cbn.
        assert (k < length (l1 ++ l2))%nat by (rewrite length_app; apply lookup_lt_Some in Hk; lia). rewrite length_app in *.
        rewrite phase_after_add by (lia || apply Hs). f_equal. lia.
  - intros x Hx Hk. rewrite length_app, Nat2Z.inj_add in Hk. rewrite (se_mem _ _ _ _ D2), (se_mem _ _ _ _ D1); [done|done|..].
    + intros k Hk'. apply Hk. lia.
    + by rewrite Hbuf.
    + intros k Hk'. rewrite Eslot. apply Hk. lia.
Qed.

(** What the engine's steps keep of the admin queues. *)
Lemma served_queues s s' l hd : served s s' l hd ->
  admin_sq s' = (admin_sq s) <| qd_Head := hd |> /\
  admin_cq s' = (admin_cq s) <| qd_Tail := (qd_Tail (admin_cq s) + Z.of_nat (length l)) mod qd_Capacity (admin_cq s) |> /\
  shm_ring (sv_shm s') = shm_ring (sv_shm s).
Proof. intros D. unfold admin_sq at 1, admin_cq at 1. by rewrite (se_shm _ _ _ _ D). Qed.

(** The commands of the admin queue from [h] up to [t], with the head [hd]. *)
Definition admin_pending (cap h t hd : Z) : list (Z * Z) := (fun i => (i, hd)) <$> ring_indices h t cap.

Lemma admin_pending_range cap h t hd : 0 < cap -> Forall (fun p => 0 <= p.1 < cap) (admin_pending cap h t hd).
Proof.
  intros Hcap. apply Forall_forall. intros p (i & -> & (k & -> & _)%list_elem_of_fmap)%list_elem_of_fmap. by apply Z.mod_pos_bound.
Qed.

(** The loop over the admin queue ends, and serves what is pending. *)
Lemma poll_admin_run fuel : forall s h t n,
  let cap := qd_Capacity (admin_sq s) in
  engine_ok s -> 0 <= h < cap -> 0 <= t < cap -> ring_count h t cap <= Z.of_nat fuel ->
  ring_count h t cap <= qd_Capacity (admin_cq s) -> 0 <= n -> n + ring_count h t cap < 2 ^ 64 ->
  exists s', poll_admin fuel h t cap n s = Ok ((t, n + ring_count h t cap), s') /\
    served s s' (admin_pending cap h t (qd_Head (admin_sq s))) (qd_Head (admin_sq s)).
Proof.
  induction fuel as [|fuel IH]; intros s h t n cap Hs Hh Ht Hfuel Hroom Hn Hmax; pose proof (eo_sq _ Hs) as [Hcap Hcap32];
    fold cap in Hcap, Hcap32; pose proof (ring_count_range cap Hcap h t) as Hc; cbn [poll_admin];
    (destruct (Z.eqb_spec h t) as [->|Hne];
      [exists s; unfold admin_pending; rewrite ring_indices_empty by done; rewrite (proj2 (ring_count_0 cap Hcap t t Ht Ht) eq_refl), Z.add_0_r;
       split; [done|]; by apply served_refl|]).
  - exfalso. apply Hne, (ring_count_0 cap Hcap); [done|done|lia].
  - destruct (CmdEngineProcessAdminCommand_run s h Hs Hh) as (s1 & Hrun & D1).
    assert (sv_command (ce_adminSqBase (sv_engine s)) h s = Ok (cmd_load (shm_mem (sv_shm s)) (qd_Offset (admin_sq s) + h * 64), s)) as Hcmd.
    { unfold sv_command. rewrite bind_get, (proj1 (eo_bases _ Hs)). cbv zeta. unfold NVME_SQ_ENTRY_SIZE. by rewrite (eo_sq_memory _ Hs). }
    rewrite bind_get, (bind_Ok _ _ _ _ _ Hcmd), (bind_Ok _ _ _ _ _ Hrun), (bind_opt _ _ _ _ (next_index_ok _ _ Hh Hcap32)).
    destruct (served_queues _ _ _ _ D1) as (Esq & Ecq & _).
    assert (qd_Capacity (admin_sq s1) = cap) as Ecap by (rewrite Esq; done).
    assert (ring_count h t cap <> 0) as Hc0 by (rewrite (ring_count_0 cap Hcap) by done; done).
    pose proof (ring_count_head cap Hcap h t Hh Ht Hne) as Hc1. pose proof (Z.mod_pos_bound (h + 1) cap Hcap) as Hh1.
    destruct (IH s1 ((h + 1) mod cap) t (n + 1)) as (s2 & Hloop & D2); rewrite ?Ecap, ?Hc1; try done; try lia.
    { apply (se_ok _ _ _ _ D1). } { rewrite Ecq. cbn. lia. }
    exists s2. rewrite Ecap in *. rewrite u64_small by lia. split.
    + rewrite Hloop, Hc1. do 3 f_equal. lia.
    + unfold admin_pending. rewrite ring_indices_cons by done. rewrite Esq in D2.
      apply (served_trans s s1 s2 _ _ (admin_pending cap ((h + 1) mod cap) t (qd_Head (admin_sq s))) _ Hs D1 D2).
      * by apply admin_pending_range.
      * unfold admin_pending. rewrite length_fmap, ring_indices_length, Hc1 by done. cbn [length]. lia.
Qed.

(** A notification for the admin queue. *)
Definition admin_entry (e : VNVME_NOTIFY_ENTRY) : bool := (ne_Type e =? 0) && (ne_QueueId e =? 0).

(** What the notifications ask for: the commands of the admin queue, each with
    the head its notification found; and the head they leave. *)
Fixpoint notified (cap hd : Z) (l : list VNVME_NOTIFY_ENTRY) : list (Z * Z) :=
  match l with
  | [] => []
  | e :: l => if admin_entry e then admin_pending cap hd (ne_Index e) hd ++ notified cap (ne_Index e) l else notified cap hd l
  end.
Fixpoint last_head (hd : Z) (l : list VNVME_NOTIFY_ENTRY) : Z :=
  match l with
  | [] => hd
  | e :: l => last_head (if admin_entry e then ne_Index e else hd) l
  end.

(** A notification the driver can send: its tail is an index of the queue. *)
Definition entry_ok (cap : Z) (e : VNVME_NOTIFY_ENTRY) : Prop :=
  0 <= ne_QueueId e /\ (admin_entry e = true -> 0 <= ne_Index e < cap).

Lemma notified_range cap hd l : 0 < cap -> Forall (fun p => 0 <= p.1 < cap) (notified cap hd l).
Proof.
  intros Hcap. revert hd. induction l as [|e l IH]; intros hd; cbn [notified]; [done|].
  destruct (admin_entry e); [|done]. apply Forall_app. split; [by apply admin_pending_range|done].
Qed.

(** One notification. A notification for an I/O queue changes nothing: no I/O
    queue of the service has a descriptor. *)
Lemma poll_entry_run fuel s e n :
  let cap := qd_Capacity (admin_sq s) in
  let l := notified cap (qd_Head (admin_sq s)) [e] in
  engine_ok s -> 0 <= qd_Head (admin_sq s) < cap -> entry_ok cap e -> cap <= Z.of_nat fuel ->
  Z.of_nat (length l) <= qd_Capacity (admin_cq s) -> 0 <= n -> n + Z.of_nat (length l) < 2 ^ 64 ->
  exists s', poll_entry fuel e n s = Ok (n + Z.of_nat (length l), s') /\ served s s' l (last_head (qd_Head (admin_sq s)) [e]).
Proof.
  intros cap l Hs Hh [Hq He] Hfuel Hroom Hn Hmax. pose proof (eo_sq _ Hs) as [Hcap _]. fold cap in Hcap.
  subst l. unfold poll_entry, last_head, notified in *. unfold admin_entry in *.
  pose proof (served_refl s Hs) as D0.
  destruct (ne_Type e =? 0); cbn [negb andb] in *; [|exists s; rewrite Z.add_0_r; done].
  destruct (ne_QueueId e =? 0) eqn:Eq; cbn [app length] in *.
  - specialize (He eq_refl). rewrite app_nil_r in *. rewrite bind_get. cbv zeta.
    assert (Z.of_nat (length (admin_pending cap (qd_Head (admin_sq s)) (ne_Index e) (qd_Head (admin_sq s)))) =
            ring_count (qd_Head (admin_sq s)) (ne_Index e) cap) as Hlen
      by (unfold admin_pending; by rewrite length_fmap, ring_indices_length).
    rewrite Hlen in *. pose proof (ring_count_range cap Hcap (qd_Head (admin_sq s)) (ne_Index e)).
    destruct (poll_admin_run fuel s (qd_Head (admin_sq s)) (ne_Index e) n) as (s1 & Hrun & D1); fold cap; try done; try lia.
    change (cb_AdminSQ (shm_cb (sv_shm s))) with (admin_sq s). fold cap in Hrun, D1 |- *. rewrite (bind_Ok _ _ _ _ _ Hrun). cbn [fst snd].
    unfold sv_cb_update. rewrite bind_modify. eexists. split; [reflexivity|].
    rewrite <- (app_nil_r (admin_pending _ _ _ _)).
    eapply (served_trans s s1); [done|exact D1| |done|cbn [length]; rewrite Hlen; lia].
    pose proof (served_head s1 (ne_Index e) (se_ok _ _ _ _ D1)) as D2. exact D2.
  - exists s. rewrite Z.add_0_r. split; [|done]. rewrite bind_get. cbv zeta. destruct (eo_admin _ Hs) as [K1 _ K3 _ _ _ _ K8].
    unfold AdminCmdGetIoSq. rewrite K3, Eq. cbn [orb]. destruct (Z.ltb_spec 16 (ne_QueueId e)); [done|].
    destruct (proj2 (arr_get_Some_iff (ac_ioSq (admin_ctx s)) (ne_QueueId e - 1)) ltac:(apply Z.eqb_neq in Eq; lia)) as [q Hget].
    rewrite Hget. cbn [option_map]. rewrite (bind_opt _ _ _ _ (eq_refl (Some (Some q)))).
    assert (qi_descriptor q = None) as ->.
    { rewrite Forall_forall in K8. by eapply K8, arr_get_elem. }
    by destruct (qi_created q), (qi_sqBase q).
Qed.

(** The loop over the ring ends, and serves every notification in order. *)
Lemma poll_ring_run fuel r rounds : forall s h n,
  let cap := qd_Capacity (admin_sq s) in
  let l := notified cap (qd_Head (admin_sq s)) (ring_from h r) in
  engine_ok s -> shm_ring (sv_shm s) = r -> ring_ok r -> 0 <= h < nr_Size r ->
  ring_count h (nr_Tail r) (nr_Size r) <= Z.of_nat rounds ->
  0 <= qd_Head (admin_sq s) < cap -> Forall (entry_ok cap) (ring_from h r) -> cap <= Z.of_nat fuel ->
  Z.of_nat (length l) <= qd_Capacity (admin_cq s) -> 0 <= n -> n + Z.of_nat (length l) < 2 ^ 64 ->
  exists s', poll_ring rounds fuel h (nr_Tail r) n s = Ok ((nr_Tail r, n + Z.of_nat (length l)), s') /\
    served s s' l (last_head (qd_Head (admin_sq s)) (ring_from h r)).
Proof.
  induction rounds as [|rounds IH]; intros s h n cap l Hs Hr Hring Hh Hrounds Hhd Hl Hfuel Hroom Hn Hmax; pose proof Hring as [Hsz Hen _ Ht];
    pose proof (ring_count_range (nr_Size r) ltac:(lia) h (nr_Tail r)) as Hc; cbn [poll_ring];
    (destruct (Z.eqb_spec h (nr_Tail r)) as [E|Hne];
      [exists s; unfold ring_from in *; subst h l; rewrite ring_indices_empty by lia; cbn [fmap list_fmap notified length last_head];
       rewrite Z.add_0_r; split; [done|]; by apply served_refl|]).
  - exfalso. apply Hne, (ring_count_0 (nr_Size r)); lia.
  - pose proof (ring_count_head (nr_Size r) ltac:(lia) h (nr_Tail r) Hh Ht Hne) as Hc1.
    assert (exists e, arr_get (nr_Entries r) h = Some e /\ ring_from h r = e :: ring_from ((h + 1) mod nr_Size r) r) as (e & Hget & Hfrom).
    { destruct (proj2 (arr_get_Some_iff (nr_Entries r) h) ltac:(lia)) as [e He]. exists e. split; [done|].
      unfold ring_from. rewrite ring_indices_cons by lia. cbn [fmap list_fmap]. f_equal.
      apply list_lookup_total_correct. revert He. unfold arr_get. by rewrite (proj2 (Z.ltb_ge _ _)) by lia. }
    subst l. rewrite Hfrom in *. apply Forall_cons in Hl as [He Hl].
    assert (forall l, notified cap (qd_Head (admin_sq s)) (e :: l) =
      notified cap (qd_Head (admin_sq s)) [e] ++ notified cap (last_head (qd_Head (admin_sq s)) [e]) l) as Hcons.
    { intros l. cbn. destruct (admin_entry e); [by rewrite app_nil_r | done]. }
    rewrite Hcons in *. rewrite length_app, Nat2Z.inj_add in *.
    destruct (poll_entry_run fuel s e n) as (s1 & Hrun & D1); fold cap; try done; try lia.
    destruct (served_queues _ _ _ _ D1) as (Esq & Ecq & Er). fold cap in Hrun, D1.
    assert (qd_Capacity (admin_sq s1) = cap /\ qd_Head (admin_sq s1) = last_head (qd_Head (admin_sq s)) [e]) as [Ecap Ehd] by (rewrite Esq; done).
    rewrite bind_get, Hr, (bind_opt _ _ _ _ Hget), (bind_Ok _ _ _ _ _ Hrun), bind_get, Er, Hr.
    rewrite (bind_opt _ _ _ _ (next_index_ok _ _ Hh ltac:(lia))).
    destruct (IH s1 ((h + 1) mod nr_Size r) (n + Z.of_nat (length (notified cap (qd_Head (admin_sq s)) [e])))) as (s2 & Hloop & D2);
      rewrite ?Ecap, ?Ehd; try done; try lia.
    + apply (se_ok _ _ _ _ D1).
    + by rewrite Er.
    + apply Z.mod_pos_bound. lia.
    + cbn. destruct He as [_ He]. destruct (admin_entry e); [by apply He | done].
    + rewrite Ecq. cbn. cbn in *. lia.
    + exists s2. rewrite Ecap, Ehd in *. split; [rewrite Hloop; do 3 f_equal; lia|].
      apply (served_trans s s1 s2 _ _ _ _ Hs D1 D2); [apply notified_range; lia|lia].
Qed.

(** ** The engine starts in order *)

(** The parts of the shared memory the engine relies on, where VnvmeAllocateShm puts them. *)
Record service_shm (m : SharedMemory) : Prop := {
  sm_sq : qd_Offset (cb_AdminSQ (shm_cb m)) = VNVME_OFFSET_ADMIN_SQ /\ qd_Capacity (cb_AdminSQ (shm_cb m)) = VNVME_ADMIN_QUEUE_DEPTH;
  sm_cq : qd_Offset (cb_AdminCQ (shm_cb m)) = VNVME_OFFSET_ADMIN_CQ /\ qd_Capacity (cb_AdminCQ (shm_cb m)) = VNVME_ADMIN_QUEUE_DEPTH;
  sm_tail : 0 <= qd_Tail (cb_AdminCQ (shm_cb m)) < VNVME_ADMIN_QUEUE_DEPTH;
  sm_buffer : cb_DataBufferOffset (shm_cb m) = VNVME_OFFSET_DATA_BUFFER /\
              cb_DataBufferSize (shm_cb m) = VNVME_SHM_SIZE - VNVME_OFFSET_DATA_BUFFER
}.

Lemma add_admin_namespaces_run l : forall i c,
  admin_ok c -> ac_namespaceCount c = i -> i + Z.of_nat (length l) <= 16 ->
  exists c', add_admin_namespaces l i c = Some c' /\ admin_ok c' /\
    ac_dataBuffer c' = ac_dataBuffer c /\ ac_dataBufferSize c' = ac_dataBufferSize c /\
    ac_namespaceCount c' = i + Z.of_nat (length l) /\
    (forall k, (k < Z.to_nat i)%nat -> ac_namespaces c' !! k = ac_namespaces c !! k) /\
    (forall k ns, l !! k = Some ns -> ac_namespaces c' !! (Z.to_nat i + k)%nat =
       Some (mkAdminNamespace (i + Z.of_nat k + 1) (en_size ns) (en_size ns) (en_blockSize ns) 0 (en_active ns))).
Proof.
  induction l as [|ns l IH]; intros i c Hc Hi Hlen; cbn [add_admin_namespaces length] in *.
  { exists c. split_and!; try done. lia. }
  pose proof (ak_namespaces _ Hc) as [Hl Hn]. unfold AdminCmdAddNamespace. rewrite Hi, (proj2 (Z.leb_gt _ _)) by lia.
  rewrite arr_set_Some by lia. cbn [mbind option_bind fst snd]. set (new := mkAdminNamespace _ _ _ _ _ _).
  edestruct (IH (i + 1) (c <| ac_namespaces := <[Z.to_nat i:=new]> (ac_namespaces c) |> <| ac_namespaceCount ::= fun n => n + 1 |>))
    as (c' & Hrun & Hok & H1 & H2 & H3 & H4 & H5); [|cbn; lia|lia|].
  { destruct c; destruct Hc; split; cbn in *; try done. rewrite length_insert. lia. }
  exists c'. split; [exact Hrun|]. split; [done|]. split; [done|]. split; [done|]. split; [lia|]. cbn in H4. split.
  - intros k Hk. rewrite H4 by lia. by rewrite list_lookup_insert_ne by lia.
  - intros [|k] ns' Hk; cbn in Hk.
    + injection Hk as <-. rewrite Nat.add_0_r, H4 by lia. rewrite list_lookup_insert_eq by lia.
      unfold new. do 2 f_equal. lia.
    + replace (Z.to_nat i + S k)%nat with (Z.to_nat (i + 1) + k)%nat by lia. rewrite (H5 k ns' Hk). do 2 f_equal. lia.
Qed.

Lemma add_io_namespaces_run l : forall i c,
  length (ic_namespaces c) = 16%nat -> ic_namespaceCount c = i -> 0 <= i -> i + Z.of_nat (length l) <= 16 ->
  exists c', add_io_namespaces l i c = Some c' /\ ic_namespaceCount c' = i + Z.of_nat (length l) /\
    length (ic_namespaces c') = 16%nat /\
    ic_dataBuffer c' = ic_dataBuffer c /\ ic_dataBufferSize c' = ic_dataBufferSize c /\
    (forall k, (k < Z.to_nat i)%nat -> ic_namespaces c' !! k = ic_namespaces c !! k) /\
    (forall k ns, l !! k = Some ns -> ic_namespaces c' !! (Z.to_nat i + k)%nat =
       Some (mkIoNamespace (i + Z.of_nat k + 1) (en_size ns) (en_blockSize ns) (en_active ns) (en_readOnly ns))).
Proof.
  induction l as [|ns l IH]; intros i c Hl Hi H0 Hlen; cbn [add_io_namespaces length] in *.
  { exists c. split_and!; try done. lia. }
  unfold IoCmdAddNamespace. rewrite Hi, (proj2 (Z.leb_gt _ _)) by lia.
  rewrite arr_set_Some by lia. cbn [mbind option_bind fst snd]. set (new := mkIoNamespace _ _ _ _ _).
  edestruct (IH (i + 1) (c <| ic_namespaces := <[Z.to_nat i:=new]> (ic_namespaces c) |> <| ic_namespaceCount ::= fun n => n + 1 |>))
    as (c' & Hrun & H1 & H2 & H3 & H3' & H4 & H5); [cbn; rewrite length_insert; lia|cbn; lia|lia|lia|].
  exists c'. split; [exact Hrun|]. split; [lia|]. split; [done|]. split; [done|]. split; [done|]. cbn in H4. split.
  - intros k Hk. rewrite H4 by lia. by rewrite list_lookup_insert_ne by lia.
  - intros [|k] ns' Hk; cbn in Hk.
    + injection Hk as <-. rewrite Nat.add_0_r, H4 by lia. rewrite list_lookup_insert_eq by lia.
      unfold new. do 2 f_equal. lia.
    + replace (Z.to_nat i + S k)%nat with (Z.to_nat (i + 1) + k)%nat by lia. rewrite (H5 k ns' Hk). do 2 f_equal. lia.
Qed.
(** The bytes of the admin queues and of the data buffer of that layout. *)
Lemma service_layout i :
  (0 <= i < VNVME_ADMIN_QUEUE_DEPTH -> queue_memory (VNVME_OFFSET_ADMIN_SQ + i * 64) 64 = true /\
                                       queue_memory (VNVME_OFFSET_ADMIN_CQ + i * 16) 16 = true) /\
  VNVME_OFFSET_ADMIN_SQ + VNVME_ADMIN_QUEUE_DEPTH * 64 <= VNVME_OFFSET_ADMIN_CQ /\
  VNVME_OFFSET_ADMIN_CQ + VNVME_ADMIN_QUEUE_DEPTH * 16 <= VNVME_OFFSET_DATA_BUFFER.
Proof.
  split; [|by vm_compute]. intros Hi. assert (0 <= i < 64) as Hi' by exact Hi. unfold queue_memory.
  change VNVME_OFFSET_ADMIN_SQ with 8192. change VNVME_OFFSET_ADMIN_CQ with 12288. change VNVME_OFFSET_IO_QUEUE_DESC with 16384.
  rewrite !(proj2 (Z.leb_le 8192 _)), !(proj2 (Z.leb_le _ 16384)) by lia. done.
Qed.

Lemma service_admin_ok info b1 o1 o2 :
  admin_ok (AdminCmdSetControllerInfo info (AdminCmdInit b1 o1 o2 (Some VNVME_OFFSET_DATA_BUFFER) (VNVME_SHM_SIZE - VNVME_OFFSET_DATA_BUFFER))).
Proof. split; try done; [intros off [= <-]; by vm_compute | cbn; by repeat constructor]. Qed.

(** CmdEngineInit refuses a configuration without shared memory, and a shared
    memory without the magic number, and then changes nothing. Otherwise, on the
    layout the driver sets up, it succeeds, and leaves an engine that is in order
    (its queues and its data buffer where they are in the shared memory, phase
    1), with the first 16 namespaces of the configuration under the numbers from
    1, in the admin and the I/O context alike; the shared memory and the back
    end are untouched. *)
Lemma CmdEngineInit_ok (pConfig : CMD_ENGINE_CONFIG) (s : SvState) :
  service_shm (sv_shm s) ->
  if negb (cc_shmAddress pConfig) || negb (cb_Magic (shm_cb (sv_shm s)) =? VNVME_SHM_MAGIC)
  then CmdEngineInit pConfig s = Ok (false, s)
  else exists s', CmdEngineInit pConfig s = Ok (true, s') /\ sv_shm s' = sv_shm s /\ sv_backend s' = sv_backend s /\
      engine_ok s' /\ ce_initialized (sv_engine s') = true /\ ce_adminCqPhase (sv_engine s') = 1 /\
      let n := Z.of_nat (length (configured pConfig)) in
      ac_namespaceCount (admin_ctx s') = n /\ ic_namespaceCount (io_ctx s') = n /\
      forall k ns, configured pConfig !! k = Some ns ->
        arr_get (ac_namespaces (admin_ctx s')) (Z.of_nat k) =
          Some (mkAdminNamespace (Z.of_nat k + 1) (en_size ns) (en_size ns) (en_blockSize ns) 0 (en_active ns)) /\
        arr_get (ic_namespaces (io_ctx s')) (Z.of_nat k) =
          Some (mkIoNamespace (Z.of_nat k + 1) (en_size ns) (en_blockSize ns) (en_active ns) (en_readOnly ns)).
Proof.
  intros [[Q1 Q2] [Q3 Q4] Q5 [Q6 Q7]]. unfold CmdEngineInit. rewrite bind_get. destruct (cc_shmAddress pConfig); cbn [negb orb]; [|done].
  cbv zeta. destruct (cb_Magic _ =? _); cbn [negb]; [|done].
  assert (Z.of_nat (length (configured pConfig)) <= 16) as Hn by (unfold configured; rewrite length_take; lia).
  unfold admin_update, io_update, engine_update. rewrite bind_modify.
  assert (forall (b : bool) f (k : unit -> M SvState bool) s, ((if b then mret tt else modify (fun s => s <| sv_engine ::= f |>)) ≫= k) s =
    k tt (s <| sv_engine ::= if b then id else f |>)) as Hopt by (by intros [] ? ? [? [] ?]).
  rewrite !Hopt, Q1, Q3, Q6, Q7. change ((VNVME_OFFSET_DATA_BUFFER =? 0) || (VNVME_SHM_SIZE - VNVME_OFFSET_DATA_BUFFER =? 0)) with false.
  rewrite bind_get. cbv beta iota. match goal with |- context [sv_engine ?s1] => set (s1' := s1) end.
  assert (sv_shm s1' = sv_shm s /\ sv_backend s1' = sv_backend s /\ ce_shm (sv_engine s1') = true /\ ce_adminCqPhase (sv_engine s1') = 1 /\
    ce_adminSqBase (sv_engine s1') = VNVME_OFFSET_ADMIN_SQ /\ ce_adminCqBase (sv_engine s1') = VNVME_OFFSET_ADMIN_CQ /\
    ce_dataBuffer (sv_engine s1') = Some VNVME_OFFSET_DATA_BUFFER /\
    ce_dataBufferSize (sv_engine s1') = VNVME_SHM_SIZE - VNVME_OFFSET_DATA_BUFFER) as (E1 & E2 & E3 & E4 & E5 & E6 & -> & ->)
    by (subst s1'; destruct (_ =? 0); split_and!; reflexivity).
  clearbody s1'. destruct s1' as [m1 e1 k1]; cbn in E1, E2, E3, E4, E5, E6. subst m1 k1. set (c0 := AdminCmdSetControllerInfo _ _). set (i0 := IoCmdInit _ _).
  destruct (add_admin_namespaces_run (configured pConfig) 0 c0) as (c & Hc & Hok & B1 & B2 & Hcount & _ & Hns); [|done|lia|].
  { by apply service_admin_ok. }
  destruct (add_io_namespaces_run (configured pConfig) 0 i0) as (i & Hi & Hicount & Hil & _ & _ & _ & Hins); [done|done|done|lia|].
  rewrite (bind_opt _ _ _ _ Hc), bind_modify, (bind_opt _ _ _ _ Hi), !bind_modify.
  set (e := e1 <| ce_adminCtx := c |> <| ce_ioCtx := IoCmdSetDebugMode (cc_debugMode pConfig) i |> <| ce_initialized := true |>).
  exists (mkSv (sv_shm s) e (sv_backend s)). split; [reflexivity|].
  assert (ce_shm e = true /\ ce_adminCqPhase e = 1 /\ ce_adminSqBase e = VNVME_OFFSET_ADMIN_SQ /\ ce_adminCqBase e = VNVME_OFFSET_ADMIN_CQ /\
    ce_adminCtx e = c /\ ic_namespaces (ce_ioCtx e) = ic_namespaces i /\ ic_namespaceCount (ce_ioCtx e) = ic_namespaceCount i /\
    ce_initialized e = true) as (F1 & F2 & F3 & F4 & F5 & F6 & F7 & F8) by (by destruct e1, i). clearbody e. clear E3 E4 E5 E6.
  unfold admin_ctx, io_ctx. cbn [sv_shm sv_engine sv_backend]. rewrite F5, F6, F7.
  do 2 (split; [done|]). split; [|split; [done|split; [done|split; [done|split; [done|]]]]].
  - destruct (service_layout 0) as (_ & L1 & L2).
    split; unfold admin_sq, admin_cq, admin_ctx; cbn; rewrite ?F1, ?F2, ?F3, ?F4, ?F5, ?Q1, ?Q2, ?Q3, ?Q4; try done; try lia.
    + intros n Hn'. by apply service_layout.
    + intros n Hn'. by apply service_layout.
    + unfold in_buffer. rewrite B1, B2.
      intros x (off & [= <-] & Hx). lia.
  - intros k ns Hk. specialize (Hns k ns Hk). specialize (Hins k ns Hk). unfold arr_get.
    rewrite (proj2 (Z.ltb_ge _ _)), Nat2Z.id by lia. by split.
Qed.

(** The end of a poll: the statistics. *)
Lemma poll_statistics_run n s : engine_ok s ->
  exists s', ((if 0 <? n then publish_statistics else mret tt);; engine_count (fun t => t <| es_pollCount ::= fun n => n +₆₄ 1 |>);; mret n) s =
      Ok (n, s') /\
    engine_ok s' /\ io_ctx s' = io_ctx s /\ sv_backend s' = sv_backend s /\ shm_ring (sv_shm s') = shm_ring (sv_shm s) /\
    shm_mem (sv_shm s') = shm_mem (sv_shm s) /\ admin_sq s' = admin_sq s /\ admin_cq s' = admin_cq s /\
    ce_initialized (sv_engine s') = ce_initialized (sv_engine s) /\
    cb_NotifyRingOffset (shm_cb (sv_shm s')) = cb_NotifyRingOffset (shm_cb (sv_shm s)).
Proof.
  intros Hs. unfold publish_statistics, sv_cb_update, engine_count, engine_update.
  assert (forall s1, admin_sq s1 = admin_sq s -> admin_cq s1 = admin_cq s -> 
    (exists t, sv_engine s1 = (sv_engine s) <| ce_stats := t |>) -> engine_ok s1) as Hok.
  { intros s1 Esq Ecq [t Et]. apply (engine_ok_change s s1 (qd_Head (admin_sq s)) (qd_Tail (admin_cq s))); unfold admin_ctx; rewrite ?Et; try done; try apply Hs.
    - rewrite Esq. by destruct (admin_sq s).
    - rewrite Ecq. by destruct (admin_cq s). }
  destruct (0 <? n).
  - eexists. split; [reflexivity|]. split; [|by destruct s as [[] [] ?]]. apply Hok; [by destruct s as [[] [] ?]..|]. by eexists.
  - eexists. split; [reflexivity|]. split; [|done]. apply Hok; [done..|]. by eexists.
Qed.

(** What a poll needs: an engine in order, and notifications it can follow,
    within the bounds, for which the completion queue has room. *)
Record serviceable (rounds fuel : nat) (s : SvState) : Prop := {
  sb_engine : engine_ok s;
  sb_initialized : ce_initialized (sv_engine s) = true;
  sb_offset : cb_NotifyRingOffset (shm_cb (sv_shm s)) <> 0;
  sb_ring : ring_ok (shm_ring (sv_shm s));
  sb_rounds : nr_Size (shm_ring (sv_shm s)) <= Z.of_nat rounds;
  sb_fuel : qd_Capacity (admin_sq s) <= Z.of_nat fuel;
  sb_head : 0 <= qd_Head (admin_sq s) < qd_Capacity (admin_sq s);
  sb_entries : Forall (entry_ok (qd_Capacity (admin_sq s))) (ring_contents (shm_ring (sv_shm s)));
  sb_room : Z.of_nat (length (notified (qd_Capacity (admin_sq s)) (qd_Head (admin_sq s)) (ring_contents (shm_ring (sv_shm s))))) <=
            qd_Capacity (admin_cq s)
}.

Lemma last_head_range cap l : forall hd, 0 <= hd < cap -> Forall (entry_ok cap) l -> 0 <= last_head hd l < cap.
Proof.
  induction l as [|e l IH]; intros hd Hh Hl; [done|]. apply Forall_cons in Hl as [[_ He] Hl]. cbn [last_head].
  apply IH; [|done]. by destruct (admin_entry e); [apply He|].
Qed.

Lemma ring_set_head_empty r : ring_ok r -> ring_ok (ring_set_head (nr_Tail r) r) /\ ring_contents (ring_set_head (nr_Tail r) r) = [].
Proof.
  intros [H1 H2 H3 H4]. split; [by split|]. unfold ring_contents, ring_from. cbn. by rewrite ring_indices_empty by lia.
Qed.

(** The poll, as the loop over the ring and what is left to do after it; it leaves an engine with nothing to do. *)
Lemma CmdEnginePoll_run (rounds fuel : nat) (s : SvState) :
  let r := shm_ring (sv_shm s) in
  let l := notified (qd_Capacity (admin_sq s)) (qd_Head (admin_sq s)) (ring_contents r) in
  serviceable rounds fuel s ->
  exists s1 s', CmdEnginePoll rounds fuel s = Ok (Z.of_nat (length l), s') /\ served s s1 l (last_head (qd_Head (admin_sq s)) (ring_contents r)) /\
    serviceable rounds fuel s' /\ io_ctx s' = io_ctx s1 /\ sv_backend s' = sv_backend s1 /\
    shm_ring (sv_shm s') = ring_set_head (nr_Tail r) r /\ ring_contents (shm_ring (sv_shm s')) = [] /\
    shm_mem (sv_shm s') = shm_mem (sv_shm s1) /\ admin_sq s' = admin_sq s1 /\ admin_cq s' = admin_cq s1.
Proof.
  intros r l [Hs Hinit Hoff Hring Hrounds Hfuel Hhd Hl Hroom]. fold r in Hring, Hrounds, Hl, Hroom. pose proof Hring as [Hsz _ Hh _].
  pose proof (ring_count_range (nr_Size r) ltac:(lia) (nr_Head r) (nr_Tail r)).
  pose proof (eo_cq _ Hs) as [[_ Hcap] _].
  destruct (poll_ring_run fuel r rounds s (nr_Head r) 0) as (s1 & Hrun & D); try done; try lia.
  { fold (ring_contents r). lia. }
  fold (ring_contents r) l in Hrun, D. rewrite Z.add_0_l in Hrun.
  unfold CmdEnginePoll. rewrite bind_get, Hinit, (proj2 (Z.eqb_neq _ _) Hoff). cbn [negb]. cbv zeta.
  fold r. rewrite (bind_Ok _ _ _ _ _ Hrun), bind_modify. cbn [fst snd].
  destruct (served_queues _ _ _ _ D) as (Esq & Ecq & Er). destruct (se_io _ _ _ _ D) as (Eio & Ebe & Ein).
  set (s2 := s1 <| sv_shm ::= _ |>).
  assert (engine_ok s2) as Hs2.
  { destruct D as [Hok _ _ _ _ _ _]. clear - Hok. destruct Hok. by split. }
  destruct (poll_statistics_run (Z.of_nat (length l)) s2 Hs2) as (s3 & Hfin & Hs3 & E1 & E2 & E3 & E4 & E5 & E6 & E7 & E8).
  assert (shm_ring (sv_shm s3) = ring_set_head (nr_Tail r) r) as Er3 by (rewrite E3; subst s2 r; cbn; by rewrite Er).
  destruct (ring_set_head_empty r Hring) as [Hr1 Hr2].
  assert (admin_sq s2 = admin_sq s1 /\ admin_cq s2 = admin_cq s1) as [F1 F2] by done.
  assert (cb_NotifyRingOffset (shm_cb (sv_shm s2)) = cb_NotifyRingOffset (shm_cb (sv_shm s))) as F3
    by (subst s2; cbn; by rewrite (se_shm _ _ _ _ D)).
  exists s1, s3. split; [exact Hfin|]. split; [exact D|]. rewrite E1, E2, Er3, Hr2, E4, E5, E6. split; [|done].
  split; rewrite ?E5, ?E6, ?E7, ?E8, ?Er3, ?Hr2, ?F1, ?F2, ?F3, ?Esq, ?Ecq; try done.
  - cbn. by rewrite Ein.
  - by apply last_head_range.
  - cbn. lia.
Qed.

(** C21: a poll of an initialised engine serves exactly what the notifications ask
    for, if they are ones the engine can follow: engine and notify ring are in order,
    the queue's head and every tail that a notification names for the admin queue are
    indices of the submission queue (a larger tail is never reached, and the loop does
    not end), and no more commands are asked for than the completion queue has slots
    (the engine does not look at the reader's head, so it would overwrite completions).
    Then the poll ends, within one round per notification and one step per command,
    bounded by the two rings' sizes. It takes every notification of the ring, in order;
    for one that names the admin queue it runs the commands from the queue's head up to
    the tail the notification gives, and every such command gets one completion: in
    order, in consecutive slots of the completion queue from its tail, with the
    command's identifier, queue 0, the head of the submission queue before the
    notification and the phase tag the driver expects there. It returns the number of
    commands, moves the queue's head to the last tail named, the completion queue's tail
    past the completions and the ring's head to its tail; of the other bytes it can
    change only the data buffer. A notification for an I/O queue is consumed without
    running a command: no command of the service gives a queue its descriptor. *)
Theorem CmdEnginePoll_serves (rounds fuel : nat) (s : SvState) :
  let r := shm_ring (sv_shm s) in
  let sq := admin_sq s in let cq := admin_cq s in
  let l := notified (qd_Capacity sq) (qd_Head sq) (ring_contents r) in
  engine_ok s -> ce_initialized (sv_engine s) = true -> cb_NotifyRingOffset (shm_cb (sv_shm s)) <> 0 ->
  ring_ok r -> nr_Size r <= Z.of_nat rounds -> qd_Capacity sq <= Z.of_nat fuel ->
  0 <= qd_Head sq < qd_Capacity sq -> Forall (entry_ok (qd_Capacity sq)) (ring_contents r) ->
  Z.of_nat (length l) <= qd_Capacity cq ->
  exists s', CmdEnginePoll rounds fuel s = Ok (Z.of_nat (length l), s') /\ engine_ok s' /\
    io_ctx s' = io_ctx s /\ sv_backend s' = sv_backend s /\
    shm_ring (sv_shm s') = ring_set_head (nr_Tail r) r /\
    admin_sq s' = sq <| qd_Head := last_head (qd_Head sq) (ring_contents r) |> /\
    admin_cq s' = cq <| qd_Tail := (qd_Tail cq + Z.of_nat (length l)) mod qd_Capacity cq |> /\
    (forall (k : nat) h hd0, l !! k = Some (h, hd0) ->
      let c := cpl_load (shm_mem (sv_shm s')) (cq_slot s (Z.of_nat k)) in
      cpl_CID c = cmd_CID (cmd_load (shm_mem (sv_shm s)) (qd_Offset sq + h * 64)) /\ cpl_SQID c = 0 /\ cpl_SQHD c = u16 hd0 /\
      NVME_STATUS_P (cpl_Status c) = phase_after (qd_Capacity cq) (qd_Tail cq) (ce_adminCqPhase (sv_engine s)) (Z.of_nat k)) /\
    (forall x, ~ in_buffer (admin_ctx s) x -> (forall k, 0 <= k < Z.of_nat (length l) -> ~ (cq_slot s k <= x < cq_slot s k + 16)) ->
      rd8 (shm_mem (sv_shm s')) x = rd8 (shm_mem (sv_shm s)) x).
Proof.
  intros r sq cq l Hs Hinit Hoff Hring Hrounds Hfuel Hhd Hl Hroom.
  destruct (CmdEnginePoll_run rounds fuel s ltac:(by split)) as (s1 & s' & Hrun & D & Hs' & Eio & Ebe & Er & _ & Em & Esq & Ecq).
  destruct (served_queues _ _ _ _ D) as (Fsq & Fcq & _). destruct (se_io _ _ _ _ D) as (Fio & Fbe & _).
  exists s'. rewrite Eio, Ebe, Er, Em, Esq, Ecq. split; [exact Hrun|]. split; [apply Hs'|].
  do 5 (split; [done|]). split; [apply (se_answered _ _ _ _ D) | apply (se_mem _ _ _ _ D)].
Qed.

End Engine.

(** ** Witnesses *)

#[local] Existing Instances TestFiles.test_files TestFiles.test_file_laws.

(** Two admin commands in the queue, and three notifications: one for each of
    them, and one for an I/O queue in between. *)
Definition engine_shm : SharedMemory :=
  test_shm
    <| shm_mem := cmd_store (cmd_store mem_zero VNVME_OFFSET_ADMIN_SQ (test_io_command NVME_ADMIN_IDENTIFY 1 0)) (VNVME_OFFSET_ADMIN_SQ + 64)
         (test_io_command NVME_ADMIN_ABORT 0 1) |>
    <| shm_ring ::= fun r => ring_push (mkNotifyEntry 0 0 2) (ring_push (mkNotifyEntry 3 0 9) (ring_push (mkNotifyEntry 0 0 1) r)) |>.

Definition engine_state : @SvState TestFiles.test_files := test_service <| sv_shm := engine_shm |>.

Definition test_engine_config : CMD_ENGINE_CONFIG :=
  mkEngineConfig true (chars "SN") (chars "MN") (chars "1") 0x1234
    (mkEngineNamespace 8 512 true false :: replicate 15 (mkEngineNamespace 0 0 false false)) 1 16 false.

Lemma engine_shm_service : service_shm engine_shm.
Proof. by split. Qed.

Lemma engine_state_ok : engine_ok engine_state.
Proof.
  destruct (service_layout 0) as (_ & L1 & L2).
  split; try done; unfold admin_sq, admin_cq; cbn -[Z.mul Z.add].
  - exact (ik_admin _ test_service_ok).
  - intros i Hi. by apply service_layout.
  - intros i Hi. by apply service_layout.
  - by right.
  - by right.
  - intros x (off & [= <-] & Hx). change (ac_dataBufferSize test_admin_ctx) with (VNVME_SHM_SIZE - VNVME_OFFSET_DATA_BUFFER) in Hx. lia.
Qed.

Lemma engine_ring : ring_contents (shm_ring engine_shm) = [mkNotifyEntry 0 0 1; mkNotifyEntry 3 0 9; mkNotifyEntry 0 0 2].
Proof. by vm_compute. Qed.

(** The identifiers of the two commands come back, in order. *)
Lemma CmdEnginePoll_serves_witness :
  exists s', CmdEnginePoll 256 64 engine_state = Ok (2, s') /\ qd_Head (admin_sq s') = 2 /\ qd_Tail (admin_cq s') = 2 /\
    cpl_CID (cpl_load (shm_mem (sv_shm s')) VNVME_OFFSET_ADMIN_CQ) = 7 /\
    NVME_STATUS_P (cpl_Status (cpl_load (shm_mem (sv_shm s')) (VNVME_OFFSET_ADMIN_CQ + 16))) = 1.
Proof.
  assert (ring_ok (shm_ring engine_shm)) as Hring by (cbn; by repeat apply ring_push_ok).
  pose proof (CmdEnginePoll_serves 256 64 engine_state) as P. cbv zeta in P.
  assert (sv_shm engine_state = engine_shm /\ qd_Capacity (admin_sq engine_state) = 64 /\ qd_Head (admin_sq engine_state) = 0 /\
    qd_Capacity (admin_cq engine_state) = 64 /\ qd_Tail (admin_cq engine_state) = 0 /\ qd_Offset (admin_sq engine_state) = VNVME_OFFSET_ADMIN_SQ)
    as (E1 & E2 & E3 & E4 & E5 & E6) by (split_and!; reflexivity).
  rewrite E1, engine_ring, E2, E3, E4, E5, E6 in P. clear E1 E2 E3 E4 E5 E6.
  assert (notified 64 0 [mkNotifyEntry 0 0 1; mkNotifyEntry 3 0 9; mkNotifyEntry 0 0 2] = [(0, 0); (1, 1)]) as Hl by (by vm_compute).
  rewrite Hl in P.
  destruct (P engine_state_ok eq_refl ltac:(discriminate) Hring ltac:(by vm_compute) ltac:(done) ltac:(done)
    ltac:(repeat (constructor; [split; done|]); constructor) ltac:(done)) as (s' & Hrun & _ & _ & _ & _ & Hsq & Hcq & Hans & _).
  exists s'. split; [exact Hrun|]. split; [by rewrite Hsq|]. split; [by rewrite Hcq|]. split.
  - destruct (Hans 0%nat 0 0 eq_refl) as (Hcid & _). exact Hcid.
  - destruct (Hans 1%nat 1 1 eq_refl) as (_ & _ & _ & Hph). exact Hph.
Defined.
