(* ===== verification/ServerConfig.v ===== *)
(** The configuration of the user-mode service: [vnvme-server/config.h] and
    [config.c].

    The conversion from UTF-8 and the file that _wfopen opens are the members of
    the class [TextFiles].  A configuration without a pointer to it does not
    exist: the functions are always given one.  [ConfigPrint] and
    [ConfigPrintUsage] only print. *)
From S2P Require Import Prelude CLib Backend.
Open Scope Z_scope.
Open Scope c_scope.

Definition LOG_LEVEL_NONE : Z := 0.
Definition LOG_LEVEL_ERROR : Z := 1.
Definition LOG_LEVEL_WARNING : Z := 2.
Definition LOG_LEVEL_INFO : Z := 3.
Definition LOG_LEVEL_DEBUG : Z := 4.
Definition LOG_LEVEL_VERBOSE : Z := 5.
Definition MAX_PATH : nat := 260.
Definition DEFAULT_SIZE : Z := 100 * 1024 * 1024 * 1024.
Definition DEFAULT_HEARTBEAT_MS : Z := 1000.
Definition DEFAULT_POLL_US : Z := 100.
Definition DEFAULT_MODEL : list Z := chars "Virtual NVMe SSD".
Definition DEFAULT_SERIAL : list Z := chars "VNVME00000001".
Definition DEFAULT_VENDOR_ID : Z := 0x1B36.
Definition DEFAULT_DEVICE_ID : Z := 0x0010.

(** ** The configuration *)

(** The [log] member of the configuration. *)
Record LOG_CONFIG := mkLogConfig {
  lg_level : Z;
  lg_enableConsole : bool;
  lg_enableFile : bool;
  lg_filePath : list Z  (* MAX_PATH WCHARs *)
}.
Definition etaLogConfig r :=
  mkLogConfig (lg_level r) (lg_enableConsole r) (lg_enableFile r) (lg_filePath r).
#[export] Instance set_lg_level : Setter lg_level := ltac:(mk_setter etaLogConfig).
#[export] Instance set_lg_enableConsole : Setter lg_enableConsole := ltac:(mk_setter etaLogConfig).
#[export] Instance set_lg_enableFile : Setter lg_enableFile := ltac:(mk_setter etaLogConfig).
#[export] Instance set_lg_filePath : Setter lg_filePath := ltac:(mk_setter etaLogConfig).

Record STORAGE_CONFIG := mkStorageConfig {
  st_backendType : BACKEND_TYPE;
  st_size : Z;
  st_blockSize : Z;
  st_filePath : list Z;  (* MAX_PATH WCHARs *)
  st_readOnly : bool;
  st_directIO : bool;
  st_preallocate : bool
}.
Definition etaStorageConfig r :=
  mkStorageConfig (st_backendType r) (st_size r) (st_blockSize r) (st_filePath r) (st_readOnly r) (st_directIO
    r) (st_preallocate r).
#[export] Instance set_st_backendType : Setter st_backendType := ltac:(mk_setter etaStorageConfig).
#[export] Instance set_st_size : Setter st_size := ltac:(mk_setter etaStorageConfig).
#[export] Instance set_st_blockSize : Setter st_blockSize := ltac:(mk_setter etaStorageConfig).
#[export] Instance set_st_filePath : Setter st_filePath := ltac:(mk_setter etaStorageConfig).
#[export] Instance set_st_readOnly : Setter st_readOnly := ltac:(mk_setter etaStorageConfig).
#[export] Instance set_st_directIO : Setter st_directIO := ltac:(mk_setter etaStorageConfig).
#[export] Instance set_st_preallocate : Setter st_preallocate := ltac:(mk_setter etaStorageConfig).

Record CONTROLLER_CONFIG := mkControllerConfig {
  ctl_modelNumber : list Z;  (* 40 chars *)
  ctl_serialNumber : list Z;  (* 20 chars *)
  ctl_vendorId : Z;
  ctl_deviceId : Z
}.
Definition etaControllerConfig r :=
  mkControllerConfig (ctl_modelNumber r) (ctl_serialNumber r) (ctl_vendorId r) (ctl_deviceId r).
#[export] Instance set_ctl_modelNumber : Setter ctl_modelNumber := ltac:(mk_setter etaControllerConfig).
#[export] Instance set_ctl_serialNumber : Setter ctl_serialNumber := ltac:(mk_setter etaControllerConfig).
#[export] Instance set_ctl_vendorId : Setter ctl_vendorId := ltac:(mk_setter etaControllerConfig).
#[export] Instance set_ctl_deviceId : Setter ctl_deviceId := ltac:(mk_setter etaControllerConfig).

Record SERVER_CONFIG := mkServerConfig {
  sv_log : LOG_CONFIG;
  sv_storage : STORAGE_CONFIG;
  sv_controller : CONTROLLER_CONFIG;
  sv_heartbeatIntervalMs : Z;
  sv_pollIntervalUs : Z;
  sv_daemonMode : bool;
  sv_configFilePath : list Z  (* MAX_PATH WCHARs *)
}.
Definition etaServerConfig r :=
  mkServerConfig (sv_log r) (sv_storage r) (sv_controller r) (sv_heartbeatIntervalMs r) (sv_pollIntervalUs r)
    (sv_daemonMode r) (sv_configFilePath r).
#[export] Instance set_sv_log : Setter sv_log := ltac:(mk_setter etaServerConfig).
#[export] Instance set_sv_storage : Setter sv_storage := ltac:(mk_setter etaServerConfig).
#[export] Instance set_sv_controller : Setter sv_controller := ltac:(mk_setter etaServerConfig).
#[export] Instance set_sv_heartbeatIntervalMs : Setter sv_heartbeatIntervalMs := ltac:(mk_setter etaServerConfig).
#[export] Instance set_sv_pollIntervalUs : Setter sv_pollIntervalUs := ltac:(mk_setter etaServerConfig).
#[export] Instance set_sv_daemonMode : Setter sv_daemonMode := ltac:(mk_setter etaServerConfig).
#[export] Instance set_sv_configFilePath : Setter sv_configFilePath := ltac:(mk_setter etaServerConfig).

(** After memset. *)
Definition zero_config : SERVER_CONFIG :=
  mkServerConfig (mkLogConfig 0 false false (replicate MAX_PATH 0))
    (mkStorageConfig BACKEND_TYPE_MEMORY 0 0 (replicate MAX_PATH 0) false false false)
    (mkControllerConfig (replicate 40 0) (replicate 20 0) 0 0) 0 0 false (replicate MAX_PATH 0).

(** ** Updates of a field *)

Definition log_set (f : LOG_CONFIG -> LOG_CONFIG) (c : SERVER_CONFIG) : SERVER_CONFIG := c <| sv_log ::= f |>.
Definition storage_set (f : STORAGE_CONFIG -> STORAGE_CONFIG) (c : SERVER_CONFIG) : SERVER_CONFIG := c <| sv_storage ::= f |>.
Definition controller_set (f : CONTROLLER_CONFIG -> CONTROLLER_CONFIG) (c : SERVER_CONFIG) : SERVER_CONFIG := c <| sv_controller ::= f |>.
(** strncpy into the arrays, all but their last character. *)
Definition model_set (v : list Z) : SERVER_CONFIG -> SERVER_CONFIG :=
  controller_set (fun k => k <| ctl_modelNumber ::= fun a => strncpy_into a v 39 |>).
Definition serial_set (v : list Z) : SERVER_CONFIG -> SERVER_CONFIG :=
  controller_set (fun k => k <| ctl_serialNumber ::= fun a => strncpy_into a v 19 |>).

Definition ConfigSetDefaults (_ : SERVER_CONFIG) : SERVER_CONFIG :=
  let c := zero_config in
  let c := log_set (fun l => l <| lg_level := LOG_LEVEL_INFO |> <| lg_enableConsole := true |> <| lg_enableFile := false |>) c in
  let c := storage_set (fun t => t <| st_backendType := BACKEND_TYPE_MEMORY |> <| st_size := DEFAULT_SIZE |>
             <| st_blockSize := 512 |> <| st_readOnly := false |>) c in
  let c := serial_set DEFAULT_SERIAL (model_set DEFAULT_MODEL c) in
  let c := controller_set (fun k => k <| ctl_vendorId := DEFAULT_VENDOR_ID |> <| ctl_deviceId := DEFAULT_DEVICE_ID |>) c in
  c <| sv_heartbeatIntervalMs := DEFAULT_HEARTBEAT_MS |> <| sv_pollIntervalUs := DEFAULT_POLL_US |> <| sv_daemonMode := false |>.

(** ** Sizes *)

(** The factor of a suffix, given as the upper-case character at [*endptr], 0 at the end. *)
Definition size_multiplier (c : Z) : option Z :=
  if c =? 75 then Some 1024
  else if c =? 77 then Some (1024 * 1024)
  else if c =? 71 then Some (1024 * 1024 * 1024)
  else if c =? 84 then Some (1024 * 1024 * 1024 * 1024)
  else if (c =? 0) || (c =? 66) then Some 1
  else None.

(** Undefined, [None], for a negative character after the number, and for a value that is no UINT64. *)
Definition ConfigParseSize (str : list Z) : option Z :=
  match str with
  | [] => Some 0
  | _ =>
      let '(value, endptr) := strtod str in
      if double_lt value (double_of_Z 0) then Some 0
      else
        c ← toupper (match endptr with c :: _ => c | [] => 0 end);
        match size_multiplier c with
        | None => Some 0
        | Some multiplier => double_to_uint64 (double_mul value (double_of_Z multiplier))
        end
  end.

(** ** The command line *)

Definition ParseLogLevel (str : list Z) : Z :=
  if stricmp_eq str (chars "error") then LOG_LEVEL_ERROR
  else if stricmp_eq str (chars "warn") || stricmp_eq str (chars "warning") then LOG_LEVEL_WARNING
  else if stricmp_eq str (chars "info") then LOG_LEVEL_INFO
  else if stricmp_eq str (chars "debug") then LOG_LEVEL_DEBUG
  else if stricmp_eq str (chars "verbose") then LOG_LEVEL_VERBOSE
  else if stricmp_eq str (chars "none") then LOG_LEVEL_NONE
  else LOG_LEVEL_INFO.

(** How ConfigParseArgs ends: it returns, or calls exit. *)
Inductive ParseOutcome : Type :=
  | Parsed (ok : bool) (c : SERVER_CONFIG)
  | Exited (code : Z).

(** MultiByteToWideChar from UTF-8 into an array of MAX_PATH WCHARs: the array
    afterwards.  [read_text]: the text of the file at a path, if _wfopen opens it. *)
Class TextFiles := {
  MultiByteToWideChar : list Z -> list Z -> list Z;
  read_text : list Z -> option (list Z);
}.
Class TextFileLaws (T : TextFiles) := {
  wide_length src dst : length (MultiByteToWideChar src dst) = length dst;
}.

Section ServerConfig.
Context {T : TextFiles}.

Definition is_arg (arg : list Z) (short long : string) : bool := strcmp_eq arg (chars short) || strcmp_eq arg (chars long).

(** The loop, from the arguments that are left.  The options are told apart by
    their names, so it does not matter that those with a value come first here. *)
Fixpoint parse_args (args : list (list Z)) (c : SERVER_CONFIG) : res ParseOutcome :=
  match args with
  | [] => Ok (Parsed true c)
  | arg :: rest =>
      let flags :=
        if is_arg arg "-h" "--help" then Ok (Exited 0)
        else if is_arg arg "-v" "--version" then Ok (Exited 0)
        else if strcmp_eq arg (chars "--direct-io") then parse_args rest (storage_set (fun t => t <| st_directIO := true |>) c)
        else if strcmp_eq arg (chars "--preallocate") then parse_args rest (storage_set (fun t => t <| st_preallocate := true |>) c)
        else if strcmp_eq arg (chars "--daemon") then parse_args rest (c <| sv_daemonMode := true |>)
        else Ok (Parsed false c) in
      match rest with
      | [] => flags
      | value :: rest' =>
          if is_arg arg "-c" "--config" then parse_args rest' (c <| sv_configFilePath ::= MultiByteToWideChar value |>)
          else if is_arg arg "-s" "--size" then
            match ConfigParseSize value with
            | None => Fault
            | Some size =>
                let c := storage_set (fun t => t <| st_size := size |>) c in
                if size =? 0 then Ok (Parsed false c) else parse_args rest' c
            end
          else if is_arg arg "-b" "--backend" then
            if stricmp_eq value (chars "memory") || stricmp_eq value (chars "mem") then
              parse_args rest' (storage_set (fun t => t <| st_backendType := BACKEND_TYPE_MEMORY |>) c)
            else if stricmp_eq value (chars "file") then
              parse_args rest' (storage_set (fun t => t <| st_backendType := BACKEND_TYPE_FILE |>) c)
            else Ok (Parsed false c)
          else if is_arg arg "-f" "--file" then parse_args rest' (storage_set (fun t => t <| st_filePath ::= MultiByteToWideChar value |>) c)
          else if is_arg arg "-m" "--model" then parse_args rest' (model_set value c)
          else if is_arg arg "-n" "--serial" then parse_args rest' (serial_set value c)
          else if strcmp_eq arg (chars "--log-level") then parse_args rest' (log_set (fun l => l <| lg_level := ParseLogLevel value |>) c)
          else if strcmp_eq arg (chars "--log-file") then
            parse_args rest' (log_set (fun l => l <| lg_filePath ::= MultiByteToWideChar value |> <| lg_enableFile := true |>) c)
          else flags
      end
  end.

(** [args] are the arguments after the program's name. *)
Definition ConfigParseArgs (args : list (list Z)) (c : SERVER_CONFIG) : res ParseOutcome := parse_args args (ConfigSetDefaults c).

(** ** The configuration file *)

Definition TrimString (str : list Z) : option (list Z) :=
  s ← skip_spaces str;
  match s with
  | [] => Some []
  | c :: s => t ← drop_trailing s; Some (c :: t)
  end.

(** fgets into an array of [n] characters: the line as it is in the array, and
    the text that is left; [None] at the end of the file. *)
Fixpoint fgets_chars (n : nat) (text : list Z) : list Z * list Z :=
  match n, text with
  | S n, c :: text => if c =? 10 then ([c], text) else let '(l, r) := fgets_chars n text in (c :: l, r)
  | _, _ => ([], text)
  end.
Definition fgets (n : nat) (text : list Z) : option (list Z * list Z) :=
  match text with [] => None | _ => let '(l, r) := fgets_chars (n - 1) text in Some (c_str l, r) end.

Definition is_true (value : list Z) : bool := stricmp_eq value (chars "true") || stricmp_eq value (chars "1").

(** The chain of tests of the section and the key. *)
Definition set_key (section key value : list Z) (c : SERVER_CONFIG) : option SERVER_CONFIG :=
  if stricmp_eq section (chars "storage") || stricmp_eq section (chars "namespace") then
    if stricmp_eq key (chars "Size") || stricmp_eq key (chars "NamespaceSize") then
      size ← ConfigParseSize value; Some (storage_set (fun t => t <| st_size := size |>) c)
    else if stricmp_eq key (chars "Type") || stricmp_eq key (chars "BackendType") then
      Some (if stricmp_eq value (chars "memory") then storage_set (fun t => t <| st_backendType := BACKEND_TYPE_MEMORY |>) c
            else if stricmp_eq value (chars "file") then storage_set (fun t => t <| st_backendType := BACKEND_TYPE_FILE |>) c
            else c)
    else if stricmp_eq key (chars "File") || stricmp_eq key (chars "BackendFile") then
      Some (storage_set (fun t => t <| st_filePath ::= MultiByteToWideChar value |>) c)
    else if stricmp_eq key (chars "ReadOnly") then Some (storage_set (fun t => t <| st_readOnly := is_true value |>) c)
    else if stricmp_eq key (chars "DirectIO") then Some (storage_set (fun t => t <| st_directIO := is_true value |>) c)
    else Some c
  else if stricmp_eq section (chars "controller") then
    if stricmp_eq key (chars "Model") || stricmp_eq key (chars "ModelNumber") then Some (model_set value c)
    else if stricmp_eq key (chars "Serial") || stricmp_eq key (chars "SerialNumber") then Some (serial_set value c)
    else if stricmp_eq key (chars "VendorId") then Some (controller_set (fun k => k <| ctl_vendorId := u16 (strtoul value) |>) c)
    else if stricmp_eq key (chars "DeviceId") then Some (controller_set (fun k => k <| ctl_deviceId := u16 (strtoul value) |>) c)
    else Some c
  else if stricmp_eq section (chars "log") || stricmp_eq section (chars "logging") then
    if stricmp_eq key (chars "Level") then Some (log_set (fun l => l <| lg_level := ParseLogLevel value |>) c)
    else if stricmp_eq key (chars "File") then
      Some (log_set (fun l => l <| lg_filePath ::= MultiByteToWideChar value |> <| lg_enableFile := true |>) c)
    else if stricmp_eq key (chars "Console") then Some (log_set (fun l => l <| lg_enableConsole := is_true value |>) c)
    else Some c
  else if stricmp_eq section (chars "runtime") || stricmp_eq section (chars "server") then
    if stricmp_eq key (chars "HeartbeatInterval") then Some (c <| sv_heartbeatIntervalMs := strtoul value |>)
    else if stricmp_eq key (chars "PollInterval") then Some (c <| sv_pollIntervalUs := strtoul value |>)
    else if stricmp_eq key (chars "Daemon") then Some (c <| sv_daemonMode := is_true value |>)
    else Some c
  else Some c.

(** One line: the array [currentSection] and the configuration afterwards. *)
Definition config_line (line currentSection : list Z) (c : SERVER_CONFIG) : option (list Z * SERVER_CONFIG) :=
  trimmed ← TrimString line;
  match trimmed with
  | [] => Some (currentSection, c)
  | x :: rest =>
      if (x =? 59) || (x =? 35) then Some (currentSection, c)
      else if x =? 91 then
        match strchr rest 93 with
        | Some (name, _) => Some (strncpy_into currentSection name 63, c)
        | None => Some (currentSection, c)
        end
      else match strchr trimmed 61 with
           | None => Some (currentSection, c)
           | Some (k, v) =>
               key ← TrimString k;
               value ← TrimString v;
               c ← set_key (c_str currentSection) key value c;
               Some (currentSection, c)
           end
  end.

(** The loop over the lines. *)
Fixpoint load_lines (fuel : nat) (text currentSection : list Z) (c : SERVER_CONFIG) : res SERVER_CONFIG :=
  match fgets 1024 text with
  | None => Ok c
  | Some (line, text) =>
      match fuel with
      | O => OutOfFuel
      | S fuel =>
          match config_line line currentSection c with
          | None => Fault
          | Some (currentSection, c) => load_lines fuel text currentSection c
          end
      end
  end.

(** Every line takes a character of the file. *)
Definition ConfigLoadFile (filePath : list Z) (c : SERVER_CONFIG) : res (bool * SERVER_CONFIG) :=
  match read_text filePath with
  | None => Ok (false, c)
  | Some text =>
      match load_lines (length text) text (replicate 64 0) c with
      | Ok c => Ok (true, c)
      | Fault => Fault
      | OutOfFuel => OutOfFuel
      end
  end.

Definition ConfigValidate (c : SERVER_CONFIG) : bool :=
  if st_size (sv_storage c) =? 0 then false
  else if (match st_backendType (sv_storage c) with BACKEND_TYPE_FILE => true | _ => false end) &&
          bool_decide (st_filePath (sv_storage c) !! 0%nat = Some 0) then false
  else if bool_decide (c_str (ctl_serialNumber (sv_controller c)) = []) then false
  else true.

(** ** Sizes are exact *)

Lemma size_multiplier_power c mult : size_multiplier c = Some mult ->
  (exists j, 0 <= j <= 40 /\ mult = 2 ^ j) /\ c ∈ [75; 77; 71; 84; 0; 66].
Proof.
  unfold size_multiplier. rewrite !elem_of_cons.
  repeat match goal with |- context [?a =? ?b] => destruct (Z.eqb_spec a b); subst; cbn [orb] end; try done; intros [= <-]; split; try tauto.
  - by exists 10. - by exists 20. - by exists 30. - by exists 40. - by exists 0. - by exists 0.
Qed.

(** C34: a size with a unit is exact: for a decimal number below 2^53 with a suffix
    K, M, G, T or B in either case, or none, ConfigParseSize - which computes in
    floating point - gives the number times the power of 1024, if that fits into
    64 bits. What follows the suffix is ignored. *)
Theorem ConfigParseSize_exact (n : Z) (suffix : list Z) (c mult : Z) :
  0 <= n < 2 ^ 53 -> toupper (hd 0 suffix) = Some c -> size_multiplier c = Some mult -> n * mult < 2 ^ 64 ->
  ConfigParseSize (numeral n ++ suffix) = Some (n * mult).
Proof.
  intros Hn Hc Hm Hmax. destruct (size_multiplier_power _ _ Hm) as [(j & Hj & ->) Hin].
  assert (match suffix with x :: _ => x <> 46 /\ fold_case x <> 101 /\ fold_case x <> 120 /\ digit_in 10 x = None | [] => True end) as Hs.
  { destruct suffix as [|x suffix]; [done|]. cbn in Hc. unfold toupper, is_lower in Hc. destruct (x <? 128); [|done]. injection Hc as Hc.
    assert (x ∈ [75; 77; 71; 84; 0; 66; 107; 109; 103; 116; 98]) as Hx.
    { rewrite !elem_of_cons, elem_of_nil in *. destruct (Z.leb_spec 97 x), (Z.leb_spec x 122); cbn in Hc; lia. }
    clear -Hx. repeat (apply elem_of_cons in Hx as [->|Hx]; [done|]). by apply not_elem_of_nil in Hx. }
  destruct (digits_numeral n suffix) as (_ & _ & Hne); [lia|by destruct suffix; [|apply Hs]|].
  unfold ConfigParseSize. rewrite (strtod_numeral n suffix) by (done || lia).
  assert (double_lt (double_of_Z n) (double_of_Z 0) = false) as ->.
  { destruct n as [|p|p]; [done| |lia]. destruct (double_of_Z_exact p) as (m & -> & _); [lia|done]. }
  change (match suffix with [] => 0 | c :: _ => c end) with (hd 0 suffix). rewrite Hc. cbn [mbind option_bind].
  rewrite Hm, double_mul_exact by done. destruct (numeral n); [done|]. by destruct suffix.
Qed.
(** ** What a configuration is *)

(** The types of the fields, with the sizes of the arrays; the two strings keep their final zero. *)
Record config_ok (c : SERVER_CONFIG) : Prop := {
  ok_level : LOG_LEVEL_NONE <= lg_level (sv_log c) <= LOG_LEVEL_VERBOSE;
  ok_paths : length (lg_filePath (sv_log c)) = MAX_PATH /\ length (st_filePath (sv_storage c)) = MAX_PATH /\
    length (sv_configFilePath c) = MAX_PATH;
  ok_size : 0 <= st_size (sv_storage c) < 2 ^ 64;
  ok_block : st_blockSize (sv_storage c) = 512;
  ok_model : length (ctl_modelNumber (sv_controller c)) = 40%nat /\ ctl_modelNumber (sv_controller c) !! 39%nat = Some 0;
  ok_serial : length (ctl_serialNumber (sv_controller c)) = 20%nat /\ ctl_serialNumber (sv_controller c) !! 19%nat = Some 0;
  ok_ids : 0 <= ctl_vendorId (sv_controller c) < 2 ^ 16 /\ 0 <= ctl_deviceId (sv_controller c) < 2 ^ 16;
  ok_times : 0 <= sv_heartbeatIntervalMs c < 2 ^ 32 /\ 0 <= sv_pollIntervalUs c < 2 ^ 32
}.

Lemma ConfigSetDefaults_ok c : config_ok (ConfigSetDefaults c) /\ ConfigValidate (ConfigSetDefaults c) = true.
Proof. split; [|by vm_compute]. split; vm_compute; repeat split; congruence. Qed.

Lemma ParseLogLevel_range v : LOG_LEVEL_NONE <= ParseLogLevel v <= LOG_LEVEL_VERBOSE.
Proof. unfold ParseLogLevel. repeat destruct (_ || _); repeat destruct (stricmp_eq _ _); by vm_compute. Qed.

Lemma ConfigParseSize_range v size : ConfigParseSize v = Some size -> 0 <= size < 2 ^ 64.
Proof.
  unfold ConfigParseSize. destruct v as [|x v]; [intros [= <-]; lia|]. destruct (strtod _) as [value e].
  destruct (double_lt _ _); [intros [= <-]; lia|]. destruct (toupper _) as [c|]; [|done]. cbn [mbind option_bind].
  destruct (size_multiplier c) as [k|]; [|intros [= <-]; lia]. unfold double_to_uint64.
  destruct (double_mul _ _) as [b|b| |b m e']; try done; [intros [= <-]; lia|].
  set (w := if 0 <=? e' then _ else _).
  assert (0 <= w). { unfold w. destruct (Z.leb_spec 0 e'); [apply Z.mul_nonneg_nonneg; [lia|apply Z.pow_nonneg; lia]|by apply Z.shiftr_nonneg]. }
  destruct b; [destruct (_ =? _); [|done]; intros [= <-]; lia|]. destruct (Z.ltb_spec w (2 ^ 64)); [|done]. intros [= <-]. lia.
Qed.

Context {L : TextFileLaws T}.

(** Setting a field to a value of its type keeps a configuration in order. *)
Lemma set_log_ok f c : config_ok c -> LOG_LEVEL_NONE <= lg_level (f (sv_log c)) <= LOG_LEVEL_VERBOSE ->
  length (lg_filePath (f (sv_log c))) = MAX_PATH -> config_ok (log_set f c).
Proof. intros [? (? & ? & ?) ? ? ? ? ? ?] ? ?. by split. Qed.
Lemma set_storage_ok f c : config_ok c -> 0 <= st_size (f (sv_storage c)) < 2 ^ 64 -> st_blockSize (f (sv_storage c)) = 512 ->
  length (st_filePath (f (sv_storage c))) = MAX_PATH -> config_ok (storage_set f c).
Proof. intros [? (? & ? & ?) ? ? ? ? ? ?] ? ? ?. by split. Qed.
Lemma set_model_ok v c : config_ok c -> config_ok (model_set v c).
Proof.
  intros [? ? ? ? [H1 H2] ? ? ?]. split; try done. cbn. rewrite length_strncpy_into by lia. split; [done|].
  by rewrite lookup_strncpy_into by lia.
Qed.
Lemma set_serial_ok v c : config_ok c -> config_ok (serial_set v c).
Proof.
  intros [? ? ? ? ? [H1 H2] ? ?]. split; try done. cbn. rewrite length_strncpy_into by lia. split; [done|].
  by rewrite lookup_strncpy_into by lia.
Qed.
Lemma set_id_ok f c : config_ok c -> ctl_modelNumber (f (sv_controller c)) = ctl_modelNumber (sv_controller c) ->
  ctl_serialNumber (f (sv_controller c)) = ctl_serialNumber (sv_controller c) ->
  0 <= ctl_vendorId (f (sv_controller c)) < 2 ^ 16 -> 0 <= ctl_deviceId (f (sv_controller c)) < 2 ^ 16 -> config_ok (controller_set f c).
Proof. intros [? ? ? ? ? ? ? ?] E1 E2 ? ?. split; try done; cbn; by rewrite ?E1, ?E2. Qed.
Lemma set_times_ok a b d (p : list Z -> list Z) c : config_ok c -> 0 <= a < 2 ^ 32 -> 0 <= b < 2 ^ 32 -> (forall l, length (p l) = length l) ->
  config_ok (c <| sv_heartbeatIntervalMs := a |> <| sv_pollIntervalUs := b |> <| sv_daemonMode := d |> <| sv_configFilePath ::= p |>).
Proof. intros [? (? & ? & ?) ? ? ? ? ? ?] ? ? Hp. split; try done. cbn. by rewrite Hp. Qed.

Lemma set_key_ok section key value c c' : config_ok c -> set_key section key value c = Some c' -> config_ok c'.
Proof.
  intros Hc. pose proof (strtoul_range value) as Hv. pose proof (ParseLogLevel_range value) as Hl. pose proof (u16_range (strtoul value)) as H16.
  pose proof Hc as [K1 (K2 & K3 & K4) K5 K6 _ _ [K7 K8] [K9 K10]].
  pose proof (fun c => set_times_ok (sv_heartbeatIntervalMs c) (sv_pollIntervalUs c)) as Ht.
  unfold set_key. repeat match goal with |- context [if ?b then _ else _] => destruct b end;
    try (intros [= <-]; first [done | apply set_log_ok; cbn; rewrite ?wide_length; done | apply set_storage_ok; cbn; rewrite ?wide_length; done
      | by apply set_model_ok | by apply set_serial_ok | by apply set_id_ok
      | apply (set_times_ok (strtoul value) (sv_pollIntervalUs c) (sv_daemonMode c) id); done
      | apply (set_times_ok (sv_heartbeatIntervalMs c) (strtoul value) (sv_daemonMode c) id); done
      | by apply (set_times_ok (sv_heartbeatIntervalMs c) (sv_pollIntervalUs c) (is_true value) id)]).
  destruct (ConfigParseSize value) as [size|] eqn:Hs; [|done]. intros [= <-]. apply set_storage_ok; try done. by apply ConfigParseSize_range in Hs.
Qed.
(** What the loop over the arguments comes to: a configuration; the exit of a help
    or version option; or a size that is not one. *)
Definition args_outcome (args : list (list Z)) (r : res ParseOutcome) : Prop :=
  match r with
  | Ok (Parsed _ c) => config_ok c
  | Ok (Exited code) => code = 0 /\ exists arg, arg ∈ args /\ (is_arg arg "-h" "--help" || is_arg arg "-v" "--version") = true
  | Fault => exists i arg value, args !! i = Some arg /\ args !! S i = Some value /\ is_arg arg "-s" "--size" = true /\ ConfigParseSize value = None
  | OutOfFuel => False
  end.

Lemma args_outcome_app l args r : args_outcome args r -> args_outcome (l ++ args) r.
Proof.
  destruct r as [[b c|code]| |]; [done| | |done]; cbn.
  - intros (? & arg & ? & ?). split; [done|]. exists arg. split; [apply elem_of_app; by right|done].
  - intros (i & arg & value & H1 & H2 & H3 & H4). exists (length l + i)%nat, arg, value.
    rewrite !lookup_app_r by lia.
    replace (length l + i - length l)%nat with i by lia. replace (S (length l + i) - length l)%nat with (S i) by lia. by split_and!.
Qed.
Lemma args_outcome_cons x args r : args_outcome args r -> args_outcome (x :: args) r.
Proof. apply (args_outcome_app [x]). Qed.

Lemma parse_args_ok n : forall args c, (length args <= n)%nat -> config_ok c -> args_outcome args (parse_args args c).
Proof.
  induction n as [|n IH]; intros [|arg rest] c Hlen Hc; cbn [length] in Hlen; try lia; cbn [parse_args]; [done..|].
  pose proof Hc as [K1 (K2 & K3 & K4) K5 K6 _ _ _ [K9 K10]].
  set (flags := if is_arg arg "-h" "--help" then _ else _).
  assert (args_outcome (arg :: rest) flags) as Hflags.
  { unfold flags. destruct (is_arg arg "-h" "--help") eqn:Eh; [split; [done|]; exists arg; rewrite Eh; split; [by left|done]|].
    destruct (is_arg arg "-v" "--version") eqn:Ev; [split; [done|]; exists arg; rewrite Ev; split; [by left|by rewrite orb_true_r]|].
    repeat match goal with |- context [if ?b then _ else _] => destruct b end; try done; apply args_outcome_cons, IH; try lia.
    - by apply set_storage_ok. - by apply set_storage_ok.
    - by apply (set_times_ok (sv_heartbeatIntervalMs c) (sv_pollIntervalUs c) true id). }
  clearbody flags. destruct rest as [|value rest]; [done|]. cbn [length] in Hlen. pose proof (ParseLogLevel_range value) as Hl.
  assert (forall c, config_ok c -> args_outcome (arg :: value :: rest) (parse_args rest c)) as Hgo
    by (intros c' Hc'; apply args_outcome_cons, args_outcome_cons, IH; [lia|done]).
  destruct (is_arg arg "-c" "--config").
  { apply Hgo, (set_times_ok (sv_heartbeatIntervalMs c) (sv_pollIntervalUs c) (sv_daemonMode c)); try done. intros. apply wide_length. }
  destruct (is_arg arg "-s" "--size") eqn:Ea.
  { destruct (ConfigParseSize value) as [size|] eqn:Hs; [|by exists 0%nat, arg, value]. apply ConfigParseSize_range in Hs.
    destruct (size =? 0); [|apply Hgo]; by apply set_storage_ok. }
  destruct (is_arg arg "-b" "--backend").
  { destruct (stricmp_eq value (chars "memory") || _); [apply Hgo; by apply set_storage_ok|].
    destruct (stricmp_eq _ _); [apply Hgo; by apply set_storage_ok|done]. }
  destruct (is_arg arg "-f" "--file"); [apply Hgo, set_storage_ok; cbn; by rewrite ?wide_length|].
  destruct (is_arg arg "-m" "--model"); [apply Hgo; by apply set_model_ok|].
  destruct (is_arg arg "-n" "--serial"); [apply Hgo; by apply set_serial_ok|].
  destruct (strcmp_eq arg _); [apply Hgo; by apply set_log_ok|].
  destruct (strcmp_eq arg _); [apply Hgo, set_log_ok; cbn; by rewrite ?wide_length|done].
Qed.

(** ** Reading a file *)

Definition ascii (s : list Z) : Prop := Forall (fun c => c < 128) s.

Lemma ascii_sublist s t : t `sublist_of` s -> ascii s -> ascii t.
Proof. induction 1 as [|x l k _ IH|x l k _ IH]; [done|..]; intros [Hx Hk]%Forall_cons; [constructor; [done|]|]; by apply IH. Qed.

Lemma skip_spaces_ascii s : ascii s -> exists t, skip_spaces s = Some t /\ t `sublist_of` s.
Proof.
  induction 1 as [|c s Hc Hs IH]; [by exists []|]. cbn [skip_spaces]. unfold isspace. rewrite (proj2 (Z.ltb_lt _ _)) by done. cbn [mbind option_bind].
  destruct (is_space c); [|by exists (c :: s)]. destruct IH as (t & -> & Ht). exists t. split; [done|]. by constructor.
Qed.

Lemma drop_trailing_ascii s : ascii s -> exists t, drop_trailing s = Some t /\ t `sublist_of` s.
Proof.
  induction 1 as [|c s Hc Hs (t & IH & Ht)]; [by exists []|]. cbn [drop_trailing]. rewrite IH. cbn [mbind option_bind]. destruct t as [|x t].
  - unfold isspace. rewrite (proj2 (Z.ltb_lt _ _)) by done. cbn. destruct (is_space c); eexists; (split; [done|]); [apply sublist_nil_l|].
    constructor. apply sublist_nil_l.
  - eexists. split; [done|]. by constructor.
Qed.

Lemma TrimString_ascii s : ascii s -> exists t, TrimString s = Some t /\ t `sublist_of` s.
Proof.
  intros Hs. destruct (skip_spaces_ascii s Hs) as (t & Ht & Hsub). unfold TrimString. rewrite Ht. cbn [mbind option_bind].
  destruct t as [|c t]; [by exists []|]. pose proof (ascii_sublist _ _ Hsub Hs) as Ha. apply Forall_cons in Ha as [_ Ha].
  destruct (drop_trailing_ascii t Ha) as (u & -> & Hu). cbn. exists (c :: u). split; [done|]. etransitivity; [|exact Hsub]. by constructor.
Qed.

Lemma strchr_split s c a b : strchr s c = Some (a, b) -> s = a ++ c :: b.
Proof.
  revert a. induction s as [|x s IH]; intros a; [done|]. cbn. destruct (Z.eqb_spec x c) as [->|]; [by intros [= <- <-]|].
  destruct (strchr s c) as [[a' b']|]; [|done]. intros [= <- <-]. by rewrite (IH a').
Qed.

(** The key and the value of a line with an assignment, and the keys of a size. *)
Definition assignment (line : list Z) : option (list Z * list Z) :=
  t ← TrimString line; kv ← strchr t 61; key ← TrimString kv.1; value ← TrimString kv.2; Some (key, value).
Definition size_key (key : list Z) : bool := stricmp_eq key (chars "Size") || stricmp_eq key (chars "NamespaceSize").

(** A line the loop cannot go past: a byte that is not ASCII, or the assignment of a size whose conversion is undefined. *)
Definition bad_line (line : list Z) : Prop :=
  ~ ascii line \/ exists key value, assignment line = Some (key, value) /\ size_key key = true /\ ConfigParseSize value = None.

Lemma set_key_None section key value c : set_key section key value c = None -> size_key key = true /\ ConfigParseSize value = None.
Proof.
  unfold set_key, size_key. destruct (stricmp_eq key (chars "Size") || _); repeat match goal with |- context [if ?b then _ else _] => destruct b end;
    try done. by destruct (ConfigParseSize value).
Qed.

(** One line keeps the configuration in order, if it is not a bad one. *)
Lemma config_line_ok line section c :
  config_ok c ->
  match config_line line section c with
  | Some (_, c') => config_ok c'
  | None => bad_line line
  end.
Proof.
  intros Hc. destruct (config_line line section c) as [[s' c']|] eqn:E.
  - revert E. unfold config_line.
    destruct (TrimString line) as [[|x t]|]; [by intros [= _ <-]| |done]. cbn [mbind option_bind].
    destruct (_ || _); [by intros [= _ <-]|]. destruct (x =? 91); [destruct (strchr t 93) as [[? ?]|]; by intros [= _ <-]|].
    destruct (strchr _ 61) as [[k v]|]; [|by intros [= _ <-]]. destruct (TrimString k), (TrimString v); try done. cbn [mbind option_bind].
    destruct (set_key _ _ _ _) as [c2|] eqn:Hk; [|done]. intros [= _ <-]. by eapply set_key_ok.
  - destruct (decide (ascii line)) as [Ha|Ha]; [right|by left]. revert E. unfold config_line, assignment.
    destruct (TrimString_ascii line Ha) as (t & -> & Ht). cbn [mbind option_bind]. destruct t as [|x t]; [done|].
    destruct (_ || _); [done|]. destruct (x =? 91); [by destruct (strchr t 93) as [[? ?]|]|].
    destruct (strchr (x :: t) 61) as [[k v]|] eqn:Hs; [|done]. apply strchr_split in Hs.
    assert (k `sublist_of` line /\ v `sublist_of` line) as [Hk Hv].
    { rewrite Hs in Ht. split; (etransitivity; [|exact Ht]); [apply sublist_inserts_r; reflexivity|].
      apply sublist_inserts_l, sublist_cons. reflexivity. }
    cbn [mbind option_bind fst snd].
    destruct (TrimString_ascii k (ascii_sublist _ _ Hk Ha)) as (k' & -> & _). cbn [mbind option_bind].
    destruct (TrimString_ascii v (ascii_sublist _ _ Hv Ha)) as (v' & -> & Hv'). cbn [mbind option_bind].
    destruct (set_key _ _ _ _) as [c'|] eqn:Hk'; cbn [mbind option_bind]; [done|]. intros _.
    exists k', v'. split; [done|]. by eapply set_key_None.
Qed.

Lemma fgets_chars_split n text : let '(l, r) := fgets_chars n text in text = l ++ r /\ ((0 < n)%nat -> text <> [] -> l <> []).
Proof.
  revert text. induction n as [|n IH]; intros [|x text]; cbn; try (split; [done|lia || done]).
  destruct (x =? 10); [done|]. specialize (IH text). destruct (fgets_chars n text) as [l r]. cbn. split; [by destruct IH as [-> _]|done].
Qed.

(** The lines of a text, as fgets gives them. *)
Fixpoint file_lines (fuel : nat) (text : list Z) : list (list Z) :=
  match fgets 1024 text, fuel with
  | Some (line, text), S fuel => line :: file_lines fuel text
  | _, _ => []
  end.

Lemma load_lines_ok fuel : forall text section c, (length text <= fuel)%nat -> config_ok c ->
  match load_lines fuel text section c with
  | Ok c' => config_ok c'
  | Fault => exists line, line ∈ file_lines fuel text /\ bad_line line
  | OutOfFuel => False
  end.
Proof.
  induction fuel as [|fuel IH]; intros text section c Hlen Hc; (destruct text as [|x text]; [done|]); cbn [length] in Hlen; [lia|].
  cbn [load_lines file_lines]. unfold fgets. pose proof (fgets_chars_split (1024 - 1) (x :: text)) as Hs. destruct (fgets_chars _ _) as [l r].
  destruct Hs as [Hs Hne]. specialize (Hne ltac:(lia) ltac:(done)).
  pose proof (config_line_ok (c_str l) section c Hc) as Hl.
  destruct (config_line _ _ _) as [[section' c']|]; [|exists (c_str l); split; [by left|done]].
  assert (length r <= fuel)%nat as Hr.
  { apply (f_equal length) in Hs. rewrite length_app in Hs. cbn [length] in Hs. destruct l; [done|]. cbn [length] in Hs. lia. }
  specialize (IH r section' c' Hr Hl). destruct (load_lines fuel r section' c'); [done| |done].
  destruct IH as (line & ? & ?). exists line. split; [by right|done].
Qed.

(** C30: a configuration always is one. ConfigParseArgs, whatever the arguments, ends
    in one of three ways: it returns, saying whether it accepts them, and leaves a
    configuration whose fields have their types - a known log level, a 64-bit size,
    the block size 512, 16-bit identifiers, 32-bit intervals, and arrays of their
    declared sizes, the model and the serial number with their final zero; it exits
    with code 0, if a help or a version option is among the arguments; or it has
    undefined behaviour, if the value after a size option is one whose conversion is
    undefined (toupper is given a negative character, or the product is no 64-bit
    number). Loading a file keeps the configuration in order: ConfigLoadFile reads the
    lines one after another and comes back; it can go wrong only at a line of the file
    that is bad: one with a byte that is not ASCII (isspace and toupper may be given a
    negative char), or one whose key is Size or NamespaceSize and whose value's
    conversion is undefined. *)
Theorem server_config_typed (args : list (list Z)) (path : list Z) (c : SERVER_CONFIG) :
  match ConfigParseArgs args c with
  | Ok (Parsed _ c') => config_ok c'
  | Ok (Exited code) => code = 0 /\ exists arg, arg ∈ args /\ (is_arg arg "-h" "--help" || is_arg arg "-v" "--version") = true
  | Fault => exists i arg value, args !! i = Some arg /\ args !! S i = Some value /\ is_arg arg "-s" "--size" = true /\ ConfigParseSize value = None
  | OutOfFuel => False
  end /\
  (config_ok c ->
   match ConfigLoadFile path c with
   | Ok (_, c') => config_ok c'
   | Fault => exists text line, read_text path = Some text /\ line ∈ file_lines (length text) text /\ bad_line line
   | OutOfFuel => False
   end).
Proof.
  split.
  - apply (parse_args_ok (length args)); [done|]. apply ConfigSetDefaults_ok.
  - intros Hc. unfold ConfigLoadFile. destruct (read_text path) as [text|]; [|done].
    pose proof (load_lines_ok (length text) text (replicate 64 0) c ltac:(lia) Hc) as H.
    destruct (load_lines _ _ _ _); [done| |done]. destruct H as (line & ? & ?). by exists text, line.
Qed.
End ServerConfig.

#[export] Hint Unfold set_lg_level set_lg_enableConsole set_lg_enableFile set_lg_filePath set_st_backendType set_st_size
  set_st_blockSize set_st_filePath set_st_readOnly set_st_directIO set_st_preallocate set_ctl_modelNumber
  set_ctl_serialNumber set_ctl_vendorId set_ctl_deviceId set_sv_log set_sv_storage set_sv_controller
  set_sv_heartbeatIntervalMs set_sv_pollIntervalUs set_sv_daemonMode set_sv_configFilePath : setters.



(** ** Witnesses *)

(** The example configuration of the repository, vnvme.conf.example. *)
Definition vnvme_conf_example : list Z := chars "# VNVME Server Configuration Example
# Copy this file to vnvme.conf and modify as needed

# Storage backend type: memory, file
backend=memory

# Backend size in bytes (for memory backend)
# Supports suffixes: K, M, G (e.g., 128M = 128 MB)
size=64M

# File path for file backend (required when backend=file)
# file=C:\vnvme\disk.img

# Enable debug output
debug=false

# Polling interval in milliseconds (1-1000)
polling_interval=1

# Maximum concurrent I/O operations
# max_io=32
".

#[local] Instance example_files : TextFiles := {
  MultiByteToWideChar src dst := strncpy_into dst src (length dst - 1);
  read_text path := if strcmp_eq path (chars "vnvme.conf") then Some vnvme_conf_example
                    else if strcmp_eq path (chars "a.conf") then Some (chars ("[storage]" +:+ String (Ascii.ascii_of_nat 10) "Size = 64M"))
                    else None
}.
#[local] Instance example_file_laws : TextFileLaws example_files.
Proof. split. intros. cbn. apply length_strncpy_into. lia. Qed.

(** Its keys are not those ConfigLoadFile looks for, and it has no section: none of its lines has an effect. *)
Lemma vnvme_conf_example_ignored : ConfigLoadFile (chars "vnvme.conf") (ConfigSetDefaults zero_config) = Ok (true, ConfigSetDefaults zero_config).
Proof. by vm_compute. Qed.

Lemma ConfigParseSize_exact_witness : ConfigParseSize (numeral 100 ++ chars "gB") = Some (100 * (1024 * 1024 * 1024)).
Proof. apply (ConfigParseSize_exact 100 (chars "gB") 71); [lia|by vm_compute|by vm_compute|lia]. Defined.

Lemma server_config_typed_witness :
  exists c', ConfigLoadFile (chars "a.conf") (ConfigSetDefaults zero_config) = Ok (true, c') /\ config_ok c' /\ st_size (sv_storage c') = 64 * 1024 * 1024 /\
    exists c2, ConfigParseArgs [chars "--serial"; chars "A"] zero_config = Ok (Parsed true c2) /\ config_ok c2.
Proof.
  destruct (server_config_typed [chars "--serial"; chars "A"] (chars "a.conf") (ConfigSetDefaults zero_config)) as [Hargs Hfile].
  specialize (Hfile (proj1 (ConfigSetDefaults_ok zero_config))).
  assert (exists c', ConfigLoadFile (chars "a.conf") (ConfigSetDefaults zero_config) = Ok (true, c') /\ st_size (sv_storage c') = 64 * 1024 * 1024)
    as (c' & E & Hsize) by (eexists; by vm_compute).
  rewrite E in Hfile. exists c'. split; [exact E|]. split; [exact Hfile|]. split; [exact Hsize|].
  revert Hargs. change (ConfigParseArgs [chars "--serial"; chars "A"] (ConfigSetDefaults zero_config)) with (ConfigParseArgs [chars "--serial"; chars "A"] zero_config).
  assert (exists c2, ConfigParseArgs [chars "--serial"; chars "A"] zero_config = Ok (Parsed true c2)) as (c2 & E2) by (eexists; by vm_compute).
  rewrite E2. intros Hargs. exists c2. split; [done|exact Hargs].
Defined.
