(* ===== verification/DriverComm.v ===== *)
(** How the service talks to the driver: [vnvme-server/driver_comm.h] and
    [driver_comm.c].

    What the driver promises to a process is the class [ControlDevice]: a device
    that can be opened, requests, and memory that both sides see.  The functions
    of the service are written against it; [DriverLink] shows that the control
    device of the driver is an instance.  A handle is a number, 0 is NULL; the
    context the functions are given is never NULL. *)
From S2P Require Import Prelude NvmeSpec State CtrlDev.
Open Scope Z_scope.
Open Scope c_scope.

Definition INVALID_HANDLE_VALUE : Z := 2 ^ 64 - 1.
Definition WAIT_OBJECT_0 : Z := 0.
Definition WAIT_TIMEOUT : Z := 258.
Definition WAIT_FAILED : Z := 2 ^ 32 - 1.
Definition sizeof_VNVME_MAP_SHM_INPUT : Z := 4 + 4.

(** ** Contexts *)

(** The mapping of the shared memory. *)
Record SHM_CONTEXT := mkShmContext {
  sc_userAddress : Z;
  sc_size : Z;
  sc_controlBlock : Z;  (* pointers are addresses, 0 is NULL *)
  sc_notifyRing : Z;
  sc_dataBuffer : Z;
  sc_dataBufferSize : Z
}.
Definition etaShmContext r :=
  mkShmContext (sc_userAddress r) (sc_size r) (sc_controlBlock r) (sc_notifyRing r) (sc_dataBuffer r)
    (sc_dataBufferSize r).
#[export] Instance set_sc_userAddress : Setter sc_userAddress := ltac:(mk_setter etaShmContext).
#[export] Instance set_sc_size : Setter sc_size := ltac:(mk_setter etaShmContext).
#[export] Instance set_sc_controlBlock : Setter sc_controlBlock := ltac:(mk_setter etaShmContext).
#[export] Instance set_sc_notifyRing : Setter sc_notifyRing := ltac:(mk_setter etaShmContext).
#[export] Instance set_sc_dataBuffer : Setter sc_dataBuffer := ltac:(mk_setter etaShmContext).
#[export] Instance set_sc_dataBufferSize : Setter sc_dataBufferSize := ltac:(mk_setter etaShmContext).

(** The connection to the driver. *)
Record DRIVER_COMM_CONTEXT := mkDriverComm {
  dc_deviceHandle : Z;
  dc_driverVersion : Z;
  dc_shm : SHM_CONTEXT;
  dc_heartbeatThread : Z;
  dc_running : bool;
  dc_heartbeatIntervalMs : Z;
  dc_commandsProcessed : Z;
  dc_commandEvent : Z;
  dc_eventModeEnabled : bool
}.
Definition etaDriverComm r :=
  mkDriverComm (dc_deviceHandle r) (dc_driverVersion r) (dc_shm r) (dc_heartbeatThread r) (dc_running r)
    (dc_heartbeatIntervalMs r) (dc_commandsProcessed r) (dc_commandEvent r) (dc_eventModeEnabled r).
#[export] Instance set_dc_deviceHandle : Setter dc_deviceHandle := ltac:(mk_setter etaDriverComm).
#[export] Instance set_dc_driverVersion : Setter dc_driverVersion := ltac:(mk_setter etaDriverComm).
#[export] Instance set_dc_shm : Setter dc_shm := ltac:(mk_setter etaDriverComm).
#[export] Instance set_dc_heartbeatThread : Setter dc_heartbeatThread := ltac:(mk_setter etaDriverComm).
#[export] Instance set_dc_running : Setter dc_running := ltac:(mk_setter etaDriverComm).
#[export] Instance set_dc_heartbeatIntervalMs : Setter dc_heartbeatIntervalMs := ltac:(mk_setter etaDriverComm).
#[export] Instance set_dc_commandsProcessed : Setter dc_commandsProcessed := ltac:(mk_setter etaDriverComm).
#[export] Instance set_dc_commandEvent : Setter dc_commandEvent := ltac:(mk_setter etaDriverComm).
#[export] Instance set_dc_eventModeEnabled : Setter dc_eventModeEnabled := ltac:(mk_setter etaDriverComm).

(** The contexts of a process that starts. *)
Definition zero_shm_context : SHM_CONTEXT := mkShmContext 0 0 0 0 0 0.
Definition zero_driver_comm : DRIVER_COMM_CONTEXT := mkDriverComm 0 0 zero_shm_context 0 false 0 0 0 false.

(** ** What the driver promises *)

(** The driver, as a process sees it.  CreateFileW opens its control device, and
    DeviceIoControl sends it a request: a handle, a code, the input, and the
    lengths of the input and of the output; it returns whether it succeeded, the
    number of bytes it put into the output, and the bytes.  [user_shm] is the
    shared memory as it is mapped into the process. *)
Class ControlDevice := {
  Driver : Type;
  OpenDevice : Driver -> Z * Driver;
  CloseDevice : Z -> Driver -> Driver;
  DeviceIoControl : Driver -> Z -> Z -> mem -> Z -> Z -> res (bool * Z * mem * Driver);
  user_shm : Driver -> option SharedMemory;
  set_user_shm : SharedMemory -> Driver -> Driver;
}.

(** A store to the shared memory is seen by a load; a heartbeat and the request
    for the event, as the service sends them, come back and leave the shared
    memory alone. *)
Class ControlDeviceLaws (D : ControlDevice) := {
  shm_store_load m m0 d : user_shm d = Some m0 -> user_shm (set_user_shm m d) = Some m;
  request_shm d h code out : (code, out) = (IOCTL_VNVME_HEARTBEAT, 0) \/
      (code, out) = (IOCTL_VNVME_GET_COMMAND_EVENT, sizeof_VNVME_GET_COMMAND_EVENT_OUTPUT) ->
    exists r d', DeviceIoControl d h code mem_zero 0 out = Ok (r, d') /\ user_shm d' = user_shm d;
}.

Section DriverComm.
Context {D : ControlDevice}.

(** The driver, and the connection to it. *)
Record LinkState := mkLink {
  lk_driver : Driver;
  lk_ctx : DRIVER_COMM_CONTEXT
}.
Definition etaLink r :=
  mkLink (lk_driver r) (lk_ctx r).
#[export] Instance set_lk_driver : Setter lk_driver := ltac:(mk_setter etaLink).
#[export] Instance set_lk_ctx : Setter lk_ctx := ltac:(mk_setter etaLink).

(** ** Access to the state *)

Definition ctx_update (f : DRIVER_COMM_CONTEXT -> DRIVER_COMM_CONTEXT) : M LinkState unit := modify (fun s => s <| lk_ctx ::= f |>).
Definition shm_ctx_update (f : SHM_CONTEXT -> SHM_CONTEXT) : M LinkState unit := ctx_update (fun c => c <| dc_shm ::= f |>).

(** DeviceIoControl with an output buffer that is [out] before the call. *)
Definition device_io_control (code : Z) (input : mem) (insize : Z) (out : mem) (outsize : Z) : M LinkState (bool * mem) :=
  s ← get;
  r ← of_res (DeviceIoControl (lk_driver s) (dc_deviceHandle (lk_ctx s)) code input insize outsize);
  let '(result, bytesReturned, data, d) := r in
  modify (fun s => s <| lk_driver := d |>);;
  mret (result, mem_copy out 0 data 0 bytesReturned).

(** [*controlBlock]: the pointer has to point into the mapping. *)
Definition control_block : M LinkState VNVME_SHM_CONTROL_BLOCK :=
  s ← get;
  if sc_controlBlock (dc_shm (lk_ctx s)) =? 0 then fault
  else m ← of_opt (user_shm (lk_driver s)); mret (shm_cb m).

Definition control_block_update (f : VNVME_SHM_CONTROL_BLOCK -> VNVME_SHM_CONTROL_BLOCK) : M LinkState unit :=
  s ← get;
  if sc_controlBlock (dc_shm (lk_ctx s)) =? 0 then fault
  else m ← of_opt (user_shm (lk_driver s)); modify (fun s => s <| lk_driver ::= set_user_shm (m <| shm_cb ::= f |>) |>).

(** ** The functions of driver_comm.c *)

Definition DriverConnect : M LinkState bool :=
  s ← get;
  let '(h, d) := OpenDevice (lk_driver s) in
  modify (fun s => s <| lk_driver := d |>);;
  ctx_update (fun c => c <| dc_deviceHandle := h |>);;
  mret (negb (h =? INVALID_HANDLE_VALUE)).

Definition DriverUnmapShm : M LinkState unit :=
  s ← get;
  if sc_userAddress (dc_shm (lk_ctx s)) =? 0 then mret tt
  else
    (if dc_deviceHandle (lk_ctx s) =? INVALID_HANDLE_VALUE then mret tt
     else device_io_control IOCTL_VNVME_UNMAP_SHM mem_zero 0 mem_zero 0;; mret tt);;
    shm_ctx_update (fun _ => zero_shm_context).

Definition DriverMapShm : M LinkState bool :=
  s ← get;
  if dc_deviceHandle (lk_ctx s) =? INVALID_HANDLE_VALUE then mret false
  else
    r ← device_io_control IOCTL_VNVME_MAP_SHM mem_zero sizeof_VNVME_MAP_SHM_INPUT mem_zero sizeof_VNVME_MAP_SHM_OUTPUT;
    let UserAddress := load_le r.2 0 8 in
    let ActualSize := load_le r.2 8 4 in
    if negb r.1 then mret false
    else if (UserAddress =? 0) || (ActualSize =? 0) then mret false
    else
      shm_ctx_update (fun c => c <| sc_userAddress := UserAddress |> <| sc_size := ActualSize |> <| sc_controlBlock := UserAddress |>);;
      cb ← control_block;
      if negb (cb_Magic cb =? VNVME_SHM_MAGIC) then DriverUnmapShm;; mret false
      else
        shm_ctx_update (fun c => c <| sc_notifyRing := UserAddress +₆₄ cb_NotifyRingOffset cb |>
          <| sc_dataBuffer := UserAddress +₆₄ cb_DataBufferOffset cb |> <| sc_dataBufferSize := cb_DataBufferSize cb |>);;
        mret true.

Definition DriverSendUserReady : M LinkState bool :=
  s ← get;
  if dc_deviceHandle (lk_ctx s) =? INVALID_HANDLE_VALUE then mret false
  else r ← device_io_control IOCTL_VNVME_USER_READY mem_zero 0 mem_zero 0; mret r.1.

Definition DriverSendHeartbeat : M LinkState bool :=
  s ← get;
  if dc_deviceHandle (lk_ctx s) =? INVALID_HANDLE_VALUE then mret false
  else r ← device_io_control IOCTL_VNVME_HEARTBEAT mem_zero 0 mem_zero 0; mret r.1.

(** The heartbeat thread: an element of [rounds] is what the rest of the system
    does to the state during a Sleep. *)
Fixpoint HeartbeatThreadProc (rounds : list (LinkState -> LinkState)) : M LinkState unit :=
  s ← get;
  if negb (dc_running (lk_ctx s)) then mret tt
  else match rounds with
  | [] => out_of_fuel
  | sleep :: rounds => DriverSendHeartbeat;; modify sleep;; HeartbeatThreadProc rounds
  end.

(** [thread] is the result of CreateThread. *)
Definition DriverStartHeartbeat (thread intervalMs : Z) : M LinkState bool :=
  ctx_update (fun c => c <| dc_heartbeatIntervalMs := if 0 <? intervalMs then intervalMs else 1000 |>);;
  ctx_update (fun c => c <| dc_running := true |>);;
  ctx_update (fun c => c <| dc_heartbeatThread := thread |>);;
  mret (negb (thread =? 0)).

Definition DriverStopHeartbeat : M LinkState unit :=
  s ← get;
  if dc_heartbeatThread (lk_ctx s) =? 0 then mret tt
  else
    ctx_update (fun c => c <| dc_running := false |>);;
    ctx_update (fun c => c <| dc_heartbeatThread := 0 |>).

Definition DriverDisconnect : M LinkState unit :=
  DriverStopHeartbeat;;
  DriverUnmapShm;;
  s ← get;
  let h := dc_deviceHandle (lk_ctx s) in
  if (h =? 0) || (h =? INVALID_HANDLE_VALUE) then mret tt
  else
    modify (fun s => s <| lk_driver ::= CloseDevice h |>);;
    ctx_update (fun c => c <| dc_deviceHandle := 0 |>).

Definition DriverIsShutdownRequested : M LinkState bool :=
  s ← get;
  if sc_controlBlock (dc_shm (lk_ctx s)) =? 0 then mret false
  else cb ← control_block; mret (negb (cb_ShutdownRequested cb =? 0)).

Definition DriverNotifyShutdownComplete : M LinkState unit :=
  s ← get;
  if sc_controlBlock (dc_shm (lk_ctx s)) =? 0 then mret tt
  else control_block_update (fun cb => cb <| cb_UserReady := 0 |>).

(** The result, and [*pVersion] when it is set. *)
Definition DriverGetVersion : M LinkState (bool * option Z) :=
  s ← get;
  if dc_deviceHandle (lk_ctx s) =? INVALID_HANDLE_VALUE then mret (false, None)
  else
    r ← device_io_control IOCTL_VNVME_GET_VERSION mem_zero 0 mem_zero sizeof_VNVME_GET_VERSION_OUTPUT;
    if negb r.1 then mret (false, None) else mret (true, Some (load_le r.2 0 4)).

(** The result, and the bytes of [*pStatus], which are [status] before. *)
Definition DriverGetStatus (status : mem) : M LinkState (bool * mem) :=
  s ← get;
  if dc_deviceHandle (lk_ctx s) =? INVALID_HANDLE_VALUE then mret (false, status)
  else device_io_control IOCTL_VNVME_GET_STATUS mem_zero 0 status sizeof_VNVME_GET_STATUS_OUTPUT.

Definition DriverGetCommandEvent : M LinkState bool :=
  s ← get;
  if dc_deviceHandle (lk_ctx s) =? INVALID_HANDLE_VALUE then mret false
  else if negb (dc_commandEvent (lk_ctx s) =? 0) then mret true
  else
    r ← device_io_control IOCTL_VNVME_GET_COMMAND_EVENT mem_zero 0 mem_zero sizeof_VNVME_GET_COMMAND_EVENT_OUTPUT;
    let EventHandle := load_le r.2 0 8 in
    if negb r.1 then ctx_update (fun c => c <| dc_eventModeEnabled := false |>);; mret false
    else if EventHandle =? 0 then ctx_update (fun c => c <| dc_eventModeEnabled := false |>);; mret false
    else
      ctx_update (fun c => c <| dc_commandEvent := EventHandle |>);;
      ctx_update (fun c => c <| dc_eventModeEnabled := true |>);;
      mret true.

(** [waitResult] is the result of WaitForSingleObject. *)
Definition DriverWaitForCommand (waitResult : Z) : M LinkState bool :=
  s ← get;
  if negb (dc_eventModeEnabled (lk_ctx s)) || (dc_commandEvent (lk_ctx s) =? 0) then mret true
  else if waitResult =? WAIT_OBJECT_0 then mret true
  else if waitResult =? WAIT_TIMEOUT then mret false
  else if waitResult =? WAIT_FAILED then ctx_update (fun c => c <| dc_eventModeEnabled := false |>);; mret false
  else mret false.
End DriverComm.

#[export] Hint Unfold set_sc_userAddress set_sc_size set_sc_controlBlock set_sc_notifyRing set_sc_dataBuffer set_sc_dataBufferSize
  set_dc_deviceHandle set_dc_driverVersion set_dc_shm set_dc_heartbeatThread set_dc_running
  set_dc_heartbeatIntervalMs set_dc_commandsProcessed set_dc_commandEvent set_dc_eventModeEnabled set_lk_driver
  set_lk_ctx : setters.
