(* ===== verification/Service.v ===== *)
(** The user-mode service as a process: [vnvme-server/main_v2.c], and the part of
    [logger.c] that keeps state.

    The globals of main_v2.c are the fields of [Service]; the driver, which the
    process reaches through its handle and through the shared memory, is part of
    the state.  What happens outside of the process - the driver and the host at
    work, the clock, the events, Ctrl+C - comes in rounds, one for each test of
    [g_Running]: a list of [Round].  [polls] and [fuel] bound the loops of
    CmdEnginePoll. *)
From S2P Require Import Prelude CLib NvmeSpec Config Storage State Shm Backend ServerState ServerAdmin ServerIo UserForward Engine CtrlDev DriverComm ServerConfig.
Open Scope Z_scope.
Open Scope c_scope.

(** ** The logger *)

Record LOGGER_CONFIG := mkLoggerConfig {
  lc_level : Z;
  lc_enableConsole : bool;
  lc_enableFile : bool;
  lc_enableColor : bool;
  lc_enableTimestamp : bool;
  lc_enableModule : bool;
  lc_filePath : list Z
}.
Definition etaLoggerConfig r :=
  mkLoggerConfig (lc_level r) (lc_enableConsole r) (lc_enableFile r) (lc_enableColor r) (lc_enableTimestamp r)
    (lc_enableModule r) (lc_filePath r).
#[export] Instance set_lc_level : Setter lc_level := ltac:(mk_setter etaLoggerConfig).
#[export] Instance set_lc_enableConsole : Setter lc_enableConsole := ltac:(mk_setter etaLoggerConfig).
#[export] Instance set_lc_enableFile : Setter lc_enableFile := ltac:(mk_setter etaLoggerConfig).
#[export] Instance set_lc_enableColor : Setter lc_enableColor := ltac:(mk_setter etaLoggerConfig).
#[export] Instance set_lc_enableTimestamp : Setter lc_enableTimestamp := ltac:(mk_setter etaLoggerConfig).
#[export] Instance set_lc_enableModule : Setter lc_enableModule := ltac:(mk_setter etaLoggerConfig).
#[export] Instance set_lc_filePath : Setter lc_filePath := ltac:(mk_setter etaLoggerConfig).

(** The globals of logger.c. *)
Record Logger := mkLogger {
  log_Config : LOGGER_CONFIG;
  log_File : bool;  (* a file is open *)
  log_Initialized : bool
}.
Definition etaLogger r :=
  mkLogger (log_Config r) (log_File r) (log_Initialized r).
#[export] Instance set_log_Config : Setter log_Config := ltac:(mk_setter etaLogger).
#[export] Instance set_log_File : Setter log_File := ltac:(mk_setter etaLogger).
#[export] Instance set_log_Initialized : Setter log_Initialized := ltac:(mk_setter etaLogger).

(** The initial values of the globals. *)
Definition initial_logger : Logger := mkLogger (mkLoggerConfig LOG_LEVEL_INFO true false true true true []) false false.

(** [opens]: CreateFileW opens the log file. *)
Definition LoggerInit (opens : bool) (pConfig : option LOGGER_CONFIG) : M Logger bool :=
  l ← get;
  if log_Initialized l then mret true
  else
    match pConfig with Some c => modify (fun l => l <| log_Config := c |>) | None => mret tt end;;
    l ← get;
    (if lc_enableFile (log_Config l) && negb (bool_decide (lc_filePath (log_Config l) = [])) then
       if opens then modify (fun l => l <| log_File := true |>)
       else modify (fun l => l <| log_Config ::= fun c => c <| lc_enableFile := false |> |>)
     else mret tt);;
    modify (fun l => l <| log_Initialized := true |>);;
    mret true.

Definition LoggerShutdown : M Logger unit :=
  l ← get;
  if negb (log_Initialized l) then mret tt
  else modify (fun l => l <| log_File := false |> <| log_Initialized := false |>).

Definition LoggerSetLevel (level : Z) : M Logger unit := modify (fun l => l <| log_Config ::= fun c => c <| lc_level := level |> |>).
Definition LoggerGetLevel (l : Logger) : Z := lc_level (log_Config l).

(** ** The process *)

Definition CTRL_C_EVENT : Z := 0.
Definition CTRL_BREAK_EVENT : Z := 1.
Definition CTRL_CLOSE_EVENT : Z := 2.
Definition heartbeatInterval : Z := 1000.

Section Service.
Context {D : ControlDevice} {F : Win32Files} {T : TextFiles}.

(** The globals; [None] is NULL. *)
Record Service := mkService {
  ms_link : LinkState;  (* the driver and g_DriverCtx *)
  ms_Running : bool;
  ms_DebugMode : bool;
  ms_Config : SERVER_CONFIG;
  ms_Backend : option BACKEND_CONTEXT;
  ms_CmdEngine : option CMD_ENGINE_CONTEXT;
  ms_Logger : Logger
}.
Definition etaService r :=
  mkService (ms_link r) (ms_Running r) (ms_DebugMode r) (ms_Config r) (ms_Backend r) (ms_CmdEngine r)
    (ms_Logger r).
#[export] Instance set_ms_link : Setter ms_link := ltac:(mk_setter etaService).
#[export] Instance set_ms_Running : Setter ms_Running := ltac:(mk_setter etaService).
#[export] Instance set_ms_DebugMode : Setter ms_DebugMode := ltac:(mk_setter etaService).
#[export] Instance set_ms_Config : Setter ms_Config := ltac:(mk_setter etaService).
#[export] Instance set_ms_Backend : Setter ms_Backend := ltac:(mk_setter etaService).
#[export] Instance set_ms_CmdEngine : Setter ms_CmdEngine := ltac:(mk_setter etaService).
#[export] Instance set_ms_Logger : Setter ms_Logger := ltac:(mk_setter etaService).

(** One round of what happens outside. *)
Record Round := mkRound {
  rd_system : Driver -> Driver;  (* what the driver and the host do *)
  rd_console : option Z;  (* a call of the console handler *)
  rd_tick : Z;  (* GetTickCount *)
  rd_wait : Z  (* the result of WaitForSingleObject *)
}.

(** ** Parts of the process *)

Definition on_link {A} (f : M LinkState A) : M Service A := fun s =>
  match f (ms_link s) with
  | Ok (a, l) => Ok (a, s <| ms_link := l |>)
  | Fault => Fault
  | OutOfFuel => OutOfFuel
  end.

Definition on_logger {A} (f : M Logger A) : M Service A := fun s =>
  match f (ms_Logger s) with
  | Ok (a, l) => Ok (a, s <| ms_Logger := l |>)
  | Fault => Fault
  | OutOfFuel => OutOfFuel
  end.

(** A function of the engine works on the shared memory as it is, and what it
    stores there is seen by the driver.  It needs an engine and a mapping. *)
Definition on_engine {A} (f : M SvState A) : M Service A := fun s =>
  match ms_CmdEngine s, user_shm (lk_driver (ms_link s)) with
  | Some e, Some m =>
      match f (mkSv m e (ms_Backend s)) with
      | Ok (a, v) => Ok (a, s <| ms_CmdEngine := Some (sv_engine v) |> <| ms_Backend := sv_backend v |>
                              <| ms_link ::= fun l => l <| lk_driver ::= set_user_shm (sv_shm v) |> |>)
      | Fault => Fault
      | OutOfFuel => OutOfFuel
      end
  | _, _ => Fault
  end.

Definition ms_update (f : Service -> Service) : M Service unit := modify f.

(** ** main_v2.c *)

Definition ConsoleCtrlHandler (dwCtrlType : Z) : M Service bool :=
  if (dwCtrlType =? CTRL_C_EVENT) || (dwCtrlType =? CTRL_BREAK_EVENT) || (dwCtrlType =? CTRL_CLOSE_EVENT) then
    ms_update (fun s => s <| ms_Running := false |>);; mret true
  else mret false.

(** What happens before the next test of [g_Running]. *)
Definition outside (r : Round) : M Service unit :=
  ms_update (fun s => s <| ms_link ::= fun l => l <| lk_driver ::= rd_system r |> |>);;
  match rd_console r with Some t => ConsoleCtrlHandler t;; mret tt | None => mret tt end.

(** The body of the loop; [None] is its [break]. *)
Definition main_loop_body (polls fuel : nat) (r : Round) (lastHeartbeat totalCommands : Z) : M Service (option (Z * Z)) :=
  shutdown ← on_link DriverIsShutdownRequested;
  if (shutdown : bool) then ms_update (fun s => s <| ms_Running := false |>);; mret None
  else
    processed ← on_engine (CmdEnginePoll polls fuel);
    let totalCommands := totalCommands +₆₄ processed in
    let now := rd_tick r in
    lastHeartbeat ← (if heartbeatInterval <=? now -₃₂ lastHeartbeat then on_link DriverSendHeartbeat;; mret now else mret lastHeartbeat);
    (if processed =? 0 then on_link (DriverWaitForCommand (rd_wait r));; mret tt else mret tt);;
    mret (Some (lastHeartbeat, totalCommands)).

(** The loop; the result is [totalCommands]. *)
Fixpoint main_loop (polls fuel : nat) (rounds : list Round) (lastHeartbeat totalCommands : Z) : M Service Z :=
  match rounds with
  | [] => out_of_fuel
  | r :: rounds =>
      outside r;;
      s ← get;
      if negb (ms_Running s) then mret totalCommands
      else
        next ← main_loop_body polls fuel r lastHeartbeat totalCommands;
        match next with
        | None => mret totalCommands
        | Some (lastHeartbeat, totalCommands) => main_loop polls fuel rounds lastHeartbeat totalCommands
        end
  end.

Definition flush_backend : M Service unit :=
  s ← get;
  match ms_Backend s with
  | None => mret tt
  | Some b => r ← of_res (BackendFlush b); ms_update (fun s => s <| ms_Backend := Some r.2 |>)
  end.

(** [tick] is GetTickCount at the start. *)
Definition MainLoop (polls fuel : nat) (tick : Z) (rounds : list Round) : M Service Z :=
  on_link DriverGetCommandEvent;;
  totalCommands ← main_loop polls fuel rounds tick 0;
  flush_backend;;
  mret totalCommands.

(** The labels at the end of main. *)
Definition cleanup_log (result : Z) : M Service Z := on_logger LoggerShutdown;; mret result.
Definition cleanup_driver (result : Z) : M Service Z := on_link DriverDisconnect;; cleanup_log result.
Definition cleanup_backend (result : Z) : M Service Z := ms_update (fun s => s <| ms_Backend := None |>);; cleanup_driver result.
Definition cleanup_cmdengine (result : Z) : M Service Z := ms_update (fun s => s <| ms_CmdEngine := None |>);; cleanup_backend result.

(** wcscpy_s between arrays of MAX_PATH; without a final zero the process ends. *)
Definition wcscpy_s (src : list Z) : option (list Z) := if existsb (fun c => c =? 0) src then Some (c_str src) else None.

(** What the calls of main find: the arguments, whether the log file opens and
    the allocations succeed, the clock, and the rounds of the main loop. *)
Record Outside := mkOutside {
  os_args : list (list Z);
  os_log_opens : bool;
  os_calloc : bool;
  os_VirtualAlloc : bool;
  os_malloc : bool;
  os_tick : Z;
  os_rounds : list Round
}.

(** After the arguments are parsed: the initialisation of the log, the connection
    and the mapping; then [k]. *)
Definition start_driver (o : Outside) (k : M Service Z) : M Service Z :=
  s ← get;
  let log := sv_log (ms_Config s) in
  path ← of_opt (wcscpy_s (lg_filePath log));
  ok ← on_logger (LoggerInit (os_log_opens o) (Some (mkLoggerConfig (lg_level log) (lg_enableConsole log) (lg_enableFile log) false true false path)));
  if negb ok then mret 1
  else
    ms_update (fun s => s <| ms_DebugMode := LOG_LEVEL_DEBUG <=? lg_level log |>);;
    connected ← on_link DriverConnect;
    if negb connected then cleanup_log 1
    else
      mapped ← on_link DriverMapShm;
      if negb mapped then cleanup_driver 1 else k.

(** The back end and the engine; then [k]. *)
Definition start_engine (o : Outside) (k : M Service Z) : M Service Z :=
  s ← get;
  let storage := sv_storage (ms_Config s) in
  path ← of_opt (wcscpy_s (st_filePath storage));
  match BackendCreate (os_calloc o) (os_VirtualAlloc o)
          (mkBackendConfig (st_backendType storage) (st_size storage) path (st_readOnly storage) (st_blockSize storage)
             (st_directIO storage) (st_preallocate storage)) with
  | None => cleanup_driver 1
  | Some b =>
      ms_update (fun s => s <| ms_Backend := Some b |>);;
      match CmdEngineCreate (os_malloc o) with
      | None => cleanup_backend 1
      | Some e =>
          ms_update (fun s => s <| ms_CmdEngine := Some e |>);;
          s ← get;
          ok ← on_engine (CmdEngineInitSimple (ms_DebugMode s));
          if negb ok then cleanup_cmdengine 1
          else on_engine (CmdEngineSetDebugMode (ms_DebugMode s));; k
      end
  end.

(** The result of main, or of exit. *)
Definition main (polls fuel : nat) (o : Outside) : M Service Z :=
  ms_update (fun s => s <| ms_Config ::= ConfigSetDefaults |>);;
  s ← get;
  outcome ← of_res (ConfigParseArgs (os_args o) (ms_Config s));
  match outcome with
  | Exited code => mret code
  | Parsed false c => ms_update (fun s => s <| ms_Config := c |>);; mret 1
  | Parsed true c =>
      ms_update (fun s => s <| ms_Config := c |>);;
      start_driver o (start_engine o (
        ready ← on_link DriverSendUserReady;
        if negb ready then cleanup_backend 1
        else MainLoop polls fuel (os_tick o) (os_rounds o);; cleanup_cmdengine 0))
  end.

(** The process as it starts. *)
Definition initial_service (d : Driver) : Service :=
  mkService (mkLink d zero_driver_comm) true false zero_config None None initial_logger.

(** ** The main loop ends when it is told to *)

Context {FL : Win32FileLaws F} {DL : ControlDeviceLaws D}.

(** What the rounds can rely on: an engine, a mapping and a usable back end. *)
Record alive (P : SvState -> Prop) (s : Service) : Prop := {
  av_state : exists e m, ms_CmdEngine s = Some e /\ user_shm (lk_driver (ms_link s)) = Some m /\ P (mkSv m e (ms_Backend s));
  av_mapped : sc_controlBlock (dc_shm (lk_ctx (ms_link s))) <> 0;
  av_backend b : ms_Backend s = Some b -> backend_ok b
}.
Definition idle (polls fuel : nat) (v : SvState) : Prop := serviceable polls fuel v /\ ring_contents (shm_ring (sv_shm v)) = [].

(** A round in which the driver and the host do not break what the service relies
    on: with an idle engine, the mapping stays, with notifications the engine can follow. *)
Definition keeps_service (polls fuel : nat) (r : Round) : Prop := forall d m e b,
  user_shm d = Some m -> idle polls fuel (mkSv m e b) ->
  exists m', user_shm (rd_system r d) = Some m' /\ serviceable polls fuel (mkSv m' e b).

(** A round that asks the service to stop: Ctrl+C, or ShutdownRequested in the control block. *)
Definition stops (r : Round) : Prop :=
  rd_console r = Some CTRL_C_EVENT \/ (forall d m, user_shm (rd_system r d) = Some m -> cb_ShutdownRequested (shm_cb m) <> 0).

Lemma on_link_Ok {A} (f : M LinkState A) s a l : f (ms_link s) = Ok (a, l) -> on_link f s = Ok (a, s <| ms_link := l |>).
Proof. unfold on_link. by intros ->. Qed.

(** A request of the service leaves the driver's part of the shared memory and the mapping alone. *)
Definition same_mapping (l l' : LinkState) : Prop :=
  user_shm (lk_driver l') = user_shm (lk_driver l) /\ dc_shm (lk_ctx l') = dc_shm (lk_ctx l).

Lemma same_mapping_trans l1 l2 l3 : same_mapping l1 l2 -> same_mapping l2 l3 -> same_mapping l1 l3.
Proof. intros [E1 E2] [E3 E4]. split; congruence. Qed.

Lemma device_io_control_run code out outmem l : (code, out) = (IOCTL_VNVME_HEARTBEAT, 0) \/
    (code, out) = (IOCTL_VNVME_GET_COMMAND_EVENT, sizeof_VNVME_GET_COMMAND_EVENT_OUTPUT) ->
  exists r d, device_io_control code mem_zero 0 outmem out l = Ok (r, l <| lk_driver := d |>) /\ same_mapping l (l <| lk_driver := d |>).
Proof.
  intros Hc. destruct (request_shm (lk_driver l) (dc_deviceHandle (lk_ctx l)) code out Hc) as ([[ok n] data] & d & E & Hd).
  unfold device_io_control. rewrite bind_get. exists (ok, mem_copy outmem 0 data 0 n), d.
  split; [|by split]. by rewrite (bind_Ok _ _ _ ((ok, n, data, d)) l) by (unfold of_res; by rewrite E).
Qed.

Lemma DriverSendHeartbeat_run l : exists b l', DriverSendHeartbeat l = Ok (b, l') /\ same_mapping l l'.
Proof.
  unfold DriverSendHeartbeat. rewrite bind_get. destruct (_ =? _); [by exists false, l|].
  destruct (device_io_control_run IOCTL_VNVME_HEARTBEAT 0 mem_zero l) as (r & d & E & Hd); [by left|].
  rewrite (bind_Ok _ _ _ _ _ E). eauto.
Qed.

Lemma DriverGetCommandEvent_run l : exists b l', DriverGetCommandEvent l = Ok (b, l') /\ same_mapping l l'.
Proof.
  unfold DriverGetCommandEvent. rewrite bind_get. destruct (_ =? _); [by exists false, l|]. destruct (negb _); [by exists true, l|].
  destruct (device_io_control_run IOCTL_VNVME_GET_COMMAND_EVENT sizeof_VNVME_GET_COMMAND_EVENT_OUTPUT mem_zero l) as (r & d & E & Hd); [by right|].
  rewrite (bind_Ok _ _ _ _ _ E). unfold ctx_update.
  destruct (negb r.1); [rewrite bind_modify; eexists _, _; split; [done|exact Hd]|].
  destruct (_ =? 0); rewrite ?bind_modify; (eexists _, _; split; [done|exact Hd]).
Qed.

Lemma DriverWaitForCommand_run w l : exists b l', DriverWaitForCommand w l = Ok (b, l') /\ same_mapping l l'.
Proof.
  unfold DriverWaitForCommand. rewrite bind_get. repeat (destruct (_ || _) || destruct (_ =? _)); try (by eexists _, l).
  unfold ctx_update. rewrite bind_modify. by eexists _, _.
Qed.

(** A call of driver_comm.c in the main loop. *)
Lemma alive_link {A} P (f : M LinkState A) s :
  (forall l, exists a l', f l = Ok (a, l') /\ same_mapping l l') -> alive P s ->
  exists a s', on_link f s = Ok (a, s') /\ alive P s' /\ ms_Running s' = ms_Running s /\ ms_Backend s' = ms_Backend s.
Proof.
  intros Hf [(e & m & He & Hm & HP) Hcb Hb]. destruct (Hf (ms_link s)) as (a & l & E & E1 & E2).
  exists a, (s <| ms_link := l |>). split; [by apply on_link_Ok|]. split; [|done]. split; [|cbn; congruence|done].
  exists e, m. cbn. split; [done|]. split; [congruence|done].
Qed.

Lemma outside_run polls fuel r s : keeps_service polls fuel r -> alive (idle polls fuel) s ->
  exists s', outside r s = Ok (tt, s') /\ alive (serviceable polls fuel) s' /\
    (stops r -> ms_Running s' = false \/ forall m, user_shm (lk_driver (ms_link s')) = Some m -> cb_ShutdownRequested (shm_cb m) <> 0).
Proof.
  intros Hr [(e & m & He & Hm & HP) Hcb Hb]. destruct (Hr _ _ _ _ Hm HP) as (m' & Hm' & HP').
  set (s1 := s <| ms_link ::= fun l => l <| lk_driver ::= rd_system r |> |>).
  assert (forall b, alive (serviceable polls fuel) (s1 <| ms_Running := b |>)) as Ha.
  { intros b. split; [|done|done]. by exists e, m'. }
  unfold outside, ms_update. rewrite bind_modify. fold s1.
  assert (s1 = s1 <| ms_Running := ms_Running s1 |>) as E1 by (by destruct s1).
  assert (forall s', s1 = s' -> (forall d m, user_shm (rd_system r d) = Some m -> cb_ShutdownRequested (shm_cb m) <> 0) ->
    forall m, user_shm (lk_driver (ms_link s')) = Some m -> cb_ShutdownRequested (shm_cb m) <> 0) as Hs by (intros ? <- Hx mm; apply Hx).
  unfold stops. destruct (rd_console r) as [t|].
  - unfold ConsoleCtrlHandler. destruct (Z.eqb_spec t CTRL_C_EVENT) as [->|Hne]; cbn [orb].
    { unfold ms_update. exists (s1 <| ms_Running := false |>). split; [done|]. split; [done|]. by left. }
    destruct (_ || _).
    + exists (s1 <| ms_Running := false |>). split; [done|]. split; [done|]. by left.
    + exists s1. split; [done|]. split; [rewrite E1; apply Ha|]. intros [[= ->]|Hx]; [done|]. right. by apply (Hs s1).
  - exists s1. split; [done|]. split; [rewrite E1; apply Ha|]. intros [?|Hx]; [done|]. right. by apply (Hs s1).
Qed.

Lemma poll_alive polls fuel s : alive (serviceable polls fuel) s ->
  exists n s', on_engine (CmdEnginePoll polls fuel) s = Ok (n, s') /\ alive (idle polls fuel) s' /\ ms_Running s' = ms_Running s /\ ms_Backend s' = ms_Backend s.
Proof.
  intros [(e & m & He & Hm & HP) Hcb Hb].
  destruct (CmdEnginePoll_run polls fuel _ HP) as (v1 & v & Hrun & HD & Hv & _ & Ebe & _ & Er & _).
  destruct (se_io _ _ _ _ HD) as (_ & Fbe & _).
  assert (sv_backend v = ms_Backend s) as Eb by (rewrite Ebe, Fbe; done). clear Ebe Fbe HD.
  eexists _, _. split; [unfold on_engine; rewrite He, Hm, Hrun; reflexivity|]. split; [|done]. split; [|done|cbn; rewrite Eb; done].
  exists (sv_engine v), (sv_shm v). cbn. split; [done|]. split; [by eapply shm_store_load|]. split; [|done]. by destruct v.
Qed.

Lemma main_loop_body_run polls fuel r last total s : alive (serviceable polls fuel) s -> ms_Running s = true ->
  exists next s', main_loop_body polls fuel r last total s = Ok (next, s') /\ alive (fun v => is_Some next -> idle polls fuel v) s' /\
    ms_Backend s' = ms_Backend s /\ ms_Running s' = bool_decide (is_Some next) /\
    ((forall m, user_shm (lk_driver (ms_link s)) = Some m -> cb_ShutdownRequested (shm_cb m) <> 0) -> next = None).
Proof.
  intros Ha Hrun. pose proof Ha as [(e & m & He & Hm & HP) Hcb Hb]. unfold main_loop_body.
  assert (DriverIsShutdownRequested (ms_link s) = Ok (negb (cb_ShutdownRequested (shm_cb m) =? 0), ms_link s)) as E.
  { assert (control_block (ms_link s) = Ok (shm_cb m, ms_link s)) as E.
    { unfold control_block. by rewrite bind_get, (proj2 (Z.eqb_neq _ _) Hcb), (bind_opt _ _ _ _ Hm). }
    unfold DriverIsShutdownRequested. by rewrite bind_get, (proj2 (Z.eqb_neq _ _) Hcb), (bind_Ok _ _ _ _ _ E). }
  rewrite (bind_Ok _ _ _ _ _ (on_link_Ok _ _ _ _ E)). replace (s <| ms_link := ms_link s |>) with s by (by destruct s).
  destruct (Z.eqb_spec (cb_ShutdownRequested (shm_cb m)) 0) as [E0|E0]; cbn [negb].
  - destruct (poll_alive polls fuel s Ha) as (n & s1 & Hpoll & Ha1 & R1 & B1). rewrite (bind_Ok _ _ _ _ _ Hpoll).
    assert (exists b s2, (if heartbeatInterval <=? rd_tick r -₃₂ last then on_link DriverSendHeartbeat;; mret (rd_tick r) else mret last) s1 =
      Ok (b, s2) /\ alive (idle polls fuel) s2 /\ ms_Running s2 = ms_Running s1 /\ ms_Backend s2 = ms_Backend s1) as (last' & s2 & E2 & Ha2 & R2 & B2).
    { destruct (_ <=? _); [|by eexists _, s1].
      destruct (alive_link (idle polls fuel) DriverSendHeartbeat s1 DriverSendHeartbeat_run Ha1) as (b & s2 & E2 & ?).
      eexists _, s2. split; [by rewrite (bind_Ok _ _ _ _ _ E2)|done]. }
    assert (exists s3, (if n =? 0 then on_link (DriverWaitForCommand (rd_wait r));; mret tt else mret tt) s2 = Ok (tt, s3) /\
      alive (idle polls fuel) s3 /\ ms_Running s3 = ms_Running s2 /\ ms_Backend s3 = ms_Backend s2) as (s3 & E3 & Ha3 & R3 & B3).
    { destruct (_ =? _); [|by exists s2].
      destruct (alive_link (idle polls fuel) (DriverWaitForCommand (rd_wait r)) s2 (DriverWaitForCommand_run _) Ha2) as (b & s3 & E3 & ?).
      exists s3. split; [by rewrite (bind_Ok _ _ _ _ _ E3)|done]. }
    cbv zeta. rewrite (bind_Ok _ _ _ _ _ E2), (bind_Ok _ _ _ _ _ E3). eexists _, s3. split; [done|].
    split; [|split; [congruence|split; [rewrite bool_decide_eq_true_2 by done; congruence|intros Hx; by destruct (Hx m Hm)]]].
    destruct Ha3 as [(e3 & m3 & ? & ? & ?) ? ?]. split; [|done|done]. by exists e3, m3.
  - unfold ms_update. rewrite bind_modify. eexists None, _. split; [done|]. split; [|done]. split; [|done|done].
    exists e, m. cbn. split; [done|]. split; [done|]. by intros [? ?].
Qed.

(** The loop comes back from the round that stops it, if not before. *)
Lemma main_loop_run polls fuel l : forall r rest last total s, Forall (keeps_service polls fuel) (l ++ [r]) -> stops r ->
  alive (idle polls fuel) s -> ms_Running s = true ->
  exists n s', main_loop polls fuel (l ++ r :: rest) last total s = Ok (n, s') /\ ms_Running s' = false /\
    ms_Backend s' = ms_Backend s /\ alive (fun _ => True) s'.
Proof.
  assert (forall r rounds last total s, keeps_service polls fuel r -> alive (idle polls fuel) s ->
    exists s', (stops r -> ms_Running s' = false \/ forall m, user_shm (lk_driver (ms_link s')) = Some m -> cb_ShutdownRequested (shm_cb m) <> 0) /\
      alive (serviceable polls fuel) s' /\ ms_Backend s' = ms_Backend s /\
      main_loop polls fuel (r :: rounds) last total s =
        (if negb (ms_Running s') then mret total
         else next ← main_loop_body polls fuel r last total;
              match next with None => mret total | Some (last, total) => main_loop polls fuel rounds last total end) s') as Hone.
  { intros r rounds last total s Hk Ha. destruct (outside_run polls fuel r s Hk Ha) as (s1 & E1 & Ha1 & Hst).
    exists s1. split; [done|]. split; [done|]. split.
    - revert E1. unfold outside, ConsoleCtrlHandler, ms_update. rewrite bind_modify. destruct (rd_console r); [destruct (_ || _)|]; by intros [= <-].
    - cbn [main_loop]. by rewrite (bind_Ok _ _ _ _ _ E1), bind_get. }
  assert (forall P s, alive P s -> alive (fun _ => True) s) as Hweak.
  { intros P s [(e & m & ? & ? & ?) ? ?]. split; [by exists e, m|done|done]. }
  induction l as [|r0 l IH]; intros r rest last total s Hl Hst Ha Hrun; cbn [app] in *; apply Forall_cons in Hl as [Hk Hl].
  - destruct (Hone r rest last total s Hk Ha) as (s1 & Hs1 & Ha1 & B1 & ->). destruct (ms_Running s1) eqn:R1; cbn [negb]; [|by eexists _, s1; eauto].
    destruct (main_loop_body_run polls fuel r last total s1 Ha1 R1) as (next & s2 & E2 & Ha2 & B2 & R2 & Hnone).
    destruct (Hs1 Hst) as [?|Hs]; [congruence|]. rewrite (Hnone Hs) in *. rewrite (bind_Ok _ _ _ _ _ E2).
    eexists _, s2. split; [done|]. split; [by rewrite R2|]. split; [congruence|by eapply Hweak].
  - destruct (Hone r0 (l ++ r :: rest) last total s Hk Ha) as (s1 & _ & Ha1 & B1 & ->). destruct (ms_Running s1) eqn:R1; cbn [negb]; [|by eexists _, s1; eauto].
    destruct (main_loop_body_run polls fuel r0 last total s1 Ha1 R1) as (next & s2 & E2 & Ha2 & B2 & R2 & _).
    rewrite (bind_Ok _ _ _ _ _ E2). destruct next as [[last' total']|].
    + destruct (IH r rest last' total' s2) as (n & s3 & E3 & R3 & B3 & Ha3); [done|done| |by rewrite R2|].
      { destruct Ha2 as [(e & m & ? & ? & HP) ? ?]. split; [|done|done]. exists e, m. split_and!; [done..|]. by apply HP. }
      exists n, s3. split; [done|]. split; [done|]. split; [congruence|done].
    + eexists _, s2. split; [done|]. split; [by rewrite R2|]. split; [congruence|by eapply Hweak].
Qed.

(** C14: the service stops when it is told to. Whatever rounds come before - polls
    with or without commands, heartbeats, waits that are signalled, time out or
    fail, Ctrl+C or the driver's request at any time - as long as the driver keeps
    the mapping and sends notifications the engine can follow, the main loop is
    over by the round in which the driver sets ShutdownRequested or the console
    handler runs; [g_Running] is then false, and the back end, which is the one
    the service had, has been flushed. *)
Theorem MainLoop_stops (polls fuel : nat) (tick : Z) (l : list Round) (r : Round) (rest : list Round) (s : Service) :
  alive (idle polls fuel) s -> ms_Running s = true -> Forall (keeps_service polls fuel) (l ++ [r]) -> stops r ->
  exists n s', MainLoop polls fuel tick (l ++ r :: rest) s = Ok (n, s') /\ ms_Running s' = false /\
    match ms_Backend s with
    | Some b => exists ok b', BackendFlush b = Ok (ok, b') /\ ms_Backend s' = Some b' /\ backend_same b b'
    | None => ms_Backend s' = None
    end.
Proof.
  intros Ha Hrun Hl Hst. unfold MainLoop.
  destruct (alive_link (idle polls fuel) DriverGetCommandEvent s DriverGetCommandEvent_run Ha) as (b & s1 & E1 & Ha1 & R1 & B1).
  rewrite (bind_Ok _ _ _ _ _ E1).
  destruct (main_loop_run polls fuel l r rest tick 0 s1 Hl Hst Ha1) as (n & s2 & E2 & R2 & B2 & [_ _ Hb]); [congruence|].
  rewrite (bind_Ok _ _ _ _ _ E2). rewrite B1 in B2. destruct (ms_Backend s) as [be|].
  - destruct (BackendFlush_spec be (Hb be B2)) as (ok & be' & Ef & Hsame & _).
    exists n, (s2 <| ms_Backend := Some be' |>). split; [|split; [done|by exists ok, be']].
    unfold flush_backend, mbind, M_bind, get. rewrite B2. unfold of_res. by rewrite Ef.
  - exists n, s2. split; [|done]. unfold flush_backend, mbind, M_bind, get. by rewrite B2.
Qed.
End Service.

#[export] Hint Unfold set_lc_level set_lc_enableConsole set_lc_enableFile set_lc_enableColor set_lc_enableTimestamp
  set_lc_enableModule set_lc_filePath set_log_Config set_log_File set_log_Initialized set_ms_link set_ms_Running
  set_ms_DebugMode set_ms_Config set_ms_Backend set_ms_CmdEngine set_ms_Logger : setters.
