(* ===== verification/Logger.v ===== *)
(** The messages of the user-mode service: the part of [vnvme-server/logger.c]
    that formats and prints.  Its globals are [Service.Logger].

    A C string is the list of its characters, a character array the list of
    its contents; what an array holds before it is written is an argument.
    A message is given as its formatted text.  [snprintf] writes into an array
    at a position and fails when it would leave the array; the console keeps
    each text with the attribute it is printed in, the log file its bytes.  The
    lock is left out, as everywhere.  What the Windows calls return is a field
    of [LogEnv], indexed by the number of the message. *)
From S2P Require Import Prelude CLib ServerConfig Service.
Open Scope Z_scope.
Open Scope c_scope.

(** ** Formatting *)

(** A digit of [%x], and [%x] of a number of up to 64 bits. *)
Definition hex_char (v : Z) : Z := if v <? 10 then 48 + v else 87 + v.
Fixpoint hex_go (n : nat) (z : Z) (acc : list Z) : list Z :=
  match n with
  | O => acc
  | S n => if z <? 16 then hex_char (z mod 16) :: acc else hex_go n (z / 16) (hex_char (z mod 16) :: acc)
  end.
Definition hexnum (z : Z) : list Z := hex_go 16 z [].

(** A minimal width: with [c] in front, with spaces behind. *)
Definition pad_left (w : nat) (c : Z) (s : list Z) : list Z := replicate (w - length s) c ++ s.
Definition pad_right (w : nat) (s : list Z) : list Z := s ++ replicate (w - length s) 32.

(** The string that [snprintf] leaves in a whole array of [size] characters. *)
Definition snprintf_str (size : nat) (text : list Z) : list Z := take (size - 1) text.

(** [snprintf(buf + pos, size, ...)]: the array afterwards, and the length of the whole text. *)
Definition snprintf (buf : list Z) (pos size : Z) (text : list Z) : option (list Z * Z) :=
  if size =? 0 then Some (buf, Z.of_nat (length text))
  else
    let n := Z.to_nat (Z.min (Z.of_nat (length text)) (size - 1)) in
    if (0 <=? pos) && (pos + Z.of_nat n <? Z.of_nat (length buf)) then
      Some (take (Z.to_nat pos) buf ++ take n text ++ 0 :: drop (Z.to_nat pos + n + 1) buf, Z.of_nat (length text))
    else None.

(** ** The output *)

Record SYSTEMTIME := mkSYSTEMTIME {
  wYear : Z; wMonth : Z; wDay : Z; wHour : Z; wMinute : Z; wSecond : Z; wMilliseconds : Z
}.

(** What the calls of the [n]-th message find. *)
Record LogEnv := mkLogEnv {
  le_time : nat -> SYSTEMTIME;         (* GetLocalTime *)
  le_console : nat -> bool;            (* GetStdHandle returns a handle *)
  le_console_info : nat -> bool;       (* GetConsoleScreenBufferInfo succeeds *)
  le_set_attribute : nat -> bool;      (* SetConsoleTextAttribute succeeds *)
  le_written : nat -> nat;             (* the bytes WriteFile may write *)
  le_flushed : nat -> bool             (* FlushFileBuffers succeeds *)
}.

(** The logger with the console and the file it writes to. *)
Record LogWorld := mkLogWorld {
  lw_logger : Logger;
  lw_attrs : Z;                        (* the attributes of the console *)
  lw_console : list (Z * list Z);      (* the texts printed, with their attributes *)
  lw_file : list Z;                    (* the contents of the file *)
  lw_flushed : list Z;                 (* the contents that are on the disk *)
  lw_count : nat                       (* the messages printed *)
}.
Definition etaLogWorld r :=
  mkLogWorld (lw_logger r) (lw_attrs r) (lw_console r) (lw_file r) (lw_flushed r) (lw_count r).
#[export] Instance set_lw_logger : Setter lw_logger := ltac:(mk_setter etaLogWorld).
#[export] Instance set_lw_attrs : Setter lw_attrs := ltac:(mk_setter etaLogWorld).
#[export] Instance set_lw_console : Setter lw_console := ltac:(mk_setter etaLogWorld).
#[export] Instance set_lw_file : Setter lw_file := ltac:(mk_setter etaLogWorld).
#[export] Instance set_lw_flushed : Setter lw_flushed := ltac:(mk_setter etaLogWorld).
#[export] Instance set_lw_count : Setter lw_count := ltac:(mk_setter etaLogWorld).
#[export] Hint Unfold set_lw_logger set_lw_attrs set_lw_console set_lw_file set_lw_flushed set_lw_count : setters.

Definition COLOR_RESET : Z := 7.
Definition COLOR_ERROR : Z := 12.
Definition COLOR_WARNING : Z := 14.
Definition COLOR_INFO : Z := 10.
Definition COLOR_DEBUG : Z := 11.
Definition COLOR_VERBOSE : Z := 8.

Definition GetLevelString (level : Z) : list Z :=
  if level =? LOG_LEVEL_ERROR then chars "ERROR"
  else if level =? LOG_LEVEL_WARNING then chars "WARN "
  else if level =? LOG_LEVEL_INFO then chars "INFO "
  else if level =? LOG_LEVEL_DEBUG then chars "DEBUG"
  else if level =? LOG_LEVEL_VERBOSE then chars "VERB "
  else chars "?????".

Definition GetLevelColor (level : Z) : Z :=
  if level =? LOG_LEVEL_ERROR then COLOR_ERROR
  else if level =? LOG_LEVEL_WARNING then COLOR_WARNING
  else if level =? LOG_LEVEL_INFO then COLOR_INFO
  else if level =? LOG_LEVEL_DEBUG then COLOR_DEBUG
  else if level =? LOG_LEVEL_VERBOSE then COLOR_VERBOSE
  else COLOR_RESET.

(** [%0<w>d] of a field of the time, which is not negative. *)
Definition padded (w : nat) (v : Z) : list Z := pad_left w 48 (numeral v).

(** The text GetTimestamp formats, and what is left of it in an array of [size] characters. *)
Definition timestamp_text (st : SYSTEMTIME) : list Z :=
  padded 4 (wYear st) ++ chars "-" ++ padded 2 (wMonth st) ++ chars "-" ++ padded 2 (wDay st) ++ chars " " ++
  padded 2 (wHour st) ++ chars ":" ++ padded 2 (wMinute st) ++ chars ":" ++ padded 2 (wSecond st) ++ chars "." ++
  padded 3 (wMilliseconds st).
Definition GetTimestamp (st : SYSTEMTIME) (size : nat) : list Z := snprintf_str size (timestamp_text st).

(** The text of a line, before it is cut to the array. *)
Definition line_text (config : LOGGER_CONFIG) (timestamp : list Z) (level : Z) (module : option (list Z)) (message : list Z) : list Z :=
  match lc_enableModule config, module with
  | true, Some m =>
      timestamp ++ chars " [" ++ GetLevelString level ++ chars "] [" ++ pad_right 8 m ++ chars "] " ++ message ++ [10]
  | _, _ => timestamp ++ chars " [" ++ GetLevelString level ++ chars "] " ++ message ++ [10]
  end.
Definition final_line (config : LOGGER_CONFIG) (st : SYSTEMTIME) (level : Z) (module : option (list Z)) (text : list Z) : list Z :=
  let message := snprintf_str 4096 text in
  let timestamp := if lc_enableTimestamp config then GetTimestamp st 32 else [] in
  snprintf_str 4200 (line_text config timestamp level module message).

Definition lw_print (text : list Z) : M LogWorld unit := modify (fun w => w <| lw_console ::= fun c => c ++ [(lw_attrs w, text)] |>).

Section Messages.
Context (env : LogEnv).

Definition SetConsoleTextAttribute (attrs : Z) : M LogWorld unit :=
  modify (fun w => if le_set_attribute env (lw_count w) then w <| lw_attrs := attrs |> else w).

(** Lines 191-209. *)
Definition log_to_console (level : Z) (finalLine : list Z) : M LogWorld unit :=
  w ← get;
  if lc_enableColor (log_Config (lw_logger w)) && le_console env (lw_count w) then
    let originalAttrs := if le_console_info env (lw_count w) then lw_attrs w else COLOR_RESET in
    SetConsoleTextAttribute (GetLevelColor level);;
    lw_print finalLine;;
    SetConsoleTextAttribute originalAttrs
  else lw_print finalLine.

(** Lines 211-216. *)
Definition log_to_file (finalLine : list Z) : M LogWorld unit :=
  modify (fun w => w <| lw_file ::= fun f => f ++ take (le_written env (lw_count w)) finalLine |>);;
  modify (fun w => if le_flushed env (lw_count w) then w <| lw_flushed := lw_file w |> else w).

(** [text] is what the format and its arguments give. *)
Definition LogMessage (level : Z) (module : option (list Z)) (text : list Z) : M LogWorld unit :=
  w ← get;
  if negb (log_Initialized (lw_logger w)) then lw_print text;; lw_print [10]
  else
    let config := log_Config (lw_logger w) in
    if lc_level config <? level then mret tt
    else
      let finalLine := final_line config (le_time env (lw_count w)) level module text in
      (if lc_enableConsole config then log_to_console level finalLine else mret tt);;
      (if lc_enableFile config && log_File (lw_logger w) then log_to_file finalLine else mret tt);;
      modify (fun w => w <| lw_count ::= S |>).

(** The loop over the path: what stands behind its last separator. *)
Fixpoint file_name (filename p : list Z) : list Z :=
  match p with
  | [] => filename
  | c :: p => file_name (if (c =? 92) || (c =? 47) then p else filename) p
  end.

(** [extendedFormat] is formatted and not used. *)
Definition LogMessageEx (level : Z) (module : option (list Z)) (file : list Z) (line : Z) (text : list Z) : M LogWorld unit :=
  w ← get;
  if negb (log_Initialized (lw_logger w)) || (lc_level (log_Config (lw_logger w)) <? level) then mret tt
  else
    let filename := file_name file file in
    let message := snprintf_str 4096 text in
    LogMessage level module (chars "[" ++ filename ++ chars ":" ++ numeral line ++ chars "] " ++ message).

(** ** The hexadecimal dump *)

(** [pos += snprintf(line + pos, sizeof(line) - pos, ...)], where [sizeof(line) - pos] is a size_t. *)
Definition put (line : list Z) (pos : Z) (text : list Z) : option (list Z * Z) :=
  '(line, n) ← snprintf line pos (u64 (80 - pos)) text;
  Some (line, pos + n).

Definition printable (b : Z) : Z := if (32 <=? b) && (b <? 127) then b else 46.

(** The columns from [j] on, [n] of them; [line], [pos] and [ascii] as they are left. *)
Fixpoint hex_columns (n : nat) (data : list Z) (size i j : Z) (line : list Z) (pos : Z) (ascii : list Z) : option (list Z * Z * list Z) :=
  match n with
  | O => Some (line, pos, ascii)
  | S n =>
      '(line, pos, ascii) ←
        (if i + j <? size then
           b ← arr_get data (i + j);
           '(line, pos) ← put line pos (pad_left 2 48 (hexnum b) ++ [32]);
           ascii ← arr_set ascii j (printable b);
           Some (line, pos, ascii)
         else
           '(line, pos) ← put line pos (chars "   ");
           ascii ← arr_set ascii j 32;
           Some (line, pos, ascii));
      '(line, pos) ← (if j =? 7 then put line pos (chars " ") else Some (line, pos));
      hex_columns n data size i (j + 1) line pos ascii
  end.

(** One line of the dump: the two arrays as they are left. *)
Definition hex_line (data : list Z) (size i : Z) (line ascii : list Z) : option (list Z * list Z) :=
  '(line, pos) ← put line 0 (chars "  " ++ pad_left 4 48 (hexnum i) ++ chars ": ");
  '(line, pos, ascii) ← hex_columns 16 data size i 0 line pos ascii;
  ascii ← arr_set ascii 16 0;
  '(line, _) ← put line pos (chars " |" ++ c_str ascii ++ chars "|");
  Some (line, ascii).

Fixpoint hex_lines (fuel : nat) (level : Z) (module : option (list Z)) (data : list Z) (size i : Z) (line ascii : list Z) : M LogWorld unit :=
  match fuel with
  | O => out_of_fuel
  | S fuel =>
      if i <? size then
        '(line, ascii) ← of_opt (hex_line data size i line ascii);
        LogMessage level module (c_str line);;
        hex_lines fuel level module data size (i +₆₄ 16) line ascii
      else mret tt
  end.

(** [line] and [ascii] are what the two arrays hold at first. *)
Definition LogHexDump (fuel : nat) (level : Z) (module : option (list Z)) (prefix data : list Z) (size : Z) (line ascii : list Z) : M LogWorld unit :=
  w ← get;
  if negb (log_Initialized (lw_logger w)) || (lc_level (log_Config (lw_logger w)) <? level) then mret tt
  else
    LogMessage level module (prefix ++ chars ": " ++ numeral size ++ chars " bytes");;
    hex_lines fuel level module data size 0 line ascii.

(** Messages one after the other. *)
Definition log_all (level : Z) (module : option (list Z)) (texts : list (list Z)) : M LogWorld unit :=
  foldr (fun text rest => LogMessage level module text;; rest) (mret tt) texts.
End Messages.

(** ** The dump as a text *)

(** What the columns show from column [j] on, [n] of them, when [chunk] is left of the data. *)
Fixpoint hex_area (n : nat) (j : Z) (chunk : list Z) : list Z :=
  match n with
  | O => []
  | S n =>
      match chunk with b :: _ => pad_left 2 48 (hexnum b) ++ [32] | [] => chars "   " end ++
      (if j =? 7 then chars " " else []) ++ hex_area n (j + 1) (tail chunk)
  end.
Definition ascii_area (n : nat) (chunk : list Z) : list Z := (printable <$> take n chunk) ++ replicate (n - length chunk) 32.
Definition dump_line (i : Z) (chunk : list Z) : list Z :=
  chars "  " ++ pad_left 4 48 (hexnum i) ++ chars ": " ++ hex_area 16 0 chunk ++ chars " |" ++ ascii_area 16 chunk ++ chars "|".

(** Reading a line of the dump: the offset, and the bytes of its columns. *)
Fixpoint hex_fields (n : nat) (j : Z) (s : list Z) : list Z :=
  match n, s with
  | S n, a :: b :: _ :: s =>
      match hex_value a, hex_value b with
      | Some x, Some y => x * 16 + y :: hex_fields n (j + 1) (if j =? 7 then tail s else s)
      | _, _ => []
      end
  | _, _ => []
  end.
Definition parse_line (s : list Z) : Z * list Z :=
  let '(i, _, r) := digits 16 0 0 (drop 2 s) in (i, hex_fields 16 0 (drop 2 r)).

(** The part of the data a line shows. *)
Definition chunk_at (data : list Z) (i : Z) : list Z := take 16 (drop (Z.to_nat i) data).

(** ** Numbers in base 16 *)

Lemma hex_value_char v : 0 <= v < 16 -> hex_value (hex_char v) = Some v.
Proof.
  intros Hv. assert (v ∈ seqZ 0 16) as H by (apply elem_of_seqZ; lia). clear Hv. revert v H.
  apply Forall_forall. apply (bool_decide_unpack _). by vm_compute.
Qed.

Lemma hex_char_range v : 0 <= v < 16 -> 0 < hex_char v.
Proof. intros. unfold hex_char. destruct (v <? 10); lia. Qed.

Lemma digits_hex_go n z acc v c r : 0 <= z < 16 ^ Z.of_nat n -> (0 < n)%nat -> exists k,
  digits 16 v c (hex_go n z acc ++ r) = digits 16 (v * 16 ^ k + z) (c + k) (acc ++ r) /\
  Z.of_nat (length (hex_go n z acc)) = k + Z.of_nat (length acc) /\ 0 < k <= Z.of_nat n /\
  (forall m, 0 < m -> z < 16 ^ m -> k <= m) /\
  (Forall (fun x => 0 < x) acc -> Forall (fun x => 0 < x) (hex_go n z acc)).
Proof.
  revert z acc v. induction n as [|n IH]; intros z acc v Hz Hn; [lia|]. cbn [hex_go].
  assert (0 <= z mod 16 < 16) as Hm by (apply Z.mod_pos_bound; lia).
  assert (forall v' c', digits 16 v' c' (hex_char (z mod 16) :: acc ++ r) = digits 16 (v' * 16 + z mod 16) (c' + 1) (acc ++ r)) as Hstep.
  { intros. cbn [digits]. unfold digit_in. rewrite hex_value_char by done. cbn [mbind option_bind].
    by rewrite (proj2 (Z.ltb_lt (z mod 16) 16)) by lia. }
  destruct (Z.ltb_spec z 16).
  - exists 1. cbn [app]. rewrite Hstep, Z.mod_small by lia. split_and!; [do 2 f_equal; lia|cbn [length]; lia|lia|lia|intros; lia|].
    intros. constructor; [|done]. apply hex_char_range. lia.
  - assert (0 <= z / 16 < 16 ^ Z.of_nat n) as Hd.
    { split; [apply Z.div_pos; lia|]. apply Z.div_lt_upper_bound; [lia|]. rewrite Nat2Z.inj_succ, Z.pow_succ_r in Hz by lia. lia. }
    destruct n as [|n]; [cbn in Hz; lia|].
    destruct (IH (z / 16) (hex_char (z mod 16) :: acc) v Hd ltac:(lia)) as (k & E & Hl & Hk & Hmin & Hpos).
    exists (k + 1). rewrite E. cbn [app length] in *. rewrite Hstep. split_and!; [|lia|lia|lia| |].
    + rewrite Z.pow_add_r by lia. rewrite (Z.div_mod z 16) at 3 by lia. f_equal; lia.
    + intros m Hm1 Hm2. destruct (decide (m = 1)) as [->|]; [lia|].
      assert (k <= m - 1); [|lia]. apply Hmin; [lia|]. apply Z.div_lt_upper_bound; [lia|].
      replace m with (Z.succ (m - 1)) in Hm2 by lia. rewrite Z.pow_succ_r in Hm2 by lia. lia.
    + intros Ha. apply Hpos. constructor; [by apply hex_char_range|done].
Qed.

Lemma digits_zeros n c s : digits 16 0 c (replicate n 48 ++ s) = digits 16 0 (c + Z.of_nat n) s.
Proof. revert c. induction n as [|n IH]; intros c; [cbn; f_equal; lia|].
  cbn [replicate app digits]. change (digit_in 16 48) with (Some 0). cbn [Z.mul Z.add]. rewrite IH. f_equal. lia.
Qed.

(** [%04zx]: at least four digits, as many as the number needs, and they are read back. *)
Lemma digits_padded i r : 0 <= i < 2 ^ 64 -> match r with c :: _ => digit_in 16 c = None | [] => True end -> exists k,
  digits 16 0 0 (pad_left 4 48 (hexnum i) ++ r) = (i, k, r) /\
  (4 <= length (pad_left 4 48 (hexnum i)) <= 16)%nat /\
  (forall m, (4 <= m)%nat -> i < 16 ^ Z.of_nat m -> (length (pad_left 4 48 (hexnum i)) <= m)%nat) /\
  Forall (fun x => 0 < x) (pad_left 4 48 (hexnum i)).
Proof.
  intros Hi Hr. unfold pad_left, hexnum. destruct (digits_hex_go 16 i [] 0 (0 + Z.of_nat (4 - length (hex_go 16 i []))) r Hi ltac:(lia)) as (k & E & Hl & Hk & Hmin & Hpos).
  assert (k = Z.of_nat (length (hex_go 16 i []))) as -> by (clear -Hl; cbn [length] in Hl; lia).
  assert (0 < length (hex_go 16 i []) <= 16)%nat as HL by (clear -Hk; lia). clear Hl Hk.
  eexists. rewrite <- app_assoc, digits_zeros, E. cbn [app]. rewrite !length_app, !length_replicate. split_and!; try (clear -HL; lia).
  - destruct r as [|c0 r']; cbn [digits]; [|rewrite Hr]; do 2 f_equal; lia.
  - intros m Hm Him. specialize (Hmin (Z.of_nat m) ltac:(lia) Him). clear -Hm Hmin HL. lia.
  - apply Forall_app. split; [apply Forall_replicate; lia|]. apply Hpos. by constructor.
Qed.

(** [%02x] of a byte: its two digits. *)
Lemma hex_byte b : 0 <= b < 2 ^ 8 -> pad_left 2 48 (hexnum b) = [hex_char (b / 16); hex_char (b mod 16)].
Proof.
  intros Hb. assert (b ∈ seqZ 0 256) as H by (apply elem_of_seqZ; lia). clear Hb. revert b H.
  apply Forall_forall. apply (bool_decide_unpack _). by vm_compute.
Qed.

Lemma hex_fields_area n j chunk r : Forall (fun b => 0 <= b < 2 ^ 8) chunk -> (length chunk <= n)%nat ->
  hex_fields n j (hex_area n j chunk ++ r) = chunk.
Proof.
  revert j chunk. induction n as [|n IH]; intros j chunk Hb Hn; [by destruct chunk; [|cbn in Hn; lia]|].
  destruct chunk as [|b chunk]; [done|]. apply Forall_cons in Hb as [Hb Hbs]. cbn [hex_area tail]. rewrite hex_byte by done.
  cbn [app hex_fields]. rewrite !hex_value_char by (pose proof (Z.mod_pos_bound b 16); pose proof (Z.div_pos b 16); pose proof (Z.div_lt_upper_bound b 16 16); lia).
  f_equal; [pose proof (Z.div_mod b 16); lia|]. replace (if j =? 7 then _ else _) with (hex_area n (j + 1) chunk ++ r) by (by destruct (j =? 7); [rewrite <- app_assoc|]).
  apply IH; [done|cbn in Hn; lia].
Qed.

Lemma length_hex_area n j chunk : Forall (fun b => 0 <= b < 2 ^ 8) chunk -> 0 <= j -> j + Z.of_nat n = 16 ->
  Z.of_nat (length (hex_area n j chunk)) = 3 * Z.of_nat n + (if j <=? 7 then 1 else 0).
Proof.
  revert j chunk. induction n as [|n IH]; intros j chunk Hb Hj Hn; cbn [hex_area].
  { rewrite (proj2 (Z.leb_gt j 7)) by lia. done. }
  assert (Forall (fun b => 0 <= b < 2 ^ 8) (tail chunk)) as Ht by (by destruct Hb).
  rewrite !length_app, !Nat2Z.inj_add, (IH (j + 1)) by (done || lia).
  replace (Z.of_nat (length (match chunk with b :: _ => _ | [] => _ end))) with 3.
  2: { destruct chunk as [|b chunk]; [done|]. apply Forall_cons in Hb as [Hb _]. by rewrite hex_byte. }
  destruct (Z.eqb_spec j 7), (Z.leb_spec j 7), (Z.leb_spec (j + 1) 7); cbn; lia.
Qed.

(** ** The arrays *)

(** An array that holds a string, and the position behind it. *)
Definition holds (line : list Z) (text : list Z) : Prop := exists rest, line = take 79 text ++ 0 :: rest /\ length line = 80%nat.

(** What is appended to a string of at most 79 characters never leaves the array. *)
Lemma put_holds line text rest t : line = text ++ rest -> length line = 80%nat -> (length text <= 79)%nat ->
  exists line', put line (Z.of_nat (length text)) t = Some (line', Z.of_nat (length (text ++ t))) /\ holds line' (text ++ t).
Proof.
  intros -> Hlen Ht. unfold put, snprintf. rewrite length_app in Hlen. rewrite u64_small by lia.
  rewrite (proj2 (Z.eqb_neq _ 0)) by lia. set (n := Z.to_nat (Z.min (Z.of_nat (length t)) (80 - Z.of_nat (length text) - 1))).
  assert (n = Nat.min (length t) (79 - length text)) as Hn by (subst n; lia).
  rewrite (proj2 (Z.leb_le 0 (Z.of_nat (length text)))), (proj2 (Z.ltb_lt _ _)) by (rewrite ?length_app; lia). cbn [andb mbind option_bind].
  rewrite Nat2Z.id, take_app_length. eexists. split; [by rewrite length_app, Nat2Z.inj_add|]. eexists. split.
  - rewrite take_app, (take_ge text) by lia. rewrite <- app_assoc. f_equal.
    replace (take (79 - length text) t) with (take n t); [done|]. rewrite Hn. destruct (decide (length t <= 79 - length text)%nat).
    + rewrite Nat.min_l by lia. by rewrite !take_ge by lia.
    + by rewrite Nat.min_r by lia.
  - rewrite !length_app. cbn [length]. rewrite length_take, length_drop, length_app. lia.
Qed.

(** The next [put] finds the string as the one before left it. *)
Lemma put_next line text t : holds line text -> (length text <= 79)%nat ->
  exists line', put line (Z.of_nat (length text)) t = Some (line', Z.of_nat (length (text ++ t))) /\ holds line' (text ++ t).
Proof.
  intros (rest & E & Hlen) Ht. apply (put_holds line text (0 :: rest) t); [|done..]. by rewrite take_ge in E by lia.
Qed.

Lemma c_str_zero s rest : Forall (fun x => 0 < x) s -> c_str (s ++ 0 :: rest) = s.
Proof.
  induction 1 as [|c s Hc _ IH]; [done|]. cbn. rewrite (proj2 (Z.eqb_neq c 0)) by lia. by rewrite IH.
Qed.

Lemma lookup_chunk (data : list Z) i b chunk : 0 <= i -> drop (Z.to_nat i) data = b :: chunk -> arr_get data i = Some b /\ i < Z.of_nat (length data).
Proof.
  intros Hi E. assert (data !! Z.to_nat i = Some b) as Hl.
  { rewrite <- (Nat.add_0_r (Z.to_nat i)), <- lookup_drop, E. done. }
  pose proof (lookup_lt_Some _ _ _ Hl). split; [|lia]. unfold arr_get. by rewrite (proj2 (Z.ltb_ge i 0)) by lia.
Qed.

(** The columns: they stay in the array, and show the data. *)
Lemma hex_columns_ok n data i j line text ascii shown : Forall (fun b => 0 <= b < 2 ^ 8) data -> 0 <= i -> 0 <= j -> j + Z.of_nat n = 16 ->
  holds line text -> Z.of_nat (length text) + 3 * Z.of_nat n + (if j <=? 7 then 1 else 0) <= 79 ->
  length ascii = 17%nat -> take (Z.to_nat j) ascii = shown ->
  let chunk := take n (drop (Z.to_nat (i + j)) data) in
  exists line' ascii',
    hex_columns n data (Z.of_nat (length data)) i j line (Z.of_nat (length text)) ascii =
      Some (line', Z.of_nat (length (text ++ hex_area n j chunk)), ascii') /\
    holds line' (text ++ hex_area n j chunk) /\
    length ascii' = 17%nat /\ take 16 ascii' = shown ++ ascii_area n chunk.
Proof.
  intros Hdata Hi. revert j line text ascii shown. induction n as [|n IH]; intros j line text ascii shown Hj Hn Hline Hfit Hascii Hshown chunk.
  { exists line, ascii. cbn. rewrite !app_nil_r. split_and!; try done. rewrite <- Hshown. f_equal. lia. }
  subst chunk. rewrite Nat2Z.inj_succ in *. cbn [hex_columns].
  (* the text of the column, and the character of the data *)
  assert (exists t c, length t = 3%nat /\
    (if i + j <? Z.of_nat (length data) then
       b ← arr_get data (i + j); '(line, pos) ← put line (Z.of_nat (length text)) (pad_left 2 48 (hexnum b) ++ [32]);
       ascii ← arr_set ascii j (printable b); Some (line, pos, ascii)
     else '(line, pos) ← put line (Z.of_nat (length text)) (chars "   "); ascii ← arr_set ascii j 32; Some (line, pos, ascii)) =
    ('(line, pos) ← put line (Z.of_nat (length text)) t; ascii ← arr_set ascii j c; Some (line, pos, ascii)) /\
    hex_area (S n) j (take (S n) (drop (Z.to_nat (i + j)) data)) =
      t ++ (if j =? 7 then chars " " else []) ++ hex_area n (j + 1) (take n (drop (Z.to_nat (i + (j + 1))) data)) /\
    ascii_area (S n) (take (S n) (drop (Z.to_nat (i + j)) data)) = c :: ascii_area n (take n (drop (Z.to_nat (i + (j + 1))) data)))
    as (t & c & Ht & -> & -> & ->).
  { replace (Z.to_nat (i + (j + 1))) with (Z.to_nat (i + j) + 1)%nat by lia. rewrite <- drop_drop.
    destruct (drop (Z.to_nat (i + j)) data) as [|b chunk] eqn:E.
    - exists (chars "   "), 32. apply drop_nil_inv in E. rewrite (proj2 (Z.ltb_ge _ _)) by lia. rewrite drop_nil, !take_nil. unfold ascii_area. rewrite !take_nil. cbn [length]. by rewrite !Nat.sub_0_r.
    - destruct (lookup_chunk data (i + j) b chunk ltac:(lia) E) as [Hb Hlt]. rewrite (proj2 (Z.ltb_lt _ _)) by done.
      rewrite Hb. apply arr_get_elem, (proj1 (Forall_forall _ _) Hdata) in Hb.
      exists (pad_left 2 48 (hexnum b) ++ [32]), (printable b). split_and!; [by rewrite hex_byte|done..]. }
  assert (Z.of_nat (length text) <= 79 - 3) as Htext by (destruct (j <=? 7); lia).
  destruct (put_next line text t Hline ltac:(lia)) as (line1 & E1 & H1). rewrite E1. cbn [mbind option_bind].
  rewrite (arr_set_Some ascii j c) by lia. cbn [mbind option_bind].
  assert (exists line2, (if j =? 7 then put line1 (Z.of_nat (length (text ++ t))) (chars " ") else Some (line1, Z.of_nat (length (text ++ t)))) =
    Some (line2, Z.of_nat (length (text ++ t ++ (if j =? 7 then chars " " else [])))) /\ holds line2 (text ++ t ++ (if j =? 7 then chars " " else [])))
    as (line2 & -> & H2).
  { rewrite !(app_assoc text t). destruct (j =? 7); [|exists line1; by rewrite app_nil_r]. apply put_next; [done|]. rewrite length_app. lia. }
  cbn [mbind option_bind]. replace (i + (j + 1)) with (i + j + 1) by lia.
  destruct (IH (j + 1) line2 (text ++ t ++ (if j =? 7 then chars " " else [])) (<[Z.to_nat j:=c]> ascii) (shown ++ [c]) ltac:(lia) ltac:(lia) H2)
    as (line' & ascii' & E & H' & Hl & Htake).
  - rewrite !length_app. destruct (Z.eqb_spec j 7), (Z.leb_spec j 7), (Z.leb_spec (j + 1) 7); cbn [length chars map String.list_ascii_of_string]; lia.
  - by rewrite length_insert.
  - replace (Z.to_nat (j + 1)) with (S (Z.to_nat j)) by lia. rewrite (take_S_r _ _ c) by (apply list_lookup_insert_eq; lia).
    by rewrite take_insert_ge, Hshown by lia.
  - replace (i + (j + 1)) with (i + j + 1) in * by lia. exists line', ascii'. rewrite E. rewrite <- !app_assoc in *. split_and!; try done.
Qed.

(** No character of a line is the end of a string. *)
Lemma hex_area_positive n j chunk : Forall (fun b => 0 <= b < 2 ^ 8) chunk -> Forall (fun x => 0 < x) (hex_area n j chunk).
Proof.
  revert j chunk. induction n as [|n IH]; intros j chunk Hb; [constructor|]. cbn [hex_area].
  rewrite !Forall_app. split_and!; [|by destruct (j =? 7); repeat constructor|apply IH; by destruct Hb].
  destruct chunk as [|b chunk]; [by repeat constructor|]. apply Forall_cons in Hb as [Hb _]. rewrite hex_byte by done.
  pose proof (Z.mod_pos_bound b 16 ltac:(lia)). pose proof (Z.div_pos b 16). pose proof (Z.div_lt_upper_bound b 16 16).
  repeat constructor; apply hex_char_range; lia.
Qed.

Lemma ascii_area_positive n chunk : Forall (fun x => 0 < x) (ascii_area n chunk).
Proof.
  apply Forall_app. split; [|by apply Forall_replicate]. apply Forall_fmap, Forall_true. intros b. unfold compose, printable.
  destruct (Z.leb_spec 32 b), (Z.ltb_spec b 127); cbn; lia.
Qed.

Lemma chunk_at_bytes data i : Forall (fun b => 0 <= b < 2 ^ 8) data -> Forall (fun b => 0 <= b < 2 ^ 8) (chunk_at data i).
Proof. intros. by apply Forall_take, Forall_drop. Qed.

Lemma dump_line_positive i chunk : 0 <= i < 2 ^ 64 -> Forall (fun b => 0 <= b < 2 ^ 8) chunk -> Forall (fun x => 0 < x) (dump_line i chunk).
Proof.
  intros Hi Hb. unfold dump_line. rewrite !Forall_app. destruct (digits_padded i [] Hi I) as (_ & _ & _ & _ & Hp).
  pose proof (hex_area_positive 16 0 chunk Hb). pose proof (ascii_area_positive 16 chunk).
  assert (forall s, forallb (fun x => 0 <? x) s = true -> Forall (fun x => 0 < x) s) as Hs.
  { intros s Hs. apply Forall_forall. intros x Hx%list_elem_of_In. apply Z.ltb_lt. revert x Hx. by apply forallb_forall. }
  split_and!; first [assumption|by apply Hs].
Qed.

Lemma length_ascii_area chunk : (length chunk <= 16)%nat -> length (ascii_area 16 chunk) = 16%nat.
Proof. intros. unfold ascii_area. rewrite length_app, length_fmap, length_take, length_replicate. lia. Qed.

(** One line: within the array, whatever the offset. *)
Lemma hex_line_ok data i line ascii : Forall (fun b => 0 <= b < 2 ^ 8) data -> 0 <= i < 2 ^ 64 ->
  length line = 80%nat -> length ascii = 17%nat ->
  exists line' ascii', hex_line data (Z.of_nat (length data)) i line ascii = Some (line', ascii') /\
    length line' = 80%nat /\ length ascii' = 17%nat /\ c_str line' = take 79 (dump_line i (chunk_at data i)).
Proof.
  intros Hdata Hi Hline Hascii. unfold hex_line. destruct (digits_padded i [] Hi I) as (_ & _ & Hpad & _).
  set (head := chars "  " ++ pad_left 4 48 (hexnum i) ++ chars ": ").
  assert (length head <= 20)%nat as Hhead.
  { subst head. rewrite !length_app. change (length (chars "  ")) with 2%nat. change (length (chars ": ")) with 2%nat. clear -Hpad. lia. }
  assert (Z.of_nat (length head) + 3 * Z.of_nat 16 + (if 0 <=? 7 then 1 else 0) <= 79) as Hfit by (cbn [Z.leb Z.compare]; clearbody head; lia).
  destruct (put_holds line [] line head eq_refl Hline ltac:(cbn; lia)) as (line1 & E1 & H1).
  change (Z.of_nat (length [])) with 0 in E1. rewrite E1. cbn [mbind option_bind app] in H1 |- *.
  destruct (hex_columns_ok 16 data i 0 line1 head ascii [] Hdata ltac:(lia) ltac:(lia) ltac:(lia) H1 Hfit Hascii eq_refl)
    as (line2 & ascii2 & E2 & H2 & Hl2 & Htake). rewrite E2. cbn [mbind option_bind app] in Htake |- *.
  rewrite Z.add_0_r in *. change (take 16 (drop (Z.to_nat i) data)) with (chunk_at data i) in *.
  rewrite (arr_set_Some ascii2 16 0) by lia. cbn [mbind option_bind]. change (Z.to_nat 16) with 16%nat.
  rewrite insert_take_drop, Htake, c_str_zero by (apply ascii_area_positive || lia).
  pose proof (chunk_at_bytes data i Hdata) as Hchunk.
  destruct (put_next line2 (head ++ hex_area 16 0 (chunk_at data i)) (chars " |" ++ ascii_area 16 (chunk_at data i) ++ chars "|") H2) as (line3 & E3 & H3).
  { rewrite length_app. pose proof (length_hex_area 16 0 (chunk_at data i) Hchunk ltac:(lia) ltac:(lia)) as Hl. change (0 <=? 7) with true in Hl. clearbody head. clear -Hl Hhead. lia. }
  rewrite E3. cbn [mbind option_bind]. eexists _, _. split; [done|]. destruct H3 as (rest & -> & Hl3). split; [done|]. split.
  - rewrite length_app. cbn [length]. rewrite length_ascii_area, length_drop by (unfold chunk_at; rewrite length_take; lia). lia.
  - rewrite c_str_zero; [by subst head; unfold dump_line; rewrite <- !app_assoc|]. apply Forall_take.
    replace ((head ++ _) ++ _) with (dump_line i (chunk_at data i)); [by apply dump_line_positive|]. by subst head; unfold dump_line; rewrite <- !app_assoc.
Qed.

(** ** Reading the dump *)

Lemma parse_dump_line i chunk : 0 <= i < 2 ^ 64 -> Forall (fun b => 0 <= b < 2 ^ 8) chunk -> (length chunk <= 16)%nat ->
  parse_line (take 79 (dump_line i chunk)) = (i, chunk).
Proof.
  intros Hi Hb Hlen. set (rest := chars " |" ++ ascii_area 16 chunk ++ chars "|").
  assert (exists m, take 79 (dump_line i chunk) = chars "  " ++ pad_left 4 48 (hexnum i) ++ chars ": " ++ hex_area 16 0 chunk ++ take m rest) as [m ->].
  { destruct (digits_padded i [] Hi I) as (_ & _ & Hpad & _).
    pose proof (length_hex_area 16 0 chunk Hb ltac:(lia) ltac:(lia)) as Hl. change (0 <=? 7) with true in Hl.
    unfold dump_line. change (chars " |" ++ _) with rest. clearbody rest. eexists. rewrite !take_app.
    rewrite !(take_ge (chars _)), !(take_ge (pad_left _ _ _)), (take_ge (hex_area _ _ _)); [done|clear -Hl Hpad; cbn [chars map String.list_ascii_of_string length] in *; lia..]. }
  unfold parse_line. change (drop 2 (chars "  " ++ ?l)) with l.
  destruct (digits_padded i (chars ": " ++ hex_area 16 0 chunk ++ take m rest) Hi eq_refl) as (k & -> & _).
  change (drop 2 (chars ": " ++ ?l)) with l. by rewrite hex_fields_area.
Qed.

(** All of the lines are complete when the offset has at most seven digits. *)
Lemma dump_line_fits i chunk : 0 <= i < 2 ^ 28 -> Forall (fun b => 0 <= b < 2 ^ 8) chunk -> (length chunk <= 16)%nat ->
  (length (dump_line i chunk) <= 79)%nat.
Proof.
  intros Hi Hb Hlen. destruct (digits_padded i [] ltac:(lia) I) as (_ & _ & _ & Hpad & _). specialize (Hpad 7%nat ltac:(lia) ltac:(lia)).
  pose proof (length_hex_area 16 0 chunk Hb ltac:(lia) ltac:(lia)) as Hl. change (0 <=? 7) with true in Hl.
  pose proof (length_ascii_area chunk Hlen) as Ha. unfold dump_line. rewrite !length_app.
  clear -Hpad Hl Ha. cbn [chars map String.list_ascii_of_string length] in *. lia.
Qed.

(** The lines of the data from the [k]-th one on. *)
Definition dump_texts (data : list Z) (k n : Z) : list (list Z) :=
  (fun j => take 79 (dump_line (16 * j) (chunk_at data (16 * j)))) <$> seqZ k n.

Lemma length_chunk_at data i : (length (chunk_at data i) <= 16)%nat.
Proof. unfold chunk_at. rewrite length_take. lia. Qed.

Lemma dump_texts_parse data k n : Forall (fun b => 0 <= b < 2 ^ 8) data -> 0 <= k -> 0 <= n -> 16 * (k + n) <= 2 ^ 64 ->
  Z.of_nat (length data) <= 16 * (k + n) ->
  concat ((fun l => (parse_line l).2) <$> dump_texts data k n) = drop (Z.to_nat (16 * k)) data.
Proof.
  intros Hb Hk Hn. revert k Hk. pattern n. apply natlike_ind; [| |done]; clear n Hn.
  - intros k Hk _ Hlen. cbn. rewrite drop_ge by lia. done.
  - intros n Hn IH k Hk Hmax Hlen. unfold dump_texts. rewrite seqZ_cons by lia. cbn [fmap list_fmap concat].
    rewrite parse_dump_line by (lia || by apply chunk_at_bytes || apply length_chunk_at). cbn [snd].
    fold (dump_texts data (Z.succ k) (Z.pred (Z.succ n))). rewrite Z.pred_succ.
    change (list_fmap _ _ ?f ?l) with (f <$> l). rewrite IH by lia.
    replace (Z.to_nat (16 * Z.succ k)) with (Z.to_nat (16 * k) + 16)%nat by lia. unfold chunk_at. rewrite <- drop_drop. apply take_drop.
Qed.

(** ** The messages *)

(** The fields of a time are as SYSTEMTIME has them. *)
Definition time_ok (st : SYSTEMTIME) : Prop :=
  0 <= wYear st < 10000 /\ 0 <= wMonth st < 100 /\ 0 <= wDay st < 100 /\ 0 <= wHour st < 100 /\
  0 <= wMinute st < 100 /\ 0 <= wSecond st < 100 /\ 0 <= wMilliseconds st < 1000.

Lemma length_padded w v : (w <= 4)%nat -> 0 <= v < 10 ^ Z.of_nat w -> (0 < w)%nat -> length (padded w v) = w.
Proof.
  intros Hw Hv H0. assert (v ∈ seqZ 0 (10 ^ Z.of_nat w)) as H by (apply elem_of_seqZ; lia). clear Hv. revert v H. apply Forall_forall.
  assert (w ∈ [1; 2; 3; 4]%nat) as H by (rewrite !elem_of_cons; lia). clear Hw H0. revert w H. apply Forall_forall.
  apply (bool_decide_unpack _). by vm_compute.
Qed.

Lemma length_timestamp st : time_ok st -> length (timestamp_text st) = 23%nat.
Proof.
  intros (? & ? & ? & ? & ? & ? & ?). unfold timestamp_text. rewrite !length_app, !length_padded by (done || lia). done.
Qed.

Lemma length_level level : length (GetLevelString level) = 5%nat.
Proof. unfold GetLevelString. by repeat case_match. Qed.

(** Nothing of a line is lost but what exceeds 4095 characters of the text: it ends in its newline. *)
Lemma final_line_fits config st level module text : time_ok st -> (forall m, module = Some m -> (length m <= 68)%nat) ->
  final_line config st level module text =
    line_text config (if lc_enableTimestamp config then timestamp_text st else []) level module (take 4095 text).
Proof.
  intros Hst Hm. unfold final_line, GetTimestamp, snprintf_str. change (4096 - 1)%nat with 4095%nat. pose proof (length_timestamp st Hst) as Ht.
  rewrite (take_ge (timestamp_text st)) by lia. apply take_ge. set (ts := if lc_enableTimestamp config then _ else _).
  assert (length ts <= 23)%nat as Hts by (subst ts; destruct (lc_enableTimestamp config); cbn; lia). clearbody ts.
  pose proof (length_take text 4095) as Htext. unfold line_text, pad_right. pose proof (length_level level) as Hl.
  destruct (lc_enableModule config), module as [m|]; try specialize (Hm m eq_refl);
    rewrite ?length_app, ?length_replicate; cbn [chars map String.list_ascii_of_string length]; lia.
Qed.

Section Output.
Context (env : LogEnv) (level : Z) (module : option (list Z)).

Lemma LogMessage_logger text w : wp (LogMessage env level module text) w (fun _ w' => lw_logger w' = lw_logger w).
Proof.
  unfold LogMessage, log_to_console, log_to_file, lw_print, SetConsoleTextAttribute. wp_run.
  destruct (log_Initialized (lw_logger w)); cbn [negb]; [|by wp_run].
  destruct (lc_level (log_Config (lw_logger w)) <? level); [by wp_run|]. apply wp_bind.
  eapply (wp_mono _ _ (fun _ w' => lw_logger w' = lw_logger w)).
  { destruct (lc_enableConsole _); [|by wp_run]. wp_run. destruct (_ && _); wp_run; [|done]. by destruct (le_set_attribute env (lw_count w)); unset; destruct (le_set_attribute _ _). }
  intros [] w1 E1. apply wp_bind. eapply (wp_mono _ _ (fun _ w' => lw_logger w' = lw_logger w)).
  { destruct (lc_enableFile _ && _); wp_run; [|done]. by destruct (le_flushed _ _). }
  intros [] w2 E2. by wp_run.
Qed.

Lemma log_all_logger texts w : wp (log_all env level module texts) w (fun _ w' => lw_logger w' = lw_logger w).
Proof.
  revert w. induction texts as [|t texts IH]; intros w; cbn [log_all foldr]; [by apply wp_ret|].
  apply wp_bind. eapply wp_mono; [apply LogMessage_logger|]. intros [] w1 E. rewrite <- E. apply IH.
Qed.
End Output.

(** What the console and the file show of a line. *)
Lemma log_to_console_run env level line w :
  let coloured := lc_enableColor (log_Config (lw_logger w)) && le_console env (lw_count w) && le_set_attribute env (lw_count w) in
  log_to_console env level line w = Ok (tt,
    mkLogWorld (lw_logger w) (if coloured then if le_console_info env (lw_count w) then lw_attrs w else COLOR_RESET else lw_attrs w)
      (lw_console w ++ [(if coloured then GetLevelColor level else lw_attrs w, line)]) (lw_file w) (lw_flushed w) (lw_count w)).
Proof.
  destruct w as [logger attrs con file fl n]. unfold log_to_console, lw_print, SetConsoleTextAttribute. rewrite bind_get. cbn.
  destruct (lc_enableColor (log_Config logger)), (le_console env n); cbn; try done.
  rewrite !bind_modify. destruct (le_set_attribute env n) eqn:E; unset; rewrite ?E; cbn; unfold modify; cbn [lw_count]; by rewrite E.
Qed.

Lemma log_to_file_run env line w : let file := lw_file w ++ take (le_written env (lw_count w)) line in
  log_to_file env line w = Ok (tt,
    mkLogWorld (lw_logger w) (lw_attrs w) (lw_console w) file (if le_flushed env (lw_count w) then file else lw_flushed w) (lw_count w)).
Proof.
  destruct w as [logger attrs con file fl n]. unfold log_to_file. rewrite bind_modify. unset. unfold modify. cbn [lw_count]. by destruct (le_flushed env n).
Qed.

(** A message that is not filtered. *)
Lemma LogMessage_run env level module text w : log_Initialized (lw_logger w) = true -> level <= lc_level (log_Config (lw_logger w)) ->
  let config := log_Config (lw_logger w) in
  let n := lw_count w in
  let line := final_line config (le_time env n) level module text in
  let coloured := lc_enableConsole config && (lc_enableColor config && le_console env n && le_set_attribute env n) in
  let file := lw_file w ++ (if lc_enableFile config && log_File (lw_logger w) then take (le_written env n) line else []) in
  LogMessage env level module text w = Ok (tt,
    mkLogWorld (lw_logger w) (if coloured then if le_console_info env n then lw_attrs w else COLOR_RESET else lw_attrs w)
      (lw_console w ++ (if lc_enableConsole config then [(if coloured then GetLevelColor level else lw_attrs w, line)] else []))
      file (if lc_enableFile config && log_File (lw_logger w) && le_flushed env n then file else lw_flushed w) (S n)).
Proof.
  intros Hi Hl config n line coloured file. unfold LogMessage. rewrite bind_get, Hi, (proj2 (Z.ltb_ge _ _)) by done. cbn [negb].
  fold config n line. subst coloured file. destruct (lc_enableConsole config); cbn [andb].
  - rewrite (bind_Ok _ _ _ _ _ (log_to_console_run env level line w)). fold config n. cbn [lw_logger].
    destruct (lc_enableFile config && log_File (lw_logger w)); cbn [andb]; [|by rewrite app_nil_r].
    by rewrite (bind_Ok _ _ _ _ _ (log_to_file_run env line _)).
  - rewrite app_nil_r, bind_ret. destruct w as [logger attrs con file fl k]. cbn in *.
    destruct (lc_enableFile config && log_File logger); cbn [andb]; [|by rewrite app_nil_r].
    by rewrite (bind_Ok _ _ _ _ _ (log_to_file_run env line _)).
Qed.

(** ** The dump as messages *)

Lemma LogMessage_total env level module text w : exists w', LogMessage env level module text w = Ok (tt, w') /\ lw_logger w' = lw_logger w.
Proof. destruct (wp_elim _ _ _ (LogMessage_logger env level module text w)) as ([] & w' & E & H). by exists w'. Qed.

Lemma hex_lines_run env level module data : Forall (fun b => 0 <= b < 2 ^ 8) data -> Z.of_nat (length data) < 2 ^ 63 ->
  forall n k fuel line ascii w, 0 <= k -> 16 * (k + Z.of_nat n) < Z.of_nat (length data) + 16 -> Z.of_nat (length data) <= 16 * (k + Z.of_nat n) ->
  (n < fuel)%nat -> length line = 80%nat -> length ascii = 17%nat ->
  hex_lines env fuel level module data (Z.of_nat (length data)) (16 * k) line ascii w =
    log_all env level module (dump_texts data k (Z.of_nat n)) w.
Proof.
  intros Hb Hmax. induction n as [|n IH]; intros k [|fuel] line ascii w Hk H1 H2 Hf Hline Hascii; try lia; cbn [hex_lines].
  - by rewrite (proj2 (Z.ltb_ge _ _)) by lia.
  - rewrite (proj2 (Z.ltb_lt _ _)) by lia.
    destruct (hex_line_ok data (16 * k) line ascii Hb ltac:(lia) Hline Hascii) as (line' & ascii' & E & Hl1 & Hl2 & Es).
    rewrite (bind_opt _ _ _ _ E), Es. unfold dump_texts. rewrite seqZ_cons by lia. cbn [fmap list_fmap log_all foldr].
    match goal with |- context [LogMessage ?e ?l ?m ?t] => destruct (LogMessage_total e l m t w) as (w' & Em & _) end.
    rewrite !(bind_Ok _ _ _ _ _ Em), u64_small by lia. replace (16 * k + 16) with (16 * Z.succ k) by lia.
    rewrite IH by (done || lia). unfold dump_texts. by replace (Z.pred (Z.of_nat (S n))) with (Z.of_nat n) by lia.
Qed.

(** C40: A dump is the data. For any data, with any prefix and whatever the two character arrays held before, LogHexDump
    ends, having logged its header and then one message for each 16 bytes, in order; it writes nothing outside of its
    arrays. A message has at most 79 characters, also when the offset needs all 16 digits; below an offset of 2^28 none
    is lost. The offset and the bytes read back from the columns are those of the data: together they are all of it. *)
Theorem LogHexDump_roundtrip env fuel level module prefix data line ascii w :
  log_Initialized (lw_logger w) = true -> level <= lc_level (log_Config (lw_logger w)) ->
  Forall (fun b => 0 <= b < 2 ^ 8) data -> Z.of_nat (length data) < 2 ^ 63 -> Z.of_nat (length data) + 16 <= 16 * Z.of_nat fuel ->
  length line = 80%nat -> length ascii = 17%nat ->
  exists lines w',
    LogHexDump env fuel level module prefix data (Z.of_nat (length data)) line ascii w = Ok (tt, w') /\
    log_all env level module ((prefix ++ chars ": " ++ numeral (Z.of_nat (length data)) ++ chars " bytes") :: lines) w = Ok (tt, w') /\
    concat ((fun l => (parse_line l).2) <$> lines) = data /\
    forall k l, lines !! k = Some l -> (length l <= 79)%nat /\ (parse_line l).1 = 16 * Z.of_nat k /\
      (16 * Z.of_nat k < 2 ^ 28 -> l = dump_line (16 * Z.of_nat k) (chunk_at data (16 * Z.of_nat k))).
Proof.
  intros Hi Hl Hb Hmax Hfuel Hline Hascii. set (n := Z.to_nat ((Z.of_nat (length data) + 15) / 16)).
  assert (16 * Z.of_nat n < Z.of_nat (length data) + 16 /\ Z.of_nat (length data) <= 16 * Z.of_nat n) as [H1 H2].
  { subst n. pose proof (Z.div_mod (Z.of_nat (length data) + 15) 16). pose proof (Z.mod_pos_bound (Z.of_nat (length data) + 15) 16).
    rewrite Z2Nat.id by (apply Z.div_pos; lia). lia. }
  clearbody n. exists (dump_texts data 0 (Z.of_nat n)).
  destruct (wp_elim _ _ _ (log_all_logger env level module ((prefix ++ chars ": " ++ numeral (Z.of_nat (length data)) ++ chars " bytes") :: dump_texts data 0 (Z.of_nat n)) w)) as ([] & w' & E & _).
  exists w'. split; [|split; [done|split]].
  - unfold LogHexDump. rewrite bind_get, Hi, (proj2 (Z.ltb_ge _ _)) by done. cbn [negb orb]. rewrite <- E.
    cbn [log_all foldr]. destruct (LogMessage_total env level module (prefix ++ chars ": " ++ numeral (Z.of_nat (length data)) ++ chars " bytes") w) as (w1 & Em & _).
    rewrite !(bind_Ok _ _ _ _ _ Em). apply (hex_lines_run env level module data Hb Hmax n 0); (done || lia).
  - by rewrite dump_texts_parse by (done || lia).
  - intros k l Hk. unfold dump_texts in Hk. apply list_lookup_fmap_Some in Hk as (j & -> & Hj). apply lookup_seqZ in Hj as [-> Hj].
    rewrite Z.add_0_l. pose proof (chunk_at_bytes data (16 * Z.of_nat k) Hb) as Hc. pose proof (length_chunk_at data (16 * Z.of_nat k)) as Hlc.
    split; [rewrite length_take; lia|]. rewrite parse_dump_line by (done || lia). split; [done|].
    intros Hk. apply take_ge, dump_line_fits; (done || lia).
Qed.

(** The name of a file is what stands behind its last separator: all of the path when there is none. *)
Definition is_separator (c : Z) : bool := (c =? 92) || (c =? 47).
Lemma file_name_spec filename s p : filename = s ++ p -> Forall (fun c => is_separator c = false) s ->
  exists dir, filename = dir ++ file_name filename p /\ Forall (fun c => is_separator c = false) (file_name filename p) /\
    (dir = [] \/ exists d c, dir = d ++ [c] /\ is_separator c = true).
Proof.
  revert filename s. induction p as [|c p IH]; intros filename s E Hs; cbn [file_name].
  - rewrite app_nil_r in E. subst. exists []. auto.
  - change ((c =? 92) || (c =? 47)) with (is_separator c). destruct (is_separator c) eqn:Hc.
    + destruct (IH p [] eq_refl (Forall_nil_2 _)) as (dir & Ep & Hf & Hd). exists (s ++ [c] ++ dir). rewrite Ep in E at 1.
      split; [by rewrite E, <- !app_assoc|]. split; [done|right]. destruct Hd as [->|(d & c' & -> & Hc')].
      * by exists s, c.
      * exists (s ++ [c] ++ d), c'. by rewrite <- !app_assoc.
    + apply (IH filename (s ++ [c])); [by rewrite E, <- app_assoc|]. apply Forall_app. by repeat constructor.
Qed.

(** A message is printed whole, once, and at its level. Before LoggerInit its text goes to the console whatever its
    level; afterwards a message above the level in force leaves no trace. Any other prints one line, the same on the
    console and in the file: the timestamp, the level, the module and the first 4095 characters of the text, nothing of
    which is cut off for a module name of up to 68 characters, so that the line ends in its newline. A console that takes
    attributes shows it in the colour of its level, and has its own attributes again afterwards; what was flushed
    before is flushed with the line. *)
Lemma LogMessage_prints env level module text w :
  let config := log_Config (lw_logger w) in
  let n := lw_count w in
  let line := line_text config (if lc_enableTimestamp config then timestamp_text (le_time env n) else []) level module (take 4095 text) in
  time_ok (le_time env n) -> (forall m, module = Some m -> (length m <= 68)%nat) ->
  exists w', LogMessage env level module text w = Ok (tt, w') /\ lw_logger w' = lw_logger w /\
    if negb (log_Initialized (lw_logger w)) then lw_console w' = lw_console w ++ [(lw_attrs w, text); (lw_attrs w, [10])] /\ lw_file w' = lw_file w
    else if lc_level config <? level then w' = w
    else
      last line = Some 10 /\
      (lc_enableConsole config = true -> lw_console w' = lw_console w ++
        [(if lc_enableColor config && le_console env n && le_set_attribute env n then GetLevelColor level else lw_attrs w, line)]) /\
      (lc_enableConsole config = false -> lw_console w' = lw_console w) /\
      (le_console_info env n = true -> lw_attrs w' = lw_attrs w) /\
      (lc_enableFile config && log_File (lw_logger w) = true -> (length line <= le_written env n)%nat -> lw_file w' = lw_file w ++ line) /\
      (lw_flushed w = lw_file w -> le_flushed env n = true -> lw_flushed w' = lw_file w').
Proof.
  intros config n line Hst Hm. destruct (log_Initialized (lw_logger w)) eqn:Hi; cbn [negb].
  2: { eexists. split; [unfold LogMessage; rewrite bind_get, Hi; reflexivity|]. unset. by rewrite <- app_assoc. }
  destruct (Z.ltb_spec (lc_level config) level) as [Hl|Hl].
  { exists w. split; [|done]. unfold LogMessage. by rewrite bind_get, Hi, (proj2 (Z.ltb_lt _ _)) by done. }
  eexists. split; [by apply LogMessage_run|]. cbn [lw_logger lw_console lw_attrs lw_file lw_flushed]. fold config n.
  rewrite final_line_fits by done. fold line. split_and!; [done|..].
  - unfold line, line_text. destruct (lc_enableModule config), module; rewrite ?last_app; cbn; by rewrite ?last_app.
  - by intros ->.
  - intros ->. apply app_nil_r.
  - intros ->. by destruct (_ && _).
  - intros -> ?. by rewrite take_ge by done.
  - intros -> ->. rewrite andb_true_r. destruct (_ && _); [done|]. by rewrite app_nil_r.
Qed.

(** *** The theorems at work: twenty bytes in two lines, in a file and on a console with colours. *)

Definition example_env : LogEnv :=
  mkLogEnv (fun _ => mkSYSTEMTIME 2024 5 17 9 3 7 42) (fun _ => true) (fun _ => true) (fun _ => true) (fun _ => 5000%nat) (fun _ => true).
Definition example_log : LogWorld :=
  mkLogWorld (mkLogger (mkLoggerConfig LOG_LEVEL_DEBUG true true true true true (chars "log.txt")) true true) COLOR_RESET [] [] [] 0.
Definition example_data : list Z := seqZ 60 20.

Example example_dump :
  snd <$> lw_console (final (LogHexDump example_env 3 LOG_LEVEL_DEBUG (Some (chars "io")) (chars "SQE") example_data 20 (replicate 80 255) (replicate 17 255)) example_log) =
    [chars "2024-05-17 09:03:07.042 [DEBUG] [io      ] SQE: 20 bytes" ++ [10];
     chars "2024-05-17 09:03:07.042 [DEBUG] [io      ]   0000: 3c 3d 3e 3f 40 41 42 43  44 45 46 47 48 49 4a 4b  |<=>?@ABCDEFGHIJK|" ++ [10];
     chars "2024-05-17 09:03:07.042 [DEBUG] [io      ]   0010: 4c 4d 4e 4f                                       |LMNO            |" ++ [10]].
Proof. vm_compute. reflexivity. Qed.

Lemma LogHexDump_roundtrip_witness : exists lines w',
  LogHexDump example_env 3 LOG_LEVEL_DEBUG (Some (chars "io")) (chars "SQE") example_data 20 (replicate 80 255) (replicate 17 255) example_log = Ok (tt, w') /\
  log_all example_env LOG_LEVEL_DEBUG (Some (chars "io")) (chars "SQE: 20 bytes" :: lines) example_log = Ok (tt, w') /\
  concat ((fun l => (parse_line l).2) <$> lines) = example_data.
Proof.
  destruct (LogHexDump_roundtrip example_env 3 LOG_LEVEL_DEBUG (Some (chars "io")) (chars "SQE") example_data (replicate 80 255) (replicate 17 255) example_log
    eq_refl ltac:(vm_compute; discriminate) ltac:(apply (bool_decide_unpack _); vm_compute; exact I) eq_refl ltac:(vm_compute; discriminate) eq_refl eq_refl)
    as (lines & w' & H1 & H2 & H3 & _).
  exists lines, w'. split; [exact H1|]. split; [exact H2|exact H3].
Defined.

Lemma example_message : exists w',
  LogMessage example_env LOG_LEVEL_WARNING (Some (chars "driver")) (chars "device lost") example_log = Ok (tt, w') /\
  lw_attrs w' = COLOR_RESET /\ lw_flushed w' = lw_file w' /\
  lw_file w' = chars "2024-05-17 09:03:07.042 [WARN ] [driver  ] device lost" ++ [10].
Proof.
  destruct (LogMessage_prints example_env LOG_LEVEL_WARNING (Some (chars "driver")) (chars "device lost") example_log
    ltac:(cbn; unfold time_ok; cbn; lia) ltac:(intros m [= <-]; cbn; lia)) as (w' & E & _ & H).
  exists w'. split; [exact E|]. destruct H as (_ & _ & _ & Ha & Hf & Hd). split; [exact (Ha eq_refl)|]. split; [exact (Hd eq_refl eq_refl)|].
  rewrite (Hf eq_refl) by (vm_compute; lia). vm_compute. reflexivity.
Qed.
