(* ===== verification/DriverLink.v ===== *)
(** The service and the driver together: the control device of the driver is what
    the service talks to, so the theorems of [Service] hold for it; and what
    comes of the two.

    The handle of the open device, the address of the mapping and what is in a
    buffer of the system before it is used are parameters.  The requests are
    METHOD_BUFFERED: one buffer holds the input and then the output, and what
    the driver does not write of it is what was there before. *)
From S2P Require Import Prelude CLib NvmeSpec Kernel Config Storage State Shm Queue Bar0 UserForward Recovery Doorbell IoCmd Pdo Bus CtrlDev.
From S2P Require Import Backend ServerState ServerAdmin ServerIo Engine DriverComm ServerConfig Service.
Open Scope Z_scope.
Open Scope c_scope.

Section DriverLink.
Context {W : WinKernel} {FW : WdfFramework}.
Variables (userAddress control_handle : Z) (fresh : mem).

(** ** The driver is a control device *)

(** WdfRequestRetrieveInputBuffer and WdfRequestRetrieveOutputBuffer fail without a buffer. *)
Definition buffer_status (size : Z) : NTSTATUS := if 0 <? size then STATUS_SUCCESS else STATUS_BUFFER_TOO_SMALL.
Definition request_of (insize outsize : Z) : WDFREQUEST := mkRequest insize outsize 0 0 (buffer_status insize) (buffer_status outsize).

Definition driver_ioctl (s : CtrlState) (h code : Z) (input : mem) (insize outsize : Z) : res (bool * Z * mem * CtrlState) :=
  if negb (h =? control_handle) then Ok (false, 0, mem_zero, s)
  else
    match VnvmeEvtIoDeviceControl userAddress (request_of insize outsize) code (s <| ct_mem := mem_copy fresh 0 input 0 insize |>) with
    | Ok (r, s') => Ok (NT_SUCCESS r.1, (if NT_SUCCESS r.1 then r.2 else 0), ct_mem s', s')
    | Fault => Fault
    | OutOfFuel => OutOfFuel
    end.

Definition mapped_shm (s : CtrlState) : option SharedMemory :=
  d ← bs_fdo (ct_bus s); if fdo_ShmUserVirtAddr d then fdo_Shm d else None.

#[export] Instance driver_device : ControlDevice := {
  Driver := CtrlState;
  OpenDevice s := ((if fb_ControlDevice (bs_bus (ct_bus s)) then control_handle else INVALID_HANDLE_VALUE), s);
  CloseDevice _ s := s;
  DeviceIoControl := driver_ioctl;
  user_shm := mapped_shm;
  set_user_shm m s := s <| ct_bus ::= fun b => b <| bs_fdo ::= option_map (fun d => d <| fdo_Shm := Some m |>) |> |>;
}.

(** A heartbeat without an input buffer is refused. *)
Lemma heartbeat_refused s input : exists st, NT_SUCCESS st = false /\
  VnvmeEvtIoDeviceControl userAddress (request_of 0 0) IOCTL_VNVME_HEARTBEAT (s <| ct_mem := input |>) = Ok ((st, 0), s <| ct_mem := input |>).
Proof.
  change (VnvmeEvtIoDeviceControl userAddress ?rq _) with (VnvmeHandleHeartbeat rq). unfold VnvmeHandleHeartbeat. rewrite bind_get.
  destruct (bs_fdo _) as [d|]; [destruct (negb _)|]; by (eexists; split; [|reflexivity]).
Qed.

Lemma user_ready_refused s input : exists st, NT_SUCCESS st = false /\
  VnvmeEvtIoDeviceControl userAddress (request_of 0 0) IOCTL_VNVME_USER_READY (s <| ct_mem := input |>) = Ok ((st, 0), s <| ct_mem := input |>).
Proof.
  change (VnvmeEvtIoDeviceControl userAddress ?rq _) with (VnvmeHandleUserReady rq). unfold VnvmeHandleUserReady, with_fdo. rewrite bind_get.
  destruct (bs_fdo _) as [d|]; by (eexists; split; [|reflexivity]).
Qed.

Lemma command_event_run s input : exists r s',
  VnvmeEvtIoDeviceControl userAddress (request_of 0 sizeof_VNVME_GET_COMMAND_EVENT_OUTPUT) IOCTL_VNVME_GET_COMMAND_EVENT
    (s <| ct_mem := input |>) = Ok (r, s') /\ mapped_shm s' = mapped_shm s.
Proof.
  change (VnvmeEvtIoDeviceControl userAddress ?rq _) with (VnvmeHandleGetCommandEvent rq). unfold VnvmeHandleGetCommandEvent, with_fdo. rewrite bind_get.
  destruct s as [b mm]. unfold mapped_shm. unset. destruct (bs_fdo b) as [d|] eqn:Hd; [|eexists _, _; split; [done|]; cbn; by rewrite Hd].
  set (rq := request_of _ _). change (check_output rq _ ?k) with k. change (retrieve_output rq ?k) with k. rewrite bind_get. cbn [ct_bus].
  destruct (fb_UserEventHandle (bs_bus b) =? 0) eqn:Eh.
  - destruct (ObOpenObjectByPointer (bs_tick b)) as [st h] eqn:Eo.
    unfold on_bus, wdf, bus_update, bus_fdo_update, modify, mbind, M_bind, mret, M_ret, get. unset. rewrite Eo. destruct (NT_SUCCESS st); unset;
      (eexists _, _; split; [done|]); cbn; rewrite Hd; by destruct d.
  - eexists _, _. split; [done|]. cbn. by rewrite Hd.
Qed.

#[export] Instance driver_device_laws : ControlDeviceLaws driver_device.
Proof.
  split.
  - intros m m0 s. cbn. unfold mapped_shm. destruct s as [[] ?]. unset. destruct bs_fdo as [d|]; [|done]. cbn. destruct d. unset. by destruct fdo_ShmUserVirtAddr.
  - intros s h code out Hc. cbn. unfold driver_ioctl. destruct (negb _); [by eexists _, s|].
    set (input := mem_copy _ _ _ _ _).
    assert (mapped_shm (s <| ct_mem := input |>) = mapped_shm s) as Es by done.
    destruct Hc as [[= -> ->]|[= -> ->]].
    + destruct (heartbeat_refused s input) as (st & Hst & ->). by eexists _, _.
    + destruct (command_event_run s input) as (r & s' & -> & E). by eexists _, _.
Qed.

(** ** The service never gets ready *)

Context {F : Win32Files} {T : TextFiles}.

(** A request without buffers that the driver refuses. *)
Lemma request_refused code (l : LinkState) :
  (forall s input, exists st, NT_SUCCESS st = false /\
    VnvmeEvtIoDeviceControl userAddress (request_of 0 0) code (s <| ct_mem := input |>) = Ok ((st, 0), s <| ct_mem := input |>)) ->
  exists m l', device_io_control code mem_zero 0 mem_zero 0 l = Ok ((false, m), l') /\ ct_bus (lk_driver l') = ct_bus (lk_driver l) /\ lk_ctx l' = lk_ctx l.
Proof.
  intros H. unfold device_io_control. rewrite bind_get. cbn [DeviceIoControl driver_device]. unfold driver_ioctl.
  destruct (negb _); [by eexists _, _|]. destruct (H (lk_driver l) (mem_copy fresh 0 mem_zero 0 0)) as (st & Hst & E).
  rewrite E. cbn [fst snd]. rewrite Hst. by eexists _, _.
Qed.

Lemma DriverSendUserReady_fails (l : LinkState) : exists l', DriverSendUserReady l = Ok (false, l') /\
  ct_bus (lk_driver l') = ct_bus (lk_driver l) /\ lk_ctx l' = lk_ctx l.
Proof.
  unfold DriverSendUserReady. rewrite bind_get. destruct (_ =? _); [by exists l|].
  destruct (request_refused IOCTL_VNVME_USER_READY l user_ready_refused) as (m & l' & E & ?). exists l'. by rewrite (bind_Ok _ _ _ _ _ E).
Qed.

Lemma DriverSendHeartbeat_fails (l : LinkState) : exists l', DriverSendHeartbeat l = Ok (false, l') /\
  ct_bus (lk_driver l') = ct_bus (lk_driver l) /\ lk_ctx l' = lk_ctx l.
Proof.
  unfold DriverSendHeartbeat. rewrite bind_get. destruct (_ =? _); [by exists l|].
  destruct (request_refused IOCTL_VNVME_HEARTBEAT l heartbeat_refused) as (m & l' & E & ?). exists l'. by rewrite (bind_Ok _ _ _ _ _ E).
Qed.

(** The two parts of the start-up use what follows them pointwise, and fail with 1. *)
Section Startup.
Context (o : Outside) (k k' : M Service Z).

Lemma start_driver_ext s : (forall s, k s = k' s) -> start_driver o k s = start_driver o k' s.
Proof.
  intros H. unfold start_driver. rewrite !bind_get. unfold mbind, M_bind. destruct (of_opt _ s) as [[p s1]| |]; [|done..].
  destruct (on_logger _ s1) as [[[] s2]| |]; cbn [negb]; [|done..]. unfold ms_update, modify. destruct (on_link DriverConnect _) as [[[] s3]| |]; [|done..].
  cbn [negb]. destruct (on_link DriverMapShm s3) as [[[] s4]| |]; [|done..]. cbn [negb]. apply H.
Qed.

Lemma start_engine_ext s : (forall s, k s = k' s) -> start_engine o k s = start_engine o k' s.
Proof.
  intros H. unfold start_engine. rewrite !bind_get. unfold mbind, M_bind. destruct (of_opt _ s) as [[p s1]| |]; [|done..].
  destruct (BackendCreate _ _ _); [|done]. unfold ms_update, modify. destruct (CmdEngineCreate _); [|done]. unfold get.
  destruct (on_engine (CmdEngineInitSimple _) _) as [[[] s3]| |]; [|done..]. cbn [negb].
  destruct (on_engine _ s3) as [[[] s4]| |]; [|done..]. apply H.
Qed.

Lemma cleanup_log_result s r s' : cleanup_log 1 s = Ok (r, s') -> r = 1.
Proof. unfold cleanup_log. intros (u & s2 & _ & [= ->])%bind_inv. done. Qed.
Lemma cleanup_driver_result s r s' : cleanup_driver 1 s = Ok (r, s') -> r = 1.
Proof. unfold cleanup_driver. intros (u & s2 & _ & H)%bind_inv. by eapply cleanup_log_result. Qed.
Lemma cleanup_backend_result s r s' : cleanup_backend 1 s = Ok (r, s') -> r = 1.
Proof. unfold cleanup_backend. intros (u & s2 & _ & H)%bind_inv. by eapply cleanup_driver_result. Qed.
Lemma cleanup_cmdengine_result s r s' : cleanup_cmdengine 1 s = Ok (r, s') -> r = 1.
Proof. unfold cleanup_cmdengine. intros (u & s2 & _ & H)%bind_inv. by eapply cleanup_backend_result. Qed.

Lemma start_driver_result s r s' : (forall s, k s = Ok (r, s') -> r = 1) -> start_driver o k s = Ok (r, s') -> r = 1.
Proof.
  intros H. unfold start_driver. rewrite bind_get. intros (p & s1 & _ & E)%bind_inv. apply bind_inv in E as (ok & s2 & _ & E).
  destruct ok; cbn [negb] in E; [|by injection E]. apply bind_inv in E as ([] & s3 & _ & E). apply bind_inv in E as ([] & s4 & _ & E); cbn [negb] in E; [|by eauto using cleanup_log_result, cleanup_driver_result, cleanup_backend_result, cleanup_cmdengine_result].
  apply bind_inv in E as ([] & s5 & _ & E); cbn [negb] in E; [by eapply H|by eauto using cleanup_log_result, cleanup_driver_result, cleanup_backend_result, cleanup_cmdengine_result].
Qed.

Lemma start_engine_result s r s' : (forall s, k s = Ok (r, s') -> r = 1) -> start_engine o k s = Ok (r, s') -> r = 1.
Proof.
  intros H. unfold start_engine. rewrite bind_get. intros (p & s1 & _ & E)%bind_inv.
  destruct (BackendCreate _ _ _); [|by eauto using cleanup_log_result, cleanup_driver_result, cleanup_backend_result, cleanup_cmdengine_result]. apply bind_inv in E as ([] & s2 & _ & E).
  destruct (CmdEngineCreate _); [|by eauto using cleanup_log_result, cleanup_driver_result, cleanup_backend_result, cleanup_cmdengine_result]. apply bind_inv in E as ([] & s3 & _ & E). rewrite bind_get in E.
  apply bind_inv in E as ([] & s4 & _ & E); cbn [negb] in E; [|by eauto using cleanup_log_result, cleanup_driver_result, cleanup_backend_result, cleanup_cmdengine_result]. apply bind_inv in E as (u & s5 & _ & E). by eapply H.
Qed.
End Startup.

Definition with_rounds (l : list Round) (o : Outside) : @Outside driver_device :=
  mkOutside (os_args o) (os_log_opens o) (os_calloc o) (os_VirtualAlloc o) (os_malloc o) (os_tick o) l.

(** C13: the service does not start. The driver refuses USER_READY without an input
    buffer, and DriverSendUserReady sends none: with arguments that are accepted,
    whatever the driver's state and whatever happens outside, main never gets to
    its main loop - what it does does not depend on the rounds of the loop - and
    if it returns, its result is 1. The heartbeats of the service would be refused
    in the same way. *)
Theorem service_never_ready (polls fuel : nat) (o : Outside) (s : Service) (c : SERVER_CONFIG) :
  ConfigParseArgs (os_args o) zero_config = Ok (Parsed true c) ->
  (forall l, main polls fuel (with_rounds l o) s = main polls fuel o s) /\
  (forall r s', main polls fuel o s = Ok (r, s') -> r = 1) /\
  (forall l : LinkState, exists l', DriverSendHeartbeat l = Ok (false, l') /\ ct_bus (lk_driver l') = ct_bus (lk_driver l)).
Proof.
  intros Hargs.
  assert (forall l s, (ready ← on_link DriverSendUserReady; if negb ready then cleanup_backend 1
    else MainLoop polls fuel (os_tick o) l;; cleanup_cmdengine 0) s = (on_link DriverSendUserReady;; cleanup_backend 1) s) as Hk.
  { intros l s1. destruct (DriverSendUserReady_fails (ms_link s1)) as (l' & E & _). by rewrite !(bind_Ok _ _ _ _ _ (on_link_Ok _ _ _ _ E)). }
  assert (forall l, main polls fuel (with_rounds l o) s =
    start_driver o (start_engine o (on_link DriverSendUserReady;; cleanup_backend 1)) (s <| ms_Config := c |>)) as Hmain.
  { intros l. unfold main, ms_update. rewrite bind_modify, bind_get. cbn [os_args with_rounds].
    change (ConfigParseArgs (os_args o) _) with (ConfigParseArgs (os_args o) zero_config). rewrite Hargs.
    erewrite bind_Ok by reflexivity. cbv beta iota. rewrite bind_modify. change (start_driver (with_rounds l o)) with (start_driver o). change (start_engine (with_rounds l o)) with (start_engine o).
    etransitivity; [apply start_driver_ext; intros; apply start_engine_ext, Hk|]. by destruct s. }
  assert (with_rounds (os_rounds o) o = o) as Eo by (by destruct o).
  pose proof (Hmain (os_rounds o)) as H0. rewrite Eo in H0. split; [|split].
  - intros l. by rewrite Hmain, H0.
  - intros r s'. rewrite H0. apply start_driver_result. intros s1. apply start_engine_result. intros s2.
    intros (b & s3 & _ & E)%bind_inv. by eauto using cleanup_log_result, cleanup_driver_result, cleanup_backend_result, cleanup_cmdengine_result.
  - intros l. destruct (DriverSendHeartbeat_fails l) as (l' & E & Eb & _). by exists l'.
Qed.

(** ** From the doorbell to the completion *)

Context {FL : Win32FileLaws F}.

(** What a list of pushes leaves in the ring: as many as there is room for. *)
Lemma push_all_contents l : forall r, ring_ok r ->
  ring_ok (foldl push_room r l) /\ nr_Size (foldl push_room r l) = nr_Size r /\
  ring_contents (foldl push_room r l) = ring_contents r ++ take (Z.to_nat (nr_Size r - 1) - length (ring_contents r)) l.
Proof.
  induction l as [|e l IH]; intros r Hr; cbn [foldl]; [by rewrite take_nil, app_nil_r|]. pose proof Hr as [Hsz _ Hh Ht].
  assert (Z.of_nat (length (ring_contents r)) = ring_count (nr_Head r) (nr_Tail r) (nr_Size r)) as Hlen
    by (unfold ring_contents, ring_from; by rewrite length_fmap, ring_indices_length by lia).
  pose proof (ring_count_range (nr_Size r) ltac:(lia) (nr_Head r) (nr_Tail r)) as Hc.
  pose proof (ring_count_full (nr_Size r) ltac:(lia) _ _ Hh Ht) as Hfull.
  destruct (IH (push_room r e) (push_room_ok r e Hr)) as (H1 & H2 & H3). unfold push_room in *. case_decide as Hd.
  - apply Hfull in Hd. replace (Z.to_nat (nr_Size r - 1) - length (ring_contents r))%nat with 0%nat in * by lia. by split_and!.
  - assert (ring_contents (ring_push e r) = ring_contents r ++ [e]) as Ep by (apply ring_push_from; done).
    rewrite Ep in H3. cbn [ring_push nr_Size] in *. split; [done|]. split; [done|]. rewrite H3, <- app_assoc. f_equal.
    rewrite length_app. cbn [length]. destruct (Z.eq_dec (ring_count (nr_Head r) (nr_Tail r) (nr_Size r)) (nr_Size r - 1)) as [E|E]; [by apply Hfull in E|].
    replace (Z.to_nat (nr_Size r - 1) - length (ring_contents r))%nat with (S (Z.to_nat (nr_Size r - 1) - (length (ring_contents r) + 1))) by lia. done.
Qed.

(** The notifications of a poll in which the admin queue was rung, as the engine reads them. *)
Lemma poll_notifications k n (K : nat) cap hd : 0 <= n -> told k 0 = true -> (0 < K)%nat -> 0 <= tail_of k 0 < cap ->
  let l := take K (notifications k 0 (n + 1)) in
  notified cap hd l = admin_pending cap hd (tail_of k 0) hd /\ last_head hd l = tail_of k 0 /\ Forall (entry_ok cap) l.
Proof.
  intros Hn Hr HK Ht. rewrite (notifications_app k 0 1 (n + 1)) by lia.
  pose proof (notifications_one k 0) as E1. rewrite Hr in E1. change (0 + 1) with 1 in E1. rewrite E1. destruct K as [|K]; [lia|]. cbn [app take].
  assert (Forall (fun e => 1 <= ne_QueueId e) (take K (notifications k 1 (n + 1)))) as HF.
  { apply Forall_take. unfold notifications. apply Forall_fmap, Forall_forall. intros Q [_ HQ]%list_elem_of_filter. apply elem_of_seqZ in HQ. cbn. lia. }
  assert (forall e, 1 <= ne_QueueId e -> admin_entry e = false) as Hna.
  { intros e He. unfold admin_entry. rewrite (proj2 (Z.eqb_neq (ne_QueueId e) 0)) by lia. apply andb_false_r. }
  assert (forall hd l, Forall (fun e => 1 <= ne_QueueId e) l -> notified cap hd l = [] /\ last_head hd l = hd /\ Forall (entry_ok cap) l) as Hrest.
  { clear -Hna. intros hd l. induction 1 as [|e l He Hl (I1 & I2 & I3)]; [done|]. cbn [notified last_head]. rewrite (Hna e He). split_and!; try done.
    constructor; [|done]. split; [lia|]. by rewrite (Hna e He). }
  destruct (Hrest (tail_of k 0) _ HF) as (R1 & R2 & R3). cbn [notified last_head]. cbn [admin_entry ne_Type ne_QueueId ne_Index Z.eqb andb].
  rewrite R1, R2, app_nil_r. split; [done|]. split; [done|]. constructor; [|done]. split; [done|]. intros _. exact Ht.
Qed.

(** A function of the driver. *)
Definition driver_set (d : CtrlState) (s : Service) : Service := s <| ms_link ::= fun l => l <| lk_driver := d |> |>.
Definition on_driver {A} (f : M CtrlState A) : M Service A := fun s =>
  match f (lk_driver (ms_link s)) with
  | Ok (a, d) => Ok (a, driver_set d s)
  | Fault => Fault
  | OutOfFuel => OutOfFuel
  end.

(** The driver polls the doorbells of controller [i], then the service polls the notify ring. *)
Definition serve_doorbells (i fuel polls pfuel : nat) : M Service Z :=
  on_driver (on_bus (on_child i (VnvmeProcessDoorbells fuel)));;
  on_engine (CmdEnginePoll polls pfuel).

(** The engine's side of a poll of the driver in which the admin queue was rung. *)
Lemma polled_serviceable k m k' m' n polls pfuel e be :
  polled 0 (n + 1) k m k' m' -> 0 <= n -> told k 0 = true -> 0 <= tail_of k 0 < qd_Capacity (cb_AdminSQ (shm_cb m)) ->
  qd_Capacity (cb_AdminSQ (shm_cb m)) <= qd_Capacity (cb_AdminCQ (shm_cb m)) ->
  idle polls pfuel (mkSv m e be) ->
  let v := mkSv m' e be in let sq := cb_AdminSQ (shm_cb m) in
  serviceable polls pfuel v /\ admin_sq v = sq <| qd_Tail := tail_of k 0 |> /\ admin_cq v = cb_AdminCQ (shm_cb m) /\
  notified (qd_Capacity sq) (qd_Head sq) (ring_contents (shm_ring m')) = admin_pending (qd_Capacity sq) (qd_Head sq) (tail_of k 0) (qd_Head sq) /\
  last_head (qd_Head sq) (ring_contents (shm_ring m')) = tail_of k 0.
Proof.
  intros HD Hn Hr Ht Hcap [[Hok Hinit Hoff Hring Hrounds Hfuel Hhd _ _] Hempty] v sq.
  assert (admin_sq v = sq <| qd_Tail := tail_of k 0 |>) as Esq.
  { pose proof (pl_sq _ _ _ _ _ _ HD 0 ltac:(lia)) as E. rewrite Hr in E. cbn in E. by injection E. }
  assert (admin_cq v = cb_AdminCQ (shm_cb m)) as Ecq.
  { pose proof (pl_cq _ _ _ _ _ _ HD 0 ltac:(lia)) as E. cbn in E. by injection E. }
  cbn [sv_shm] in Hring, Hempty, Hrounds. unfold admin_sq in Hfuel, Hhd. cbn [sv_shm] in Hfuel, Hhd. fold sq in Hfuel, Hhd, Ht, Hcap.
  destruct (push_all_contents (notifications k 0 (n + 1)) (shm_ring m) Hring) as (P1 & P2 & P3). rewrite Hempty in P3. cbn [app length] in P3.
  rewrite <- (pl_ring _ _ _ _ _ _ HD) in P1, P2, P3. rewrite Nat.sub_0_r in P3. pose proof Hring as [Hsz _ _ _].
  destruct (poll_notifications k n (Z.to_nat (nr_Size (shm_ring m) - 1)) (qd_Capacity sq) (qd_Head sq)) as (N1 & N2 & N3); [lia|done|lia|done|].
  rewrite <- P3 in N1, N2, N3. split; [|by split_and!].
  assert (qd_Capacity (admin_sq v) = qd_Capacity sq /\ qd_Offset (admin_sq v) = qd_Offset sq /\ qd_Head (admin_sq v) = qd_Head sq) as (C1 & C2 & C3) by (by rewrite Esq).
  split; rewrite ?C1, ?C3, ?Ecq; change (sv_shm v) with m'; change (sv_engine v) with e; try done.
  - destruct Hok. split; unfold admin_ctx, admin_sq, admin_cq in *; cbn [sv_shm sv_engine] in *; rewrite ?C1, ?C2, ?Ecq; done.
  - apply (pl_user _ _ _ _ _ _ HD).
  - by rewrite P2.
  - rewrite N1. unfold admin_pending. rewrite length_fmap, ring_indices_length by lia.
    pose proof (ring_count_range (qd_Capacity sq) ltac:(lia) (qd_Head sq) (tail_of k 0)). lia.
Qed.

(** C9: what has to happen for a command of the host to be answered, through driver
    and service. Suppose the driver works in user mode with its shared memory and
    notify ring in order, and takes the service to be ready (a mark that this service's
    own request never obtains from this driver: the two disagree on its buffer); the
    controller has its BAR 0, its register pages, its queue arrays and descriptors, and
    is enabled and ready, with CC as it was last seen; the service has the memory
    mapped, and its engine is initialised, in order and idle, with an empty notify ring
    (and [polls] and [pfuel] bound its ring and its submission queue), and the completion queue is at least as large as the submission queue. Suppose the
    host has rung the admin doorbell with a value that is an index of the submission
    queue (for a larger one the service's loop would not end). Then one poll of the
    driver and one poll of the service later both polls have come back, and every admin
    command from the submission queue's head up to the doorbell has its completion in
    the shared completion queue: one for each, in order, from the queue's tail on, with
    the command's identifier and the phase tag the reader expects; the submission queue
    is empty, and the completion queue's tail has moved by the number of commands. *)
Theorem admin_commands_answered (i fuel polls pfuel : nat) (s : Service) (p : VNVME_PDO_CONTEXT) (m : SharedMemory)
    (bar : mem) (n : Z) (e : CMD_ENGINE_CONTEXT) :
  let b := ct_bus (lk_driver (ms_link s)) in let k := view b p in
  let sq := cb_AdminSQ (shm_cb m) in let cq := cb_AdminCQ (shm_cb m) in
  bs_children b !! i = Some p -> user_mode k m -> poll_shape k m n -> fdo_ShmUserVirtAddr <$> bs_fdo b = Some true ->
  pdo_Bar0VirtAddr p = Some bar -> pdo_Registers p = true -> pdo_Doorbells p = true ->
  load_le bar REG_CC 4 = pdo_CachedCC p -> CC_EN (load_le bar REG_CC 4) = true -> CSTS_RDY (load_le bar REG_CSTS 4) = true ->
  ms_CmdEngine s = Some e -> idle polls pfuel (mkSv m e (ms_Backend s)) ->
  service_ready k = true -> rang k 0 = true -> 0 <= tail_of k 0 < qd_Capacity sq -> qd_Capacity sq <= qd_Capacity cq ->
  let count := ring_count (qd_Head sq) (tail_of k 0) (qd_Capacity sq) in
  exists s' m', serve_doorbells i fuel polls pfuel s = Ok (count, s') /\ user_shm (lk_driver (ms_link s')) = Some m' /\
    qd_Head (cb_AdminSQ (shm_cb m')) = qd_Tail (cb_AdminSQ (shm_cb m')) /\
    qd_Tail (cb_AdminCQ (shm_cb m')) = (qd_Tail cq + count) mod qd_Capacity cq /\
    forall j, 0 <= j < count ->
      let c := cpl_load (shm_mem m') (qd_Offset cq + ((qd_Tail cq + j) mod qd_Capacity cq) * 16) in
      cpl_CID c = cmd_CID (cmd_load (shm_mem m) (qd_Offset sq + ((qd_Head sq + j) mod qd_Capacity sq) * 64)) /\
      NVME_STATUS_P (cpl_Status c) = phase_after (qd_Capacity cq) (qd_Tail cq) (ce_adminCqPhase e) j.
Proof.
  intros b k sq cq Hp Hu Hsh Hmap Hbar Hreg Hdb Hcc Hen Hrdy He Hidle Hready Hr Ht Hcap count.
  assert (told k 0 = true) as Htold by (unfold told; by rewrite Hr, Hready).
  destruct (VnvmeProcessDoorbells_user fuel k m bar n Hu Hsh Hbar Hreg Hdb Hcc Hen Hrdy) as (k1 & m1 & Hdrv & HD & _).
  pose proof (ps_count _ _ _ Hsh) as [_ Hn].
  destruct (polled_serviceable k m k1 m1 n polls pfuel e (ms_Backend s) HD ltac:(lia) Htold Ht Hcap Hidle) as (Hsv & Esq & Ecq & En & Eh).
  set (v := mkSv m1 e (ms_Backend s)) in *.
  destruct (CmdEnginePoll_run polls pfuel v Hsv) as (v1 & v2 & Hpoll & HS & _ & _ & _ & _ & _ & Em & Gsq & Gcq).
  assert (qd_Capacity (admin_sq v) = qd_Capacity sq /\ qd_Head (admin_sq v) = qd_Head sq /\ qd_Offset (admin_sq v) = qd_Offset sq) as (C1 & C2 & C3) by (by rewrite Esq).
  rewrite C1, C2 in *. cbn [sv_shm v] in *. fold sq in En, Eh. rewrite En, Eh in *.
  destruct (served_queues _ _ _ _ HS) as (Fsq & Fcq & _).
  pose proof Hidle as [Hserv _]. pose proof (sb_head _ _ _ Hserv) as Hhd. change (admin_sq (mkSv m e (ms_Backend s))) with sq in Hhd.
  assert (Z.of_nat (length (admin_pending (qd_Capacity sq) (qd_Head sq) (tail_of k 0) (qd_Head sq))) = count) as Hlen
    by (unfold admin_pending; by rewrite length_fmap, ring_indices_length by lia).
  rewrite Hlen in *.
  (* the driver's step *)
  set (d1 := (lk_driver (ms_link s)) <| ct_bus := (unview b k1) <| bs_children := <[i := ks_pdo k1]> (bs_children b) |> |>).
  set (s1 := driver_set d1 s).
  assert (on_driver (on_bus (on_child i (VnvmeProcessDoorbells fuel))) s = Ok (existsb (rang k) (seqZ 0 (n + 1)), s1)) as Hstep.
  { unfold on_driver, on_bus, on_child. fold b. rewrite Hp. fold k. by rewrite Hdrv. }
  assert (mapped_shm d1 = Some m1) as Hd1.
  { unfold mapped_shm. pose proof (um_shm _ _ (pl_user _ _ _ _ _ _ HD)) as Hm1. pose proof (pl_mapped _ _ _ _ _ _ HD) as Hm2.
    change (ks_fdo k) with (bs_fdo b) in Hm2. rewrite Hmap in Hm2. unfold VnvmeShmGetControlBlock in Hm1.
    change (bs_fdo (ct_bus d1)) with (ks_fdo k1). destruct (ks_fdo k1) as [f|]; [|done]. cbn in *. injection Hm2 as ->. done. }
  unfold serve_doorbells. rewrite (bind_Ok _ _ _ _ _ Hstep).
  assert (on_engine (CmdEnginePoll polls pfuel) s1 = Ok (count, s1 <| ms_CmdEngine := Some (sv_engine v2) |> <| ms_Backend := sv_backend v2 |>
    <| ms_link ::= fun l => l <| lk_driver ::= set_user_shm (sv_shm v2) |> |>)) as ->.
  { unfold on_engine. change (ms_CmdEngine s1) with (ms_CmdEngine s). change (user_shm (lk_driver (ms_link s1))) with (mapped_shm d1).
    rewrite He, Hd1. change (mkSv m1 e (ms_Backend s1)) with v. by rewrite Hpoll. }
  eexists _, (sv_shm v2). split; [reflexivity|]. split; [exact (shm_store_load (sv_shm v2) m1 d1 Hd1)|].
  change (cb_AdminSQ (shm_cb (sv_shm v2))) with (admin_sq v2). change (cb_AdminCQ (shm_cb (sv_shm v2))) with (admin_cq v2).
  rewrite Gsq, Gcq, Fsq, Fcq, Esq, Ecq. split; [done|]. split; [done|]. intros j Hj. rewrite Em.
  assert (admin_pending (qd_Capacity sq) (qd_Head sq) (tail_of k 0) (qd_Head sq) !! Z.to_nat j = Some ((qd_Head sq + j) mod qd_Capacity sq, qd_Head sq)) as Hj'.
  { unfold admin_pending, ring_indices. rewrite <- list_fmap_compose, list_lookup_fmap, lookup_seqZ_lt by lia. cbn. by replace (0 + Z.of_nat (Z.to_nat j)) with j by lia. }
  destruct (se_answered _ _ _ _ HS _ _ _ Hj') as (A1 & _ & _ & A4). unfold cq_slot in A1, A4. rewrite Z2Nat.id, Ecq in A1, A4 by lia. fold cq in A1, A4.
  split; [|exact A4]. rewrite A1, C3. cbn [sv_shm v]. by rewrite (pl_mem _ _ _ _ _ _ HD).
Qed.

(** ** The driver stops the service *)

(** The driver leaves D0. *)
Definition leave_D0 (s : CtrlState) : CtrlState := final (on_bus VnvmeEvtDeviceD0Exit) s.

Lemma leave_D0_shm s m : mapped_shm s = Some m -> mapped_shm (leave_D0 s) = Some (m <| shm_cb ::= fun cb => cb <| cb_ShutdownRequested := 1 |> |>).
Proof.
  unfold mapped_shm, leave_D0, final, on_bus, VnvmeEvtDeviceD0Exit. destruct s as [[fdo bus ch host cfg t tick] mm]. cbn [ct_bus bs_fdo].
  destruct fdo as [d|]; [|done]. cbn. destruct (fdo_ShmUserVirtAddr d) eqn:Ed; [|done]. intros Hd. unfold on_fdo, view, cb_update, shm_update, fdo_update, modify, mbind, M_bind, bus_update, get, mret, M_ret.
  unset. rewrite Hd. unset. destruct d; cbn in *; subst. by unset.
Qed.

Definition stop_round (tick wait : Z) : Round := mkRound leave_D0 None tick wait.

Lemma stop_round_stops tick wait : stops (stop_round tick wait).
Proof.
  right. intros s m. cbn [rd_system stop_round]. cbn [user_shm driver_device]. intros Hm.
  destruct (mapped_shm s) as [m0|] eqn:E; [rewrite (leave_D0_shm s m0 E) in Hm; injection Hm as <-; by destruct m0 as [[] ? ? ?]|].
  exfalso. revert Hm E. unfold mapped_shm, leave_D0, final, on_bus, VnvmeEvtDeviceD0Exit. destruct s as [[fdo bus ch host cfg t tk] mm]. cbn [ct_bus bs_fdo].
  destruct fdo as [d|]; [|done]. cbn. unfold on_fdo, view, cb_update, shm_update, fdo_update, modify, mbind, M_bind, bus_update, get, mret, M_ret.
  unset. destruct d as [? [] ? ? [] ? ? ? ? ? ?]; by unset.
Qed.

Lemma stop_round_keeps polls fuel tick wait : keeps_service polls fuel (stop_round tick wait).
Proof.
  intros s m e b Hm [[Hok Hi Ho Hr Hn Hf Hh He Hc] _]. eexists. split; [exact (leave_D0_shm s m Hm)|].
  destruct m as [[] ring descs bytes]. unset. cbn in *. split; try done. by destruct Hok; split.
Qed.
End DriverLink.

(** ** Witnesses *)

#[local] Existing Instances TestKernel TestFramework TestFiles.test_files TestFiles.test_file_laws example_files.

(** The state of [Doorbell] in which the host has rung the admin doorbell, with a
    service that has mapped the shared memory: its first command has the identifier 7. *)
Definition link_shm : SharedMemory :=
  test_shm <| shm_mem := cmd_store mem_zero VNVME_OFFSET_ADMIN_SQ (test_io_command NVME_ADMIN_IDENTIFY 1 0) |>.
Definition link_fdo : VNVME_FDO_CONTEXT :=
  (test_fdo link_shm) <| fdo_UserReady := true |> <| fdo_CommandMode := VNVME_CMD_MODE_USER |> <| fdo_ShmUserVirtAddr := true |>.
Definition link_pdo : VNVME_PDO_CONTEXT := ks_pdo (rung_state 1 1 1).
Definition link_driver : CtrlState :=
  mkCtrl (mkBus (Some link_fdo) ((new_fdo_bus 0) <| fb_ControlDevice := true |>) [link_pdo] mem_zero default_config 0 0) mem_zero.
#[local] Instance link_device : ControlDevice := driver_device 0x10000 4 mem_zero.
Definition link_service : Service :=
  mkService (mkLink (D := link_device) link_driver
      (zero_driver_comm <| dc_deviceHandle := 4 |> <| dc_shm := mkShmContext 0x10000 VNVME_SHM_SIZE 0x10000 0 0 0 |>))
    true false zero_config (sv_backend engine_state) (Some (sv_engine engine_state)) initial_logger.

Lemma link_idle : idle 256 64 (mkSv link_shm (sv_engine engine_state) (sv_backend engine_state)).
Proof.
  split; [|by vm_compute]. split; try done. destruct engine_state_ok. by split.
Qed.

Definition link_view : KState := view (ct_bus link_driver) link_pdo.

Lemma link_user : user_mode link_view link_shm.
Proof. split; [reflexivity|reflexivity|exact test_ring_ok|discriminate|discriminate]. Qed.

Lemma link_shape : poll_shape link_view link_shm 1.
Proof. split; [by eexists|by split|by split|]. intros Q HQ. assert (Q = 1) as -> by lia. by eexists. Qed.

Lemma link_registers : load_le (rung_bar 1 1) REG_CC 4 = pdo_CachedCC link_pdo /\ CC_EN (load_le (rung_bar 1 1) REG_CC 4) = true /\
  CSTS_RDY (load_le (rung_bar 1 1) REG_CSTS 4) = true /\ rang link_view 0 = true /\ tail_of link_view 0 = 5.
Proof. by vm_compute. Qed.

(** There are five commands; the slots of the first, and of its completion. *)
Lemma link_slots :
  let sq := cb_AdminSQ (shm_cb link_shm) in let cq := cb_AdminCQ (shm_cb link_shm) in
  0 <= 0 < ring_count (qd_Head sq) 5 (qd_Capacity sq) /\
  qd_Offset cq + (qd_Tail cq + 0) mod qd_Capacity cq * 16 = VNVME_OFFSET_ADMIN_CQ /\
  cmd_CID (cmd_load (shm_mem link_shm) (qd_Offset sq + (qd_Head sq + 0) mod qd_Capacity sq * 64)) = 7.
Proof. vm_compute. repeat split; congruence. Qed.

Lemma admin_commands_answered_witness :
  exists s' m', serve_doorbells 0x10000 4 mem_zero 0 0 256 64 link_service = Ok (5, s') /\ mapped_shm (lk_driver (ms_link s')) = Some m' /\
    cpl_CID (cpl_load (shm_mem m') VNVME_OFFSET_ADMIN_CQ) = 7.
Proof.
  destruct link_registers as (R1 & R2 & R3 & R4 & R5).
  assert (0 <= tail_of link_view 0 < 64) as R6 by (rewrite R5; lia).
  destruct (admin_commands_answered 0x10000 4 mem_zero 0 0 256 64 link_service link_pdo link_shm (rung_bar 1 1) 1 (sv_engine engine_state)
    eq_refl link_user link_shape eq_refl eq_refl eq_refl eq_refl R1 R2 R3 eq_refl link_idle eq_refl R4 R6 ltac:(done)) as (s' & m' & Hrun & Hm & _ & _ & Hans).
  exists s', m'. change (tail_of (view _ _) 0) with (tail_of link_view 0) in Hrun, Hans. rewrite R5 in Hrun, Hans.
  split; [exact Hrun|]. split; [exact Hm|]. destruct link_slots as (L1 & L2 & L3). destruct (Hans 0 L1) as [Hcid _]. rewrite L2, L3 in Hcid. exact Hcid.
Defined.

(** An idle round, with a wait that times out, and then the driver leaves D0. *)
Definition idle_round : @Round link_device := mkRound id None 500 WAIT_TIMEOUT.

Lemma link_alive : alive (idle 256 64) link_service.
Proof.
  split; [exists (sv_engine engine_state), link_shm; split; [reflexivity|split; [reflexivity|exact link_idle]]|discriminate|].
  intros b [= <-]. split; [by vm_compute|by eexists].
Qed.

Lemma idle_round_keeps : keeps_service 256 64 idle_round.
Proof. intros d m e b Hm [Hs _]. exists m. split; [exact Hm|exact Hs]. Qed.

Lemma MainLoop_stops_witness :
  exists n s', MainLoop 256 64 0 [idle_round; stop_round 0x10000 4 mem_zero 600 0] link_service = Ok (n, s') /\ ms_Running s' = false.
Proof.
  destruct (MainLoop_stops 256 64 0 [idle_round] (stop_round 0x10000 4 mem_zero 600 0) [] link_service link_alive eq_refl
    (Forall_cons_2 _ _ _ idle_round_keeps (Forall_cons_2 _ _ _ (stop_round_keeps 0x10000 4 mem_zero 256 64 600 0) (Forall_nil_2 _)))
    (stop_round_stops 0x10000 4 mem_zero 600 0)) as (n & s' & Hrun & Hstop & _).
  exists n, s'. split; [exact Hrun | exact Hstop].
Defined.

(** The service against a driver that waits for it. *)
Definition waiting_driver : CtrlState :=
  mkCtrl (mkBus (Some (link_fdo <| fdo_UserReady := false |> <| fdo_ShmUserVirtAddr := false |>)) ((new_fdo_bus 0) <| fb_ControlDevice := true |>)
    [link_pdo] mem_zero default_config 0 0) mem_zero.
Definition start_outside : @Outside link_device := mkOutside [chars "--log-level"; chars "debug"] true true true true 0 [].

(** It fails with 1, and leaves its command engine behind. *)
Lemma start_run : match main 256 64 start_outside (initial_service (D := link_device) waiting_driver) with
  | Ok (r, s') => (r, match ms_CmdEngine s' with Some _ => true | None => false end, match ms_Backend s' with Some _ => true | None => false end) = (1, true, false)
  | _ => False
  end.
Proof. by vm_compute. Qed.

Lemma service_never_ready_witness :
  exists s', main 256 64 start_outside (initial_service (D := link_device) waiting_driver) = Ok (1, s') /\ is_Some (ms_CmdEngine s') /\
    main 256 64 (with_rounds 0x10000 4 mem_zero [idle_round] start_outside) (initial_service (D := link_device) waiting_driver) = Ok (1, s').
Proof.
  destruct (service_never_ready 0x10000 4 mem_zero 256 64 start_outside (initial_service (D := link_device) waiting_driver)
    (log_set (fun l => l <| lg_level := LOG_LEVEL_DEBUG |>) (ConfigSetDefaults zero_config)) eq_refl) as (Hrounds & Hone & _).
  pose proof start_run as Hrun. specialize (Hrounds [idle_round]).
  destruct (main 256 64 start_outside (initial_service (D := link_device) waiting_driver)) as [[r s']| |] eqn:E; [|by destruct Hrun..].
  specialize (Hone r s' E). subst r. exists s'. split; [reflexivity|]. split; [|exact (eq_trans Hrounds E)].
  injection Hrun as He _. destruct (ms_CmdEngine s') as [e|]; [exact (mk_is_Some _ _ eq_refl)|discriminate He].
Defined.
