(* ===== verification/VnvmeCtl.v ===== *)
(** The command line tool: [vnvmectl/main.c].

    It talks to the driver through [ControlDevice].  A structure it passes is a
    byte memory with its fields at their offsets.  What it prints is a list of
    calls of printf and fprintf: the format, as the source has it, and the values
    of the arguments; [%s] reads an array up to its zero, which has to be in the
    array.  An element of an array of a structure is looked at only after [element]:
    an index outside of the array is undefined behaviour, [Fault].  [argv] is the name of the program and the rest of the words. *)
From S2P Require Import Prelude CLib NvmeSpec State CtrlDev DriverComm.
Open Scope Z_scope.
Open Scope c_scope.

Inductive Arg : Type :=
| AInt (v : Z)
| AStr (s : list Z)
| AFloat (x : double).

Inductive Line : Type :=
| Out (format : string) (args : list Arg)
| Err (format : string) (args : list Arg).

(** What the tool asks of the system: whether there is memory for _strdup, the
    string in UTF-16 with its final zero, [None] when it is longer than the array
    of 260 MultiByteToWideChar is given, and GetLastError, after so many lines. *)
Class CtlSystem := {
  strdup_ok : list Z -> bool;
  utf8_to_wide : list Z -> option (list Z);
  GetLastError : nat -> Z;
}.

Class CtlSystemLaws (C : CtlSystem) := {
  utf8_to_wide_fits s w : utf8_to_wide s = Some w -> (0 < length w <= 260)%nat;
}.

Definition VNVME_DEVICE_PATH : list Z := chars "\\.\VNVMEControl".

(** [strcpy_s] and [strncpy_s(.., _TRUNCATE)] to an array of [size] bytes at [off]. *)
Definition copy_string (m : mem) (off : Z) (s : list Z) : mem := mem_copy m off (bytes_mem (s ++ [0])) 0 (Z.of_nat (length s) + 1).
Definition copy_truncated (m : mem) (off : Z) (size : nat) (s : list Z) : mem := copy_string m off (take (size - 1) s).

(** The string in the [size] bytes at [off]; [None]: there is no zero. *)
Fixpoint string_at (m : mem) (off : Z) (size : nat) : option (list Z) :=
  match size with
  | O => None
  | S size => let c := rd8 m off in if c =? 0 then Some [] else s ← string_at m (off + 1) size; Some (c :: s)
  end.

Definition megabytes (v : Z) : double := double_div (double_of_Z v) (double_of_Z (1024 * 1024)).
Definition hours (v : Z) : double := double_div (double_of_Z v) (double_of_Z (1000 * 60 * 60)).

Section VnvmeCtl.
Context {D : ControlDevice} {C : CtlSystem}.

(** The driver, and what was printed. *)
Record Tool := mkTool {
  tl_driver : Driver;
  tl_out : list Line
}.
Definition etaTool r := mkTool (tl_driver r) (tl_out r).
#[export] Instance set_tl_driver : Setter tl_driver := ltac:(mk_setter etaTool).
#[export] Instance set_tl_out : Setter tl_out := ltac:(mk_setter etaTool).

Definition print (l : Line) : M Tool unit := modify (fun t => t <| tl_out ::= fun out => out ++ [l] |>).
Definition printf (format : string) (args : list Arg) : M Tool unit := print (Out format args).
Definition fprintf_stderr (format : string) (args : list Arg) : M Tool unit := print (Err format args).
(** A message that ends with the error code. *)
Definition print_error (format : string) (args : list Arg) : M Tool unit :=
  t ← get; fprintf_stderr format (args ++ [AInt (GetLastError (length (tl_out t)))]).
(** The argument of a [%s] that is an array of a structure. *)
Definition array_arg (m : mem) (off : Z) (size : nat) : M Tool Arg := s ← of_opt (string_at m off size); mret (AStr s).

(** The element [i] of an array of [n] elements of a structure: undefined outside of it. *)
Definition element (n i : Z) : M Tool unit := if (0 <=? i) && (i <? n) then mret tt else fault.

Fixpoint for_each (l : list Z) (f : Z -> M Tool unit) : M Tool unit :=
  match l with
  | [] => mret tt
  | i :: l => f i;; for_each l f
  end.

Definition OpenVnvmeDevice : M Tool Z :=
  t ← get;
  let '(hDevice, d) := OpenDevice (tl_driver t) in
  modify (fun t => t <| tl_driver := d |>);;
  (if hDevice =? INVALID_HANDLE_VALUE
   then print_error "Error: Failed to open device %ls (Error: %lu)\n" [AStr VNVME_DEVICE_PATH] else mret tt);;
  mret hDevice.

(** What the commands have in common: the device is opened, sent the request and
    closed; [k] continues with the bytes of the output, which are zero before. *)
Definition with_device (failure : string) (code : Z) (input : mem) (insize outsize : Z) (k : mem -> M Tool Z) : M Tool Z :=
  hDevice ← OpenVnvmeDevice;
  if hDevice =? INVALID_HANDLE_VALUE then mret 1
  else
    t ← get;
    r ← of_res (DeviceIoControl (tl_driver t) hDevice code input insize outsize);
    let '(result, bytesReturned, data, d) := r in
    modify (fun t => t <| tl_driver := CloseDevice hDevice d |>);;
    if negb result then print_error failure [];; mret 1
    else k (mem_copy mem_zero 0 data 0 bytesReturned).

(** ** Commands *)

Definition CmdVersion : M Tool Z :=
  printf "Getting driver version...\n" [];;
  with_device "Error: IOCTL_VNVME_GET_VERSION failed (Error: %lu)\n" IOCTL_VNVME_GET_VERSION mem_zero 0 sizeof_VNVME_GET_VERSION_OUTPUT (fun version =>
    printf "VNVME Driver Version: 0x%08X (API: 0x%08X, Build: %u)\n"
      [AInt (load_le version 0 4); AInt (load_le version 4 4); AInt (load_le version 8 4)];;
    mret 0).

Definition driver_status_name (v : Z) : list Z :=
  chars (if v =? 0 then "Initializing" else if v =? 1 then "Ready" else if v =? 2 then "Running"
         else if v =? 3 then "Error" else if v =? 4 then "Stopping" else "Unknown").
Definition user_status_name (v : Z) : list Z :=
  chars (if v =? 0 then "Not Connected" else if v =? 1 then "Connected" else if v =? 2 then "Ready"
         else if v =? 3 then "Error" else "Unknown").
Definition yes_no (v : Z) : Arg := AStr (chars (if v =? 0 then "No" else "Yes")).

Definition CmdStatus : M Tool Z :=
  printf "Getting driver status...\n" [];;
  with_device "Error: IOCTL_VNVME_GET_STATUS failed (Error: %lu)\n" IOCTL_VNVME_GET_STATUS mem_zero 0 sizeof_VNVME_GET_STATUS_OUTPUT (fun status =>
    let f32 off := load_le status off 4 in
    let f64 off := load_le status off 8 in
    printf "Driver Status:\n" [];;
    printf "  Driver State: %u (%s)\n" [AInt (f32 0); AStr (driver_status_name (f32 0))];;
    printf "  User Service State: %u (%s)\n" [AInt (f32 4); AStr (user_status_name (f32 4))];;
    printf "  User Ready: %s\n" [yes_no (f32 24)];;
    printf "  User PID: %u\n" [AInt (f32 28)];;
    printf "\n" [];;
    printf "Shared Memory:\n" [];;
    printf "  Mapped: %s\n" [yes_no (f32 16)];;
    printf "  Size: %u bytes (%.2f MB)\n" [AInt (f32 20); AFloat (megabytes (f32 20))];;
    printf "\n" [];;
    printf "Devices:\n" [];;
    printf "  Controller Count: %u\n" [AInt (f32 8)];;
    printf "  Namespace Count: %u\n" [AInt (f32 12)];;
    printf "\n" [];;
    printf "Statistics:\n" [];;
    printf "  Commands Processed: %llu\n" [AInt (f64 32)];;
    printf "  Completions Posted: %llu\n" [AInt (f64 40)];;
    printf "  Bytes Read: %llu (%.2f MB)\n" [AInt (f64 48); AFloat (megabytes (f64 48))];;
    printf "  Bytes Written: %llu (%.2f MB)\n" [AInt (f64 56); AFloat (megabytes (f64 56))];;
    printf "  Errors: %llu\n" [AInt (f64 64)];;
    printf "\n" [];;
    printf "Timing:\n" [];;
    printf "  Uptime: %llu ms (%.2f hours)\n" [AInt (f64 72); AFloat (hours (f64 72))];;
    printf "  Last Heartbeat: %llu ms ago\n" [AInt (f64 80)];;
    mret 0).

(** One line of the list: entry [i] of the output. *)
Definition print_controller (list : mem) (i : Z) : M Tool unit :=
  element 16 i;;
  let info := 8 + i * sizeof_VNVME_CONTROLLER_INFO in
  ModelNumber ← array_arg list (info + 28) 40;
  SerialNumber ← array_arg list (info + 8) 20;
  printf "  [%u] ID=%u, Status=%u, Model=%s, SN=%s\n"
    [AInt i; AInt (load_le list info 4); AInt (load_le list (info + 4) 4); ModelNumber; SerialNumber].

Definition CmdListControllers : M Tool Z :=
  printf "Listing controllers...\n" [];;
  with_device "Error: IOCTL_VNVME_LIST_CONTROLLERS failed (Error: %lu)\n" IOCTL_VNVME_LIST_CONTROLLERS mem_zero 0
    sizeof_VNVME_LIST_CONTROLLERS_OUTPUT (fun list =>
    let ControllerCount := load_le list 0 4 in
    printf "Controllers (%u total):\n" [AInt ControllerCount];;
    for_each (seqZ 0 (Z.min ControllerCount 16)) (print_controller list);;
    (if ControllerCount =? 0 then printf "  (No controllers created)\n" [] else mret tt);;
    mret 0).

(** What the suffix K, M, G or T stands for. *)
Definition suffix_multiplier (c : Z) : option Z :=
  if (c =? 75) || (c =? 107) then Some 1024
  else if (c =? 77) || (c =? 109) then Some (1024 * 1024)
  else if (c =? 71) || (c =? 103) then Some (1024 * 1024 * 1024)
  else if (c =? 84) || (c =? 116) then Some (1024 * 1024 * 1024 * 1024)
  else None.

Definition ParseSizeString (str : list Z) : Z :=
  match last str with
  | None => 0
  | Some suffix =>
      match suffix_multiplier suffix with
      | Some multiplier => (if strdup_ok str then u64 (atoi64 (take (length str - 1) str)) else 0) *₆₄ multiplier
      | None => u64 (atoi64 str)
      end
  end.

(** VNVME_CREATE_CONTROLLER_INPUT: the offsets of the fields that are set. *)
Definition off_SerialNumber : Z := 0.
Definition off_ModelNumber : Z := 20.
Definition off_FirmwareRevision : Z := 20 + 40.
Definition off_MaxNamespaces : Z := 20 + 40 + 8.
Definition off_MaxQueuePairs : Z := 20 + 40 + 8 + 4.
Definition off_MaxQueueDepth : Z := 20 + 40 + 8 + 4 * 2.
Definition off_MaxTransferSize : Z := 20 + 40 + 8 + 4 * 3.
Definition off_StorageType : Z := 20 + 40 + 8 + 4 * 4.
Definition off_NamespaceSize : Z := 20 + 40 + 8 + 4 * 4 + 4.
Definition off_BlockSize : Z := 20 + 40 + 8 + 4 * 4 + 4 + 8.
Definition off_FilePath : Z := 20 + 40 + 8 + 4 * 4 + 4 + 8 + 4 + 4.

Definition default_controller : mem :=
  let input := store_all [(off_NamespaceSize, 8%nat, 64 * 1024 * 1024); (off_BlockSize, 4%nat, 512); (off_StorageType, 4%nat, 1);
    (off_MaxNamespaces, 4%nat, 1); (off_MaxQueuePairs, 4%nat, 16); (off_MaxQueueDepth, 4%nat, 256);
    (off_MaxTransferSize, 4%nat, 1024 * 1024)] mem_zero in
  let input := copy_string input off_ModelNumber (chars "Virtual NVMe") in
  let input := copy_string input off_SerialNumber (chars "VNVME00001") in
  copy_string input off_FirmwareRevision (chars "1.0.0").

(** The loop over the options; [None]: one of them is wrong. *)
Fixpoint create_options (argv : list (list Z)) (input : mem) : M Tool (option mem) :=
  match argv with
  | [] => mret (Some input)
  | arg :: argv =>
      match strip_prefix (chars "--size=") arg with
      | Some size =>
          let input := store_le input off_NamespaceSize 8 (ParseSizeString size) in
          if load_le input off_NamespaceSize 8 =? 0
          then fprintf_stderr "Error: Invalid size '%s'\n" [AStr size];; mret None
          else create_options argv input
      | None =>
      match strip_prefix (chars "--backend=") arg with
      | Some backend =>
          if strcmp_eq backend (chars "memory") then create_options argv (store_le input off_StorageType 4 1)
          else if strcmp_eq backend (chars "file") then create_options argv (store_le input off_StorageType 4 2)
          else fprintf_stderr "Error: Unknown backend '%s'\n" [AStr backend];; mret None
      | None =>
      match strip_prefix (chars "--file=") arg with
      | Some path =>
          match utf8_to_wide path with
          | None => fprintf_stderr "Error: Invalid file path '%s'\n" [AStr path];; mret None
          | Some w => create_options argv (mem_copy input off_FilePath (wide_mem w) 0 (2 * Z.of_nat (length w)))
          end
      | None =>
      match strip_prefix (chars "--model=") arg with
      | Some model => create_options argv (copy_truncated input off_ModelNumber 40 model)
      | None =>
      match strip_prefix (chars "--serial=") arg with
      | Some serial => create_options argv (copy_truncated input off_SerialNumber 20 serial)
      | None => fprintf_stderr "Error: Unknown option '%s'\n" [AStr arg];; mret None
      end end end end end
  end.

(** [argv] is what follows the command. *)
Definition CmdCreate (argv : list (list Z)) : M Tool Z :=
  options ← create_options argv default_controller;
  match options with
  | None => mret 1
  | Some input =>
      if (load_le input off_StorageType 4 =? 2) && (load_le input off_FilePath 2 =? 0)
      then fprintf_stderr "Error: File backend requires --file=<path>\n" [];; mret 1
      else
        printf "Creating controller...\n" [];;
        (let NamespaceSize := load_le input off_NamespaceSize 8 in
         printf "  Size: %llu bytes (%.2f MB)\n" [AInt NamespaceSize; AFloat (megabytes NamespaceSize)]);;
        printf "  Backend: %s\n" [AStr (chars (if load_le input off_StorageType 4 =? 1 then "memory" else "file"))];;
        (ModelNumber ← array_arg input off_ModelNumber 40; printf "  Model: %s\n" [ModelNumber]);;
        (SerialNumber ← array_arg input off_SerialNumber 20; printf "  Serial: %s\n" [SerialNumber]);;
        with_device "Error: IOCTL_VNVME_CREATE_CONTROLLER failed (Error: %lu)\n" IOCTL_VNVME_CREATE_CONTROLLER
          input sizeof_VNVME_CREATE_CONTROLLER_INPUT sizeof_VNVME_CREATE_CONTROLLER_OUTPUT (fun output =>
          printf "\nController created successfully!\n" [];;
          printf "  Controller ID: %u\n" [AInt (load_le output 0 4)];;
          mret 0)
  end.

Definition CmdDelete (argv : list (list Z)) : M Tool Z :=
  match argv with
  | [] => fprintf_stderr "Usage: vnvmectl delete <controller_id>\n" [];; mret 1
  | id :: _ =>
      let ControllerId := u32 (atoi id) in
      if (ControllerId =? 0) && negb (strcmp_eq id (chars "0"))
      then fprintf_stderr "Error: Invalid controller ID '%s'\n" [AStr id];; mret 1
      else
        printf "Deleting controller %u...\n" [AInt ControllerId];;
        with_device "Error: IOCTL_VNVME_DELETE_CONTROLLER failed (Error: %lu)\n" IOCTL_VNVME_DELETE_CONTROLLER
          (store_le mem_zero 0 4 ControllerId) sizeof_VNVME_DELETE_CONTROLLER_INPUT 0 (fun _ =>
          printf "Controller %u deleted successfully.\n" [AInt ControllerId];;
          mret 0)
  end.

(** The id of the controller, when it is given; 0: all of them. *)
Definition optional_id (argv : list (list Z)) : Z := match argv with [] => 0 | id :: _ => u32 (atoi id) end.
Definition for_whom (ControllerId : Z) : Arg := AStr (chars (if ControllerId =? 0 then " (all controllers)" else " for controller")).

(** Entry [i] of the namespaces of VNVME_GET_STATS_OUTPUT. *)
Definition stats_namespace (i : Z) : Z :=
  24 + VNVME_MAX_STATS_CONTROLLERS * sizeof_VNVME_CONTROLLER_STATS + i * sizeof_VNVME_NAMESPACE_STATS.

Definition print_namespace_row (stats : mem) (i : Z) : M Tool unit :=
  element VNVME_MAX_STATS_NAMESPACES i;;
  let ns := stats_namespace i in
  printf "  %-6u %-8s %-12llu %-10u %-12llu %-12llu\n"
    [AInt (load_le stats ns 4); yes_no (load_le stats (ns + 4) 4); AInt (load_le stats (ns + 8) 8); AInt (load_le stats (ns + 16) 4);
     AInt (load_le stats (ns + 20) 8); AInt (load_le stats (ns + 28) 8)].

Definition CmdListNamespaces (argv : list (list Z)) : M Tool Z :=
  let ControllerId := optional_id argv in
  printf "Listing namespaces%s...\n" [for_whom ControllerId];;
  with_device "Error: IOCTL_VNVME_GET_STATS failed (Error: %lu)\n" IOCTL_VNVME_GET_STATS
    (store_le mem_zero 0 4 ControllerId) sizeof_VNVME_GET_STATS_INPUT sizeof_VNVME_GET_STATS_OUTPUT (fun stats =>
    let TotalNamespaceCount := load_le stats 4 4 in
    printf "\nNamespaces (%u total):\n" [AInt TotalNamespaceCount];;
    printf "  %-6s %-8s %-12s %-10s %-12s %-12s\n"
      [AStr (chars "NSID"); AStr (chars "Active"); AStr (chars "Blocks"); AStr (chars "BlockSize"); AStr (chars "Reads"); AStr (chars "Writes")];;
    printf "  ------ -------- ------------ ---------- ------------ ------------\n" [];;
    for_each (seqZ 0 (Z.min TotalNamespaceCount VNVME_MAX_STATS_NAMESPACES)) (print_namespace_row stats);;
    (if TotalNamespaceCount =? 0 then printf "  (No namespaces created)\n" [] else mret tt);;
    mret 0).

(** VNVME_CREATE_NAMESPACE_INPUT: TotalBlocks is at 8. *)
Fixpoint namespace_options (argv : list (list Z)) (input : mem) : mem :=
  match argv with
  | [] => input
  | arg :: argv =>
      match strip_prefix (chars "--size=") arg with
      | Some size => namespace_options argv (store_le input 8 8 (ParseSizeString size / load_le input 16 4))
      | None => namespace_options argv input
      end
  end.

Definition CmdCreateNamespace (prog : list Z) (argv : list (list Z)) : M Tool Z :=
  match argv with
  | [] =>
      fprintf_stderr "Usage: %s ns-create <controller_id> [options]\n" [AStr prog];;
      fprintf_stderr "Options:\n" [];;
      fprintf_stderr "  --size=<size>  Namespace size (e.g., 64M, 1G)\n" [];;
      mret 1
  | id :: argv =>
      let input := store_all [(0, 4%nat, u32 (atoi id)); (16, 4%nat, 512); (8, 8%nat, 64 * 1024 * 1024 / 512);
        (20, 4%nat, VNVME_NS_FLAG_ENABLED)] mem_zero in
      let input := namespace_options argv input in
      printf "Creating namespace on controller %u (blocks: %llu, block size: %u)...\n"
        [AInt (load_le input 0 4); AInt (load_le input 8 8); AInt (load_le input 16 4)];;
      with_device "Error: IOCTL_VNVME_CREATE_NAMESPACE failed (Error: %lu)\n" IOCTL_VNVME_CREATE_NAMESPACE
        input sizeof_VNVME_CREATE_NAMESPACE_INPUT sizeof_VNVME_CREATE_NAMESPACE_OUTPUT (fun output =>
        printf "Namespace created successfully. NSID: %u\n" [AInt (load_le output 0 4)];;
        mret 0)
  end.

Definition CmdDeleteNamespace (prog : list Z) (argv : list (list Z)) : M Tool Z :=
  match argv with
  | id :: nsid :: _ =>
      let ControllerId := u32 (atoi id) in
      let NSID := u32 (atoi nsid) in
      printf "Deleting namespace %u from controller %u...\n" [AInt NSID; AInt ControllerId];;
      with_device "Error: IOCTL_VNVME_DELETE_NAMESPACE failed (Error: %lu)\n" IOCTL_VNVME_DELETE_NAMESPACE
        (store_all [(0, 4%nat, ControllerId); (4, 4%nat, NSID)] mem_zero) sizeof_VNVME_DELETE_NAMESPACE_INPUT 0 (fun _ =>
        printf "Namespace %u deleted successfully.\n" [AInt NSID];;
        mret 0)
  | _ => fprintf_stderr "Usage: %s ns-delete <controller_id> <nsid>\n" [AStr prog];; mret 1
  end.

Definition print_controller_stats (stats : mem) (i : Z) : M Tool unit :=
  element VNVME_MAX_STATS_CONTROLLERS i;;
  let ctrl := 24 + i * sizeof_VNVME_CONTROLLER_STATS in
  printf "\nController %u:\n" [AInt (load_le stats ctrl 4)];;
  printf "  Namespaces: %u\n" [AInt (load_le stats (ctrl + 4) 4)];;
  printf "  I/O Queues: %u\n" [AInt (load_le stats (ctrl + 40) 4)];;
  printf "  Admin Commands: %llu\n" [AInt (load_le stats (ctrl + 8) 8)];;
  printf "  I/O Commands: %llu\n" [AInt (load_le stats (ctrl + 16) 8)];;
  printf "  Total Read: %llu bytes (%.2f MB)\n" [AInt (load_le stats (ctrl + 24) 8); AFloat (megabytes (load_le stats (ctrl + 24) 8))];;
  printf "  Total Write: %llu bytes (%.2f MB)\n" [AInt (load_le stats (ctrl + 32) 8); AFloat (megabytes (load_le stats (ctrl + 32) 8))];;
  printf "  Polling Interval: %u us\n" [AInt (load_le stats (ctrl + 44) 4)].

Definition print_namespace_stats (stats : mem) (i : Z) : M Tool unit :=
  element VNVME_MAX_STATS_NAMESPACES i;;
  let ns := stats_namespace i in
  let TotalBlocks := load_le stats (ns + 8) 8 in
  let BlockSize := load_le stats (ns + 16) 4 in
  printf "\nNamespace %u:\n" [AInt (load_le stats ns 4)];;
  printf "  Status: %s\n" [AStr (chars (if load_le stats (ns + 4) 4 =? 0 then "Inactive" else "Active"))];;
  printf "  Size: %llu blocks x %u bytes = %.2f MB\n" [AInt TotalBlocks; AInt BlockSize; AFloat (megabytes (TotalBlocks *₆₄ BlockSize))];;
  printf "  Read Commands: %llu (%llu bytes)\n" [AInt (load_le stats (ns + 20) 8); AInt (load_le stats (ns + 44) 8)];;
  printf "  Write Commands: %llu (%llu bytes)\n" [AInt (load_le stats (ns + 28) 8); AInt (load_le stats (ns + 52) 8)];;
  printf "  Flush Commands: %llu\n" [AInt (load_le stats (ns + 36) 8)].

Definition CmdStats (argv : list (list Z)) : M Tool Z :=
  let ControllerId := optional_id argv in
  printf "Getting statistics%s...\n" [for_whom ControllerId];;
  with_device "Error: IOCTL_VNVME_GET_STATS failed (Error: %lu)\n" IOCTL_VNVME_GET_STATS
    (store_le mem_zero 0 4 ControllerId) sizeof_VNVME_GET_STATS_INPUT sizeof_VNVME_GET_STATS_OUTPUT (fun stats =>
    let Uptime := load_le stats 8 8 in
    let ControllerCount := load_le stats 0 4 in
    let TotalNamespaceCount := load_le stats 4 4 in
    printf "\n=== System Statistics ===\n" [];;
    printf "Uptime: %llu ms (%.2f hours)\n" [AInt Uptime; AFloat (hours Uptime)];;
    printf "Controllers: %u\n" [AInt ControllerCount];;
    printf "Namespaces: %u\n" [AInt TotalNamespaceCount];;
    printf "Total Commands: %llu\n" [AInt (load_le stats 16 8)];;
    printf "\n=== Controller Statistics ===\n" [];;
    for_each (seqZ 0 (Z.min ControllerCount VNVME_MAX_STATS_CONTROLLERS)) (print_controller_stats stats);;
    printf "\n=== Namespace Statistics ===\n" [];;
    for_each (seqZ 0 (Z.min TotalNamespaceCount VNVME_MAX_STATS_NAMESPACES)) (print_namespace_stats stats);;
    mret 0).

(** Several lines without arguments. *)
Fixpoint print_text (l : list string) : M Tool unit :=
  match l with
  | [] => mret tt
  | format :: l => printf format [];; print_text l
  end.

Definition CmdDebug (prog : list Z) (argv : list (list Z)) : M Tool Z :=
  match argv with
  | [] =>
      print_text ["Current debug levels:\n"; "  0 - None (errors only)\n"; "  1 - Error\n"; "  2 - Warning\n"; "  3 - Info\n";
                  "  4 - Debug\n"; "  5 - Verbose (all)\n"];;
      printf "\nUsage: %s debug <level> [flags]\n" [AStr prog];;
      print_text ["Flags (hex, can combine):\n"; "  0x0001 - Trace IOCTL\n"; "  0x0002 - Trace Commands\n"; "  0x0004 - Trace DMA\n";
                  "  0x0008 - Trace Queue\n"; "  0xFFFF - Trace All\n"];;
      mret 0
  | level :: argv =>
      let DebugLevel := u32 (atoi level) in
      let DebugFlags := match argv with [] => 0 | flags :: _ => strtoul flags end in
      printf "Setting debug level to %u (flags: 0x%04X)...\n" [AInt DebugLevel; AInt DebugFlags];;
      with_device "Error: IOCTL_VNVME_SET_DEBUG_LEVEL failed (Error: %lu)\n" IOCTL_VNVME_SET_DEBUG_LEVEL
        (store_all [(0, 4%nat, DebugLevel); (4, 4%nat, DebugFlags)] mem_zero) sizeof_VNVME_SET_DEBUG_LEVEL_INPUT 0 (fun _ =>
        printf "Debug level set successfully.\n" [];;
        mret 0)
  end.

(** One test: the result is 1 when it or one before it failed. *)
Definition run_test (result : Z) (test : M Tool Z) (failure : string) : M Tool Z :=
  code ← test;
  result ← (if negb (code =? 0) then printf failure [];; mret 1 else printf "PASSED\n" [];; mret result);
  printf "\n" [];;
  mret result.

Definition CmdTest : M Tool Z :=
  printf "=== VNVME Driver Test Suite ===\n\n" [];;
  print_text ["Test 1: Get Version\n"; "--------------------\n"];;
  result ← run_test 0 CmdVersion "FAILED: Could not get version\n";
  print_text ["Test 2: Get Status\n"; "------------------\n"];;
  result ← run_test result CmdStatus "FAILED: Could not get status\n";
  print_text ["Test 3: List Controllers\n"; "------------------------\n"];;
  result ← run_test result CmdListControllers "FAILED: Could not list controllers\n";
  printf "=== Test Summary ===\n" [];;
  printf (if result =? 0 then "All tests PASSED\n" else "Some tests FAILED\n") [];;
  mret result.

Definition PrintUsage (prog : list Z) : M Tool unit :=
  printf "VNVME Command Line Tool\n" [];;
  printf "Usage: %s <command> [options]\n" [AStr prog];;
  print_text ["\n"; "Commands:\n";
    "  version     - Show driver version\n"; "  status      - Show driver status\n"; "  list        - List controllers\n";
    "  create      - Create a new controller\n"; "  delete      - Delete a controller\n"; "  ns-list     - List namespaces\n";
    "  ns-create   - Create a namespace\n"; "  ns-delete   - Delete a namespace\n"; "  stats       - Show detailed statistics\n";
    "  debug       - Set debug level\n"; "  test        - Run test suite\n"; "  help        - Show this help\n"; "\n";
    "Create Controller Options:\n"; "  --size=<size>       Namespace size (e.g., 64M, 1G, 256M)\n";
    "  --backend=<type>    Backend type: memory (default), file\n"; "  --file=<path>       File path (required for file backend)\n";
    "  --model=<name>      Controller model name\n"; "  --serial=<sn>       Controller serial number\n"; "\n";
    "Namespace Commands:\n"; "  ns-list [controller_id]          List namespaces\n"; "  ns-create <controller_id> [--size=<size>]\n";
    "  ns-delete <controller_id> <nsid>\n"; "\n"; "Debug Command:\n"; "  debug <level> [flags]  Set debug level (0-5) and flags\n"; "\n";
    "Examples:\n"];;
  printf "  %s create --size=128M                    # 128MB memory backend\n" [AStr prog];;
  printf "  %s create --backend=file --file=disk.img --size=1G\n" [AStr prog];;
  printf "  %s delete 1                              # Delete controller 1\n" [AStr prog];;
  printf "  %s ns-create 1 --size=64M                # Create 64MB namespace\n" [AStr prog];;
  printf "  %s stats                                 # Show all statistics\n" [AStr prog];;
  printf "  %s debug 4 0xFFFF                        # Enable all debug traces\n" [AStr prog];;
  printf "\n" [].

(** main of the tool: [prog] is argv[0], [argv] the rest. *)
Definition vnvmectl_main (prog : list Z) (argv : list (list Z)) : M Tool Z :=
  match argv with
  | [] => PrintUsage prog;; mret 0
  | command :: argv =>
      let named (name : string) := stricmp_eq command (chars name) in
      if named "version" then CmdVersion
      else if named "status" then CmdStatus
      else if named "list" then CmdListControllers
      else if named "create" then CmdCreate argv
      else if named "delete" then CmdDelete argv
      else if named "ns-list" then CmdListNamespaces argv
      else if named "ns-create" then CmdCreateNamespace prog argv
      else if named "ns-delete" then CmdDeleteNamespace prog argv
      else if named "stats" then CmdStats argv
      else if named "debug" then CmdDebug prog argv
      else if named "test" then CmdTest
      else if named "help" || named "-h" || named "--help" then PrintUsage prog;; mret 0
      else fprintf_stderr "Unknown command: %s\n" [AStr command];; PrintUsage prog;; mret 1
  end.
End VnvmeCtl.

#[export] Hint Unfold set_tl_driver set_tl_out : setters.
