(* ===== verification/CtlLink.v ===== *)
(** The command line tool and the driver together: [VnvmeCtl] on the control
    device of [DriverLink]. *)
From S2P Require Import Prelude CLib NvmeSpec Kernel Config Storage State Shm Prp Pdo Bus CtrlDev CtrlSafe CtrlNs DriverComm DriverLink VnvmeCtl.
Open Scope Z_scope.
Open Scope c_scope.

(** ** Sizes *)

Section Sizes.
Context {C : CtlSystem}.

Lemma suffix_multiplier_digit c : 48 <= c <= 57 -> suffix_multiplier c = None.
Proof.
  intros Hc. unfold suffix_multiplier.
  repeat match goal with |- context [?a =? ?b] => rewrite (proj2 (Z.eqb_neq a b)) by lia end. done.
Qed.

(** A number with a suffix: it is multiplied, modulo 2^64; a failed _strdup makes it 0. *)
Lemma ParseSizeString_suffix n c multiplier :
  0 <= n < 2 ^ 63 -> suffix_multiplier c = Some multiplier -> strdup_ok (numeral n ++ [c]) = true ->
  ParseSizeString (numeral n ++ [c]) = u64 (n * multiplier).
Proof.
  intros Hn Hc Hd. unfold ParseSizeString. rewrite last_snoc, Hc, Hd, length_app, Nat.add_sub, take_app_length.
  rewrite atoi64_numeral, (u64_small n) by lia. done.
Qed.

Lemma ParseSizeString_numeral n : 0 <= n < 2 ^ 63 -> ParseSizeString (numeral n) = n.
Proof.
  intros Hn. unfold ParseSizeString. destruct (digits_numeral n [] (proj1 Hn) I) as (_ & HF & Hne).
  destruct (last (numeral n)) as [c|] eqn:E; [|by apply last_None in E].
  apply last_Some in E as [l E]. pose proof (proj1 (Forall_lookup _ _) HF (length l) c) as Hc.
  rewrite E, lookup_app_r, Nat.sub_diag in Hc by done. rewrite suffix_multiplier_digit by by apply Hc.
  rewrite atoi64_numeral by done. apply u64_small. lia.
Qed.
End Sizes.

(** ** Strings in the structures *)

Lemma string_at_some size : forall m off a, off <= a < off + Z.of_nat size -> rd8 m a = 0 -> is_Some (string_at m off size).
Proof.
  induction size as [|size IH]; intros m off a Ha H0; [lia|]. cbn [string_at]. cbv zeta.
  destruct (Z.eqb_spec (rd8 m off) 0) as [|Hne]; [done|].
  destruct (IH m (off + 1) a) as [s ->]; [|done|done]. assert (a <> off) by congruence. lia.
Qed.

(** What [copy_truncated] leaves is terminated when it was before. *)
Lemma copy_truncated_last m off size s :
  (0 < size)%nat -> rd8 m (off + Z.of_nat size - 1) = 0 -> rd8 (copy_truncated m off size s) (off + Z.of_nat size - 1) = 0.
Proof.
  intros Hs Hm. unfold copy_truncated, copy_string. set (l := take (size - 1) s).
  pose proof (length_take_le s (size - 1)). assert (length l <= size - 1)%nat as Hl by (unfold l; rewrite length_take; lia).
  destruct (decide (length l = size - 1)%nat) as [E|E].
  - rewrite rd8_copy_in by lia. unfold rd8, bytes_mem. rewrite (proj2 (Z.ltb_ge _ _)) by lia.
    replace (Z.to_nat _) with (length l) by lia. by rewrite lookup_total_app_r, Nat.sub_diag by done.
  - by rewrite rd8_copy_out by lia.
Qed.

Lemma copy_truncated_out m off size s a :
  (0 < size)%nat -> ~ (off <= a < off + Z.of_nat size) -> rd8 (copy_truncated m off size s) a = rd8 m a.
Proof.
  intros Hs Ha. unfold copy_truncated, copy_string. assert (length (take (size - 1) s) <= size - 1)%nat by (rewrite length_take; lia).
  apply rd8_copy_out. lia.
Qed.

(** The model number and the serial number of the request are terminated. *)
Definition names_end (m : mem) : Prop := rd8 m (off_SerialNumber + 19) = 0 /\ rd8 m (off_ModelNumber + 39) = 0.

Lemma default_controller_names : names_end default_controller.
Proof. by vm_compute. Qed.

Lemma names_end_other m m' : names_end m -> (forall a, a < 60 -> rd8 m' a = rd8 m a) -> names_end m'.
Proof. intros [H1 H2] H. unfold names_end, off_SerialNumber, off_ModelNumber in *. by rewrite !H by lia. Qed.

Lemma names_end_model m s : names_end m -> names_end (copy_truncated m off_ModelNumber 40 s).
Proof.
  unfold names_end, off_SerialNumber, off_ModelNumber. intros [H1 H2]. split; [by rewrite copy_truncated_out by lia|].
  by apply (copy_truncated_last m 20 40 s); [lia|].
Qed.

Lemma names_end_serial m s : names_end m -> names_end (copy_truncated m off_SerialNumber 20 s).
Proof.
  unfold names_end, off_SerialNumber, off_ModelNumber. intros [H1 H2]. split; [|by rewrite copy_truncated_out by lia].
  by apply (copy_truncated_last m 0 20 s); [lia|].
Qed.

(** ** The list of controllers *)

Section List.
Context {W : WinKernel} {FW : WdfFramework}.

(** The last bytes of the names in the output are zero. *)
Definition info_names (rq : WDFREQUEST) (m : mem) : Prop :=
  forall j, 0 <= j < 16 -> let info := rq_Output rq + (8 + j * sizeof_VNVME_CONTROLLER_INFO) in
    rd8 m (info + 8 + 19) = 0 /\ rd8 m (info + 28 + 39) = 0.

(** [m] keeps them zero. *)
Definition keeps_names {A} (rq : WDFREQUEST) (m : M CtrlState A) : Prop :=
  forall s a s', m s = Ok (a, s') -> info_names rq (ct_mem s) -> info_names rq (ct_mem s').

Context (rq : WDFREQUEST).

Lemma names_bind {A B} (m : M CtrlState A) (f : A -> M CtrlState B) :
  keeps_names rq m -> (forall a, keeps_names rq (f a)) -> keeps_names rq (m ≫= f).
Proof. intros Hm Hf s b s' (a & s1 & E1 & E2)%bind_inv H. eapply Hf; [exact E2|]. by eapply Hm. Qed.

Lemma names_ret {A} (a : A) : keeps_names rq (mret a).
Proof. by intros s b s' [= <- <-]. Qed.

(** A change of bytes that are not the last ones of a name. *)
Lemma names_modify off n (g : mem -> mem) :
  (forall m a, ~ (rq_Output rq + off <= a < rq_Output rq + off + n) -> rd8 (g m) a = rd8 m a) ->
  (forall j, 0 <= j < 16 -> let info := 8 + j * sizeof_VNVME_CONTROLLER_INFO in
     ~ (off <= info + 8 + 19 < off + n) /\ ~ (off <= info + 28 + 39 < off + n)) ->
  keeps_names rq (if in_block (rq_OutputBufferLength rq) off n then modify (fun s => s <| ct_mem ::= g |>) else fault).
Proof.
  intros Hg Ho s a s' E H. destruct (in_block _ _ _); [|done]. injection E as <- <-. destruct s as [b m]. intros j Hj. cbv zeta.
  destruct (Ho j Hj) as [H1 H2]. destruct (H j Hj) as [H3 H4]. cbn. rewrite !Hg by lia. done.
Qed.

Lemma names_outputs l :
  Forall (fun st => forall j, 0 <= j < 16 -> let info := 8 + j * sizeof_VNVME_CONTROLLER_INFO in
    ~ (st.1.1 <= info + 8 + 19 < st.1.1 + Z.of_nat st.1.2) /\ ~ (st.1.1 <= info + 28 + 39 < st.1.1 + Z.of_nat st.1.2)) l ->
  keeps_names rq (outputs rq l).
Proof.
  induction 1 as [|[[off n] v] l Ho Hl IH]; [apply names_ret|]. apply names_bind; [|intros; apply IH].
  apply names_modify; [|done]. intros m a Ha. by apply rd8_store_out.
Qed.

Lemma list_controllers_names l index : 0 <= index -> keeps_names rq (list_controllers rq l index).
Proof.
  revert index. induction l as [|p l IH]; intros index Hi; cbn [list_controllers]; [apply names_ret|].
  destruct (index <? 16); [|apply names_ret]. cbv zeta.
  apply names_bind; [|intros _; apply names_bind; [|intros _; apply names_bind; [|intros _; apply IH; lia]]].
  - apply names_outputs. sizes. repeat (constructor; [cbn [fst snd]; cbv zeta; lia|]). constructor.
  - apply names_modify; [intros m a Ha; by apply rd8_copy_out | sizes; cbv zeta; lia].
  - apply names_modify; [intros m a Ha; by apply rd8_copy_out | sizes; cbv zeta; lia].
Qed.

(** The names in the answer to IOCTL_VNVME_LIST_CONTROLLERS are terminated. *)
Lemma VnvmeHandleListControllers_names s r s' :
  VnvmeHandleListControllers rq s = Ok (r, s') -> NT_SUCCESS r.1 = true -> info_names rq (ct_mem s').
Proof.
  unfold VnvmeHandleListControllers, with_fdo, check_output, retrieve_output. rewrite bind_get.
  destruct (bs_fdo _); [|by intros [= <- <-]]. destruct (_ <? _); [by intros [= <- <-]|].
  destruct (NT_SUCCESS (rq_OutputStatus rq)) eqn:E; cbn [negb]; [|intros [= <- <-]; cbn; congruence].
  intros (u & s1 & E1 & H)%bind_inv _. assert (info_names rq (ct_mem s1)) as H1.
  { unfold output_zero in E1. destruct (in_block _ _ _); [|done]. injection E1 as _ <-. destruct s as [b m]. intros j Hj. cbv zeta. cbn.
    sizes. rewrite !rd8_fill_in by lia. done. }
  revert H H1. apply (names_bind get); [by intros ? ? ? [= _ <-]|]. intros s2. apply names_bind; [by apply list_controllers_names|].
  intros index. apply names_bind; [|intros; apply names_ret]. apply names_modify; [intros m a Ha; by apply rd8_store_out|].
  sizes. cbv zeta. lia.
Qed.
End List.

(** ** What the tool cannot ask, and what it is not told *)

Section Unused.
Context {W : WinKernel} {FW : WdfFramework}.

(** The configuration in a request to create a controller is not looked at: the
    driver does the same whatever is in the buffer. *)
Lemma VnvmeHandleCreateController_unused rq b m1 m2 r s1 :
  VnvmeHandleCreateController rq (mkCtrl b m1) = Ok (r, s1) ->
  exists s2, VnvmeHandleCreateController rq (mkCtrl b m2) = Ok (r, s2) /\ ct_bus s2 = ct_bus s1.
Proof.
  unfold VnvmeHandleCreateController, with_fdo, check_input, check_output, retrieve_input, retrieve_output. rewrite !bind_get. cbn [ct_bus].
  destruct (bs_fdo b); [|by intros [= <- <-]; eexists].
  destruct (_ <? _); [by intros [= <- <-]; eexists|]. destruct (_ <? _); [by intros [= <- <-]; eexists|].
  destruct (negb _); [by intros [= <- <-]; eexists|]. destruct (negb _); [by intros [= <- <-]; eexists|].
  unfold on_bus, mbind, M_bind. cbn [ct_bus]. destruct (take_id b) as [[id b1]| |]; [|done..]. unset.
  destruct (VnvmeCreateVirtualController id b1) as [[st b2]| |]; [|done..]. unset.
  destruct (negb _); [by intros [= <- <-]; eexists|]. unfold output, output_zero, output_copy, modify, fault.
  destruct (in_block _ 0 _); [|done]. destruct (in_block _ 4 400); [|done]. destruct (RtlStringCbPrintfW _ _) as [st' text].
  destruct (in_block _ _ _); [|done]. intros [= <- <-]. by eexists.
Qed.

(** IOCTL_VNVME_GET_STATUS does not set UserReady, UserPid, CompletionsPosted,
    BytesRead, BytesWritten, UptimeMs and LastHeartbeatMs: what is in the buffer
    of the system is reported. *)
Lemma VnvmeHandleGetStatus_unset rq s r s' off n :
  VnvmeHandleGetStatus rq s = Ok (r, s') -> (off, n) ∈ [(24, 4%nat); (28, 4%nat); (40, 8%nat); (48, 8%nat); (56, 8%nat); (72, 8%nat); (80, 8%nat)] ->
  load_le (ct_mem s') (rq_Output rq + off) n = load_le (ct_mem s) (rq_Output rq + off) n.
Proof.
  unfold VnvmeHandleGetStatus, with_fdo, check_output, retrieve_output. rewrite bind_get.
  destruct (bs_fdo _); [|by intros [= _ <-]]. destruct (_ <? _); [by intros [= _ <-]|]. destruct (negb _); [by intros [= _ <-]|].
  rewrite bind_get. cbv zeta. cbn [outputs]. unfold output. intros H Hin.
  repeat match type of H with context [if in_block ?a ?b ?c then _ else _] => destruct (in_block a b c); [|discriminate H] end.
  injection H as _ <-. destruct s as [b m]. unset.
  repeat (apply elem_of_cons in Hin as [[= -> ->]|Hin]; [by rewrite !load_store_le_other by lia|]). by apply not_elem_of_nil in Hin.
Qed.
End Unused.

(** ** Every command *)

Section CtlLink.
Context {W : WinKernel} {FW : WdfFramework} {C : CtlSystem} {CL : CtlSystemLaws C}.
Variables (userAddress control_handle : Z) (fresh : mem).

Definition ctl_device : ControlDevice := driver_device userAddress control_handle fresh.
#[local] Existing Instance ctl_device.

Definition tool_bus (t : Tool) : BusState := ct_bus (tl_driver t).

(** From a well-formed driver, [m] does not go wrong, leaves it well formed,
    changes the controllers by the steps of the bus, and prints lines; its result
    and the lines satisfy [Q]. *)
Definition runs {A} (Q : A -> list Line -> Prop) (m : M Tool A) : Prop :=
  forall t, ctl_inv (tl_driver t) -> wp m t (fun a t' =>
    exists l, tl_out t' = tl_out t ++ l /\ Q a l /\ ctl_inv (tl_driver t') /\ bus_steps (tool_bus t) (tool_bus t')).

Definition is_error (l : Line) : Prop := match l with Err _ _ => True | Out _ _ => False end.
(** An exit code: 0, or 1 after an error message. *)
Definition exit_code (code : Z) (l : list Line) : Prop := code = 0 \/ code = 1 /\ Exists is_error l.

Lemma bus_steps_refl b : bus_steps b b.
Proof. intros n. by exists n. Qed.
Lemma bus_steps_trans b1 b2 b3 : bus_steps b1 b2 -> bus_steps b2 b3 -> bus_steps b1 b3.
Proof. intros H1 H2 n. destruct (H1 n) as [n' E1]. destruct (H2 n') as [n'' E2]. exists n''. by etrans. Qed.

Lemma runs_ret {A} (Q : A -> list Line -> Prop) a : Q a [] -> runs Q (mret a).
Proof. intros H t Ht. apply wp_ret. exists []. split_and!; [by rewrite app_nil_r|done|done|apply bus_steps_refl]. Qed.

Lemma runs_bind {A B} (P : A -> list Line -> Prop) (Q : B -> list Line -> Prop) (m : M Tool A) f :
  runs P m -> (forall a l, P a l -> runs (fun b l' => Q b (l ++ l')) (f a)) -> runs Q (m ≫= f).
Proof.
  intros Hm Hf t Ht. apply wp_bind. eapply wp_mono; [by apply Hm|]. intros a t1 (l1 & E1 & Ha & Ht1 & B1). cbn.
  eapply wp_mono; [by apply (Hf a l1)|]. intros b t2 (l2 & E2 & Hb & Ht2 & B2).
  exists (l1 ++ l2). split_and!; [by rewrite E2, E1, app_assoc|done|done|by eapply bus_steps_trans].
Qed.

Lemma runs_mono {A} (P Q : A -> list Line -> Prop) m : runs P m -> (forall a l, P a l -> Q a l) -> runs Q m.
Proof. intros Hm H t Ht. eapply wp_mono; [by apply Hm|]. intros a t' (l & E & Ha & R1 & R2). exists l. split_and!; [done|by apply H|done..]. Qed.

Lemma runs_get {A} (Q : A -> list Line -> Prop) f : (forall t : Tool, runs Q (f t)) -> runs Q (get ≫= f).
Proof. intros H t Ht. unfold wp. rewrite bind_get. by apply H. Qed.

Lemma runs_print line : runs (fun _ l => l = [line]) (print line).
Proof. intros [d o] Ht. apply wp_modify. exists [line]. split_and!; [done|done|done|apply bus_steps_refl]. Qed.

(** An exit code stays one after more lines. *)
Lemma exit_code_app code l l' : exit_code code l' -> exit_code code (l ++ l').
Proof. intros [|[]]; [by left|right]. split; [done|]. apply Exists_app. by right. Qed.

Lemma exit_code_before code l l' : exit_code code l -> exit_code code (l ++ l').
Proof. intros [|[]]; [by left|right]. split; [done|]. apply Exists_app. by left. Qed.

Lemma runs_then {A} (P : A -> list Line -> Prop) m k : runs P m -> (forall a, runs exit_code (k a)) -> runs exit_code (m ≫= k).
Proof. intros Hm Hk. eapply runs_bind; [exact Hm|]. intros a l _. eapply runs_mono; [apply Hk|]. intros. by apply exit_code_app. Qed.

Lemma runs_printf format args k : runs exit_code k -> runs exit_code (printf format args;; k).
Proof. intros. by eapply runs_then; [apply runs_print|]. Qed.

Lemma runs_error format args : runs exit_code (fprintf_stderr format args;; mret 1).
Proof. eapply runs_bind; [apply runs_print|]. intros _ l ->. apply runs_ret. right. split; [done|]. by constructor. Qed.

Lemma runs_print_error format args : runs exit_code (print_error format args;; mret 1).
Proof. intros t. unfold wp, print_error. apply (runs_error format _ t). Qed.

Lemma runs_array_arg {A} (Q : A -> list Line -> Prop) m off size a k :
  off <= a < off + Z.of_nat size -> rd8 m a = 0 -> (forall arg, runs Q (k arg)) -> runs Q (array_arg m off size ≫= k).
Proof.
  intros Ha H0 Hk. destruct (string_at_some size m off a Ha H0) as [s Hs]. intros t Ht. unfold wp, array_arg. rewrite Hs. by apply Hk.
Qed.

Lemma runs_element {A} (Q : A -> list Line -> Prop) n i k : 0 <= i < n -> runs Q k -> runs Q (element n i;; k).
Proof. intros Hi Hk t. unfold element. rewrite (proj2 (Z.leb_le _ _)), (proj2 (Z.ltb_lt _ _)) by lia. exact (Hk t). Qed.

Lemma runs_for_each l f : (forall i, i ∈ l -> runs (fun _ _ => True) (f i)) -> runs (fun _ _ => True) (for_each l f).
Proof.
  induction l as [|i l IH]; intros Hf; [by apply runs_ret|]. eapply runs_bind; [apply Hf; left|]. intros _ ? _.
  eapply runs_mono; [apply IH; intros j Hj; apply Hf; by right | done].
Qed.

Lemma runs_text l : runs (fun _ _ => True) (print_text l).
Proof. induction l as [|x l IH]; [by apply runs_ret|]. eapply runs_bind; [apply runs_print|]. intros. by eapply runs_mono. Qed.

Lemma runs_open : runs (fun h l => h = INVALID_HANDLE_VALUE -> Exists is_error l) OpenVnvmeDevice.
Proof.
  intros [d o] Ht. unfold OpenVnvmeDevice, wp. rewrite bind_get. cbn [OpenDevice ctl_device driver_device tl_driver].
  set (h := if fb_ControlDevice (bs_bus (ct_bus d)) then control_handle else INVALID_HANDLE_VALUE). rewrite bind_modify. destruct (Z.eqb_spec h INVALID_HANDLE_VALUE) as [Hh|Hh]; cbn [print_error].
  - eexists. split_and!; [reflexivity| |done|apply bus_steps_refl]. intros _. by constructor.
  - exists []. split_and!; [by rewrite app_nil_r|done|done|apply bus_steps_refl].
Qed.

(** A request to the driver; what is known of the output is [P]. *)
Lemma runs_device failure code input insize outsize k (P : mem -> Prop) :
  safe (request_of insize outsize) (VnvmeEvtIoDeviceControl userAddress (request_of insize outsize) code) ->
  (forall s r s', VnvmeEvtIoDeviceControl userAddress (request_of insize outsize) code s = Ok (r, s') -> NT_SUCCESS r.1 = true ->
     P (mem_copy mem_zero 0 (ct_mem s') 0 r.2)) ->
  (forall data, P data -> runs exit_code (k data)) ->
  runs exit_code (with_device failure code input insize outsize k).
Proof.
  intros Hreq HP Hk. unfold with_device. eapply runs_bind; [apply runs_open|]. intros h l Hl.
  destruct (Z.eqb_spec h INVALID_HANDLE_VALUE) as [Hh|_].
  { apply runs_ret. right. split; [done|]. rewrite app_nil_r. by apply Hl. }
  eapply runs_mono; [|intros ? ?; apply exit_code_app]. intros t Ht. unfold wp. rewrite bind_get. cbn [DeviceIoControl ctl_device driver_device].
  unfold driver_ioctl. destruct (negb (h =? control_handle)).
  { rewrite (bind_res _ _ _ _ eq_refl), bind_modify. cbn [negb]. destruct t as [d o]. by apply runs_print_error. }
  set (s0 := (tl_driver t) <| ct_mem := _ |>). assert (ctl_inv s0 /\ ct_bus s0 = tool_bus t) as [Hs0 Eb] by (subst s0; unfold tool_bus; by destruct (tl_driver t)).
  destruct (wp_elim _ _ _ (Hreq s0 Hs0)) as (r & s' & E & _ & Hs' & _ & Hb). rewrite E, (bind_res _ _ _ _ eq_refl), bind_modify.
  rewrite Eb in Hb. destruct t as [d o]. set (t' := mkTool (D := ctl_device) s' o).
  assert (forall k', runs exit_code k' -> wp k' t' (fun a t2 => exists l, tl_out t2 = o ++ l /\ exit_code a l /\ ctl_inv (tl_driver t2) /\
    bus_steps (ct_bus d) (tool_bus t2))) as Hrun.
  { intros k' Hk'. eapply wp_mono; [by apply (Hk' t')|]. intros a t2 (l2 & H1 & H2 & H3 & H4). exists l2. split_and!; [done..|].
    by eapply bus_steps_trans. }
  destruct (NT_SUCCESS r.1) eqn:Er; cbn [negb].
  - apply Hrun, Hk. by eapply HP.
  - apply Hrun, runs_print_error.
Qed.
(** A request whose output may be anything. *)
Lemma runs_request failure code input insize outsize k :
  safe (request_of insize outsize) (VnvmeEvtIoDeviceControl userAddress (request_of insize outsize) code) ->
  (forall data, runs exit_code (k data)) -> runs exit_code (with_device failure code input insize outsize k).
Proof. intros H Hk. by apply (runs_device _ _ _ _ _ _ (fun _ => True)); [|done|]. Qed.

Lemma runs_success : runs exit_code (mret 0).
Proof. apply runs_ret. by left. Qed.

Lemma runs_printf_last format args : runs (fun _ _ => True) (printf format args).
Proof. by eapply runs_mono; [apply runs_print|]. Qed.

(** A command, one call at a time. *)
Ltac runs_step :=
  lazymatch goal with
  | |- runs exit_code (printf _ _;; _) => apply runs_printf
  | |- runs exit_code (fprintf_stderr _ _;; mret 1) => apply runs_error
  | |- runs exit_code (fprintf_stderr _ _;; _) => eapply runs_then; [apply runs_print | intros _]
  | |- runs exit_code (mret 0) => apply runs_success
  | |- runs exit_code (for_each _ _;; _) => eapply runs_then; [apply runs_for_each; intros ? ?%elem_of_seqZ | intros _]
  | |- runs _ (element _ _;; _) => apply runs_element; [lia|]
  | |- runs exit_code (print_text _;; _) => eapply runs_then; [apply runs_text | intros _]
  | |- runs exit_code ((if _ then printf _ _ else mret tt);; _) => case_match; [apply runs_printf | match goal with |- runs _ (_;; ?k) => change (runs exit_code k) end]
  | |- runs (fun _ _ => True) (printf _ _) => apply runs_printf_last
  | |- runs (fun _ _ => True) (printf _ _;; _) => eapply runs_bind; [apply runs_print | intros _ ? _]
  | |- runs exit_code (if _ then _ else _) => case_match
  | |- runs exit_code (with_device _ _ _ _ _ _) => apply runs_request; [|intros ?]
  end.
Ltac runs_all := cbv beta zeta; repeat (runs_step; cbv beta zeta).

Lemma CmdVersion_runs : runs exit_code CmdVersion.
Proof. unfold CmdVersion. runs_all. apply quiet_safe, VnvmeHandleGetVersion_quiet. Qed.

Lemma CmdStatus_runs : runs exit_code CmdStatus.
Proof. unfold CmdStatus. runs_all. apply quiet_safe, VnvmeHandleGetStatus_quiet. Qed.
Lemma CmdListControllers_runs : runs exit_code CmdListControllers.
Proof.
  unfold CmdListControllers. cbv beta. apply runs_printf.
  apply runs_device with (P := info_names (request_of 0 sizeof_VNVME_LIST_CONTROLLERS_OUTPUT)).
  - apply quiet_safe, VnvmeHandleListControllers_quiet.
  - intros s r s' E Hr j Hj. destruct (VnvmeHandleListControllers_names _ _ _ _ E Hr j Hj) as [H1 H2]. cbv zeta in *. cbn [rq_Output request_of] in *.
    split; match goal with |- rd8 _ ?a = 0 => destruct (decide (0 <= a < 0 + r.2)) end;
      first [rewrite rd8_copy_in by done | by rewrite rd8_copy_out by done]; by rewrite Z.sub_0_r.
  - intros data Hd. cbv zeta. apply runs_printf. eapply runs_then.
    + apply runs_for_each. intros i Hi%elem_of_seqZ. destruct (Hd i) as [H1 H2]; [lia|]. cbv zeta in *. cbn [rq_Output request_of] in *.
      unfold print_controller. cbv zeta. apply runs_element; [lia|]. eapply runs_array_arg; [|exact H2|intros model]; [lia|]. eapply runs_array_arg; [|exact H1|intros serial]; [lia|].
      apply runs_printf_last.
    + intros _. runs_all.
Qed.

(** The options: an error message, or a request with terminated names. *)
Lemma create_options_runs argv : forall input, names_end input ->
  runs (fun o l => match o with Some input => names_end input | None => Exists is_error l end) (create_options argv input).
Proof.
  assert (forall format args, runs (fun (o : option mem) l => match o with Some input => names_end input | None => Exists is_error l end)
    (fprintf_stderr format args;; mret None)) as Herr.
  { intros. eapply runs_bind; [apply runs_print|]. intros _ l ->. apply runs_ret. by constructor. }
  induction argv as [|arg argv IH]; intros input Hi; cbn [create_options]; [by apply runs_ret|].
  assert (forall off n v, 60 <= off -> names_end (store_le input off n v)) as Hst.
  { intros. eapply names_end_other; [exact Hi|]. intros a Ha. apply rd8_store_out. lia. }
  destruct (strip_prefix (chars "--size=") arg) as [size|]; [case_match; [apply Herr|by apply IH, Hst]|].
  destruct (strip_prefix (chars "--backend=") arg) as [backend|]; [repeat case_match; [by apply IH, Hst..|apply Herr]|].
  destruct (strip_prefix (chars "--file=") arg) as [path|].
  { destruct (utf8_to_wide path) as [w|]; [|apply Herr]. apply IH. eapply names_end_other; [exact Hi|]. intros a Ha.
    apply rd8_copy_out. unfold off_FilePath. lia. }
  destruct (strip_prefix (chars "--model=") arg) as [model|]; [by apply IH, names_end_model|].
  destruct (strip_prefix (chars "--serial=") arg) as [serial|]; [by apply IH, names_end_serial|apply Herr].
Qed.

Lemma CmdCreate_runs argv : runs exit_code (CmdCreate argv).
Proof.
  unfold CmdCreate. eapply runs_bind; [apply create_options_runs, default_controller_names|]. intros [input|] l Hl; cbv beta in Hl.
  2: { apply runs_ret. right. split; [done|]. by rewrite app_nil_r. }
  eapply runs_mono; [|intros; by apply exit_code_app]. destruct Hl as [H1 H2]. cbv beta zeta.
  assert (forall off size f, rd8 input (off + Z.of_nat size - 1) = 0 -> (0 < size)%nat ->
    runs (fun _ _ => True) (s ← array_arg input off size; printf f [s])) as Hname.
  { intros off size f H ?. eapply runs_array_arg; [|exact H|intros; apply runs_printf_last]. lia. }
  runs_all. eapply runs_then; [apply Hname; [exact H2|lia]|intros _]. eapply runs_then; [apply Hname; [exact H1|lia]|intros _]. runs_all.
  apply VnvmeHandleCreateController_safe.
Qed.

Lemma CmdDelete_runs argv : runs exit_code (CmdDelete argv).
Proof. destruct argv as [|id argv]; cbn [CmdDelete]; runs_all. apply VnvmeHandleDeleteController_safe. Qed.

Lemma CmdListNamespaces_runs argv : runs exit_code (CmdListNamespaces argv).
Proof.
  unfold CmdListNamespaces. runs_all; [apply quiet_safe, VnvmeHandleGetStats_quiet|]. unfold print_namespace_row. runs_all.
Qed.

Lemma CmdCreateNamespace_runs prog argv : runs exit_code (CmdCreateNamespace prog argv).
Proof. destruct argv as [|id argv]; cbn [CmdCreateNamespace]; runs_all. apply quiet_safe, VnvmeHandleCreateNamespace_quiet. Qed.

Lemma CmdDeleteNamespace_runs prog argv : runs exit_code (CmdDeleteNamespace prog argv).
Proof. destruct argv as [|id [|nsid argv]]; cbn [CmdDeleteNamespace]; runs_all. apply quiet_safe, VnvmeHandleDeleteNamespace_quiet. Qed.

Lemma CmdStats_runs argv : runs exit_code (CmdStats argv).
Proof.
  unfold CmdStats. runs_all; [apply quiet_safe, VnvmeHandleGetStats_quiet|..].
  - unfold print_controller_stats. runs_all.
  - unfold print_namespace_stats. runs_all.
Qed.

Lemma CmdDebug_runs prog argv : runs exit_code (CmdDebug prog argv).
Proof. destruct argv as [|level argv]; cbn [CmdDebug]; runs_all. apply quiet_safe, VnvmeHandleSetDebugLevel_quiet. Qed.

Lemma PrintUsage_runs prog : runs (fun _ _ => True) (PrintUsage prog).
Proof. unfold PrintUsage. runs_all. eapply runs_bind; [apply runs_text|intros _ ? _]. runs_all. Qed.

(** A test that fails has printed an error. *)
Lemma run_test_runs result test failure :
  runs exit_code test -> runs (fun code l => code = result \/ code = 1 /\ Exists is_error l) (run_test result test failure).
Proof.
  intros Ht. unfold run_test. eapply runs_bind; [exact Ht|]. intros code l Hl. cbv beta.
  destruct Hl as [->|[-> Hl]]; cbn [Z.eqb negb].
  - eapply runs_bind; [apply runs_bind with (P := fun _ _ => True) (Q := fun a _ => a = result); [apply runs_printf_last|intros; by apply runs_ret]|].
    intros r l1 ->. cbv beta. eapply runs_bind; [apply runs_print|]. intros _ l2 _. apply runs_ret. by left.
  - eapply runs_bind; [apply runs_bind with (P := fun _ _ => True) (Q := fun a _ => a = 1); [apply runs_printf_last|intros; by apply runs_ret]|].
    intros r l1 ->. cbv beta. eapply runs_bind; [apply runs_print|]. intros _ l2 _. apply runs_ret. right. split; [done|].
    apply Exists_app. by left.
Qed.
Lemma run_test_then result test failure k pre :
  exit_code result pre -> runs exit_code test ->
  (forall r pre', exit_code r pre' -> runs (fun c l => exit_code c (pre' ++ l)) (k r)) ->
  runs (fun c l => exit_code c (pre ++ l)) (run_test result test failure ≫= k).
Proof.
  intros Hr Ht Hk. eapply runs_bind; [by apply run_test_runs|]. intros r l Hl. cbv beta.
  assert (exit_code r (pre ++ l)) as Hrl.
  { destruct Hl as [->|[-> Hl]]; [by apply exit_code_before | by apply exit_code_app; right]. }
  eapply runs_mono; [by apply (Hk r _ Hrl)|]. intros c l'. by rewrite app_assoc.
Qed.

Lemma CmdTest_runs : runs exit_code CmdTest.
Proof.
  assert (forall (r : Z) pre (m : M Tool unit), exit_code r pre -> runs (fun _ _ => True) m -> runs (fun c l => exit_code c (pre ++ l)) (m;; mret r)) as Hlast.
  { intros r pre m Hr Hm. eapply runs_bind; [exact Hm|]. intros _ l _. by apply runs_ret, exit_code_before. }
  assert (forall pre (P : Z) (m : M Tool unit) (k : M Tool Z), runs (fun _ _ => True) m -> (forall pre', exit_code P pre' -> runs (fun c l => exit_code c (pre' ++ l)) k) ->
    exit_code P pre -> runs (fun c l => exit_code c (pre ++ l)) (m;; k)) as Hthen.
  { intros pre r m k Hm Hk Hr. eapply runs_bind; [exact Hm|]. intros _ l _.
    eapply runs_mono; [by apply (Hk (pre ++ l)), exit_code_before|]. intros c l'. by rewrite app_assoc. }
  unfold CmdTest. apply runs_printf. eapply runs_then; [apply runs_text|intros _].
  apply (run_test_then 0 _ _ _ []); [by left|apply CmdVersion_runs|]. intros r1 p1 H1.
  apply (Hthen _ r1); [apply runs_text| |done]. intros p1' H1'. apply run_test_then; [done|apply CmdStatus_runs|]. intros r2 p2 H2.
  apply (Hthen _ r2); [apply runs_text| |done]. intros p2' H2'. apply run_test_then; [done|apply CmdListControllers_runs|]. intros r3 p3 H3.
  apply (Hthen _ r3); [apply runs_printf_last| |done]. intros p3' H3'. apply Hlast; [done|apply runs_printf_last].
Qed.

(** C11: the tool and the driver together: whatever the words on the command line,
    and from every well-formed state of the driver, the tool ends with exit code
    0, or with 1 after it has printed an error message; nobody leaves an array: not
    the tool in the answers of the driver, whose counts may be larger than the
    arrays of controllers and namespaces it lists (the index stays below the size
    of the array), and whose names it prints as strings (they end inside of their
    arrays), nor the driver in the requests of the tool; the driver stays well
    formed, and the set of controllers changes only by the steps of the bus. *)
Theorem vnvmectl_safe (prog : list Z) (argv : list (list Z)) (t : Tool) :
  ctl_inv (tl_driver t) ->
  exists code t' l, vnvmectl_main prog argv t = Ok (code, t') /\ tl_out t' = tl_out t ++ l /\
    (code = 0 \/ code = 1 /\ Exists is_error l) /\ ctl_inv (tl_driver t') /\ bus_steps (tool_bus t) (tool_bus t').
Proof.
  intros Ht. enough (runs exit_code (vnvmectl_main prog argv)) as H.
  { destruct (wp_elim _ _ _ (H t Ht)) as (code & t' & E & l & ?). by exists code, t', l. }
  unfold vnvmectl_main. destruct argv as [|command argv]; [eapply runs_then; [apply PrintUsage_runs|intros _; apply runs_success]|]. cbv zeta.
  repeat case_match; eauto using CmdVersion_runs, CmdStatus_runs, CmdListControllers_runs, CmdCreate_runs, CmdDelete_runs, CmdListNamespaces_runs,
    CmdCreateNamespace_runs, CmdDeleteNamespace_runs, CmdStats_runs, CmdDebug_runs, CmdTest_runs.
  - eapply runs_then; [apply PrintUsage_runs|intros _; apply runs_success].
  - eapply runs_bind; [apply runs_print|]. intros _ l ->. eapply runs_bind; [apply PrintUsage_runs|]. intros _ l' _. apply runs_ret.
    right. split; [done|]. by constructor.
Qed.
(** ** Creating and deleting a namespace *)

Lemma OpenVnvmeDevice_run (t : Tool) :
  fb_ControlDevice (bs_bus (tool_bus t)) = true -> control_handle <> INVALID_HANDLE_VALUE -> OpenVnvmeDevice t = Ok (control_handle, t).
Proof.
  intros Hd Hh. destruct t as [d o]. unfold tool_bus in Hd. unfold OpenVnvmeDevice. rewrite bind_get. cbn [OpenDevice ctl_device driver_device tl_driver] in *.
  rewrite Hd, bind_modify, (proj2 (Z.eqb_neq _ _)) by done. done.
Qed.

Lemma printf_run {A} format args (k : M Tool A) t : (printf format args;; k) t = k (t <| tl_out ::= fun out => out ++ [Out format args] |>).
Proof. done. Qed.

(** A request to an open device. *)
Lemma with_device_run failure code input insize outsize k (t : Tool) r s' :
  fb_ControlDevice (bs_bus (tool_bus t)) = true -> control_handle <> INVALID_HANDLE_VALUE ->
  VnvmeEvtIoDeviceControl userAddress (request_of insize outsize) code ((tl_driver t) <| ct_mem := mem_copy fresh 0 input 0 insize |>) = Ok (r, s') ->
  with_device failure code input insize outsize k t =
    (if NT_SUCCESS r.1 then k (mem_copy mem_zero 0 (ct_mem s') 0 r.2) else (print_error failure [];; mret 1)) (mkTool (D := ctl_device) s' (tl_out t)).
Proof.
  intros Hd Hh E. unfold with_device. rewrite (bind_Ok _ _ _ _ _ (OpenVnvmeDevice_run t Hd Hh)), (proj2 (Z.eqb_neq _ _)), bind_get by done.
  cbn [DeviceIoControl ctl_device driver_device]. unfold driver_ioctl. rewrite Z.eqb_refl. cbn [negb].
  rewrite E, (bind_res _ _ _ _ eq_refl), bind_modify. destruct t as [d o]. by destruct (NT_SUCCESS r.1).
Qed.
(** The request of ns-create with a size. *)
Definition size_option (size : list Z) : list Z := chars "--size=" ++ size.
Definition namespace_request (id : list Z) (size : list Z) : mem :=
  store_le (store_all [(0, 4%nat, u32 (atoi id)); (16, 4%nat, 512); (8, 8%nat, 64 * 1024 * 1024 / 512); (20, 4%nat, VNVME_NS_FLAG_ENABLED)] mem_zero)
    8 8 (ParseSizeString size / 512).

Lemma ParseSizeString_range size : 0 <= ParseSizeString size < 2 ^ 64.
Proof. unfold ParseSizeString. repeat case_match; try apply u64_range. done. Qed.

Lemma namespace_request_fields id size : let m := namespace_request id size in
  load_le m 0 4 = u32 (atoi id) /\ load_le m 8 8 = ParseSizeString size / 512 /\ load_le m 16 4 = 512.
Proof.
  pose proof (ParseSizeString_range size). pose proof (u32_range (atoi id)). unfold namespace_request, store_all. cbn [fold_left fst snd].
  split_and!; [|apply load_store_le_small; Z.to_euclidean_division_equations; lia|].
  - rewrite !load_store_le_other by lia. apply load_store_le_small. lia.
  - rewrite 3!load_store_le_other by lia. by apply load_store_le_small.
Qed.

Lemma CmdCreateNamespace_eq prog id size :
  vnvmectl_main prog [chars "ns-create"; id; size_option size] =
    (let input := namespace_request id size in
     printf "Creating namespace on controller %u (blocks: %llu, block size: %u)...\n"
       [AInt (load_le input 0 4); AInt (load_le input 8 8); AInt (load_le input 16 4)];;
     with_device "Error: IOCTL_VNVME_CREATE_NAMESPACE failed (Error: %lu)\n" IOCTL_VNVME_CREATE_NAMESPACE
       input sizeof_VNVME_CREATE_NAMESPACE_INPUT sizeof_VNVME_CREATE_NAMESPACE_OUTPUT (fun output =>
       printf "Namespace created successfully. NSID: %u\n" [AInt (load_le output 0 4)];;
       mret 0)).
Proof.
  change (vnvmectl_main prog _) with (CmdCreateNamespace prog [id; size_option size]). cbn [CmdCreateNamespace namespace_options]. cbv zeta.
  set (base := store_all _ _). unfold size_option. rewrite strip_prefix_app.
  assert (load_le base 16 4 = 512) as -> by (subst base; unfold store_all; cbn [fold_left fst snd]; rewrite 2!load_store_le_other by lia; by apply load_store_le_small).
  done.
Qed.

(** The driver when the tool's request arrives. *)
Definition requested (t : Tool) (input : mem) (insize : Z) : CtrlState := (tl_driver t) <| ct_mem := mem_copy fresh 0 input 0 insize |>.

Lemma requested_arg t input insize outsize off n :
  0 <= off -> off + Z.of_nat n <= insize -> arg (request_of insize outsize) (requested t input insize) off n = load_le input off n.
Proof.
  intros. unfold arg, requested. cbn [request_of rq_Input]. destruct (tl_driver t). unset. rewrite load_copy_in by lia. f_equal. lia.
Qed.

Lemma requested_ready t input insize : 0 < insize -> is_Some (bs_fdo (tool_bus t)) ->
  forall outsize, in_ready (request_of insize outsize) insize (requested t input insize).
Proof.
  intros H1 H2. split; [by unfold requested, tool_bus in *; destruct (tl_driver t)|done|]. unfold request_of, buffer_status. cbn. by rewrite (proj2 (Z.ltb_lt _ _)).
Qed.
(** ns-delete with the id that ns-create answered. *)
Lemma CmdDeleteNamespace_undoes prog id nsid (t : Tool) rq s s' n i p :
  ctl_inv s -> ready rq sizeof_VNVME_CREATE_NAMESPACE_INPUT sizeof_VNVME_CREATE_NAMESPACE_OUTPUT s ->
  CtrlDevFindController (arg rq s 0 4) (ct_bus s) = Some i -> bs_children (ct_bus s) !! i = Some p ->
  VnvmeHandleCreateNamespace rq s = Ok ((STATUS_SUCCESS, n), s') -> load_le (ct_mem s') (rq_Output rq) 4 = nsid ->
  0 <= nsid < 2 ^ 31 -> arg rq s 0 4 = u32 (atoi id) ->
  tool_bus t = ct_bus s' -> fb_ControlDevice (bs_bus (tool_bus t)) = true -> is_Some (bs_fdo (tool_bus t)) -> control_handle <> INVALID_HANDLE_VALUE ->
  exists t2 p2, vnvmectl_main prog [chars "ns-delete"; id; numeral nsid] t = Ok (0, t2) /\
    bs_children (tool_bus t2) = <[i := p2]> (bs_children (ct_bus s)) /\ active_namespaces p2 = active_namespaces p /\
    pdo_NamespaceCount p2 = pdo_NamespaceCount p /\ free_slot (pdo_Namespaces p2) = free_slot (pdo_Namespaces p).
Proof.
  intros Hs R Hi Hp E Hout Hn Hid Hbus Hd Hf Hh. change (vnvmectl_main prog _) with (CmdDeleteNamespace prog [id; numeral nsid]).
  cbn [CmdDeleteNamespace]. rewrite atoi_numeral, (u32_small nsid) by lia. cbv zeta. rewrite printf_run.
  set (input := store_all _ mem_zero). set (t1 := t <| tl_out ::= _ |>).
  assert (tool_bus t1 = tool_bus t) as Ht1 by by destruct t. rewrite <- Ht1 in Hbus, Hd, Hf.
  pose proof (u32_range (atoi id)) as Hr.
  assert (arg (request_of 8 0) (requested t1 input 8) 0 4 = arg rq s 0 4) as A1.
  { rewrite requested_arg, Hid by lia. unfold input, store_all. cbn [fold_left fst snd]. rewrite load_store_le_other by lia. by apply load_store_le_small. }
  assert (arg (request_of 8 0) (requested t1 input 8) 4 4 = load_le (ct_mem s') (rq_Output rq) 4) as A2.
  { rewrite requested_arg, Hout by lia. unfold input, store_all. cbn [fold_left fst snd]. apply load_store_le_small. lia. }
  destruct (namespace_create_delete rq (request_of 8 0) s s' (requested t1 input 8) n i p Hs R Hi Hp E) as (s'' & p2 & E2 & H); [|by apply requested_ready|done..|].
  { rewrite <- Hbus. unfold requested, tool_bus. by destruct (tl_driver t1). }
  erewrite with_device_run; [|done|done|exact E2]. cbn [fst snd NT_SUCCESS]. eexists _, p2. split; [reflexivity|]. exact H.
Qed.

Lemma check_blocks blocks : 0 < blocks <= 2 ^ 35 -> check_namespace_config 512 blocks = None.
Proof.
  intros Hb. unfold check_namespace_config. cbn [Z.eqb negb andb orb Pos.eqb]. rewrite (proj2 (Z.eqb_neq _ _)) by lia. cbv zeta.
  rewrite u64_small, Z.div_mul, Z.eqb_refl by (change VNVME_BLOCK_SIZE_512 with 512; lia). cbn [negb].
  by rewrite (proj2 (Z.ltb_ge _ _)) by (change VNVME_MAX_NAMESPACE_CAPACITY with (2 ^ 44); lia).
Qed.

(** C18: creating and deleting a namespace from the command line: [ns-create] with
    the id of a controller that is not full, and a size of 1 to 2^35 blocks of 512
    bytes, exits with 1 and leaves the active namespaces and their count alone when
    the driver finds no storage; otherwise it exits with 0, the first free slot
    holds an active namespace of that many blocks, its last line prints the id,
    one more than the slot, and [ns-delete] with the printed number succeeds and
    leaves the controller with the active namespaces, the count and the free slot
    it had at first. *)
Theorem vnvmectl_namespace (prog id size : list Z) (t : Tool) (i : nat) (p : VNVME_PDO_CONTEXT) :
  let blocks := ParseSizeString size / 512 in
  ctl_inv (tl_driver t) -> fb_ControlDevice (bs_bus (tool_bus t)) = true -> is_Some (bs_fdo (tool_bus t)) -> control_handle <> INVALID_HANDLE_VALUE ->
  CtrlDevFindController (u32 (atoi id)) (tool_bus t) = Some i -> bs_children (tool_bus t) !! i = Some p ->
  pdo_NamespaceCount p < VNVME_MAX_NAMESPACES -> 0 < blocks <= 2 ^ 35 ->
  exists code t1 p1, vnvmectl_main prog [chars "ns-create"; id; size_option size] t = Ok (code, t1) /\
    bs_children (tool_bus t1) = <[i := p1]> (bs_children (tool_bus t)) /\
    ((code = 1 /\ active_namespaces p1 = active_namespaces p /\ pdo_NamespaceCount p1 = pdo_NamespaceCount p) \/
     (code = 0 /\ exists slot ns, free_slot (pdo_Namespaces p) = Some slot /\
       pdo_Namespaces p1 = <[slot := ns]> (pdo_Namespaces p) /\ pdo_NamespaceCount p1 = pdo_NamespaceCount p + 1 /\
       ns_Active ns = true /\ ns_NsId ns = Z.of_nat slot + 1 /\ ns_TotalBlocks ns = blocks /\ ns_BlockSize ns = 512 /\
       last (tl_out t1) = Some (Out "Namespace created successfully. NSID: %u\n" [AInt (Z.of_nat slot + 1)]) /\
       exists t2 p2, vnvmectl_main prog [chars "ns-delete"; id; numeral (Z.of_nat slot + 1)] t1 = Ok (0, t2) /\
         bs_children (tool_bus t2) = <[i := p2]> (bs_children (tool_bus t)) /\ active_namespaces p2 = active_namespaces p /\
         pdo_NamespaceCount p2 = pdo_NamespaceCount p /\ free_slot (pdo_Namespaces p2) = Some slot)).
Proof.
  intros blocks Hs Hd Hf Hh Hi Hp Hlt Hb. rewrite CmdCreateNamespace_eq. cbv zeta. rewrite printf_run.
  set (line := Out _ _). set (t0 := t <| tl_out ::= _ |>). set (input := namespace_request id size).
  destruct (namespace_request_fields id size) as (F1 & F2 & F3). fold input blocks in F1, F2, F3.
  assert (tool_bus t0 = tool_bus t /\ tl_driver t0 = tl_driver t) as [Ht0 Ht0'] by by destruct t.
  set (s0 := requested t0 input 284). set (rq := request_of 284 8).
  assert (ct_bus s0 = tool_bus t) as Eb by (unfold s0, requested; rewrite Ht0'; unfold tool_bus; by destruct (tl_driver t)).
  assert (ctl_inv s0) as Hs0 by (unfold ctl_inv; rewrite Eb; exact Hs).
  assert (ready rq sizeof_VNVME_CREATE_NAMESPACE_INPUT sizeof_VNVME_CREATE_NAMESPACE_OUTPUT s0) as R.
  { split; [|done|done]. apply requested_ready; [done|by rewrite Ht0]. }
  assert (arg rq s0 0 4 = u32 (atoi id) /\ arg rq s0 8 8 = blocks /\ arg rq s0 16 4 = 512) as (A1 & A2 & A3).
  { unfold s0, rq. rewrite !requested_arg by lia. done. }
  assert (check_namespace_config (arg rq s0 16 4) (arg rq s0 8 8) = None) as Hc by by rewrite A2, A3; apply check_blocks.
  assert (CtrlDevFindController (arg rq s0 0 4) (ct_bus s0) = Some i) as Hi0 by by rewrite A1, Eb.
  assert (bs_children (ct_bus s0) !! i = Some p) as Hp0 by by rewrite Eb.
  pose proof (child_at _ _ _ Hs0 Hp0) as Hpi. pose proof (active_bound _ Hpi) as Hact.
  destruct (create_request_result rq s0 i p Hs0 R Hi0 Hp0 Hc Hlt) as (slot & old & r & s1 & Hfree & Hold & Ho & Hns & E & H).
  set (ns := new_namespace _ _ _ _) in *. pose proof (lookup_lt_Some _ _ _ Hold) as Hslot.
  assert (length (pdo_Namespaces p) = 16%nat) as Hlen by apply Hpi.
  erewrite with_device_run; [|by rewrite Ht0|done|exact E]. rewrite <- Eb.
  destruct H as [(H1 & _ & Hs1)|(d & -> & _ & Hs1)].
  - rewrite H1. eexists _, _, (ns_set slot ns p). split; [reflexivity|]. split; [|left; split_and!; [done| |done]].
    + unfold tool_bus. cbn [tl_driver]. rewrite Hs1. by destruct s0 as [[] ?].
    + eapply active_idle; [done..|apply Hns].
  - cbn [fst snd NT_SUCCESS]. set (new := ns <| ns_Storage := Some d |>) in *.
    assert (load_le (ct_mem s1) (rq_Output rq) 4 = Z.of_nat slot + 1) as Hans.
    { rewrite Hs1. unset. unfold store_all. cbn [fold_left fst snd]. rewrite load_store_le_other by lia. apply load_store_le_small. lia. }
    assert (fb_ControlDevice (bs_bus (ct_bus s1)) = true /\ is_Some (bs_fdo (ct_bus s1))) as [Hd1 Hf1].
    { rewrite Hs1. rewrite <- Eb in Hd, Hf. by destruct s0 as [[] ?]. }
    eexists _, _, (add_namespace slot new p). split; [reflexivity|]. split; [|right; split; [done|]].
    { unfold tool_bus. cbn [tl_driver]. rewrite Hs1. by destruct s0 as [[] ?]. }
    exists slot, (new <| ns_Active := true |>). split_and!; [done|done|unfold add_namespace, VNVME_MAX_NAMESPACES in *; unset; apply u16_small; lia|done| | | | |].
    + apply Hns.
    + unfold new, ns. unset. exact A2.
    + unfold new, ns, new_namespace. unset. by rewrite A3.
    + change sizeof_VNVME_CREATE_NAMESPACE_OUTPUT with 8. rewrite load_copy_in by lia. change (0 + (0 - 0)) with (rq_Output rq). rewrite Hans.
      unset. by rewrite last_snoc.
    + rewrite <- Hfree. eapply (CmdDeleteNamespace_undoes prog id _ _ rq s0 s1 _ i p); try done. lia.
Qed.
End CtlLink.

(** ** Witnesses *)

#[local] Existing Instances TestKernel TestFramework.

(** A system where everything works, and every character is one of ASCII. *)
#[local] Instance TestSystem : CtlSystem := {
  strdup_ok _ := true;
  utf8_to_wide s := if Z.of_nat (length s) <? 260 then Some (s ++ [0]) else None;
  GetLastError _ := 5;
}.
#[local] Instance TestSystemLaws : CtlSystemLaws TestSystem.
Proof.
  split. intros s w. change (utf8_to_wide s) with (if Z.of_nat (length s) <? 260 then Some (s ++ [0]) else None).
  destruct (Z.ltb_spec (Z.of_nat (length s)) 260); [|done]. intros [= <-]. rewrite length_app. change (length [0]) with 1%nat. lia.
Qed.

#[local] Instance sample_device : ControlDevice := ctl_device 0x10000 4 mem_zero.
Definition sample_tool : Tool := mkTool (D := sample_device) sample_ctrl [].

Lemma exit_zero (r : res (Z * Tool (D := sample_device))) code t :
  r = Ok (code, t) -> match r with Ok (code, _) => code = 0 | _ => False end -> code = 0.
Proof. by intros ->. Qed.

Lemma create_run :
  match vnvmectl_main (chars "vnvmectl") [chars "create"; chars "--size=1G"; chars "--serial=AB"] sample_tool with Ok (code, _) => code = 0 | _ => False end.
Proof. by vm_compute. Qed.

Lemma vnvmectl_safe_witness : exists t', vnvmectl_main (chars "vnvmectl") [chars "create"; chars "--size=1G"; chars "--serial=AB"] sample_tool = Ok (0, t') /\
  ctl_inv (tl_driver t').
Proof.
  destruct (vnvmectl_safe 0x10000 4 mem_zero (chars "vnvmectl") [chars "create"; chars "--size=1G"; chars "--serial=AB"] sample_tool sample_inv)
    as (code & t' & l & E & _ & _ & Hinv & _).
  exists t'. split; [|exact Hinv]. pose proof (exit_zero _ _ _ E create_run). subst code. exact E.
Defined.

Lemma namespace_run :
  match vnvmectl_main (chars "vnvmectl") [chars "ns-create"; chars "1"; size_option (chars "64K")] sample_tool with Ok (code, _) => code = 0 | _ => False end.
Proof. by vm_compute. Qed.

Lemma sample_size : ParseSizeString (chars "64K") / 512 = 128.
Proof. by vm_compute. Qed.

Lemma sample_tool_ready : fb_ControlDevice (bs_bus committed_bus) = true /\ is_Some (bs_fdo committed_bus).
Proof. split; [by vm_compute|by eexists]. Qed.

(** The first namespace of the sample controller, and its deletion. *)
Lemma vnvmectl_namespace_witness :
  exists t1 p1, vnvmectl_main (chars "vnvmectl") [chars "ns-create"; chars "1"; size_option (chars "64K")] sample_tool = Ok (0, t1) /\
    bs_children (ct_bus (tl_driver t1)) = [p1] /\ pdo_NamespaceCount p1 = 1 /\
    exists t2 p2, vnvmectl_main (chars "vnvmectl") [chars "ns-delete"; chars "1"; numeral 1] t1 = Ok (0, t2) /\
      bs_children (ct_bus (tl_driver t2)) = [p2] /\ pdo_NamespaceCount p2 = 0.
Proof.
  destruct sample_tool_ready as [Hd Hf].
  assert (0 < ParseSizeString (chars "64K") / 512 <= 2 ^ 35) as Hb by (rewrite sample_size; lia).
  destruct (vnvmectl_namespace 0x10000 4 mem_zero (chars "vnvmectl") (chars "1") (chars "64K") sample_tool 0 (new_pdo 1) sample_inv Hd Hf
    ltac:(discriminate) sample_found sample_child ltac:(reflexivity) Hb) as (code & t1 & p1 & E & Hch & H).
  pose proof (exit_zero _ _ _ E namespace_run). subst code. exists t1, p1. split; [exact E|].
  split; [exact (eq_trans Hch (f_equal <[0%nat := p1]> sample_children))|].
  destruct H as [[H _]|(_ & slot & ns & Hslot & _ & Hc & _ & _ & _ & _ & _ & t2 & p2 & E2 & Hch2 & _ & Hc2 & _)]; [discriminate H|].
  split; [exact Hc|]. injection Hslot as <-. exists t2, p2. split; [exact E2|]. split; [exact (eq_trans Hch2 (f_equal <[0%nat := p2]> sample_children))|exact Hc2].
Defined.
